(* ===== verification/_CoqProject ===== *)
-Q . S2P
Prelude.v
EndianConv.v
LinkedList.v
XorShift.v
SocketTimer.v
EPath.v
CipStrings.v
CipTypes.v
CipCodec.v
CipClasses.v
CipServices.v
Identity.v
Assembly.v
MessageRouter.v
ConnRecord.v
ConnObject.v
ConnList.v
AppConType.v
IoClose.v
EncapData.v
Cpf.v
Encap.v
ConnPath.v
ConnService.v
IoOpen.v
IoData.v
ConnTimer.v
ConnOpen.v
ConnClose.v
NetObject.v
Qos.v
TcpIp.v
EthLink.v
Dlr.v
NetHandler.v
NetInit.v
NvData.v
PosixConfig.v
WinConfig.v
StackInit.v
PosixMain.v
Stm32.v
EndToEnd.v
