(* ===== verification/Prelude.v ===== *)
(** * OpENer in Rocq

    OpENer is an EtherNet/IP adapter stack in C.  This library is a shallow
    embedding of its protocol core; paths below are under [src/source/src].

    The parts and how they interact.  The network handler of
    [ports/generic_networkhandler.c] (file [NetHandler]) runs in cycles: it cuts TCP
    streams into messages, reads datagrams, and calls the connection manager's timer
    ([ConnTimer]) with the time that has passed.  A TCP or UDP message enters
    [enet_encap/encap.c] (file [Encap]), which reads the encapsulation header
    ([EncapData]), keeps the sessions, and gives the payload of SendRRData and
    SendUnitData to the common packet format of [enet_encap/cpf.c] ([Cpf]). That
    layer parses the address and data items, finds the class 3 connection of a
    connected message in the connection list of [cip/cipconnectionmanager.c] and
    [cip/cipclass3connection.c] ([ConnList]), and hands the request to the message
    router of [cip/cipmessagerouter.c] ([MessageRouter]), which finds class,
    instance and service ([CipClasses]) and runs a common service of
    [cip/cipcommon.c] ([CipServices]); attribute values travel through its encoders
    and decoders ([CipCodec]).  The reply takes the same way back into an
    [ENIPMessage] ([EndianConv]).  The connection manager is one of the classes the
    router reaches ([ConnService]): a Forward Open decodes the connection object
    ([ConnObject]), parses its path ([ConnPath]), and calls the open function of the
    target, which is [EstablishClass3Connection] ([ConnList]) or
    [EstablishIoConnection] ([IoOpen]).  I/O data travel between UDP datagrams and
    assembly objects ([IoData], [Assembly]); the timer watches the connections and lets
    them produce.  The objects of the network ([Qos], [TcpIp], [EthLink], [Dlr]) are classes
    the router reaches, too; [NetObject] holds what they share.  [StackInit] puts the parts
    together at start-up, [NvData] keeps the QoS object's values over a restart.  [NetInit]
    opens the sockets, [PosixConfig] and [WinConfig] read the network configuration of the
    host, [PosixMain] and [Stm32] are the programs that join all this to a device, and
    [EndToEnd] follows one request through every layer.

    - [Prelude]: widths, little-endian byte lists, memory reads, tactics.
    - [EndianConv]: [enet_encap/endianconv.c], [utils/enipmessage.c].
    - [LinkedList]: [utils/doublylinkedlist.c] on a store of nodes, against a
      typeclass of node allocators that the static array of
      [cip/cipconnectionobject.c] instantiates.
    - [XorShift], [SocketTimer]: [utils/xorshiftrandom.c], [utils/random.c],
      [ports/socket_timer.c].
    - [EPath]: [cip/cipepath.c], [cip/cipelectronickey.c].
    - [CipStrings]: [cip/cipstring.c], [cip/cipstringi.c].
    - [CipTypes], [CipCodec], [CipClasses], [CipServices], [MessageRouter]:
      [cip/ciptypes.c], [cip/cipcommon.c], [cip/cipmessagerouter.c].
    - [ConnRecord], [ConnObject]: [cip/cipconnectionobject.c] and its header.
    - [Identity], [Assembly]: [cip/cipidentity.c], [cip/cipassembly.c].
    - [ConnList]: searches over the connection list, class 3 connections.
    - [AppConType]: [cip/appcontype.c], the connection points and the choice of
      the connection object; [IoClose], [IoOpen], [IoData]:
      [cip/cipioconnection.c], closing, opening, sending and receiving.
    - [ConnTimer]: [ManageConnections] and [TriggerConnections] of
      [cip/cipconnectionmanager.c], the time-out function of [cip/cipioconnection.c].
    - [ConnPath], [ConnService]: [cip/cipconnectionmanager.c], the path parser and
      the services of the connection manager; [ConnOpen] and [ConnClose] hold the
      theorems about opening, and about closing and querying, connections.
    - [EncapData], [Cpf], [Encap]: [enet_encap/].
    - [NetObject], [Qos], [TcpIp], [EthLink], [Dlr]: an instance as a table of attributes,
      and [cip/cipqos.c], [cip/ciptcpipinterface.c], [cip/cipethernetlink.c],
      [cip/cipdlr.c] as such tables.
    - [NetHandler]: [ports/generic_networkhandler.c].
    - [NvData]: [ports/nvdata/].
    - [StackInit]: [CipStackInit] and [ShutdownCipStack] of [cip/cipcommon.c],
      [DeleteAllClasses] of [cip/cipmessagerouter.c], and the application of
      [ports/POSIX/sample_application/sampleapplication.c].
    - [NetInit]: [NetworkHandlerInitialize], [CreateUdpSocket] and [SetQos] of
      [ports/generic_networkhandler.c], with the calls of [ports/POSIX/networkhandler.c].
    - [PosixConfig], [WinConfig]: [ports/POSIX/networkconfig.c], [ports/WIN32/networkconfig.c].
    - [PosixMain], [Stm32]: [ports/POSIX/main.c]; [opener.c] and [networkconfig.c] of the
      STM32 port.
    - [EndToEnd]: theorems about a request from the socket to the attribute and back.

    State.  The global variables of a component are a record that its operations
    take and return: [CipStack] is the list behind [g_first_object] with the data
    objects of attributes, [ConnManager] is [connection_list] with its nodes and the
    pools of connection objects, [World] adds [g_common_packet_format_data_item],
    and [Encapsulation] adds the sessions, socket timers and delayed messages of
    [encap.c] with the sockets closed and the datagrams sent.  [NetworkHandler] puts the
    state of the operating system, the socket sets and the clock's readings around it;
    sockets the device opened and closed are read off its records ([follow]).  Pointers are indices
    into these states, or, for input that is only read, the list of bytes from the
    position on; the end of the list is the end of the buffer, and reading past it
    is a fault.

    Results.  A computation of type [option A] is [None] where the C program leaves
    its defined behaviour: access outside an object, NULL dereference, a failed
    [OPENER_ASSERT], a shift past the width.  Error returns of the code
    ([EipStatus], CIP general status) are values.  Integers are [Z], wrapped to
    their width where the C type wraps.

    Parameters.  Application callbacks and services of objects outside the model
    ([Application], [AssemblyApplication], [RunIdleApplication]), the socket layer
    ([IoPlatform]), [rand()] (a list of draws), the clock and the peer address of a
    socket are arguments.  The network handler's system calls are the interface
    [OperatingSystem], the functions registered with it [TimeoutCheckers]; the theorem about
    TCP assumes of [recv] what is documented ([tcp_stream]).  The files of [NvData] are the
    interface [FileSystem]; the theorem about restarts assumes that a file keeps what was
    written and closed without an error ([files_keep_text]).  The calls on sockets at start-up
    are the interface [SocketCalls], what they do to a socket when they succeed is
    [documented]; the system calls and files of the configuration are [PosixSystem],
    [WindowsSystem] and [LwIp]; [Signals] gives the signals delivered so far and [RealTime] the
    calls of the real-time build.  Build options are arguments of
    the definitions they change ([settable], [big_endian], [instance_cnt],
    [label_option], [iface_ctrl]).  Function pointers of connections are numbers; the
    interfaces [ConnectionCallbacks] and [OpenFunctions] say what a number calls,
    and [io_callbacks] and [io_open] are the device's own instances.  [Router] is
    the interface between [Cpf] and the message router: the theorems about packets
    are proved for any router, and [cip_router] is its instance.

    What the theorems show.  Round trips of integers, path segments, padded paths,
    strings and attributes; the list operations refine lists and keep the links
    consistent; instance numbering and attribute tables keep their invariants under
    creation, deletion and insertion; each common service has its result on every
    branch; requests are parsed and routed as declared; Forward Open data are
    decoded field by field; class 3 connections open and close with the list
    invariant kept, and a Forward Open or Forward Close has exactly the reply and
    the effect on the list that is stated; an I/O connection is closed with the
    listeners that depend on it, or hands its producer over; the identity's status
    word and the assemblies keep their invariants; a packet's reply has exactly the
    bytes and lengths of its parts, a connected request is executed once; sessions
    are registered, refused and cleaned up as stated.  A datagram of I/O data carries the
    assembly's bytes into the assembly at the other end; every connection is visited once in
    a tick, times out after the last packet when it should, and produces at its rate.  The
    checks of addresses and names are equivalent to specifications without loops or
    pointers, and the network objects return and take exactly the stated bytes.  The network
    handler cuts a TCP stream at the message boundaries, serves every open socket in a cycle
    and loses no time, nor does the event loop as a whole: what the connection manager is given
    and what is carried over add up to the time of the clock.  At start-up every class is registered
    once, with its attributes and services and the device's values; stored QoS values are
    loaded again, and a file is taken over as a whole or not at all.  The start of the network
    handler succeeds with three sockets that are bound, listening and not blocking as documented,
    or fails and leaves none in use; the configuration is read from the routing table and
    from [resolv.conf] as specifications on their lines say; the set-up gives the device the
    stack, the address and the stored values.  The event loop is a transition system with one
    cycle per step; it stops at a signal or an error.  The exit code is -2 exactly when the
    real-time build cannot get its thread, and else tells the last closing signal; the shutdown closes every connection and session and removes every class.  A Get Attribute
    Single that arrives in a TCP stream is answered on the same socket with the attribute's
    bytes.  A group of theorems states
    where the code does not do what it means to: reads past the end of a message,
    sessions cleaned up under a wrong number, loops that do not end.

    Bounds and fuel.  Loops whose recursion is not structural run on fuel.  The
    bound is given with each: [close_depth] allows two nested close calls,
    [loop_fuel] is one more than the nine nodes of the connection array,
    [timer_fuel] one more than the timers, path decoding has one step per declared
    word, the search for a free instance number one step per instance; [socket_fuel] covers
    all sockets a socket set can hold, and the loop that drops a message is given one step
    per byte by the theorem that it ends; the lines of a file, the rows of the routing table and
    the turns of a waiting loop are counted by the text, the table and the time-out.  The event
    loop is meant to run until a signal: its fuel counts cycles, and the theorem holds
    for any number of them.  The theorems
    show the loops end within it, or, where the code loops for ever, that no fuel
    suffices.

    Configuration.  The constants of [opener_user_conf.h] are those of the POSIX
    sample application: six explicit connections, 20 sessions, messages of 512
    bytes, a timer tick of 10 ms.

    Not modelled.  Memory allocation is assumed to succeed, as the code asserts.
    [CipStringIDelete] passes the address of a pointer member to the clearing
    functions, which has no defined meaning.  The Ethernet link counters are left out:
    the option does not compile.  The class of the TCP/IP object is that of the default
    build; with settable attributes its decoders are functions on the object.  The fuzzing
    build of the main program replaces the sockets by the standard input.  The main programs for
    Windows differ from the one modelled in [PosixMain] in the signals and in the thread of the
    real-time build; [ports/MINGW/networkconfig.c] repeats the file of [WIN32].  The sample
    applications of the other ports repeat the one of POSIX, their network handlers are single
    system calls.  Board support of the STM32 port, tracing and the unit tests are no part of
    the protocol. *)

From Stdlib Require Import ZArith Lia.
From stdpp Require Export base list gmap option.
From stdpp Require Export numbers.

(** ** Scope and notation

    A computation of type [option A] is a piece of C code: [None] stands for
    leaving the defined behaviour of the program (an access outside a memory
    object, a NULL dereference, a failed [OPENER_ASSERT], [exit]); [Some a] is
    a normal return.  Sequencing is stdpp's [x ← e; k]. *)

Global Open Scope Z_scope.

Declare Scope c_scope.
Delimit Scope c_scope with c.
Notation "'assert!' b ; k" := (if (b : bool) then k else None)
  (at level 100, b at level 99, k at level 200, right associativity) : c_scope.
Infix ".|" := Z.lor (at level 52, left associativity) : c_scope.
Infix ".&" := Z.land (at level 51, left associativity) : c_scope.
Global Open Scope c_scope.

(** ** Machine integers

    A C integer of width [w] is a [Z]; conversion to an unsigned type reduces
    modulo [2^w], conversion to a signed type takes the representative in
    [[-2^(w-1), 2^(w-1))]. *)

Definition u8 (z : Z) : Z := z mod 256.
Definition u16 (z : Z) : Z := z mod 65536.
Definition u32 (z : Z) : Z := z mod 4294967296.
Definition u64 (z : Z) : Z := z mod 18446744073709551616.
Definition s8 (z : Z) : Z := (z + 128) mod 256 - 128.
Definition s16 (z : Z) : Z := (z + 32768) mod 65536 - 32768.
Definition s32 (z : Z) : Z := (z + 2147483648) mod 4294967296 - 2147483648.
Definition s64 (z : Z) : Z :=
  (z + 9223372036854775808) mod 18446744073709551616 - 9223372036854775808.

Definition is_u8 (z : Z) : Prop := 0 <= z < 256.
Definition is_u16 (z : Z) : Prop := 0 <= z < 65536.
Definition is_u32 (z : Z) : Prop := 0 <= z < 4294967296.
Definition is_u64 (z : Z) : Prop := 0 <= z < 18446744073709551616.

(** A byte string is well formed when every element is a byte. *)
Definition bytes (bs : list Z) : Prop := Forall is_u8 bs.

Lemma bytes_nil : bytes []. Proof. constructor. Qed.
Lemma bytes_cons b p : bytes (b :: p) ↔ is_u8 b ∧ bytes p.
Proof. unfold bytes. apply Forall_cons_iff. Qed.
Lemma bytes_app p q : bytes (p ++ q) ↔ bytes p ∧ bytes q.
Proof. apply Forall_app. Qed.
Lemma bytes_take n p : bytes p → bytes (take n p).
Proof. apply Forall_take. Qed.
Lemma bytes_drop n p : bytes p → bytes (drop n p).
Proof. apply Forall_drop. Qed.
Lemma bytes_replicate n b : is_u8 b → bytes (replicate n b).
Proof. apply Forall_replicate. Qed.

Create HintDb opener.

Ltac unfold_width :=
  unfold u8, u16, u32, u64, s8, s16, s32, s64, is_u8, is_u16, is_u32, is_u64 in *.

(** [width_lia] closes arithmetic goals that mention the conversions. *)
Ltac width_lia := unfold_width; Z.div_mod_to_equations; lia.

(** Destruct every [match]/[if] scrutinee of the goal, keeping equations. *)
Ltac case_goal :=
  repeat (case_match; simplify_eq/=; try done).

Lemma u8_range z : is_u8 (u8 z).
Proof. width_lia. Qed.
Lemma u16_range z : is_u16 (u16 z).
Proof. width_lia. Qed.
Lemma u32_range z : is_u32 (u32 z).
Proof. width_lia. Qed.
Lemma u64_range z : is_u64 (u64 z).
Proof. width_lia. Qed.

Lemma u8_id z : is_u8 z → u8 z = z.
Proof. apply Z.mod_small. Qed.
Lemma u16_id z : is_u16 z → u16 z = z.
Proof. apply Z.mod_small. Qed.
Lemma u32_id z : is_u32 z → u32 z = z.
Proof. apply Z.mod_small. Qed.
Lemma u64_id z : is_u64 z → u64 z = z.
Proof. apply Z.mod_small. Qed.

Lemma u64_add_l a b : u64 (u64 a + b) = u64 (a + b).
Proof. unfold u64. by rewrite Zplus_mod_idemp_l. Qed.

(** Converting to the signed type and back loses nothing. *)
Lemma u16_s16 z : u16 (s16 z) = u16 z.
Proof. width_lia. Qed.
Lemma u32_s32 z : u32 (s32 z) = u32 z.
Proof. width_lia. Qed.

#[export] Hint Resolve u8_range u16_range u32_range u64_range
  bytes_nil bytes_take bytes_drop : opener.

(** ** Lists without duplicates *)

Lemma NoDup_middle {A} (xs ys : list A) a :
  NoDup (xs ++ a :: ys) ↔ (a ∉ xs ++ ys) ∧ NoDup (xs ++ ys).
Proof. by rewrite <-Permutation_middle, list.NoDup_cons. Qed.

(** ** Little-endian byte strings: the specification of the wire format *)

Fixpoint le_bytes (n : nat) (v : Z) : list Z :=
  match n with
  | O => []
  | S n => u8 v :: le_bytes n (v ≫ 8)
  end.

Fixpoint le_value (bs : list Z) : Z :=
  match bs with
  | [] => 0
  | b :: bs => b + 256 * le_value bs
  end.

Lemma length_le_bytes n v : length (le_bytes n v) = n.
Proof. revert v; induction n; intros v; simpl; [done | by rewrite IHn]. Qed.

Lemma le_bytes_bytes n v : bytes (le_bytes n v).
Proof.
  revert v; induction n; intros v; simpl; constructor; auto using u8_range.
  apply IHn.
Qed.

Lemma le_value_range bs :
  bytes bs → 0 <= le_value bs < 256 ^ Z.of_nat (length bs).
Proof.
  induction 1 as [|b bs Hb _ IH]; cbn [le_value length]; [simpl; lia |].
  unfold is_u8 in Hb.
  rewrite Nat2Z.inj_succ, Z.pow_succ_r by lia. lia.
Qed.

(** Encoding then decoding truncates to the field width. *)
Lemma le_value_bytes n v : le_value (le_bytes n v) = v mod 256 ^ Z.of_nat n.
Proof.
  revert v; induction n; intros v; [simpl; by rewrite Z.mod_1_r |].
  change (le_bytes (S n) v) with (u8 v :: le_bytes n (v ≫ 8)).
  cbn [le_value]. rewrite IHn, Nat2Z.inj_succ, Z.pow_succ_r by lia.
  rewrite Z.shiftr_div_pow2 by lia. change (2 ^ 8) with 256. unfold u8.
  rewrite (Z.rem_mul_r v 256 (256 ^ Z.of_nat n)) by lia. lia.
Qed.

(** Decoding then encoding gives the bytes back. *)
Lemma le_bytes_value bs : bytes bs → le_bytes (length bs) (le_value bs) = bs.
Proof.
  induction 1 as [|b bs Hb _ IH]; [done |].
  cbn [length le_bytes le_value]. unfold is_u8 in Hb. f_equal.
  - unfold u8. by rewrite (Z.mul_comm 256), Z.mod_add, Z.mod_small by lia.
  - rewrite Z.shiftr_div_pow2 by lia. change (2 ^ 8) with 256.
    by rewrite (Z.mul_comm 256), Z.div_add, Z.div_small, Z.add_0_l by lia.
Qed.

(** Disjoint bit fields: [or] of a byte with a value shifted past it is a sum. *)
Lemma land_shiftl_disjoint b v n :
  0 <= n → 0 <= b < 2 ^ n → b .& (v ≪ n) = 0.
Proof.
  intros Hn Hb. apply Z.bits_inj'. intros i Hi.
  rewrite Z.land_spec, Z.bits_0. destruct (decide (i < n)).
  - by rewrite Z.shiftl_spec_low, andb_false_r by lia.
  - rewrite <- (Z.mod_small b (2 ^ n)), Z.mod_pow2_bits_high by lia. done.
Qed.

Lemma lor_shiftl_add b v n :
  0 <= n → 0 <= b < 2 ^ n → b .| (v ≪ n) = b + 2 ^ n * v.
Proof.
  intros Hn Hb. pose proof (land_shiftl_disjoint b v n Hn Hb) as Hd.
  rewrite <- (Z.lxor_lor _ _ Hd), <- (Z.add_nocarry_lxor _ _ Hd).
  rewrite Z.shiftl_mul_pow2 by lia. lia.
Qed.

(** The two idioms of the source for reading a field,
    [p[0] | p[1] << 8] and its four-byte version. *)
Lemma le_value_2 b0 b1 :
  is_u8 b0 → is_u8 b1 → b0 .| (b1 ≪ 8) = le_value [b0; b1].
Proof.
  intros H0 H1. rewrite lor_shiftl_add by (unfold is_u8 in *; lia).
  cbn [le_value]. change (2 ^ 8) with 256. lia.
Qed.

Lemma le_value_4 b0 b1 b2 b3 :
  is_u8 b0 → is_u8 b1 → is_u8 b2 → is_u8 b3 →
  b0 .| (b1 ≪ 8) .| (b2 ≪ 16) .| (b3 ≪ 24) = le_value [b0; b1; b2; b3].
Proof.
  unfold is_u8. intros H0 H1 H2 H3.
  rewrite (lor_shiftl_add b0 b1 8) by lia.
  rewrite (lor_shiftl_add _ b2 16) by (change (2 ^ 16) with 65536; lia).
  rewrite (lor_shiftl_add _ b3 24) by (change (2 ^ 24) with 16777216; lia).
  cbn [le_value]. change (2 ^ 8) with 256. lia.
Qed.

(** Truncated shifts are the digits of the little-endian encoding. *)
Lemma shiftr_shiftr v a b : 0 <= a → 0 <= b → (v ≫ a) ≫ b = v ≫ (a + b).
Proof. intros. by rewrite Z.shiftr_shiftr. Qed.

Lemma le_bytes_2 v : le_bytes 2 v = [u8 v; u8 (v ≫ 8)].
Proof. done. Qed.
Lemma le_bytes_4 v :
  le_bytes 4 v = [u8 v; u8 (v ≫ 8); u8 (v ≫ 16); u8 (v ≫ 24)].
Proof. cbn [le_bytes]. by rewrite !Z.shiftr_shiftr by lia. Qed.
Lemma le_bytes_8 v :
  le_bytes 8 v = [u8 v; u8 (v ≫ 8); u8 (v ≫ 16); u8 (v ≫ 24);
                  u8 (v ≫ 32); u8 (v ≫ 40); u8 (v ≫ 48); u8 (v ≫ 56)].
Proof. cbn [le_bytes]. by rewrite !Z.shiftr_shiftr by lia. Qed.

(** The value of a field only depends on its low bytes. *)
Lemma le_bytes_mod n v : le_bytes n (v mod 256 ^ Z.of_nat n) = le_bytes n v.
Proof.
  rewrite <- le_value_bytes. rewrite <- (length_le_bytes n v) at 1.
  apply le_bytes_value, le_bytes_bytes.
Qed.

(** ** Memory objects

    A memory object is the list of its bytes.  A pointer used for reading is
    the list of the bytes from the pointed-to byte to the end of its object,
    so that reading past the end fails. *)

Definition load (p : list Z) (i : nat) : option Z := p !! i.

(** [p + n]: one past the last byte is still a valid pointer. *)
Definition ptr_add (p : list Z) (n : nat) : option (list Z) :=
  if decide (n <= length p)%nat then Some (drop n p) else None.

Arguments ptr_add : simpl never.

Lemma ptr_add_1 b p : ptr_add (b :: p) 1 = Some p.
Proof. reflexivity. Qed.

(** [memcpy] out of a read pointer. *)
Definition load_n (p : list Z) (n : nat) : option (list Z) :=
  if decide (n <= length p)%nat then Some (take n p) else None.

(** [memcpy] into a memory object. *)
Definition write_bytes (mem : list Z) (off : Z) (bs : list Z) : option (list Z) :=
  if decide (0 <= off ∧ off + Z.of_nat (length bs) <= Z.of_nat (length mem))
  then Some (take (Z.to_nat off) mem ++ bs
             ++ drop (Z.to_nat off + length bs) mem)
  else None.

Lemma write_bytes_Some mem off bs mem' :
  write_bytes mem off bs = Some mem' ↔
  0 <= off ∧ off + Z.of_nat (length bs) <= Z.of_nat (length mem) ∧
  mem' = take (Z.to_nat off) mem ++ bs ++ drop (Z.to_nat off + length bs) mem.
Proof. unfold write_bytes. case_decide; naive_solver. Qed.

Lemma length_write_bytes mem off bs mem' :
  write_bytes mem off bs = Some mem' → length mem' = length mem.
Proof.
  rewrite write_bytes_Some. intros (? & ? & ->).
  rewrite !length_app, length_take, length_drop. lia.
Qed.

(** Two adjacent writes are one write of the concatenation. *)
Lemma write_bytes_app mem off bs1 bs2 :
  (mem1 ← write_bytes mem off bs1;
   write_bytes mem1 (off + Z.of_nat (length bs1)) bs2)
  = write_bytes mem off (bs1 ++ bs2).
Proof.
  unfold write_bytes. rewrite length_app, Nat2Z.inj_add.
  case_decide as H1; simpl; [| rewrite decide_False by lia; done].
  rewrite !length_app, length_take, length_drop.
  case_decide as H2; [rewrite decide_True by lia | by rewrite decide_False by lia].
  f_equal. rewrite Z2Nat.inj_add, Nat2Z.id by lia.
  set (o := Z.to_nat off). assert (o + length bs1 <= length mem)%nat by lia.
  rewrite (take_app_ge (take o mem)) by (rewrite length_take; lia).
  rewrite length_take, Nat.min_l by lia.
  replace (o + length bs1 - o)%nat with (length bs1) by lia.
  rewrite take_app_length, <- !(assoc_L (++)). do 3 f_equal.
  rewrite drop_app_ge by (rewrite length_take; lia).
  rewrite length_take, Nat.min_l by lia.
  rewrite drop_app_ge by lia. rewrite drop_drop. f_equal. lia.
Qed.

Lemma bytes_write mem off bs mem' :
  bytes mem → bytes bs → write_bytes mem off bs = Some mem' → bytes mem'.
Proof.
  unfold bytes. rewrite write_bytes_Some. intros ? ? (_ & _ & ->).
  by repeat (apply Forall_app; split); auto using Forall_take, Forall_drop.
Qed.
