(* ===== verification/EndianConv.v ===== *)
(** * [enet_encap/endianconv.c] and [utils/enipmessage.c]

    The outgoing message buffer, the [Add...ToMessage] writers and the
    [Get...FromMessage] readers.  Every writer is translated store by store and
    then shown equal to one [put] of the little-endian bytes of its argument;
    [put_app] makes a sequence of writers one [put] of the concatenation, which
    is how every encoder of the library is specified. *)

From S2P Require Import Prelude.

(** ** The message object *)

(** Size of the message buffer, [OPENER_ETHERNET_BUFFER_SIZE] of the build. *)
Definition PC_OPENER_ETHERNET_BUFFER_SIZE : Z := 512.

(** [current_message_position] points into the buffer of the same message
    ([Some] offset) or into some other object ([None]); used_message_length is
    a [size_t]. *)
Record ENIPMessage := mkENIPMessage {
  message_buffer : list Z;
  current_message_position : option Z;
  used_message_length : Z
}.

Definition set_position (p : option Z) (m : ENIPMessage) : ENIPMessage :=
  {| message_buffer := message_buffer m; current_message_position := p;
     used_message_length := used_message_length m |}.

Definition set_used (n : Z) (m : ENIPMessage) : ENIPMessage :=
  {| message_buffer := message_buffer m;
     current_message_position := current_message_position m;
     used_message_length := u64 n |}.

Definition set_buffer (b : list Z) (m : ENIPMessage) : ENIPMessage :=
  {| message_buffer := b;
     current_message_position := current_message_position m;
     used_message_length := used_message_length m |}.

Definition InitializeENIPMessage : ENIPMessage :=
  {| message_buffer := replicate (Z.to_nat PC_OPENER_ETHERNET_BUFFER_SIZE) 0;
     current_message_position := Some 0;
     used_message_length := 0 |}.

(** [current_message_position[i] = b] *)
Definition store (i b : Z) (m : ENIPMessage) : option ENIPMessage :=
  p ← current_message_position m;
  buf ← write_bytes (message_buffer m) (p + i) [b];
  Some (set_buffer buf m).

(** [current_message_position += n] *)
Definition move_position (n : Z) (m : ENIPMessage) : ENIPMessage :=
  set_position ((fun p => p + n) <$> current_message_position m) m.

(** [used_message_length += n] *)
Definition add_used (n : Z) (m : ENIPMessage) : ENIPMessage :=
  set_used (used_message_length m + n) m.

(** [memcpy(current_message_position, bs, length bs)] *)
Definition copy_in (bs : list Z) (m : ENIPMessage) : option ENIPMessage :=
  p ← current_message_position m;
  buf ← write_bytes (message_buffer m) p bs;
  Some (set_buffer buf m).

(** ** Writers *)

Definition AddSintToMessage (data : Z) (m : ENIPMessage) : option ENIPMessage :=
  m ← store 0 (u8 data) m;
  Some (add_used 1 (move_position 1 m)).

Definition AddIntToMessage (data : Z) (m : ENIPMessage) : option ENIPMessage :=
  m ← store 0 (u8 data) m;
  m ← store 1 (u8 (data ≫ 8)) m;
  Some (add_used 2 (move_position 2 m)).

Definition AddDintToMessage (data : Z) (m : ENIPMessage) : option ENIPMessage :=
  m ← store 0 (u8 data) m;
  m ← store 1 (u8 (data ≫ 8)) m;
  m ← store 2 (u8 (data ≫ 16)) m;
  m ← store 3 (u8 (data ≫ 24)) m;
  Some (add_used 4 (move_position 4 m)).

Definition AddLintToMessage (data : Z) (m : ENIPMessage) : option ENIPMessage :=
  m ← store 0 (u8 data) m;
  m ← store 1 (u8 (data ≫ 8)) m;
  m ← store 2 (u8 (data ≫ 16)) m;
  m ← store 3 (u8 (data ≫ 24)) m;
  m ← store 4 (u8 (data ≫ 32)) m;
  m ← store 5 (u8 (data ≫ 40)) m;
  m ← store 6 (u8 (data ≫ 48)) m;
  m ← store 7 (u8 (data ≫ 56)) m;
  Some (add_used 8 (move_position 8 m)).

Definition MoveMessageNOctets (n : Z) (m : ENIPMessage) : ENIPMessage :=
  add_used n (move_position n m).

Definition FillNextNMessageOctetsWith (value amount : Z) (m : ENIPMessage)
  : option ENIPMessage :=
  copy_in (replicate (Z.to_nat amount) (u8 value)) m.

Definition FillNextNMessageOctetsWithValueAndMoveToNextPosition
  (value amount : Z) (m : ENIPMessage) : option ENIPMessage :=
  m ← FillNextNMessageOctetsWith value amount m;
  Some (MoveMessageNOctets amount m).

(** ** Platform endianness and socket addresses *)

Inductive OpenerEndianess :=
| kOpenerEndianessUnknown | kOpENerEndianessLittle | kOpENerEndianessBig.

(** [DetermineEndianess] looks at the first byte of the [int] 1 in memory,
    which the platform lays out in its own byte order. *)
Definition DetermineEndianess (int_in_memory : Z → list Z)
  : option OpenerEndianess :=
  b ← load (int_in_memory 1) 0;
  Some (if b =? 1 then kOpENerEndianessLittle else kOpENerEndianessBig).

Definition AF_INET : Z := 2.

(** POSIX [htons]: host order to network (big-endian) order. *)
Definition htons (big_endian_host : bool) (v : Z) : Z :=
  if big_endian_host then u16 v
  else u16 ((v .& 255) ≪ 8) .| ((v ≫ 8) .& 255).

(** [e] is [g_opener_platform_endianess]; [exit(EXIT_FAILURE)] is [None]. *)
Definition EncapsulateIpAddress (e : OpenerEndianess) (port address : Z)
    (m : ENIPMessage) : option ENIPMessage :=
  match e with
  | kOpENerEndianessLittle =>
      m ← AddIntToMessage (htons false AF_INET) m;
      m ← AddIntToMessage port m;
      AddDintToMessage address m
  | kOpENerEndianessBig =>
      m ← AddIntToMessage (htons true AF_INET) m;
      m ← AddSintToMessage (u8 (port ≫ 8)) m;
      m ← AddSintToMessage (u8 port) m;
      m ← AddSintToMessage (u8 address) m;
      m ← AddSintToMessage (u8 (address ≫ 8)) m;
      m ← AddSintToMessage (u8 (address ≫ 16)) m;
      AddSintToMessage (u8 (address ≫ 24)) m
  | kOpenerEndianessUnknown => None
  end.

(** ** Readers: value and advanced pointer *)

Definition GetByteFromMessage (p : list Z) : option (Z * list Z) :=
  b0 ← load p 0; p' ← ptr_add p 1; Some (b0, p').

Definition GetUsintFromMessage (p : list Z) : option (Z * list Z) :=
  b0 ← load p 0; p' ← ptr_add p 1; Some (b0, p').

Definition GetBoolFromMessage (p : list Z) : option (Z * list Z) :=
  b0 ← load p 0; p' ← ptr_add p 1; Some (b0, p').

Definition GetSintFromMessage (p : list Z) : option (Z * list Z) :=
  b0 ← load p 0; p' ← ptr_add p 1; Some (s8 b0, p').

Definition GetUintFromMessage (p : list Z) : option (Z * list Z) :=
  b0 ← load p 0; b1 ← load p 1;
  p' ← ptr_add p 2; Some (u16 (b0 .| (b1 ≪ 8)), p').

Definition GetWordFromMessage (p : list Z) : option (Z * list Z) :=
  b0 ← load p 0; b1 ← load p 1;
  p' ← ptr_add p 2; Some (u16 (b0 .| (b1 ≪ 8)), p').

Definition GetIntFromMessage (p : list Z) : option (Z * list Z) :=
  b0 ← load p 0; b1 ← load p 1;
  p' ← ptr_add p 2; Some (s16 (u16 (b0 .| (b1 ≪ 8))), p').

(** The byte shifted by 24 is an [int]; the conversion of the result to
    [uint32_t] takes its low 32 bits. *)
Definition GetUdintFromMessage (p : list Z) : option (Z * list Z) :=
  b0 ← load p 0; b1 ← load p 1; b2 ← load p 2; b3 ← load p 3;
  p' ← ptr_add p 4;
  Some (u32 (b0 .| (b1 ≪ 8) .| (b2 ≪ 16) .| (b3 ≪ 24)), p').

Definition GetDwordFromMessage (p : list Z) : option (Z * list Z) :=
  b0 ← load p 0; b1 ← load p 1; b2 ← load p 2; b3 ← load p 3;
  p' ← ptr_add p 4;
  Some (u32 (b0 .| (b1 ≪ 8) .| (b2 ≪ 16) .| (b3 ≪ 24)), p').

Definition GetDintFromMessage (p : list Z) : option (Z * list Z) :=
  b0 ← load p 0; b1 ← load p 1; b2 ← load p 2; b3 ← load p 3;
  p' ← ptr_add p 4;
  Some (s32 (u32 (b0 .| (b1 ≪ 8) .| (b2 ≪ 16) .| (b3 ≪ 24))), p').

(** The eight-byte reader puts the first byte in the high bits. *)
Definition GetLintFromMessage (p : list Z) : option (Z * list Z) :=
  b0 ← load p 0; b1 ← load p 1; b2 ← load p 2; b3 ← load p 3;
  b4 ← load p 4; b5 ← load p 5; b6 ← load p 6; b7 ← load p 7;
  p' ← ptr_add p 8;
  Some (u64 ((u64 (b0 ≪ 56) .& 0xFF00000000000000)
           + (u64 (b1 ≪ 48) .& 0x00FF000000000000)
           + (u64 (b2 ≪ 40) .& 0x0000FF0000000000)
           + (u64 (b3 ≪ 32) .& 0x000000FF00000000)
           + (u64 (b4 ≪ 24) .& 0x00000000FF000000)
           + (u64 (b5 ≪ 16) .& 0x0000000000FF0000)
           + (u64 (b6 ≪ 8) .& 0x000000000000FF00)
           + (b7 .& 0x00000000000000FF)), p').

(** ** [put]: the specification of all writers *)

Definition put (bs : list Z) (m : ENIPMessage) : option ENIPMessage :=
  m ← copy_in bs m;
  Some (MoveMessageNOctets (Z.of_nat (length bs)) m).

(** The messages the stack builds: a full-size buffer, the used length in
    the range of [size_t]. *)
Definition wf_message (m : ENIPMessage) : Prop :=
  length (message_buffer m) = Z.to_nat PC_OPENER_ETHERNET_BUFFER_SIZE ∧
  bytes (message_buffer m) ∧ is_u64 (used_message_length m).

(** Room left behind the current position. *)
Definition room (m : ENIPMessage) : Z :=
  match current_message_position m with
  | Some p => if decide (0 <= p) then Z.of_nat (length (message_buffer m)) - p else -1
  | None => -1
  end.

Lemma put_Some bs m m' :
  put bs m = Some m' ↔
  ∃ p, current_message_position m = Some p ∧ 0 <= p ∧
    p + Z.of_nat (length bs) <= Z.of_nat (length (message_buffer m)) ∧
    m' = {| message_buffer := take (Z.to_nat p) (message_buffer m) ++ bs
              ++ drop (Z.to_nat p + length bs) (message_buffer m);
            current_message_position := Some (p + Z.of_nat (length bs));
            used_message_length := u64 (used_message_length m + Z.of_nat (length bs)) |}.
Proof.
  unfold put, copy_in, MoveMessageNOctets, add_used, move_position, set_used,
    set_position, set_buffer.
  destruct (current_message_position m) as [p|] eqn:Ep; simpl; [| naive_solver].
  destruct (write_bytes _ _ _) as [buf|] eqn:Ew; simpl.
  - apply write_bytes_Some in Ew as (? & ? & ->). rewrite ?Ep. naive_solver.
  - unfold write_bytes in Ew. case_decide; naive_solver.
Qed.

(** [put] succeeds exactly when the bytes fit. *)
Lemma put_is_Some bs m :
  is_Some (put bs m) ↔ Z.of_nat (length bs) <= room m.
Proof.
  unfold room. split.
  - intros [m' H]. apply put_Some in H as (p & -> & ? & ? & _).
    rewrite decide_True by done. lia.
  - intros H. destruct (current_message_position m) as [p|] eqn:E; [| lia].
    case_decide; [| lia].
    eexists. apply put_Some. exists p. repeat split; [done..| lia].
Qed.

Lemma put_room bs m m' :
  put bs m = Some m' → room m' = room m - Z.of_nat (length bs).
Proof.
  intros (p & Hp & ? & ? & ->)%put_Some. unfold room; simpl. rewrite Hp.
  rewrite !decide_True by lia. rewrite !length_app, length_take, length_drop. lia.
Qed.

(** Two consecutive writes are one write of the concatenation. *)
Lemma put_app bs1 bs2 m : (m1 ← put bs1 m; put bs2 m1) = put (bs1 ++ bs2) m.
Proof.
  destruct m as [buf [p|] u]; [| done]. unfold put, copy_in; simpl.
  rewrite <- write_bytes_app, length_app.
  destruct (write_bytes buf p bs1) as [b1|]; simpl; [| done].
  destruct (write_bytes b1 _ bs2) as [b2|]; simpl; [| done].
  unfold MoveMessageNOctets, add_used, move_position, set_used,
    set_position, set_buffer; simpl.
  do 2 f_equal; [f_equal; lia |]. rewrite u64_add_l. f_equal. lia.
Qed.

Lemma put_wf bs m m' :
  wf_message m → bytes bs → put bs m = Some m' → wf_message m'.
Proof.
  intros (Hl & Hb & _) Hbs (p & _ & ? & ? & ->)%put_Some. repeat split; simpl.
  - rewrite !length_app, length_take, length_drop. lia.
  - unfold bytes in *. repeat (apply Forall_app; split);
      auto using Forall_take, Forall_drop.
  - apply u64_range.
  - apply u64_range.
Qed.

(** An unrolled writer, [n] stores and one move, is one [put]. *)
Lemma store_first m b : store 0 b m = copy_in [b] m.
Proof.
  destruct m as [buf [p|] u]; [| done]. unfold store, copy_in; simpl.
  by rewrite Z.add_0_r.
Qed.

Lemma copy_in_snoc m i b bs l :
  l = bs ++ [b] → i = Z.of_nat (length bs) →
  copy_in l m = (copy_in bs m ≫= store i b).
Proof.
  intros -> ->. destruct m as [buf [p|] u]; [| done]. unfold store, copy_in; simpl.
  rewrite <- write_bytes_app.
  destruct (write_bytes buf p bs) as [b1|]; simpl; [| done].
  by destruct (write_bytes b1 _ [b]).
Qed.

(** Unfold a [copy_in] of a literal list into the stores of the source. *)
Ltac copy_in_stores :=
  repeat first
    [ rewrite (copy_in_snoc _ 7 _ [_;_;_;_;_;_;_] [_;_;_;_;_;_;_;_]) by done
    | rewrite (copy_in_snoc _ 6 _ [_;_;_;_;_;_] [_;_;_;_;_;_;_]) by done
    | rewrite (copy_in_snoc _ 5 _ [_;_;_;_;_] [_;_;_;_;_;_]) by done
    | rewrite (copy_in_snoc _ 4 _ [_;_;_;_] [_;_;_;_;_]) by done
    | rewrite (copy_in_snoc _ 3 _ [_;_;_] [_;_;_;_]) by done
    | rewrite (copy_in_snoc _ 2 _ [_;_] [_;_;_]) by done
    | rewrite (copy_in_snoc _ 1 _ [_] [_;_]) by done ];
  rewrite !option_bind_assoc.

Lemma AddSintToMessage_put d m : AddSintToMessage d m = put (le_bytes 1 d) m.
Proof. unfold AddSintToMessage. by rewrite store_first. Qed.

Lemma AddIntToMessage_put d m : AddIntToMessage d m = put (le_bytes 2 d) m.
Proof.
  unfold AddIntToMessage, put. rewrite le_bytes_2, store_first.
  by copy_in_stores.
Qed.

Lemma AddDintToMessage_put d m : AddDintToMessage d m = put (le_bytes 4 d) m.
Proof.
  unfold AddDintToMessage, put. rewrite le_bytes_4, store_first.
  by copy_in_stores.
Qed.

Lemma AddLintToMessage_put d m : AddLintToMessage d m = put (le_bytes 8 d) m.
Proof.
  unfold AddLintToMessage, put. rewrite le_bytes_8, store_first.
  by copy_in_stores.
Qed.

Lemma Fill_put v n m :
  0 <= n →
  FillNextNMessageOctetsWithValueAndMoveToNextPosition v n m
  = put (replicate (Z.to_nat n) (u8 v)) m.
Proof.
  intros Hn. unfold FillNextNMessageOctetsWithValueAndMoveToNextPosition,
    FillNextNMessageOctetsWith, put. rewrite length_replicate.
  by rewrite Z2Nat.id by lia.
Qed.

(** The writer rewriting base: [autorewrite with put] turns a sequence of
    writers into nested [put]s, and [put_seq] fuses them. *)
Create Rewrite HintDb put.
#[export] Hint Rewrite AddSintToMessage_put AddIntToMessage_put
  AddDintToMessage_put AddLintToMessage_put : put.

Lemma put_bind {A} bs1 bs2 m (k : ENIPMessage → option A) :
  (m1 ← put bs1 m; m2 ← put bs2 m1; k m2) = (m2 ← put (bs1 ++ bs2) m; k m2).
Proof. rewrite <- put_app. by rewrite option_bind_assoc. Qed.

(** Fusing a writer into the [put] before it, with and without continuation. *)
Section Fusion.
Context {A : Type} (k : ENIPMessage → option A).

Lemma put_Sint_bind bs v m :
  (m1 ← put bs m; m2 ← AddSintToMessage v m1; k m2)
  = (m2 ← put (bs ++ le_bytes 1 v) m; k m2).
Proof. rewrite <-put_bind. destruct (put bs m); [simpl | done]. by rewrite AddSintToMessage_put. Qed.

Lemma put_Int_bind bs v m :
  (m1 ← put bs m; m2 ← AddIntToMessage v m1; k m2)
  = (m2 ← put (bs ++ le_bytes 2 v) m; k m2).
Proof. rewrite <-put_bind. destruct (put bs m); [simpl | done]. by rewrite AddIntToMessage_put. Qed.

Lemma put_Dint_bind bs v m :
  (m1 ← put bs m; m2 ← AddDintToMessage v m1; k m2)
  = (m2 ← put (bs ++ le_bytes 4 v) m; k m2).
Proof. rewrite <-put_bind. destruct (put bs m); [simpl | done]. by rewrite AddDintToMessage_put. Qed.

Lemma put_Lint_bind bs v m :
  (m1 ← put bs m; m2 ← AddLintToMessage v m1; k m2)
  = (m2 ← put (bs ++ le_bytes 8 v) m; k m2).
Proof. rewrite <-put_bind. destruct (put bs m); [simpl | done]. by rewrite AddLintToMessage_put. Qed.
End Fusion.

Lemma put_Sint bs v m : (m1 ← put bs m; AddSintToMessage v m1) = put (bs ++ le_bytes 1 v) m.
Proof. rewrite <-put_app. destruct (put bs m); [simpl | done]. by rewrite AddSintToMessage_put. Qed.
Lemma put_Int bs v m : (m1 ← put bs m; AddIntToMessage v m1) = put (bs ++ le_bytes 2 v) m.
Proof. rewrite <-put_app. destruct (put bs m); [simpl | done]. by rewrite AddIntToMessage_put. Qed.
Lemma put_Dint bs v m : (m1 ← put bs m; AddDintToMessage v m1) = put (bs ++ le_bytes 4 v) m.
Proof. rewrite <-put_app. destruct (put bs m); [simpl | done]. by rewrite AddDintToMessage_put. Qed.

(** [autorewrite with puts] turns a sequence of writers into a single [put]. *)
Create Rewrite HintDb puts.
#[export] Hint Rewrite AddSintToMessage_put AddIntToMessage_put
  AddDintToMessage_put AddLintToMessage_put
  @put_Sint_bind @put_Int_bind @put_Dint_bind @put_Lint_bind
  put_Sint put_Int put_Dint @put_bind put_app : puts.

Lemma put_nil m : 0 <= room m → is_u64 (used_message_length m) → put [] m = Some m.
Proof.
  destruct m as [buf [p|] u]; unfold room; simpl; [| lia].
  case_decide; [| lia]. intros Hr Hu. apply put_Some; simpl.
  exists p. repeat split; [lia..|]. rewrite Nat.add_0_r, take_drop, !Z.add_0_r.
  by rewrite u64_id.
Qed.

(** ** Fresh messages *)

Lemma Initialize_wf : wf_message InitializeENIPMessage.
Proof.
  repeat split; try (simpl; lia).
  apply Forall_replicate. unfold is_u8; lia.
Qed.

Lemma Initialize_room : room InitializeENIPMessage = 512.
Proof. reflexivity. Qed.

(** What the network layer sends: the first [used_message_length] bytes. *)
Definition wire (m : ENIPMessage) : list Z :=
  take (Z.to_nat (used_message_length m)) (message_buffer m).

(** A message under construction: [out] has been written from the start of the
    buffer and the position is right behind it. *)
Definition holds (out : list Z) (m : ENIPMessage) : Prop :=
  wf_message m ∧ current_message_position m = Some (Z.of_nat (length out)) ∧
  used_message_length m = Z.of_nat (length out) ∧
  take (length out) (message_buffer m) = out.

Lemma holds_init : holds [] InitializeENIPMessage.
Proof. split; [apply Initialize_wf | done]. Qed.

Lemma holds_room out m : holds out m → room m = 512 - Z.of_nat (length out).
Proof.
  intros ((Hl & _ & _) & Hp & _ & _). unfold room. rewrite Hp, decide_True by lia.
  rewrite Hl. unfold PC_OPENER_ETHERNET_BUFFER_SIZE. lia.
Qed.

Lemma holds_wire out m : holds out m → wire m = out.
Proof. intros (_ & _ & Hu & Ht). unfold wire. by rewrite Hu, Nat2Z.id. Qed.

(** Appending to a message under construction succeeds exactly when the total
    fits the buffer. *)
Lemma holds_put out bs m :
  holds out m → bytes bs → Z.of_nat (length (out ++ bs)) <= 512 →
  ∃ m', put bs m = Some m' ∧ holds (out ++ bs) m'.
Proof.
  intros Hh Hbs Hfit. pose proof (holds_room _ _ Hh) as Hr.
  rewrite length_app in Hfit.
  destruct (proj2 (put_is_Some bs m)) as [m' Hm']; [lia |].
  exists m'. split; [done |]. destruct Hh as (Hwf & Hp & Hu & Ht).
  split; [by eapply put_wf |].
  apply put_Some in Hm' as (p & Hp' & ? & ? & ->). rewrite Hp in Hp'.
  simplify_eq/=. rewrite length_app, Nat2Z.inj_add, Hu.
  split; [done |]. split; [by rewrite u64_id by (unfold is_u64; lia) |].
  rewrite Nat2Z.id, Ht, (assoc_L (++)), take_app_le by (rewrite length_app; lia).
  by rewrite take_ge by (rewrite length_app; lia).
Qed.

Lemma holds_put_overflow out bs m :
  holds out m → 512 < Z.of_nat (length (out ++ bs)) → put bs m = None.
Proof.
  intros Hh Hfit. destruct (put bs m) eqn:E; [| done].
  assert (Hs : is_Some (put bs m)) by (rewrite E; eauto).
  apply put_is_Some in Hs. rewrite (holds_room _ _ Hh) in Hs.
  rewrite length_app in Hfit. lia.
Qed.

(** ** Lemmas: writers *)

(** [writes f bs]: behind any output, [f] appends the bytes [bs]. *)
Definition writes (f : ENIPMessage → option ENIPMessage) (bs : list Z) : Prop :=
  ∀ pre m, (m1 ← put pre m; f m1) = put (pre ++ bs) m.

Create HintDb writes.

Lemma writes_put bs f : (∀ m, f m = put bs m) → writes f bs.
Proof. intros H pre m. rewrite <-put_app. by destruct (put pre m) as [m1|]; [apply H |]. Qed.

Lemma writes_nothing : writes Some [].
Proof. intros pre m. rewrite app_nil_r. by destruct (put pre m). Qed.

Lemma writes_bind f g a b :
  writes f a → writes g b → writes (λ m, m1 ← f m; g m1) (a ++ b).
Proof.
  intros Hf Hg pre m. transitivity (m1 ← (m1 ← put pre m; f m1); g m1).
  { by destruct (put pre m). }
  by rewrite Hf, Hg, (assoc_L (++)).
Qed.

Lemma writes_step {A} f bs pre m (k : ENIPMessage → option A) :
  writes f bs → (m1 ← put pre m; m2 ← f m1; k m2) = (m2 ← put (pre ++ bs) m; k m2).
Proof. intros Hf. by rewrite <-Hf, option_bind_assoc. Qed.

Lemma writes_Sint v : writes (AddSintToMessage v) (le_bytes 1 v).
Proof. apply writes_put, AddSintToMessage_put. Qed.
Lemma writes_Int v : writes (AddIntToMessage v) (le_bytes 2 v).
Proof. apply writes_put, AddIntToMessage_put. Qed.
Lemma writes_Dint v : writes (AddDintToMessage v) (le_bytes 4 v).
Proof. apply writes_put, AddDintToMessage_put. Qed.

Lemma writes_zeros n : 0 <= n →
  writes (FillNextNMessageOctetsWithValueAndMoveToNextPosition 0 n) (replicate (Z.to_nat n) 0).
Proof. intros Hn. apply writes_put. intros m. by apply Fill_put. Qed.

Lemma bytes_zeros n : bytes (replicate n 0).
Proof. apply Forall_replicate. unfold is_u8. lia. Qed.

#[export] Hint Resolve writes_Sint writes_Int writes_Dint writes_bind : writes.

(** Family, port and address, the latter two as the host holds them in network order. *)
Definition ip_address_bytes (e : OpenerEndianess) (port address : Z) : list Z :=
  match e with
  | kOpENerEndianessBig =>
      le_bytes 2 (htons true AF_INET) ++ le_bytes 1 (u8 (port ≫ 8)) ++ le_bytes 1 (u8 port)
      ++ le_bytes 1 (u8 address) ++ le_bytes 1 (u8 (address ≫ 8))
      ++ le_bytes 1 (u8 (address ≫ 16)) ++ le_bytes 1 (u8 (address ≫ 24))
  | _ => le_bytes 2 (htons false AF_INET) ++ le_bytes 2 port ++ le_bytes 4 address
  end.

Lemma length_ip_address_bytes e port address : length (ip_address_bytes e port address) = 8%nat.
Proof. unfold ip_address_bytes. destruct e; by rewrite !length_app, !length_le_bytes. Qed.

Lemma bytes_ip_address e port address : bytes (ip_address_bytes e port address).
Proof. unfold ip_address_bytes. destruct e; repeat (apply bytes_app; split); apply le_bytes_bytes. Qed.

Lemma writes_ip_address e port address :
  e ≠ kOpenerEndianessUnknown →
  writes (EncapsulateIpAddress e port address) (ip_address_bytes e port address).
Proof. intros He. destruct e; [done | |]; repeat apply writes_bind; eauto with writes. Qed.

(** Running a writer on a message under construction. *)
Lemma writes_holds f bs out m :
  writes f bs → bytes bs → holds out m → Z.of_nat (length (out ++ bs)) <= 512 →
  ∃ m', f m = Some m' ∧ holds (out ++ bs) m'.
Proof.
  intros Hf Hb Hm Hlen. destruct (holds_put out bs m) as (m' & E & Hh); [done..|].
  exists m'. split; [| done]. rewrite <-E, <-(app_nil_l bs), <-(Hf [] m), put_nil; [done | |].
  - rewrite (holds_room out) by done. rewrite length_app in Hlen. lia.
  - destruct Hm as (_ & _ & -> & _). rewrite length_app in Hlen. unfold is_u64. lia.
Qed.

Lemma copy_used_put bs n m :
  n = Z.of_nat (length bs) →
  (m1 ← copy_in bs m; Some (add_used n (move_position n m1))) = put bs m.
Proof. intros ->. done. Qed.

Lemma load_used out m :
  holds out m →
  load_n (message_buffer m) (Z.to_nat (used_message_length m)) = Some out.
Proof.
  intros ((Hl & _) & Hp & Hu & Ht). unfold load_n. rewrite Hu, Nat2Z.id.
  rewrite decide_True; [by rewrite Ht |].
  rewrite <-Ht at 1. rewrite length_take. lia.
Qed.

Lemma writes_copy bs n :
  n = Z.of_nat (length bs) →
  writes (λ m, m ← copy_in bs m; Some (add_used n (move_position n m))) bs.
Proof. intros Hn. apply writes_put. intros m. by apply copy_used_put. Qed.

(** ** Reader lemmas *)

Lemma load_cons_0 b p : load (b :: p) 0 = Some b. Proof. done. Qed.

Lemma ptr_add_app l p n : length l = n → ptr_add (l ++ p) n = Some p.
Proof.
  intros <-. unfold ptr_add. rewrite length_app, decide_True by lia.
  by rewrite drop_app_length.
Qed.

Ltac reader :=
  unfold load; simpl; unfold ptr_add; simpl;
  rewrite ?decide_True by (simpl; lia); simpl.

Lemma GetUsint_cons b p : GetUsintFromMessage (b :: p) = Some (b, p).
Proof. reflexivity. Qed.

Lemma GetByte_cons b p : GetByteFromMessage (b :: p) = Some (b, p).
Proof. reflexivity. Qed.

Lemma le2_u16 b0 b1 : is_u8 b0 → is_u8 b1 → is_u16 (le_value [b0; b1]).
Proof. cbn [le_value]. unfold is_u8, is_u16. lia. Qed.

Lemma le4_u32 b0 b1 b2 b3 :
  is_u8 b0 → is_u8 b1 → is_u8 b2 → is_u8 b3 →
  is_u32 (le_value [b0; b1; b2; b3]).
Proof. cbn [le_value]. unfold is_u8, is_u32. lia. Qed.

Lemma GetUint_cons b0 b1 p :
  is_u8 b0 → is_u8 b1 →
  GetUintFromMessage (b0 :: b1 :: p) = Some (le_value [b0; b1], p).
Proof.
  intros. unfold GetUintFromMessage. reader.
  rewrite le_value_2, u16_id by auto using le2_u16. done.
Qed.

Lemma GetInt_cons b0 b1 p :
  is_u8 b0 → is_u8 b1 →
  GetIntFromMessage (b0 :: b1 :: p) = Some (s16 (le_value [b0; b1]), p).
Proof.
  intros. unfold GetIntFromMessage. reader.
  rewrite le_value_2, u16_id by auto using le2_u16. done.
Qed.

Lemma GetUdint_cons b0 b1 b2 b3 p :
  is_u8 b0 → is_u8 b1 → is_u8 b2 → is_u8 b3 →
  GetUdintFromMessage (b0 :: b1 :: b2 :: b3 :: p)
  = Some (le_value [b0; b1; b2; b3], p).
Proof.
  intros. unfold GetUdintFromMessage. reader.
  rewrite le_value_4, u32_id by auto using le4_u32. done.
Qed.

Lemma GetDint_cons b0 b1 b2 b3 p :
  is_u8 b0 → is_u8 b1 → is_u8 b2 → is_u8 b3 →
  GetDintFromMessage (b0 :: b1 :: b2 :: b3 :: p)
  = Some (s32 (le_value [b0; b1; b2; b3]), p).
Proof.
  intros. unfold GetDintFromMessage. reader.
  rewrite le_value_4, u32_id by auto using le4_u32. done.
Qed.

(** Readers fail exactly when the object is too short. *)
Lemma GetUint_short p : (length p < 2)%nat → GetUintFromMessage p = None.
Proof. destruct p as [|? [|? ?]]; simpl; intros; try lia; done. Qed.
Lemma GetInt_short p : (length p < 2)%nat → GetIntFromMessage p = None.
Proof. destruct p as [|? [|? ?]]; simpl; intros; try lia; done. Qed.
Lemma GetUdint_short p : (length p < 4)%nat → GetUdintFromMessage p = None.
Proof. do 4 (destruct p as [|? p]; [done |]). simpl; lia. Qed.

Lemma GetUint_inv p v p' :
  bytes p → GetUintFromMessage p = Some (v, p') →
  ∃ b0 b1, p = b0 :: b1 :: p' ∧ v = le_value [b0; b1] ∧ is_u16 v ∧ bytes p'.
Proof.
  intros Hb H. destruct p as [|b0 [|b1 p]]; try done.
  rewrite !bytes_cons in Hb. destruct Hb as (?&?&?).
  rewrite GetUint_cons in H by done. simplify_eq.
  exists b0, b1. auto using le2_u16.
Qed.

Lemma GetUdint_inv p v p' :
  bytes p → GetUdintFromMessage p = Some (v, p') →
  ∃ l, p = l ++ p' ∧ length l = 4%nat ∧ v = le_value l ∧ is_u32 v ∧ bytes p'.
Proof.
  intros Hb H. destruct p as [|b0 [|b1 [|b2 [|b3 p]]]]; try done.
  rewrite !bytes_cons in Hb. destruct Hb as (?&?&?&?&?).
  rewrite GetUdint_cons in H by done. simplify_eq.
  exists [b0; b1; b2; b3]. split_and!; auto using le4_u32.
Qed.

(** Reading what a writer wrote. *)
Lemma GetUint_le v p : GetUintFromMessage (le_bytes 2 v ++ p) = Some (u16 v, p).
Proof.
  rewrite le_bytes_2; simpl. rewrite GetUint_cons by apply u8_range.
  do 2 f_equal. by rewrite <- le_bytes_2, le_value_bytes.
Qed.

Lemma GetUint_le_id v p : is_u16 v → GetUintFromMessage (le_bytes 2 v ++ p) = Some (v, p).
Proof. intros Hv. rewrite <-(u16_id v Hv) at 2. apply GetUint_le. Qed.

Lemma GetInt_le v p : GetIntFromMessage (le_bytes 2 v ++ p) = Some (s16 v, p).
Proof.
  rewrite le_bytes_2; simpl. rewrite GetInt_cons by apply u8_range.
  do 2 f_equal. rewrite <- le_bytes_2, le_value_bytes.
  change (256 ^ Z.of_nat 2) with 65536. width_lia.
Qed.

Lemma GetUdint_le v p : GetUdintFromMessage (le_bytes 4 v ++ p) = Some (u32 v, p).
Proof.
  rewrite le_bytes_4; simpl. rewrite GetUdint_cons by apply u8_range.
  do 2 f_equal. by rewrite <- le_bytes_4, le_value_bytes.
Qed.

Lemma GetDint_le v p : GetDintFromMessage (le_bytes 4 v ++ p) = Some (s32 v, p).
Proof.
  rewrite le_bytes_4; simpl. rewrite GetDint_cons by apply u8_range.
  do 2 f_equal. rewrite <- le_bytes_4, le_value_bytes.
  change (256 ^ Z.of_nat 4) with 4294967296. width_lia.
Qed.

Lemma u64_shift_field b k :
  is_u8 b → 0 <= k <= 56 →
  u64 (b ≪ k) .& (Z.ones 8 ≪ k) = b * 2 ^ k.
Proof.
  intros Hb Hk. unfold is_u8 in Hb.
  assert (Hle : 0 < 2 ^ k <= 2 ^ 56).
  { split; [by apply Z.pow_pos_nonneg; lia | apply Z.pow_le_mono_r; lia]. }
  rewrite u64_id.
  2: { rewrite Z.shiftl_mul_pow2 by lia. unfold is_u64. nia. }
  rewrite <- Z.shiftl_land, (Z.land_ones b 8) by lia.
  by rewrite Z.mod_small, Z.shiftl_mul_pow2 by lia.
Qed.

Lemma GetLint_cons b0 b1 b2 b3 b4 b5 b6 b7 p :
  bytes [b0; b1; b2; b3; b4; b5; b6; b7] →
  GetLintFromMessage (b0 :: b1 :: b2 :: b3 :: b4 :: b5 :: b6 :: b7 :: p)
  = Some (le_value (rev [b0; b1; b2; b3; b4; b5; b6; b7]), p).
Proof.
  rewrite !bytes_cons. intros (?&?&?&?&?&?&?&?&_).
  unfold GetLintFromMessage. reader. do 2 f_equal.
  change 0xFF00000000000000 with (Z.ones 8 ≪ 56).
  change 0x00FF000000000000 with (Z.ones 8 ≪ 48).
  change 0x0000FF0000000000 with (Z.ones 8 ≪ 40).
  change 0x000000FF00000000 with (Z.ones 8 ≪ 32).
  change 0x00000000FF000000 with (Z.ones 8 ≪ 24).
  change 0x0000000000FF0000 with (Z.ones 8 ≪ 16).
  change 0x000000000000FF00 with (Z.ones 8 ≪ 8).
  rewrite !u64_shift_field by (done || lia).
  change 0x00000000000000FF with (Z.ones 8).
  rewrite Z.land_ones, (Z.mod_small b7) by (unfold is_u8 in *; lia).
  unfold is_u8 in *. cbn [le_value].
  rewrite u64_id by (unfold is_u64; lia). lia.
Qed.

(** ** Properties *)

(** Every integer written by [AddInt]/[AddDint] is read back by
    [GetUint]/[GetUdint] (and, as the signed value, by [GetInt]/[GetDint]),
    with the pointer left right behind it, whatever follows. *)
Theorem message_integer_roundtrip out m v rest :
  holds out m → Z.of_nat (length out) <= 508 →
  (∃ m', AddIntToMessage v m = Some m' ∧ holds (out ++ le_bytes 2 v) m' ∧
     GetUintFromMessage (drop (length out) (wire m') ++ rest) = Some (u16 v, rest) ∧
     GetIntFromMessage (drop (length out) (wire m') ++ rest) = Some (s16 v, rest)) ∧
  (∃ m', AddDintToMessage v m = Some m' ∧ holds (out ++ le_bytes 4 v) m' ∧
     GetUdintFromMessage (drop (length out) (wire m') ++ rest) = Some (u32 v, rest) ∧
     GetDintFromMessage (drop (length out) (wire m') ++ rest) = Some (s32 v, rest)).
Proof.
  intros Hh Hroom. split.
  - rewrite AddIntToMessage_put.
    destruct (holds_put out (le_bytes 2 v) m) as (m' & Hput & Hh'); [done|..].
    { apply le_bytes_bytes. } { rewrite length_app, length_le_bytes. lia. }
    exists m'. rewrite (holds_wire _ _ Hh'), drop_app_length.
    auto using GetUint_le, GetInt_le.
  - rewrite AddDintToMessage_put.
    destruct (holds_put out (le_bytes 4 v) m) as (m' & Hput & Hh'); [done|..].
    { apply le_bytes_bytes. } { rewrite length_app, length_le_bytes. lia. }
    exists m'. rewrite (holds_wire _ _ Hh'), drop_app_length.
    auto using GetUdint_le, GetDint_le.
Qed.

Lemma message_integer_roundtrip_witness :
  ∃ m', AddIntToMessage 0xBEEF InitializeENIPMessage = Some m' ∧
        GetUintFromMessage (wire m' ++ [7]) = Some (0xBEEF, [7]).
Proof.
  destruct (message_integer_roundtrip [] InitializeENIPMessage 0xBEEF [7])
    as [(m' & H1 & _ & H2 & _) _].
  - apply holds_init.
  - simpl; lia.
  - exists m'. split; [exact H1 | exact H2].
Defined.

(** The eight-byte reader is big-endian while the eight-byte writer is
    little-endian: what [AddLint] wrote comes back byte-reversed. *)
Theorem lint_read_reverses_write v p :
  GetLintFromMessage (le_bytes 8 v ++ p) = Some (le_value (rev (le_bytes 8 v)), p).
Proof.
  rewrite le_bytes_8. apply GetLint_cons.
  rewrite <- le_bytes_8. apply le_bytes_bytes.
Qed.
