(* ===== verification/LinkedList.v ===== *)
(** * [utils/doublylinkedlist.c]

    The intrusive doubly linked list over a store of nodes, with its
    function-pointer allocator as an interface, and the static node array of
    [cipconnectionobject.c] as the implementation of that interface.  The
    refinement theorems say that the pointer surgery of each operation is the
    obvious operation on a mathematical list. *)

From S2P Require Import Prelude.

(** A node pointer is an index into the store; [None] is NULL. *)
Abbreviation ptr := (option nat).

Record DoublyLinkedListNode (D : Type) := mkNode {
  previous : ptr;
  next : ptr;
  data : option D
}.
Arguments mkNode {D}. Arguments previous {D}. Arguments next {D}. Arguments data {D}.

Abbreviation store D := (gmap nat (DoublyLinkedListNode D)).

Definition zero_node {D} : DoublyLinkedListNode D := mkNode None None None.

Definition set_previous {D} (p : ptr) (n : DoublyLinkedListNode D) := mkNode p (next n) (data n).
Definition set_next {D} (p : ptr) (n : DoublyLinkedListNode D) := mkNode (previous n) p (data n).
Definition set_data {D} (d : option D) (n : DoublyLinkedListNode D) := mkNode (previous n) (next n) d.

(** Writing through a node pointer: NULL and dangling pointers are [None]. *)
Definition update {D} (p : ptr) (f : DoublyLinkedListNode D → DoublyLinkedListNode D)
    (h : store D) : option (store D) :=
  a ← p; n ← h !! a; Some (<[a := f n]> h).

Arguments update : simpl never.

Lemma update_Some {D} a f (h : store D) n :
  h !! a = Some n → update (Some a) f h = Some (<[a := f n]> h).
Proof. intros H. unfold update; simpl. by rewrite H. Qed.

Definition deref {D} (p : ptr) (h : store D) : option (DoublyLinkedListNode D) :=
  a ← p; h !! a.

(** ** The allocator interface

    The two function pointers a list is initialised with.  The laws are what
    the list code relies on: the allocator returns NULL or a node that is in
    the store and all zero (hence not in use), the deallocator zeroes. *)
Class NodeAllocator (D : Type) := {
  allocator : store D → ptr;
  deallocator : store D → nat → option (store D);
  allocator_fresh h a : allocator h = Some a → h !! a = Some zero_node;
  deallocator_zeroes h a n :
    h !! a = Some n → deallocator h a = Some (<[a := zero_node]> h)
}.

(** [allocator_set]: the two function pointers are non-NULL. *)
Record DoublyLinkedList := mkList {
  first : ptr; last : ptr; allocator_set : bool
}.

Section Operations.
Context {D : Type} `{!NodeAllocator D}.
Implicit Types (h : store D) (l : DoublyLinkedList).

Definition DoublyLinkedListInitialize : DoublyLinkedList :=
  mkList None None true.

(** [new_node->data = data] on a NULL allocation is undefined. *)
Definition DoublyLinkedListNodeCreate (d : option D) h : option (ptr * store D) :=
  let new_node := allocator h in
  h ← update new_node (set_data d) h;
  Some (new_node, h).

(** The pointer variable of the caller becomes NULL. *)
Definition DoublyLinkedListNodeDestroy l (node : ptr) h : option (store D) :=
  assert! allocator_set l;
  a ← node; deallocator h a.

Definition DoublyLinkedListInsertAtHead (d : option D) l h
  : option (DoublyLinkedList * store D) :=
  assert! allocator_set l;
  '(new_node, h) ← DoublyLinkedListNodeCreate d h;
  match first l with
  | None => Some (mkList new_node new_node (allocator_set l), h)
  | Some _ =>
      h ← update new_node (set_next (first l)) h;
      h ← update (first l) (set_previous new_node) h;
      Some (mkList new_node (last l) (allocator_set l), h)
  end.

Definition DoublyLinkedListInsertAtTail (d : option D) l h
  : option (DoublyLinkedList * store D) :=
  assert! allocator_set l;
  '(new_node, h) ← DoublyLinkedListNodeCreate d h;
  match last l with
  | None => Some (mkList new_node new_node (allocator_set l), h)
  | Some _ =>
      h ← update new_node (set_previous (last l)) h;
      h ← update (last l) (set_next new_node) h;
      Some (mkList (first l) new_node (allocator_set l), h)
  end.

Definition DoublyLinkedListInsertBeforeNode (node : ptr) (d : option D) l h
  : option (DoublyLinkedList * store D) :=
  assert! allocator_set l;
  if decide (first l = node) then DoublyLinkedListInsertAtHead d l h else
  '(new_node, h) ← DoublyLinkedListNodeCreate d h;
  n ← deref node h;
  h ← update new_node (set_previous (previous n)) h;
  h ← update new_node (set_next node) h;
  h ← update node (set_previous new_node) h;
  nn ← deref new_node h;
  h ← update (previous nn) (set_next new_node) h;
  Some (l, h).

Definition DoublyLinkedListInsertAfterNode (node : ptr) (d : option D) l h
  : option (DoublyLinkedList * store D) :=
  assert! allocator_set l;
  if decide (last l = node) then DoublyLinkedListInsertAtTail d l h else
  '(new_node, h) ← DoublyLinkedListNodeCreate d h;
  h ← update new_node (set_previous node) h;
  n ← deref node h;
  h ← update new_node (set_next (next n)) h;
  n ← deref node h;
  h ← update (next n) (set_previous new_node) h;
  h ← update node (set_next new_node) h;
  Some (l, h).

Definition DoublyLinkedListRemoveNode (node : ptr) l h
  : option (DoublyLinkedList * store D) :=
  n ← deref node h;
  let prev := previous n in
  let nxt := next n in
  if decide (node = first l ∧ node = last l) then
    let l' := mkList None None (allocator_set l) in
    h ← DoublyLinkedListNodeDestroy l' node h;
    Some (l', h)
  else
    let l := if decide (node = first l)
             then mkList nxt (last l) (allocator_set l) else l in
    let l := if decide (node = last l)
             then mkList (first l) prev (allocator_set l) else l in
    h ← (if decide (prev = None) then Some h else update prev (set_next nxt) h);
    h ← (if decide (nxt = None) then Some h else update nxt (set_previous prev) h);
    h ← DoublyLinkedListNodeDestroy l node h;
    Some (l, h).

(** The [while] loop of [Destroy]; [fuel] bounds the number of nodes. *)
Fixpoint destroy_loop (fuel : nat) (iterator : ptr) l h : option (store D) :=
  match fuel with
  | O => None
  | S fuel =>
      match iterator with
      | None => Some h
      | Some _ =>
          n ← deref iterator h;
          h ← DoublyLinkedListNodeDestroy l iterator h;
          destroy_loop fuel (next n) l h
      end
  end.

Definition DoublyLinkedListDestroy (fuel : nat) l h
  : option (DoublyLinkedList * store D) :=
  h ← destroy_loop fuel (first l) l h;
  Some (mkList None None false, h).
End Operations.

(** ** The connection-list node array of [cipconnectionobject.c] *)

(** 6 explicit, 1 input-only, 1 exclusive-owner and 1 listen-only
    connections of the default configuration. *)
Definition kNodesAmount : nat := 6 + 1 + 1 + 1.

Definition is_zero_node {D} (n : DoublyLinkedListNode D) : bool :=
  match n with mkNode None None None => true | _ => false end.

(** The [for] loop over [nodes[i]], from index [i] on. *)
Fixpoint array_scan {D} (k i : nat) (h : store D) : ptr :=
  match k with
  | O => None
  | S k =>
      match h !! i with
      | Some n => if is_zero_node n then Some i else array_scan k (S i) h
      | None => None
      end
  end.

Definition CipConnectionObjectListArrayAllocator {D} (h : store D) : ptr :=
  array_scan kNodesAmount 0 h.

Definition CipConnectionObjectListArrayFree {D} (h : store D) (a : nat)
  : option (store D) :=
  update (Some a) (fun _ => zero_node) h.

Lemma is_zero_node_true {D} (n : DoublyLinkedListNode D) :
  is_zero_node n = true ↔ n = zero_node.
Proof. by destruct n as [[] [] []]. Qed.

Lemma array_scan_Some {D} k i (h : store D) a :
  array_scan k i h = Some a → h !! a = Some zero_node ∧ (i <= a < i + k)%nat.
Proof.
  revert i; induction k as [|k IH]; intros i; simpl; [done |].
  destruct (h !! i) as [n|] eqn:E; [| done].
  destruct (is_zero_node n) eqn:Ez.
  - intros [= <-]. apply is_zero_node_true in Ez as ->. split; [done | lia].
  - intros H%IH. intuition lia.
Qed.

Lemma array_allocator_fresh {D} (h : store D) a :
  CipConnectionObjectListArrayAllocator h = Some a → h !! a = Some zero_node.
Proof. by intros [??]%array_scan_Some. Qed.

Lemma array_free_zeroes {D} (h : store D) a n :
  h !! a = Some n →
  CipConnectionObjectListArrayFree h a = Some (<[a := zero_node]> h).
Proof. intros H. unfold CipConnectionObjectListArrayFree, update; simpl. by rewrite H. Qed.

#[export] Instance array_allocator D : NodeAllocator D := {|
  allocator := CipConnectionObjectListArrayAllocator;
  deallocator := CipConnectionObjectListArrayFree;
  allocator_fresh := array_allocator_fresh;
  deallocator_zeroes := array_free_zeroes
|}.

(** ** Representation of a mathematical list *)

Section Representation.
Context {D : Type}.
Implicit Types (h : store D) (xs ys : list (nat * D)).

Definition head_ptr xs (nxt : ptr) : ptr :=
  match xs with [] => nxt | (a, _) :: _ => Some a end.
Fixpoint last_ptr (prv : ptr) xs : ptr :=
  match xs with [] => prv | (a, _) :: xs => last_ptr (Some a) xs end.

(** [seg h p xs n]: the nodes of [xs], in order, are linked in both
    directions, between a predecessor [p] and a successor [n]. *)
Fixpoint seg h (p : ptr) xs (n : ptr) : Prop :=
  match xs with
  | [] => True
  | (a, d) :: xs =>
      h !! a = Some (mkNode p (head_ptr xs n) (Some d)) ∧ seg h (Some a) xs n
  end.

Definition addrs xs : list nat := xs.*1.

Record represents (l : DoublyLinkedList) h xs : Prop := {
  rep_first : first l = head_ptr xs None;
  rep_last : last l = last_ptr None xs;
  rep_set : allocator_set l = true;
  rep_nodup : NoDup (addrs xs);
  rep_seg : seg h None xs None
}.

Lemma last_ptr_app p xs ys : last_ptr p (xs ++ ys) = last_ptr (last_ptr p xs) ys.
Proof. revert p; induction xs as [|[a d] xs IH]; intros p; simpl; auto. Qed.

Lemma head_ptr_app xs ys n : head_ptr (xs ++ ys) n = head_ptr xs (head_ptr ys n).
Proof. by destruct xs as [|[a d] xs]. Qed.

Lemma seg_app h p xs ys n :
  seg h p (xs ++ ys) n ↔
  seg h p xs (head_ptr ys n) ∧ seg h (last_ptr p xs) ys n.
Proof.
  revert p; induction xs as [|[a d] xs IH]; intros p; simpl; [tauto |].
  rewrite IH, head_ptr_app. tauto.
Qed.

(** Framing: a write to a node outside the segment. *)
Lemma seg_insert h p xs n a x :
  a ∉ addrs xs → seg h p xs n → seg (<[a := x]> h) p xs n.
Proof.
  revert p; induction xs as [|[b d] xs IH]; intros p; simpl; [done |].
  intros Ha [Hb Hs]. rewrite not_elem_of_cons in Ha.
  rewrite lookup_insert_ne by tauto. split; [done | apply IH; tauto].
Qed.

Lemma seg_in h p xs n a :
  seg h p xs n → a ∈ addrs xs → ∃ x, h !! a = Some x ∧ x ≠ zero_node.
Proof.
  revert p; induction xs as [|[b d] xs IH]; intros p; simpl; [set_solver |].
  intros [Hb Hs] [->|Hin]%elem_of_cons; [by eexists | eauto].
Qed.

(** A freshly allocated node is not one of the list's. *)
Lemma fresh_notin h p xs n a :
  seg h p xs n → h !! a = Some zero_node → a ∉ addrs xs.
Proof. intros Hs Ha Hin. destruct (seg_in _ _ _ _ _ Hs Hin) as (x & ? & ?). congruence. Qed.

(** Re-pointing the ends of a segment: its first node's [previous] and its
    last node's [next]. *)
Lemma seg_set_previous h p p' a d xs n :
  NoDup (addrs ((a, d) :: xs)) → seg h p ((a, d) :: xs) n →
  ∃ h', update (Some a) (set_previous p') h = Some h' ∧
    seg h' p' ((a, d) :: xs) n ∧
    h' = <[a := mkNode p' (head_ptr xs n) (Some d)]> h.
Proof.
  simpl. rewrite list.NoDup_cons. intros [Hn _] [Ha Hs].
  unfold update; simpl. rewrite Ha; simpl. eexists; split; [done |].
  rewrite lookup_insert_eq. split; [| done]. split; [done |].
  by apply seg_insert.
Qed.

Lemma seg_set_next h p xs a d n n' :
  NoDup (addrs (xs ++ [(a, d)])) → seg h p (xs ++ [(a, d)]) n →
  ∃ h', update (Some a) (set_next n') h = Some h' ∧
    seg h' p (xs ++ [(a, d)]) n' ∧
    h' = <[a := mkNode (last_ptr p xs) n' (Some d)]> h.
Proof.
  unfold addrs. rewrite fmap_app, list.NoDup_app. intros (_ & Hd & _).
  rewrite !seg_app; simpl. intros [Hs [Ha _]].
  unfold update; simpl. rewrite Ha; simpl. eexists; split; [done |].
  split; [| done]. rewrite seg_app; simpl. rewrite lookup_insert_eq.
  split; [| done]. apply seg_insert; [| done]. intros Hin. apply (Hd a); [done | left].
Qed.

Lemma last_ptr_Some p xs b : last_ptr (Some p) xs = b → is_Some b.
Proof.
  revert p; induction xs as [|[a d] xs IH]; intros p; simpl; [naive_solver |].
  apply IH.
Qed.

(** The last node exists when the pointer is not the default. *)
Lemma last_ptr_snoc p xs a d : last_ptr p (xs ++ [(a, d)]) = Some a.
Proof. by rewrite last_ptr_app. Qed.

Lemma list_snoc_cases xs : xs = [] ∨ ∃ ys a d, xs = ys ++ [(a, d)].
Proof. induction xs as [|[a d] xs _] using rev_ind; [by left | right; eauto]. Qed.
End Representation.

(** ** Refinement: the operations on the represented list *)

Section Refinement.
Context {D : Type} `{!NodeAllocator D}.
Implicit Types (h : store D) (xs ys : list (nat * D)) (l : DoublyLinkedList).

Lemma represents_initial h : represents DoublyLinkedListInitialize h [].
Proof. split; simpl; auto. constructor. Qed.

Lemma represents_insert l h xs a x :
  a ∉ addrs xs → represents l h xs → represents l (<[a := x]> h) xs.
Proof. intros Ha []. split; auto using seg_insert. Qed.

(** What node creation does, when the allocator has a node left. *)
Lemma NodeCreate_spec d h a :
  allocator h = Some a →
  DoublyLinkedListNodeCreate (Some d) h
  = Some (Some a, <[a := mkNode None None (Some d)]> h).
Proof.
  intros Ha. unfold DoublyLinkedListNodeCreate, update. rewrite Ha; simpl.
  by rewrite (allocator_fresh _ _ Ha).
Qed.

Lemma NodeCreate_full d h :
  allocator h = None → DoublyLinkedListNodeCreate (Some d) h = None.
Proof. intros Ha. unfold DoublyLinkedListNodeCreate, update. by rewrite Ha. Qed.

Lemma insert_head_spec l h xs d a :
  represents l h xs → allocator h = Some a →
  ∃ l' h', DoublyLinkedListInsertAtHead (Some d) l h = Some (l', h') ∧
           represents l' h' ((a, d) :: xs).
Proof.
  intros [Hf Hl Hs Hn Hg] Ha. pose proof (allocator_fresh _ _ Ha) as Hz.
  pose proof (fresh_notin _ _ _ _ _ Hg Hz) as Hnin.
  unfold DoublyLinkedListInsertAtHead.
  rewrite Hs, (NodeCreate_spec _ _ _ Ha); simpl. rewrite Hf.
  set (h1 := <[a := _]> h).
  assert (Hg1 : seg h1 None xs None) by (by apply seg_insert). assert (Hnd : NoDup (addrs ((a, d) :: xs)))
    by (apply list.NoDup_cons; auto).
  destruct xs as [|[b e] xs]; simpl.
  { do 2 eexists; split; [done |]. split; simpl; auto.
    unfold h1. rewrite lookup_insert_eq. auto. }
  assert (Ha1 : h1 !! a = Some (mkNode None None (Some d)))
    by apply lookup_insert_eq.
  rewrite (update_Some _ _ _ _ Ha1); simpl. set (h2 := <[a := _]> h1).
  assert (Hg2 : seg h2 None ((b, e) :: xs) None) by (by apply seg_insert).
  destruct (seg_set_previous h2 None (Some a) b e xs None) as (h3 & Hu & Hg3 & Hh3);
    [done..|].
  rewrite Hu; simpl. do 2 eexists; split; [done |]. split; simpl; auto.
  split; [| exact Hg3]. rewrite Hh3. simpl in Hnin.
  rewrite lookup_insert_ne by set_solver. unfold h2.
  by rewrite lookup_insert_eq.
Qed.

Lemma insert_tail_spec l h xs d a :
  represents l h xs → allocator h = Some a →
  ∃ l' h', DoublyLinkedListInsertAtTail (Some d) l h = Some (l', h') ∧
           represents l' h' (xs ++ [(a, d)]).
Proof.
  intros [Hf Hl Hs Hn Hg] Ha. pose proof (allocator_fresh _ _ Ha) as Hz.
  pose proof (fresh_notin _ _ _ _ _ Hg Hz) as Hnin.
  unfold DoublyLinkedListInsertAtTail.
  rewrite Hs, (NodeCreate_spec _ _ _ Ha); simpl. rewrite Hl.
  set (h1 := <[a := _]> h).
  assert (Ha1 : h1 !! a = Some (mkNode None None (Some d)))
    by apply lookup_insert_eq.
  assert (Hg1 : seg h1 None xs None) by (by apply seg_insert).
  assert (Hnd : NoDup (addrs (xs ++ [(a, d)]))).
  { unfold addrs. rewrite fmap_app. apply list.NoDup_app; split_and!; [done | |].
    - intros x Hx Hx'. apply list_elem_of_singleton in Hx' as ->. done.
    - apply list.NoDup_singleton. }
  destruct (list_snoc_cases xs) as [->|(ys & b & e & ->)].
  { do 2 eexists; split; [done |]. split; simpl; auto. }
  rewrite last_ptr_snoc; simpl. rewrite (update_Some _ _ _ _ Ha1); simpl.
  set (h2 := <[a := _]> h1).
  assert (Hg2 : seg h2 None (ys ++ [(b, e)]) None) by (by apply seg_insert).
  destruct (seg_set_next h2 None ys b e None (Some a)) as (h3 & Hu & Hg3 & Hh3);
    [done..|].
  rewrite Hu; simpl. do 2 eexists; split; [done |]. split; simpl; auto.
  - rewrite Hf, !head_ptr_app. by destruct ys as [|[]].
  - by rewrite last_ptr_app.
  - apply seg_app. split; [done |]. rewrite last_ptr_snoc; simpl. split; [| done].
    rewrite Hh3, lookup_insert_ne; [unfold h2; by rewrite lookup_insert_eq |].
    intros ->. apply Hnin. unfold addrs. rewrite fmap_app. set_solver.
Qed.

(** The ends of the list are recognised by address. *)
Lemma head_ptr_middle ys a (d : D) zs :
  NoDup (addrs (ys ++ (a, d) :: zs)) →
  Some a = head_ptr (ys ++ (a, d) :: zs) None ↔ ys = [].
Proof.
  intros Hn. split; [| by intros ->]. destruct ys as [|[b e] ys]; [done |].
  intros [= ->]. simpl in Hn. apply list.NoDup_cons in Hn as [Hn _].
  destruct Hn. unfold addrs. rewrite fmap_app. set_solver.
Qed.

Lemma last_ptr_middle ys a (d : D) zs :
  NoDup (addrs (ys ++ (a, d) :: zs)) →
  Some a = last_ptr None (ys ++ (a, d) :: zs) ↔ zs = [].
Proof.
  intros Hn. rewrite last_ptr_app. split; [| by intros ->].
  destruct (list_snoc_cases zs) as [->|(ws & b & e & ->)]; [done |].
  simpl. rewrite last_ptr_snoc. intros [= ->].
  unfold addrs in Hn. rewrite fmap_app in Hn; simpl in Hn.
  apply list.NoDup_app in Hn as (_ & _ & Hn). apply list.NoDup_cons in Hn as [Hn _].
  destruct Hn. rewrite fmap_app. set_solver.
Qed.

Lemma NodeDestroy_spec l h (a : nat) n :
  allocator_set l = true → h !! a = Some n →
  DoublyLinkedListNodeDestroy l (Some a) h = Some (<[a := zero_node]> h).
Proof.
  intros Hs Ha. unfold DoublyLinkedListNodeDestroy. rewrite Hs; simpl.
  by apply deallocator_zeroes with n.
Qed.

(** Bypassing the removed node on its left. *)
Lemma bypass_left h ys a (d : D) zs nxt :
  NoDup (addrs (ys ++ (a, d) :: zs)) → seg h None ys (Some a) →
  seg h (Some a) zs None → h !! a = Some (mkNode (last_ptr None ys) nxt (Some d)) →
  ∃ h', (if decide (last_ptr None ys = None) then Some h
         else update (last_ptr None ys) (set_next nxt) h) = Some h' ∧
    seg h' None ys nxt ∧ seg h' (Some a) zs None ∧
    h' !! a = Some (mkNode (last_ptr None ys) nxt (Some d)).
Proof.
  intros Hn Hy Hz Ha. unfold addrs in Hn. rewrite fmap_app in Hn.
  destruct (list_snoc_cases ys) as [->|(ws & b & e & ->)]; simpl.
  { exists h. auto. }
  rewrite last_ptr_snoc, decide_False by done.
  apply list.NoDup_app in Hn as (Hny & Hd & Hnz).
  assert (Hb : b ∉ (a, d).1 :: zs.*1) by (apply Hd; rewrite fmap_app; set_solver).
  destruct (seg_set_next h None ws b e (Some a) nxt) as (h' & Hu & Hg' & ->);
    [done..|].
  exists (<[b:=mkNode (last_ptr None ws) nxt (Some e)]> h). split_and!; [done..| |].
  - apply seg_insert; [unfold addrs |]; set_solver.
  - rewrite lookup_insert_ne by set_solver. by rewrite Ha, last_ptr_snoc.
Qed.

Lemma bypass_right h ys a (d : D) zs prv :
  NoDup (addrs (ys ++ (a, d) :: zs)) → seg h None ys (head_ptr zs None) →
  seg h (Some a) zs None → h !! a = Some (mkNode prv (head_ptr zs None) (Some d)) →
  ∃ h', (if decide (head_ptr zs None = None) then Some h
         else update (head_ptr zs None) (set_previous prv) h) = Some h' ∧
    seg h' None ys (head_ptr zs None) ∧ seg h' prv zs None ∧
    is_Some (h' !! a).
Proof.
  intros Hn Hy Hz Ha. unfold addrs in Hn. rewrite fmap_app in Hn.
  destruct zs as [|[b e] zs].
  { exists h. simpl. eauto. }
  change (head_ptr ((b, e) :: zs) None) with (Some b) in *.
  rewrite decide_False by done.
  apply list.NoDup_app in Hn as (Hny & Hd & Hnz).
  apply list.NoDup_cons in Hnz as [Hna Hnz].
  destruct (seg_set_previous h (Some a) prv b e zs None) as (h' & Hu & Hg' & ->);
    [done..|].
  rewrite Hu. eexists. split; [done |]. split; [| split; [exact Hg' |]].
  - apply seg_insert; [| done]. intros Hin. apply (Hd b); [done | set_solver].
  - rewrite lookup_insert_ne by set_solver. eauto.
Qed.

Lemma remove_spec l h ys a d zs :
  represents l h (ys ++ (a, d) :: zs) →
  ∃ l' h', DoublyLinkedListRemoveNode (Some a) l h = Some (l', h') ∧
           represents l' h' (ys ++ zs) ∧ h' !! a = Some zero_node.
Proof.
  intros [Hf Hl Hs Hn Hg]. pose proof Hg as Hg0.
  apply seg_app in Hg0 as [Hy [Ha Hz]]. simpl in Hy.
  assert (Hn' : NoDup (addrs (ys ++ zs)) ∧ a ∉ addrs (ys ++ zs)).
  { unfold addrs in *. rewrite !fmap_app in *; simpl in *.
    apply list.NoDup_app in Hn as (? & Hd & [? ?]%list.NoDup_cons).
    rewrite list.NoDup_app. set_solver. }
  destruct Hn' as [Hn' Hna].
  unfold DoublyLinkedListRemoveNode, deref; simpl. rewrite Ha; simpl.
  rewrite Hf, Hl. case_decide as Hc;
    rewrite head_ptr_middle, last_ptr_middle in Hc by done.
  - destruct Hc as [-> ->]. erewrite NodeDestroy_spec by done. simpl.
    do 2 eexists; split_and!; [done | | by rewrite lookup_insert_eq].
    split; simpl; auto.
  - destruct (bypass_left h ys a d zs (head_ptr zs None))
      as (h1 & E1 & Hy1 & Hz1 & Ha1); [done..|].
    destruct (bypass_right h1 ys a d zs (last_ptr None ys))
      as (h2 & E2 & Hy2 & Hz2 & [n Ha2]); [done..|].
    pose proof (head_ptr_middle ys a d zs Hn) as Hhd.
    pose proof (last_ptr_middle ys a d zs Hn) as Hlt.
    set (l1 := if decide (Some a = head_ptr _ _) then _ else _).
    set (l2 := if decide (Some a = last l1) then _ else _).
    assert (El : last l1 = last_ptr None (ys ++ (a, d) :: zs) ∧
      first l1 = head_ptr (ys ++ zs) None ∧ allocator_set l1 = true).
    { clear E1 E2 l2. unfold l1. case_decide as C; simpl; rewrite ?Hf, ?Hl, ?Hs; split_and!; auto.
      - apply Hhd in C as ->. done.
      - rewrite Hhd in C. by destruct ys as [|[]]. }
    destruct El as (El & Ef & Es).
    assert (El2 : last l2 = last_ptr None (ys ++ zs) ∧
      first l2 = head_ptr (ys ++ zs) None ∧ allocator_set l2 = true).
    { clear E1 E2. unfold l2. rewrite El. clearbody l1. case_decide as C; simpl; split_and!; auto.
      - apply Hlt in C as ->. by rewrite app_nil_r.
      - rewrite Hlt in C. rewrite El, !last_ptr_app. by destruct zs as [|[]]. }
    destruct El2 as (El2 & Ef2 & Es2). clearbody l1 l2.
    rewrite E1; simpl. rewrite E2; simpl.
    erewrite NodeDestroy_spec by done. simpl.
    do 2 eexists; split_and!; [done | | by rewrite lookup_insert_eq].
    split; auto. apply seg_insert; [done |]. by apply seg_app.
Qed.

(** Splicing a new node between [ws ++ [(c, f)]] and [(b, e) :: zs], whatever
    the order of the four pointer writes: the final store. *)
Lemma splice_spec h ws c f b e zs a (d : D) :
  NoDup (addrs ((ws ++ [(c, f)]) ++ (b, e) :: zs)) →
  a ∉ addrs ((ws ++ [(c, f)]) ++ (b, e) :: zs) →
  seg h None ((ws ++ [(c, f)]) ++ (b, e) :: zs) None →
  seg (<[b := mkNode (Some a) (head_ptr zs None) (Some e)]>
      (<[c := mkNode (last_ptr None ws) (Some a) (Some f)]>
      (<[a := mkNode (Some c) (Some b) (Some d)]> h)))
    None ((ws ++ [(c, f)]) ++ (a, d) :: (b, e) :: zs) None.
Proof.
  intros Hn Hna Hg. apply seg_app in Hg as [Hw Hz].
  unfold addrs in Hn, Hna. rewrite fmap_app in Hn, Hna.
  apply list.NoDup_app in Hn as (Hnw & Hd & Hnz).
  assert (Hc : c ∉ b :: zs.*1) by (apply Hd; rewrite fmap_app; set_solver).
  assert (Hb : b ∉ (ws ++ [(c, f)]).*1) by (intros Hin; apply (Hd b); set_solver).
  assert (Hcw : (ws ++ [(c, f)]).*1 = ws.*1 ++ [c]) by by rewrite fmap_app.
  rewrite Hcw in *. simpl in *.
  set (h1 := <[a := _]> h).
  assert (Hw1 : seg h1 None (ws ++ [(c, f)]) (Some b)).
  { apply seg_insert; [unfold addrs; rewrite Hcw; set_solver | done]. }
  assert (Hz1 : seg h1 (Some c) ((b, e) :: zs) None).
  { rewrite last_ptr_snoc in Hz. apply seg_insert; [set_solver | done]. }
  destruct (seg_set_next h1 None ws c f (Some b) (Some a))
    as (h2 & _ & Hw2 & Eh2); [unfold addrs; rewrite Hcw; done | done |].
  rewrite <- Eh2.
  assert (Hz2 : seg h2 (Some c) ((b, e) :: zs) None)
    by (rewrite Eh2; apply seg_insert; [set_solver | done]).
  destruct (seg_set_previous h2 (Some c) (Some a) b e zs None)
    as (h3 & _ & Hz3 & Eh3); [done | done |].
  rewrite <- Eh3. apply seg_app. split.
  - rewrite Eh3. apply seg_insert; [unfold addrs; rewrite Hcw; done | done].
  - rewrite last_ptr_snoc. split; [| exact Hz3]. simpl.
    rewrite Eh3, lookup_insert_ne by set_solver.
    rewrite Eh2, lookup_insert_ne by set_solver.
    unfold h1. by rewrite lookup_insert_eq.
Qed.

Lemma represents_splice l h h' ws c f b e zs a (d : D) :
  represents l h ((ws ++ [(c, f)]) ++ (b, e) :: zs) →
  a ∉ addrs ((ws ++ [(c, f)]) ++ (b, e) :: zs) →
  h' = <[b := mkNode (Some a) (head_ptr zs None) (Some e)]>
      (<[c := mkNode (last_ptr None ws) (Some a) (Some f)]>
      (<[a := mkNode (Some c) (Some b) (Some d)]> h)) →
  represents l h' ((ws ++ [(c, f)]) ++ (a, d) :: (b, e) :: zs).
Proof.
  intros [Hf Hl Hs Hn Hg] Hna ->. split; [| | done | | by apply splice_spec].
  - rewrite Hf, !head_ptr_app. by destruct ws as [|[]].
  - by rewrite Hl, !last_ptr_app.
  - unfold addrs in *. rewrite fmap_app in *. by apply NoDup_middle.
Qed.

Lemma insert_before_spec l h ys b e zs d a :
  represents l h (ys ++ (b, e) :: zs) → allocator h = Some a →
  ∃ l' h', DoublyLinkedListInsertBeforeNode (Some b) (Some d) l h = Some (l', h') ∧
           represents l' h' (ys ++ (a, d) :: (b, e) :: zs).
Proof.
  intros Hr Ha. pose proof Hr as [Hf Hl Hs Hn Hg].
  unfold DoublyLinkedListInsertBeforeNode. rewrite Hs, Hf.
  case_decide as C; symmetry in C || idtac.
  { apply head_ptr_middle in C as ->; [| done].
    by apply insert_head_spec. }
  destruct (list_snoc_cases ys) as [->|(ws & c & f & ->)]; [done |].
  pose proof (allocator_fresh _ _ Ha) as Hz.
  pose proof (fresh_notin _ _ _ _ _ Hg Hz) as Hnin.
  pose proof Hg as [[Hgw [Hc _]]%seg_app [Hb Hgz]]%seg_app.
  simpl in Hc. rewrite last_ptr_snoc in Hb.
  assert (a ≠ b ∧ a ≠ c ∧ b ≠ c) as (Hab & Hac & Hbc).
  { unfold addrs in *. rewrite !fmap_app in *; simpl in *. split_and!.
    1, 2: set_solver.
    intros ->. apply list.NoDup_app in Hn as (_ & Hd & _). apply (Hd c); set_solver. }
  rewrite (NodeCreate_spec _ _ _ Ha); simpl. rewrite lookup_insert_ne by done.
  rewrite Hb; simpl. erewrite update_Some by apply lookup_insert_eq. simpl.
  erewrite update_Some by apply lookup_insert_eq. simpl.
  erewrite update_Some by (rewrite !lookup_insert_ne by done; done). simpl.
  rewrite lookup_insert_ne, lookup_insert_eq by done. simpl.
  erewrite update_Some by (rewrite !lookup_insert_ne by done; done). simpl.
  do 2 eexists; split; [done |]. eapply represents_splice; [done..|].
  unfold set_previous, set_next; simpl. rewrite !insert_insert_eq.
  by rewrite (insert_insert_ne _ c b) by done.
Qed.

Lemma insert_after_spec l h ys c f zs d a :
  represents l h (ys ++ (c, f) :: zs) → allocator h = Some a →
  ∃ l' h', DoublyLinkedListInsertAfterNode (Some c) (Some d) l h = Some (l', h') ∧
           represents l' h' (ys ++ (c, f) :: (a, d) :: zs).
Proof.
  intros Hr Ha. pose proof Hr as [Hf Hl Hs Hn Hg].
  unfold DoublyLinkedListInsertAfterNode. rewrite Hs, Hl.
  case_decide as C; symmetry in C || idtac.
  { apply last_ptr_middle in C as ->; [| done].
    destruct (insert_tail_spec _ _ _ d a Hr Ha) as (l' & h' & ? & Hr').
    exists l', h'. split; [done |]. by rewrite <- (assoc_L (++)) in Hr'. }
  destruct zs as [|[b e] zs]; [rewrite last_ptr_snoc in C; done |].
  replace (ys ++ (c, f) :: (b, e) :: zs) with ((ys ++ [(c, f)]) ++ (b, e) :: zs)
    in * by by rewrite <- (assoc_L (++)).
  pose proof (allocator_fresh _ _ Ha) as Hz.
  pose proof (fresh_notin _ _ _ _ _ Hg Hz) as Hnin.
  pose proof Hg as [[Hgw [Hc _]]%seg_app [Hb Hgz]]%seg_app.
  simpl in Hc. rewrite last_ptr_snoc in Hb.
  assert (a ≠ b ∧ a ≠ c ∧ b ≠ c) as (Hab & Hac & Hbc).
  { unfold addrs in *. rewrite !fmap_app in *; simpl in *. split_and!.
    1, 2: set_solver.
    intros ->. apply list.NoDup_app in Hn as (_ & Hd & _). apply (Hd c); set_solver. }
  rewrite (NodeCreate_spec _ _ _ Ha); simpl.
  erewrite update_Some by apply lookup_insert_eq. simpl.
  rewrite !lookup_insert_ne by done. rewrite Hc; simpl.
  erewrite update_Some by apply lookup_insert_eq. simpl.
  rewrite !lookup_insert_ne by done. rewrite Hc; simpl.
  erewrite update_Some by (rewrite !lookup_insert_ne by done; done). simpl.
  erewrite update_Some by (rewrite !lookup_insert_ne by done; done). simpl.
  do 2 eexists; split; [done |].
  replace (ys ++ (c, f) :: (a, d) :: (b, e) :: zs)
    with ((ys ++ [(c, f)]) ++ (a, d) :: (b, e) :: zs) by by rewrite <- (assoc_L (++)).
  eapply represents_splice; [done..|].
  unfold set_previous, set_next; simpl. rewrite !insert_insert_eq.
  by rewrite (insert_insert_ne _ c b) by done.
Qed.

(** The destruction loop needs one step per node and one to see NULL. *)
Lemma destroy_loop_spec fuel l h p xs :
  allocator_set l = true → NoDup (addrs xs) → seg h p xs None →
  (length xs < fuel)%nat →
  ∃ h', destroy_loop fuel (head_ptr xs None) l h = Some h' ∧
    (∀ a, a ∈ addrs xs → h' !! a = Some zero_node) ∧
    (∀ a, a ∉ addrs xs → h' !! a = h !! a).
Proof.
  intros Hs. revert fuel h p. induction xs as [|[a d] xs IH]; intros fuel h p Hn Hg Hf.
  - destruct fuel; [lia |]. exists h. simpl. set_solver.
  - destruct fuel as [|fuel]; simpl in Hf; [lia |]. simpl in Hg |- *.
    destruct Hg as [Ha Hg]. apply list.NoDup_cons in Hn as [Hna Hn].
    rewrite Ha; simpl. erewrite NodeDestroy_spec by done. simpl.
    destruct (IH fuel (<[a:=zero_node]> h) (Some a)) as (h' & E & H1 & H2);
      [done | by apply seg_insert | lia |].
    exists h'. split; [done |]. split.
    + intros b [->|Hb]%elem_of_cons; [| by apply H1].
      rewrite H2 by done. by rewrite lookup_insert_eq.
    + intros b Hb. rewrite not_elem_of_cons in Hb. rewrite H2 by tauto.
      rewrite lookup_insert_ne by naive_solver. done.
Qed.

(** *** What the operations leave alone *)

Definition frame (ptrs : list ptr) h h' : Prop :=
  ∀ b, (Some b ∉ ptrs → h' !! b = h !! b) ∧ (is_Some (h' !! b) ↔ is_Some (h !! b)).

Lemma frame_refl ptrs h : frame ptrs h h.
Proof. done. Qed.

Lemma frame_trans ptrs h1 h2 h3 : frame ptrs h1 h2 → frame ptrs h2 h3 → frame ptrs h1 h3.
Proof.
  intros H1 H2 b. destruct (H1 b) as [E1 S1], (H2 b) as [E2 S2]. split; [|by rewrite S2].
  intros Hb. by rewrite E2, E1.
Qed.

Lemma frame_insert ptrs h a x n : Some a ∈ ptrs → h !! a = Some n → frame ptrs h (<[a := x]> h).
Proof.
  intros Hin Ha b. destruct (decide (a = b)) as [->|Hne].
  - split; [done |]. rewrite lookup_insert_eq, Ha. split; by eexists.
  - by rewrite lookup_insert_ne by done.
Qed.

Lemma update_frame ptrs p f h h' : p ∈ ptrs → update p f h = Some h' → frame ptrs h h'.
Proof.
  unfold update. intros Hin H. destruct p as [a|]; [|done]. simpl in H.
  destruct (h !! a) as [n|] eqn:Ha; [|done]. simplify_eq/=. by eapply frame_insert.
Qed.

Lemma remove_frame l h a n l' h' :
  allocator_set l = true → h !! a = Some n →
  DoublyLinkedListRemoveNode (Some a) l h = Some (l', h') →
  frame [Some a; previous n; next n] h h'.
Proof.
  intros Hs Ha. unfold DoublyLinkedListRemoveNode, deref; simpl. rewrite Ha; simpl.
  assert (Hd : ∀ l h0 h1, allocator_set l = true →
    frame [Some a; previous n; next n] h h0 →
    DoublyLinkedListNodeDestroy l (Some a) h0 = Some h1 →
    frame [Some a; previous n; next n] h h1).
  { intros l0 h0 h1 Hl0 Hf E. destruct (proj2 (proj2 (Hf a))) as [m Hm]; [by eexists |].
    rewrite (NodeDestroy_spec _ _ _ m) in E by done. injection E as <-.
    eapply frame_trans; [done |]. eapply frame_insert; [set_solver | done]. }
  case_decide.
  - intros (h1 & E1 & E)%bind_Some. simplify_eq. by eapply (Hd _ h); [done | apply frame_refl |].
  - intros (h1 & E1 & (h2 & E2 & (h3 & E3 & E)%bind_Some)%bind_Some)%bind_Some. simplify_eq.
    eapply Hd; [| |exact E3]; [by repeat case_decide |].
    assert (Hu : ∀ (P : Prop) `{Decision P} p f g g', p ∈ [Some a; previous n; next n] →
      (if decide P then Some g else update p f g) = Some g' →
      frame [Some a; previous n; next n] g g').
    { intros P ? p f g g' Hin. destruct (decide P); [intros [= ->]; apply frame_refl |].
      by apply update_frame. }
    apply frame_trans with h1; eapply Hu; try eassumption; set_solver.
Qed.

Lemma insert_head_frame l h d a l' h' :
  allocator h = Some a →
  DoublyLinkedListInsertAtHead (Some d) l h = Some (l', h') → frame [Some a; first l] h h'.
Proof.
  intros Ha. unfold DoublyLinkedListInsertAtHead. destruct (allocator_set l); [|done].
  rewrite (NodeCreate_spec _ _ _ Ha); simpl. pose proof (allocator_fresh _ _ Ha) as Hz.
  destruct (first l) as [b|].
  - intros (h1 & E1 & (h2 & E2 & E)%bind_Some)%bind_Some. simplify_eq.
    eapply frame_trans; [apply (frame_insert _ _ a (mkNode None None (Some d)) zero_node);
      [set_solver | done] |].
    apply frame_trans with h1; eapply update_frame; try eassumption; set_solver.
  - intros E. simplify_eq. apply (frame_insert _ _ a (mkNode None None (Some d)) zero_node);
      [set_solver | done].
Qed.

(** A node of the list, in the store. *)
Lemma represents_lookup l h ys a d zs :
  represents l h (ys ++ (a, d) :: zs) →
  h !! a = Some (mkNode (last_ptr None ys) (head_ptr zs None) (Some d)).
Proof. intros [_ _ _ _ [_ [H _]]%seg_app]. exact H. Qed.
End Refinement.

(** ** The static node array *)

(** All nodes outside the list are free, as they are initially. *)
Definition array_ok {D} (h : store D) (xs : list (nat * D)) : Prop :=
  (∀ a, is_Some (h !! a) ↔ (a < kNodesAmount)%nat) ∧
  (∀ a n, h !! a = Some n → a ∉ addrs xs → n = zero_node).

Lemma array_scan_None {D} k i (h : store D) :
  (∀ a, (i <= a < i + k)%nat → is_Some (h !! a)) →
  array_scan k i h = None →
  ∀ a, (i <= a < i + k)%nat → h !! a ≠ Some zero_node.
Proof.
  revert i; induction k as [|k IH]; intros i Hdom; simpl; [lia |].
  destruct (Hdom i) as [n En]; [lia |]. rewrite En.
  destruct (is_zero_node n) eqn:Ez; [done |]. intros Hs a Ha.
  destruct (decide (a = i)) as [->|].
  - rewrite En. intros [= ->]. done.
  - eapply IH; eauto; [intros; apply Hdom; lia | lia].
Qed.

(** The static array before the first connection. *)
Definition initial_array {D} : store D :=
  list_to_map ((fun i => (i, zero_node)) <$> seq 0 kNodesAmount).

Lemma initial_array_lookup {D} a :
  (a < kNodesAmount)%nat → (initial_array : store D) !! a = Some zero_node.
Proof.
  unfold kNodesAmount. intros Ha.
  do 9 (destruct a as [|a]; [reflexivity |]). lia.
Qed.

Lemma initial_allocator : allocator (initial_array : store nat) = Some 0%nat.
Proof. vm_compute. reflexivity. Qed.

Lemma frame_array_ok {D} (h h' : store D) ptrs xs xs' :
  array_ok h xs → frame ptrs h h' →
  (∀ b n, h' !! b = Some n → b ∉ addrs xs' → Some b ∈ ptrs ∨ b ∈ addrs xs → n = zero_node) →
  array_ok h' xs'.
Proof.
  intros [Hdom Hz] Hf Hx. split.
  - intros b. by rewrite (proj2 (Hf b)).
  - intros b n Hb Hn. destruct (decide (Some b ∈ ptrs ∨ b ∈ addrs xs)) as [|Hno]; [by eapply Hx |].
    apply (Hz b); [|tauto]. rewrite <-(proj1 (Hf b)) by tauto. done.
Qed.

Lemma addrs_middle {D} ys a (d : D) zs b :
  b ∈ addrs (ys ++ (a, d) :: zs) ↔ b = a ∨ b ∈ addrs (ys ++ zs).
Proof. unfold addrs. rewrite !fmap_app. simpl. set_solver. Qed.

Lemma last_ptr_in {D} (ys : list (nat * D)) b : Some b = last_ptr None ys → b ∈ addrs ys.
Proof.
  destruct (list_snoc_cases ys) as [->|(ws & a & d & ->)]; [done |].
  rewrite last_ptr_snoc. intros [= ->]. unfold addrs. rewrite fmap_app. set_solver.
Qed.

Lemma head_ptr_in {D} (ys : list (nat * D)) b : Some b = head_ptr ys None → b ∈ addrs ys.
Proof. destruct ys as [|[a d] ys]; [done |]. intros [= ->]. simpl. set_solver. Qed.

(** Removal and insertion on the static array. *)
Lemma array_remove {D} l (h : store D) ys a d zs :
  represents l h (ys ++ (a, d) :: zs) → array_ok h (ys ++ (a, d) :: zs) →
  ∃ l' h', DoublyLinkedListRemoveNode (Some a) l h = Some (l', h') ∧
    represents l' h' (ys ++ zs) ∧ array_ok h' (ys ++ zs) ∧ h' !! a = Some zero_node.
Proof.
  intros Hr Hok. destruct (remove_spec l h ys a d zs Hr) as (l' & h' & E & Hr' & Ha).
  exists l', h'. split; [done |]. split; [done |]. split; [|done].
  pose proof (represents_lookup _ _ _ _ _ _ Hr) as Hn.
  eapply frame_array_ok; [exact Hok | eapply remove_frame; [apply Hr | exact Hn | exact E] |].
  intros b n Hb Hnot Hor. assert (b = a) as ->; [|congruence].
  rewrite addrs_middle in Hor. unfold addrs in *. rewrite fmap_app in *. simpl in Hor.
  destruct Hor as [[[= ->]|[H|[H|H]%elem_of_cons]%elem_of_cons]%elem_of_cons|[->|Hin]]; try done.
  - apply last_ptr_in in H. unfold addrs in H. set_solver.
  - apply head_ptr_in in H. unfold addrs in H. set_solver.
  - by apply elem_of_nil in H.
Qed.

Lemma array_insert_head {D} l (h : store D) xs d a :
  represents l h xs → array_ok h xs → allocator h = Some a →
  ∃ l' h', DoublyLinkedListInsertAtHead (Some d) l h = Some (l', h') ∧
    represents l' h' ((a, d) :: xs) ∧ array_ok h' ((a, d) :: xs).
Proof.
  intros Hr Hok Ha. destruct (insert_head_spec l h xs d a Hr Ha) as (l' & h' & E & Hr').
  exists l', h'. split; [done |]. split; [done |].
  eapply frame_array_ok; [exact Hok | by eapply insert_head_frame |].
  intros b n Hb Hnot Hor. exfalso. apply Hnot. simpl.
  destruct Hor as [[[= ->]|[H|H]%elem_of_cons]%elem_of_cons|Hin]; [set_solver | | | set_solver].
  - rewrite (rep_first _ _ _ Hr) in H. apply head_ptr_in in H. set_solver.
  - by apply elem_of_nil in H.
Qed.

(** A list never has more elements than the array. *)
Lemma array_length {D} l (h : store D) xs :
  represents l h xs → array_ok h xs → (length xs <= kNodesAmount)%nat.
Proof.
  intros Hr [Hdom _]. rewrite <-(length_fmap fst xs). fold (addrs xs).
  rewrite <-(length_seq kNodesAmount 0). apply submseteq_length, NoDup_submseteq.
  { apply Hr. }
  intros a Ha. apply elem_of_seq. split; [lia |]. apply Hdom.
  unfold addrs in Ha. apply list_elem_of_fmap in Ha as ([a' d] & -> & Hin).
  apply list_elem_of_split in Hin as (ys & zs & ->).
  simpl. rewrite (represents_lookup _ _ _ _ _ _ Hr). by eexists.
Qed.

(** ** Properties *)


Definition one_element : option (DoublyLinkedList * store nat) :=
  DoublyLinkedListInsertAtHead (Some 7%nat) DoublyLinkedListInitialize initial_array.


(** Removing any node of a represented list succeeds, unlinks exactly that
    element and gives its node back to the allocator zeroed; destroying a list
    terminates within one iteration per node, zeroes every node of the list
    and touches no other. *)
Theorem list_remove_destroy_refines {D} `{!NodeAllocator D} l (h : store D) ys a d zs :
  represents l h (ys ++ (a, d) :: zs) →
  (∃ l' h', DoublyLinkedListRemoveNode (Some a) l h = Some (l', h') ∧
     represents l' h' (ys ++ zs) ∧ h' !! a = Some zero_node) ∧
  (∃ h', DoublyLinkedListDestroy (S (length (ys ++ (a, d) :: zs))) l h
         = Some (mkList None None false, h') ∧
     (∀ b, b ∈ addrs (ys ++ (a, d) :: zs) → h' !! b = Some zero_node) ∧
     (∀ b, b ∉ addrs (ys ++ (a, d) :: zs) → h' !! b = h !! b)).
Proof.
  intros Hr. split; [by apply remove_spec with d |].
  pose proof Hr as [Hf _ Hs Hn Hg]. unfold DoublyLinkedListDestroy. rewrite Hf.
  destruct (destroy_loop_spec (S (length (ys ++ (a, d) :: zs))) l h None
    (ys ++ (a, d) :: zs)) as (h' & E & H1 & H2); [done..|lia|].
  exists h'. by rewrite E.
Qed.

Lemma list_remove_destroy_refines_witness :
  ∃ l h, one_element = Some (l, h) ∧
    ∃ l' h', DoublyLinkedListRemoveNode (Some 0%nat) l h = Some (l', h') ∧
      represents l' h' ([] : list (nat * nat)) ∧ h' !! 0%nat = Some zero_node.
Proof.
  destruct (insert_head_spec DoublyLinkedListInitialize (initial_array : store nat)
    [] 7%nat 0%nat (represents_initial _) initial_allocator) as (l & h & E & Hr).
  exists l, h. split; [exact E |].
  exact (proj1 (list_remove_destroy_refines l h [] 0%nat 7%nat [] Hr)).
Defined.
