(* ===== verification/XorShift.v ===== *)
(** * [utils/xorshiftrandom.c] and [utils/random.c]

    The 32-bit xorshift generator behind the connection-ID incarnation and the
    function-pointer record it is used through. *)

From Stdlib Require Import Zdivisibility.
From S2P Require Import Prelude.

(** The file-global [xor_shift_seed]. *)
Definition SetXorShiftSeed (seed : Z) : Z := u32 seed.

(** [now] is the value of [time(NULL)], read only when the seed is zero. *)
Definition CalculateNextSeed (now : Z) (xor_shift_seed : Z) : Z :=
  let s := if xor_shift_seed =? 0 then SetXorShiftSeed now else xor_shift_seed in
  let s := Z.lxor s (u32 (s ≪ 13)) in
  let s := Z.lxor s (s ≫ 17) in
  Z.lxor s (u32 (s ≪ 5)).

(** Returns the value and the new seed. *)
Definition NextXorShiftUint32 (now : Z) (xor_shift_seed : Z) : Z * Z :=
  let s := CalculateNextSeed now xor_shift_seed in (s, s).

(** [Random]: the two function pointers, here on the generator's state. *)
Record Random (S : Type) := mkRandom {
  set_seed : Z → S;
  get_next_uint32 : S → Z * S
}.
Arguments mkRandom {S}. Arguments set_seed {S}. Arguments get_next_uint32 {S}.

Definition RandomNew {S} (set_seed : Z → S) (get_next_uint32 : S → Z * S) : Random S :=
  mkRandom set_seed get_next_uint32.

(** ** Lemmas *)

Lemma lxor_u32 a b : is_u32 a → is_u32 b → is_u32 (Z.lxor a b).
Proof.
  unfold is_u32. intros Ha Hb. split; [apply Z.lxor_nonneg; lia |].
  destruct (Z.eq_dec (Z.lxor a b) 0) as [->|Hne]; [lia |].
  change 4294967296 with (2 ^ 32).
  assert (0 <= Z.lxor a b) by (apply Z.lxor_nonneg; lia).
  apply Z.log2_lt_pow2; [lia |].
  pose proof (Z.log2_lxor a b ltac:(lia) ltac:(lia)).
  assert (∀ x, 0 <= x < 4294967296 → Z.log2 x < 32) as Hlog.
  { intros x Hx. destruct (Z.eq_dec x 0) as [->|]; [simpl; lia |].
    apply Z.log2_lt_pow2; lia. }
  pose proof (Hlog a Ha). pose proof (Hlog b Hb). lia.
Qed.

(** A left xorshift step is injective at zero: the multiplier [2^k - 1] is odd. *)
Lemma xorshift_left_nonzero x k :
  is_u32 x → 0 < k <= 32 → x ≠ 0 → Z.lxor x (u32 (x ≪ k)) ≠ 0.
Proof.
  intros Hx Hk Hne H%Z.lxor_eq. apply Hne. unfold is_u32 in Hx.
  rewrite Z.shiftl_mul_pow2 in H by lia. unfold u32 in H.
  assert (Hdiv : (2 ^ 32 | (2 ^ k - 1) * x)).
  { exists (x * 2 ^ k / 2 ^ 32). change (2 ^ 32) with 4294967296.
    pose proof (Z.div_mod (x * 2 ^ k) 4294967296 ltac:(lia)). lia. }
  assert (Hgcd : Z.gcd (2 ^ 32) (2 ^ k - 1) = 1).
  { apply Z.coprime_pow_l; [lia |]. unfold Z.coprime.
    replace (2 ^ k - 1) with (1 + (2 ^ (k - 1) - 1) * 2).
    - by rewrite Z.gcd_add_mult_diag_r.
    - replace k with (Z.succ (k - 1)) at 2 by lia. rewrite Z.pow_succ_r by lia. lia. }
  pose proof (Z.gauss _ _ _ Hdiv Hgcd) as Hx'.
  destruct (Z.eq_dec x 0) as [|Hx0]; [done |].
  apply Z.divide_pos_le in Hx'; lia.
Qed.

Lemma xorshift_right_nonzero x k :
  is_u32 x → 0 < k → x ≠ 0 → Z.lxor x (x ≫ k) ≠ 0.
Proof.
  intros Hx Hk Hne H%Z.lxor_eq. apply Hne. unfold is_u32 in Hx.
  rewrite Z.shiftr_div_pow2 in H by lia.
  assert (1 < 2 ^ k) by (apply Z.pow_gt_1; lia).
  pose proof (Z.div_lt x (2 ^ k)). lia.
Qed.

Lemma shiftr_u32 x k : is_u32 x → 0 <= k → is_u32 (x ≫ k).
Proof.
  unfold is_u32. intros Hx Hk. rewrite Z.shiftr_div_pow2 by lia.
  assert (0 < 2 ^ k) by (apply Z.pow_pos_nonneg; lia).
  split; [apply Z.div_pos; lia |].
  apply Z.le_lt_trans with x; [apply Z.div_le_upper_bound; nia | lia].
Qed.

(** ** Properties *)

(** The generator never gets stuck: the seed stays a non-zero 32-bit value
    from any non-zero seed, for every number of steps, and a zero seed is
    replaced by the (non-zero) current time first. *)
Theorem xorshift_never_zero now seed n :
  is_u32 seed → u32 now ≠ 0 → (seed ≠ 0 ∨ (0 < n)%nat) →
  let s := Nat.iter n (fun s => snd (NextXorShiftUint32 now s)) seed in
  is_u32 s ∧ s ≠ 0.
Proof.
  intros Hseed Hnow Hn.
  assert (Hstep : ∀ s, is_u32 s →
    is_u32 (CalculateNextSeed now s) ∧ CalculateNextSeed now s ≠ 0).
  { intros s Hs. unfold CalculateNextSeed, SetXorShiftSeed.
    set (s0 := if s =? 0 then _ else _).
    assert (is_u32 s0 ∧ s0 ≠ 0) as [H0 N0].
    { unfold s0. destruct (Z.eqb_spec s 0); auto using u32_range. }
    set (s1 := Z.lxor s0 _). assert (is_u32 s1 ∧ s1 ≠ 0) as [H1 N1].
    { split; [apply lxor_u32; auto using u32_range |].
      apply xorshift_left_nonzero; auto; lia. }
    set (s2 := Z.lxor s1 _). assert (is_u32 s2 ∧ s2 ≠ 0) as [H2 N2].
    { split; [apply lxor_u32; auto; by apply shiftr_u32 |].
      by apply xorshift_right_nonzero. }
    split; [apply lxor_u32; auto using u32_range |].
    apply xorshift_left_nonzero; auto; lia. }
  assert (Hall : ∀ n, is_u32 (Nat.iter n
    (fun s => snd (NextXorShiftUint32 now s)) seed)).
  { intros k; induction k; simpl; [done | by apply Hstep]. }
  destruct n as [|n]; simpl; [intuition lia |]. by apply Hstep.
Qed.

Lemma xorshift_never_zero_witness :
  snd (NextXorShiftUint32 1700000000 0) ≠ 0.
Proof.
  refine (proj2 (xorshift_never_zero 1700000000 0 1 _ _ _)).
  - unfold is_u32; lia.
  - vm_compute; discriminate.
  - right; lia.
Defined.
