(* ===== verification/SocketTimer.v ===== *)
(** * [ports/socket_timer.c]

    The array of per-socket time stamps that drives the encapsulation
    inactivity timeout.  A [SocketTimer *] into the array is an index. *)

From S2P Require Import Prelude.

Definition kEipInvalidSocket : Z := -1.

Record SocketTimer := mkSocketTimer {
  timer_socket : Z;
  last_update : Z
}.

Definition SocketTimerSetSocket (socket : Z) (t : SocketTimer) : SocketTimer :=
  mkSocketTimer socket (last_update t).

Definition SocketTimerSetLastUpdate (actual_time : Z) (t : SocketTimer) : SocketTimer :=
  mkSocketTimer (timer_socket t) actual_time.

Definition SocketTimerGetLastUpdate (t : SocketTimer) : Z := last_update t.

Definition SocketTimerClear (t : SocketTimer) : SocketTimer :=
  mkSocketTimer kEipInvalidSocket 0.

Definition SocketTimerArrayInitialize (ts : list SocketTimer) : list SocketTimer :=
  SocketTimerClear <$> ts.

(** The search loop from index [i] on. *)
Fixpoint find_timer (i : nat) (socket : Z) (ts : list SocketTimer) : option nat :=
  match ts with
  | [] => None
  | t :: ts => if socket =? timer_socket t then Some i else find_timer (S i) socket ts
  end.

Definition SocketTimerArrayGetSocketTimer (ts : list SocketTimer) (socket : Z)
  : option nat := find_timer 0 socket ts.

Definition SocketTimerArrayGetEmptySocketTimer (ts : list SocketTimer)
  : option nat := SocketTimerArrayGetSocketTimer ts kEipInvalidSocket.

(** Writing through a returned pointer; NULL is undefined. *)
Definition at_timer (p : option nat) (f : SocketTimer → SocketTimer)
    (ts : list SocketTimer) : option (list SocketTimer) :=
  i ← p; t ← ts !! i; Some (<[i := f t]> ts).

(** [SocketTimerSetLastUpdate] is the only operation that checks for NULL. *)
Definition at_timer_checked (p : option nat) (f : SocketTimer → SocketTimer)
    (ts : list SocketTimer) : option (list SocketTimer) :=
  match p with None => Some ts | Some _ => at_timer p f ts end.

(** ** Lemmas *)

Lemma find_timer_Some i socket ts j :
  find_timer i socket ts = Some j ↔
  ∃ k t, j = (i + k)%nat ∧ ts !! k = Some t ∧ timer_socket t = socket ∧
    ∀ k' t', (k' < k)%nat → ts !! k' = Some t' → timer_socket t' ≠ socket.
Proof.
  revert i; induction ts as [|t ts IH]; intros i; simpl.
  { split; [done |]. intros (k & t & _ & H & _). done. }
  destruct (Z.eqb_spec socket (timer_socket t)) as [->|Hne].
  - split.
    + intros [= <-]. exists 0%nat, t. split_and!; [lia|done|done|]. intros; lia.
    + intros ([|k] & t' & -> & Ht & Hs & Hmin); [by rewrite Nat.add_0_r |].
      destruct (Hmin 0%nat t); [lia|done|done].
  - rewrite IH. split.
    + intros (k & t' & -> & Ht & Hs & Hmin). exists (S k), t'.
      split_and!; [lia|done|done|]. intros [|k'] u ? Hu; simpl in Hu.
      * simplify_eq. by intros ?.
      * apply (Hmin k'); [lia | done].
    + intros ([|k] & t' & -> & Ht & Hs & Hmin); simplify_eq/=.
      exists k, t'. split_and!; [lia|done|done|]. intros k' u ? Hu.
      apply (Hmin (S k')); [lia | done].
Qed.

Lemma find_timer_None i socket ts :
  find_timer i socket ts = None ↔ Forall (fun t => timer_socket t ≠ socket) ts.
Proof.
  revert i; induction ts as [|t ts IH]; intros i; simpl; [naive_solver |].
  destruct (Z.eqb_spec socket (timer_socket t)) as [->|Hne].
  - split; [done |]. intros [? _]%Forall_cons_iff. done.
  - rewrite IH, Forall_cons_iff. naive_solver.
Qed.

(** After initialisation every timer is free. *)
Lemma SocketTimerArrayInitialize_empty t ts :
  SocketTimerArrayGetEmptySocketTimer (SocketTimerArrayInitialize (t :: ts)) = Some 0%nat.
Proof. done. Qed.
