(* ===== verification/EPath.v ===== *)
(** * [cip/cipepath.c] and [cip/cipelectronickey.c]

    The segment bytes of an EPATH: classification, the setters that build a
    segment byte, logical values, electronic keys, and path comparison.  A path
    pointer is the list of the bytes from it on; a setter returns the updated
    bytes.  [OPENER_ASSERT] failures are [None]. *)

From S2P Require Import Prelude EndianConv.

(** ** Enumerations of [cipepath.h] *)

Inductive SegmentType :=
| kSegmentTypePortSegment | kSegmentTypeLogicalSegment | kSegmentTypeNetworkSegment
| kSegmentTypeSymbolicSegment | kSegmentTypeDataSegment
| kSegmentTypeDataTypeConstructed | kSegmentTypeDataTypeElementary
| kSegmentTypeReserved | kSegmentTypeInvalid.

Inductive LogicalSegmentLogicalType :=
| kLogicalSegmentLogicalTypeClassId | kLogicalSegmentLogicalTypeInstanceId
| kLogicalSegmentLogicalTypeMemberId | kLogicalSegmentLogicalTypeConnectionPoint
| kLogicalSegmentLogicalTypeAttributeId | kLogicalSegmentLogicalTypeSpecial
| kLogicalSegmentLogicalTypeServiceId | kLogicalSegmentLogicalTypeExtendedLogical
| kLogicalSegmentLogicalTypeInvalid.

Inductive LogicalSegmentExtendedLogicalType :=
| kLogicalSegmentExtendedLogicalTypeReserved
| kLogicalSegmentExtendedLogicalTypeArrayIndex
| kLogicalSegmentExtendedLogicalTypeIndirectArrayIndex
| kLogicalSegmentExtendedLogicalTypeBitIndex
| kLogicalSegmentExtendedLogicalTypeIndirectBitIndex
| kLogicalSegmentExtendedLogicalTypeStructureMemberNumber
| kLogicalSegmentExtendedLogicalTypeStructureMemberHandle
| kLogicalSegmentExtendedLogicalTypeInvalid.

Inductive LogicalSegmentLogicalFormat :=
| kLogicalSegmentLogicalFormatEightBit | kLogicalSegmentLogicalFormatSixteenBit
| kLogicalSegmentLogicalFormatThirtyTwoBit | kLogicalSegmentLogicalFormatInvalid.

Inductive LogicalSegmentSpecialTypeLogicalFormat :=
| kLogicalSegmentSpecialTypeLogicalFormatReserved
| kLogicalSegmentSpecialTypeLogicalFormatElectronicKey.

Inductive ElectronicKeySegmentFormat :=
| kElectronicKeySegmentFormatReserved | kElectronicKeySegmentFormatKeyFormat4.

Inductive NetworkSegmentSubtype :=
| kNetworkSegmentSubtypeReserved | kNetworkSegmentSubtypeScheduleSegment
| kNetworkSegmentSubtypeFixedTagSegment
| kNetworkSegmentSubtypeProductionInhibitTimeInMilliseconds
| kNetworkSegmentSubtypeSafetySegment
| kNetworkSegmentSubtypeProductionInhibitTimeInMicroseconds
| kNetworkSegmentSubtypeExtendedNetworkSegment.

Inductive DataSegmentSubtype :=
| kDataSegmentSubtypeReserved | kDataSegmentSubtypeSimpleData
| kDataSegmentSubtypeANSIExtendedSymbol.

Inductive SymbolicSegmentFormat :=
| kSymbolicSegmentFormatASCII | kSymbolicSegmentFormatExtendedString.

Inductive SymbolicSegmentExtendedFormat :=
| kSymbolicSegmentExtendedFormatDoubleByteChars
| kSymbolicSegmentExtendedFormatTripleByteChars
| kSymbolicSegmentExtendedFormatNumericSymbolUSINT
| kSymbolicSegmentExtendedFormatNumericSymbolUINT
| kSymbolicSegmentExtendedFormatNumericSymbolUDINT
| kSymbolicSegmentExtendedFormatReserved.

#[export] Instance SegmentType_eqdec : EqDecision SegmentType.
Proof. solve_decision. Defined.
#[export] Instance LogicalType_eqdec : EqDecision LogicalSegmentLogicalType.
Proof. solve_decision. Defined.
#[export] Instance SpecialFormat_eqdec : EqDecision LogicalSegmentSpecialTypeLogicalFormat.
Proof. solve_decision. Defined.
#[export] Instance KeyFormat_eqdec : EqDecision ElectronicKeySegmentFormat.
Proof. solve_decision. Defined.
#[export] Instance NetworkSubtype_eqdec : EqDecision NetworkSegmentSubtype.
Proof. solve_decision. Defined.
#[export] Instance DataSubtype_eqdec : EqDecision DataSegmentSubtype.
Proof. solve_decision. Defined.
#[export] Instance SymbolicFormat_eqdec : EqDecision SymbolicSegmentFormat.
Proof. solve_decision. Defined.

(** ** Segment type *)

Definition segment_type_of (byte : Z) : SegmentType :=
  let segment_type := byte .& 0xE0 in
  if segment_type =? 0x00 then kSegmentTypePortSegment
  else if segment_type =? 0x20 then kSegmentTypeLogicalSegment
  else if segment_type =? 0x40 then kSegmentTypeNetworkSegment
  else if segment_type =? 0x60 then kSegmentTypeSymbolicSegment
  else if segment_type =? 0x80 then kSegmentTypeDataSegment
  else if segment_type =? 0xA0 then kSegmentTypeDataTypeConstructed
  else if segment_type =? 0xC0 then kSegmentTypeDataTypeElementary
  else if segment_type =? 0xE0 then kSegmentTypeReserved
  else kSegmentTypeInvalid.

Definition GetPathSegmentType (cip_path : list Z) : option SegmentType :=
  b ← load cip_path 0; Some (segment_type_of b).

(** [*cip_path = b] *)
Definition store_first (b : Z) (cip_path : list Z) : option (list Z) :=
  match cip_path with [] => None | _ :: p => Some (b :: p) end.

Definition SetPathSegmentType (t : SegmentType) (cip_path : list Z)
  : option (list Z) :=
  match t with
  | kSegmentTypePortSegment => store_first 0x00 cip_path
  | kSegmentTypeLogicalSegment => store_first 0x20 cip_path
  | kSegmentTypeNetworkSegment => store_first 0x40 cip_path
  | kSegmentTypeSymbolicSegment => store_first 0x60 cip_path
  | kSegmentTypeDataSegment => store_first 0x80 cip_path
  | kSegmentTypeDataTypeConstructed => store_first 0xA0 cip_path
  | kSegmentTypeDataTypeElementary => store_first 0xC0 cip_path
  | kSegmentTypeReserved => store_first 0xE0 cip_path
  | kSegmentTypeInvalid => None
  end.

(** ** Port segments *)

Definition kPortSegmentExtendedPort : Z := 15.

Definition GetPathPortSegmentExtendedLinkAddressSizeBit (cip_path : list Z)
  : option bool :=
  b ← load cip_path 0; Some (0x10 =? b .& 0x10).

Definition GetPathPortSegmentPortIdentifier (cip_path : list Z) : option Z :=
  b ← load cip_path 0;
  let port_identifier := b .& 0x0F in
  t ← GetPathSegmentType cip_path;
  assert! bool_decide (kSegmentTypePortSegment = t);
  assert! negb (port_identifier =? 0);
  Some port_identifier.

Definition or_first (v : Z) (cip_path : list Z) : option (list Z) :=
  b ← load cip_path 0; store_first (u8 (b .| v)) cip_path.

Definition SetPathPortSegmentPortIdentifier (port_identifier : Z)
    (cip_path : list Z) : option (list Z) :=
  assert! (port_identifier <? 16);
  or_first port_identifier cip_path.

Definition GetPathPortSegmentLinkAddressSize (cip_path : list Z) : option Z :=
  x ← GetPathPortSegmentExtendedLinkAddressSizeBit cip_path;
  assert! x;
  load cip_path 1.

Definition extended_port_position (cip_path : list Z) : option nat :=
  x ← GetPathPortSegmentExtendedLinkAddressSizeBit cip_path;
  Some (if x : bool then 2%nat else 1%nat).

Definition GetPathPortSegmentExtendedPortNumber (cip_path : list Z) : option Z :=
  id ← GetPathPortSegmentPortIdentifier cip_path;
  assert! (kPortSegmentExtendedPort =? id);
  pos ← extended_port_position cip_path;
  b0 ← load cip_path pos; b1 ← load cip_path (pos + 1);
  Some (b0 + (b1 ≪ 8)).

Definition SetPathPortSegmentExtendedPortIdentifier (id : Z) (cip_path : list Z)
  : option (list Z) :=
  p ← SetPathPortSegmentPortIdentifier kPortSegmentExtendedPort cip_path;
  pos ← extended_port_position p;
  p ← write_bytes p (Z.of_nat pos) [u8 (id .& 0x00FF)];
  write_bytes p (Z.of_nat pos + 1) [u8 ((id .& 0xFF00) ≫ 8)].

(** ** Logical segments *)

Definition logical_type_of (byte : Z) : LogicalSegmentLogicalType :=
  let logical_type := byte .& 0x1C in
  if logical_type =? 0x00 then kLogicalSegmentLogicalTypeClassId
  else if logical_type =? 0x04 then kLogicalSegmentLogicalTypeInstanceId
  else if logical_type =? 0x08 then kLogicalSegmentLogicalTypeMemberId
  else if logical_type =? 0x0C then kLogicalSegmentLogicalTypeConnectionPoint
  else if logical_type =? 0x10 then kLogicalSegmentLogicalTypeAttributeId
  else if logical_type =? 0x14 then kLogicalSegmentLogicalTypeSpecial
  else if logical_type =? 0x18 then kLogicalSegmentLogicalTypeServiceId
  else if logical_type =? 0x1C then kLogicalSegmentLogicalTypeExtendedLogical
  else kLogicalSegmentLogicalTypeInvalid.

Definition assert_logical (cip_path : list Z) : option unit :=
  t ← GetPathSegmentType cip_path;
  assert! bool_decide (kSegmentTypeLogicalSegment = t); Some tt.

Definition GetPathLogicalSegmentLogicalType (cip_path : list Z)
  : option LogicalSegmentLogicalType :=
  _ ← assert_logical cip_path;
  b ← load cip_path 0; Some (logical_type_of b).

Definition SetPathLogicalSegmentLogicalType (t : LogicalSegmentLogicalType)
    (cip_path : list Z) : option (list Z) :=
  _ ← assert_logical cip_path;
  match t with
  | kLogicalSegmentLogicalTypeClassId => or_first 0x00 cip_path
  | kLogicalSegmentLogicalTypeInstanceId => or_first 0x04 cip_path
  | kLogicalSegmentLogicalTypeMemberId => or_first 0x08 cip_path
  | kLogicalSegmentLogicalTypeConnectionPoint => or_first 0x0C cip_path
  | kLogicalSegmentLogicalTypeAttributeId => or_first 0x10 cip_path
  | kLogicalSegmentLogicalTypeSpecial => or_first 0x14 cip_path
  | kLogicalSegmentLogicalTypeServiceId => or_first 0x18 cip_path
  | kLogicalSegmentLogicalTypeExtendedLogical => or_first 0x1C cip_path
  | kLogicalSegmentLogicalTypeInvalid => None
  end.

Definition logical_format_of (byte : Z) : LogicalSegmentLogicalFormat :=
  let logical_format := byte .& 0x03 in
  if logical_format =? 0x00 then kLogicalSegmentLogicalFormatEightBit
  else if logical_format =? 0x01 then kLogicalSegmentLogicalFormatSixteenBit
  else if logical_format =? 0x02 then kLogicalSegmentLogicalFormatThirtyTwoBit
  else kLogicalSegmentLogicalFormatInvalid.

Definition GetPathLogicalSegmentLogicalFormat (cip_path : list Z)
  : option LogicalSegmentLogicalFormat :=
  _ ← assert_logical cip_path;
  b ← load cip_path 0; Some (logical_format_of b).

Definition SetPathLogicalSegmentLogicalFormat (f : LogicalSegmentLogicalFormat)
    (cip_path : list Z) : option (list Z) :=
  _ ← assert_logical cip_path;
  match f with
  | kLogicalSegmentLogicalFormatEightBit => or_first 0x00 cip_path
  | kLogicalSegmentLogicalFormatSixteenBit => or_first 0x01 cip_path
  | kLogicalSegmentLogicalFormatThirtyTwoBit => or_first 0x02 cip_path
  | kLogicalSegmentLogicalFormatInvalid => None
  end.

(** The enumerator [kLogicalSegmentLogicalFormatInvalid] has value 3. *)
Definition CipEpathGetLogicalValue (message : list Z) : option (Z * list Z) :=
  f ← GetPathLogicalSegmentLogicalFormat message;
  message ← ptr_add message 1;
  match f with
  | kLogicalSegmentLogicalFormatEightBit => GetByteFromMessage message
  | kLogicalSegmentLogicalFormatSixteenBit =>
      message ← ptr_add message 1; GetWordFromMessage message
  | kLogicalSegmentLogicalFormatThirtyTwoBit =>
      message ← ptr_add message 1; GetDwordFromMessage message
  | kLogicalSegmentLogicalFormatInvalid => Some (3, message)
  end.

Definition CipEpathSetLogicalValue (logical_value : Z)
    (f : LogicalSegmentLogicalFormat) (message : ENIPMessage) : option ENIPMessage :=
  match f with
  | kLogicalSegmentLogicalFormatEightBit =>
      assert! (logical_value <=? 255);
      AddSintToMessage (u8 logical_value) message
  | kLogicalSegmentLogicalFormatSixteenBit =>
      let message := MoveMessageNOctets 1 message in
      assert! (logical_value <=? 65535);
      AddIntToMessage (u16 logical_value) message
  | kLogicalSegmentLogicalFormatThirtyTwoBit =>
      let message := MoveMessageNOctets 1 message in
      AddDintToMessage logical_value message
  | kLogicalSegmentLogicalFormatInvalid => None
  end.

Definition GetPathLogicalSegmentExtendedLogicalType (cip_path : list Z)
  : option LogicalSegmentExtendedLogicalType :=
  t ← GetPathLogicalSegmentLogicalType cip_path;
  assert! bool_decide (kLogicalSegmentLogicalTypeExtendedLogical = t);
  x ← load cip_path 1;
  Some (if x =? 0x01 then kLogicalSegmentExtendedLogicalTypeArrayIndex
        else if x =? 0x02 then kLogicalSegmentExtendedLogicalTypeIndirectArrayIndex
        else if x =? 0x03 then kLogicalSegmentExtendedLogicalTypeBitIndex
        else if x =? 0x04 then kLogicalSegmentExtendedLogicalTypeIndirectBitIndex
        else if x =? 0x05 then kLogicalSegmentExtendedLogicalTypeStructureMemberNumber
        else if x =? 0x06 then kLogicalSegmentExtendedLogicalTypeStructureMemberHandle
        else if x =? 0x00 then kLogicalSegmentExtendedLogicalTypeReserved
        else kLogicalSegmentExtendedLogicalTypeInvalid).

Definition GetPathLogicalSegmentSpecialTypeLogicalType (cip_path : list Z)
  : option LogicalSegmentSpecialTypeLogicalFormat :=
  _ ← assert_logical cip_path;
  t ← GetPathLogicalSegmentLogicalType cip_path;
  assert! bool_decide (kLogicalSegmentLogicalTypeSpecial = t);
  b ← load cip_path 0;
  Some (if b .& 0x03 =? 0x00
        then kLogicalSegmentSpecialTypeLogicalFormatElectronicKey
        else kLogicalSegmentSpecialTypeLogicalFormatReserved).

Definition GetPathLogicalSegmentElectronicKeyFormat (cip_path : list Z)
  : option ElectronicKeySegmentFormat :=
  t ← GetPathLogicalSegmentSpecialTypeLogicalType cip_path;
  assert! bool_decide (kLogicalSegmentSpecialTypeLogicalFormatElectronicKey = t);
  b ← load cip_path 1;
  Some (if b =? 0x04 then kElectronicKeySegmentFormatKeyFormat4
        else kElectronicKeySegmentFormatReserved).

(** ** Electronic key, format 4 *)

Record ElectronicKeyFormat4 := mkKey {
  key_vendor_id : Z;
  key_device_type : Z;
  key_product_code : Z;
  key_major_revision_compatibility : Z;
  key_minor_revision : Z
}.

Definition ElectronicKeyFormat4GetMajorRevision (k : ElectronicKeyFormat4) : Z :=
  key_major_revision_compatibility k .& 0x7F.

Definition ElectronicKeyFormat4GetMajorRevisionCompatibility
    (k : ElectronicKeyFormat4) : bool :=
  0x80 =? (key_major_revision_compatibility k .& 0x80).

(** A new key is zero. *)
Definition ElectronicKeyFormat4New : ElectronicKeyFormat4 := mkKey 0 0 0 0 0.

Definition ElectronicKeyFormat4SetVendorId (v : Z) (k : ElectronicKeyFormat4) : ElectronicKeyFormat4 :=
  mkKey v (key_device_type k) (key_product_code k) (key_major_revision_compatibility k)
    (key_minor_revision k).
Definition ElectronicKeyFormat4SetDeviceType (v : Z) (k : ElectronicKeyFormat4) : ElectronicKeyFormat4 :=
  mkKey (key_vendor_id k) v (key_product_code k) (key_major_revision_compatibility k)
    (key_minor_revision k).
Definition ElectronicKeyFormat4SetProductCode (v : Z) (k : ElectronicKeyFormat4) : ElectronicKeyFormat4 :=
  mkKey (key_vendor_id k) (key_device_type k) v (key_major_revision_compatibility k)
    (key_minor_revision k).
Definition ElectronicKeyFormat4SetMajorRevisionCompatibility (v : Z) (k : ElectronicKeyFormat4)
  : ElectronicKeyFormat4 :=
  mkKey (key_vendor_id k) (key_device_type k) (key_product_code k) v (key_minor_revision k).
Definition ElectronicKeyFormat4SetMinorRevision (v : Z) (k : ElectronicKeyFormat4) : ElectronicKeyFormat4 :=
  mkKey (key_vendor_id k) (key_device_type k) (key_product_code k)
    (key_major_revision_compatibility k) v.

(** The key is a new one: the callers give one. *)
Definition GetElectronicKeyFormat4FromMessage (message : list Z)
  : option (ElectronicKeyFormat4 * list Z) :=
  f ← GetPathLogicalSegmentElectronicKeyFormat message;
  assert! bool_decide (kElectronicKeySegmentFormatKeyFormat4 = f);
  message ← ptr_add message 2;
  let key := ElectronicKeyFormat4New in
  '(v, message) ← GetUintFromMessage message;
  let key := ElectronicKeyFormat4SetVendorId v key in
  '(v, message) ← GetUintFromMessage message;
  let key := ElectronicKeyFormat4SetDeviceType v key in
  '(v, message) ← GetUintFromMessage message;
  let key := ElectronicKeyFormat4SetProductCode v key in
  '(v, message) ← GetByteFromMessage message;
  let key := ElectronicKeyFormat4SetMajorRevisionCompatibility v key in
  '(v, message) ← GetUsintFromMessage message;
  Some (ElectronicKeyFormat4SetMinorRevision v key, message).

(** ** Network, symbolic and data segments *)

Definition GetPathNetworkSegmentSubtype (cip_path : list Z)
  : option NetworkSegmentSubtype :=
  t ← GetPathSegmentType cip_path;
  assert! bool_decide (kSegmentTypeNetworkSegment = t);
  b ← load cip_path 0;
  let subtype := b .& 0x1F in
  Some (if subtype =? 0x01 then kNetworkSegmentSubtypeScheduleSegment
        else if subtype =? 0x02 then kNetworkSegmentSubtypeFixedTagSegment
        else if subtype =? 0x03
        then kNetworkSegmentSubtypeProductionInhibitTimeInMilliseconds
        else if subtype =? 0x04 then kNetworkSegmentSubtypeSafetySegment
        else if subtype =? 0x10
        then kNetworkSegmentSubtypeProductionInhibitTimeInMicroseconds
        else if subtype =? 0x1F then kNetworkSegmentSubtypeExtendedNetworkSegment
        else kNetworkSegmentSubtypeReserved).

Definition GetPathNetworkSegmentProductionInhibitTimeInMilliseconds
    (cip_path : list Z) : option Z :=
  t ← GetPathSegmentType cip_path;
  assert! bool_decide (kSegmentTypeNetworkSegment = t);
  s ← GetPathNetworkSegmentSubtype cip_path;
  assert! bool_decide (kNetworkSegmentSubtypeProductionInhibitTimeInMilliseconds = s);
  load cip_path 1.

Definition GetPathNetworkSegmentProductionInhibitTimeInMicroseconds
    (cip_path : list Z) : option Z :=
  t ← GetPathSegmentType cip_path;
  assert! bool_decide (kSegmentTypeNetworkSegment = t);
  s ← GetPathNetworkSegmentSubtype cip_path;
  assert! bool_decide (kNetworkSegmentSubtypeProductionInhibitTimeInMicroseconds = s);
  words ← load cip_path 1;
  assert! (2 =? words);
  message_runner ← ptr_add cip_path 2;
  '(v, _) ← GetUdintFromMessage message_runner;
  Some v.

Definition GetPathSymbolicSegmentFormat (cip_path : list Z)
  : option SymbolicSegmentFormat :=
  b ← load cip_path 0;
  Some (if 0x00 =? (b .& 0x1F) then kSymbolicSegmentFormatExtendedString
        else kSymbolicSegmentFormatASCII).

Definition GetPathSymbolicSegmentASCIIFormatLength (cip_path : list Z) : option Z :=
  b ← load cip_path 0;
  let length := b .& 0x1F in
  assert! negb (0 =? length);
  Some length.

Definition GetPathSymbolicSegmentNumericType (cip_path : list Z)
  : option SymbolicSegmentExtendedFormat :=
  b ← load cip_path 1;
  let numeric_subtype := b .& 0x1F in
  Some (if numeric_subtype =? 0x06
        then kSymbolicSegmentExtendedFormatNumericSymbolUSINT
        else if numeric_subtype =? 0x07
        then kSymbolicSegmentExtendedFormatNumericSymbolUINT
        else if numeric_subtype =? 0x08
        then kSymbolicSegmentExtendedFormatNumericSymbolUDINT
        else kSymbolicSegmentExtendedFormatReserved).

Definition GetPathSymbolicSegmentExtendedFormat (cip_path : list Z)
  : option SymbolicSegmentExtendedFormat :=
  t ← GetPathSegmentType cip_path;
  assert! bool_decide (kSegmentTypeSymbolicSegment = t);
  f ← GetPathSymbolicSegmentFormat cip_path;
  assert! bool_decide (kSymbolicSegmentFormatExtendedString = f);
  b ← load cip_path 1;
  let extended_type := b .& 0xE0 in
  if extended_type =? 0x20 then Some kSymbolicSegmentExtendedFormatDoubleByteChars
  else if extended_type =? 0x40 then Some kSymbolicSegmentExtendedFormatTripleByteChars
  else if extended_type =? 0xC0 then GetPathSymbolicSegmentNumericType cip_path
  else Some kSymbolicSegmentExtendedFormatReserved.

Definition GetPathDataSegmentSubtype (cip_path : list Z) : option DataSegmentSubtype :=
  b ← load cip_path 0;
  let data_subtype := b .& 0x1F in
  Some (if data_subtype =? 0x00 then kDataSegmentSubtypeSimpleData
        else if data_subtype =? 0x11 then kDataSegmentSubtypeANSIExtendedSymbol
        else kDataSegmentSubtypeReserved).

Definition GetPathDataSegmentSimpleDataWordLength (cip_path : list Z) : option Z :=
  t ← GetPathSegmentType cip_path;
  assert! bool_decide (kSegmentTypeDataSegment = t);
  s ← GetPathDataSegmentSubtype cip_path;
  assert! bool_decide (kDataSegmentSubtypeSimpleData = s);
  message_runner ← ptr_add cip_path 1;
  '(v, _) ← GetUsintFromMessage message_runner;
  Some v.

(** ** Special purpose *)

Definition CipEpathGetNeededLogicalFormatForValue (value : Z)
  : LogicalSegmentLogicalFormat :=
  let f := kLogicalSegmentLogicalFormatEightBit in
  let f := if 0xFF <? value then kLogicalSegmentLogicalFormatSixteenBit else f in
  if 0xFFFF <? value then kLogicalSegmentLogicalFormatThirtyTwoBit else f.

(** The comparison loop over [n] remaining bytes. *)
Fixpoint epath_equal_loop (n : nat) (path1 path2 : list Z) : option bool :=
  match n with
  | O => Some true
  | S n =>
      b1 ← load path1 0; b2 ← load path2 0;
      if b1 =? b2 then
        path1 ← ptr_add path1 1; path2 ← ptr_add path2 1;
        epath_equal_loop n path1 path2
      else Some false
  end.

Definition CipEpathEqual (path1 : list Z) (path1_length : Z)
    (path2 : list Z) (path2_length : Z) : option bool :=
  if negb (path1_length =? path2_length) then Some false
  else epath_equal_loop (Z.to_nat path1_length) path1 path2.

(** ** Lemmas *)

(** A byte-indexed boolean fact is checked on all 256 bytes by evaluation. *)
Lemma forall_byte (P : Z → bool) :
  forallb P (Z.of_nat <$> seq 0 256) = true → ∀ b, is_u8 b → P b = true.
Proof.
  intros H b Hb. rewrite forallb_forall in H. apply H.
  apply in_map_iff. exists (Z.to_nat b). unfold is_u8 in Hb.
  split; [lia |]. apply in_seq. lia.
Qed.

(** The header byte of a logical segment, built by the three setters. *)
Definition build_logical_header (l : LogicalSegmentLogicalType)
    (f : LogicalSegmentLogicalFormat) (p : list Z) : option (list Z) :=
  p ← SetPathSegmentType kSegmentTypeLogicalSegment p;
  p ← SetPathLogicalSegmentLogicalType l p;
  SetPathLogicalSegmentLogicalFormat f p.

Lemma build_logical_header_spec l f b p :
  l ≠ kLogicalSegmentLogicalTypeInvalid → f ≠ kLogicalSegmentLogicalFormatInvalid →
  ∃ h, build_logical_header l f (b :: p) = Some (h :: p) ∧ is_u8 h ∧
    segment_type_of h = kSegmentTypeLogicalSegment ∧
    logical_type_of h = l ∧ logical_format_of h = f.
Proof.
  intros Hl Hf. destruct l, f; try done.
  all: eexists; split; [reflexivity |].
  all: split; [unfold is_u8; vm_compute; split; congruence | done].
Qed.

(** Skipping a byte keeps whatever the buffer held. *)
Lemma holds_move out m :
  holds out m → Z.of_nat (length out) < 512 →
  ∃ b, is_u8 b ∧ holds (out ++ [b]) (MoveMessageNOctets 1 m).
Proof.
  intros ((Hlen & Hb & Hu) & Hp & Hused & Ht) Hroom.
  unfold PC_OPENER_ETHERNET_BUFFER_SIZE in Hlen.
  destruct (lookup_lt_is_Some_2 (message_buffer m) (length out)) as [b Hlk]; [lia |].
  assert (is_u8 b) as Hb8 by by eapply Forall_lookup_1 in Hb.
  exists b. split; [done |].
  unfold holds, wf_message, MoveMessageNOctets, add_used, move_position, set_used,
    set_position; simpl.
  split; [split; [done | split; [done | apply u64_range]] |].
  rewrite Hp, Hused, length_app; simpl.
  split; [f_equal; lia |]. split; [rewrite u64_id by (unfold is_u64; lia); lia |].
  rewrite Nat.add_1_r. rewrite <-Ht at 2. by apply take_S_r.
Qed.

Lemma needed_format_valid v :
  CipEpathGetNeededLogicalFormatForValue v ≠ kLogicalSegmentLogicalFormatInvalid.
Proof. unfold CipEpathGetNeededLogicalFormatForValue. by repeat case_match. Qed.

Lemma GetByte_app b p : GetByteFromMessage (b :: p) = Some (b, p).
Proof. done. Qed.

Lemma GetWord_le v p : GetWordFromMessage (le_bytes 2 v ++ p) = Some (u16 v, p).
Proof. exact (GetUint_le v p). Qed.

Lemma GetDword_le v p : GetDwordFromMessage (le_bytes 4 v ++ p) = Some (u32 v, p).
Proof. exact (GetUdint_le v p). Qed.

Lemma assert_logical_header h p :
  segment_type_of h = kSegmentTypeLogicalSegment → assert_logical (h :: p) = Some tt.
Proof. intros H. unfold assert_logical, GetPathSegmentType; simpl. by rewrite H. Qed.

Lemma epath_equal_loop_spec n p1 p2 :
  (n <= length p1)%nat → (n <= length p2)%nat →
  epath_equal_loop n p1 p2 = Some (bool_decide (take n p1 = take n p2)).
Proof.
  revert p1 p2; induction n as [|n IH]; intros [|b1 p1] [|b2 p2] H1 H2;
    simpl in *; try lia; try done.
  destruct (Z.eqb_spec b1 b2) as [->|Hne].
  - rewrite ?ptr_add_1, ?drop_0; simpl. rewrite IH by lia. f_equal. apply bool_decide_ext. split; congruence.
  - f_equal. symmetry. apply bool_decide_eq_false. congruence.
Qed.

Lemma CipEpathGetLogicalValue_cons h b p f :
  segment_type_of h = kSegmentTypeLogicalSegment → logical_format_of h = f →
  CipEpathGetLogicalValue (h :: b :: p)
  = match f with
    | kLogicalSegmentLogicalFormatEightBit => Some (b, p)
    | kLogicalSegmentLogicalFormatSixteenBit => GetWordFromMessage p
    | kLogicalSegmentLogicalFormatThirtyTwoBit => GetDwordFromMessage p
    | kLogicalSegmentLogicalFormatInvalid => Some (3, b :: p)
    end.
Proof.
  intros Hs Hf. unfold CipEpathGetLogicalValue, GetPathLogicalSegmentLogicalFormat.
  rewrite assert_logical_header by done. cbn [mbind option_bind load lookup list_lookup].
  rewrite ptr_add_1, Hf. by destruct f.
Qed.

(** ** Properties *)

(** A logical segment written with the format needed for its value is read
    back: from any message with room, the header byte built by the setters
    classifies as the logical segment of that type and format, and
    [CipEpathGetLogicalValue] on the bytes written by [CipEpathSetLogicalValue]
    (pad byte included) returns the value and stops right behind it. *)
Theorem logical_segment_roundtrip l v out m rest :
  l ≠ kLogicalSegmentLogicalTypeInvalid → is_u32 v →
  holds out m → Z.of_nat (length out) <= 507 →
  let f := CipEpathGetNeededLogicalFormatForValue v in
  ∃ h m' body, build_logical_header l f [0] = Some [h] ∧
    CipEpathSetLogicalValue v f m = Some m' ∧ holds (out ++ body) m' ∧
    GetPathLogicalSegmentLogicalType (h :: body ++ rest) = Some l ∧
    CipEpathGetLogicalValue (h :: body ++ rest) = Some (v, rest).
Proof.
  intros Hl Hv Hm Hroom f.
  destruct (build_logical_header_spec l f 0 []) as (h & Eh & _ & Hs & Hlt & Hf);
    [done | apply needed_format_valid |].
  destruct (holds_move out m Hm) as (b & Hb & Hm1); [lia |].
  assert (Hput : ∀ n o mm, holds o mm → Z.of_nat (length o + n) <= 512 →
    ∃ m', put (le_bytes n v) mm = Some m' ∧ holds (o ++ le_bytes n v) m').
  { intros n o mm Ho Hn. apply holds_put; [done | apply le_bytes_bytes |].
    by rewrite length_app, length_le_bytes. }
  exists h. rewrite Eh.
  assert (Ht : ∀ p, GetPathLogicalSegmentLogicalType (h :: p) = Some l).
  { intros p. unfold GetPathLogicalSegmentLogicalType.
    rewrite assert_logical_header by done. simpl. by rewrite Hlt. }
  assert (Hg := λ b p, CipEpathGetLogicalValue_cons h b p f Hs Hf).
  unfold is_u32 in Hv.
  clear Eh Hs Hlt Hf. unfold f, CipEpathGetNeededLogicalFormatForValue in *.
  destruct (Z.ltb_spec 0xFFFF v); [| destruct (Z.ltb_spec 0xFF v)]; simpl.
  - destruct (Hput 4%nat _ _ Hm1) as (m' & E & Hm'); [rewrite length_app; simpl; lia |].
    exists m', (b :: le_bytes 4 v). rewrite AddDintToMessage_put, E, Ht, <-app_comm_cons, Hg.
    split_and!; [done | done | by rewrite <-(assoc_L (++)) in Hm' | done |].
    rewrite GetDword_le.
    by rewrite u32_id by (unfold is_u32; lia).
  - rewrite (proj2 (Z.leb_le v 65535)) by lia.
    destruct (Hput 2%nat _ _ Hm1) as (m' & E & Hm'); [rewrite length_app; simpl; lia |].
    exists m', (b :: le_bytes 2 v).
    rewrite u16_id, AddIntToMessage_put, E, Ht, <-app_comm_cons, Hg by (unfold is_u16; lia).
    split_and!; [done | done | by rewrite <-(assoc_L (++)) in Hm' | done |].
    rewrite GetWord_le.
    by rewrite u16_id by (unfold is_u16; lia).
  - rewrite (proj2 (Z.leb_le v 255)) by lia.
    destruct (Hput 1%nat _ _ Hm) as (m' & E & Hm'); [lia |].
    exists m', (le_bytes 1 v).
    rewrite u8_id, AddSintToMessage_put, E, Ht by (unfold is_u8; lia).
    change (le_bytes 1 v ++ rest) with (u8 v :: rest). rewrite Hg.
    split_and!; [done | done | done | done |]. by rewrite u8_id by (unfold is_u8; lia).
Qed.

Lemma logical_segment_roundtrip_witness :
  ∃ h m' body,
    build_logical_header kLogicalSegmentLogicalTypeInstanceId
      kLogicalSegmentLogicalFormatSixteenBit [0] = Some [h] ∧
    CipEpathSetLogicalValue 0x1234 kLogicalSegmentLogicalFormatSixteenBit
      InitializeENIPMessage = Some m' ∧
    CipEpathGetLogicalValue (h :: body ++ [9]) = Some (0x1234, [9]).
Proof.
  destruct (logical_segment_roundtrip kLogicalSegmentLogicalTypeInstanceId 0x1234
    [] InitializeENIPMessage [9]) as (h & m' & body & H1 & H2 & _ & _ & H3).
  - done.
  - unfold is_u32; lia.
  - apply holds_init.
  - simpl; lia.
  - exists h, m', body. split; [exact H1 | split; [exact H2 | exact H3]].
Defined.

(** [CipEpathEqual] on readable paths never faults and decides equality of
    the declared lengths and of that many leading bytes. *)
Theorem CipEpathEqual_spec p1 n1 p2 n2 :
  0 <= n1 <= Z.of_nat (length p1) → 0 <= n2 <= Z.of_nat (length p2) →
  CipEpathEqual p1 n1 p2 n2
  = Some (bool_decide (n1 = n2 ∧ take (Z.to_nat n1) p1 = take (Z.to_nat n2) p2)).
Proof.
  intros H1 H2. unfold CipEpathEqual. destruct (Z.eqb_spec n1 n2) as [->|Hne]; simpl.
  - rewrite epath_equal_loop_spec by lia. f_equal. apply bool_decide_ext. naive_solver.
  - f_equal. symmetry. apply bool_decide_eq_false. naive_solver.
Qed.

Lemma CipEpathEqual_spec_witness :
  CipEpathEqual [1; 2; 3] 2 [1; 2; 4] 2 = Some true.
Proof. rewrite (CipEpathEqual_spec [1; 2; 3] 2 [1; 2; 4] 2); [done | simpl; lia | simpl; lia]. Defined.
