(* ===== verification/CipStrings.v ===== *)
(** * [cip/cipstring.c] and [cip/cipstringi.c]

    The CIP character string objects.  A string object owns its symbol buffer:
    [Some bytes] is the allocated buffer, [None] the NULL pointer.  Allocation
    succeeds; a string object given by a NULL pointer is [None] of the outer
    option. *)

From S2P Require Import Prelude EndianConv.

(** ** The string structs of [ciptypes.h] *)

Record CipShortString := mkShortString {
  ss_length : Z; ss_string : option (list Z) }.
Record CipString := mkString {
  st_length : Z; st_string : option (list Z) }.
Record CipString2 := mkString2 {
  s2_length : Z; s2_string : option (list Z) }.
Record CipStringN := mkStringN {
  sn_size : Z; sn_length : Z; sn_string : option (list Z) }.

(** ** [cipstring.c] *)

Definition ClearCipStringN (cip_string : option CipStringN) : option CipStringN :=
  match cip_string with
  | Some _ => Some (mkStringN 0 0 None)
  | None => None
  end.

Definition ClearCipString2 (cip_string : option CipString2) : option CipString2 :=
  match cip_string with
  | Some s => Some (match s2_string s with Some _ => mkString2 0 None | None => s end)
  | None => None
  end.

Definition ClearCipString (cip_string : option CipString) : option CipString :=
  match cip_string with
  | Some s => Some (match st_string s with Some _ => mkString 0 None | None => s end)
  | None => None
  end.

Definition ClearCipShortString (cip_string : option CipShortString)
  : option CipShortString :=
  match cip_string with
  | Some s => Some (match ss_string s with Some _ => mkShortString 0 None | None => s end)
  | None => None
  end.

(** The setters; the result is the object after the call.  With [str_len = 0]
    the object is only cleared. *)
Definition SetCipStringNByData (cip_string : option CipStringN) (str_len size : Z)
    (data : list Z) : option (option CipStringN) :=
  let cip_string := ClearCipStringN cip_string in
  if negb (0 =? str_len) then
    _ ← cip_string;
    bs ← load_n data (Z.to_nat (str_len * size));
    Some (Some (mkStringN size str_len (Some bs)))
  else Some cip_string.

Definition SetCipString2ByData (cip_string : option CipString2) (str_len : Z)
    (data : list Z) : option (option CipString2) :=
  let cip_string := ClearCipString2 cip_string in
  if negb (0 =? str_len) then
    _ ← cip_string;
    bs ← load_n data (Z.to_nat (str_len * 2));
    Some (Some (mkString2 str_len (Some bs)))
  else Some cip_string.

Definition SetCipStringByData (cip_string : option CipString) (str_len : Z)
    (data : list Z) : option (option CipString) :=
  let cip_string := ClearCipString cip_string in
  if negb (0 =? str_len) then
    _ ← cip_string;
    bs ← load_n data (Z.to_nat str_len);
    Some (Some (mkString str_len (Some bs)))
  else Some cip_string.

Definition SetCipShortStringByData (cip_string : option CipShortString) (str_len : Z)
    (data : list Z) : option (option CipShortString) :=
  let cip_string := ClearCipShortString cip_string in
  if negb (0 =? str_len) then
    _ ← cip_string;
    bs ← load_n data (Z.to_nat str_len);
    Some (Some (mkShortString str_len (Some bs)))
  else Some cip_string.

(** [strlen]: the position of the first NUL of the object. *)
Fixpoint strlen (p : list Z) : option Z :=
  match p with
  | [] => None
  | b :: p => if b =? 0 then Some 0 else n ← strlen p; Some (n + 1)
  end.

Definition SetCipStringNByCstr (cip_string : option CipStringN) (string : list Z)
    (symbol_size : Z) : option (option CipStringN) :=
  n ← strlen string;
  assert! negb (symbol_size =? 0);
  if negb (n mod symbol_size =? 0) then Some cip_string
  else SetCipStringNByData cip_string (u16 (u16 n / symbol_size)) symbol_size string.

Definition SetCipString2ByCstr (cip_string : option CipString2) (string : list Z)
  : option (option CipString2) :=
  n ← strlen string; SetCipString2ByData cip_string (u16 n / 2) string.

Definition SetCipStringByCstr (cip_string : option CipString) (string : list Z)
  : option (option CipString) :=
  n ← strlen string; SetCipStringByData cip_string (u16 n) string.

Definition SetCipShortStringByCstr (cip_string : option CipShortString)
    (string : list Z) : option (option CipShortString) :=
  n ← strlen string; SetCipShortStringByData cip_string (u8 n) string.

(** [num], [len] are [size_t]; the result is the [int] and the buffer. *)
Definition GetCstrFromCipShortString (string : option CipShortString)
    (buf : option (list Z)) (len : Z) : option (Z * option (list Z)) :=
  match string, buf with
  | Some string, Some buf =>
      if len <? 1 then Some (-1, Some buf) else
      let num := ss_length string in
      let '(rc, num) := if len <=? num
                        then (s32 (u64 (num - len - 1)), len - 1) else (0, num) in
      bs ← (if num =? 0 then Some []
            else s ← ss_string string; load_n s (Z.to_nat num));
      buf ← write_bytes buf 0 bs;
      buf ← write_bytes buf num [0];
      Some (rc, Some buf)
  | _, buf => Some (-1, buf)
  end.

Arguments GetCstrFromCipShortString : simpl never.

(** ** [cipstringi.c]: international strings *)

(** Type codes of the string types, the values of [CipDataType]. *)
Definition kCipString : Z := 0xD0.
Definition kCipString2 : Z := 0xD5.
Definition kCipStringN : Z := 0xD9.
Definition kCipShortString : Z := 0xDA.

(** The object the [string] field of a [CipStringIStruct] points to. *)
Inductive StringObject :=
| ShortStringObject (s : CipShortString)
| StringObject1 (s : CipString)
| String2Object (s : CipString2)
| StringNObject (s : CipStringN).

Record CipStringIStruct := mkStringIStruct {
  language_char_1 : Z; language_char_2 : Z; language_char_3 : Z;
  char_string_struct : Z; character_set : Z;
  string : option StringObject }.

Record CipStringI := mkStringI {
  number_of_strings : Z;
  array_of_string_i_structs : list CipStringIStruct }.

(** Length in symbols and content in bytes of the object read through a pointer
    of the type that [char_string_struct] names; another object there is [None]. *)
Definition as_short (o : option StringObject) : option CipShortString :=
  match o with Some (ShortStringObject s) => Some s | _ => None end.
Definition as_string (o : option StringObject) : option CipString :=
  match o with Some (StringObject1 s) => Some s | _ => None end.
Definition as_string2 (o : option StringObject) : option CipString2 :=
  match o with Some (String2Object s) => Some s | _ => None end.
Definition as_stringN (o : option StringObject) : option CipStringN :=
  match o with Some (StringNObject s) => Some s | _ => None end.

Definition string_i_symbols (s : CipStringIStruct) : option Z :=
  let t := char_string_struct s in
  if t =? kCipShortString then x ← as_short (string s); Some (ss_length x)
  else if t =? kCipString then x ← as_string (string s); Some (st_length x)
  else if t =? kCipString2 then x ← as_string2 (string s); Some (s2_length x)
  else if t =? kCipStringN then x ← as_stringN (string s); Some (sn_length x)
  else Some 0.

(** The loop over the first [n] array elements. *)
Fixpoint any_string_empty (n : nat) (l : list CipStringIStruct) : option bool :=
  match n with
  | O => Some false
  | S n =>
      match l with
      | [] => None
      | s :: l =>
          len ← string_i_symbols s;
          if 0 =? len then Some true else any_string_empty n l
      end
  end.

Definition CipStringIsAnyStringEmpty (s : CipStringI) : option bool :=
  any_string_empty (Z.to_nat (number_of_strings s)) (array_of_string_i_structs s).

Definition set_string (o : option StringObject) (s : CipStringIStruct) :=
  mkStringIStruct (language_char_1 s) (language_char_2 s) (language_char_3 s)
    (char_string_struct s) (character_set s) o.

(** A fresh zeroed object of the type named by the struct. *)
Definition CipStringICreateStringStructure (to : CipStringIStruct)
  : CipStringIStruct :=
  let t := char_string_struct to in
  if t =? kCipShortString then set_string (Some (ShortStringObject (mkShortString 0 None))) to
  else if t =? kCipString then set_string (Some (StringObject1 (mkString 0 None))) to
  else if t =? kCipString2 then set_string (Some (String2Object (mkString2 0 None))) to
  else if t =? kCipStringN then set_string (Some (StringNObject (mkStringN 0 0 None))) to
  else to.

(** [CipCalloc(n, _)] then [memcpy] of [n] bytes: the copy of a buffer.  With a
    length of 0 nothing is read and the new buffer is empty. *)
Definition copy_buffer (from : option (list Z)) (n : Z) : option (option (list Z)) :=
  if n =? 0 then Some (Some [])
  else s ← from; bs ← load_n s (Z.to_nat n); Some (Some bs).

Definition CipStringIDeepCopyInternalString (to from : CipStringIStruct)
  : option CipStringIStruct :=
  let t := char_string_struct to in
  if t =? kCipShortString then
    _ ← as_short (string to); f ← as_short (string from);
    b ← copy_buffer (ss_string f) (ss_length f);
    Some (set_string (Some (ShortStringObject (mkShortString (ss_length f) b))) to)
  else if t =? kCipString then
    _ ← as_string (string to); f ← as_string (string from);
    b ← copy_buffer (st_string f) (st_length f);
    Some (set_string (Some (StringObject1 (mkString (st_length f) b))) to)
  else if t =? kCipString2 then
    _ ← as_string2 (string to); f ← as_string2 (string from);
    b ← copy_buffer (s2_string f) (2 * s2_length f);
    Some (set_string (Some (String2Object (mkString2 (s2_length f) b))) to)
  else if t =? kCipStringN then
    _ ← as_stringN (string to); f ← as_stringN (string from);
    b ← copy_buffer (sn_string f) (sn_size f * sn_length f);
    Some (set_string (Some (StringNObject (mkStringN (sn_size f) (sn_length f) b))) to)
  else Some to.

Definition copy_string_i_struct (from : CipStringIStruct) : option CipStringIStruct :=
  let to := mkStringIStruct (language_char_1 from) (language_char_2 from)
    (language_char_3 from) (char_string_struct from) (character_set from) None in
  CipStringIDeepCopyInternalString (CipStringICreateStringStructure to) from.

Fixpoint copy_string_i_structs (n : nat) (from : list CipStringIStruct)
  : option (list CipStringIStruct) :=
  match n with
  | O => Some []
  | S n =>
      match from with
      | [] => None
      | s :: from =>
          s' ← copy_string_i_struct s;
          l ← copy_string_i_structs n from;
          Some (s' :: l)
      end
  end.

Definition CipStringICopy (from : CipStringI) : option CipStringI :=
  l ← copy_string_i_structs (Z.to_nat (number_of_strings from))
        (array_of_string_i_structs from);
  Some (mkStringI (number_of_strings from) l).

(** One element read from the request data. *)
Definition decode_string_object (t : Z) (p : list Z)
  : option (option StringObject * list Z) :=
  if t =? kCipShortString then
    '(length, p) ← GetUsintFromMessage p;
    s ← SetCipShortStringByData (Some (mkShortString 0 None)) length p;
    p ← ptr_add p (Z.to_nat length);
    Some (option_map ShortStringObject s, p)
  else if t =? kCipString then
    '(length, p) ← GetUintFromMessage p;
    s ← SetCipStringByData (Some (mkString 0 None)) length p;
    p ← ptr_add p (Z.to_nat length);
    Some (option_map StringObject1 s, p)
  else if t =? kCipString2 then
    '(length, p) ← GetUintFromMessage p;
    s ← SetCipString2ByData (Some (mkString2 0 None)) length p;
    p ← ptr_add p (Z.to_nat (length * 2));
    Some (option_map String2Object s, p)
  else if t =? kCipStringN then
    '(size, p) ← GetUintFromMessage p;
    '(length, p) ← GetUintFromMessage p;
    s ← SetCipStringNByData (Some (mkStringN 0 0 None)) length size p;
    p ← ptr_add p (Z.to_nat (length * size));
    Some (option_map StringNObject s, p)
  else Some (None, p).

Definition decode_string_i_struct (p : list Z) : option (CipStringIStruct * list Z) :=
  '(c1, p) ← GetUsintFromMessage p;
  '(c2, p) ← GetUsintFromMessage p;
  '(c3, p) ← GetUsintFromMessage p;
  '(t, p) ← GetUsintFromMessage p;
  '(cs, p) ← GetUintFromMessage p;
  '(o, p) ← decode_string_object t p;
  Some (mkStringIStruct c1 c2 c3 t cs o, p).

Fixpoint decode_string_i_structs (n : nat) (p : list Z)
  : option (list CipStringIStruct * list Z) :=
  match n with
  | O => Some ([], p)
  | S n =>
      '(s, p) ← decode_string_i_struct p;
      '(l, p) ← decode_string_i_structs n p;
      Some (s :: l, p)
  end.

Definition CipStringIDecodeFromMessage (data : list Z) : option (CipStringI * list Z) :=
  '(n, data) ← GetUsintFromMessage data;
  '(l, data) ← decode_string_i_structs (Z.to_nat n) data;
  Some (mkStringI n l, data).

(** Length in bytes (a 16-bit variable) and buffer, as [CipStringICompare] reads
    them. *)
Definition string_i_bytes (s : CipStringIStruct) : option (Z * option (list Z)) :=
  let t := char_string_struct s in
  if t =? kCipShortString then x ← as_short (string s); Some (ss_length x, ss_string x)
  else if t =? kCipString then x ← as_string (string s); Some (st_length x, st_string x)
  else if t =? kCipString2 then
    x ← as_string2 (string s); Some (u16 (s2_length x * 2), s2_string x)
  else if t =? kCipStringN then
    x ← as_stringN (string s); Some (u16 (sn_length x * sn_size x), sn_string x)
  else Some (0, None).

Definition memcmp_equal (n : Z) (p q : list Z) : option bool :=
  p ← load_n p (Z.to_nat n); q ← load_n q (Z.to_nat n);
  Some (bool_decide (p = q)).

(** One comparison of the inner loop. *)
Definition string_i_match (s1 s2 : CipStringIStruct) : option bool :=
  '(len_1, data_1) ← string_i_bytes s1;
  '(len_2, data_2) ← string_i_bytes s2;
  match data_1, data_2 with
  | Some d1, Some d2 => if len_1 =? len_2 then memcmp_equal len_1 d1 d2 else Some false
  | _, _ => Some false
  end.

Fixpoint exists_c {A} (f : A → option bool) (n : nat) (l : list A) : option bool :=
  match n with
  | O => Some false
  | S n =>
      match l with
      | [] => None
      | a :: l => b ← f a; if b : bool then Some true else exists_c f n l
      end
  end.

Definition CipStringICompare (s1 s2 : CipStringI) : option bool :=
  exists_c (fun a =>
      exists_c (string_i_match a) (Z.to_nat (number_of_strings s2))
        (array_of_string_i_structs s2))
    (Z.to_nat (number_of_strings s1)) (array_of_string_i_structs s1).

(** ** Lemmas *)

(** A string object whose buffer holds what its length says. *)
Definition buffer_ok (n : Z) (b : option (list Z)) : Prop :=
  0 <= n ∧ match b with
           | Some s => n <= Z.of_nat (length s)
           | None => n = 0
           end.

Lemma load_n_take p n : (n <= length p)%nat → load_n p n = Some (take n p).
Proof. intros H. unfold load_n. by rewrite decide_True. Qed.

Lemma load_n_app p q n : length p = n → load_n (p ++ q) n = Some p.
Proof.
  intros <-. rewrite load_n_take by (rewrite length_app; lia). by rewrite take_app_length.
Qed.

Lemma load_n_Some p n bs : load_n p n = Some bs → length bs = n ∧ bs = take n p.
Proof. unfold load_n. case_decide; [| done]. intros [= <-]. rewrite length_take. split; [lia | done]. Qed.

Lemma load_n_self p n : length p = n → load_n p n = Some p.
Proof. intros <-. rewrite load_n_take, take_ge by lia. done. Qed.

Lemma copy_buffer_ok n b :
  buffer_ok n b → ∃ s, copy_buffer b n = Some (Some s) ∧ length s = Z.to_nat n ∧
                       s = take (Z.to_nat n) (default [] b).
Proof.
  intros [Hn Hb]. unfold copy_buffer. destruct (Z.eqb_spec n 0) as [->|]; [by eexists |].
  destruct b as [s|]; [| lia]. simpl. rewrite load_n_take by lia. simpl.
  eexists; split; [done |]. rewrite length_take. split; [lia | done].
Qed.

(** The four string types of an international string. *)
Definition valid_string (s : CipStringIStruct) : Prop :=
  match string s with
  | Some (ShortStringObject x) =>
      char_string_struct s = kCipShortString ∧ buffer_ok (ss_length x) (ss_string x)
  | Some (StringObject1 x) =>
      char_string_struct s = kCipString ∧ buffer_ok (st_length x) (st_string x)
  | Some (String2Object x) =>
      char_string_struct s = kCipString2 ∧ buffer_ok (2 * s2_length x) (s2_string x)
  | Some (StringNObject x) =>
      char_string_struct s = kCipStringN ∧
      buffer_ok (sn_size x * sn_length x) (sn_string x)
  | None => False
  end.

(** Symbol count, symbol size and bytes of a string object. *)
Definition string_content (o : StringObject) : Z * Z * list Z :=
  match o with
  | ShortStringObject x => (ss_length x, 1, take (Z.to_nat (ss_length x)) (default [] (ss_string x)))
  | StringObject1 x => (st_length x, 1, take (Z.to_nat (st_length x)) (default [] (st_string x)))
  | String2Object x => (s2_length x, 2, take (Z.to_nat (2 * s2_length x)) (default [] (s2_string x)))
  | StringNObject x => (sn_length x, sn_size x,
      take (Z.to_nat (sn_size x * sn_length x)) (default [] (sn_string x)))
  end.

Definition same_string_i (a b : CipStringIStruct) : Prop :=
  language_char_1 a = language_char_1 b ∧ language_char_2 a = language_char_2 b ∧
  language_char_3 a = language_char_3 b ∧
  char_string_struct a = char_string_struct b ∧ character_set a = character_set b ∧
  string_content <$> string a = string_content <$> string b.

Lemma copy_string_i_struct_spec s :
  valid_string s →
  ∃ s', copy_string_i_struct s = Some s' ∧ same_string_i s' s ∧ valid_string s'.
Proof.
  destruct s as [c1 c2 c3 t cs o]. unfold valid_string, copy_string_i_struct,
    CipStringICreateStringStructure, CipStringIDeepCopyInternalString; simpl.
  destruct o as [[x|x|x|x]|]; simpl; [..| done].
  all: intros [-> Hb]; simpl.
  all: destruct (copy_buffer_ok _ _ Hb) as (b & E & Hl & Hc).
  all: destruct Hb as [Hn _].
  all: rewrite E; simpl; eexists; split; [done |]; split.
  1, 3, 5, 7: unfold same_string_i; simpl; rewrite <-Hc; split_and!; try done;
    simpl; by rewrite take_ge by lia.
  all: simpl; split; [done |]; split; [done |]; lia.
Qed.

(** Decoding an element consumes what an element of that content occupies. *)
Lemma copy_string_i_structs_spec l :
  Forall valid_string l →
  ∃ l', copy_string_i_structs (length l) l = Some l' ∧
        Forall2 same_string_i l' l ∧ Forall valid_string l'.
Proof.
  induction 1 as [|s l Hs _ (l' & E & H1 & H2)]; [eexists; split; [done | by split] |].
  destruct (copy_string_i_struct_spec s Hs) as (s' & Es & Hsame & Hv).
  simpl. rewrite Es; simpl. rewrite E; simpl. eexists; split; [done |].
  split; by constructor.
Qed.

Lemma strlen_cstr s rest :
  Forall (λ b, b ≠ 0) s → strlen (s ++ 0 :: rest) = Some (Z.of_nat (length s)).
Proof.
  induction 1 as [|b s Hb _ IH]; [done |]. simpl.
  rewrite (proj2 (Z.eqb_neq b 0)) by done. rewrite IH; simpl. f_equal. lia.
Qed.

Lemma SetCipShortStringByData_spec c n p :
  0 <= n <= Z.of_nat (length p) →
  ∃ s, SetCipShortStringByData (Some c) n p = Some (Some s) ∧
       (n ≠ 0 → s = mkShortString n (Some (take (Z.to_nat n) p))) ∧
       (n = 0 → s = match ss_string c with Some _ => mkShortString 0 None | None => c end).
Proof.
  intros Hn. unfold SetCipShortStringByData, ClearCipShortString.
  destruct (Z.eqb_spec 0 n) as [<-|]; simpl.
  - eexists; split; [done |]. by split.
  - rewrite load_n_take by lia. simpl. eexists; split; [done |]. by split.
Qed.

Lemma write_prefix buf bs :
  (length bs <= length buf)%nat →
  write_bytes buf 0 bs = Some (bs ++ drop (length bs) buf).
Proof. intros H. apply write_bytes_Some. split_and!; [done | lia | done]. Qed.

Lemma write_terminated buf bs n :
  (length bs < length buf)%nat → n = Z.of_nat (length bs) →
  (b ← write_bytes buf 0 bs; write_bytes b n [0])
  = Some (bs ++ 0 :: drop (S (length bs)) buf).
Proof.
  intros Hl ->. pose proof (write_bytes_app buf 0 bs [0]) as H.
  change (0 + Z.of_nat (length bs)) with (Z.of_nat (length bs)) in H. rewrite H.
  rewrite write_prefix by (rewrite length_app; simpl; lia).
  by rewrite <-(assoc_L (++)), length_app, Nat.add_1_r.
Qed.

Lemma bind_nested {A B C} (x : option A) (f : A → option B) (g : B → option C) :
  (a ← x; b ← f a; g b) = (b ← (a ← x; f a); g b).
Proof. by destruct x. Qed.

Lemma GetCstr_copies n s buf len :
  0 <= n <= Z.of_nat (length s) → n < len → len <= Z.of_nat (length buf) →
  GetCstrFromCipShortString (Some (mkShortString n (Some s))) (Some buf) len
  = Some (0, Some (take (Z.to_nat n) s ++ 0 :: drop (S (Z.to_nat n)) buf)).
Proof.
  intros Hn Hlen Hbuf. unfold GetCstrFromCipShortString. cbn [ss_length ss_string].
  rewrite (proj2 (Z.ltb_ge len 1)), (proj2 (Z.leb_gt len n)) by lia.
  set (bs := take (Z.to_nat n) s).
  assert (Hl : length bs = Z.to_nat n) by (unfold bs; rewrite length_take; lia).
  assert (E : (if n =? 0 then Some [] else s ← Some s; load_n s (Z.to_nat n)) = Some bs).
  { destruct (Z.eqb_spec n 0) as [->|]; [done |]. simpl. by rewrite load_n_take by lia. }
  rewrite E. cbn [mbind option_bind]. rewrite bind_nested, write_terminated by lia.
  by rewrite Hl.
Qed.

(** ** Properties *)

(** A short string set from a NUL-terminated C string of at most 255
    characters is given back by [GetCstrFromCipShortString] with return code 0
    and a terminating NUL whenever the buffer has room for it. *)
Theorem short_string_cstr_roundtrip c s rest buf len :
  Forall (λ b, b ≠ 0) s → (0 < length s <= 255)%nat →
  Z.of_nat (length s) < len → len <= Z.of_nat (length buf) →
  ∃ c', SetCipShortStringByCstr (Some c) (s ++ 0 :: rest) = Some (Some c') ∧
    GetCstrFromCipShortString (Some c') (Some buf) len
    = Some (0, Some (s ++ 0 :: drop (S (length s)) buf)).
Proof.
  intros Hs Hl Hlen Hbuf. unfold SetCipShortStringByCstr.
  rewrite strlen_cstr by done. simpl. rewrite u8_id by (unfold is_u8; lia).
  destruct (SetCipShortStringByData_spec c (Z.of_nat (length s)) (s ++ 0 :: rest))
    as (c' & E & Hc & _); [rewrite length_app; lia |].
  exists c'. split; [done |]. rewrite Hc by lia. clear E Hc.
  rewrite Nat2Z.id, take_app_length.
  rewrite GetCstr_copies by lia. by rewrite Nat2Z.id, take_ge by lia.
Qed.

Lemma short_string_cstr_roundtrip_witness :
  ∃ c', SetCipShortStringByCstr (Some (mkShortString 0 None)) [65; 66; 0] = Some (Some c') ∧
    GetCstrFromCipShortString (Some c') (Some [9; 9; 9; 9]) 4
    = Some (0, Some [65; 66; 0; 9]).
Proof.
  apply (short_string_cstr_roundtrip (mkShortString 0 None) [65; 66] [] [9; 9; 9; 9] 4).
  - repeat constructor; lia.
  - simpl; lia.
  - simpl; lia.
  - simpl; lia.
Defined.

(** A string one character longer than the buffer is truncated by two
    characters and nevertheless reported with return code 0, the code documented
    for "the complete string fit". *)
Theorem GetCstr_truncated_reports_ok s buf :
  (2 <= length s <= 255)%nat → length buf = (length s - 1)%nat →
  GetCstrFromCipShortString (Some (mkShortString (Z.of_nat (length s)) (Some s)))
    (Some buf) (Z.of_nat (length s) - 1)
  = Some (0, Some (take (length s - 2) s ++ [0])).
Proof.
  intros Hs Hb. unfold GetCstrFromCipShortString. cbn [ss_length ss_string].
  set (n := length s) in *. rewrite (proj2 (Z.ltb_ge _ 1)) by lia.
  rewrite (proj2 (Z.leb_le _ _)) by lia.
  replace (Z.of_nat n - (Z.of_nat n - 1) - 1) with 0 by lia. change (s32 (u64 0)) with 0.
  replace (Z.of_nat n - 1 - 1) with (Z.of_nat (n - 2)) by lia.
  assert (E : (if Z.of_nat (n - 2) =? 0 then Some []
               else s0 ← Some s; load_n s0 (Z.to_nat (Z.of_nat (n - 2))))
              = Some (take (n - 2) s)).
  { destruct (Z.eqb_spec (Z.of_nat (n - 2)) 0) as [E|].
    - by replace (n - 2)%nat with 0%nat by lia.
    - simpl. rewrite Nat2Z.id, load_n_take by lia. done. }
  rewrite E. simpl. assert (Hl : length (take (n - 2) s) = (n - 2)%nat)
    by (rewrite length_take; lia).
  rewrite bind_nested, write_terminated by lia. simpl.
  by rewrite drop_ge by lia.
Qed.

Lemma GetCstr_truncated_reports_ok_witness :
  GetCstrFromCipShortString (Some (mkShortString 3 (Some [65; 66; 67]))) (Some [0; 0]) 2
  = Some (0, Some [65; 0]).
Proof. apply (GetCstr_truncated_reports_ok [65; 66; 67] [0; 0]); simpl; lia. Defined.

(** [CipStringICopy] of a valid international string succeeds, and every
    copied element has the language, character set, type and content of the
    original and owns a buffer large enough for its length. *)
Theorem CipStringICopy_deep_copy s :
  number_of_strings s = Z.of_nat (length (array_of_string_i_structs s)) →
  Forall valid_string (array_of_string_i_structs s) →
  ∃ s', CipStringICopy s = Some s' ∧ number_of_strings s' = number_of_strings s ∧
    Forall2 same_string_i (array_of_string_i_structs s') (array_of_string_i_structs s) ∧
    Forall valid_string (array_of_string_i_structs s').
Proof.
  intros Hn Hv. unfold CipStringICopy. rewrite Hn, Nat2Z.id.
  destruct (copy_string_i_structs_spec _ Hv) as (l' & -> & H1 & H2). simpl.
  eexists; split; [done |]. by split_and!.
Qed.

Lemma CipStringICopy_deep_copy_witness :
  ∃ s', CipStringICopy
    (mkStringI 1 [mkStringIStruct 101 110 103 kCipShortString 4
                    (Some (ShortStringObject (mkShortString 1 (Some [65]))))]) = Some s' ∧
    number_of_strings s' = 1.
Proof.
  destruct (CipStringICopy_deep_copy
    (mkStringI 1 [mkStringIStruct 101 110 103 kCipShortString 4
                    (Some (ShortStringObject (mkShortString 1 (Some [65]))))]))
    as (s' & E & Hn & _).
  - done.
  - constructor; [| constructor]. split; [done |]. split; simpl; lia.
  - exists s'. by split.
Defined.
