(* ===== verification/CipTypes.v ===== *)
(** * [cip/ciptypes.h], [cip/ciptypes.c], [cip/ciperror.h], [typedefs.h]

    The data model of the CIP layer: requests, responses, attributes, instances
    and classes, and the data objects attributes point to.  Encode and decode
    functions are C function pointers and are held as functions; services and
    callbacks, which receive the whole stack, are held by name and dispatched in
    [CipServices]. *)

From S2P Require Import Prelude EndianConv CipStrings.
From stdpp Require Import strings.
Open Scope Z_scope.

(** ** Status codes *)

Inductive EipStatus := kEipStatusOk | kEipStatusOkSend | kEipStatusError.

#[export] Instance EipStatus_eqdec : EqDecision EipStatus.
Proof. solve_decision. Defined.

(** Enumerators of [CipError] used by the modelled code. *)
Definition kCipErrorSuccess : Z := 0x00.
Definition kCipErrorPathSegmentError : Z := 0x04.
Definition kCipErrorPathDestinationUnknown : Z := 0x05.
Definition kCipErrorPartialTransfer : Z := 0x06.
Definition kCipErrorServiceNotSupported : Z := 0x08.
Definition kCipErrorAttributeListError : Z := 0x0A.
Definition kCipErrorAttributeNotSetable : Z := 0x0E.
Definition kCipErrorNotEnoughData : Z := 0x13.
Definition kCipErrorAttributeNotSupported : Z := 0x14.
Definition kCipErrorTooMuchData : Z := 0x15.
Definition kCipErrorInvalidParameter : Z := 0x20.
Definition kCipErrorPrivilegeViolation : Z := 0x0F.
Definition kCipErrorPathSizeInvalid : Z := 0x26.
Definition kCipErrorInvalidAttributeValue : Z := 0x09.
Definition kCipErrorAttributeNotGettable : Z := 0x2C.
Definition kCipErrorInstanceNotDeletable : Z := 0x2D.

(** Enumerators of [CIPServiceCode]. *)
Definition kGetAttributeAll : Z := 0x01.
Definition kGetAttributeList : Z := 0x03.
Definition kSetAttributeList : Z := 0x04.
Definition kReset : Z := 0x05.
Definition kGetAttributeSingle : Z := 0x0E.
Definition kSetAttributeSingle : Z := 0x10.

(** [CIPAttributeFlag] *)
Definition kNotSetOrGetable : Z := 0x00.
Definition kGetableAll : Z := 0x01.
Definition kGetableSingle : Z := 0x02.
Definition kSetable : Z := 0x04.
Definition kSetAndGetAble : Z := 0x07.
Definition kGetableSingleAndAll : Z := 0x03.
Definition kGetableAllDummy : Z := 0x08.
Definition kPreGetFunc : Z := 0x10.
Definition kPostGetFunc : Z := 0x20.
Definition kPreSetFunc : Z := 0x40.
Definition kPostSetFunc : Z := 0x80.
Definition kNvDataFunc : Z := 0x80.

(** [flags & mask] as a condition. *)
Definition has_flag (flags mask : Z) : bool := negb (flags .& mask =? 0).

(** ** Requests and responses *)

Record CipEpath := mkEpath {
  path_size : Z; class_id : Z; instance_number_of_path : Z; attribute_number_of_path : Z }.

Record CipMessageRouterRequest := mkRequest {
  service : Z;
  request_path : CipEpath;
  request_data_size : Z;
  request_data : list Z   (* read pointer *) }.

Record CipMessageRouterResponse := mkResponse {
  reply_service : Z;
  reserved : Z;
  general_status : Z;
  size_of_additional_status : Z;
  additional_status : list Z;
  message : ENIPMessage }.

Definition set_request_data (p : list Z) (r : CipMessageRouterRequest) :=
  mkRequest (service r) (request_path r) (request_data_size r) p.
Definition set_request_path (p : CipEpath) (r : CipMessageRouterRequest) :=
  mkRequest (service r) p (request_data_size r) (request_data r).
Definition set_path_attribute (a : Z) (p : CipEpath) :=
  mkEpath (path_size p) (class_id p) (instance_number_of_path p) a.

Definition set_reply_service (s : Z) (r : CipMessageRouterResponse) :=
  mkResponse (u8 s) (reserved r) (general_status r) (size_of_additional_status r)
    (additional_status r) (message r).
Definition set_reserved (s : Z) (r : CipMessageRouterResponse) :=
  mkResponse (reply_service r) s (general_status r) (size_of_additional_status r)
    (additional_status r) (message r).
Definition set_general_status (s : Z) (r : CipMessageRouterResponse) :=
  mkResponse (reply_service r) (reserved r) s (size_of_additional_status r)
    (additional_status r) (message r).
Definition set_size_of_additional_status (s : Z) (r : CipMessageRouterResponse) :=
  mkResponse (reply_service r) (reserved r) (general_status r) s
    (additional_status r) (message r).
Definition set_message (m : ENIPMessage) (r : CipMessageRouterResponse) :=
  mkResponse (reply_service r) (reserved r) (general_status r)
    (size_of_additional_status r) (additional_status r) m.

(** ** Attribute data

    The object a [void *data] pointer refers to, with its C type.  An integer
    object has a width in bytes and its value as an unsigned number of that
    width.  Accessing an object through another type is outside the model. *)

Record CipByteArray := mkByteArray { ba_length : Z; ba_data : option (list Z) }.

Inductive CipData :=
| DInt (width : nat) (value : Z)
| DShortString (s : CipShortString)
| DString (s : CipString)
| DString2 (s : CipString2)
| DStringN (s : CipStringN)
| DStringI (s : CipStringI)
| DByteArray (a : CipByteArray)
| DEPath (p : CipEpath)
| DBytes (bs : list Z)
| DStruct (fields : list CipData).

(** [void *data]: fields of the class struct itself, or an object of the stack
    or the application. *)
Inductive DataPtr :=
| ClassRevision | ClassMaxInstance | ClassNumberOfInstances
| MetaHighestAttribute | ClassHighestAttribute
| Object (address : nat).

(** The enumerators of [CipDataType]. *)
Definition kCipAny : Z := 0x00.
Definition kCipBool : Z := 0xC1.
Definition kCipSint : Z := 0xC2.
Definition kCipInt : Z := 0xC3.
Definition kCipDint : Z := 0xC4.
Definition kCipLint : Z := 0xC5.
Definition kCipUsint : Z := 0xC6.
Definition kCipUint : Z := 0xC7.
Definition kCipUdint : Z := 0xC8.
Definition kCipUlint : Z := 0xC9.
Definition kCipReal : Z := 0xCA.
Definition kCipLreal : Z := 0xCB.
Definition kCipStime : Z := 0xCC.
Definition kCipDate : Z := 0xCD.
Definition kCipTimeOfDay : Z := 0xCE.
Definition kCipByte : Z := 0xD1.
Definition kCipWord : Z := 0xD2.
Definition kCipDword : Z := 0xD3.
Definition kCipLword : Z := 0xD4.
Definition kCipFtime : Z := 0xD6.
Definition kCipLtime : Z := 0xD7.
Definition kCipItime : Z := 0xD8.
Definition kCipTime : Z := 0xDB.
Definition kCipEpath : Z := 0xDC.
Definition kCipEngUnit : Z := 0xDD.
Definition kCipUsintUsint : Z := 0xA0.
Definition kCip6Usint : Z := 0xA2.
Definition kCipByteArray : Z := 0xA4.

Definition one_of (t : Z) (l : list Z) : bool := existsb (Z.eqb t) l.

(** The [data] argument of [GetCipDataTypeLength]: NULL, a position in a
    message, or the address of a data object. *)
Inductive LengthData :=
| LNull | LMessage (p : list Z) | LObject (d : CipData).

(** The leading bytes of a data object on a little-endian host: the length
    fields of the string structs, the path size and its (zero) padding. *)
Definition object_bytes (d : CipData) : list Z :=
  match d with
  | DInt w v => le_bytes w v
  | DShortString s => [ss_length s]
  | DString s => le_bytes 2 (st_length s)
  | DString2 s => le_bytes 2 (s2_length s)
  | DStringN s => le_bytes 2 (sn_size s)
  | DEPath p => [path_size p; 0]
  | DBytes bs => bs
  | _ => []
  end.

Definition length_bytes (data : LengthData) : option (list Z) :=
  match data with
  | LNull => None
  | LMessage p => Some p
  | LObject d => Some (object_bytes d)
  end.

(** The result is a [size_t]; the length fields are read as signed integers. *)
Definition GetCipDataTypeLength (type : Z) (data : LengthData) : option Z :=
  if one_of type [kCipBool; kCipSint; kCipUsint; kCipByte] then Some 1
  else if one_of type [kCipInt; kCipUint; kCipWord; kCipUsintUsint; kCipItime;
                       kCipDate; kCipEngUnit] then Some 2
  else if one_of type [kCipDint; kCipUdint; kCipDword; kCipStime; kCipFtime; kCipTime;
                       kCipReal; kCipTimeOfDay] then Some 4
  else if one_of type [kCipLint; kCipUlint; kCipLreal; kCipLword; kCipLtime] then Some 8
  else if type =? kCip6Usint then Some 6
  else if one_of type [kCipString; kCipString2; kCipStringN; kCipEpath] then
    match length_bytes data with
    | None => Some 0
    | Some p => '(n, _) ← GetIntFromMessage p; Some (u64 (n + 2))
    end
  else if type =? kCipShortString then
    match length_bytes data with
    | None => Some 0
    | Some p => '(n, _) ← GetSintFromMessage p; Some (u64 (n + 1))
    end
  else if type =? kCipByteArray then
    match data with
    | LNull => Some 0
    | LObject (DByteArray a) => Some (ba_length a)
    | _ => None
    end
  else Some 0.

(** [struct sockaddr_in], the address a request came from: port and address in
    network byte order. *)
Record SockAddr := mkSockAddr { sin_port : Z; sin_addr : Z }.

(** ** Attributes, services, instances, classes *)

(** [CipAttributeEncodeInMessage] and [CipAttributeDecodeFromMessage]: the
    decoder returns its [int] result, the written object and the updated request
    and response. *)
Definition Encoder : Type := CipData → ENIPMessage → option ENIPMessage.
Definition Decoder : Type :=
  CipData → CipMessageRouterRequest → CipMessageRouterResponse →
  option (Z * CipData * CipMessageRouterRequest * CipMessageRouterResponse).

Record CipAttributeStruct := mkAttribute {
  attribute_number : Z;
  type : Z;
  encode : option Encoder;
  decode : option Decoder;
  attribute_flags : Z;
  data : option DataPtr }.

(** A slot as [CipCalloc] leaves it. *)
Definition empty_attribute : CipAttributeStruct := mkAttribute 0 0 None None 0 None.

(** The functions of type [CipServiceFunction]: those of [cipcommon.c], and
    those of other objects or the application, by number. *)
Inductive CipServiceFunction :=
| FnGetAttributeSingle | FnSetAttributeSingle | FnGetAttributeAll
| FnGetAttributeList | FnSetAttributeList
| FnCipCreateService | FnCipDeleteService | FnCipResetService
| FnOther (id : nat).

Record CipServiceStruct := mkService {
  service_number : Z;
  service_function : option CipServiceFunction;
  service_name : string }.

Definition empty_service : CipServiceStruct := mkService 0 None "".

(** [CipClass *]: the [n]-th class of the message router's list, or its
    metaclass. *)
Inductive ClassPtr := TheClass (n : nat) | MetaClass (n : nat).

Record CipInstance := mkInstance {
  instance_number : Z;
  attributes : list CipAttributeStruct;
  cip_class : option ClassPtr }.

(** Callbacks are held by number ([None] is NULL). *)
Record CipClass := mkClass {
  class_instance : CipInstance;
  class_code : Z;
  revision : Z;
  max_instance : Z;
  number_of_instances : Z;
  number_of_attributes : Z;
  highest_attribute_number : Z;
  get_single_bit_mask : list Z;
  set_bit_mask : list Z;
  get_all_bit_mask : list Z;
  number_of_services : Z;
  instances : list CipInstance;
  services : list CipServiceStruct;
  class_name : string;
  PreGetCallback : option nat;
  PostGetCallback : option nat;
  PreSetCallback : option nat;
  PostSetCallback : option nat;
  PreCreateCallback : option nat;
  PostCreateCallback : option nat;
  PreDeleteCallback : option nat;
  PostDeleteCallback : option nat;
  PreResetCallback : option nat;
  PostResetCallback : option nat }.

(** Field updates of the class struct. *)
Definition upd_masks (gs st ga : list Z) (c : CipClass) : CipClass :=
  mkClass (class_instance c) (class_code c) (revision c) (max_instance c)
    (number_of_instances c) (number_of_attributes c) (highest_attribute_number c)
    gs st ga (number_of_services c) (instances c) (services c) (class_name c)
    (PreGetCallback c) (PostGetCallback c) (PreSetCallback c) (PostSetCallback c)
    (PreCreateCallback c) (PostCreateCallback c) (PreDeleteCallback c)
    (PostDeleteCallback c) (PreResetCallback c) (PostResetCallback c).

Definition upd_instances (max number : Z) (l : list CipInstance) (c : CipClass)
  : CipClass :=
  mkClass (class_instance c) (class_code c) (revision c) (u16 max)
    (u16 number) (number_of_attributes c) (highest_attribute_number c)
    (get_single_bit_mask c) (set_bit_mask c) (get_all_bit_mask c)
    (number_of_services c) l (services c) (class_name c)
    (PreGetCallback c) (PostGetCallback c) (PreSetCallback c) (PostSetCallback c)
    (PreCreateCallback c) (PostCreateCallback c) (PreDeleteCallback c)
    (PostDeleteCallback c) (PreResetCallback c) (PostResetCallback c).

Definition upd_services (l : list CipServiceStruct) (c : CipClass) : CipClass :=
  mkClass (class_instance c) (class_code c) (revision c) (max_instance c)
    (number_of_instances c) (number_of_attributes c) (highest_attribute_number c)
    (get_single_bit_mask c) (set_bit_mask c) (get_all_bit_mask c)
    (number_of_services c) (instances c) l (class_name c)
    (PreGetCallback c) (PostGetCallback c) (PreSetCallback c) (PostSetCallback c)
    (PreCreateCallback c) (PostCreateCallback c) (PreDeleteCallback c)
    (PostDeleteCallback c) (PreResetCallback c) (PostResetCallback c).

Definition upd_class_instance (i : CipInstance) (c : CipClass) : CipClass :=
  mkClass i (class_code c) (revision c) (max_instance c)
    (number_of_instances c) (number_of_attributes c) (highest_attribute_number c)
    (get_single_bit_mask c) (set_bit_mask c) (get_all_bit_mask c)
    (number_of_services c) (instances c) (services c) (class_name c)
    (PreGetCallback c) (PostGetCallback c) (PreSetCallback c) (PostSetCallback c)
    (PreCreateCallback c) (PostCreateCallback c) (PreDeleteCallback c)
    (PostDeleteCallback c) (PreResetCallback c) (PostResetCallback c).

Definition upd_get_set_callbacks (pre_get post_get pre_set post_set : option nat)
    (c : CipClass) : CipClass :=
  mkClass (class_instance c) (class_code c) (revision c) (max_instance c)
    (number_of_instances c) (number_of_attributes c) (highest_attribute_number c)
    (get_single_bit_mask c) (set_bit_mask c) (get_all_bit_mask c)
    (number_of_services c) (instances c) (services c) (class_name c)
    pre_get post_get pre_set post_set
    (PreCreateCallback c) (PostCreateCallback c) (PreDeleteCallback c)
    (PostDeleteCallback c) (PreResetCallback c) (PostResetCallback c).

(** The CIP stack: the classes registered with the message router in
    registration order, each with its metaclass, and the data objects. *)
Record CipStack := mkStack {
  classes : list (CipClass * CipClass);
  objects : gmap nat CipData }.

Definition get_class (p : ClassPtr) (s : CipStack) : option CipClass :=
  match p with
  | TheClass n => fst <$> classes s !! n
  | MetaClass n => snd <$> classes s !! n
  end.

Definition set_class (p : ClassPtr) (c : CipClass) (s : CipStack) : CipStack :=
  mkStack
    (match p with
     | TheClass n => alter (fun '(_, m) => (c, m)) n (classes s)
     | MetaClass n => alter (fun '(k, _) => (k, c)) n (classes s)
     end) (objects s).

(** [*data] for an attribute of an instance of class number [n]. *)
Definition load_data (n : nat) (p : DataPtr) (s : CipStack) : option CipData :=
  match p with
  | Object a => objects s !! a
  | ClassRevision => c ← get_class (TheClass n) s; Some (DInt 2 (revision c))
  | ClassMaxInstance => c ← get_class (TheClass n) s; Some (DInt 2 (max_instance c))
  | ClassNumberOfInstances =>
      c ← get_class (TheClass n) s; Some (DInt 2 (number_of_instances c))
  | ClassHighestAttribute =>
      c ← get_class (TheClass n) s; Some (DInt 2 (highest_attribute_number c))
  | MetaHighestAttribute =>
      c ← get_class (MetaClass n) s; Some (DInt 2 (highest_attribute_number c))
  end.

(** A decoder writing to the object its attribute points to.  The class fields
    are inserted without a decoder, so they are never written this way. *)
Definition store_data (p : DataPtr) (d : CipData) (s : CipStack) : option CipStack :=
  match p with
  | Object a =>
      match objects s !! a with
      | Some _ => Some (mkStack (classes s) (<[a := d]> (objects s)))
      | None => None
      end
  | _ => None
  end.

Definition class_index (p : ClassPtr) : nat :=
  match p with TheClass n | MetaClass n => n end.

(** ** Lemmas *)

Lemma get_set_class p c s :
  is_Some (get_class p s) → get_class p (set_class p c s) = Some c.
Proof.
  destruct p as [n|n]; simpl; intros [x H];
    (destruct (classes s !! n) as [[a b]|] eqn:E; [|done]);
    by rewrite list_lookup_alter, decide_True, E.
Qed.

Lemma get_set_class_ne p q c s :
  p ≠ q → get_class q (set_class p c s) = get_class q s.
Proof.
  destruct p as [n|n], q as [k|k]; simpl; intros Hne; destruct (decide (n = k)) as [->|];
    try congruence; rewrite ?list_lookup_alter_ne by done; try done;
    rewrite list_lookup_alter, decide_True by done; by destruct (classes s !! k) as [[]|].
Qed.
