(* ===== verification/CipCodec.v ===== *)
(** * [cip/cipcommon.c]: attribute encoders and decoders, padded EPATHs

    The [EncodeCip...] and [DecodeCip...] functions the attributes of all objects
    are inserted with, and the encoding and decoding of the request path. *)

From S2P Require Import Prelude EndianConv CipStrings CipTypes.

(** ** Encoders *)

(** [*(EipUintN * )data]; the length is the first member of a [CipByteArray]. *)
Definition int_object (w : nat) (d : CipData) : option Z :=
  match d with
  | DInt w' v => if decide (w = w') then Some v else None
  | DByteArray a => if decide (w = 2%nat) then Some (ba_length a) else None
  | _ => None
  end.

Definition EncodeCipBool : Encoder := fun d m =>
  v ← int_object 1 d; AddSintToMessage v m.
Definition EncodeCipByte : Encoder := fun d m =>
  v ← int_object 1 d; AddSintToMessage v m.
Definition EncodeCipWord : Encoder := fun d m =>
  v ← int_object 2 d; AddIntToMessage v m.
Definition EncodeCipDword : Encoder := fun d m =>
  v ← int_object 4 d; AddDintToMessage v m.
Definition EncodeCipLword : Encoder := fun d m =>
  v ← int_object 8 d; AddLintToMessage v m.
Definition EncodeCipUsint : Encoder := fun d m =>
  v ← int_object 1 d; AddSintToMessage v m.
Definition EncodeCipUint : Encoder := fun d m =>
  v ← int_object 2 d; AddIntToMessage v m.
Definition EncodeCipUdint : Encoder := fun d m =>
  v ← int_object 4 d; AddDintToMessage v m.
Definition EncodeCipUlint : Encoder := fun d m =>
  v ← int_object 8 d; AddLintToMessage v m.
Definition EncodeCipSint : Encoder := fun d m =>
  v ← int_object 1 d; AddSintToMessage v m.
Definition EncodeCipInt : Encoder := fun d m =>
  v ← int_object 2 d; AddIntToMessage v m.
Definition EncodeCipDint : Encoder := fun d m =>
  v ← int_object 4 d; AddDintToMessage v m.
Definition EncodeCipLint : Encoder := fun d m =>
  v ← int_object 8 d; AddLintToMessage v m.
Definition EncodeCipReal : Encoder := fun d m =>
  v ← int_object 4 d; AddDintToMessage v m.
Definition EncodeCipLreal : Encoder := fun d m =>
  v ← int_object 8 d; AddLintToMessage v m.

(** [memcpy(position, buffer, n); position += n; used += n] *)
Definition append_buffer (buffer : option (list Z)) (n : Z) (m : ENIPMessage)
  : option ENIPMessage :=
  bs ← (if n =? 0 then Some [] else s ← buffer; load_n s (Z.to_nat n));
  m ← copy_in bs m;
  Some (add_used n (move_position n m)).

Definition EncodeCipShortString : Encoder := fun d m =>
  match d with
  | DShortString s =>
      m ← AddSintToMessage (ss_length s) m;
      append_buffer (ss_string s) (ss_length s) m
  | _ => None
  end.

Definition EncodeCipString : Encoder := fun d m =>
  match d with
  | DString s =>
      m ← AddIntToMessage (st_length s) m;
      if negb (0 =? st_length s) then
        m ← append_buffer (st_string s) (st_length s) m;
        if has_flag (used_message_length m) 0x01
        then AddSintToMessage 0 m else Some m
      else Some m
  | _ => None
  end.

(** [OPENER_ASSERT(false)] *)
Definition EncodeCipString2 : Encoder := fun _ _ => None.
Definition EncodeCipStringN : Encoder := fun _ _ => None.

(** [char_string_struct] is a 16-bit field of which the low byte is written. *)
Definition CipStringIHeaderEncoding (s : CipStringIStruct) (m : ENIPMessage)
  : option ENIPMessage :=
  m ← EncodeCipUsint (DInt 1 (language_char_1 s)) m;
  m ← EncodeCipUsint (DInt 1 (language_char_2 s)) m;
  m ← EncodeCipUsint (DInt 1 (language_char_3 s)) m;
  m ← EncodeCipUsint (DInt 1 (u8 (char_string_struct s))) m;
  EncodeCipUint (DInt 2 (character_set s)) m.

Definition EncodeCipStringI_struct (s : CipStringIStruct) (m : ENIPMessage)
  : option ENIPMessage :=
  m ← CipStringIHeaderEncoding s m;
  let t := char_string_struct s in
  if t =? kCipString then x ← as_string (string s); EncodeCipString (DString x) m
  else if t =? kCipString2 then x ← as_string2 (string s); EncodeCipString2 (DString2 x) m
  else if t =? kCipStringN then x ← as_stringN (string s); EncodeCipStringN (DStringN x) m
  else if t =? kCipShortString
  then x ← as_short (string s); EncodeCipShortString (DShortString x) m
  else None.

Fixpoint EncodeCipStringI_loop (n : nat) (l : list CipStringIStruct)
    (m : ENIPMessage) : option ENIPMessage :=
  match n with
  | O => Some m
  | S n =>
      match l with
      | [] => None
      | s :: l => m ← EncodeCipStringI_struct s m; EncodeCipStringI_loop n l m
      end
  end.

Definition EncodeCipStringI : Encoder := fun d m =>
  match d with
  | DStringI s =>
      m ← EncodeCipUsint (DInt 1 (number_of_strings s)) m;
      EncodeCipStringI_loop (Z.to_nat (number_of_strings s))
        (array_of_string_i_structs s) m
  | _ => None
  end.

Definition EncodeCipByteArray : Encoder := fun d m =>
  match d with
  | DByteArray a => append_buffer (ba_data a) (ba_length a) m
  | _ => None
  end.

Definition EncodeCipEthernetLinkPhyisicalAddress : Encoder := fun d m =>
  match d with
  | DBytes bs => append_buffer (Some bs) 6 m
  | _ => None
  end.

(** ** Path encoding *)

(** One of the three segments of [EncodeEPath], [base] the eight-bit segment
    byte; [length] is an [unsigned int]. *)
Definition EncodeEPath_segment (base v : Z) (length : Z) (m : ENIPMessage)
  : option (Z * ENIPMessage) :=
  if v <? 256 then
    m ← AddSintToMessage base m;
    m ← AddSintToMessage (u8 v) m;
    Some (u32 (length - 1), m)
  else
    m ← AddSintToMessage (base + 1) m;
    m ← AddSintToMessage 0 m;
    m ← AddIntToMessage v m;
    Some (u32 (length - 2), m).

Definition EncodeEPath (epath : CipEpath) (m : ENIPMessage) : option ENIPMessage :=
  let length := path_size epath in
  let start_length := used_message_length m in
  '(length, m) ← (if 0 <? length
                  then EncodeEPath_segment 0x20 (class_id epath) length m
                  else Some (length, m));
  '(length, m) ← (if 0 <? length then
                    '(length, m) ← EncodeEPath_segment 0x24
                                     (instance_number_of_path epath) length m;
                    if 0 <? length
                    then EncodeEPath_segment 0x30 (attribute_number_of_path epath) length m
                    else Some (length, m)
                  else Some (length, m));
  assert! path_size epath * 2 =? u64 (used_message_length m - start_length);
  Some m.

Definition EncodeCipEPath : Encoder := fun d m =>
  match d with
  | DEPath p => m ← AddIntToMessage (path_size p) m; EncodeEPath p m
  | _ => None
  end.

(** ** Path decoding *)

(** The value of the enumerator [kSegmentTypeReserved]. *)
Definition kSegmentTypeReserved_value : Z := 7.

(** The loop state: the runner, the number of decoded 16-bit elements, the path
    being filled.  The inner [None] is [kEipStatusError]. *)
Fixpoint DecodePaddedEPath_loop (fuel : nat) (runner : list Z) (n : Z) (e : CipEpath)
  : option (CipEpath * option (list Z * Z)) :=
  if n <? path_size e then
    match fuel with
    | O => None
    | S fuel =>
        b ← load runner 0;
        if kSegmentTypeReserved_value =? b .& kSegmentTypeReserved_value
        then Some (e, None)
        else
          let n := n + 1 in
          if b =? 0x20 then
            v ← load runner 1; runner ← ptr_add runner 2;
            DecodePaddedEPath_loop fuel runner n
              (mkEpath (path_size e) v (instance_number_of_path e) (attribute_number_of_path e))
          else if b =? 0x21 then
            runner ← ptr_add runner 2;
            '(v, runner) ← GetUintFromMessage runner;
            DecodePaddedEPath_loop fuel runner (n + 1)
              (mkEpath (path_size e) v (instance_number_of_path e) (attribute_number_of_path e))
          else if b =? 0x24 then
            v ← load runner 1; runner ← ptr_add runner 2;
            DecodePaddedEPath_loop fuel runner n
              (mkEpath (path_size e) (class_id e) v (attribute_number_of_path e))
          else if b =? 0x25 then
            runner ← ptr_add runner 2;
            '(v, runner) ← GetUintFromMessage runner;
            DecodePaddedEPath_loop fuel runner (n + 1)
              (mkEpath (path_size e) (class_id e) v (attribute_number_of_path e))
          else if b =? 0x30 then
            v ← load runner 1; runner ← ptr_add runner 2;
            DecodePaddedEPath_loop fuel runner n
              (mkEpath (path_size e) (class_id e) (instance_number_of_path e) v)
          else if b =? 0x31 then
            runner ← ptr_add runner 2;
            '(v, runner) ← GetUintFromMessage runner;
            DecodePaddedEPath_loop fuel runner (n + 1)
              (mkEpath (path_size e) (class_id e) (instance_number_of_path e) v)
          else if b =? 0x28 then
            runner ← ptr_add runner 2;
            DecodePaddedEPath_loop fuel runner n e
          else if b =? 0x29 then
            runner ← ptr_add runner 2;
            DecodePaddedEPath_loop fuel runner (n + 1) e
          else Some (e, None)
    end
  else Some (e, Some (runner, n * 2 + 1)).

(** The decoded path and, on success, the new message pointer and
    [*bytes_consumed].  The loop runs at most [path_size] times. *)
Definition DecodePaddedEPath (message : list Z)
  : option (CipEpath * option (list Z * Z)) :=
  size ← load message 0;
  runner ← ptr_add message 1;
  DecodePaddedEPath_loop (Z.to_nat size) runner 0 (mkEpath size 0 0 0).

(** ** Decoders *)

(** [*data = Get...(&request->data); general_status = success; return ret] for
    an integer object of width [w]. *)
Definition decode_int (w : nat) (get : list Z → option (Z * list Z)) (ret : Z) : Decoder :=
  fun d req resp =>
    _ ← int_object w d;
    '(v, p) ← get (request_data req);
    Some (ret, DInt w (v mod 256 ^ Z.of_nat w), set_request_data p req,
          set_general_status kCipErrorSuccess resp).

Definition DecodeCipBool : Decoder := decode_int 1 GetBoolFromMessage 1.
Definition DecodeCipByte : Decoder := decode_int 1 GetByteFromMessage 1.
Definition DecodeCipWord : Decoder := decode_int 2 GetWordFromMessage 2.
Definition DecodeCipDword : Decoder := decode_int 4 GetDintFromMessage 4.
Definition DecodeCipLword : Decoder := decode_int 8 GetLintFromMessage 4.
Definition DecodeCipUsint : Decoder := decode_int 1 GetUsintFromMessage 1.
Definition DecodeCipUint : Decoder := decode_int 2 GetUintFromMessage 2.
Definition DecodeCipUdint : Decoder := decode_int 4 GetUdintFromMessage 4.
Definition DecodeCipUlint : Decoder := decode_int 8 GetLintFromMessage 8.
Definition DecodeCipSint : Decoder := decode_int 1 GetSintFromMessage 1.
Definition DecodeCipInt : Decoder := decode_int 2 GetIntFromMessage 2.
Definition DecodeCipDint : Decoder := decode_int 4 GetDintFromMessage 4.
Definition DecodeCipLint : Decoder := decode_int 8 GetLintFromMessage 8.

(** IEEE 754 bits of the integer [z], rounded to nearest-even, in a format with
    [mant] mantissa bits and exponent bias [bias]: the conversion C performs when
    an integer is assigned to a [float] (23, 127) or [double] (52, 1023). *)
Definition ieee_bits_of_int (mant bias width z : Z) : Z :=
  if z =? 0 then 0 else
  let sign := if z <? 0 then 2 ^ (width - 1) else 0 in
  let m := Z.abs z in
  let e := Z.log2 m in
  let frac :=
    if e <=? mant then m * 2 ^ (mant - e)
    else let d := 2 ^ (e - mant) in
         let q := m / d in let r := m mod d in
         if (d <? 2 * r) || ((2 * r =? d) && Z.odd q) then q + 1 else q in
  sign + (e + bias) * 2 ^ mant + (frac - 2 ^ mant).

Definition DecodeCipReal : Decoder := fun d req resp =>
  _ ← int_object 4 d;
  '(v, p) ← GetDintFromMessage (request_data req);
  Some (4, DInt 4 (ieee_bits_of_int 23 127 32 v), set_request_data p req,
        set_general_status kCipErrorSuccess resp).

Definition DecodeCipLreal : Decoder := fun d req resp =>
  _ ← int_object 8 d;
  '(v, p) ← GetLintFromMessage (request_data req);
  Some (8, DInt 8 (ieee_bits_of_int 52 1023 64 v), set_request_data p req,
        set_general_status kCipErrorSuccess resp).

Definition DecodeCipByteArray : Decoder := fun d req resp =>
  match d with
  | DByteArray a =>
      if request_data_size req <? ba_length a
      then Some (-1, d, req, set_general_status kCipErrorNotEnoughData resp)
      else if ba_length a <? request_data_size req
      then Some (-1, d, req, set_general_status kCipErrorTooMuchData resp)
      else
        buf ← (if ba_length a =? 0 then Some (ba_data a) else
                 bs ← load_n (request_data req) (Z.to_nat (ba_length a));
                 dst ← ba_data a;
                 dst ← write_bytes dst 0 bs;
                 Some (Some dst));
        Some (ba_length a, DByteArray (mkByteArray (ba_length a) buf), req,
              set_general_status kCipErrorSuccess resp)
  | _ => None
  end.

(** The return value is the 16-bit length plus 2, plus 1 when odd. *)
Definition DecodeCipString : Decoder := fun d req resp =>
  match d with
  | DString s =>
      '(length, p) ← GetUintFromMessage (request_data req);
      r ← SetCipStringByData (Some s) length p;
      s ← r;
      p ← ptr_add p (Z.to_nat (st_length s));
      let n := st_length s + 2 in
      '(n, p) ← (if has_flag n 0x01
                 then p ← ptr_add p 1; Some (n + 1, p) else Some (n, p));
      Some (n, DString s, set_request_data p req,
            set_general_status kCipErrorSuccess resp)
  | _ => None
  end.

Definition DecodeCipShortString : Decoder := fun d req resp =>
  match d with
  | DShortString s =>
      '(length, p) ← GetUsintFromMessage (request_data req);
      r ← SetCipShortStringByData (Some s) length p;
      s ← r;
      p ← ptr_add p (Z.to_nat (ss_length s));
      Some (ss_length s + 1, DShortString s, set_request_data p req,
            set_general_status kCipErrorSuccess resp)
  | _ => None
  end.

(** ** Lemmas: paths as lists of segments *)

(** The segments of a request path, abstractly; members are decoded and
    dropped. *)
Inductive path_segment :=
| SegClass (v : Z) | SegInstance (v : Z) | SegAttribute (v : Z) | SegMember8 (v : Z).

Definition seg_base (s : path_segment) : Z :=
  match s with
  | SegClass _ => 0x20 | SegInstance _ => 0x24 | SegAttribute _ => 0x30
  | SegMember8 _ => 0x28
  end.

Definition seg_value (s : path_segment) : Z :=
  match s with SegClass v | SegInstance v | SegAttribute v | SegMember8 v => v end.

Definition seg_wf (s : path_segment) : Prop :=
  match s with SegMember8 v => is_u8 v | s => is_u16 (seg_value s) end.

Definition seg_words (s : path_segment) : Z := if seg_value s <? 256 then 1 else 2.

(** The padded encoding: eight-bit values in one word, sixteen-bit values in
    two words with a pad byte. *)
Definition seg_bytes (s : path_segment) : list Z :=
  if seg_value s <? 256 then [seg_base s; seg_value s]
  else [seg_base s + 1; 0] ++ le_bytes 2 (seg_value s).

Definition apply_seg (e : CipEpath) (s : path_segment) : CipEpath :=
  match s with
  | SegClass v => mkEpath (path_size e) v (instance_number_of_path e) (attribute_number_of_path e)
  | SegInstance v => mkEpath (path_size e) (class_id e) v (attribute_number_of_path e)
  | SegAttribute v => mkEpath (path_size e) (class_id e) (instance_number_of_path e) v
  | SegMember8 _ => e
  end.

Definition segs_words (ss : list path_segment) : Z :=
  foldr (fun s n => seg_words s + n) 0 ss.
Definition segs_bytes (ss : list path_segment) : list Z := concat (map seg_bytes ss).

Arguments segs_words : simpl never.
Arguments segs_bytes : simpl never.

Lemma segs_words_nil : segs_words [] = 0. Proof. done. Qed.
Lemma segs_words_cons s ss : segs_words (s :: ss) = seg_words s + segs_words ss.
Proof. done. Qed.
Lemma segs_bytes_nil : segs_bytes [] = []. Proof. done. Qed.
Lemma segs_bytes_cons s ss : segs_bytes (s :: ss) = seg_bytes s ++ segs_bytes ss.
Proof. done. Qed.

Lemma seg_words_pos s : 1 <= seg_words s <= 2.
Proof. unfold seg_words. case_match; lia. Qed.

Lemma segs_words_ge ss : Z.of_nat (length ss) <= segs_words ss.
Proof.
  induction ss as [|s ss IH]; [done |]. rewrite segs_words_cons; simpl.
  pose proof (seg_words_pos s). lia.
Qed.

Lemma length_seg_bytes s : Z.of_nat (length (seg_bytes s)) = 2 * seg_words s.
Proof. unfold seg_bytes, seg_words. case_match; done. Qed.

Lemma length_segs_bytes ss : Z.of_nat (length (segs_bytes ss)) = 2 * segs_words ss.
Proof.
  induction ss as [|s ss IH]; [done |].
  rewrite segs_bytes_cons, segs_words_cons, length_app, Nat2Z.inj_add, IH, length_seg_bytes. lia.
Qed.

Lemma seg_bytes_bytes s : seg_wf s → bytes (seg_bytes s).
Proof.
  intros Hs. unfold seg_bytes. destruct (Z.ltb_spec (seg_value s) 256).
  - repeat constructor; destruct s; simpl in *; unfold is_u16, is_u8 in *; lia.
  - apply bytes_app; split; [| apply le_bytes_bytes].
    repeat constructor; destruct s; simpl in *; unfold is_u16, is_u8 in *; lia.
Qed.

Lemma segs_bytes_bytes ss : Forall seg_wf ss → bytes (segs_bytes ss).
Proof.
  induction 1 as [|s ss Hs _ IH]; [constructor |].
  rewrite segs_bytes_cons. apply bytes_app. auto using seg_bytes_bytes.
Qed.

Lemma ptr_add_2 a b p : ptr_add (a :: b :: p) 2 = Some p.
Proof. done. Qed.

(** One iteration of the loop decodes one segment. *)
Lemma decode_one_segment fuel s rest n e :
  seg_wf s → n < path_size e →
  DecodePaddedEPath_loop (S fuel) (seg_bytes s ++ rest) n e
  = DecodePaddedEPath_loop fuel rest (n + seg_words s) (apply_seg e s).
Proof.
  intros Hs Hn. unfold seg_bytes, seg_words.
  destruct s as [v|v|v|v]; cbn [seg_value seg_base seg_wf apply_seg] in *;
    (destruct (Z.ltb_spec v 256) as [Hv|Hv];
     [| try (unfold is_u8 in Hs; lia)]);
    cbn [DecodePaddedEPath_loop app]; rewrite (proj2 (Z.ltb_lt n (path_size e))) by done.
  all: try reflexivity.
  all: cbn -[ptr_add GetUintFromMessage le_bytes DecodePaddedEPath_loop];
    rewrite ptr_add_2; cbn [mbind option_bind];
    rewrite GetUint_le, u16_id by done; cbn [mbind option_bind];
    f_equal; lia.
Qed.

Lemma decode_done fuel runner n e :
  path_size e <= n →
  DecodePaddedEPath_loop fuel runner n e = Some (e, Some (runner, n * 2 + 1)).
Proof.
  intros Hn. destruct fuel; simpl; by rewrite (proj2 (Z.ltb_ge n (path_size e))) by done.
Qed.

Lemma path_size_apply e s : path_size (apply_seg e s) = path_size e.
Proof. by destruct s. Qed.

Lemma decode_segments fuel ss rest n e :
  Forall seg_wf ss → n + segs_words ss = path_size e → (length ss <= fuel)%nat →
  DecodePaddedEPath_loop fuel (segs_bytes ss ++ rest) n e
  = Some (foldl apply_seg e ss, Some (rest, path_size e * 2 + 1)).
Proof.
  intros Hs. revert fuel n e. induction Hs as [|s ss Hs _ IH]; intros fuel n e Hn Hf.
  - rewrite segs_words_nil in Hn. rewrite decode_done by lia. simpl. do 4 f_equal. lia.
  - destruct fuel as [|fuel]; [simpl in Hf; lia |]. rewrite segs_words_cons in Hn.
    pose proof (seg_words_pos s). pose proof (segs_words_ge ss).
    rewrite segs_bytes_cons, <-(assoc_L (++)), decode_one_segment by (done || lia).
    rewrite IH; rewrite ?path_size_apply; simpl in *; try lia. done.
Qed.

(** The segments [EncodeEPath] writes for a path. *)
Definition epath_segments (e : CipEpath) : option (list path_segment) :=
  let c := SegClass (class_id e) in
  let i := SegInstance (instance_number_of_path e) in
  let a := SegAttribute (attribute_number_of_path e) in
  let size := path_size e in
  if size =? 0 then Some []
  else if size =? segs_words [c] then Some [c]
  else if size =? segs_words [c; i] then Some [c; i]
  else if size =? segs_words [c; i; a] then Some [c; i; a]
  else None.

Definition epath_wf (e : CipEpath) : Prop :=
  is_u8 (path_size e) ∧ is_u16 (class_id e) ∧ is_u16 (instance_number_of_path e) ∧
  is_u16 (attribute_number_of_path e).

Lemma EncodeEPath_segment_put s length m :
  seg_wf s → (∀ v, s ≠ SegMember8 v) →
  EncodeEPath_segment (seg_base s) (seg_value s) length m
  = (m' ← put (seg_bytes s) m; Some (u32 (length - seg_words s), m')).
Proof.
  intros Hs Hm. unfold EncodeEPath_segment, seg_bytes, seg_words.
  assert (H16 : is_u16 (seg_value s)) by (destruct s; try done; by destruct (Hm v)).
  assert (Hb : is_u8 (seg_base s) ∧ is_u8 (seg_base s + 1))
    by (destruct s; unfold is_u8; simpl; lia).
  destruct (Z.ltb_spec (seg_value s) 256) as [Hv|Hv].
  - assert (is_u8 (seg_value s)) by (unfold is_u16, is_u8 in *; lia).
    autorewrite with puts. simpl. rewrite !u8_id by (try apply u8_range; tauto). done.
  - autorewrite with puts. simpl. by rewrite (u8_id (seg_base s + 1)) by tauto.
Qed.

Lemma holds_used out m : holds out m → used_message_length m = Z.of_nat (length out).
Proof. by intros (_ & _ & ? & _). Qed.

(** Encoding a path that its segments describe appends their bytes. *)
Lemma EncodeEPath_segments e ss out m :
  epath_wf e → epath_segments e = Some ss → holds out m →
  Z.of_nat (length out) + 2 * segs_words ss <= 512 →
  ∃ m', EncodeEPath e m = Some m' ∧ holds (out ++ segs_bytes ss) m'.
Proof.
  intros (Hsz & Hc & Hi & Ha) Hss Hm Hroom.
  set (c := SegClass (class_id e)) in *. set (i := SegInstance (instance_number_of_path e)) in *.
  set (a := SegAttribute (attribute_number_of_path e)) in *.
  assert (Hwf : Forall seg_wf ss ∧ path_size e = segs_words ss).
  { unfold epath_segments in Hss. fold c i a in Hss.
    repeat case_match; simplify_eq; rewrite ?Z.eqb_eq in *; split; try done;
      rewrite !Forall_cons_iff; by split_and?. }
  destruct Hwf as [Hwf Hsize].
  assert (Hput : ∃ m', put (segs_bytes ss) m = Some m' ∧ holds (out ++ segs_bytes ss) m').
  { apply holds_put; [done | by apply segs_bytes_bytes |].
    rewrite length_app, Nat2Z.inj_add, length_segs_bytes. lia. }
  destruct Hput as (m' & Hput & Hm'). exists m'. split; [| done].
  assert (Hassert : (path_size e * 2 =? u64 (used_message_length m' - used_message_length m)) = true).
  { rewrite (holds_used _ _ Hm), (holds_used _ _ Hm').
    rewrite length_app, Nat2Z.inj_add, length_segs_bytes.
    apply Z.eqb_eq. rewrite u64_id; unfold is_u64, is_u8 in *; lia. }
  assert (Hw : ∀ s, 1 <= seg_words s <= 2) by apply seg_words_pos.
  unfold EncodeEPath.
  pose proof (EncodeEPath_segment_put c) as Ec. pose proof (EncodeEPath_segment_put i) as Ei.
  pose proof (EncodeEPath_segment_put a) as Ea. simpl in Ec, Ei, Ea.
  pose proof (Hw c) as Hwc. pose proof (Hw i) as Hwi. pose proof (Hw a) as Hwa.
  unfold epath_segments in Hss. fold c i a in Hss.
  rewrite !segs_words_cons, segs_words_nil in Hss.
  destruct (Z.eqb_spec (path_size e) 0) as [E0|E0]; simplify_eq.
  { rewrite E0. rewrite segs_bytes_nil, put_nil in Hput; simpl.
    - simplify_eq. rewrite E0 in Hassert. simpl in Hassert. by rewrite Hassert.
    - rewrite (holds_room _ _ Hm). lia.
    - rewrite (holds_used _ _ Hm). unfold is_u64. lia. }
  rewrite (proj2 (Z.ltb_lt 0 (path_size e))) by (unfold is_u8 in Hsz; lia).
  rewrite Ec by done.
  assert (Hsub : ∀ x k, 0 <= x <= 255 → 0 <= k <= x → u32 (x - k) = x - k)
    by (intros; apply u32_id; unfold is_u32; lia).
  unfold is_u8 in Hsz.
  destruct (Z.eqb_spec (path_size e) (seg_words c + 0)) as [E1|E1]; simplify_eq.
  { rewrite ?segs_bytes_cons, segs_bytes_nil, app_nil_r in Hput. rewrite Hput. simpl.
    rewrite Hsub by lia. rewrite (proj2 (Z.ltb_ge 0 _)) by lia. simpl. by rewrite Hassert. }
  destruct (Z.eqb_spec (path_size e) (seg_words c + (seg_words i + 0))) as [E2|E2]; simplify_eq.
  { rewrite ?segs_bytes_cons, segs_bytes_nil, app_nil_r in Hput. rewrite <-put_app in Hput.
    destruct (put (seg_bytes c) m) as [m1|]; [| done]. simpl in *.
    rewrite Hsub, (proj2 (Z.ltb_lt 0 _)), Ei by (done || lia).
    rewrite Hput. simpl. rewrite Hsub, (proj2 (Z.ltb_ge 0 _)) by lia. simpl. by rewrite Hassert. }
  destruct (Z.eqb_spec (path_size e) (seg_words c + (seg_words i + (seg_words a + 0))))
    as [E3|E3]; simplify_eq.
  rewrite ?segs_bytes_cons, segs_bytes_nil, app_nil_r in Hput. rewrite <-put_app in Hput.
  destruct (put (seg_bytes c) m) as [m1|]; [| done]. simpl in *.
  rewrite <-put_app in Hput.
  rewrite Hsub, (proj2 (Z.ltb_lt 0 _)), Ei by (done || lia).
  destruct (put (seg_bytes i) m1) as [m2|]; [| done]. simpl in *.
  rewrite Hsub, (proj2 (Z.ltb_lt 0 _)), Ea by (done || lia).
  rewrite Hput. simpl. by rewrite Hassert.
Qed.

(** What a decoding attempt of the buffer [p] with declared size [size] yields:
    a rejection, or a pointer into the buffer and a count of the declared number
    of words or one more. *)
Definition decode_result_ok (size : Z) (p : list Z) (r : option (list Z * Z)) : Prop :=
  match r with
  | None => True
  | Some (p', consumed) =>
      (∃ n, consumed = 2 * n + 1 ∧ size <= n <= size + 1) ∧ ∃ k, p' = drop k p
  end.

Definition numbers_wf (e : CipEpath) : Prop :=
  is_u16 (class_id e) ∧ is_u16 (instance_number_of_path e) ∧
  is_u16 (attribute_number_of_path e).

Definition decode_ok (size : Z) (p : list Z)
    (x : option (CipEpath * option (list Z * Z))) : Prop :=
  ∃ e r, x = Some (e, r) ∧ numbers_wf e ∧ path_size e = size ∧ decode_result_ok size p r.

Lemma decode_ok_stop e p : numbers_wf e → decode_ok (path_size e) p (Some (e, None)).
Proof. intros H. by exists e, None. Qed.

Lemma decode_ok_done fuel e p n :
  numbers_wf e → path_size e <= n <= path_size e + 1 →
  decode_ok (path_size e) p (DecodePaddedEPath_loop fuel p n e).
Proof.
  intros H Hn. rewrite decode_done by lia. exists e, (Some (p, n * 2 + 1)).
  repeat (split; [done |]). split; [exists n; lia | by exists 0%nat].
Qed.

Lemma decode_ok_drop size k p x : decode_ok size (drop k p) x → decode_ok size p x.
Proof.
  intros (e & r & -> & Hw & Hs & Hr). exists e, r. repeat (split; [done |]).
  destruct r as [[p' c]|]; [| done]. destruct Hr as [Hc [j ->]].
  split; [done |]. exists (k + j)%nat. by rewrite drop_drop.
Qed.

Lemma GetUint_total p :
  bytes p → (2 <= length p)%nat →
  ∃ v, GetUintFromMessage p = Some (v, drop 2 p) ∧ is_u16 v.
Proof.
  intros Hb Hl. destruct p as [|b0 [|b1 p]]; simpl in Hl; try lia.
  rewrite !bytes_cons in Hb. destruct Hb as (?&?&?).
  rewrite GetUint_cons by done. eexists. split; [done |]. auto using le2_u16.
Qed.

(** The loop returns whenever two bytes per outstanding word, and two more,
    are readable; it stops at most one word past the declared size. *)
Lemma decode_total fuel p n e :
  bytes p → numbers_wf e → 0 <= n <= path_size e + 1 →
  path_size e - n <= Z.of_nat fuel →
  2 * (path_size e - n) + 2 <= Z.of_nat (length p) →
  decode_ok (path_size e) p (DecodePaddedEPath_loop fuel p n e).
Proof.
  revert p n e. induction fuel as [|fuel IH]; intros p n e Hb Hw Hn Hf Hl.
  { apply decode_ok_done; [done | lia]. }
  destruct (Z_lt_le_dec n (path_size e)) as [Hlt|]; [| apply decode_ok_done; [done | lia]].
  destruct p as [|b0 [|b1 p]]; simpl in Hl; try lia.
  apply bytes_cons in Hb as [Hb0 Hb]. apply bytes_cons in Hb as [Hb1 Hb].
  assert (H16 : is_u16 b1) by (unfold is_u8, is_u16 in *; lia).
  destruct (GetUint_total p) as (v & Hget & Hv); [done | lia |].
  assert (Hstep : ∀ k n1 e1, (k = 0 ∧ n1 = n + 1) ∨ (k <= 2 ∧ n1 = n + 1 + 1) →
    path_size e1 = path_size e → numbers_wf e1 →
    decode_ok (path_size e) (b0 :: b1 :: p)
      (DecodePaddedEPath_loop fuel (drop (Z.to_nat k) p) n1 e1)).
  { intros k n1 e1 Hk Hs Hw1. apply (decode_ok_drop _ (2 + Z.to_nat k)). simpl.
    rewrite <-Hs. apply IH; try done; try lia; [by apply bytes_drop |].
    rewrite length_drop. lia. }
  cbn [DecodePaddedEPath_loop]. rewrite (proj2 (Z.ltb_lt n (path_size e))) by done.
  cbn [mbind option_bind load lookup list_lookup]. rewrite ptr_add_2.
  cbn [mbind option_bind]. rewrite Hget. cbn [mbind option_bind].
  destruct Hw as (Hc & Hi & Ha).
  repeat (case_match; [first
    [ by apply decode_ok_stop
    | apply (Hstep 2); [lia | done | by split_and!]
    | apply (Hstep 0); [lia | done | by split_and!] ] |]).
  by apply decode_ok_stop.
Qed.

(** ** Lemmas: attribute codecs *)

(** The integer encoders with the decoder and width that go with them, except
    the eight-byte ones and REAL/LREAL. *)
Definition integer_codecs : list (Encoder * Decoder * nat) :=
  [(EncodeCipBool, DecodeCipBool, 1%nat); (EncodeCipByte, DecodeCipByte, 1%nat);
   (EncodeCipWord, DecodeCipWord, 2%nat); (EncodeCipDword, DecodeCipDword, 4%nat);
   (EncodeCipUsint, DecodeCipUsint, 1%nat); (EncodeCipUint, DecodeCipUint, 2%nat);
   (EncodeCipUdint, DecodeCipUdint, 4%nat); (EncodeCipSint, DecodeCipSint, 1%nat);
   (EncodeCipInt, DecodeCipInt, 2%nat); (EncodeCipDint, DecodeCipDint, 4%nat)].

Lemma int_object_DInt w v : int_object w (DInt w v) = Some v.
Proof. unfold int_object. by rewrite decide_True. Qed.

Lemma decode_int_spec w get ret old v rest req resp x :
  0 <= v < 256 ^ Z.of_nat w → get (request_data req) = Some (x, rest) →
  x mod 256 ^ Z.of_nat w = v →
  decode_int w get ret (DInt w old) req resp
  = Some (ret, DInt w v, set_request_data rest req,
          set_general_status kCipErrorSuccess resp).
Proof.
  intros Hv Hg Hx. unfold decode_int. rewrite int_object_DInt. simpl.
  rewrite Hg. simpl. by rewrite Hx.
Qed.

Lemma append_buffer_app s rest n m :
  n = Z.of_nat (length s) → append_buffer (Some (s ++ rest)) n m = put s m.
Proof.
  intros ->. unfold append_buffer.
  assert ((if Z.of_nat (length s) =? 0 then Some []
           else s0 ← Some (s ++ rest); load_n s0 (Z.to_nat (Z.of_nat (length s)))) = Some s) as ->.
  { destruct (Z.eqb_spec (Z.of_nat (length s)) 0) as [E|].
    - destruct s; [done | simpl in E; lia].
    - simpl. rewrite Nat2Z.id. by apply load_n_app. }
  done.
Qed.

Lemma writes_short_string s name rest :
  ss_length s = Z.of_nat (length name) → ss_string s = Some (name ++ rest) →
  writes (EncodeCipShortString (DShortString s)) (le_bytes 1 (Z.of_nat (length name)) ++ name).
Proof.
  intros Hl Hs. unfold EncodeCipShortString. rewrite Hl, Hs.
  apply (writes_bind (AddSintToMessage _)); [apply writes_Sint |].
  apply writes_put. intros m. by apply append_buffer_app.
Qed.

Lemma append_buffer_put s n m :
  n = Z.of_nat (length s) → append_buffer (Some s) n m = put s m.
Proof. intros Hn. rewrite <-(app_nil_r s) at 1. by apply append_buffer_app. Qed.

Lemma has_flag_1 n : has_flag n 1 = Z.odd n.
Proof.
  unfold has_flag. change 1 with (Z.ones 1). rewrite Z.land_ones by lia.
  change (2 ^ 1) with 2. rewrite Zmod_odd. by destruct (Z.odd n).
Qed.

Lemma integer_codec_spec enc dec w v old rest req resp m :
  (enc, dec, w) ∈ integer_codecs → 0 <= v < 256 ^ Z.of_nat w →
  request_data req = le_bytes w v ++ rest →
  enc (DInt w v) m = put (le_bytes w v) m ∧
  dec (DInt w old) req resp
  = Some (Z.of_nat w, DInt w v, set_request_data rest req,
          set_general_status kCipErrorSuccess resp).
Proof.
  intros Hin Hv Hreq. unfold integer_codecs in Hin.
  repeat (apply elem_of_cons in Hin as [Hin|Hin]; [
    injection Hin as -> -> ->; split;
      [ cbv beta delta [EncodeCipBool EncodeCipByte EncodeCipWord EncodeCipDword
          EncodeCipUsint EncodeCipUint EncodeCipUdint EncodeCipSint EncodeCipInt EncodeCipDint];
        rewrite int_object_DInt; cbn [mbind option_bind]; autorewrite with put; done
      | eapply decode_int_spec; [done | rewrite Hreq |];
        [first [exact (GetInt_le v rest) | exact (GetDint_le v rest) | exact (GetUint_le v rest)
               | exact (GetUdint_le v rest) | reflexivity]
        | first [change (256 ^ Z.of_nat 1) with 256 in *
                | change (256 ^ Z.of_nat 2) with 65536 in *
                | change (256 ^ Z.of_nat 4) with 4294967296 in *]; width_lia ]]
    |]).
  by apply elem_of_nil in Hin.
Qed.


Lemma integer_codec_width enc dec w : (enc, dec, w) ∈ integer_codecs → (w <= 4)%nat.
Proof.
  intros Hin. unfold integer_codecs in Hin.
  repeat (apply elem_of_cons in Hin as [[= _ _ ->]|Hin]; [lia |]). by apply elem_of_nil in Hin.
Qed.

(** ** Properties *)

(** C33.  A path encoded by [EncodeEPath] is decoded by [DecodePaddedEPath] to
    the same path, with the message pointer behind it and the byte count of the
    size byte and all words, for every path whose size is that of its class,
    class and instance, or class, instance and attribute segments (the numbers
    not covered being zero). *)
Theorem epath_encode_decode e ss out m rest :
  epath_wf e → epath_segments e = Some ss →
  foldl apply_seg (mkEpath (path_size e) 0 0 0) ss = e →
  holds out m → Z.of_nat (length out) + 2 * path_size e <= 512 →
  ∃ m' body, EncodeEPath e m = Some m' ∧ holds (out ++ body) m' ∧
    DecodePaddedEPath (path_size e :: body ++ rest)
    = Some (e, Some (rest, 2 * path_size e + 1)).
Proof.
  intros Hwf Hss Hfold Hm Hroom.
  assert (Hall : Forall seg_wf ss ∧ path_size e = segs_words ss).
  { destruct Hwf as (?&?&?&?). unfold epath_segments in Hss.
    repeat case_match; simplify_eq; rewrite ?Z.eqb_eq in *; split; try done;
      rewrite !Forall_cons_iff; by split_and?. }
  destruct Hall as [Hall Hsize].
  destruct (EncodeEPath_segments e ss out m) as (m' & E & Hm'); [done.. | lia |].
  exists m', (segs_bytes ss). split_and!; [done | done |].
  unfold DecodePaddedEPath. cbn [mbind option_bind load lookup list_lookup].
  rewrite ptr_add_1. cbn [mbind option_bind].
  rewrite decode_segments; [| done | simpl; lia |].
  - simpl. rewrite Hfold. do 4 f_equal. lia.
  - pose proof (segs_words_ge ss). lia.
Qed.

Lemma epath_encode_decode_witness :
  ∃ m' body, EncodeEPath (mkEpath 4 0x300 5 1) InitializeENIPMessage = Some m' ∧
    DecodePaddedEPath (4 :: body ++ [7; 7])
    = Some (mkEpath 4 0x300 5 1, Some ([7; 7], 9)).
Proof.
  destruct (epath_encode_decode (mkEpath 4 0x300 5 1)
    [SegClass 0x300; SegInstance 5; SegAttribute 1] [] InitializeENIPMessage [7; 7])
    as (m' & body & H1 & _ & H2).
  - unfold epath_wf, is_u8, is_u16; simpl; lia.
  - reflexivity.
  - reflexivity.
  - apply holds_init.
  - simpl; lia.
  - exists m', body. split; [exact H1 | exact H2].
Defined.

(** [DecodePaddedEPath] terminates and stays inside any buffer that holds
    two bytes per declared word and three more, whatever the bytes are: it either
    rejects the path or returns numbers in range, a pointer into the buffer, and
    a byte count of the declared size or one word more. *)
Theorem DecodePaddedEPath_total size p :
  bytes (size :: p) → 2 * size + 2 <= Z.of_nat (length p) →
  ∃ e r, DecodePaddedEPath (size :: p) = Some (e, r) ∧ numbers_wf e ∧ path_size e = size ∧
    match r with
    | None => True
    | Some (p', consumed) =>
        (∃ n, consumed = 2 * n + 1 ∧ size <= n <= size + 1) ∧ ∃ k, p' = drop k p
    end.
Proof.
  intros [Hs Hb]%bytes_cons Hl. unfold DecodePaddedEPath.
  cbn [mbind option_bind load lookup list_lookup]. rewrite ptr_add_1.
  cbn [mbind option_bind]. unfold is_u8 in Hs.
  apply (decode_total (Z.to_nat size) p 0 (mkEpath size 0 0 0));
    unfold numbers_wf, is_u16; simpl; done || lia.
Qed.

Lemma DecodePaddedEPath_total_witness :
  ∃ e r, DecodePaddedEPath [1; 0x20; 6; 0; 0] = Some (e, r) ∧ path_size e = 1.
Proof.
  destruct (DecodePaddedEPath_total 1 [0x20; 6; 0; 0]) as (e & r & H & _ & Hs & _).
  - repeat (constructor; [unfold is_u8; lia |]). constructor.
  - simpl; lia.
  - exists e, r. split; [exact H | exact Hs].
Defined.

(** A sixteen-bit member segment is counted as two words but only one is
    skipped: the returned pointer addresses the member number while the reported
    byte count is behind it. *)
Theorem DecodePaddedEPath_member16_short lo hi rest :
  DecodePaddedEPath (2 :: 0x29 :: 0 :: lo :: hi :: rest)
  = Some (mkEpath 2 0 0 0, Some (lo :: hi :: rest, 5)).
Proof. reflexivity. Qed.

(** Every integer codec up to four bytes round-trips over the wire: the
    encoder of an attribute appends the little-endian bytes of its value to any
    message with room, and the matching decoder, given the appended bytes, reads
    the value back into an object of the same type, sets the success status,
    returns the field width and leaves the request pointer behind the field. *)
Theorem integer_codec_roundtrip enc dec w v old rest req resp out m :
  (enc, dec, w) ∈ integer_codecs → 0 <= v < 256 ^ Z.of_nat w →
  holds out m → Z.of_nat (length out) <= 508 →
  ∃ m', enc (DInt w v) m = Some m' ∧ holds (out ++ le_bytes w v) m' ∧
    (request_data req = drop (length out) (wire m') ++ rest →
     dec (DInt w old) req resp
     = Some (Z.of_nat w, DInt w v, set_request_data rest req,
             set_general_status kCipErrorSuccess resp)).
Proof.
  intros Hin Hv Hm Hroom. pose proof (integer_codec_width _ _ _ Hin) as Hw.
  destruct (holds_put out (le_bytes w v) m Hm) as (m' & Hput & Hm').
  { apply le_bytes_bytes. } { rewrite length_app, length_le_bytes. lia. }
  exists m'. split; [| split; [done |]].
  - destruct (integer_codec_spec enc dec w v old rest
      (set_request_data (le_bytes w v ++ rest) req) resp m) as [-> _]; done.
  - rewrite (holds_wire _ _ Hm'), drop_app_length. intros Hreq.
    by destruct (integer_codec_spec enc dec w v old rest req resp m) as [_ ->].
Qed.

Lemma integer_codec_roundtrip_witness :
  ∃ m', EncodeCipInt (DInt 2 0xFFFE) InitializeENIPMessage = Some m' ∧
    holds ([] ++ le_bytes 2 0xFFFE) m' ∧
    (le_bytes 2 0xFFFE = drop 0 (wire m') ++ [] →
     DecodeCipInt (DInt 2 0) (mkRequest 0x10 (mkEpath 0 0 0 0) 2 (le_bytes 2 0xFFFE))
       (mkResponse 0 0 0x14 0 [] InitializeENIPMessage)
     = Some (2, DInt 2 0xFFFE, mkRequest 0x10 (mkEpath 0 0 0 0) 2 [],
             mkResponse 0 0 0 0 [] InitializeENIPMessage)).
Proof.
  apply (integer_codec_roundtrip EncodeCipInt DecodeCipInt 2 0xFFFE 0 []
    (mkRequest 0x10 (mkEpath 0 0 0 0) 2 (le_bytes 2 0xFFFE))
    (mkResponse 0 0 0x14 0 [] InitializeENIPMessage) [] InitializeENIPMessage).
  - unfold integer_codecs. repeat (first [apply list_elem_of_here | apply list_elem_of_further]).
  - change (256 ^ Z.of_nat 2) with 65536. lia.
  - apply holds_init.
  - simpl; lia.
Defined.

(** A REAL attribute does not survive a set followed by a get: the decoder
    converts the received bit pattern as an integer, so setting 1.0 (bytes 00 00
    80 3F) stores the float 1065353216.0 and reading it gives 00 00 7E 4E. *)
Theorem real_attribute_not_bit_exact old req resp m :
  request_data req = [0x00; 0x00; 0x80; 0x3F] →
  ∃ d req' resp', DecodeCipReal (DInt 4 old) req resp = Some (4, d, req', resp') ∧
    EncodeCipReal d m = put [0x00; 0x00; 0x7E; 0x4E] m.
Proof.
  intros H. unfold DecodeCipReal. rewrite int_object_DInt. simpl. rewrite H.
  eexists _, _, _. split; [reflexivity |].
  unfold EncodeCipReal. rewrite int_object_DInt. simpl. autorewrite with put. reflexivity.
Qed.

Lemma real_attribute_not_bit_exact_witness :
  ∃ d req' resp', DecodeCipReal (DInt 4 0)
    (mkRequest 0x10 (mkEpath 0 0 0 0) 4 [0x00; 0x00; 0x80; 0x3F])
    (mkResponse 0 0 0 0 [] InitializeENIPMessage) = Some (4, d, req', resp') ∧
    EncodeCipReal d InitializeENIPMessage = put [0x00; 0x00; 0x7E; 0x4E] InitializeENIPMessage.
Proof. apply real_attribute_not_bit_exact. reflexivity. Defined.

(** A STRING attribute written at an even message length round-trips: the
    decoder reads length, characters and pad byte exactly as the encoder wrote
    them and returns the number of bytes consumed. *)
Theorem string_codec_roundtrip s old out m rest req resp :
  bytes s → (0 < length s)%nat → Z.of_nat (length out) + Z.of_nat (length s) + 3 <= 512 →
  Z.even (Z.of_nat (length out)) = true → holds out m →
  ∃ m' body, EncodeCipString (DString (mkString (Z.of_nat (length s)) (Some s))) m = Some m' ∧
    holds (out ++ body) m' ∧
    (request_data req = body ++ rest →
     DecodeCipString (DString old) req resp
     = Some (Z.of_nat (length body), DString (mkString (Z.of_nat (length s)) (Some s)),
             set_request_data rest req, set_general_status kCipErrorSuccess resp)).
Proof.
  intros Hs Hl Hroom Heven Hm. unfold EncodeCipString. cbn [st_length st_string].
  set (n := Z.of_nat (length s)) in *. rewrite (proj2 (Z.eqb_neq 0 n)) by lia.
  assert (Hnat : Z.to_nat n = length s) by lia.
  rewrite AddIntToMessage_put.
  destruct (holds_put out (le_bytes 2 n) m) as (m1 & E1 & H1); [done | apply le_bytes_bytes | |].
  { rewrite length_app, length_le_bytes. lia. }
  rewrite E1. cbn [mbind option_bind]. change (negb false) with true. cbv iota.
  rewrite append_buffer_put by done.
  destruct (holds_put _ s m1 H1 Hs) as (m2 & E2 & H2).
  { rewrite !length_app, length_le_bytes. lia. }
  rewrite E2. cbn [mbind option_bind]. rewrite has_flag_1, (holds_used _ _ H2).
  assert (Hodd : Z.odd (Z.of_nat (length ((out ++ le_bytes 2 n) ++ s))) = Z.odd n).
  { rewrite !length_app, length_le_bytes, !Nat2Z.inj_add, !Z.odd_add. fold n.
    rewrite <-!Z.negb_even, Heven. by destruct (Z.even n). }
  rewrite Hodd.
  assert (Hdec : ∀ pad, request_data req = (le_bytes 2 n ++ s ++ pad) ++ rest →
    length pad = (if Z.odd n then 1 else 0)%nat →
    DecodeCipString (DString old) req resp
    = Some (Z.of_nat (length (le_bytes 2 n ++ s ++ pad)), DString (mkString n (Some s)),
            set_request_data rest req, set_general_status kCipErrorSuccess resp)).
  { intros pad Hreq Hpad. unfold DecodeCipString. rewrite Hreq, <-!(assoc_L (++)), GetUint_le.
    rewrite u16_id by (unfold is_u16; lia). cbn [mbind option_bind].
    unfold SetCipStringByData. rewrite (proj2 (Z.eqb_neq 0 n)) by lia.
    change (negb false) with true. cbv iota.
    assert (∃ o, ClearCipString (Some old) = Some o) as [o ->] by by eexists.
    cbn [mbind option_bind]. rewrite Hnat, load_n_app by done.
    cbn [mbind option_bind st_length]. rewrite Hnat, ptr_add_app by done.
    cbn [mbind option_bind]. rewrite has_flag_1, Z.odd_add. change (Z.odd 2) with false.
    rewrite xorb_false_r. rewrite !length_app, length_le_bytes, Hpad.
    destruct (Z.odd n); cbn [mbind option_bind].
    - rewrite ptr_add_app by done. cbn [mbind option_bind]. do 4 f_equal. lia.
    - destruct pad; [| done]. cbn [mbind option_bind app]. do 4 f_equal. lia. }
  destruct (Z.odd n).
  - rewrite AddSintToMessage_put.
    destruct (holds_put _ (le_bytes 1 0) m2 H2) as (m3 & E3 & H3); [apply le_bytes_bytes | |].
    { rewrite !length_app, !length_le_bytes. lia. }
    exists m3, (le_bytes 2 n ++ s ++ [0]). rewrite E3. split_and!; [done | |].
    + by rewrite <-!(assoc_L (++)) in H3.
    + intros Hreq. by apply Hdec.
  - exists m2, (le_bytes 2 n ++ s ++ []). split_and!; [done | |].
    + rewrite app_nil_r. by rewrite <-!(assoc_L (++)) in H2.
    + intros Hreq. by apply Hdec.
Qed.

Lemma string_codec_roundtrip_witness :
  ∃ m' body, EncodeCipString (DString (mkString 3 (Some [65; 66; 67]))) InitializeENIPMessage
             = Some m' ∧ holds ([] ++ body) m'.
Proof.
  destruct (string_codec_roundtrip [65; 66; 67] (mkString 0 None) [] InitializeENIPMessage []
    (mkRequest 0 (mkEpath 0 0 0 0) 0 []) (mkResponse 0 0 0 0 [] InitializeENIPMessage))
    as (m' & body & H1 & H2 & _).
  - repeat (constructor; [unfold is_u8; lia |]). constructor.
  - simpl; lia.
  - simpl; lia.
  - reflexivity.
  - apply holds_init.
  - exists m', body. split; [exact H1 | exact H2].
Defined.
