(* ===== verification/CipClasses.v ===== *)
(** * [cip/cipmessagerouter.c] (class registry) and [cip/cipcommon.c]
      (construction of classes, instances, attributes and services)

    Instances are addressed by their position in the class's list.  Allocation
    succeeds.  The loops that walk C arrays use list lookup, so that leaving the
    array is [None]. *)

From S2P Require Import Prelude EndianConv CipStrings CipTypes CipCodec.
From stdpp Require Import strings.
Open Scope Z_scope.

(** ** Registry *)

(** Position of the first class with the code. *)
Fixpoint find_class (l : list (CipClass * CipClass)) (code : Z) (i : nat) : option nat :=
  match l with
  | [] => None
  | (c, _) :: l => if class_code c =? code then Some i else find_class l code (S i)
  end.

Definition GetRegisteredObject (s : CipStack) (code : Z) : option nat :=
  find_class (classes s) code 0.

Definition GetCipClass (s : CipStack) (code : Z) : option nat :=
  match GetRegisteredObject s code with
  | Some o => Some o
  | None => None
  end.

(** [CipInstance *] within a class: the class object itself or a list element. *)
Inductive InstancePtr := ClassObject | ListInstance (i : nat).

#[export] Instance InstancePtr_eqdec : EqDecision InstancePtr.
Proof. solve_decision. Defined.

Fixpoint find_instance (l : list CipInstance) (num : Z) (i : nat) : option nat :=
  match l with
  | [] => None
  | x :: l => if instance_number x =? num then Some i else find_instance l num (S i)
  end.

Definition GetCipInstance (c : CipClass) (num : Z) : option InstancePtr :=
  if num =? 0 then Some ClassObject
  else ListInstance <$> find_instance (instances c) num 0.

(** The new node goes to the end of the list. *)
Definition RegisterCipClass (c m : CipClass) (s : CipStack) : CipStack :=
  mkStack (classes s ++ [(c, m)]) (objects s).

Definition DeleteAllClasses (s : CipStack) : CipStack := mkStack [] (objects s).

(** ** Instances *)

Definition GetMaxInstanceNumber (c : CipClass) : Z :=
  foldl (fun max i => if max <? instance_number i then instance_number i else max)
    0 (instances c).

Definition number_in_use (l : list CipInstance) (num : Z) : bool :=
  existsb (fun i => num =? instance_number i) l.

(** The [while(!found_free_number)] loop from [num] on. *)
Fixpoint next_free_number (fuel : nat) (l : list CipInstance) (num : Z) : option Z :=
  if number_in_use l num then
    match fuel with
    | O => None
    | S fuel => next_free_number fuel l (u16 (num + 1))
    end
  else Some num.

(** The [for] loop: [k] instances still to add, [num] the next candidate. *)
Fixpoint add_instances (k : nat) (self : ClassPtr) (c : CipClass) (num : Z)
  : option CipClass :=
  match k with
  | O => Some c
  | S k =>
      num ← next_free_number (length (instances c)) (instances c) num;
      let i := mkInstance num
                 (replicate (Z.to_nat (number_of_attributes c)) empty_attribute)
                 (Some self) in
      add_instances k self
        (upd_instances (max_instance c) (number_of_instances c + 1) (instances c ++ [i]) c)
        (u16 (num + 1))
  end.

Definition set_max_instance (c : CipClass) : CipClass :=
  upd_instances (GetMaxInstanceNumber c) (number_of_instances c) (instances c) c.

(** The class after the call and the first new instance (NULL for none). *)
Definition AddCipInstances (self : ClassPtr) (c : CipClass) (number : Z)
  : option (CipClass * option nat) :=
  c' ← add_instances (Z.to_nat number) self c 1;
  Some (set_max_instance c',
        if number =? 0 then None else Some (length (instances c))).

Definition set_instance_number (num : Z) (i : CipInstance) : CipInstance :=
  mkInstance num (attributes i) (cip_class i).

Definition AddCipInstance (self : ClassPtr) (c : CipClass) (id : Z)
  : option (CipClass * InstancePtr) :=
  match GetCipInstance c id with
  | Some p => Some (set_max_instance c, p)
  | None =>
      '(c, first) ← AddCipInstances self c 1;
      i ← first;
      let c := upd_instances (max_instance c) (number_of_instances c)
                 (alter (set_instance_number id) i (instances c)) c in
      Some (set_max_instance c, ListInstance i)
  end.

(** ** Attributes *)

Definition CalculateIndex (attribute_number : Z) : Z := attribute_number / 8.

Definition AllocateAttributeMasks (c : CipClass) : CipClass :=
  let size := Z.to_nat (1 + CalculateIndex (highest_attribute_number c)) in
  upd_masks (replicate size 0) (replicate size 0) (replicate size 0) c.

(** [mask[index] |= v] *)
Definition or_mask (mask : list Z) (index v : Z) : option (list Z) :=
  b ← mask !! Z.to_nat index;
  Some (<[Z.to_nat index := u8 (b .| v)]> mask).

(** Position of the first slot below [k] whose data pointer is NULL. *)
Fixpoint find_free_slot (k i : nat) (l : list CipAttributeStruct) : option nat :=
  match k with
  | O => None
  | S k =>
      match l with
      | [] => None
      | a :: l => match data a with
                  | None => Some i
                  | Some _ => find_free_slot k (S i) l
                  end
      end
  end.

(** The instance and its class after the insertion; a full array fails the
    assertion. *)
Definition InsertAttribute (inst : CipInstance) (c : CipClass)
    (attribute_number cip_type : Z) (enc : option Encoder) (dec : option Decoder)
    (data : option DataPtr) (cip_flags : Z) : option (CipInstance * CipClass) :=
  d ← data;
  slot ← find_free_slot (Z.to_nat (number_of_attributes c)) 0 (attributes inst);
  let inst := mkInstance (instance_number inst)
    (<[slot := mkAttribute attribute_number cip_type enc dec cip_flags (Some d)]>
       (attributes inst)) (cip_class inst) in
  assert! attribute_number <=? highest_attribute_number c;
  let index := CalculateIndex attribute_number in
  let bit := 1 ≪ (attribute_number mod 8) in
  gs ← or_mask (get_single_bit_mask c) index
         (if has_flag cip_flags kGetableSingle then bit else 0);
  ga ← or_mask (get_all_bit_mask c) index
         (if has_flag cip_flags (kGetableAll .| kGetableAllDummy) then bit else 0);
  st ← or_mask (set_bit_mask c) index
         ((if has_flag cip_flags kSetable then 1 else 0) ≪ (attribute_number mod 8));
  Some (inst, upd_masks gs st ga c).

(** The loop of [GetCipAttribute] over [k] slots; the inner [None] is NULL. *)
Fixpoint find_attribute (k : nat) (l : list CipAttributeStruct) (num : Z)
  : option (option CipAttributeStruct) :=
  match k with
  | O => Some None
  | S k =>
      match l with
      | [] => None
      | a :: l => if num =? attribute_number a then Some (Some a)
                  else find_attribute k l num
      end
  end.

Definition GetCipAttribute (inst : CipInstance) (c : CipClass) (num : Z)
  : option (option CipAttributeStruct) :=
  find_attribute (Z.to_nat (number_of_attributes c)) (attributes inst) num.

(** [mask[CalculateIndex(num)] & (1 << (num % 8))] *)
Definition mask_bit (mask : list Z) (num : Z) : option bool :=
  b ← mask !! Z.to_nat (CalculateIndex num);
  Some (has_flag b (1 ≪ (num mod 8))).

(** ** Services and callbacks *)

Fixpoint find_service_slot (k i : nat) (l : list CipServiceStruct) (num : Z)
  : option nat :=
  match k with
  | O => None
  | S k =>
      match l with
      | [] => None
      | x :: l =>
          if (service_number x =? num) || match service_function x with
                                          | None => true | Some _ => false end
          then Some i else find_service_slot k (S i) l num
      end
  end.

Definition InsertService (c : CipClass) (num : Z) (fn : option CipServiceFunction)
    (name : string) : option CipClass :=
  slot ← find_service_slot (Z.to_nat (number_of_services c)) 0 (services c) num;
  Some (upd_services (<[slot := mkService num fn name]> (services c)) c).

Definition InsertGetSetCallback (c : CipClass) (callback : option nat) (flags : Z)
  : CipClass :=
  upd_get_set_callbacks
    (if has_flag flags kPreGetFunc then callback else PreGetCallback c)
    (if has_flag flags kPostGetFunc then callback else PostGetCallback c)
    (if has_flag flags kPreSetFunc then callback else PreSetCallback c)
    (if has_flag flags (kPostSetFunc .| kNvDataFunc) then callback else PostSetCallback c) c.

Fixpoint find_service (k : nat) (l : list CipServiceStruct) (num : Z)
  : option (option CipServiceStruct) :=
  match k with
  | O => Some None
  | S k =>
      match l with
      | [] => None
      | x :: l => if service_number x =? num then Some (Some x) else find_service k l num
      end
  end.

Definition GetCipService (c : CipClass) (num : Z) : option (option CipServiceStruct) :=
  find_service (Z.to_nat (number_of_services c)) (services c) num.

(** ** Class construction *)

(** [InsertAttribute((CipInstance * )cip_class, ...)]: the class object is the
    instance, the metaclass owns the masks. *)
Definition InsertClassAttribute (cm : CipClass * CipClass) (num : Z)
    (data : DataPtr) (flags : Z) : option (CipClass * CipClass) :=
  '(i, m) ← InsertAttribute (class_instance cm.1) cm.2 num kCipUint
              (Some EncodeCipUint) None (Some data) flags;
  Some (upd_class_instance i cm.1, m).

(** [kCipUintZero] is the object at address 0. *)
Definition kCipUintZero : DataPtr := Object 0.

(** The standard class attributes and services, when no initializer is given. *)
Definition standard_class (number_of_class_services : Z) (cm : CipClass * CipClass)
  : option (CipClass * CipClass) :=
  cm ← InsertClassAttribute cm 1 ClassRevision kGetableSingleAndAll;
  cm ← InsertClassAttribute cm 2 ClassMaxInstance kGetableSingleAndAll;
  cm ← InsertClassAttribute cm 3 ClassNumberOfInstances kGetableSingleAndAll;
  cm ← InsertClassAttribute cm 4 kCipUintZero kGetableAllDummy;
  cm ← InsertClassAttribute cm 5 kCipUintZero kNotSetOrGetable;
  cm ← InsertClassAttribute cm 6 MetaHighestAttribute kGetableSingle;
  cm ← InsertClassAttribute cm 7 ClassHighestAttribute kGetableSingle;
  if 0 <? number_of_class_services then
    m ← (if 1 <? number_of_class_services
         then InsertService cm.2 kGetAttributeAll (Some FnGetAttributeAll) "GetAttributeAll"
         else Some cm.2);
    m ← InsertService m kGetAttributeSingle (Some FnGetAttributeSingle) "GetAttributeSingle";
    Some (cm.1, m)
  else Some cm.

(** The zeroed structs with the fields [CreateCipClass] fills in; [n] is the
    position the class will have in the registry. *)
Definition new_meta_class (n : nat) (number_of_class_attributes highest_class_attribute
    number_of_class_services : Z) (name : string) : CipClass :=
  mkClass (mkInstance 0xffff [] None) 0xffffffff 0 0 1
    (u16 (number_of_class_attributes + 7)) (u16 highest_class_attribute)
    [] [] [] (u16 number_of_class_services) []
    (replicate (Z.to_nat (u16 number_of_class_services)) empty_service)
    ("meta-" +:+ name) None None None None None None None None None None.

Definition new_class (n : nat) (class_code number_of_class_attributes
    number_of_instance_attributes highest_instance_attribute
    number_of_instance_services : Z) (name : string) (revision : Z) : CipClass :=
  mkClass
    (mkInstance 0 (replicate (Z.to_nat (u16 (number_of_class_attributes + 7)))
                     empty_attribute) (Some (MetaClass n)))
    class_code revision 0 0 (u16 number_of_instance_attributes)
    (u16 highest_instance_attribute) [] [] []
    (u16 number_of_instance_services) []
    (replicate (Z.to_nat (u16 number_of_instance_services)) empty_service)
    name None None None None None None None None None None.

(** The initializer works on the class and metaclass structs. *)
Definition CreateCipClass (class_code number_of_class_attributes
    highest_class_attribute_number number_of_class_services
    number_of_instance_attributes highest_instance_attribute_number
    number_of_instance_services number_of_instances : Z) (name : string) (revision : Z)
    (initializer : option (CipClass * CipClass → option (CipClass * CipClass)))
    (s : CipStack) : option (CipStack * nat) :=
  assert! match GetCipClass s class_code with None => true | Some _ => false end;
  assert! negb (String.eqb name "");
  let n := length (classes s) in
  let m := new_meta_class n number_of_class_attributes highest_class_attribute_number
             number_of_class_services name in
  let c := new_class n class_code number_of_class_attributes
             number_of_instance_attributes highest_instance_attribute_number
             number_of_instance_services name revision in
  '(c, _) ← (if 0 <? number_of_instances
             then AddCipInstances (TheClass n) c number_of_instances
             else Some (c, None));
  let m := AllocateAttributeMasks m in
  let c := AllocateAttributeMasks c in
  '(c, m) ← (match initializer with
             | None => standard_class number_of_class_services (c, m)
             | Some initializer => initializer (c, m)
             end);
  Some (RegisterCipClass c m s, n).

(** Writing back the instance a pointer refers to. *)
Definition put_instance (p : InstancePtr) (i : CipInstance) (c : CipClass) : CipClass :=
  match p with
  | ClassObject => upd_class_instance i c
  | ListInstance k =>
      upd_instances (max_instance c) (number_of_instances c) (<[k := i]> (instances c)) c
  end.

(** The message router's own class. *)
Definition InitializeCipMessageRouterClass (cm : CipClass * CipClass)
  : option (CipClass * CipClass) :=
  cm ← InsertClassAttribute cm 1 ClassRevision kGetableSingleAndAll;
  cm ← InsertClassAttribute cm 2 ClassNumberOfInstances kGetableSingle;
  cm ← InsertClassAttribute cm 3 ClassNumberOfInstances kGetableSingle;
  cm ← InsertClassAttribute cm 4 kCipUintZero kGetableAll;
  cm ← InsertClassAttribute cm 5 kCipUintZero kGetableAll;
  cm ← InsertClassAttribute cm 6 MetaHighestAttribute kGetableSingleAndAll;
  cm ← InsertClassAttribute cm 7 ClassHighestAttribute kGetableSingleAndAll;
  m ← InsertService cm.2 kGetAttributeAll (Some FnGetAttributeAll) "GetAttributeAll";
  m ← InsertService m kGetAttributeSingle (Some FnGetAttributeSingle) "GetAttributeSingle";
  Some (cm.1, m).

Definition kCipMessageRouterClassCode : Z := 0x02.

Definition CipMessageRouterInit (s : CipStack) : option (EipStatus * CipStack) :=
  '(s, n) ← CreateCipClass kCipMessageRouterClassCode 7 7 2 0 0 1 1 "message router" 1
              (Some InitializeCipMessageRouterClass) s;
  c ← get_class (TheClass n) s;
  c ← InsertService c kGetAttributeSingle (Some FnGetAttributeSingle) "GetAttributeSingle";
  Some (kEipStatusOk, set_class (TheClass n) c s).

Definition empty_stack : CipStack := mkStack [] {[ 0%nat := DInt 2 0 ]}.

Example message_router_init_runs :
  (p ← CipMessageRouterInit empty_stack;
   c ← get_class (TheClass 0) p.2;
   Some (p.1, instance_number <$> instances c, max_instance c,
         number_of_instances c, get_single_bit_mask c))
  = Some (kEipStatusOk, [1], 1, 1, [0]).
Proof. vm_compute. reflexivity. Qed.

(** ** Lemmas: the instance list *)

Definition numbers (l : list CipInstance) : list Z := instance_number <$> l.

Lemma numbers_cons i l : numbers (i :: l) = instance_number i :: numbers l.
Proof. done. Qed.

Lemma number_in_use_spec l num : number_in_use l num = true ↔ num ∈ numbers l.
Proof.
  unfold number_in_use, numbers. rewrite existsb_exists, list_elem_of_fmap.
  split.
  - intros (i & Hi & ->%Z.eqb_eq). exists i. split; [done |]. by apply list_elem_of_In.
  - intros (i & -> & Hi). exists i. split; [by apply list_elem_of_In | by apply Z.eqb_eq].
Qed.

(** The numbers of a class: distinct and between 1 and 65535. *)
Definition numbers_ok (l : list CipInstance) : Prop :=
  NoDup (numbers l) ∧ Forall (λ n, 1 <= n <= 65535) (numbers l).

(** All numbers below [num] are taken: what the search has already skipped. *)
Definition filled_below (l : list CipInstance) (num : Z) : Prop :=
  1 <= num ∧ ∀ j, 1 <= j < num → j ∈ numbers l.

Lemma filled_below_length l num :
  filled_below l num → num <= Z.of_nat (length l) + 1.
Proof.
  intros [H1 H]. destruct (Z_le_gt_dec num 1); [lia |].
  set (js := Z.of_nat <$> seq 1 (Z.to_nat (num - 1))).
  assert (Hnd : NoDup js).
  { apply NoDup_fmap; [intros ?? ?; lia | apply NoDup_seq]. }
  assert (Hsub : js ⊆ numbers l).
  { intros j Hj. apply list_elem_of_fmap in Hj as (k & -> & Hk).
    apply elem_of_seq in Hk. apply H. lia. }
  pose proof (submseteq_length _ _ (NoDup_submseteq _ _ Hnd Hsub)) as Hlen.
  unfold js, numbers in Hlen. rewrite !length_fmap, length_seq in Hlen. lia.
Qed.

Lemma next_free_number_spec fuel l num :
  filled_below l num → Z.of_nat (length l) <= 65534 →
  (Z.of_nat (length l) + 1 - num <= Z.of_nat fuel) →
  ∃ r, next_free_number fuel l num = Some r ∧ num <= r ∧ (r ∉ numbers l) ∧
       filled_below l r.
Proof.
  revert num. induction fuel as [|fuel IH]; intros num Hf Hl Hfuel;
    pose proof (filled_below_length _ _ Hf) as Hle; simpl;
    (destruct (number_in_use l num) eqn:Hu;
     [apply number_in_use_spec in Hu |
      exists num; repeat split; try done; try lia; try apply Hf;
      intros Hin%number_in_use_spec; congruence]);
    (assert (Hf' : filled_below l (num + 1)) by
      (split; [destruct Hf; lia | intros j Hj; destruct (decide (j = num)) as [->|];
        [done | apply Hf; lia]]);
     pose proof (filled_below_length _ _ Hf') as Hle').
  - lia.
  - rewrite u16_id by (unfold is_u16; destruct Hf; lia).
    destruct (IH (num + 1)) as (r & Hr & ? & ? & ?); [done.. | lia |].
    exists r. split_and!; [done | lia | done | done].
Qed.

Definition max_step (max : Z) (i : CipInstance) : Z :=
  if max <? instance_number i then instance_number i else max.

Lemma GetMax_fold l max :
  max <= foldl max_step max l ∧ Forall (λ n, n <= foldl max_step max l) (numbers l) ∧
  (foldl max_step max l = max ∨ foldl max_step max l ∈ numbers l).
Proof.
  revert max. induction l as [|i l IH]; intros max.
  { split_and!; [done | constructor | by left]. }
  rewrite numbers_cons. cbn [foldl]. destruct (IH (max_step max i)) as (H1 & H2 & H3).
  assert (max <= max_step max i ∧ instance_number i <= max_step max i ∧
          (max_step max i = max ∨ max_step max i = instance_number i)) as (? & ? & H4).
  { unfold max_step. destruct (Z.ltb_spec max (instance_number i)); lia. }
  split_and!; [lia | constructor; [lia | done] |].
  destruct H3 as [->|?]; [| right; by right].
  destruct H4 as [->| ->]; [by left | right; left].
Qed.

(** The instance bookkeeping of a class. *)
Definition instances_wf (c : CipClass) : Prop :=
  numbers_ok (instances c) ∧ number_of_instances c = Z.of_nat (length (instances c)) ∧
  max_instance c = GetMaxInstanceNumber c ∧ Z.of_nat (length (instances c)) <= 65535.

Lemma GetMax_range c : numbers_ok (instances c) → 0 <= GetMaxInstanceNumber c <= 65535.
Proof.
  intros [_ Hr]. unfold GetMaxInstanceNumber. fold max_step.
  destruct (GetMax_fold (instances c) 0) as (H1 & _ & H3). split; [done |].
  destruct H3 as [->|Hin]; [lia |]. rewrite Forall_forall in Hr. by apply Hr.
Qed.

Lemma numbers_snoc l i : numbers (l ++ [i]) = numbers l ++ [instance_number i].
Proof. unfold numbers. by rewrite fmap_app. Qed.

Lemma numbers_ok_snoc l i :
  numbers_ok l → instance_number i ∉ numbers l → 1 <= instance_number i <= 65535 →
  numbers_ok (l ++ [i]).
Proof.
  intros [Hnd Hr] Hn Hi. unfold numbers_ok. rewrite numbers_snoc. split.
  - apply list.NoDup_app. split; [done |]. split; [| apply list.NoDup_singleton].
    intros x Hx ->%list_elem_of_singleton. done.
  - apply Forall_app. split; [done |]. by constructor.
Qed.

(** The class fields [AddCipInstances] leaves alone. *)
Definition same_class (c' c : CipClass) : Prop :=
  upd_instances 0 0 [] c' = upd_instances 0 0 [] c.

(** A new instance as [AddCipInstances] builds it; the numbers up to its own are
    all in use afterwards. *)
Definition fresh_instance (self : ClassPtr) (c : CipClass) (l : list CipInstance)
    (i : CipInstance) : Prop :=
  attributes i = replicate (Z.to_nat (number_of_attributes c)) empty_attribute ∧
  cip_class i = Some self ∧
  ∀ j, 1 <= j <= instance_number i → j ∈ numbers l.

Lemma add_instances_spec k self c num :
  numbers_ok (instances c) → filled_below (instances c) num →
  Z.of_nat (length (instances c)) + Z.of_nat k <= 65534 →
  number_of_instances c = Z.of_nat (length (instances c)) →
  ∃ c' new, add_instances k self c num = Some c' ∧ same_class c' c ∧
    instances c' = instances c ++ new ∧ length new = k ∧
    number_of_instances c' = Z.of_nat (length (instances c')) ∧
    numbers_ok (instances c') ∧ Forall (fresh_instance self c (instances c')) new.
Proof.
  revert c num. induction k as [|k IH]; intros c num Hok Hf Hl Hn.
  { exists c, []. rewrite app_nil_r. by split_and!. }
  destruct (next_free_number_spec (length (instances c)) (instances c) num)
    as (r & Hr & Hle & Hfree & Hf'); [done | lia | destruct Hf; lia |].
  pose proof (filled_below_length _ _ Hf') as Hrl. destruct Hf' as [Hr1 Hf'].
  cbn [add_instances]. rewrite Hr. cbn [mbind option_bind].
  set (i := mkInstance r _ _). set (c1 := upd_instances _ _ _ c).
  assert (Hi : instances c1 = instances c ++ [i]) by done.
  destruct (IH c1 (u16 (r + 1))) as (c' & new & E & Hs & Hi' & Hln & Hn' & Hok' & Hnew).
  - rewrite Hi. apply numbers_ok_snoc; [done | done | simpl; lia].
  - rewrite u16_id, Hi by (unfold is_u16; lia). split; [lia |]. intros j Hj.
    rewrite numbers_snoc, elem_of_app, list_elem_of_singleton.
    destruct (decide (j = r)); [by right | left; apply Hf'; lia].
  - rewrite Hi, length_app. simpl. lia.
  - rewrite Hi, length_app. simpl. rewrite u16_id by (unfold is_u16; lia). lia.
  - exists c', (i :: new). rewrite E, Hi', Hi, <-(assoc_L (++)) in *.
    split_and!; try done; [simpl; lia |]. constructor; [| done].
    split_and!; [done | done |]. simpl. intros j Hj. unfold numbers.
    rewrite fmap_app, elem_of_app, fmap_cons.
    destruct (decide (j = r)) as [->|]; [right; left | left; apply Hf'; lia].
Qed.

(** ** Lemmas: attribute slots and masks *)

Lemma testbit_has_flag b k : 0 <= k → has_flag b (1 ≪ k) = Z.testbit b k.
Proof.
  intros Hk. unfold has_flag. rewrite Z.shiftl_1_l.
  destruct (Z.testbit b k) eqn:E.
  - apply negb_true_iff, Z.eqb_neq. intros H0.
    assert (H : Z.testbit (b .& 2 ^ k) k = true)
      by (rewrite Z.land_spec, Z.pow2_bits_true, E by done; done).
    rewrite H0, Z.bits_0 in H. done.
  - apply negb_false_iff, Z.eqb_eq. apply Z.bits_inj'. intros i Hi.
    rewrite Z.land_spec, Z.bits_0. destruct (decide (i = k)) as [->|].
    + by rewrite E.
    + rewrite Z.pow2_bits_false by lia. apply andb_false_r.
Qed.

Lemma testbit_u8 v k : 0 <= k < 8 → Z.testbit (u8 v) k = Z.testbit v k.
Proof. intros Hk. unfold u8. change 256 with (2 ^ 8). by rewrite Z.mod_pow2_bits_low by lia. Qed.

(** Bit [num] of a mask, [None] when the mask has no byte for it. *)
Lemma mask_bit_testbit mask num b :
  mask !! Z.to_nat (CalculateIndex num) = Some b →
  mask_bit mask num = Some (Z.testbit b (num mod 8)).
Proof.
  intros H. unfold mask_bit. rewrite H. simpl. rewrite testbit_has_flag; [done |].
  by apply Z.mod_pos_bound.
Qed.

Lemma mask_bit_Some mask num :
  0 <= num → num / 8 < Z.of_nat (length mask) → is_Some (mask_bit mask num).
Proof.
  intros Hn Hl. destruct (lookup_lt_is_Some_2 mask (Z.to_nat (CalculateIndex num))) as [b Hb].
  { unfold CalculateIndex. assert (0 <= num / 8) by (apply Z.div_pos; lia). lia. }
  rewrite (mask_bit_testbit _ _ _ Hb). eauto.
Qed.

Lemma length_or_mask mask i v mask' : or_mask mask i v = Some mask' → length mask' = length mask.
Proof.
  unfold or_mask. destruct (mask !! _); simpl; [| done]. intros [= <-]. by rewrite length_insert.
Qed.

(** Setting bit [num] of a mask (or not, when [f] is false) affects no other. *)
Lemma or_mask_spec mask num (f : bool) :
  0 <= num → num / 8 < Z.of_nat (length mask) →
  ∃ mask', or_mask mask (CalculateIndex num) (if f then 1 ≪ (num mod 8) else 0) = Some mask' ∧
    length mask' = length mask ∧
    ∀ k, 0 <= k → mask_bit mask' k
      = (b ← mask_bit mask k; Some (b || (f && (k =? num)))).
Proof.
  intros Hn Hl.
  destruct (lookup_lt_is_Some_2 mask (Z.to_nat (CalculateIndex num))) as [b Hb].
  { unfold CalculateIndex. assert (0 <= num / 8) by (apply Z.div_pos; lia). lia. }
  set (v := if f then _ else _). unfold or_mask. rewrite Hb. simpl.
  eexists. split; [done |]. split; [by rewrite length_insert |]. intros k Hk.
  assert (Hkm := Z.mod_pos_bound k 8 ltac:(lia)). assert (Hnm := Z.mod_pos_bound num 8 ltac:(lia)).
  destruct (decide (k / 8 = num / 8)) as [Hd|Hd].
  - assert (Hci : CalculateIndex k = CalculateIndex num) by (unfold CalculateIndex; lia).
    rewrite (mask_bit_testbit mask k b) by (by rewrite Hci).
    rewrite (mask_bit_testbit _ k (u8 (b .| v)))
      by (rewrite Hci, list_lookup_insert_eq; [done | by eapply lookup_lt_Some]).
    simpl. f_equal. rewrite testbit_u8, Z.lor_spec by lia. f_equal.
    unfold v. destruct f; [| by rewrite Z.bits_0]. simpl. rewrite Z.shiftl_1_l.
    destruct (Z.eqb_spec k num) as [->|Hne]; [by rewrite Z.pow2_bits_true by lia |].
    apply Z.pow2_bits_false. intros Heq. apply Hne.
    rewrite (Z.div_mod k 8), (Z.div_mod num 8) by lia. lia.
  - assert (Hci : Z.to_nat (CalculateIndex k) ≠ Z.to_nat (CalculateIndex num)).
    { unfold CalculateIndex. pose proof (Z.div_pos k 8). pose proof (Z.div_pos num 8). lia. }
    unfold mask_bit at 1. rewrite list_lookup_insert_ne by done. fold (mask_bit mask k).
    unfold mask_bit. destruct (mask !! Z.to_nat (CalculateIndex k)) as [x|]; simpl; [| done].
    f_equal. rewrite (proj2 (Z.eqb_neq k num)) by congruence.
    by rewrite andb_false_r, orb_false_r.
Qed.

(** The array of an instance and the masks of its class are sized by the class;
    a used slot has a number within the masks, an unused one has number 0. *)
Definition attribute_ok (c : CipClass) (a : CipAttributeStruct) : Prop :=
  match data a with
  | Some _ => is_Some (encode a) ∧ 1 <= attribute_number a <= highest_attribute_number c
  | None => a = empty_attribute
  end.

Definition attributes_wf (i : CipInstance) (c : CipClass) : Prop :=
  Z.of_nat (length (attributes i)) = number_of_attributes c ∧
  Forall (attribute_ok c) (attributes i) ∧
  0 <= highest_attribute_number c ∧
  highest_attribute_number c / 8 < Z.of_nat (length (get_single_bit_mask c)) ∧
  highest_attribute_number c / 8 < Z.of_nat (length (get_all_bit_mask c)) ∧
  highest_attribute_number c / 8 < Z.of_nat (length (set_bit_mask c)).

Lemma find_free_slot_spec l i :
  (∃ k, data <$> l !! k = Some None) →
  ∃ k, find_free_slot (length l) i l = Some (i + k)%nat ∧ data <$> l !! k = Some None.
Proof.
  revert i. induction l as [|a l IH]; intros i [k Hk]; [done |]. simpl.
  destruct (data a) eqn:E.
  - destruct k as [|k]; [simpl in Hk; congruence |].
    destruct (IH (S i)) as (k' & -> & Hk'); [by exists k |].
    exists (S k'). split; [f_equal; lia | done].
  - exists 0%nat. simpl. split; [f_equal; lia | by rewrite E].
Qed.

Lemma find_attribute_spec l num :
  find_attribute (length l) l num
  = Some (List.find (fun a => num =? attribute_number a) l).
Proof. induction l as [|a l IH]; simpl; [done |]. by case_match. Qed.

Lemma GetCipAttribute_find i c num :
  attributes_wf i c →
  GetCipAttribute i c num
  = Some (List.find (fun a => num =? attribute_number a) (attributes i)).
Proof.
  intros [Hl _]. unfold GetCipAttribute. rewrite <-Hl, Nat2Z.id. apply find_attribute_spec.
Qed.

Lemma find_insert_slot l k a num :
  (k < length l)%nat → attribute_number a = num →
  (∀ b, b ∈ l → attribute_number b ≠ num) →
  List.find (fun b => num =? attribute_number b) (<[k := a]> l) = Some a ∧
  ∀ m, m ≠ num → m ≠ 0 → attribute_number <$> l !! k = Some 0 →
    List.find (fun b => m =? attribute_number b) (<[k := a]> l)
    = List.find (fun b => m =? attribute_number b) l.
Proof.
  intros Hk Ha. revert k Hk. induction l as [|b l IH]; intros k Hk Hne; [simpl in Hk; lia |].
  destruct k as [|k]; simpl.
  - split; [by rewrite Ha, Z.eqb_refl |]. intros m Hm Hm0 [= H0].
    by rewrite Ha, H0, !(proj2 (Z.eqb_neq _ _)) by done.
  - assert (Hb : attribute_number b ≠ num) by (apply Hne; left).
    rewrite (proj2 (Z.eqb_neq num _)) by congruence.
    destruct (IH k) as [H1 H2]; [simpl in Hk; lia | intros x Hx; apply Hne; by right |].
    split; [done |]. intros m Hm Hm0 H0. case_match; [done |]. by apply H2.
Qed.

Lemma AddCipInstances_ok self c number :
  instances_wf c → 0 <= number → Z.of_nat (length (instances c)) + number <= 65534 →
  ∃ c' new, AddCipInstances self c number
      = Some (c', if number =? 0 then None else Some (length (instances c))) ∧
    instances c' = instances c ++ new ∧ Z.of_nat (length new) = number ∧
    Forall (fresh_instance self c (instances c')) new ∧
    instances_wf c' ∧ same_class c' c.
Proof.
  intros (Hok & Hn & Hmax & Hl) H0 Hsum. unfold AddCipInstances.
  destruct (add_instances_spec (Z.to_nat number) self c 1)
    as (c' & new & -> & Hs & Hi & Hln & Hn' & Hok' & Hnew); try done; try lia.
  { split; [lia |]. intros j Hj. lia. }
  simpl. pose proof (GetMax_range c' Hok') as Hrange.
  assert (Hlen : Z.of_nat (length (instances c')) <= 65534).
  { rewrite Hi, length_app. lia. }
  exists (set_max_instance c'), new. split_and!; try done; [lia |].
  unfold instances_wf, set_max_instance, upd_instances, GetMaxInstanceNumber; simpl.
  fold (GetMaxInstanceNumber c').
  rewrite !u16_id by (unfold is_u16; lia). by split_and!; try lia.
Qed.


Lemma find_instance_lookup l k i j :
  NoDup (numbers l) → l !! k = Some i → find_instance l (instance_number i) j = Some (j + k)%nat.
Proof.
  revert k j. induction l as [|x l IH]; intros k j; [done |].
  rewrite numbers_cons. intros [Hx Hnd]%list.NoDup_cons Hk. simpl.
  destruct k as [|k]; simpl in Hk.
  - simplify_eq. rewrite Z.eqb_refl. f_equal. lia.
  - rewrite (proj2 (Z.eqb_neq _ _)).
    + rewrite (IH k) by done. f_equal. lia.
    + intros Heq. apply Hx. rewrite Heq. unfold numbers. apply list_elem_of_fmap.
      exists i. split; [done |]. by eapply list_elem_of_lookup_2.
Qed.

Lemma GetCipInstance_lookup c k i :
  instances_wf c → instances c !! k = Some i →
  GetCipInstance c (instance_number i) = Some (ListInstance k).
Proof.
  intros ((Hnd & Hr) & _) Hk. unfold GetCipInstance.
  assert (instance_number i ∈ numbers (instances c)).
  { apply list_elem_of_fmap. exists i. split; [done |]. by eapply list_elem_of_lookup_2. }
  rewrite list.Forall_forall in Hr. specialize (Hr (instance_number i) ltac:(done)).
  rewrite (proj2 (Z.eqb_neq _ _)) by lia. by rewrite (find_instance_lookup _ k).
Qed.

Lemma GetCipInstance_unused c num :
  num ≠ 0 → num ∉ numbers (instances c) → GetCipInstance c num = None.
Proof.
  intros H0 Hn. unfold GetCipInstance. rewrite (proj2 (Z.eqb_neq _ _) H0).
  assert (Hf : ∀ l k, num ∉ numbers l → find_instance l num k = None).
  { induction l as [|i l IH]; intros k; [done |]. rewrite numbers_cons.
    intros [Hi Hl]%not_elem_of_cons. simpl. rewrite (proj2 (Z.eqb_neq _ _)) by done. by apply IH. }
  by rewrite Hf.
Qed.

Lemma alter_snoc {A} (f : A → A) l x : alter f (length l) (l ++ [x]) = l ++ [f x].
Proof. induction l as [|y l IH]; [done |]. cbn. by f_equal. Qed.

(** A new instance under a number of the caller's choice. *)
Lemma AddCipInstance_new self c id :
  instances_wf c → 1 <= id <= 65535 → id ∉ numbers (instances c) →
  Z.of_nat (length (instances c)) < 65534 →
  ∃ c', AddCipInstance self c id = Some (c', ListInstance (length (instances c))) ∧
    instances c' = instances c ++
      [mkInstance id (replicate (Z.to_nat (number_of_attributes c)) empty_attribute) (Some self)] ∧
    instances_wf c' ∧ same_class c' c.
Proof.
  intros Hwf Hid Hnew Hl. unfold AddCipInstance.
  rewrite GetCipInstance_unused by (done || lia).
  destruct (AddCipInstances_ok self c 1) as (c' & new & -> & Hi & Hln & Hf & (_ & Hn & _) & Hs);
    [done | lia | lia |].
  cbn [mbind option_bind Z.eqb]. destruct new as [|i [|? ?]]; simpl in Hln; try lia.
  rewrite Hi, alter_snoc. apply Forall_cons in Hf as [(Ha & Hc & _) _].
  set (i' := set_instance_number id i).
  assert (Hok : numbers_ok (instances c ++ [i'])) by (apply numbers_ok_snoc; [apply Hwf | done | done]).
  pose proof (GetMax_range (upd_instances 0 0 (instances c ++ [i']) c) Hok) as Hr.
  unfold GetMaxInstanceNumber in Hr. cbn [upd_instances instances] in Hr.
  rewrite Hi, length_app in Hn. simpl in Hn.
  eexists. split; [done |]. unfold set_max_instance, GetMaxInstanceNumber.
  cbn [upd_instances instances]. split.
  - unfold i', set_instance_number. by rewrite Ha, Hc.
  - split; [| exact Hs]. unfold instances_wf, GetMaxInstanceNumber.
    cbn [upd_instances instances number_of_instances max_instance].
    rewrite Hn, length_app. simpl length. rewrite (u16_id (foldl _ _ _)) by (unfold is_u16; lia).
    rewrite !(u16_id (Z.of_nat _)) by (unfold is_u16; lia). split_and!; try done; lia.
Qed.

(** ** Properties *)

(** C22.  [AddCipInstances] terminates with the requested number of new
    instances at the end of the list, lowest free numbers first: numbers stay
    distinct and in 1..65535, every number up to a new one is in use, the
    instance count and the maximum are those of the list, nothing else of the
    class changes, and [GetCipInstance] finds every instance, old and new, at its
    place under its number. *)
Theorem AddCipInstances_spec self c number :
  instances_wf c → 0 <= number → Z.of_nat (length (instances c)) + number <= 65534 →
  ∃ c' new, AddCipInstances self c number
      = Some (c', if number =? 0 then None else Some (length (instances c))) ∧
    instances c' = instances c ++ new ∧ Z.of_nat (length new) = number ∧
    Forall (fresh_instance self c (instances c')) new ∧
    instances_wf c' ∧ same_class c' c ∧
    ∀ k i, instances c' !! k = Some i →
      GetCipInstance c' (instance_number i) = Some (ListInstance k).
Proof.
  intros Hwf H0 Hl. destruct (AddCipInstances_ok self c number)
    as (c' & new & E & H1 & H2 & H3 & H4 & H5); [done.. |].
  exists c', new. repeat (split; [done |]). intros k i. by apply GetCipInstance_lookup.
Qed.

Definition example_class : CipClass :=
  upd_instances 3 2
    [mkInstance 1 [] (Some (TheClass 0)); mkInstance 3 [] (Some (TheClass 0))]
    (new_class 0 0x64 0 0 0 0 "example" 1).

Lemma AddCipInstances_spec_witness :
  ∃ c' new, AddCipInstances (TheClass 0) example_class 2 = Some (c', Some 2%nat) ∧
    instances c' = instances example_class ++ new ∧ numbers new = [2; 4].
Proof.
  destruct (AddCipInstances_spec (TheClass 0) example_class 2)
    as (c' & new & H1 & H2 & _).
  - split; [split | split; [reflexivity | split; [reflexivity | simpl; lia]]].
    + apply (bool_decide_unpack _). reflexivity.
    + repeat (constructor; [simpl; lia |]). constructor.
  - lia.
  - simpl; lia.
  - exists c', new. split; [exact H1 | split; [exact H2 |]].
    vm_compute in H1. injection H1 as <-. simpl in H2.
    injection H2 as <-. reflexivity.
Defined.

(** [InsertAttribute] into an instance with a free slot, for a number not
    defined yet and within the class's highest attribute number, never faults:
    afterwards [GetCipAttribute] finds the new attribute, all other attributes
    are found as before, each mask bit of the new number is set exactly when the
    flags ask for it or it was set already, no other mask bit changes, and the
    instance stays well formed. *)
Theorem InsertAttribute_spec i c num t enc dec d flags :
  attributes_wf i c → 1 <= num <= highest_attribute_number c → is_Some enc →
  (∃ k, data <$> attributes i !! k = Some None) →
  (∀ a, a ∈ attributes i → attribute_number a ≠ num) →
  ∃ i' c', InsertAttribute i c num t enc dec (Some d) flags = Some (i', c') ∧
    attributes_wf i' c' ∧
    GetCipAttribute i' c' num = Some (Some (mkAttribute num t enc dec flags (Some d))) ∧
    (∀ m, m ≠ num → m ≠ 0 → GetCipAttribute i' c' m = GetCipAttribute i c m) ∧
    (∀ k, 0 <= k →
       mask_bit (get_single_bit_mask c') k
       = (b ← mask_bit (get_single_bit_mask c) k;
          Some (b || (has_flag flags kGetableSingle && (k =? num)))) ∧
       mask_bit (get_all_bit_mask c') k
       = (b ← mask_bit (get_all_bit_mask c) k;
          Some (b || (has_flag flags (kGetableAll .| kGetableAllDummy) && (k =? num)))) ∧
       mask_bit (set_bit_mask c') k
       = (b ← mask_bit (set_bit_mask c) k;
          Some (b || (has_flag flags kSetable && (k =? num))))).
Proof.
  intros Hwf Hnum Henc Hfree Hnew.
  pose proof Hwf as (Hlen & Hall & Hh & Hg & Ha & Hs).
  destruct (find_free_slot_spec (attributes i) 0 Hfree) as (k & Hslot & Hk).
  unfold InsertAttribute. cbn [mbind option_bind].
  rewrite <-Hlen, Nat2Z.id, Hslot. cbn [mbind option_bind Nat.add].
  rewrite (proj2 (Z.leb_le _ _)) by lia.
  assert (Hdiv : num / 8 <= highest_attribute_number c / 8) by (apply Z.div_le_mono; lia).
  destruct (or_mask_spec (get_single_bit_mask c) num (has_flag flags kGetableSingle))
    as (gs & -> & Hgl & Hgs); [lia.. |].
  destruct (or_mask_spec (get_all_bit_mask c) num
    (has_flag flags (kGetableAll .| kGetableAllDummy))) as (ga & Ega & Hal & Hga); [lia.. |].
  destruct (or_mask_spec (set_bit_mask c) num (has_flag flags kSetable))
    as (st & Est & Hsl & Hst); [lia.. |].
  assert ((if has_flag flags kSetable then 1 else 0) ≪ (num mod 8)
          = (if has_flag flags kSetable then 1 ≪ (num mod 8) else 0)) as ->.
  { case_match; [done | apply Z.shiftl_0_l]. }
  cbn [mbind option_bind]. rewrite Ega. cbn [mbind option_bind]. rewrite Est.
  cbn [mbind option_bind].
  set (a := mkAttribute num t enc dec flags (Some d)).
  assert (Hklen : (k < length (attributes i))%nat).
  { destruct (attributes i !! k) eqn:E; [by eapply lookup_lt_Some | done]. }
  assert (Hempty : attributes i !! k = Some empty_attribute).
  { destruct (attributes i !! k) as [x|] eqn:E; [| done]. simpl in Hk.
    eapply Forall_lookup_1 in Hall; [| done]. unfold attribute_ok in Hall.
    injection Hk as Hk. by rewrite Hk in Hall; subst. }
  destruct (find_insert_slot (attributes i) k a num Hklen eq_refl Hnew) as [Hf1 Hf2].
  eexists _, _. split; [reflexivity |].
  assert (Hwf' : attributes_wf (mkInstance (instance_number i) (<[k:=a]> (attributes i)) (cip_class i))
    (upd_masks gs st ga c)).
  { unfold attributes_wf. simpl. rewrite length_insert, Hgl, Hal, Hsl.
    split_and!; try done. apply Forall_insert; [done |]. by split. }
  split; [done |]. rewrite (GetCipAttribute_find _ _ _ Hwf'). simpl. rewrite Hf1.
  split; [done |]. split; [| auto].
  intros m Hm Hm0. rewrite (GetCipAttribute_find _ _ _ Hwf'), (GetCipAttribute_find _ _ _ Hwf).
  simpl. rewrite Hf2; [done.. | by rewrite Hempty].
Qed.

(** A class object with a free attribute slot. *)
Definition example_meta : CipClass :=
  AllocateAttributeMasks (new_meta_class 0 (-6) 7 0 "example").

Definition example_class_object : CipInstance := mkInstance 0 [empty_attribute] None.

Lemma InsertAttribute_spec_witness :
  ∃ i' c', InsertAttribute example_class_object example_meta 3 kCipUint
      (Some EncodeCipUint) None (Some ClassRevision) kGetableSingle = Some (i', c') ∧
    mask_bit (get_single_bit_mask c') 3 = Some true ∧
    mask_bit (get_single_bit_mask c') 4 = Some false.
Proof.
  destruct (InsertAttribute_spec example_class_object example_meta 3 kCipUint
    (Some EncodeCipUint) None ClassRevision kGetableSingle)
    as (i' & c' & H1 & _ & _ & _ & Hm).
  - repeat split; try (vm_compute; done). repeat constructor.
  - split; vm_compute; discriminate.
  - by eexists.
  - by exists 0%nat.
  - intros a Ha. apply list_elem_of_singleton in Ha as ->. done.
  - exists i', c'. split; [exact H1 |]. split.
    + destruct (Hm 3) as [E _]; [lia |]. rewrite E. reflexivity.
    + destruct (Hm 4) as [E _]; [lia |]. rewrite E. reflexivity.
Defined.
