(* ===== verification/CipServices.v ===== *)
(** * [cip/cipcommon.c]: the common CIP services

    A service gets the class number and the instance pointer, the request and
    the response, and returns its status with the updated request, response and
    stack.  Application callbacks and the services of other objects are an
    interface, the class [Application]. *)

From S2P Require Import Prelude EndianConv CipStrings CipTypes CipCodec CipClasses.
From stdpp Require Import strings.
Open Scope Z_scope.

(** ** The application and the other objects

    A get/set callback may change the data objects, a create/delete/reset
    callback the response and the whole stack; both may fault. *)
Class Application := {
  get_set_callback : nat → CipInstance → CipAttributeStruct → Z →
    gmap nat CipData → option (gmap nat CipData);
  service_callback : nat → nat → InstancePtr → CipMessageRouterRequest →
    CipMessageRouterResponse → CipStack →
    option (EipStatus * CipMessageRouterResponse * CipStack);
  other_service : nat → nat → InstancePtr → CipMessageRouterRequest →
    CipMessageRouterResponse → SockAddr → Z → CipStack →
    option (EipStatus * CipMessageRouterRequest * CipMessageRouterResponse * CipStack)
}.

Definition ServiceResult : Type :=
  EipStatus * CipMessageRouterRequest * CipMessageRouterResponse * CipStack.

(** [*instance] *)
Definition get_instance (n : nat) (p : InstancePtr) (s : CipStack) : option CipInstance :=
  c ← get_class (TheClass n) s;
  match p with
  | ClassObject => Some (class_instance c)
  | ListInstance i => instances c !! i
  end.

(** [*instance->cip_class] *)
Definition instance_class (i : CipInstance) (s : CipStack) : option CipClass :=
  cp ← cip_class i; get_class cp s.

Definition init_response_message (r : CipMessageRouterResponse) : CipMessageRouterResponse :=
  set_message InitializeENIPMessage r.

Definition GenerateGetAttributeSingleHeader (req : CipMessageRouterRequest)
    (resp : CipMessageRouterResponse) : CipMessageRouterResponse :=
  let resp := init_response_message resp in
  let resp := set_reply_service (0x80 .| service req) resp in
  let resp := set_general_status kCipErrorAttributeNotSupported resp in
  set_size_of_additional_status 0 resp.

Definition GenerateSetAttributeSingleHeader (req : CipMessageRouterRequest)
    (resp : CipMessageRouterResponse) : CipMessageRouterResponse :=
  let resp := init_response_message resp in
  let resp := set_reply_service (0x80 .| service req) resp in
  let resp := set_general_status kCipErrorAttributeNotSupported resp in
  set_size_of_additional_status 0 resp.

Definition path_attribute (req : CipMessageRouterRequest) : Z :=
  attribute_number_of_path (request_path req).

(** [attribute->encode(attribute->data, &response->message)] *)
Definition encode_attribute (n : nat) (a : CipAttributeStruct) (s : CipStack)
    (resp : CipMessageRouterResponse) : option CipMessageRouterResponse :=
  enc ← encode a;
  d ← data a;
  v ← load_data n d s;
  m ← enc v (message resp);
  Some (set_message m resp).

(** [attribute->decode(attribute->data, request, response)], with its result. *)
Definition decode_attribute (n : nat) (a : CipAttributeStruct)
    (req : CipMessageRouterRequest) (resp : CipMessageRouterResponse) (s : CipStack)
  : option (Z * CipMessageRouterRequest * CipMessageRouterResponse * CipStack) :=
  dec ← decode a;
  d ← data a;
  v ← load_data n d s;
  '(r, v, req, resp) ← dec v req resp;
  s ← store_data d v s;
  Some (r, req, resp, s).

Section Services.
Context `{Application}.

(** A callback enabled by the attribute's flags and provided by the class. *)
Definition run_get_set_callback (cb : option nat) (flag : Z) (i : CipInstance)
    (a : CipAttributeStruct) (service : Z) (s : CipStack) : option CipStack :=
  if has_flag (attribute_flags a) flag then
    match cb with
    | Some cb =>
        o ← get_set_callback cb i a service (objects s);
        Some (mkStack (classes s) o)
    | None => Some s
    end
  else Some s.

Definition GetAttributeSingle (n : nat) (p : InstancePtr) (req : CipMessageRouterRequest)
    (resp : CipMessageRouterResponse) (s : CipStack) : option ServiceResult :=
  i ← get_instance n p s;
  c ← instance_class i s;
  attribute ← GetCipAttribute i c (path_attribute req);
  let resp := GenerateGetAttributeSingleHeader req resp in
  match attribute with
  | Some a =>
      match data a with
      | Some _ =>
          gettable ← mask_bit (get_single_bit_mask c) (path_attribute req);
          if gettable : bool then
            s ← run_get_set_callback (PreGetCallback c) kPreGetFunc i a (service req) s;
            resp ← encode_attribute n a s resp;
            let resp := set_general_status kCipErrorSuccess resp in
            s ← run_get_set_callback (PostGetCallback c) kPostGetFunc i a (service req) s;
            Some (kEipStatusOkSend, req, resp, s)
          else Some (kEipStatusOkSend, req, resp, s)
      | None => Some (kEipStatusOkSend, req, resp, s)
      end
  | None => Some (kEipStatusOkSend, req, resp, s)
  end.

Definition SetAttributeSingle (n : nat) (p : InstancePtr) (req : CipMessageRouterRequest)
    (resp : CipMessageRouterResponse) (s : CipStack) : option ServiceResult :=
  i ← get_instance n p s;
  c ← instance_class i s;
  attribute ← GetCipAttribute i c (path_attribute req);
  let resp := GenerateSetAttributeSingleHeader req resp in
  match attribute with
  | Some a =>
      match data a with
      | Some _ =>
          if (attribute_flags a =? kGetableAllDummy) || (attribute_flags a =? kNotSetOrGetable)
             || (attribute_flags a =? kGetableAll)
          then Some (kEipStatusOkSend, req, resp, s)
          else
            settable ← mask_bit (set_bit_mask c) (path_attribute req);
            if settable : bool then
              s ← run_get_set_callback (PreSetCallback c) kPreSetFunc i a (service req) s;
              '(_, req, resp, s) ← decode_attribute n a req resp s;
              s ← run_get_set_callback (PostSetCallback c) (kPostSetFunc .| kNvDataFunc)
                    i a (service req) s;
              Some (kEipStatusOkSend, req, resp, s)
            else
              Some (kEipStatusOkSend, req,
                    set_general_status kCipErrorAttributeNotSetable resp, s)
      | None => Some (kEipStatusOkSend, req, resp, s)
      end
  | None => Some (kEipStatusOkSend, req, resp, s)
  end.

(** ** GetAttributeAll *)

(** The loop over the first [k] slots of the attribute array. *)
Fixpoint get_all_loop (n k : nat) (l : list CipAttributeStruct) (c : CipClass)
    (s : CipStack) (req : CipMessageRouterRequest) (resp : CipMessageRouterResponse)
  : option (CipMessageRouterRequest * CipMessageRouterResponse) :=
  match k with
  | O => Some (req, resp)
  | S k =>
      match l with
      | [] => None
      | a :: l =>
          b ← mask_bit (get_all_bit_mask c) (attribute_number a);
          if b : bool then
            let req := set_request_path
              (set_path_attribute (attribute_number a) (request_path req)) req in
            resp ← encode_attribute n a s resp;
            get_all_loop n k l c s req resp
          else get_all_loop n k l c s req resp
      end
  end.

Definition GetAttributeAll (n : nat) (p : InstancePtr) (req : CipMessageRouterRequest)
    (resp : CipMessageRouterResponse) (s : CipStack) : option ServiceResult :=
  i ← get_instance n p s;
  c ← instance_class i s;
  let resp := init_response_message resp in
  if 0 =? number_of_attributes c then
    let resp := set_reply_service (0x80 .| service req) resp in
    let resp := set_general_status kCipErrorServiceNotSupported resp in
    Some (kEipStatusOkSend, req, set_size_of_additional_status 0 resp, s)
  else
    let resp := GenerateGetAttributeSingleHeader req resp in
    let resp := set_general_status kCipErrorSuccess resp in
    '(req, resp) ← get_all_loop n (Z.to_nat (number_of_attributes c)) (attributes i) c s req resp;
    Some (kEipStatusOkSend, req, resp, s).

(** ** GetAttributeList and SetAttributeList *)

(** The [data] argument of the length computation. *)
Definition attribute_length_data (n : nat) (a : CipAttributeStruct) (s : CipStack)
  : option LengthData :=
  match data a with
  | None => Some LNull
  | Some d => v ← load_data n d s; Some (LObject v)
  end.

Definition needed_space (n : nat) (attribute : option CipAttributeStruct) (s : CipStack)
  : option Z :=
  match attribute with
  | Some a =>
      ld ← attribute_length_data n a s;
      len ← GetCipDataTypeLength (type a) ld;
      Some (s64 len)
  | None => Some 2
  end.

Definition remaining_space (resp : CipMessageRouterResponse) : Z :=
  PC_OPENER_ETHERNET_BUFFER_SIZE - s64 (used_message_length (message resp)) - 33.

(** Writing the count field reserved at [count_position]: the length is taken
    back by two, the position saved and restored. *)
Definition write_count (count_position : option Z) (count : Z)
    (resp : CipMessageRouterResponse) : option CipMessageRouterResponse :=
  let m := set_used (used_message_length (message resp) - 2) (message resp) in
  let save_current_position := current_message_position m in
  m ← AddIntToMessage count (set_position count_position m);
  Some (set_message (set_position save_current_position m) resp).

Definition add_to_response (f : ENIPMessage → option ENIPMessage)
    (resp : CipMessageRouterResponse) : option CipMessageRouterResponse :=
  m ← f (message resp); Some (set_message m resp).

(** Attribute status and reserved byte. *)
Definition add_status (status : Z) (resp : CipMessageRouterResponse)
  : option CipMessageRouterResponse :=
  resp ← add_to_response (AddSintToMessage status) resp;
  add_to_response (AddSintToMessage 0) resp.

Definition partial_transfer_status (resp : CipMessageRouterResponse)
  : CipMessageRouterResponse :=
  if negb (general_status resp =? kCipErrorAttributeListError)
  then set_general_status kCipErrorPartialTransfer resp else resp.

(** What happens to one attribute of the list after its number is written. *)
Definition get_list_entry (n : nat) (c : CipClass) (num : Z)
    (attribute : option CipAttributeStruct) (s : CipStack)
    (resp : CipMessageRouterResponse) : option CipMessageRouterResponse :=
  match attribute with
  | Some a =>
      b ← mask_bit (get_single_bit_mask c) num;
      if b : bool then
        resp ← add_status kCipErrorSuccess resp;
        encode_attribute n a s resp
      else
        resp ← add_status kCipErrorAttributeNotGettable resp;
        Some (set_general_status kCipErrorAttributeListError resp)
  | None =>
      resp ← add_status kCipErrorAttributeNotSupported resp;
      Some (set_general_status kCipErrorAttributeListError resp)
  end.

Fixpoint get_list_loop (n j : nat) (i : CipInstance) (c : CipClass)
    (count_position : option Z) (count : Z) (s : CipStack)
    (req : CipMessageRouterRequest) (resp : CipMessageRouterResponse)
  : option (CipMessageRouterRequest * CipMessageRouterResponse) :=
  match j with
  | O => resp ← write_count count_position count resp; Some (req, resp)
  | S j =>
      '(num, p) ← GetUintFromMessage (request_data req);
      let req := set_request_data p req in
      attribute ← GetCipAttribute i c num;
      needed ← needed_space n attribute s;
      if remaining_space resp <? needed then
        resp ← write_count count_position count resp;
        Some (req, partial_transfer_status resp)
      else
        resp ← add_to_response (AddIntToMessage num) resp;
        resp ← get_list_entry n c num attribute s resp;
        get_list_loop n j i c count_position count s req resp
  end.

Definition list_header (req : CipMessageRouterRequest) (resp : CipMessageRouterResponse)
  : CipMessageRouterResponse :=
  let resp := init_response_message resp in
  let resp := set_reply_service (0x80 .| service req) resp in
  let resp := set_general_status kCipErrorSuccess resp in
  set_size_of_additional_status 0 resp.

Definition GetAttributeList (n : nat) (p : InstancePtr) (req : CipMessageRouterRequest)
    (resp : CipMessageRouterResponse) (s : CipStack) : option ServiceResult :=
  i ← get_instance n p s;
  c ← instance_class i s;
  let resp := list_header req resp in
  '(count, q) ← GetUintFromMessage (request_data req);
  let req := set_request_data q req in
  if negb (0 =? count) then
    let count_position := current_message_position (message resp) in
    let resp := set_message (MoveMessageNOctets 2 (message resp)) resp in
    '(req, resp) ← get_list_loop n (Z.to_nat count) i c count_position count s req resp;
    Some (kEipStatusOkSend, req, resp, s)
  else
    Some (kEipStatusOkSend, req, set_general_status kCipErrorAttributeListError resp, s).

(** One attribute of [SetAttributeList]; [None] in the last component ends
    the service with the partial-transfer status. *)
Definition set_list_entry (n : nat) (c : CipClass) (num : Z)
    (attribute : option CipAttributeStruct) (s : CipStack)
    (req : CipMessageRouterRequest) (resp : CipMessageRouterResponse)
  : option (CipMessageRouterRequest * CipMessageRouterResponse * CipStack * bool) :=
  match attribute with
  | Some a =>
      b ← mask_bit (set_bit_mask c) num;
      if b : bool then
        resp ← add_status kCipErrorSuccess resp;
        '(_, req, resp, s) ← decode_attribute n a req resp s;
        Some (req, resp, s, true)
      else
        resp ← add_status kCipErrorAttributeNotSetable resp;
        len ← GetCipDataTypeLength (type a) (LMessage (request_data req));
        if negb (0 =? len) then
          p ← ptr_add (request_data req) (Z.to_nat len);
          Some (set_request_data p req,
                set_general_status kCipErrorAttributeListError resp, s, true)
        else
          Some (req, set_general_status kCipErrorPartialTransfer resp, s, false)
  | None =>
      resp ← add_status kCipErrorAttributeNotSupported resp;
      Some (req, set_general_status kCipErrorAttributeListError resp, s, true)
  end.

Fixpoint set_list_loop (n j : nat) (i : CipInstance) (c : CipClass)
    (count_position : option Z) (count : Z) (s : CipStack)
    (req : CipMessageRouterRequest) (resp : CipMessageRouterResponse)
  : option (CipMessageRouterRequest * CipMessageRouterResponse * CipStack) :=
  match j with
  | O => resp ← write_count count_position count resp; Some (req, resp, s)
  | S j =>
      '(num, p) ← GetUintFromMessage (request_data req);
      let req := set_request_data p req in
      attribute ← GetCipAttribute i c num;
      needed ← needed_space n attribute s;
      if remaining_space resp <? needed then
        resp ← write_count count_position count resp;
        Some (req, partial_transfer_status resp, s)
      else
        resp ← add_to_response (AddIntToMessage num) resp;
        '(req, resp, s, go_on) ← set_list_entry n c num attribute s req resp;
        if go_on : bool then set_list_loop n j i c count_position count s req resp
        else Some (req, resp, s)
  end.

Definition SetAttributeList (n : nat) (p : InstancePtr) (req : CipMessageRouterRequest)
    (resp : CipMessageRouterResponse) (s : CipStack) : option ServiceResult :=
  i ← get_instance n p s;
  c ← instance_class i s;
  let resp := list_header req resp in
  '(count, q) ← GetUintFromMessage (request_data req);
  let req := set_request_data q req in
  if negb (0 =? count) then
    let count_position := current_message_position (message resp) in
    let resp := set_message (MoveMessageNOctets 2 (message resp)) resp in
    '(req, resp, s) ← set_list_loop n (Z.to_nat count) i c count_position count s req resp;
    Some (kEipStatusOkSend, req, resp, s)
  else
    Some (kEipStatusOkSend, req, set_general_status kCipErrorAttributeListError resp, s).

(** ** Create, Delete, Reset *)

Definition run_service_callback (cb : option nat) (n : nat) (p : InstancePtr)
    (req : CipMessageRouterRequest) (resp : CipMessageRouterResponse) (s : CipStack)
  : option (EipStatus * CipMessageRouterResponse * CipStack) :=
  match cb with
  | Some cb => service_callback cb n p req resp s
  | None => Some (kEipStatusOk, resp, s)
  end.

Definition CipCreateService (n : nat) (p : InstancePtr) (req : CipMessageRouterRequest)
    (resp : CipMessageRouterResponse) (s : CipStack) : option ServiceResult :=
  let resp := list_header req resp in
  k ← GetCipClass s (class_id (request_path req));
  c ← get_class (TheClass k) s;
  '(internal_state, resp, s) ← run_service_callback (PreCreateCallback c) n p req resp s;
  if decide (internal_state = kEipStatusOk) then
    c ← get_class (TheClass k) s;
    '(c, new_instance) ← AddCipInstances (TheClass k) c 1;
    j ← new_instance;
    let s := set_class (TheClass k) c s in
    '(_, resp, s) ← run_service_callback (PostCreateCallback c) k (ListInstance j) req resp s;
    Some (kEipStatusOkSend, req, resp, s)
  else Some (kEipStatusOkSend, req, resp, s).

(** Unlinking the first list element with the number. *)
Fixpoint remove_instance (num : Z) (l : list CipInstance) : list CipInstance :=
  match l with
  | [] => []
  | i :: l => if instance_number i =? num then l else i :: remove_instance num l
  end.

(** Deleting the class object would free the class struct the registry refers
    to; that is outside the model. *)
Definition CipDeleteService (n : nat) (p : InstancePtr) (req : CipMessageRouterRequest)
    (resp : CipMessageRouterResponse) (s : CipStack) : option ServiceResult :=
  i ← get_instance n p s;
  let resp := set_general_status kCipErrorInstanceNotDeletable resp in
  let resp := set_size_of_additional_status 0 resp in
  let resp := init_response_message resp in
  let resp := set_reply_service (0x80 .| service req) resp in
  cp ← cip_class i;
  assert! match cp with MetaClass _ => false | TheClass _ => true end;
  c ← get_class cp s;
  '(internal_state, resp, s) ← run_service_callback (PreDeleteCallback c) n p req resp s;
  if decide (internal_state = kEipStatusOk) then
    c ← get_class cp s;
    assert! match instances c with [] => false | _ => true end;
    let s := set_class cp
      (upd_instances (max_instance c) (number_of_instances c)
         (remove_instance (instance_number i) (instances c)) c) s in
    '(_, resp, s) ← run_service_callback (PostDeleteCallback c) n p req resp s;
    c ← get_class cp s;
    let c := upd_instances (max_instance c) (number_of_instances c - 1) (instances c) c in
    let s := set_class cp (set_max_instance c) s in
    Some (kEipStatusOk, req, set_general_status kCipErrorSuccess resp, s)
  else Some (kEipStatusOk, req, resp, s).

Definition CipResetService (n : nat) (p : InstancePtr) (req : CipMessageRouterRequest)
    (resp : CipMessageRouterResponse) (s : CipStack) : option ServiceResult :=
  i ← get_instance n p s;
  let resp := set_general_status kCipErrorSuccess resp in
  let resp := set_size_of_additional_status 0 resp in
  let resp := init_response_message resp in
  let resp := set_reply_service (0x80 .| service req) resp in
  c ← instance_class i s;
  '(internal_state, resp, s) ← run_service_callback (PreResetCallback c) n p req resp s;
  if decide (internal_state = kEipStatusError) then Some (internal_state, req, resp, s)
  else
    c ← instance_class i s;
    '(_, resp, s) ← run_service_callback (PostResetCallback c) n p req resp s;
    Some (internal_state, req, resp, s).

(** Calling a service function pointer. *)
Definition run_service (fn : CipServiceFunction) (n : nat) (p : InstancePtr)
    (req : CipMessageRouterRequest) (resp : CipMessageRouterResponse)
    (originator_address : SockAddr) (encapsulation_session : Z) (s : CipStack)
  : option ServiceResult :=
  match fn with
  | FnGetAttributeSingle => GetAttributeSingle n p req resp s
  | FnSetAttributeSingle => SetAttributeSingle n p req resp s
  | FnGetAttributeAll => GetAttributeAll n p req resp s
  | FnGetAttributeList => GetAttributeList n p req resp s
  | FnSetAttributeList => SetAttributeList n p req resp s
  | FnCipCreateService => CipCreateService n p req resp s
  | FnCipDeleteService => CipDeleteService n p req resp s
  | FnCipResetService => CipResetService n p req resp s
  | FnOther id => other_service id n p req resp originator_address encapsulation_session s
  end.

End Services.

(** [NotifyClass]: the instance of the path, then the service of the request
    in the services of the instance's class.  Services may work on more state than
    the CIP stack: the state is a parameter, with the stack it holds and the call
    of a service function pointer. *)
Section Dispatch.
Context {St : Type} (stack_of : St → CipStack).
Variable run : CipServiceFunction → nat → InstancePtr → CipMessageRouterRequest →
  CipMessageRouterResponse → SockAddr → Z → St →
  option (EipStatus * CipMessageRouterRequest * CipMessageRouterResponse * St).

Definition notify_class (n : nat) (req : CipMessageRouterRequest)
    (resp : CipMessageRouterResponse) (originator_address : SockAddr) (encapsulation_session : Z)
    (st : St) : option (EipStatus * CipMessageRouterRequest * CipMessageRouterResponse * St) :=
  let s := stack_of st in
  c ← get_class (TheClass n) s;
  let error status :=
    let resp := set_general_status status resp in
    let resp := set_size_of_additional_status 0 resp in
    let resp := init_response_message resp in
    Some (kEipStatusOkSend, req, set_reply_service (0x80 .| service req) resp, st) in
  match GetCipInstance c (instance_number_of_path (request_path req)) with
  | Some p =>
      i ← get_instance n p s;
      k ← instance_class i s;
      sv ← GetCipService k (service req);
      match sv with
      | Some sv =>
          fn ← service_function sv;
          run fn n p req resp originator_address encapsulation_session st
      | None => error kCipErrorServiceNotSupported
      end
  | None => error kCipErrorPathDestinationUnknown
  end.
End Dispatch.

Definition NotifyClass `{Application} (n : nat) (req : CipMessageRouterRequest)
    (resp : CipMessageRouterResponse) (originator_address : SockAddr) (encapsulation_session : Z)
    (s : CipStack) : option ServiceResult :=
  notify_class (λ s, s) run_service n req resp originator_address encapsulation_session s.

(** ** Lemmas *)

(** An instance, its class, and the well-formedness of its attribute array. *)
Definition instance_ctx (n : nat) (p : InstancePtr) (s : CipStack)
    (i : CipInstance) (c : CipClass) : Prop :=
  get_instance n p s = Some i ∧ instance_class i s = Some c ∧ attributes_wf i c.

Definition lookup_attribute (i : CipInstance) (num : Z) : option CipAttributeStruct :=
  List.find (fun a => num =? attribute_number a) (attributes i).

Lemma lookup_attribute_Some i num a :
  lookup_attribute i num = Some a → a ∈ attributes i ∧ attribute_number a = num.
Proof.
  unfold lookup_attribute. intros H. apply List.find_some in H as [Hin ->%Z.eqb_eq].
  split; [by apply list_elem_of_In | done].
Qed.

Lemma lookup_attribute_mask i c num a :
  attributes_wf i c → lookup_attribute i num = Some a →
  is_Some (mask_bit (get_single_bit_mask c) num) ∧
  is_Some (mask_bit (set_bit_mask c) num) ∧ is_Some (mask_bit (get_all_bit_mask c) num).
Proof.
  intros (_ & Hall & Hh & Hg & Ha & Hs) [Hin <-]%lookup_attribute_Some.
  rewrite list.Forall_forall in Hall. specialize (Hall _ Hin). unfold attribute_ok in Hall.
  assert (0 <= attribute_number a <= highest_attribute_number c) as [? Hle].
  { destruct (data a); [lia | subst; simpl; lia]. }
  assert (attribute_number a / 8 <= highest_attribute_number c / 8) by (apply Z.div_le_mono; lia).
  split_and!; apply mask_bit_Some; lia.
Qed.

(** The response [GenerateGetAttributeSingleHeader] builds. *)
Definition reply (req : CipMessageRouterRequest) (resp : CipMessageRouterResponse)
    (status : Z) (m : ENIPMessage) : CipMessageRouterResponse :=
  mkResponse (u8 (0x80 .| service req)) (reserved resp) status 0 (additional_status resp) m.

(** Neither of the two callbacks of a get runs for the attribute. *)
Definition no_callback (cb : option nat) (flag : Z) (a : CipAttributeStruct) : Prop :=
  cb = None ∨ has_flag (attribute_flags a) flag = false.

Lemma run_no_callback `{Application} cb flag i a sv s :
  no_callback cb flag a → run_get_set_callback cb flag i a sv s = Some s.
Proof. unfold run_get_set_callback. intros [-> | ->]; [by case_match | done]. Qed.

(** The attribute's value, through its data pointer. *)
Definition attribute_value (n : nat) (a : CipAttributeStruct) (s : CipStack) : option CipData :=
  d ← data a; load_data n d s.

Lemma encode_attribute_eq n a s resp enc v :
  encode a = Some enc → attribute_value n a s = Some v →
  encode_attribute n a s resp = (m ← enc v (message resp); Some (set_message m resp)).
Proof.
  unfold encode_attribute, attribute_value. intros -> Hv. simpl.
  destruct (data a); [simpl in * | done]. by rewrite Hv.
Qed.

(** Reading a gettable attribute, its pre-get callback included. *)
Lemma GetAttributeSingle_gettable `{Application} n p s i c req resp a enc v s1 m :
  instance_ctx n p s i c → lookup_attribute i (path_attribute req) = Some a →
  mask_bit (get_single_bit_mask c) (path_attribute req) = Some true →
  run_get_set_callback (PreGetCallback c) kPreGetFunc i a (service req) s = Some s1 →
  encode a = Some enc → attribute_value n a s1 = Some v → enc v InitializeENIPMessage = Some m →
  no_callback (PostGetCallback c) kPostGetFunc a →
  GetAttributeSingle n p req resp s
  = Some (kEipStatusOkSend, req, reply req resp kCipErrorSuccess m, s1).
Proof.
  intros (Hi & Hc & Hwf) Ha Hm Hpre Henc Hv He Hpost. unfold GetAttributeSingle.
  rewrite Hi. cbn [mbind option_bind]. rewrite Hc. cbn [mbind option_bind].
  rewrite GetCipAttribute_find by done. fold (lookup_attribute i (path_attribute req)).
  rewrite Ha. cbn [mbind option_bind].
  destruct (data a) as [d|] eqn:Ed; [|by unfold attribute_value in Hv; rewrite Ed in Hv].
  rewrite Hm. cbn [mbind option_bind]. rewrite Hpre. cbn [mbind option_bind].
  rewrite (encode_attribute_eq _ _ _ _ enc v) by done. simpl. rewrite He. simpl.
  by rewrite run_no_callback.
Qed.

(** An attribute whose encoder always appends at most [L] bytes. *)
Definition encodes_within (n : nat) (s : CipStack) (a : CipAttributeStruct) (L : Z) : Prop :=
  ∃ enc v, encode a = Some enc ∧ attribute_value n a s = Some v ∧
    ∀ out m, holds out m → Z.of_nat (length out) + L <= 512 →
      ∃ m' bs, enc v m = Some m' ∧ holds (out ++ bs) m' ∧ Z.of_nat (length bs) <= L.

(** Attributes that a list service can measure: the length computed before
    encoding is at least that of the encoding. *)
Definition measured (n : nat) (s : CipStack) (c : CipClass) (a : CipAttributeStruct) : Prop :=
  ∃ L, needed_space n (Some a) s = Some L ∧ 0 <= L ∧
    (mask_bit (get_single_bit_mask c) (attribute_number a) = Some true → encodes_within n s a L).

Lemma holds_add out m v k :
  holds out m → Z.of_nat (length out + k) <= 512 →
  ∃ m', put (le_bytes k v) m = Some m' ∧ holds (out ++ le_bytes k v) m'.
Proof.
  intros Hm Hk. apply holds_put; [done | apply le_bytes_bytes |].
  by rewrite length_app, length_le_bytes.
Qed.

Lemma add_status_put st resp :
  add_status st resp = (m ← put [u8 st; 0] (message resp); Some (set_message m resp)).
Proof.
  unfold add_status, add_to_response. rewrite AddSintToMessage_put.
  destruct (put (le_bytes 1 st) (message resp)) as [m|] eqn:E; simpl.
  - rewrite AddSintToMessage_put. change [u8 st; 0] with (le_bytes 1 st ++ le_bytes 1 0).
    rewrite <-put_app, E. simpl. by destruct (put (le_bytes 1 0) m).
  - change [u8 st; 0] with (le_bytes 1 st ++ [0]). by rewrite <-put_app, E.
Qed.

(** The response under construction by a list service: two reserved bytes and
    [body]. *)
Definition building (body : list Z) (resp : CipMessageRouterResponse) : Prop :=
  ∃ x y, holds ([x; y] ++ body) (message resp).

(** [resp'] differs from [resp] in status and message only. *)
Definition same_header (resp' resp : CipMessageRouterResponse) : Prop :=
  reply_service resp' = reply_service resp ∧ reserved resp' = reserved resp ∧
  size_of_additional_status resp' = size_of_additional_status resp ∧
  additional_status resp' = additional_status resp.

#[export] Instance same_header_equivalence : Equivalence same_header.
Proof.
  split; unfold same_header.
  - done.
  - intros ?? (?&?&?&?). by split_and!.
  - intros ??? (?&?&?&?) (?&?&?&?). split_and!; congruence.
Qed.

Lemma building_used body resp :
  building body resp → used_message_length (message resp) = 2 + Z.of_nat (length body).
Proof. intros (x & y & H). rewrite (holds_used _ _ H), length_app. simpl. lia. Qed.

Lemma building_remaining body resp :
  building body resp → Z.of_nat (length body) <= 510 →
  remaining_space resp = 477 - Z.of_nat (length body).
Proof.
  intros Hb Hl. unfold remaining_space. rewrite (building_used _ _ Hb).
  unfold PC_OPENER_ETHERNET_BUFFER_SIZE. unfold s64. rewrite Z.mod_small by lia. lia.
Qed.

Lemma building_put body bs resp :
  building body resp → bytes bs → Z.of_nat (length body) + Z.of_nat (length bs) <= 510 →
  ∃ m, put bs (message resp) = Some m ∧ building (body ++ bs) (set_message m resp).
Proof.
  intros (x & y & H) Hbs Hl.
  destruct (holds_put _ bs _ H Hbs) as (m & E & Hm); [rewrite !length_app; simpl; lia |].
  exists m. split; [done |]. exists x, y. by rewrite <-(assoc_L (++)) in Hm.
Qed.

(** Overwriting the two reserved bytes: the length is taken back by two before
    and the position restored after. *)
Lemma overwrite_count x y body buf pos used count :
  holds ([x; y] ++ body) (mkENIPMessage buf pos used) → Z.of_nat (length body) <= 510 →
  ∃ m, put (le_bytes 2 count) (mkENIPMessage buf (Some 0) (u64 (used - 2))) = Some m ∧
       holds (le_bytes 2 count ++ body) (set_position pos m).
Proof.
  intros ((Hlen & Hb & Hu) & Hp & Hused & Ht) Hl. simpl in *.
  assert (Hbuf : length buf = 512%nat) by (rewrite Hlen; done).
  assert (Hdrop : take (length body) (drop 2 buf) = body).
  { destruct buf as [|b0 [|b1 buf]]; [done.. |]. simpl in *. by injection Ht. }
  destruct (put (le_bytes 2 count) (mkENIPMessage buf (Some 0) (u64 (used - 2))))
    as [m|] eqn:E.
  2: { assert (is_Some (put (le_bytes 2 count) (mkENIPMessage buf (Some 0) (u64 (used - 2)))))
         as [? ?]; [apply put_is_Some; unfold room; simpl; lia | congruence]. }
  exists m. split; [done |].
  apply put_Some in E as (q & Hq & _ & _ & ->). simpl in Hq. injection Hq as <-.
  rewrite u64_id by (unfold is_u64; lia). simpl. rewrite u64_id by (unfold is_u64; lia).
  unfold holds, wf_message. simpl.
  split; [split; [| split] |].
  - rewrite length_drop, Hbuf. done.
  - repeat (apply bytes_cons; split; [apply u8_range |]). by apply bytes_drop.
  - unfold is_u64; lia.
  - split; [done |]. split; [lia |]. by rewrite Hdrop.
Qed.

Lemma write_count_spec body resp count :
  building body resp → Z.of_nat (length body) <= 510 →
  ∃ m, write_count (Some 0) count resp = Some (set_message m resp) ∧
       holds (le_bytes 2 count ++ body) m.
Proof.
  intros (x & y & H) Hl. destruct resp as [r1 r2 r3 r4 r5 [buf pos used]]. simpl in H.
  destruct (overwrite_count x y body buf pos used count H Hl) as (m & E & Hm).
  unfold write_count, set_position, set_used; simpl. rewrite AddIntToMessage_put, E. simpl.
  by eexists.
Qed.

Section ListServices.
Context `{Application}.

(** An attribute entry that the length check let through. *)
Lemma get_list_entry_spec n s i c num body resp L :
  attributes_wf i c → building body resp →
  needed_space n (lookup_attribute i num) s = Some L → 0 <= L →
  (∀ a, lookup_attribute i num = Some a →
     mask_bit (get_single_bit_mask c) num = Some true → encodes_within n s a L) →
  Z.of_nat (length body) + 2 + L <= 510 →
  ∃ resp' bs, get_list_entry n c num (lookup_attribute i num) s resp = Some resp' ∧
    building (body ++ bs) resp' ∧ Z.of_nat (length bs) <= 2 + L ∧
    same_header resp' resp ∧
    (general_status resp' = general_status resp ∨
     general_status resp' = kCipErrorAttributeListError).
Proof.
  intros Hwf Hb HL HL0 Henc Hfit. unfold get_list_entry.
  assert (Hst : ∀ st, ∃ m, add_status st resp = Some (set_message m resp) ∧
    building (body ++ [u8 st; 0]) (set_message m resp)).
  { intros st. rewrite add_status_put.
    destruct (building_put body [u8 st; 0] resp) as (m & -> & Hm); simpl;
      [done | repeat constructor; try apply u8_range; unfold is_u8; lia | lia |].
    by exists m. }
  destruct (lookup_attribute i num) as [a|] eqn:Ea.
  - destruct (lookup_attribute_mask i c num a Hwf Ea) as [[g Hg] _]. rewrite Hg.
    cbn [mbind option_bind]. destruct g.
    + destruct (Hst kCipErrorSuccess) as (m & -> & Hm). cbn [mbind option_bind].
      destruct (Henc a eq_refl Hg) as (enc & v & He & Hv & Hput).
      rewrite (encode_attribute_eq _ _ _ _ enc v) by done. simpl.
      destruct Hm as (x & y & Hm).
      destruct (Hput _ _ Hm) as (m' & bs & Hm' & Hh & Hlen).
      { rewrite !length_app. simpl. lia. }
      simpl in Hm'. rewrite Hm'. simpl. eexists _, _. split; [done |].
      split; [exists x, y; by rewrite <-!(assoc_L (++)) in Hh |].
      split; [rewrite length_app; simpl; lia |]. split; [done | by left].
    + destruct (Hst kCipErrorAttributeNotGettable) as (m & -> & Hm). simpl.
      eexists _, _. split; [done |]. split; [exact Hm |]. split; [simpl; lia |].
      split; [done | by right].
  - destruct (Hst kCipErrorAttributeNotSupported) as (m & -> & Hm). simpl.
    eexists _, _. split; [done |]. split; [exact Hm |]. split; [simpl; lia |].
    split; [done | by right].
Qed.

Definition list_status (st : Z) : Prop :=
  st = kCipErrorSuccess ∨ st = kCipErrorPartialTransfer ∨ st = kCipErrorAttributeListError.

Lemma get_list_loop_spec n s i c count j body req resp :
  attributes_wf i c → (∀ a, a ∈ attributes i → measured n s c a) →
  bytes (request_data req) → (2 * j <= length (request_data req))%nat →
  building body resp → Z.of_nat (length body) <= 481 → list_status (general_status resp) →
  ∃ req' resp' body', get_list_loop n j i c (Some 0) count s req resp = Some (req', resp') ∧
    holds (le_bytes 2 count ++ body') (message resp') ∧
    Z.of_nat (length body') <= 481 ∧ same_header resp' resp ∧
    list_status (general_status resp').
Proof.
  intros Hwf Hmeas. revert body req resp.
  induction j as [|j IH]; intros body req resp Hbq Hl Hb Hbl Hst.
  { simpl. destruct (write_count_spec body resp count Hb) as (m & -> & Hm); [lia |].
    simpl. exists req, (set_message m resp), body. by repeat (split; [done |]). }
  cbn [get_list_loop].
  destruct (GetUint_total (request_data req)) as (num & -> & Hnum); [done | lia |].
  cbn [mbind option_bind]. rewrite GetCipAttribute_find by done.
  cbn [mbind option_bind]. fold (lookup_attribute i num).
  assert (HL : ∃ L, needed_space n (lookup_attribute i num) s = Some L ∧ 0 <= L ∧
    ∀ a, lookup_attribute i num = Some a →
      mask_bit (get_single_bit_mask c) num = Some true → encodes_within n s a L).
  { destruct (lookup_attribute i num) as [a|] eqn:Ea.
    - destruct (lookup_attribute_Some _ _ _ Ea) as [Hin Ha].
      destruct (Hmeas a Hin) as (L & HL & HL0 & Henc). exists L. split_and!; try done.
      intros a' [= <-] Hg. apply Henc. by rewrite Ha.
    - exists 2. by split_and!. }
  destruct HL as (L & HL & HL0 & Henc). rewrite HL. cbn [mbind option_bind].
  rewrite (building_remaining body) by (done || lia).
  destruct (Z.ltb_spec (477 - Z.of_nat (length body)) L) as [Hlt|Hge].
  { destruct (write_count_spec body resp count Hb) as (m & -> & Hm); [lia |].
    simpl. eexists _, _, body. split; [done |].
    unfold partial_transfer_status. simpl.
    destruct (negb _); simpl; repeat (split; [done |]); [by right; left | done]. }
  unfold add_to_response. rewrite AddIntToMessage_put.
  destruct (building_put body (le_bytes 2 num) resp) as (m & -> & Hm);
    [done | apply le_bytes_bytes | rewrite length_le_bytes; lia |].
  cbn [mbind option_bind].
  destruct (get_list_entry_spec n s i c num _ _ L Hwf Hm HL HL0 Henc)
    as (resp' & bs & -> & Hb' & Hbs & Hsame & Hst').
  { rewrite length_app, length_le_bytes. lia. }
  cbn [mbind option_bind].
  destruct (IH ((body ++ le_bytes 2 num) ++ bs)
    (set_request_data (drop 2 (request_data req)) req) resp') as (req'' & resp'' & body'' & E & Hh & Hlen & Hsame' & Hst'');
    [by apply bytes_drop | simpl; rewrite length_drop; lia | exact Hb' | | |].
  - rewrite !length_app, length_le_bytes. lia.
  - destruct Hst' as [-> | ->]; [done | by right; right].
  - exists req'', resp'', body''. repeat (split; [done |]).
    split; [by rewrite Hsame', Hsame | done].
Qed.
End ListServices.

(** ** Get Attributes All *)

(** The bytes attribute [a] contributes to a Get Attributes All reply. *)
Definition all_bytes (n : nat) (s : CipStack) (c : CipClass) (a : CipAttributeStruct)
    (bs : list Z) : Prop :=
  match mask_bit (get_all_bit_mask c) (attribute_number a) with
  | Some true => ∃ enc v, encode a = Some enc ∧ attribute_value n a s = Some v ∧
                   writes (enc v) bs ∧ bytes bs
  | Some false => bs = []
  | None => False
  end.

Lemma get_all_loop_spec n c s l bss : Forall2 (all_bytes n s c) l bss →
  ∀ out req resp, holds out (message resp) →
  Z.of_nat (length (out ++ concat bss)) <= 512 →
  ∃ req' m, get_all_loop n (length l) l c s req resp = Some (req', set_message m resp) ∧
    holds (out ++ concat bss) m.
Proof.
  induction 1 as [|a bs l bss Ha Hl IH]; intros out req resp Hm Hlen.
  - exists req, (message resp). split; [by destruct resp |]. by rewrite app_nil_r.
  - cbn [length get_all_loop]. unfold all_bytes in Ha.
    destruct (mask_bit _ _) as [[]|]; [| subst bs | done]; cbn [mbind option_bind].
    + destruct Ha as (enc & v & He & Hv & Hw & Hb).
      cbn [concat] in Hlen |- *. rewrite (assoc_L (++)) in Hlen |- *.
      destruct (writes_holds (enc v) bs out (message resp)) as (m & Em & Hm'); [done..| |].
      { rewrite length_app in Hlen. lia. }
      rewrite (encode_attribute_eq _ _ _ _ enc v), Em by done. cbn [mbind option_bind].
      destruct (IH (out ++ bs) (set_request_path
        (set_path_attribute (attribute_number a) (request_path req)) req) (set_message m resp))
        as (req' & m' & E & Hh); [done | done |].
      exists req', m'. by rewrite E.
    + apply IH; [done |]. exact Hlen.
Qed.

(** ** Create and Delete *)

Lemma numbers_remove num l :
  NoDup (numbers l) →
  numbers (remove_instance num l) = List.filter (fun k => negb (k =? num)) (numbers l).
Proof.
  induction l as [|i l IH]; [done |]. rewrite numbers_cons. intros [Hn Hnd]%list.NoDup_cons.
  cbn [remove_instance List.filter]. destruct (Z.eqb_spec (instance_number i) num) as [<-|Hne]; simpl.
  - clear IH. assert (Hall : Forall (λ k, negb (k =? instance_number i) = true) (numbers l)).
    { apply list.Forall_forall. intros k Hk. apply negb_true_iff, Z.eqb_neq. by intros ->. }
    clear Hn Hnd. induction Hall as [|k ks Hk _ IH]; simpl; [done |]. by rewrite Hk, <-IH.
  - by rewrite IH.
Qed.

Lemma remove_instance_ok num l : numbers_ok l → numbers_ok (remove_instance num l).
Proof.
  intros [Hnd Hr]. unfold numbers_ok. rewrite numbers_remove by done. split.
  - apply NoDup_ListNoDup, List.NoDup_filter. by apply NoDup_ListNoDup.
  - apply List.Forall_forall. intros k [Hk _]%List.filter_In. eapply List.Forall_forall in Hr; done.
Qed.

Lemma length_remove_instance num l :
  num ∈ numbers l → S (length (remove_instance num l)) = length l.
Proof.
  induction l as [|i l IH]; [by intros ?%elem_of_nil |]. rewrite numbers_cons.
  intros [->|Hin]%elem_of_cons; simpl; [by rewrite Z.eqb_refl |].
  case_match; [done |]. simpl. f_equal. by apply IH.
Qed.

Lemma remove_snoc num l i :
  num ∉ numbers l → instance_number i = num → remove_instance num (l ++ [i]) = l.
Proof.
  intros Hn Hi. induction l as [|x l IH]; simpl; [by rewrite Hi, Z.eqb_refl |].
  rewrite numbers_cons in Hn. apply not_elem_of_cons in Hn as [Hx Hn].
  rewrite (proj2 (Z.eqb_neq _ _)) by congruence. by rewrite IH.
Qed.

Lemma upd_instances_id c :
  is_u16 (max_instance c) → is_u16 (number_of_instances c) →
  upd_instances (max_instance c) (number_of_instances c) (instances c) c = c.
Proof. intros H1 H2. unfold upd_instances. rewrite !u16_id by done. by destruct c. Qed.

Lemma instances_wf_remove c num :
  instances_wf c → num ∈ numbers (instances c) →
  instances_wf (set_max_instance
    (upd_instances (max_instance c) (number_of_instances c - 1)
       (remove_instance num (instances c)) c)).
Proof.
  intros (Hok & Hn & _ & Hl) Hin.
  pose proof (length_remove_instance _ _ Hin). pose proof (remove_instance_ok num _ Hok) as Hok'.
  set (c' := upd_instances _ _ _ c).
  assert (Hi : instances c' = remove_instance num (instances c)) by done.
  pose proof (GetMax_range c' ltac:(by rewrite Hi)) as Hmax.
  assert (Hu : u16 (number_of_instances c - 1) = number_of_instances c - 1)
    by (apply u16_id; unfold is_u16; lia).
  unfold instances_wf, set_max_instance. simpl. fold c'.
  rewrite !Hu, (u16_id (GetMaxInstanceNumber c')) by (unfold is_u16; lia).
  split_and!; [done | lia | done | lia].
Qed.

(** ** Examples *)

(** An application without callbacks. *)
#[export] Instance no_application : Application := {|
  get_set_callback _ _ _ _ o := Some o;
  service_callback _ _ _ _ resp s := Some (kEipStatusOk, resp, s);
  other_service _ _ _ req resp _ _ s := Some (kEipStatusOkSend, req, resp, s) |}.

(** One class 0x64 with one instance holding the given attributes, each at the
    address of its number. *)
Definition example_attributes : Type :=
  list (Z * Z * Encoder * option Decoder * Z * CipData).

Fixpoint insert_all (l : example_attributes) (ic : CipInstance * CipClass)
  : option (CipInstance * CipClass) :=
  match l with
  | [] => Some ic
  | (num, t, enc, dec, flags, _) :: l =>
      ic ← InsertAttribute ic.1 ic.2 num t (Some enc) dec
             (Some (Object (Z.to_nat num))) flags;
      insert_all l ic
  end.

Definition example_objects (l : example_attributes) : gmap nat CipData :=
  list_to_map ((fun '(num, _, _, _, _, v) => (Z.to_nat num, v)) <$> l).

Definition example_stack (l : example_attributes) : option CipStack :=
  '(s, n) ← CreateCipClass 0x64 0 7 2 (Z.of_nat (length l)) 10 3 1 "example" 1 None
              (mkStack [] (example_objects l));
  c ← get_class (TheClass n) s;
  c ← InsertService c kGetAttributeSingle (Some FnGetAttributeSingle) "GetAttributeSingle";
  i ← instances c !! 0%nat;
  '(i, c) ← insert_all l (i, c);
  Some (set_class (TheClass n)
          (upd_instances (max_instance c) (number_of_instances c) [i] c) s).

Definition list_request (data : list Z) : CipMessageRouterRequest :=
  mkRequest 0x03 (mkEpath 2 0x64 1 0) (Z.of_nat (length data)) data.

Definition example_peer : SockAddr := mkSockAddr 0xAF12 0x0A00000A.
Definition empty_response : CipMessageRouterResponse :=
  mkResponse 0 0 0 0 [0; 0] InitializeENIPMessage.

Definition ex_attributes : example_attributes :=
  [(1, kCipUint, EncodeCipUint, Some DecodeCipUint, kSetAndGetAble, DInt 2 7);
   (2, kCipUint, EncodeCipUint, None, kGetableSingle, DInt 2 0x1234)].

Definition ex_stack : CipStack := default empty_stack (example_stack ex_attributes).
Definition ex_instance : CipInstance :=
  default (mkInstance 0 [] None) (get_instance 0 (ListInstance 0) ex_stack).
Definition ex_class : CipClass :=
  default example_class (get_class (TheClass 0) ex_stack).

Lemma default_Some {A} (d : A) (o : option A) :
  match o with Some _ => true | None => false end = true → o = Some (default d o).
Proof. by destruct o. Qed.

Lemma ex_get_class : get_class (TheClass 0) ex_stack = Some ex_class.
Proof. apply default_Some. vm_compute. reflexivity. Qed.

Lemma ex_get_instance : get_instance 0 (ListInstance 0) ex_stack = Some ex_instance.
Proof. apply default_Some. vm_compute. reflexivity. Qed.

Lemma ex_instance_class : instance_class ex_instance ex_stack = Some ex_class.
Proof.
  unfold instance_class. replace (cip_class ex_instance) with (Some (TheClass 0)).
  - exact ex_get_class.
  - vm_compute. reflexivity.
Qed.

Lemma ex_instance_attributes : attributes ex_instance =
  [mkAttribute 1 kCipUint (Some EncodeCipUint) (Some DecodeCipUint) kSetAndGetAble (Some (Object 1));
   mkAttribute 2 kCipUint (Some EncodeCipUint) None kGetableSingle (Some (Object 2))].
Proof. reflexivity. Qed.

Lemma ex_highest : highest_attribute_number ex_class = 10.
Proof. vm_compute. reflexivity. Qed.

Lemma ex_mask_lengths :
  length (get_single_bit_mask ex_class) = 2%nat ∧ length (get_all_bit_mask ex_class) = 2%nat ∧
  length (set_bit_mask ex_class) = 2%nat ∧ number_of_attributes ex_class = 2.
Proof. vm_compute. by repeat split. Qed.

Lemma ex_ctx : instance_ctx 0 (ListInstance 0) ex_stack ex_instance ex_class.
Proof.
  split; [exact ex_get_instance |]. split; [exact ex_instance_class |].
  destruct ex_mask_lengths as (E1 & E2 & E3 & E4).
  unfold attributes_wf. rewrite ex_highest, E1, E2, E3, E4, ex_instance_attributes.
  split; [done |]. split; [| by repeat split].
  repeat constructor; rewrite ?ex_highest; simpl; try lia; eauto.
Qed.

Definition single_request (num : Z) (data : list Z) : CipMessageRouterRequest :=
  mkRequest 0x0E (mkEpath 3 0x64 1 num) (Z.of_nat (length data)) data.

(** ** Properties *)

Section ServiceProperties.
Context `{Application}.

(** [GetAttributeSingle] never faults on a well-formed instance when no
    callback is enabled for the attribute: an attribute that is not defined,
    has no data or is not gettable gives "attribute not supported" with an
    empty message, a gettable one gives success with exactly the bytes its
    encoder writes; request and stack are unchanged. *)
Theorem GetAttributeSingle_spec n p s i c req resp :
  instance_ctx n p s i c →
  match lookup_attribute i (path_attribute req) with
  | Some a =>
      match data a with
      | Some _ => ∃ g, mask_bit (get_single_bit_mask c) (path_attribute req) = Some g ∧
          if g then
            ∀ enc v, encode a = Some enc → attribute_value n a s = Some v →
              no_callback (PreGetCallback c) kPreGetFunc a →
              no_callback (PostGetCallback c) kPostGetFunc a →
              GetAttributeSingle n p req resp s
              = (m ← enc v InitializeENIPMessage;
                 Some (kEipStatusOkSend, req, reply req resp kCipErrorSuccess m, s))
          else GetAttributeSingle n p req resp s
               = Some (kEipStatusOkSend, req,
                       reply req resp kCipErrorAttributeNotSupported InitializeENIPMessage, s)
      | None => GetAttributeSingle n p req resp s
                = Some (kEipStatusOkSend, req,
                        reply req resp kCipErrorAttributeNotSupported InitializeENIPMessage, s)
      end
  | None => GetAttributeSingle n p req resp s
            = Some (kEipStatusOkSend, req,
                    reply req resp kCipErrorAttributeNotSupported InitializeENIPMessage, s)
  end.
Proof.
  intros (Hi & Hc & Hwf). unfold GetAttributeSingle. rewrite Hi. cbn [mbind option_bind].
  rewrite Hc. cbn [mbind option_bind]. rewrite GetCipAttribute_find by done.
  fold (lookup_attribute i (path_attribute req)). cbn [mbind option_bind].
  destruct (lookup_attribute i (path_attribute req)) as [a|] eqn:Ea; [| done].
  destruct (data a) eqn:Ed; [| done].
  destruct (lookup_attribute_mask i c _ a Hwf Ea) as [[g Hg] _].
  exists g. split; [done |]. rewrite Hg. cbn [mbind option_bind].
  destruct g; [| done]. intros enc v Henc Hv Hpre Hpost.
  rewrite run_no_callback by done. cbn [mbind option_bind].
  rewrite (encode_attribute_eq _ _ _ _ enc v) by done. simpl.
  destruct (enc v InitializeENIPMessage); simpl; [| done].
  by rewrite run_no_callback.
Qed.

Lemma run_callback_classes `{Application} cb flag i a sv s s' :
  run_get_set_callback cb flag i a sv s = Some s' → classes s' = classes s.
Proof.
  unfold run_get_set_callback. destruct (has_flag _ _); [|by intros [= <-]].
  destruct cb as [k|]; [|by intros [= <-]]. destruct (get_set_callback k i a sv (objects s)); [|done].
  by intros [= <-].
Qed.

(** C23.  What [SetAttributeSingle] stores, [GetAttributeSingle] returns: for
    an attribute of an integer type of one, two or four bytes that is settable and gettable, setting it
    from the little-endian bytes of a value succeeds, changes only the
    attribute's object beside what the class's callbacks before and after it change, and a following get answers
    with those bytes.  The callbacks of setting run if they are registered and enabled; they succeed
    and leave the attribute's own object alone.  No callback runs for getting the attribute. *)
Theorem SetAttributeSingle_then_Get `{Application} n p s i c req resp a enc dec w v old addr rest g s1 s' :
  instance_ctx n p s i c →
  lookup_attribute i (path_attribute req) = Some a →
  (enc, dec, w) ∈ integer_codecs → encode a = Some enc → decode a = Some dec →
  data a = Some (Object addr) →
  attribute_flags a ∉ [kGetableAllDummy; kNotSetOrGetable; kGetableAll] →
  run_get_set_callback (PreSetCallback c) kPreSetFunc i a (service req) s = Some s1 →
  objects s1 !! addr = Some (DInt w old) →
  run_get_set_callback (PostSetCallback c) (kPostSetFunc .| kNvDataFunc) i a (service req)
    (mkStack (classes s) (<[addr := DInt w v]> (objects s1))) = Some s' →
  objects s' !! addr = Some (DInt w v) →
  no_callback (PreGetCallback c) kPreGetFunc a →
  no_callback (PostGetCallback c) kPostGetFunc a →
  mask_bit (set_bit_mask c) (path_attribute req) = Some true →
  mask_bit (get_single_bit_mask c) (path_attribute req) = Some true →
  0 <= v < 256 ^ Z.of_nat w → request_data req = le_bytes w v ++ rest →
  path_attribute g = path_attribute req →
  ∃ m, put (le_bytes w v) InitializeENIPMessage = Some m ∧
    SetAttributeSingle n p req resp s
    = Some (kEipStatusOkSend, set_request_data rest req,
            reply req resp kCipErrorSuccess InitializeENIPMessage, s') ∧
    GetAttributeSingle n p g resp s'
    = Some (kEipStatusOkSend, g, reply g resp kCipErrorSuccess m, s').
Proof.
  intros (Hi & Hc & Hwf) Ha Hin Henc Hdec Hd Hflags Hpre Hobj Hpost Hobj' H3 H4 Hset Hget Hv Hreq Hg.
  pose proof (integer_codec_width _ _ _ Hin) as Hw.
  destruct (holds_put [] (le_bytes w v) _ holds_init) as (m & Hm & _);
    [apply le_bytes_bytes | rewrite length_app, length_le_bytes; simpl; lia |].
  exists m. split; [done |].
  destruct (integer_codec_spec enc dec w v old rest req
    (GenerateSetAttributeSingleHeader req resp) InitializeENIPMessage Hin Hv Hreq) as [He Hde].
  assert (Hcl : classes s' = classes s) by exact (run_callback_classes _ _ _ _ _ _ _ Hpost).
  assert (Hcl1 : classes s1 = classes s) by exact (run_callback_classes _ _ _ _ _ _ _ Hpre).
  assert (Hs' : get_instance n p s' = get_instance n p s)
    by (unfold get_instance, get_class; by rewrite Hcl).
  assert (Hic : instance_class i s' = instance_class i s)
    by (unfold instance_class, get_class; by rewrite Hcl).
  split.
  - unfold SetAttributeSingle. rewrite Hi. cbn [mbind option_bind].
    rewrite Hc. cbn [mbind option_bind]. rewrite GetCipAttribute_find by done.
    fold (lookup_attribute i (path_attribute req)). rewrite Ha. cbn [mbind option_bind].
    rewrite Hd, Hset. cbn [mbind option_bind].
    assert (((attribute_flags a =? kGetableAllDummy) || (attribute_flags a =? kNotSetOrGetable)
             || (attribute_flags a =? kGetableAll)) = false) as ->.
    { rewrite !not_elem_of_cons in Hflags. destruct Hflags as (?&?&?&_).
      by rewrite !(proj2 (Z.eqb_neq _ _)) by done. }
    rewrite Hpre. cbn [mbind option_bind].
    unfold decode_attribute. rewrite Hdec, Hd. cbn [mbind option_bind load_data].
    rewrite Hobj. cbn [mbind option_bind]. rewrite Hde. cbn [mbind option_bind store_data].
    rewrite Hobj. cbn [mbind option_bind]. rewrite Hcl1.
    change (service (set_request_data rest req)) with (service req). by rewrite Hpost.
  - unfold GetAttributeSingle. rewrite Hs', Hi. cbn [mbind option_bind].
    rewrite Hic, Hc. cbn [mbind option_bind].
    rewrite GetCipAttribute_find by done. rewrite Hg.
    fold (lookup_attribute i (path_attribute req)). rewrite Ha. cbn [mbind option_bind].
    rewrite Hd, Hget. cbn [mbind option_bind]. rewrite run_no_callback by done.
    cbn [mbind option_bind].
    rewrite (encode_attribute_eq _ _ _ _ enc (DInt w v)); [| done |].
    + simpl. destruct (integer_codec_spec enc dec w v old rest req resp
        InitializeENIPMessage Hin Hv Hreq) as [-> _]. rewrite Hm. simpl.
      by rewrite run_no_callback.
    + unfold attribute_value. rewrite Hd. exact Hobj'.
Qed.

(** [GetAttributeList] never overruns the response buffer, whatever list
    is requested, when the length of every gettable attribute is computed
    correctly: with at least [2 * count] bytes of attribute numbers it returns
    a reply with the requested count, at most 483 bytes and one of the statuses
    success, partial transfer, list error; the stack is unchanged. *)
Theorem GetAttributeList_fits n p s i c req resp count q :
  instance_ctx n p s i c → (∀ a, a ∈ attributes i → measured n s c a) →
  bytes q → 0 < count < 65536 → request_data req = le_bytes 2 count ++ q →
  2 * count <= Z.of_nat (length q) →
  ∃ req' status m body, GetAttributeList n p req resp s
      = Some (kEipStatusOkSend, req', reply req resp status m, s) ∧
    holds (le_bytes 2 count ++ body) m ∧ Z.of_nat (length body) <= 481 ∧
    list_status status.
Proof.
  intros (Hi & Hc & Hwf) Hmeas Hq Hcount Hreq Hl. unfold GetAttributeList.
  rewrite Hi. cbn [mbind option_bind]. rewrite Hc. cbn [mbind option_bind].
  rewrite Hreq, GetUint_le, u16_id by (unfold is_u16; lia). cbn [mbind option_bind].
  rewrite (proj2 (Z.eqb_neq 0 count)) by lia. change (negb false) with true. cbv iota.
  set (r0 := list_header req resp).
  assert (Hb : building [] (set_message (MoveMessageNOctets 2 (message r0)) r0)).
  { exists 0, 0. split; [split; [done | split; [apply Initialize_wf | apply u64_range]] |].
    done. }
  destruct (get_list_loop_spec n s i c count (Z.to_nat count) []
    (set_request_data q req) (set_message (MoveMessageNOctets 2 (message r0)) r0))
    as (req' & resp' & body & E & Hh & Hlen & Hsame & Hst);
    [done | done | done | simpl; lia | done | simpl; lia | by left |].
  simpl in E |- *. rewrite E. simpl.
  destruct resp' as [r1 r2 r3 r4 r5 m]. destruct Hsame as (E1 & E2 & E3 & E4). simpl in *.
  subst. exists req', r3, m, body. by repeat (split; [done |]).
Qed.
(** [GetAttributeAll] on a well-formed instance concatenates, in the order
    of the attribute array, the encodings of exactly the attributes that are in
    the class's get-all mask; the request keeps everything but the attribute
    number in its path, the stack is unchanged. *)
Lemma GetAttributeAll_spec n p s i c req resp bss :
  instance_ctx n p s i c → number_of_attributes c ≠ 0 →
  Forall2 (all_bytes n s c) (attributes i) bss → Z.of_nat (length (concat bss)) <= 512 →
  ∃ req' m, GetAttributeAll n p req resp s
      = Some (kEipStatusOkSend, req', reply req resp kCipErrorSuccess m, s) ∧
    holds (concat bss) m.
Proof.
  intros (Hi & Hc & Hwf) Hn Hall Hlen. unfold GetAttributeAll. rewrite Hi.
  cbn [mbind option_bind]. rewrite Hc. cbn [mbind option_bind].
  rewrite (proj2 (Z.eqb_neq 0 _)) by congruence.
  destruct Hwf as [Hl _]. rewrite <-Hl, Nat2Z.id.
  destruct (get_all_loop_spec n c s (attributes i) bss Hall [] req
    (set_general_status kCipErrorSuccess (GenerateGetAttributeSingleHeader req
       (init_response_message resp)))) as (req' & m & E & Hh);
    [exact holds_init | done |].
  exists req', m. rewrite E. done.
Qed.
End ServiceProperties.

Lemma GetAttributeSingle_spec_witness :
  GetAttributeSingle 0 (ListInstance 0) (single_request 9 []) empty_response ex_stack
  = Some (kEipStatusOkSend, single_request 9 [],
          reply (single_request 9 []) empty_response kCipErrorAttributeNotSupported
            InitializeENIPMessage, ex_stack).
Proof.
  exact (GetAttributeSingle_spec 0 (ListInstance 0) ex_stack ex_instance ex_class
    (single_request 9 []) empty_response ex_ctx).
Defined.

Lemma SetAttributeSingle_then_Get_witness :
  ∃ m, put [0x34; 0x12] InitializeENIPMessage = Some m ∧
    ∃ s', SetAttributeSingle 0 (ListInstance 0) (single_request 1 [0x34; 0x12])
            empty_response ex_stack
      = Some (kEipStatusOkSend, set_request_data [] (single_request 1 [0x34; 0x12]),
              reply (single_request 1 [0x34; 0x12]) empty_response kCipErrorSuccess
                InitializeENIPMessage, s') ∧
      GetAttributeSingle 0 (ListInstance 0) (single_request 1 []) empty_response s'
      = Some (kEipStatusOkSend, single_request 1 [],
              reply (single_request 1 []) empty_response kCipErrorSuccess m, s').
Proof.
  destruct (SetAttributeSingle_then_Get 0 (ListInstance 0) ex_stack ex_instance ex_class
    (single_request 1 [0x34; 0x12]) empty_response
    (mkAttribute 1 kCipUint (Some EncodeCipUint) (Some DecodeCipUint) kSetAndGetAble
       (Some (Object 1))) EncodeCipUint DecodeCipUint 2 0x1234 7 1 [] (single_request 1 []) ex_stack
    (mkStack (classes ex_stack) (<[1%nat := DInt 2 0x1234]> (objects ex_stack))))
    as (m & H1 & H2 & H3).
  - exact ex_ctx.
  - reflexivity.
  - unfold integer_codecs. repeat (first [apply list_elem_of_here | apply list_elem_of_further]).
  - reflexivity.
  - reflexivity.
  - reflexivity.
  - apply (bool_decide_unpack _). reflexivity.
  - reflexivity.
  - reflexivity.
  - reflexivity.
  - reflexivity.
  - by left.
  - by left.
  - reflexivity.
  - reflexivity.
  - change (256 ^ Z.of_nat 2) with 65536. lia.
  - reflexivity.
  - reflexivity.
  - exists m. split; [exact H1 |]. eexists. split; [exact H2 | exact H3].
Defined.

Lemma encodes_within_uint n s a v :
  encode a = Some EncodeCipUint → attribute_value n a s = Some (DInt 2 v) →
  encodes_within n s a 2.
Proof.
  intros He Hv. exists EncodeCipUint, (DInt 2 v). repeat (split; [done |]).
  intros out m Hm Hl. unfold EncodeCipUint. rewrite int_object_DInt. simpl.
  rewrite AddIntToMessage_put.
  destruct (holds_add out m v 2 Hm) as (m' & E & Hm'); [lia |].
  exists m', (le_bytes 2 v). by rewrite E.
Qed.

Lemma ex_measured a : a ∈ attributes ex_instance → measured 0 ex_stack ex_class a.
Proof.
  rewrite ex_instance_attributes, !elem_of_cons. intros [->|[->|Ha]]; [..| by apply elem_of_nil in Ha].
  all: exists 2; split; [reflexivity |]; split; [lia |]; intros _.
  - by apply (encodes_within_uint _ _ _ 7).
  - by apply (encodes_within_uint _ _ _ 0x1234).
Qed.

Lemma GetAttributeList_fits_witness :
  ∃ req' status m body, GetAttributeList 0 (ListInstance 0)
      (list_request [2; 0; 1; 0; 9; 0]) empty_response ex_stack
    = Some (kEipStatusOkSend, req',
            reply (list_request [2; 0; 1; 0; 9; 0]) empty_response status m, ex_stack) ∧
    holds (le_bytes 2 2 ++ body) m.
Proof.
  destruct (GetAttributeList_fits 0 (ListInstance 0) ex_stack ex_instance ex_class
    (list_request [2; 0; 1; 0; 9; 0]) empty_response 2 [1; 0; 9; 0])
    as (req' & st & m & body & H1 & H2 & _).
  - exact ex_ctx.
  - exact ex_measured.
  - repeat (constructor; [unfold is_u8; lia |]). constructor.
  - lia.
  - reflexivity.
  - simpl; lia.
  - exists req', st, m, body. split; [exact H1 | exact H2].
Defined.

(** A short-string attribute with 200 characters. *)
Definition long_name_stack : CipStack := default empty_stack (example_stack
  [(1, kCipShortString, EncodeCipShortString, None, kGetableSingle,
    DShortString (mkShortString 200 (Some (replicate 200 65))))]).

(** The length check of [GetAttributeList] reads the length of a short
    string as a signed byte, so a string of 200 characters counts as negative:
    asking three times for it writes past the end of the response buffer. *)
Theorem GetAttributeList_long_short_string_overruns :
  needed_space 0 (lookup_attribute
      (default (mkInstance 0 [] None) (get_instance 0 (ListInstance 0) long_name_stack)) 1)
    long_name_stack = Some (-55) ∧
  GetAttributeList 0 (ListInstance 0) (list_request [3; 0; 1; 0; 1; 0; 1; 0]) empty_response
    long_name_stack = None.
Proof. split; vm_compute; reflexivity. Qed.

(** [SetAttributeList] reports success although an attribute of the list
    failed, when a later attribute is set: the list error of the unknown
    attribute 9 is overwritten by the success status of the decoder of
    attribute 1. *)
Theorem SetAttributeList_success_hides_error :
  match SetAttributeList 0 (ListInstance 0) (list_request [2; 0; 9; 0; 1; 0; 5; 0])
          empty_response ex_stack with
  | Some (st, _, resp, s) =>
      st = kEipStatusOkSend ∧ general_status resp = kCipErrorSuccess ∧
      wire (message resp) = [2; 0; 9; 0; kCipErrorAttributeNotSupported; 0; 1; 0; 0; 0] ∧
      objects s !! 1%nat = Some (DInt 2 5)
  | None => False
  end.
Proof. vm_compute. by repeat split. Qed.

Section CreateDelete.
Context `{Application}.

(** The class of the request, without create and delete callbacks. *)
Definition plain_class (c : CipClass) : Prop :=
  PreCreateCallback c = None ∧ PostCreateCallback c = None ∧
  PreDeleteCallback c = None ∧ PostDeleteCallback c = None.

Lemma same_class_fields c' c :
  same_class c' c →
  PreCreateCallback c' = PreCreateCallback c ∧ PostCreateCallback c' = PostCreateCallback c ∧
  PreDeleteCallback c' = PreDeleteCallback c ∧ PostDeleteCallback c' = PostDeleteCallback c ∧
  class_code c' = class_code c.
Proof. unfold same_class, upd_instances. intros [=]. by split_and!. Qed.

Lemma same_class_eq c' c :
  same_class c' c → max_instance c' = max_instance c →
  number_of_instances c' = number_of_instances c → instances c' = instances c → c' = c.
Proof.
  unfold same_class, upd_instances. destruct c, c'; simpl. intros [=]. by intros; subst.
Qed.

End CreateDelete.

Lemma ex_instances_wf : instances_wf ex_class ∧ plain_class ex_class.
Proof.
  assert (Hn : numbers (instances ex_class) = [1]) by (vm_compute; reflexivity).
  assert (Hl : length (instances ex_class) = 1%nat ∧ number_of_instances ex_class = 1 ∧
    max_instance ex_class = 1 ∧ GetMaxInstanceNumber ex_class = 1 ∧ plain_class ex_class)
    by (vm_compute; by repeat split).
  destruct Hl as (E1 & E2 & E3 & E4 & E5). split; [| done].
  unfold instances_wf, numbers_ok. rewrite Hn, E1, E2, E3, E4.
  split; [split; [apply list.NoDup_singleton | repeat constructor; lia] |].
  split; [reflexivity |]. split; [reflexivity | lia].
Qed.


(** ** Dispatch *)

(** The service table of a class is as long as it says. *)
Definition services_wf (c : CipClass) : Prop :=
  number_of_services c = Z.of_nat (length (services c)).

Lemma GetCipService_find c num :
  services_wf c →
  GetCipService c num = Some (List.find (fun x => service_number x =? num) (services c)).
Proof.
  intros H. unfold GetCipService. rewrite H, Nat2Z.id. clear H.
  induction (services c) as [|x l IH]; simpl; [done |]. by case_match.
Qed.

(** The error reply of [NotifyClass]. *)
Definition class_error (req : CipMessageRouterRequest) (resp : CipMessageRouterResponse)
    (status : Z) : CipMessageRouterResponse :=
  mkResponse (u8 (0x80 .| service req)) (reserved resp) status 0 (additional_status resp)
    InitializeENIPMessage.

Lemma NotifyClass_dispatch `{Application} n req resp addr session s c :
  get_class (TheClass n) s = Some c →
  match GetCipInstance c (instance_number_of_path (request_path req)) with
  | None => NotifyClass n req resp addr session s
            = Some (kEipStatusOkSend, req, class_error req resp kCipErrorPathDestinationUnknown, s)
  | Some p => ∀ i k, get_instance n p s = Some i → instance_class i s = Some k → services_wf k →
      NotifyClass n req resp addr session s
      = match List.find (fun x => service_number x =? service req) (services k) with
        | None => Some (kEipStatusOkSend, req,
                        class_error req resp kCipErrorServiceNotSupported, s)
        | Some sv => fn ← service_function sv; run_service fn n p req resp addr session s
        end
  end.
Proof.
  intros Hc. unfold NotifyClass, notify_class. rewrite Hc. cbn [mbind option_bind].
  destruct (GetCipInstance c _) as [p|]; [| done]. intros i k -> Hk Hwf.
  cbn [mbind option_bind]. rewrite Hk. cbn [mbind option_bind].
  rewrite GetCipService_find by done. cbn [mbind option_bind]. by case_match.
Qed.
