(* ===== verification/Identity.v ===== *)
(** * [cip/cipidentity.c]: the identity object

    The object's data, the status word with its extended status field, the
    check of a reset request, and the creation of the class. *)

From S2P Require Import Prelude EndianConv CipStrings CipTypes CipCodec CipClasses CipServices.
From stdpp Require Import strings.
Open Scope Z_scope.

(** ** Data *)

Definition kCipIdentityClassCode : Z := 0x01.

(** [CipIdentityStatus] and [CipIdentityExtendedStatus] *)
Definition kOwned : Z := 0x0001.
Definition kConfigured : Z := 0x0004.
Definition kMajorRecoverableFault : Z := 0x0400.
Definition kMajorUnrecoverableFault : Z := 0x0800.
Definition kSelftestingUnknown : Z := 0x0000.
Definition kMajorFault : Z := 0x0050.
Definition kAtLeastOneIoConnectionInRunMode : Z := 0x0060.
Definition kAtLeastOneIoConnectionEstablishedAllInIdleMode : Z := 0x0070.
Definition kExtStatusMask : Z := 0x00F0.

Record CipIdentityObject := mkIdentity {
  vendor_id : Z; device_type : Z; product_code : Z; major_revision : Z; minor_revision : Z;
  identity_status : Z; ext_status : Z; serial_number : Z; product_name : CipShortString;
  identity_state : Z }.

Definition set_identity_status (v : Z) (g : CipIdentityObject) : CipIdentityObject :=
  mkIdentity (vendor_id g) (device_type g) (product_code g) (major_revision g)
    (minor_revision g) v (ext_status g) (serial_number g) (product_name g) (identity_state g).
Definition set_ext_status (v : Z) (g : CipIdentityObject) : CipIdentityObject :=
  mkIdentity (vendor_id g) (device_type g) (product_code g) (major_revision g)
    (minor_revision g) (identity_status g) v (serial_number g) (product_name g)
    (identity_state g).

(** ** The device's identity *)

Definition SetDeviceRevision (major minor : Z) (g : CipIdentityObject) : CipIdentityObject :=
  mkIdentity (vendor_id g) (device_type g) (product_code g) major minor
    (identity_status g) (ext_status g) (serial_number g) (product_name g) (identity_state g).

Definition SetDeviceSerialNumber (n : Z) (g : CipIdentityObject) : CipIdentityObject :=
  mkIdentity (vendor_id g) (device_type g) (product_code g) (major_revision g)
    (minor_revision g) (identity_status g) (ext_status g) n (product_name g)
    (identity_state g).

Definition SetDeviceType (t : Z) (g : CipIdentityObject) : CipIdentityObject :=
  mkIdentity (vendor_id g) t (product_code g) (major_revision g)
    (minor_revision g) (identity_status g) (ext_status g) (serial_number g) (product_name g)
    (identity_state g).

Definition SetDeviceProductCode (code : Z) (g : CipIdentityObject) : CipIdentityObject :=
  mkIdentity (vendor_id g) (device_type g) code (major_revision g)
    (minor_revision g) (identity_status g) (ext_status g) (serial_number g) (product_name g)
    (identity_state g).

Definition SetDeviceStatus (status : Z) (g : CipIdentityObject) : CipIdentityObject :=
  set_ext_status (status .& kExtStatusMask) (set_identity_status status g).

Definition SetDeviceVendorId (v : Z) (g : CipIdentityObject) : CipIdentityObject :=
  mkIdentity v (device_type g) (product_code g) (major_revision g)
    (minor_revision g) (identity_status g) (ext_status g) (serial_number g) (product_name g)
    (identity_state g).

Definition GetDeviceVendorId (g : CipIdentityObject) : Z := vendor_id g.

(** [product_name] is NULL or a NUL-terminated string. *)
Definition SetDeviceProductName (name : option (list Z)) (g : CipIdentityObject)
  : option CipIdentityObject :=
  match name with
  | None => Some g
  | Some cstr =>
      s ← SetCipShortStringByCstr (Some (product_name g)) cstr;
      n ← s;
      Some (mkIdentity (vendor_id g) (device_type g) (product_code g) (major_revision g)
              (minor_revision g) (identity_status g) (ext_status g) (serial_number g) n
              (identity_state g))
  end.

Definition GetDeviceProductName (g : CipIdentityObject) : CipShortString := product_name g.

(** ** The status word *)

Definition not_ext (v : Z) : Z := v .& 0xFF0F.

Definition MergeStatusAndExtStatus (g : CipIdentityObject) : CipIdentityObject :=
  let status_flags := not_ext (identity_status g) in
  let ext := if has_flag status_flags (kMajorRecoverableFault .| kMajorUnrecoverableFault)
             then kMajorFault else ext_status g .& kExtStatusMask in
  set_identity_status (status_flags .| ext) g.

Definition CipIdentitySetStatusFlags (status_flags : Z) (g : CipIdentityObject)
  : CipIdentityObject :=
  MergeStatusAndExtStatus
    (set_identity_status (identity_status g .| not_ext status_flags) g).

Definition CipIdentityClearStatusFlags (status_flags : Z) (g : CipIdentityObject)
  : CipIdentityObject :=
  MergeStatusAndExtStatus
    (set_identity_status (Z.ldiff (identity_status g) (not_ext status_flags)) g).

Definition CipIdentitySetExtendedDeviceStatus (extended_status : Z) (g : CipIdentityObject)
  : CipIdentityObject :=
  MergeStatusAndExtStatus (set_ext_status (extended_status .& kExtStatusMask) g).

(** ** Reset

    [ResetDevice] and [ResetDeviceToInitialConfiguration] are the platform's;
    their results are given. *)
Definition IdentityObjectPreResetCallback (reset_device reset_to_initial : EipStatus)
    (req : CipMessageRouterRequest) (resp : CipMessageRouterResponse)
  : option (EipStatus * CipMessageRouterResponse) :=
  let failed st :=
    if bool_decide (st = kEipStatusError)
    then set_general_status kCipErrorInvalidParameter resp else resp in
  if 1 <? request_data_size req
  then Some (kEipStatusOkSend, set_general_status kCipErrorTooMuchData resp)
  else
    reset_type ← (if request_data_size req =? 1 then load (request_data req) 0 else Some 0);
    Some (kEipStatusOkSend,
          if reset_type =? 0 then failed reset_device
          else if reset_type =? 1 then failed reset_to_initial
          else set_general_status kCipErrorInvalidParameter resp).

(** ** The class *)

(** The number of [IdentityObjectPreResetCallback] among the service callbacks. *)
Definition kIdentityPreReset : nat := 1.

Definition set_PreResetCallback (cb : nat) (c : CipClass) : CipClass :=
  mkClass (class_instance c) (class_code c) (revision c) (max_instance c)
    (number_of_instances c) (number_of_attributes c) (highest_attribute_number c)
    (get_single_bit_mask c) (set_bit_mask c) (get_all_bit_mask c)
    (number_of_services c) (instances c) (services c) (class_name c)
    (PreGetCallback c) (PostGetCallback c) (PreSetCallback c) (PostSetCallback c)
    (PreCreateCallback c) (PostCreateCallback c) (PreDeleteCallback c)
    (PostDeleteCallback c) (Some cb) (PostResetCallback c).

Definition InitializeCipIdentity (cm : CipClass * CipClass) : option (CipClass * CipClass) :=
  cm ← InsertClassAttribute cm 1 ClassRevision kGetableSingleAndAll;
  cm ← InsertClassAttribute cm 2 ClassNumberOfInstances kGetableSingleAndAll;
  cm ← InsertClassAttribute cm 3 ClassNumberOfInstances kGetableSingle;
  cm ← InsertClassAttribute cm 4 kCipUintZero kNotSetOrGetable;
  cm ← InsertClassAttribute cm 5 kCipUintZero kNotSetOrGetable;
  cm ← InsertClassAttribute cm 6 MetaHighestAttribute kGetableSingleAndAll;
  cm ← InsertClassAttribute cm 7 ClassHighestAttribute kGetableSingleAndAll;
  m ← InsertService cm.2 kGetAttributeAll (Some FnGetAttributeAll) "GetAttributeAll";
  m ← InsertService m kGetAttributeSingle (Some FnGetAttributeSingle) "GetAttributeSingle";
  Some (set_PreResetCallback kIdentityPreReset cm.1, m).

Definition EncodeRevision : Encoder := fun d m =>
  match d with
  | DStruct [DInt 1 major; DInt 1 minor] =>
      m ← AddSintToMessage major m; AddSintToMessage minor m
  | _ => None
  end.

(** The members of [g_identity] that attributes point to, as data objects: the
    one of attribute [k] is at address [kIdentityAddress + k]. *)
Definition kIdentityAddress : nat := 100.

Definition identity_objects (g : CipIdentityObject) : list (nat * CipData) :=
  [(kIdentityAddress + 1, DInt 2 (vendor_id g));
   (kIdentityAddress + 2, DInt 2 (device_type g));
   (kIdentityAddress + 3, DInt 2 (product_code g));
   (kIdentityAddress + 4, DStruct [DInt 1 (major_revision g); DInt 1 (minor_revision g)]);
   (kIdentityAddress + 5, DInt 2 (identity_status g));
   (kIdentityAddress + 6, DInt 4 (serial_number g));
   (kIdentityAddress + 7, DShortString (product_name g))]%nat.

Definition store_identity (g : CipIdentityObject) (s : CipStack) : CipStack :=
  mkStack (classes s) (list_to_map (identity_objects g) ∪ objects s).

Definition insert_identity_attribute (k : nat) (type : Z) (enc : Encoder)
    (ic : CipInstance * CipClass) : option (CipInstance * CipClass) :=
  InsertAttribute ic.1 ic.2 (Z.of_nat k) type (Some enc) None
    (Some (Object (kIdentityAddress + k))) kGetableSingleAndAll.

(** [name] is [OPENER_DEVICE_NAME], a C string from the build configuration. *)
Definition CipIdentityInit (name : list Z) (g : CipIdentityObject) (s : CipStack)
  : option (EipStatus * CipIdentityObject * CipStack) :=
  '(s, n) ← CreateCipClass kCipIdentityClassCode 0 7 2 7 7 5 1 "identity" 1
              (Some InitializeCipIdentity) s;
  g ← (if ss_length (product_name g) =? 0 then SetDeviceProductName (Some name) g else Some g);
  c ← get_class (TheClass n) s;
  p ← GetCipInstance c 1;
  i ← get_instance n p s;
  ic ← insert_identity_attribute 1 kCipUint EncodeCipUint (i, c);
  ic ← insert_identity_attribute 2 kCipUint EncodeCipUint ic;
  ic ← insert_identity_attribute 3 kCipUint EncodeCipUint ic;
  ic ← insert_identity_attribute 4 kCipUsintUsint EncodeRevision ic;
  ic ← insert_identity_attribute 5 kCipWord EncodeCipWord ic;
  ic ← insert_identity_attribute 6 kCipUdint EncodeCipUdint ic;
  ic ← insert_identity_attribute 7 kCipShortString EncodeCipShortString ic;
  c ← InsertService ic.2 kGetAttributeSingle (Some FnGetAttributeSingle) "GetAttributeSingle";
  c ← InsertService c kGetAttributeAll (Some FnGetAttributeAll) "GetAttributeAll";
  c ← InsertService c kReset (Some FnCipResetService) "Reset";
  c ← InsertService c kGetAttributeList (Some FnGetAttributeList) "GetAttributeList";
  c ← InsertService c kSetAttributeList (Some FnSetAttributeList) "SetAttributeList";
  let c := put_instance p ic.1 c in
  Some (kEipStatusOk, g, store_identity g (set_class (TheClass n) c s)).

(** ** Lemmas: the status word *)

(** What changes the status word at run time. *)
Inductive status_change :=
| SetFlags (flags : Z) | ClearFlags (flags : Z) | SetExtended (status : Z).

Definition change_status (g : CipIdentityObject) (c : status_change) : CipIdentityObject :=
  match c with
  | SetFlags f => CipIdentitySetStatusFlags f g
  | ClearFlags f => CipIdentityClearStatusFlags f g
  | SetExtended e => CipIdentitySetExtendedDeviceStatus e g
  end.

(** The specification: flags and extended status change independently. *)
Definition change_flags (flags : Z) (c : status_change) : Z :=
  match c with
  | SetFlags f => flags .| not_ext f
  | ClearFlags f => Z.ldiff flags (not_ext f)
  | SetExtended _ => flags
  end.
Definition change_extended (ext : Z) (c : status_change) : Z :=
  match c with SetExtended e => e .& kExtStatusMask | _ => ext end.

Definition major_fault (flags : Z) : bool :=
  has_flag flags (kMajorRecoverableFault .| kMajorUnrecoverableFault).

(** The extended status field of the word, and the word as a whole. *)
Definition shown_extended (flags ext : Z) : Z := if major_fault flags then kMajorFault else ext.

Definition status_merged (g : CipIdentityObject) : Prop :=
  ext_status g .& kExtStatusMask = ext_status g ∧
  identity_status g
  = not_ext (identity_status g) .| shown_extended (not_ext (identity_status g)) (ext_status g).

Lemma not_ext_or a b : not_ext (a .| b) = not_ext a .| not_ext b.
Proof. apply Z.land_lor_distr_l. Qed.

Lemma not_ext_idem a : not_ext (not_ext a) = not_ext a.
Proof. unfold not_ext. by rewrite <-Z.land_assoc. Qed.

Lemma not_ext_masked a : not_ext (a .& kExtStatusMask) = 0.
Proof. unfold not_ext. rewrite <-Z.land_assoc. apply Z.land_0_r. Qed.

Lemma not_ext_ldiff a b : not_ext (Z.ldiff a b) = Z.ldiff (not_ext a) b.
Proof.
  unfold not_ext. apply Z.bits_inj'. intros n Hn.
  rewrite !Z.land_spec, !Z.ldiff_spec, Z.land_spec.
  by destruct (Z.testbit a n), (Z.testbit b n), (Z.testbit 0xFF0F n).
Qed.

Lemma Merge_spec g :
  ext_status g .& kExtStatusMask = ext_status g →
  not_ext (identity_status (MergeStatusAndExtStatus g)) = not_ext (identity_status g) ∧
  ext_status (MergeStatusAndExtStatus g) = ext_status g ∧
  status_merged (MergeStatusAndExtStatus g).
Proof.
  intros He. set (g' := MergeStatusAndExtStatus g).
  assert (Hs : identity_status g'
    = not_ext (identity_status g) .| shown_extended (not_ext (identity_status g)) (ext_status g)).
  { unfold g', MergeStatusAndExtStatus, shown_extended, major_fault. simpl. by rewrite He. }
  assert (Hf : not_ext (identity_status g') = not_ext (identity_status g)).
  { rewrite Hs, not_ext_or, not_ext_idem. unfold shown_extended.
    destruct (major_fault _); [apply Z.lor_0_r |].
    rewrite <-He, not_ext_masked. apply Z.lor_0_r. }
  split; [done |]. split; [done |]. split; [done |]. by rewrite Hf.
Qed.

Lemma change_status_spec g c :
  status_merged g →
  not_ext (identity_status (change_status g c)) = change_flags (not_ext (identity_status g)) c ∧
  ext_status (change_status g c) = change_extended (ext_status g) c ∧
  status_merged (change_status g c).
Proof.
  intros [He _]. destruct c as [f|f|e]; cbn [change_status change_flags change_extended].
  - unfold CipIdentitySetStatusFlags. set (h := set_identity_status _ g).
    destruct (Merge_spec h) as (-> & -> & ?); [done |]. split; [| done].
    unfold h. simpl. by rewrite not_ext_or, not_ext_idem.
  - unfold CipIdentityClearStatusFlags. set (h := set_identity_status _ g).
    destruct (Merge_spec h) as (-> & -> & ?); [done |]. split; [| done]. apply not_ext_ldiff.
  - unfold CipIdentitySetExtendedDeviceStatus. set (h := set_ext_status _ g).
    destruct (Merge_spec h) as (-> & -> & ?); [| done].
    unfold h. simpl. by rewrite <-Z.land_assoc.
Qed.

(** Whatever flags are set and cleared and whatever extended status is
    reported, in any order: the flags of the status word are exactly those set
    and not cleared since, and its extended status field shows the last one
    reported, except that it shows "major fault" as long as a major fault flag
    is set; clearing the fault brings the last reported status back. *)
Theorem identity_status_word g changes :
  status_merged g →
  let flags := foldl change_flags (not_ext (identity_status g)) changes in
  let ext := foldl change_extended (ext_status g) changes in
  identity_status (foldl change_status g changes) = flags .| shown_extended flags ext.
Proof.
  revert g. induction changes as [|c changes IH]; intros g Hg; [apply Hg |].
  destruct (change_status_spec g c Hg) as (Hf & He & Hm). cbn [foldl].
  rewrite <-Hf, <-He. by apply IH.
Qed.

Lemma identity_status_word_witness :
  let g := mkIdentity 1 12 65001 2 3 0 0 123456789 (mkShortString 0 None) 255 in
  identity_status (foldl change_status g
    [SetFlags kOwned; SetExtended kAtLeastOneIoConnectionInRunMode;
     SetFlags kMajorRecoverableFault; ClearFlags kMajorRecoverableFault]) = 0x61 ∧
  identity_status (foldl change_status g
    [SetExtended kAtLeastOneIoConnectionInRunMode; SetFlags kMajorRecoverableFault]) = 0x450.
Proof.
  assert (H : status_merged (mkIdentity 1 12 65001 2 3 0 0 123456789 (mkShortString 0 None) 255))
    by (split; reflexivity).
  split; rewrite (identity_status_word _ _ H); vm_compute; reflexivity.
Defined.

(** ** The object on the wire *)

(** A named identity with values of the widths of their types. *)
Definition identity_ok (g : CipIdentityObject) (name : list Z) : Prop :=
  ss_length (product_name g) = Z.of_nat (length name) ∧ name ≠ [] ∧
  Z.of_nat (length name) <= 255 ∧ bytes name ∧
  ∃ rest, ss_string (product_name g) = Some (name ++ rest).

Definition identity_bytes (g : CipIdentityObject) (name : list Z) : list (list Z) :=
  [le_bytes 2 (vendor_id g); le_bytes 2 (device_type g); le_bytes 2 (product_code g);
   le_bytes 1 (major_revision g) ++ le_bytes 1 (minor_revision g);
   le_bytes 2 (identity_status g); le_bytes 4 (serial_number g);
   le_bytes 1 (Z.of_nat (length name)) ++ name].

Lemma writes_revision a b : writes (EncodeRevision (DStruct [DInt 1 a; DInt 1 b]))
  (le_bytes 1 a ++ le_bytes 1 b).
Proof. apply (writes_bind (AddSintToMessage a)); apply writes_Sint. Qed.

(** The class [CipIdentityInit] registers on an empty stack. *)
Lemma CipIdentityInit_first name g objs :
  ss_length (product_name g) ≠ 0 →
  ∃ c m i, CipIdentityInit name g (mkStack [] objs)
           = Some (kEipStatusOk, g, store_identity g (mkStack [(c, m)] objs)) ∧
    instances c = [i] ∧ cip_class i = Some (TheClass 0) ∧ attributes_wf i c ∧
    number_of_attributes c = 7 ∧ get_all_bit_mask c = [254] ∧
    (λ a, (attribute_number a, encode a, data a)) <$> attributes i
    = (λ '(k, enc), (Z.of_nat k, Some enc, Some (Object (kIdentityAddress + k)))) <$>
        [(1%nat, EncodeCipUint); (2%nat, EncodeCipUint); (3%nat, EncodeCipUint);
         (4%nat, EncodeRevision); (5%nat, EncodeCipWord); (6%nat, EncodeCipUdint);
         (7%nat, EncodeCipShortString)].
Proof.
  intros Hn. do 3 eexists. split.
  { unfold CipIdentityInit. rewrite (proj2 (Z.eqb_neq _ 0) Hn).
    lazy -[store_identity EncodeCipUint EncodeCipUdint EncodeRevision EncodeCipWord
           EncodeCipShortString]. reflexivity. }
  split; [reflexivity |]. split; [reflexivity |]. split; [| by split].
  split; [reflexivity |]. split; [| by repeat split].
  repeat constructor; simpl; lia || by eexists.
Qed.

Lemma identity_value g s a k v :
  data a = Some (Object (kIdentityAddress + k)) →
  list_to_map (M := gmap nat CipData) (identity_objects g) !! (kIdentityAddress + k)%nat = Some v →
  attribute_value 0 a (store_identity g s) = Some v.
Proof.
  intros Hd Hv. unfold attribute_value. rewrite Hd. unfold store_identity, load_data.
  cbn [mbind option_bind objects]. rewrite lookup_union, Hv. by destruct (objects s !! _).
Qed.

Ltac identity_attribute Hm N E D :=
  unfold all_bytes; rewrite N, Hm;
  match goal with |- context [mask_bit ?x ?y] => change (mask_bit x y) with (Some true) end;
  do 2 eexists;
  split; [exact E | split; [apply (identity_value _ _ _ _ _ D); reflexivity |]].

Lemma identity_all_bytes g name objs c i m :
  identity_ok g name → instances c = [i] → get_all_bit_mask c = [254] →
  (λ a, (attribute_number a, encode a, data a)) <$> attributes i
    = (λ '(k, enc), (Z.of_nat k, Some enc, Some (Object (kIdentityAddress + k)))) <$>
        [(1%nat, EncodeCipUint); (2%nat, EncodeCipUint); (3%nat, EncodeCipUint);
         (4%nat, EncodeRevision); (5%nat, EncodeCipWord); (6%nat, EncodeCipUdint);
         (7%nat, EncodeCipShortString)] →
  Forall2 (all_bytes 0 (store_identity g (mkStack [(c, m)] objs)) c) (attributes i)
    (identity_bytes g name).
Proof.
  intros (Hl & Hne & Hle & Hb & rest & Hs) Hi Hm Ha.
  destruct (attributes i) as [|a1 [|a2 [|a3 [|a4 [|a5 [|a6 [|a7 [|? ?]]]]]]]]; try discriminate Ha.
  injection Ha as N1 E1 D1 N2 E2 D2 N3 E3 D3 N4 E4 D4 N5 E5 D5 N6 E6 D6 N7 E7 D7.
  unfold identity_bytes.
  repeat apply Forall2_cons_2; [identity_attribute Hm N1 E1 D1 | identity_attribute Hm N2 E2 D2
    | identity_attribute Hm N3 E3 D3 | identity_attribute Hm N4 E4 D4
    | identity_attribute Hm N5 E5 D5 | identity_attribute Hm N6 E6 D6
    | identity_attribute Hm N7 E7 D7 | constructor].
  1, 2, 3, 5: split; [apply writes_Int | apply le_bytes_bytes].
  - split; [apply writes_revision | apply bytes_app; split; apply le_bytes_bytes].
  - split; [apply writes_Dint | apply le_bytes_bytes].
  - split; [by apply writes_short_string with rest |].
    apply bytes_app. split; [apply le_bytes_bytes | done].
Qed.

(** After [CipIdentityInit], a Get Attributes All request to instance 1
    of the identity object is answered with success and exactly the vendor id,
    device type, product code, revision, status word, serial number and product
    name of the device, in this order, little-endian, the name with its length
    byte, whatever the identity is. *)
Theorem identity_get_attributes_all name_default g name objs req resp :
  identity_ok g name →
  ∃ s req' m, CipIdentityInit name_default g (mkStack [] objs) = Some (kEipStatusOk, g, s) ∧
    GetAttributeAll 0 (ListInstance 0) req resp s
    = Some (kEipStatusOkSend, req', reply req resp kCipErrorSuccess m, s) ∧
    wire m = concat (identity_bytes g name).
Proof.
  intros Hg. pose proof Hg as (Hl & Hne & Hle & _).
  destruct (CipIdentityInit_first name_default g objs) as (c & cm & i & E & Hi & Hc & Hwf & Hn & Hm & Ha).
  { rewrite Hl. by destruct name. }
  destruct (GetAttributeAll_spec 0 (ListInstance 0) (store_identity g (mkStack [(c, cm)] objs)) i c
    req resp (identity_bytes g name)) as (req' & m & Eg & Hh).
  - split; [| split; [| done]]; unfold get_instance, instance_class; simpl; [by rewrite Hi |].
    by rewrite Hc.
  - by rewrite Hn.
  - by apply identity_all_bytes.
  - simpl. rewrite length_app. simpl. lia.
  - eexists _, req', m. split; [exact E |]. split; [exact Eg |]. by apply holds_wire.
Qed.

Lemma identity_get_attributes_all_witness :
  ∃ s req' m,
    CipIdentityInit [] (mkIdentity 1 12 65001 2 3 0 0 0x075BCD15 (mkShortString 2 (Some [79; 80])) 255)
      (mkStack [] ∅) = Some (kEipStatusOk,
      mkIdentity 1 12 65001 2 3 0 0 0x075BCD15 (mkShortString 2 (Some [79; 80])) 255, s) ∧
    GetAttributeAll 0 (ListInstance 0) (single_request 0 []) empty_response s
    = Some (kEipStatusOkSend, req',
            reply (single_request 0 []) empty_response kCipErrorSuccess m, s) ∧
    wire m = [1; 0; 12; 0; 0xE9; 0xFD; 2; 3; 0; 0; 0x15; 0xCD; 0x5B; 7; 2; 79; 80].
Proof.
  destruct (identity_get_attributes_all []
    (mkIdentity 1 12 65001 2 3 0 0 0x075BCD15 (mkShortString 2 (Some [79; 80])) 255) [79; 80] ∅
    (single_request 0 []) empty_response) as (s & req' & m & E & Eg & Hw).
  - split; [reflexivity |]. split; [done |]. split; [simpl; lia |].
    split; [repeat constructor; unfold is_u8; lia |]. by exists [].
  - exists s, req', m. split; [exact E |]. split; [exact Eg |]. rewrite Hw. vm_compute. reflexivity.
Defined.
