(* ===== verification/Assembly.v ===== *)
(** * The assembly object: [cip/cipassembly.c]

    The class, its instances, each a byte array of the application behind
    attribute 3 with its length as attribute 4, and the three ways data reaches
    an assembly: an explicit Set Attribute Single, an I/O connection, and the
    configuration data of a Forward Open. *)

From S2P Require Import Prelude EndianConv EPath CipStrings CipTypes CipCodec CipClasses CipServices.
From stdpp Require Import strings.
Open Scope Z_scope.

Definition kCipAssemblyClassCode : Z := 0x04.
Definition kAssemblyObjectInstanceAttributeIdData : Z := 3.

(** ** The application *)

(** The application's callbacks get the instance and may change any data object.
    [explicit_data_status] is what [AfterAssemblyDataReceived] answers when the
    decoder of attribute 3 calls it about the written object; what it does to other
    objects there is left to the call the service makes right after it. *)
Class AssemblyApplication := {
  AfterAssemblyDataReceived :
    CipInstance → gmap nat CipData → EipStatus * gmap nat CipData;
  BeforeAssemblyDataSend : CipInstance → gmap nat CipData → bool * gmap nat CipData;
  explicit_data_status : CipData → EipStatus }.

Section Assembly.
Context `{AssemblyApplication}.

(** The get and set callbacks of the class; their results are not used. *)
Definition kAssemblyPreGetCallback : nat := 1.
Definition kAssemblyPostSetCallback : nat := 2.

Definition AssemblyPreGetCallback (instance : CipInstance) (_ : CipAttributeStruct) (_ : Z)
    (objs : gmap nat CipData) : gmap nat CipData :=
  snd (BeforeAssemblyDataSend instance objs).

Definition AssemblyPostSetCallback (instance : CipInstance) (_ : CipAttributeStruct) (_ : Z)
    (objs : gmap nat CipData) : gmap nat CipData :=
  snd (AfterAssemblyDataReceived instance objs).

(** ** The class *)

Definition CreateAssemblyClass (s : CipStack) : option (nat * CipStack) :=
  '(s, n) ← CreateCipClass kCipAssemblyClassCode 0 7 1 2 4 2 0 "assembly" 2 None s;
  c ← get_class (TheClass n) s;
  c ← InsertService c kGetAttributeSingle (Some FnGetAttributeSingle) "GetAttributeSingle";
  c ← InsertService c kSetAttributeSingle (Some FnSetAttributeSingle) "SetAttributeSingle";
  let c := InsertGetSetCallback c (Some kAssemblyPreGetCallback) kPreGetFunc in
  let c := InsertGetSetCallback c (Some kAssemblyPostSetCallback) kPostSetFunc in
  Some (n, set_class (TheClass n) c s).

Definition CipAssemblyInitialize (s : CipStack) : option (EipStatus * CipStack) :=
  '(_, s) ← CreateAssemblyClass s;
  Some (kEipStatusOk, s).

(** ** Attribute 3 *)

(** Writes [bs] to the application's buffer of the array. *)
Definition write_array (a : CipByteArray) (bs : list Z) : option CipByteArray :=
  if ba_length a =? 0 then Some a
  else dst ← ba_data a; dst ← write_bytes dst 0 bs;
       Some (mkByteArray (ba_length a) (Some dst)).

Definition DecodeCipAssemblyAttribute3 : Decoder := λ d req resp,
  match d with
  | DByteArray a =>
      if request_data_size req <? ba_length a
      then Some (-1, d, req, set_general_status kCipErrorNotEnoughData resp)
      else if ba_length a <? request_data_size req
      then Some (-1, d, req, set_general_status kCipErrorTooMuchData resp)
      else
        bs ← load_n (request_data req) (Z.to_nat (ba_length a));
        a ← write_array a bs;
        Some (ba_length a, DByteArray a, req,
              set_general_status
                (if bool_decide (explicit_data_status (DByteArray a) = kEipStatusOk) then kCipErrorSuccess
                 else kCipErrorInvalidAttributeValue) resp)
  | _ => None
  end.

(** ** Instances *)

(** [address] is where [CipCalloc] puts the byte array, or NULL. *)
Definition CreateAssemblyObject (instance_id : Z) (data : option (list Z)) (data_length : Z)
    (address : option nat) (s : CipStack) : option (option InstancePtr * CipStack) :=
  '(n, s) ← match GetCipClass s kCipAssemblyClassCode with
            | Some n => Some (n, s)
            | None => CreateAssemblyClass s
            end;
  c ← get_class (TheClass n) s;
  '(c, p) ← AddCipInstance (TheClass n) c instance_id;
  let s := set_class (TheClass n) c s in
  match address with
  | None => Some (None, s)
  | Some a =>
      i ← get_instance n p s;
      '(i, c) ← InsertAttribute i c 3 kCipByteArray (Some EncodeCipByteArray)
                  (Some DecodeCipAssemblyAttribute3) (Some (Object a))
                  (kSetAndGetAble .| kPreGetFunc .| kPostSetFunc);
      '(i, c) ← InsertAttribute i c 4 kCipUint (Some EncodeCipUint) None (Some (Object a))
                  kGetableSingle;
      let s := set_class (TheClass n) (put_instance p i c) s in
      Some (Some p, mkStack (classes s)
                      (<[a := DByteArray (mkByteArray data_length data)]> (objects s)))
  end.

(** The byte array of attribute 3, with its address. *)
Definition assembly_array (n : nat) (i : CipInstance) (s : CipStack)
  : option (DataPtr * CipByteArray) :=
  a ← attributes i !! 0%nat;
  d ← data a;
  match load_data n d s with
  | Some (DByteArray b) => Some (d, b)
  | _ => None
  end.

(** [n] is the assembly class, [p] the instance in it. *)
Definition NotifyAssemblyConnectedDataReceived (n : nat) (p : InstancePtr) (data : list Z)
    (data_length : Z) (s : CipStack) : option (EipStatus * CipStack) :=
  i ← get_instance n p s;
  '(d, a) ← assembly_array n i s;
  if negb (ba_length a =? data_length) then Some (kEipStatusError, s)
  else
    bs ← load_n data (Z.to_nat data_length);
    a ← write_array a bs;
    s ← store_data d (DByteArray a) s;
    let '(status, objs) := AfterAssemblyDataReceived i (objects s) in
    Some (status, mkStack (classes s) objs).

(** ** Shutdown *)

Definition free_assembly (n : nat) (c : CipClass) (i : CipInstance) (s : CipStack)
  : option CipStack :=
  attribute ← GetCipAttribute i c 3;
  match attribute with
  | Some a =>
      match data a with
      | Some (Object k) => Some (mkStack (classes s) (delete k (objects s)))
      | Some _ => None
      | None => Some s
      end
  | None => Some s
  end.

Fixpoint free_assemblies (n : nat) (c : CipClass) (l : list CipInstance) (s : CipStack)
  : option CipStack :=
  match l with
  | [] => Some s
  | i :: l => s ← free_assembly n c i s; free_assemblies n c l s
  end.

Definition ShutdownAssemblies (s : CipStack) : option CipStack :=
  match GetCipClass s kCipAssemblyClassCode with
  | None => Some s
  | Some n => c ← get_class (TheClass n) s; free_assemblies n c (instances c) s
  end.
End Assembly.

(** ** Lemmas: the assembly class *)

Definition assembly_attributes `{AssemblyApplication} (a : nat) : list CipAttributeStruct :=
  [mkAttribute 3 kCipByteArray (Some EncodeCipByteArray) (Some DecodeCipAssemblyAttribute3)
     (kSetAndGetAble .| kPreGetFunc .| kPostSetFunc) (Some (Object a));
   mkAttribute 4 kCipUint (Some EncodeCipUint) None kGetableSingle (Some (Object a))].

(** Instance number and address of the byte array. *)
Definition assembly_instance `{AssemblyApplication} (n : nat) (e : Z * nat) : CipInstance :=
  mkInstance e.1 (assembly_attributes e.2) (Some (TheClass n)).

(** The class apart from its instances and masks. *)
Definition class_frame (c : CipClass) : CipClass := upd_masks [] [] [] (upd_instances 0 0 [] c).

Definition assembly_frame (n : nat) : CipClass :=
  mkClass
    (mkInstance 0
       (map (λ '(k, d, f), mkAttribute k kCipUint (Some EncodeCipUint) None f (Some d))
          [(1, ClassRevision, kGetableSingleAndAll); (2, ClassMaxInstance, kGetableSingleAndAll);
           (3, ClassNumberOfInstances, kGetableSingleAndAll);
           (4, kCipUintZero, kGetableAllDummy); (5, kCipUintZero, kNotSetOrGetable);
           (6, MetaHighestAttribute, kGetableSingle); (7, ClassHighestAttribute, kGetableSingle)])
       (Some (MetaClass n)))
    kCipAssemblyClassCode 2 0 0 2 4 [] [] [] 2 []
    [mkService kGetAttributeSingle (Some FnGetAttributeSingle) "GetAttributeSingle";
     mkService kSetAttributeSingle (Some FnSetAttributeSingle) "SetAttributeSingle"]
    "assembly" (Some kAssemblyPreGetCallback) None None (Some kAssemblyPostSetCallback)
    None None None None None None.

(** Masks: attributes 3 and 4 from the first instance on. *)
Definition assembly_masks {A} (l : list A) : list Z * list Z * list Z :=
  match l with [] => ([0], [0], [0]) | _ => ([0x18], [0x08], [0x08]) end.

(** The invariant: the registered assembly class has exactly the instances [l], each
    with attribute 3 and 4 on a byte array of its own. *)
Record assemblies `{AssemblyApplication} (n : nat) (l : list (Z * nat)) (s : CipStack) : Prop := {
  as_registered : GetCipClass s kCipAssemblyClassCode = Some n;
  as_class : ∃ c, get_class (TheClass n) s = Some c ∧ class_frame c = assembly_frame n ∧
    instances c = assembly_instance n <$> l ∧ instances_wf c ∧
    (get_single_bit_mask c, set_bit_mask c, get_all_bit_mask c) = assembly_masks l;
  as_addresses : NoDup l.*2;
  as_arrays : ∀ e, e ∈ l → ∃ b, objects s !! e.2 = Some (DByteArray b) }.

Lemma find_class_app l c m code i :
  find_class l code i = None → class_code c = code →
  find_class (l ++ [(c, m)]) code i = Some (i + length l)%nat.
Proof.
  intros Hn Hc. revert i Hn. induction l as [|[k m'] l IH]; intros i; simpl.
  - intros _. rewrite Hc, Z.eqb_refl. f_equal. lia.
  - case_match; [done |]. intros Hn. rewrite IH by done. f_equal. lia.
Qed.

Lemma find_class_set l code i n c c' m :
  l !! n = Some (c, m) → class_code c' = class_code c →
  find_class (alter (λ '(_, m), (c', m)) n l) code i = find_class l code i.
Proof.
  intros Hl Hc. revert i n Hl. induction l as [|[k m'] l IH]; intros i [|n]; simpl; intros Hl;
    [done .. | |].
  - simplify_eq. by rewrite Hc.
  - case_match; [done |]. by apply IH.
Qed.

Section AssemblyLemmas.
Context `{AssemblyApplication}.

(** The class after the two halves of [CreateAssemblyClass]. *)
Lemma assembly_class_built n :
  ∃ c m c1 c2,
    standard_class 1
      (AllocateAttributeMasks (new_class n kCipAssemblyClassCode 0 2 4 2 "assembly" 2),
       AllocateAttributeMasks (new_meta_class n 0 7 1 "assembly")) = Some (c, m) ∧
    InsertService c kGetAttributeSingle (Some FnGetAttributeSingle) "GetAttributeSingle" = Some c1 ∧
    InsertService c1 kSetAttributeSingle (Some FnSetAttributeSingle) "SetAttributeSingle" = Some c2 ∧
    let c' := InsertGetSetCallback
                (InsertGetSetCallback c2 (Some kAssemblyPreGetCallback) kPreGetFunc)
                (Some kAssemblyPostSetCallback) kPostSetFunc in
    class_code c = kCipAssemblyClassCode ∧
    class_frame c' = assembly_frame n ∧ instances c' = [] ∧ instances_wf c' ∧
    (get_single_bit_mask c', set_bit_mask c', get_all_bit_mask c') = ([0], [0], [0]).
Proof.
  do 4 eexists. split; [lazy -[EncodeCipUint]; reflexivity |].
  split; [lazy -[EncodeCipUint]; reflexivity |].
  split; [lazy -[EncodeCipUint]; reflexivity |]. cbv zeta. split; [reflexivity |].
  split; [lazy -[EncodeCipUint]; reflexivity |]. split; [reflexivity |]. split; [|reflexivity].
  split; [split; constructor | split; [done | split; [done | simpl; lia]]].
Qed.

Lemma CreateCipClass_standard code nca hca ncs nia hia nis name rev s c m :
  GetCipClass s code = None → name ≠ ""%string →
  standard_class ncs
    (AllocateAttributeMasks (new_class (length (classes s)) code nca nia hia nis name rev),
     AllocateAttributeMasks (new_meta_class (length (classes s)) nca hca ncs name)) = Some (c, m) →
  CreateCipClass code nca hca ncs nia hia nis 0 name rev None s
  = Some (RegisterCipClass c m s, length (classes s)).
Proof.
  intros Hn Hname E. unfold CreateCipClass. rewrite Hn.
  destruct (String.eqb_spec name ""); [done |]. simpl. by rewrite E.
Qed.

Lemma get_registered c m s :
  get_class (TheClass (length (classes s))) (RegisterCipClass c m s) = Some c.
Proof. unfold get_class, RegisterCipClass. cbn [classes]. by rewrite list_lookup_middle. Qed.

Lemma set_registered c c' m s :
  set_class (TheClass (length (classes s))) c' (RegisterCipClass c m s) = RegisterCipClass c' m s.
Proof. unfold set_class, RegisterCipClass. cbn [classes objects]. by rewrite alter_snoc. Qed.

Lemma get_registered_code c m s code :
  GetCipClass s code = None → class_code c = code →
  GetCipClass (RegisterCipClass c m s) code = Some (length (classes s)).
Proof.
  unfold GetCipClass, GetRegisteredObject, RegisterCipClass. cbn [classes]. intros Hn Hc.
  erewrite find_class_app; [done | | done]. by destruct (find_class _ _ _).
Qed.

Lemma CipAssemblyInitialize_spec s :
  GetCipClass s kCipAssemblyClassCode = None →
  ∃ s', CipAssemblyInitialize s = Some (kEipStatusOk, s') ∧ objects s' = objects s ∧
    assemblies (length (classes s)) [] s' ∧
    ∃ c m, classes s' = classes s ++ [(c, m)].
Proof.
  intros Hn.
  destruct (assembly_class_built (length (classes s)))
    as (c & m & c1 & c2 & E & E1 & E2 & Hc & Hf & Hi & Hw & Hm).
  unfold CipAssemblyInitialize, CreateAssemblyClass.
  rewrite (CreateCipClass_standard kCipAssemblyClassCode 0 7 1 2 4 2 "assembly" 2 s c m Hn
    ltac:(discriminate) E).
  cbn [mbind option_bind]. rewrite get_registered. cbn [mbind option_bind].
  rewrite E1. cbn [mbind option_bind]. rewrite E2. cbn [mbind option_bind].
  rewrite set_registered. set (c3 := InsertGetSetCallback _ _ _) in *.
  exists (RegisterCipClass c3 m s). split; [done |]. split; [done |]. split.
  - split.
    + apply get_registered_code; [done |]. by apply (f_equal class_code) in Hf.
    + exists c3. rewrite get_registered. by split_and!.
    + constructor.
    + intros e He. by destruct (not_elem_of_nil e He).
  - by exists c3, m.
Qed.

Lemma frame_fields c n :
  class_frame c = assembly_frame n →
  number_of_attributes c = 2 ∧ highest_attribute_number c = 4 ∧
  PreGetCallback c = Some kAssemblyPreGetCallback ∧ PostGetCallback c = None ∧
  class_code c = kCipAssemblyClassCode.
Proof.
  intros Hf. split; [exact (f_equal number_of_attributes Hf) |].
  split; [exact (f_equal highest_attribute_number Hf) |].
  split; [exact (f_equal PreGetCallback Hf) |].
  split; [exact (f_equal PostGetCallback Hf) | exact (f_equal class_code Hf)].
Qed.

(** The two attributes of a new instance, and the masks after them. *)
Lemma assembly_attributes_inserted {A} (l : list A) n id a c :
  class_frame c = assembly_frame n →
  (get_single_bit_mask c, set_bit_mask c, get_all_bit_mask c) = assembly_masks l →
  ∃ i1 c1,
    InsertAttribute (mkInstance id (replicate 2 empty_attribute) (Some (TheClass n))) c
      3 kCipByteArray (Some EncodeCipByteArray) (Some DecodeCipAssemblyAttribute3)
      (Some (Object a)) (kSetAndGetAble .| kPreGetFunc .| kPostSetFunc) = Some (i1, c1) ∧
    InsertAttribute i1 c1 4 kCipUint (Some EncodeCipUint) None (Some (Object a)) kGetableSingle
    = Some (assembly_instance n (id, a), upd_masks [0x18] [0x08] [0x08] c).
Proof.
  intros (Hn & Hh & _)%frame_fields Hm.
  destruct l; cbn in Hm; injection Hm as H1 H2 H3;
    (do 2 eexists; split;
      [unfold InsertAttribute; rewrite Hn, Hh, H1, H2, H3; lazy -[EncodeCipByteArray DecodeCipAssemblyAttribute3 upd_masks]; reflexivity |
       unfold InsertAttribute; cbn [upd_masks number_of_attributes highest_attribute_number get_single_bit_mask set_bit_mask get_all_bit_mask]; rewrite Hn, Hh; lazy -[EncodeCipByteArray DecodeCipAssemblyAttribute3 EncodeCipUint]; reflexivity]).
Qed.

Lemma put_last c i i' :
  instances c = i ++ [i'] → ∀ x, put_instance (ListInstance (length i)) x c
  = upd_instances (max_instance c) (number_of_instances c) (i ++ [x]) c.
Proof.
  intros Hi x. unfold put_instance. rewrite Hi. f_equal. clear. by induction i; f_equal/=.
Qed.

Lemma same_frame c' c : same_class c' c → class_frame c' = class_frame c.
Proof. unfold class_frame. by intros ->. Qed.

Lemma get_set_class_some n c c' s :
  get_class (TheClass n) s = Some c → get_class (TheClass n) (set_class (TheClass n) c' s) = Some c'.
Proof.
  unfold get_class, set_class. cbn [classes]. rewrite list_lookup_alter. case_decide; [|done].
  by destruct (classes s !! n) as [[k m]|].
Qed.

Lemma registered_set n c c' s code :
  get_class (TheClass n) s = Some c → class_code c' = class_code c →
  GetCipClass (set_class (TheClass n) c' s) code = GetCipClass s code.
Proof.
  unfold get_class, GetCipClass, GetRegisteredObject, set_class. cbn [classes].
  intros Hg Hc. destruct (classes s !! n) as [[k m]|] eqn:E; [|done]. simplify_eq/=.
  by erewrite find_class_set.
Qed.

Lemma numbers_assemblies n l : numbers (assembly_instance n <$> l) = l.*1.
Proof. unfold numbers. by rewrite <-list_fmap_compose. Qed.

(** Replacing the last instance by one with the same number keeps the numbering. *)
Lemma instances_wf_last c i x x' :
  instances_wf c → instances c = i ++ [x] → instance_number x' = instance_number x →
  instances_wf (upd_instances (max_instance c) (number_of_instances c) (i ++ [x']) c).
Proof.
  intros (Hok & Hn & Hmax & Hl) Hi Hx.
  pose proof (GetMax_range c Hok) as Hr.
  assert (Hnum : numbers (i ++ [x']) = numbers (instances c))
    by (rewrite Hi, !numbers_snoc; by rewrite Hx).
  assert (Hlen : length (i ++ [x']) = length (instances c)) by (rewrite Hi, !length_app; done).
  unfold instances_wf, numbers_ok in *. cbn [upd_instances instances number_of_instances max_instance].
  rewrite Hnum, Hlen, Hn, Hmax, !u16_id by (unfold is_u16; lia). split_and!; try done; [apply Hok | apply Hok |].
  unfold GetMaxInstanceNumber. rewrite Hi. cbn [upd_instances instances].
  rewrite !foldl_app. cbn [foldl]. by rewrite Hx.
Qed.

(** Creating one more assembly keeps the invariant. *)
Lemma CreateAssemblyObject_spec n l s id data len a :
  assemblies n l s → 1 <= id <= 65535 → id ∉ l.*1 → a ∉ l.*2 →
  Z.of_nat (length l) < 65534 →
  ∃ s', CreateAssemblyObject id data len (Some a) s = Some (Some (ListInstance (length l)), s') ∧
    assemblies n (l ++ [(id, a)]) s' ∧
    objects s' = <[a := DByteArray (mkByteArray len data)]> (objects s).
Proof.
  intros [Hr (c & Hc & Hf & Hi & Hwf & Hm) Hnd Harr] Hid Hnew Ha Hl.
  assert (Hln : length (instances c) = length l) by (by rewrite Hi, length_fmap).
  unfold CreateAssemblyObject. rewrite Hr. cbn [mbind option_bind]. rewrite Hc.
  cbn [mbind option_bind].
  destruct (AddCipInstance_new (TheClass n) c id) as (c1 & -> & Hi1 & Hwf1 & Hs1);
    [done | done | by rewrite Hi, numbers_assemblies | lia |].
  cbn [mbind option_bind]. rewrite Hln.
  pose proof (frame_fields c n Hf) as (Hna & _).
  rewrite Hna in Hi1. change (Z.to_nat 2) with 2%nat in Hi1.
  assert (Hf1 : class_frame c1 = assembly_frame n) by (by rewrite (same_frame _ _ Hs1)).
  assert (Hm1 : (get_single_bit_mask c1, set_bit_mask c1, get_all_bit_mask c1) = assembly_masks l).
  { rewrite <-Hm. unfold same_class, upd_instances in Hs1.
    by rewrite (f_equal get_single_bit_mask Hs1 : get_single_bit_mask c1 = _),
      (f_equal set_bit_mask Hs1 : set_bit_mask c1 = _),
      (f_equal get_all_bit_mask Hs1 : get_all_bit_mask c1 = _). }
  assert (Hg1 : get_class (TheClass n) (set_class (TheClass n) c1 s) = Some c1)
    by (by eapply get_set_class_some).
  unfold get_instance. rewrite Hg1. cbn [mbind option_bind].
  rewrite Hi1, list_lookup_middle by done. cbn [mbind option_bind].
  destruct (assembly_attributes_inserted l n id a c1 Hf1 Hm1) as (i2 & c2 & -> & E2).
  cbn [mbind option_bind]. rewrite E2. cbn [mbind option_bind].
  rewrite <-Hln. set (c3 := upd_masks _ _ _ c1).
  rewrite (put_last c3 (instances c) _ Hi1). set (c4 := upd_instances _ _ _ c3).
  eexists. split; [done |]. split; [|done]. split.
  - match goal with |- GetCipClass (mkStack (classes ?t) _) _ = _ =>
      change (GetCipClass t kCipAssemblyClassCode = Some n) end.
    erewrite !registered_set; [exact Hr | exact Hc | | by eapply get_set_class_some |].
    + by rewrite (f_equal class_code Hf : class_code c = _), (f_equal class_code Hf1 : class_code c1 = _).
    + done.
  - exists c4. split; [by eapply (get_set_class_some n c1 c4 (set_class (TheClass n) c1 s)) |].
    split; [exact Hf1 |]. split; [|split].
    + unfold c4. cbn [upd_instances instances]. by rewrite Hi, fmap_app.
    + by apply (instances_wf_last c3 (instances c) _ _ Hwf1 Hi1).
    + by destruct l.
  - rewrite fmap_app. apply list.NoDup_app. split; [done |]. split; [|apply list.NoDup_singleton].
    intros x Hx ->%list_elem_of_singleton. done.
  - intros e [He|He%list_elem_of_singleton]%elem_of_app; cbn [objects].
    + rewrite lookup_insert_ne; [by apply Harr |]. intros ->. apply Ha.
      apply list_elem_of_fmap. by exists e.
    + subst e. rewrite lookup_insert_eq. by eexists.
Qed.

(** ** Lemmas: the data of an assembly *)

(** The array holds the bytes [d]; the application's buffer may be larger. *)
Definition holds_array (d : list Z) (b : CipByteArray) : Prop :=
  ba_length b = Z.of_nat (length d) ∧ ∃ rest, ba_data b = Some (d ++ rest).

Lemma write_array_spec old bs b :
  holds_array old b → length bs = length old →
  ∃ b', write_array b bs = Some b' ∧ holds_array bs b'.
Proof.
  intros [Hl [rest Hd]] Hn. unfold write_array. rewrite Hl, Hd.
  destruct (Z.eqb_spec (Z.of_nat (length old)) 0) as [E|E].
  - exists b. split; [done |]. destruct old; [|simpl in E; lia]. destruct bs; [|done].
    split; [done |]. by exists rest.
  - cbn [mbind option_bind]. unfold write_bytes.
    rewrite decide_True by (rewrite length_app; lia). cbn [mbind option_bind].
    eexists. split; [done |]. split; [simpl; lia |]. exists rest. cbn [ba_data Z.to_nat take].
    rewrite Nat.add_0_l, drop_app_length' by done. done.
Qed.

Lemma assembly_lookup n l s j e :
  assemblies n l s → l !! j = Some e →
  ∃ c, get_class (TheClass n) s = Some c ∧ class_frame c = assembly_frame n ∧
    instance_ctx n (ListInstance j) s (assembly_instance n e) c ∧
    get_single_bit_mask c = [0x18].
Proof.
  intros [_ (c & Hc & Hf & Hi & Hwf & Hm) _ _] Hj. exists c.
  assert (Hm' : get_single_bit_mask c = [0x18] ∧ set_bit_mask c = [8] ∧ get_all_bit_mask c = [8])
    by (destruct l; [done | by simplify_eq/=]).
  destruct Hm' as (M1 & M2 & M3). pose proof (frame_fields c n Hf) as (Hn & Hh & _).
  split; [done |]. split; [done |]. split; [|done]. split; [|split].
  - unfold get_instance. rewrite Hc. cbn [mbind option_bind].
    rewrite Hi, list_lookup_fmap, Hj. done.
  - unfold instance_class. cbn [assembly_instance cip_class mbind option_bind]. exact Hc.
  - unfold attributes_wf. rewrite Hn, Hh, M1, M2, M3. split; [done |]. split; [|by split_and!].
    apply Forall_cons_2; [|apply Forall_cons_2; [|apply Forall_nil_2]];
      (unfold attribute_ok; cbn [data encode attribute_number]; rewrite Hh; split;
       [by eexists | lia]).
Qed.

(** [Get Attribute Single] of attribute 3 or 4 of an assembly. *)
Lemma assembly_get `{Application} n s j e c b k v req resp :
  (∀ i a z o, get_set_callback kAssemblyPreGetCallback i a z o
              = Some (AssemblyPreGetCallback i a z o)) →
  class_frame c = assembly_frame n → get_single_bit_mask c = [0x18] →
  instance_ctx n (ListInstance j) s (assembly_instance n e) c →
  let s1 := mkStack (classes s)
              (snd (BeforeAssemblyDataSend (assembly_instance n e) (objects s))) in
  path_attribute req = k →
  (k = 3 ∧ objects s1 !! e.2 = Some (DByteArray b) ∧ holds_array v b ∨
   k = 4 ∧ objects s !! e.2 = Some (DByteArray b) ∧ v = le_bytes 2 (ba_length b)) →
  bytes v → Z.of_nat (length v) <= 512 →
  ∃ m, GetAttributeSingle n (ListInstance j) req resp s
       = Some (kEipStatusOkSend, req, reply req resp kCipErrorSuccess m,
               if k =? 3 then s1 else s) ∧ wire m = v.
Proof.
  intros Hcb Hf Hm Hctx s1 Hk Hv Hb Hlen.
  pose proof (frame_fields c n Hf) as (_ & _ & Hpre & Hpost & _).
  destruct (holds_put [] v _ holds_init Hb) as (m & Hm1 & Hm2); [simpl; lia |].
  exists m. split; [|by apply holds_wire].
  destruct Hv as [(-> & Ho & Ha & rest & Hr) | (-> & Ho & ->)].
  - eapply (GetAttributeSingle_gettable _ _ _ _ _ _ _ _ EncodeCipByteArray (DByteArray b)).
    + exact Hctx.
    + unfold lookup_attribute. rewrite Hk. reflexivity.
    + rewrite Hm, Hk. reflexivity.
    + rewrite Hpre. unfold run_get_set_callback. change (has_flag _ _) with true. cbv iota.
      rewrite Hcb. reflexivity.
    + reflexivity.
    + exact Ho.
    + cbn [EncodeCipByteArray]. by rewrite Hr, append_buffer_app.
    + left. exact Hpost.
  - eapply (GetAttributeSingle_gettable _ _ _ _ _ _ _ _ EncodeCipUint (DByteArray b)).
    + exact Hctx.
    + unfold lookup_attribute. rewrite Hk. reflexivity.
    + rewrite Hm, Hk. reflexivity.
    + reflexivity.
    + reflexivity.
    + exact Ho.
    + exact Hm1.
    + left. exact Hpost.
Qed.

(** ** Properties *)

(** The application's set-up: instance number, data and address of each assembly. *)
Fixpoint create_assemblies (l : list (Z * list Z * nat)) (s : CipStack) : option CipStack :=
  match l with
  | [] => Some s
  | (id, d, a) :: l =>
      '(p, s) ← CreateAssemblyObject id (Some d) (Z.of_nat (length d)) (Some a) s;
      create_assemblies l s
  end.

Definition assembly_key (x : Z * list Z * nat) : Z * nat := (x.1.1, x.2).

Lemma create_assemblies_spec n l0 l s :
  assemblies n l0 s → NoDup ((l0 ++ (assembly_key <$> l)).*1) →
  NoDup ((l0 ++ (assembly_key <$> l)).*2) → Forall (λ x, 1 <= x.1.1 <= 65535) l →
  Z.of_nat (length l0 + length l) <= 65534 →
  ∃ s', create_assemblies l s = Some s' ∧ assemblies n (l0 ++ (assembly_key <$> l)) s' ∧
    (∀ k, k ∉ (assembly_key <$> l).*2 → objects s' !! k = objects s !! k) ∧
    ∀ id d a, (id, d, a) ∈ l →
      objects s' !! a = Some (DByteArray (mkByteArray (Z.of_nat (length d)) (Some d))).
Proof.
  revert l0 s. induction l as [|[[id d] a] l IH]; intros l0 s Has Hi Ha Hid Hl.
  { exists s. rewrite fmap_nil, app_nil_r in *. split_and!; try done.
    intros ??? Hx. by destruct (not_elem_of_nil _ Hx). }
  apply Forall_cons in Hid as [Hr Hid]. cbn [fst snd] in Hr.
  rewrite fmap_cons in *. change (assembly_key (id, d, a)) with (id, a) in *.
  rewrite cons_middle, (assoc_L (++)) in *.
  assert ((id ∉ l0.*1) ∧ (a ∉ l0.*2)) as [Hni Hna].
  { rewrite !fmap_app in Hi. rewrite !fmap_app in Ha. apply list.NoDup_app in Hi as [Hi _], Ha as [Ha _].
    apply list.NoDup_app in Hi as (_ & Hi & _), Ha as (_ & Ha & _).
    split; intros Hx; [apply (Hi id) | apply (Ha a)]; (done || by left). }
  destruct (CreateAssemblyObject_spec n l0 s id (Some d) (Z.of_nat (length d)) a Has Hr Hni Hna)
    as (s1 & E & Has1 & Ho); [simpl in Hl; lia |].
  destruct (IH (l0 ++ [(id, a)]) s1 Has1 Hi Ha Hid) as (s' & E' & Has' & Hrest & Hobj);
    [rewrite length_app; simpl in *; lia |].
  exists s'. cbn [create_assemblies]. rewrite E. cbn [mbind option_bind].
  split; [done |]. split; [done |].
  assert (Hnl : a ∉ (assembly_key <$> l).*2).
  { rewrite fmap_app in Ha. apply list.NoDup_app in Ha as (_ & Ha & _). intros Hx. apply (Ha a); [|done].
    rewrite fmap_app. apply elem_of_app. right. by left. }
  split.
  - intros k [Hk Hkl]%not_elem_of_cons. rewrite Hrest by done. rewrite Ho.
    by apply lookup_insert_ne.
  - intros id' d' a' [[= -> -> ->]|Hx]%elem_of_cons; [|by apply (Hobj id')].
    rewrite Hrest by done. rewrite Ho. apply lookup_insert_eq.
Qed.

(** Setting up the assemblies works and establishes the object's invariant:
    after [CipAssemblyInitialize] and the creation of any list of assemblies with
    distinct instance numbers in 1..65535 at distinct addresses, the registered
    assembly class has exactly these instances in this order, each with attribute 3
    (settable and gettable) and attribute 4 (gettable) on its own array, which holds
    the application's data; other objects are untouched. *)
Theorem assembly_objects_created l s :
  GetCipClass s kCipAssemblyClassCode = None → NoDup (assembly_key <$> l).*1 →
  NoDup (assembly_key <$> l).*2 → Forall (λ x, 1 <= x.1.1 <= 65535) l →
  Z.of_nat (length l) <= 65534 →
  let n := length (classes s) in
  ∃ s0 s', CipAssemblyInitialize s = Some (kEipStatusOk, s0) ∧ create_assemblies l s0 = Some s' ∧
    assemblies n (assembly_key <$> l) s' ∧
    (∀ k, k ∉ (assembly_key <$> l).*2 → objects s' !! k = objects s !! k) ∧
    ∀ id d a, (id, d, a) ∈ l →
      objects s' !! a = Some (DByteArray (mkByteArray (Z.of_nat (length d)) (Some d))).
Proof.
  intros Hn Hi Ha Hr Hl n. destruct (CipAssemblyInitialize_spec s Hn) as (s0 & E & Ho & Has & _).
  destruct (create_assemblies_spec n [] l s0 Has Hi Ha Hr Hl) as (s' & E' & H1 & H2 & H3).
  exists s0, s'. rewrite Ho in H2. by split_and!.
Qed.

(** Instances belong to the classes alone. *)
Lemma instance_ctx_classes n p s s' i c :
  classes s' = classes s → instance_ctx n p s i c → instance_ctx n p s' i c.
Proof. destruct s, s'. simpl. by intros ->. Qed.

Lemma get_instance_classes n p s s' :
  classes s' = classes s → get_instance n p s' = get_instance n p s.
Proof. destruct s, s'. simpl. by intros ->. Qed.

Lemma GetCipClass_classes s s' code :
  classes s' = classes s → GetCipClass s' code = GetCipClass s code.
Proof. destruct s, s'. simpl. by intros ->. Qed.

(** The bytes of the right number are stored; the application decides the status. *)
Lemma NotifyAssembly_stores n p e s b old new rest :
  get_instance n p s = Some (assembly_instance n e) →
  objects s !! e.2 = Some (DByteArray b) → holds_array old b → length new = length old →
  (∀ i o, snd (AfterAssemblyDataReceived i o) !! e.2 = o !! e.2) →
  ∃ status s' b', NotifyAssemblyConnectedDataReceived n p (new ++ rest)
      (Z.of_nat (length old)) s = Some (status, s') ∧
    status = fst (AfterAssemblyDataReceived (assembly_instance n e)
                    (<[e.2 := DByteArray b']> (objects s))) ∧
    classes s' = classes s ∧ objects s' !! e.2 = Some (DByteArray b') ∧ holds_array new b'.
Proof.
  intros Hi Ho Hold Hdl Hafter. unfold NotifyAssemblyConnectedDataReceived. rewrite Hi.
  cbn [mbind option_bind]. unfold assembly_array. cbn [assembly_instance assembly_attributes
    attributes lookup list_lookup mbind option_bind data load_data]. rewrite Ho.
  cbn [mbind option_bind]. pose proof Hold as [Hlen _]. rewrite Hlen, Z.eqb_refl. cbn [negb].
  rewrite Nat2Z.id, load_n_app by done. cbn [mbind option_bind].
  destruct (write_array_spec old new b Hold Hdl) as (b' & -> & Hb'). cbn [mbind option_bind store_data].
  rewrite Ho. cbn [mbind option_bind objects classes].
  set (o1 := <[e.2 := DByteArray b']> (objects s)).
  destruct (AfterAssemblyDataReceived _ o1) as [status o2] eqn:Ea.
  exists status, (mkStack (classes s) o2), b'. split; [done |]. split; [by fold o1; rewrite Ea |].
  split; [done |]. split; [|done]. cbn [objects].
  specialize (Hafter (assembly_instance n e) o1). rewrite Ea in Hafter. cbn [snd] in Hafter.
  rewrite Hafter. apply lookup_insert_eq.
Qed.

(** C20.  Data received over a connection is what explicit messages read: an assembly
    takes exactly as many bytes as it has, refuses any other amount without a change,
    and, as long as the application's callbacks leave its array alone, a following
    Get Attribute Single answers with the received bytes for attribute 3 and with
    their number for attribute 4. *)
Theorem assembly_data_received `{Application} n l s j e b old new rest size req3 req4 resp :
  (∀ i a z o, get_set_callback kAssemblyPreGetCallback i a z o
              = Some (AssemblyPreGetCallback i a z o)) →
  assemblies n l s → l !! j = Some e →
  objects s !! e.2 = Some (DByteArray b) → holds_array old b → Z.of_nat (length old) <= 512 →
  (∀ i o, snd (AfterAssemblyDataReceived i o) !! e.2 = o !! e.2) →
  (∀ i o, snd (BeforeAssemblyDataSend i o) !! e.2 = o !! e.2) →
  bytes new → path_attribute req3 = 3 → path_attribute req4 = 4 →
  if bool_decide (size = Z.of_nat (length old)) then
    Z.of_nat (length new) = size →
    ∃ status s1 s2 m3 m4,
      NotifyAssemblyConnectedDataReceived n (ListInstance j) (new ++ rest) size s
      = Some (status, s1) ∧
      GetAttributeSingle n (ListInstance j) req3 resp s1
      = Some (kEipStatusOkSend, req3, reply req3 resp kCipErrorSuccess m3, s2) ∧
      wire m3 = new ∧
      GetAttributeSingle n (ListInstance j) req4 resp s1
      = Some (kEipStatusOkSend, req4, reply req4 resp kCipErrorSuccess m4, s1) ∧
      wire m4 = le_bytes 2 size
  else NotifyAssemblyConnectedDataReceived n (ListInstance j) new size s
       = Some (kEipStatusError, s).
Proof.
  intros Hcb Has Hj Ho Hold H512 Hafter Hbefore Hb Hr3 Hr4.
  destruct (assembly_lookup _ _ _ _ _ Has Hj) as (c & _ & Hf & Hctx & Hm).
  pose proof Hctx as (Hi & _). pose proof Hold as [Hlen _].
  case_bool_decide as Hs.
  2: { unfold NotifyAssemblyConnectedDataReceived. rewrite Hi. cbn [mbind option_bind].
       unfold assembly_array. cbn [assembly_instance assembly_attributes attributes lookup
         list_lookup mbind option_bind data load_data]. rewrite Ho. cbn [mbind option_bind].
       by rewrite Hlen, (proj2 (Z.eqb_neq _ _)) by congruence. }
  intros Hd. subst size. assert (Hdl : length new = length old) by lia.
  destruct (NotifyAssembly_stores n (ListInstance j) e s b old new rest Hi Ho Hold Hdl Hafter)
    as (status & s1 & b' & Es & _ & Hcl & Ho2 & Hb'). rewrite Es.
  apply (instance_ctx_classes _ _ _ _ _ _ Hcl) in Hctx.
  destruct (assembly_get n s1 j e c b' 3 new req3 resp) as (m3 & E3 & W3); try done; [|lia |].
  { left. cbn [objects]. by rewrite Hbefore. }
  destruct (assembly_get n s1 j e c b' 4 (le_bytes 2 (Z.of_nat (length old))) req4 resp)
    as (m4 & E4 & W4); try done.
  { right. split_and!; [done | done |]. f_equal. destruct Hb' as [-> _]. by rewrite Hd. }
  { apply le_bytes_bytes. }
  eexists status, s1, _, m3, m4. by split_and!.
Qed.
End AssemblyLemmas.

(** ** An example *)

(** An application that leaves its data alone, and the callbacks of the class. *)
Definition quiet_application : AssemblyApplication := {|
  AfterAssemblyDataReceived _ o := (kEipStatusOk, o);
  BeforeAssemblyDataSend _ o := (true, o);
  explicit_data_status _ := kEipStatusOk |}.

Definition assembly_callbacks (app : AssemblyApplication) : Application := {|
  get_set_callback k i a z o :=
    if (k =? kAssemblyPreGetCallback)%nat then Some (AssemblyPreGetCallback i a z o)
    else if (k =? kAssemblyPostSetCallback)%nat then Some (AssemblyPostSetCallback i a z o)
    else None;
  service_callback _ _ _ _ _ _ := None;
  other_service _ _ _ _ _ _ _ _ := None |}.

(** Input, output and configuration assembly. *)
Definition example_assemblies : list (Z * list Z * nat) :=
  [(100, replicate 4 1, 500%nat); (150, replicate 3 2, 501%nat); (151, [7; 8], 502%nat)].

Definition assembly_example : CipStack :=
  default empty_stack
    (p ← @CipAssemblyInitialize empty_stack;
     @create_assemblies quiet_application example_assemblies p.2).

Lemma assembly_objects_created_witness :
  ∃ s0 s', CipAssemblyInitialize empty_stack = Some (kEipStatusOk, s0) ∧
    @create_assemblies quiet_application example_assemblies s0 = Some s' ∧
    @assemblies quiet_application 0 [(100, 500%nat); (150, 501%nat); (151, 502%nat)] s'.
Proof.
  destruct (@assembly_objects_created quiet_application example_assemblies empty_stack)
    as (s0 & s' & E & E' & Has & _).
  - reflexivity.
  - apply (bool_decide_unpack _). vm_compute. exact I.
  - apply (bool_decide_unpack _). vm_compute. exact I.
  - repeat apply Forall_cons_2; try apply Forall_nil_2; simpl; lia.
  - simpl. lia.
  - exists s0, s'. split; [exact E |]. split; [exact E' | exact Has].
Defined.

Lemma assembly_example_spec :
  @assemblies quiet_application 0 [(100, 500%nat); (150, 501%nat); (151, 502%nat)]
    assembly_example ∧
  objects assembly_example !! 501%nat
  = Some (DByteArray (mkByteArray 3 (Some [2; 2; 2]))).
Proof.
  destruct (CipAssemblyInitialize_spec (H := quiet_application) empty_stack)
    as (s0 & E & _ & Has & _); [reflexivity |].
  destruct (create_assemblies_spec (H := quiet_application) 0 [] example_assemblies s0 Has)
    as (s' & E' & H1 & _ & H3).
  - apply (bool_decide_unpack _). vm_compute. exact I.
  - apply (bool_decide_unpack _). vm_compute. exact I.
  - repeat apply Forall_cons_2; try apply Forall_nil_2; simpl; lia.
  - simpl. lia.
  - unfold assembly_example. rewrite E. cbn [mbind option_bind snd]. rewrite E'.
    split; [exact H1 |]. apply (H3 150 [2; 2; 2] 501%nat). right. by left.
Qed.

Lemma assembly_data_received_witness :
  ∃ status s1 s2 m, @NotifyAssemblyConnectedDataReceived quiet_application 0 (ListInstance 1)
      ([9; 8; 7] ++ [6]) 3 assembly_example = Some (status, s1) ∧
    @GetAttributeSingle (assembly_callbacks quiet_application) 0 (ListInstance 1)
      (single_request 3 []) empty_response s1
    = Some (kEipStatusOkSend, single_request 3 [],
            reply (single_request 3 []) empty_response kCipErrorSuccess m, s2) ∧
    wire m = [9; 8; 7].
Proof.
  destruct assembly_example_spec as [Has Ho].
  pose proof (@assembly_data_received quiet_application (assembly_callbacks quiet_application)
    0 [(100, 500%nat); (150, 501%nat); (151, 502%nat)] assembly_example 1 (150, 501%nat) (mkByteArray 3 (Some [2; 2; 2])) [2; 2; 2] [9; 8; 7] [6] 3 (single_request 3 [])
    (single_request 4 []) empty_response) as P.
  destruct P as (status & s1 & s2 & m3 & m4 & E & E3 & W3 & _).
  - reflexivity.
  - exact Has.
  - reflexivity.
  - exact Ho.
  - split; [reflexivity | by exists []].
  - simpl. lia.
  - reflexivity.
  - reflexivity.
  - repeat constructor; unfold is_u8; lia.
  - reflexivity.
  - reflexivity.
  - reflexivity.
  - exists status, s1, s2, m3. split; [exact E |]. split; [exact E3 | exact W3].
Defined.
