(* ===== verification/MessageRouter.v ===== *)
(** * [cip/cipmessagerouter.c]: requests and their routing *)

From S2P Require Import Prelude EndianConv CipStrings CipTypes CipCodec CipClasses CipServices.
Open Scope Z_scope.

(** [data_length] is an [EipInt16]; the number of decoded bytes is a [size_t],
    so the comparison converts the length to [size_t].  The request is the
    global one, whose fields keep their values on the error branches. *)
Definition CreateMessageRouterRequestStructure (data : list Z) (data_length : Z)
    (req : CipMessageRouterRequest) : option (Z * CipMessageRouterRequest) :=
  sv ← load data 0;
  let req := mkRequest sv (request_path req) (request_data_size req) (request_data req) in
  data ← ptr_add data 1;
  let data_length := s16 (data_length - 1) in
  '(path, result) ← DecodePaddedEPath data;
  let req := set_request_path path req in
  match result with
  | None => Some (kCipErrorPathSegmentError, req)
  | Some (data, number_of_decoded_bytes) =>
      if u64 data_length <? number_of_decoded_bytes
      then Some (kCipErrorPathSizeInvalid, req)
      else Some (kCipErrorSuccess,
                 mkRequest sv path (u64 (data_length - number_of_decoded_bytes)) data)
  end.


(** The error reply before a class is reached: the message is not touched. *)
Definition router_error (status : Z) (req : CipMessageRouterRequest)
    (resp : CipMessageRouterResponse) : CipMessageRouterResponse :=
  let resp := set_general_status status resp in
  let resp := set_size_of_additional_status 0 resp in
  let resp := set_reserved 0 resp in
  set_reply_service (0x80 .| service req) resp.

(** [data_length] is an [int]; [g] is [g_message_router_request].  State and service
    calls are parameters as in [notify_class]. *)
Definition notify_message_router {St} (stack_of : St → CipStack)
    (run : CipServiceFunction → nat → InstancePtr → CipMessageRouterRequest →
      CipMessageRouterResponse → SockAddr → Z → St →
      option (EipStatus * CipMessageRouterRequest * CipMessageRouterResponse * St))
    (data : list Z) (data_length : Z) (resp : CipMessageRouterResponse)
    (originator_address : SockAddr) (encapsulation_session : Z)
    (g : CipMessageRouterRequest) (st : St)
  : option (EipStatus * CipMessageRouterRequest * CipMessageRouterResponse * St) :=
  '(status, g) ← CreateMessageRouterRequestStructure data (s16 data_length) g;
  if negb (kCipErrorSuccess =? status) then
    Some (kEipStatusOkSend, g, router_error status g resp, st)
  else
    match GetRegisteredObject (stack_of st) (class_id (request_path g)) with
    | None => Some (kEipStatusOkSend, g, router_error kCipErrorPathDestinationUnknown g resp, st)
    | Some n =>
        notify_class stack_of run n g (set_reserved 0 resp) originator_address
          encapsulation_session st
    end.

(** The router over the CIP stack alone. *)
Definition NotifyMessageRouter `{Application} (data : list Z) (data_length : Z)
    (resp : CipMessageRouterResponse) (originator_address : SockAddr) (encapsulation_session : Z)
    (g : CipMessageRouterRequest) (s : CipStack) : option ServiceResult :=
  notify_message_router (λ s, s) run_service data data_length resp originator_address
    encapsulation_session g s.

(** ** Lemmas *)

(** The path of a request, as a list of segments. *)
Definition path_of (ss : list path_segment) : CipEpath :=
  foldl apply_seg (mkEpath (segs_words ss) 0 0 0) ss.

Lemma segs_words_nonneg ss : 0 <= segs_words ss.
Proof. pose proof (segs_words_ge ss). lia. Qed.

Lemma DecodePaddedEPath_segments ss rest :
  Forall seg_wf ss →
  DecodePaddedEPath (segs_words ss :: segs_bytes ss ++ rest)
  = Some (path_of ss, Some (rest, segs_words ss * 2 + 1)).
Proof.
  intros Hs. unfold DecodePaddedEPath. cbn [mbind option_bind load lookup list_lookup].
  rewrite ptr_add_1. cbn [mbind option_bind]. pose proof (segs_words_ge ss).
  rewrite decode_segments; [done | done | simpl; lia | lia].
Qed.

(** A request as it is on the wire. *)
Definition request_bytes (sv : Z) (ss : list path_segment) (payload : list Z) : list Z :=
  sv :: segs_words ss :: segs_bytes ss ++ payload.

Lemma length_request_bytes sv ss payload :
  Z.of_nat (length (request_bytes sv ss payload))
  = 2 + 2 * segs_words ss + Z.of_nat (length payload).
Proof.
  unfold request_bytes. simpl. rewrite length_app. pose proof (length_segs_bytes ss). lia.
Qed.

Lemma CreateRequest_segments sv ss payload len g :
  Forall seg_wf ss →
  CreateMessageRouterRequestStructure (request_bytes sv ss payload) len g
  = let number := segs_words ss * 2 + 1 in
    if u64 (s16 (len - 1)) <? number
    then Some (kCipErrorPathSizeInvalid,
               mkRequest sv (path_of ss) (request_data_size g) (request_data g))
    else Some (kCipErrorSuccess,
               mkRequest sv (path_of ss) (u64 (s16 (len - 1) - number)) payload).
Proof.
  intros Hs. unfold CreateMessageRouterRequestStructure, request_bytes.
  cbn [mbind option_bind load lookup list_lookup]. rewrite ptr_add_1.
  cbn [mbind option_bind]. rewrite DecodePaddedEPath_segments by done. done.
Qed.

(** ** Properties *)

(** A complete request of at most 32767 bytes is parsed into its service,
    its path (later segments of a kind override earlier ones), and the payload
    with its exact size; every declared length that is positive but shorter than
    service and path is answered with "path size invalid". *)
Theorem request_parsed sv ss payload g :
  Forall seg_wf ss → 2 + 2 * segs_words ss + Z.of_nat (length payload) <= 32767 →
  CreateMessageRouterRequestStructure (request_bytes sv ss payload)
    (Z.of_nat (length (request_bytes sv ss payload))) g
  = Some (kCipErrorSuccess,
          mkRequest sv (path_of ss) (Z.of_nat (length payload)) payload) ∧
  ∀ len, 1 <= len < 2 + 2 * segs_words ss →
    ∃ g', CreateMessageRouterRequestStructure (request_bytes sv ss payload) len g
          = Some (kCipErrorPathSizeInvalid, g').
Proof.
  intros Hs Hl. pose proof (segs_words_nonneg ss) as Hw.
  assert (Hs16 : ∀ z, 0 <= z <= 32766 → s16 z = z).
  { intros z Hz. unfold s16. rewrite Z.mod_small by lia. lia. }
  split.
  - rewrite CreateRequest_segments by done. cbv zeta.
    rewrite length_request_bytes, Hs16, u64_id by (unfold is_u64; lia).
    rewrite (proj2 (Z.ltb_ge _ _)) by lia.
    rewrite u64_id by (unfold is_u64; lia). do 3 f_equal. lia.
  - intros len Hlen. rewrite CreateRequest_segments by done. cbv zeta.
    rewrite Hs16, u64_id by (unfold is_u64; lia).
    rewrite (proj2 (Z.ltb_lt _ _)) by lia. by eexists.
Qed.

Lemma request_parsed_witness :
  CreateMessageRouterRequestStructure [0x0E; 3; 0x20; 1; 0x24; 1; 0x30; 7; 0xAA] 9
    (list_request [])
  = Some (kCipErrorSuccess, mkRequest 0x0E (mkEpath 3 1 1 7) 1 [0xAA]).
Proof.
  destruct (request_parsed 0x0E [SegClass 1; SegInstance 1; SegAttribute 7] [0xAA]
    (list_request [])) as [H _].
  - repeat constructor; simpl; lia.
  - vm_compute. discriminate.
  - exact H.
Defined.

(** A declared length of 0 is not caught: the remaining length becomes
    minus one, which the comparison with the [size_t] byte count takes for
    2^64-1, so the request is accepted with a data size near 2^64. *)
Theorem zero_length_request_accepted sv ss payload g :
  Forall seg_wf ss → segs_words ss <= 255 →
  CreateMessageRouterRequestStructure (request_bytes sv ss payload) 0 g
  = Some (kCipErrorSuccess,
          mkRequest sv (path_of ss) (2 ^ 64 - 2 - 2 * segs_words ss) payload).
Proof.
  intros Hs Hl. pose proof (segs_words_nonneg ss) as Hw.
  rewrite CreateRequest_segments by done. cbv zeta.
  change (s16 (0 - 1)) with (-1). change (u64 (-1)) with 18446744073709551615.
  rewrite (proj2 (Z.ltb_ge _ _)) by lia. do 3 f_equal.
  unfold u64. change (2 ^ 64) with 18446744073709551616.
  rewrite <-(Z.mod_small (18446744073709551616 - 2 - 2 * segs_words ss) 18446744073709551616) by lia.
  rewrite <-(Z_mod_plus_full _ 1). f_equal. lia.
Qed.

Lemma zero_length_request_accepted_witness :
  CreateMessageRouterRequestStructure [0x0E; 1; 0x20; 1] 0 (list_request [])
  = Some (kCipErrorSuccess, mkRequest 0x0E (mkEpath 1 1 0 0) 18446744073709551612 []).
Proof.
  apply (zero_length_request_accepted 0x0E [SegClass 1] [] (list_request [])).
  - repeat constructor; simpl; lia.
  - vm_compute. discriminate.
Defined.

(** C10.  [NotifyMessageRouter] on a complete request: an unregistered class and
    an unknown instance are answered with "path destination unknown", a service
    missing from the instance's class with "service not supported", each leaving
    the stack unchanged; otherwise the service function of the table is run on
    that instance with the parsed request. *)
Theorem NotifyMessageRouter_routes `{Application} sv ss payload resp addr session g s :
  Forall seg_wf ss → 2 + 2 * segs_words ss + Z.of_nat (length payload) <= 32767 →
  let data := request_bytes sv ss payload in
  let req := mkRequest sv (path_of ss) (Z.of_nat (length payload)) payload in
  let result := NotifyMessageRouter data (Z.of_nat (length data)) resp addr session g s in
  match GetCipClass s (class_id (path_of ss)) with
  | None => result = Some (kEipStatusOkSend, req,
                           router_error kCipErrorPathDestinationUnknown req resp, s)
  | Some n => ∀ c, get_class (TheClass n) s = Some c →
      match GetCipInstance c (instance_number_of_path (path_of ss)) with
      | None => result = Some (kEipStatusOkSend, req,
                  class_error req (set_reserved 0 resp) kCipErrorPathDestinationUnknown, s)
      | Some p => ∀ i k, get_instance n p s = Some i → instance_class i s = Some k →
          services_wf k →
          result = match List.find (fun x => service_number x =? sv) (services k) with
                   | None => Some (kEipStatusOkSend, req,
                       class_error req (set_reserved 0 resp) kCipErrorServiceNotSupported, s)
                   | Some x => fn ← service_function x;
                       run_service fn n p req (set_reserved 0 resp) addr session s
                   end
      end
  end.
Proof.
  intros Hs Hl data req result. unfold result, NotifyMessageRouter, notify_message_router, data.
  pose proof (segs_words_nonneg ss).
  assert (Hlen : s16 (Z.of_nat (length (request_bytes sv ss payload)))
                 = Z.of_nat (length (request_bytes sv ss payload))).
  { rewrite length_request_bytes. unfold s16. rewrite Z.mod_small by lia. lia. }
  assert (Hreq : CreateMessageRouterRequestStructure (request_bytes sv ss payload)
    (s16 (Z.of_nat (length (request_bytes sv ss payload)))) g = Some (kCipErrorSuccess, req)).
  { rewrite Hlen, CreateRequest_segments, length_request_bytes by done. cbv zeta.
    assert (Hs16 : ∀ z, 0 <= z <= 32766 → s16 z = z).
    { intros z Hz. unfold s16. rewrite Z.mod_small by lia. lia. }
    rewrite Hs16, u64_id by (unfold is_u64; lia).
    rewrite (proj2 (Z.ltb_ge _ _)) by lia.
    rewrite u64_id by (unfold is_u64; lia). unfold req. do 3 f_equal. lia. }
  rewrite Hreq. cbn [mbind option_bind]. change (negb (kCipErrorSuccess =? kCipErrorSuccess)) with false.
  cbv iota. unfold GetCipClass. simpl (request_path req).
  destruct (GetRegisteredObject s (class_id (path_of ss))) as [n|]; [| done].
  intros c Hc. pose proof (NotifyClass_dispatch n req (set_reserved 0 resp) addr session s c Hc) as Hd.
  simpl in Hd. by destruct (GetCipInstance c (instance_number_of_path (path_of ss))).
Qed.

Lemma NotifyMessageRouter_routes_witness :
  NotifyMessageRouter [0x4C; 2; 0x20; 0x64; 0x24; 1] 6 empty_response example_peer 0 (list_request [])
    ex_stack
  = Some (kEipStatusOkSend, mkRequest 0x4C (mkEpath 2 0x64 1 0) 0 [],
          class_error (mkRequest 0x4C (mkEpath 2 0x64 1 0) 0 []) empty_response
            kCipErrorServiceNotSupported, ex_stack).
Proof.
  assert (H1 : Forall seg_wf [SegClass 0x64; SegInstance 1])
    by (repeat constructor; simpl; lia).
  assert (H2 : 2 + 2 * segs_words [SegClass 0x64; SegInstance 1] + Z.of_nat (length (@nil Z)) <= 32767)
    by (vm_compute; discriminate).
  pose proof (NotifyMessageRouter_routes 0x4C [SegClass 0x64; SegInstance 1] []
    empty_response example_peer 0 (list_request []) ex_stack H1 H2) as H.
  assert (Hcls : GetCipClass ex_stack 0x64 = Some 0%nat) by (vm_compute; reflexivity).
  change (class_id (path_of [SegClass 0x64; SegInstance 1])) with 0x64 in H.
  cbv zeta in H. rewrite Hcls in H. specialize (H ex_class ex_get_class).
  change (instance_number_of_path (path_of [SegClass 0x64; SegInstance 1])) with 1 in H.
  assert (Hi : GetCipInstance ex_class 1 = Some (ListInstance 0)) by (vm_compute; reflexivity).
  rewrite Hi in H.
  assert (Hs : services_wf ex_class) by (vm_compute; reflexivity).
  specialize (H ex_instance ex_class ex_get_instance ex_instance_class Hs).
  assert (Hf : List.find (fun x => service_number x =? 0x4C) (services ex_class) = None)
    by (vm_compute; reflexivity).
  rewrite Hf in H. exact H.
Defined.
