(* ===== verification/ConnRecord.v ===== *)
(** * [cip/cipconnectionobject.h]: the connection object's struct

    [CipConnectionObject], one field update per field the code assigns, and the
    all-zero struct.  Connection, timeout, send and receive handlers are held by
    number.  Integer fields hold values of their declared width. *)

From S2P Require Import Prelude EndianConv EPath CipTypes CipCodec CipClasses SocketTimer.
Open Scope Z_scope.

(** ** Data *)

Record CipConnectionPathEpath := mkPathEpath {
  epath_class_id : Z; epath_instance_id : Z; attribute_id_or_connection_point : Z }.

(** [key_data] is a pointer to the key of the given format. *)
Record CipElectronicKey := mkElectronicKey {
  key_format : Z; key_data : option ElectronicKeyFormat4 }.

Record CipConnectionObject := mkConnection {
  state : Z;
  instance_type : Z;
  transport_class_trigger : Z;
  produced_connection_size : Z;
  consumed_connection_size : Z;
  expected_packet_rate : Z;
  cip_produced_connection_id : Z;
  cip_consumed_connection_id : Z;
  watchdog_timeout_action : Z;
  produced_connection_path_length : Z;
  produced_path : CipConnectionPathEpath;
  consumed_connection_path_length : Z;
  consumed_path : CipConnectionPathEpath;
  production_inhibit_time : Z;
  connection_timeout_multiplier : Z;
  electronic_key : CipElectronicKey;
  configuration_path : CipConnectionPathEpath;
  producing_instance : option InstancePtr;
  consuming_instance : option InstancePtr;
  requested_produced_connection_size : Z;
  requested_consumed_connection_size : Z;
  transmission_trigger_timer : Z;
  inactivity_watchdog_timer : Z;
  last_package_watchdog_timer : Z;
  production_inhibit_timer : Z;
  connection_serial_number : Z;
  originator_vendor_id : Z;
  originator_serial_number : Z;
  connection_number : Z;
  o_to_t_requested_packet_interval : Z;
  o_to_t_network_connection_parameters : Z;
  t_to_o_requested_packet_interval : Z;
  t_to_o_network_connection_parameters : Z;
  sequence_count_producing : Z;
  sequence_count_consuming : Z;
  eip_level_sequence_count_producing : Z;
  eip_level_sequence_count_consuming : Z;
  eip_first_level_sequence_count_received : bool;
  correct_originator_to_target_size : Z;
  correct_target_to_originator_size : Z;
  socket_producing : Z;
  socket_consuming : Z;
  remote_address : SockAddr;
  originator_address : SockAddr;
  associated_encapsulation_session : Z;
  current_state_handler : option nat;
  connection_close_function : option nat;
  connection_timeout_function : option nat;
  connection_send_data_function : option nat;
  connection_receive_data_function : option nat;
  last_reply_sent : ENIPMessage;
  is_large_forward_open : bool }.

Definition set_state (v : Z) (c : CipConnectionObject)
  : CipConnectionObject :=
  mkConnection v (instance_type c) (transport_class_trigger c) (produced_connection_size
    c) (consumed_connection_size c) (expected_packet_rate c) (cip_produced_connection_id
    c) (cip_consumed_connection_id c) (watchdog_timeout_action c)
    (produced_connection_path_length c) (produced_path c)
    (consumed_connection_path_length c) (consumed_path c) (production_inhibit_time c)
    (connection_timeout_multiplier c) (electronic_key c) (configuration_path c)
    (producing_instance c) (consuming_instance c) (requested_produced_connection_size c)
    (requested_consumed_connection_size c) (transmission_trigger_timer c)
    (inactivity_watchdog_timer c) (last_package_watchdog_timer c)
    (production_inhibit_timer c) (connection_serial_number c) (originator_vendor_id c)
    (originator_serial_number c) (connection_number c) (o_to_t_requested_packet_interval
    c) (o_to_t_network_connection_parameters c) (t_to_o_requested_packet_interval c)
    (t_to_o_network_connection_parameters c) (sequence_count_producing c)
    (sequence_count_consuming c) (eip_level_sequence_count_producing c)
    (eip_level_sequence_count_consuming c) (eip_first_level_sequence_count_received c)
    (correct_originator_to_target_size c) (correct_target_to_originator_size c)
    (socket_producing c) (socket_consuming c) (remote_address c) (originator_address c)
    (associated_encapsulation_session c) (current_state_handler c)
    (connection_close_function c) (connection_timeout_function c)
    (connection_send_data_function c) (connection_receive_data_function c)
    (last_reply_sent c) (is_large_forward_open c).
Definition set_instance_type (v : Z) (c : CipConnectionObject)
  : CipConnectionObject :=
  mkConnection (state c) v (transport_class_trigger c) (produced_connection_size c)
    (consumed_connection_size c) (expected_packet_rate c) (cip_produced_connection_id c)
    (cip_consumed_connection_id c) (watchdog_timeout_action c)
    (produced_connection_path_length c) (produced_path c)
    (consumed_connection_path_length c) (consumed_path c) (production_inhibit_time c)
    (connection_timeout_multiplier c) (electronic_key c) (configuration_path c)
    (producing_instance c) (consuming_instance c) (requested_produced_connection_size c)
    (requested_consumed_connection_size c) (transmission_trigger_timer c)
    (inactivity_watchdog_timer c) (last_package_watchdog_timer c)
    (production_inhibit_timer c) (connection_serial_number c) (originator_vendor_id c)
    (originator_serial_number c) (connection_number c) (o_to_t_requested_packet_interval
    c) (o_to_t_network_connection_parameters c) (t_to_o_requested_packet_interval c)
    (t_to_o_network_connection_parameters c) (sequence_count_producing c)
    (sequence_count_consuming c) (eip_level_sequence_count_producing c)
    (eip_level_sequence_count_consuming c) (eip_first_level_sequence_count_received c)
    (correct_originator_to_target_size c) (correct_target_to_originator_size c)
    (socket_producing c) (socket_consuming c) (remote_address c) (originator_address c)
    (associated_encapsulation_session c) (current_state_handler c)
    (connection_close_function c) (connection_timeout_function c)
    (connection_send_data_function c) (connection_receive_data_function c)
    (last_reply_sent c) (is_large_forward_open c).
Definition set_transport_class_trigger (v : Z) (c : CipConnectionObject)
  : CipConnectionObject :=
  mkConnection (state c) (instance_type c) v (produced_connection_size c)
    (consumed_connection_size c) (expected_packet_rate c) (cip_produced_connection_id c)
    (cip_consumed_connection_id c) (watchdog_timeout_action c)
    (produced_connection_path_length c) (produced_path c)
    (consumed_connection_path_length c) (consumed_path c) (production_inhibit_time c)
    (connection_timeout_multiplier c) (electronic_key c) (configuration_path c)
    (producing_instance c) (consuming_instance c) (requested_produced_connection_size c)
    (requested_consumed_connection_size c) (transmission_trigger_timer c)
    (inactivity_watchdog_timer c) (last_package_watchdog_timer c)
    (production_inhibit_timer c) (connection_serial_number c) (originator_vendor_id c)
    (originator_serial_number c) (connection_number c) (o_to_t_requested_packet_interval
    c) (o_to_t_network_connection_parameters c) (t_to_o_requested_packet_interval c)
    (t_to_o_network_connection_parameters c) (sequence_count_producing c)
    (sequence_count_consuming c) (eip_level_sequence_count_producing c)
    (eip_level_sequence_count_consuming c) (eip_first_level_sequence_count_received c)
    (correct_originator_to_target_size c) (correct_target_to_originator_size c)
    (socket_producing c) (socket_consuming c) (remote_address c) (originator_address c)
    (associated_encapsulation_session c) (current_state_handler c)
    (connection_close_function c) (connection_timeout_function c)
    (connection_send_data_function c) (connection_receive_data_function c)
    (last_reply_sent c) (is_large_forward_open c).
Definition set_produced_connection_size (v : Z) (c : CipConnectionObject)
  : CipConnectionObject :=
  mkConnection (state c) (instance_type c) (transport_class_trigger c) v
    (consumed_connection_size c) (expected_packet_rate c) (cip_produced_connection_id c)
    (cip_consumed_connection_id c) (watchdog_timeout_action c)
    (produced_connection_path_length c) (produced_path c)
    (consumed_connection_path_length c) (consumed_path c) (production_inhibit_time c)
    (connection_timeout_multiplier c) (electronic_key c) (configuration_path c)
    (producing_instance c) (consuming_instance c) (requested_produced_connection_size c)
    (requested_consumed_connection_size c) (transmission_trigger_timer c)
    (inactivity_watchdog_timer c) (last_package_watchdog_timer c)
    (production_inhibit_timer c) (connection_serial_number c) (originator_vendor_id c)
    (originator_serial_number c) (connection_number c) (o_to_t_requested_packet_interval
    c) (o_to_t_network_connection_parameters c) (t_to_o_requested_packet_interval c)
    (t_to_o_network_connection_parameters c) (sequence_count_producing c)
    (sequence_count_consuming c) (eip_level_sequence_count_producing c)
    (eip_level_sequence_count_consuming c) (eip_first_level_sequence_count_received c)
    (correct_originator_to_target_size c) (correct_target_to_originator_size c)
    (socket_producing c) (socket_consuming c) (remote_address c) (originator_address c)
    (associated_encapsulation_session c) (current_state_handler c)
    (connection_close_function c) (connection_timeout_function c)
    (connection_send_data_function c) (connection_receive_data_function c)
    (last_reply_sent c) (is_large_forward_open c).
Definition set_consumed_connection_size (v : Z) (c : CipConnectionObject)
  : CipConnectionObject :=
  mkConnection (state c) (instance_type c) (transport_class_trigger c)
    (produced_connection_size c) v (expected_packet_rate c) (cip_produced_connection_id
    c) (cip_consumed_connection_id c) (watchdog_timeout_action c)
    (produced_connection_path_length c) (produced_path c)
    (consumed_connection_path_length c) (consumed_path c) (production_inhibit_time c)
    (connection_timeout_multiplier c) (electronic_key c) (configuration_path c)
    (producing_instance c) (consuming_instance c) (requested_produced_connection_size c)
    (requested_consumed_connection_size c) (transmission_trigger_timer c)
    (inactivity_watchdog_timer c) (last_package_watchdog_timer c)
    (production_inhibit_timer c) (connection_serial_number c) (originator_vendor_id c)
    (originator_serial_number c) (connection_number c) (o_to_t_requested_packet_interval
    c) (o_to_t_network_connection_parameters c) (t_to_o_requested_packet_interval c)
    (t_to_o_network_connection_parameters c) (sequence_count_producing c)
    (sequence_count_consuming c) (eip_level_sequence_count_producing c)
    (eip_level_sequence_count_consuming c) (eip_first_level_sequence_count_received c)
    (correct_originator_to_target_size c) (correct_target_to_originator_size c)
    (socket_producing c) (socket_consuming c) (remote_address c) (originator_address c)
    (associated_encapsulation_session c) (current_state_handler c)
    (connection_close_function c) (connection_timeout_function c)
    (connection_send_data_function c) (connection_receive_data_function c)
    (last_reply_sent c) (is_large_forward_open c).
Definition set_expected_packet_rate (v : Z) (c : CipConnectionObject)
  : CipConnectionObject :=
  mkConnection (state c) (instance_type c) (transport_class_trigger c)
    (produced_connection_size c) (consumed_connection_size c) v
    (cip_produced_connection_id c) (cip_consumed_connection_id c)
    (watchdog_timeout_action c) (produced_connection_path_length c) (produced_path c)
    (consumed_connection_path_length c) (consumed_path c) (production_inhibit_time c)
    (connection_timeout_multiplier c) (electronic_key c) (configuration_path c)
    (producing_instance c) (consuming_instance c) (requested_produced_connection_size c)
    (requested_consumed_connection_size c) (transmission_trigger_timer c)
    (inactivity_watchdog_timer c) (last_package_watchdog_timer c)
    (production_inhibit_timer c) (connection_serial_number c) (originator_vendor_id c)
    (originator_serial_number c) (connection_number c) (o_to_t_requested_packet_interval
    c) (o_to_t_network_connection_parameters c) (t_to_o_requested_packet_interval c)
    (t_to_o_network_connection_parameters c) (sequence_count_producing c)
    (sequence_count_consuming c) (eip_level_sequence_count_producing c)
    (eip_level_sequence_count_consuming c) (eip_first_level_sequence_count_received c)
    (correct_originator_to_target_size c) (correct_target_to_originator_size c)
    (socket_producing c) (socket_consuming c) (remote_address c) (originator_address c)
    (associated_encapsulation_session c) (current_state_handler c)
    (connection_close_function c) (connection_timeout_function c)
    (connection_send_data_function c) (connection_receive_data_function c)
    (last_reply_sent c) (is_large_forward_open c).
Definition set_cip_produced_connection_id (v : Z) (c : CipConnectionObject)
  : CipConnectionObject :=
  mkConnection (state c) (instance_type c) (transport_class_trigger c)
    (produced_connection_size c) (consumed_connection_size c) (expected_packet_rate c) v
    (cip_consumed_connection_id c) (watchdog_timeout_action c)
    (produced_connection_path_length c) (produced_path c)
    (consumed_connection_path_length c) (consumed_path c) (production_inhibit_time c)
    (connection_timeout_multiplier c) (electronic_key c) (configuration_path c)
    (producing_instance c) (consuming_instance c) (requested_produced_connection_size c)
    (requested_consumed_connection_size c) (transmission_trigger_timer c)
    (inactivity_watchdog_timer c) (last_package_watchdog_timer c)
    (production_inhibit_timer c) (connection_serial_number c) (originator_vendor_id c)
    (originator_serial_number c) (connection_number c) (o_to_t_requested_packet_interval
    c) (o_to_t_network_connection_parameters c) (t_to_o_requested_packet_interval c)
    (t_to_o_network_connection_parameters c) (sequence_count_producing c)
    (sequence_count_consuming c) (eip_level_sequence_count_producing c)
    (eip_level_sequence_count_consuming c) (eip_first_level_sequence_count_received c)
    (correct_originator_to_target_size c) (correct_target_to_originator_size c)
    (socket_producing c) (socket_consuming c) (remote_address c) (originator_address c)
    (associated_encapsulation_session c) (current_state_handler c)
    (connection_close_function c) (connection_timeout_function c)
    (connection_send_data_function c) (connection_receive_data_function c)
    (last_reply_sent c) (is_large_forward_open c).
Definition set_cip_consumed_connection_id (v : Z) (c : CipConnectionObject)
  : CipConnectionObject :=
  mkConnection (state c) (instance_type c) (transport_class_trigger c)
    (produced_connection_size c) (consumed_connection_size c) (expected_packet_rate c)
    (cip_produced_connection_id c) v (watchdog_timeout_action c)
    (produced_connection_path_length c) (produced_path c)
    (consumed_connection_path_length c) (consumed_path c) (production_inhibit_time c)
    (connection_timeout_multiplier c) (electronic_key c) (configuration_path c)
    (producing_instance c) (consuming_instance c) (requested_produced_connection_size c)
    (requested_consumed_connection_size c) (transmission_trigger_timer c)
    (inactivity_watchdog_timer c) (last_package_watchdog_timer c)
    (production_inhibit_timer c) (connection_serial_number c) (originator_vendor_id c)
    (originator_serial_number c) (connection_number c) (o_to_t_requested_packet_interval
    c) (o_to_t_network_connection_parameters c) (t_to_o_requested_packet_interval c)
    (t_to_o_network_connection_parameters c) (sequence_count_producing c)
    (sequence_count_consuming c) (eip_level_sequence_count_producing c)
    (eip_level_sequence_count_consuming c) (eip_first_level_sequence_count_received c)
    (correct_originator_to_target_size c) (correct_target_to_originator_size c)
    (socket_producing c) (socket_consuming c) (remote_address c) (originator_address c)
    (associated_encapsulation_session c) (current_state_handler c)
    (connection_close_function c) (connection_timeout_function c)
    (connection_send_data_function c) (connection_receive_data_function c)
    (last_reply_sent c) (is_large_forward_open c).
Definition set_watchdog_timeout_action (v : Z) (c : CipConnectionObject)
  : CipConnectionObject :=
  mkConnection (state c) (instance_type c) (transport_class_trigger c)
    (produced_connection_size c) (consumed_connection_size c) (expected_packet_rate c)
    (cip_produced_connection_id c) (cip_consumed_connection_id c) v
    (produced_connection_path_length c) (produced_path c)
    (consumed_connection_path_length c) (consumed_path c) (production_inhibit_time c)
    (connection_timeout_multiplier c) (electronic_key c) (configuration_path c)
    (producing_instance c) (consuming_instance c) (requested_produced_connection_size c)
    (requested_consumed_connection_size c) (transmission_trigger_timer c)
    (inactivity_watchdog_timer c) (last_package_watchdog_timer c)
    (production_inhibit_timer c) (connection_serial_number c) (originator_vendor_id c)
    (originator_serial_number c) (connection_number c) (o_to_t_requested_packet_interval
    c) (o_to_t_network_connection_parameters c) (t_to_o_requested_packet_interval c)
    (t_to_o_network_connection_parameters c) (sequence_count_producing c)
    (sequence_count_consuming c) (eip_level_sequence_count_producing c)
    (eip_level_sequence_count_consuming c) (eip_first_level_sequence_count_received c)
    (correct_originator_to_target_size c) (correct_target_to_originator_size c)
    (socket_producing c) (socket_consuming c) (remote_address c) (originator_address c)
    (associated_encapsulation_session c) (current_state_handler c)
    (connection_close_function c) (connection_timeout_function c)
    (connection_send_data_function c) (connection_receive_data_function c)
    (last_reply_sent c) (is_large_forward_open c).
Definition set_produced_connection_path_length (v : Z) (c : CipConnectionObject)
  : CipConnectionObject :=
  mkConnection (state c) (instance_type c) (transport_class_trigger c)
    (produced_connection_size c) (consumed_connection_size c) (expected_packet_rate c)
    (cip_produced_connection_id c) (cip_consumed_connection_id c)
    (watchdog_timeout_action c) v (produced_path c) (consumed_connection_path_length c)
    (consumed_path c) (production_inhibit_time c) (connection_timeout_multiplier c)
    (electronic_key c) (configuration_path c) (producing_instance c) (consuming_instance
    c) (requested_produced_connection_size c) (requested_consumed_connection_size c)
    (transmission_trigger_timer c) (inactivity_watchdog_timer c)
    (last_package_watchdog_timer c) (production_inhibit_timer c)
    (connection_serial_number c) (originator_vendor_id c) (originator_serial_number c)
    (connection_number c) (o_to_t_requested_packet_interval c)
    (o_to_t_network_connection_parameters c) (t_to_o_requested_packet_interval c)
    (t_to_o_network_connection_parameters c) (sequence_count_producing c)
    (sequence_count_consuming c) (eip_level_sequence_count_producing c)
    (eip_level_sequence_count_consuming c) (eip_first_level_sequence_count_received c)
    (correct_originator_to_target_size c) (correct_target_to_originator_size c)
    (socket_producing c) (socket_consuming c) (remote_address c) (originator_address c)
    (associated_encapsulation_session c) (current_state_handler c)
    (connection_close_function c) (connection_timeout_function c)
    (connection_send_data_function c) (connection_receive_data_function c)
    (last_reply_sent c) (is_large_forward_open c).
Definition set_consumed_connection_path_length (v : Z) (c : CipConnectionObject)
  : CipConnectionObject :=
  mkConnection (state c) (instance_type c) (transport_class_trigger c)
    (produced_connection_size c) (consumed_connection_size c) (expected_packet_rate c)
    (cip_produced_connection_id c) (cip_consumed_connection_id c)
    (watchdog_timeout_action c) (produced_connection_path_length c) (produced_path c) v
    (consumed_path c) (production_inhibit_time c) (connection_timeout_multiplier c)
    (electronic_key c) (configuration_path c) (producing_instance c) (consuming_instance
    c) (requested_produced_connection_size c) (requested_consumed_connection_size c)
    (transmission_trigger_timer c) (inactivity_watchdog_timer c)
    (last_package_watchdog_timer c) (production_inhibit_timer c)
    (connection_serial_number c) (originator_vendor_id c) (originator_serial_number c)
    (connection_number c) (o_to_t_requested_packet_interval c)
    (o_to_t_network_connection_parameters c) (t_to_o_requested_packet_interval c)
    (t_to_o_network_connection_parameters c) (sequence_count_producing c)
    (sequence_count_consuming c) (eip_level_sequence_count_producing c)
    (eip_level_sequence_count_consuming c) (eip_first_level_sequence_count_received c)
    (correct_originator_to_target_size c) (correct_target_to_originator_size c)
    (socket_producing c) (socket_consuming c) (remote_address c) (originator_address c)
    (associated_encapsulation_session c) (current_state_handler c)
    (connection_close_function c) (connection_timeout_function c)
    (connection_send_data_function c) (connection_receive_data_function c)
    (last_reply_sent c) (is_large_forward_open c).
Definition set_production_inhibit_time (v : Z) (c : CipConnectionObject)
  : CipConnectionObject :=
  mkConnection (state c) (instance_type c) (transport_class_trigger c)
    (produced_connection_size c) (consumed_connection_size c) (expected_packet_rate c)
    (cip_produced_connection_id c) (cip_consumed_connection_id c)
    (watchdog_timeout_action c) (produced_connection_path_length c) (produced_path c)
    (consumed_connection_path_length c) (consumed_path c) v
    (connection_timeout_multiplier c) (electronic_key c) (configuration_path c)
    (producing_instance c) (consuming_instance c) (requested_produced_connection_size c)
    (requested_consumed_connection_size c) (transmission_trigger_timer c)
    (inactivity_watchdog_timer c) (last_package_watchdog_timer c)
    (production_inhibit_timer c) (connection_serial_number c) (originator_vendor_id c)
    (originator_serial_number c) (connection_number c) (o_to_t_requested_packet_interval
    c) (o_to_t_network_connection_parameters c) (t_to_o_requested_packet_interval c)
    (t_to_o_network_connection_parameters c) (sequence_count_producing c)
    (sequence_count_consuming c) (eip_level_sequence_count_producing c)
    (eip_level_sequence_count_consuming c) (eip_first_level_sequence_count_received c)
    (correct_originator_to_target_size c) (correct_target_to_originator_size c)
    (socket_producing c) (socket_consuming c) (remote_address c) (originator_address c)
    (associated_encapsulation_session c) (current_state_handler c)
    (connection_close_function c) (connection_timeout_function c)
    (connection_send_data_function c) (connection_receive_data_function c)
    (last_reply_sent c) (is_large_forward_open c).
Definition set_connection_timeout_multiplier (v : Z) (c : CipConnectionObject)
  : CipConnectionObject :=
  mkConnection (state c) (instance_type c) (transport_class_trigger c)
    (produced_connection_size c) (consumed_connection_size c) (expected_packet_rate c)
    (cip_produced_connection_id c) (cip_consumed_connection_id c)
    (watchdog_timeout_action c) (produced_connection_path_length c) (produced_path c)
    (consumed_connection_path_length c) (consumed_path c) (production_inhibit_time c) v
    (electronic_key c) (configuration_path c) (producing_instance c) (consuming_instance
    c) (requested_produced_connection_size c) (requested_consumed_connection_size c)
    (transmission_trigger_timer c) (inactivity_watchdog_timer c)
    (last_package_watchdog_timer c) (production_inhibit_timer c)
    (connection_serial_number c) (originator_vendor_id c) (originator_serial_number c)
    (connection_number c) (o_to_t_requested_packet_interval c)
    (o_to_t_network_connection_parameters c) (t_to_o_requested_packet_interval c)
    (t_to_o_network_connection_parameters c) (sequence_count_producing c)
    (sequence_count_consuming c) (eip_level_sequence_count_producing c)
    (eip_level_sequence_count_consuming c) (eip_first_level_sequence_count_received c)
    (correct_originator_to_target_size c) (correct_target_to_originator_size c)
    (socket_producing c) (socket_consuming c) (remote_address c) (originator_address c)
    (associated_encapsulation_session c) (current_state_handler c)
    (connection_close_function c) (connection_timeout_function c)
    (connection_send_data_function c) (connection_receive_data_function c)
    (last_reply_sent c) (is_large_forward_open c).
Definition set_inactivity_watchdog_timer (v : Z) (c : CipConnectionObject)
  : CipConnectionObject :=
  mkConnection (state c) (instance_type c) (transport_class_trigger c)
    (produced_connection_size c) (consumed_connection_size c) (expected_packet_rate c)
    (cip_produced_connection_id c) (cip_consumed_connection_id c)
    (watchdog_timeout_action c) (produced_connection_path_length c) (produced_path c)
    (consumed_connection_path_length c) (consumed_path c) (production_inhibit_time c)
    (connection_timeout_multiplier c) (electronic_key c) (configuration_path c)
    (producing_instance c) (consuming_instance c) (requested_produced_connection_size c)
    (requested_consumed_connection_size c) (transmission_trigger_timer c) v
    (last_package_watchdog_timer c) (production_inhibit_timer c)
    (connection_serial_number c) (originator_vendor_id c) (originator_serial_number c)
    (connection_number c) (o_to_t_requested_packet_interval c)
    (o_to_t_network_connection_parameters c) (t_to_o_requested_packet_interval c)
    (t_to_o_network_connection_parameters c) (sequence_count_producing c)
    (sequence_count_consuming c) (eip_level_sequence_count_producing c)
    (eip_level_sequence_count_consuming c) (eip_first_level_sequence_count_received c)
    (correct_originator_to_target_size c) (correct_target_to_originator_size c)
    (socket_producing c) (socket_consuming c) (remote_address c) (originator_address c)
    (associated_encapsulation_session c) (current_state_handler c)
    (connection_close_function c) (connection_timeout_function c)
    (connection_send_data_function c) (connection_receive_data_function c)
    (last_reply_sent c) (is_large_forward_open c).
Definition set_last_package_watchdog_timer (v : Z) (c : CipConnectionObject)
  : CipConnectionObject :=
  mkConnection (state c) (instance_type c) (transport_class_trigger c)
    (produced_connection_size c) (consumed_connection_size c) (expected_packet_rate c)
    (cip_produced_connection_id c) (cip_consumed_connection_id c)
    (watchdog_timeout_action c) (produced_connection_path_length c) (produced_path c)
    (consumed_connection_path_length c) (consumed_path c) (production_inhibit_time c)
    (connection_timeout_multiplier c) (electronic_key c) (configuration_path c)
    (producing_instance c) (consuming_instance c) (requested_produced_connection_size c)
    (requested_consumed_connection_size c) (transmission_trigger_timer c)
    (inactivity_watchdog_timer c) v (production_inhibit_timer c)
    (connection_serial_number c) (originator_vendor_id c) (originator_serial_number c)
    (connection_number c) (o_to_t_requested_packet_interval c)
    (o_to_t_network_connection_parameters c) (t_to_o_requested_packet_interval c)
    (t_to_o_network_connection_parameters c) (sequence_count_producing c)
    (sequence_count_consuming c) (eip_level_sequence_count_producing c)
    (eip_level_sequence_count_consuming c) (eip_first_level_sequence_count_received c)
    (correct_originator_to_target_size c) (correct_target_to_originator_size c)
    (socket_producing c) (socket_consuming c) (remote_address c) (originator_address c)
    (associated_encapsulation_session c) (current_state_handler c)
    (connection_close_function c) (connection_timeout_function c)
    (connection_send_data_function c) (connection_receive_data_function c)
    (last_reply_sent c) (is_large_forward_open c).
Definition set_production_inhibit_timer (v : Z) (c : CipConnectionObject)
  : CipConnectionObject :=
  mkConnection (state c) (instance_type c) (transport_class_trigger c)
    (produced_connection_size c) (consumed_connection_size c) (expected_packet_rate c)
    (cip_produced_connection_id c) (cip_consumed_connection_id c)
    (watchdog_timeout_action c) (produced_connection_path_length c) (produced_path c)
    (consumed_connection_path_length c) (consumed_path c) (production_inhibit_time c)
    (connection_timeout_multiplier c) (electronic_key c) (configuration_path c)
    (producing_instance c) (consuming_instance c) (requested_produced_connection_size c)
    (requested_consumed_connection_size c) (transmission_trigger_timer c)
    (inactivity_watchdog_timer c) (last_package_watchdog_timer c) v
    (connection_serial_number c) (originator_vendor_id c) (originator_serial_number c)
    (connection_number c) (o_to_t_requested_packet_interval c)
    (o_to_t_network_connection_parameters c) (t_to_o_requested_packet_interval c)
    (t_to_o_network_connection_parameters c) (sequence_count_producing c)
    (sequence_count_consuming c) (eip_level_sequence_count_producing c)
    (eip_level_sequence_count_consuming c) (eip_first_level_sequence_count_received c)
    (correct_originator_to_target_size c) (correct_target_to_originator_size c)
    (socket_producing c) (socket_consuming c) (remote_address c) (originator_address c)
    (associated_encapsulation_session c) (current_state_handler c)
    (connection_close_function c) (connection_timeout_function c)
    (connection_send_data_function c) (connection_receive_data_function c)
    (last_reply_sent c) (is_large_forward_open c).
Definition set_transmission_trigger_timer (v : Z) (c : CipConnectionObject)
  : CipConnectionObject :=
  mkConnection (state c) (instance_type c) (transport_class_trigger c)
    (produced_connection_size c) (consumed_connection_size c) (expected_packet_rate c)
    (cip_produced_connection_id c) (cip_consumed_connection_id c)
    (watchdog_timeout_action c) (produced_connection_path_length c) (produced_path c)
    (consumed_connection_path_length c) (consumed_path c) (production_inhibit_time c)
    (connection_timeout_multiplier c) (electronic_key c) (configuration_path c)
    (producing_instance c) (consuming_instance c) (requested_produced_connection_size c)
    (requested_consumed_connection_size c) v (inactivity_watchdog_timer c)
    (last_package_watchdog_timer c) (production_inhibit_timer c)
    (connection_serial_number c) (originator_vendor_id c) (originator_serial_number c)
    (connection_number c) (o_to_t_requested_packet_interval c)
    (o_to_t_network_connection_parameters c) (t_to_o_requested_packet_interval c)
    (t_to_o_network_connection_parameters c) (sequence_count_producing c)
    (sequence_count_consuming c) (eip_level_sequence_count_producing c)
    (eip_level_sequence_count_consuming c) (eip_first_level_sequence_count_received c)
    (correct_originator_to_target_size c) (correct_target_to_originator_size c)
    (socket_producing c) (socket_consuming c) (remote_address c) (originator_address c)
    (associated_encapsulation_session c) (current_state_handler c)
    (connection_close_function c) (connection_timeout_function c)
    (connection_send_data_function c) (connection_receive_data_function c)
    (last_reply_sent c) (is_large_forward_open c).
Definition set_connection_serial_number (v : Z) (c : CipConnectionObject)
  : CipConnectionObject :=
  mkConnection (state c) (instance_type c) (transport_class_trigger c)
    (produced_connection_size c) (consumed_connection_size c) (expected_packet_rate c)
    (cip_produced_connection_id c) (cip_consumed_connection_id c)
    (watchdog_timeout_action c) (produced_connection_path_length c) (produced_path c)
    (consumed_connection_path_length c) (consumed_path c) (production_inhibit_time c)
    (connection_timeout_multiplier c) (electronic_key c) (configuration_path c)
    (producing_instance c) (consuming_instance c) (requested_produced_connection_size c)
    (requested_consumed_connection_size c) (transmission_trigger_timer c)
    (inactivity_watchdog_timer c) (last_package_watchdog_timer c)
    (production_inhibit_timer c) v (originator_vendor_id c) (originator_serial_number c)
    (connection_number c) (o_to_t_requested_packet_interval c)
    (o_to_t_network_connection_parameters c) (t_to_o_requested_packet_interval c)
    (t_to_o_network_connection_parameters c) (sequence_count_producing c)
    (sequence_count_consuming c) (eip_level_sequence_count_producing c)
    (eip_level_sequence_count_consuming c) (eip_first_level_sequence_count_received c)
    (correct_originator_to_target_size c) (correct_target_to_originator_size c)
    (socket_producing c) (socket_consuming c) (remote_address c) (originator_address c)
    (associated_encapsulation_session c) (current_state_handler c)
    (connection_close_function c) (connection_timeout_function c)
    (connection_send_data_function c) (connection_receive_data_function c)
    (last_reply_sent c) (is_large_forward_open c).
Definition set_originator_vendor_id (v : Z) (c : CipConnectionObject)
  : CipConnectionObject :=
  mkConnection (state c) (instance_type c) (transport_class_trigger c)
    (produced_connection_size c) (consumed_connection_size c) (expected_packet_rate c)
    (cip_produced_connection_id c) (cip_consumed_connection_id c)
    (watchdog_timeout_action c) (produced_connection_path_length c) (produced_path c)
    (consumed_connection_path_length c) (consumed_path c) (production_inhibit_time c)
    (connection_timeout_multiplier c) (electronic_key c) (configuration_path c)
    (producing_instance c) (consuming_instance c) (requested_produced_connection_size c)
    (requested_consumed_connection_size c) (transmission_trigger_timer c)
    (inactivity_watchdog_timer c) (last_package_watchdog_timer c)
    (production_inhibit_timer c) (connection_serial_number c) v
    (originator_serial_number c) (connection_number c) (o_to_t_requested_packet_interval
    c) (o_to_t_network_connection_parameters c) (t_to_o_requested_packet_interval c)
    (t_to_o_network_connection_parameters c) (sequence_count_producing c)
    (sequence_count_consuming c) (eip_level_sequence_count_producing c)
    (eip_level_sequence_count_consuming c) (eip_first_level_sequence_count_received c)
    (correct_originator_to_target_size c) (correct_target_to_originator_size c)
    (socket_producing c) (socket_consuming c) (remote_address c) (originator_address c)
    (associated_encapsulation_session c) (current_state_handler c)
    (connection_close_function c) (connection_timeout_function c)
    (connection_send_data_function c) (connection_receive_data_function c)
    (last_reply_sent c) (is_large_forward_open c).
Definition set_originator_serial_number (v : Z) (c : CipConnectionObject)
  : CipConnectionObject :=
  mkConnection (state c) (instance_type c) (transport_class_trigger c)
    (produced_connection_size c) (consumed_connection_size c) (expected_packet_rate c)
    (cip_produced_connection_id c) (cip_consumed_connection_id c)
    (watchdog_timeout_action c) (produced_connection_path_length c) (produced_path c)
    (consumed_connection_path_length c) (consumed_path c) (production_inhibit_time c)
    (connection_timeout_multiplier c) (electronic_key c) (configuration_path c)
    (producing_instance c) (consuming_instance c) (requested_produced_connection_size c)
    (requested_consumed_connection_size c) (transmission_trigger_timer c)
    (inactivity_watchdog_timer c) (last_package_watchdog_timer c)
    (production_inhibit_timer c) (connection_serial_number c) (originator_vendor_id c) v
    (connection_number c) (o_to_t_requested_packet_interval c)
    (o_to_t_network_connection_parameters c) (t_to_o_requested_packet_interval c)
    (t_to_o_network_connection_parameters c) (sequence_count_producing c)
    (sequence_count_consuming c) (eip_level_sequence_count_producing c)
    (eip_level_sequence_count_consuming c) (eip_first_level_sequence_count_received c)
    (correct_originator_to_target_size c) (correct_target_to_originator_size c)
    (socket_producing c) (socket_consuming c) (remote_address c) (originator_address c)
    (associated_encapsulation_session c) (current_state_handler c)
    (connection_close_function c) (connection_timeout_function c)
    (connection_send_data_function c) (connection_receive_data_function c)
    (last_reply_sent c) (is_large_forward_open c).
Definition set_connection_number (v : Z) (c : CipConnectionObject)
  : CipConnectionObject :=
  mkConnection (state c) (instance_type c) (transport_class_trigger c)
    (produced_connection_size c) (consumed_connection_size c) (expected_packet_rate c)
    (cip_produced_connection_id c) (cip_consumed_connection_id c)
    (watchdog_timeout_action c) (produced_connection_path_length c) (produced_path c)
    (consumed_connection_path_length c) (consumed_path c) (production_inhibit_time c)
    (connection_timeout_multiplier c) (electronic_key c) (configuration_path c)
    (producing_instance c) (consuming_instance c) (requested_produced_connection_size c)
    (requested_consumed_connection_size c) (transmission_trigger_timer c)
    (inactivity_watchdog_timer c) (last_package_watchdog_timer c)
    (production_inhibit_timer c) (connection_serial_number c) (originator_vendor_id c)
    (originator_serial_number c) v (o_to_t_requested_packet_interval c)
    (o_to_t_network_connection_parameters c) (t_to_o_requested_packet_interval c)
    (t_to_o_network_connection_parameters c) (sequence_count_producing c)
    (sequence_count_consuming c) (eip_level_sequence_count_producing c)
    (eip_level_sequence_count_consuming c) (eip_first_level_sequence_count_received c)
    (correct_originator_to_target_size c) (correct_target_to_originator_size c)
    (socket_producing c) (socket_consuming c) (remote_address c) (originator_address c)
    (associated_encapsulation_session c) (current_state_handler c)
    (connection_close_function c) (connection_timeout_function c)
    (connection_send_data_function c) (connection_receive_data_function c)
    (last_reply_sent c) (is_large_forward_open c).
Definition set_o_to_t_requested_packet_interval (v : Z) (c : CipConnectionObject)
  : CipConnectionObject :=
  mkConnection (state c) (instance_type c) (transport_class_trigger c)
    (produced_connection_size c) (consumed_connection_size c) (expected_packet_rate c)
    (cip_produced_connection_id c) (cip_consumed_connection_id c)
    (watchdog_timeout_action c) (produced_connection_path_length c) (produced_path c)
    (consumed_connection_path_length c) (consumed_path c) (production_inhibit_time c)
    (connection_timeout_multiplier c) (electronic_key c) (configuration_path c)
    (producing_instance c) (consuming_instance c) (requested_produced_connection_size c)
    (requested_consumed_connection_size c) (transmission_trigger_timer c)
    (inactivity_watchdog_timer c) (last_package_watchdog_timer c)
    (production_inhibit_timer c) (connection_serial_number c) (originator_vendor_id c)
    (originator_serial_number c) (connection_number c) v
    (o_to_t_network_connection_parameters c) (t_to_o_requested_packet_interval c)
    (t_to_o_network_connection_parameters c) (sequence_count_producing c)
    (sequence_count_consuming c) (eip_level_sequence_count_producing c)
    (eip_level_sequence_count_consuming c) (eip_first_level_sequence_count_received c)
    (correct_originator_to_target_size c) (correct_target_to_originator_size c)
    (socket_producing c) (socket_consuming c) (remote_address c) (originator_address c)
    (associated_encapsulation_session c) (current_state_handler c)
    (connection_close_function c) (connection_timeout_function c)
    (connection_send_data_function c) (connection_receive_data_function c)
    (last_reply_sent c) (is_large_forward_open c).
Definition set_o_to_t_network_connection_parameters (v : Z) (c : CipConnectionObject)
  : CipConnectionObject :=
  mkConnection (state c) (instance_type c) (transport_class_trigger c)
    (produced_connection_size c) (consumed_connection_size c) (expected_packet_rate c)
    (cip_produced_connection_id c) (cip_consumed_connection_id c)
    (watchdog_timeout_action c) (produced_connection_path_length c) (produced_path c)
    (consumed_connection_path_length c) (consumed_path c) (production_inhibit_time c)
    (connection_timeout_multiplier c) (electronic_key c) (configuration_path c)
    (producing_instance c) (consuming_instance c) (requested_produced_connection_size c)
    (requested_consumed_connection_size c) (transmission_trigger_timer c)
    (inactivity_watchdog_timer c) (last_package_watchdog_timer c)
    (production_inhibit_timer c) (connection_serial_number c) (originator_vendor_id c)
    (originator_serial_number c) (connection_number c) (o_to_t_requested_packet_interval
    c) v (t_to_o_requested_packet_interval c) (t_to_o_network_connection_parameters c)
    (sequence_count_producing c) (sequence_count_consuming c)
    (eip_level_sequence_count_producing c) (eip_level_sequence_count_consuming c)
    (eip_first_level_sequence_count_received c) (correct_originator_to_target_size c)
    (correct_target_to_originator_size c) (socket_producing c) (socket_consuming c)
    (remote_address c) (originator_address c) (associated_encapsulation_session c)
    (current_state_handler c) (connection_close_function c) (connection_timeout_function
    c) (connection_send_data_function c) (connection_receive_data_function c)
    (last_reply_sent c) (is_large_forward_open c).
Definition set_t_to_o_requested_packet_interval (v : Z) (c : CipConnectionObject)
  : CipConnectionObject :=
  mkConnection (state c) (instance_type c) (transport_class_trigger c)
    (produced_connection_size c) (consumed_connection_size c) (expected_packet_rate c)
    (cip_produced_connection_id c) (cip_consumed_connection_id c)
    (watchdog_timeout_action c) (produced_connection_path_length c) (produced_path c)
    (consumed_connection_path_length c) (consumed_path c) (production_inhibit_time c)
    (connection_timeout_multiplier c) (electronic_key c) (configuration_path c)
    (producing_instance c) (consuming_instance c) (requested_produced_connection_size c)
    (requested_consumed_connection_size c) (transmission_trigger_timer c)
    (inactivity_watchdog_timer c) (last_package_watchdog_timer c)
    (production_inhibit_timer c) (connection_serial_number c) (originator_vendor_id c)
    (originator_serial_number c) (connection_number c) (o_to_t_requested_packet_interval
    c) (o_to_t_network_connection_parameters c) v (t_to_o_network_connection_parameters
    c) (sequence_count_producing c) (sequence_count_consuming c)
    (eip_level_sequence_count_producing c) (eip_level_sequence_count_consuming c)
    (eip_first_level_sequence_count_received c) (correct_originator_to_target_size c)
    (correct_target_to_originator_size c) (socket_producing c) (socket_consuming c)
    (remote_address c) (originator_address c) (associated_encapsulation_session c)
    (current_state_handler c) (connection_close_function c) (connection_timeout_function
    c) (connection_send_data_function c) (connection_receive_data_function c)
    (last_reply_sent c) (is_large_forward_open c).
Definition set_t_to_o_network_connection_parameters (v : Z) (c : CipConnectionObject)
  : CipConnectionObject :=
  mkConnection (state c) (instance_type c) (transport_class_trigger c)
    (produced_connection_size c) (consumed_connection_size c) (expected_packet_rate c)
    (cip_produced_connection_id c) (cip_consumed_connection_id c)
    (watchdog_timeout_action c) (produced_connection_path_length c) (produced_path c)
    (consumed_connection_path_length c) (consumed_path c) (production_inhibit_time c)
    (connection_timeout_multiplier c) (electronic_key c) (configuration_path c)
    (producing_instance c) (consuming_instance c) (requested_produced_connection_size c)
    (requested_consumed_connection_size c) (transmission_trigger_timer c)
    (inactivity_watchdog_timer c) (last_package_watchdog_timer c)
    (production_inhibit_timer c) (connection_serial_number c) (originator_vendor_id c)
    (originator_serial_number c) (connection_number c) (o_to_t_requested_packet_interval
    c) (o_to_t_network_connection_parameters c) (t_to_o_requested_packet_interval c) v
    (sequence_count_producing c) (sequence_count_consuming c)
    (eip_level_sequence_count_producing c) (eip_level_sequence_count_consuming c)
    (eip_first_level_sequence_count_received c) (correct_originator_to_target_size c)
    (correct_target_to_originator_size c) (socket_producing c) (socket_consuming c)
    (remote_address c) (originator_address c) (associated_encapsulation_session c)
    (current_state_handler c) (connection_close_function c) (connection_timeout_function
    c) (connection_send_data_function c) (connection_receive_data_function c)
    (last_reply_sent c) (is_large_forward_open c).
Definition set_sequence_count_producing (v : Z) (c : CipConnectionObject)
  : CipConnectionObject :=
  mkConnection (state c) (instance_type c) (transport_class_trigger c)
    (produced_connection_size c) (consumed_connection_size c) (expected_packet_rate c)
    (cip_produced_connection_id c) (cip_consumed_connection_id c)
    (watchdog_timeout_action c) (produced_connection_path_length c) (produced_path c)
    (consumed_connection_path_length c) (consumed_path c) (production_inhibit_time c)
    (connection_timeout_multiplier c) (electronic_key c) (configuration_path c)
    (producing_instance c) (consuming_instance c) (requested_produced_connection_size c)
    (requested_consumed_connection_size c) (transmission_trigger_timer c)
    (inactivity_watchdog_timer c) (last_package_watchdog_timer c)
    (production_inhibit_timer c) (connection_serial_number c) (originator_vendor_id c)
    (originator_serial_number c) (connection_number c) (o_to_t_requested_packet_interval
    c) (o_to_t_network_connection_parameters c) (t_to_o_requested_packet_interval c)
    (t_to_o_network_connection_parameters c) v (sequence_count_consuming c)
    (eip_level_sequence_count_producing c) (eip_level_sequence_count_consuming c)
    (eip_first_level_sequence_count_received c) (correct_originator_to_target_size c)
    (correct_target_to_originator_size c) (socket_producing c) (socket_consuming c)
    (remote_address c) (originator_address c) (associated_encapsulation_session c)
    (current_state_handler c) (connection_close_function c) (connection_timeout_function
    c) (connection_send_data_function c) (connection_receive_data_function c)
    (last_reply_sent c) (is_large_forward_open c).
Definition set_sequence_count_consuming (v : Z) (c : CipConnectionObject)
  : CipConnectionObject :=
  mkConnection (state c) (instance_type c) (transport_class_trigger c)
    (produced_connection_size c) (consumed_connection_size c) (expected_packet_rate c)
    (cip_produced_connection_id c) (cip_consumed_connection_id c)
    (watchdog_timeout_action c) (produced_connection_path_length c) (produced_path c)
    (consumed_connection_path_length c) (consumed_path c) (production_inhibit_time c)
    (connection_timeout_multiplier c) (electronic_key c) (configuration_path c)
    (producing_instance c) (consuming_instance c) (requested_produced_connection_size c)
    (requested_consumed_connection_size c) (transmission_trigger_timer c)
    (inactivity_watchdog_timer c) (last_package_watchdog_timer c)
    (production_inhibit_timer c) (connection_serial_number c) (originator_vendor_id c)
    (originator_serial_number c) (connection_number c) (o_to_t_requested_packet_interval
    c) (o_to_t_network_connection_parameters c) (t_to_o_requested_packet_interval c)
    (t_to_o_network_connection_parameters c) (sequence_count_producing c) v
    (eip_level_sequence_count_producing c) (eip_level_sequence_count_consuming c)
    (eip_first_level_sequence_count_received c) (correct_originator_to_target_size c)
    (correct_target_to_originator_size c) (socket_producing c) (socket_consuming c)
    (remote_address c) (originator_address c) (associated_encapsulation_session c)
    (current_state_handler c) (connection_close_function c) (connection_timeout_function
    c) (connection_send_data_function c) (connection_receive_data_function c)
    (last_reply_sent c) (is_large_forward_open c).
Definition set_eip_level_sequence_count_producing (v : Z) (c : CipConnectionObject)
  : CipConnectionObject :=
  mkConnection (state c) (instance_type c) (transport_class_trigger c)
    (produced_connection_size c) (consumed_connection_size c) (expected_packet_rate c)
    (cip_produced_connection_id c) (cip_consumed_connection_id c)
    (watchdog_timeout_action c) (produced_connection_path_length c) (produced_path c)
    (consumed_connection_path_length c) (consumed_path c) (production_inhibit_time c)
    (connection_timeout_multiplier c) (electronic_key c) (configuration_path c)
    (producing_instance c) (consuming_instance c) (requested_produced_connection_size c)
    (requested_consumed_connection_size c) (transmission_trigger_timer c)
    (inactivity_watchdog_timer c) (last_package_watchdog_timer c)
    (production_inhibit_timer c) (connection_serial_number c) (originator_vendor_id c)
    (originator_serial_number c) (connection_number c) (o_to_t_requested_packet_interval
    c) (o_to_t_network_connection_parameters c) (t_to_o_requested_packet_interval c)
    (t_to_o_network_connection_parameters c) (sequence_count_producing c)
    (sequence_count_consuming c) v (eip_level_sequence_count_consuming c)
    (eip_first_level_sequence_count_received c) (correct_originator_to_target_size c)
    (correct_target_to_originator_size c) (socket_producing c) (socket_consuming c)
    (remote_address c) (originator_address c) (associated_encapsulation_session c)
    (current_state_handler c) (connection_close_function c) (connection_timeout_function
    c) (connection_send_data_function c) (connection_receive_data_function c)
    (last_reply_sent c) (is_large_forward_open c).
Definition set_eip_level_sequence_count_consuming (v : Z) (c : CipConnectionObject)
  : CipConnectionObject :=
  mkConnection (state c) (instance_type c) (transport_class_trigger c)
    (produced_connection_size c) (consumed_connection_size c) (expected_packet_rate c)
    (cip_produced_connection_id c) (cip_consumed_connection_id c)
    (watchdog_timeout_action c) (produced_connection_path_length c) (produced_path c)
    (consumed_connection_path_length c) (consumed_path c) (production_inhibit_time c)
    (connection_timeout_multiplier c) (electronic_key c) (configuration_path c)
    (producing_instance c) (consuming_instance c) (requested_produced_connection_size c)
    (requested_consumed_connection_size c) (transmission_trigger_timer c)
    (inactivity_watchdog_timer c) (last_package_watchdog_timer c)
    (production_inhibit_timer c) (connection_serial_number c) (originator_vendor_id c)
    (originator_serial_number c) (connection_number c) (o_to_t_requested_packet_interval
    c) (o_to_t_network_connection_parameters c) (t_to_o_requested_packet_interval c)
    (t_to_o_network_connection_parameters c) (sequence_count_producing c)
    (sequence_count_consuming c) (eip_level_sequence_count_producing c) v
    (eip_first_level_sequence_count_received c) (correct_originator_to_target_size c)
    (correct_target_to_originator_size c) (socket_producing c) (socket_consuming c)
    (remote_address c) (originator_address c) (associated_encapsulation_session c)
    (current_state_handler c) (connection_close_function c) (connection_timeout_function
    c) (connection_send_data_function c) (connection_receive_data_function c)
    (last_reply_sent c) (is_large_forward_open c).
Definition set_eip_first_level_sequence_count_received (v : bool) (c : CipConnectionObject)
  : CipConnectionObject :=
  mkConnection (state c) (instance_type c) (transport_class_trigger c)
    (produced_connection_size c) (consumed_connection_size c) (expected_packet_rate c)
    (cip_produced_connection_id c) (cip_consumed_connection_id c)
    (watchdog_timeout_action c) (produced_connection_path_length c) (produced_path c)
    (consumed_connection_path_length c) (consumed_path c) (production_inhibit_time c)
    (connection_timeout_multiplier c) (electronic_key c) (configuration_path c)
    (producing_instance c) (consuming_instance c) (requested_produced_connection_size c)
    (requested_consumed_connection_size c) (transmission_trigger_timer c)
    (inactivity_watchdog_timer c) (last_package_watchdog_timer c)
    (production_inhibit_timer c) (connection_serial_number c) (originator_vendor_id c)
    (originator_serial_number c) (connection_number c) (o_to_t_requested_packet_interval
    c) (o_to_t_network_connection_parameters c) (t_to_o_requested_packet_interval c)
    (t_to_o_network_connection_parameters c) (sequence_count_producing c)
    (sequence_count_consuming c) (eip_level_sequence_count_producing c)
    (eip_level_sequence_count_consuming c) v (correct_originator_to_target_size c)
    (correct_target_to_originator_size c) (socket_producing c) (socket_consuming c)
    (remote_address c) (originator_address c) (associated_encapsulation_session c)
    (current_state_handler c) (connection_close_function c) (connection_timeout_function
    c) (connection_send_data_function c) (connection_receive_data_function c)
    (last_reply_sent c) (is_large_forward_open c).
Definition set_socket_producing (v : Z) (c : CipConnectionObject)
  : CipConnectionObject :=
  mkConnection (state c) (instance_type c) (transport_class_trigger c)
    (produced_connection_size c) (consumed_connection_size c) (expected_packet_rate c)
    (cip_produced_connection_id c) (cip_consumed_connection_id c)
    (watchdog_timeout_action c) (produced_connection_path_length c) (produced_path c)
    (consumed_connection_path_length c) (consumed_path c) (production_inhibit_time c)
    (connection_timeout_multiplier c) (electronic_key c) (configuration_path c)
    (producing_instance c) (consuming_instance c) (requested_produced_connection_size c)
    (requested_consumed_connection_size c) (transmission_trigger_timer c)
    (inactivity_watchdog_timer c) (last_package_watchdog_timer c)
    (production_inhibit_timer c) (connection_serial_number c) (originator_vendor_id c)
    (originator_serial_number c) (connection_number c) (o_to_t_requested_packet_interval
    c) (o_to_t_network_connection_parameters c) (t_to_o_requested_packet_interval c)
    (t_to_o_network_connection_parameters c) (sequence_count_producing c)
    (sequence_count_consuming c) (eip_level_sequence_count_producing c)
    (eip_level_sequence_count_consuming c) (eip_first_level_sequence_count_received c)
    (correct_originator_to_target_size c) (correct_target_to_originator_size c) v
    (socket_consuming c) (remote_address c) (originator_address c)
    (associated_encapsulation_session c) (current_state_handler c)
    (connection_close_function c) (connection_timeout_function c)
    (connection_send_data_function c) (connection_receive_data_function c)
    (last_reply_sent c) (is_large_forward_open c).
Definition set_socket_consuming (v : Z) (c : CipConnectionObject)
  : CipConnectionObject :=
  mkConnection (state c) (instance_type c) (transport_class_trigger c)
    (produced_connection_size c) (consumed_connection_size c) (expected_packet_rate c)
    (cip_produced_connection_id c) (cip_consumed_connection_id c)
    (watchdog_timeout_action c) (produced_connection_path_length c) (produced_path c)
    (consumed_connection_path_length c) (consumed_path c) (production_inhibit_time c)
    (connection_timeout_multiplier c) (electronic_key c) (configuration_path c)
    (producing_instance c) (consuming_instance c) (requested_produced_connection_size c)
    (requested_consumed_connection_size c) (transmission_trigger_timer c)
    (inactivity_watchdog_timer c) (last_package_watchdog_timer c)
    (production_inhibit_timer c) (connection_serial_number c) (originator_vendor_id c)
    (originator_serial_number c) (connection_number c) (o_to_t_requested_packet_interval
    c) (o_to_t_network_connection_parameters c) (t_to_o_requested_packet_interval c)
    (t_to_o_network_connection_parameters c) (sequence_count_producing c)
    (sequence_count_consuming c) (eip_level_sequence_count_producing c)
    (eip_level_sequence_count_consuming c) (eip_first_level_sequence_count_received c)
    (correct_originator_to_target_size c) (correct_target_to_originator_size c)
    (socket_producing c) v (remote_address c) (originator_address c)
    (associated_encapsulation_session c) (current_state_handler c)
    (connection_close_function c) (connection_timeout_function c)
    (connection_send_data_function c) (connection_receive_data_function c)
    (last_reply_sent c) (is_large_forward_open c).
Definition set_last_reply_sent (v : ENIPMessage) (c : CipConnectionObject)
  : CipConnectionObject :=
  mkConnection (state c) (instance_type c) (transport_class_trigger c)
    (produced_connection_size c) (consumed_connection_size c) (expected_packet_rate c)
    (cip_produced_connection_id c) (cip_consumed_connection_id c)
    (watchdog_timeout_action c) (produced_connection_path_length c) (produced_path c)
    (consumed_connection_path_length c) (consumed_path c) (production_inhibit_time c)
    (connection_timeout_multiplier c) (electronic_key c) (configuration_path c)
    (producing_instance c) (consuming_instance c) (requested_produced_connection_size c)
    (requested_consumed_connection_size c) (transmission_trigger_timer c)
    (inactivity_watchdog_timer c) (last_package_watchdog_timer c)
    (production_inhibit_timer c) (connection_serial_number c) (originator_vendor_id c)
    (originator_serial_number c) (connection_number c) (o_to_t_requested_packet_interval
    c) (o_to_t_network_connection_parameters c) (t_to_o_requested_packet_interval c)
    (t_to_o_network_connection_parameters c) (sequence_count_producing c)
    (sequence_count_consuming c) (eip_level_sequence_count_producing c)
    (eip_level_sequence_count_consuming c) (eip_first_level_sequence_count_received c)
    (correct_originator_to_target_size c) (correct_target_to_originator_size c)
    (socket_producing c) (socket_consuming c) (remote_address c) (originator_address c)
    (associated_encapsulation_session c) (current_state_handler c)
    (connection_close_function c) (connection_timeout_function c)
    (connection_send_data_function c) (connection_receive_data_function c) v
    (is_large_forward_open c).
Definition set_connection_close_function (v : option nat) (c : CipConnectionObject)
  : CipConnectionObject :=
  mkConnection (state c) (instance_type c) (transport_class_trigger c)
    (produced_connection_size c) (consumed_connection_size c) (expected_packet_rate c)
    (cip_produced_connection_id c) (cip_consumed_connection_id c)
    (watchdog_timeout_action c) (produced_connection_path_length c) (produced_path c)
    (consumed_connection_path_length c) (consumed_path c) (production_inhibit_time c)
    (connection_timeout_multiplier c) (electronic_key c) (configuration_path c)
    (producing_instance c) (consuming_instance c) (requested_produced_connection_size c)
    (requested_consumed_connection_size c) (transmission_trigger_timer c)
    (inactivity_watchdog_timer c) (last_package_watchdog_timer c)
    (production_inhibit_timer c) (connection_serial_number c) (originator_vendor_id c)
    (originator_serial_number c) (connection_number c) (o_to_t_requested_packet_interval
    c) (o_to_t_network_connection_parameters c) (t_to_o_requested_packet_interval c)
    (t_to_o_network_connection_parameters c) (sequence_count_producing c)
    (sequence_count_consuming c) (eip_level_sequence_count_producing c)
    (eip_level_sequence_count_consuming c) (eip_first_level_sequence_count_received c)
    (correct_originator_to_target_size c) (correct_target_to_originator_size c)
    (socket_producing c) (socket_consuming c) (remote_address c) (originator_address c)
    (associated_encapsulation_session c) (current_state_handler c) v
    (connection_timeout_function c) (connection_send_data_function c)
    (connection_receive_data_function c) (last_reply_sent c) (is_large_forward_open c).
Definition set_connection_timeout_function (v : option nat) (c : CipConnectionObject)
  : CipConnectionObject :=
  mkConnection (state c) (instance_type c) (transport_class_trigger c)
    (produced_connection_size c) (consumed_connection_size c) (expected_packet_rate c)
    (cip_produced_connection_id c) (cip_consumed_connection_id c)
    (watchdog_timeout_action c) (produced_connection_path_length c) (produced_path c)
    (consumed_connection_path_length c) (consumed_path c) (production_inhibit_time c)
    (connection_timeout_multiplier c) (electronic_key c) (configuration_path c)
    (producing_instance c) (consuming_instance c) (requested_produced_connection_size c)
    (requested_consumed_connection_size c) (transmission_trigger_timer c)
    (inactivity_watchdog_timer c) (last_package_watchdog_timer c)
    (production_inhibit_timer c) (connection_serial_number c) (originator_vendor_id c)
    (originator_serial_number c) (connection_number c) (o_to_t_requested_packet_interval
    c) (o_to_t_network_connection_parameters c) (t_to_o_requested_packet_interval c)
    (t_to_o_network_connection_parameters c) (sequence_count_producing c)
    (sequence_count_consuming c) (eip_level_sequence_count_producing c)
    (eip_level_sequence_count_consuming c) (eip_first_level_sequence_count_received c)
    (correct_originator_to_target_size c) (correct_target_to_originator_size c)
    (socket_producing c) (socket_consuming c) (remote_address c) (originator_address c)
    (associated_encapsulation_session c) (current_state_handler c)
    (connection_close_function c) v (connection_send_data_function c)
    (connection_receive_data_function c) (last_reply_sent c) (is_large_forward_open c).
Definition set_associated_encapsulation_session (v : Z) (c : CipConnectionObject)
  : CipConnectionObject :=
  mkConnection (state c) (instance_type c) (transport_class_trigger c)
    (produced_connection_size c) (consumed_connection_size c) (expected_packet_rate c)
    (cip_produced_connection_id c) (cip_consumed_connection_id c)
    (watchdog_timeout_action c) (produced_connection_path_length c) (produced_path c)
    (consumed_connection_path_length c) (consumed_path c) (production_inhibit_time c)
    (connection_timeout_multiplier c) (electronic_key c) (configuration_path c)
    (producing_instance c) (consuming_instance c) (requested_produced_connection_size c)
    (requested_consumed_connection_size c) (transmission_trigger_timer c)
    (inactivity_watchdog_timer c) (last_package_watchdog_timer c)
    (production_inhibit_timer c) (connection_serial_number c) (originator_vendor_id c)
    (originator_serial_number c) (connection_number c) (o_to_t_requested_packet_interval
    c) (o_to_t_network_connection_parameters c) (t_to_o_requested_packet_interval c)
    (t_to_o_network_connection_parameters c) (sequence_count_producing c)
    (sequence_count_consuming c) (eip_level_sequence_count_producing c)
    (eip_level_sequence_count_consuming c) (eip_first_level_sequence_count_received c)
    (correct_originator_to_target_size c) (correct_target_to_originator_size c)
    (socket_producing c) (socket_consuming c) (remote_address c) (originator_address c)
    v (current_state_handler c) (connection_close_function c)
    (connection_timeout_function c) (connection_send_data_function c)
    (connection_receive_data_function c) (last_reply_sent c) (is_large_forward_open c).
Definition set_produced_path (v : CipConnectionPathEpath) (c : CipConnectionObject)
  : CipConnectionObject :=
  mkConnection (state c) (instance_type c) (transport_class_trigger c)
    (produced_connection_size c) (consumed_connection_size c) (expected_packet_rate c)
    (cip_produced_connection_id c) (cip_consumed_connection_id c)
    (watchdog_timeout_action c) (produced_connection_path_length c) v
    (consumed_connection_path_length c) (consumed_path c) (production_inhibit_time c)
    (connection_timeout_multiplier c) (electronic_key c) (configuration_path c)
    (producing_instance c) (consuming_instance c) (requested_produced_connection_size c)
    (requested_consumed_connection_size c) (transmission_trigger_timer c)
    (inactivity_watchdog_timer c) (last_package_watchdog_timer c)
    (production_inhibit_timer c) (connection_serial_number c) (originator_vendor_id c)
    (originator_serial_number c) (connection_number c) (o_to_t_requested_packet_interval
    c) (o_to_t_network_connection_parameters c) (t_to_o_requested_packet_interval c)
    (t_to_o_network_connection_parameters c) (sequence_count_producing c)
    (sequence_count_consuming c) (eip_level_sequence_count_producing c)
    (eip_level_sequence_count_consuming c) (eip_first_level_sequence_count_received c)
    (correct_originator_to_target_size c) (correct_target_to_originator_size c)
    (socket_producing c) (socket_consuming c) (remote_address c) (originator_address c)
    (associated_encapsulation_session c) (current_state_handler c)
    (connection_close_function c) (connection_timeout_function c)
    (connection_send_data_function c) (connection_receive_data_function c)
    (last_reply_sent c) (is_large_forward_open c).
Definition set_consumed_path (v : CipConnectionPathEpath) (c : CipConnectionObject)
  : CipConnectionObject :=
  mkConnection (state c) (instance_type c) (transport_class_trigger c)
    (produced_connection_size c) (consumed_connection_size c) (expected_packet_rate c)
    (cip_produced_connection_id c) (cip_consumed_connection_id c)
    (watchdog_timeout_action c) (produced_connection_path_length c) (produced_path c)
    (consumed_connection_path_length c) v (production_inhibit_time c)
    (connection_timeout_multiplier c) (electronic_key c) (configuration_path c)
    (producing_instance c) (consuming_instance c) (requested_produced_connection_size c)
    (requested_consumed_connection_size c) (transmission_trigger_timer c)
    (inactivity_watchdog_timer c) (last_package_watchdog_timer c)
    (production_inhibit_timer c) (connection_serial_number c) (originator_vendor_id c)
    (originator_serial_number c) (connection_number c) (o_to_t_requested_packet_interval
    c) (o_to_t_network_connection_parameters c) (t_to_o_requested_packet_interval c)
    (t_to_o_network_connection_parameters c) (sequence_count_producing c)
    (sequence_count_consuming c) (eip_level_sequence_count_producing c)
    (eip_level_sequence_count_consuming c) (eip_first_level_sequence_count_received c)
    (correct_originator_to_target_size c) (correct_target_to_originator_size c)
    (socket_producing c) (socket_consuming c) (remote_address c) (originator_address c)
    (associated_encapsulation_session c) (current_state_handler c)
    (connection_close_function c) (connection_timeout_function c)
    (connection_send_data_function c) (connection_receive_data_function c)
    (last_reply_sent c) (is_large_forward_open c).
Definition set_configuration_path (v : CipConnectionPathEpath) (c : CipConnectionObject)
  : CipConnectionObject :=
  mkConnection (state c) (instance_type c) (transport_class_trigger c)
    (produced_connection_size c) (consumed_connection_size c) (expected_packet_rate c)
    (cip_produced_connection_id c) (cip_consumed_connection_id c)
    (watchdog_timeout_action c) (produced_connection_path_length c) (produced_path c)
    (consumed_connection_path_length c) (consumed_path c) (production_inhibit_time c)
    (connection_timeout_multiplier c) (electronic_key c) v (producing_instance c)
    (consuming_instance c) (requested_produced_connection_size c)
    (requested_consumed_connection_size c) (transmission_trigger_timer c)
    (inactivity_watchdog_timer c) (last_package_watchdog_timer c)
    (production_inhibit_timer c) (connection_serial_number c) (originator_vendor_id c)
    (originator_serial_number c) (connection_number c) (o_to_t_requested_packet_interval
    c) (o_to_t_network_connection_parameters c) (t_to_o_requested_packet_interval c)
    (t_to_o_network_connection_parameters c) (sequence_count_producing c)
    (sequence_count_consuming c) (eip_level_sequence_count_producing c)
    (eip_level_sequence_count_consuming c) (eip_first_level_sequence_count_received c)
    (correct_originator_to_target_size c) (correct_target_to_originator_size c)
    (socket_producing c) (socket_consuming c) (remote_address c) (originator_address c)
    (associated_encapsulation_session c) (current_state_handler c)
    (connection_close_function c) (connection_timeout_function c)
    (connection_send_data_function c) (connection_receive_data_function c)
    (last_reply_sent c) (is_large_forward_open c).
Definition set_electronic_key (v : CipElectronicKey) (c : CipConnectionObject)
  : CipConnectionObject :=
  mkConnection (state c) (instance_type c) (transport_class_trigger c)
    (produced_connection_size c) (consumed_connection_size c) (expected_packet_rate c)
    (cip_produced_connection_id c) (cip_consumed_connection_id c)
    (watchdog_timeout_action c) (produced_connection_path_length c) (produced_path c)
    (consumed_connection_path_length c) (consumed_path c) (production_inhibit_time c)
    (connection_timeout_multiplier c) v (configuration_path c) (producing_instance c)
    (consuming_instance c) (requested_produced_connection_size c)
    (requested_consumed_connection_size c) (transmission_trigger_timer c)
    (inactivity_watchdog_timer c) (last_package_watchdog_timer c)
    (production_inhibit_timer c) (connection_serial_number c) (originator_vendor_id c)
    (originator_serial_number c) (connection_number c) (o_to_t_requested_packet_interval
    c) (o_to_t_network_connection_parameters c) (t_to_o_requested_packet_interval c)
    (t_to_o_network_connection_parameters c) (sequence_count_producing c)
    (sequence_count_consuming c) (eip_level_sequence_count_producing c)
    (eip_level_sequence_count_consuming c) (eip_first_level_sequence_count_received c)
    (correct_originator_to_target_size c) (correct_target_to_originator_size c)
    (socket_producing c) (socket_consuming c) (remote_address c) (originator_address c)
    (associated_encapsulation_session c) (current_state_handler c)
    (connection_close_function c) (connection_timeout_function c)
    (connection_send_data_function c) (connection_receive_data_function c)
    (last_reply_sent c) (is_large_forward_open c).
Definition set_producing_instance (v : option InstancePtr) (c : CipConnectionObject)
  : CipConnectionObject :=
  mkConnection (state c) (instance_type c) (transport_class_trigger c)
    (produced_connection_size c) (consumed_connection_size c) (expected_packet_rate c)
    (cip_produced_connection_id c) (cip_consumed_connection_id c)
    (watchdog_timeout_action c) (produced_connection_path_length c) (produced_path c)
    (consumed_connection_path_length c) (consumed_path c) (production_inhibit_time c)
    (connection_timeout_multiplier c) (electronic_key c) (configuration_path c) v
    (consuming_instance c) (requested_produced_connection_size c)
    (requested_consumed_connection_size c) (transmission_trigger_timer c)
    (inactivity_watchdog_timer c) (last_package_watchdog_timer c)
    (production_inhibit_timer c) (connection_serial_number c) (originator_vendor_id c)
    (originator_serial_number c) (connection_number c) (o_to_t_requested_packet_interval
    c) (o_to_t_network_connection_parameters c) (t_to_o_requested_packet_interval c)
    (t_to_o_network_connection_parameters c) (sequence_count_producing c)
    (sequence_count_consuming c) (eip_level_sequence_count_producing c)
    (eip_level_sequence_count_consuming c) (eip_first_level_sequence_count_received c)
    (correct_originator_to_target_size c) (correct_target_to_originator_size c)
    (socket_producing c) (socket_consuming c) (remote_address c) (originator_address c)
    (associated_encapsulation_session c) (current_state_handler c)
    (connection_close_function c) (connection_timeout_function c)
    (connection_send_data_function c) (connection_receive_data_function c)
    (last_reply_sent c) (is_large_forward_open c).
Definition set_consuming_instance (v : option InstancePtr) (c : CipConnectionObject)
  : CipConnectionObject :=
  mkConnection (state c) (instance_type c) (transport_class_trigger c)
    (produced_connection_size c) (consumed_connection_size c) (expected_packet_rate c)
    (cip_produced_connection_id c) (cip_consumed_connection_id c)
    (watchdog_timeout_action c) (produced_connection_path_length c) (produced_path c)
    (consumed_connection_path_length c) (consumed_path c) (production_inhibit_time c)
    (connection_timeout_multiplier c) (electronic_key c) (configuration_path c)
    (producing_instance c) v (requested_produced_connection_size c)
    (requested_consumed_connection_size c) (transmission_trigger_timer c)
    (inactivity_watchdog_timer c) (last_package_watchdog_timer c)
    (production_inhibit_timer c) (connection_serial_number c) (originator_vendor_id c)
    (originator_serial_number c) (connection_number c) (o_to_t_requested_packet_interval
    c) (o_to_t_network_connection_parameters c) (t_to_o_requested_packet_interval c)
    (t_to_o_network_connection_parameters c) (sequence_count_producing c)
    (sequence_count_consuming c) (eip_level_sequence_count_producing c)
    (eip_level_sequence_count_consuming c) (eip_first_level_sequence_count_received c)
    (correct_originator_to_target_size c) (correct_target_to_originator_size c)
    (socket_producing c) (socket_consuming c) (remote_address c) (originator_address c)
    (associated_encapsulation_session c) (current_state_handler c)
    (connection_close_function c) (connection_timeout_function c)
    (connection_send_data_function c) (connection_receive_data_function c)
    (last_reply_sent c) (is_large_forward_open c).
Definition set_requested_produced_connection_size (v : Z) (c : CipConnectionObject)
  : CipConnectionObject :=
  mkConnection (state c) (instance_type c) (transport_class_trigger c)
    (produced_connection_size c) (consumed_connection_size c) (expected_packet_rate c)
    (cip_produced_connection_id c) (cip_consumed_connection_id c)
    (watchdog_timeout_action c) (produced_connection_path_length c) (produced_path c)
    (consumed_connection_path_length c) (consumed_path c) (production_inhibit_time c)
    (connection_timeout_multiplier c) (electronic_key c) (configuration_path c)
    (producing_instance c) (consuming_instance c) v (requested_consumed_connection_size
    c) (transmission_trigger_timer c) (inactivity_watchdog_timer c)
    (last_package_watchdog_timer c) (production_inhibit_timer c)
    (connection_serial_number c) (originator_vendor_id c) (originator_serial_number c)
    (connection_number c) (o_to_t_requested_packet_interval c)
    (o_to_t_network_connection_parameters c) (t_to_o_requested_packet_interval c)
    (t_to_o_network_connection_parameters c) (sequence_count_producing c)
    (sequence_count_consuming c) (eip_level_sequence_count_producing c)
    (eip_level_sequence_count_consuming c) (eip_first_level_sequence_count_received c)
    (correct_originator_to_target_size c) (correct_target_to_originator_size c)
    (socket_producing c) (socket_consuming c) (remote_address c) (originator_address c)
    (associated_encapsulation_session c) (current_state_handler c)
    (connection_close_function c) (connection_timeout_function c)
    (connection_send_data_function c) (connection_receive_data_function c)
    (last_reply_sent c) (is_large_forward_open c).
Definition set_requested_consumed_connection_size (v : Z) (c : CipConnectionObject)
  : CipConnectionObject :=
  mkConnection (state c) (instance_type c) (transport_class_trigger c)
    (produced_connection_size c) (consumed_connection_size c) (expected_packet_rate c)
    (cip_produced_connection_id c) (cip_consumed_connection_id c)
    (watchdog_timeout_action c) (produced_connection_path_length c) (produced_path c)
    (consumed_connection_path_length c) (consumed_path c) (production_inhibit_time c)
    (connection_timeout_multiplier c) (electronic_key c) (configuration_path c)
    (producing_instance c) (consuming_instance c) (requested_produced_connection_size c)
    v (transmission_trigger_timer c) (inactivity_watchdog_timer c)
    (last_package_watchdog_timer c) (production_inhibit_timer c)
    (connection_serial_number c) (originator_vendor_id c) (originator_serial_number c)
    (connection_number c) (o_to_t_requested_packet_interval c)
    (o_to_t_network_connection_parameters c) (t_to_o_requested_packet_interval c)
    (t_to_o_network_connection_parameters c) (sequence_count_producing c)
    (sequence_count_consuming c) (eip_level_sequence_count_producing c)
    (eip_level_sequence_count_consuming c) (eip_first_level_sequence_count_received c)
    (correct_originator_to_target_size c) (correct_target_to_originator_size c)
    (socket_producing c) (socket_consuming c) (remote_address c) (originator_address c)
    (associated_encapsulation_session c) (current_state_handler c)
    (connection_close_function c) (connection_timeout_function c)
    (connection_send_data_function c) (connection_receive_data_function c)
    (last_reply_sent c) (is_large_forward_open c).
Definition set_correct_originator_to_target_size (v : Z) (c : CipConnectionObject)
  : CipConnectionObject :=
  mkConnection (state c) (instance_type c) (transport_class_trigger c)
    (produced_connection_size c) (consumed_connection_size c) (expected_packet_rate c)
    (cip_produced_connection_id c) (cip_consumed_connection_id c)
    (watchdog_timeout_action c) (produced_connection_path_length c) (produced_path c)
    (consumed_connection_path_length c) (consumed_path c) (production_inhibit_time c)
    (connection_timeout_multiplier c) (electronic_key c) (configuration_path c)
    (producing_instance c) (consuming_instance c) (requested_produced_connection_size c)
    (requested_consumed_connection_size c) (transmission_trigger_timer c)
    (inactivity_watchdog_timer c) (last_package_watchdog_timer c)
    (production_inhibit_timer c) (connection_serial_number c) (originator_vendor_id c)
    (originator_serial_number c) (connection_number c) (o_to_t_requested_packet_interval
    c) (o_to_t_network_connection_parameters c) (t_to_o_requested_packet_interval c)
    (t_to_o_network_connection_parameters c) (sequence_count_producing c)
    (sequence_count_consuming c) (eip_level_sequence_count_producing c)
    (eip_level_sequence_count_consuming c) (eip_first_level_sequence_count_received c) v
    (correct_target_to_originator_size c) (socket_producing c) (socket_consuming c)
    (remote_address c) (originator_address c) (associated_encapsulation_session c)
    (current_state_handler c) (connection_close_function c) (connection_timeout_function
    c) (connection_send_data_function c) (connection_receive_data_function c)
    (last_reply_sent c) (is_large_forward_open c).
Definition set_correct_target_to_originator_size (v : Z) (c : CipConnectionObject)
  : CipConnectionObject :=
  mkConnection (state c) (instance_type c) (transport_class_trigger c)
    (produced_connection_size c) (consumed_connection_size c) (expected_packet_rate c)
    (cip_produced_connection_id c) (cip_consumed_connection_id c)
    (watchdog_timeout_action c) (produced_connection_path_length c) (produced_path c)
    (consumed_connection_path_length c) (consumed_path c) (production_inhibit_time c)
    (connection_timeout_multiplier c) (electronic_key c) (configuration_path c)
    (producing_instance c) (consuming_instance c) (requested_produced_connection_size c)
    (requested_consumed_connection_size c) (transmission_trigger_timer c)
    (inactivity_watchdog_timer c) (last_package_watchdog_timer c)
    (production_inhibit_timer c) (connection_serial_number c) (originator_vendor_id c)
    (originator_serial_number c) (connection_number c) (o_to_t_requested_packet_interval
    c) (o_to_t_network_connection_parameters c) (t_to_o_requested_packet_interval c)
    (t_to_o_network_connection_parameters c) (sequence_count_producing c)
    (sequence_count_consuming c) (eip_level_sequence_count_producing c)
    (eip_level_sequence_count_consuming c) (eip_first_level_sequence_count_received c)
    (correct_originator_to_target_size c) v (socket_producing c) (socket_consuming c)
    (remote_address c) (originator_address c) (associated_encapsulation_session c)
    (current_state_handler c) (connection_close_function c) (connection_timeout_function
    c) (connection_send_data_function c) (connection_receive_data_function c)
    (last_reply_sent c) (is_large_forward_open c).
Definition set_remote_address (v : SockAddr) (c : CipConnectionObject)
  : CipConnectionObject :=
  mkConnection (state c) (instance_type c) (transport_class_trigger c)
    (produced_connection_size c) (consumed_connection_size c) (expected_packet_rate c)
    (cip_produced_connection_id c) (cip_consumed_connection_id c)
    (watchdog_timeout_action c) (produced_connection_path_length c) (produced_path c)
    (consumed_connection_path_length c) (consumed_path c) (production_inhibit_time c)
    (connection_timeout_multiplier c) (electronic_key c) (configuration_path c)
    (producing_instance c) (consuming_instance c) (requested_produced_connection_size c)
    (requested_consumed_connection_size c) (transmission_trigger_timer c)
    (inactivity_watchdog_timer c) (last_package_watchdog_timer c)
    (production_inhibit_timer c) (connection_serial_number c) (originator_vendor_id c)
    (originator_serial_number c) (connection_number c) (o_to_t_requested_packet_interval
    c) (o_to_t_network_connection_parameters c) (t_to_o_requested_packet_interval c)
    (t_to_o_network_connection_parameters c) (sequence_count_producing c)
    (sequence_count_consuming c) (eip_level_sequence_count_producing c)
    (eip_level_sequence_count_consuming c) (eip_first_level_sequence_count_received c)
    (correct_originator_to_target_size c) (correct_target_to_originator_size c)
    (socket_producing c) (socket_consuming c) v (originator_address c)
    (associated_encapsulation_session c) (current_state_handler c)
    (connection_close_function c) (connection_timeout_function c)
    (connection_send_data_function c) (connection_receive_data_function c)
    (last_reply_sent c) (is_large_forward_open c).
Definition set_originator_address (v : SockAddr) (c : CipConnectionObject)
  : CipConnectionObject :=
  mkConnection (state c) (instance_type c) (transport_class_trigger c)
    (produced_connection_size c) (consumed_connection_size c) (expected_packet_rate c)
    (cip_produced_connection_id c) (cip_consumed_connection_id c)
    (watchdog_timeout_action c) (produced_connection_path_length c) (produced_path c)
    (consumed_connection_path_length c) (consumed_path c) (production_inhibit_time c)
    (connection_timeout_multiplier c) (electronic_key c) (configuration_path c)
    (producing_instance c) (consuming_instance c) (requested_produced_connection_size c)
    (requested_consumed_connection_size c) (transmission_trigger_timer c)
    (inactivity_watchdog_timer c) (last_package_watchdog_timer c)
    (production_inhibit_timer c) (connection_serial_number c) (originator_vendor_id c)
    (originator_serial_number c) (connection_number c) (o_to_t_requested_packet_interval
    c) (o_to_t_network_connection_parameters c) (t_to_o_requested_packet_interval c)
    (t_to_o_network_connection_parameters c) (sequence_count_producing c)
    (sequence_count_consuming c) (eip_level_sequence_count_producing c)
    (eip_level_sequence_count_consuming c) (eip_first_level_sequence_count_received c)
    (correct_originator_to_target_size c) (correct_target_to_originator_size c)
    (socket_producing c) (socket_consuming c) (remote_address c) v
    (associated_encapsulation_session c) (current_state_handler c)
    (connection_close_function c) (connection_timeout_function c)
    (connection_send_data_function c) (connection_receive_data_function c)
    (last_reply_sent c) (is_large_forward_open c).
Definition set_connection_send_data_function (v : option nat) (c : CipConnectionObject)
  : CipConnectionObject :=
  mkConnection (state c) (instance_type c) (transport_class_trigger c)
    (produced_connection_size c) (consumed_connection_size c) (expected_packet_rate c)
    (cip_produced_connection_id c) (cip_consumed_connection_id c)
    (watchdog_timeout_action c) (produced_connection_path_length c) (produced_path c)
    (consumed_connection_path_length c) (consumed_path c) (production_inhibit_time c)
    (connection_timeout_multiplier c) (electronic_key c) (configuration_path c)
    (producing_instance c) (consuming_instance c) (requested_produced_connection_size c)
    (requested_consumed_connection_size c) (transmission_trigger_timer c)
    (inactivity_watchdog_timer c) (last_package_watchdog_timer c)
    (production_inhibit_timer c) (connection_serial_number c) (originator_vendor_id c)
    (originator_serial_number c) (connection_number c) (o_to_t_requested_packet_interval
    c) (o_to_t_network_connection_parameters c) (t_to_o_requested_packet_interval c)
    (t_to_o_network_connection_parameters c) (sequence_count_producing c)
    (sequence_count_consuming c) (eip_level_sequence_count_producing c)
    (eip_level_sequence_count_consuming c) (eip_first_level_sequence_count_received c)
    (correct_originator_to_target_size c) (correct_target_to_originator_size c)
    (socket_producing c) (socket_consuming c) (remote_address c) (originator_address c)
    (associated_encapsulation_session c) (current_state_handler c)
    (connection_close_function c) (connection_timeout_function c) v
    (connection_receive_data_function c) (last_reply_sent c) (is_large_forward_open c).
Definition set_connection_receive_data_function (v : option nat) (c : CipConnectionObject)
  : CipConnectionObject :=
  mkConnection (state c) (instance_type c) (transport_class_trigger c)
    (produced_connection_size c) (consumed_connection_size c) (expected_packet_rate c)
    (cip_produced_connection_id c) (cip_consumed_connection_id c)
    (watchdog_timeout_action c) (produced_connection_path_length c) (produced_path c)
    (consumed_connection_path_length c) (consumed_path c) (production_inhibit_time c)
    (connection_timeout_multiplier c) (electronic_key c) (configuration_path c)
    (producing_instance c) (consuming_instance c) (requested_produced_connection_size c)
    (requested_consumed_connection_size c) (transmission_trigger_timer c)
    (inactivity_watchdog_timer c) (last_package_watchdog_timer c)
    (production_inhibit_timer c) (connection_serial_number c) (originator_vendor_id c)
    (originator_serial_number c) (connection_number c) (o_to_t_requested_packet_interval
    c) (o_to_t_network_connection_parameters c) (t_to_o_requested_packet_interval c)
    (t_to_o_network_connection_parameters c) (sequence_count_producing c)
    (sequence_count_consuming c) (eip_level_sequence_count_producing c)
    (eip_level_sequence_count_consuming c) (eip_first_level_sequence_count_received c)
    (correct_originator_to_target_size c) (correct_target_to_originator_size c)
    (socket_producing c) (socket_consuming c) (remote_address c) (originator_address c)
    (associated_encapsulation_session c) (current_state_handler c)
    (connection_close_function c) (connection_timeout_function c)
    (connection_send_data_function c) v (last_reply_sent c) (is_large_forward_open c).
Definition set_current_state_handler (v : option nat) (c : CipConnectionObject)
  : CipConnectionObject :=
  mkConnection (state c) (instance_type c) (transport_class_trigger c)
    (produced_connection_size c) (consumed_connection_size c) (expected_packet_rate c)
    (cip_produced_connection_id c) (cip_consumed_connection_id c)
    (watchdog_timeout_action c) (produced_connection_path_length c) (produced_path c)
    (consumed_connection_path_length c) (consumed_path c) (production_inhibit_time c)
    (connection_timeout_multiplier c) (electronic_key c) (configuration_path c)
    (producing_instance c) (consuming_instance c) (requested_produced_connection_size c)
    (requested_consumed_connection_size c) (transmission_trigger_timer c)
    (inactivity_watchdog_timer c) (last_package_watchdog_timer c)
    (production_inhibit_timer c) (connection_serial_number c) (originator_vendor_id c)
    (originator_serial_number c) (connection_number c) (o_to_t_requested_packet_interval
    c) (o_to_t_network_connection_parameters c) (t_to_o_requested_packet_interval c)
    (t_to_o_network_connection_parameters c) (sequence_count_producing c)
    (sequence_count_consuming c) (eip_level_sequence_count_producing c)
    (eip_level_sequence_count_consuming c) (eip_first_level_sequence_count_received c)
    (correct_originator_to_target_size c) (correct_target_to_originator_size c)
    (socket_producing c) (socket_consuming c) (remote_address c) (originator_address c)
    (associated_encapsulation_session c) v (connection_close_function c)
    (connection_timeout_function c) (connection_send_data_function c)
    (connection_receive_data_function c) (last_reply_sent c) (is_large_forward_open c).
Definition set_is_large_forward_open (v : bool) (c : CipConnectionObject)
  : CipConnectionObject :=
  mkConnection (state c) (instance_type c) (transport_class_trigger c)
    (produced_connection_size c) (consumed_connection_size c) (expected_packet_rate c)
    (cip_produced_connection_id c) (cip_consumed_connection_id c)
    (watchdog_timeout_action c) (produced_connection_path_length c) (produced_path c)
    (consumed_connection_path_length c) (consumed_path c) (production_inhibit_time c)
    (connection_timeout_multiplier c) (electronic_key c) (configuration_path c)
    (producing_instance c) (consuming_instance c) (requested_produced_connection_size c)
    (requested_consumed_connection_size c) (transmission_trigger_timer c)
    (inactivity_watchdog_timer c) (last_package_watchdog_timer c)
    (production_inhibit_timer c) (connection_serial_number c) (originator_vendor_id c)
    (originator_serial_number c) (connection_number c) (o_to_t_requested_packet_interval
    c) (o_to_t_network_connection_parameters c) (t_to_o_requested_packet_interval c)
    (t_to_o_network_connection_parameters c) (sequence_count_producing c)
    (sequence_count_consuming c) (eip_level_sequence_count_producing c)
    (eip_level_sequence_count_consuming c) (eip_first_level_sequence_count_received c)
    (correct_originator_to_target_size c) (correct_target_to_originator_size c)
    (socket_producing c) (socket_consuming c) (remote_address c) (originator_address c)
    (associated_encapsulation_session c) (current_state_handler c)
    (connection_close_function c) (connection_timeout_function c)
    (connection_send_data_function c) (connection_receive_data_function c)
    (last_reply_sent c) v.

(** The all-zero struct. *)
Definition zero_path_epath : CipConnectionPathEpath := mkPathEpath 0 0 0.
Definition zero_message : ENIPMessage :=
  mkENIPMessage (replicate (Z.to_nat PC_OPENER_ETHERNET_BUFFER_SIZE) 0) None 0.
Definition zero_connection : CipConnectionObject :=
  mkConnection 0 0 0 0 0 0 0 0 0 0 zero_path_epath 0 zero_path_epath 0 0
    (mkElectronicKey 0 None) zero_path_epath None None 0 0 0 0 0 0 0 0 0 0 0 0 0 0 0 0 0 0 false
    0 0 0 0 (mkSockAddr 0 0) (mkSockAddr 0 0) 0 None None None None None zero_message false.
