(* ===== verification/ConnObject.v ===== *)
(** * [cip/cipconnectionobject.c]: the connection object

    The accessors and timers of the connection object, the decoding of Forward
    Open requests and of the network connection parameters, and the lookup of an
    established connection. *)

From S2P Require Import Prelude EndianConv EPath CipTypes CipCodec CipClasses SocketTimer ConnRecord.
Open Scope Z_scope.

(** ** Enumerations *)

Inductive ConnectionObjectState :=
| kConnectionObjectStateNonExistent | kConnectionObjectStateConfiguring
| kConnectionObjectStateWaitingForConnectionID | kConnectionObjectStateEstablished
| kConnectionObjectStateTimedOut | kConnectionObjectStateDeferredDelete
| kConnectionObjectStateClosing | kConnectionObjectStateInvalid.

Inductive ConnectionObjectTransportClassTriggerDirection :=
| kConnectionObjectTransportClassTriggerDirectionClient
| kConnectionObjectTransportClassTriggerDirectionServer.

Inductive ConnectionObjectTransportClassTriggerProductionTrigger :=
| kConnectionObjectTransportClassTriggerProductionTriggerInvalid
| kConnectionObjectTransportClassTriggerProductionTriggerCyclic
| kConnectionObjectTransportClassTriggerProductionTriggerChangeOfState
| kConnectionObjectTransportClassTriggerProductionTriggerApplicationObject.

Inductive ConnectionObjectTransportClassTriggerTransportClass :=
| kConnectionObjectTransportClassTriggerTransportClassInvalid
| kConnectionObjectTransportClassTriggerTransportClass0
| kConnectionObjectTransportClassTriggerTransportClass1
| kConnectionObjectTransportClassTriggerTransportClass2
| kConnectionObjectTransportClassTriggerTransportClass3.

Inductive ConnectionObjectWatchdogTimeoutAction :=
| kConnectionObjectWatchdogTimeoutActionTransitionToTimedOut
| kConnectionObjectWatchdogTimeoutActionAutoDelete
| kConnectionObjectWatchdogTimeoutActionAutoReset
| kConnectionObjectWatchdogTimeoutActionDeferredDelete
| kConnectionObjectWatchdogTimeoutActionInvalid.

Inductive ConnectionObjectConnectionType :=
| kConnectionObjectConnectionTypeNull | kConnectionObjectConnectionTypeMulticast
| kConnectionObjectConnectionTypePointToPoint | kConnectionObjectConnectionTypeInvalid.

Inductive ConnectionObjectPriority :=
| kConnectionObjectPriorityLow | kConnectionObjectPriorityHigh
| kConnectionObjectPriorityScheduled | kConnectionObjectPriorityUrgent
| kConnectionObjectPriorityExplicit.

Inductive ConnectionObjectConnectionSizeType :=
| kConnectionObjectConnectionSizeTypeFixed | kConnectionObjectConnectionSizeTypeVariable.

#[export] Instance ConnectionObjectState_eqdec : EqDecision ConnectionObjectState.
Proof. solve_decision. Defined.
#[export] Instance ConnectionType_eqdec : EqDecision ConnectionObjectConnectionType.
Proof. solve_decision. Defined.

(** Instance types are stored as their enumerator values. *)
Definition kConnectionObjectInstanceTypeExplicitMessaging : Z := 0.
Definition kConnectionObjectInstanceTypeIO : Z := 1.
Definition kConnectionObjectInstanceTypeIOExclusiveOwner : Z := 2.
Definition kConnectionObjectInstanceTypeIOInputOnly : Z := 3.
Definition kConnectionObjectInstanceTypeIOListenOnly : Z := 4.
Definition kConnectionObjectInstanceTypeCipBridged : Z := 5.

(** ** State and type *)

Definition ConnectionObjectGetState (c : CipConnectionObject) : ConnectionObjectState :=
  if state c =? 0 then kConnectionObjectStateNonExistent
  else if state c =? 1 then kConnectionObjectStateConfiguring
  else if state c =? 2 then kConnectionObjectStateWaitingForConnectionID
  else if state c =? 3 then kConnectionObjectStateEstablished
  else if state c =? 4 then kConnectionObjectStateTimedOut
  else if state c =? 5 then kConnectionObjectStateDeferredDelete
  else if state c =? 6 then kConnectionObjectStateClosing
  else kConnectionObjectStateInvalid.

Definition ConnectionObjectSetState (s : ConnectionObjectState) (c : CipConnectionObject)
  : option CipConnectionObject :=
  match s with
  | kConnectionObjectStateNonExistent => Some (set_state 0 c)
  | kConnectionObjectStateConfiguring => Some (set_state 1 c)
  | kConnectionObjectStateWaitingForConnectionID => Some (set_state 2 c)
  | kConnectionObjectStateEstablished => Some (set_state 3 c)
  | kConnectionObjectStateTimedOut => Some (set_state 4 c)
  | kConnectionObjectStateDeferredDelete => Some (set_state 5 c)
  | kConnectionObjectStateClosing => Some (set_state 6 c)
  | kConnectionObjectStateInvalid => None
  end.

Definition ConnectionObjectInitializeEmpty : option CipConnectionObject :=
  c ← ConnectionObjectSetState kConnectionObjectStateNonExistent zero_connection;
  Some (set_socket_consuming kEipInvalidSocket (set_socket_producing kEipInvalidSocket c)).

Definition ConnectionObjectGetInstanceTypeForAttribute (c : CipConnectionObject) : option Z :=
  if instance_type c =? kConnectionObjectInstanceTypeExplicitMessaging then Some 0
  else if one_of (instance_type c)
       [kConnectionObjectInstanceTypeIO; kConnectionObjectInstanceTypeIOExclusiveOwner;
        kConnectionObjectInstanceTypeIOInputOnly; kConnectionObjectInstanceTypeIOListenOnly]
  then Some 1
  else if instance_type c =? kConnectionObjectInstanceTypeCipBridged then Some 2
  else None.

Definition ConnectionObjectIsTypeNonLOIOConnection (c : CipConnectionObject) : bool :=
  one_of (instance_type c)
    [kConnectionObjectInstanceTypeIO; kConnectionObjectInstanceTypeIOExclusiveOwner;
     kConnectionObjectInstanceTypeIOInputOnly].

Definition ConnectionObjectIsTypeIOConnection (c : CipConnectionObject) : bool :=
  one_of (instance_type c)
    [kConnectionObjectInstanceTypeIO; kConnectionObjectInstanceTypeIOExclusiveOwner;
     kConnectionObjectInstanceTypeIOInputOnly; kConnectionObjectInstanceTypeIOListenOnly].

(** ** Transport class and trigger *)

Definition ConnectionObjectGetTransportClassTriggerDirection (c : CipConnectionObject)
  : ConnectionObjectTransportClassTriggerDirection :=
  if transport_class_trigger c .& 0x80 =? 0x80
  then kConnectionObjectTransportClassTriggerDirectionServer
  else kConnectionObjectTransportClassTriggerDirectionClient.

Definition ConnectionObjectGetTransportClassTriggerProductionTrigger
    (c : CipConnectionObject)
  : ConnectionObjectTransportClassTriggerProductionTrigger :=
  let t := transport_class_trigger c .& 0x70 in
  if t =? 0 ≪ 4 then kConnectionObjectTransportClassTriggerProductionTriggerCyclic
  else if t =? 1 ≪ 4 then kConnectionObjectTransportClassTriggerProductionTriggerChangeOfState
  else if t =? 2 ≪ 4
  then kConnectionObjectTransportClassTriggerProductionTriggerApplicationObject
  else kConnectionObjectTransportClassTriggerProductionTriggerInvalid.

Definition ConnectionObjectGetTransportClassTriggerTransportClass (c : CipConnectionObject)
  : ConnectionObjectTransportClassTriggerTransportClass :=
  let t := transport_class_trigger c .& 0x0F in
  if t =? 0 then kConnectionObjectTransportClassTriggerTransportClass0
  else if t =? 1 then kConnectionObjectTransportClassTriggerTransportClass1
  else if t =? 2 then kConnectionObjectTransportClassTriggerTransportClass2
  else if t =? 3 then kConnectionObjectTransportClassTriggerTransportClass3
  else kConnectionObjectTransportClassTriggerTransportClassInvalid.

(** ** Packet rates *)

(** The timer tick of the POSIX port, in milliseconds. *)
Definition kOpenerTimerTickInMilliSeconds : Z := 10.

Definition ConnectionObjectGetRequestedPacketInterval (c : CipConnectionObject) : Z :=
  let t := t_to_o_requested_packet_interval c in
  let remainder_to_resolution := u32 (t mod (kOpenerTimerTickInMilliSeconds * 1000)) in
  if 0 =? remainder_to_resolution then u16 (t / 1000)
  else u16 (u32 (t / 1000 - remainder_to_resolution / 1000)).

Definition ConnectionObjectSetExpectedPacketRate (c : CipConnectionObject)
  : CipConnectionObject :=
  let t := t_to_o_requested_packet_interval c in
  let remainder_to_resolution := u32 (t mod (kOpenerTimerTickInMilliSeconds * 1000)) in
  if 0 =? remainder_to_resolution then set_expected_packet_rate (u16 (t / 1000)) c
  else set_expected_packet_rate
         (u16 (u32 (t / 1000
            + u32 (u32 kOpenerTimerTickInMilliSeconds - remainder_to_resolution / 1000)))) c.

(** ** Watchdog *)

Definition ConnectionObjectGetWatchdogTimeoutAction (c : CipConnectionObject)
  : ConnectionObjectWatchdogTimeoutAction :=
  let a := watchdog_timeout_action c in
  if a =? 0 then kConnectionObjectWatchdogTimeoutActionTransitionToTimedOut
  else if a =? 1 then kConnectionObjectWatchdogTimeoutActionAutoDelete
  else if a =? 2 then kConnectionObjectWatchdogTimeoutActionAutoReset
  else if a =? 3 then kConnectionObjectWatchdogTimeoutActionDeferredDelete
  else kConnectionObjectWatchdogTimeoutActionInvalid.

(** Values other than the four actions are stored as "invalid", 4. *)
Definition ConnectionObjectSetWatchdogTimeoutAction (a : Z) (c : CipConnectionObject)
  : CipConnectionObject :=
  if a =? 0 then set_watchdog_timeout_action 0 c
  else if a =? 1 then set_watchdog_timeout_action 1 c
  else if a =? 2 then set_watchdog_timeout_action 2 c
  else if a =? 3 then set_watchdog_timeout_action 3 c
  else set_watchdog_timeout_action 4 c.

(** [uint64_t] arithmetic; a shift by 64 or more is undefined. *)
Definition ConnectionObjectCalculateRegularInactivityWatchdogTimerValue
    (c : CipConnectionObject) : option Z :=
  let shift := 2 + connection_timeout_multiplier c in
  assert! shift <? 64;
  Some (u64 ((o_to_t_requested_packet_interval c / 1000) ≪ shift)).

Definition ConnectionObjectSetInitialInactivityWatchdogTimerValue
    (c : CipConnectionObject) : option CipConnectionObject :=
  let kMinimumInitialTimeoutValue := 10000 in
  v ← ConnectionObjectCalculateRegularInactivityWatchdogTimerValue c;
  Some (set_inactivity_watchdog_timer
          (if kMinimumInitialTimeoutValue <? v then v else kMinimumInitialTimeoutValue) c).

Definition ConnectionObjectResetInactivityWatchdogTimerValue (c : CipConnectionObject)
  : option CipConnectionObject :=
  v ← ConnectionObjectCalculateRegularInactivityWatchdogTimerValue c;
  Some (set_inactivity_watchdog_timer v c).

Definition ConnectionObjectResetLastPackageInactivityTimerValue (c : CipConnectionObject)
  : option CipConnectionObject :=
  v ← ConnectionObjectCalculateRegularInactivityWatchdogTimerValue c;
  Some (set_last_package_watchdog_timer v c).

(** ** Connection numbers *)

(** [rand()] yields the successive elements of [draws]; the result comes with
    the remaining draws.  A collision restarts the search of the whole list
    recursively; the outer search then goes on behind the node that collided.
    Every recursive call takes a draw, so the number of draws is enough fuel. *)
Section Generate.
Variable numbers : list Z.

(** The loop over the rest [l] of the connection list. *)
Fixpoint search_number (generate : list Z → option (Z * list Z)) (l : list Z)
    (rand_num : Z) (draws : list Z) : option (Z * list Z) :=
  match l with
  | [] => Some (rand_num, draws)
  | n :: l =>
      if n =? rand_num then
        '(rand_num, draws) ← generate draws;
        search_number generate l rand_num draws
      else search_number generate l rand_num draws
  end.

Fixpoint generate_number (fuel : nat) (draws : list Z) : option (Z * list Z) :=
  match fuel, draws with
  | S fuel, r :: draws =>
      search_number (generate_number fuel) numbers (u16 r) draws
  | _, _ => None
  end.

Definition GenerateRandomConnectionNumber (draws : list Z) : option (Z * list Z) :=
  generate_number (length draws) draws.
End Generate.

Definition ConnectionObjectSetConnectionNumber (connection_list : list CipConnectionObject)
    (draws : list Z) (c : CipConnectionObject) : option (CipConnectionObject * list Z) :=
  '(n, draws) ← GenerateRandomConnectionNumber (connection_number <$> connection_list) draws;
  Some (set_connection_number n c, draws).

(** ** Network connection parameters

    [is_lfo] is the large-forward-open flag; the words are 32 bits wide. *)

Definition ConnectionObjectIsRedundantOwner (parameters : Z) (is_lfo : bool) : bool :=
  if is_lfo then has_flag parameters (1 ≪ 31) else has_flag parameters (1 ≪ 15).

Definition ConnectionObjectIsOToTRedundantOwner (c : CipConnectionObject) : bool :=
  ConnectionObjectIsRedundantOwner (o_to_t_network_connection_parameters c)
    (is_large_forward_open c).

Definition ConnectionObjectIsTToORedundantOwner (c : CipConnectionObject) : bool :=
  ConnectionObjectIsRedundantOwner (t_to_o_network_connection_parameters c)
    (is_large_forward_open c).

Definition ConnectionObjectGetConnectionType (parameters : Z) (is_lfo : bool)
  : ConnectionObjectConnectionType :=
  let connection_type :=
    u8 (if is_lfo then (parameters .& (3 ≪ 29)) ≫ 29 else (parameters .& (3 ≪ 13)) ≫ 13) in
  if connection_type =? 0 then kConnectionObjectConnectionTypeNull
  else if connection_type =? 1 then kConnectionObjectConnectionTypeMulticast
  else if connection_type =? 2 then kConnectionObjectConnectionTypePointToPoint
  else kConnectionObjectConnectionTypeInvalid.

Definition ConnectionObjectGetOToTConnectionType (c : CipConnectionObject) :=
  ConnectionObjectGetConnectionType (o_to_t_network_connection_parameters c)
    (is_large_forward_open c).

Definition ConnectionObjectGetTToOConnectionType (c : CipConnectionObject) :=
  ConnectionObjectGetConnectionType (t_to_o_network_connection_parameters c)
    (is_large_forward_open c).

(** The default case fails an assertion. *)
Definition ConnectionObjectGetPriority (parameters : Z) (is_lfo : bool)
  : option ConnectionObjectPriority :=
  let priority :=
    u8 (if is_lfo then (parameters .& (3 ≪ 26)) ≫ 26 else (parameters .& (3 ≪ 10)) ≫ 10) in
  if priority =? 0 then Some kConnectionObjectPriorityLow
  else if priority =? 1 then Some kConnectionObjectPriorityHigh
  else if priority =? 2 then Some kConnectionObjectPriorityScheduled
  else if priority =? 3 then Some kConnectionObjectPriorityUrgent
  else None.

Definition ConnectionObjectGetOToTPriority (c : CipConnectionObject) :=
  ConnectionObjectGetPriority (o_to_t_network_connection_parameters c)
    (is_large_forward_open c).

Definition ConnectionObjectGetTToOPriority (c : CipConnectionObject) :=
  ConnectionObjectGetPriority (t_to_o_network_connection_parameters c)
    (is_large_forward_open c).

Definition ConnectionObjectGetConnectionSizeType (parameters : Z) (is_lfo : bool)
  : ConnectionObjectConnectionSizeType :=
  let connection_size_type :=
    if is_lfo then has_flag parameters (1 ≪ 25) else has_flag parameters (1 ≪ 9) in
  if connection_size_type then kConnectionObjectConnectionSizeTypeVariable
  else kConnectionObjectConnectionSizeTypeFixed.

Definition ConnectionObjectGetOToTConnectionSizeType (c : CipConnectionObject) :=
  ConnectionObjectGetConnectionSizeType (o_to_t_network_connection_parameters c)
    (is_large_forward_open c).

Definition ConnectionObjectGetTToOConnectionSizeType (c : CipConnectionObject) :=
  ConnectionObjectGetConnectionSizeType (t_to_o_network_connection_parameters c)
    (is_large_forward_open c).

Definition ConnectionObjectGetConnectionSize (parameters : Z) (is_lfo : bool) : Z :=
  let mask := if is_lfo then 0x0000FFFF else 0x000001FF in
  parameters .& mask.

Definition ConnectionObjectGetOToTConnectionSize (c : CipConnectionObject) : Z :=
  ConnectionObjectGetConnectionSize (o_to_t_network_connection_parameters c)
    (is_large_forward_open c).

Definition ConnectionObjectGetTToOConnectionSize (c : CipConnectionObject) : Z :=
  ConnectionObjectGetConnectionSize (t_to_o_network_connection_parameters c)
    (is_large_forward_open c).

(** ** Initialisation *)

Definition get_parameters (large : bool) (message : list Z) : option (Z * list Z) :=
  if large then GetDwordFromMessage message else GetWordFromMessage message.

(** The Forward Open request fields, in wire order. *)
Definition ConnectionObjectInitializeFromMessage (connection_list : list CipConnectionObject)
    (draws : list Z) (message : list Z) (c : CipConnectionObject)
  : option (CipConnectionObject * list Z * list Z) :=
  '(_, message) ← GetByteFromMessage message;
  '(_, message) ← GetUsintFromMessage message;
  '(v, message) ← GetUdintFromMessage message;
  let c := set_cip_consumed_connection_id v c in
  '(v, message) ← GetUdintFromMessage message;
  let c := set_cip_produced_connection_id v c in
  '(v, message) ← GetUintFromMessage message;
  let c := set_connection_serial_number v c in
  '(v, message) ← GetUintFromMessage message;
  let c := set_originator_vendor_id v c in
  '(v, message) ← GetUdintFromMessage message;
  let c := set_originator_serial_number v c in
  '(c, draws) ← ConnectionObjectSetConnectionNumber connection_list draws c;
  c ← ConnectionObjectSetState kConnectionObjectStateNonExistent c;
  let c := set_sequence_count_producing 0 c in
  '(v, message) ← GetUsintFromMessage message;
  let c := set_connection_timeout_multiplier v c in
  message ← ptr_add message 3;
  '(v, message) ← GetUdintFromMessage message;
  let c := set_o_to_t_requested_packet_interval v c in
  c ← ConnectionObjectSetInitialInactivityWatchdogTimerValue c;
  '(v, message) ← get_parameters (is_large_forward_open c) message;
  let c := set_o_to_t_network_connection_parameters v c in
  '(v, message) ← GetUdintFromMessage message;
  let c := set_t_to_o_requested_packet_interval v c in
  let c := ConnectionObjectSetExpectedPacketRate c in
  '(v, message) ← get_parameters (is_large_forward_open c) message;
  let c := set_t_to_o_network_connection_parameters v c in
  '(v, message) ← GetByteFromMessage message;
  let c := set_transport_class_trigger v c in
  Some (c, message, draws).

Definition ConnectionObjectResetSequenceCounts (c : CipConnectionObject)
  : CipConnectionObject :=
  let c := set_eip_level_sequence_count_producing 0 c in
  let c := set_sequence_count_producing 0 c in
  let c := set_eip_level_sequence_count_consuming 0 c in
  let c := set_eip_first_level_sequence_count_received false c in
  set_sequence_count_consuming 0 c.

Definition ConnectionObjectResetProductionInhibitTimer (c : CipConnectionObject)
  : CipConnectionObject :=
  set_production_inhibit_timer (production_inhibit_time c) c.

(** [ids] are the successive results of the connection manager's
    [GetConnectionId]. *)
Definition ConnectionObjectGeneralConfiguration (ids : Z * Z) (c : CipConnectionObject)
  : CipConnectionObject :=
  let c := set_socket_consuming kEipInvalidSocket
             (set_socket_producing kEipInvalidSocket c) in
  let p2p := bool_decide (kConnectionObjectConnectionTypePointToPoint
                          = ConnectionObjectGetOToTConnectionType c) in
  let '(c, id) := if p2p then (set_cip_consumed_connection_id ids.1 c, ids.2)
                  else (c, ids.1) in
  let c := if bool_decide (kConnectionObjectConnectionTypeMulticast
                           = ConnectionObjectGetTToOConnectionType c)
           then set_cip_produced_connection_id id c else c in
  let c := ConnectionObjectResetSequenceCounts c in
  let c := ConnectionObjectSetWatchdogTimeoutAction 4 c in
  let c := ConnectionObjectResetProductionInhibitTimer c in
  set_transmission_trigger_timer 0 c.

(** ** Comparison *)

Definition ConnectionObjectEqualOriginator (a b : CipConnectionObject) : bool :=
  (originator_vendor_id a =? originator_vendor_id b)
  && (originator_serial_number a =? originator_serial_number b).

Definition EqualConnectionTriad (a b : CipConnectionObject) : bool :=
  (connection_serial_number a =? connection_serial_number b)
  && (originator_vendor_id a =? originator_vendor_id b)
  && (originator_serial_number a =? originator_serial_number b).

Definition CipConnectionObjectOriginatorHasSameIP (c : CipConnectionObject)
    (address : SockAddr) : bool :=
  sin_addr address =? sin_addr (originator_address c).

(** [memcpy] of the whole struct. *)
Definition ConnectionObjectDeepCopy (source : CipConnectionObject) : CipConnectionObject :=
  source.

(** ** Lemmas *)

Section FreshNumber.
Variable numbers : list Z.

(** A draw that no connection uses. *)
Definition fresh_draw (r : Z) : bool := negb (existsb (fun n => n =? u16 r) numbers).

Lemma search_fresh generate l r draws :
  (∀ n, n ∈ l → n ≠ r) → search_number generate l r draws = Some (r, draws).
Proof.
  induction l as [|n l IH]; intros H; [done |]. simpl.
  rewrite (proj2 (Z.eqb_neq n r)) by (apply H; by left).
  apply IH. intros m Hm. apply H. by right.
Qed.

Lemma search_collision generate l r draws x :
  r ∈ l → generate draws = Some x → (∀ n, n ∈ l → n ≠ x.1) →
  search_number generate l r draws = Some x.
Proof.
  intros Hr Hg. induction l as [|n l IH]; [by apply elem_of_nil in Hr |].
  intros Hx. simpl. destruct (Z.eqb_spec n r) as [->|Hne].
  - rewrite Hg. simpl. destruct x as [x rest]. apply search_fresh.
    intros m Hm. apply Hx. by right.
  - apply elem_of_cons in Hr as [->|Hr]; [done |]. apply IH; [done |].
    intros m Hm. apply Hx. by right.
Qed.

Lemma fresh_draw_spec r : fresh_draw r = true ↔ u16 r ∉ numbers.
Proof.
  unfold fresh_draw. rewrite negb_true_iff, <-not_true_iff_false, existsb_exists. split.
  - intros H Hin. apply H. exists (u16 r). split; [by apply list_elem_of_In |]. apply Z.eqb_refl.
  - intros H (n & Hn & ->%Z.eqb_eq). apply H. by apply list_elem_of_In.
Qed.

(** The result is the first fresh draw. *)
Lemma generate_number_spec fuel skipped r rest :
  Forall (λ d, fresh_draw d = false) skipped → fresh_draw r = true →
  (length skipped < fuel)%nat →
  generate_number numbers fuel (skipped ++ r :: rest) = Some (u16 r, rest).
Proof.
  revert fuel. induction skipped as [|d skipped IH]; intros fuel Hs Hr Hf;
    (destruct fuel as [|fuel]; [simpl in Hf; lia |]); simpl.
  - apply fresh_draw_spec in Hr. apply search_fresh. intros n Hn ->. done.
  - apply Forall_cons_iff in Hs as [Hd Hs]. simpl in Hf.
    apply search_collision.
    + destruct (decide (u16 d ∈ numbers)) as [|Hn]; [done |].
      apply fresh_draw_spec in Hn. congruence.
    + apply IH; [done | done | lia].
    + apply fresh_draw_spec in Hr. intros n Hn ->. done.
Qed.
End FreshNumber.

(** A field of [w] bits at position [k] of a parameter word. *)
Lemma field_extract p k w :
  0 <= k → 0 <= w → (p .& (Z.ones w ≪ k)) ≫ k = (p / 2 ^ k) mod 2 ^ w.
Proof.
  intros Hk Hw. rewrite Z.shiftr_land, Z.shiftr_shiftl_l, Z.sub_diag, Z.shiftl_0_r by lia.
  by rewrite Z.land_ones, Z.shiftr_div_pow2 by lia.
Qed.

Lemma has_flag_bit p k : 0 <= k → has_flag p (1 ≪ k) = Z.odd (p / 2 ^ k).
Proof.
  intros Hk. rewrite testbit_has_flag by done.
  by rewrite <-Z.shiftr_div_pow2, <-Z.bit0_odd, Z.shiftr_spec, Z.add_0_l by lia.
Qed.

Definition connection_type_of (n : Z) : ConnectionObjectConnectionType :=
  if n =? 0 then kConnectionObjectConnectionTypeNull
  else if n =? 1 then kConnectionObjectConnectionTypeMulticast
  else if n =? 2 then kConnectionObjectConnectionTypePointToPoint
  else kConnectionObjectConnectionTypeInvalid.

Definition priority_of (n : Z) : ConnectionObjectPriority :=
  if n =? 0 then kConnectionObjectPriorityLow
  else if n =? 1 then kConnectionObjectPriorityHigh
  else if n =? 2 then kConnectionObjectPriorityScheduled
  else kConnectionObjectPriorityUrgent.

(** The parameter words of Forward Open (16 bits) and Large Forward Open
    (32 bits): owner, type, priority, size type, size. *)
Definition parameter_word (lfo : bool) (owner : bool) (type priority : Z) (variable : bool)
    (size : Z) : Z :=
  let k := if lfo then 16 else 0 in
  size + 2 ^ k * (2 ^ 9 * Z.b2z variable + 2 ^ 10 * priority + 2 ^ 13 * type
                  + 2 ^ 15 * Z.b2z owner).

Lemma parameter_word_fields (lfo : bool) owner type priority variable size :
  0 <= type < 4 → 0 <= priority < 4 → 0 <= size < (if lfo then 2 ^ 16 else 2 ^ 9) →
  let p := parameter_word lfo owner type priority variable size in
  Z.odd (p / 2 ^ (if lfo then 31 else 15)) = owner ∧ (p / 2 ^ (if lfo then 29 else 13)) mod 2 ^ 2 = type ∧
  (p / 2 ^ (if lfo then 26 else 10)) mod 2 ^ 2 = priority ∧ Z.odd (p / 2 ^ (if lfo then 25 else 9)) = variable ∧
  p mod 2 ^ (if lfo then 16 else 9) = size.
Proof.
  cbv zeta. intros Ht Hp Hs. unfold parameter_word.
  assert (Hodd : ∀ x b, x mod 2 = Z.b2z b → Z.odd x = b).
  { intros x b H. rewrite Zmod_odd in H.
    destruct (Z.odd x), b; done. }
  split; [apply Hodd |].
  2: split; [|split; [|split; [apply Hodd |]]].
  all: destruct lfo, owner, variable; simpl Z.b2z;
    repeat match goal with |- context [2 ^ ?x] =>
      let v := eval vm_compute in (2 ^ x) in change (2 ^ x) with v end;
    simpl Z.pow in Hs; Z.div_mod_to_equations; lia.
Qed.

Lemma watchdog_value c :
  0 <= connection_timeout_multiplier c <= 7 → is_u32 (o_to_t_requested_packet_interval c) →
  ConnectionObjectCalculateRegularInactivityWatchdogTimerValue c
  = Some (o_to_t_requested_packet_interval c / 1000
          * (4 * 2 ^ connection_timeout_multiplier c)).
Proof.
  intros Hm Hr. unfold ConnectionObjectCalculateRegularInactivityWatchdogTimerValue.
  rewrite (proj2 (Z.ltb_lt _ _)) by lia. f_equal.
  rewrite Z.shiftl_mul_pow2 by lia. rewrite Z.pow_add_r by lia. change (2 ^ 2) with 4.
  apply u64_id. unfold is_u64, is_u32 in *.
  set (p := 2 ^ connection_timeout_multiplier c).
  assert (1 <= p <= 128).
  { unfold p. split; [apply (Z.pow_le_mono_r 2 0); lia |].
    change 128 with (2 ^ 7). apply Z.pow_le_mono_r; lia. }
  assert (0 <= o_to_t_requested_packet_interval c / 1000 <= 4294967).
  { Z.div_mod_to_equations; lia. }
  nia.
Qed.

Lemma SetExpectedPacketRate_eq c :
  ∃ v, ConnectionObjectSetExpectedPacketRate c = set_expected_packet_rate v c.
Proof.
  unfold ConnectionObjectSetExpectedPacketRate. cbv zeta.
  destruct (0 =? _); by eexists.
Qed.

Lemma SetInitialWatchdog_eq c mult rpi :
  connection_timeout_multiplier c = mult → o_to_t_requested_packet_interval c = rpi →
  0 <= mult <= 7 → is_u32 rpi →
  ConnectionObjectSetInitialInactivityWatchdogTimerValue c
  = Some (set_inactivity_watchdog_timer (Z.max 10000 (rpi / 1000 * (4 * 2 ^ mult))) c).
Proof.
  intros <- <- Hm Hr. unfold ConnectionObjectSetInitialInactivityWatchdogTimerValue.
  rewrite watchdog_value by done. cbn [mbind option_bind]. f_equal.
  destruct (Z.ltb_spec 10000 (o_to_t_requested_packet_interval c / 1000
    * (4 * 2 ^ connection_timeout_multiplier c))); [by rewrite Z.max_r by lia |].
  by rewrite Z.max_l by lia.
Qed.

Lemma get_parameters_eq (large : bool) v p :
  (if large then is_u32 v else is_u16 v) →
  get_parameters large ((if large then le_bytes 4 v else le_bytes 2 v) ++ p) = Some (v, p).
Proof.
  intros Hv. unfold get_parameters. destruct large.
  - rewrite GetDword_le. by rewrite u32_id.
  - rewrite GetWord_le. by rewrite u16_id.
Qed.

(** ** Properties *)

(** The Forward Open fields before the application path, in wire order. *)
Definition forward_open_bytes (large : bool) (tick ticks o_t t_o serial vendor oserial mult
    r1 r2 r3 o_rpi o_params t_rpi t_params trigger : Z) : list Z :=
  let params v := if large then le_bytes 4 v else le_bytes 2 v in
  [tick; ticks] ++ le_bytes 4 o_t ++ le_bytes 4 t_o ++ le_bytes 2 serial
  ++ le_bytes 2 vendor ++ le_bytes 4 oserial ++ [mult; r1; r2; r3] ++ le_bytes 4 o_rpi
  ++ params o_params ++ le_bytes 4 t_rpi ++ params t_params ++ [trigger].

(** The connection object after the message, with the remaining field [rate]. *)
Definition initialized (c : CipConnectionObject) (number o_t t_o serial vendor
    oserial mult o_rpi o_params t_rpi t_params trigger timer rate : Z) : CipConnectionObject :=
  set_transport_class_trigger trigger
  (set_t_to_o_network_connection_parameters t_params
  (set_expected_packet_rate rate
  (set_t_to_o_requested_packet_interval t_rpi
  (set_o_to_t_network_connection_parameters o_params
  (set_inactivity_watchdog_timer timer
  (set_o_to_t_requested_packet_interval o_rpi
  (set_connection_timeout_multiplier mult
  (set_sequence_count_producing 0
  (set_state 0
  (set_connection_number number
  (set_originator_serial_number oserial
  (set_originator_vendor_id vendor
  (set_connection_serial_number serial
  (set_cip_produced_connection_id t_o
  (set_cip_consumed_connection_id o_t c))))))))))))))).

(** The request format survives every update made while decoding a request. *)
Section LargeForwardOpen.
Variables (z : Z) (c : CipConnectionObject).

Lemma large_set_cip_consumed_connection_id : is_large_forward_open (set_cip_consumed_connection_id z c) = is_large_forward_open c.
Proof. done. Qed.
Lemma large_set_cip_produced_connection_id : is_large_forward_open (set_cip_produced_connection_id z c) = is_large_forward_open c.
Proof. done. Qed.
Lemma large_set_connection_serial_number : is_large_forward_open (set_connection_serial_number z c) = is_large_forward_open c.
Proof. done. Qed.
Lemma large_set_originator_vendor_id : is_large_forward_open (set_originator_vendor_id z c) = is_large_forward_open c.
Proof. done. Qed.
Lemma large_set_originator_serial_number : is_large_forward_open (set_originator_serial_number z c) = is_large_forward_open c.
Proof. done. Qed.
Lemma large_set_connection_number : is_large_forward_open (set_connection_number z c) = is_large_forward_open c.
Proof. done. Qed.
Lemma large_set_state : is_large_forward_open (set_state z c) = is_large_forward_open c.
Proof. done. Qed.
Lemma large_set_sequence_count_producing : is_large_forward_open (set_sequence_count_producing z c) = is_large_forward_open c.
Proof. done. Qed.
Lemma large_set_connection_timeout_multiplier : is_large_forward_open (set_connection_timeout_multiplier z c) = is_large_forward_open c.
Proof. done. Qed.
Lemma large_set_o_to_t_requested_packet_interval : is_large_forward_open (set_o_to_t_requested_packet_interval z c) = is_large_forward_open c.
Proof. done. Qed.
Lemma large_set_inactivity_watchdog_timer : is_large_forward_open (set_inactivity_watchdog_timer z c) = is_large_forward_open c.
Proof. done. Qed.
Lemma large_set_o_to_t_network_connection_parameters : is_large_forward_open (set_o_to_t_network_connection_parameters z c) = is_large_forward_open c.
Proof. done. Qed.
Lemma large_set_t_to_o_requested_packet_interval : is_large_forward_open (set_t_to_o_requested_packet_interval z c) = is_large_forward_open c.
Proof. done. Qed.
Lemma large_set_expected_packet_rate : is_large_forward_open (set_expected_packet_rate z c) = is_large_forward_open c.
Proof. done. Qed.
End LargeForwardOpen.

Create Rewrite HintDb large.
#[export] Hint Rewrite large_set_cip_consumed_connection_id
  large_set_cip_produced_connection_id
  large_set_connection_serial_number
  large_set_originator_vendor_id
  large_set_originator_serial_number
  large_set_connection_number
  large_set_state
  large_set_sequence_count_producing
  large_set_connection_timeout_multiplier
  large_set_o_to_t_requested_packet_interval
  large_set_inactivity_watchdog_timer
  large_set_o_to_t_network_connection_parameters
  large_set_t_to_o_requested_packet_interval
  large_set_expected_packet_rate : large.

Lemma bind_Some {A B} (f : A → option B) x : mbind f (Some x) = f x.
Proof. done. Qed.

(** Runs the binds whose argument is a result; conversion meets no definition. *)
Ltac bind_step := repeat (rewrite bind_Some; cbn beta iota zeta).

Lemma InitializeFromMessage_eq conns draws skipped r rest_draws c tick ticks o_t t_o
    serial vendor oserial mult r1 r2 r3 o_rpi o_params t_rpi t_params trigger rest :
  draws = skipped ++ r :: rest_draws →
  Forall (λ d, fresh_draw (connection_number <$> conns) d = false) skipped →
  fresh_draw (connection_number <$> conns) r = true →
  is_u32 o_t → is_u32 t_o → is_u16 serial → is_u16 vendor → is_u32 oserial →
  0 <= mult <= 7 → is_u32 o_rpi → is_u32 t_rpi →
  (if is_large_forward_open c then is_u32 o_params ∧ is_u32 t_params
   else is_u16 o_params ∧ is_u16 t_params) →
  ∃ rate, ConnectionObjectInitializeFromMessage conns draws
      (forward_open_bytes (is_large_forward_open c) tick ticks o_t t_o serial vendor oserial
         mult r1 r2 r3 o_rpi o_params t_rpi t_params trigger ++ rest) c
    = Some (initialized c (u16 r) o_t t_o serial vendor oserial mult
              o_rpi o_params t_rpi t_params trigger
              (Z.max 10000 (o_rpi / 1000 * (4 * 2 ^ mult))) rate, rest, rest_draws).
Proof.
  intros -> Hsk Hr Ho Ht Hs Hv Hos Hm Horpi Htrpi Hp.
  unfold ConnectionObjectInitializeFromMessage, forward_open_bytes.
  rewrite <-!(assoc_L (++)). cbn [app]. rewrite GetByte_cons. bind_step.
  rewrite GetUsint_cons. bind_step.
  rewrite GetUdint_le, u32_id by done. bind_step.
  rewrite GetUdint_le, u32_id by done. bind_step.
  rewrite GetUint_le, u16_id by done. bind_step.
  rewrite GetUint_le, u16_id by done. bind_step.
  rewrite GetUdint_le, u32_id by done. bind_step.
  unfold ConnectionObjectSetConnectionNumber, GenerateRandomConnectionNumber.
  rewrite generate_number_spec; [|done|done|rewrite length_app; simpl; lia].
  bind_step. cbn [ConnectionObjectSetState]. bind_step.
  rewrite GetUsint_cons. bind_step.
  match goal with |- context [ptr_add (r1 :: r2 :: r3 :: ?x) 3] =>
    change (ptr_add (r1 :: r2 :: r3 :: x) 3) with (Some x) end.
  bind_step. rewrite GetUdint_le, u32_id by done. bind_step.
  match goal with |- context [ConnectionObjectSetInitialInactivityWatchdogTimerValue ?x] =>
    rewrite (SetInitialWatchdog_eq x mult o_rpi) by done end.
  bind_step.
  autorewrite with large.
  rewrite get_parameters_eq by (destruct (is_large_forward_open c); tauto).
  bind_step. rewrite GetUdint_le, u32_id by done. bind_step.
  match goal with |- context [ConnectionObjectSetExpectedPacketRate ?x] =>
    destruct (SetExpectedPacketRate_eq x) as [rate ->] end.
  autorewrite with large.
  rewrite get_parameters_eq by (destruct (is_large_forward_open c); tauto).
  bind_step. cbn [app]. rewrite GetByte_cons. bind_step.
  exists rate. reflexivity.
Qed.

(** Decoding a (Large) Forward Open request, with connection numbers drawn
    until one is free: every connection field takes the value the request holds
    at that place, in the width its format gives it; the state is "nonexistent",
    the sequence count 0, the connection number the first drawn number that no
    listed connection uses; the inactivity watchdog starts at four times two to
    the multiplier times the interval in milliseconds, but at least ten seconds;
    and the message is left at the connection path. *)
Theorem InitializeFromMessage_fields conns draws skipped r rest_draws c tick ticks o_t t_o
    serial vendor oserial mult r1 r2 r3 o_rpi o_params t_rpi t_params trigger rest :
  draws = skipped ++ r :: rest_draws →
  Forall (λ d, fresh_draw (connection_number <$> conns) d = false) skipped →
  fresh_draw (connection_number <$> conns) r = true →
  is_u32 o_t → is_u32 t_o → is_u16 serial → is_u16 vendor → is_u32 oserial →
  0 <= mult <= 7 → is_u32 o_rpi → is_u32 t_rpi →
  (if is_large_forward_open c then is_u32 o_params ∧ is_u32 t_params
   else is_u16 o_params ∧ is_u16 t_params) →
  ∃ c', ConnectionObjectInitializeFromMessage conns draws
      (forward_open_bytes (is_large_forward_open c) tick ticks o_t t_o serial vendor oserial
         mult r1 r2 r3 o_rpi o_params t_rpi t_params trigger ++ rest) c
    = Some (c', rest, rest_draws) ∧
  cip_consumed_connection_id c' = o_t ∧ cip_produced_connection_id c' = t_o ∧
  connection_serial_number c' = serial ∧ originator_vendor_id c' = vendor ∧
  originator_serial_number c' = oserial ∧ connection_number c' = u16 r ∧
  state c' = 0 ∧ connection_timeout_multiplier c' = mult ∧
  o_to_t_requested_packet_interval c' = o_rpi ∧
  o_to_t_network_connection_parameters c' = o_params ∧
  t_to_o_requested_packet_interval c' = t_rpi ∧
  t_to_o_network_connection_parameters c' = t_params ∧ transport_class_trigger c' = trigger ∧
  inactivity_watchdog_timer c' = Z.max 10000 (o_rpi / 1000 * (4 * 2 ^ mult)).
Proof.
  intros Hd Hsk Hr Ho Ht Hs Hv Hos Hm Hrpi Htrpi Hp.
  edestruct (InitializeFromMessage_eq conns draws skipped r rest_draws c tick ticks o_t t_o
    serial vendor oserial mult r1 r2 r3 o_rpi o_params t_rpi t_params trigger rest)
    as [rate ->]; [done .. |].
  eexists. repeat (split; [reflexivity |]). reflexivity.
Qed.

Lemma InitializeFromMessage_fields_witness :
  ∃ c', ConnectionObjectInitializeFromMessage [] [77]
      (forward_open_bytes false 10 14 1 2 3 4 5 2 0 0 0 1000000 0x4802 1000000 0x4802 0xA3 ++ [9])
      zero_connection = Some (c', [9], []) ∧
    connection_number c' = 77 ∧ inactivity_watchdog_timer c' = 16000.
Proof.
  destruct (InitializeFromMessage_fields [] [77] [] 77 [] zero_connection 10 14 1 2 3 4 5 2 0 0 0
    1000000 0x4802 1000000 0x4802 0xA3 [9])
    as (c' & H & _ & _ & _ & _ & _ & Hn & _ & _ & _ & _ & _ & _ & _ & Hw).
  - reflexivity.
  - constructor.
  - reflexivity.
  - unfold is_u32; lia.
  - unfold is_u32; lia.
  - unfold is_u16; lia.
  - unfold is_u16; lia.
  - unfold is_u32; lia.
  - lia.
  - unfold is_u32; lia.
  - unfold is_u32; lia.
  - split; unfold is_u16; lia.
  - exists c'. split; [exact H |]. split; [exact Hn | exact Hw].
Defined.

Lemma GetUdint_ok a b d e p : ∃ v, GetUdintFromMessage (a :: b :: d :: e :: p) = Some (v, p).
Proof. by eexists. Qed.

Lemma GetUint_ok a b p : ∃ v, GetUintFromMessage (a :: b :: p) = Some (v, p).
Proof. by eexists. Qed.

Lemma watchdog_shift_fault c :
  62 <= connection_timeout_multiplier c →
  ConnectionObjectSetInitialInactivityWatchdogTimerValue c = None.
Proof.
  intros H. unfold ConnectionObjectSetInitialInactivityWatchdogTimerValue,
    ConnectionObjectCalculateRegularInactivityWatchdogTimerValue.
  by rewrite (proj2 (Z.ltb_ge _ _)) by lia.
Qed.

(** The timeout multiplier of a Forward Open request is not checked before
    it is used as a shift count: with a value of 62 or more the shift amount
    reaches the width of the type, which C leaves undefined, whatever the other
    fields are. *)
Theorem InitializeFromMessage_multiplier_fault conns draws c p :
  62 <= default 0 (p !! 18%nat) →
  ConnectionObjectInitializeFromMessage conns draws p c = None.
Proof.
  intros Hm. unfold ConnectionObjectInitializeFromMessage.
  do 18 (destruct p as [|? p]; [simpl in Hm; lia |]).
  destruct p as [|mult p]; [simpl in Hm; lia |].
  rewrite GetByte_cons. bind_step. rewrite GetUsint_cons. bind_step.
  repeat match goal with
  | |- context [GetUdintFromMessage (?a :: ?b :: ?d :: ?e :: ?p)] =>
      destruct (GetUdint_ok a b d e p) as [? ->]; bind_step
  | |- context [GetUintFromMessage (?a :: ?b :: ?p)] =>
      destruct (GetUint_ok a b p) as [? ->]; bind_step
  end.
  match goal with |- context [ConnectionObjectSetConnectionNumber ?l ?ds ?x] =>
    destruct (ConnectionObjectSetConnectionNumber l ds x) as [[c' draws']|]; [|done] end.
  bind_step. cbn [ConnectionObjectSetState]. bind_step. rewrite GetUsint_cons. bind_step.
  destruct (ptr_add p 3) as [p'|]; [|done]. bind_step.
  destruct (GetUdintFromMessage p') as [[v p'']|]; [|done]. bind_step.
  by rewrite watchdog_shift_fault.
Qed.

Lemma InitializeFromMessage_multiplier_fault_witness :
  62 <= default 0 (replicate 40 200 !! 18%nat) ∧
  ConnectionObjectInitializeFromMessage [] [1] (replicate 40 200) zero_connection = None.
Proof. split; [simpl; lia | apply InitializeFromMessage_multiplier_fault; simpl; lia]. Defined.

(** The expected packet rate of a connection is the requested interval
    rounded up to a multiple of the 10 ms timer tick, the requested packet
    interval is it rounded down to one, both in milliseconds and cut to the 16
    bits of their type. *)
Theorem packet_rates_round_to_tick c :
  is_u32 (t_to_o_requested_packet_interval c) →
  let t := t_to_o_requested_packet_interval c in
  expected_packet_rate (ConnectionObjectSetExpectedPacketRate c)
    = u16 (10 * ((t + 9999) / 10000)) ∧
  ConnectionObjectGetRequestedPacketInterval c = u16 (10 * (t / 10000)) ∧
  (t <= 65530000 →
     let rate := expected_packet_rate (ConnectionObjectSetExpectedPacketRate c) in
     rate mod 10 = 0 ∧ rate * 1000 - 10000 < t <= rate * 1000).
Proof.
  cbv zeta. intros Ht. set (t := t_to_o_requested_packet_interval c) in *.
  assert (Hrate : expected_packet_rate (ConnectionObjectSetExpectedPacketRate c)
                  = u16 (10 * ((t + 9999) / 10000))).
  { unfold ConnectionObjectSetExpectedPacketRate. fold t. cbv zeta.
    change (kOpenerTimerTickInMilliSeconds * 1000) with 10000.
    change (u32 kOpenerTimerTickInMilliSeconds) with 10. unfold is_u32 in Ht.
    rewrite (u32_id (t mod 10000)) by (unfold is_u32; Z.div_mod_to_equations; lia).
    rewrite (u32_id (10 - t mod 10000 / 1000)) by (unfold is_u32; Z.div_mod_to_equations; lia).
    rewrite (u32_id (t / 1000 + _)) by (unfold is_u32; Z.div_mod_to_equations; lia).
    destruct (Z.eqb_spec 0 (t mod 10000)); simpl; f_equal; Z.div_mod_to_equations; lia. }
  split; [done |]. split.
  - unfold ConnectionObjectGetRequestedPacketInterval. fold t. cbv zeta.
    change (kOpenerTimerTickInMilliSeconds * 1000) with 10000. unfold is_u32 in Ht.
    rewrite (u32_id (t mod 10000)) by (unfold is_u32; Z.div_mod_to_equations; lia).
    rewrite (u32_id (t / 1000 - _)) by (unfold is_u32; Z.div_mod_to_equations; lia).
    destruct (Z.eqb_spec 0 (t mod 10000)); f_equal; Z.div_mod_to_equations; lia.
  - intros Hmax. rewrite Hrate, u16_id by (unfold is_u16, is_u32 in *; Z.div_mod_to_equations; lia).
    unfold is_u32 in Ht. Z.div_mod_to_equations; lia.
Qed.

Lemma packet_rates_round_to_tick_witness :
  expected_packet_rate (ConnectionObjectSetExpectedPacketRate
    (set_t_to_o_requested_packet_interval 12345 zero_connection)) = 20.
Proof.
  destruct (packet_rates_round_to_tick
    (set_t_to_o_requested_packet_interval 12345 zero_connection)) as [H _];
    [unfold is_u32; simpl; lia |].
  etransitivity; [exact H | reflexivity].
Defined.

(** If [rand] yields a number that no connection uses at some point, the
    search for a connection number ends and its result is in use by no
    connection of the list, however many collisions come first. *)
Theorem GenerateRandomConnectionNumber_fresh numbers draws :
  (∃ d, d ∈ draws ∧ u16 d ∉ numbers) →
  ∃ n rest, GenerateRandomConnectionNumber numbers draws = Some (n, rest) ∧
            is_u16 n ∧ n ∉ numbers.
Proof.
  intros (d & Hd & Hf). apply fresh_draw_spec in Hf.
  assert (∃ skipped r rest, draws = skipped ++ r :: rest ∧ fresh_draw numbers r = true ∧
            Forall (λ d, fresh_draw numbers d = false) skipped)
    as (skipped & r & rest & -> & Hr & Hs).
  { induction draws as [|x draws IH]; [by apply elem_of_nil in Hd |].
    destruct (fresh_draw numbers x) eqn:Hx; [by exists [], x, draws |].
    apply elem_of_cons in Hd as [->|Hd]; [congruence |].
    destruct (IH Hd) as (s & r & rest & -> & Hr & Hs).
    exists (x :: s), r, rest. repeat (split; [done |]). by constructor. }
  exists (u16 r), rest. unfold GenerateRandomConnectionNumber.
  rewrite generate_number_spec by (done || (rewrite length_app; simpl; lia)).
  split; [done |]. split; [unfold is_u16, u16; apply Z.mod_pos_bound; lia |].
  by apply fresh_draw_spec.
Qed.

Lemma GenerateRandomConnectionNumber_fresh_witness :
  ∃ n rest, GenerateRandomConnectionNumber [5; 6] [6; 5; 6; 9; 5] = Some (n, rest) ∧
            is_u16 n ∧ n ∉ [5; 6].
Proof.
  apply (GenerateRandomConnectionNumber_fresh [5; 6] [6; 5; 6; 9; 5]).
  exists 9. split; [set_solver |]. vm_compute. set_solver.
Defined.

(** Both layouts of the network connection parameters, the 16-bit word of
    Forward Open and the 32-bit word of Large Forward Open, decode to the owner,
    type, priority, size type and size they were built from; no priority value
    fails the assertion. *)
Theorem connection_parameters_decode (lfo : bool) owner type priority variable size :
  0 <= type < 4 → 0 <= priority < 4 → 0 <= size < (if lfo then 2 ^ 16 else 2 ^ 9) →
  let p := parameter_word lfo owner type priority variable size in
  ConnectionObjectIsRedundantOwner p lfo = owner ∧
  ConnectionObjectGetConnectionType p lfo = connection_type_of type ∧
  ConnectionObjectGetPriority p lfo = Some (priority_of priority) ∧
  ConnectionObjectGetConnectionSizeType p lfo
    = (if variable then kConnectionObjectConnectionSizeTypeVariable
       else kConnectionObjectConnectionSizeTypeFixed) ∧
  ConnectionObjectGetConnectionSize p lfo = size.
Proof.
  cbv zeta. intros Ht Hp Hs. unfold ConnectionObjectIsRedundantOwner,
    ConnectionObjectGetConnectionType, ConnectionObjectGetPriority,
    ConnectionObjectGetConnectionSizeType, ConnectionObjectGetConnectionSize.
  change 3 with (Z.ones 2). change 65535 with (Z.ones 16). change 511 with (Z.ones 9).
  pose proof (parameter_word_fields lfo owner type priority variable size Ht Hp Hs)
    as (Ho & Hty & Hpr & Hv & Hsz).
  destruct lfo; rewrite !has_flag_bit, !field_extract, Z.land_ones by lia;
    rewrite Ho, Hty, Hpr, Hv, Hsz, !u8_id by (unfold is_u8; lia).
  all: split; [by destruct owner |]; split; [done |]; split; [|by destruct variable].
  all: assert (priority = 0 ∨ priority = 1 ∨ priority = 2 ∨ priority = 3)
         as [->|[->|[->| ->]]] by lia; done.
Qed.

Lemma connection_parameters_decode_witness :
  ConnectionObjectGetPriority (parameter_word false true 2 3 true 500) false
    = Some kConnectionObjectPriorityUrgent ∧
  ConnectionObjectGetConnectionSize (parameter_word true true 2 3 true 60000) true = 60000.
Proof.
  split.
  - destruct (connection_parameters_decode false true 2 3 true 500) as (_ & _ & H & _);
      [lia | lia | lia | exact H].
  - destruct (connection_parameters_decode true true 2 3 true 60000) as (_ & _ & _ & _ & H);
      [lia | lia | lia | exact H].
Defined.
