(* ===== verification/ConnList.v ===== *)
(** * The active connections: [cipconnectionmanager.c] and [cipclass3connection.c]

    The connection list, a linked list of pointers into the pool of connection
    objects, the searches over it, and the opening and closing of class 3
    (explicit) connections.  Loops over the list run on fuel: its nodes are
    distinct elements of the static array, so one step per element of the array
    and one more to see NULL are enough. *)

From S2P Require Import Prelude EndianConv EPath CipTypes CipCodec SocketTimer ConnRecord ConnObject.
From S2P Require Import LinkedList.
Open Scope Z_scope.

(** [IoConnectionEvent] *)
Inductive IoConnectionEvent :=
| kIoConnectionEventOpened | kIoConnectionEventTimedOut | kIoConnectionEventClosed.

(** A connection pointer indexes [connection_pool]: the explicit connections
    first, the I/O connections behind them.  [closed_sockets] and [io_events]
    record the calls of [CloseSocket] and of the application's
    [CheckIoConnectionEvent], the latest first. *)
Record ConnManager := mkConnManager {
  connection_list : DoublyLinkedList;
  connection_nodes : store nat;
  connection_pool : gmap nat CipConnectionObject;
  closed_sockets : list Z;
  io_events : list (Z * Z * IoConnectionEvent) }.

Definition OPENER_CIP_NUM_EXPLICIT_CONNS : nat := 6.

Definition set_connection (c : nat) (o : CipConnectionObject) (m : ConnManager) : ConnManager :=
  mkConnManager (connection_list m) (connection_nodes m) (<[c := o]> (connection_pool m))
    (closed_sockets m) (io_events m).

(** The port's [CloseSocket]; the sockets closed so far are recorded. *)
Definition CloseSocket (socket : Z) (m : ConnManager) : ConnManager :=
  if kEipInvalidSocket =? socket then m
  else mkConnManager (connection_list m) (connection_nodes m) (connection_pool m)
         (socket :: closed_sockets m) (io_events m).

Definition CloseUdpSocket (socket : Z) (m : ConnManager) : ConnManager := CloseSocket socket m.

(** ** Searches *)

Definition loop_fuel : nat := S kNodesAmount.

(** The [while] loop all searches share: node and connection of the first
    element that passes the test. *)
Fixpoint find_connection (f : nat → CipConnectionObject → bool) (fuel : nat) (iterator : ptr)
    (m : ConnManager) : option (option (nat * nat)) :=
  match fuel with
  | O => None
  | S fuel =>
      match iterator with
      | None => Some None
      | Some a =>
          n ← deref iterator (connection_nodes m);
          c ← data n;
          o ← connection_pool m !! c;
          if f c o then Some (Some (a, c)) else find_connection f fuel (next n) m
      end
  end.

Definition search (f : nat → CipConnectionObject → bool) (m : ConnManager)
  : option (option (nat * nat)) := find_connection f loop_fuel (first (connection_list m)) m.

Definition is_state (s : ConnectionObjectState) (o : CipConnectionObject) : bool :=
  bool_decide (s = ConnectionObjectGetState o).

Definition GetConnectedObject (connection_id : Z) (m : ConnManager) : option (option nat) :=
  r ← search (fun _ o => is_state kConnectionObjectStateEstablished o
                && (connection_id =? cip_consumed_connection_id o)) m;
  Some (option_map snd r).

Definition GetConnectedOutputAssembly (output_assembly_id : Z) (m : ConnManager)
  : option (option nat) :=
  r ← search (fun _ o =>
        (kConnectionObjectInstanceTypeIOExclusiveOwner =? instance_type o)
        && (is_state kConnectionObjectStateEstablished o
            || is_state kConnectionObjectStateTimedOut o)
        && (output_assembly_id =? epath_instance_id (produced_path o))) m;
  Some (option_map snd r).

Definition CheckForExistingConnection (connection_object : CipConnectionObject)
    (m : ConnManager) : option (option nat) :=
  r ← search (fun _ o => is_state kConnectionObjectStateEstablished o
                && EqualConnectionTriad connection_object o) m;
  Some (option_map snd r).

Definition IsConnectedOutputAssembly (instance_number : Z) (m : ConnManager) : option bool :=
  r ← search (fun _ o => (instance_number =? epath_instance_id (consumed_path o))
                && ConnectionObjectIsTypeIOConnection o) m;
  Some (match r with Some _ => true | None => false end).

(** ** Opening and closing *)

Definition AddNewActiveConnection (c : nat) (m : ConnManager) : option ConnManager :=
  '(l, h) ← DoublyLinkedListInsertAtHead (Some c) (connection_list m) (connection_nodes m);
  o ← connection_pool m !! c;
  o ← ConnectionObjectSetState kConnectionObjectStateEstablished o;
  Some (set_connection c o (mkConnManager l h (connection_pool m) (closed_sockets m) (io_events m))).

Definition RemoveFromActiveConnections (c : nat) (m : ConnManager) : option ConnManager :=
  r ← search (fun c' _ => (c' =? c)%nat) m;
  match r with
  | None => Some m
  | Some (a, _) =>
      '(l, h) ← DoublyLinkedListRemoveNode (Some a) (connection_list m) (connection_nodes m);
      Some (mkConnManager l h (connection_pool m) (closed_sockets m) (io_events m))
  end.

Definition is_class3 (o : CipConnectionObject) : bool :=
  match ConnectionObjectGetTransportClassTriggerTransportClass o with
  | kConnectionObjectTransportClassTriggerTransportClass3 => true
  | _ => false
  end.

Definition CloseConnection (c : nat) (m : ConnManager) : option ConnManager :=
  o ← connection_pool m !! c;
  let m := if is_class3 o then m
           else let m := CloseUdpSocket (socket_consuming o) m in
                let o := set_socket_consuming kEipInvalidSocket o in
                let m := CloseUdpSocket (socket_producing o) m in
                set_connection c (set_socket_producing kEipInvalidSocket o) m in
  m ← RemoveFromActiveConnections c m;
  o ← ConnectionObjectInitializeEmpty;
  Some (set_connection c o m).

(** Close functions are numbered; all but [CloseConnection] belong to the I/O
    connections and their application. *)
Definition kCloseConnection : nat := 0.

Class ConnectionCallbacks := {
  close_io_connection : nat → nat → ConnManager → option ConnManager }.

(** [connection_object->connection_close_function(connection_object)] *)
Definition close_connection `{ConnectionCallbacks} (c : nat) (m : ConnManager)
  : option ConnManager :=
  o ← connection_pool m !! c;
  k ← connection_close_function o;
  if (k =? kCloseConnection)%nat then CloseConnection c m else close_io_connection k c m.

(** ** Class 3 connections *)

(** The loop from index [i] on, [k] slots left. *)
Fixpoint free_explicit (k i : nat) (m : ConnManager) : option (option nat) :=
  match k with
  | O => Some None
  | S k =>
      o ← connection_pool m !! i;
      if is_state kConnectionObjectStateNonExistent o then Some (Some i)
      else free_explicit k (S i) m
  end.

Definition GetFreeExplicitConnection (m : ConnManager) : option (option nat) :=
  free_explicit OPENER_CIP_NUM_EXPLICIT_CONNS 0 m.

Definition kCipErrorConnectionFailure : Z := 0x01.
Definition kConnectionManagerExtendedStatusCodeErrorNoMoreConnectionsAvailable : Z := 0x113.
Definition kClass3ConnectionTimeoutHandler : nat := 0.

Definition set_class3_callbacks (o : CipConnectionObject) : CipConnectionObject :=
  set_connection_timeout_function (Some kClass3ConnectionTimeoutHandler)
    (set_connection_close_function (Some kCloseConnection) o).

(** CIP error and extended error; [ids] as in [ConnectionObjectGeneralConfiguration]. *)
Definition EstablishClass3Connection (ids : Z * Z) (connection_object : CipConnectionObject)
    (m : ConnManager) : option (Z * option Z * ConnManager) :=
  free ← GetFreeExplicitConnection m;
  match free with
  | None =>
      Some (kCipErrorConnectionFailure,
            Some kConnectionManagerExtendedStatusCodeErrorNoMoreConnectionsAvailable, m)
  | Some c =>
      let o := ConnectionObjectDeepCopy connection_object in
      let o := ConnectionObjectGeneralConfiguration ids o in
      let o := set_instance_type kConnectionObjectInstanceTypeExplicitMessaging o in
      m ← AddNewActiveConnection c (set_connection c (set_class3_callbacks o) m);
      Some (kCipErrorSuccess, None, m)
  end.

Definition InitializeClass3ConnectionData (m : ConnManager) : ConnManager :=
  foldr (fun c => set_connection c zero_connection) m (seq 0 OPENER_CIP_NUM_EXPLICIT_CONNS).

Definition CipClass3ConnectionObjectStateEstablishedHandler (new_state : ConnectionObjectState)
    (o : CipConnectionObject) : option (EipStatus * CipConnectionObject) :=
  match new_state with
  | kConnectionObjectStateNonExistent =>
      o ← ConnectionObjectInitializeEmpty;
      o ← ConnectionObjectSetState new_state o;
      Some (kEipStatusOk, o)
  | _ => Some (kEipStatusError, o)
  end.

Definition CipClass3ConnectionObjectStateNonExistentHandler
    (new_state : ConnectionObjectState) (o : CipConnectionObject)
  : option (EipStatus * CipConnectionObject) :=
  match new_state with
  | kConnectionObjectStateEstablished =>
      o ← ConnectionObjectSetState new_state o;
      Some (kEipStatusOk, o)
  | _ => Some (kEipStatusError, o)
  end.

(** [encap.c]: closes the class 3 connections of a session.  The close function
    gives the node back to the allocator before the loop reads its successor. *)
Fixpoint close_class3 `{ConnectionCallbacks} (handle : Z) (fuel : nat) (node : ptr)
    (m : ConnManager) : option ConnManager :=
  match fuel with
  | O => None
  | S fuel =>
      match node with
      | None => Some m
      | Some _ =>
          n ← deref node (connection_nodes m);
          c ← data n;
          o ← connection_pool m !! c;
          m ← (if is_class3 o && (associated_encapsulation_session o =? handle)
               then close_connection c m else Some m);
          n ← deref node (connection_nodes m);
          close_class3 handle fuel (next n) m
      end
  end.

Definition CloseClass3ConnectionBasedOnSession `{ConnectionCallbacks}
    (encapsulation_session_handle : Z) (m : ConnManager) : option ConnManager :=
  close_class3 encapsulation_session_handle loop_fuel (first (connection_list m)) m.

(** ** Lemmas *)

(** The list as node/connection pairs: every connection is in the pool and is
    listed once. *)
Record conns_wf (m : ConnManager) (xs : list (nat * nat)) : Prop := {
  conns_list : represents (connection_list m) (connection_nodes m) xs;
  conns_array : array_ok (connection_nodes m) xs;
  conns_nodup : NoDup xs.*2;
  conns_pool : ∀ c, c ∈ xs.*2 → is_Some (connection_pool m !! c) }.

(** The first element that passes the test. *)
Definition first_match (f : nat → CipConnectionObject → bool) (m : ConnManager)
    (xs : list (nat * nat)) : option (nat * nat) :=
  List.find (fun x => match connection_pool m !! snd x with
                      | Some o => f (snd x) o
                      | None => false
                      end) xs.

Lemma find_connection_spec f fuel m p xs :
  seg (connection_nodes m) p xs None →
  (∀ c, c ∈ xs.*2 → is_Some (connection_pool m !! c)) → (length xs < fuel)%nat →
  find_connection f fuel (head_ptr xs None) m = Some (first_match f m xs).
Proof.
  revert p fuel. induction xs as [|[a c] xs IH]; intros p fuel Hs Hp Hf;
    (destruct fuel as [|fuel]; [simpl in Hf; lia |]); [done |].
  destruct Hs as [Ha Hs]. simpl. rewrite Ha. simpl.
  destruct (Hp c) as [o Ho]; [simpl; set_solver |]. rewrite Ho. simpl.
  destruct (f c o); [done |].
  apply (IH (Some a)); [done | | simpl in Hf; lia].
  intros c' Hc'. apply Hp. simpl. set_solver.
Qed.

Lemma conns_fuel m xs : conns_wf m xs → (length xs < loop_fuel)%nat.
Proof. intros [Hl Ha _ _]. pose proof (array_length _ _ _ Hl Ha). unfold loop_fuel. lia. Qed.

Lemma search_spec f m xs : conns_wf m xs → search f m = Some (first_match f m xs).
Proof.
  intros Hw. unfold search. rewrite (rep_first _ _ _ (conns_list _ _ Hw)).
  eapply find_connection_spec; [apply (conns_list _ _ Hw) | apply Hw | by eapply conns_fuel].
Qed.

Lemma first_match_split f m ys x zs o :
  connection_pool m !! snd x = Some o → f (snd x) o = true →
  (∀ y o, y ∈ ys → connection_pool m !! snd y = Some o → f (snd y) o = false) →
  first_match f m (ys ++ x :: zs) = Some x.
Proof.
  intros Ho Hf. unfold first_match. induction ys as [|y ys IH]; intros Hys; simpl.
  - by rewrite Ho, Hf.
  - destruct (connection_pool m !! snd y) as [oy|] eqn:Ey.
    + rewrite (Hys y oy) by (done || set_solver). apply IH. intros. apply (Hys y0); [set_solver | done].
    + apply IH. intros. apply (Hys y0); [set_solver | done].
Qed.

Lemma first_match_None f m xs :
  (∀ c o, c ∈ xs.*2 → connection_pool m !! c = Some o → f c o = false) →
  first_match f m xs = None.
Proof.
  unfold first_match. induction xs as [|[a c] xs IH]; intros Hf; simpl; [done |].
  rewrite IH by (intros; eapply Hf; [simpl; by right | done]).
  destruct (connection_pool m !! c) as [o|] eqn:Ho; [|done].
  rewrite (Hf c o); [done | simpl; by left | done].
Qed.

Lemma RemoveFromActiveConnections_spec m ys a c zs :
  conns_wf m (ys ++ (a, c) :: zs) →
  ∃ m', RemoveFromActiveConnections c m = Some m' ∧ conns_wf m' (ys ++ zs) ∧
    connection_pool m' = connection_pool m ∧ closed_sockets m' = closed_sockets m ∧
    io_events m' = io_events m ∧ connection_nodes m' !! a = Some zero_node.
Proof.
  intros Hw. pose proof Hw as [Hl Ha Hn Hp]. unfold RemoveFromActiveConnections.
  rewrite (search_spec _ _ _ Hw).
  rewrite fmap_app in Hn, Hp. simpl in Hn, Hp.
  destruct (Hp c) as [o Ho]; [set_solver |].
  rewrite (first_match_split _ _ ys (a, c) zs o Ho); [| apply Nat.eqb_refl |].
  - cbn [mbind option_bind].
    destruct (array_remove _ _ _ _ _ _ Hl Ha) as (l' & h' & -> & Hl' & Ha' & Hz).
    simpl. eexists. split; [done |]. split; [|done]. split; simpl; [done | done | |].
    + rewrite fmap_app. apply list.NoDup_app in Hn as (? & Hd & [? ?]%list.NoDup_cons).
      apply list.NoDup_app. set_solver.
    + intros c' Hc'. apply Hp. rewrite fmap_app in Hc'. set_solver.
  - intros [b c'] o' Hin _. simpl. apply Nat.eqb_neq. intros ->.
    apply list.NoDup_app in Hn as (_ & Hd & _). apply (Hd c); [|set_solver].
    apply list_elem_of_fmap. by exists (b, c).
Qed.

Lemma conns_wf_set m xs c o :
  conns_wf m xs → is_Some (connection_pool m !! c) → conns_wf (set_connection c o m) xs.
Proof.
  intros [? ? ? Hp] Hc. split; [done .. |]. simpl. intros c' Hc'.
  destruct (decide (c = c')) as [->|]; [rewrite lookup_insert_eq; by eexists |].
  rewrite lookup_insert_ne by done. by apply Hp.
Qed.

(** The all-zero connection of [ConnectionObjectInitializeEmpty]. *)
Definition empty_connection : CipConnectionObject :=
  set_socket_consuming kEipInvalidSocket
    (set_socket_producing kEipInvalidSocket (set_state 0 zero_connection)).

Lemma CloseConnection_class3 m ys a c zs o :
  conns_wf m (ys ++ (a, c) :: zs) → connection_pool m !! c = Some o → is_class3 o = true →
  ∃ m', CloseConnection c m = Some m' ∧ conns_wf m' (ys ++ zs) ∧
    connection_pool m' = <[c := empty_connection]> (connection_pool m) ∧
    closed_sockets m' = closed_sockets m ∧ connection_nodes m' !! a = Some zero_node.
Proof.
  intros Hw Ho Hc. unfold CloseConnection. rewrite Ho. cbn [mbind option_bind].
  rewrite Hc. destruct (RemoveFromActiveConnections_spec _ _ _ _ _ Hw)
    as (m' & -> & Hw' & Hp & Hcl & _ & Hz).
  cbn [mbind option_bind]. change ConnectionObjectInitializeEmpty with (Some empty_connection).
  cbn [mbind option_bind]. eexists. split; [done |].
  split; [apply conns_wf_set; [done |]; rewrite Hp, Ho; by eexists |].
  simpl. by rewrite Hp.
Qed.

Section Sessions.
Context `{ConnectionCallbacks}.

Definition of_session (handle : Z) (o : CipConnectionObject) : bool :=
  is_class3 o && (associated_encapsulation_session o =? handle).

(** The loop passes the connections of other sessions. *)
Lemma close_class3_skip handle m ys xs p k :
  seg (connection_nodes m) p (ys ++ xs) None →
  (∀ y, y ∈ ys.*2 → ∃ o, connection_pool m !! y = Some o ∧ (of_session handle o = false)) →
  close_class3 handle (length ys + k) (head_ptr (ys ++ xs) None) m
  = close_class3 handle k (head_ptr xs None) m.
Proof.
  revert p. induction ys as [|[b y] ys IH]; intros p Hs Hy; [done |].
  destruct Hs as [Hb Hs]. simpl. rewrite Hb. simpl.
  destruct (Hy y) as (o & Ho & Hof); [simpl; set_solver |]. rewrite Ho. simpl.
  fold (of_session handle o). rewrite Hof. simpl. rewrite Hb. simpl.
  apply (IH (Some b)); [done |]. intros z Hz. apply Hy. simpl. set_solver.
Qed.

Lemma close_connection_class3 c m o :
  connection_pool m !! c = Some o → connection_close_function o = Some kCloseConnection →
  close_connection c m = CloseConnection c m.
Proof. intros Ho Hk. unfold close_connection. rewrite Ho. simpl. by rewrite Hk. Qed.

(** After the first match the loop reads the successor from the node it has
    just given back. *)
Lemma CloseClass3_first handle m ys a c zs o :
  conns_wf m (ys ++ (a, c) :: zs) →
  (∀ y, y ∈ ys.*2 → ∃ o, connection_pool m !! y = Some o ∧ (of_session handle o = false)) →
  connection_pool m !! c = Some o → of_session handle o = true →
  connection_close_function o = Some kCloseConnection →
  ∃ m', CloseClass3ConnectionBasedOnSession handle m = Some m' ∧ conns_wf m' (ys ++ zs) ∧
    connection_pool m' = <[c := empty_connection]> (connection_pool m) ∧
    closed_sockets m' = closed_sockets m.
Proof.
  intros Hw Hy Ho Hof Hk. pose proof (conns_list _ _ Hw) as Hl.
  unfold CloseClass3ConnectionBasedOnSession. rewrite (rep_first _ _ _ Hl).
  pose proof (conns_fuel _ _ Hw) as Hf. rewrite length_app in Hf. simpl in Hf.
  replace loop_fuel with (length ys + S (S (loop_fuel - length ys - 2)))%nat by lia.
  rewrite (close_class3_skip _ _ _ _ None) by (done || apply Hl). simpl.
  rewrite (represents_lookup _ _ _ _ _ _ Hl). simpl. rewrite Ho. simpl.
  fold (of_session handle o). rewrite Hof. rewrite (close_connection_class3 _ _ o) by done.
  apply andb_true_iff in Hof as [Hc _].
  destruct (CloseConnection_class3 _ _ _ _ _ _ Hw Ho Hc) as (m' & -> & Hw' & Hp & Hcl & Hz).
  simpl. rewrite Hz. simpl. by exists m'.
Qed.
End Sessions.

(** Connections of the list are not "nonexistent", as free slots are. *)
Definition listed_open (m : ConnManager) (xs : list (nat * nat)) : Prop :=
  ∀ c o, c ∈ xs.*2 → connection_pool m !! c = Some o →
    is_state kConnectionObjectStateNonExistent o = false.

Lemma free_explicit_spec k i m :
  (∀ j, (i <= j < i + k)%nat → is_Some (connection_pool m !! j)) →
  match free_explicit k i m with
  | None => False
  | Some None => ∀ j o, (i <= j < i + k)%nat → connection_pool m !! j = Some o →
                   is_state kConnectionObjectStateNonExistent o = false
  | Some (Some c) => (i <= c < i + k)%nat ∧ ∃ o, connection_pool m !! c = Some o ∧
                       is_state kConnectionObjectStateNonExistent o = true
  end.
Proof.
  revert i. induction k as [|k IH]; intros i Hp; simpl; [lia |].
  destruct (Hp i) as [o Ho]; [lia |]. rewrite Ho. simpl.
  destruct (is_state kConnectionObjectStateNonExistent o) eqn:Hs.
  - split; [lia | by exists o].
  - specialize (IH (S i)). destruct (free_explicit k (S i) m) as [[c|]|].
    + destruct IH as [Hr Hc]; [intros; apply Hp; lia |]. split; [lia | done].
    + intros j o' Hj Ho'. destruct (decide (j = i)) as [->|]; [congruence |].
      apply (IH ltac:(intros; apply Hp; lia) j); [lia | done].
    + apply IH. intros; apply Hp; lia.
Qed.

Lemma AddNewActiveConnection_spec m xs c o a :
  conns_wf m xs → (c ∉ xs.*2) → connection_pool m !! c = Some o →
  allocator (connection_nodes m) = Some a →
  ∃ m', AddNewActiveConnection c m = Some m' ∧ conns_wf m' ((a, c) :: xs) ∧
    connection_pool m' = <[c := set_state 3 o]> (connection_pool m) ∧
    closed_sockets m' = closed_sockets m.
Proof.
  intros [Hl Ha Hn Hp] Hc Ho Hal. unfold AddNewActiveConnection.
  destruct (array_insert_head _ _ _ c a Hl Ha Hal) as (l' & h' & -> & Hl' & Ha').
  simpl. rewrite Ho. simpl. eexists. split; [done |]. split; [|done].
  apply conns_wf_set; [|simpl; rewrite Ho; by eexists].
  split; simpl; [done | done | by apply list.NoDup_cons |].
  intros c' [->|Hc']%elem_of_cons; [rewrite Ho; by eexists | by apply Hp].
Qed.

Lemma search_head f m a c xs o :
  conns_wf m ((a, c) :: xs) → connection_pool m !! c = Some o → f c o = true →
  search f m = Some (Some (a, c)).
Proof.
  intros Hw Ho Hf. rewrite (search_spec _ _ _ Hw). f_equal.
  apply (first_match_split f m [] (a, c) xs o); [done | done |].
  intros y o' Hy. by apply elem_of_nil in Hy.
Qed.

(** The connection object that [EstablishClass3Connection] installs. *)
Definition class3_connection (ids : Z * Z) (o : CipConnectionObject) : CipConnectionObject :=
  set_state 3 (set_class3_callbacks
    (set_instance_type kConnectionObjectInstanceTypeExplicitMessaging
      (ConnectionObjectGeneralConfiguration ids (ConnectionObjectDeepCopy o)))).

Lemma class3_connection_fields ids o :
  state (class3_connection ids o) = 3 ∧
  instance_type (class3_connection ids o) = kConnectionObjectInstanceTypeExplicitMessaging ∧
  connection_close_function (class3_connection ids o) = Some kCloseConnection ∧
  transport_class_trigger (class3_connection ids o) = transport_class_trigger o.
Proof.
  unfold class3_connection, ConnectionObjectGeneralConfiguration, ConnectionObjectDeepCopy.
  cbv zeta. case_bool_decide; case_bool_decide; done.
Qed.

(** The connection manager as initialised: an empty list, six free slots. *)
Definition initial_manager : ConnManager :=
  InitializeClass3ConnectionData (mkConnManager DoublyLinkedListInitialize initial_array ∅ [] []).

Lemma initial_manager_pool j :
  (j < OPENER_CIP_NUM_EXPLICIT_CONNS)%nat →
  connection_pool initial_manager !! j = Some zero_connection.
Proof.
  unfold OPENER_CIP_NUM_EXPLICIT_CONNS. intros Hj.
  do 6 (destruct j as [|j]; [reflexivity |]). lia.
Qed.

Lemma initial_manager_wf : conns_wf initial_manager [].
Proof.
  split; [apply represents_initial | split | constructor | by intros c Hc%elem_of_nil].
  - intros a. split; [|intros Ha; exists zero_node; exact (initial_array_lookup a Ha)].
    intros [n Hn]. change (initial_array !! a = Some n) in Hn. unfold initial_array in Hn.
    apply elem_of_list_to_map_2, list_elem_of_fmap in Hn as (i & [= -> _] & Hi%elem_of_seq). lia.
  - intros a n Hn _. change (initial_array !! a = Some n) in Hn. unfold initial_array in Hn.
    by apply elem_of_list_to_map_2, list_elem_of_fmap in Hn as (i & [= _ ->] & _).
Qed.

(** Two connections of session 1, opened one after the other. *)
Definition session_connection (id : Z) : CipConnectionObject :=
  set_connection_close_function (Some kCloseConnection)
    (set_transport_class_trigger 0xA3 (set_cip_consumed_connection_id id
      (set_associated_encapsulation_session 1 zero_connection))).

Definition opened (c : nat) (m : ConnManager) : ConnManager :=
  default m (AddNewActiveConnection c (set_connection c (session_connection (Z.of_nat c)) m)).

Lemma opened_spec c m xs a :
  conns_wf m xs → c ∉ xs.*2 → is_Some (connection_pool m !! c) →
  allocator (connection_nodes m) = Some a →
  conns_wf (opened c m) ((a, c) :: xs) ∧
  connection_pool (opened c m)
  = <[c := set_state 3 (session_connection (Z.of_nat c))]> (connection_pool m).
Proof.
  intros Hw Hc Hp Ha. unfold opened.
  destruct (AddNewActiveConnection_spec (set_connection c (session_connection (Z.of_nat c)) m)
    xs c (session_connection (Z.of_nat c)) a) as (m' & -> & Hw' & Hp' & _).
  - by apply conns_wf_set.
  - done.
  - apply lookup_insert_eq.
  - done.
  - simpl in *. split; [done |]. by rewrite Hp', insert_insert_eq.
Qed.

(** Establishing takes a free explicit slot, if there is one, and puts it at the
    head of the list. *)
Lemma EstablishClass3_cases m xs ids o a :
  conns_wf m xs → listed_open m xs → allocator (connection_nodes m) = Some a →
  (∀ j, (j < OPENER_CIP_NUM_EXPLICIT_CONNS)%nat → is_Some (connection_pool m !! j)) →
  (EstablishClass3Connection ids o m
   = Some (kCipErrorConnectionFailure,
           Some kConnectionManagerExtendedStatusCodeErrorNoMoreConnectionsAvailable, m) ∧
   ∀ j o, (j < OPENER_CIP_NUM_EXPLICIT_CONNS)%nat → connection_pool m !! j = Some o →
     is_state kConnectionObjectStateNonExistent o = false) ∨
  ∃ c m', EstablishClass3Connection ids o m = Some (kCipErrorSuccess, None, m') ∧
    (c < OPENER_CIP_NUM_EXPLICIT_CONNS)%nat ∧ (c ∉ xs.*2) ∧
    conns_wf m' ((a, c) :: xs) ∧ listed_open m' ((a, c) :: xs) ∧
    connection_pool m' = <[c := class3_connection ids o]> (connection_pool m).
Proof.
  intros Hw Hopen Hal Hpool. unfold EstablishClass3Connection, GetFreeExplicitConnection.
  pose proof (free_explicit_spec OPENER_CIP_NUM_EXPLICIT_CONNS 0 m) as Hfree.
  destruct (free_explicit _ 0 m) as [[c|]|];
    [| left; split; [done |]; intros; eapply Hfree; [intros; apply Hpool; lia | | done]; lia
     | exfalso; apply Hfree; intros; apply Hpool; lia].
  destruct Hfree as (Hc & oc & Hoc & Hst); [intros; apply Hpool; lia |].
  right. exists c. cbn [mbind option_bind]. cbv zeta.
  assert (Hnin : c ∉ xs.*2).
  { intros Hin. pose proof (Hopen c oc Hin Hoc). congruence. }
  set (o1 := set_class3_callbacks _).
  change (class3_connection ids o) with (set_state 3 o1).
  destruct (AddNewActiveConnection_spec (set_connection c o1 m) xs c o1 a)
    as (m' & -> & Hw' & Hp' & _); [by apply conns_wf_set | done | by apply lookup_insert_eq | done |].
  simpl in Hp'. rewrite insert_insert_eq in Hp'. cbn [mbind option_bind].
  exists m'. split; [done |]. split; [lia |]. do 2 (split; [done |]). split; [|done].
  intros c' o' [->|Hin]%elem_of_cons Ho'; simpl in Ho'; rewrite Hp' in Ho'.
  - rewrite lookup_insert_eq in Ho'. by simplify_eq.
  - rewrite lookup_insert_ne in Ho' by (intros ->; done). by eapply Hopen.
Qed.

(** The connection at the head of the list is found by its consumed id. *)
Lemma GetConnectedObject_head m a c xs o :
  conns_wf m ((a, c) :: xs) → connection_pool m !! c = Some o → state o = 3 →
  GetConnectedObject (cip_consumed_connection_id o) m = Some (Some c).
Proof.
  intros Hw Ho Hs. unfold GetConnectedObject. erewrite search_head; [done | done | done |].
  cbn beta. rewrite Z.eqb_refl, andb_true_r. unfold is_state, ConnectionObjectGetState.
  by rewrite Hs.
Qed.

(** ** Properties *)

(** [EstablishClass3Connection] with a free list node: if all six explicit
    slots are taken it reports "no more connections" and changes nothing;
    otherwise it takes the first free slot, makes it an established explicit
    messaging connection at the head of the list, leaves every other connection
    alone and can be found by its consumed connection id; closing a class 3
    connection afterwards takes exactly it off the list and empties the slot. *)
Theorem EstablishClass3Connection_spec m xs ids o a :
  conns_wf m xs → listed_open m xs → allocator (connection_nodes m) = Some a →
  (∀ j, (j < OPENER_CIP_NUM_EXPLICIT_CONNS)%nat → is_Some (connection_pool m !! j)) →
  (EstablishClass3Connection ids o m
   = Some (kCipErrorConnectionFailure,
           Some kConnectionManagerExtendedStatusCodeErrorNoMoreConnectionsAvailable, m) ∧
   ∀ j o, (j < OPENER_CIP_NUM_EXPLICIT_CONNS)%nat → connection_pool m !! j = Some o →
     is_state kConnectionObjectStateNonExistent o = false) ∨
  ∃ c m', EstablishClass3Connection ids o m = Some (kCipErrorSuccess, None, m') ∧
    (c < OPENER_CIP_NUM_EXPLICIT_CONNS)%nat ∧ (c ∉ xs.*2) ∧
    conns_wf m' ((a, c) :: xs) ∧ listed_open m' ((a, c) :: xs) ∧
    connection_pool m' = <[c := class3_connection ids o]> (connection_pool m) ∧
    GetConnectedObject (cip_consumed_connection_id (class3_connection ids o)) m'
      = Some (Some c) ∧
    (is_class3 o = true → ∃ m'', CloseConnection c m' = Some m'' ∧ conns_wf m'' xs ∧
       connection_pool m'' = <[c := empty_connection]> (connection_pool m)).
Proof.
  intros Hw Hopen Hal Hpool.
  destruct (EstablishClass3_cases m xs ids o a) as [Hn | (c & m' & E & Hc & Hnin & Hw' & Ho' & Hp')];
    [done .. | by left |].
  right. exists c, m'. do 6 (split; [done |]).
  pose proof (class3_connection_fields ids o) as (F1 & F2 & F3 & F4).
  assert (Hoc : connection_pool m' !! c = Some (class3_connection ids o))
    by (rewrite Hp'; apply lookup_insert_eq).
  split; [by eapply GetConnectedObject_head |]. intros Hcls.
  destruct (CloseConnection_class3 m' [] a c xs (class3_connection ids o))
    as (m'' & E'' & Hw'' & Hp'' & _); [done | done | | ].
  { unfold is_class3, ConnectionObjectGetTransportClassTriggerTransportClass in *.
    by rewrite F4. }
  exists m''. split; [done |]. split; [done |]. by rewrite Hp'', Hp', insert_insert_eq.
Qed.

Lemma EstablishClass3Connection_spec_witness :
  ∃ c m', EstablishClass3Connection (1, 2) (session_connection 7) initial_manager
          = Some (kCipErrorSuccess, None, m') ∧ conns_wf m' [(0%nat, c)].
Proof.
  destruct (EstablishClass3Connection_spec initial_manager [] (1, 2) (session_connection 7) 0%nat)
    as [[_ H] | (c & m' & H)].
  - exact initial_manager_wf.
  - intros c o Hc. by apply elem_of_nil in Hc.
  - vm_compute. reflexivity.
  - intros j Hj. rewrite initial_manager_pool by exact Hj. by eexists.
  - exfalso. specialize (H 0%nat zero_connection ltac:(unfold OPENER_CIP_NUM_EXPLICIT_CONNS; lia)
      (initial_manager_pool 0%nat ltac:(unfold OPENER_CIP_NUM_EXPLICIT_CONNS; lia))).
    vm_compute in H. discriminate.
  - exists c, m'. split; apply H.
Defined.

(** Closing the class 3 connections of a session closes only the first one
    of them: the close function zeroes the list node before the loop reads the
    successor from it, so the loop ends there and every connection of the
    session further down the list stays listed with its object unchanged. *)
Theorem CloseClass3ConnectionBasedOnSession_first_only `{ConnectionCallbacks} handle m ys a c
    zs o :
  conns_wf m (ys ++ (a, c) :: zs) →
  (∀ y, y ∈ ys.*2 → ∃ o, connection_pool m !! y = Some o ∧ (of_session handle o = false)) →
  connection_pool m !! c = Some o → of_session handle o = true →
  connection_close_function o = Some kCloseConnection →
  ∃ m', CloseClass3ConnectionBasedOnSession handle m = Some m' ∧ conns_wf m' (ys ++ zs) ∧
    connection_pool m' !! c = Some empty_connection ∧
    ∀ c', c' ∈ zs.*2 → connection_pool m' !! c' = connection_pool m !! c'.
Proof.
  intros Hw Hy Ho Hof Hk.
  destruct (CloseClass3_first _ _ _ _ _ _ _ Hw Hy Ho Hof Hk) as (m' & E & Hw' & Hp & _).
  exists m'. split; [done |]. split; [done |]. rewrite Hp. split; [apply lookup_insert_eq |].
  intros c' Hc'. apply lookup_insert_ne. intros ->. pose proof (conns_nodup _ _ Hw) as Hn.
  rewrite fmap_app in Hn. simpl in Hn.
  by apply list.NoDup_app in Hn as (_ & _ & [Hn _]%list.NoDup_cons).
Qed.

Lemma CloseClass3ConnectionBasedOnSession_first_only_witness :
  let m := opened 1 (opened 0 initial_manager) in
  ∃ m', @CloseClass3ConnectionBasedOnSession {| close_io_connection _ _ _ := None |} 1 m
        = Some m' ∧ conns_wf m' [(0%nat, 0%nat)] ∧
    connection_pool m' !! 0%nat = Some (set_state 3 (session_connection 0)).
Proof.
  intros m.
  destruct (opened_spec 0%nat initial_manager [] 0%nat) as [Hw0 Hp0].
  { exact initial_manager_wf. } { intros Hc. by apply elem_of_nil in Hc. }
  { rewrite initial_manager_pool by (unfold OPENER_CIP_NUM_EXPLICIT_CONNS; lia). by eexists. }
  { vm_compute. reflexivity. }
  destruct (opened_spec 1%nat (opened 0 initial_manager) [(0%nat, 0%nat)] 1%nat) as [Hw1 Hp1].
  { exact Hw0. } { set_solver. }
  { rewrite Hp0, lookup_insert_ne by done.
    rewrite initial_manager_pool by (unfold OPENER_CIP_NUM_EXPLICIT_CONNS; lia). by eexists. }
  { vm_compute. reflexivity. }
  destruct (CloseClass3ConnectionBasedOnSession_first_only
    (H := {| close_io_connection _ _ _ := None |}) 1 m [] 1%nat 1%nat [(0%nat, 0%nat)]
    (set_state 3 (session_connection 1))) as (m' & E & Hw' & _ & Hrest).
  - exact Hw1.
  - intros y Hy. by apply elem_of_nil in Hy.
  - unfold m. rewrite Hp1. apply lookup_insert_eq.
  - vm_compute. reflexivity.
  - reflexivity.
  - exists m'. split; [exact E |]. split; [exact Hw' |].
    rewrite (Hrest 0%nat (list_elem_of_here _ _)). unfold m.
    rewrite Hp1, lookup_insert_ne by lia. rewrite Hp0. apply lookup_insert_eq.
Defined.
