(* ===== verification/AppConType.v ===== *)
(** * I/O connection points: [cip/appcontype.c]

    The exclusive owner, input only and listen only connection points the
    application configures, the choice of the connection object for a Forward
    Open, and the searches and closings over the active I/O connections.  The
    close functions of I/O connections are those of [ConnectionCallbacks]. *)

From S2P Require Import Prelude EndianConv EPath CipTypes CipCodec SocketTimer ConnRecord ConnObject ConnList.
From S2P Require Import LinkedList.
Open Scope Z_scope.

(** ** Data *)

(** The numbers of the POSIX sample configuration. *)
Definition OPENER_CIP_NUM_EXLUSIVE_OWNER_CONNS : nat := 1.
Definition OPENER_CIP_NUM_INPUT_ONLY_CONNS : nat := 1.
Definition OPENER_CIP_NUM_INPUT_ONLY_CONNS_PER_CON_PATH : nat := 3.
Definition OPENER_CIP_NUM_LISTEN_ONLY_CONNS : nat := 1.
Definition OPENER_CIP_NUM_LISTEN_ONLY_CONNS_PER_CON_PATH : nat := 3.

Record ConnectionPoint := mkPoint {
  output_assembly : Z; input_assembly : Z; config_assembly : Z }.

(** The three arrays without their [connection_data], which is in the connection
    pool behind the explicit connections. *)
Record IoPoints := mkIoPoints {
  g_exlusive_owner_connections : list ConnectionPoint;
  g_input_only_connections : list ConnectionPoint;
  g_listen_only_connections : list ConnectionPoint }.

Definition exclusive_owner_data (i : nat) : nat := OPENER_CIP_NUM_EXPLICIT_CONNS + i.
Definition input_only_data (i j : nat) : nat :=
  OPENER_CIP_NUM_EXPLICIT_CONNS + OPENER_CIP_NUM_EXLUSIVE_OWNER_CONNS
  + i * OPENER_CIP_NUM_INPUT_ONLY_CONNS_PER_CON_PATH + j.
Definition listen_only_data (i j : nat) : nat :=
  OPENER_CIP_NUM_EXPLICIT_CONNS + OPENER_CIP_NUM_EXLUSIVE_OWNER_CONNS
  + OPENER_CIP_NUM_INPUT_ONLY_CONNS * OPENER_CIP_NUM_INPUT_ONLY_CONNS_PER_CON_PATH
  + i * OPENER_CIP_NUM_LISTEN_ONLY_CONNS_PER_CON_PATH + j.

(** All I/O connection objects. *)
Definition io_connections : list nat :=
  seq OPENER_CIP_NUM_EXPLICIT_CONNS
    (OPENER_CIP_NUM_EXLUSIVE_OWNER_CONNS
     + OPENER_CIP_NUM_INPUT_ONLY_CONNS * OPENER_CIP_NUM_INPUT_ONLY_CONNS_PER_CON_PATH
     + OPENER_CIP_NUM_LISTEN_ONLY_CONNS * OPENER_CIP_NUM_LISTEN_ONLY_CONNS_PER_CON_PATH).

(** The arrays after [memset], and their connection data. *)
Definition zero_points (n : nat) : list ConnectionPoint := replicate n (mkPoint 0 0 0).

Definition InitializeIoConnectionData (m : ConnManager) : IoPoints * ConnManager :=
  (mkIoPoints (zero_points OPENER_CIP_NUM_EXLUSIVE_OWNER_CONNS)
     (zero_points OPENER_CIP_NUM_INPUT_ONLY_CONNS)
     (zero_points OPENER_CIP_NUM_LISTEN_ONLY_CONNS),
   foldr (λ c, set_connection c zero_connection) m io_connections).

(** Numbers that are out of range are ignored. *)
Definition ConfigureExclusiveOwnerConnectionPoint (connection_number : nat)
    (output_assembly input_assembly config_assembly : Z) (p : IoPoints) : IoPoints :=
  if (connection_number <? OPENER_CIP_NUM_EXLUSIVE_OWNER_CONNS)%nat
  then mkIoPoints
         (<[connection_number := mkPoint output_assembly input_assembly config_assembly]>
            (g_exlusive_owner_connections p))
         (g_input_only_connections p) (g_listen_only_connections p)
  else p.

Definition ConfigureInputOnlyConnectionPoint (connection_number : nat)
    (output_assembly input_assembly config_assembly : Z) (p : IoPoints) : IoPoints :=
  if (connection_number <? OPENER_CIP_NUM_INPUT_ONLY_CONNS)%nat
  then mkIoPoints (g_exlusive_owner_connections p)
         (<[connection_number := mkPoint output_assembly input_assembly config_assembly]>
            (g_input_only_connections p))
         (g_listen_only_connections p)
  else p.

Definition ConfigureListenOnlyConnectionPoint (connection_number : nat)
    (output_assembly input_assembly config_assembly : Z) (p : IoPoints) : IoPoints :=
  if (connection_number <? OPENER_CIP_NUM_LISTEN_ONLY_CONNS)%nat
  then mkIoPoints (g_exlusive_owner_connections p) (g_input_only_connections p)
         (<[connection_number := mkPoint output_assembly input_assembly config_assembly]>
            (g_listen_only_connections p))
  else p.

(** ** Searches over the connection list *)

Definition is_type (t t' : ConnectionObjectConnectionType) : bool := bool_decide (t = t').

Definition existing_producer (multicast_only : bool) (input_point : Z)
    (o : CipConnectionObject) : bool :=
  ConnectionObjectIsTypeIOConnection o
  && (input_point =? epath_instance_id (produced_path o))
  && negb (kEipInvalidSocket =? socket_producing o)
  && (is_type kConnectionObjectConnectionTypeMulticast (ConnectionObjectGetTToOConnectionType o)
      || negb multicast_only
         && is_type kConnectionObjectConnectionTypePointToPoint
              (ConnectionObjectGetTToOConnectionType o)).

Definition GetExistingProducerIoConnection (multicast_only : bool) (input_point : Z)
    (m : ConnManager) : option (option nat) :=
  r ← search (λ _, existing_producer multicast_only input_point) m;
  Some (option_map snd r).

Definition non_control_master (input_point : Z) (o : CipConnectionObject) : bool :=
  ConnectionObjectIsTypeNonLOIOConnection o
  && is_state kConnectionObjectStateEstablished o
  && (input_point =? epath_instance_id (produced_path o))
  && is_type kConnectionObjectConnectionTypeMulticast (ConnectionObjectGetTToOConnectionType o)
  && (kEipInvalidSocket =? socket_producing o).

Definition GetNextNonControlMasterConnection (input_point : Z) (m : ConnManager)
  : option (option nat) :=
  r ← search (λ _, non_control_master input_point) m;
  Some (option_map snd r).

Definition ConnectionWithSameConfigPointExists (config_point : Z) (m : ConnManager)
  : option bool :=
  r ← search (λ _ o, config_point =? epath_instance_id (configuration_path o)) m;
  Some (match r with Some _ => true | None => false end).

(** The application's [CheckIoConnectionEvent]. *)
Definition CheckIoConnectionEvent (output_assembly_id input_assembly_id : Z)
    (event : IoConnectionEvent) (m : ConnManager) : ConnManager :=
  mkConnManager (connection_list m) (connection_nodes m) (connection_pool m)
    (closed_sockets m) ((output_assembly_id, input_assembly_id, event) :: io_events m).

(** ** Closing *)

Section Closing.
Context `{ConnectionCallbacks}.

(** The loop reads the successor of a node before it closes the connection. *)
Fixpoint close_all_for_input (input_point instance_type : Z) (fuel : nat) (node : ptr)
    (m : ConnManager) : option ConnManager :=
  match fuel with
  | O => None
  | S fuel =>
      match node with
      | None => Some m
      | Some _ =>
          n ← deref node (connection_nodes m);
          c ← data n;
          let node := next n in
          o ← connection_pool m !! c;
          m ← (if (instance_type =? ConnRecord.instance_type o)
                  && (input_point =? epath_instance_id (produced_path o))
               then close_connection c
                      (CheckIoConnectionEvent (epath_instance_id (consumed_path o))
                         (epath_instance_id (produced_path o)) kIoConnectionEventClosed m)
               else Some m);
          close_all_for_input input_point instance_type fuel node m
      end
  end.

Definition CloseAllConnectionsForInputWithSameType (input_point instance_type : Z)
    (m : ConnManager) : option ConnManager :=
  close_all_for_input input_point instance_type loop_fuel (first (connection_list m)) m.

(** Closes the first connection until the list is empty. *)
Fixpoint close_all (fuel : nat) (m : ConnManager) : option ConnManager :=
  match fuel with
  | O => None
  | S fuel =>
      match first (connection_list m) with
      | None => Some m
      | Some a =>
          n ← deref (Some a) (connection_nodes m);
          c ← data n;
          m ← close_connection c m;
          close_all fuel m
      end
  end.

Definition CloseAllConnections (m : ConnManager) : option ConnManager :=
  close_all loop_fuel m.

(** ** The connection object for a Forward Open *)

Definition kConnectionManagerExtendedStatusCodeErrorOwnershipConflict : Z := 0x0106.
Definition kConnectionManagerExtendedStatusCodeNonListenOnlyConnectionNotOpened : Z := 0x0119.
Definition kConnectionManagerExtendedStatusCodeTargetObjectOutOfConnections : Z := 0x011A.
Definition kConnectionManagerExtendedStatusCodeInvalidProducingApplicationPath : Z := 0x012B.
Definition kConnectionManagerExtendedStatusCodeInconsistentApplicationPathCombo : Z := 0x012F.

(** A connection object or NULL, [*extended_error], the connections. *)
Definition Found : Type := option nat * Z * ConnManager.

Definition point_of (o : CipConnectionObject) : ConnectionPoint :=
  mkPoint (epath_instance_id (consumed_path o)) (epath_instance_id (produced_path o))
    (epath_instance_id (configuration_path o)).

Definition same_point (p q : ConnectionPoint) : bool :=
  (output_assembly p =? output_assembly q) && (input_assembly p =? input_assembly q)
  && (config_assembly p =? config_assembly q).

(** The loop from index [i] on; the first matching point decides. *)
Fixpoint exclusive_owner_loop (l : list ConnectionPoint) (i : nat) (o : CipConnectionObject)
    (extended_error : Z) (m : ConnManager) : option Found :=
  match l with
  | [] => Some (None, extended_error, m)
  | p :: l =>
      if same_point p (point_of o) then
        exclusive_owner ← GetConnectedOutputAssembly (epath_instance_id (produced_path o)) m;
        match exclusive_owner with
        | None => Some (Some (exclusive_owner_data i), extended_error, m)
        | Some e =>
            eo ← connection_pool m !! e;
            if is_state kConnectionObjectStateEstablished eo
            then Some (None, kConnectionManagerExtendedStatusCodeErrorOwnershipConflict, m)
            else if is_state kConnectionObjectStateTimedOut eo
                    && ConnectionObjectEqualOriginator o eo
            then m ← close_connection (exclusive_owner_data i) m;
                 Some (Some (exclusive_owner_data i), extended_error, m)
            else Some (None, kConnectionManagerExtendedStatusCodeErrorOwnershipConflict, m)
        end
      else exclusive_owner_loop l (S i) o extended_error m
  end.

Definition GetExclusiveOwnerConnection (p : IoPoints) (o : CipConnectionObject)
    (extended_error : Z) (m : ConnManager) : option Found :=
  exclusive_owner_loop (g_exlusive_owner_connections p) 0 o extended_error m.

(** The first of [k] objects from [c] on that passes the test. *)
Fixpoint find_data (test : CipConnectionObject → bool) (k c : nat) (m : ConnManager)
  : option (option nat) :=
  match k with
  | O => Some None
  | S k =>
      o ← connection_pool m !! c;
      if test o then Some (Some c) else find_data test k (S c) m
  end.

(** A free object of a connection point: one of the same originator that has timed
    out, which is closed first, or one that does not exist. *)
Definition take_data (k c : nat) (o : CipConnectionObject) (m : ConnManager) : option Found :=
  timed_out ← find_data (λ d, is_state kConnectionObjectStateTimedOut d
                              && ConnectionObjectEqualOriginator o d) k c m;
  match timed_out with
  | Some c => m ← close_connection c m; Some (Some c, 0, m)
  | None =>
      free ← find_data (is_state kConnectionObjectStateNonExistent) k c m;
      match free with
      | Some c => Some (Some c, 0, m)
      | None =>
          Some (None, kConnectionManagerExtendedStatusCodeTargetObjectOutOfConnections, m)
      end
  end.

(** The loop of both functions: [base] is the first object of point [i], [check] an
    additional condition with its error. *)
Section PointLoop.
Variables (per_path : nat) (base : nat → nat).
Variable check : CipConnectionObject → ConnManager → option (option Z).

Fixpoint point_loop (l : list ConnectionPoint) (i : nat) (o : CipConnectionObject) (err : Z)
    (m : ConnManager) : option Found :=
  match l with
  | [] => Some (None, err, m)
  | p :: l =>
      let q := point_of o in
      if output_assembly p =? output_assembly q then
        if negb (input_assembly p =? input_assembly q) then
          point_loop l (S i) o
            kConnectionManagerExtendedStatusCodeInvalidProducingApplicationPath m
        else if negb (config_assembly p =? config_assembly q) then
          point_loop l (S i) o
            kConnectionManagerExtendedStatusCodeInconsistentApplicationPathCombo m
        else
          refused ← check o m;
          match refused with
          | Some err => Some (None, err, m)
          | None => take_data per_path (base i) o m
          end
      else point_loop l (S i) o err m
  end.
End PointLoop.

(** [*extended_error] is written only where NULL is returned. *)
Definition written (r : Found) (extended_error : Z) : Found :=
  match r with (Some c, _, m) => (Some c, extended_error, m) | r => r end.

Definition GetInputOnlyConnection (p : IoPoints) (o : CipConnectionObject)
    (extended_error : Z) (m : ConnManager) : option Found :=
  r ← point_loop OPENER_CIP_NUM_INPUT_ONLY_CONNS_PER_CON_PATH (λ i, input_only_data i 0)
        (λ _ _, Some None) (g_input_only_connections p) 0 o 0 m;
  Some (written r extended_error).

(** A listen only connection needs another connection that produces its input. *)
Definition producer_exists (o : CipConnectionObject) (m : ConnManager) : option (option Z) :=
  producer ← GetExistingProducerIoConnection false (epath_instance_id (produced_path o)) m;
  Some (match producer with
        | Some _ => None
        | None => Some kConnectionManagerExtendedStatusCodeNonListenOnlyConnectionNotOpened
        end).

Definition GetListenOnlyConnection (p : IoPoints) (o : CipConnectionObject)
    (extended_error : Z) (m : ConnManager) : option Found :=
  r ← point_loop OPENER_CIP_NUM_LISTEN_ONLY_CONNS_PER_CON_PATH (λ i, listen_only_data i 0)
        producer_exists (g_listen_only_connections p) 0 o 0 m;
  Some (written r extended_error).

(** Also the connection object, whose instance type is set, even where listen only
    fails with an error. *)
Definition GetIoConnectionForConnectionData (p : IoPoints) (o : CipConnectionObject)
    (m : ConnManager) : option (option nat * Z * CipConnectionObject * ConnManager) :=
  '(io, e, m) ← GetExclusiveOwnerConnection p o 0 m;
  '(io, e, o, m) ←
    match io with
    | Some _ =>
        Some (io, e, set_instance_type kConnectionObjectInstanceTypeIOExclusiveOwner o, m)
    | None =>
        if negb (e =? 0) then Some (io, e, o, m) else
        '(io, e, m) ← GetInputOnlyConnection p o e m;
        match io with
        | Some _ => Some (io, e, set_instance_type kConnectionObjectInstanceTypeIOInputOnly o, m)
        | None =>
            if negb (e =? 0) then Some (io, e, o, m) else
            '(io, e, m) ← GetListenOnlyConnection p o e m;
            match io with
            | None =>
                if e =? 0
                then Some (io, kConnectionManagerExtendedStatusCodeInconsistentApplicationPathCombo,
                           o, m)
                else Some (io, e,
                           set_instance_type kConnectionObjectInstanceTypeIOListenOnly o, m)
            | Some _ =>
                Some (io, e, set_instance_type kConnectionObjectInstanceTypeIOListenOnly o, m)
            end
        end
    end;
  Some (io, e, o,
        match io with
        | Some c => set_connection c (ConnectionObjectDeepCopy o) m
        | None => m
        end).
End Closing.
