(* ===== verification/IoClose.v ===== *)
(** * Closing I/O connections: [cip/cipioconnection.c]

    The close function of I/O connections, which hands the socket of a multicast
    producer over to another connection or closes the listeners with it.  Closing a
    connection can close others through the same function pointer; the nesting is
    bounded by a depth, and the theorems show that two levels are enough. *)

From S2P Require Import Prelude EndianConv EPath CipTypes CipCodec CipClasses SocketTimer ConnRecord ConnObject.
From S2P Require Import LinkedList ConnList AppConType.
Open Scope Z_scope.

(** The function pointers of an I/O connection, by number. *)
Definition kCloseIoConnection : nat := 1.
Definition kHandleIoConnectionTimeOut : nat := 1.
Definition kSendConnectedData : nat := 1.
Definition kHandleReceivedIoConnectionData : nat := 1.

Definition SetIoConnectionCallbacks (io_connection_object : CipConnectionObject)
  : CipConnectionObject :=
  set_connection_receive_data_function (Some kHandleReceivedIoConnectionData)
    (set_connection_send_data_function (Some kSendConnectedData)
       (set_connection_timeout_function (Some kHandleIoConnectionTimeOut)
          (set_connection_close_function (Some kCloseIoConnection) io_connection_object))).

(** What the new master of a multicast connection takes over besides the socket. *)
Definition take_over (from active : CipConnectionObject) : CipConnectionObject :=
  let o := set_remote_address (remote_address from) active in
  let o := set_eip_level_sequence_count_producing (eip_level_sequence_count_producing from) o in
  let o := set_sequence_count_producing (sequence_count_producing from) o in
  set_transmission_trigger_timer (transmission_trigger_timer from) o.

(** [true] for the result 0. *)
Definition transfer_master_connection (c : nat) (m : ConnManager) : option (bool * ConnManager) :=
  o ← connection_pool m !! c;
  active ← GetNextNonControlMasterConnection (epath_instance_id (produced_path o)) m;
  match active with
  | None => Some (false, m)
  | Some a =>
      x ← connection_pool m !! a;
      let m := set_connection a (set_socket_producing (socket_producing o) x) m in
      o ← connection_pool m !! c;
      let m := set_connection c (set_socket_producing kEipInvalidSocket o) m in
      o ← connection_pool m !! c;
      x ← connection_pool m !! a;
      Some (true, set_connection a (take_over o x) m)
  end.

Definition CloseCommunicationChannelsAndRemoveFromActiveConnectionsList (c : nat)
    (m : ConnManager) : option ConnManager :=
  o ← connection_pool m !! c;
  let m := if kEipInvalidSocket =? socket_consuming o then m
           else CloseUdpSocket (socket_consuming o) m in
  let m := if kEipInvalidSocket =? socket_producing o then m
           else CloseUdpSocket (socket_producing o) m in
  m ← RemoveFromActiveConnections c m;
  o ← ConnectionObjectInitializeEmpty;
  Some (set_connection c o m).

(** A connection that produces multicast data for others as well. *)
Definition controls_multicast (o : CipConnectionObject) : bool :=
  ((instance_type o =? kConnectionObjectInstanceTypeIOExclusiveOwner)
   || (instance_type o =? kConnectionObjectInstanceTypeIOInputOnly))
  && is_type kConnectionObjectConnectionTypeMulticast (ConnectionObjectGetTToOConnectionType o)
  && negb (kEipInvalidSocket =? socket_producing o).

Definition report_event (event : IoConnectionEvent) (o : CipConnectionObject) (m : ConnManager)
  : ConnManager :=
  CheckIoConnectionEvent (epath_instance_id (consumed_path o))
    (epath_instance_id (produced_path o)) event m.

(** The middle part of closing and timing out: whether the producer was handed over. *)
Definition hand_over `{ConnectionCallbacks} (c : nat) (m : ConnManager)
  : option (bool * ConnManager) :=
  o ← connection_pool m !! c;
  if controls_multicast o then
    '(transferred, m) ← transfer_master_connection c m;
    if transferred : bool then Some (true, m)
    else
      m ← CloseAllConnectionsForInputWithSameType (epath_instance_id (produced_path o))
            kConnectionObjectInstanceTypeIOListenOnly m;
      Some (false, m)
  else Some (false, m).

Definition CloseIoConnection `{ConnectionCallbacks} (c : nat) (m : ConnManager)
  : option ConnManager :=
  o ← connection_pool m !! c;
  let m := report_event kIoConnectionEventClosed o m in
  o ← ConnectionObjectSetState kConnectionObjectStateNonExistent o;
  '(_, m) ← hand_over c (set_connection c o m);
  CloseCommunicationChannelsAndRemoveFromActiveConnectionsList c m.

(** The close function pointers, [depth] nested calls allowed. *)
Fixpoint close_io (depth : nat) (k c : nat) (m : ConnManager) : option ConnManager :=
  match depth with
  | O => None
  | S depth =>
      if (k =? kCloseIoConnection)%nat
      then @CloseIoConnection {| close_io_connection := close_io depth |} c m
      else None
  end.

Definition close_depth : nat := 2.

Definition io_callbacks : ConnectionCallbacks := {|
  close_io_connection := close_io close_depth |}.

(** ** Lemmas *)

Lemma conns_wf_same m m' xs :
  connection_list m' = connection_list m → connection_nodes m' = connection_nodes m →
  connection_pool m' = connection_pool m → conns_wf m xs → conns_wf m' xs.
Proof. intros E1 E2 E3 [? ? ? ?]. split; rewrite ?E1, ?E2, ?E3; done. Qed.

Lemma conns_wf_event m xs e o : conns_wf m xs → conns_wf (report_event e o m) xs.
Proof. by apply conns_wf_same. Qed.

(** The valid sockets of a connection, as they are closed. *)
Definition sockets_of (o : CipConnectionObject) : list Z :=
  (if kEipInvalidSocket =? socket_producing o then [] else [socket_producing o])
  ++ (if kEipInvalidSocket =? socket_consuming o then [] else [socket_consuming o]).

Lemma close_channels_spec m ys a c zs o :
  conns_wf m (ys ++ (a, c) :: zs) → connection_pool m !! c = Some o →
  ∃ m', CloseCommunicationChannelsAndRemoveFromActiveConnectionsList c m = Some m' ∧
    conns_wf m' (ys ++ zs) ∧ connection_pool m' = <[c := empty_connection]> (connection_pool m) ∧
    closed_sockets m' = sockets_of o ++ closed_sockets m ∧ io_events m' = io_events m.
Proof.
  intros Hw Ho. unfold CloseCommunicationChannelsAndRemoveFromActiveConnectionsList.
  rewrite Ho. cbn [mbind option_bind].
  set (m1 := if kEipInvalidSocket =? socket_consuming o then m else _).
  set (m2 := if kEipInvalidSocket =? socket_producing o then m1 else _).
  assert (H2 : connection_list m2 = connection_list m ∧ connection_nodes m2 = connection_nodes m ∧
    connection_pool m2 = connection_pool m ∧ io_events m2 = io_events m ∧
    closed_sockets m2 = sockets_of o ++ closed_sockets m).
  { unfold m2, m1, sockets_of, CloseUdpSocket, CloseSocket.
    destruct (kEipInvalidSocket =? socket_consuming o), (kEipInvalidSocket =? socket_producing o);
      by split_and!. }
  destruct H2 as (E1 & E2 & E3 & E4 & E5).
  destruct (RemoveFromActiveConnections_spec m2 ys a c zs) as (m' & -> & Hw' & Hp & Hc & He & _);
    [by apply (conns_wf_same m) |].
  cbn [mbind option_bind]. change ConnectionObjectInitializeEmpty with (Some empty_connection).
  cbn [mbind option_bind]. eexists. split; [done |].
  split; [apply conns_wf_set; [done |]; rewrite Hp, E3, Ho; by eexists |].
  cbn [set_connection connection_pool closed_sockets io_events].
  rewrite Hp, E3, Hc, E5, He, E4. by split_and!.
Qed.

(** Closing a connection that does not control a multicast producer. *)
Definition close_plain (c : nat) (m : ConnManager) : option ConnManager :=
  o ← connection_pool m !! c;
  CloseCommunicationChannelsAndRemoveFromActiveConnectionsList c
    (set_connection c (set_state 0 o) (report_event kIoConnectionEventClosed o m)).

Lemma CloseIoConnection_plain `{ConnectionCallbacks} c m o :
  connection_pool m !! c = Some o → controls_multicast o = false →
  CloseIoConnection c m = close_plain c m.
Proof.
  intros Ho Hc. unfold CloseIoConnection, close_plain. rewrite Ho. cbn [mbind option_bind].
  change (ConnectionObjectSetState kConnectionObjectStateNonExistent o) with (Some (set_state 0 o)).
  cbn [mbind option_bind]. unfold hand_over. cbn [set_connection connection_pool].
  rewrite lookup_insert_eq. cbn [mbind option_bind].
  change (controls_multicast (set_state 0 o)) with (controls_multicast o). by rewrite Hc.
Qed.

(** Close functions that treat such connections alike. *)
Definition plain_closing (H : ConnectionCallbacks) : Prop :=
  ∀ k c m o, connection_pool m !! c = Some o → controls_multicast o = false →
    close_io_connection k c m = if (k =? kCloseIoConnection)%nat then close_plain c m else None.

Lemma close_io_plain d : plain_closing {| close_io_connection := close_io (S d) |}.
Proof.
  intros k c m o Ho Hc. cbn [close_io_connection close_io].
  destruct (k =? kCloseIoConnection)%nat; [|done]. by eapply CloseIoConnection_plain.
Qed.

Lemma listener_plain o :
  instance_type o = kConnectionObjectInstanceTypeIOListenOnly → controls_multicast o = false.
Proof. unfold controls_multicast. by intros ->. Qed.

Lemma close_all_for_input_plain H H' ip fuel node m :
  plain_closing H → plain_closing H' →
  @close_all_for_input H ip kConnectionObjectInstanceTypeIOListenOnly fuel node m
  = @close_all_for_input H' ip kConnectionObjectInstanceTypeIOListenOnly fuel node m.
Proof.
  intros P P'. revert node m. induction fuel as [|fuel IH]; intros node m; [done |].
  cbn [close_all_for_input]. destruct node as [a|]; [|done].
  destruct (deref (Some a) _) as [n|]; [|done]. cbn [mbind option_bind].
  destruct (data n) as [c|]; [|done]. cbn [mbind option_bind].
  destruct (connection_pool m !! c) as [o|] eqn:Ho; [|done]. cbn [mbind option_bind].
  destruct (_ && _) eqn:E; [|apply IH].
  apply andb_prop in E as [E _]. apply Z.eqb_eq in E. symmetry in E.
  assert (Hc : ∀ m', connection_pool m' = connection_pool m →
    @close_connection H c m' = @close_connection H' c m').
  { intros m' Hm'. unfold close_connection. rewrite Hm', Ho. cbn [mbind option_bind].
    destruct (connection_close_function o) as [k|]; [|done]. cbn [mbind option_bind].
    case_match; [done |].
    assert (Ho' : connection_pool m' !! c = Some o) by (rewrite Hm'; exact Ho).
    etransitivity; [exact (P k c m' o Ho' (listener_plain o E)) |].
    symmetry. exact (P' k c m' o Ho' (listener_plain o E)). }
  rewrite Hc by done. destruct (@close_connection H' c _); [|done]. cbn [mbind option_bind]. apply IH.
Qed.

Lemma hand_over_callbacks H H' c m :
  plain_closing H → plain_closing H' → @hand_over H c m = @hand_over H' c m.
Proof.
  intros P P'. unfold hand_over.
  destruct (connection_pool _ !! c) as [x|]; cbn [mbind option_bind]; [|reflexivity].
  destruct (controls_multicast x); [|reflexivity].
  destruct (transfer_master_connection c _) as [[[|] m']|]; cbn [mbind option_bind];
    [reflexivity | | reflexivity].
  unfold CloseAllConnectionsForInputWithSameType.
  by rewrite (close_all_for_input_plain H H').
Qed.

(** More depth than [close_depth] changes nothing. *)
Lemma CloseIoConnection_callbacks H H' c m :
  plain_closing H → plain_closing H' → @CloseIoConnection H c m = @CloseIoConnection H' c m.
Proof.
  intros P P'. unfold CloseIoConnection.
  destruct (connection_pool m !! c) as [o|]; cbn [mbind option_bind]; [|reflexivity].
  destruct (ConnectionObjectSetState _ o) as [o'|]; cbn [mbind option_bind]; [|reflexivity].
  by rewrite (hand_over_callbacks H H').
Qed.

(** *** Closing the listeners of an input *)

Definition listens (ip : Z) (o : CipConnectionObject) : bool :=
  (instance_type o =? kConnectionObjectInstanceTypeIOListenOnly)
  && (epath_instance_id (produced_path o) =? ip).

Definition listener (m : ConnManager) (ip : Z) (c : nat) : bool :=
  match connection_pool m !! c with Some o => listens ip o | None => false end.

(** The connections [cs] are empty, the others as before. *)
Definition emptied (cs : list nat) (p p' : gmap nat CipConnectionObject) : Prop :=
  ∀ c, p' !! c = if bool_decide (c ∈ cs) then Some empty_connection else p !! c.

Lemma emptied_nil p p' : emptied [] p p' ↔ ∀ c, p' !! c = p !! c.
Proof. split; intros H c; specialize (H c); rewrite bool_decide_false in *; set_solver. Qed.

Lemma seg_node {D} (h : store D) p ys a (d : D) zs n :
  seg h p (ys ++ (a, d) :: zs) n → ∃ q, h !! a = Some (mkNode q (head_ptr zs n) (Some d)).
Proof. intros [_ [Ha _]]%seg_app. by eexists. Qed.

Definition io_closing (m : ConnManager) (c : nat) : Prop :=
  ∀ o, connection_pool m !! c = Some o → connection_close_function o = Some kCloseIoConnection.

Lemma close_plain_spec m ys a c zs o :
  conns_wf m (ys ++ (a, c) :: zs) → connection_pool m !! c = Some o →
  ∃ m', close_plain c m = Some m' ∧ conns_wf m' (ys ++ zs) ∧
    connection_pool m' = <[c := empty_connection]> (connection_pool m) ∧
    closed_sockets m' = sockets_of o ++ closed_sockets m ∧
    io_events m' = (epath_instance_id (consumed_path o), epath_instance_id (produced_path o),
                    kIoConnectionEventClosed) :: io_events m.
Proof.
  intros Hw Ho. unfold close_plain. rewrite Ho. cbn [mbind option_bind].
  destruct (close_channels_spec (set_connection c (set_state 0 o)
    (report_event kIoConnectionEventClosed o m)) ys a c zs (set_state 0 o))
    as (m' & -> & Hw' & Hp & Hs & He).
  - apply conns_wf_set; [by apply conns_wf_event | by eexists].
  - apply lookup_insert_eq.
  - exists m'. split; [done |]. split; [done |]. rewrite Hp, Hs, He. split_and!; [|done | done].
    cbn [set_connection connection_pool report_event CheckIoConnectionEvent].
    apply insert_insert_eq.
Qed.

Section Listeners.
Context (H : ConnectionCallbacks) (Hplain : plain_closing H) (ip : Z).

Abbreviation loop := (close_all_for_input ip kConnectionObjectInstanceTypeIOListenOnly).

(** The loop closes exactly the listeners of [xs]; it stands behind [ys]. *)
Lemma close_listeners_loop fuel m ys xs :
  conns_wf m (ys ++ xs) → (length xs < fuel)%nat →
  (∀ c, c ∈ xs.*2 → listener m ip c = true → io_closing m c) →
  ∃ m', loop fuel (head_ptr xs None) m = Some m' ∧
    conns_wf m' (ys ++ List.filter (λ x, negb (listener m ip x.2)) xs) ∧
    emptied (List.filter (listener m ip) xs.*2) (connection_pool m) (connection_pool m').
Proof.
  revert m ys fuel. induction xs as [|[a c] xs IH]; intros m ys fuel Hw Hf Hk;
    (destruct fuel as [|fuel]; [simpl in Hf; lia |]).
  { exists m. split; [done |]. split; [done |]. by apply emptied_nil. }
  pose proof Hw as [Hl _ Hnd Hp].
  destruct (seg_node _ _ _ _ _ _ _ (rep_seg _ _ _ Hl)) as [q Ha].
  destruct (Hp c) as [o Ho]; [rewrite fmap_app; simpl; set_solver |].
  cbn [head_ptr close_all_for_input]. unfold deref. cbn [mbind option_bind]. rewrite Ha. cbn [mbind option_bind data next].
  rewrite Ho. cbn [mbind option_bind].
  rewrite (Z.eqb_sym _ (instance_type o)), (Z.eqb_sym ip). fold (listens ip o).
  cbn [fmap list_fmap List.filter snd].
  assert (listener m ip c = listens ip o) as -> by (unfold listener; by rewrite Ho).
  destruct (listens ip o) eqn:Hlis; cbn [negb mbind option_bind].
  - assert (Hcn : c ∉ xs.*2).
    { rewrite fmap_app in Hnd. apply list.NoDup_app in Hnd as (_ & _ & Hnd).
      by apply list.NoDup_cons in Hnd as [? _]. }
    unfold close_connection. cbn [CheckIoConnectionEvent connection_pool]. rewrite Ho.
    cbn [mbind option_bind].
    rewrite (Hk c ltac:(by left) ltac:(by unfold listener; rewrite Ho) o Ho).
    cbn [mbind option_bind Nat.eqb kCloseIoConnection kCloseConnection].
    pose proof (andb_prop _ _ Hlis) as [Hi%Z.eqb_eq _].
    rewrite (Hplain _ _ _ o) by (done || by apply listener_plain). cbn [Nat.eqb kCloseIoConnection].
    match goal with |- context [close_plain c ?m0] =>
      destruct (close_plain_spec m0 ys a c xs o) as (m1 & -> & Hw1 & Hp1 & _) end;
      [by apply (conns_wf_same m) | done |].
    cbn [mbind option_bind]. cbn [CheckIoConnectionEvent connection_pool] in Hp1.
    assert (Hsame : ∀ c', c' ≠ c → listener m1 ip c' = listener m ip c').
    { intros c' Hc'. unfold listener. by rewrite Hp1, lookup_insert_ne. }
    destruct (IH m1 ys fuel Hw1) as (m' & -> & Hw' & Hem); [simpl in Hf; lia | |].
    + intros c' Hc' Hlc x Hx. assert (c' ≠ c) by congruence.
      rewrite Hp1, lookup_insert_ne in Hx by done. rewrite Hsame in Hlc by done.
      apply (Hk c'); [by right | done | done].
    + exists m'. split; [done |]. split.
      * erewrite List.filter_ext_in; [exact Hw' |]. intros [b c'] Hin. simpl. f_equal. symmetry.
        apply Hsame. intros ->. apply Hcn. apply list_elem_of_fmap. exists (b, c).
        split; [done |]. by apply list_elem_of_In.
      * intros c'. rewrite Hem, Hp1.
        assert (List.filter (listener m1 ip) xs.*2 = List.filter (listener m ip) xs.*2) as ->.
        { apply List.filter_ext_in. intros c2 Hin%list_elem_of_In. apply Hsame. congruence. }
        destruct (decide (c' = c)) as [->|Hne].
        -- rewrite lookup_insert_eq, (bool_decide_true (c ∈ _ :: _)) by (by left). by case_match.
        -- rewrite lookup_insert_ne by done. erewrite bool_decide_ext; [done |].
           rewrite elem_of_cons. naive_solver.
  - destruct (IH m (ys ++ [(a, c)]) fuel) as (m' & -> & Hw' & Hem).
    + by rewrite <-(assoc_L (++)).
    + simpl in Hf. lia.
    + intros c' Hc'. apply Hk. by right.
    + exists m'. split; [done |]. split; [by rewrite <-(assoc_L (++)) in Hw' | done].
Qed.

Lemma close_listeners m xs :
  conns_wf m xs → (∀ c, c ∈ xs.*2 → listener m ip c = true → io_closing m c) →
  ∃ m', CloseAllConnectionsForInputWithSameType ip kConnectionObjectInstanceTypeIOListenOnly m
        = Some m' ∧
    conns_wf m' (List.filter (λ x, negb (listener m ip x.2)) xs) ∧
    emptied (List.filter (listener m ip) xs.*2) (connection_pool m) (connection_pool m').
Proof.
  intros Hw Hk. unfold CloseAllConnectionsForInputWithSameType.
  rewrite (rep_first _ _ _ (conns_list _ _ Hw)).
  apply (close_listeners_loop loop_fuel m [] xs Hw); [by eapply conns_fuel | done].
Qed.
End Listeners.

(** *** Handing the producer over *)

Definition master_candidate (ip : Z) (m : ConnManager) (xs : list (nat * nat))
  : option (nat * nat) := first_match (λ _, non_control_master ip) m xs.

(** The new master: socket, address and counters of the old one. *)
Definition handed (from active : CipConnectionObject) : CipConnectionObject :=
  take_over from (set_socket_producing (socket_producing from) active).

Lemma first_match_skip f m ys x zs :
  (∀ o, connection_pool m !! x.2 = Some o → f x.2 o = false) →
  first_match f m (ys ++ x :: zs) = first_match f m (ys ++ zs).
Proof.
  intros Hx. unfold first_match. induction ys as [|y ys IH]; simpl.
  - destruct (connection_pool m !! x.2) as [o|] eqn:E; [|done]. by rewrite Hx.
  - by rewrite IH.
Qed.

Lemma first_match_same f m m' xs :
  (∀ c, c ∈ xs.*2 → connection_pool m' !! c = connection_pool m !! c) →
  first_match f m' xs = first_match f m xs.
Proof.
  unfold first_match. induction xs as [|[a c] xs IH]; intros Hs; [done |]. simpl.
  rewrite Hs by (by left). rewrite IH; [done |]. intros c' Hc'. apply Hs. by right.
Qed.

Section CloseOne.
Context (m : ConnManager) (ys : list (nat * nat)) (a c : nat) (zs : list (nat * nat)).
Context (o : CipConnectionObject).
Context (Hw : conns_wf m (ys ++ (a, c) :: zs)) (Ho : connection_pool m !! c = Some o).

(** After the first two steps. *)
Definition closing : ConnManager :=
  set_connection c (set_state 0 o) (report_event kIoConnectionEventClosed o m).

Lemma closing_wf : conns_wf closing (ys ++ (a, c) :: zs).
Proof. apply conns_wf_set; [by apply conns_wf_event | by eexists]. Qed.

Lemma not_other : c ∉ (ys ++ zs).*2.
Proof.
  pose proof (conns_nodup _ _ Hw) as Hn. rewrite fmap_app in *. simpl in Hn.
  apply list.NoDup_app in Hn as (_ & Hd & [Hz _]%list.NoDup_cons).
  intros [Hc|Hc]%elem_of_app; [|done]. apply (Hd c Hc). by left.
Qed.

Lemma closing_other c' : c' ≠ c → connection_pool closing !! c' = connection_pool m !! c'.
Proof. intros. unfold closing. cbn [set_connection connection_pool]. by rewrite lookup_insert_ne. Qed.

Lemma closing_self : connection_pool closing !! c = Some (set_state 0 o).
Proof. apply lookup_insert_eq. Qed.

Lemma closing_candidate ip :
  master_candidate ip closing (ys ++ (a, c) :: zs) = master_candidate ip m (ys ++ zs).
Proof.
  unfold master_candidate. rewrite first_match_skip.
  - apply first_match_same. intros c' Hc'. apply closing_other. intros ->. by apply not_other.
  - cbn [snd]. rewrite closing_self. intros x [= <-]. unfold non_control_master, is_state.
    rewrite (bool_decide_false (_ = ConnectionObjectGetState _)) by done.
    by rewrite andb_false_r.
Qed.

Lemma transfer_spec :
  match master_candidate (epath_instance_id (produced_path o)) m (ys ++ zs) with
  | None => transfer_master_connection c closing = Some (false, closing)
  | Some (_, x) =>
      ∃ xo, connection_pool m !! x = Some xo ∧ x ∈ (ys ++ zs).*2 ∧
        transfer_master_connection c closing
        = Some (true, set_connection x (handed o xo)
                        (set_connection c (set_socket_producing kEipInvalidSocket (set_state 0 o))
                           (set_connection x (set_socket_producing (socket_producing o) xo)
                              closing)))
  end.
Proof.
  unfold transfer_master_connection, GetNextNonControlMasterConnection. rewrite closing_self.
  cbn [mbind option_bind]. rewrite (search_spec _ _ _ closing_wf).
  change (first_match (λ _, non_control_master (epath_instance_id (produced_path (set_state 0 o))))
            closing (ys ++ (a, c) :: zs))
    with (master_candidate (epath_instance_id (produced_path o)) closing (ys ++ (a, c) :: zs)).
  rewrite closing_candidate.
  destruct (master_candidate _ m (ys ++ zs)) as [[b x]|] eqn:E; [|done].
  apply List.find_some in E as [Hin E]. simpl in E.
  assert (Hx : x ∈ (ys ++ zs).*2)
    by (apply list_elem_of_fmap; exists (b, x); split; [done | by apply list_elem_of_In]).
  assert (x ≠ c) by (intros ->; by apply not_other).
  destruct (connection_pool m !! x) as [xo|] eqn:Exo; [|done].
  exists xo. split; [done |]. split; [done |].
  cbn [mbind option_bind option_map snd]. rewrite closing_other, Exo by done.
  cbn [mbind option_bind]. cbn [set_connection connection_pool].
  rewrite lookup_insert_ne, closing_self by done. cbn [mbind option_bind].
  rewrite lookup_insert_eq, lookup_insert_ne, lookup_insert_eq by done. reflexivity.
Qed.
End CloseOne.

Section CloseCases.
Context (H : ConnectionCallbacks) (Hplain : plain_closing H).
Context (m : ConnManager) (ys : list (nat * nat)) (a c : nat) (zs : list (nat * nat)).
Context (o : CipConnectionObject).
Context (Hw : conns_wf m (ys ++ (a, c) :: zs)) (Ho : connection_pool m !! c = Some o).
Abbreviation others := (ys ++ zs).
Abbreviation ip := (epath_instance_id (produced_path o)).

Lemma CloseIoConnection_eq :
  CloseIoConnection c m
  = ('(_, m') ← (if controls_multicast o then
                   '(t, m') ← transfer_master_connection c (closing m c o);
                   if t : bool then Some (true, m')
                   else m'' ← CloseAllConnectionsForInputWithSameType ip
                                kConnectionObjectInstanceTypeIOListenOnly m'; Some (false, m'')
                 else Some (false, closing m c o));
     CloseCommunicationChannelsAndRemoveFromActiveConnectionsList c m').
Proof.
  unfold CloseIoConnection. rewrite Ho. cbn [mbind option_bind].
  change (ConnectionObjectSetState kConnectionObjectStateNonExistent o) with (Some (set_state 0 o)).
  cbn [mbind option_bind]. fold (closing m c o). unfold hand_over. rewrite closing_self.
  reflexivity.
Qed.

Lemma close_transferred b x :
  controls_multicast o = true → master_candidate ip m others = Some (b, x) →
  ∃ m' xo, CloseIoConnection c m = Some m' ∧ conns_wf m' others ∧ x ∈ others.*2 ∧
    connection_pool m !! x = Some xo ∧
    connection_pool m' = <[c := empty_connection]> (<[x := handed o xo]> (connection_pool m)) ∧
    closed_sockets m' = sockets_of (set_socket_producing kEipInvalidSocket o)
                          ++ closed_sockets m.
Proof.
  intros Hc Hx. rewrite CloseIoConnection_eq, Hc.
  pose proof (transfer_spec m ys a c zs o Hw Ho) as T. rewrite Hx in T.
  destruct T as (xo & Hxo & Hin & ->). cbn [mbind option_bind].
  assert (x ≠ c) by (intros ->; by eapply (not_other m ys a c zs Hw)).
  set (m1 := set_connection x (handed o xo) _).
  assert (Hp1 : connection_pool m1 = <[x := handed o xo]>
    (<[c := set_socket_producing kEipInvalidSocket (set_state 0 o)]>
       (<[x := set_socket_producing (socket_producing o) xo]>
          (<[c := set_state 0 o]> (connection_pool m))))) by done.
  destruct (close_channels_spec m1 ys a c zs
    (set_socket_producing kEipInvalidSocket (set_state 0 o))) as (m' & -> & Hw' & Hp & Hs & _).
  - apply conns_wf_set; [apply conns_wf_set; [apply conns_wf_set; [by apply closing_wf |] |] |]; cbn [set_connection connection_pool];
      unfold closing; cbn [set_connection connection_pool report_event CheckIoConnectionEvent];
      rewrite !lookup_insert_is_Some'; eauto.
  - rewrite Hp1, lookup_insert_ne, lookup_insert_eq by done. done.
  - exists m', xo. split; [done |]. split; [done |]. split; [done |]. split; [done |]. split; [|done].
    rewrite Hp, Hp1. apply map_eq. intros k.
    destruct (decide (k = c)) as [->|]; [by rewrite !lookup_insert_eq |].
    rewrite !(lookup_insert_ne _ c) by done.
    destruct (decide (k = x)) as [->|]; [by rewrite !lookup_insert_eq |].
    by rewrite !lookup_insert_ne by done.
Qed.

Lemma close_last_master :
  controls_multicast o = true → master_candidate ip m others = None →
  (∀ c', c' ∈ others.*2 → listener m ip c' = true → io_closing m c') →
  ∃ m', CloseIoConnection c m = Some m' ∧
    conns_wf m' (List.filter (λ x, negb (listener m ip x.2)) others) ∧
    emptied (c :: List.filter (listener m ip) others.*2) (connection_pool m) (connection_pool m').
Proof.
  intros Hc Hx Hk. rewrite CloseIoConnection_eq, Hc.
  pose proof (transfer_spec m ys a c zs o Hw Ho) as T. rewrite Hx in T. rewrite T.
  cbn [mbind option_bind]. set (m1 := closing m c o).
  assert (Hself : listener m1 ip c = false).
  { unfold listener, m1. rewrite closing_self. unfold listens.
    change (instance_type (set_state 0 o)) with (instance_type o).
    unfold controls_multicast in Hc. destruct (Z.eqb_spec (instance_type o)
      kConnectionObjectInstanceTypeIOListenOnly) as [E|]; [|done]. by rewrite E in Hc. }
  assert (Hsame : ∀ c', c' ≠ c → listener m1 ip c' = listener m ip c')
    by (intros; unfold listener, m1; by rewrite closing_other).
  assert (Hne : ∀ c', c' ∈ others.*2 → c' ≠ c)
    by (intros c' Hc' ->; by eapply (not_other m ys a c zs Hw)).
  assert (Hxs : ∀ l : list (nat * nat), (∀ x, x ∈ l → x.2 ∈ others.*2) →
    List.filter (λ x, negb (listener m1 ip x.2)) l = List.filter (λ x, negb (listener m ip x.2)) l).
  { intros l Hl. apply List.filter_ext_in. intros x Hin. f_equal. apply Hsame, Hne, Hl.
    by apply list_elem_of_In. }
  destruct (close_listeners H Hplain ip m1 (ys ++ (a, c) :: zs)) as (m2 & -> & Hw2 & Hem).
  { by apply closing_wf. }
  { intros c' Hc' Hl x Hx'. assert (c' ≠ c) by congruence.
    unfold m1 in Hx'. rewrite closing_other in Hx' by done. apply (Hk c'); [|by rewrite <-Hsame | done].
    revert Hc'. rewrite !fmap_app. cbn [fmap list_fmap snd]. rewrite !elem_of_app, elem_of_cons.
    tauto. }
  cbn [mbind option_bind]. rewrite List.filter_app in Hw2. cbn [List.filter snd] in Hw2.
  rewrite Hself in Hw2. cbn [negb] in Hw2.
  assert (Hoc : connection_pool m2 !! c = Some (set_state 0 o)).
  { rewrite Hem, bool_decide_false; [apply closing_self |].
    intros Hin%list_elem_of_In%List.filter_In. destruct Hin. congruence. }
  destruct (close_channels_spec m2 _ a c _ _ Hw2 Hoc) as (m' & -> & Hw' & Hp & _).
  exists m'. split; [done |]. split.
  - rewrite List.filter_app, <-!Hxs; [done | |];
      intros x Hin; apply list_elem_of_fmap; exists x; split; rewrite ?elem_of_app; tauto.
  - intros k. rewrite Hp. destruct (decide (k = c)) as [->|Hkc].
    { rewrite lookup_insert_eq, bool_decide_true; [done | by left]. }
    rewrite lookup_insert_ne by done. rewrite Hem.
    rewrite (closing_other m c o k Hkc : connection_pool m1 !! k = _). erewrite bool_decide_ext; [reflexivity |].
    rewrite elem_of_cons, !list_elem_of_In, !List.filter_In, <-!list_elem_of_In.
    rewrite Hsame by done. rewrite !fmap_app. cbn [fmap list_fmap snd].
    rewrite !elem_of_app, elem_of_cons. tauto.
Qed.
End CloseCases.

(** ** Properties *)

(** Nested closing ends: the close function of an I/O connection calls close
    functions of listen only connections at most, and those close nothing else, so
    allowing more than two levels of calls changes no result. *)
Theorem close_io_depth_enough d k c m :
  close_io (close_depth + d) k c m = close_io close_depth k c m.
Proof.
  change (close_depth + d)%nat with (S (S d)). change close_depth with 2%nat. cbn [close_io].
  destruct (k =? kCloseIoConnection)%nat; [|reflexivity].
  apply CloseIoConnection_callbacks; [|apply (close_io_plain 0)]. apply close_io_plain.
Qed.

Lemma close_io_spec m ys a c zs o :
  conns_wf m (ys ++ (a, c) :: zs) → connection_pool m !! c = Some o →
  let others := ys ++ zs in let ip := epath_instance_id (produced_path o) in
  (∀ c', c' ∈ others.*2 → listener m ip c' = true → io_closing m c') →
  ∃ m', close_io close_depth kCloseIoConnection c m = Some m' ∧
    match controls_multicast o, master_candidate ip m others with
    | true, Some (_, x) => conns_wf m' others ∧ ∃ xo, connection_pool m !! x = Some xo ∧
        connection_pool m' = <[c := empty_connection]> (<[x := handed o xo]> (connection_pool m))
    | true, None => conns_wf m' (List.filter (λ x, negb (listener m ip x.2)) others) ∧
        emptied (c :: List.filter (listener m ip) others.*2) (connection_pool m) (connection_pool m')
    | false, _ => conns_wf m' others ∧
        connection_pool m' = <[c := empty_connection]> (connection_pool m) ∧
        closed_sockets m' = sockets_of o ++ closed_sockets m
    end.
Proof.
  intros Hw Ho others ip Hk. change close_depth with 2%nat. cbn [close_io].
  rewrite Nat.eqb_refl. set (H := {| close_io_connection := _ |}).
  assert (Hplain : plain_closing H) by exact (close_io_plain 0).
  clearbody H.
  destruct (controls_multicast o) eqn:Hc.
  - destruct (master_candidate ip m others) as [[b x]|] eqn:Hx.
    + destruct (close_transferred H m ys a c zs o Hw Ho b x Hc Hx)
        as (m' & xo & E & Hw' & _ & Hxo & Hp & _).
      exists m'. split; [done |]. split; [done |]. by exists xo.
    + exact (close_last_master H Hplain m ys a c zs o Hw Ho Hc Hx Hk).
  - destruct (close_plain_spec m ys a c zs o Hw Ho) as (m' & E & Hw' & Hp & Hs & _).
    exists m'. rewrite (CloseIoConnection_plain _ _ o) by done. by split_and!.
Qed.


(** When the connection that hands its producer over also consumes, both of its
    sockets are the one I/O socket; closing the consuming one closes the socket just
    handed over, so the new master is left with a closed socket. *)
Theorem handed_over_socket_closed m ys a c zs o b x :
  conns_wf m (ys ++ (a, c) :: zs) → connection_pool m !! c = Some o →
  controls_multicast o = true → socket_consuming o = socket_producing o →
  master_candidate (epath_instance_id (produced_path o)) m (ys ++ zs) = Some (b, x) →
  ∃ m' x', close_io close_depth kCloseIoConnection c m = Some m' ∧
    connection_pool m' !! x = Some x' ∧ socket_producing x' = socket_producing o ∧
    socket_producing x' ∈ closed_sockets m'.
Proof.
  intros Hw Ho Hc Hs Hx. change close_depth with 2%nat. cbn [close_io]. rewrite Nat.eqb_refl.
  destruct (close_transferred {| close_io_connection := close_io 1 |} m ys a c zs o Hw Ho b x Hc Hx)
    as (m' & xo & E & _ & Hin & _ & Hp & Hcl).
  exists m', (handed o xo). split; [done |].
  assert (x ≠ c) by (intros ->; by eapply (not_other m ys a c zs Hw)).
  split; [by rewrite Hp, lookup_insert_ne, lookup_insert_eq |]. split; [done |].
  rewrite Hcl. unfold sockets_of. cbn [set_socket_producing socket_producing socket_consuming].
  change (socket_producing (handed o xo)) with (socket_producing o). rewrite Hs.
  unfold controls_multicast in Hc. apply andb_prop in Hc as [_ Hv].
  destruct (kEipInvalidSocket =? socket_producing o); [done |]. rewrite Z.eqb_refl.
  cbn [app]. by left.
Qed.

(** ** All connections *)

(** A listed connection has one of the two close functions. *)
Definition closable (m : ConnManager) (c : nat) : Prop :=
  ∃ o, connection_pool m !! c = Some o ∧
    (connection_close_function o = Some kCloseIoConnection ∨
     connection_close_function o = Some kCloseConnection ∧ is_class3 o = true ∧
     instance_type o = kConnectionObjectInstanceTypeExplicitMessaging).

(** [xs] are off the list and empty, up to [ys], which may be another object now; the others are as
    before. *)
Definition closed_up_to (xs ys : list nat) (m m' : ConnManager) : Prop :=
  (∀ k, k ∈ xs → k ∉ ys → connection_pool m' !! k = Some empty_connection) ∧
  (∀ k, k ∉ xs → connection_pool m' !! k = connection_pool m !! k).

Lemma candidate_listed ip m xs b x : master_candidate ip m xs = Some (b, x) → x ∈ xs.*2.
Proof.
  intros [Hin _]%find_some. apply list_elem_of_In in Hin. apply list_elem_of_fmap. by exists (b, x).
Qed.

Lemma filter_snd (f : nat → bool) (zs : list (nat * nat)) k :
  k ∈ (List.filter (λ x : nat * nat, f x.2) zs).*2 ↔ k ∈ zs.*2 ∧ f k = true.
Proof.
  rewrite !list_elem_of_fmap. split.
  - intros (x & -> & [Hin Hf]%list_elem_of_In%filter_In). split; [|done]. exists x. split; [done |].
    by apply list_elem_of_In.
  - intros [(x & -> & Hin) Hf]. exists x. split; [done |]. by apply list_elem_of_In, filter_In; rewrite <- list_elem_of_In.
Qed.

(** The listeners of [zs] and the rest of it. *)
Lemma kept_not_closed (f : nat → bool) (zs : list (nat * nat)) c k :
  c ∉ zs.*2 → k ∈ (List.filter (λ x : nat * nat, negb (f x.2)) zs).*2 → k ∉ c :: List.filter f zs.*2.
Proof.
  intros Hc [Hk Hf]%(filter_snd (λ x, negb (f x))) [->|[_ Hf']%list_elem_of_In%filter_In]%elem_of_cons; [done |].
  by rewrite Hf' in Hf.
Qed.

Lemma closed_not_kept (f : nat → bool) (zs : list (nat * nat)) c k :
  k ∈ c :: zs.*2 → k ∉ (List.filter (λ x : nat * nat, negb (f x.2)) zs).*2 → k ∈ c :: List.filter f zs.*2.
Proof.
  intros [->|Hk]%elem_of_cons Hk'; [by left | right]. apply list_elem_of_In, filter_In.
  split; [by apply list_elem_of_In |]. rewrite (filter_snd (λ x, negb (f x))) in Hk'.
  destruct (f k); [done |]. by destruct Hk'.
Qed.

Lemma close_head m a c zs :
  conns_wf m ((a, c) :: zs) → Forall (closable m) (c :: zs.*2) →
  ∃ m' zs', @close_connection io_callbacks c m = Some m' ∧ conns_wf m' zs' ∧
    zs' ⊆ zs ∧ (length zs' <= length zs)%nat ∧ Forall (closable m') zs'.*2 ∧ closed_up_to (c :: zs.*2) zs'.*2 m m'.
Proof.
  intros Hw [(o & Ho & Hf) Hz]%list.Forall_cons. unfold close_connection. rewrite Ho. cbn [mbind option_bind].
  pose proof (conns_nodup _ _ Hw) as Hn. cbn [fmap list_fmap snd] in Hn.
  inversion Hn as [|? ? Hc Hn']; subst. rewrite list.Forall_forall in Hz.
  assert (Hrest : ∀ m' (ys : list nat), ys ⊆ zs.*2 →
    (∀ k, k ∈ ys → ∃ f : CipConnectionObject → CipConnectionObject,
       connection_pool m' !! k = f <$> connection_pool m !! k ∧
       ∀ o', connection_close_function (f o') = connection_close_function o' ∧
         is_class3 (f o') = is_class3 o' ∧ instance_type (f o') = instance_type o') →
    Forall (closable m') ys).
  { intros m' ys Hs Hk. apply list.Forall_forall. intros k Hin. destruct (Hk k Hin) as (f & E & Hf').
    destruct (Hz k (Hs k Hin)) as (o' & Ho' & D). exists (f o'). rewrite E, Ho'. split; [done |].
    by destruct (Hf' o') as (-> & -> & ->). }
  destruct Hf as [Hf|(Hf & H3 & _)]; rewrite Hf; cbn [mbind option_bind Nat.eqb].
  - destruct (close_io_spec m [] a c zs o Hw Ho) as (m' & E & Hm).
    { intros c' Hin Hl o' Ho'. destruct (Hz c' Hin) as (o'' & Ho'' & [Hf'|(_ & _ & Hi)]); [congruence |].
      unfold listener in Hl. rewrite Ho'' in Hl. unfold listens in Hl. rewrite Hi in Hl. discriminate. }
    cbn [app] in Hm. destruct (controls_multicast o); [destruct (master_candidate _ m zs) as [[b x]|] eqn:Hcand |].
    + destruct Hm as (Hw' & xo & Hx & Hp). pose proof (candidate_listed _ _ _ _ _ Hcand) as Hin.
      exists m', zs. split_and!; [exact E | done | done | lia | |].
      * apply Hrest; [done |]. intros k Hk. rewrite Hp.
        assert (k ≠ c) by (by intros ->). rewrite lookup_insert_ne by done.
        destruct (decide (k = x)) as [->|].
        -- exists (handed o). rewrite lookup_insert_eq, Hx. by split.
        -- exists id. rewrite lookup_insert_ne by done. split; [by destruct (_ !! k) | done].
      * split.
        -- intros k Hk Hk'. assert (k = c) as -> by set_solver. by rewrite Hp, lookup_insert_eq.
        -- intros k Hk. by rewrite Hp, !lookup_insert_ne by set_solver.
    + destruct Hm as [Hw' He]. set (ip := epath_instance_id (produced_path o)) in *.
      exists m', (List.filter (λ x, negb (listener m ip x.2)) zs).
      assert (Hsub : List.filter (λ x, negb (listener m ip x.2)) zs ⊆ zs)
        by (intros x; rewrite !list_elem_of_In; by intros [? _]%filter_In).
      split_and!; [exact E | exact Hw' | done | apply List.filter_length_le | |].
      * apply Hrest; [by intros k [? _]%(filter_snd (λ x, negb (listener m ip x))) |]. intros k Hk. exists id. rewrite (He k).
        split; [|done]. rewrite bool_decide_eq_false_2; [by destruct (_ !! k) |].
        by apply kept_not_closed.
      * split.
        -- intros k Hk Hk'. rewrite (He k), bool_decide_eq_true_2; [done | by apply closed_not_kept].
        -- intros k Hk. rewrite (He k), bool_decide_eq_false_2; [done |]. intros Hk'. apply Hk. apply elem_of_cons in Hk' as [->|Hk']; [by left |].
        right. apply list_elem_of_In, filter_In in Hk' as [Hk' _]. by apply list_elem_of_In.
    + destruct Hm as (Hw' & Hp & _). exists m', zs. split_and!; [exact E | done | done | lia | |].
      * apply Hrest; [done |]. intros k Hk. exists id. rewrite Hp, lookup_insert_ne by (by intros ->).
        split; [by destruct (_ !! k) | done].
      * split.
        -- intros k Hk Hk'. assert (k = c) as -> by set_solver. by rewrite Hp, lookup_insert_eq.
        -- intros k Hk. by rewrite Hp, lookup_insert_ne by set_solver.
  - destruct (CloseConnection_class3 m [] a c zs o Hw Ho H3) as (m' & E & Hw' & Hp & _).
    exists m', zs. split_and!; [exact E | done | done | lia | |].
    + apply Hrest; [done |]. intros k Hk. exists id. rewrite Hp, lookup_insert_ne by (by intros ->).
      split; [by destruct (_ !! k) | done].
    + split.
      -- intros k Hk Hk'. assert (k = c) as -> by set_solver. by rewrite Hp, lookup_insert_eq.
      -- intros k Hk. by rewrite Hp, lookup_insert_ne by set_solver.
Qed.

Lemma close_all_spec fuel m xs :
  conns_wf m xs → Forall (closable m) xs.*2 → (length xs < fuel)%nat →
  ∃ m', @close_all io_callbacks fuel m = Some m' ∧ conns_wf m' [] ∧ closed_up_to xs.*2 [] m m'.
Proof.
  revert m xs. induction fuel as [|fuel IH]; intros m xs Hw Hc Hl; [lia |].
  cbn [close_all]. rewrite (rep_first _ _ _ (conns_list _ _ Hw)).
  destruct xs as [|[a c] zs]; cbn [head_ptr].
  { exists m. split_and!; [done | done |]. split; intros k Hk; [by apply elem_of_nil in Hk | done]. }
  destruct (seg_node _ _ [] a c zs _ (rep_seg _ _ _ (conns_list _ _ Hw))) as [q Hq].
  unfold deref. cbn [mbind option_bind]. rewrite Hq. cbn [mbind option_bind data].
  destruct (close_head m a c zs Hw Hc) as (m1 & zs' & E & Hw1 & Hs & Hlen & Hc1 & [He Hk]).
  rewrite E. cbn [mbind option_bind].
  destruct (IH m1 zs' Hw1 Hc1) as (m' & E' & Hw' & [He' Hk']); [cbn [length] in Hl; lia |].
  exists m'. split_and!; [done | done |].
  assert (Hs' : zs'.*2 ⊆ zs.*2).
  { intros k. rewrite !list_elem_of_fmap. intros (x & -> & Hx). exists x. split; [done | by apply Hs]. }
  split; intros k Hin.
  - intros _. destruct (decide (k ∈ zs'.*2)) as [Hz|Hz].
    + apply He'; [done |]. by intros ?%elem_of_nil.
    + rewrite Hk' by done. by apply He.
  - rewrite Hk' by (intros ?; apply Hin; right; by apply Hs'). by apply Hk.
Qed.

(** C9.  All connections are closed: whatever mixture of class 3 and I/O connections is on the list, and
    in whatever order closing one of them closes listeners with it or hands a producer over
    to another, the loop ends with an empty list, every object that was on it is empty,
    and the others are as before. *)
Theorem CloseAllConnections_empties m xs :
  conns_wf m xs → Forall (closable m) xs.*2 →
  ∃ m', @CloseAllConnections io_callbacks m = Some m' ∧ conns_wf m' [] ∧
    (∀ c, c ∈ xs.*2 → connection_pool m' !! c = Some empty_connection) ∧
    (∀ c, c ∉ xs.*2 → connection_pool m' !! c = connection_pool m !! c).
Proof.
  intros Hw Hc. destruct (close_all_spec loop_fuel m xs Hw Hc (conns_fuel _ _ Hw))
    as (m' & E & Hw' & He & Hk).
  exists m'. split_and!; [done | done | | done]. intros c Hin. apply He; [done |]. by intros ?%elem_of_nil.
Qed.

(** ** An example *)

(** The slots of I/O connections exist as well. *)
Definition io_manager : ConnManager := snd (InitializeIoConnectionData initial_manager).

Lemma io_manager_wf : conns_wf io_manager [].
Proof.
  split; [apply initial_manager_wf | apply initial_manager_wf | constructor |].
  intros c Hc. by destruct (not_elem_of_nil _ Hc).
Qed.

(** Exclusive owner 6 controls the multicast of input 100; input only connection 7
    and listen only connection 10 receive it. *)
Definition multicast_connection (type producing consuming : Z) : CipConnectionObject :=
  SetIoConnectionCallbacks
    (set_instance_type type (set_state 3 (set_produced_path (mkPathEpath 4 100 3)
       (set_t_to_o_network_connection_parameters 0x2000
          (set_socket_producing producing (set_socket_consuming consuming zero_connection)))))).

Definition multicast_manager (with_input_only : bool) : ConnManager :=
  let m := opened 10 (opened 7 (opened 6 io_manager)) in
  let m := set_connection 6 (multicast_connection kConnectionObjectInstanceTypeIOExclusiveOwner 8 8) m in
  let m := set_connection 7 (if with_input_only
             then multicast_connection kConnectionObjectInstanceTypeIOInputOnly (-1) (-1)
             else session_connection 7) m in
  set_connection 10 (multicast_connection kConnectionObjectInstanceTypeIOListenOnly (-1) (-1)) m.

Lemma multicast_manager_wf b :
  conns_wf (multicast_manager b) [(2, 10); (1, 7); (0, 6)]%nat.
Proof.
  destruct (opened_spec 6%nat io_manager [] 0%nat) as [Hw0 Hp0].
  { apply io_manager_wf. } { by intros ?%not_elem_of_nil. } { by eexists. }
  { vm_compute. reflexivity. }
  destruct (opened_spec 7%nat (opened 6 io_manager) [(0, 6)]%nat 1%nat) as [Hw1 Hp1].
  { exact Hw0. } { by apply (bool_decide_unpack _). } { rewrite Hp0, lookup_insert_ne by done. by eexists. }
  { vm_compute. reflexivity. }
  destruct (opened_spec 10%nat (opened 7 (opened 6 io_manager)) [(1, 7); (0, 6)]%nat 2%nat)
    as [Hw2 Hp2].
  { exact Hw1. } { by apply (bool_decide_unpack _). }
  { rewrite Hp1, Hp0, !lookup_insert_ne by done. by eexists. }
  { vm_compute. reflexivity. }
  assert (Hin : ∀ c o m, c ∈ [10; 7; 6]%nat → conns_wf m [(2, 10); (1, 7); (0, 6)]%nat →
    conns_wf (set_connection c o m) [(2, 10); (1, 7); (0, 6)]%nat).
  { intros c o m Hc Hm. apply conns_wf_set; [done |]. by apply (conns_pool _ _ Hm). }
  unfold multicast_manager. do 3 (apply Hin; [by apply (bool_decide_unpack _) |]). exact Hw2.
Qed.

Definition exclusive_example : CipConnectionObject :=
  multicast_connection kConnectionObjectInstanceTypeIOExclusiveOwner 8 8.
Definition listener_example : CipConnectionObject :=
  multicast_connection kConnectionObjectInstanceTypeIOListenOnly (-1) (-1).

Lemma multicast_manager_facts b :
  let m := multicast_manager b in
  connection_pool m !! 6%nat = Some exclusive_example ∧
  connection_pool m !! 10%nat = Some listener_example ∧
  master_candidate 100 m [(2, 10); (1, 7)]%nat = (if b then Some (1, 7)%nat else None) ∧
  listener m 100 10 = true ∧ listener m 100 7 = false.
Proof. destruct b; vm_compute; repeat split. Qed.


(** With an input only connection the producer is handed over, and its socket closed. *)
Lemma handed_over_socket_closed_witness :
  ∃ m' x', close_io close_depth kCloseIoConnection 6 (multicast_manager true) = Some m' ∧
    connection_pool m' !! 7%nat = Some x' ∧ socket_producing x' = 8 ∧ 8 ∈ closed_sockets m'.
Proof.
  pose proof (multicast_manager_facts true) as (F6 & F10 & Fm & _).
  destruct (handed_over_socket_closed (multicast_manager true) [(2, 10); (1, 7)]%nat 0 6 []
    exclusive_example 1 7 (multicast_manager_wf true) F6) as (m' & x' & E & Hx & Hs & Hin).
  - reflexivity.
  - reflexivity.
  - exact Fm.
  - exists m', x'. split; [exact E |]. split; [exact Hx |]. split; [exact Hs |].
    rewrite Hs in Hin. exact Hin.
Defined.

(** All three connections of the example are closed. *)
Lemma CloseAllConnections_empties_witness :
  ∃ m', @CloseAllConnections io_callbacks (multicast_manager true) = Some m' ∧ conns_wf m' [] ∧
    connection_pool m' !! 10%nat = Some empty_connection.
Proof.
  destruct (CloseAllConnections_empties (multicast_manager true) [(2, 10); (1, 7); (0, 6)]%nat
    (multicast_manager_wf true)) as (m' & E & Hw & He & _).
  - repeat (constructor; [eexists; split; [vm_compute; reflexivity | left; reflexivity] |]). constructor.
  - exists m'. split; [exact E |]. split; [exact Hw |]. apply He. left.
Defined.
