(* ===== verification/EncapData.v ===== *)
(** * [enet_encap/encap.c]: the encapsulation header

    The decoded header of a received message and the writing of reply headers,
    which the encapsulation layer and the common packet format share. *)

From S2P Require Import Prelude EndianConv.
Open Scope Z_scope.

Definition ENCAPSULATION_HEADER_LENGTH : Z := 24.
Definition kSenderContextSize : Z := 8.

(** [EncapsulationProtocolErrorCode] *)
Definition kEncapsulationProtocolSuccess : Z := 0x0000.
Definition kEncapsulationProtocolInvalidCommand : Z := 0x0001.
Definition kEncapsulationProtocolInsufficientMemory : Z := 0x0002.
Definition kEncapsulationProtocolIncorrectData : Z := 0x0003.
Definition kEncapsulationProtocolInvalidSessionHandle : Z := 0x0064.
Definition kEncapsulationProtocolInvalidLength : Z := 0x0065.
Definition kEncapsulationProtocolUnsupportedProtocol : Z := 0x0069.

(** The two pointers are read pointers into the receive buffer. *)
Record EncapsulationData := mkEncapsulation {
  command_code : Z;
  data_length : Z;
  session_handle : Z;
  status : Z;
  sender_context : list Z;
  options : Z;
  communication_buffer_start : list Z;
  current_communication_buffer_position : list Z }.

Definition set_data_length (n : Z) (d : EncapsulationData) : EncapsulationData :=
  mkEncapsulation (command_code d) n (session_handle d) (status d) (sender_context d)
    (options d) (communication_buffer_start d) (current_communication_buffer_position d).
Definition set_encap_status (v : Z) (d : EncapsulationData) : EncapsulationData :=
  mkEncapsulation (command_code d) (data_length d) (session_handle d) v (sender_context d)
    (options d) (communication_buffer_start d) (current_communication_buffer_position d).
Definition set_current_position (p : list Z) (d : EncapsulationData) : EncapsulationData :=
  mkEncapsulation (command_code d) (data_length d) (session_handle d) (status d)
    (sender_context d) (options d) (communication_buffer_start d) p.

(** The difference is an [int]; the caller sees a negative value for a
    fragment. *)
Definition CreateEncapsulationStructure (receive_buffer : list Z) (receive_buffer_length : Z)
  : option (Z * EncapsulationData) :=
  let start := receive_buffer in
  '(command, receive_buffer) ← GetUintFromMessage receive_buffer;
  '(len, receive_buffer) ← GetUintFromMessage receive_buffer;
  '(handle, receive_buffer) ← GetUdintFromMessage receive_buffer;
  '(st, receive_buffer) ← GetUdintFromMessage receive_buffer;
  context ← load_n receive_buffer (Z.to_nat kSenderContextSize);
  receive_buffer ← ptr_add receive_buffer (Z.to_nat kSenderContextSize);
  '(opts, receive_buffer) ← GetUdintFromMessage receive_buffer;
  assert! receive_buffer_length <=? 2147483647;
  Some (receive_buffer_length - ENCAPSULATION_HEADER_LENGTH - len,
        mkEncapsulation command len handle st context opts start receive_buffer).

(** Moves over the header without counting it. *)
Definition SkipEncapsulationHeader (m : ENIPMessage) : ENIPMessage :=
  move_position ENCAPSULATION_HEADER_LENGTH m.

Definition GenerateEncapsulationHeader (receive_data : EncapsulationData)
    (command_specific_data_length session_handle encapsulation_protocol_status : Z)
    (m : ENIPMessage) : option ENIPMessage :=
  m ← AddIntToMessage (command_code receive_data) m;
  m ← AddIntToMessage command_specific_data_length m;
  m ← AddDintToMessage session_handle m;
  m ← AddDintToMessage encapsulation_protocol_status m;
  m ← copy_in (sender_context receive_data) m;
  let m := add_used kSenderContextSize (move_position kSenderContextSize m) in
  AddDintToMessage 0 m.

(** ** Lemmas *)

(** The 24 bytes of a header. *)
Definition header_bytes (command len handle st : Z) (context : list Z) (opts : Z) : list Z :=
  le_bytes 2 command ++ le_bytes 2 len ++ le_bytes 4 handle ++ le_bytes 4 st ++ context
  ++ le_bytes 4 opts.

Lemma length_header_bytes command len handle st context opts :
  length context = 8%nat → length (header_bytes command len handle st context opts) = 24%nat.
Proof. intros H. unfold header_bytes. rewrite !length_app, !length_le_bytes, H. done. Qed.

Lemma copy_context_put {A} context m (k : ENIPMessage → option A) :
  length context = 8%nat →
  (m1 ← copy_in context m; k (add_used kSenderContextSize (move_position kSenderContextSize m1)))
  = (m1 ← put context m; k m1).
Proof.
  intros H. unfold put, MoveMessageNOctets. rewrite H. by destruct (copy_in context m).
Qed.

Lemma GenerateEncapsulationHeader_put d len handle st m :
  length (sender_context d) = 8%nat →
  GenerateEncapsulationHeader d len handle st m
  = put (header_bytes (command_code d) len handle st (sender_context d) 0) m.
Proof.
  intros Hc. unfold GenerateEncapsulationHeader, header_bytes. cbv zeta.
  transitivity (m ← AddIntToMessage (command_code d) m; m ← AddIntToMessage len m;
                m ← AddDintToMessage handle m; m ← AddDintToMessage st m;
                m ← put (sender_context d) m; AddDintToMessage 0 m).
  - repeat first [rewrite (copy_context_put _ _ (AddDintToMessage 0)) by done; done
                 | match goal with |- (?x ≫= _) = (?x ≫= _) =>
                     destruct x; cbn [mbind option_bind]; [|done] end].
  - autorewrite with puts. by rewrite <-!(assoc_L (++)).
Qed.

Lemma CreateEncapsulationStructure_header command len handle st context opts payload n :
  is_u16 command → is_u16 len → is_u32 handle → is_u32 st → length context = 8%nat →
  is_u32 opts → n <= 2147483647 →
  CreateEncapsulationStructure (header_bytes command len handle st context opts ++ payload) n
  = Some (n - 24 - len,
          mkEncapsulation command len handle st context opts
            (header_bytes command len handle st context opts ++ payload) payload).
Proof.
  intros Hc Hl Hh Hs Hctx Ho Hn. unfold CreateEncapsulationStructure. cbv zeta.
  set (start := header_bytes _ _ _ _ _ _ ++ payload).
  assert (Hb : start = le_bytes 2 command ++ le_bytes 2 len ++ le_bytes 4 handle
    ++ le_bytes 4 st ++ context ++ le_bytes 4 opts ++ payload).
  { unfold start, header_bytes. by rewrite <-!(assoc_L (++)). }
  clearbody start. rewrite Hb at 1.
  rewrite GetUint_le, u16_id by done. cbn [mbind option_bind].
  rewrite GetUint_le, u16_id by done. cbn [mbind option_bind].
  rewrite GetUdint_le, u32_id by done. cbn [mbind option_bind].
  rewrite GetUdint_le, u32_id by done. cbn [mbind option_bind].
  change (Z.to_nat kSenderContextSize) with 8%nat.
  unfold load_n, ptr_add. rewrite !decide_True by (rewrite length_app, Hctx; lia).
  rewrite <-Hctx, take_app_length, drop_app_length. cbn [mbind option_bind].
  rewrite GetUdint_le, u32_id by done. cbn [mbind option_bind].
  by rewrite (proj2 (Z.leb_le _ _)) by lia.
Qed.
