(* ===== verification/Cpf.v ===== *)
(** * [enet_encap/cpf.c]: the common packet format

    Parsing of the items of a SendRRData or SendUnitData message, assembly of
    reply and I/O messages, and the two entry points that hand a request to the
    message router.  The router is an interface, which the router of
    [MessageRouter] implements. *)

From S2P Require Import Prelude EndianConv CipTypes CipCodec CipClasses CipServices MessageRouter SocketTimer.
From S2P Require Import ConnRecord ConnObject ConnList EncapData.
From stdpp Require Import strings.
Open Scope Z_scope.

(** ** Data *)

(** [CipItemId] *)
Definition kCipItemIdNullAddress : Z := 0x0000.
Definition kCipItemIdListIdentityResponse : Z := 0x000C.
Definition kCipItemIdConnectionAddress : Z := 0x00A1.
Definition kCipItemIdConnectedDataItem : Z := 0x00B1.
Definition kCipItemIdUnconnectedDataItem : Z := 0x00B2.
Definition kCipItemIdListServiceResponse : Z := 0x0100.
Definition kCipItemIdSocketAddressInfoOriginatorToTarget : Z := 0x8000.
Definition kCipItemIdSocketAddressInfoTargetToOriginator : Z := 0x8001.
Definition kCipItemIdSequencedAddressItem : Z := 0x8002.

Record AddressItem := mkAddressItem {
  address_type_id : Z; address_length : Z; connection_identifier : Z; sequence_number : Z }.

(** [data_pointer] is [None] for NULL and for a pointer into a receive buffer
    whose lifetime has ended. *)
Record DataItem := mkDataItem {
  data_type_id : Z; data_item_length : Z; data_pointer : option (list Z) }.

Record SocketAddressInfoItem := mkSockaddrInfo {
  info_type_id : Z; info_length : Z; sin_family : Z; info_sin_port : Z; info_sin_addr : Z;
  nasin_zero : list Z }.

Record CipCommonPacketFormatData := mkCpf {
  item_count : Z;
  address_item : AddressItem;
  data_item : DataItem;
  address_info_item : SocketAddressInfoItem * SocketAddressInfoItem }.

Definition set_item_count (n : Z) (d : CipCommonPacketFormatData) :=
  mkCpf n (address_item d) (data_item d) (address_info_item d).
Definition set_address_item (a : AddressItem) (d : CipCommonPacketFormatData) :=
  mkCpf (item_count d) a (data_item d) (address_info_item d).
Definition set_data_item (i : DataItem) (d : CipCommonPacketFormatData) :=
  mkCpf (item_count d) (address_item d) i (address_info_item d).
Definition set_infos (i : SocketAddressInfoItem * SocketAddressInfoItem)
    (d : CipCommonPacketFormatData) :=
  mkCpf (item_count d) (address_item d) (data_item d) i.
Definition set_info_type (t : Z) (i : SocketAddressInfoItem) :=
  mkSockaddrInfo t (info_length i) (sin_family i) (info_sin_port i) (info_sin_addr i)
    (nasin_zero i).
Definition set_connection_identifier (v : Z) (d : CipCommonPacketFormatData) :=
  set_address_item (mkAddressItem (address_type_id (address_item d))
    (address_length (address_item d)) v (sequence_number (address_item d))) d.
Definition set_sequence_number (v : Z) (d : CipCommonPacketFormatData) :=
  set_address_item (mkAddressItem (address_type_id (address_item d))
    (address_length (address_item d)) (connection_identifier (address_item d)) v) d.

(** The global item before the first message. *)
Definition zero_info : SocketAddressInfoItem := mkSockaddrInfo 0 0 0 0 0 (replicate 8 0).
Definition zero_cpf : CipCommonPacketFormatData :=
  mkCpf 0 (mkAddressItem 0 0 0 0) (mkDataItem 0 0 None) (zero_info, zero_info).

(** ** Parsing *)

(** The address item: the identifier is read from length 4 on, the sequence
    number only at length 8. *)
Definition parse_address_item (data : list Z) (length_count : Z)
    (d : CipCommonPacketFormatData)
  : option (list Z * Z * CipCommonPacketFormatData) :=
  '(t, data) ← GetUintFromMessage data;
  '(len, data) ← GetUintFromMessage data;
  let old := address_item d in
  let length_count := length_count + 4 in
  '(data, length_count, id) ←
    (if 4 <=? len then
       '(v, data) ← GetUdintFromMessage data; Some (data, length_count + 4, v)
     else Some (data, length_count, connection_identifier old));
  '(data, length_count, seq) ←
    (if len =? 8 then
       '(v, data) ← GetUdintFromMessage data; Some (data, length_count + 4, v)
     else Some (data, length_count, sequence_number old));
  Some (data, length_count, set_address_item (mkAddressItem t len id seq) d).

(** One step of the sockaddr loop; an item of another kind is put back, but its
    two bytes stay counted. *)
Definition parse_sockaddr_item (data : list Z) (length_count : Z) (i : SocketAddressInfoItem)
  : option (list Z * Z * SocketAddressInfoItem) :=
  let start := data in
  '(t, data) ← GetIntFromMessage data;
  let t := u16 t in
  let length_count := length_count + 2 in
  if (t =? kCipItemIdSocketAddressInfoOriginatorToTarget)
     || (t =? kCipItemIdSocketAddressInfoTargetToOriginator) then
    '(len, data) ← GetIntFromMessage data;
    '(family, data) ← GetIntFromMessage data;
    '(port, data) ← GetIntFromMessage data;
    '(addr, data) ← GetUdintFromMessage data;
    zeros ← load_n data 8;
    data ← ptr_add data 8;
    Some (data, length_count + 18, mkSockaddrInfo t (u16 len) family (u16 port) addr zeros)
  else Some (start, length_count, set_info_type 0 i).

(** The loop runs at most twice. *)
Definition parse_sockaddr_items (n : Z) (data : list Z) (length_count : Z)
    (infos : SocketAddressInfoItem * SocketAddressInfoItem)
  : option (list Z * Z * (SocketAddressInfoItem * SocketAddressInfoItem)) :=
  if n <=? 0 then Some (data, length_count, infos)
  else
    '(data, length_count, i0) ← parse_sockaddr_item data length_count infos.1;
    if n <=? 1 then Some (data, length_count, (i0, infos.2))
    else
      '(data, length_count, i1) ← parse_sockaddr_item data length_count infos.2;
      Some (data, length_count, (i0, i1)).

Definition CreateCommonPacketFormatStructure (data : list Z) (data_length : Z)
    (d : CipCommonPacketFormatData) : option (EipStatus * CipCommonPacketFormatData) :=
  let d := set_infos (set_info_type 0 (address_info_item d).1,
                      set_info_type 0 (address_info_item d).2) d in
  '(count, data) ← GetUintFromMessage data;
  let d := set_item_count count d in
  let length_count := 2 in
  '(data, length_count, d) ←
    (if 1 <=? count then parse_address_item data length_count d
     else Some (data, length_count, d));
  let finish length_count d :=
    let infos := address_info_item d in
    let infos := if count <? 4 then
                   (if count <? 3 then set_info_type 0 infos.1 else infos.1,
                    set_info_type 0 infos.2)
                 else infos in
    let d := set_infos infos d in
    if length_count =? data_length then Some (kEipStatusOk, d)
    else if 2 <? count then Some (kEipStatusOk, d) else Some (kEipStatusError, d) in
  if 2 <=? count then
    '(t, data) ← GetUintFromMessage data;
    '(len, data) ← GetUintFromMessage data;
    let d := set_data_item (mkDataItem t len (Some data)) d in
    if length_count + 4 + len <=? data_length then
      data ← ptr_add data (Z.to_nat len);
      let length_count := length_count + (4 + len) in
      '(data, length_count, infos) ←
        parse_sockaddr_items (u16 (count - 2)) data length_count (address_info_item d);
      finish length_count (set_infos infos d)
    else Some (kEipStatusError, d)
  else finish length_count d.

(** ** Assembly *)

Definition EncodeNullAddressItem (m : ENIPMessage) : option ENIPMessage :=
  m ← AddIntToMessage kCipItemIdNullAddress m;
  AddIntToMessage 0 m.

Definition EncodeConnectedAddressItem (d : CipCommonPacketFormatData) (m : ENIPMessage)
  : option ENIPMessage :=
  m ← AddIntToMessage kCipItemIdConnectionAddress m;
  m ← AddIntToMessage 4 m;
  AddDintToMessage (connection_identifier (address_item d)) m.

Definition kSequencedAddressItemLength : Z := 8.

Definition EncodeSequencedAddressItem (d : CipCommonPacketFormatData) (m : ENIPMessage)
  : option ENIPMessage :=
  m ← AddIntToMessage kCipItemIdSequencedAddressItem m;
  m ← AddIntToMessage kSequencedAddressItemLength m;
  m ← AddDintToMessage (connection_identifier (address_item d)) m;
  AddDintToMessage (sequence_number (address_item d)) m.

Definition EncodeItemCount (d : CipCommonPacketFormatData) (m : ENIPMessage) :=
  AddIntToMessage (item_count d) m.
Definition EncodeDataItemType (d : CipCommonPacketFormatData) (m : ENIPMessage) :=
  AddIntToMessage (data_type_id (data_item d)) m.
Definition EncodeDataItemLength (d : CipCommonPacketFormatData) (m : ENIPMessage) :=
  AddIntToMessage (data_item_length (data_item d)) m.

(** A [memcpy] of no bytes reads nothing, whatever the pointer. *)
Definition EncodeDataItemData (d : CipCommonPacketFormatData) (m : ENIPMessage)
  : option ENIPMessage :=
  p ← (if data_item_length (data_item d) =? 0 then Some [] else data_pointer (data_item d));
  bs ← load_n p (Z.to_nat (data_item_length (data_item d)));
  m ← copy_in bs m;
  Some (add_used (data_item_length (data_item d))
          (move_position (data_item_length (data_item d)) m)).

Definition EncodeConnectedDataItemLength (r : CipMessageRouterResponse) (m : ENIPMessage) :=
  AddIntToMessage
    (u16 (used_message_length (message r) + 4 + 2 + 2 * size_of_additional_status r)) m.
Definition EncodeSequenceNumber (d : CipCommonPacketFormatData) (m : ENIPMessage) :=
  AddIntToMessage (u16 (sequence_number (address_item d))) m.
Definition EncodeReplyService (r : CipMessageRouterResponse) (m : ENIPMessage) :=
  AddSintToMessage (reply_service r) m.
Definition EncodeReservedFieldOfLengthByte (r : CipMessageRouterResponse) (m : ENIPMessage) :=
  AddSintToMessage (reserved r) m.
Definition EncodeGeneralStatus (r : CipMessageRouterResponse) (m : ENIPMessage) :=
  AddSintToMessage (general_status r) m.
Definition EncodeExtendedStatusLength (r : CipMessageRouterResponse) (m : ENIPMessage) :=
  AddSintToMessage (size_of_additional_status r) m.

Definition MAX_SIZE_OF_ADD_STATUS : Z := 2.

(** The words below both bounds, in order. *)
Fixpoint encode_status_words (words : list Z) (m : ENIPMessage) : option ENIPMessage :=
  match words with
  | [] => Some m
  | w :: words => m ← AddIntToMessage w m; encode_status_words words m
  end.

Definition EncodeExtendedStatusDataItems (r : CipMessageRouterResponse) (m : ENIPMessage) :=
  encode_status_words
    (take (Z.to_nat (Z.min (size_of_additional_status r) MAX_SIZE_OF_ADD_STATUS))
       (additional_status r)) m.

Definition EncodeExtendedStatus (r : CipMessageRouterResponse) (m : ENIPMessage)
  : option ENIPMessage :=
  m ← EncodeExtendedStatusLength r m;
  EncodeExtendedStatusDataItems r m.

Definition EncodeUnconnectedDataItemLength (r : CipMessageRouterResponse) (m : ENIPMessage) :=
  AddIntToMessage
    (u16 (used_message_length (message r) + 4 + 2 * size_of_additional_status r)) m.

Definition EncodeMessageRouterResponseData (r : CipMessageRouterResponse) (m : ENIPMessage)
  : option ENIPMessage :=
  let used := used_message_length (message r) in
  bs ← load_n (message_buffer (message r)) (Z.to_nat used);
  m ← copy_in bs m;
  Some (add_used used (move_position used m)).

Definition EncodeSockaddrInfoItemTypeId (i : SocketAddressInfoItem) (m : ENIPMessage) :=
  AddIntToMessage (info_type_id i) m.
Definition EncodeSockaddrInfoLength (i : SocketAddressInfoItem) (m : ENIPMessage) :=
  AddIntToMessage (info_length i) m.

Definition encode_sockaddr (e : OpenerEndianess) (i : SocketAddressInfoItem) (m : ENIPMessage)
  : option ENIPMessage :=
  m ← EncodeSockaddrInfoItemTypeId i m;
  m ← EncodeSockaddrInfoLength i m;
  m ← EncapsulateIpAddress e (info_sin_port i) (info_sin_addr i) m;
  FillNextNMessageOctetsWithValueAndMoveToNextPosition 0 8 m.

(** The inner loop: the first of the two items of the given type. *)
Definition encode_sockaddr_of_type (e : OpenerEndianess) (type : Z)
    (d : CipCommonPacketFormatData) (m : ENIPMessage) : option ENIPMessage :=
  let '(i0, i1) := address_info_item d in
  if info_type_id i0 =? type then encode_sockaddr e i0 m
  else if info_type_id i1 =? type then encode_sockaddr e i1 m
  else Some m.

(** [r] is [None] for the NULL response of an I/O message; the sequence number
    is the one of the global item [g]. *)
Definition AssembleLinearMessage (e : OpenerEndianess) (r : option CipMessageRouterResponse)
    (d g : CipCommonPacketFormatData) (m : ENIPMessage) : option (EipStatus * ENIPMessage) :=
  m ← match r with
      | Some _ => m ← AddDintToMessage 0 m; AddIntToMessage 0 m
      | None => Some m
      end;
  m ← EncodeItemCount d m;
  let type := address_type_id (address_item d) in
  if one_of type [kCipItemIdNullAddress; kCipItemIdConnectionAddress;
                  kCipItemIdSequencedAddressItem]
  then
    m ← (if type =? kCipItemIdNullAddress then EncodeNullAddressItem m
         else if type =? kCipItemIdConnectionAddress then EncodeConnectedAddressItem d m
         else EncodeSequencedAddressItem d m);
    m ← (if (data_type_id (data_item d) =? kCipItemIdUnconnectedDataItem)
            || (data_type_id (data_item d) =? kCipItemIdConnectedDataItem)
         then
           match r with
           | Some r =>
               m ← EncodeDataItemType d m;
               m ← (if data_type_id (data_item d) =? kCipItemIdConnectedDataItem
                    then m ← EncodeConnectedDataItemLength r m; EncodeSequenceNumber g m
                    else EncodeUnconnectedDataItemLength r m);
               m ← EncodeReplyService r m;
               m ← EncodeReservedFieldOfLengthByte r m;
               m ← EncodeGeneralStatus r m;
               m ← EncodeExtendedStatus r m;
               EncodeMessageRouterResponseData r m
           | None =>
               m ← EncodeDataItemType d m;
               m ← EncodeDataItemLength d m;
               EncodeDataItemData d m
           end
         else Some m);
    m ← encode_sockaddr_of_type e kCipItemIdSocketAddressInfoOriginatorToTarget d m;
    m ← encode_sockaddr_of_type e kCipItemIdSocketAddressInfoTargetToOriginator d m;
    Some (kEipStatusOk, m)
  else Some (kEipStatusError, m).

Definition AssembleIOMessage (e : OpenerEndianess) (d g : CipCommonPacketFormatData)
    (m : ENIPMessage) : option ENIPMessage :=
  '(_, m) ← AssembleLinearMessage e None d g m;
  Some m.

(** ** Requests *)

(** The global state the two entry points work on; [stack] belongs to the
    router. *)
Record World (S : Type) := mkWorld {
  g_cpf : CipCommonPacketFormatData;
  connections : ConnManager;
  stack : S }.
Arguments mkWorld {S}. Arguments g_cpf {S}. Arguments connections {S}. Arguments stack {S}.

Definition set_cpf {S} (d : CipCommonPacketFormatData) (w : World S) : World S :=
  mkWorld d (connections w) (stack w).
Definition set_connections {S} (c : ConnManager) (w : World S) : World S :=
  mkWorld (g_cpf w) c (stack w).

(** The interface of the message router: request bytes and length, response,
    originator address, session handle. *)
Class Router (S : Type) := {
  route : list Z → Z → CipMessageRouterResponse → SockAddr → Z → World S →
    option (EipStatus * CipMessageRouterResponse * World S) }.

Definition InitializeMessageRouterResponse : CipMessageRouterResponse :=
  mkResponse 0 0 0 0 [0; 0] InitializeENIPMessage.

(** The reply of a routed request: CPF data behind the header, then the header. *)
Definition send_reply (e : OpenerEndianess) (received_data : EncapsulationData)
    (r : CipMessageRouterResponse) (d : CipCommonPacketFormatData) (m : ENIPMessage)
  : option ENIPMessage :=
  let m := SkipEncapsulationHeader m in
  '(_, m) ← AssembleLinearMessage e (Some r) d d m;
  let buffer := current_message_position m in
  let m := set_position (Some 0) m in
  m ← GenerateEncapsulationHeader received_data (used_message_length m)
        (session_handle received_data) kEncapsulationProtocolSuccess m;
  Some (set_position buffer m).

Section Entry.
Context {S : Type} `{Router S}.
Variable endianess : OpenerEndianess.

Definition NotifyCommonPacketFormat (received_data : EncapsulationData)
    (originator_address : SockAddr) (outgoing_message : ENIPMessage) (w : World S)
  : option (EipStatus * ENIPMessage * World S) :=
  '(return_value, d) ← CreateCommonPacketFormatStructure
      (current_communication_buffer_position received_data) (data_length received_data)
      (g_cpf w);
  let w := set_cpf d w in
  match return_value with
  | kEipStatusError => Some (kEipStatusError, outgoing_message, w)
  | _ =>
      if (address_type_id (address_item d) =? kCipItemIdNullAddress)
         && (data_type_id (data_item d) =? kCipItemIdUnconnectedDataItem)
      then
        p ← data_pointer (data_item d);
        '(status, r, w) ← route p (data_item_length (data_item d))
           InitializeMessageRouterResponse originator_address
           (session_handle received_data) w;
        match status with
        | kEipStatusError => Some (kEipStatusError, outgoing_message, w)
        | _ =>
            m ← send_reply endianess received_data r (g_cpf w) outgoing_message;
            Some (kEipStatusOkSend, m, w)
        end
      else
        m ← GenerateEncapsulationHeader received_data 0 (session_handle received_data)
              kEncapsulationProtocolIncorrectData outgoing_message;
        Some (kEipStatusOkSend, m, w)
  end.

(** The status of every way out but the repeated reply. *)
Definition connected_status (m : ENIPMessage) : EipStatus :=
  if 0 =? used_message_length m then kEipStatusOk else kEipStatusOkSend.

(** Sends the last reply again under a new header.  The message position ends
    up in the receive buffer. *)
Definition repeat_reply (received_data : EncapsulationData) (o : CipConnectionObject)
  : option ENIPMessage :=
  let m := set_position (Some 0) (last_reply_sent o) in
  let m := add_used (- ENCAPSULATION_HEADER_LENGTH) m in
  m ← GenerateEncapsulationHeader received_data (used_message_length m)
        (session_handle received_data) kEncapsulationProtocolSuccess m;
  Some (set_position None m).

Definition update_connection (c : nat) (o : CipConnectionObject) (w : World S) : World S :=
  set_connections (set_connection c o (connections w)) w.

(** A connected request with data item [p] on connection [c], object [o]. *)
Definition handle_connected (received_data : EncapsulationData) (originator_address : SockAddr)
    (c : nat) (o : CipConnectionObject) (p : list Z) (outgoing_message : ENIPMessage)
    (w : World S) : option (EipStatus * ENIPMessage * World S) :=
  '(seq, buffer) ← GetUintFromMessage p;
  let w := set_cpf (set_sequence_number seq (g_cpf w)) w in
  if sequence_count_consuming o =? seq then
    m ← repeat_reply received_data o;
    Some (kEipStatusOkSend, m, w)
  else
    o ← ConnectionObjectResetInactivityWatchdogTimerValue (set_sequence_count_consuming seq o);
    let w := update_connection c o w in
    '(status, r, w) ← route buffer (data_item_length (data_item (g_cpf w)) - 2)
       InitializeMessageRouterResponse originator_address (session_handle received_data) w;
    match status with
    | kEipStatusError => Some (connected_status outgoing_message, outgoing_message, w)
    | _ =>
        o ← connection_pool (connections w) !! c;
        let w := set_cpf (set_connection_identifier (cip_produced_connection_id o) (g_cpf w)) w in
        m ← send_reply endianess received_data r (g_cpf w) outgoing_message;
        let w := update_connection c (set_last_reply_sent (set_position None m) o) w in
        Some (connected_status m, m, w)
    end.

Definition NotifyConnectedCommonPacketFormat (received_data : EncapsulationData)
    (originator_address : SockAddr) (outgoing_message : ENIPMessage) (w : World S)
  : option (EipStatus * ENIPMessage * World S) :=
  '(return_value, d) ← CreateCommonPacketFormatStructure
      (current_communication_buffer_position received_data) (data_length received_data)
      (g_cpf w);
  let w := set_cpf d w in
  let unchanged w := Some (connected_status outgoing_message, outgoing_message, w) in
  match return_value with
  | kEipStatusError => unchanged w
  | _ =>
      if address_type_id (address_item d) =? kCipItemIdConnectionAddress then
        found ← GetConnectedObject (connection_identifier (address_item d)) (connections w);
        match found with
        | None => unchanged w
        | Some c =>
            o ← connection_pool (connections w) !! c;
            o ← ConnectionObjectResetInactivityWatchdogTimerValue o;
            let w := update_connection c o w in
            if data_type_id (data_item d) =? kCipItemIdConnectedDataItem then
              p ← data_pointer (data_item d);
              handle_connected received_data originator_address c o p outgoing_message w
            else unchanged w
        end
      else unchanged w
  end.
End Entry.

(** The message router of the CIP stack: its state is the global request and the
    stack. *)
#[export] Instance cip_router `{Application} : Router (CipMessageRouterRequest * CipStack) := {|
  route data len resp addr session w :=
    '(status, g, resp, s) ← NotifyMessageRouter data len resp addr session
                              (fst (stack w)) (snd (stack w));
    Some (status, resp, mkWorld (g_cpf w) (connections w) (g, s)) |}.

(** A request for a class that is not registered. *)
Lemma cip_route_unknown `{Application} data len resp addr session
    (w : World (CipMessageRouterRequest * CipStack)) g :
  CreateMessageRouterRequestStructure data (s16 len) (fst (stack w))
    = Some (kCipErrorSuccess, g) →
  GetRegisteredObject (snd (stack w)) (class_id (request_path g)) = None →
  route data len resp addr session w
  = Some (kEipStatusOkSend, router_error kCipErrorPathDestinationUnknown g resp,
          mkWorld (g_cpf w) (connections w) (g, snd (stack w))).
Proof.
  intros Hc Hg. unfold route, cip_router, NotifyMessageRouter, notify_message_router. rewrite Hc.
  cbn [mbind option_bind]. change (negb (kCipErrorSuccess =? kCipErrorSuccess)) with false.
  cbv iota. by rewrite Hg.
Qed.

(** ** Lemmas: what the encoders write *)

Lemma writes_status_words ws : writes (encode_status_words ws) (concat (le_bytes 2 <$> ws)).
Proof.
  induction ws as [|w ws IH]; [apply writes_nothing |].
  apply (writes_bind (AddIntToMessage w)); [apply writes_Int | done].
Qed.

Lemma writes_response_data r body :
  holds body (message r) → writes (EncodeMessageRouterResponseData r) body.
Proof.
  intros Hb. apply writes_put. intros m. unfold EncodeMessageRouterResponseData. cbv zeta.
  rewrite (load_used body) by done. cbn [mbind option_bind].
  apply copy_used_put. apply Hb.
Qed.

Lemma writes_no_data d : data_item_length (data_item d) = 0 → writes (EncodeDataItemData d) [].
Proof.
  intros Hl. apply writes_put. intros m. unfold EncodeDataItemData. rewrite Hl.
  cbn [Z.eqb mbind option_bind]. apply (copy_used_put [] 0 m eq_refl).
Qed.

(** The router's part of a reply: service, reserved byte, status, additional
    status words, response data. *)
Definition response_bytes (r : CipMessageRouterResponse) (body : list Z) : list Z :=
  le_bytes 1 (reply_service r) ++ le_bytes 1 (reserved r) ++ le_bytes 1 (general_status r)
  ++ le_bytes 1 (size_of_additional_status r)
  ++ concat (le_bytes 2 <$> take (Z.to_nat (size_of_additional_status r)) (additional_status r))
  ++ body.

Definition response_wf (r : CipMessageRouterResponse) (body : list Z) : Prop :=
  holds body (message r) ∧ 0 <= size_of_additional_status r <= MAX_SIZE_OF_ADD_STATUS ∧
  length (additional_status r) = Z.to_nat MAX_SIZE_OF_ADD_STATUS.

Lemma length_words ws : length (concat (le_bytes 2 <$> ws)) = (2 * length ws)%nat.
Proof. induction ws as [|w ws IH]; [done |]. cbn [fmap list_fmap concat]. rewrite length_app, IH. simpl. lia. Qed.

Lemma length_response_bytes r body :
  response_wf r body →
  Z.of_nat (length (response_bytes r body))
  = used_message_length (message r) + 4 + 2 * size_of_additional_status r.
Proof.
  intros (Hb & Hn & Hl). unfold response_bytes.
  rewrite !length_app, !length_le_bytes, length_words, length_take, Hl.
  destruct Hb as (_ & _ & -> & _). unfold MAX_SIZE_OF_ADD_STATUS in *. lia.
Qed.

Lemma writes_response r body :
  response_wf r body →
  writes (λ m, m ← EncodeReplyService r m; m ← EncodeReservedFieldOfLengthByte r m;
               m ← EncodeGeneralStatus r m; m ← EncodeExtendedStatus r m;
               EncodeMessageRouterResponseData r m) (response_bytes r body).
Proof.
  intros (Hb & Hn & Hl). unfold response_bytes.
  apply writes_bind; [apply writes_Sint |]. apply writes_bind; [apply writes_Sint |].
  apply writes_bind; [apply writes_Sint |]. rewrite (assoc_L (++)).
  apply writes_bind; [|by apply writes_response_data].
  apply (writes_bind _ (EncodeExtendedStatusDataItems r)); [apply writes_Sint |].
  unfold EncodeExtendedStatusDataItems. rewrite Z.min_l by lia. apply writes_status_words.
Qed.

(** ** Lemmas: assembly *)

(** No sockaddr item is set. *)
Definition no_sockaddr (d : CipCommonPacketFormatData) : Prop :=
  info_type_id (address_info_item d).1 = 0 ∧ info_type_id (address_info_item d).2 = 0.

Lemma encode_no_sockaddr e t d m :
  no_sockaddr d → t ≠ 0 → encode_sockaddr_of_type e t d m = Some m.
Proof.
  destruct d as [? ? ? [i0 i1]]. intros [H0 H1] Ht. unfold encode_sockaddr_of_type.
  simpl in *. by rewrite H0, H1, (proj2 (Z.eqb_neq 0 t)) by done.
Qed.

(** A sockaddr item as it is sent, and those of the packet: the first one of each type. *)
Definition sockaddr_item_bytes (e : OpenerEndianess) (i : SocketAddressInfoItem) : list Z :=
  le_bytes 2 (info_type_id i) ++ le_bytes 2 (info_length i)
  ++ ip_address_bytes e (info_sin_port i) (info_sin_addr i) ++ replicate 8 0.

Definition sockaddr_of_type (e : OpenerEndianess) (type : Z) (d : CipCommonPacketFormatData) : list Z :=
  let '(i0, i1) := address_info_item d in
  if info_type_id i0 =? type then sockaddr_item_bytes e i0
  else if info_type_id i1 =? type then sockaddr_item_bytes e i1 else [].

Definition sockaddr_bytes (e : OpenerEndianess) (d : CipCommonPacketFormatData) : list Z :=
  sockaddr_of_type e kCipItemIdSocketAddressInfoOriginatorToTarget d
  ++ sockaddr_of_type e kCipItemIdSocketAddressInfoTargetToOriginator d.

(** The addresses can be sent: the byte order of the host is known, or there are none. *)
Definition sockaddr_ok (e : OpenerEndianess) (d : CipCommonPacketFormatData) : Prop :=
  e ≠ kOpenerEndianessUnknown ∨ no_sockaddr d.

Lemma writes_sockaddr_of_type e t d :
  sockaddr_ok e d → t ≠ 0 → writes (encode_sockaddr_of_type e t d) (sockaddr_of_type e t d).
Proof.
  unfold sockaddr_ok, no_sockaddr, encode_sockaddr_of_type, sockaddr_of_type.
  destruct d as [? ? ? [i0 i1]]. cbn [address_info_item fst snd]. intros He Ht.
  assert (He' : info_type_id i0 = t ∨ info_type_id i1 = t → e ≠ kOpenerEndianessUnknown).
  { destruct He as [He | [H0 H1]]; [done |]. intros [<- | <-]; congruence. }
  assert (W : ∀ i, e ≠ kOpenerEndianessUnknown → writes (encode_sockaddr e i) (sockaddr_item_bytes e i)).
  { intros i Hk. unfold sockaddr_item_bytes. apply (writes_bind (EncodeSockaddrInfoItemTypeId i));
      [apply writes_Int |]. apply (writes_bind (EncodeSockaddrInfoLength i)); [apply writes_Int |].
    apply writes_bind; [by apply writes_ip_address | by apply (writes_zeros 8)]. }
  destruct (Z.eqb_spec (info_type_id i0) t) as [E0|_]; [apply W, He'; by left |].
  destruct (Z.eqb_spec (info_type_id i1) t) as [E1|_]; [apply W, He'; by right | apply writes_nothing].
Qed.

Lemma writes_sockaddr e d :
  sockaddr_ok e d →
  writes (λ m, m ← encode_sockaddr_of_type e kCipItemIdSocketAddressInfoOriginatorToTarget d m;
               encode_sockaddr_of_type e kCipItemIdSocketAddressInfoTargetToOriginator d m)
    (sockaddr_bytes e d).
Proof. intros He. by apply writes_bind; apply writes_sockaddr_of_type. Qed.

Lemma bytes_sockaddr e d : bytes (sockaddr_bytes e d).
Proof.
  unfold sockaddr_bytes, sockaddr_of_type, sockaddr_item_bytes. destruct (address_info_item d).
  repeat case_match; repeat first [apply le_bytes_bytes | apply bytes_ip_address | apply bytes_zeros
    | apply bytes_app; split | constructor].
Qed.

Lemma no_sockaddr_bytes e d : no_sockaddr d → sockaddr_bytes e d = [].
Proof.
  unfold no_sockaddr, sockaddr_bytes, sockaddr_of_type. destruct (address_info_item d) as [i0 i1].
  cbn [fst snd]. by intros [-> ->].
Qed.

(** The address item as it is sent. *)
Definition address_bytes (d : CipCommonPacketFormatData) : list Z :=
  let a := address_item d in
  if address_type_id a =? kCipItemIdNullAddress then le_bytes 2 0 ++ le_bytes 2 0
  else if address_type_id a =? kCipItemIdConnectionAddress
  then le_bytes 2 kCipItemIdConnectionAddress ++ le_bytes 2 4
       ++ le_bytes 4 (connection_identifier a)
  else le_bytes 2 kCipItemIdSequencedAddressItem ++ le_bytes 2 8
       ++ le_bytes 4 (connection_identifier a) ++ le_bytes 4 (sequence_number a).

Definition address_known (d : CipCommonPacketFormatData) : Prop :=
  one_of (address_type_id (address_item d))
    [kCipItemIdNullAddress; kCipItemIdConnectionAddress; kCipItemIdSequencedAddressItem] = true.

Lemma writes_address_item d :
  address_known d →
  writes (λ m, if address_type_id (address_item d) =? kCipItemIdNullAddress
               then EncodeNullAddressItem m
               else if address_type_id (address_item d) =? kCipItemIdConnectionAddress
               then EncodeConnectedAddressItem d m
               else EncodeSequencedAddressItem d m) (address_bytes d).
Proof.
  intros _. unfold address_bytes. cbv zeta.
  destruct (_ =? kCipItemIdNullAddress); [|destruct (_ =? kCipItemIdConnectionAddress)];
    repeat apply writes_bind; eauto with writes.
Qed.

Lemma le_bytes_u16 v : le_bytes 2 (u16 v) = le_bytes 2 v.
Proof. apply (le_bytes_mod 2). Qed.

(** Type and length of a reply's data item, and the sequence number. *)
Definition data_item_header (d : CipCommonPacketFormatData) (len : Z) : list Z :=
  if data_type_id (data_item d) =? kCipItemIdConnectedDataItem
  then le_bytes 2 (len + 2) ++ le_bytes 2 (sequence_number (address_item d))
  else le_bytes 2 len.

Lemma writes_data_item_header d r body :
  response_wf r body →
  writes (λ m, if data_type_id (data_item d) =? kCipItemIdConnectedDataItem
               then m ← EncodeConnectedDataItemLength r m; EncodeSequenceNumber d m
               else EncodeUnconnectedDataItemLength r m)
    (data_item_header d (Z.of_nat (length (response_bytes r body)))).
Proof.
  intros Hr. unfold data_item_header. rewrite (length_response_bytes r body Hr).
  destruct (_ =? kCipItemIdConnectedDataItem).
  - apply writes_bind; apply writes_put; intros m.
    + unfold EncodeConnectedDataItemLength. rewrite AddIntToMessage_put, le_bytes_u16.
      do 2 f_equal. lia.
    + unfold EncodeSequenceNumber. by rewrite AddIntToMessage_put, le_bytes_u16.
  - apply writes_put; intros m. unfold EncodeUnconnectedDataItemLength.
    rewrite AddIntToMessage_put, le_bytes_u16. do 2 f_equal.
Qed.

(** The reply in common packet format, with the request's data item type. *)
Definition reply_bytes (d : CipCommonPacketFormatData) (r : CipMessageRouterResponse)
    (body : list Z) : list Z :=
  le_bytes 4 0 ++ le_bytes 2 0 ++ le_bytes 2 (item_count d) ++ address_bytes d
  ++ le_bytes 2 (data_type_id (data_item d))
  ++ data_item_header d (Z.of_nat (length (response_bytes r body)))
  ++ response_bytes r body.

Lemma AssembleLinearMessage_reply e d r body m :
  address_known d → sockaddr_ok e d →
  data_type_id (data_item d) = kCipItemIdUnconnectedDataItem ∨
  data_type_id (data_item d) = kCipItemIdConnectedDataItem →
  response_wf r body →
  AssembleLinearMessage e (Some r) d d m
  = (m ← put (reply_bytes d r body ++ sockaddr_bytes e d) m; Some (kEipStatusOk, m)).
Proof.
  intros Ha He Hd Hr. unfold AssembleLinearMessage. rewrite AddDintToMessage_put.
  rewrite (writes_Int 0). rewrite (writes_step _ _ _ _ _ (writes_Int (item_count d))).
  cbv zeta. rewrite Ha. rewrite (writes_step _ _ _ _ _ (writes_address_item d Ha)).
  replace ((data_type_id (data_item d) =? kCipItemIdUnconnectedDataItem)
           || (data_type_id (data_item d) =? kCipItemIdConnectedDataItem)) with true
    by (destruct Hd as [-> | ->]; done).
  rewrite (writes_step _ _ _ _ _ (writes_bind _ _ _ _ (writes_Int (data_type_id (data_item d)))
    (writes_bind _ _ _ _ (writes_data_item_header d r body Hr) (writes_response r body Hr)))).
  rewrite (writes_step _ _ _ _ _ (writes_sockaddr_of_type e
    kCipItemIdSocketAddressInfoOriginatorToTarget d He ltac:(discriminate))).
  rewrite (writes_step _ _ _ _ _ (writes_sockaddr_of_type e
    kCipItemIdSocketAddressInfoTargetToOriginator d He ltac:(discriminate))).
  unfold reply_bytes, sockaddr_bytes. by rewrite <-!(assoc_L (++)).
Qed.

(** *** The finished message *)

Lemma zero_prefix_put n bs m :
  holds [] m → 0 <= n → n + Z.of_nat (length bs) <= 512 → bytes bs →
  ∃ m', put bs (move_position n m) = Some m' ∧ wf_message m' ∧
    current_message_position m' = Some (n + Z.of_nat (length bs)) ∧
    used_message_length m' = Z.of_nat (length bs) ∧
    take (length bs) (drop (Z.to_nat n) (message_buffer m')) = bs.
Proof.
  intros (Hwf & Hp & Hu & _) Hn Hfit Hb. pose proof Hwf as (Hl & _ & _).
  unfold PC_OPENER_ETHERNET_BUFFER_SIZE in Hl.
  destruct m as [buf pos used]. simpl in *. subst pos used.
  assert (Hwf' : wf_message (move_position n (mkENIPMessage buf (Some 0) 0))) by exact Hwf.
  destruct (proj2 (put_is_Some bs (move_position n (mkENIPMessage buf (Some 0) 0)))) as [m' Hm'].
  { unfold room, move_position, set_position. simpl. rewrite decide_True by lia. lia. }
  exists m'. split; [done |]. split; [by eapply put_wf |].
  apply put_Some in Hm' as (p & Hp' & ? & ? & ->). simpl in *. simplify_eq.
  split; [done |]. split; [apply u64_id; unfold is_u64; lia |].
  rewrite drop_app_ge by (rewrite length_take; lia).
  rewrite length_take. replace (Z.to_nat n - _)%nat with 0%nat by lia.
  rewrite drop_0. by rewrite take_app_length.
Qed.

(** Writing [h] over the first bytes of a message whose bytes [bs] follow. *)
Lemma header_put h bs m :
  wf_message m → bytes h → length h = 24%nat →
  used_message_length m = Z.of_nat (length bs) → 24 + Z.of_nat (length bs) <= 512 →
  take (length bs) (drop 24 (message_buffer m)) = bs →
  ∃ m', put h (set_position (Some 0) m) = Some m' ∧ wf_message m' ∧ wire m' = h ++ bs ∧
    used_message_length m' = 24 + Z.of_nat (length bs) ∧
    current_message_position m' = Some 24.
Proof.
  intros Hwf Hh Hlh Hu Hfit Hbs. pose proof Hwf as (Hl & _ & _).
  unfold PC_OPENER_ETHERNET_BUFFER_SIZE in Hl.
  destruct (proj2 (put_is_Some h (set_position (Some 0) m))) as [m' Hm'].
  { unfold room, set_position. simpl. lia. }
  exists m'. split; [done |].
  split; [eapply put_wf; [|exact Hh|exact Hm']; exact Hwf |].
  apply put_Some in Hm' as (p & Hp' & ? & ? & ->). simpl in *. simplify_eq.
  rewrite Hu, Hlh. unfold wire. simpl.
  rewrite u64_id by (unfold is_u64; lia). split; [|split; [lia | done]].
  rewrite take_app_ge by lia. f_equal. rewrite Hlh.
  replace (Z.to_nat _ - 24)%nat with (length bs) by lia. exact Hbs.
Qed.

Lemma bytes_concat_words ws : bytes (concat (le_bytes 2 <$> ws)).
Proof.
  induction ws as [|w ws IH]; [constructor |]. cbn [fmap list_fmap concat].
  apply bytes_app. split; [apply le_bytes_bytes | done].
Qed.

Lemma bytes_response r body : response_wf r body → bytes (response_bytes r body).
Proof.
  intros ((Hwf & _ & _ & Ht) & _). unfold response_bytes.
  repeat (apply bytes_app; split; [first [apply le_bytes_bytes | apply bytes_concat_words] |]).
  rewrite <-Ht. apply bytes_take, Hwf.
Qed.

Lemma bytes_reply d r body : response_wf r body → bytes (reply_bytes d r body).
Proof.
  intros Hr. unfold reply_bytes, address_bytes, data_item_header. cbv zeta.
  repeat case_match;
    repeat first [apply le_bytes_bytes | by apply bytes_response | apply bytes_app; split].
Qed.

Lemma bytes_header command len handle st context opts :
  bytes context → bytes (header_bytes command len handle st context opts).
Proof.
  intros Hc. unfold header_bytes. repeat (apply bytes_app; split); try done; apply le_bytes_bytes.
Qed.

(** A reply is sent exactly when header and CPF data fit the buffer. *)
Lemma send_reply_spec e rd r body d m :
  holds [] m → length (sender_context rd) = 8%nat → bytes (sender_context rd) →
  address_known d → sockaddr_ok e d →
  data_type_id (data_item d) = kCipItemIdUnconnectedDataItem ∨
  data_type_id (data_item d) = kCipItemIdConnectedDataItem →
  response_wf r body →
  let data := reply_bytes d r body ++ sockaddr_bytes e d in
  let len := Z.of_nat (length data) in
  if 24 + len <=? 512 then
    ∃ m', send_reply e rd r d m = Some m' ∧ wf_message m' ∧ used_message_length m' = 24 + len ∧
      wire m' = header_bytes (command_code rd) len (session_handle rd)
                  kEncapsulationProtocolSuccess (sender_context rd) 0 ++ data
  else send_reply e rd r d m = None.
Proof.
  intros Hm Hc Hcb Ha He Hd Hr. cbv zeta. unfold send_reply, SkipEncapsulationHeader. cbv zeta.
  rewrite (AssembleLinearMessage_reply e d r body) by done.
  pose proof (proj2 (bytes_app _ _) (conj (bytes_reply d r body Hr) (bytes_sockaddr e d))) as Hb.
  set (data := reply_bytes d r body ++ sockaddr_bytes e d) in *.
  change ENCAPSULATION_HEADER_LENGTH with 24.
  destruct (Z.leb_spec (24 + Z.of_nat (length data)) 512) as [Hfit|Hfit].
  - destruct (zero_prefix_put 24 data m) as (m1 & -> & Hwf1 & Hp1 & Hu1 & Ht1); [done | lia.. | done |].
    cbn [mbind option_bind]. rewrite GenerateEncapsulationHeader_put by done.
    destruct (header_put (header_bytes (command_code rd) (used_message_length m1)
      (session_handle rd) kEncapsulationProtocolSuccess (sender_context rd) 0) data m1)
      as (m2 & E2 & Hwf2 & Hw2 & Hu2 & _); [done | by apply bytes_header
      | by apply length_header_bytes | done | lia | done |].
    cbn [set_position used_message_length] in *. rewrite E2. cbn [mbind option_bind].
    eexists. split; [done |]. split; [done |]. split; [done |].
    by rewrite <-Hu1.
  - destruct (put data (move_position 24 m)) as [m1|] eqn:E; [|done]. exfalso.
    assert (Hs : is_Some (put data (move_position 24 m))) by (rewrite E; by eexists).
    apply put_is_Some in Hs. destruct Hm as ((Hl & _) & Hp & _).
    unfold room, move_position, set_position in Hs. rewrite Hp in Hs. cbn [fmap option_fmap option_map current_message_position message_buffer] in Hs. rewrite decide_True in Hs by (simpl; lia).
    rewrite Hl in Hs. unfold PC_OPENER_ETHERNET_BUFFER_SIZE in Hs. lia.
Qed.

(** ** Lemmas: parsing *)

(** A packet of two items: an address item and a data item. *)
Definition packet_bytes (a : AddressItem) (type : Z) (payload : list Z) : list Z :=
  le_bytes 2 2 ++ le_bytes 2 (address_type_id a) ++ le_bytes 2 (address_length a)
  ++ (if 4 <=? address_length a then le_bytes 4 (connection_identifier a) else [])
  ++ (if address_length a =? 8 then le_bytes 4 (sequence_number a) else [])
  ++ le_bytes 2 type ++ le_bytes 2 (Z.of_nat (length payload)) ++ payload.

Definition address_wf (a : AddressItem) : Prop :=
  is_u16 (address_type_id a) ∧ is_u32 (connection_identifier a) ∧ is_u32 (sequence_number a) ∧
  (address_length a = 0 ∨ address_length a = 4 ∨ address_length a = 8).

(** What the packet leaves of the address item of the message before. *)
Definition received_address (a old : AddressItem) : AddressItem :=
  mkAddressItem (address_type_id a) (address_length a)
    (if 4 <=? address_length a then connection_identifier a else connection_identifier old)
    (if address_length a =? 8 then sequence_number a else sequence_number old).

Definition received_packet (a : AddressItem) (type : Z) (payload rest : list Z)
    (old : CipCommonPacketFormatData) : CipCommonPacketFormatData :=
  mkCpf 2 (received_address a (address_item old))
    (mkDataItem type (Z.of_nat (length payload)) (Some (payload ++ rest)))
    (set_info_type 0 (address_info_item old).1, set_info_type 0 (address_info_item old).2).

Lemma parse_address_item_spec a rest n d :
  address_wf a →
  parse_address_item (le_bytes 2 (address_type_id a) ++ le_bytes 2 (address_length a)
      ++ (if 4 <=? address_length a then le_bytes 4 (connection_identifier a) else [])
      ++ (if address_length a =? 8 then le_bytes 4 (sequence_number a) else []) ++ rest) n d
  = Some (rest, n + 4 + address_length a,
          set_address_item (received_address a (address_item d)) d).
Proof.
  intros (Ht & Hi & Hs & Hl). unfold parse_address_item.
  assert (is_u16 (address_length a)) by (unfold is_u16; lia).
  rewrite GetUint_le, u16_id by done. cbn [mbind option_bind].
  rewrite GetUint_le, u16_id by done. cbn [mbind option_bind]. cbv zeta.
  unfold received_address. destruct Hl as [-> | [-> | ->]].
  - change (4 <=? 0) with false. change (0 =? 8) with false. cbv iota.
    cbn [mbind option_bind app]. by rewrite Z.add_0_r.
  - change (4 <=? 4) with true. change (4 =? 8) with false. cbv iota.
    rewrite GetUdint_le, u32_id by done. by cbn [mbind option_bind app].
  - change (4 <=? 8) with true. change (8 =? 8) with true. cbv iota.
    rewrite GetUdint_le, u32_id by done. cbn [mbind option_bind].
    rewrite GetUdint_le, u32_id by done. cbn [mbind option_bind]. do 3 f_equal. lia.
Qed.

Lemma length_packet a type payload :
  address_wf a →
  Z.of_nat (length (packet_bytes a type payload))
  = 10 + address_length a + Z.of_nat (length payload).
Proof.
  intros (_ & _ & _ & Hl). unfold packet_bytes. rewrite !length_app, !length_le_bytes.
  destruct Hl as [-> | [-> | ->]]; simpl; rewrite ?length_le_bytes; lia.
Qed.

Lemma CreateCPF_two_items a type payload rest old :
  address_wf a → is_u16 type → Z.of_nat (length payload) <= 65000 →
  CreateCommonPacketFormatStructure (packet_bytes a type payload ++ rest)
    (Z.of_nat (length (packet_bytes a type payload))) old
  = Some (kEipStatusOk, received_packet a type payload rest old).
Proof.
  intros Ha Ht Hp. rewrite length_packet by done.
  unfold CreateCommonPacketFormatStructure, packet_bytes. cbv zeta. rewrite <-!(assoc_L (++)).
  rewrite GetUint_le, (u16_id 2) by (unfold is_u16; lia). cbn [mbind option_bind].
  change (1 <=? 2) with true. cbv iota. rewrite parse_address_item_spec by done. cbn [mbind option_bind].
  change (2 <=? 2) with true. cbv iota.
  rewrite GetUint_le, (u16_id type) by done. cbn [mbind option_bind].
  rewrite GetUint_le, (u16_id (Z.of_nat _)) by (unfold is_u16; lia). cbn [mbind option_bind].
  rewrite (proj2 (Z.leb_le _ _)) by lia. rewrite Nat2Z.id.
  rewrite ptr_add_app by done. cbn [mbind option_bind].
  unfold parse_sockaddr_items. change (u16 (2 - 2) <=? 0) with true. cbv iota.
  cbn [mbind option_bind]. change (2 <? 4) with true. change (2 <? 3) with true. cbv iota.
  rewrite (proj2 (Z.eqb_eq _ _)) by lia. done.
Qed.

(** ** Properties *)

Definition null_address : AddressItem := mkAddressItem kCipItemIdNullAddress 0 0 0.
Definition connected_address (id : Z) : AddressItem :=
  mkAddressItem kCipItemIdConnectionAddress 4 id 0.

Lemma null_address_wf : address_wf null_address.
Proof. unfold address_wf, is_u16, is_u32. simpl. unfold kCipItemIdNullAddress. lia. Qed.

Lemma connected_address_wf id : is_u32 id → address_wf (connected_address id).
Proof. unfold address_wf, is_u16, is_u32. simpl. unfold kCipItemIdConnectionAddress. lia. Qed.

(** A received packet, as the encapsulation layer hands it over. *)
Definition carries (rd : EncapsulationData) (a : AddressItem) (type : Z)
    (payload rest : list Z) : Prop :=
  current_communication_buffer_position rd = packet_bytes a type payload ++ rest ∧
  data_length rd = Z.of_nat (length (packet_bytes a type payload)) ∧
  Z.of_nat (length payload) <= 65000 ∧
  length (sender_context rd) = 8%nat ∧ bytes (sender_context rd).

Lemma length_unconnected_reply d r body :
  address_type_id (address_item d) = kCipItemIdNullAddress →
  data_type_id (data_item d) = kCipItemIdUnconnectedDataItem → response_wf r body →
  Z.of_nat (length (reply_bytes d r body))
  = 20 + 2 * size_of_additional_status r + Z.of_nat (length body).
Proof.
  intros Ha Hd Hr. pose proof (length_response_bytes r body Hr) as Hl.
  destruct Hr as ((_ & _ & Hu & _) & _). rewrite Hu in Hl.
  unfold reply_bytes, address_bytes, data_item_header. cbv zeta. rewrite Ha, Hd.
  change (kCipItemIdUnconnectedDataItem =? kCipItemIdConnectedDataItem) with false.
  change (kCipItemIdNullAddress =? kCipItemIdNullAddress) with true. cbv iota.
  rewrite !length_app, !length_le_bytes. lia.
Qed.

(** The items the router leaves in the global packet go out with an unconnected reply. *)
Definition unconnected_items (d : CipCommonPacketFormatData) : Prop :=
  address_type_id (address_item d) = kCipItemIdNullAddress ∧
  data_type_id (data_item d) = kCipItemIdUnconnectedDataItem.

Section Unconnected.
Context {S : Type} `{Router S} (e : OpenerEndianess) (rd : EncapsulationData) (addr : SockAddr)
  (m : ENIPMessage) (w : World S) (payload rest : list Z).
Hypothesis Hcar : carries rd null_address kCipItemIdUnconnectedDataItem payload rest.

Lemma NotifyUnconnected_eq :
  NotifyCommonPacketFormat e rd addr m w
  = ('(status, r, w') ← route (payload ++ rest) (Z.of_nat (length payload))
       InitializeMessageRouterResponse addr (session_handle rd)
       (set_cpf (received_packet null_address kCipItemIdUnconnectedDataItem payload rest (g_cpf w)) w);
     match status with
     | kEipStatusError => Some (kEipStatusError, m, w')
     | _ => m' ← send_reply e rd r (g_cpf w') m; Some (kEipStatusOkSend, m', w')
     end).
Proof.
  destruct Hcar as (Hp & Hl & Hlen & Hc & Hcb). unfold NotifyCommonPacketFormat. rewrite Hp, Hl.
  by rewrite CreateCPF_two_items by (done || apply null_address_wf || (by split)).
Qed.

Lemma unconnected_request_answered status r body w' :
  route (payload ++ rest) (Z.of_nat (length payload)) InitializeMessageRouterResponse addr
    (session_handle rd)
    (set_cpf (received_packet null_address kCipItemIdUnconnectedDataItem payload rest (g_cpf w)) w)
  = Some (status, r, w') →
  holds [] m → status ≠ kEipStatusError → unconnected_items (g_cpf w') → sockaddr_ok e (g_cpf w') →
  response_wf r body →
  let data := reply_bytes (g_cpf w') r body ++ sockaddr_bytes e (g_cpf w') in
  let len := 20 + 2 * size_of_additional_status r + Z.of_nat (length body)
             + Z.of_nat (length (sockaddr_bytes e (g_cpf w'))) in
  if 24 + len <=? 512 then
    ∃ m', NotifyCommonPacketFormat e rd addr m w = Some (kEipStatusOkSend, m', w') ∧
      wire m' = header_bytes (command_code rd) len (session_handle rd)
                  kEncapsulationProtocolSuccess (sender_context rd) 0 ++ data
  else NotifyCommonPacketFormat e rd addr m w = None.
Proof.
  intros Hr Hm Hst [Ha Hd] He Hwf. cbv zeta. rewrite NotifyUnconnected_eq, Hr.
  destruct Hcar as (_ & _ & _ & Hc & Hcb). cbn [mbind option_bind].
  assert (Hk : address_known (g_cpf w')) by (unfold address_known; by rewrite Ha).
  pose proof (send_reply_spec e rd r body (g_cpf w') m Hm Hc Hcb Hk He (or_introl Hd) Hwf) as Hs.
  cbv zeta in Hs. rewrite length_app, Nat2Z.inj_add in Hs.
  rewrite (length_unconnected_reply (g_cpf w') r body Ha Hd Hwf) in Hs.
  destruct (24 + _ <=? 512).
  - destruct Hs as (m' & -> & _ & _ & Hwire). exists m'. by destruct status.
  - rewrite Hs. by destruct status.
Qed.
End Unconnected.

(** C2.  An unconnected request, a packet of null address item and unconnected data item: exactly
    the payload and its length reach the message router.  If the router reports an error
    nothing is sent.  Otherwise the reply is made of the items the router leaves in the global packet,
    which are of the same kind: the encapsulation header with the session,
    context and exact data length, followed by item count, null address item, data item length, service,
    status, additional status words and the service's data, and then the socket addresses,
    O-to-T before T-to-O, which a Forward Open of an I/O connection adds.  This holds if
    it all fits the 512-byte buffer; otherwise the copy overruns the buffer,
    as nothing checks its size. *)
Theorem NotifyCommonPacketFormat_unconnected {S} `{Router S} e rd addr m (w : World S)
    payload rest status r w' :
  carries rd null_address kCipItemIdUnconnectedDataItem payload rest → holds [] m →
  route (payload ++ rest) (Z.of_nat (length payload)) InitializeMessageRouterResponse addr
    (session_handle rd)
    (set_cpf (received_packet null_address kCipItemIdUnconnectedDataItem payload rest (g_cpf w)) w)
  = Some (status, r, w') →
  (status = kEipStatusError →
   NotifyCommonPacketFormat e rd addr m w = Some (kEipStatusError, m, w')) ∧
  ∀ body, status ≠ kEipStatusError →
    unconnected_items (g_cpf w') → sockaddr_ok e (g_cpf w') → response_wf r body →
    let data := reply_bytes (g_cpf w') r body ++ sockaddr_bytes e (g_cpf w') in
    let len := 20 + 2 * size_of_additional_status r + Z.of_nat (length body)
               + Z.of_nat (length (sockaddr_bytes e (g_cpf w'))) in
    if 24 + len <=? 512 then
      ∃ m', NotifyCommonPacketFormat e rd addr m w = Some (kEipStatusOkSend, m', w') ∧
        wire m' = header_bytes (command_code rd) len (session_handle rd)
                    kEncapsulationProtocolSuccess (sender_context rd) 0 ++ data
    else NotifyCommonPacketFormat e rd addr m w = None.
Proof.
  intros Hcar Hm Hr. split.
  - intros ->. by rewrite (NotifyUnconnected_eq _ _ _ _ _ _ _ Hcar), Hr.
  - intros body. by apply unconnected_request_answered with (rest := rest) (payload := payload).
Qed.

(** A SendRRData message with header fields fixed, as an example. *)
Definition example_message (handle : Z) (payload : list Z) : EncapsulationData :=
  let p := packet_bytes null_address kCipItemIdUnconnectedDataItem payload in
  mkEncapsulation 0x6F (Z.of_nat (length p)) handle 0 [1; 2; 3; 4; 5; 6; 7; 8] 0 p p.

Definition example_world : World (CipMessageRouterRequest * CipStack) :=
  mkWorld zero_cpf initial_manager (list_request [], ex_stack).

Lemma example_carries handle payload :
  Z.of_nat (length payload) <= 65000 →
  carries (example_message handle payload) null_address kCipItemIdUnconnectedDataItem payload [].
Proof.
  intros H. split; [simpl; by rewrite app_nil_r |]. repeat (split; [done |]).
  repeat constructor; lia.
Qed.

Lemma NotifyCommonPacketFormat_unconnected_witness :
  ∃ m' w', NotifyCommonPacketFormat kOpENerEndianessLittle
      (example_message 1 [0x0E; 2; 0x20; 0x70; 0x24; 1]) example_peer InitializeENIPMessage example_world
    = Some (kEipStatusOkSend, m', w') ∧
    wire m' = [0x6F; 0; 20; 0; 1; 0; 0; 0; 0; 0; 0; 0; 1; 2; 3; 4; 5; 6; 7; 8; 0; 0; 0; 0;
               0; 0; 0; 0; 0; 0; 2; 0; 0; 0; 0; 0; 0xB2; 0; 4; 0; 0x8E; 0; 5; 0].
Proof.
  set (rd := example_message 1 [0x0E; 2; 0x20; 0x70; 0x24; 1]).
  set (d := received_packet null_address kCipItemIdUnconnectedDataItem
              [0x0E; 2; 0x20; 0x70; 0x24; 1] [] zero_cpf).
  set (w0 := set_cpf d example_world).
  set (req := mkRequest 0x0E (mkEpath 2 0x70 1 0) 0 []).
  destruct (NotifyCommonPacketFormat_unconnected kOpENerEndianessLittle rd example_peer
    InitializeENIPMessage example_world [0x0E; 2; 0x20; 0x70; 0x24; 1] [] kEipStatusOkSend
    (router_error kCipErrorPathDestinationUnknown req InitializeMessageRouterResponse)
    (mkWorld (g_cpf w0) (connections w0) (req, snd (stack w0)))) as [_ H].
  - apply example_carries. simpl. lia.
  - exact holds_init.
  - apply (cip_route_unknown _ _ _ _ _ w0 req); vm_compute; reflexivity.
  - destruct (H []) as (m' & E & Hw).
    + discriminate.
    + split; reflexivity.
    + left. discriminate.
    + split; [exact holds_init | split; [unfold MAX_SIZE_OF_ADD_STATUS; simpl; lia | reflexivity]].
    + exists m', (mkWorld (g_cpf w0) (connections w0) (req, snd (stack w0))). split; [exact E |].
      rewrite Hw. vm_compute. reflexivity.
Defined.

(** The example class with Get_Attribute_List, and a request that lists its
    16-bit attribute 1 seventy-nine times. *)
Definition list_stack : CipStack :=
  default empty_stack
    (c ← get_class (TheClass 0) ex_stack;
     c ← InsertService c 0x03 (Some FnGetAttributeList) "GetAttributeList"%string;
     Some (set_class (TheClass 0) c ex_stack)).

Definition list_world : World (CipMessageRouterRequest * CipStack) :=
  mkWorld zero_cpf initial_manager (list_request [], list_stack).

Definition long_list_payload : list Z :=
  [0x03; 2; 0x20; 0x64; 0x24; 1] ++ le_bytes 2 79 ++ concat (replicate 79 (le_bytes 2 1)).

(** The reserve of [GetAttributeList] does not cover the headers of the
    reply: a well-formed request of 166 bytes that reads a 16-bit attribute 79
    times gets, without partial transfer, a response of 476 data bytes within its
    own buffer; sending it overruns the 512 bytes of the outgoing message. *)
Theorem GetAttributeList_reply_overruns_message :
  let rd := example_message 1 long_list_payload in
  let d := received_packet null_address kCipItemIdUnconnectedDataItem long_list_payload []
             zero_cpf in
  option_map (λ '(_, r, _), (general_status r, used_message_length (message r)))
    (route long_list_payload (Z.of_nat (length long_list_payload))
       InitializeMessageRouterResponse example_peer 1 (set_cpf d list_world))
  = Some (kCipErrorSuccess, 476) ∧
  NotifyCommonPacketFormat kOpENerEndianessLittle rd example_peer InitializeENIPMessage list_world = None.
Proof. split; vm_compute; reflexivity. Qed.

(** The items of the message before are not cleared: a packet that declares
    only a null address item, six bytes in all, is accepted and the data item of
    the previous unconnected request, whose buffer is gone, is handed to the
    message router. *)
Theorem stale_data_item_used {S} `{Router S} e rd addr m (w : World S) rest :
  current_communication_buffer_position rd = le_bytes 2 1 ++ le_bytes 2 0 ++ le_bytes 2 0 ++ rest →
  data_length rd = 6 →
  data_type_id (data_item (g_cpf w)) = kCipItemIdUnconnectedDataItem →
  data_pointer (data_item (g_cpf w)) = None →
  (∃ d, CreateCommonPacketFormatStructure (current_communication_buffer_position rd)
          (data_length rd) (g_cpf w) = Some (kEipStatusOk, d) ∧
        data_item d = data_item (g_cpf w)) ∧
  NotifyCommonPacketFormat e rd addr m w = None.
Proof.
  intros Hp Hl Ht Hd. unfold NotifyCommonPacketFormat.
  assert (Hc : ∃ d, CreateCommonPacketFormatStructure (current_communication_buffer_position rd)
    (data_length rd) (g_cpf w) = Some (kEipStatusOk, d) ∧ data_item d = data_item (g_cpf w) ∧
    address_type_id (address_item d) = kCipItemIdNullAddress).
  { rewrite Hp, Hl. by eexists. }
  destruct Hc as (d & -> & Hdi & Ha). split; [by exists d |].
  cbn [mbind option_bind]. rewrite Ha, Hdi, Ht, Hd. done.
Qed.

Lemma stale_data_item_used_witness :
  NotifyCommonPacketFormat kOpENerEndianessLittle
    (mkEncapsulation 0x6F 6 1 0 [0; 0; 0; 0; 0; 0; 0; 0] 0 [] [1; 0; 0; 0; 0; 0]) example_peer
    InitializeENIPMessage
    (set_cpf (set_data_item (mkDataItem kCipItemIdUnconnectedDataItem 6 None) zero_cpf)
       example_world) = None.
Proof.
  apply (stale_data_item_used kOpENerEndianessLittle
    (mkEncapsulation 0x6F 6 1 0 [0; 0; 0; 0; 0; 0; 0; 0] 0 [] [1; 0; 0; 0; 0; 0]) example_peer
    InitializeENIPMessage
    (set_cpf (set_data_item (mkDataItem kCipItemIdUnconnectedDataItem 6 None) zero_cpf)
       example_world) []); reflexivity.
Defined.

(** *** Connected requests *)

(** The regular value of the inactivity watchdog. *)
Definition watchdog_reset (o : CipConnectionObject) : CipConnectionObject :=
  set_inactivity_watchdog_timer (o_to_t_requested_packet_interval o / 1000
     * (4 * 2 ^ connection_timeout_multiplier o)) o.

Definition timing_wf (o : CipConnectionObject) : Prop :=
  0 <= connection_timeout_multiplier o <= 7 ∧ is_u32 (o_to_t_requested_packet_interval o).

Lemma reset_watchdog_eq o :
  timing_wf o → ConnectionObjectResetInactivityWatchdogTimerValue o = Some (watchdog_reset o).
Proof.
  intros [Hm Hr]. unfold ConnectionObjectResetInactivityWatchdogTimerValue.
  by rewrite watchdog_value.
Qed.

(** A connected request for connection [c], object [o]. *)
Record connected_to {S} (rd : EncapsulationData) (w : World S) (id seq : Z)
    (payload rest : list Z) (c : nat) (o : CipConnectionObject) : Prop := {
  conn_packet : carries rd (connected_address id) kCipItemIdConnectedDataItem
                  (le_bytes 2 seq ++ payload) rest;
  conn_seq : is_u16 seq;
  conn_id : is_u32 id;
  conn_found : GetConnectedObject id (connections w) = Some (Some c);
  conn_object : connection_pool (connections w) !! c = Some o;
  conn_timing : timing_wf o }.

(** What the parser leaves in the global item. *)
Definition connected_item (id seq : Z) (payload rest : list Z)
    (old : CipCommonPacketFormatData) : CipCommonPacketFormatData :=
  received_packet (connected_address id) kCipItemIdConnectedDataItem
    (le_bytes 2 seq ++ payload) rest old.

Section Connected.
Context {S : Type} `{Router S} (e : OpenerEndianess) (rd : EncapsulationData) (addr : SockAddr)
  (m : ENIPMessage) (w : World S) (id seq : Z) (payload rest : list Z) (c : nat)
  (o : CipConnectionObject).
Hypothesis Hconn : connected_to rd w id seq payload rest c o.

Let d := connected_item id seq payload rest (g_cpf w).

(** The world in which the connected data item is handled. *)
Definition connected_world : World S :=
  update_connection c (watchdog_reset o) (set_cpf d w).

Lemma NotifyConnected_eq :
  NotifyConnectedCommonPacketFormat e rd addr m w
  = handle_connected e rd addr c (watchdog_reset o) (le_bytes 2 seq ++ payload ++ rest) m
      connected_world.
Proof.
  destruct Hconn as [(Hp & Hl & Hlen & _) Hseq Hid Hf Ho Ht].
  unfold NotifyConnectedCommonPacketFormat. rewrite Hp, Hl.
  rewrite CreateCPF_two_items by (done || by apply connected_address_wf).
  cbn [mbind option_bind]. cbv zeta.
  change (received_packet _ _ _ _ (g_cpf w)) with d.
  change (address_type_id (address_item d) =? kCipItemIdConnectionAddress) with true.
  change (connection_identifier (address_item d)) with id.
  change (connections (set_cpf d w)) with (connections w).
  cbv iota. rewrite Hf. cbn [mbind option_bind]. rewrite Ho. cbn [mbind option_bind].
  rewrite reset_watchdog_eq by done. cbn [mbind option_bind].
  change (data_type_id (data_item d) =? kCipItemIdConnectedDataItem) with true. cbv iota.
  change (data_pointer (data_item d)) with (Some ((le_bytes 2 seq ++ payload) ++ rest)).
  cbn [mbind option_bind]. by rewrite <-(assoc_L (++)).
Qed.

Lemma handle_connected_seq m0 o0 w0 :
  is_u16 seq →
  handle_connected e rd addr c o0 (le_bytes 2 seq ++ payload ++ rest) m0 w0
  = let w1 := set_cpf (set_sequence_number seq (g_cpf w0)) w0 in
    if sequence_count_consuming o0 =? seq then
      m ← repeat_reply rd o0; Some (kEipStatusOkSend, m, w1)
    else
      o1 ← ConnectionObjectResetInactivityWatchdogTimerValue
             (set_sequence_count_consuming seq o0);
      let w1 := update_connection c o1 w1 in
      '(status, r, w2) ← route (payload ++ rest) (data_item_length (data_item (g_cpf w1)) - 2)
         InitializeMessageRouterResponse addr (session_handle rd) w1;
      match status with
      | kEipStatusError => Some (connected_status m0, m0, w2)
      | _ =>
          o2 ← connection_pool (connections w2) !! c;
          let w3 := set_cpf (set_connection_identifier (cip_produced_connection_id o2)
                               (g_cpf w2)) w2 in
          m1 ← send_reply e rd r (g_cpf w3) m0;
          let w4 := update_connection c (set_last_reply_sent (set_position None m1) o2) w3 in
          Some (connected_status m1, m1, w4)
      end.
Proof.
  intros Hseq. unfold handle_connected. rewrite GetUint_le, u16_id by done. reflexivity.
Qed.
End Connected.

(** A message whose first 24 bytes are a header and whose rest is [data]. *)
Definition framed (data : list Z) (m : ENIPMessage) : Prop :=
  wf_message m ∧ used_message_length m = 24 + Z.of_nat (length data) ∧
  24 + Z.of_nat (length data) <= 512 ∧ drop 24 (wire m) = data.

Lemma repeat_reply_spec rd o data :
  length (sender_context rd) = 8%nat → bytes (sender_context rd) →
  framed data (last_reply_sent o) →
  ∃ m', repeat_reply rd o = Some m' ∧ framed data m' ∧
    wire m' = header_bytes (command_code rd) (Z.of_nat (length data)) (session_handle rd)
                kEncapsulationProtocolSuccess (sender_context rd) 0 ++ data.
Proof.
  intros Hc Hcb (Hwf & Hu & Hfit & Hd). unfold repeat_reply. cbv zeta.
  rewrite GenerateEncapsulationHeader_put by done.
  set (h := header_bytes _ _ _ _ _ _).
  set (m0 := add_used (- ENCAPSULATION_HEADER_LENGTH) (last_reply_sent o)).
  assert (Hu0 : used_message_length m0 = Z.of_nat (length data)).
  { unfold m0, add_used, set_used. simpl. rewrite Hu. unfold ENCAPSULATION_HEADER_LENGTH. rewrite u64_id; [lia |].
    unfold is_u64, ENCAPSULATION_HEADER_LENGTH. lia. }
  assert (Hbs : take (length data) (drop 24 (message_buffer m0)) = data).
  { change (message_buffer m0) with (message_buffer (last_reply_sent o)).
    rewrite <-Hd at 2. unfold wire. rewrite Hu, skipn_firstn_comm.
    f_equal. lia. }
  assert (Hwf0 : wf_message m0).
  { destruct Hwf as (? & ? & ?). split; [done |]. split; [done |]. apply u64_range. }
  change (add_used _ (set_position (Some 0) (last_reply_sent o))) with (set_position (Some 0) m0) in *.
  change (used_message_length (set_position (Some 0) m0)) with (used_message_length m0) in h.
  destruct (header_put h data m0) as (m1 & E & Hwf1 & Hw1 & Hu1 & _);
    [done | by apply bytes_header | by apply length_header_bytes | done | lia | done |].
  rewrite E. cbn [mbind option_bind]. eexists. split; [done |].
  change (wire (set_position None m1)) with (wire m1).
  assert (Hh : h = header_bytes (command_code rd) (Z.of_nat (length data)) (session_handle rd)
                kEncapsulationProtocolSuccess (sender_context rd) 0) by (unfold h; by rewrite Hu0).
  split; [|by rewrite Hw1, Hh].
  split; [exact Hwf1 |]. split; [exact Hu1 |]. split; [done |].
  change (wire (set_position None m1)) with (wire m1). rewrite Hw1.
  replace 24%nat with (length h) by by apply length_header_bytes.
  apply drop_app_length.
Qed.

(** A connected request that repeats the sequence count of the last one is
    not executed again: the last reply is sent once more, its data unchanged
    behind a header with the new session handle and sender context; the router
    and its state are not touched, only the watchdog is restarted. *)
Theorem NotifyConnected_repeated {S} `{Router S} e rd addr m (w : World S) id seq payload rest
    c o data :
  connected_to rd w id seq payload rest c o →
  sequence_count_consuming o = seq → framed data (last_reply_sent o) →
  ∃ m' w', NotifyConnectedCommonPacketFormat e rd addr m w = Some (kEipStatusOkSend, m', w') ∧
    wire m' = header_bytes (command_code rd) (Z.of_nat (length data)) (session_handle rd)
                kEncapsulationProtocolSuccess (sender_context rd) 0 ++ data ∧
    stack w' = stack w ∧
    connection_pool (connections w') = <[c := watchdog_reset o]> (connection_pool (connections w)).
Proof.
  intros Hconn Hseq Hf. pose proof (conn_packet _ _ _ _ _ _ _ _ Hconn) as (_ & _ & _ & Hc & Hcb).
  rewrite (NotifyConnected_eq _ _ _ _ _ _ _ _ _ _ _ Hconn).
  rewrite handle_connected_seq by apply Hconn. cbv zeta.
  change (sequence_count_consuming (watchdog_reset o)) with (sequence_count_consuming o).
  rewrite Hseq, Z.eqb_refl.
  destruct (repeat_reply_spec rd (watchdog_reset o) data Hc Hcb Hf) as (m' & -> & _ & Hw).
  cbn [mbind option_bind]. do 2 eexists. by repeat (split; [done |]).
Qed.

(** The reply to a connected request, if the router leaves the global packet alone. *)
Definition connected_reply_bytes (id seq : Z) (r : CipMessageRouterResponse) (body : list Z) : list Z :=
  le_bytes 4 0 ++ le_bytes 2 0 ++ le_bytes 2 2
  ++ le_bytes 2 kCipItemIdConnectionAddress ++ le_bytes 2 4 ++ le_bytes 4 id
  ++ le_bytes 2 kCipItemIdConnectedDataItem
  ++ le_bytes 2 (Z.of_nat (length (response_bytes r body)) + 2) ++ le_bytes 2 seq
  ++ response_bytes r body.

(** What the router is given: the connection with its watchdog restarted and the new count,
    the packet with the count. *)
Definition executing_world {S} (w : World S) (id seq : Z) (payload rest : list Z) (c : nat)
    (o : CipConnectionObject) : World S :=
  update_connection c (watchdog_reset (set_sequence_count_consuming seq (watchdog_reset o)))
    (set_cpf (set_sequence_number seq (connected_item id seq payload rest (g_cpf w)))
       (connected_world w id seq payload rest c o)).

Lemma handle_connected_new {S} `{Router S} e rd addr m (w : World S) id seq payload rest c o :
  connected_to rd w id seq payload rest c o → sequence_count_consuming o ≠ seq →
  NotifyConnectedCommonPacketFormat e rd addr m w
  = ('(status, r, w') ← route (payload ++ rest) (Z.of_nat (length payload))
       InitializeMessageRouterResponse addr (session_handle rd)
       (executing_world w id seq payload rest c o);
     match status with
     | kEipStatusError => Some (connected_status m, m, w')
     | _ =>
         o' ← connection_pool (connections w') !! c;
         let w3 := set_cpf (set_connection_identifier (cip_produced_connection_id o') (g_cpf w')) w' in
         m1 ← send_reply e rd r (g_cpf w3) m;
         Some (connected_status m1, m1,
               update_connection c (set_last_reply_sent (set_position None m1) o') w3)
     end).
Proof.
  intros Hconn Hseq.
  rewrite (NotifyConnected_eq _ _ _ _ _ _ _ _ _ _ _ Hconn).
  rewrite handle_connected_seq by apply Hconn. cbv zeta.
  change (sequence_count_consuming (watchdog_reset o)) with (sequence_count_consuming o).
  rewrite (proj2 (Z.eqb_neq _ _)) by done.
  rewrite reset_watchdog_eq by apply (conn_timing _ _ _ _ _ _ _ _ Hconn).
  cbn [mbind option_bind].
  match goal with |- context [route _ (data_item_length ?x - 2) _ _ _ ?w0] =>
    change (data_item_length x) with (Z.of_nat (length (le_bytes 2 seq ++ payload))) end.
  rewrite length_app, length_le_bytes.
  by replace (Z.of_nat (2 + length payload) - 2) with (Z.of_nat (length payload)) by lia.
Qed.

(** C32.  A connected request with a new sequence count is executed once: the
    router gets the payload behind the sequence count.  If it reports an error nothing is
    sent.  Otherwise the reply carries the items the router leaves in the global packet, with
    the produced connection id of the connection; if it leaves the packet alone, that is connected data with
    this id and the same sequence count.  The connection then remembers the
    sequence count the router leaves it with and exactly the reply that was sent.  All this
    if header and reply fit the 512-byte buffer; otherwise the copy overruns it. *)
Theorem NotifyConnected_executed {S} `{Router S} e rd addr m (w : World S) id seq payload rest
    c o status r w' :
  connected_to rd w id seq payload rest c o → sequence_count_consuming o ≠ seq → holds [] m →
  route (payload ++ rest) (Z.of_nat (length payload)) InitializeMessageRouterResponse addr
    (session_handle rd) (executing_world w id seq payload rest c o) = Some (status, r, w') →
  let result := NotifyConnectedCommonPacketFormat e rd addr m w in
  (status = kEipStatusError → result = Some (kEipStatusOk, m, w')) ∧
  ∀ body o', status ≠ kEipStatusError → connection_pool (connections w') !! c = Some o' →
    let d := set_connection_identifier (cip_produced_connection_id o') (g_cpf w') in
    address_known d → sockaddr_ok e d →
    data_type_id (data_item d) = kCipItemIdUnconnectedDataItem ∨
    data_type_id (data_item d) = kCipItemIdConnectedDataItem →
    response_wf r body →
    let data := reply_bytes d r body ++ sockaddr_bytes e d in
    (g_cpf w' = g_cpf (executing_world w id seq payload rest c o) →
     data = connected_reply_bytes (cip_produced_connection_id o') seq r body) ∧
    if 24 + Z.of_nat (length data) <=? 512 then
      ∃ m' w'', result = Some (kEipStatusOkSend, m', w'') ∧
        wire m' = header_bytes (command_code rd) (Z.of_nat (length data)) (session_handle rd)
                    kEncapsulationProtocolSuccess (sender_context rd) 0 ++ data ∧
        stack w'' = stack w' ∧
        connection_pool (connections w'')
          = <[c := set_last_reply_sent (set_position None m') o']> (connection_pool (connections w')) ∧
        framed data (set_position None m')
    else result = None.
Proof.
  intros Hconn Hseq Hm Hr. cbv zeta. rewrite (handle_connected_new _ _ _ _ _ _ _ _ _ _ _ Hconn Hseq), Hr.
  pose proof (conn_packet _ _ _ _ _ _ _ _ Hconn) as (_ & _ & _ & Hc & Hcb).
  split; [intros ->; cbn [mbind option_bind]; unfold connected_status; by rewrite (proj1 (proj2 (proj2 Hm)))|].
  intros body o' Hst Ho' Ha He Hd Hwf. split.
  { intros Hg. rewrite no_sockaddr_bytes, app_nil_r; rewrite Hg; [reflexivity | by split]. }
  set (d := set_connection_identifier _ (g_cpf w')) in *.
  cbn [mbind option_bind]. rewrite Ho'. cbn [mbind option_bind].
  change (g_cpf (set_cpf ?x w')) with x. fold d.
  pose proof (send_reply_spec e rd r body d m Hm Hc Hcb Ha He Hd Hwf) as Hs. cbv zeta in Hs.
  destruct (Z.leb_spec (24 + Z.of_nat (length (reply_bytes d r body ++ sockaddr_bytes e d))) 512) as [Hfit|_];
    [|rewrite Hs; by destruct status].
  destruct Hs as (m' & E & Hwfm & Hu & Hw).
  exists m', (update_connection c (set_last_reply_sent (set_position None m') o') (set_cpf d w')).
  split; [|split; [done |]; split; [done |]; split; [done |]].
  - rewrite E. cbn [mbind option_bind]. unfold connected_status. rewrite Hu.
    rewrite (proj2 (Z.eqb_neq _ _)) by lia. by destruct status.
  - split; [exact Hwfm |]. split; [exact Hu |]. split; [lia |].
    change (wire (set_position None m')) with (wire m'). rewrite Hw.
    apply drop_app_length'. symmetry. by apply length_header_bytes.
Qed.

(** *** Examples *)

Definition connected_message (id seq : Z) (payload : list Z) : EncapsulationData :=
  let p := packet_bytes (connected_address id) kCipItemIdConnectedDataItem
             (le_bytes 2 seq ++ payload) in
  mkEncapsulation 0x70 (Z.of_nat (length p)) 1 0 [1; 2; 3; 4; 5; 6; 7; 8] 0 p p.

(** Connection 0 of the example manager, with the given last reply. *)
Definition example_connection (reply : ENIPMessage) : CipConnectionObject :=
  set_last_reply_sent reply (set_state 3 (session_connection 0)).

Definition connected_example (reply : ENIPMessage)
  : World (CipMessageRouterRequest * CipStack) :=
  mkWorld zero_cpf (set_connection 0 (example_connection reply) (opened 0 initial_manager))
    (list_request [], ex_stack).

Lemma connected_example_to reply seq payload :
  is_u16 seq → Z.of_nat (length payload) <= 60000 →
  GetConnectedObject 0 (connections (connected_example reply)) = Some (Some 0%nat) →
  connected_to (connected_message 0 seq payload) (connected_example reply) 0 seq payload [] 0
    (example_connection reply).
Proof.
  intros Hseq Hp Hf. split; [split | done | unfold is_u32; lia | exact Hf | | ].
  - simpl. by rewrite app_nil_r.
  - split; [done |]. split; [rewrite length_app, length_le_bytes; lia |]. split; [done |].
    repeat constructor; lia.
  - apply lookup_insert_eq.
  - split; [simpl; lia | unfold is_u32; simpl; lia].
Qed.

Lemma NotifyConnected_repeated_witness :
  ∃ m' w', NotifyConnectedCommonPacketFormat kOpENerEndianessLittle
      (connected_message 0 0 [0x0E]) example_peer InitializeENIPMessage
      (connected_example (mkENIPMessage (replicate 512 0) None 30))
    = Some (kEipStatusOkSend, m', w') ∧
    wire m' = [0x70; 0; 6; 0; 1; 0; 0; 0; 0; 0; 0; 0; 1; 2; 3; 4; 5; 6; 7; 8; 0; 0; 0; 0;
               0; 0; 0; 0; 0; 0].
Proof.
  destruct (NotifyConnected_repeated kOpENerEndianessLittle (connected_message 0 0 [0x0E]) example_peer
    InitializeENIPMessage (connected_example (mkENIPMessage (replicate 512 0) None 30)) 0 0
    [0x0E] [] 0%nat (example_connection (mkENIPMessage (replicate 512 0) None 30))
    (replicate 6 0)) as (m' & w' & E & Hw & _).
  - apply connected_example_to; [unfold is_u16; lia | simpl; lia | vm_compute; reflexivity].
  - reflexivity.
  - split; [split; [reflexivity | split; [apply bytes_replicate; unfold is_u8; lia
      | unfold is_u64; simpl; lia]] |].
    split; [reflexivity |]. split; [simpl; lia | vm_compute; reflexivity].
  - exists m', w'. split; [exact E |]. rewrite Hw. vm_compute. reflexivity.
Defined.

Lemma NotifyConnected_executed_witness :
  ∃ m' w'', NotifyConnectedCommonPacketFormat kOpENerEndianessLittle
      (connected_message 0 9 [0x0E; 2; 0x20; 0x70; 0x24; 1]) example_peer InitializeENIPMessage
      (connected_example zero_message) = Some (kEipStatusOkSend, m', w'') ∧
    drop 24 (wire m') = [0; 0; 0; 0; 0; 0; 2; 0; 0xA1; 0; 4; 0; 0; 0; 0; 0;
                         0xB1; 0; 6; 0; 9; 0; 0x8E; 0; 5; 0].
Proof.
  set (payload := [0x0E; 2; 0x20; 0x70; 0x24; 1]).
  set (rd := connected_message 0 9 payload).
  set (w := connected_example zero_message).
  set (o := example_connection zero_message).
  set (w1 := executing_world w 0 9 payload [] 0 o).
  set (req := mkRequest 0x0E (mkEpath 2 0x70 1 0) 0 []).
  destruct (NotifyConnected_executed kOpENerEndianessLittle rd example_peer InitializeENIPMessage w 0 9
    payload [] 0%nat o kEipStatusOkSend
    (router_error kCipErrorPathDestinationUnknown req InitializeMessageRouterResponse)
    (mkWorld (g_cpf w1) (connections w1) (req, snd (stack w1)))) as [_ H].
  - apply connected_example_to; [unfold is_u16; lia | simpl; lia | vm_compute; reflexivity].
  - discriminate.
  - exact holds_init.
  - apply (cip_route_unknown _ _ _ _ _ w1 req); vm_compute; reflexivity.
  - destruct (H [] (watchdog_reset (set_sequence_count_consuming 9 (watchdog_reset o))))
      as [_ (m' & w'' & E & Hw & _)].
    + discriminate.
    + apply lookup_insert_eq.
    + reflexivity.
    + left. discriminate.
    + right. reflexivity.
    + split; [exact holds_init | split; [unfold MAX_SIZE_OF_ADD_STATUS; simpl; lia | reflexivity]].
    + exists m', w''. split; [exact E |]. rewrite Hw. vm_compute. reflexivity.
Defined.

(** A new class 3 connection starts with sequence count 0 and an empty last
    reply, so a first request with sequence count 0 is taken for a repetition: it
    is not executed, and what is to be sent is empty. *)
Theorem NotifyConnected_first_count_zero {S} `{Router S} e rd addr m (w : World S) id payload
    rest c o :
  connected_to rd w id 0 payload rest c o →
  sequence_count_consuming o = 0 → last_reply_sent o = zero_message →
  ∃ m' w', NotifyConnectedCommonPacketFormat e rd addr m w = Some (kEipStatusOkSend, m', w') ∧
    wire m' = [] ∧ stack w' = stack w.
Proof.
  intros Hconn Hseq Hf. pose proof (conn_packet _ _ _ _ _ _ _ _ Hconn) as (_ & _ & _ & Hc & Hcb).
  rewrite (NotifyConnected_eq _ _ _ _ _ _ _ _ _ _ _ Hconn).
  rewrite handle_connected_seq by apply Hconn. cbv zeta.
  change (sequence_count_consuming (watchdog_reset o)) with (sequence_count_consuming o).
  rewrite Hseq, Z.eqb_refl. unfold repeat_reply. cbv zeta.
  change (last_reply_sent (watchdog_reset o)) with (last_reply_sent o). rewrite Hf.
  rewrite GenerateEncapsulationHeader_put by done.
  set (h := header_bytes _ _ _ _ _ _).
  assert (Hh : length h = 24%nat) by by apply length_header_bytes.
  destruct (put h _) as [m1|] eqn:E.
  - apply put_Some in E as (p & _ & _ & _ & ->). cbn [mbind option_bind].
    do 2 eexists. split; [done |]. split; [|done].
    unfold wire. cbn [set_position used_message_length message_buffer]. by rewrite Hh.
  - exfalso. assert (Hs : ¬ is_Some (put h (add_used (- ENCAPSULATION_HEADER_LENGTH)
      (set_position (Some 0) zero_message)))) by (rewrite E; by intros [? ?]).
    apply Hs, put_is_Some. rewrite Hh. vm_compute. discriminate.
Qed.

Lemma NotifyConnected_first_count_zero_witness :
  ∃ m' w', NotifyConnectedCommonPacketFormat kOpENerEndianessLittle
      (connected_message 0 0 [0x0E]) example_peer InitializeENIPMessage (connected_example zero_message)
    = Some (kEipStatusOkSend, m', w') ∧ wire m' = [].
Proof.
  destruct (NotifyConnected_first_count_zero kOpENerEndianessLittle
    (connected_message 0 0 [0x0E]) example_peer InitializeENIPMessage (connected_example zero_message) 0
    [0x0E] [] 0%nat (example_connection zero_message)) as (m' & w' & E & Hw & _).
  - apply connected_example_to; [unfold is_u16; lia | simpl; lia | vm_compute; reflexivity].
  - reflexivity.
  - reflexivity.
  - exists m', w'. split; [exact E | exact Hw].
Defined.
