(* ===== verification/Encap.v ===== *)
(** * [enet_encap/encap.c]: sessions and encapsulation commands

    The session table, the commands of the encapsulation protocol over TCP and
    UDP, delayed List Identity replies, and the closing of sessions with the
    timers and class 3 connections that belong to them, together with the
    functions of [ports/generic_networkhandler.c] that close TCP sockets and
    watch for inactivity. *)

From S2P Require Import Prelude EndianConv CipStrings CipTypes LinkedList SocketTimer ConnRecord CipClasses.
From S2P Require Import CipServices MessageRouter ConnObject ConnList EncapData Cpf Identity.
Open Scope Z_scope.

Definition kSupportedProtocolVersion : Z := 1.
Definition kEncapsulationHeaderOptionsFlag : Z := 0.
Definition kListIdentityDefaultDelayTime : Z := 2000.
Definition kListIdentityMinimumDelayTime : Z := 500.
Definition OPENER_NUMBER_OF_SUPPORTED_SESSIONS : nat := 20.
Definition ENCAP_NUMBER_OF_SUPPORTED_DELAYED_ENCAP_MESSAGES : nat := 2.
Definition kOpenerEthernetPort : Z := 44818.

(** [EncapsulationCommand] *)
Definition kEncapsulationCommandNoOperation : Z := 0x0000.
Definition kEncapsulationCommandListServices : Z := 0x0004.
Definition kEncapsulationCommandListIdentity : Z := 0x0063.
Definition kEncapsulationCommandListInterfaces : Z := 0x0064.
Definition kEncapsulationCommandRegisterSession : Z := 0x0065.
Definition kEncapsulationCommandUnregisterSession : Z := 0x0066.
Definition kEncapsulationCommandSendRequestReplyData : Z := 0x006F.
Definition kEncapsulationCommandSendUnitData : Z := 0x0070.

Definition kCapabilityFlagsCipTcp : Z := 0x0020.
Definition kCapabilityFlagsCipUdpClass0or1 : Z := 0x0100.

(** ** State *)

Record DelayedEncapsulationMessage := mkDelayed {
  time_out : Z;                (* [EipInt32] *)
  delayed_socket : Z;
  receiver : SockAddr;
  delayed_message : ENIPMessage }.

Record EncapsulationServiceInformation := mkServiceInformation {
  type_code : Z; service_length : Z; encapsulation_protocol_version : Z;
  capability_flags : Z; name_of_service : list Z }.

(** What the layer reads of the rest of the device. *)
Record Device := mkDevice {
  endianess : OpenerEndianess;
  identity : CipIdentityObject;
  ip_address : Z;
  encapsulation_inactivity_timeout : Z }.

(** [sent_datagrams] records what [sendto] was given. *)
Record Encapsulation (S : Type) := mkEncap {
  g_registered_sessions : list Z;
  g_timestamps : list SocketTimer;
  g_actual_time : Z;
  g_delayed_encapsulation_messages : list DelayedEncapsulationMessage;
  g_service_information : EncapsulationServiceInformation;
  sent_datagrams : list (Z * SockAddr * list Z);
  world : World S }.
Arguments mkEncap {S}. Arguments g_registered_sessions {S}. Arguments g_timestamps {S}.
Arguments g_actual_time {S}. Arguments g_delayed_encapsulation_messages {S}.
Arguments g_service_information {S}. Arguments sent_datagrams {S}. Arguments world {S}.

Section Setters.
Context {S : Type}.
Implicit Type s : Encapsulation S.

Definition set_sessions (l : list Z) s : Encapsulation S :=
  mkEncap l (g_timestamps s) (g_actual_time s) (g_delayed_encapsulation_messages s)
    (g_service_information s) (sent_datagrams s) (world s).
Definition set_timestamps (l : list SocketTimer) s : Encapsulation S :=
  mkEncap (g_registered_sessions s) l (g_actual_time s) (g_delayed_encapsulation_messages s)
    (g_service_information s) (sent_datagrams s) (world s).
Definition set_delayed (l : list DelayedEncapsulationMessage) s : Encapsulation S :=
  mkEncap (g_registered_sessions s) (g_timestamps s) (g_actual_time s) l
    (g_service_information s) (sent_datagrams s) (world s).
Definition set_service_information (i : EncapsulationServiceInformation) s
  : Encapsulation S :=
  mkEncap (g_registered_sessions s) (g_timestamps s) (g_actual_time s)
    (g_delayed_encapsulation_messages s) i (sent_datagrams s) (world s).
Definition set_sent (l : list (Z * SockAddr * list Z)) s : Encapsulation S :=
  mkEncap (g_registered_sessions s) (g_timestamps s) (g_actual_time s)
    (g_delayed_encapsulation_messages s) (g_service_information s) l (world s).
Definition set_world (w : World S) s : Encapsulation S :=
  mkEncap (g_registered_sessions s) (g_timestamps s) (g_actual_time s)
    (g_delayed_encapsulation_messages s) (g_service_information s) (sent_datagrams s) w.

Definition manager s : ConnManager := connections (world s).
Definition set_manager (m : ConnManager) s : Encapsulation S :=
  set_world (set_connections m (world s)) s.
End Setters.

(** ** TCP sockets: [generic_networkhandler.c] *)

(** The loop finds and clears a timer of the socket until none is left. *)
Fixpoint RemoveSocketTimerFromList (fuel : nat) (socket : Z) (ts : list SocketTimer)
  : option (list SocketTimer) :=
  match fuel with
  | O => None
  | S fuel =>
      match SocketTimerArrayGetSocketTimer ts socket with
      | None => Some ts
      | Some i =>
          ts ← at_timer (Some i) SocketTimerClear ts;
          RemoveSocketTimerFromList fuel socket ts
      end
  end.

Definition timer_fuel {A} (ts : list A) : nat := S (length ts).

Section Sockets.
Context {S : Type}.
Implicit Type s : Encapsulation S.

Definition CloseTcpSocket (socket : Z) s : option (Encapsulation S) :=
  ts ← RemoveSocketTimerFromList (timer_fuel (g_timestamps s)) socket (g_timestamps s);
  let s := set_timestamps ts s in
  Some (set_manager (CloseSocket socket (manager s)) s).

(** ** Sessions *)

(** [g_registered_sessions[i] = socket], within the array. *)
Definition store_session (i : nat) (socket : Z) s : option (Encapsulation S) :=
  _ ← g_registered_sessions s !! i;
  Some (set_sessions (<[i := socket]> (g_registered_sessions s)) s).

(** The index of the first entry with the socket. *)
Fixpoint find_session (i : nat) (socket : Z) (l : list Z) : option nat :=
  match l with
  | [] => None
  | x :: l => if x =? socket then Some i else find_session (Datatypes.S i) socket l
  end.

Definition GetFreeSessionIndex s : option nat :=
  find_session 0 kEipInvalidSocket (g_registered_sessions s).

Definition GetSessionFromSocket (socket_handle : Z) s : Z :=
  match find_session 0 socket_handle (g_registered_sessions s) with
  | Some i => Z.of_nat i
  | None => Z.of_nat OPENER_NUMBER_OF_SUPPORTED_SESSIONS
  end.

(** Handles are 1-based. *)
Definition session_socket (handle : Z) s : option Z :=
  if (0 <? handle) && (handle <=? Z.of_nat OPENER_NUMBER_OF_SUPPORTED_SESSIONS)
  then g_registered_sessions s !! Z.to_nat (handle - 1) else None.

Definition CheckRegisteredSessions (receive_data : EncapsulationData) s : option bool :=
  let handle := session_handle receive_data in
  if (0 <? handle) && (handle <=? Z.of_nat OPENER_NUMBER_OF_SUPPORTED_SESSIONS) then
    socket ← g_registered_sessions s !! Z.to_nat (handle - 1);
    Some (negb (kEipInvalidSocket =? socket))
  else Some false.

(** The handle is used without a check. *)
Definition CloseSessionBySessionHandle (connection_object : CipConnectionObject) s
  : option (Encapsulation S) :=
  let handle := associated_encapsulation_session connection_object in
  assert! 0 <? handle;
  let i := Z.to_nat (handle - 1) in
  socket ← g_registered_sessions s !! i;
  s ← CloseTcpSocket socket s;
  store_session i kEipInvalidSocket s.

Definition close_class3_of (handle : Z) `{ConnectionCallbacks} s : option (Encapsulation S) :=
  m ← CloseClass3ConnectionBasedOnSession handle (manager s);
  Some (set_manager m s).

Definition CloseSession `{ConnectionCallbacks} (socket : Z) s : option (Encapsulation S) :=
  match find_session 0 socket (g_registered_sessions s) with
  | None => Some s
  | Some i =>
      s ← CloseTcpSocket socket s;
      s ← store_session i kEipInvalidSocket s;
      close_class3_of (Z.of_nat i + 1) s
  end.

Definition RemoveSession `{ConnectionCallbacks} (socket : Z) s : option (Encapsulation S) :=
  match find_session 0 socket (g_registered_sessions s) with
  | None => Some s
  | Some i =>
      s ← store_session i kEipInvalidSocket s;
      close_class3_of (Z.of_nat i + 1) s
  end.

(** The loop from index [i] on, [k] entries left. *)
Fixpoint shut_down (k i : nat) s : option (Encapsulation S) :=
  match k with
  | O => Some s
  | Datatypes.S k =>
      socket ← g_registered_sessions s !! i;
      s ← (if negb (kEipInvalidSocket =? socket)
           then s ← CloseTcpSocket socket s; store_session i kEipInvalidSocket s
           else Some s);
      shut_down k (Datatypes.S i) s
  end.

Definition EncapsulationShutDown s : option (Encapsulation S) :=
  shut_down OPENER_NUMBER_OF_SUPPORTED_SESSIONS 0 s.

(** [peer] is [getpeername]: the address of the socket's peer, zero on error. *)
Fixpoint close_by_address `{ConnectionCallbacks} (peer : Z → Z) (address : Z) (k i : nat) s
  : option (Encapsulation S) :=
  match k with
  | O => Some s
  | Datatypes.S k =>
      socket ← g_registered_sessions s !! i;
      s ← (if negb (kEipInvalidSocket =? socket) && (peer socket =? address)
           then CloseSession socket s else Some s);
      close_by_address peer address k (Datatypes.S i) s
  end.

Definition CloseEncapsulationSessionBySockAddr `{ConnectionCallbacks} (peer : Z → Z)
    (connection_object : CipConnectionObject) s : option (Encapsulation S) :=
  close_by_address peer (sin_addr (originator_address connection_object))
    OPENER_NUMBER_OF_SUPPORTED_SESSIONS 0 s.

(** [cipconnectionmanager.c]: closes the sessions of an originator whose last
    connection has timed out; [c] is the connection's pool index. *)
Definition CheckForTimedOutConnectionsAndCloseTCPConnections (c : nat)
    (o : CipConnectionObject)
    (CloseSessions : CipConnectionObject → Encapsulation S → option (Encapsulation S)) s
  : option (Encapsulation S) :=
  r ← search (fun c' o' => ConnectionObjectEqualOriginator o o' && negb (c =? c')%nat
                && negb (is_state kConnectionObjectStateTimedOut o')) (manager s);
  match r with
  | Some _ => Some s
  | None => CloseSessions o s
  end.

(** [cipclass3connection.c] *)
Definition Class3ConnectionTimeoutHandler (c : nat) s : option (Encapsulation S) :=
  o ← connection_pool (manager s) !! c;
  s ← CheckForTimedOutConnectionsAndCloseTCPConnections c o CloseSessionBySessionHandle s;
  m ← CloseConnection c (manager s);
  Some (set_manager m s).

(** [generic_networkhandler.c]; the times are [unsigned long]. *)
Definition CheckEncapsulationInactivity `{ConnectionCallbacks} (timeout socket_handle : Z) s
  : option (Encapsulation S) :=
  if 0 <? timeout then
    match SocketTimerArrayGetSocketTimer (g_timestamps s) socket_handle with
    | None => Some s
    | Some i =>
        t ← g_timestamps s !! i;
        if u64 (1000 * timeout) <=? u64 (g_actual_time s - SocketTimerGetLastUpdate t) then
          s ← close_class3_of (GetSessionFromSocket socket_handle s) s;
          s ← CloseTcpSocket socket_handle s;
          RemoveSession socket_handle s
        else Some s
    end
  else Some s.
End Sockets.

(** ** Commands *)

Definition is_big (e : OpenerEndianess) : bool :=
  match e with kOpENerEndianessBig => true | _ => false end.

(** [snprintf] of the name into the zero-initialised 16-byte array. *)
Definition communications : list Z :=
  [67; 111; 109; 109; 117; 110; 105; 99; 97; 116; 105; 111; 110; 115; 0; 0].

Definition zero_service_information : EncapsulationServiceInformation :=
  mkServiceInformation 0 0 0 0 (replicate 16 0).

(** [sizeof(g_service_information)]: four 16-bit members and the name. *)
Definition sizeof_service_information : Z := 24.

Section Commands.
Context {S : Type} `{Router S} `{ConnectionCallbacks}.
Variable device : Device.
Implicit Type s : Encapsulation S.

(** The seeding of [rand] and the determination of the byte order are the
    platform's. *)
Definition EncapsulationInit s : Encapsulation S :=
  let s := set_sessions (replicate OPENER_NUMBER_OF_SUPPORTED_SESSIONS kEipInvalidSocket) s in
  let s := set_delayed
    ((fun d => mkDelayed (time_out d) kEipInvalidSocket (receiver d) (delayed_message d))
       <$> g_delayed_encapsulation_messages s) s in
  set_service_information
    (mkServiceInformation kCipItemIdListServiceResponse sizeof_service_information 1
       (kCapabilityFlagsCipTcp .| kCapabilityFlagsCipUdpClass0or1) communications) s.

Definition HandleReceivedListServicesCommand (receive_data : EncapsulationData)
    (i : EncapsulationServiceInformation) (m : ENIPMessage) : option ENIPMessage :=
  m ← GenerateEncapsulationHeader receive_data (2 + sizeof_service_information) 0
        kEncapsulationProtocolSuccess m;
  m ← AddIntToMessage 1 m;
  m ← AddIntToMessage (type_code i) m;
  m ← AddIntToMessage (u16 (service_length i - 4)) m;
  m ← AddIntToMessage (encapsulation_protocol_version i) m;
  m ← AddIntToMessage (capability_flags i) m;
  m ← copy_in (name_of_service i) m;
  Some (add_used 16 (move_position 16 m)).

Definition HandleReceivedListInterfacesCommand (receive_data : EncapsulationData)
    (m : ENIPMessage) : option ENIPMessage :=
  m ← GenerateEncapsulationHeader receive_data 2 0 kEncapsulationProtocolSuccess m;
  AddIntToMessage 0 m.

(** 33 bytes, the name and the state byte. *)
Definition ListIdentityGetCipIdentityItemLength (d : CipIdentityObject) : Z :=
  u16 (2 + 2 + 2 + 4 + 8 + 2 + 2 + 2 + 2 + 2 + 4 + 1 + ss_length (product_name d) + 1).

Definition EncodeListIdentityCipIdentityItem (m : ENIPMessage) : option ENIPMessage :=
  let d := identity device in
  let name := product_name d in
  m ← AddIntToMessage 0x0C m;
  m ← AddIntToMessage (ListIdentityGetCipIdentityItemLength d) m;
  m ← AddIntToMessage kSupportedProtocolVersion m;
  m ← EncapsulateIpAddress (endianess device)
        (htons (is_big (endianess device)) kOpenerEthernetPort) (ip_address device) m;
  m ← FillNextNMessageOctetsWithValueAndMoveToNextPosition 0 8 m;
  m ← AddIntToMessage (vendor_id d) m;
  m ← AddIntToMessage (device_type d) m;
  m ← AddIntToMessage (product_code d) m;
  m ← AddSintToMessage (major_revision d) m;
  m ← AddSintToMessage (minor_revision d) m;
  m ← AddIntToMessage (identity_status d) m;
  m ← AddDintToMessage (serial_number d) m;
  m ← AddSintToMessage (u8 (ss_length name)) m;
  p ← ss_string name;
  bs ← load_n p (Z.to_nat (ss_length name));
  m ← copy_in bs m;
  let m := add_used (ss_length name) (move_position (ss_length name) m) in
  AddSintToMessage (identity_state d) m.

Definition EncapsulateListIdentityResponseMessage (receive_data : EncapsulationData)
    (m : ENIPMessage) : option ENIPMessage :=
  let length := u16 (ListIdentityGetCipIdentityItemLength (identity device) + 2 + 2 + 2) in
  m ← GenerateEncapsulationHeader receive_data length 0 kEncapsulationProtocolSuccess m;
  m ← AddIntToMessage 1 m;
  EncodeListIdentityCipIdentityItem m.

Definition HandleReceivedListIdentityCommandTcp := EncapsulateListIdentityResponseMessage.

(** [draw] is the result of [rand()], not negative. *)
Definition DetermineDelayTime (buffer_start : list Z) (draw : Z) : option Z :=
  p ← ptr_add buffer_start 12;
  '(maximum_delay_time, _) ← GetUintFromMessage p;
  let maximum_delay_time :=
    if 0 =? maximum_delay_time then kListIdentityDefaultDelayTime
    else if maximum_delay_time <? kListIdentityMinimumDelayTime
    then kListIdentityMinimumDelayTime else maximum_delay_time in
  Some (draw mod maximum_delay_time).

(** The index of the first free slot. *)
Fixpoint free_delayed (i : nat) (l : list DelayedEncapsulationMessage) : option nat :=
  match l with
  | [] => None
  | d :: l => if kEipInvalidSocket =? delayed_socket d then Some i
              else free_delayed (Datatypes.S i) l
  end.

Definition HandleReceivedListIdentityCommandUdp (socket : Z) (from_address : SockAddr)
    (draw : Z) (receive_data : EncapsulationData) s : option (Encapsulation S) :=
  match free_delayed 0 (g_delayed_encapsulation_messages s) with
  | None => Some s
  | Some i =>
      delay ← DetermineDelayTime (communication_buffer_start receive_data) draw;
      m ← EncapsulateListIdentityResponseMessage receive_data InitializeENIPMessage;
      Some (set_delayed (<[i := mkDelayed delay socket from_address m]>
                           (g_delayed_encapsulation_messages s)) s)
  end.

Definition EncapsulateRegisterSessionCommandResponseMessage (receive_data : EncapsulationData)
    (session_handle encapsulation_protocol_status : Z) (m : ENIPMessage)
  : option ENIPMessage :=
  m ← GenerateEncapsulationHeader receive_data 4 session_handle
        encapsulation_protocol_status m;
  m ← AddIntToMessage 1 m;
  AddIntToMessage 0 m.

(** Handle and status of the reply, and the new state. *)
Definition register_session (socket : Z) s : option (Z * Z * Encapsulation S) :=
  match find_session 0 socket (g_registered_sessions s) with
  | Some i => Some (Z.of_nat i + 1, kEncapsulationProtocolInvalidCommand, s)
  | None =>
      match GetFreeSessionIndex s with
      | None => Some (0, kEncapsulationProtocolInsufficientMemory, s)
      | Some i =>
          let timer := SocketTimerArrayGetEmptySocketTimer (g_timestamps s) in
          ts ← at_timer timer (SocketTimerSetSocket socket) (g_timestamps s);
          ts ← at_timer timer (SocketTimerSetLastUpdate (g_actual_time s)) ts;
          s ← store_session i socket (set_timestamps ts s);
          Some (Z.of_nat i + 1, kEncapsulationProtocolSuccess, s)
      end
  end.

(** The socket of a request is a valid one, so the search for it cannot find a
    free entry. *)
Definition HandleReceivedRegisterSessionCommand (socket : Z)
    (receive_data : EncapsulationData) (m : ENIPMessage) s
  : option (ENIPMessage * Encapsulation S) :=
  '(protocol_version, p) ←
    GetUintFromMessage (current_communication_buffer_position receive_data);
  '(option_flag, p) ← GetUintFromMessage p;
  let receive_data := set_current_position p receive_data in
  '(handle, st, s) ←
    (if (0 <? protocol_version) && (protocol_version <=? kSupportedProtocolVersion)
        && (0 =? option_flag)
     then register_session socket s
     else Some (0, kEncapsulationProtocolUnsupportedProtocol, s));
  m ← EncapsulateRegisterSessionCommandResponseMessage receive_data handle st m;
  Some (m, s).

Definition HandleReceivedUnregisterSessionCommand (receive_data : EncapsulationData)
    (m : ENIPMessage) s : option (EipStatus * ENIPMessage * Encapsulation S) :=
  let handle := session_handle receive_data in
  let invalid :=
    m ← GenerateEncapsulationHeader receive_data 0 handle
          kEncapsulationProtocolInvalidSessionHandle m;
    Some (kEipStatusOkSend, m, s) in
  if (0 <? handle) && (handle <=? Z.of_nat OPENER_NUMBER_OF_SUPPORTED_SESSIONS) then
    let i := Z.to_nat (handle - 1) in
    socket ← g_registered_sessions s !! i;
    if negb (kEipInvalidSocket =? socket) then
      s ← CloseTcpSocket socket s;
      s ← store_session i kEipInvalidSocket s;
      s ← close_class3_of handle s;
      Some (kEipStatusOk, m, s)
    else invalid
  else invalid.

(** The common part of the two data commands: six bytes are skipped, the
    session is checked, and [notify] handles the rest. *)
Definition handle_data_command
    (notify : EncapsulationData → SockAddr → ENIPMessage → World S →
              option (EipStatus * ENIPMessage * World S))
    (receive_data : EncapsulationData) (originator_address : SockAddr) (m : ENIPMessage) s
  : option (EipStatus * ENIPMessage * Encapsulation S) :=
  if 6 <=? data_length receive_data then
    '(_, p) ← GetDintFromMessage (current_communication_buffer_position receive_data);
    '(_, p) ← GetIntFromMessage p;
    let receive_data := set_data_length (data_length receive_data - 6)
                          (set_current_position p receive_data) in
    valid ← CheckRegisteredSessions receive_data s;
    if valid : bool then
      '(status, m, w) ← notify receive_data originator_address m (world s);
      Some (status, m, set_world w s)
    else
      m ← GenerateEncapsulationHeader receive_data 0 (session_handle receive_data)
            kEncapsulationProtocolInvalidSessionHandle InitializeENIPMessage;
      Some (kEipStatusOkSend, m, s)
  else Some (kEipStatusOk, m, s).

Definition HandleReceivedSendUnitDataCommand :=
  handle_data_command (NotifyConnectedCommonPacketFormat (endianess device)).

Definition HandleReceivedSendRequestResponseDataCommand :=
  handle_data_command (NotifyCommonPacketFormat (endianess device)).

Definition HandleReceivedInvalidCommand (receive_data : EncapsulationData) (m : ENIPMessage)
  : option (EipStatus * ENIPMessage) :=
  m ← GenerateEncapsulationHeader receive_data 0 (session_handle receive_data)
        kEncapsulationProtocolInvalidCommand m;
  Some (kEipStatusOkSend, m).

(** The [switch] of the TCP handler. *)
Definition tcp_command (socket : Z) (originator_address : SockAddr) (d : EncapsulationData)
    (m : ENIPMessage) s : option (EipStatus * ENIPMessage * Encapsulation S) :=
  let code := command_code d in
  let reply o := m ← o; Some (kEipStatusOkSend, m, s) in
  if code =? kEncapsulationCommandNoOperation then Some (kEipStatusOk, m, s)
  else if code =? kEncapsulationCommandListServices
  then reply (HandleReceivedListServicesCommand d (g_service_information s) m)
  else if code =? kEncapsulationCommandListIdentity
  then reply (HandleReceivedListIdentityCommandTcp d m)
  else if code =? kEncapsulationCommandListInterfaces
  then reply (HandleReceivedListInterfacesCommand d m)
  else if code =? kEncapsulationCommandRegisterSession then
    '(m, s) ← HandleReceivedRegisterSessionCommand socket d m s;
    Some (kEipStatusOkSend, m, s)
  else if code =? kEncapsulationCommandUnregisterSession
  then HandleReceivedUnregisterSessionCommand d m s
  else if code =? kEncapsulationCommandSendRequestReplyData
  then HandleReceivedSendRequestResponseDataCommand d originator_address m s
  else if code =? kEncapsulationCommandSendUnitData
  then HandleReceivedSendUnitDataCommand d originator_address m s
  else
    '(status, m) ← HandleReceivedInvalidCommand d m;
    Some (status, m, s).

(** Status, number of remaining bytes, outgoing message, state. *)
Definition HandleReceivedExplictTcpData (socket : Z) (buffer : list Z) (length : Z)
    (originator_address : SockAddr) (m : ENIPMessage) s
  : option (EipStatus * Z * ENIPMessage * Encapsulation S) :=
  '(remaining_bytes, d) ← CreateEncapsulationStructure buffer length;
  if remaining_bytes <? 0 then Some (kEipStatusError, 0, m, s)
  else if kEncapsulationHeaderOptionsFlag =? options d then
    let d := set_encap_status kEncapsulationProtocolSuccess d in
    '(status, m, s) ← tcp_command socket originator_address d m s;
    Some (status, remaining_bytes, m, s)
  else Some (kEipStatusOk, remaining_bytes, m, s).

(** The [switch] of the UDP handler; commands that are not to be sent by UDP
    produce no reply, but the status asks to send one. *)
Definition udp_command (socket : Z) (from_address : SockAddr) (draw : Z) (unicast : bool)
    (d : EncapsulationData) (m : ENIPMessage) s
  : option (EipStatus * ENIPMessage * Encapsulation S) :=
  let code := command_code d in
  let reply o := m ← o; Some (kEipStatusOkSend, m, s) in
  if code =? kEncapsulationCommandListServices
  then reply (HandleReceivedListServicesCommand d (g_service_information s) m)
  else if code =? kEncapsulationCommandListIdentity then
    if unicast then reply (HandleReceivedListIdentityCommandTcp d m)
    else
      s ← HandleReceivedListIdentityCommandUdp socket from_address draw d s;
      Some (kEipStatusOk, m, s)
  else if code =? kEncapsulationCommandListInterfaces
  then reply (HandleReceivedListInterfacesCommand d m)
  else Some (kEipStatusOkSend, m, s).

Definition HandleReceivedExplictUdpData (socket : Z) (from_address : SockAddr) (draw : Z)
    (buffer : list Z) (buffer_length : Z) (unicast : bool) (m : ENIPMessage) s
  : option (EipStatus * Z * ENIPMessage * Encapsulation S) :=
  '(remaining_bytes, d) ← CreateEncapsulationStructure buffer buffer_length;
  if remaining_bytes <? 0 then Some (kEipStatusError, 0, m, s)
  else if kEncapsulationHeaderOptionsFlag =? options d then
    let d := set_encap_status kEncapsulationProtocolSuccess d in
    '(status, m, s) ← udp_command socket from_address draw unicast d m s;
    Some (status, remaining_bytes, m, s)
  else Some (kEipStatusOk, remaining_bytes, m, s).

(** One slot of the loop: the remaining time is an [EipInt32], the elapsed time
    an [unsigned long]; what is sent is the used part of the buffer. *)
Definition manage_delayed (elapsed_time : Z) (d : DelayedEncapsulationMessage)
  : DelayedEncapsulationMessage * list (Z * SockAddr * list Z) :=
  if kEipInvalidSocket =? delayed_socket d then (d, [])
  else
    let t := s32 (u64 (u64 (time_out d) - elapsed_time)) in
    if t <=? 0 then
      (mkDelayed t kEipInvalidSocket (receiver d) (delayed_message d),
       [(delayed_socket d, receiver d, wire (delayed_message d))])
    else (mkDelayed t (delayed_socket d) (receiver d) (delayed_message d), []).

Definition ManageEncapsulationMessages (elapsed_time : Z) s : Encapsulation S :=
  let r := manage_delayed elapsed_time <$> g_delayed_encapsulation_messages s in
  set_sent (sent_datagrams s ++ concat (snd <$> r)) (set_delayed (fst <$> r) s).
End Commands.

(** ** Lemmas: socket timers *)

Definition clear_timer_of (socket : Z) (t : SocketTimer) : SocketTimer :=
  if timer_socket t =? socket then SocketTimerClear t else t.

Lemma clear_timer_other socket ts :
  Forall (λ t, timer_socket t ≠ socket) ts → clear_timer_of socket <$> ts = ts.
Proof.
  induction 1 as [|t ts Ht _ IH]; [done |]. cbn [fmap list_fmap].
  unfold clear_timer_of at 1. rewrite (proj2 (Z.eqb_neq _ _)) by done. by f_equal.
Qed.

(** The first timer of a socket splits the array. *)
Lemma find_timer_split socket ts i :
  SocketTimerArrayGetSocketTimer ts socket = Some i →
  ∃ l1 t l2, ts = l1 ++ t :: l2 ∧ length l1 = i ∧ timer_socket t = socket ∧
    Forall (λ t, timer_socket t ≠ socket) l1.
Proof.
  intros (k & t & -> & Ht & Hs & Hmin)%find_timer_Some.
  exists (take k ts), t, (drop (S k) ts). split; [by rewrite take_drop_middle |].
  split; [rewrite length_take; apply lookup_lt_Some in Ht; simpl; lia |]. split; [done |].
  apply list.Forall_lookup. intros j u Hu. rewrite lookup_take_Some in Hu.
  destruct Hu as [Hu Hj]. by apply (Hmin j).
Qed.

Lemma clear_at_split l1 t l2 :
  at_timer (Some (length l1)) SocketTimerClear (l1 ++ t :: l2)
  = Some (l1 ++ SocketTimerClear t :: l2).
Proof.
  unfold at_timer. cbn [mbind option_bind].
  rewrite list_lookup_middle by done. cbn [mbind option_bind]. f_equal.
  by rewrite <-(Nat.add_0_r (length l1)), insert_app_r.
Qed.

Definition timers_of (socket : Z) (ts : list SocketTimer) : nat :=
  length (filter (λ t, timer_socket t = socket) ts).

Lemma remove_timers_spec fuel socket ts :
  socket ≠ kEipInvalidSocket → (timers_of socket ts < fuel)%nat →
  RemoveSocketTimerFromList fuel socket ts = Some (clear_timer_of socket <$> ts).
Proof.
  intros Hs. revert ts. induction fuel as [|fuel IH]; intros ts Hf; [lia |].
  cbn [RemoveSocketTimerFromList].
  destruct (SocketTimerArrayGetSocketTimer ts socket) as [i|] eqn:E.
  - apply find_timer_split in E as (l1 & t & l2 & -> & <- & Ht & Hl1).
    rewrite clear_at_split. cbn [mbind option_bind]. rewrite IH.
    + f_equal. rewrite !fmap_app. f_equal. cbn [fmap list_fmap]. f_equal.
      unfold clear_timer_of. rewrite (proj2 (Z.eqb_eq (timer_socket t) socket)) by done.
      change (timer_socket (SocketTimerClear t)) with kEipInvalidSocket.
      by rewrite (proj2 (Z.eqb_neq _ _)) by done.
    + unfold timers_of in *. rewrite list.filter_app, length_app in *.
      rewrite list.filter_cons_True in Hf by done. rewrite list.filter_cons_False by (simpl; congruence).
      simpl in Hf. lia.
  - apply find_timer_None in E. by rewrite clear_timer_other.
Qed.

(** For the invalid socket the timer cleared last is found again. *)
Lemma remove_invalid_diverges fuel ts :
  SocketTimerArrayGetEmptySocketTimer ts ≠ None →
  RemoveSocketTimerFromList fuel kEipInvalidSocket ts = None.
Proof.
  revert ts. induction fuel as [|fuel IH]; intros ts He; [done |].
  cbn [RemoveSocketTimerFromList].
  unfold SocketTimerArrayGetEmptySocketTimer in *.
  destruct (SocketTimerArrayGetSocketTimer ts kEipInvalidSocket) as [i|] eqn:E; [|done].
  apply find_timer_split in E as (l1 & t & l2 & -> & <- & Ht & Hl1).
  rewrite clear_at_split. cbn [mbind option_bind]. apply IH.
  intros Hn. apply find_timer_None in Hn. apply Forall_app in Hn as [_ [Hn _]%Forall_cons_iff].
  by apply Hn.
Qed.

Lemma timer_fuel_enough socket ts : (timers_of socket ts < timer_fuel ts)%nat.
Proof. unfold timers_of, timer_fuel. pose proof (list.length_filter (λ t, timer_socket t = socket) ts). lia. Qed.

Lemma CloseTcpSocket_eq {S} socket (s : Encapsulation S) :
  socket ≠ kEipInvalidSocket →
  CloseTcpSocket socket s
  = Some (set_manager (CloseSocket socket (manager s))
            (set_timestamps (clear_timer_of socket <$> g_timestamps s) s)).
Proof.
  intros Hs. unfold CloseTcpSocket.
  by rewrite remove_timers_spec by (done || apply timer_fuel_enough).
Qed.

(** ** Lemmas: sessions *)

Lemma find_session_Some i socket l j :
  find_session i socket l = Some j ↔
  ∃ k, j = (i + k)%nat ∧ l !! k = Some socket ∧
    ∀ k', (k' < k)%nat → l !! k' ≠ Some socket.
Proof.
  revert i. induction l as [|x l IH]; intros i; simpl.
  { split; [done |]. by intros (k & _ & H & _). }
  destruct (Z.eqb_spec x socket) as [->|Hne].
  - split.
    + intros [= <-]. exists 0%nat. split; [lia |]. split; [done |]. intros; lia.
    + intros ([|k] & -> & _ & Hmin); [by rewrite Nat.add_0_r |].
      by destruct (Hmin 0%nat ltac:(lia)).
  - rewrite IH. split.
    + intros (k & -> & Hk & Hmin). exists (S k). split; [lia |]. split; [done |].
      intros [|k'] Hlt; simpl; [congruence | apply Hmin; lia].
    + intros ([|k] & -> & Hk & Hmin); [simpl in Hk; congruence |].
      exists k. split; [lia |]. split; [done |]. intros k' Hlt. apply (Hmin (S k')). lia.
Qed.

Lemma find_session_None i socket l : find_session i socket l = None ↔ socket ∉ l.
Proof.
  revert i. induction l as [|x l IH]; intros i; simpl.
  { split; [intros _ H; by apply elem_of_nil in H | done]. }
  destruct (Z.eqb_spec x socket) as [->|Hne].
  - split; [done |]. intros H. destruct H. by left.
  - rewrite IH, not_elem_of_cons. split; [intros H; by split | tauto].
Qed.

(** The session table: full length, and no socket in two entries. *)
Definition sessions_wf (l : list Z) : Prop :=
  length l = OPENER_NUMBER_OF_SUPPORTED_SESSIONS ∧
  ∀ i j x, l !! i = Some x → l !! j = Some x → x ≠ kEipInvalidSocket → i = j.

Lemma sessions_wf_free l i :
  sessions_wf l → sessions_wf (<[i := kEipInvalidSocket]> l).
Proof.
  intros [Hl Hu]. split; [by rewrite length_insert |]. intros j k x Hj Hk Hx.
  apply list_lookup_insert_Some in Hj, Hk.
  destruct Hj as [(-> & <- & _)|[Hij Hj]]; [done |].
  destruct Hk as [(-> & <- & _)|[Hik Hk]]; [done |]. by apply (Hu _ _ x).
Qed.

Lemma sessions_wf_add l i socket :
  sessions_wf l → (socket ∉ l) → sessions_wf (<[i := socket]> l).
Proof.
  intros [Hl Hu] Hs. split; [by rewrite length_insert |]. intros j k x Hj Hk Hx.
  assert (Hno : ∀ n, l !! n ≠ Some socket) by (intros n Hn; by apply list_elem_of_lookup_2 in Hn).
  apply list_lookup_insert_Some in Hj, Hk.
  destruct Hj as [(<- & <- & _)|[Hij Hj]], Hk as [(<- & Ek & _)|[Hik Hk]]; subst; try done.
  - by destruct (Hno k).
  - by destruct (Hno j).
  - by apply (Hu _ _ x).
Qed.

(** ** Lemmas: received messages *)

(** A received message: header, payload and what the buffer holds behind. *)
Definition message_bytes (command handle st : Z) (context payload rest : list Z) : list Z :=
  header_bytes command (Z.of_nat (length payload)) handle st context 0 ++ payload ++ rest.

Record received (command handle st : Z) (context payload : list Z) (n : Z) : Prop := {
  recv_command : is_u16 command;
  recv_handle : is_u32 handle;
  recv_status : is_u32 st;
  recv_context : length context = 8%nat;
  recv_context_bytes : bytes context;
  recv_length : 24 + Z.of_nat (length payload) <= n <= 512 }.

(** The decoded header with the status reset, as the commands see it. *)
Definition decoded (command handle : Z) (context payload : list Z) (buffer : list Z)
    (position : list Z) : EncapsulationData :=
  mkEncapsulation command (Z.of_nat (length payload)) handle kEncapsulationProtocolSuccess
    context 0 buffer position.

Section Received.
Context {S : Type} `{Router S} `{ConnectionCallbacks}.
Implicit Type s : Encapsulation S.

Lemma tcp_received device socket command handle st context payload rest n addr m s :
  received command handle st context payload n →
  let buffer := message_bytes command handle st context payload rest in
  HandleReceivedExplictTcpData device socket buffer n addr m s
  = ('(status, m, s) ← tcp_command device socket addr
       (decoded command handle context payload buffer (payload ++ rest)) m s;
     Some (status, n - 24 - Z.of_nat (length payload), m, s)).
Proof.
  intros [Hc Hh Hs Hctx _ Hn]. cbv zeta. unfold HandleReceivedExplictTcpData, message_bytes.
  rewrite CreateEncapsulationStructure_header by (done || (unfold is_u16, is_u32; lia)).
  cbn [mbind option_bind]. rewrite (proj2 (Z.ltb_ge _ _)) by lia. done.
Qed.

Lemma header_reply_spec d len handle st extra m :
  holds [] m → length (sender_context d) = 8%nat → bytes (sender_context d) → bytes extra →
  24 + Z.of_nat (length extra) <= 512 →
  ∃ m', (m ← GenerateEncapsulationHeader d len handle st m; put extra m) = Some m' ∧
    holds (header_bytes (command_code d) len handle st (sender_context d) 0 ++ extra) m'.
Proof.
  intros Hm Hc Hcb He Hfit. rewrite GenerateEncapsulationHeader_put, put_app by done.
  apply (holds_put []); [done | | ].
  - apply bytes_app. split; [by apply bytes_header | done].
  - rewrite app_nil_l, length_app, length_header_bytes by done. lia.
Qed.

(** Replies that are a header and nothing else. *)
Lemma header_only_spec d handle st m :
  holds [] m → length (sender_context d) = 8%nat → bytes (sender_context d) →
  ∃ m', GenerateEncapsulationHeader d 0 handle st m = Some m' ∧
    wire m' = header_bytes (command_code d) 0 handle st (sender_context d) 0.
Proof.
  intros Hm Hc Hcb. rewrite GenerateEncapsulationHeader_put by done.
  edestruct (holds_put [] (header_bytes (command_code d) 0 handle st (sender_context d) 0) m)
    as (m' & E & Hh); [done | by apply bytes_header | | ].
  - rewrite app_nil_l, length_header_bytes by done. lia.
  - exists m'. split; [exact E |]. by apply holds_wire in Hh.
Qed.

Lemma register_reply_spec d handle st m :
  holds [] m → length (sender_context d) = 8%nat → bytes (sender_context d) →
  ∃ m', EncapsulateRegisterSessionCommandResponseMessage d handle st m = Some m' ∧
    wire m' = header_bytes (command_code d) 4 handle st (sender_context d) 0 ++ [1; 0; 0; 0].
Proof.
  intros Hm Hc Hcb.
  destruct (header_reply_spec d 4 handle st [1; 0; 0; 0] m) as (m' & E & Hh);
    [done.. | repeat constructor; unfold is_u8; lia | simpl; lia |].
  exists m'. split; [|by apply holds_wire in Hh]. rewrite <-E.
  unfold EncapsulateRegisterSessionCommandResponseMessage.
  destruct (GenerateEncapsulationHeader d 4 handle st m) as [m1|]; [|done].
  cbn [mbind option_bind]. rewrite AddIntToMessage_put, put_Int. done.
Qed.
End Received.

(** ** Properties *)

(** What [register_session] answers: handle, status, and the new table. *)
Definition registration (socket : Z) (l : list Z) : Z * Z * list Z :=
  match find_session 0 socket l with
  | Some i => (Z.of_nat i + 1, kEncapsulationProtocolInvalidCommand, l)
  | None =>
      match find_session 0 kEipInvalidSocket l with
      | None => (0, kEncapsulationProtocolInsufficientMemory, l)
      | Some i => (Z.of_nat i + 1, kEncapsulationProtocolSuccess, <[i := socket]> l)
      end
  end.

(** The device after a registration: on success the new table, and the free timer [j]
    started for the socket. *)
Definition registered {S} (socket code : Z) (table : list Z) (j : nat) (s : Encapsulation S)
  : Encapsulation S :=
  if code =? kEncapsulationProtocolSuccess
  then set_sessions table
         (set_timestamps (<[j := mkSocketTimer socket (g_actual_time s)]> (g_timestamps s)) s)
  else s.

Lemma register_session_spec {S} socket j (s : Encapsulation S) :
  SocketTimerArrayGetEmptySocketTimer (g_timestamps s) = Some j →
  let '(h, code, table) := registration socket (g_registered_sessions s) in
  register_session socket s = Some (h, code, registered socket code table j s).
Proof.
  intros Hj. unfold register_session, registration, registered, GetFreeSessionIndex.
  destruct (find_session 0 socket _) as [i|]; [done |].
  destruct (find_session 0 kEipInvalidSocket _) as [i|] eqn:Hf; [|done].
  rewrite Hj. cbv zeta. pose proof Hj as (l1 & t & l2 & Hts & Hlen & _ & _)%find_timer_split.
  apply find_session_Some in Hf as (k & -> & Hk & _). simpl.
  rewrite Hts, list_lookup_middle by done. simpl.
  rewrite list_lookup_insert_eq by (rewrite length_app; simpl; lia). simpl.
  unfold store_session. simpl. rewrite Hk. simpl. by rewrite list_insert_insert_eq.
Qed.

Lemma registered_table {S} socket j (s : Encapsulation S) :
  let '(_, code, table) := registration socket (g_registered_sessions s) in
  g_registered_sessions (registered socket code table j s) = table.
Proof. unfold registration, registered. by repeat case_match; simplify_eq. Qed.

Lemma registration_wf socket l :
  sessions_wf l → socket ≠ kEipInvalidSocket →
  sessions_wf (registration socket l).2 ∧
  ((registration socket l).1.2 = kEncapsulationProtocolSuccess →
   1 <= (registration socket l).1.1 <= Z.of_nat OPENER_NUMBER_OF_SUPPORTED_SESSIONS ∧
   (registration socket l).2 !! Z.to_nat ((registration socket l).1.1 - 1) = Some socket).
Proof.
  intros Hw Hs. unfold registration.
  destruct (find_session 0 socket l) as [i|] eqn:E; [by split |].
  apply find_session_None in E.
  destruct (find_session 0 kEipInvalidSocket l) as [i|] eqn:F; [|by split].
  apply find_session_Some in F as (k & -> & Hk & _). simpl.
  split; [by apply sessions_wf_add |]. intros _. pose proof Hk as Hlt%lookup_lt_Some.
  destruct Hw as [Hl _]. rewrite Hl in Hlt. split; [lia |].
  replace (Z.to_nat (Z.of_nat k + 1 - 1)) with k by lia. apply list_lookup_insert_eq. lia.
Qed.

(** C7.  A RegisterSession message over TCP, while a socket timer is free: a
    protocol version other than 1 or nonzero options are answered with
    "unsupported protocol", a second registration of a socket with its existing
    handle and "invalid command", a full table with "insufficient memory", and
    otherwise the socket gets the lowest free session, and the first free timer is started
    for it at the current time; the 28-byte reply carries
    handle, status and the sender's context.  The table keeps its invariant, that
    no socket has two sessions, and nothing else of the device changes. *)
Theorem RegisterSession_spec {S} `{Router S} `{ConnectionCallbacks} device socket handle st
    context version opts rest n addr m j (s : Encapsulation S) :
  let payload := le_bytes 2 version ++ le_bytes 2 opts in
  received kEncapsulationCommandRegisterSession handle st context payload n →
  is_u16 version → is_u16 opts → holds [] m → socket ≠ kEipInvalidSocket →
  sessions_wf (g_registered_sessions s) →
  SocketTimerArrayGetEmptySocketTimer (g_timestamps s) = Some j →
  let supported := (version =? 1) && (opts =? 0) in
  let '(h, code, table) :=
    if supported then registration socket (g_registered_sessions s)
    else (0, kEncapsulationProtocolUnsupportedProtocol, g_registered_sessions s) in
  let s' := registered socket code table j s in
  ∃ m', HandleReceivedExplictTcpData device socket
      (message_bytes kEncapsulationCommandRegisterSession handle st context payload rest) n addr
      m s = Some (kEipStatusOkSend, n - 28, m', s') ∧
    wire m' = header_bytes kEncapsulationCommandRegisterSession 4 h code context 0
                ++ [1; 0; 0; 0] ∧
    g_registered_sessions s' = table ∧ sessions_wf table ∧
    (code = kEncapsulationProtocolSuccess →
       CheckRegisteredSessions (decoded 0x6F h context [] [] []) s' = Some true).
Proof.
  cbv zeta. intros Hr Hv Ho Hm Hs Hw Ht.
  pose proof (recv_context _ _ _ _ _ _ Hr) as Hc.
  pose proof (recv_context_bytes _ _ _ _ _ _ Hr) as Hcb.
  pose proof (tcp_received device socket _ _ _ _ _ rest n addr m s Hr) as E. cbv zeta in E.
  rewrite E. clear E. set (buffer := message_bytes _ _ _ _ _ _).
  set (d := decoded _ _ _ _ buffer _).
  change (tcp_command device socket addr d m s)
    with ('(m, s) ← HandleReceivedRegisterSessionCommand socket d m s;
          Some (kEipStatusOkSend, m, s)).
  unfold HandleReceivedRegisterSessionCommand.
  change (current_communication_buffer_position d)
    with ((le_bytes 2 version ++ le_bytes 2 opts) ++ rest).
  rewrite <-(assoc_L (++)). rewrite GetUint_le, (u16_id version) by done.
  cbn [mbind option_bind]. rewrite GetUint_le, (u16_id opts) by done. cbn [mbind option_bind].
  replace ((0 <? version) && (version <=? kSupportedProtocolVersion) && (0 =? opts))
    with ((version =? 1) && (opts =? 0)).
  2: { unfold kSupportedProtocolVersion. rewrite (Z.eqb_sym 0 opts). f_equal.
       destruct (Z.eqb_spec version 1) as [->|]; [done |]. symmetry.
       apply andb_false_iff. rewrite Z.ltb_ge, Z.leb_gt. lia. }
  set (d' := set_current_position rest d).
  assert (Hlen : Z.of_nat (length (le_bytes 2 version ++ le_bytes 2 opts)) = 4)
    by (by rewrite length_app, !length_le_bytes).
  replace (n - 28) with (n - 24 - Z.of_nat (length (le_bytes 2 version ++ le_bytes 2 opts)))
    by lia.
  destruct ((version =? 1) && (opts =? 0)).
  - pose proof (register_session_spec socket j s Ht) as E.
    destruct (registration_wf socket _ Hw Hs) as [Hw' Hok].
    pose proof (registered_table socket j s) as Htab.
    destruct (registration socket (g_registered_sessions s)) as [[h code] table].
    rewrite E. cbn [mbind option_bind fst snd] in *.
    destruct (register_reply_spec d' h code m Hm Hc Hcb) as (m' & -> & Hwire).
    cbn [mbind option_bind]. exists m'. split; [done |]. split; [done |]. split; [done |].
    split; [done |]. intros Hcode. destruct (Hok Hcode) as [Hrange Hlook].
    unfold CheckRegisteredSessions. simpl session_handle.
    rewrite (proj2 (Z.ltb_lt _ _)), (proj2 (Z.leb_le _ _)) by lia.
    cbn [andb]. rewrite Htab, Hlook. cbn [mbind option_bind].
    by rewrite (proj2 (Z.eqb_neq kEipInvalidSocket socket)) by done.
  - cbn [mbind option_bind].
    destruct (register_reply_spec d' 0 kEncapsulationProtocolUnsupportedProtocol m Hm Hc Hcb)
      as (m' & -> & Hwire).
    cbn [mbind option_bind]. by exists m'.
Qed.

(** *** Example device *)

Definition example_identity : CipIdentityObject :=
  mkIdentity 1 12 65001 2 3 0 0 123456789 (mkShortString 6 (Some [79; 80; 69; 78; 69; 114])) 255.

Definition example_device : Device :=
  mkDevice kOpENerEndianessLittle example_identity 0x0100A8C0 120.

Definition example_encapsulation {S} (w : World S) : Encapsulation S :=
  EncapsulationInit
    (mkEncap [] (replicate OPENER_NUMBER_OF_SUPPORTED_SESSIONS (mkSocketTimer kEipInvalidSocket 0))
       0 (replicate 2 (mkDelayed 0 0 (mkSockAddr 0 0) InitializeENIPMessage))
       zero_service_information [] w).

#[export] Instance no_io_connections : ConnectionCallbacks := {|
  close_io_connection _ _ _ := None |}.

Definition example_context : list Z := [1; 2; 3; 4; 5; 6; 7; 8].

Lemma example_received command handle payload n :
  is_u16 command → is_u32 handle → 24 + Z.of_nat (length payload) <= n <= 512 →
  received command handle 0 example_context payload n.
Proof.
  intros Hc Hh Hn. split; [done | done | unfold is_u32; lia | done | | done].
  repeat constructor; lia.
Qed.

Lemma RegisterSession_spec_witness :
  ∃ m' s', HandleReceivedExplictTcpData example_device 5
      (message_bytes kEncapsulationCommandRegisterSession 0 0 example_context [1; 0; 0; 0] [])
      28 example_peer InitializeENIPMessage (example_encapsulation example_world)
    = Some (kEipStatusOkSend, 0, m', s') ∧
    wire m' = header_bytes 0x65 4 1 0 example_context 0 ++ [1; 0; 0; 0] ∧
    take 2 (g_registered_sessions s') = [5; -1] ∧
    take 1 (g_timestamps s') = [mkSocketTimer 5 0].
Proof.
  destruct (RegisterSession_spec example_device 5 0 0 example_context 1 0 [] 28 example_peer
    InitializeENIPMessage 0 (example_encapsulation example_world)) as (m' & E & Hw & _).
  - apply example_received; [by split | by split | simpl; lia].
  - by split.
  - by split.
  - exact holds_init.
  - discriminate.
  - split; [reflexivity |]. intros i j x Hi _ Hx. exfalso. apply Hx.
    by apply lookup_replicate in Hi as [-> _].
  - vm_compute. reflexivity.
  - eexists m', _. split; [exact E |]. split; [exact Hw |]. split; vm_compute; reflexivity.
Defined.

Lemma GetDint_reads a b c d p : ∃ v, GetDintFromMessage (a :: b :: c :: d :: p) = Some (v, p).
Proof. by eexists. Qed.

Lemma GetInt_reads a b p : ∃ v, GetIntFromMessage (a :: b :: p) = Some (v, p).
Proof. by eexists. Qed.

(** Messages that are turned down over TCP leave the device as it is: a
    message whose header declares more data than was received is an error and
    produces nothing; an unknown command is answered with a bare header and
    "invalid command"; SendRRData and SendUnitData for a session handle that is
    not registered (0, above 20, or a free entry) with a bare header and "invalid
    session handle", whatever the data is. *)
Theorem tcp_messages_turned_down {S} `{Router S} `{ConnectionCallbacks} device socket command
    handle st context payload rest n addr m (s : Encapsulation S) :
  received command handle st context payload n → holds [] m →
  length (g_registered_sessions s) = OPENER_NUMBER_OF_SUPPORTED_SESSIONS →
  let result n := HandleReceivedExplictTcpData device socket
    (message_bytes command handle st context payload rest) n addr m s in
  (∀ k, k < 24 + Z.of_nat (length payload) → result k = Some (kEipStatusError, 0, m, s)) ∧
  (one_of command [0; 4; 0x63; 0x64; 0x65; 0x66; 0x6F; 0x70] = false →
   ∃ m', result n = Some (kEipStatusOkSend, n - 24 - Z.of_nat (length payload), m', s) ∧
     wire m' = header_bytes command 0 handle kEncapsulationProtocolInvalidCommand context 0) ∧
  (command = kEncapsulationCommandSendRequestReplyData ∨
   command = kEncapsulationCommandSendUnitData →
   6 <= Z.of_nat (length payload) →
   session_socket handle s = None ∨ session_socket handle s = Some kEipInvalidSocket →
   ∃ m', result n = Some (kEipStatusOkSend, n - 24 - Z.of_nat (length payload), m', s) ∧
     wire m' = header_bytes command 0 handle kEncapsulationProtocolInvalidSessionHandle
                 context 0).
Proof.
  cbv zeta. intros Hr Hm Hl. pose proof (recv_context _ _ _ _ _ _ Hr) as Hc.
  pose proof (recv_context_bytes _ _ _ _ _ _ Hr) as Hcb.
  pose proof (tcp_received device socket _ _ _ _ _ rest n addr m s Hr) as E. cbv zeta in E.
  split; [|split].
  - intros k Hk. destruct Hr as [? ? ? ? _ ?].
    unfold HandleReceivedExplictTcpData, message_bytes.
    rewrite CreateEncapsulationStructure_header by (done || (unfold is_u16, is_u32; lia)).
    cbn [mbind option_bind]. by rewrite (proj2 (Z.ltb_lt _ _)) by lia.
  - intros Hno. rewrite E. clear E. set (d := decoded _ _ _ _ _ _).
    unfold one_of in Hno. cbn [existsb] in Hno. rewrite !orb_false_iff in Hno.
    destruct Hno as (N0 & N1 & N2 & N3 & N4 & N5 & N6 & N7 & _).
    unfold tcp_command. change (command_code d) with command. cbv zeta.
    unfold kEncapsulationCommandNoOperation, kEncapsulationCommandListServices,
      kEncapsulationCommandListIdentity, kEncapsulationCommandListInterfaces,
      kEncapsulationCommandRegisterSession, kEncapsulationCommandUnregisterSession,
      kEncapsulationCommandSendRequestReplyData, kEncapsulationCommandSendUnitData.
    rewrite N0, N1, N2, N3, N4, N5, N6, N7. unfold HandleReceivedInvalidCommand.
    destruct (header_only_spec d handle kEncapsulationProtocolInvalidCommand m Hm Hc Hcb)
      as (m' & E & Hw).
    change (session_handle d) with handle. rewrite E. by exists m'.
  - intros Hcmd Hlen Hs. rewrite E. clear E. set (d := decoded _ _ _ _ _ _).
    assert (Hgo : ∀ notify, ∃ m', handle_data_command notify d addr m s
        = Some (kEipStatusOkSend, m', s) ∧
        wire m' = header_bytes command 0 handle kEncapsulationProtocolInvalidSessionHandle
                    context 0).
    { intros notify. unfold handle_data_command.
      change (data_length d) with (Z.of_nat (length payload)).
      rewrite (proj2 (Z.leb_le _ _)) by lia.
      change (current_communication_buffer_position d) with (payload ++ rest).
      do 6 (destruct payload as [|? payload]; [simpl in Hlen; lia |]).
      cbn [app]. edestruct GetDint_reads as [v ->]. cbn [mbind option_bind].
      edestruct GetInt_reads as [v' ->]. cbn [mbind option_bind].
      unfold CheckRegisteredSessions. cbn [set_data_length set_current_position session_handle].
      change (session_handle d) with handle.
      set (d' := set_data_length _ _).
      destruct (header_only_spec d' handle kEncapsulationProtocolInvalidSessionHandle
        InitializeENIPMessage holds_init Hc Hcb) as (m' & Em & Hw).
      exists m'. split; [|exact Hw]. unfold session_socket in Hs.
      destruct ((0 <? handle) && (handle <=? Z.of_nat OPENER_NUMBER_OF_SUPPORTED_SESSIONS)) eqn:Hrange.
      - destruct Hs as [Hs | ->].
        + exfalso. apply lookup_ge_None in Hs. apply andb_true_iff in Hrange as [H1 H2].
          apply Z.ltb_lt in H1. apply Z.leb_le in H2. lia.
        + cbn [mbind option_bind]. change (negb (kEipInvalidSocket =? kEipInvalidSocket)) with false.
          cbv iota. by rewrite Em.
      - cbn [mbind option_bind]. by rewrite Em. }
    destruct Hcmd as [Hcmd | Hcmd].
    + destruct (Hgo (NotifyCommonPacketFormat (endianess device))) as (m' & Em & Hw).
      exists m'. split; [|exact Hw]. unfold tcp_command. change (command_code d) with command.
      rewrite Hcmd. cbn. unfold HandleReceivedSendRequestResponseDataCommand. by rewrite Em.
    + destruct (Hgo (NotifyConnectedCommonPacketFormat (endianess device))) as (m' & Em & Hw).
      exists m'. split; [|exact Hw]. unfold tcp_command. change (command_code d) with command.
      rewrite Hcmd. cbn. unfold HandleReceivedSendUnitDataCommand. by rewrite Em.
Qed.

Lemma tcp_messages_turned_down_witness :
  ∃ m', HandleReceivedExplictTcpData example_device 5
      (message_bytes 0x6F 3 0 example_context [0; 0; 0; 0; 0; 0] []) 30 example_peer InitializeENIPMessage
      (example_encapsulation example_world)
    = Some (kEipStatusOkSend, 0, m', example_encapsulation example_world) ∧
    wire m' = header_bytes 0x6F 0 3 0x64 example_context 0.
Proof.
  destruct (tcp_messages_turned_down example_device 5 0x6F 3 0 example_context
    [0; 0; 0; 0; 0; 0] [] 30 example_peer InitializeENIPMessage (example_encapsulation example_world))
    as (_ & _ & H).
  - apply example_received; [by split | by split | simpl; lia].
  - exact holds_init.
  - reflexivity.
  - apply H; [by left | simpl; lia | by right].
Defined.

(** *** Announcements *)

Definition identity_wf (device : Device) (name : list Z) : Prop :=
  endianess device ≠ kOpenerEndianessUnknown ∧
  ∃ p, ss_string (product_name (identity device)) = Some p ∧
    load_n p (Z.to_nat (ss_length (product_name (identity device)))) = Some name ∧
    ss_length (product_name (identity device)) = Z.of_nat (length name) ∧
    bytes name ∧ Z.of_nat (length name) <= 255.

Lemma identity_item_length device name :
  identity_wf device name →
  ListIdentityGetCipIdentityItemLength (identity device) = 34 + Z.of_nat (length name).
Proof.
  intros (_ & p & _ & _ & Hn & _ & Hmax). unfold ListIdentityGetCipIdentityItemLength.
  rewrite Hn, u16_id; unfold is_u16; lia.
Qed.

Lemma writes_identity_item device name :
  identity_wf device name →
  ∃ tail, writes (EncodeListIdentityCipIdentityItem device)
      (le_bytes 2 0x0C ++ le_bytes 2 (34 + Z.of_nat (length name)) ++ tail) ∧
    Z.of_nat (length tail) = 34 + Z.of_nat (length name) ∧ bytes tail.
Proof.
  intros Hid. pose proof (identity_item_length _ _ Hid) as Hitem.
  destruct Hid as (He & p & Hp & Hl & Hn & Hb & Hmax).
  pose proof (writes_ip_address (endianess device)
    (htons (is_big (endianess device)) kOpenerEthernetPort) (ip_address device) He) as Hip.
  set (ip := ip_address_bytes _ _ _) in Hip.
  assert (Hlip : length ip = 8%nat) by apply length_ip_address_bytes.
  assert (Hbip : bytes ip) by apply bytes_ip_address.
  set (d := identity device) in *.
  exists (le_bytes 2 kSupportedProtocolVersion ++ ip ++ replicate 8 (u8 0)
    ++ le_bytes 2 (vendor_id d) ++ le_bytes 2 (device_type d) ++ le_bytes 2 (product_code d)
    ++ le_bytes 1 (major_revision d) ++ le_bytes 1 (minor_revision d)
    ++ le_bytes 2 (identity_status d) ++ le_bytes 4 (serial_number d)
    ++ le_bytes 1 (u8 (ss_length (product_name d))) ++ name ++ le_bytes 1 (identity_state d)).
  split; [|split].
  - unfold EncodeListIdentityCipIdentityItem. cbv zeta. fold d.
    rewrite Hitem.
    rewrite Hp. cbn [mbind option_bind]. rewrite Hl.
    do 3 (apply writes_bind; [apply writes_Int |]). apply writes_bind; [exact Hip |].
    apply writes_bind; [apply writes_put; intros m; by apply Fill_put |].
    do 3 (apply writes_bind; [apply writes_Int |]).
    do 2 (apply writes_bind; [apply writes_Sint |]).
    apply writes_bind; [apply writes_Int |]. apply writes_bind; [apply writes_Dint |].
    apply writes_bind; [apply writes_Sint |]. intros pre m. cbn [mbind option_bind].
    transitivity (m2 ← (m1 ← put pre m;
        (m1 ← copy_in name m1; Some (add_used (ss_length (product_name d))
          (move_position (ss_length (product_name d)) m1))));
        AddSintToMessage (identity_state d) m2).
    + destruct (put pre m); [|done]. cbn [mbind option_bind]. by destruct (copy_in name _).
    + rewrite (writes_copy name _ Hn). rewrite writes_Sint. by rewrite (assoc_L (++)).
  - rewrite !length_app, !length_le_bytes, Hlip, length_replicate. lia.
  - repeat (apply bytes_app; split); try apply le_bytes_bytes; try done.
    apply bytes_replicate, u8_range.
Qed.

(** The three announcements carry, in their header, exactly the number of
    bytes that follow it: List Services with the communications service, List
    Interfaces with no item, and List Identity, whose single item again states
    its exact length and always fits the buffer; each starts with its item
    count. *)
Theorem announcements_lengths_exact device d i name m :
  holds [] m → length (sender_context d) = 8%nat → bytes (sender_context d) →
  length (name_of_service i) = 16%nat → bytes (name_of_service i) → identity_wf device name →
  let framed_by body m' :=
    wire m' = header_bytes (command_code d) (Z.of_nat (length body)) 0
                kEncapsulationProtocolSuccess (sender_context d) 0 ++ body in
  (∃ m' body, HandleReceivedListServicesCommand d i m = Some m' ∧ framed_by body m' ∧
     take 2 body = le_bytes 2 1 ∧ drop 10 body = name_of_service i) ∧
  (∃ m', HandleReceivedListInterfacesCommand d m = Some m' ∧ framed_by [0; 0] m') ∧
  (∃ m' body, EncapsulateListIdentityResponseMessage device d m = Some m' ∧
     framed_by body m' ∧
     take 6 body = le_bytes 2 1 ++ le_bytes 2 0x0C
                     ++ le_bytes 2 (Z.of_nat (length body) - 6)).
Proof.
  cbv zeta. intros Hm Hc Hcb Hln Hbn Hid. split; [|split].
  - set (body := le_bytes 2 1 ++ le_bytes 2 (type_code i) ++ le_bytes 2 (u16 (service_length i - 4))
      ++ le_bytes 2 (encapsulation_protocol_version i) ++ le_bytes 2 (capability_flags i)
      ++ name_of_service i).
    assert (Hlb : length body = 26%nat) by (unfold body; rewrite !length_app, !length_le_bytes; lia).
    destruct (header_reply_spec d 26 0 kEncapsulationProtocolSuccess body m) as (m' & E & Hh);
      [done.. | | lia |].
    { unfold body. repeat (apply bytes_app; split); try apply le_bytes_bytes; done. }
    exists m', body. rewrite Hlb. split; [|split; [by apply holds_wire in Hh | done]].
    rewrite <-E. unfold HandleReceivedListServicesCommand.
    rewrite !GenerateEncapsulationHeader_put, put_app by done.
    do 5 rewrite (writes_step _ _ _ _ _ (writes_Int _)).
    rewrite (writes_copy (name_of_service i) 16) by (by rewrite Hln).
    unfold body. by rewrite <-!(assoc_L (++)).
  - destruct (header_reply_spec d 2 0 kEncapsulationProtocolSuccess [0; 0] m) as (m' & E & Hh);
      [done.. | repeat constructor; unfold is_u8; lia | simpl; lia |].
    exists m'. split; [|by apply holds_wire in Hh]. rewrite <-E.
    unfold HandleReceivedListInterfacesCommand.
    destruct (GenerateEncapsulationHeader d 2 0 _ m); [|done]. cbn [mbind option_bind].
    by rewrite AddIntToMessage_put.
  - destruct (writes_identity_item device name Hid) as (tail & Hw & Hlt & Hbt).
    pose proof Hid as (_ & p & _ & _ & Hn & _ & Hmax).
    set (body := le_bytes 2 1 ++ le_bytes 2 0x0C ++ le_bytes 2 (34 + Z.of_nat (length name)) ++ tail).
    assert (Hlb : Z.of_nat (length body) = 40 + Z.of_nat (length name))
      by (unfold body; rewrite !length_app, !length_le_bytes; lia).
    destruct (header_reply_spec d (40 + Z.of_nat (length name)) 0 kEncapsulationProtocolSuccess
      body m) as (m' & E & Hh); [done.. | | lia |].
    { unfold body. repeat (apply bytes_app; split); try apply le_bytes_bytes; done. }
    exists m', body. rewrite Hlb. split; [|split; [by apply holds_wire in Hh |]].
    + rewrite <-E. unfold EncapsulateListIdentityResponseMessage. cbv zeta.
      rewrite (identity_item_length _ _ Hid), u16_id by (unfold is_u16; lia).
      replace (34 + Z.of_nat (length name) + 2 + 2 + 2) with (40 + Z.of_nat (length name)) by lia.
      rewrite !GenerateEncapsulationHeader_put, put_app by done.
      rewrite (writes_step _ _ _ _ _ (writes_Int 1)), Hw.
      unfold body. by rewrite <-!(assoc_L (++)).
    + replace (40 + Z.of_nat (length name) - 6) with (34 + Z.of_nat (length name)) by lia. done.
Qed.

Lemma announcements_lengths_exact_witness :
  ∃ m' body, EncapsulateListIdentityResponseMessage example_device
      (decoded 0x63 0 example_context [] [] []) InitializeENIPMessage = Some m' ∧
    wire m' = header_bytes 0x63 (Z.of_nat (length body)) 0 0 example_context 0 ++ body.
Proof.
  destruct (announcements_lengths_exact example_device (decoded 0x63 0 example_context [] [] [])
    (mkServiceInformation 256 24 1 288 communications) [79; 80; 69; 78; 69; 114]
    InitializeENIPMessage) as (_ & _ & m' & body & E & Hw & _).
  - exact holds_init.
  - reflexivity.
  - repeat constructor; lia.
  - reflexivity.
  - repeat constructor; lia.
  - split; [discriminate |]. exists [79; 80; 69; 78; 69; 114].
    split; [reflexivity |]. split; [reflexivity |]. split; [reflexivity |].
    split; [repeat constructor; lia | simpl; lia].
  - exists m', body. split; [exact E | exact Hw].
Defined.

(** *** Timers and closing *)

(** [RemoveSocketTimerFromList] clears exactly the timers of a valid
    socket, within one step per timer and one more; for the invalid socket it
    never ends while a timer is free, because a cleared timer matches again. *)
Theorem RemoveSocketTimerFromList_spec socket ts :
  (socket ≠ kEipInvalidSocket →
   RemoveSocketTimerFromList (timer_fuel ts) socket ts = Some (clear_timer_of socket <$> ts)) ∧
  (SocketTimerArrayGetEmptySocketTimer ts ≠ None →
   ∀ fuel, RemoveSocketTimerFromList fuel kEipInvalidSocket ts = None).
Proof.
  split.
  - intros Hs. apply remove_timers_spec; [done | apply timer_fuel_enough].
  - intros He fuel. by apply remove_invalid_diverges.
Qed.

Section Closing.
Context {S : Type} `{ConnectionCallbacks}.
Implicit Type s : Encapsulation S.

Lemma RemoveSession_eq socket i m' s :
  find_session 0 socket (g_registered_sessions s) = Some i →
  CloseClass3ConnectionBasedOnSession (Z.of_nat i + 1) (manager s) = Some m' →
  RemoveSession socket s
  = Some (set_manager m' (set_sessions (<[i := kEipInvalidSocket]> (g_registered_sessions s)) s)).
Proof.
  intros Hf Hm. unfold RemoveSession. rewrite Hf.
  apply find_session_Some in Hf as (k & -> & Hk & _). simpl in *.
  unfold store_session. rewrite Hk. cbn [mbind option_bind]. unfold close_class3_of.
  change (manager (set_sessions _ s)) with (manager s).
  change (0 + k)%nat with k in Hm. rewrite Hm. done.
Qed.

End Closing.

(** A session with two class 3 connections of one originator is lost, and
    [RemoveSession] closes only the first connection.  When the second times out,
    its handler closes the socket of the session once more; the entry holds the
    invalid socket by then, and the removal of its timers never ends. *)
Theorem lost_session_hangs {S} `{ConnectionCallbacks} socket i ys a c zs o c2 o2
    (s : Encapsulation S) :
  find_session 0 socket (g_registered_sessions s) = Some i →
  (SocketTimerArrayGetEmptySocketTimer (g_timestamps s) ≠ None) →
  conns_wf (manager s) (ys ++ (a, c) :: zs) → c2 ∈ zs.*2 →
  (∀ y, y ∈ ys.*2 → ∃ o, connection_pool (manager s) !! y = Some o ∧
                         of_session (Z.of_nat i + 1) o = false) →
  connection_pool (manager s) !! c = Some o → of_session (Z.of_nat i + 1) o = true →
  connection_close_function o = Some kCloseConnection →
  connection_pool (manager s) !! c2 = Some o2 → of_session (Z.of_nat i + 1) o2 = true →
  (∀ c' o', c' ∈ (ys ++ zs).*2 → c' ≠ c2 → connection_pool (manager s) !! c' = Some o' →
     ConnectionObjectEqualOriginator o2 o' = false) →
  ∃ s', RemoveSession socket s = Some s' ∧ conns_wf (manager s') (ys ++ zs) ∧
    connection_pool (manager s') !! c2 = Some o2 ∧
    Class3ConnectionTimeoutHandler c2 s' = None ∧
    ∀ fuel, RemoveSocketTimerFromList fuel kEipInvalidSocket (g_timestamps s') = None.
Proof.
  intros Hi Ht Hw Hc2 Hys Ho Hof Hk Ho2 Hof2 Hlive.
  destruct (CloseClass3_first _ _ _ _ _ _ _ Hw Hys Ho Hof Hk) as (m' & Em & Hw' & Hp & _).
  pose proof (RemoveSession_eq _ _ _ _ Hi Em) as Es.
  set (s' := set_manager m' _) in Es. exists s'. split; [exact Es |]. split; [exact Hw' |].
  pose proof (conns_nodup _ _ Hw) as Hn. rewrite fmap_app in Hn. simpl in Hn.
  apply list.NoDup_app in Hn as (_ & Hd & [Hcz _]%list.NoDup_cons).
  assert (Hout : ∀ c', c' ∈ (ys ++ zs).*2 →
    connection_pool m' !! c' = connection_pool (manager s) !! c').
  { intros c' Hc'. rewrite Hp, lookup_insert_ne; [done |]. intros <-.
    rewrite fmap_app in Hc'. apply elem_of_app in Hc' as [Hc'|Hc']; [|done].
    apply (Hd c Hc'). by left. }
  assert (Hin2 : c2 ∈ (ys ++ zs).*2) by (rewrite fmap_app; apply elem_of_app; by right).
  assert (Hp2 : connection_pool m' !! c2 = Some o2) by (by rewrite Hout).
  split; [exact Hp2 |].
  assert (Hdiv : ∀ fuel, RemoveSocketTimerFromList fuel kEipInvalidSocket (g_timestamps s') = None)
    by (intros fuel; by apply remove_invalid_diverges).
  split; [|exact Hdiv].
  unfold Class3ConnectionTimeoutHandler. change (manager s') with m'. rewrite Hp2.
  cbn [mbind option_bind]. unfold CheckForTimedOutConnectionsAndCloseTCPConnections.
  change (manager s') with m'. rewrite (search_spec _ _ _ Hw'), first_match_None.
  2: { intros c' o' Hc' Ho'. destruct (decide (c' = c2)) as [->|Hne].
       - rewrite Nat.eqb_refl. simpl. by rewrite andb_false_r.
       - rewrite Hout in Ho' by done. by rewrite (Hlive c' o'). }
  cbn [mbind option_bind]. unfold CloseSessionBySessionHandle.
  apply andb_true_iff in Hof2 as [_ Hs2%Z.eqb_eq]. rewrite Hs2.
  rewrite (proj2 (Z.ltb_lt _ _)) by lia.
  replace (Z.to_nat (Z.of_nat i + 1 - 1)) with i by lia.
  apply find_session_Some in Hi as (k & -> & Hk' & _). simpl.
  rewrite list_lookup_insert_eq by (by apply lookup_lt_Some in Hk'). cbn [mbind option_bind].
  unfold CloseTcpSocket. by rewrite Hdiv.
Qed.

Lemma RemoveSocketTimerFromList_spec_witness :
  RemoveSocketTimerFromList 3 7 [mkSocketTimer 7 5; mkSocketTimer 8 6]
    = Some [mkSocketTimer kEipInvalidSocket 0; mkSocketTimer 8 6] ∧
  RemoveSocketTimerFromList 1000 kEipInvalidSocket [mkSocketTimer kEipInvalidSocket 0] = None.
Proof.
  split.
  - destruct (RemoveSocketTimerFromList_spec 7 [mkSocketTimer 7 5; mkSocketTimer 8 6]) as [H _].
    exact (H ltac:(discriminate)).
  - destruct (RemoveSocketTimerFromList_spec 7 [mkSocketTimer kEipInvalidSocket 0]) as [_ H].
    exact (H ltac:(discriminate) 1000%nat).
Defined.

(** The example manager with two connections of session 1, connected over
    socket 5. *)
Definition two_connections : Encapsulation unit :=
  set_sessions (<[0%nat := 5]> (replicate 20 kEipInvalidSocket))
    (example_encapsulation (mkWorld zero_cpf (opened 1 (opened 0 initial_manager)) tt)).

Lemma two_connections_wf :
  conns_wf (manager two_connections) [(1%nat, 1%nat); (0%nat, 0%nat)] ∧
  connection_pool (manager two_connections) !! 1%nat
    = Some (set_state 3 (session_connection 1)) ∧
  connection_pool (manager two_connections) !! 0%nat
    = Some (set_state 3 (session_connection 0)).
Proof.
  change (manager two_connections) with (opened 1 (opened 0 initial_manager)).
  destruct (opened_spec 0%nat initial_manager [] 0%nat) as [Hw0 Hp0].
  { exact initial_manager_wf. }
  { intros Hc. by apply elem_of_nil in Hc. }
  { rewrite initial_manager_pool by (unfold OPENER_CIP_NUM_EXPLICIT_CONNS; lia). by eexists. }
  { vm_compute. reflexivity. }
  destruct (opened_spec 1%nat (opened 0 initial_manager) [(0%nat, 0%nat)] 1%nat) as [Hw1 Hp1].
  { exact Hw0. }
  { set_solver. }
  { rewrite Hp0, lookup_insert_ne by lia.
    rewrite initial_manager_pool by (unfold OPENER_CIP_NUM_EXPLICIT_CONNS; lia). by eexists. }
  { vm_compute. reflexivity. }
  split; [exact Hw1 |]. rewrite Hp1. split; [apply lookup_insert_eq |].
  rewrite lookup_insert_ne by lia. rewrite Hp0. apply lookup_insert_eq.
Qed.

Lemma lost_session_hangs_witness :
  ∃ s', RemoveSession 5 two_connections = Some s' ∧ Class3ConnectionTimeoutHandler 0 s' = None.
Proof.
  destruct two_connections_wf as (Hw & H1 & H0).
  destruct (lost_session_hangs 5 0%nat [] 1%nat 1%nat [(0%nat, 0%nat)]
    (set_state 3 (session_connection 1)) 0%nat (set_state 3 (session_connection 0))
    two_connections) as (s' & E & _ & _ & Hh & _).
  - reflexivity.
  - discriminate.
  - exact Hw.
  - apply list_elem_of_here.
  - intros y Hy. by apply elem_of_nil in Hy.
  - exact H1.
  - vm_compute. reflexivity.
  - reflexivity.
  - exact H0.
  - vm_compute. reflexivity.
  - intros c' o' Hc' Hne. exfalso. apply Hne. by apply list_elem_of_singleton in Hc'.
  - exists s'. split; [exact E | exact Hh].
Defined.

Section Inactivity.
Context {S : Type} `{ConnectionCallbacks}.

(** Closing the connections of a session ends, with at most one closed, whenever
    the class 3 connections of that session have the close function of class 3. *)
Lemma CloseClass3_total handle m xs :
  conns_wf m xs →
  (∀ c o, c ∈ xs.*2 → connection_pool m !! c = Some o → of_session handle o = true →
     connection_close_function o = Some kCloseConnection) →
  ∃ m', CloseClass3ConnectionBasedOnSession handle m = Some m' ∧
    closed_sockets m' = closed_sockets m ∧
    ∀ c, c ∉ xs.*2 → connection_pool m' !! c = connection_pool m !! c.
Proof.
  intros Hw Hk.
  assert (Hcase : (∀ y, y ∈ xs.*2 → ∃ o, connection_pool m !! y = Some o ∧ of_session handle o = false) ∨
    ∃ ys a c zs o, xs = ys ++ (a, c) :: zs ∧ connection_pool m !! c = Some o ∧
      of_session handle o = true ∧
      ∀ y, y ∈ ys.*2 → ∃ o, connection_pool m !! y = Some o ∧ of_session handle o = false).
  { pose proof (conns_pool _ _ Hw) as Hp. clear Hw Hk. induction xs as [|[a c] xs IH].
    - left. intros y Hy. by apply elem_of_nil in Hy.
    - destruct (Hp c) as [o Ho]; [by left |]. destruct (of_session handle o) eqn:Hof.
      + right. exists [], a, c, xs, o. repeat (split; [done |]). intros y Hy.
        by apply elem_of_nil in Hy.
      + destruct IH as [Hall | (ys & a' & c' & zs & o' & -> & Ho' & Hof' & Hys)].
        * intros c' Hc'. apply Hp. by right.
        * left. intros y [->|Hy]%elem_of_cons; [by exists o | by apply Hall].
        * right. exists ((a, c) :: ys), a', c', zs, o'. repeat (split; [done |]).
          intros y [->|Hy]%elem_of_cons; [by exists o | by apply Hys]. }
  destruct Hcase as [Hall | (ys & a & c & zs & o & -> & Ho & Hof & Hys)].
  - exists m. split; [|done]. unfold CloseClass3ConnectionBasedOnSession.
    pose proof (conns_list _ _ Hw) as Hl. rewrite (rep_first _ _ _ Hl).
    pose proof (conns_fuel _ _ Hw) as Hf.
    replace loop_fuel with (length xs + Datatypes.S (loop_fuel - length xs - 1))%nat by lia.
    replace (head_ptr xs None) with (head_ptr (xs ++ []) None) by by rewrite app_nil_r.
    rewrite (close_class3_skip _ _ _ _ None); [done | rewrite app_nil_r; apply Hl | done].
  - destruct (CloseClass3_first _ _ _ _ _ _ _ Hw Hys Ho Hof) as (m' & E & _ & Hp & Hcl).
    { apply (Hk c o); [|done|done]. rewrite fmap_app. apply elem_of_app. right. by left. }
    exists m'. split; [done |]. split; [done |]. intros c' Hc'. rewrite Hp.
    apply lookup_insert_ne. intros <-. apply Hc'. rewrite fmap_app.
    apply elem_of_app. right. by left.
Qed.
End Inactivity.

(** When the socket of session entry [i], handle [i + 1], has been inactive
    for the timeout, [CheckEncapsulationInactivity] looks its session up with
    [GetSessionFromSocket], which answers with the index instead of the handle:
    a class 3 connection of the session with handle [i], another originator's, is
    closed. *)
Theorem inactivity_closes_other_session {S} `{ConnectionCallbacks} timeout socket i j t ys a c
    zs o (s : Encapsulation S) :
  0 < timeout → socket ≠ kEipInvalidSocket →
  find_session 0 socket (g_registered_sessions s) = Some i →
  SocketTimerArrayGetSocketTimer (g_timestamps s) socket = Some j →
  g_timestamps s !! j = Some t →
  u64 (1000 * timeout) <= u64 (g_actual_time s - last_update t) →
  conns_wf (manager s) (ys ++ (a, c) :: zs) →
  (∀ y, y ∈ ys.*2 → ∃ o, connection_pool (manager s) !! y = Some o ∧
                         of_session (Z.of_nat i) o = false) →
  connection_pool (manager s) !! c = Some o → of_session (Z.of_nat i) o = true →
  (∀ c' o', c' ∈ (ys ++ (a, c) :: zs).*2 → connection_pool (manager s) !! c' = Some o' →
     connection_close_function o' = Some kCloseConnection) →
  ∃ s', CheckEncapsulationInactivity timeout socket s = Some s' ∧
    associated_encapsulation_session o ≠ Z.of_nat i + 1 ∧
    connection_pool (manager s') !! c = Some empty_connection.
Proof.
  intros Ht Hs Hi Hj Htj Hexp Hw Hys Ho Hof Hk.
  assert (Hin : c ∈ (ys ++ (a, c) :: zs).*2) by (rewrite fmap_app; apply elem_of_app; right; by left).
  destruct (CloseClass3_first _ _ _ _ _ _ _ Hw Hys Ho Hof (Hk c o Hin Ho))
    as (m1 & E1 & Hw1 & Hp1 & Hcl1).
  unfold CheckEncapsulationInactivity. rewrite (proj2 (Z.ltb_lt _ _)) by done.
  rewrite Hj, Htj. cbn [mbind option_bind]. unfold SocketTimerGetLastUpdate.
  rewrite (proj2 (Z.leb_le _ _)) by done.
  unfold GetSessionFromSocket. rewrite Hi. unfold close_class3_of at 1. rewrite E1.
  cbn [mbind option_bind]. rewrite CloseTcpSocket_eq by done. cbn [mbind option_bind].
  set (s2 := set_manager (CloseSocket _ _) _).
  pose proof (conns_nodup _ _ Hw) as Hn. rewrite fmap_app in Hn. simpl in Hn.
  apply list.NoDup_app in Hn as (_ & Hd & [Hcz _]%list.NoDup_cons).
  assert (Hout : c ∉ (ys ++ zs).*2).
  { rewrite fmap_app. intros [Hc|Hc]%elem_of_app; [|done]. apply (Hd c Hc). by left. }
  assert (Hsame : ∀ c', c' ≠ c → connection_pool m1 !! c' = connection_pool (manager s) !! c').
  { intros c' Hne. rewrite Hp1. by apply lookup_insert_ne. }
  assert (Hpool2 : connection_pool (manager s2) = connection_pool m1 ∧
                   connection_list (manager s2) = connection_list m1 ∧
                   connection_nodes (manager s2) = connection_nodes m1).
  { change (manager s2) with (CloseSocket socket m1). unfold CloseSocket.
    by destruct (_ =? socket). }
  destruct Hpool2 as (Hpool2 & Hlist2 & Hnodes2).
  assert (Hw2 : conns_wf (manager s2) (ys ++ zs)).
  { destruct Hw1. split; rewrite ?Hpool2, ?Hlist2, ?Hnodes2; done. }
  destruct (CloseClass3_total (Z.of_nat i + 1) (manager s2) (ys ++ zs) Hw2)
    as (m3 & E3 & _ & Hp3).
  { intros c' o' Hc' Ho' _. rewrite Hpool2 in Ho'.
    assert (c' ≠ c) by (intros ->; done). rewrite Hsame in Ho' by done.
    apply (Hk c' o'); [|done]. rewrite fmap_app in Hc' |- *. simpl.
    rewrite elem_of_app in Hc'. apply elem_of_app. destruct Hc'; [by left | right; by right]. }
  rewrite (RemoveSession_eq socket i m3 s2 Hi E3). eexists. split; [done |]. split.
  - apply andb_true_iff in Hof as [_ Hof%Z.eqb_eq]. lia.
  - change (connection_pool m3 !! c = Some empty_connection).
    rewrite Hp3 by done. rewrite Hpool2, Hp1. apply lookup_insert_eq.
Qed.

Lemma inactivity_closes_other_session_witness :
  let s := set_sessions (<[1%nat := 6]> (g_registered_sessions two_connections))
    (set_timestamps [mkSocketTimer 6 0]
       (mkEncap (g_registered_sessions two_connections) [] 200000 []
          zero_service_information [] (world two_connections))) in
  ∃ s', CheckEncapsulationInactivity 120 6 s = Some s' ∧
    connection_pool (manager s') !! 1%nat = Some empty_connection.
Proof.
  intros s. destruct two_connections_wf as (Hw & H1 & H0).
  destruct (inactivity_closes_other_session 120 6 1%nat 0%nat (mkSocketTimer 6 0) [] 1%nat 1%nat
    [(0%nat, 0%nat)] (set_state 3 (session_connection 1)) s) as (s' & E & _ & Hc).
  - lia.
  - discriminate.
  - reflexivity.
  - reflexivity.
  - reflexivity.
  - vm_compute. discriminate.
  - exact Hw.
  - intros y Hy. by apply elem_of_nil in Hy.
  - exact H1.
  - vm_compute. reflexivity.
  - intros c' o' [-> | Hc']%elem_of_cons Ho'.
    + change (connection_pool (manager two_connections) !! 1%nat = Some o') in Ho'.
      rewrite H1 in Ho'. injection Ho' as <-. reflexivity.
    + apply list_elem_of_singleton in Hc' as ->.
      change (connection_pool (manager two_connections) !! 0%nat = Some o') in Ho'.
      rewrite H0 in Ho'. injection Ho' as <-. reflexivity.
  - exists s'. split; [exact E | exact Hc].
Defined.

(** *** Delayed replies *)

Definition free_slot (d : DelayedEncapsulationMessage) : Prop :=
  delayed_socket d = kEipInvalidSocket.

Lemma manage_waiting e d :
  ¬ free_slot d → 0 <= time_out d < 2 ^ 31 → 0 <= e < 2 ^ 31 →
  manage_delayed e d
  = if time_out d <=? e
    then (mkDelayed (time_out d - e) kEipInvalidSocket (receiver d) (delayed_message d),
          [(delayed_socket d, receiver d, wire (delayed_message d))])
    else (mkDelayed (time_out d - e) (delayed_socket d) (receiver d) (delayed_message d), []).
Proof.
  intros Hd Ht He. unfold manage_delayed.
  rewrite (proj2 (Z.eqb_neq kEipInvalidSocket _)) by (intros Hs; by apply Hd).
  change (2 ^ 31) with 2147483648 in *. cbv zeta.
  assert (Hs : s32 (u64 (u64 (time_out d) - e)) = time_out d - e).
  { unfold s32, u64. Z.div_mod_to_equations. lia. }
  rewrite Hs. destruct (Z.leb_spec (time_out d) e).
  - by rewrite (proj2 (Z.leb_le _ _)) by lia.
  - by rewrite (proj2 (Z.leb_gt _ _)) by lia.
Qed.

(** The calls of [ManageEncapsulationMessages] with the given elapsed times. *)
Definition manage_all {S} (es : list Z) (s : Encapsulation S) : Encapsulation S :=
  foldl (λ s e, ManageEncapsulationMessages e s) s es.

Definition total (es : list Z) : Z := foldr Z.add 0 es.

(** In call [k], counted from 0, the elapsed times add up to the delay for the first time. *)
Definition due_call (d : DelayedEncapsulationMessage) (k : nat) (es : list Z) : bool :=
  negb (delayed_socket d =? kEipInvalidSocket) && (time_out d <=? total (take (S k) es))
  && ((k =? 0)%nat || (total (take k es) <? time_out d)).

Definition reply_of (d : DelayedEncapsulationMessage) : Z * SockAddr * list Z :=
  (delayed_socket d, receiver d, wire (delayed_message d)).

(** The replies of call [k], in the order of the slots. *)
Definition replies_at (ds : list DelayedEncapsulationMessage) (es : list Z) (k : nat)
  : list (Z * SockAddr * list Z) :=
  concat ((λ d, if due_call d k es then [reply_of d] else []) <$> ds).

Definition delayed_ok (d : DelayedEncapsulationMessage) : Prop :=
  free_slot d ∨ 0 <= time_out d < 2 ^ 31.

(** A slot after the calls. *)
Definition slot_after (es : list Z) (d : DelayedEncapsulationMessage) : DelayedEncapsulationMessage :=
  foldl (λ d e, (manage_delayed e d).1) d es.

#[export] Instance free_slot_dec d : Decision (free_slot d).
Proof. unfold free_slot. apply _. Defined.

Lemma manage_free e d : free_slot d → manage_delayed e d = (d, []).
Proof. unfold free_slot, manage_delayed. intros ->. by rewrite Z.eqb_refl. Qed.

Lemma due_free d k es : free_slot d → due_call d k es = false.
Proof. unfold free_slot, due_call. intros ->. by rewrite Z.eqb_refl. Qed.

Lemma total_nonneg es : Forall (λ e, 0 <= e < 2 ^ 31) es → 0 <= total es.
Proof. induction 1 as [|e es He _ IH]; unfold total; cbn [foldr]; [lia |]. fold (total es). lia. Qed.

Lemma manage_delayed_ok e d : delayed_ok d → 0 <= e < 2 ^ 31 → delayed_ok (manage_delayed e d).1.
Proof.
  intros Hd He. destruct (decide (free_slot d)) as [Hf|Hf]; [by rewrite manage_free |].
  destruct Hd as [Hd|Ht]; [done |]. rewrite manage_waiting by done.
  destruct (Z.leb_spec (time_out d) e); [by left | right; simpl; lia].
Qed.

(** What the first call sends, and what it leaves for the others. *)
Lemma manage_sends e es d :
  delayed_ok d → 0 <= e < 2 ^ 31 →
  (manage_delayed e d).2 = if due_call d 0 (e :: es) then [reply_of d] else [].
Proof.
  intros Hd He. destruct (decide (free_slot d)) as [Hf|Hf]; [by rewrite manage_free, due_free |].
  destruct Hd as [Hd|Ht]; [done |]. rewrite manage_waiting by done. unfold due_call.
  rewrite (proj2 (Z.eqb_neq _ _)) by done. cbn [negb andb orb Nat.eqb take]. unfold total.
  cbn [foldr]. rewrite Z.add_0_r, andb_true_r. by destruct (time_out d <=? e).
Qed.

Lemma due_step e es d k :
  delayed_ok d → 0 <= e < 2 ^ 31 → Forall (λ e, 0 <= e < 2 ^ 31) es →
  due_call d (S k) (e :: es) = due_call (manage_delayed e d).1 k es ∧
  (due_call d (S k) (e :: es) = true → reply_of (manage_delayed e d).1 = reply_of d).
Proof.
  intros Hd He Hes. destruct (decide (free_slot d)) as [Hf|Hf].
  { by rewrite manage_free, !due_free. }
  destruct Hd as [Hd|Ht]; [done |]. rewrite manage_waiting by done. unfold due_call.
  rewrite (proj2 (Z.eqb_neq _ _)) by done.
  change (total (take (S (S k)) (e :: es))) with (e + total (take (S k) es)).
  change (total (take (S k) (e :: es))) with (e + total (take k es)).
  pose proof (total_nonneg (take k es) (Forall_take _ k _ Hes)) as Hk.
  destruct (Z.leb_spec (time_out d) e) as [Hle|Hgt]; cbn [fst delayed_socket time_out].
  - rewrite Z.eqb_refl. cbn [negb andb Nat.eqb orb]. rewrite (proj2 (Z.ltb_ge _ _)) by lia.
    by rewrite andb_false_r.
  - rewrite (proj2 (Z.eqb_neq _ _)) by done. cbn [negb andb Nat.eqb orb]. split; [|done].
    f_equal; [apply eq_true_iff_eq; rewrite !Z.leb_le; lia |].
    destruct k as [|k]; cbn [Nat.eqb orb]; [change (total (take 0 es)) with 0; apply Z.ltb_lt; lia |].
    apply eq_true_iff_eq. rewrite !Z.ltb_lt. lia.
Qed.

Lemma replies_step e es ds k :
  Forall delayed_ok ds → 0 <= e < 2 ^ 31 → Forall (λ e, 0 <= e < 2 ^ 31) es →
  replies_at (fst <$> (manage_delayed e <$> ds)) es k = replies_at ds (e :: es) (S k).
Proof.
  intros Hds He Hes. unfold replies_at. f_equal. rewrite <-!list_fmap_compose.
  apply list_fmap_ext. intros i d Hd. unfold compose.
  destruct (due_step e es d k) as [E R]; [by eapply Forall_lookup_1 | done | done |].
  rewrite <-E. destruct (due_call d (S k) (e :: es)); [by rewrite R | done].
Qed.

Lemma slot_waited es d :
  ¬ free_slot d → 0 <= time_out d < 2 ^ 31 → Forall (λ e, 0 <= e < 2 ^ 31) es →
  if bool_decide (es ≠ [] ∧ time_out d <= total es)
  then free_slot (slot_after es d) ∧
       ∃ j, (j < length es)%nat ∧ ∀ k, due_call d k es = bool_decide (k = j) ∨ (length es <= k)%nat
  else slot_after es d = mkDelayed (time_out d - total es) (delayed_socket d) (receiver d) (delayed_message d) ∧
       ∀ k, due_call d k es = false ∨ (length es <= k)%nat.
Proof.
  intros Hf Ht Hes. revert d Hf Ht. induction Hes as [|e es He Hes IH]; intros d Hf Ht.
  { rewrite bool_decide_false by tauto. cbn. rewrite Z.sub_0_r. split; [by destruct d |]. right. lia. }
  pose proof (total_nonneg es Hes) as Hpos.
  change (total (e :: es)) with (e + total es).
  change (slot_after (e :: es) d) with (slot_after es (manage_delayed e d).1).
  assert (H0 : due_call d 0 (e :: es) = (time_out d <=? e)).
  { unfold due_call. rewrite (proj2 (Z.eqb_neq _ _)) by done. cbn [negb andb orb Nat.eqb take].
    unfold total. cbn [foldr]. by rewrite Z.add_0_r, andb_true_r. }
  assert (HS : ∀ k, due_call d (S k) (e :: es) = due_call (manage_delayed e d).1 k es)
    by (intros k; apply due_step; [by right | done | done]).
  rewrite manage_waiting in HS |- * by done.
  destruct (Z.leb_spec (time_out d) e) as [Hle|Hgt]; cbn [fst] in *.
  - rewrite bool_decide_true by (split; [done | lia]). split.
    { clear -Hes. set (d' := mkDelayed _ kEipInvalidSocket _ _).
      assert (Hd' : free_slot d') by done. generalize dependent d'.
      induction es as [|x es IH]; intros d' Hd'; [done |].
      apply Forall_cons_iff in Hes as [_ Hes]. cbn. rewrite manage_free by done. by apply IH. }
    exists 0%nat. split; [simpl; lia |]. intros [|k]; left; [by rewrite H0, bool_decide_true |].
    rewrite HS, bool_decide_false by done. by apply due_free.
  - specialize (IH (mkDelayed (time_out d - e) (delayed_socket d) (receiver d) (delayed_message d)) Hf
      ltac:(simpl; lia)). cbn [time_out delayed_socket receiver delayed_message] in IH.
    replace (bool_decide (e :: es ≠ [] ∧ time_out d <= e + total es))
      with (bool_decide (es ≠ [] ∧ time_out d - e <= total es)).
    2: { apply bool_decide_ext. split; [intros [_ H]; split; [done | lia] |].
         intros [_ H]. split; [|lia]. intros ->. cbn in H. lia. }
    destruct (bool_decide (es ≠ [] ∧ _)).
    + destruct IH as [IF (j & Hj & IH)]. split; [exact IF |]. exists (S j). split; [simpl; lia |].
      intros [|k]; [left; by rewrite H0, bool_decide_false |].
      rewrite HS. destruct (IH k) as [-> | Hk]; [left | right; simpl; lia].
      apply bool_decide_ext. lia.
    + destruct IH as [IF IH]. split; [rewrite IF; f_equal; lia |].
      intros [|k]; [by left |]. rewrite HS. destruct (IH k) as [-> | Hk]; [by left | right; simpl; lia].
Qed.

(** The calls, slot by slot. *)
Lemma manage_all_slots {S} es (s : Encapsulation S) :
  Forall delayed_ok (g_delayed_encapsulation_messages s) → Forall (λ e, 0 <= e < 2 ^ 31) es →
  sent_datagrams (manage_all es s)
  = sent_datagrams s
    ++ concat (replies_at (g_delayed_encapsulation_messages s) es <$> seq 0 (length es)) ∧
  g_delayed_encapsulation_messages (manage_all es s)
  = slot_after es <$> g_delayed_encapsulation_messages s.
Proof.
  intros Hds Hes. revert s Hds. induction Hes as [|e es He Hes IH]; intros s Hds.
  { cbn. split; [by rewrite app_nil_r | by rewrite list_fmap_id]. }
  set (ds := g_delayed_encapsulation_messages s) in *.
  change (manage_all (e :: es) s) with (manage_all es (ManageEncapsulationMessages e s)).
  set (s1 := ManageEncapsulationMessages e s).
  assert (H1 : g_delayed_encapsulation_messages s1 = fst <$> (manage_delayed e <$> ds)) by done.
  assert (H2 : sent_datagrams s1 = sent_datagrams s ++ replies_at ds (e :: es) 0).
  { change (sent_datagrams s1) with (sent_datagrams s ++ concat (snd <$> (manage_delayed e <$> ds))).
    unfold replies_at. do 2 f_equal. rewrite <-list_fmap_compose. apply list_fmap_ext. intros i d Hd.
    apply manage_sends; [by eapply Forall_lookup_1 | done]. }
  destruct (IH s1) as [I1 I2].
  { rewrite H1, <-list_fmap_compose. apply Forall_fmap. apply (list.Forall_impl _ _ _ Hds).
    intros d Hd. by apply manage_delayed_ok. }
  split.
  - rewrite I1, H1, H2, <-(assoc_L (++)). f_equal. cbn [length seq fmap list_fmap concat]. f_equal.
    rewrite <-fmap_S_seq, <-(list_fmap_compose Datatypes.S). f_equal. apply list_fmap_ext. intros i k _.
    by apply replies_step.
  - by rewrite I2, H1, <-!list_fmap_compose.
Qed.

(** C34.  Delayed List Identity replies, any number of them, are sent exactly once, each unchanged and
    to the sender of its request, in the first call of
    [ManageEncapsulationMessages] at which the elapsed times add up to its delay,
    replies of the same call in the order of their slots; nothing else is sent.
    The slot of a sent reply is free afterwards; the others wait for the rest of their delays,
    and free slots stay as they are. *)
Theorem delayed_reply_sent_once {S} es (s : Encapsulation S) :
  let ds := g_delayed_encapsulation_messages s in
  Forall delayed_ok ds → Forall (λ e, 0 <= e < 2 ^ 31) es →
  sent_datagrams (manage_all es s)
  = sent_datagrams s ++ concat (replies_at ds es <$> seq 0 (length es)) ∧
  length (g_delayed_encapsulation_messages (manage_all es s)) = length ds ∧
  ∀ i d, ds !! i = Some d →
    ∃ d', g_delayed_encapsulation_messages (manage_all es s) !! i = Some d' ∧
      if bool_decide (free_slot d) then d' = d
      else if bool_decide (es ≠ [] ∧ time_out d <= total es)
      then free_slot d' ∧ ∃ j, (j < length es)%nat ∧
             ∀ k, due_call d k es = bool_decide (k = j) ∨ (length es <= k)%nat
      else d' = mkDelayed (time_out d - total es) (delayed_socket d) (receiver d) (delayed_message d) ∧
             ∀ k, due_call d k es = false ∨ (length es <= k)%nat.
Proof.
  intros ds Hds Hes. destruct (manage_all_slots es s Hds Hes) as [Hsent Hslots].
  split; [exact Hsent |]. rewrite Hslots. split; [apply length_fmap |]. intros i d Hd.
  exists (slot_after es d). split; [rewrite list_lookup_fmap; fold ds; by rewrite Hd |].
  case_bool_decide as Hf.
  { clear -Hf. induction es as [|e es IH]; [done |]. cbn. by rewrite manage_free. }
  apply slot_waited; [done | | done].
  by destruct (Forall_lookup_1 _ _ _ _ Hds Hd).
Qed.

Lemma delayed_reply_sent_once_witness :
  let d n := mkDelayed n 9 (mkSockAddr n 2) InitializeENIPMessage in
  let s := set_delayed [d 25; mkDelayed 0 kEipInvalidSocket (mkSockAddr 0 0) InitializeENIPMessage; d 15]
             two_connections in
  sent_datagrams (manage_all [10; 10; 10; 10] s) = [(9, mkSockAddr 15 2, []); (9, mkSockAddr 25 2, [])].
Proof.
  intros d s. destruct (delayed_reply_sent_once [10; 10; 10; 10] s) as [H _].
  - constructor; [right; simpl; lia |]. constructor; [left; reflexivity |].
    constructor; [right; simpl; lia | constructor].
  - repeat constructor; lia.
  - rewrite H. vm_compute. reflexivity.
Defined.
