(* ===== verification/ConnPath.v ===== *)
(** * The connection path of a Forward Open request: [cip/cipconnectionmanager.c]

    [CheckElectronicKeyData] and [ParseConnectionPath].  The parser is written in
    a small state monad with early return, one definition per part of the
    function; the state holds what the C code changes on its way: the connection
    object, the read pointer, the words left, [*extended_error] and the global
    configuration buffer. *)

From S2P Require Import Prelude EndianConv EPath CipStrings CipTypes CipCodec CipClasses Identity.
From S2P Require Import ConnRecord ConnObject ConnList AppConType.
From stdpp Require Import strings.
Open Scope Z_scope.

(** ** Status codes: [cipconnectionmanager.h], [ciperror.h] *)

Definition kConnectionManagerExtendedStatusCodeSuccess : Z := 0x00.
Definition kConnectionManagerExtendedStatusCodeErrorVendorIdOrProductcodeError : Z := 0x0114.
Definition kConnectionManagerExtendedStatusCodeErrorDeviceTypeError : Z := 0x0115.
Definition kConnectionManagerExtendedStatusCodeErrorRevisionMismatch : Z := 0x0116.
Definition kConnectionManagerExtendedStatusCodeErrorInvalidSegmentTypeInPath : Z := 0x0315.
Definition kConnectionManagerGeneralStatusPathSegmentErrorInUnconnectedSend : Z := 0x04.

(** [EipStatus] values as the bytes they are returned in. *)
Definition status_byte (s : EipStatus) : Z :=
  match s with kEipStatusOk => 0 | kEipStatusOkSend => 1 | kEipStatusError => 0xFF end.

(** ** Paths in traces *)

(** An 8-bit or a padded 16-bit value; another format is traced, and the segment's first byte
    returned. *)
Definition GetPaddedLogicalPath (logical_path_segment : list Z) : option (Z * list Z) :=
  b ← load logical_path_segment 0;
  p ← ptr_add logical_path_segment 1;
  if b .& 3 =? 0 then
    v ← load p 0; p ← ptr_add p 1; Some (v, p)
  else if b .& 3 =? 1 then
    p ← ptr_add p 1;
    lo ← load p 0; p ← ptr_add p 1;
    hi ← load p 0; p ← ptr_add p 1;
    Some (lo .| (hi ≪ 8), p)
  else Some (b, p).

(** The logical segments the encoder writes are read back. *)
Example padded_paths_read :
  GetPaddedLogicalPath [0x24; 7; 9] = Some (7, [9]) ∧
  GetPaddedLogicalPath [0x25; 0; 0x34; 0x12; 9] = Some (0x1234, [9]) ∧
  GetPaddedLogicalPath [0x26; 0; 1] = Some (0x26, [0; 1]) ∧
  GetPaddedLogicalPath [0x25; 0; 0x34] = None.
Proof. vm_compute. split_and!; reflexivity. Qed.

(** ** The electronic key *)

(** The result and [*extended_status]. *)
Definition CheckElectronicKeyData (g : CipIdentityObject) (key_format : Z)
    (key_data : ElectronicKeyFormat4) : EipStatus * Z :=
  let success := kConnectionManagerExtendedStatusCodeSuccess in
  if negb (4 =? key_format)
  then (kEipStatusError, kConnectionManagerExtendedStatusCodeErrorInvalidSegmentTypeInPath)
  else
  let compatiblity_mode := ElectronicKeyFormat4GetMajorRevisionCompatibility key_data in
  if (negb (key_vendor_id key_data =? vendor_id g) && negb (key_vendor_id key_data =? 0))
     || (negb (key_product_code key_data =? product_code g)
         && negb (key_product_code key_data =? 0))
  then (kEipStatusError, kConnectionManagerExtendedStatusCodeErrorVendorIdOrProductcodeError)
  else if negb (key_device_type key_data =? device_type g)
          && negb (key_device_type key_data =? 0)
  then (kEipStatusError, kConnectionManagerExtendedStatusCodeErrorDeviceTypeError)
  else if negb compatiblity_mode then
    if 0 =? ElectronicKeyFormat4GetMajorRevision key_data then (kEipStatusOk, success)
    else if negb (ElectronicKeyFormat4GetMajorRevision key_data =? major_revision g)
            || (negb (key_minor_revision key_data =? minor_revision g)
                && negb (key_minor_revision key_data =? 0))
    then (kEipStatusError, kConnectionManagerExtendedStatusCodeErrorRevisionMismatch)
    else (kEipStatusOk, success)
  else
    if (ElectronicKeyFormat4GetMajorRevision key_data =? major_revision g)
       && (0 <? key_minor_revision key_data)
       && (key_minor_revision key_data <=? minor_revision g)
    then (kEipStatusOk, success)
    else (kEipStatusError, kConnectionManagerExtendedStatusCodeErrorRevisionMismatch).

(** ** The parser's state and monad *)

Record PathParser := mkParser {
  connection : CipConnectionObject;
  path_message : list Z;            (* the read pointer *)
  remaining_path : Z;               (* [size_t] *)
  extended_error : Z;
  g_config_data : Z * option (list Z)   (* length and buffer *) }.

Definition set_path_connection (c : CipConnectionObject) (p : PathParser) : PathParser :=
  mkParser c (path_message p) (remaining_path p) (extended_error p) (g_config_data p).
Definition set_path_message (m : list Z) (p : PathParser) : PathParser :=
  mkParser (connection p) m (remaining_path p) (extended_error p) (g_config_data p).
Definition set_extended_error (e : Z) (p : PathParser) : PathParser :=
  mkParser (connection p) (path_message p) (remaining_path p) e (g_config_data p).
Definition set_config_data (d : Z * option (list Z)) (p : PathParser) : PathParser :=
  mkParser (connection p) (path_message p) (remaining_path p) (extended_error p) d.

(** [remaining_path -= n], which wraps around. *)
Definition take_words (n : Z) (p : PathParser) : PathParser :=
  mkParser (connection p) (path_message p) (u64 (remaining_path p - n)) (extended_error p)
    (g_config_data p).

(** A step runs to its end or executes [return status]. *)
Inductive Flow (A : Type) := Returned (status : Z) | Continue (a : A).
Arguments Returned {A} _.
Arguments Continue {A} _.

Definition Parse (A : Type) : Type := PathParser → option (Flow A * PathParser).

#[export] Instance Parse_ret : MRet Parse := λ A a p, Some (Continue a, p).
#[export] Instance Parse_bind : MBind Parse := λ A B k m p,
  '(f, p) ← m p;
  match f with
  | Returned status => Some (Returned status, p)
  | Continue a => k a p
  end.

Definition return_status {A} (status : Z) : Parse A := λ p, Some (Returned status, p).
Definition gets {A} (f : PathParser → A) : Parse A := λ p, Some (Continue (f p), p).
Definition modify (f : PathParser → PathParser) : Parse unit := λ p, Some (Continue tt, f p).
Definition lift {A} (x : option A) : Parse A := λ p, a ← x; Some (Continue a, p).
Definition update_object (f : CipConnectionObject → CipConnectionObject) : Parse unit :=
  modify (λ p, set_path_connection (f (connection p)) p).

(** [*extended_error = e; return status;] *)
Definition path_error {A} (status e : Z) : Parse A :=
  modify (set_extended_error e) ≫= λ _, return_status status.

(** A function of the read pointer, and one that advances it. *)
Definition peek {A} (f : list Z → option A) : Parse A :=
  gets path_message ≫= λ m, lift (f m).
Definition advance {A} (f : list Z → option (A * list Z)) : Parse A :=
  peek f ≫= λ '(a, m), modify (set_path_message m) ≫= λ _, mret a.
Definition skip_bytes (n : nat) : Parse unit :=
  peek (λ m, ptr_add m n) ≫= λ m, modify (set_path_message m).

(** ** Segment tests *)

(** A logical segment of type [t] comes next. *)
Definition logical_segment (t : LogicalSegmentLogicalType) (message : list Z) : option bool :=
  s ← GetPathSegmentType message;
  if bool_decide (kSegmentTypeLogicalSegment = s) then
    l ← GetPathLogicalSegmentLogicalType message; Some (bool_decide (t = l))
  else Some false.

Definition key_format4_segment (message : list Z) : option bool :=
  special ← logical_segment kLogicalSegmentLogicalTypeSpecial message;
  if special : bool then
    s ← GetPathLogicalSegmentSpecialTypeLogicalType message;
    if bool_decide (kLogicalSegmentSpecialTypeLogicalFormatElectronicKey = s) then
      f ← GetPathLogicalSegmentElectronicKeyFormat message;
      Some (bool_decide (kElectronicKeySegmentFormatKeyFormat4 = f))
    else Some false
  else Some false.

Definition non_cyclic (c : CipConnectionObject) : bool :=
  match ConnectionObjectGetTransportClassTriggerProductionTrigger c with
  | kConnectionObjectTransportClassTriggerProductionTriggerCyclic => false
  | _ => true
  end.

(** A production inhibit time segment comes next. *)
Definition inhibit_time_segment (message : list Z) : option bool :=
  s ← GetPathSegmentType message;
  if bool_decide (kSegmentTypeNetworkSegment = s) then
    n ← GetPathNetworkSegmentSubtype message;
    Some (bool_decide (kNetworkSegmentSubtypeProductionInhibitTimeInMilliseconds = n))
  else Some false.

(** ** [ParseConnectionPath] *)

Definition g_kForwardOpenHeaderLength : Z := 36.
Definition g_kLargeForwardOpenHeaderLength : Z := 40.
Definition kCipInstanceNumMax : Z := 65535.

(** [sizeof(CipWord)] is 2; the sums are of type [size_t]. *)
Definition check_path_size (request_data_size : Z) : Parse unit :=
  c ← gets connection;
  n ← gets remaining_path;
  let header_length := if is_large_forward_open c then g_kLargeForwardOpenHeaderLength
                       else g_kForwardOpenHeaderLength in
  if header_length + n * 2 <? request_data_size then path_error kCipErrorTooMuchData 0
  else if request_data_size <? header_length + n * 2 then path_error kCipErrorNotEnoughData 0
  else mret tt.

(** The key is freed after the check; nobody reads it from the connection object. *)
Definition parse_key (g : CipIdentityObject) : Parse unit :=
  key ← peek key_format4_segment;
  if key : bool then
    n ← gets remaining_path;
    if n <? 5 then path_error kCipErrorNotEnoughData 0
    else
      k ← advance GetElectronicKeyFormat4FromMessage;
      update_object (set_electronic_key (mkElectronicKey 4 (Some k)));;
      modify (take_words 5);;
      let '(status, e) := CheckElectronicKeyData g 4 k in
      modify (set_extended_error e);;
      if bool_decide (kEipStatusOk = status) then mret tt
      else return_status kCipErrorConnectionFailure
  else mret tt.

(** A segment that has [words] words for [remaining_path]. *)
Definition parse_inhibit_time (words : Z) : Parse unit :=
  v ← peek (λ m, load m 1);
  update_object (set_production_inhibit_time v);;
  skip_bytes 2;;
  modify (take_words words).

Definition parse_first_inhibit_time : Parse unit :=
  c ← gets connection;
  if non_cyclic c then
    pit ← peek inhibit_time_segment;
    if pit : bool then parse_inhibit_time 1 else mret tt
  else mret tt.

(** The class id and the class it names. *)
Definition parse_class (s : CipStack) : Parse (Z * CipClass) :=
  b ← peek (logical_segment kLogicalSegmentLogicalTypeClassId);
  if b : bool then
    class_id ← advance CipEpathGetLogicalValue;
    match GetCipClass s class_id with
    | None =>
        path_error kCipErrorConnectionFailure
          (if 0xC8 <=? class_id
           then kConnectionManagerExtendedStatusCodeErrorInvalidSegmentTypeInPath
           else kConnectionManagerExtendedStatusCodeInconsistentApplicationPathCombo)
    | Some n =>
        c ← lift (get_class (TheClass n) s);
        modify (take_words 1);;
        mret (class_id, c)
    end
  else path_error kCipErrorConnectionFailure
         kConnectionManagerExtendedStatusCodeErrorInvalidSegmentTypeInPath.

(** Words of an instance id or connection point. *)
Definition instance_words (instance_id : Z) : Z := if 0xFF <? instance_id then 2 else 1.

(** The configuration instance, 0 when the path has none. *)
Definition parse_configuration (c : CipClass) : Parse Z :=
  b ← peek (logical_segment kLogicalSegmentLogicalTypeInstanceId);
  if b : bool then
    temp_id ← advance CipEpathGetLogicalValue;
    if (kCipInstanceNumMax <? temp_id)
       || match GetCipInstance c (u16 temp_id) with None => true | _ => false end
    then path_error kCipErrorConnectionFailure
           kConnectionManagerExtendedStatusCodeErrorInvalidSegmentTypeInPath
    else modify (take_words (instance_words (u16 temp_id)));;
         mret (u16 temp_id)
  else mret 0.

Definition parse_class3_end (class_id instance_id : Z) : Parse unit :=
  n ← gets remaining_path;
  if 0 <? n then path_error kCipErrorConnectionFailure
                   kConnectionManagerExtendedStatusCodeErrorInvalidSegmentTypeInPath
  else if negb (class_id =? kCipMessageRouterClassCode) || negb (1 =? instance_id)
  then path_error kCipErrorConnectionFailure
         kConnectionManagerExtendedStatusCodeInconsistentApplicationPathCombo
  else
    let connection_epath := mkPathEpath class_id instance_id 0 in
    update_object (set_configuration_path connection_epath);;
    update_object (set_produced_path connection_epath).

(** [paths_to_encode]: the fields the connection points go to. *)
Definition paths_to_encode (c : CipConnectionObject)
  : list (CipConnectionPathEpath → CipConnectionObject → CipConnectionObject) :=
  let originator_to_target_null :=
    bool_decide (kConnectionObjectConnectionTypeNull
                 = ConnectionObjectGetOToTConnectionType c) in
  let target_to_originator_null :=
    bool_decide (kConnectionObjectConnectionTypeNull
                 = ConnectionObjectGetTToOConnectionType c) in
  if originator_to_target_null then
    if target_to_originator_null then [] else [set_produced_path]
  else
    if target_to_originator_null then [set_consumed_path]
    else [set_consumed_path; set_produced_path].

Fixpoint parse_points (class_id : Z) (c : CipClass)
    (paths : list (CipConnectionPathEpath → CipConnectionObject → CipConnectionObject))
  : Parse unit :=
  match paths with
  | [] => mret tt
  | set_path :: paths =>
      i ← peek (logical_segment kLogicalSegmentLogicalTypeInstanceId);
      p ← (if i : bool then mret true
           else peek (logical_segment kLogicalSegmentLogicalTypeConnectionPoint));
      if p : bool then
        temp_instance_id ← advance CipEpathGetLogicalValue;
        if kCipInstanceNumMax <? temp_instance_id
        then path_error kCipErrorConnectionFailure
               kConnectionManagerExtendedStatusCodeErrorInvalidSegmentTypeInPath
        else
          let instance_id := u16 temp_instance_id in
          update_object (set_path (mkPathEpath class_id instance_id 0));;
          match GetCipInstance c instance_id with
          | None => path_error kCipErrorConnectionFailure
                      kConnectionManagerExtendedStatusCodeInconsistentApplicationPathCombo
          | Some _ =>
              modify (take_words (instance_words instance_id));;
              parse_points class_id c paths
          end
      else path_error kCipErrorConnectionFailure
             kConnectionManagerExtendedStatusCodeErrorInvalidSegmentTypeInPath
  end.

(** [*extended_error]: the offset of the error in the path, in words. *)
Definition offset_error (status connection_path_size : Z) : Parse unit :=
  n ← gets remaining_path;
  path_error status (u16 (connection_path_size - n)).

(** The loop over the rest of the path: configuration data.  Every turn that does
    not return moves the read pointer forward, so its length is enough fuel. *)
Fixpoint parse_rest (fuel : nat) (connection_path_size : Z) : Parse unit :=
  n ← gets remaining_path;
  if 0 <? n then
    match fuel with
    | O => lift None
    | S fuel =>
        t ← peek GetPathSegmentType;
        match t with
        | kSegmentTypeDataSegment =>
            d ← peek GetPathDataSegmentSubtype;
            match d with
            | kDataSegmentSubtypeSimpleData =>
                words ← peek (λ m, load m 1);
                buffer ← peek (λ m, ptr_add m 2);
                let g_config_data_length := words * 2 in
                modify (set_config_data (g_config_data_length, Some buffer));;
                modify (take_words ((g_config_data_length + 2) / 2));;
                skip_bytes (Z.to_nat (g_config_data_length + 2));;
                parse_rest fuel connection_path_size
            | _ => return_status kCipErrorPathSegmentError
            end
        | kSegmentTypeNetworkSegment =>
            pit ← peek inhibit_time_segment;
            if pit : bool then
              c ← gets connection;
              if non_cyclic c then
                parse_inhibit_time 2;;
                parse_rest fuel connection_path_size
              else offset_error kCipErrorPathSegmentError connection_path_size
            else return_status kCipErrorPathSegmentError
        | _ => offset_error kConnectionManagerGeneralStatusPathSegmentErrorInUnconnectedSend
                 connection_path_size
        end
    end
  else mret tt.

Definition parse_io_end (connection_path_size class_id instance_id : Z) (c : CipClass)
  : Parse unit :=
  update_object (set_configuration_path (mkPathEpath class_id instance_id 0));;
  update_object (set_consumed_connection_path_length 0);;
  o ← gets connection;
  parse_points class_id c (paths_to_encode o);;
  modify (set_config_data (0, None));;
  m ← gets path_message;
  parse_rest (S (length m)) connection_path_size.

Definition parse_path (g : CipIdentityObject) (s : CipStack) (request_data_size : Z)
    (connection_path_size : Z) : Parse unit :=
  update_object (set_production_inhibit_time 256);;
  check_path_size request_data_size;;
  parse_key g;;
  parse_first_inhibit_time;;
  '(class_id, c) ← parse_class s;
  instance_id ← parse_configuration c;
  o ← gets connection;
  match ConnectionObjectGetTransportClassTriggerTransportClass o with
  | kConnectionObjectTransportClassTriggerTransportClass3 =>
      parse_class3_end class_id instance_id
  | _ => parse_io_end connection_path_size class_id instance_id c
  end.

(** The status, the request with its read pointer behind the path, and what else
    the function changes. *)
Definition ParseConnectionPath (g : CipIdentityObject) (s : CipStack)
    (connection_object : CipConnectionObject) (req : CipMessageRouterRequest)
    (extended_error : Z) (config : Z * option (list Z))
  : option (Z * CipMessageRouterRequest * PathParser) :=
  '(connection_path_size, message) ← GetUsintFromMessage (request_data req);
  let p := mkParser connection_object message connection_path_size extended_error config in
  if 0 =? connection_path_size then Some (status_byte kEipStatusError, req, p)
  else
    '(f, p) ← parse_path g s (request_data_size req) connection_path_size p;
    match f with
    | Returned status => Some (status, req, p)
    | Continue _ => Some (status_byte kEipStatusOk, set_request_data (path_message p) req, p)
    end.

(** ** Paths as bytes *)

(** A logical segment with an 8-bit value in one word, a 16-bit value in two. *)
Definition segment_bytes (base v : Z) : list Z :=
  if v <? 256 then [base; v] else [base + 1; 0] ++ le_bytes 2 v.

Definition key_bytes (k : ElectronicKeyFormat4) : list Z :=
  [0x34; 4] ++ le_bytes 2 (key_vendor_id k) ++ le_bytes 2 (key_device_type k)
    ++ le_bytes 2 (key_product_code k)
    ++ [key_major_revision_compatibility k; key_minor_revision k].

Definition key_wf (k : ElectronicKeyFormat4) : Prop :=
  is_u16 (key_vendor_id k) ∧ is_u16 (key_device_type k) ∧ is_u16 (key_product_code k) ∧
  is_u8 (key_major_revision_compatibility k) ∧ is_u8 (key_minor_revision k).

(** An optional part of a path. *)
Definition optional {A} (f : A → list Z) (x : option A) : list Z :=
  match x with Some a => f a | None => [] end.

Definition config_bytes (data : list Z) : list Z :=
  [0x80; Z.of_nat (length data) / 2] ++ data.

(** A connection path: electronic key, class, configuration instance, connection
    points, configuration data. *)
Record ConnectionPath := mkConnectionPath {
  cp_key : option ElectronicKeyFormat4;
  cp_class : Z;
  cp_configuration : Z;
  cp_points : list Z;
  cp_data : option (list Z) }.

Definition points_bytes (points : list Z) : list Z :=
  concat (segment_bytes 0x2C <$> points).

Definition connection_path_bytes (p : ConnectionPath) : list Z :=
  optional key_bytes (cp_key p) ++ segment_bytes 0x20 (cp_class p)
    ++ segment_bytes 0x24 (cp_configuration p) ++ points_bytes (cp_points p)
    ++ optional config_bytes (cp_data p).

(** Its parts in words. *)
Definition key_words (k : option ElectronicKeyFormat4) : Z :=
  match k with Some _ => 5 | None => 0 end.
Definition points_words (points : list Z) : Z :=
  foldr (λ i n, instance_words i + n) 0 points.
Definition data_words (d : option (list Z)) : Z :=
  match d with Some d => 1 + Z.of_nat (length d) / 2 | None => 0 end.

Definition connection_path_words (p : ConnectionPath) : Z :=
  key_words (cp_key p) + (1 + (instance_words (cp_configuration p)
    + (points_words (cp_points p) + data_words (cp_data p)))).

(** What the device must have for the path to name something: a matching key, the
    class, and its instances. *)
Definition key_ok (g : CipIdentityObject) (k : option ElectronicKeyFormat4) : Prop :=
  ∀ k', k = Some k' → key_wf k' ∧ (CheckElectronicKeyData g 4 k').1 = kEipStatusOk.
Definition class_ok (s : CipStack) (class_id : Z) (c : CipClass) : Prop :=
  ∃ n, GetCipClass s class_id = Some n ∧ get_class (TheClass n) s = Some c.
Definition instance_ok (c : CipClass) (i : Z) : Prop :=
  is_u16 i ∧ is_Some (GetCipInstance c i).
Definition data_ok (d : option (list Z)) : Prop :=
  ∀ d', d = Some d' → Z.of_nat (length d') < 512 ∧ Z.even (Z.of_nat (length d')) = true.

Record path_ok (g : CipIdentityObject) (s : CipStack) (c : CipClass) (p : ConnectionPath)
    : Prop := {
  ok_key : key_ok g (cp_key p);
  ok_class_id : is_u8 (cp_class p);
  ok_class : class_ok s (cp_class p) c;
  ok_configuration : instance_ok c (cp_configuration p);
  ok_points : Forall (instance_ok c) (cp_points p);
  ok_data : data_ok (cp_data p);
  ok_words : connection_path_words p <= 255 }.

(** ** Lemmas *)

(** A step that runs to its end. *)
Definition runs {A} (m : Parse A) (p : PathParser) (a : A) (p' : PathParser) : Prop :=
  m p = Some (Continue a, p').

Lemma runs_bind {A B} (m : Parse A) (k : A → Parse B) p a p' b p'' :
  runs m p a p' → runs (k a) p' b p'' → runs (m ≫= k) p b p''.
Proof. unfold runs. intros H Hk. unfold mbind, Parse_bind. by rewrite H. Qed.

Lemma runs_seq {A B} (m : Parse A) (k : A → Parse B) p a p' r :
  runs m p a p' → k a p' = r → (m ≫= k) p = r.
Proof. unfold runs. intros H Hk. unfold mbind, Parse_bind. by rewrite H. Qed.

Lemma returned_bind {A B} (m : Parse A) (k : A → Parse B) p status p' :
  m p = Some (Returned status, p') → (m ≫= k) p = Some (Returned status, p').
Proof. intros H. unfold mbind, Parse_bind. by rewrite H. Qed.

Lemma runs_peek {A} (f : list Z → option A) p a :
  f (path_message p) = Some a → runs (peek f) p a p.
Proof. intros H. unfold runs, peek, lift, gets, mbind, Parse_bind. cbn. by rewrite H. Qed.

Lemma runs_advance {A} (f : list Z → option (A * list Z)) p a rest :
  f (path_message p) = Some (a, rest) → runs (advance f) p a (set_path_message rest p).
Proof. intros H. unfold runs, advance. eapply runs_seq; [by apply runs_peek | done]. Qed.

Lemma logical_segment_bytes t b v rest :
  b ∈ [0x20; 0x24; 0x2C] →
  logical_segment t (segment_bytes b v ++ rest) = Some (bool_decide (t = logical_type_of b)).
Proof.
  intros Hb. unfold segment_bytes.
  repeat (apply elem_of_cons in Hb as [->|Hb]; [destruct (v <? 256), t; reflexivity |]).
  by apply elem_of_nil in Hb.
Qed.

Lemma logical_value_bytes b v rest :
  b ∈ [0x20; 0x24; 0x2C] → is_u16 v →
  CipEpathGetLogicalValue (segment_bytes b v ++ rest) = Some (v, rest).
Proof.
  intros Hb Hv. unfold segment_bytes.
  assert (Hw : GetWordFromMessage (le_bytes 2 v ++ rest) = Some (v, rest)).
  { rewrite <-(u16_id v Hv) at 2. apply GetUint_le. }
  repeat (apply elem_of_cons in Hb as [->|Hb];
    [destruct (Z.ltb_spec v 256); [reflexivity | exact Hw] |]).
  by apply elem_of_nil in Hb.
Qed.

(** A path that goes on with a logical segment has no key and no inhibit time. *)
Lemma no_key_bytes b v rest :
  b ∈ [0x20; 0x24; 0x2C] → key_format4_segment (segment_bytes b v ++ rest) = Some false.
Proof.
  intros Hb. unfold key_format4_segment. rewrite logical_segment_bytes by done.
  by repeat (apply elem_of_cons in Hb as [->|Hb]; [reflexivity |]);
    apply elem_of_nil in Hb.
Qed.

Lemma no_inhibit_bytes b v rest :
  b ∈ [0x20; 0x24; 0x2C] → inhibit_time_segment (segment_bytes b v ++ rest) = Some false.
Proof.
  intros Hb. unfold inhibit_time_segment, segment_bytes.
  by repeat (apply elem_of_cons in Hb as [->|Hb]; [destruct (v <? 256); reflexivity |]);
    apply elem_of_nil in Hb.
Qed.

Lemma key_segment_bytes k rest :
  key_format4_segment (key_bytes k ++ rest) = Some true.
Proof. reflexivity. Qed.

Lemma get_key_bytes k rest :
  key_wf k → GetElectronicKeyFormat4FromMessage (key_bytes k ++ rest) = Some (k, rest).
Proof.
  intros (Hv & Hd & Hp & Hj & Hn). unfold GetElectronicKeyFormat4FromMessage.
  change (GetPathLogicalSegmentElectronicKeyFormat (key_bytes k ++ rest))
    with (Some kElectronicKeySegmentFormatKeyFormat4).
  cbn [mbind option_bind]. rewrite bool_decide_true by done. cbn [mbind option_bind].
  unfold key_bytes. rewrite <-!app_assoc.
  change (ptr_add ([0x34; 4] ++ ?l) 2) with (Some l). cbn [mbind option_bind].
  rewrite GetUint_le_id by done. cbn [mbind option_bind].
  rewrite GetUint_le_id by done. cbn [mbind option_bind].
  rewrite GetUint_le_id by done. cbn [mbind option_bind].
  simpl app. rewrite GetByte_cons. cbn [mbind option_bind].
  rewrite GetUsint_cons. cbn [mbind option_bind]. by destruct k.
Qed.

Lemma instance_words_range i : 1 <= instance_words i <= 2.
Proof. unfold instance_words. case_match; lia. Qed.

Lemma points_words_nonneg points : 0 <= points_words points.
Proof.
  induction points as [|i points IH]; simpl; [lia |].
  pose proof (instance_words_range i). lia.
Qed.

Lemma data_words_nonneg d : 0 <= data_words d.
Proof. destruct d as [d|]; simpl; Z.div_mod_to_equations; lia. Qed.

Ltac path_state :=
  unfold set_path_connection, set_path_message, set_extended_error, set_config_data;
  cbn [connection path_message remaining_path extended_error g_config_data].

Lemma take_words_left o m n k e d :
  is_u16 n → take_words k (mkParser o m (k + n) e d) = mkParser o m n e d.
Proof.
  intros Hn. unfold take_words. simpl. do 2 f_equal.
  replace (k + n - k) with n by lia. apply u64_id. width_lia.
Qed.

Lemma take_all_words o m n e d : take_words n (mkParser o m n e d) = mkParser o m 0 e d.
Proof. unfold take_words. simpl. by rewrite Z.sub_diag. Qed.

(** Electronic key. *)
Definition keyed (k : option ElectronicKeyFormat4) (o : CipConnectionObject)
  : CipConnectionObject :=
  match k with Some k => set_electronic_key (mkElectronicKey 4 (Some k)) o | None => o end.
Definition key_error (k : option ElectronicKeyFormat4) (e : Z) : Z :=
  match k with Some _ => kConnectionManagerExtendedStatusCodeSuccess | None => e end.

Lemma key_check_ok g k :
  (CheckElectronicKeyData g 4 k).1 = kEipStatusOk →
  CheckElectronicKeyData g 4 k = (kEipStatusOk, kConnectionManagerExtendedStatusCodeSuccess).
Proof. unfold CheckElectronicKeyData. repeat case_match; done. Qed.

Lemma parse_key_runs g k o v rest n e d :
  key_ok g k → is_u16 n →
  let m := segment_bytes 0x20 v ++ rest in
  runs (parse_key g) (mkParser o (optional key_bytes k ++ m) (key_words k + n) e d) tt
    (mkParser (keyed k o) m n (key_error k e) d).
Proof.
  intros Hk Hn m. unfold runs, parse_key. destruct k as [k|]; cbn [optional key_words].
  - destruct (Hk k eq_refl) as [Hw Hc%key_check_ok].
    eapply runs_seq; [apply runs_peek, key_segment_bytes |]. cbv beta iota.
    eapply runs_seq; [done |]. cbn [remaining_path].
    rewrite (proj2 (Z.ltb_ge _ _)) by width_lia.
    eapply runs_seq; [apply runs_advance, get_key_bytes, Hw |].
    eapply runs_seq; [done |]. eapply runs_seq; [done |]. cbv beta. rewrite Hc.
    eapply runs_seq; [done |]. rewrite bool_decide_true by done.
    path_state.
    rewrite take_words_left by done. done.
  - eapply runs_seq; [apply runs_peek, (no_key_bytes 0x20 v rest); set_solver |]. done.
Qed.

Lemma parse_first_inhibit_time_runs o v rest n e d :
  let p := mkParser o (segment_bytes 0x20 v ++ rest) n e d in
  runs parse_first_inhibit_time p tt p.
Proof.
  intros p. unfold runs, parse_first_inhibit_time. eapply runs_seq; [done |].
  destruct (non_cyclic (connection p)); [|done].
  by eapply runs_seq; [apply runs_peek, (no_inhibit_bytes 0x20 v rest); set_solver |].
Qed.

Lemma parse_class_runs s v c o rest n e d :
  is_u8 v → class_ok s v c → is_u16 n →
  runs (parse_class s) (mkParser o (segment_bytes 0x20 v ++ rest) (1 + n) e d) (v, c)
    (mkParser o rest n e d).
Proof.
  intros Hv (k & Hk & Hc) Hn. unfold runs, parse_class.
  eapply runs_seq; [apply runs_peek, logical_segment_bytes; set_solver |].
  rewrite bool_decide_true by done. cbv beta iota.
  eapply runs_seq; [apply runs_advance, logical_value_bytes; [set_solver | width_lia] |].
  cbv beta iota. rewrite Hk. eapply runs_seq; [unfold runs, lift; by rewrite Hc |].
  eapply runs_seq; [done |].
  path_state.
  by rewrite take_words_left.
Qed.

Lemma parse_configuration_runs c v o rest n e d :
  instance_ok c v → is_u16 n →
  runs (parse_configuration c)
    (mkParser o (segment_bytes 0x24 v ++ rest) (instance_words v + n) e d) v
    (mkParser o rest n e d).
Proof.
  intros [Hv [i Hi]] Hn. unfold runs, parse_configuration.
  eapply runs_seq; [apply runs_peek, logical_segment_bytes; set_solver |].
  rewrite bool_decide_true by done. cbv beta iota.
  eapply runs_seq; [apply runs_advance, logical_value_bytes; [set_solver | done] |].
  cbv beta iota. rewrite u16_id, Hi by done.
  rewrite (proj2 (Z.ltb_ge _ _)) by (unfold kCipInstanceNumMax; width_lia). simpl orb. cbv iota.
  eapply runs_seq; [done |].
  path_state.
  by rewrite take_words_left.
Qed.

(** The connection points, stored in order in the fields [paths]. *)
Fixpoint store_points (class_id : Z)
    (paths : list (CipConnectionPathEpath → CipConnectionObject → CipConnectionObject))
    (points : list Z) (o : CipConnectionObject) : CipConnectionObject :=
  match paths, points with
  | set_path :: paths, i :: points =>
      store_points class_id paths points (set_path (mkPathEpath class_id i 0) o)
  | _, _ => o
  end.

Lemma parse_points_runs class_id c paths points o rest n e d :
  length paths = length points → Forall (instance_ok c) points → is_u16 n →
  points_words points + n <= 65535 →
  runs (parse_points class_id c paths)
    (mkParser o (points_bytes points ++ rest) (points_words points + n) e d) tt
    (mkParser (store_points class_id paths points o) rest n e d).
Proof.
  revert points o. induction paths as [|set_path paths IH]; intros [|i points] o Hl Hp Hn Hw;
    try done.
  apply Forall_cons_iff in Hp as [[Hi [j Hj]] Hp]. simpl in Hl. injection Hl as Hl.
  unfold points_bytes, runs. simpl. fold (points_bytes points). rewrite <-app_assoc.
  simpl in Hw. pose proof (instance_words_range i). pose proof (points_words_nonneg points).
  eapply runs_seq; [apply runs_peek, logical_segment_bytes; set_solver |].
  rewrite bool_decide_false by done. cbv beta iota.
  eapply runs_seq; [apply runs_peek, logical_segment_bytes; set_solver |].
  rewrite bool_decide_true by done. cbv beta iota.
  eapply runs_seq; [apply runs_advance, logical_value_bytes; [set_solver | done] |].
  cbv beta iota. rewrite u16_id by done.
  rewrite (proj2 (Z.ltb_ge _ _)) by (unfold kCipInstanceNumMax; width_lia). cbv iota.
  eapply runs_seq; [done |]. rewrite Hj. eapply runs_seq; [done |].
  path_state.
  rewrite <-Z.add_assoc, take_words_left by width_lia.
  apply IH; [done | done | done | lia].
Qed.

Lemma parse_rest_done fuel size o m e d :
  runs (parse_rest fuel size) (mkParser o m 0 e d) tt (mkParser o m 0 e d).
Proof. unfold runs. destruct fuel; (eapply runs_seq; [done |]); done. Qed.

Lemma even_half n : Z.even n = true → n / 2 * 2 = n.
Proof. intros [k ->]%Z.even_spec. rewrite (Z.mul_comm 2 k), Z.div_mul; lia. Qed.

Lemma parse_data_runs fuel size data o rest e d :
  data_ok data → (0 < fuel)%nat →
  runs (parse_rest fuel size)
    (mkParser o (optional config_bytes data ++ rest) (data_words data) e d) tt
    (mkParser o rest 0 e
       (match data with
        | Some b => (Z.of_nat (length b), Some (b ++ rest))
        | None => d
        end)).
Proof.
  intros Hd Hf. destruct data as [b|]; [|by apply parse_rest_done].
  destruct (Hd b eq_refl) as [Hl He]. destruct fuel as [|fuel]; [lia |].
  cbn [optional data_words]. unfold runs. cbn [parse_rest].
  eapply runs_seq; [done |]. cbn [remaining_path].
  rewrite (proj2 (Z.ltb_lt _ _)) by (Z.div_mod_to_equations; lia).
  eapply runs_seq; [by apply (runs_peek _ _ kSegmentTypeDataSegment) |]. cbv iota.
  eapply runs_seq; [by apply (runs_peek _ _ kDataSegmentSubtypeSimpleData) |]. cbv iota.
  eapply runs_seq; [by apply runs_peek |]. cbv beta.
  eapply runs_seq; [by apply (runs_peek _ _ (b ++ rest)) |]. cbv beta.
  rewrite (even_half _ He). eapply runs_seq; [done |]. eapply runs_seq; [done |]. path_state.
  replace ((Z.of_nat (length b) + 2) / 2) with (1 + Z.of_nat (length b) / 2)
    by (Z.div_mod_to_equations; lia).
  rewrite take_all_words.
  eapply runs_seq.
  { unfold skip_bytes. eapply runs_bind; [|done]. apply runs_peek. cbn [path_message].
    apply ptr_add_app. simpl. lia. }
  apply parse_rest_done.
Qed.

Lemma length_segment_bytes b v : Z.of_nat (length (segment_bytes b v)) = 2 * instance_words v.
Proof.
  unfold segment_bytes, instance_words.
  destruct (Z.ltb_spec v 256), (Z.ltb_spec 0xFF v); simpl; lia.
Qed.

Lemma length_points_bytes points :
  Z.of_nat (length (points_bytes points)) = 2 * points_words points.
Proof.
  induction points as [|i points IH]; [done |].
  change (points_bytes (i :: points)) with (segment_bytes 0x2C i ++ points_bytes points).
  rewrite length_app, Nat2Z.inj_add, IH, length_segment_bytes. simpl. lia.
Qed.

(** The word count of the request is that of the bytes. *)
Lemma connection_path_length p :
  is_u8 (cp_class p) → data_ok (cp_data p) →
  Z.of_nat (length (connection_path_bytes p)) = 2 * connection_path_words p.
Proof.
  intros Hc Hd. unfold connection_path_bytes, connection_path_words.
  rewrite !length_app, !Nat2Z.inj_add, !length_segment_bytes, length_points_bytes.
  unfold instance_words at 1. rewrite (proj2 (Z.ltb_ge _ _)) by width_lia.
  assert (Z.of_nat (length (optional key_bytes (cp_key p))) = 2 * key_words (cp_key p)) as ->
    by (by destruct (cp_key p)).
  assert (Z.of_nat (length (optional config_bytes (cp_data p))) = 2 * data_words (cp_data p)) as ->.
  { destruct (cp_data p) as [d|]; [|done]. destruct (Hd d eq_refl) as [_ He].
    cbn [optional data_words]. unfold config_bytes. rewrite length_app, Nat2Z.inj_add.
    apply even_half in He. simpl length. lia. }
  lia.
Qed.

(** *** The whole function *)

(** The connection object of a path after key and production inhibit time. *)
Definition prepared (p : ConnectionPath) (o : CipConnectionObject) : CipConnectionObject :=
  keyed (cp_key p) (set_production_inhibit_time 256 o).

Definition header_length (o : CipConnectionObject) : Z :=
  if is_large_forward_open o then g_kLargeForwardOpenHeaderLength else g_kForwardOpenHeaderLength.

(** A request whose data is the path, its size in words in front. *)
Definition path_request (o : CipConnectionObject) (p : ConnectionPath) (rest : list Z)
    (req : CipMessageRouterRequest) : Prop :=
  request_data req = connection_path_words p :: connection_path_bytes p ++ rest ∧
  request_data_size req = header_length o + 2 * connection_path_words p.

Lemma connection_path_words_pos p : 1 <= connection_path_words p.
Proof.
  unfold connection_path_words. pose proof (instance_words_range (cp_configuration p)).
  pose proof (points_words_nonneg (cp_points p)). pose proof (data_words_nonneg (cp_data p)).
  destruct (cp_key p); simpl; lia.
Qed.

Lemma check_path_size_runs o m n e d size :
  size = header_length o + 2 * n →
  let p := mkParser o m n e d in runs (check_path_size size) p tt p.
Proof.
  intros -> p. unfold runs, check_path_size. do 2 (eapply runs_seq; [done |]).
  unfold p. cbn [connection remaining_path]. fold (header_length o).
  rewrite (Z.mul_comm 2 n), Z.ltb_irrefl. done.
Qed.

(** Key, class and configuration instance of a well-formed path. *)
Definition front (g : CipIdentityObject) (s : CipStack) (size : Z) : Parse (Z * CipClass * Z) :=
  update_object (set_production_inhibit_time 256);;
  check_path_size size;;
  parse_key g;;
  parse_first_inhibit_time;;
  '(class_id, c) ← parse_class s;
  instance_id ← parse_configuration c;
  mret (class_id, c, instance_id).

Definition path_end (connection_path_size : Z) (x : Z * CipClass * Z) : Parse unit :=
  o ← gets connection;
  match ConnectionObjectGetTransportClassTriggerTransportClass o with
  | kConnectionObjectTransportClassTriggerTransportClass3 => parse_class3_end x.1.1 x.2
  | _ => parse_io_end connection_path_size x.1.1 x.2 x.1.2
  end.

Lemma bind_eq {A B} (m : Parse A) (k k' : A → Parse B) p :
  (∀ a p', k a p' = k' a p') → (m ≫= k) p = (m ≫= k') p.
Proof.
  intros H. unfold mbind, Parse_bind. destruct (m p) as [[[status|a] p']|]; [done | | done].
  apply H.
Qed.

Lemma bind_assoc {A B C} (m : Parse A) (k : A → Parse B) (k' : B → Parse C) p :
  ((m ≫= k) ≫= k') p = (m ≫= (λ a, k a ≫= k')) p.
Proof. unfold mbind, Parse_bind. by destruct (m p) as [[[status|a] p']|]. Qed.

Lemma parse_path_front g s size n p :
  parse_path g s size n p = (front g s size ≫= path_end n) p.
Proof.
  unfold parse_path, front. do 4 (rewrite bind_assoc; apply bind_eq; intros [] ?).
  rewrite bind_assoc. apply bind_eq. intros [class_id c] ?.
  rewrite bind_assoc. by apply bind_eq.
Qed.

Lemma front_runs g s c p o rest size e d :
  path_ok g s c p → size = header_length o + 2 * connection_path_words p →
  runs (front g s size)
    (mkParser o (connection_path_bytes p ++ rest) (connection_path_words p) e d)
    (cp_class p, c, cp_configuration p)
    (mkParser (prepared p o) (points_bytes (cp_points p) ++ optional config_bytes (cp_data p) ++ rest)
       (points_words (cp_points p) + data_words (cp_data p)) (key_error (cp_key p) e) d).
Proof.
  intros [Hk Hi Hc Hcf Hp Hd Hw] Hs. unfold front, connection_path_bytes. rewrite <-!app_assoc.
  unfold connection_path_words in *. pose proof (instance_words_range (cp_configuration p)).
  pose proof (points_words_nonneg (cp_points p)). pose proof (data_words_nonneg (cp_data p)).
  assert (0 <= key_words (cp_key p)) by (destruct (cp_key p); simpl; lia).
  eapply runs_seq; [done |]. eapply runs_bind; [by apply check_path_size_runs |].
  eapply runs_bind; [apply parse_key_runs; [done | width_lia] |].
  eapply runs_bind; [apply parse_first_inhibit_time_runs |].
  eapply runs_bind; [apply parse_class_runs; [done | done | width_lia] |].
  eapply runs_bind; [apply parse_configuration_runs; [done | width_lia] |]. done.
Qed.

(** ** The electronic key *)

Definition revision_accepted (g : CipIdentityObject) (k : ElectronicKeyFormat4) : Prop :=
  let major := ElectronicKeyFormat4GetMajorRevision k in
  if ElectronicKeyFormat4GetMajorRevisionCompatibility k
  then major = major_revision g ∧ 0 < key_minor_revision k <= minor_revision g
  else major = 0 ∨ major = major_revision g
                   ∧ (key_minor_revision k = 0 ∨ key_minor_revision k = minor_revision g).

Definition accepted (v device : Z) : Prop := v = 0 ∨ v = device.

#[export] Instance accepted_dec v device : Decision (accepted v device).
Proof. unfold accepted. apply _. Defined.

Lemma rejected v device :
  negb (v =? device) && negb (v =? 0) = negb (bool_decide (accepted v device)).
Proof.
  unfold accepted. destruct (Z.eqb_spec v device), (Z.eqb_spec v 0); simpl; symmetry;
    rewrite ?negb_false_iff, ?negb_true_iff, ?bool_decide_eq_true, ?bool_decide_eq_false; lia.
Qed.

#[export] Instance revision_accepted_dec g k : Decision (revision_accepted g k).
Proof. unfold revision_accepted. case_match; apply _. Defined.

(** The revision check of a key of format 4. *)
Lemma revision_check g k (A : Type) (yes no : A) :
  (if negb (ElectronicKeyFormat4GetMajorRevisionCompatibility k)
   then if 0 =? ElectronicKeyFormat4GetMajorRevision k then yes
        else if negb (ElectronicKeyFormat4GetMajorRevision k =? major_revision g)
                || (negb (key_minor_revision k =? minor_revision g)
                    && negb (key_minor_revision k =? 0)) then no else yes
   else if (ElectronicKeyFormat4GetMajorRevision k =? major_revision g)
           && (0 <? key_minor_revision k) && (key_minor_revision k <=? minor_revision g)
        then yes else no)
  = if bool_decide (revision_accepted g k) then yes else no.
Proof.
  case_bool_decide as H; revert H; unfold revision_accepted;
    destruct (ElectronicKeyFormat4GetMajorRevisionCompatibility k); simpl negb; cbv iota;
    set (M := ElectronicKeyFormat4GetMajorRevision k); clearbody M; intros H;
    destruct (Z.eqb_spec M (major_revision g)), (Z.ltb_spec 0 (key_minor_revision k)),
      (Z.leb_spec (key_minor_revision k) (minor_revision g)),
      (Z.eqb_spec 0 M), (Z.eqb_spec (key_minor_revision k) (minor_revision g)),
      (Z.eqb_spec (key_minor_revision k) 0); simpl; (done || lia).
Qed.

(** An electronic key of a Forward Open is accepted exactly when it has format
    4, vendor, product code and device type are 0 or the device's, and the revision
    fits: without the compatibility bit major 0, or the device's major with minor 0
    or the device's; with it the device's major and a minor from 1 to the device's.
    A refused key is reported by its first fault: format (0x315), vendor or product
    code (0x114), device type (0x115), revision (0x116). *)
Theorem CheckElectronicKeyData_spec g f k :
  let '(status, e) := CheckElectronicKeyData g f k in
  (status = kEipStatusOk ↔
     f = 4 ∧ accepted (key_vendor_id k) (vendor_id g) ∧
     accepted (key_product_code k) (product_code g) ∧
     accepted (key_device_type k) (device_type g) ∧ revision_accepted g k) ∧
  e = (if decide (status = kEipStatusOk) then 0
       else if decide (f ≠ 4) then 0x315
       else if decide (accepted (key_vendor_id k) (vendor_id g) ∧
                       accepted (key_product_code k) (product_code g))
       then if decide (accepted (key_device_type k) (device_type g)) then 0x116 else 0x115
       else 0x114).
Proof.
  unfold CheckElectronicKeyData. destruct (Z.eqb_spec 4 f) as [<-|Hf]; simpl negb; cbv iota.
  - rewrite revision_check, !rejected. repeat case_bool_decide; simpl;
      repeat case_decide; naive_solver.
  - repeat case_decide; naive_solver.
Qed.

(** ** The whole function on well-formed paths *)

Lemma class3_prepared p o : is_class3 (prepared p o) = is_class3 o.
Proof. unfold prepared. by destruct (cp_key p). Qed.

Lemma paths_prepared p o e :
  paths_to_encode (set_consumed_connection_path_length 0 (set_configuration_path e (prepared p o)))
  = paths_to_encode o.
Proof. unfold prepared. by destruct (cp_key p). Qed.

Lemma class3_end x n p :
  is_class3 (connection p) = true → path_end n x p = parse_class3_end x.1.1 x.2 p.
Proof. unfold is_class3, path_end. intros H. eapply runs_seq; [done |]. by destruct (_ (connection p)). Qed.

Lemma io_end x n p :
  is_class3 (connection p) = false → path_end n x p = parse_io_end n x.1.1 x.2 x.1.2 p.
Proof. unfold is_class3, path_end. intros H. eapply runs_seq; [done |]. by destruct (_ (connection p)). Qed.

Lemma ParseConnectionPath_front g s c p o rest req e d r :
  path_ok g s c p → path_request o p rest req →
  path_end (connection_path_words p) (cp_class p, c, cp_configuration p)
    (mkParser (prepared p o)
       (points_bytes (cp_points p) ++ optional config_bytes (cp_data p) ++ rest)
       (points_words (cp_points p) + data_words (cp_data p)) (key_error (cp_key p) e) d)
  = Some (Continue tt, r) →
  ParseConnectionPath g s o req e d = Some (0, set_request_data (path_message r) req, r).
Proof.
  intros Hok [Hreq Hsize] Hend. unfold ParseConnectionPath. rewrite Hreq, GetUsint_cons.
  cbn [mbind option_bind]. pose proof (connection_path_words_pos p).
  rewrite (proj2 (Z.eqb_neq _ _)) by lia. rewrite parse_path_front.
  assert ((front g s (request_data_size req) ≫= path_end (connection_path_words p))
            (mkParser o (connection_path_bytes p ++ rest) (connection_path_words p) e d)
          = Some (Continue tt, r)) as -> by (eapply runs_seq; [by apply front_runs | done]).
  done.
Qed.

Definition message_router_path (p : ConnectionPath) : Prop :=
  cp_class p = 2 ∧ cp_configuration p = 1 ∧ cp_points p = [] ∧ cp_data p = None.

(** The path of a class 3 connection ends at the message router. *)
Lemma ParseConnectionPath_class3 g s c p o rest req e d :
  path_ok g s c p → message_router_path p → is_class3 o = true → path_request o p rest req →
  let r := mkPathEpath 2 1 0 in
  ParseConnectionPath g s o req e d
  = Some (0, set_request_data rest req,
          mkParser (set_produced_path r (set_configuration_path r (prepared p o))) rest 0
            (key_error (cp_key p) e) d).
Proof.
  intros Hok (Hc & Hi & Hp & Hd) H3 Hreq r.
  eapply (ParseConnectionPath_front g s c p o rest req e d (mkParser _ rest _ _ _)); [done | done |].
  rewrite class3_end by (cbn [connection]; by rewrite class3_prepared).
  rewrite Hc, Hi, Hp, Hd. done.
Qed.


(** *** A device for the examples *)

Definition path_class (code : Z) (ids : list Z) : CipClass :=
  upd_instances 0 0 ((λ i, mkInstance i [] None) <$> ids) (new_class 0 code 0 0 0 0 "" 1).
Definition path_stack : CipStack :=
  mkStack [(path_class 2 [1], example_meta); (path_class 4 [151; 100; 300], example_meta)] ∅.
Definition path_identity : CipIdentityObject :=
  mkIdentity 1 12 65001 2 3 0 0 0 (mkShortString 0 None) 0.
Definition path_key : ElectronicKeyFormat4 := mkKey 1 12 65001 0x82 1.

(** Point-to-point connections in both directions, application object trigger. *)
Definition io_connection : CipConnectionObject :=
  set_transport_class_trigger 0x21
    (set_o_to_t_network_connection_parameters 0x4000
       (set_t_to_o_network_connection_parameters 0x4000 zero_connection)).
Definition io_path : ConnectionPath :=
  mkConnectionPath (Some path_key) 4 151 [100; 300] (Some [1; 2; 3; 4]).

Definition request_of_path (o : CipConnectionObject) (p : ConnectionPath) (rest : list Z)
  : CipMessageRouterRequest :=
  mkRequest 0x54 (mkEpath 2 6 1 0) (header_length o + 2 * connection_path_words p)
    (connection_path_words p :: connection_path_bytes p ++ rest).

Lemma io_path_ok : path_ok path_identity path_stack (path_class 4 [151; 100; 300]) io_path.
Proof.
  split.
  - intros k [= <-]. split; [by vm_compute | reflexivity].
  - by vm_compute.
  - by exists 1%nat.
  - split; [by vm_compute | by eexists].
  - repeat constructor; try (by vm_compute); eexists; reflexivity.
  - by intros d [= <-].
  - by vm_compute.
Qed.


(** ** Class 3 connections end at the message router *)

(** A step keeps the transport class and returns, if it does, an error status. *)
Definition keeps {A} (m : Parse A) : Prop :=
  ∀ p f p', m p = Some (f, p') →
    transport_class_trigger (connection p') = transport_class_trigger (connection p) ∧
    match f with Returned status => status ≠ 0 | Continue _ => True end.

Lemma keeps_bind {A B} (m : Parse A) (k : A → Parse B) :
  keeps m → (∀ a, keeps (k a)) → keeps (m ≫= k).
Proof.
  intros Hm Hk p f p''. unfold mbind, Parse_bind.
  destruct (m p) as [[[status|a] p']|] eqn:E; [| |done].
  - intros [= <- <-]. destruct (Hm _ _ _ E). done.
  - intros H. destruct (Hm _ _ _ E) as [<- _]. by apply (Hk a).
Qed.

Lemma keeps_ret {A} (a : A) : keeps (mret a).
Proof. by intros p f p' [= <- <-]. Qed.
Lemma keeps_status {A} status : status ≠ 0 → keeps (return_status (A := A) status).
Proof. by intros H p f p' [= <- <-]. Qed.
Lemma keeps_gets {A} (g : PathParser → A) : keeps (gets g).
Proof. by intros p f p' [= <- <-]. Qed.
Lemma keeps_lift {A} (x : option A) : keeps (lift x).
Proof. intros p f p'. unfold lift. destruct x; [|done]. by intros [= <- <-]. Qed.
Lemma keeps_modify g :
  (∀ p, transport_class_trigger (connection (g p)) = transport_class_trigger (connection p)) →
  keeps (modify g).
Proof. by intros H p f p' [= <- <-]. Qed.

Lemma keeps_error {A} status e : status ≠ 0 → keeps (path_error (A := A) status e).
Proof. intros H. apply keeps_bind; [by apply keeps_modify | intros; by apply keeps_status]. Qed.

Lemma keeps_peek {A} (f : list Z → option A) : keeps (peek f).
Proof. apply keeps_bind; [apply keeps_gets | intros; apply keeps_lift]. Qed.
Lemma keeps_advance {A} (f : list Z → option (A * list Z)) : keeps (advance f).
Proof.
  apply keeps_bind; [apply keeps_peek | intros [a m]].
  apply keeps_bind; [by apply keeps_modify | intros; apply keeps_ret].
Qed.
Lemma keeps_skip n : keeps (skip_bytes n).
Proof. apply keeps_bind; [apply keeps_peek | intros; by apply keeps_modify]. Qed.

Ltac keeps_step :=
  match goal with
  | |- keeps (mret _) => apply keeps_ret
  | |- keeps (gets _) => apply keeps_gets
  | |- keeps (lift _) => apply keeps_lift
  | |- keeps (peek _) => apply keeps_peek
  | |- keeps (advance _) => apply keeps_advance
  | |- keeps (skip_bytes _) => apply keeps_skip
  | |- keeps (return_status _) => by apply keeps_status
  | |- keeps (path_error _ _) => by apply keeps_error
  | |- keeps (modify _) => by apply keeps_modify
  | |- keeps (update_object _) => by apply keeps_modify
  | |- keeps (_ ≫= _) => apply keeps_bind; [|intros ?; cbv beta]
  | |- keeps (match ?x with _ => _ end) => destruct x
  end.

Lemma keeps_front g s n : keeps (front g s n).
Proof.
  unfold front, check_path_size, parse_key, parse_first_inhibit_time, parse_inhibit_time,
    parse_class, parse_configuration.
  repeat keeps_step.
Qed.

Lemma keeps_points class_id c paths :
  (∀ f, f ∈ paths → ∀ e o, transport_class_trigger (f e o) = transport_class_trigger o) →
  keeps (parse_points class_id c paths).
Proof.
  induction paths as [|f paths IH]; intros Hf; cbn [parse_points]; [apply keeps_ret |].
  repeat (keeps_step || (apply keeps_modify; intros; simpl; apply Hf; set_solver)).
  apply IH. intros f' Hf'. apply Hf. set_solver.
Qed.

Lemma keeps_rest fuel n : keeps (parse_rest fuel n).
Proof.
  induction fuel as [|fuel IH]; cbn [parse_rest];
    unfold offset_error, parse_inhibit_time;
    repeat (exact IH || keeps_step).
Qed.

Lemma keeps_io_end n class_id i c : keeps (parse_io_end n class_id i c).
Proof.
  unfold parse_io_end. repeat (keeps_step || apply keeps_rest).
  apply keeps_points. intros f Hf. unfold paths_to_encode in Hf.
  repeat case_match; set_solver.
Qed.

Lemma class3_end_inv class_id i p f p' :
  parse_class3_end class_id i p = Some (f, p') →
  match f with
  | Returned status => status ≠ 0
  | Continue _ =>
      class_id = 2 ∧ i = 1 ∧ remaining_path p <= 0 ∧
      let e := mkPathEpath class_id i 0 in
      p' = set_path_connection (set_produced_path e (set_configuration_path e (connection p))) p
  end.
Proof.
  cbv beta iota delta [parse_class3_end path_error update_object modify return_status gets
    mbind Parse_bind option_bind].
  destruct (Z.ltb_spec 0 (remaining_path p)); [by intros [= <- <-] |].
  destruct (Z.eqb_spec class_id kCipMessageRouterClassCode) as [->|];
    cbn [negb orb]; [|by intros [= <- <-]].
  destruct (Z.eqb_spec 1 i) as [<-|]; cbn [negb]; [|by intros [= <- <-]].
  by intros [= <- <-].
Qed.

(** Whatever the path, a class 3 connection that gets through the parser is one
    to the message router, class 2 instance 1: its configuration and produced paths
    name it, and the whole path has been used. *)
Theorem class3_ends_at_message_router g s o req e d req' p' :
  is_class3 o = true →
  ParseConnectionPath g s o req e d = Some (0, req', p') →
  configuration_path (connection p') = mkPathEpath 2 1 0 ∧
  produced_path (connection p') = mkPathEpath 2 1 0 ∧ remaining_path p' <= 0.
Proof.
  intros H3 H. unfold ParseConnectionPath in H.
  destruct (GetUsintFromMessage (request_data req)) as [[n m]|]; [|done].
  cbn [mbind option_bind] in H. destruct (0 =? n); [done |].
  rewrite parse_path_front in H. unfold mbind at 2, Parse_bind in H.
  destruct (front _ _ _ _) as [[[status|[[class_id c] i]] p]|] eqn:E; [| |done].
  all: destruct (keeps_front _ _ _ _ _ _ E) as [Ht Hs]; cbn [mbind option_bind] in H.
  { by injection H as ->. }
  rewrite class3_end in H by (unfold is_class3, ConnectionObjectGetTransportClassTriggerTransportClass
    in *; by rewrite Ht).
  destruct (parse_class3_end _ _ _) as [[f q]|] eqn:Eq; [|done].
  apply class3_end_inv in Eq. cbn [mbind option_bind] in H. destruct f as [status|].
  - injection H as -> -> ->. done.
  - injection H as <- <-. cbn [fst snd] in Eq. destruct Eq as (-> & -> & Hr & ->). done.
Qed.

Definition class3_object : CipConnectionObject := set_transport_class_trigger 0xA3 zero_connection.
Definition router_path : ConnectionPath := mkConnectionPath (Some path_key) 2 1 [] None.

Lemma router_path_ok : path_ok path_identity path_stack (path_class 2 [1]) router_path.
Proof.
  split.
  - intros k [= <-]. split; [by vm_compute | reflexivity].
  - by vm_compute.
  - by exists 0%nat.
  - split; [by vm_compute | by eexists].
  - constructor.
  - by intros d.
  - by vm_compute.
Qed.

Lemma class3_ends_at_message_router_witness :
  ∃ req' p',
    ParseConnectionPath path_identity path_stack class3_object
      (request_of_path class3_object router_path []) 0 (0, None) = Some (0, req', p') ∧
    produced_path (connection p') = mkPathEpath 2 1 0.
Proof.
  do 2 eexists. match goal with |- ?E ∧ _ => assert (H : E) end.
  - apply (ParseConnectionPath_class3 _ _ _ _ _ [] _ _ _ router_path_ok); [done | done |].
    by split.
  - split; [exact H |].
    by destruct (class3_ends_at_message_router path_identity path_stack class3_object _ _ _ _ _
         eq_refl H) as (_ & ? & _).
Defined.

(** A path that does not fill the request is refused before it is read. *)
Lemma ParseConnectionPath_size g s o req e d n m :
  GetUsintFromMessage (request_data req) = Some (n, m) → n ≠ 0 →
  request_data_size req ≠ header_length o + 2 * n →
  ∃ p', ParseConnectionPath g s o req e d
    = Some (if header_length o + 2 * n <? request_data_size req
            then kCipErrorTooMuchData else kCipErrorNotEnoughData, req, p')
    ∧ extended_error p' = 0 ∧ connection p' = set_production_inhibit_time 256 o.
Proof.
  intros Hm Hn Hs. unfold ParseConnectionPath. rewrite Hm. cbn [mbind option_bind].
  rewrite (proj2 (Z.eqb_neq 0 n)) by lia.
  set (p := mkParser _ _ _ _ _). unfold parse_path.
  assert (Hc : ∀ B (k : () → Parse B),
    (check_path_size (request_data_size req) ≫= k)
      (set_path_connection (set_production_inhibit_time 256 o) p)
    = Some (Returned (if header_length o + 2 * n <? request_data_size req
                      then kCipErrorTooMuchData else kCipErrorNotEnoughData),
            set_extended_error 0 (set_path_connection (set_production_inhibit_time 256 o) p))).
  { intros B k. apply returned_bind. unfold check_path_size. do 2 (eapply runs_seq; [done |]).
    cbn [connection remaining_path set_path_connection p]. fold (header_length o).
    change (if is_large_forward_open (set_production_inhibit_time 256 o) then _ else _)
      with (header_length o). rewrite (Z.mul_comm n 2).
    destruct (Z.ltb_spec (header_length o + 2 * n) (request_data_size req)); [done |].
    rewrite (proj2 (Z.ltb_lt _ _)) by lia. done. }
  eexists. split; [|split].
  - match goal with |- (?x ≫= _) = _ =>
      assert (x = Some (Returned (if header_length o + 2 * n <? request_data_size req
          then kCipErrorTooMuchData else kCipErrorNotEnoughData),
          set_extended_error 0 (set_path_connection (set_production_inhibit_time 256 o) p)))
        as -> end; [|reflexivity].
    eapply runs_seq; [done |]. apply Hc.
  - done.
  - done.
Qed.

(** A production inhibit time segment that ends the path of an I/O connection
    counts as two words: with one word left, [remaining_path] wraps around to
    2^64 - 1 and the loop goes on reading behind the path. *)
Theorem trailing_inhibit_time_underflows fuel size o v rest e d :
  non_cyclic o = true →
  parse_rest (S fuel) size (mkParser o (0x43 :: v :: rest) 1 e d)
  = parse_rest fuel size
      (mkParser (set_production_inhibit_time v o) rest (2 ^ 64 - 1) e d).
Proof.
  intros Ho. cbn [parse_rest]. eapply runs_seq; [done |]. cbn [remaining_path].
  change (0 <? 1) with true. cbv iota.
  eapply runs_seq; [by apply (runs_peek _ _ kSegmentTypeNetworkSegment) |]. cbv iota.
  eapply runs_seq; [by apply (runs_peek _ _ true) |]. cbv iota.
  eapply runs_seq; [done |]. cbn [connection]. rewrite Ho.
  eapply runs_seq; [|done]. unfold parse_inhibit_time.
  eapply runs_bind; [by apply (runs_peek _ _ v) |]. by repeat (eapply runs_bind; [done |]).
Qed.

Lemma trailing_inhibit_time_underflows_witness :
  parse_rest 9 5 (mkParser io_connection [0x43; 20; 0x43; 7] 1 0 (0, None))
  = parse_rest 8 5
      (mkParser (set_production_inhibit_time 20 io_connection) [0x43; 7] (2 ^ 64 - 1) 0 (0, None)).
Proof. apply (trailing_inhibit_time_underflows 8). reflexivity. Defined.

(** The class segment counts as one word whatever its format: a class 3 path with a
    16-bit class id is refused as too long. *)
Example wide_class_id_refused :
  (fst ∘ fst <$> ParseConnectionPath path_identity path_stack class3_object
     (mkRequest 0x54 (mkEpath 2 6 1 0) 42 [3; 0x21; 0; 2; 0; 0x24; 1]) 0 (0, None))
  = Some kCipErrorConnectionFailure.
Proof. reflexivity. Qed.
