(* ===== verification/ConnService.v ===== *)
(** * The connection manager object: [cip/cipconnectionmanager.c]

    The services Forward Open, Large Forward Open, Forward Close, Get Connection
    Data and Search Connection Data, their replies, the table of connectable
    objects, and the message router that reaches them.  The services work on the
    whole device: CPF item, connections, CIP stack and the manager's own state. *)

From S2P Require Import Prelude EndianConv EPath CipStrings CipTypes CipCodec CipClasses CipServices Identity Assembly.
From S2P Require Import MessageRouter ConnRecord ConnObject ConnList LinkedList AppConType EncapData Cpf ConnPath.
From stdpp Require Import strings.
Open Scope Z_scope.

(** ** Constants *)

(** [CIPServiceCode] *)
Definition kForwardOpen : Z := 0x54.
Definition kLargeForwardOpen : Z := 0x5B.
Definition kForwardClose : Z := 0x4E.
Definition kGetConnectionOwner : Z := 0x5A.
Definition kGetConnectionData : Z := 0x56.
Definition kSearchConnectionData : Z := 0x57.

Definition kConnectionManagerExtendedStatusCodeErrorConnectionInUseOrDuplicateForwardOpen : Z :=
  0x0100.
Definition kConnectionManagerExtendedStatusCodeErrorTransportClassAndTriggerCombinationNotSupported
  : Z := 0x0103.
Definition kConnectionManagerExtendedStatusCodeErrorConnectionTargetConnectionNotFound : Z :=
  0x0107.
Definition kConnectionManagerExtendedStatusCodeErrorInvalidOToTConnectionType : Z := 0x0123.
Definition kConnectionManagerExtendedStatusCodeErrorInvalidTToOConnectionType : Z := 0x0124.
Definition kConnectionManagerExtendedStatusCodeErrorInvalidOToTConnectionSize : Z := 0x0127.
Definition kConnectionManagerExtendedStatusCodeErrorInvalidTToOConnectionSize : Z := 0x0128.
Definition kConnectionManagerExtendedStatusCodeNullForwardOpenNotSupported : Z := 0x0132.
Definition kConnectionManagerExtendedStatusCodeMiscellaneous : Z := 0x031C.
Definition kConnectionManagerExtendedStatusCodeNotConfiguredForOffSubnetMulticast : Z := 0x0813.
Definition kConnectionManagerExtendedStatusWrongCloser : Z := 0xFFFF.

Definition kCipConnectionManagerClassCode : Z := 0x06.

(** ** State *)

(** Open functions are numbered; [EstablishClass3Connection] is number 0. *)
Definition kEstablishClass3Connection : nat := 0.
Definition kEstablishIoConnection : nat := 1.

(** [connection_id] is the static counter of [GetConnectionId]; [rand_draws] are
    the results of the coming calls of [rand()]. *)
Record ManagerState := mkManager {
  g_incarnation_id : Z;
  connection_id : Z;
  g_connection_management_list : list (Z * option nat);
  g_dummy_connection_object : CipConnectionObject;
  g_config : Z * option (list Z);
  rand_draws : list Z }.

Definition set_connection_id (n : Z) (m : ManagerState) : ManagerState :=
  mkManager (g_incarnation_id m) n (g_connection_management_list m)
    (g_dummy_connection_object m) (g_config m) (rand_draws m).
Definition set_incarnation_id (n : Z) (m : ManagerState) : ManagerState :=
  mkManager n (connection_id m) (g_connection_management_list m)
    (g_dummy_connection_object m) (g_config m) (rand_draws m).
Definition set_management_list (l : list (Z * option nat)) (m : ManagerState) : ManagerState :=
  mkManager (g_incarnation_id m) (connection_id m) l
    (g_dummy_connection_object m) (g_config m) (rand_draws m).
Definition set_dummy (o : CipConnectionObject) (m : ManagerState) : ManagerState :=
  mkManager (g_incarnation_id m) (connection_id m) (g_connection_management_list m)
    o (g_config m) (rand_draws m).
Definition set_config (c : Z * option (list Z)) (m : ManagerState) : ManagerState :=
  mkManager (g_incarnation_id m) (connection_id m) (g_connection_management_list m)
    (g_dummy_connection_object m) c (rand_draws m).
Definition set_rand_draws (l : list Z) (m : ManagerState) : ManagerState :=
  mkManager (g_incarnation_id m) (connection_id m) (g_connection_management_list m)
    (g_dummy_connection_object m) (g_config m) l.

(** [g_network_status] and the multicast address of [g_tcpip], as far as the
    connections use them; [created_sockets] records the sockets created for I/O messaging,
    the latest first, each with the number of sockets closed before it. *)
Record NetworkStatus := mkNetworkStatus {
  ip_address : Z;
  network_mask : Z;
  udp_io_messaging : Z;
  starting_multicast_address : Z;
  created_sockets : list (Z * nat) }.

(** The globals of [appcontype.c] and [cipioconnection.c].  [sent_udp] records the
    datagrams handed to [SendUdpData], the latest first. *)
Record IoState := mkIoState {
  io_points : IoPoints;
  g_run_idle_state : Z;
  s_consume_run_idle : bool;
  s_produce_run_idle : bool;
  sent_udp : list (SockAddr * list Z) }.

(** What the services use behind CPF item and connections: the global request,
    the CIP stack, the manager, identity, network status and I/O globals. *)
Record DeviceState := mkDeviceState {
  g_message_router_request : CipMessageRouterRequest;
  cip_stack : CipStack;
  manager_state : ManagerState;
  g_identity : CipIdentityObject;
  g_network_status : NetworkStatus;
  io_state : IoState }.

Definition set_device_request (r : CipMessageRouterRequest) (d : DeviceState) : DeviceState :=
  mkDeviceState r (cip_stack d) (manager_state d) (g_identity d) (g_network_status d)
    (io_state d).
Definition set_device_stack (s : CipStack) (d : DeviceState) : DeviceState :=
  mkDeviceState (g_message_router_request d) s (manager_state d) (g_identity d)
    (g_network_status d) (io_state d).
Definition set_device_manager (m : ManagerState) (d : DeviceState) : DeviceState :=
  mkDeviceState (g_message_router_request d) (cip_stack d) m (g_identity d)
    (g_network_status d) (io_state d).
Definition set_device_identity (g : CipIdentityObject) (d : DeviceState) : DeviceState :=
  mkDeviceState (g_message_router_request d) (cip_stack d) (manager_state d) g
    (g_network_status d) (io_state d).
Definition set_device_network (n : NetworkStatus) (d : DeviceState) : DeviceState :=
  mkDeviceState (g_message_router_request d) (cip_stack d) (manager_state d) (g_identity d) n
    (io_state d).
Definition set_device_io (i : IoState) (d : DeviceState) : DeviceState :=
  mkDeviceState (g_message_router_request d) (cip_stack d) (manager_state d) (g_identity d)
    (g_network_status d) i.

Definition DeviceWorld : Type := World DeviceState.

Definition set_stack (d : DeviceState) (w : DeviceWorld) : DeviceWorld :=
  mkWorld (g_cpf w) (connections w) d.
Definition update_manager (f : ManagerState → ManagerState) (w : DeviceWorld) : DeviceWorld :=
  set_stack (set_device_manager (f (manager_state (stack w))) (stack w)) w.
Definition the_manager (w : DeviceWorld) : ManagerState := manager_state (stack w).
Definition dummy (w : DeviceWorld) : CipConnectionObject :=
  g_dummy_connection_object (the_manager w).

(** ** Connection ids *)

Definition GetConnectionId (m : ManagerState) : Z * ManagerState :=
  let n := u16 (connection_id m + 1) in
  (g_incarnation_id m .| (n .& 0x0000FFFF), set_connection_id n m).

(** The next two ids, and how many of them [ConnectionObjectGeneralConfiguration]
    asks for. *)
Definition next_ids (m : ManagerState) : Z * Z :=
  let '(a, m) := GetConnectionId m in let '(b, _) := GetConnectionId m in (a, b).

Definition ids_used (o : CipConnectionObject) : nat :=
  (if bool_decide (kConnectionObjectConnectionTypePointToPoint
                   = ConnectionObjectGetOToTConnectionType o) then 1 else 0)
  + (if bool_decide (kConnectionObjectConnectionTypeMulticast
                     = ConnectionObjectGetTToOConnectionType o) then 1 else 0).

Definition skip_ids (n : nat) (m : ManagerState) : ManagerState :=
  Nat.iter n (λ m, snd (GetConnectionId m)) m.

(** ** Connectable objects *)

Definition OPENER_CIP_NUM_APPLICATION_SPECIFIC_CONNECTABLE_OBJECTS : nat := 1.
Definition g_kNumberOfConnectableObjects : nat :=
  2 + OPENER_CIP_NUM_APPLICATION_SPECIFIC_CONNECTABLE_OBJECTS.

Fixpoint add_connectable (class_code : Z) (open_connection_function : option nat)
    (l : list (Z * option nat)) : EipStatus * list (Z * option nat) :=
  match l with
  | [] => (kEipStatusError, [])
  | e :: l =>
      if (0 =? fst e) || (class_code =? fst e)
      then (kEipStatusOk, (class_code, open_connection_function) :: l)
      else let '(status, l) := add_connectable class_code open_connection_function l in
           (status, e :: l)
  end.

Definition AddConnectableObject (class_code : Z) (open_connection_function : option nat)
    (m : ManagerState) : EipStatus * ManagerState :=
  let '(status, l) := add_connectable class_code open_connection_function
                        (g_connection_management_list m) in
  (status, set_management_list l m).

(** The open function of an entry; [None] for no entry. *)
Definition GetConnectionManagementEntry (class_id : Z) (m : ManagerState)
  : option (option nat) :=
  snd <$> List.find (λ e, class_id =? fst e) (g_connection_management_list m).

(** ** Replies *)

Definition set_additional_status (i : nat) (v : Z) (r : CipMessageRouterResponse)
  : CipMessageRouterResponse :=
  mkResponse (reply_service r) (reserved r) (general_status r) (size_of_additional_status r)
    (<[i := v]> (additional_status r)) (message r).

(** The data item is an unconnected one, as the function asserts. *)
Definition AddNullAddressItem (d : CipCommonPacketFormatData)
  : option CipCommonPacketFormatData :=
  assert! data_type_id (data_item d) =? kCipItemIdUnconnectedDataItem;
  Some (set_address_item (mkAddressItem kCipItemIdNullAddress 0
          (connection_identifier (address_item d)) (sequence_number (address_item d))) d).

(** The CPF item of an unconnected reply. *)
Definition unconnected_reply_item (d : CipCommonPacketFormatData)
  : option CipCommonPacketFormatData :=
  let d := set_item_count 2 d in
  let i := data_item d in
  AddNullAddressItem (set_data_item (mkDataItem kCipItemIdUnconnectedDataItem
                                       (data_item_length i) (data_pointer i)) d).

(** The status words of a refused connection. *)
Definition connection_error_status (o : CipConnectionObject) (general_status extended_status : Z)
    (r : CipMessageRouterResponse) : CipMessageRouterResponse :=
  if (general_status =? kCipErrorNotEnoughData) || (general_status =? kCipErrorTooMuchData)
  then set_size_of_additional_status 0 r
  else if extended_status
          =? kConnectionManagerExtendedStatusCodeErrorInvalidOToTConnectionSize
  then set_additional_status 1 (correct_originator_to_target_size o)
         (set_additional_status 0 extended_status (set_size_of_additional_status 2 r))
  else if extended_status
          =? kConnectionManagerExtendedStatusCodeErrorInvalidTToOConnectionSize
  then set_additional_status 1 (correct_target_to_originator_size o)
         (set_additional_status 0 extended_status (set_size_of_additional_status 2 r))
  else set_additional_status 0 extended_status (set_size_of_additional_status 1 r).

(** The connection object, whose state an error resets; the response; the CPF item. *)
Definition AssembleForwardOpenResponse (o : CipConnectionObject)
    (r : CipMessageRouterResponse) (general_status extended_status : Z)
    (d : CipCommonPacketFormatData)
  : option (EipStatus * CipConnectionObject * CipMessageRouterResponse
            * CipCommonPacketFormatData) :=
  d ← unconnected_reply_item d;
  let service_code := if is_large_forward_open o then kLargeForwardOpen else kForwardOpen in
  let r := set_reply_service (0x80 .| service_code) r in
  let r := set_general_status general_status r in
  '(o, r, d) ←
    (if kCipErrorSuccess =? general_status then
       let r := set_size_of_additional_status 0 r in
       let '(info0, info1) := address_info_item d in
       let d := if negb (info_type_id info0 =? 0)
                then set_item_count (if negb (info_type_id info1 =? 0) then 4 else 3) d
                else d in
       r ← add_to_response (AddDintToMessage (cip_consumed_connection_id o)) r;
       r ← add_to_response (AddDintToMessage (cip_produced_connection_id o)) r;
       Some (o, r, d)
     else
       o ← ConnectionObjectSetState kConnectionObjectStateNonExistent o;
       Some (o, connection_error_status o general_status extended_status r, d));
  r ← add_to_response (AddIntToMessage (connection_serial_number o)) r;
  r ← add_to_response (AddIntToMessage (originator_vendor_id o)) r;
  r ← add_to_response (AddDintToMessage (originator_serial_number o)) r;
  r ← (if kCipErrorSuccess =? general_status then
         r ← add_to_response (AddDintToMessage (o_to_t_requested_packet_interval o)) r;
         add_to_response (AddDintToMessage (t_to_o_requested_packet_interval o)) r
       else Some r);
  r ← add_to_response (AddSintToMessage 0) r;
  r ← add_to_response (AddSintToMessage 0) r;
  Some (kEipStatusOkSend, o, r, d).

Definition AssembleForwardCloseResponse (connection_serial_number originator_vendor_id
    originator_serial_number : Z) (req : CipMessageRouterRequest)
    (r : CipMessageRouterResponse) (extended_error_code : Z) (d : CipCommonPacketFormatData)
  : option (EipStatus * CipMessageRouterResponse * CipCommonPacketFormatData) :=
  d ← unconnected_reply_item d;
  r ← add_to_response (AddIntToMessage connection_serial_number) r;
  r ← add_to_response (AddIntToMessage originator_vendor_id) r;
  r ← add_to_response (AddDintToMessage originator_serial_number) r;
  let r := set_reply_service (0x80 .| service req) r in
  r ← (if kConnectionManagerExtendedStatusCodeSuccess =? extended_error_code then
         r ← add_to_response (AddSintToMessage 0) r;
         Some (set_size_of_additional_status 0 (set_general_status kCipErrorSuccess r))
       else
         remaining_path_size ← load (request_data req) 0;
         r ← add_to_response (AddSintToMessage remaining_path_size) r;
         if kConnectionManagerExtendedStatusWrongCloser =? extended_error_code
         then Some (set_general_status kCipErrorPrivilegeViolation r)
         else Some (set_size_of_additional_status 1
                      (set_additional_status 0 extended_error_code
                         (set_general_status kCipErrorConnectionFailure r))));
  r ← add_to_response (AddSintToMessage 0) r;
  Some (kEipStatusOkSend, r, d).

(** The writers of the connection data, in order. *)
Definition connection_data_fields (o : CipConnectionObject)
  : list (ENIPMessage → option ENIPMessage) :=
  [ AddIntToMessage (connection_number o);
    AddIntToMessage (state o);
    AddIntToMessage (sin_port (originator_address o));
    AddIntToMessage (sin_port (remote_address o));
    AddIntToMessage (connection_serial_number o);
    AddIntToMessage (originator_vendor_id o);
    AddDintToMessage (originator_serial_number o);
    AddDintToMessage (cip_consumed_connection_id o);
    AddDintToMessage (cip_consumed_connection_id o);
    AddSintToMessage (connection_timeout_multiplier o);
    AddSintToMessage 0; AddSintToMessage 0; AddSintToMessage 0;
    AddDintToMessage (o_to_t_requested_packet_interval o);
    AddDintToMessage (u32 (transmission_trigger_timer o));
    AddDintToMessage (cip_produced_connection_id o);
    AddDintToMessage (cip_produced_connection_id o);
    AddSintToMessage (connection_timeout_multiplier o);
    AddSintToMessage 0; AddSintToMessage 0; AddSintToMessage 0;
    AddDintToMessage (t_to_o_requested_packet_interval o);
    AddDintToMessage (u32 (transmission_trigger_timer o)) ].

Fixpoint run_writers (fs : list (ENIPMessage → option ENIPMessage)) (m : ENIPMessage)
  : option ENIPMessage :=
  match fs with [] => Some m | f :: fs => m ← f m; run_writers fs m end.

Definition AssembleConnectionDataResponseMessage (r : CipMessageRouterResponse)
    (o : CipConnectionObject) : option CipMessageRouterResponse :=
  add_to_response (run_writers (connection_data_fields o)) r.

(** ** Services *)

(** The objects of the connection list, in order: what the search for a free
    connection number compares with. *)
Fixpoint listed_connections (fuel : nat) (node : ptr) (m : ConnManager)
  : option (list CipConnectionObject) :=
  match fuel with
  | O => None
  | S fuel =>
      match node with
      | None => Some []
      | Some _ =>
          n ← deref node (connection_nodes m);
          c ← data n;
          o ← connection_pool m !! c;
          l ← listed_connections fuel (next n) m;
          Some (o :: l)
      end
  end.

(** [connection_list.first->data] *)
Definition first_connection (m : ConnManager) : option CipConnectionObject :=
  n ← deref (first (connection_list m)) (connection_nodes m);
  c ← data n;
  connection_pool m !! c.

(** The open functions other than [EstablishClass3Connection]: general status, extended
    status and the world, whose dummy object they may have changed. *)
Class OpenFunctions := {
  open_function : nat → DeviceWorld → Z → option (Z * Z * DeviceWorld) }.

(** [EstablishClass3Connection(&g_dummy_connection_object, &connection_status)] *)
Definition open_class3 (w : DeviceWorld) (connection_status : Z)
  : option (Z * Z * DeviceWorld) :=
  '(status, e, m) ← EstablishClass3Connection (next_ids (the_manager w)) (dummy w)
                      (connections w);
  let used := if status =? kCipErrorSuccess then ids_used (dummy w) else O in
  Some (status, default connection_status e,
        update_manager (skip_ids used) (set_connections m w)).

Definition open_connection `{OpenFunctions} (k : nat) (w : DeviceWorld)
    (connection_status : Z) : option (Z * Z * DeviceWorld) :=
  if (k =? kEstablishClass3Connection)%nat then open_class3 w connection_status
  else open_function k w connection_status.

Definition ServiceReply : Type :=
  EipStatus * CipMessageRouterRequest * CipMessageRouterResponse * DeviceWorld.

(** The reply about the dummy object. *)
Definition reply_dummy (req : CipMessageRouterRequest) (r : CipMessageRouterResponse)
    (general_status extended_status : Z) (w : DeviceWorld) : option ServiceReply :=
  '(status, o, r, d) ← AssembleForwardOpenResponse (dummy w) r general_status extended_status
                         (g_cpf w);
  Some (status, req, r, update_manager (set_dummy o) (set_cpf d w)).

Definition HandleNullNonMatchingForwardOpenRequest (req : CipMessageRouterRequest)
    (r : CipMessageRouterResponse) (w : DeviceWorld) : option ServiceReply :=
  reply_dummy req r kCipErrorConnectionFailure
    kConnectionManagerExtendedStatusCodeNullForwardOpenNotSupported w.

Definition HandleNullMatchingForwardOpenRequest (req : CipMessageRouterRequest)
    (r : CipMessageRouterResponse) (w : DeviceWorld) : option ServiceReply :=
  reply_dummy req r kCipErrorConnectionFailure
    kConnectionManagerExtendedStatusCodeNullForwardOpenNotSupported w.

Definition HandleNonNullMatchingForwardOpenRequest (req : CipMessageRouterRequest)
    (r : CipMessageRouterResponse) (w : DeviceWorld) : option ServiceReply :=
  reply_dummy req r kCipErrorConnectionFailure
    kConnectionManagerExtendedStatusCodeErrorConnectionInUseOrDuplicateForwardOpen w.

(** [ParseConnectionPath(&g_dummy_connection_object, ...)] on the globals. *)
Definition parse_dummy_path (req : CipMessageRouterRequest) (connection_status : Z)
    (w : DeviceWorld) : option (Z * Z * CipMessageRouterRequest * DeviceWorld) :=
  '(temp, req, p) ← ParseConnectionPath (g_identity (stack w)) (cip_stack (stack w)) (dummy w)
                      req connection_status (g_config (the_manager w));
  Some (temp, extended_error p, req,
        update_manager (λ m, set_config (g_config_data p) (set_dummy (connection p) m)) w).

Definition trigger_invalid (o : CipConnectionObject) : bool :=
  match ConnectionObjectGetTransportClassTriggerProductionTrigger o with
  | kConnectionObjectTransportClassTriggerProductionTriggerInvalid => true
  | _ => false
  end.

Section Services.
Context `{OpenFunctions} `{ConnectionCallbacks}.

(** A missing open function leaves [temp] at 0, the status of the parser. *)
Definition HandleNonNullNonMatchingForwardOpenRequest (req : CipMessageRouterRequest)
    (r : CipMessageRouterResponse) (w : DeviceWorld) : option ServiceReply :=
  let connection_status := kConnectionManagerExtendedStatusCodeSuccess in
  if trigger_invalid (dummy w) then
    reply_dummy req r kCipErrorConnectionFailure
      kConnectionManagerExtendedStatusCodeErrorTransportClassAndTriggerCombinationNotSupported w
  else
    '(temp, connection_status, req, w) ← parse_dummy_path req connection_status w;
    if negb (temp =? 0) then reply_dummy req r temp connection_status w
    else
      '(temp, connection_status, w) ←
        match GetConnectionManagementEntry
                (epath_class_id (configuration_path (dummy w))) (the_manager w) with
        | Some (Some k) => open_connection k w connection_status
        | Some None => Some (temp, kConnectionManagerExtendedStatusCodeMiscellaneous, w)
        | None =>
            Some (status_byte kEipStatusError,
                  kConnectionManagerExtendedStatusCodeInconsistentApplicationPathCombo, w)
        end;
      if negb (temp =? 0) then reply_dummy req r temp connection_status w
      else
        o ← first_connection (connections w);
        '(status, _, r, d) ← AssembleForwardOpenResponse o r kCipErrorSuccess 0 (g_cpf w);
        Some (status, req, r, set_cpf d w).

(** [handle_forward_open_request_functions[is_null_request][is_matching_request]] *)
Definition handle_forward_open_request_functions (is_null_request is_matching_request : bool)
  : CipMessageRouterRequest → CipMessageRouterResponse → DeviceWorld → option ServiceReply :=
  if is_null_request
  then if is_matching_request then HandleNullMatchingForwardOpenRequest
       else HandleNullNonMatchingForwardOpenRequest
  else if is_matching_request then HandleNonNullMatchingForwardOpenRequest
       else HandleNonNullNonMatchingForwardOpenRequest.

(** The dummy object takes the request's fields. *)
Definition decode_request (req : CipMessageRouterRequest) (originator_address : SockAddr)
    (encapsulation_session : Z) (w : DeviceWorld)
  : option (CipMessageRouterRequest * DeviceWorld) :=
  let m := the_manager w in
  listed ← listed_connections loop_fuel (first (connection_list (connections w)))
             (connections w);
  '(o, data, draws) ← ConnectionObjectInitializeFromMessage listed (rand_draws m)
                        (request_data req) (g_dummy_connection_object m);
  let o := set_associated_encapsulation_session encapsulation_session o in
  let o := ConnRecord.set_originator_address originator_address o in
  Some (set_request_data data req,
        update_manager (λ m, set_rand_draws draws (set_dummy o m)) w).

Definition ForwardOpenRoutine (req : CipMessageRouterRequest) (r : CipMessageRouterResponse)
    (originator_address : SockAddr) (encapsulation_session : Z) (w : DeviceWorld)
  : option ServiceReply :=
  '(req, w) ← decode_request req originator_address encapsulation_session w;
  let o_to_t := ConnectionObjectGetOToTConnectionType (dummy w) in
  let t_to_o := ConnectionObjectGetTToOConnectionType (dummy w) in
  if is_type kConnectionObjectConnectionTypeInvalid o_to_t then
    reply_dummy req r kCipErrorConnectionFailure
      kConnectionManagerExtendedStatusCodeErrorInvalidOToTConnectionType w
  else if is_type kConnectionObjectConnectionTypeInvalid t_to_o then
    reply_dummy req r kCipErrorConnectionFailure
      kConnectionManagerExtendedStatusCodeErrorInvalidTToOConnectionType w
  else if is_type kConnectionObjectConnectionTypeMulticast t_to_o
          && negb (sin_addr originator_address .& network_mask (g_network_status (stack w))
                   =? ip_address (g_network_status (stack w))
                      .& network_mask (g_network_status (stack w))) then
    reply_dummy req r kCipErrorConnectionFailure
      kConnectionManagerExtendedStatusCodeNotConfiguredForOffSubnetMulticast w
  else
    let is_null_request := is_type kConnectionObjectConnectionTypeNull o_to_t
                           && is_type kConnectionObjectConnectionTypeNull t_to_o in
    existing ← CheckForExistingConnection (dummy w) (connections w);
    let is_matching_request := match existing with Some _ => true | None => false end in
    handle_forward_open_request_functions is_null_request is_matching_request req r w.

Definition start_forward_open (large : bool) (w : DeviceWorld) : DeviceWorld :=
  update_manager (λ m, set_dummy (set_is_large_forward_open large (g_dummy_connection_object m))
                         m) w.

Definition ForwardOpen (req : CipMessageRouterRequest) (r : CipMessageRouterResponse)
    (originator_address : SockAddr) (encapsulation_session : Z) (w : DeviceWorld)
  : option ServiceReply :=
  ForwardOpenRoutine req r originator_address encapsulation_session
    (start_forward_open false w).

Definition LargeForwardOpen (req : CipMessageRouterRequest) (r : CipMessageRouterResponse)
    (originator_address : SockAddr) (encapsulation_session : Z) (w : DeviceWorld)
  : option ServiceReply :=
  ForwardOpenRoutine req r originator_address encapsulation_session
    (start_forward_open true w).

(** The connection a Forward Close names. *)
Definition closes (serial vendor originator_serial : Z) (o : CipConnectionObject) : bool :=
  (is_state kConnectionObjectStateEstablished o || is_state kConnectionObjectStateTimedOut o)
  && (connection_serial_number o =? serial) && (originator_vendor_id o =? vendor)
  && (originator_serial_number o =? originator_serial).

Definition ForwardClose (req : CipMessageRouterRequest) (r : CipMessageRouterResponse)
    (originator_address : SockAddr) (encapsulation_session : Z) (w : DeviceWorld)
  : option ServiceReply :=
  let w := set_cpf (set_infos (set_info_type 0 (address_info_item (g_cpf w)).1,
                               set_info_type 0 (address_info_item (g_cpf w)).2) (g_cpf w)) w in
  data ← ptr_add (request_data req) 2;
  '(serial, data) ← GetUintFromMessage data;
  '(vendor, data) ← GetUintFromMessage data;
  '(originator_serial, data) ← GetUdintFromMessage data;
  let req := set_request_data data req in
  found ← search (λ _, closes serial vendor originator_serial) (connections w);
  '(connection_status, w) ←
    match found with
    | None =>
        Some (kConnectionManagerExtendedStatusCodeErrorConnectionTargetConnectionNotFound, w)
    | Some (_, c) =>
        o ← connection_pool (connections w) !! c;
        assert! match connection_close_function o with Some _ => true | None => false end;
        if sin_addr originator_address =? sin_addr (ConnRecord.originator_address o) then
          m ← close_connection c (connections w);
          Some (kConnectionManagerExtendedStatusCodeSuccess, set_connections m w)
        else Some (kConnectionManagerExtendedStatusWrongCloser, w)
    end;
  '(status, r, d) ← AssembleForwardCloseResponse serial vendor originator_serial req r
                      connection_status (g_cpf w);
  Some (status, req, r, set_cpf d w).

Definition GetConnectionOwner (req : CipMessageRouterRequest) (r : CipMessageRouterResponse)
    (originator_address : SockAddr) (encapsulation_session : Z) (w : DeviceWorld)
  : option ServiceReply :=
  Some (kEipStatusOk, req, r, w).

(** The reply of the two data services; [found] is the connection, if any. *)
Definition connection_data_reply (found : option (nat * nat)) (req : CipMessageRouterRequest)
    (r : CipMessageRouterResponse) (w : DeviceWorld) : option ServiceReply :=
  match found with
  | Some (_, c) =>
      o ← connection_pool (connections w) !! c;
      r ← AssembleConnectionDataResponseMessage r o;
      Some (kEipStatusOk, req, set_general_status 0 r, w)
  | None => Some (kEipStatusOk, req, set_general_status kCipErrorPathDestinationUnknown r, w)
  end.

Definition GetConnectionData (req : CipMessageRouterRequest) (r : CipMessageRouterResponse)
    (originator_address : SockAddr) (encapsulation_session : Z) (w : DeviceWorld)
  : option ServiceReply :=
  let r := set_reply_service (0x80 .| kGetConnectionData) r in
  '(number, data) ← GetUintFromMessage (request_data req);
  found ← search (λ _ o, connection_number o =? number) (connections w);
  connection_data_reply found (set_request_data data req) r w.

Definition SearchConnectionData (req : CipMessageRouterRequest) (r : CipMessageRouterResponse)
    (originator_address : SockAddr) (encapsulation_session : Z) (w : DeviceWorld)
  : option ServiceReply :=
  let r := set_reply_service (0x80 .| kSearchConnectionData) r in
  '(serial, data) ← GetUintFromMessage (request_data req);
  '(vendor, data) ← GetUintFromMessage data;
  '(originator_serial, data) ← GetUdintFromMessage data;
  found ← search (λ _ o, (connection_serial_number o =? serial)
                         && (originator_vendor_id o =? vendor)
                         && (originator_serial_number o =? originator_serial)) (connections w);
  connection_data_reply found (set_request_data data req) r w.
End Services.

(** ** Class and initialisation *)

(** The services, as numbered service functions. *)
Definition FnForwardOpen : CipServiceFunction := FnOther 0.
Definition FnLargeForwardOpen : CipServiceFunction := FnOther 1.
Definition FnForwardClose : CipServiceFunction := FnOther 2.
Definition FnGetConnectionOwner : CipServiceFunction := FnOther 3.
Definition FnGetConnectionData : CipServiceFunction := FnOther 4.
Definition FnSearchConnectionData : CipServiceFunction := FnOther 5.

Definition InitializeConnectionManager (cm : CipClass * CipClass)
  : option (CipClass * CipClass) :=
  cm ← InsertClassAttribute cm 1 ClassRevision kGetableSingleAndAll;
  cm ← InsertClassAttribute cm 2 ClassNumberOfInstances kGetableSingleAndAll;
  cm ← InsertClassAttribute cm 3 ClassNumberOfInstances kGetableSingle;
  cm ← InsertClassAttribute cm 4 kCipUintZero kNotSetOrGetable;
  cm ← InsertClassAttribute cm 5 kCipUintZero kNotSetOrGetable;
  cm ← InsertClassAttribute cm 6 MetaHighestAttribute kGetableSingleAndAll;
  cm ← InsertClassAttribute cm 7 ClassHighestAttribute kGetableSingleAndAll;
  m ← InsertService cm.2 kGetAttributeAll (Some FnGetAttributeAll) "GetAttributeAll";
  m ← InsertService m kGetAttributeSingle (Some FnGetAttributeSingle) "GetAttributeSingle";
  Some (cm.1, m).

Definition InitializeConnectionManagerData (w : DeviceWorld) : DeviceWorld :=
  let l := replicate g_kNumberOfConnectableObjects (0, None) in
  let '(p, m) := InitializeIoConnectionData
                   (InitializeClass3ConnectionData (connections w)) in
  let i := io_state (stack w) in
  update_manager (set_management_list l)
    (set_stack (set_device_io (mkIoState p (g_run_idle_state i) (s_consume_run_idle i)
                                 (s_produce_run_idle i) (sent_udp i)) (stack w))
       (set_connections m w)).

Definition manager_services : list (Z * CipServiceFunction * string) :=
  [(kGetAttributeSingle, FnGetAttributeSingle, "GetAttributeSingle"%string);
   (kGetAttributeAll, FnGetAttributeAll, "GetAttributeAll"%string);
   (kForwardOpen, FnForwardOpen, "ForwardOpen"%string);
   (kLargeForwardOpen, FnLargeForwardOpen, "LargeForwardOpen"%string);
   (kForwardClose, FnForwardClose, "ForwardClose"%string);
   (kGetConnectionOwner, FnGetConnectionOwner, "GetConnectionOwner"%string);
   (kGetConnectionData, FnGetConnectionData, "GetConnectionData"%string);
   (kSearchConnectionData, FnSearchConnectionData, "SearchConnectionData"%string)].

Fixpoint insert_services (l : list (Z * CipServiceFunction * string)) (c : CipClass)
  : option CipClass :=
  match l with
  | [] => Some c
  | (num, fn, name) :: l => c ← InsertService c num (Some fn) name; insert_services l c
  end.

Definition ConnectionManagerInit (unique_connection_id : Z) (w : DeviceWorld)
  : option (EipStatus * DeviceWorld) :=
  let w := InitializeConnectionManagerData w in
  '(s, n) ← CreateCipClass kCipConnectionManagerClassCode 0 7 2 0 14 8 1 "connection manager" 1
              (Some InitializeConnectionManager) (cip_stack (stack w));
  c ← get_class (TheClass n) s;
  c ← insert_services manager_services c;
  let w := set_stack (set_device_stack (set_class (TheClass n) c s) (stack w)) w in
  let m := set_incarnation_id (u32 (unique_connection_id ≪ 16)) (the_manager w) in
  let '(_, m) := AddConnectableObject kCipMessageRouterClassCode
                   (Some kEstablishClass3Connection) m in
  let '(_, m) := AddConnectableObject kCipAssemblyClassCode (Some kEstablishIoConnection) m in
  Some (kEipStatusOk, update_manager (λ _, m) w).

(** ** The message router of the device *)

(** Calling a service function pointer: the services of the connection manager work
    on the whole device, the others on the CIP stack. *)
Definition run_device_service `{OpenFunctions} `{ConnectionCallbacks} `{Application}
    (fn : CipServiceFunction) (n : nat) (p : InstancePtr) (req : CipMessageRouterRequest)
    (resp : CipMessageRouterResponse) (originator_address : SockAddr)
    (encapsulation_session : Z) (w : DeviceWorld) : option ServiceReply :=
  match fn with
  | FnOther 0 => ForwardOpen req resp originator_address encapsulation_session w
  | FnOther 1 => LargeForwardOpen req resp originator_address encapsulation_session w
  | FnOther 2 => ForwardClose req resp originator_address encapsulation_session w
  | FnOther 3 => GetConnectionOwner req resp originator_address encapsulation_session w
  | FnOther 4 => GetConnectionData req resp originator_address encapsulation_session w
  | FnOther 5 => SearchConnectionData req resp originator_address encapsulation_session w
  | _ =>
      '(status, req, resp, s) ← run_service fn n p req resp originator_address
                                  encapsulation_session (cip_stack (stack w));
      Some (status, req, resp, set_stack (set_device_stack s (stack w)) w)
  end.

#[export] Instance device_router `{OpenFunctions} `{ConnectionCallbacks} `{Application}
  : Router DeviceState := {|
  route data len resp addr session w :=
    '(status, g, resp, w) ← notify_message_router (λ w : DeviceWorld, cip_stack (stack w))
        run_device_service data len resp addr session (g_message_router_request (stack w)) w;
    Some (status, resp, set_stack (set_device_request g (stack w)) w) |}.
