(* ===== verification/IoOpen.v ===== *)
(** * Opening I/O connections: [cip/cipioconnection.c]

    [EstablishIoConnection], the open function of the assembly object: choice of the
    connection object, checks against the assemblies and the other connections,
    configuration data, communication channels. *)

From S2P Require Import Prelude EndianConv EPath CipStrings CipTypes CipCodec CipClasses CipServices Identity Assembly.
From S2P Require Import MessageRouter SocketTimer ConnRecord ConnObject ConnList LinkedList AppConType IoClose EncapData Cpf ConnPath ConnService.
From stdpp Require Import strings.
Open Scope Z_scope.

(** ** Constants *)

Definition kConnectionManagerExtendedStatusCodeErrorRpiValuesNotAcceptable : Z := 0x0112.
Definition kConnectionManagerExtendedStatusCodeProductionInhibitTimerGreaterThanRpi : Z := 0x011B.
Definition kConnectionManagerExtendedStatusCodeInvalidConfigurationApplicationPath : Z := 0x0129.
Definition kConnectionManagerExtendedStatusCodeInvalidConsumingApplicationPath : Z := 0x012A.
Definition kConnectionManagerExtendedStatusCodeMismatchedTToONetworkConnectionFixVar : Z := 0x0135.
Definition kConnectionManagerExtendedStatusCodeMismatchedTToONetworkConnectionPriority : Z :=
  0x0136.
Definition kConnectionManagerExtendedStatusCodeMismatchedTransportClass : Z := 0x0137.
Definition kConnectionManagerExtendedStatusCodeMismatchedTToOProductionTrigger : Z := 0x0138.
Definition kConnectionManagerExtendedStatusCodeMismatchedTToOProductionInhibitTimeSegment : Z :=
  0x0139.
Definition kOpenerEipIoUdpPort : Z := 2222.
Definition AF_INET : Z := 2.
Definition INADDR_ANY : Z := 0.

#[export] Instance ProductionTrigger_eqdec :
  EqDecision ConnectionObjectTransportClassTriggerProductionTrigger.
Proof. solve_decision. Defined.
#[export] Instance TransportClass_eqdec :
  EqDecision ConnectionObjectTransportClassTriggerTransportClass.
Proof. solve_decision. Defined.
#[export] Instance Priority_eqdec : EqDecision ConnectionObjectPriority.
Proof. solve_decision. Defined.
#[export] Instance ConnectionSizeType_eqdec : EqDecision ConnectionObjectConnectionSizeType.
Proof. solve_decision. Defined.

(** ** Run/idle headers *)

Definition update_io (f : IoState → IoState) (w : DeviceWorld) : DeviceWorld :=
  set_stack (set_device_io (f (io_state (stack w))) (stack w)) w.

Definition CipRunIdleHeaderSetO2T (onoff : bool) : DeviceWorld → DeviceWorld :=
  update_io (λ i, mkIoState (io_points i) (g_run_idle_state i) onoff (s_produce_run_idle i)
                    (sent_udp i)).
Definition CipRunIdleHeaderGetO2T (w : DeviceWorld) : bool := s_consume_run_idle (io_state (stack w)).
Definition CipRunIdleHeaderSetT2O (onoff : bool) : DeviceWorld → DeviceWorld :=
  update_io (λ i, mkIoState (io_points i) (g_run_idle_state i) (s_consume_run_idle i) onoff
                    (sent_udp i)).
Definition CipRunIdleHeaderGetT2O (w : DeviceWorld) : bool := s_produce_run_idle (io_state (stack w)).

(** ** Checks *)

(** The extended status and the connection object. *)
Definition ProcessProductionInhibitTime (o : CipConnectionObject) : Z * CipConnectionObject :=
  if bool_decide (kConnectionObjectTransportClassTriggerProductionTriggerCyclic
                  = ConnectionObjectGetTransportClassTriggerProductionTrigger o) then
    if 256 =? production_inhibit_time o
    then (0, set_production_inhibit_time (u16 (t_to_o_requested_packet_interval o / 4000)) o)
    else if t_to_o_requested_packet_interval o / 1000 <? production_inhibit_time o
    then (kConnectionManagerExtendedStatusCodeProductionInhibitTimerGreaterThanRpi, o)
    else (0, o)
  else (0, o).

(** Size of the assembly data a connection of [size] bytes carries, and the size of
    what comes with it: sequence count and run/idle header. *)
Definition carried_size (o : CipConnectionObject) (run_idle is_heartbeat : bool) (size : Z) : Z * Z :=
  let '(size, diff) :=
    if bool_decide (kConnectionObjectTransportClassTriggerTransportClass1
                    = ConnectionObjectGetTransportClassTriggerTransportClass o)
    then (size - 2, 2) else (size, 0) in
  if run_idle && (0 <? size) && negb is_heartbeat then (size - 4, diff + 4) else (size, diff).

(** The assembly class and an instance of it. *)
Definition assembly_instance_of (s : CipStack) (instance_id : Z)
  : option (nat * option InstancePtr) :=
  n ← GetCipClass s kCipAssemblyClassCode;
  c ← get_class (TheClass n) s;
  Some (n, GetCipInstance c instance_id).

(** The byte array of attribute 3, which an assembly object always has. *)
Definition data_attribute (n : nat) (p : InstancePtr) (s : CipStack) : option CipByteArray :=
  i ← get_instance n p s;
  c ← instance_class i s;
  attribute ← GetCipAttribute i c kAssemblyObjectInstanceAttributeIdData;
  a ← attribute;
  d ← CipTypes.data a;
  match load_data n d s with Some (DByteArray b) => Some b | _ => None end.

Definition set_path_attribute (v : Z) (e : CipConnectionPathEpath) : CipConnectionPathEpath :=
  mkPathEpath (epath_class_id e) (epath_instance_id e) v.

(** The extended status, the connection object [o] and the dummy object [d]. *)
Definition SetupIoConnectionOriginatorToTargetConnectionPoint (run_idle : bool) (s : CipStack)
    (o d : CipConnectionObject) : option (Z * CipConnectionObject * CipConnectionObject) :=
  '(n, instance) ← assembly_instance_of s (epath_instance_id (consumed_path o));
  match instance with
  | None => Some (kConnectionManagerExtendedStatusCodeInvalidConsumingApplicationPath, o, d)
  | Some p =>
      let o := set_consumed_connection_path_length 6 (set_consuming_instance (Some p) o) in
      let o := set_consumed_path
                 (set_path_attribute kAssemblyObjectInstanceAttributeIdData (consumed_path o)) o in
      b ← data_attribute n p s;
      let '(size, diff) := carried_size o run_idle (ba_length b =? 0)
                             (ConnectionObjectGetOToTConnectionSize o) in
      if negb (ba_length b =? size) then
        Some (kConnectionManagerExtendedStatusCodeErrorInvalidOToTConnectionSize, o,
              set_correct_originator_to_target_size (s16 (ba_length b + diff)) d)
      else Some (0, o, d)
  end.

(** What differs from another connection that produces the same multicast data. *)
Definition multicast_mismatch (o it : CipConnectionObject) : Z :=
  if negb (epath_instance_id (produced_path o) =? epath_instance_id (produced_path it)) then 0
  else if negb (t_to_o_requested_packet_interval o =? t_to_o_requested_packet_interval it)
  then kConnectionManagerExtendedStatusCodeErrorRpiValuesNotAcceptable
  else if bool_decide (ConnectionObjectGetTToOConnectionSizeType o
                       ≠ ConnectionObjectGetTToOConnectionSizeType it)
  then kConnectionManagerExtendedStatusCodeMismatchedTToONetworkConnectionFixVar
  else if bool_decide (ConnectionObjectGetTToOPriority o ≠ ConnectionObjectGetTToOPriority it)
  then kConnectionManagerExtendedStatusCodeMismatchedTToONetworkConnectionPriority
  else if bool_decide (ConnectionObjectGetTransportClassTriggerTransportClass o
                       ≠ ConnectionObjectGetTransportClassTriggerTransportClass it)
  then kConnectionManagerExtendedStatusCodeMismatchedTransportClass
  else if bool_decide (ConnectionObjectGetTransportClassTriggerProductionTrigger o
                       ≠ ConnectionObjectGetTransportClassTriggerProductionTrigger it)
  then kConnectionManagerExtendedStatusCodeMismatchedTToOProductionTrigger
  else if negb (production_inhibit_time o =? production_inhibit_time it)
  then kConnectionManagerExtendedStatusCodeMismatchedTToOProductionInhibitTimeSegment
  else 0.

(** The loop over the connection list, for multicast connections only. *)
Definition check_multicast (o : CipConnectionObject) (m : ConnManager) : option Z :=
  if is_type kConnectionObjectConnectionTypeMulticast (ConnectionObjectGetTToOConnectionType o) then
    r ← search (λ _ it, negb (multicast_mismatch o it =? 0)) m;
    match r with
    | None => Some 0
    | Some (_, k) => it ← connection_pool m !! k; Some (multicast_mismatch o it)
    end
  else Some 0.

Definition SetupIoConnectionTargetToOriginatorConnectionPoint (run_idle : bool) (s : CipStack)
    (m : ConnManager) (o d : CipConnectionObject)
  : option (Z * CipConnectionObject * CipConnectionObject) :=
  e ← check_multicast o m;
  if negb (e =? 0) then Some (e, o, d) else
  '(n, instance) ← assembly_instance_of s (epath_instance_id (produced_path o));
  match instance with
  | None => Some (kConnectionManagerExtendedStatusCodeInvalidProducingApplicationPath, o, d)
  | Some p =>
      let o := set_producing_instance (Some p) o in
      let o := set_produced_path
                 (set_path_attribute kAssemblyObjectInstanceAttributeIdData (produced_path o)) o in
      b ← data_attribute n p s;
      let '(size, diff) := carried_size o run_idle (ba_length b =? 0)
                             (ConnectionObjectGetTToOConnectionSize o) in
      if negb (ba_length b =? size) then
        Some (kConnectionManagerExtendedStatusCodeErrorInvalidTToOConnectionSize, o,
              set_correct_target_to_originator_size (s16 (ba_length b + diff)) d)
      else Some (0, o, d)
  end.

(** ** The platform *)

(** The socket layer of the port: the byte order of the host, the socket that
    [CreateUdpSocket] gets and leaves in [g_network_status], where the argument lists those
    created before (the failures of the options and of [bind] behind [socket] are in [NetInit]),
    the result of [SetQos], the address of the TCP peer, the result of sending a datagram.
    [SetSocketOptionsMulticastProduce], whose result nobody looks at, is no part of it: it sets
    options of the host's socket only. *)
Class IoPlatform := {
  host_order : OpenerEndianess;
  new_udp_socket : list (Z * nat) → Z;
  SetQos : ConnectionObjectPriority → Z;
  GetPeerAddress : Z;
  send_result : SockAddr → list Z → EipStatus }.

Section Opening.
Context `{IoPlatform} `{AssemblyApplication}.

Definition host_htons (v : Z) : Z :=
  htons match host_order with kOpENerEndianessBig => true | _ => false end v.

Definition CreateUdpSocket (w : DeviceWorld) : DeviceWorld :=
  let n := g_network_status (stack w) in
  let socket := new_udp_socket (created_sockets n) in
  set_stack (set_device_network
    (mkNetworkStatus (ip_address n) (network_mask n) socket (starting_multicast_address n)
       ((socket, length (closed_sockets (connections w))) :: created_sockets n)) (stack w)) w.

(** ** Socket address items *)

Definition get_info (i : nat) (d : CipCommonPacketFormatData) : SocketAddressInfoItem :=
  if (i =? 0)%nat then (address_info_item d).1 else (address_info_item d).2.

Definition set_info (i : nat) (v : SocketAddressInfoItem) (d : CipCommonPacketFormatData)
  : CipCommonPacketFormatData :=
  set_infos (if (i =? 0)%nat then (v, (address_info_item d).2) else ((address_info_item d).1, v)) d.

(** The item of the given type or the first unused one, by index. *)
Definition AllocateSocketAddressInfoItem (d : CipCommonPacketFormatData) (type : Z) : option nat :=
  let fits i := (info_type_id (get_info i d) =? 0) || (info_type_id (get_info i d) =? type) in
  if fits 0%nat then Some 0%nat else if fits 1%nat then Some 1%nat else None.

(** The address item of the given type, by index. *)
Definition info_of_type (d : CipCommonPacketFormatData) (type : Z) : option nat :=
  if type =? info_type_id (get_info 0 d) then Some 0%nat
  else if type =? info_type_id (get_info 1 d) then Some 1%nat else None.

(** ** Communication channels *)

(** Each function takes and returns the connection object and the CPF item; the
    result is [false] for [kEipStatusError]. *)
Definition Channel : Type :=
  CipConnectionObject → CipCommonPacketFormatData →
  option (bool * CipConnectionObject * CipCommonPacketFormatData).

Definition OpenConsumingPointToPointConnection (udp : Z) : Channel := λ o d,
  match AllocateSocketAddressInfoItem d kCipItemIdSocketAddressInfoOriginatorToTarget with
  | None => Some (false, o, d)
  | Some i =>
      priority ← ConnectionObjectGetTToOPriority o;
      if negb (SetQos priority =? 0) then Some (false, o, d) else
      let o := ConnRecord.set_originator_address
                 (mkSockAddr (host_htons kOpenerEipIoUdpPort) GetPeerAddress) o in
      let o := set_socket_consuming udp o in
      Some (true, o,
            set_info i (mkSockaddrInfo kCipItemIdSocketAddressInfoOriginatorToTarget 16
                          (s16 (host_htons AF_INET)) (host_htons kOpenerEipIoUdpPort) INADDR_ANY
                          (replicate 8 0)) d)
  end.

Definition OpenProducingPointToPointConnection (udp : Z) : Channel := λ o d,
  let port := match info_of_type d kCipItemIdSocketAddressInfoTargetToOriginator with
              | Some i => info_sin_port (get_info i d)
              | None => host_htons kOpenerEipIoUdpPort
              end in
  let o := set_remote_address (mkSockAddr port GetPeerAddress) o in
  priority ← ConnectionObjectGetTToOPriority o;
  if negb (SetQos priority =? 0) then Some (false, o, d)
  else Some (true, set_socket_producing udp o, d).

Definition default_multicast_info (multicast_address : Z) (i : SocketAddressInfoItem)
  : SocketAddressInfoItem :=
  mkSockaddrInfo (info_type_id i) 16 (s16 (host_htons AF_INET)) (host_htons kOpenerEipIoUdpPort)
    multicast_address (replicate 8 0).

(** [producing] is the direction. *)
Definition OpenMulticastConnection (producing : bool) (udp multicast_address : Z) : Channel :=
  λ o d,
  let type := if producing then kCipItemIdSocketAddressInfoTargetToOriginator
              else kCipItemIdSocketAddressInfoOriginatorToTarget in
  match info_of_type d type with
  | None => Some (false, o, d)
  | Some j =>
      let d := if info_type_id (get_info j d) =? kCipItemIdSocketAddressInfoTargetToOriginator
               then set_info j (default_multicast_info multicast_address (get_info j d)) d else d in
      let i := get_info j d in
      if negb (s16 (host_htons AF_INET) =? sin_family i) then Some (false, o, d) else
      let addr := mkSockAddr (info_sin_port i) (info_sin_addr i) in
      priority ← ConnectionObjectGetTToOPriority o;
      if negb (SetQos priority =? 0) then Some (false, o, d)
      else if producing
      then Some (true, set_remote_address addr (set_socket_producing udp o),
                 set_info j (set_info_type kCipItemIdSocketAddressInfoTargetToOriginator i) d)
      else Some (true, ConnRecord.set_originator_address (mkSockAddr (sin_port addr) GetPeerAddress)
                         (set_socket_consuming udp o),
                 set_info j (set_info_type kCipItemIdSocketAddressInfoOriginatorToTarget i) d)
  end.

(** A channel function on connection [c] of the world. *)
Definition open_channel (f : Channel) (c : nat) (w : DeviceWorld) : option (bool * DeviceWorld) :=
  o ← connection_pool (connections w) !! c;
  '(ok, o, d) ← f o (g_cpf w);
  Some (ok, set_cpf d (set_connections (set_connection c o (connections w)) w)).

Definition udp_socket (w : DeviceWorld) : Z := udp_io_messaging (g_network_status (stack w)).
Definition multicast_address (w : DeviceWorld) : Z :=
  starting_multicast_address (g_network_status (stack w)).

Definition update_object (f : CipConnectionObject → CipConnectionObject) (c : nat)
    (w : DeviceWorld) : option DeviceWorld :=
  o ← connection_pool (connections w) !! c;
  Some (set_connections (set_connection c (f o) (connections w)) w).

(** The connection takes part in the multicast of the existing producer [k]: an
    exclusive owner takes over its socket. *)
Definition join_multicast (c k : nat) (w : DeviceWorld) : option DeviceWorld :=
  existing ← connection_pool (connections w) !! k;
  o ← connection_pool (connections w) !! c;
  w ← update_object (set_cip_produced_connection_id (cip_produced_connection_id existing)) c w;
  if instance_type o =? kConnectionObjectInstanceTypeIOExclusiveOwner then
    w ← update_object (set_socket_producing (socket_producing existing)) c w;
    update_object (set_socket_producing kEipInvalidSocket) k w
  else update_object (set_socket_producing kEipInvalidSocket) c w.

Definition OpenProducingMulticastConnection (c : nat) (w : DeviceWorld)
  : option (bool * DeviceWorld) :=
  o ← connection_pool (connections w) !! c;
  existing ← GetExistingProducerIoConnection true (epath_instance_id (produced_path o))
               (connections w);
  match AllocateSocketAddressInfoItem (g_cpf w) kCipItemIdSocketAddressInfoTargetToOriginator with
  | None => Some (false, w)
  | Some i =>
      let item := get_info i (g_cpf w) in
      let port := if negb (kCipItemIdSocketAddressInfoTargetToOriginator =? info_type_id item)
                  then info_sin_port item else host_htons kOpenerEipIoUdpPort in
      let item := set_info_type kCipItemIdSocketAddressInfoTargetToOriginator item in
      let w := set_cpf (set_info i item (g_cpf w)) w in
      match existing with
      | None => open_channel (OpenMulticastConnection true (udp_socket w) (multicast_address w)) c w
      | Some k =>
          w ← join_multicast c k w;
          w ← update_object (set_remote_address (mkSockAddr port (multicast_address w))) c w;
          let item := mkSockaddrInfo (info_type_id item) 16 (s16 (host_htons AF_INET)) port
                        (multicast_address w) (replicate 8 0) in
          Some (true, set_cpf (set_info i item (g_cpf w)) w)
      end
  end.

(** The CIP error.  A consuming multicast connection fails exactly when its channel
    could be opened. *)
Definition OpenCommunicationChannels (c : nat) (w : DeviceWorld) : option (Z * DeviceWorld) :=
  let w := CreateUdpSocket w in
  o ← connection_pool (connections w) !! c;
  let o_to_t := ConnectionObjectGetOToTConnectionType o in
  let t_to_o := ConnectionObjectGetTToOConnectionType o in
  '(failed, w) ←
    (if is_type kConnectionObjectConnectionTypeMulticast o_to_t then
       open_channel (OpenMulticastConnection false (udp_socket w) (multicast_address w)) c w
     else if is_type kConnectionObjectConnectionTypePointToPoint o_to_t then
       '(ok, w) ← open_channel (OpenConsumingPointToPointConnection (udp_socket w)) c w;
       Some (negb ok, w)
     else Some (false, w));
  if failed : bool then Some (kCipErrorConnectionFailure, w) else
  '(ok, w) ←
    (if is_type kConnectionObjectConnectionTypeMulticast t_to_o then
       OpenProducingMulticastConnection c w
     else if is_type kConnectionObjectConnectionTypePointToPoint t_to_o then
       open_channel (OpenProducingPointToPointConnection (udp_socket w)) c w
     else Some (true, w));
  Some (if ok : bool then kCipErrorSuccess else kCipErrorConnectionFailure, w).

(** ** Configuration data *)

(** The configuration assembly must hold the same data already when another
    connection uses it; otherwise the data is written to it. *)
Definition HandleConfigData (c : nat) (w : DeviceWorld) : option (Z * DeviceWorld) :=
  o ← connection_pool (connections w) !! c;
  let s := cip_stack (stack w) in
  '(n, instance) ← assembly_instance_of s (epath_instance_id (configuration_path o));
  let '(len, buffer) := g_config (the_manager w) in
  if len =? 0 then Some (0, w) else
  p ← instance;
  buffer ← buffer;
  same ← ConnectionWithSameConfigPointExists (epath_instance_id (configuration_path o))
           (connections w);
  if same : bool then
    b ← data_attribute n p s;
    if negb (ba_length b =? len)
    then Some (kConnectionManagerExtendedStatusCodeErrorOwnershipConflict, w)
    else
      d ← ba_data b;
      old ← load_n d (Z.to_nat len);
      new ← load_n buffer (Z.to_nat len);
      Some (if bool_decide (old = new) then 0
            else kConnectionManagerExtendedStatusCodeErrorOwnershipConflict, w)
  else
    '(status, s) ← NotifyAssemblyConnectedDataReceived n p buffer len s;
    Some (if bool_decide (status = kEipStatusOk) then 0
          else kConnectionManagerExtendedStatusCodeInvalidConfigurationApplicationPath,
          set_stack (set_device_stack s (stack w)) w).

(** ** Establishing a connection *)

(** Callbacks and general configuration, the fields of the two ends cleared. *)
Definition configure_io (ids : Z * Z) (o : CipConnectionObject) : CipConnectionObject :=
  let o := ConnectionObjectGeneralConfiguration ids (SetIoConnectionCallbacks o) in
  let o := set_consumed_connection_path_length 0 (set_consuming_instance None o) in
  set_produced_connection_path_length 0 (set_producing_instance None o).

(** A check on connection [c] that may change it and the dummy object. *)
Definition check_end
    (f : CipConnectionObject → CipConnectionObject →
         option (Z * CipConnectionObject * CipConnectionObject))
    (c : nat) (w : DeviceWorld) : option (Z * DeviceWorld) :=
  o ← connection_pool (connections w) !! c;
  '(e, o, d) ← f o (dummy w);
  Some (e, update_manager (set_dummy d)
             (set_connections (set_connection c o (connections w)) w)).

Definition setup_ends (c : nat) (w : DeviceWorld) : option (Z * DeviceWorld) :=
  o ← connection_pool (connections w) !! c;
  let s := cip_stack (stack w) in
  let null t := is_type kConnectionObjectConnectionTypeNull t in
  '(e, w) ← (if null (ConnectionObjectGetOToTConnectionType o) then Some (0, w)
             else check_end (SetupIoConnectionOriginatorToTargetConnectionPoint
                               (CipRunIdleHeaderGetO2T w) s) c w);
  if negb (e =? 0) then Some (e, w)
  else if null (ConnectionObjectGetTToOConnectionType o) then Some (0, w)
  else check_end (SetupIoConnectionTargetToOriginatorConnectionPoint
                    (CipRunIdleHeaderGetT2O w) s (connections w)) c w.

(** From the chosen connection object [c] on. *)
Definition establish_io (c : nat) (w : DeviceWorld) : option (Z * Z * DeviceWorld) :=
  o ← connection_pool (connections w) !! c;
  let '(e, o) := ProcessProductionInhibitTime o in
  let w := set_connections (set_connection c o (connections w)) w in
  if negb (e =? 0) then Some (kCipErrorConnectionFailure, e, w) else
  let w := update_manager (skip_ids (ids_used o))
             (set_connections (set_connection c (configure_io (next_ids (the_manager w)) o)
                                 (connections w)) w) in
  assert! negb (is_type kConnectionObjectConnectionTypeNull (ConnectionObjectGetOToTConnectionType o)
                && is_type kConnectionObjectConnectionTypeNull
                     (ConnectionObjectGetTToOConnectionType o));
  '(e, w) ← setup_ends c w;
  if negb (e =? 0) then Some (kCipErrorConnectionFailure, e, w) else
  '(e, w) ← match (g_config (the_manager w)).2 with
            | Some _ => HandleConfigData c w
            | None => Some (0, w)
            end;
  if negb (e =? 0) then Some (kCipErrorConnectionFailure, e, w) else
  '(cip_error, w) ← OpenCommunicationChannels c w;
  if negb (cip_error =? kCipErrorSuccess) then Some (cip_error, 0, w) else
  m ← AddNewActiveConnection c (connections w);
  o ← connection_pool m !! c;
  Some (cip_error, 0, set_connections (report_event kIoConnectionEventOpened o m) w).

(** [connection_object] is the dummy object. *)
Definition EstablishIoConnection (w : DeviceWorld) : option (Z * Z * DeviceWorld) :=
  '(io, e, d, m) ← @GetIoConnectionForConnectionData io_callbacks (io_points (io_state (stack w)))
                     (dummy w) (connections w);
  let w := update_manager (set_dummy d) (set_connections m w) in
  match io with
  | None => Some (kCipErrorConnectionFailure, e, w)
  | Some c => establish_io c w
  end.

(** The open functions of the device. *)
Definition io_open : OpenFunctions := {|
  open_function k w _ :=
    if (k =? kEstablishIoConnection)%nat then EstablishIoConnection w else None |}.
End Opening.

(** ** Lemmas: the assemblies of a connection *)

Lemma lookup_by_id (l : list (Z * nat)) j id a :
  NoDup l.*1 → l !! j = Some (id, a) → ∀ j' a', l !! j' = Some (id, a') → j' = j.
Proof.
  intros Hn Hj j' a' Hj'. eapply NoDup_lookup; [exact Hn | |]; rewrite list_lookup_fmap;
    [rewrite Hj' | rewrite Hj]; done.
Qed.

Section Ends.
Context `{AssemblyApplication}.

Lemma assembly_found n l s j id a :
  assemblies n l s → l !! j = Some (id, a) →
  assembly_instance_of s id = Some (n, Some (ListInstance j)).
Proof.
  intros Has Hj. pose proof Has as [Hr (c & Hc & _ & Hi & Hwf & _) _ _].
  unfold assembly_instance_of. rewrite Hr. cbn [mbind option_bind]. rewrite Hc.
  cbn [mbind option_bind].
  assert (Hl : instances c !! j = Some (assembly_instance n (id, a)))
    by (by rewrite Hi, list_lookup_fmap, Hj).
  pose proof (GetCipInstance_lookup c j _ Hwf Hl) as E. cbn [assembly_instance instance_number fst] in E.
  by rewrite E.
Qed.

Lemma assembly_data n l s j id a b :
  assemblies n l s → l !! j = Some (id, a) → objects s !! a = Some (DByteArray b) →
  data_attribute n (ListInstance j) s = Some b.
Proof.
  intros Has Hj Hb. destruct (assembly_lookup _ _ _ _ _ Has Hj) as (c & _ & _ & (Hi & Hc & Hwf) & _).
  unfold data_attribute. rewrite Hi. cbn [mbind option_bind]. rewrite Hc. cbn [mbind option_bind].
  rewrite GetCipAttribute_find by done.
  change (match objects s !! a with Some (DByteArray b) => Some b | _ => None end = Some b).
  by rewrite Hb.
Qed.

Lemma assembly_missing n l s id :
  assemblies n l s → id ≠ 0 → id ∉ l.*1 → assembly_instance_of s id = Some (n, None).
Proof.
  intros [Hr (c & Hc & _ & Hi & Hwf & _) _ _] H0 Hid.
  unfold assembly_instance_of. rewrite Hr. cbn [mbind option_bind]. rewrite Hc.
  cbn [mbind option_bind]. rewrite GetCipInstance_unused; [done | done |].
  by rewrite Hi, numbers_assemblies.
Qed.

(** ** Lemmas: connection sizes *)

Definition is_class1 (o : CipConnectionObject) : bool :=
  bool_decide (kConnectionObjectTransportClassTriggerTransportClass1
               = ConnectionObjectGetTransportClassTriggerTransportClass o).

(** What a connection to an assembly of [n] bytes carries besides its data. *)
Definition overhead (o : CipConnectionObject) (run_idle : bool) (n : Z) : Z :=
  (if is_class1 o then 2 else 0) + (if run_idle && negb (n =? 0) then 4 else 0).


(** The size the device reports for a request of [size] bytes: the overhead without
    the run/idle header when the request is too small to have one. *)
Definition reported_size (o : CipConnectionObject) (run_idle : bool) (n size : Z) : Z :=
  let sequence := if is_class1 o then 2 else 0 in
  if run_idle && negb (n =? 0) && (size <=? sequence) then n + sequence
  else n + overhead o run_idle n.

Lemma carried_size_reported o run_idle n size :
  0 <= n → 0 <= size →
  let '(rest, diff) := carried_size o run_idle (n =? 0) size in
  (n =? rest) = (size =? n + overhead o run_idle n) ∧ n + diff = reported_size o run_idle n size.
Proof.
  intros Hb Hs. unfold carried_size, reported_size, overhead. fold (is_class1 o).
  destruct (is_class1 o), run_idle, (Z.eqb_spec n 0) as [E|E]; cbn [andb negb];
    repeat match goal with |- context [?x <? ?y] => destruct (Z.ltb_spec x y) end;
    repeat match goal with |- context [?x <=? ?y] => destruct (Z.leb_spec x y) end;
    cbn [andb negb]; split; lia.
Qed.

Lemma connection_size_nonneg p lfo : 0 <= ConnectionObjectGetConnectionSize p lfo.
Proof. unfold ConnectionObjectGetConnectionSize. apply Z.land_nonneg. right. by destruct lfo. Qed.

(** An end of an I/O connection is accepted exactly when its size is that of
    the assembly plus two bytes of sequence count (class 1) and four bytes of
    run/idle header (if configured, and not for a heartbeat).  Otherwise the request
    is refused as a size error, and the dummy object gets the size to report: the
    accepted one, except that a request too small to hold a run/idle header is told
    a size without the header, which is refused again. *)
Theorem io_connection_sizes n l s j id a b run_idle o d m :
  assemblies n l s → l !! j = Some (id, a) → objects s !! a = Some (DByteArray b) →
  0 <= ba_length b →
  let need := ba_length b + overhead o run_idle (ba_length b) in
  let o_size := ConnectionObjectGetOToTConnectionSize o in
  let t_size := ConnectionObjectGetTToOConnectionSize o in
  let told := reported_size o run_idle (ba_length b) in
  (epath_instance_id (consumed_path o) = id →
   ∃ o', consuming_instance o' = Some (ListInstance j) ∧
     SetupIoConnectionOriginatorToTargetConnectionPoint run_idle s o d
     = Some (if o_size =? need then (0, o', d)
             else (0x127, o', set_correct_originator_to_target_size (s16 (told o_size)) d))) ∧
  (epath_instance_id (produced_path o) = id →
   ConnectionObjectGetTToOConnectionType o ≠ kConnectionObjectConnectionTypeMulticast →
   ∃ o', producing_instance o' = Some (ListInstance j) ∧
     SetupIoConnectionTargetToOriginatorConnectionPoint run_idle s m o d
     = Some (if t_size =? need then (0, o', d)
             else (0x128, o', set_correct_target_to_originator_size (s16 (told t_size)) d))) ∧
  (∀ size, told size ≠ need ↔
     run_idle = true ∧ ba_length b ≠ 0 ∧ size <= (if is_class1 o then 2 else 0)).
Proof.
  intros Has Hj Ha Hb need o_size t_size told. split; [|split].
  - intros Hid. unfold SetupIoConnectionOriginatorToTargetConnectionPoint.
    rewrite Hid, (assembly_found _ _ _ _ _ _ Has Hj). cbn [mbind option_bind].
    rewrite (assembly_data _ _ _ _ _ _ _ Has Hj Ha). cbn [mbind option_bind].
    set (o' := set_consumed_path _ _). exists o'. split; [done |].
    change (carried_size o' run_idle (ba_length b =? 0) (ConnectionObjectGetOToTConnectionSize o'))
      with (carried_size o run_idle (ba_length b =? 0) o_size).
    pose proof (carried_size_reported o run_idle (ba_length b) o_size Hb
      (connection_size_nonneg _ _)) as E.
    destruct (carried_size o _ _ _) as [rest diff]. destruct E as [-> E]. unfold told.
    rewrite <-E. fold need. by destruct (o_size =? need).
  - intros Hid Hm. unfold SetupIoConnectionTargetToOriginatorConnectionPoint, check_multicast.
    unfold is_type. rewrite bool_decide_false by congruence. cbn [mbind option_bind Z.eqb negb].
    rewrite Hid, (assembly_found _ _ _ _ _ _ Has Hj). cbn [mbind option_bind].
    rewrite (assembly_data _ _ _ _ _ _ _ Has Hj Ha). cbn [mbind option_bind].
    set (o' := set_produced_path _ _). exists o'. split; [done |].
    change (carried_size o' run_idle (ba_length b =? 0) (ConnectionObjectGetTToOConnectionSize o'))
      with (carried_size o run_idle (ba_length b =? 0) t_size).
    pose proof (carried_size_reported o run_idle (ba_length b) t_size Hb
      (connection_size_nonneg _ _)) as E.
    destruct (carried_size o _ _ _) as [rest diff]. destruct E as [-> E]. unfold told.
    rewrite <-E. fold need. by destruct (t_size =? need).
  - intros size. unfold told, need, reported_size, overhead.
    destruct (is_class1 o), run_idle, (Z.eqb_spec (ba_length b) 0); cbn [andb negb];
      try (destruct (Z.leb_spec size 2)); try (destruct (Z.leb_spec size 0)); cbn [andb];
      (split; [intros ?; first [exfalso; lia | split_and!; done || lia] |
              intros (? & ? & ?); first [congruence | lia]]).
Qed.

End Ends.

(** ** Examples *)

(** A class 1, point-to-point exclusive owner: [size] bytes to assembly 150, four
    bytes and the sequence count from assembly 100. *)
Definition exclusive_request (size : Z) : CipConnectionObject :=
  set_instance_type kConnectionObjectInstanceTypeIOExclusiveOwner
    (set_transport_class_trigger 0x01
      (set_consumed_path (mkPathEpath kCipAssemblyClassCode 150 0)
        (set_produced_path (mkPathEpath kCipAssemblyClassCode 100 0)
          (set_o_to_t_network_connection_parameters (0x4000 + size)
            (set_t_to_o_network_connection_parameters (0x4000 + 6) zero_connection))))).

(** Two bytes are too small for a run/idle header: the device reports five bytes for
    an assembly that needs nine. *)
Lemma io_connection_sizes_witness :
  (∃ o d, @SetupIoConnectionOriginatorToTargetConnectionPoint true assembly_example
            (exclusive_request 9) zero_connection = Some (0, o, d)) ∧
  (∃ o, @SetupIoConnectionOriginatorToTargetConnectionPoint true assembly_example
            (exclusive_request 2) zero_connection
        = Some (0x127, o, set_correct_originator_to_target_size 5 zero_connection)).
Proof.
  destruct assembly_example_spec as [Has Ho]. split.
  - destruct (@io_connection_sizes quiet_application 0
      [(100, 500%nat); (150, 501%nat); (151, 502%nat)] assembly_example 1 150 501
      (mkByteArray 3 (Some [2; 2; 2])) true (exclusive_request 9) zero_connection io_manager)
      as [H1 _].
    { exact Has. } { reflexivity. } { exact Ho. } { simpl; lia. }
    destruct (H1 eq_refl) as (o & _ & E). exists o, zero_connection. rewrite E. reflexivity.
  - destruct (@io_connection_sizes quiet_application 0
      [(100, 500%nat); (150, 501%nat); (151, 502%nat)] assembly_example 1 150 501
      (mkByteArray 3 (Some [2; 2; 2])) true (exclusive_request 2) zero_connection io_manager)
      as [H1 _].
    { exact Has. } { reflexivity. } { exact Ho. } { simpl; lia. }
    destruct (H1 eq_refl) as (o & _ & E). exists o. rewrite E. reflexivity.
Defined.
