(* ===== verification/IoData.v ===== *)
(** * Data of I/O connections: [cip/cipioconnection.c], [cip/cipconnectionmanager.c]

    Sending the data of the producing assembly ([SendConnectedData]) and handling a
    received datagram ([HandleReceivedConnectedData] and
    [HandleReceivedIoConnectionData]).  The theorems relate the two: what a producer
    sends, the consumer's assembly holds. *)

From S2P Require Import Prelude EndianConv EPath CipStrings CipTypes CipCodec CipClasses CipServices Identity Assembly.
From S2P Require Import MessageRouter SocketTimer ConnRecord ConnObject ConnList LinkedList AppConType IoClose EncapData Cpf ConnPath ConnService IoOpen.
From stdpp Require Import strings.
Open Scope Z_scope.

(** ** Sequence counts *)

Definition SEQ_LEQ16 (a b : Z) : bool := s16 (a - b) <=? 0.
Definition SEQ_GT32 (a b : Z) : bool := 0 <? s32 (a - b).

(** [kRunBitMask] *)
Definition kRunBitMask : Z := 0x0001.

(** ** The application *)

(** [RunIdleChanged] may use everything behind the connections, [HandleApplication]
    the whole device. *)
Class RunIdleApplication := {
  RunIdleChanged : Z → DeviceState → DeviceState;
  HandleApplication : DeviceWorld → DeviceWorld }.

Section IoData.
Context `{IoPlatform} `{AssemblyApplication} `{RunIdleApplication}.

(** The extended device status is an attribute of the identity object. *)
Definition set_extended_device_status (status : Z) (d : DeviceState) : DeviceState :=
  let g := CipIdentitySetExtendedDeviceStatus status (g_identity d) in
  set_device_identity g (set_device_stack (store_identity g (cip_stack d)) d).

(** ** Sending *)

Definition transport_class (o : CipConnectionObject) :=
  ConnectionObjectGetTransportClassTriggerTransportClass o.

(** The address item of a datagram; class 0 has no sequence number, the old one stays. *)
Definition io_address (o : CipConnectionObject) (old : AddressItem) : AddressItem :=
  if bool_decide (kConnectionObjectTransportClassTriggerTransportClass0 ≠ transport_class o)
  then mkAddressItem kCipItemIdSequencedAddressItem 8 (cip_produced_connection_id o)
         (eip_level_sequence_count_producing o)
  else mkAddressItem kCipItemIdConnectionAddress 4 (cip_produced_connection_id o)
         (sequence_number old).

(** Writes length, sequence count, run/idle header and data behind the data item's
    type. *)
Definition write_io_data (o : CipConnectionObject) (run_idle : bool) (run_idle_state : Z)
    (a : CipByteArray) (m : ENIPMessage) : option (Z * ENIPMessage) :=
  let header := run_idle && negb (ba_length a =? 0) in
  let len := if header then u16 (ba_length a + 4) else ba_length a in
  '(len, m) ←
    (if is_class1 o then
       let len := u16 (len + 2) in
       m ← AddIntToMessage len m;
       m ← AddIntToMessage (sequence_count_producing o) m;
       Some (len, m)
     else m ← AddIntToMessage len m; Some (len, m));
  m ← (if header then AddDintToMessage run_idle_state m else Some m);
  bs ← (if ba_length a =? 0 then Some []
        else p ← ba_data a; load_n p (Z.to_nat (ba_length a)));
  m ← copy_in bs m;
  Some (len, add_used (ba_length a) (move_position (ba_length a) m)).

(** The port's [SendUdpData]. *)
Definition SendUdpData (address : SockAddr) (m : ENIPMessage) (w : DeviceWorld)
  : EipStatus * DeviceWorld :=
  (send_result address (wire m),
   update_io (λ i, mkIoState (io_points i) (g_run_idle_state i) (s_consume_run_idle i)
                     (s_produce_run_idle i) ((address, wire m) :: sent_udp i)) w).

(** The producing instance belongs to the assembly class.  The pointer to its data
    is fetched before the application's callback, length and bytes after it. *)
Definition SendConnectedData (c : nat) (w : DeviceWorld) : option (EipStatus * DeviceWorld) :=
  o ← connection_pool (connections w) !! c;
  let o := set_eip_level_sequence_count_producing
             (u32 (eip_level_sequence_count_producing o + 1)) o in
  let d := set_item_count 2 (g_cpf w) in
  let d := set_address_item (io_address o (address_item d)) d in
  let d := set_data_item (mkDataItem kCipItemIdConnectedDataItem 0
                            (data_pointer (data_item d))) d in
  let s := cip_stack (stack w) in
  p ← producing_instance o;
  n ← GetCipClass s kCipAssemblyClassCode;
  i ← get_instance n p s;
  '(ptr, _) ← assembly_array n i s;
  let '(changed, objs) := BeforeAssemblyDataSend i (objects s) in
  let s := mkStack (classes s) objs in
  let o := if changed : bool
           then set_sequence_count_producing (u16 (sequence_count_producing o + 1)) o else o in
  let d := set_infos (set_info_type 0 (address_info_item d).1,
                      set_info_type 0 (address_info_item d).2) d in
  m ← AssembleIOMessage host_order d d InitializeENIPMessage;
  a ← match load_data n ptr s with Some (DByteArray a) => Some a | _ => None end;
  '(len, m) ← write_io_data o (CipRunIdleHeaderGetT2O w) (g_run_idle_state (io_state (stack w)))
                a (MoveMessageNOctets (-2) m);
  let d := set_data_item (mkDataItem kCipItemIdConnectedDataItem len
                            (data_pointer (data_item d))) d in
  Some (SendUdpData (remote_address o) m
          (set_stack (set_device_stack s (stack w))
             (set_cpf d (set_connections (set_connection c o (connections w)) w)))).

(** ** Receiving *)

(** The run/idle header: its effects and the value. *)
Definition store_run_idle (v : Z) (d : DeviceState) : DeviceState :=
  let d := set_extended_device_status
             (if kRunBitMask .& v =? 1 then kAtLeastOneIoConnectionInRunMode
              else kAtLeastOneIoConnectionEstablishedAllInIdleMode) d in
  let d := if negb (g_run_idle_state (io_state d) =? v) then RunIdleChanged v d else d in
  let i := io_state d in
  set_device_io (mkIoState (io_points i) v (s_consume_run_idle i) (s_produce_run_idle i)
                   (sent_udp i)) d.

Definition HandleReceivedIoConnectionData (c : nat) (data : list Z) (data_length : Z)
    (w : DeviceWorld) : option (EipStatus * DeviceWorld) :=
  o ← connection_pool (connections w) !! c;
  '(no_new_data, data, data_length, w) ←
    (if is_class1 o then
       '(sequence, data) ← GetUintFromMessage data;
       let no_new_data := SEQ_LEQ16 sequence (sequence_count_consuming o) in
       let o := set_sequence_count_consuming sequence o in
       Some (no_new_data, data, u16 (data_length - 2),
             set_connections (set_connection c o (connections w)) w)
     else Some (false, data, data_length, w));
  if 0 <? data_length then
    '(data, data_length, w) ←
      (if CipRunIdleHeaderGetO2T w then
         '(v, data) ← GetUdintFromMessage data;
         Some (data, u16 (data_length - 4), set_stack (store_run_idle v (stack w)) w)
       else Some (data, data_length, w));
    if no_new_data : bool then Some (kEipStatusOk, w) else
    o ← connection_pool (connections w) !! c;
    p ← consuming_instance o;
    let s := cip_stack (stack w) in
    n ← GetCipClass s kCipAssemblyClassCode;
    '(status, s) ← NotifyAssemblyConnectedDataReceived n p data data_length s;
    Some (if bool_decide (status = kEipStatusOk) then kEipStatusOk else kEipStatusError,
          set_stack (set_device_stack s (stack w)) w)
  else Some (kEipStatusOk, w).

(** [connection_object->connection_receive_data_function], if there is one. *)
Definition receive_data (c : nat) (data : list Z) (data_length : Z) (w : DeviceWorld)
  : option (EipStatus * DeviceWorld) :=
  o ← connection_pool (connections w) !! c;
  match connection_receive_data_function o with
  | None => Some (kEipStatusOk, w)
  | Some k =>
      if (k =? kHandleReceivedIoConnectionData)%nat
      then HandleReceivedIoConnectionData c data data_length w else None
  end.

Definition HandleReceivedConnectedData (data : list Z) (data_length : Z)
    (from_address : SockAddr) (w : DeviceWorld) : option (EipStatus * DeviceWorld) :=
  '(status, d) ← CreateCommonPacketFormatStructure data data_length (g_cpf w);
  let w := set_cpf d w in
  if bool_decide (status = kEipStatusError) then Some (kEipStatusError, w)
  else if ((address_type_id (address_item d) =? kCipItemIdConnectionAddress)
           || (address_type_id (address_item d) =? kCipItemIdSequencedAddressItem))
          && (data_type_id (data_item d) =? kCipItemIdConnectedDataItem) then
    connection ← GetConnectedObject (connection_identifier (address_item d)) (connections w);
    match connection with
    | None => Some (kEipStatusError, w)
    | Some c =>
        o ← connection_pool (connections w) !! c;
        if sin_addr (originator_address o) =? sin_addr from_address then
          o ← ConnectionObjectResetLastPackageInactivityTimerValue o;
          let sequence := sequence_number (address_item d) in
          if SEQ_GT32 sequence (eip_level_sequence_count_consuming o)
             || negb (eip_first_level_sequence_count_received o) then
            o ← ConnectionObjectResetInactivityWatchdogTimerValue o;
            let o := set_eip_first_level_sequence_count_received true
                       (set_eip_level_sequence_count_consuming sequence o) in
            data ← data_pointer (data_item d);
            receive_data c data (data_item_length (data_item d))
              (set_connections (set_connection c o (connections w)) w)
          else Some (kEipStatusOk, set_connections (set_connection c o (connections w)) w)
        else Some (kEipStatusOk, w)
    end
  else Some (kEipStatusOk, w).
End IoData.

(** ** Lemmas: the datagram *)

(** The bytes of a datagram up to the type of its data item. *)
Definition io_head (d : CipCommonPacketFormatData) : list Z :=
  le_bytes 2 (item_count d) ++ address_bytes d ++ le_bytes 2 (data_type_id (data_item d)).

Lemma writes_AssembleIOMessage e d :
  address_known d → no_sockaddr d → data_type_id (data_item d) = kCipItemIdConnectedDataItem →
  data_item_length (data_item d) = 0 →
  writes (AssembleIOMessage e d d) (io_head d ++ le_bytes 2 0).
Proof.
  intros Ha Hno Hd Hl pre m. unfold AssembleIOMessage, AssembleLinearMessage.
  cbn [mbind option_bind]. cbv zeta. rewrite Ha, Hd.
  transitivity (m ← put pre m; m ← EncodeItemCount d m;
    m ← (if address_type_id (address_item d) =? kCipItemIdNullAddress then EncodeNullAddressItem m
         else if address_type_id (address_item d) =? kCipItemIdConnectionAddress
         then EncodeConnectedAddressItem d m else EncodeSequencedAddressItem d m);
    m ← EncodeDataItemType d m; m ← EncodeDataItemLength d m; EncodeDataItemData d m).
  - destruct (put pre m) as [m1|]; [|done]. cbn [mbind option_bind].
    destruct (EncodeItemCount d m1) as [m2|]; [|done]. cbn [mbind option_bind].
    destruct (if address_type_id _ =? kCipItemIdNullAddress then _ else _) as [m3|]; [|done].
    change ((kCipItemIdConnectedDataItem =? kCipItemIdUnconnectedDataItem)
            || (kCipItemIdConnectedDataItem =? kCipItemIdConnectedDataItem)) with true.
    cbn [mbind option_bind]. destruct (EncodeDataItemType d m3) as [m4|]; [|done].
    cbn [mbind option_bind]. destruct (EncodeDataItemLength d m4) as [m5|]; [|done].
    cbn [mbind option_bind]. destruct (EncodeDataItemData d m5) as [m6|]; [|done].
    cbn [mbind option_bind]. rewrite encode_no_sockaddr by (done || discriminate).
    cbn [mbind option_bind]. by rewrite encode_no_sockaddr by (done || discriminate).
  - rewrite (writes_step _ _ _ _ _ (writes_Int (item_count d) : writes (EncodeItemCount d) _)).
    rewrite (writes_step _ _ _ _ _ (writes_address_item d Ha)).
    rewrite (writes_step _ _ _ _ _ (writes_Int _ : writes (EncodeDataItemType d) _)).
    rewrite (writes_step _ _ _ _ _ (writes_Int _ : writes (EncodeDataItemLength d) _)).
    rewrite (writes_no_data d Hl). unfold io_head. rewrite Hl, Hd, app_nil_r.
    by rewrite <-!(assoc_L (++)).
Qed.

(** Taking the two bytes of the length back. *)
Lemma holds_back out v m :
  holds (out ++ le_bytes 2 v) m → holds out (MoveMessageNOctets (-2) m).
Proof.
  destruct m as [buf p u]. intros (Hwf & Hp & Hu & Ht).
  rewrite length_app, length_le_bytes in Hp, Hu, Ht.
  cbn [current_message_position used_message_length message_buffer] in Hp, Hu, Ht.
  assert (Hlen : Z.of_nat (length out) <= 512).
  { pose proof (f_equal length Ht) as Hl. destruct Hwf as (Hb & _).
    unfold PC_OPENER_ETHERNET_BUFFER_SIZE in Hb. cbn [message_buffer] in Hb.
    rewrite length_take, length_app, length_le_bytes in Hl. lia. }
  unfold MoveMessageNOctets, add_used, move_position. cbn.
  assert (Hused : u64 (u + -2) = Z.of_nat (length out))
    by (rewrite u64_id; unfold is_u64; lia).
  split; [|split; [|split]]; cbn.
  - destruct Hwf as (? & ? & _). split; [done |]. split; [done |]. cbn. rewrite Hused.
    unfold is_u64. lia.
  - rewrite Hp. cbn. f_equal. lia.
  - exact Hused.
  - rewrite <-(take_app_length out (le_bytes 2 v)) at 2. rewrite <-Ht, take_take.
    f_equal. lia.
Qed.

(** What follows the length of the data item. *)
Definition io_payload (o : CipConnectionObject) (run_idle : bool) (state : Z) (bs : list Z)
  : list Z :=
  (if is_class1 o then le_bytes 2 (sequence_count_producing o) else [])
  ++ (if run_idle && negb (Z.of_nat (length bs) =? 0) then le_bytes 4 state else []) ++ bs.

Lemma length_io_payload o run_idle state bs :
  Z.of_nat (length (io_payload o run_idle state bs))
  = Z.of_nat (length bs) + overhead o run_idle (Z.of_nat (length bs)).
Proof.
  unfold io_payload, overhead. rewrite !length_app.
  destruct (is_class1 o), (run_idle && _); rewrite ?length_le_bytes; cbn [length]; lia.
Qed.

(** The two parts a run/idle header and the data make. *)
Lemma put_io_data bs len n m0 :
  n = Z.of_nat (length bs) →
  (m ← copy_in bs m0; Some (len : Z, add_used n (move_position n m))) = (m ← put bs m0; Some (len, m)).
Proof. intros ->. rewrite <-(copy_used_put bs _ m0 eq_refl). by destruct (copy_in bs m0). Qed.

Lemma write_io_data_put o run_idle state a bs m :
  holds_array bs a → let payload := io_payload o run_idle state bs in
  Z.of_nat (length payload) <= 65535 →
  write_io_data o run_idle state a m
  = (m ← put (le_bytes 2 (Z.of_nat (length payload)) ++ payload) m;
     Some (Z.of_nat (length payload), m)).
Proof.
  intros [Hl [rest Hd]] payload Hfit. unfold payload in *. rewrite length_io_payload in Hfit |- *.
  unfold write_io_data, io_payload. rewrite Hl. unfold overhead in *.
  assert (Hload : (if Z.of_nat (length bs) =? 0 then Some []
     else p ← ba_data a; load_n p (Z.to_nat (Z.of_nat (length bs)))) = Some bs).
  { destruct (Z.eqb_spec (Z.of_nat (length bs)) 0); [by destruct bs |].
    rewrite Hd. cbn [mbind option_bind]. rewrite Nat2Z.id. by apply load_n_app. }
  rewrite Hload. clear Hload.
  destruct (is_class1 o), (run_idle && negb (Z.of_nat (length bs) =? 0));
    rewrite ?app_nil_l, ?Z.add_0_l, ?Z.add_0_r in *;
    rewrite ?(u16_id (_ + 4)), ?(u16_id (_ + 2)) by (unfold is_u16; lia);
    rewrite <-?Z.add_assoc; rewrite ?(Z.add_comm 4 2); rewrite <-!put_app;
    rewrite AddIntToMessage_put;
    repeat (destruct (put (le_bytes _ _) _) as [?|]; [|done]; cbn [mbind option_bind];
            rewrite <-?put_app, ?AddIntToMessage_put, ?AddDintToMessage_put);
    cbn [mbind option_bind]; try done; by apply put_io_data.
Qed.

(** ** What a producer sends *)

Section SendSpec.
Context `{IoPlatform} `{AssemblyApplication}.

(** The connection after a datagram; the application says whether the data changed. *)
Definition produced (changed : bool) (o : CipConnectionObject) : CipConnectionObject :=
  let o := set_eip_level_sequence_count_producing
             (u32 (eip_level_sequence_count_producing o + 1)) o in
  if changed then set_sequence_count_producing (u16 (sequence_count_producing o + 1)) o else o.

(** The datagram of connection [o] with the data [bs]. *)
Definition io_datagram (o : CipConnectionObject) (old : AddressItem) (run_idle : bool)
    (state : Z) (bs : list Z) : list Z :=
  packet_bytes (io_address o old) kCipItemIdConnectedDataItem (io_payload o run_idle state bs).

Lemma io_address_produced changed o old :
  io_address (set_eip_level_sequence_count_producing
                (u32 (eip_level_sequence_count_producing o + 1)) o) old
  = io_address (produced changed o) old.
Proof. by destruct changed. Qed.

Lemma packet_head o old d payload :
  address_item d = io_address o old → item_count d = 2 →
  data_type_id (data_item d) = kCipItemIdConnectedDataItem →
  packet_bytes (io_address o old) kCipItemIdConnectedDataItem payload
  = io_head d ++ le_bytes 2 (Z.of_nat (length payload)) ++ payload.
Proof.
  intros Ha Hn Ht. unfold packet_bytes, io_head, address_bytes. cbv zeta. rewrite Ha, Hn, Ht.
  unfold io_address. by case_bool_decide; rewrite <-!(assoc_L (++)).
Qed.

Lemma io_address_known o old d : address_item d = io_address o old → address_known d.
Proof. intros Ha. unfold address_known. rewrite Ha. unfold io_address. by case_bool_decide. Qed.

Lemma bytes_io_payload o run_idle state bs : bytes bs → bytes (io_payload o run_idle state bs).
Proof.
  intros Hb. unfold io_payload.
  apply bytes_app. split; [|apply bytes_app; split; [|done]].
  - destruct (is_class1 o); [apply le_bytes_bytes | constructor].
  - destruct (run_idle && _); [apply le_bytes_bytes | constructor].
Qed.

(** Assembling and filling the message; [d] is the item as it is sent. *)
Lemma io_message_spec e d o old run_idle state a bs :
  address_item d = io_address o old → item_count d = 2 →
  data_type_id (data_item d) = kCipItemIdConnectedDataItem →
  data_item_length (data_item d) = 0 → no_sockaddr d →
  holds_array bs a → bytes bs → Z.of_nat (length bs) <= 65000 →
  let payload := io_payload o run_idle state bs in
  let datagram := io_datagram o old run_idle state bs in
  let message :=
    m ← AssembleIOMessage e d d InitializeENIPMessage;
    write_io_data o run_idle state a (MoveMessageNOctets (-2) m) in
  if Z.of_nat (length datagram) <=? 512
  then ∃ m, message = Some (Z.of_nat (length payload), m) ∧ wire m = datagram
  else message = None.
Proof.
  intros Ha Hn Ht Hl Hno Harr Hb Hlen payload datagram message.
  assert (Hd : datagram = io_head d ++ le_bytes 2 (Z.of_nat (length payload)) ++ payload)
    by (by apply packet_head).
  assert (Hhead : bytes (io_head d ++ le_bytes 2 0) ∧ (length (io_head d) <= 18)%nat).
  { unfold io_head, address_bytes. cbv zeta. rewrite Ha. split.
    - repeat case_match; repeat (apply bytes_app; split); apply le_bytes_bytes.
    - rewrite !length_app, !length_le_bytes. repeat case_match;
        rewrite ?length_app, ?length_le_bytes; lia. }
  destruct Hhead as [Hbh Hlh].
  assert (Hlp : Z.of_nat (length payload) <= 65535).
  { unfold payload. rewrite length_io_payload. unfold overhead.
    destruct (is_class1 o), (run_idle && _); lia. }
  destruct (writes_holds (AssembleIOMessage e d d) (io_head d ++ le_bytes 2 0) []
    InitializeENIPMessage) as (m & E & Hm);
    [by apply writes_AssembleIOMessage; [apply (io_address_known o old) | ..] | done
    | apply holds_init | rewrite app_nil_l, length_app, length_le_bytes; lia |].
  unfold message. rewrite E. cbn [mbind option_bind]. apply holds_back in Hm.
  rewrite (write_io_data_put _ _ _ _ bs) by done. fold payload.
  destruct (Z.leb_spec (Z.of_nat (length datagram)) 512) as [Hfit|Hfit]; rewrite Hd in Hfit.
  - destruct (holds_put _ (le_bytes 2 (Z.of_nat (length payload)) ++ payload) _ Hm)
      as (m1 & E1 & Hm1); [| exact Hfit |].
    { apply bytes_app. split; [apply le_bytes_bytes | by apply bytes_io_payload]. }
    exists m1. rewrite E1. split; [done |]. rewrite Hd. by apply (holds_wire _ _ Hm1).
  - by rewrite (holds_put_overflow _ _ _ Hm) by exact Hfit.
Qed.

(** C35.  A datagram carries what the connection's assembly holds after the
    application's callback: address item, length, sequence count (class 1) and
    run/idle header (unless it is a heartbeat) are exactly those of the advanced
    connection, and only its counters and the message state change.  If all this is
    longer than the 512 bytes of the message, the copy overruns it. *)
Theorem SendConnectedData_spec n p e c o w b changed objs a bs :
  GetCipClass (cip_stack (stack w)) kCipAssemblyClassCode = Some n →
  get_instance n p (cip_stack (stack w)) = Some (assembly_instance n e) →
  connection_pool (connections w) !! c = Some o →
  producing_instance o = Some p →
  objects (cip_stack (stack w)) !! e.2 = Some (DByteArray b) →
  BeforeAssemblyDataSend (assembly_instance n e) (objects (cip_stack (stack w)))
  = (changed, objs) →
  objs !! e.2 = Some (DByteArray a) → holds_array bs a → bytes bs →
  Z.of_nat (length bs) <= 65000 →
  let o' := produced changed o in
  let i := io_state (stack w) in
  let datagram := io_datagram o' (address_item (g_cpf w)) (s_produce_run_idle i)
                    (g_run_idle_state i) bs in
  if Z.of_nat (length datagram) <=? 512 then
    ∃ w', SendConnectedData c w = Some (send_result (remote_address o) datagram, w') ∧
      connections w' = set_connection c o' (connections w) ∧
      sent_udp (io_state (stack w')) = (remote_address o, datagram) :: sent_udp i ∧
      cip_stack (stack w') = mkStack (classes (cip_stack (stack w))) objs
  else SendConnectedData c w = None.
Proof.
  intros Hr Hi Hc Hp Hb Hcb Ha Harr Hbs Hlen o' i datagram.
  unfold SendConnectedData. rewrite Hc. cbn [mbind option_bind]. cbv zeta.
  change (producing_instance (set_eip_level_sequence_count_producing _ o))
    with (producing_instance o). rewrite Hp. cbn [mbind option_bind].
  rewrite Hr. cbn [mbind option_bind]. rewrite Hi. cbn [mbind option_bind].
  unfold assembly_array. cbn [assembly_instance assembly_attributes attributes lookup
    list_lookup mbind option_bind CipTypes.data load_data]. rewrite Hb. cbn [mbind option_bind].
  rewrite Hcb. set (d := set_infos _ _).
  assert (Hld : (match load_data n (Object e.2) (mkStack (classes (cip_stack (stack w))) objs) with
     | Some (DByteArray a) => Some a | _ => None end) = Some a).
  { unfold load_data. cbn [objects]. by rewrite Ha. }
  set (x := if changed then _ else _). change x with o'. clear x.
  assert (Haddr : address_item d = io_address o' (address_item (g_cpf w)))
    by apply io_address_produced.
  pose proof (io_message_spec host_order d o' (address_item (g_cpf w)) (s_produce_run_idle i)
    (g_run_idle_state i) a bs Haddr eq_refl eq_refl eq_refl (conj eq_refl eq_refl)
    Harr Hbs Hlen) as Hm. cbv zeta in Hm. fold datagram in Hm.
  change (CipRunIdleHeaderGetT2O w) with (s_produce_run_idle i). fold i.
  destruct (AssembleIOMessage host_order d d InitializeENIPMessage) as [m|];
    cbn [mbind option_bind] in Hm |- *; [rewrite Hld; cbn [mbind option_bind] |];
    destruct (Z.of_nat (length datagram) <=? 512); try done.
  - destruct Hm as (m' & -> & Hw). cbn [mbind option_bind].
    assert (Hra : remote_address o' = remote_address o)
      by (unfold o', produced; by destruct changed).
    unfold SendUdpData. rewrite Hw, Hra. eexists. split; [reflexivity |]. by split_and!.
  - by rewrite Hm.
  - by destruct Hm as (? & ? & _).
Qed.
End SendSpec.

(** ** What a consumer accepts *)

Section ReceiveSpec.
Context `{IoPlatform} `{AssemblyApplication} `{RunIdleApplication}.

(** The timers a datagram resets: that of the last packet in any case, the watchdog
    if the datagram is new. *)
Definition heard (o : CipConnectionObject) : CipConnectionObject :=
  set_last_package_watchdog_timer (o_to_t_requested_packet_interval o / 1000
     * (4 * 2 ^ connection_timeout_multiplier o)) o.

Definition accepted_packet (sequence : Z) (o : CipConnectionObject) : CipConnectionObject :=
  set_eip_first_level_sequence_count_received true
    (set_eip_level_sequence_count_consuming sequence (watchdog_reset (heard o))).

Definition new_packet (sequence : Z) (o : CipConnectionObject) : bool :=
  SEQ_GT32 sequence (eip_level_sequence_count_consuming o)
  || negb (eip_first_level_sequence_count_received o).

Definition with_connection (c : nat) (o : CipConnectionObject) (w : DeviceWorld) : DeviceWorld :=
  set_connections (set_connection c o (connections w)) w.

(** A datagram with connected data for connection [c]. *)
Lemma HandleReceivedConnectedData_eq a payload rest c o from (w : DeviceWorld) :
  address_wf a → (address_type_id a = kCipItemIdConnectionAddress ∨
                  address_type_id a = kCipItemIdSequencedAddressItem) → 4 <= address_length a →
  Z.of_nat (length payload) <= 65000 →
  GetConnectedObject (connection_identifier a) (connections w) = Some (Some c) →
  connection_pool (connections w) !! c = Some o → timing_wf o →
  let data := packet_bytes a kCipItemIdConnectedDataItem payload in
  let d := received_packet a kCipItemIdConnectedDataItem payload rest (g_cpf w) in
  let sequence := sequence_number (address_item d) in
  HandleReceivedConnectedData (data ++ rest) (Z.of_nat (length data)) from w
  = if sin_addr (originator_address o) =? sin_addr from then
      if new_packet sequence o
      then receive_data c (payload ++ rest) (Z.of_nat (length payload))
             (with_connection c (accepted_packet sequence o) (set_cpf d w))
      else Some (kEipStatusOk, with_connection c (heard o) (set_cpf d w))
    else Some (kEipStatusOk, set_cpf d w).
Proof.
  intros Ha Ht Hal Hlen Hf Ho Hw data d sequence. unfold HandleReceivedConnectedData, data.
  rewrite CreateCPF_two_items by (done || by split). fold d. cbn [mbind option_bind]. cbv zeta.
  change (data_type_id (data_item d) =? kCipItemIdConnectedDataItem) with true.
  change (address_type_id (address_item d)) with (address_type_id a).
  rewrite bool_decide_false by done.
  replace (_ || _) with true by (destruct Ht as [-> | ->]; done). cbn [andb].
  assert (Hid : connection_identifier (address_item d) = connection_identifier a).
  { unfold d, received_packet, received_address. cbn [address_item connection_identifier].
    by rewrite (proj2 (Z.leb_le _ _) Hal). }
  rewrite Hid. change (connections (set_cpf d w)) with (connections w). rewrite Hf.
  cbn [mbind option_bind]. rewrite Ho. cbn [mbind option_bind].
  destruct (_ =? sin_addr from); [|done].
  unfold ConnectionObjectResetLastPackageInactivityTimerValue.
  destruct Hw as [Hm Hr]. rewrite watchdog_value by done. cbn [mbind option_bind].
  fold (heard o). fold sequence.
  change (eip_level_sequence_count_consuming (heard o)) with (eip_level_sequence_count_consuming o).
  change (eip_first_level_sequence_count_received (heard o))
    with (eip_first_level_sequence_count_received o).
  fold (new_packet sequence o). destruct (new_packet sequence o); [|done].
  rewrite reset_watchdog_eq by (by split). reflexivity.
Qed.

(** Class 1 data are new if their sequence count is ahead. *)
Definition new_data (o : CipConnectionObject) (count : Z) : bool :=
  negb (is_class1 o && SEQ_LEQ16 count (sequence_count_consuming o)).

Definition counted (o : CipConnectionObject) (count : Z) : CipConnectionObject :=
  if is_class1 o then set_sequence_count_consuming count o else o.

Lemma receive_io_payload p run_idle state bs rest c o j (w : DeviceWorld) :
  connection_pool (connections w) !! c = Some o →
  connection_receive_data_function o = Some kHandleReceivedIoConnectionData →
  consuming_instance o = Some j →
  is_class1 p = is_class1 o → CipRunIdleHeaderGetO2T w = run_idle →
  is_u16 (sequence_count_producing p) → is_u32 state → Z.of_nat (length bs) <= 65000 →
  let payload := io_payload p run_idle state bs in
  let w1 := if is_class1 o
            then with_connection c (counted o (sequence_count_producing p)) w else w in
  let w2 := if run_idle then set_stack (store_run_idle state (stack w1)) w1 else w1 in
  receive_data c (payload ++ rest) (Z.of_nat (length payload)) w
  = if Z.of_nat (length bs) =? 0 then Some (kEipStatusOk, w1)
    else if new_data o (sequence_count_producing p) then
      n ← GetCipClass (cip_stack (stack w2)) kCipAssemblyClassCode;
      '(status, s) ← NotifyAssemblyConnectedDataReceived n j (bs ++ rest)
                       (Z.of_nat (length bs)) (cip_stack (stack w2));
      Some (if bool_decide (status = kEipStatusOk) then kEipStatusOk else kEipStatusError,
            set_stack (set_device_stack s (stack w2)) w2)
    else Some (kEipStatusOk, w2).
Proof.
  intros Ho Hk Hj Hc Hr Hs Hst Hlen payload w1 w2. unfold receive_data. rewrite Ho.
  cbn [mbind option_bind]. rewrite Hk. cbn [Nat.eqb kHandleReceivedIoConnectionData].
  unfold HandleReceivedIoConnectionData. rewrite Ho. cbn [mbind option_bind].
  set (header := run_idle && negb (Z.of_nat (length bs) =? 0)).
  set (body := (if header then le_bytes 4 state else []) ++ bs).
  assert (Hb : Z.of_nat (length body) = (if header then 4 else 0) + Z.of_nat (length bs)).
  { unfold body. rewrite length_app. destruct header; rewrite ?length_le_bytes; cbn [length]; lia. }
  assert (Step : (if is_class1 o then
       '(sequence, data) ← GetUintFromMessage (payload ++ rest);
       Some (SEQ_LEQ16 sequence (sequence_count_consuming o), data,
             u16 (Z.of_nat (length payload) - 2),
             set_connections (set_connection c (set_sequence_count_consuming sequence o)
                                (connections w)) w)
     else Some (false, payload ++ rest, Z.of_nat (length payload), w))
    = Some (negb (new_data o (sequence_count_producing p)), body ++ rest,
            Z.of_nat (length body), w1)).
  { unfold payload, io_payload, w1, new_data, counted. rewrite Hc. fold header. fold body.
    destruct (is_class1 o); [|by rewrite app_nil_l].
    rewrite <-(assoc_L (++)), GetUint_le, (u16_id (sequence_count_producing p)) by done.
    cbn [mbind option_bind andb]. cbv zeta.
    rewrite negb_involutive, length_app, length_le_bytes.
    replace (Z.of_nat (2 + length body) - 2) with (Z.of_nat (length body)) by lia.
    rewrite u16_id; [done |]. unfold is_u16. destruct header; lia. }
  rewrite Step. clear Step. cbn [mbind option_bind]. rewrite Hb.
  assert (Hget : CipRunIdleHeaderGetO2T w1 = run_idle) by (rewrite <-Hr; unfold w1; by destruct (is_class1 o)).
  assert (Hcons : ∃ o', connection_pool (connections w2) !! c = Some o' ∧ consuming_instance o' = Some j).
  { destruct (decide (is_class1 o = true)) as [Ec|Ec%not_true_is_false];
      unfold w2, w1, counted; rewrite Ec; destruct run_idle;
      cbn [with_connection set_stack set_connections connections set_connection connection_pool];
      rewrite ?lookup_insert_eq; by eexists. }
  destruct (Z.eqb_spec (Z.of_nat (length bs)) 0) as [E|E].
  { unfold header. rewrite E, andb_false_r. reflexivity. }
  rewrite (proj2 (Z.ltb_lt _ _)) by (destruct header; lia). rewrite Hget.
  replace (if header then 4 else 0) with (if run_idle then 4 else 0) in *
    by (unfold header; by destruct run_idle).
  replace body with ((if run_idle then le_bytes 4 state else []) ++ bs)
    by (unfold body, header; by destruct run_idle).
  clearbody header body. rewrite <-(assoc_L (++)).
  destruct run_idle; rewrite ?GetUdint_le, ?(u32_id state), ?app_nil_l by done;
    cbn [mbind option_bind]; fold w2;
    [replace (u16 (4 + Z.of_nat (length bs) - 4)) with (Z.of_nat (length bs))
       by (rewrite u16_id; unfold is_u16; lia) | rewrite Z.add_0_l];
    (destruct (new_data o _); [|done]); cbn [negb];
    destruct Hcons as (o' & -> & Hj'); cbn [mbind option_bind]; by rewrite Hj'.
Qed.
End ReceiveSpec.

(** ** From producer to consumer *)

Section Transfer.
Context `{IoPlatform} `{AssemblyApplication} `{RunIdleApplication}.

(** Connection [c], object [o], consumes data for an assembly that holds [held]. *)
Record io_consumer (w : DeviceWorld) (c : nat) (o : CipConnectionObject) (run_idle : bool)
    (n j : nat) (e : Z * nat) (held : list Z) : Prop := {
  con_object : connection_pool (connections w) !! c = Some o;
  con_receive : connection_receive_data_function o = Some kHandleReceivedIoConnectionData;
  con_instance : consuming_instance o = Some (ListInstance j);
  con_timing : timing_wf o;
  con_run_idle : CipRunIdleHeaderGetO2T w = run_idle;
  con_class : GetCipClass (cip_stack (stack w)) kCipAssemblyClassCode = Some n;
  con_assembly : get_instance n (ListInstance j) (cip_stack (stack w))
                 = Some (assembly_instance n e);
  con_held : ∃ b, objects (cip_stack (stack w)) !! e.2 = Some (DByteArray b) ∧
               holds_array held b }.

(** The array is not part of the identity object, and the application's callbacks
    leave it and the CIP classes alone. *)
Definition array_undisturbed (a : nat) : Prop :=
  (∀ g, (list_to_map (identity_objects g) : gmap nat CipData) !! a = None) ∧
  (∀ v d, classes (cip_stack (RunIdleChanged v d)) = classes (cip_stack d) ∧
     objects (cip_stack (RunIdleChanged v d)) !! a = objects (cip_stack d) !! a) ∧
  (∀ i o, snd (AfterAssemblyDataReceived i o) !! a = o !! a).

(** A producer as this stack sends it: numbered datagrams within their width. *)
Definition io_producer (p : CipConnectionObject) (state : Z) : Prop :=
  transport_class p ≠ kConnectionObjectTransportClassTriggerTransportClass0 ∧
  is_u32 (cip_produced_connection_id p) ∧ is_u32 (eip_level_sequence_count_producing p) ∧
  is_u16 (sequence_count_producing p) ∧ is_u32 state.

Lemma store_run_idle_stack v a d :
  array_undisturbed a →
  classes (cip_stack (store_run_idle v d)) = classes (cip_stack d) ∧
  objects (cip_stack (store_run_idle v d)) !! a = objects (cip_stack d) !! a ∧
  g_run_idle_state (io_state (store_run_idle v d)) = v.
Proof.
  intros (Hid & Hrun & _). unfold store_run_idle. set (d1 := set_extended_device_status _ d).
  assert (H1' : classes (cip_stack d1) = classes (cip_stack d) ∧
                objects (cip_stack d1) !! a = objects (cip_stack d) !! a).
  { split; [reflexivity |].
    change (objects (cip_stack d1))
      with (list_to_map (identity_objects (g_identity d1)) ∪ objects (cip_stack d)).
    by rewrite lookup_union_r by apply Hid. }
  destruct (Hrun v d1) as [E1 E2]. destruct H1' as [<- <-].
  destruct (negb _); by split_and!.
Qed.

Lemma io_address_seq p old :
  transport_class p ≠ kConnectionObjectTransportClassTriggerTransportClass0 →
  io_address p old = mkAddressItem kCipItemIdSequencedAddressItem 8 (cip_produced_connection_id p)
                       (eip_level_sequence_count_producing p).
Proof. intros Hp. unfold io_address. by rewrite bool_decide_true. Qed.

(** The new data of a datagram reach the assembly. *)
Lemma receive_io_data w c o run_idle n j e held p state bs rest :
  io_consumer w c o run_idle n j e held → array_undisturbed e.2 → io_producer p state →
  is_class1 p = is_class1 o → length bs = length held → Z.of_nat (length bs) <= 64000 →
  let payload := io_payload p run_idle state bs in
  let count := sequence_count_producing p in
  ∃ status w', receive_data c (payload ++ rest) (Z.of_nat (length payload)) w = Some (status, w') ∧
    connection_pool (connections w') !! c = Some (counted o count) ∧
    (run_idle = true → bs ≠ [] → g_run_idle_state (io_state (stack w')) = state) ∧
    ∃ b', objects (cip_stack (stack w')) !! e.2 = Some (DByteArray b') ∧
      holds_array (if new_data o count then bs else held) b'.
Proof.
  intros [Ho Hk Hj Ht Hri Hcl Hi (b & Hb & Hheld)] Hu (_ & _ & _ & Hcnt & Hst) Hc1 Hl Hlen payload count.
  unfold payload. rewrite (receive_io_payload p run_idle state bs rest c o (ListInstance j) w)
    by (done || lia).
  fold count. set (w1 := if is_class1 o then _ else w).
  set (w2 := if run_idle then _ else w1).
  assert (Hp : connection_pool (connections w2) !! c = Some (counted o count) ∧
               connection_pool (connections w1) !! c = Some (counted o count)).
  { assert (connections w2 = connections w1) as -> by (unfold w2; by destruct run_idle).
    split; unfold w1, counted; (destruct (is_class1 o); [apply lookup_insert_eq | done]). }
  assert (Hs1 : stack w1 = stack w) by (unfold w1; by destruct (is_class1 o)).
  assert (Hs2 : classes (cip_stack (stack w2)) = classes (cip_stack (stack w)) ∧
                objects (cip_stack (stack w2)) !! e.2 = Some (DByteArray b) ∧
                (run_idle = true → g_run_idle_state (io_state (stack w2)) = state)).
  { unfold w2. destruct run_idle; [|by rewrite Hs1].
    destruct (store_run_idle_stack state e.2 (stack w1) Hu) as (E1 & E2 & E3).
    cbn [set_stack stack]. rewrite E1, E2, Hs1, Hb. by split_and!. }
  destruct Hp as [Hp2 Hp1], Hs2 as (C2 & B2 & R2).
  destruct (Z.eqb_spec (Z.of_nat (length bs)) 0) as [E|E].
  { destruct bs; [|simpl in E; lia]. exists kEipStatusOk, w1. rewrite Hs1.
    split_and!; try done. exists b. split; [done |].
    destruct held; [|done]. by destruct (new_data o count). }
  destruct (new_data o count).
  - rewrite (GetCipClass_classes _ _ _ C2), Hcl. cbn [mbind option_bind].
    destruct (NotifyAssembly_stores n (ListInstance j) e (cip_stack (stack w2)) b held bs rest)
      as (status & s' & b' & Es & _ & _ & Hb' & Hh); [| done.. | apply Hu |].
    { by rewrite (get_instance_classes _ _ _ _ C2). }
    rewrite <-Hl in Es. rewrite Es. cbn [mbind option_bind]. do 2 eexists.
    split; [done |]. split; [exact Hp2 |]. split; [by intros ? _; apply R2 |]. by exists b'.
  - exists kEipStatusOk, w2. split; [done |]. split; [done |].
    split; [by intros ? _; apply R2 |]. by exists b.
Qed.

End Transfer.

(** ** Class 0 *)

(** A search does not notice a change its test does not see. *)
Lemma search_set f c o o' m :
  connection_pool m !! c = Some o → f c o' = f c o → search f (set_connection c o' m) = search f m.
Proof.
  intros Ho Hf. unfold search. cbn [set_connection connection_list].
  generalize (first (connection_list m)) as p. induction loop_fuel as [|fuel IH]; [done |].
  intros p. cbn [find_connection set_connection connection_nodes connection_pool].
  destruct p as [a|]; [|reflexivity]. destruct (deref _ _) as [nd|]; cbn [mbind option_bind]; [|reflexivity].
  destruct (data nd) as [x|]; cbn [mbind option_bind]; [|reflexivity].
  destruct (decide (x = c)) as [->|Hx].
  - rewrite lookup_insert_eq, Ho. cbn [mbind option_bind]. rewrite Hf. destruct (f c o); [reflexivity | apply IH].
  - rewrite lookup_insert_ne by done. destruct (connection_pool m !! x);
    cbn [mbind option_bind]; [|reflexivity]. destruct (f x _); [reflexivity | apply IH].
Qed.

Lemma GetConnectedObject_set id c o o' m :
  connection_pool m !! c = Some o → state o' = state o →
  cip_consumed_connection_id o' = cip_consumed_connection_id o →
  GetConnectedObject id (set_connection c o' m) = GetConnectedObject id m.
Proof.
  intros Ho Hs Hi. unfold GetConnectedObject. rewrite (search_set _ c o); [done | done |].
  unfold is_state, ConnectionObjectGetState. by rewrite Hs, Hi.
Qed.

Section Class0.
Context `{IoPlatform} `{AssemblyApplication} `{RunIdleApplication}.

Lemma new_packet_again s o : new_packet s (accepted_packet s o) = false.
Proof.
  unfold new_packet, accepted_packet, SEQ_GT32. cbn [eip_level_sequence_count_consuming
    eip_first_level_sequence_count_received set_eip_first_level_sequence_count_received
    set_eip_level_sequence_count_consuming]. by rewrite Z.sub_diag.
Qed.

Lemma receive_class0 w c o run_idle n j e held p state bs rest status w' :
  io_consumer w c o run_idle n j e held → is_class1 p = false → is_class1 o = false →
  is_u16 (sequence_count_producing p) → is_u32 state → Z.of_nat (length bs) <= 64000 →
  let payload := io_payload p run_idle state bs in
  receive_data c (payload ++ rest) (Z.of_nat (length payload)) w = Some (status, w') →
  g_cpf w' = g_cpf w ∧ connections w' = connections w.
Proof.
  intros [Ho Hk Hj Ht Hri Hcl Hi _] Hp Hc Hcnt Hst Hlen. cbv zeta.
  rewrite (receive_io_payload p run_idle state bs rest c o (ListInstance j) w)
    by (done || lia || by rewrite Hp, Hc). rewrite Hc.
  set (w2 := if run_idle then _ else w).
  assert (E : g_cpf w2 = g_cpf w ∧ connections w2 = connections w)
    by (unfold w2; by destruct run_idle).
  destruct (_ =? 0); [intros [= <- <-]; done |].
  destruct (new_data _ _); [|intros [= <- <-]; done].
  destruct (GetCipClass (cip_stack (stack w2)) _) as [k|]; cbn [mbind option_bind]; [|done].
  destruct (NotifyAssemblyConnectedDataReceived _ _ _ _ _) as [[? ?]|];
    cbn [mbind option_bind]; [|done].
  intros [= <- <-]. done.
Qed.

(** A class 0 datagram has no sequence number, and the code compares the one the
    message before has left in the global item: of two datagrams in a row the second
    is never new, so it neither restarts the watchdog nor reaches the assembly. *)
Theorem class0_data_dropped w c o run_idle n j e held p old1 old2 st1 st2 bs1 bs2 r1 r2 from
    status1 w1 :
  io_consumer w c o run_idle n j e held →
  transport_class p = kConnectionObjectTransportClassTriggerTransportClass0 →
  is_class1 o = false → is_u32 (cip_produced_connection_id p) →
  is_u16 (sequence_count_producing p) → is_u32 st1 →
  GetConnectedObject (cip_produced_connection_id p) (connections w) = Some (Some c) →
  sin_addr (originator_address o) = sin_addr from →
  Z.of_nat (length bs1) <= 64000 → Z.of_nat (length bs2) <= 64000 →
  let datagram1 := io_datagram p old1 run_idle st1 bs1 in
  let datagram2 := io_datagram p old2 run_idle st2 bs2 in
  HandleReceivedConnectedData (datagram1 ++ r1) (Z.of_nat (length datagram1)) from w
  = Some (status1, w1) →
  ∃ w2, HandleReceivedConnectedData (datagram2 ++ r2) (Z.of_nat (length datagram2)) from w1
        = Some (kEipStatusOk, w2) ∧
    stack w2 = stack w1 ∧
    ∃ o1, connection_pool (connections w1) !! c = Some o1 ∧
      connections w2 = set_connection c (heard o1) (connections w1).
Proof.
  intros Hcon Hp0 Hc Hid Hcnt Hst1 Hf Haddr Hl1 Hl2. cbv zeta.
  pose proof Hcon as [Ho Hk Hj Ht Hri Hcl Hi _].
  assert (Hpc : is_class1 p = false) by (unfold is_class1; fold (transport_class p); by rewrite Hp0).
  set (id := cip_produced_connection_id p) in *.
  assert (Hio : ∀ old st bs, io_datagram p old run_idle st bs
    = packet_bytes (connected_address id) kCipItemIdConnectedDataItem (io_payload p run_idle st bs)).
  { intros. unfold io_datagram, io_address. rewrite bool_decide_false by (intros Hn; by apply Hn).
    reflexivity. }
  assert (Hlp : ∀ st bs, Z.of_nat (length bs) <= 64000 →
            Z.of_nat (length (io_payload p run_idle st bs)) <= 65000).
  { intros. rewrite length_io_payload. unfold overhead. rewrite Hpc. destruct (run_idle && _); lia. }
  rewrite !Hio. set (s := sequence_number (address_item (g_cpf w))).
  rewrite (HandleReceivedConnectedData_eq _ _ _ c o)
    by (done || by apply connected_address_wf || by left || auto).
  set (d := received_packet _ _ _ _ _). change (sequence_number (address_item d)) with s.
  rewrite (proj2 (Z.eqb_eq _ _) Haddr).
  intros E.
  assert (Hw1 : ∃ o1, g_cpf w1 = d ∧ connections w1 = set_connection c o1 (connections w) ∧
    new_packet s o1 = false ∧ timing_wf o1 ∧ originator_address o1 = originator_address o ∧
    state o1 = state o ∧ cip_consumed_connection_id o1 = cip_consumed_connection_id o).
  { destruct (new_packet s o) eqn:En.
    - apply receive_class0 with (o := accepted_packet s o) (n := n) (j := j) (e := e) (held := held)
        in E as (-> & ->); try done.
      + exists (accepted_packet s o). split_and!; try done. apply new_packet_again.
      + destruct Hcon as [? ? ? ? ? ? ? Hh]. split; try done. apply lookup_insert_eq.
    - injection E as <- <-. exists (heard o). by split_and!. }
  destruct Hw1 as (o1 & Hg & Hcs & Hn & Ht1 & Ha1 & Hs1 & Hi1).
  assert (Hp1 : connection_pool (connections w1) !! c = Some o1)
    by (rewrite Hcs; apply lookup_insert_eq).
  rewrite (HandleReceivedConnectedData_eq _ _ _ c o1)
    by (done || by apply connected_address_wf || by left || auto ||
        by rewrite Hcs, (GetConnectedObject_set _ c o)).
  rewrite Hg. set (d2 := received_packet _ _ _ _ d).
  change (sequence_number (address_item d2)) with s. rewrite Ha1, (proj2 (Z.eqb_eq _ _) Haddr), Hn.
  eexists. split; [reflexivity |]. split; [done |]. by exists o1.
Qed.
End Class0.

(** ** An example *)

(** A little-endian port; the run/idle callback is that of the sample application. *)
Definition example_platform : IoPlatform := {|
  host_order := kOpENerEndianessLittle;
  new_udp_socket created := 9 + Z.of_nat (length created);
  SetQos _ := 0;
  GetPeerAddress := 5;
  send_result _ _ := kEipStatusOk |}.

Definition sample_application : RunIdleApplication := {|
  RunIdleChanged v := set_extended_device_status
    (if kRunBitMask .& v =? 1 then kAtLeastOneIoConnectionInRunMode
     else kAtLeastOneIoConnectionEstablishedAllInIdleMode);
  HandleApplication w := w |}.

Definition io_device (m : ConnManager) : DeviceWorld :=
  mkWorld zero_cpf m
    (mkDeviceState (mkRequest 0 (mkEpath 0 0 0 0) 0 []) assembly_example
       (mkManager 0x12340000 18 [] zero_connection (0, None) []) path_identity
       (mkNetworkStatus 0xC0A80102 0xFFFFFF00 9 0xEFC00000 [(9, 0%nat)])
       (mkIoState (fst (InitializeIoConnectionData initial_manager)) 1 true true [])).

(** An established connection between assemblies 150 and 100, connection id 77. *)
Definition io_example (trigger : Z) : CipConnectionObject :=
  SetIoConnectionCallbacks
    (set_consuming_instance (Some (ListInstance 1)) (set_producing_instance (Some (ListInstance 0))
      (set_cip_consumed_connection_id 77 (set_cip_produced_connection_id 77
        (set_state 3 (set_transport_class_trigger trigger zero_connection)))))).

Definition one_io_connection (trigger : Z) : ConnManager :=
  set_connection 6 (io_example trigger) (opened 6 io_manager).

Lemma identity_outside g : (list_to_map (identity_objects g) : gmap nat CipData) !! 501%nat = None.
Proof. unfold identity_objects. cbn [list_to_map foldr uncurry]. by rewrite !lookup_insert_ne. Qed.

Lemma example_undisturbed : @array_undisturbed quiet_application sample_application 501.
Proof.
  split; [apply identity_outside |]. split; [|done]. intros v d. split; [reflexivity |].
  change (objects (cip_stack (@RunIdleChanged sample_application v d)))
    with (list_to_map (identity_objects (g_identity (@RunIdleChanged sample_application v d)))
          ∪ objects (cip_stack d)).
  by rewrite lookup_union_r by apply identity_outside.
Qed.

Lemma example_consumer trigger :
  @io_consumer quiet_application (io_device (one_io_connection trigger)) 6 (io_example trigger)
    true 0 1 (150, 501%nat) [2; 2; 2].
Proof.
  destruct assembly_example_spec as [Has Ho].
  destruct (assembly_lookup (H := quiet_application) 0 _ _ 1 (150, 501%nat) Has eq_refl)
    as (cl & _ & _ & (Hi & _) & _).
  split; [reflexivity .. | split; [split; reflexivity || discriminate | by split]
    | reflexivity | apply Has | exact Hi |].
  exists (mkByteArray 3 (Some [2; 2; 2])). split; [exact Ho |]. split; [reflexivity | by exists []].
Qed.

(** The producer: a class 1 connection before its next datagram. *)
Definition io_bytes : list Z :=
  [2; 0] ++ [0x02; 0x80; 8; 0; 77; 0; 0; 0; 1; 0; 0; 0] ++ [0xB1; 0; 10; 0; 1; 0; 1; 0; 0; 0; 1; 1; 1; 1].

Lemma io_device_facts trigger :
  let w := io_device (one_io_connection trigger) in
  connection_pool (connections w) !! 6%nat = Some (io_example trigger) ∧
  cip_stack (stack w) = assembly_example ∧ address_item (g_cpf w) = address_item zero_cpf ∧
  sent_udp (io_state (stack w)) = [] ∧ s_produce_run_idle (io_state (stack w)) = true ∧
  g_run_idle_state (io_state (stack w)) = 1.
Proof. by split_and!. Qed.

Lemma assembly_example_input :
  GetCipClass assembly_example kCipAssemblyClassCode = Some 0%nat ∧
  get_instance 0 (ListInstance 0) assembly_example
  = Some (@assembly_instance quiet_application 0 (100, 500%nat)) ∧
  objects assembly_example !! 500%nat = Some (DByteArray (mkByteArray 4 (Some [1; 1; 1; 1]))).
Proof.
  destruct assembly_example_spec as [Has _].
  destruct (assembly_lookup (H := quiet_application) 0 _ _ 0 (100, 500%nat) Has eq_refl)
    as (cl & _ & _ & (Hi & _) & _).
  split; [apply Has |]. split; [exact Hi |]. by vm_compute.
Qed.

Lemma io_bytes_eq :
  io_datagram (produced true (io_example 0x01)) (address_item zero_cpf) true 1 [1; 1; 1; 1] = io_bytes ∧
  remote_address (io_example 0x01) = mkSockAddr 0 0.
Proof. by vm_compute. Qed.

Lemma SendConnectedData_spec_witness :
  ∃ w', @SendConnectedData example_platform quiet_application 6
          (io_device (one_io_connection 0x01)) = Some (kEipStatusOk, w') ∧
    sent_udp (io_state (stack w')) = [(mkSockAddr 0 0, io_bytes)].
Proof.
  destruct assembly_example_input as (Hr & Hi & Hin).
  destruct (io_device_facts 0x01) as (F1 & F2 & F3 & F4 & F5 & F6). cbv zeta in F1, F2, F3, F4, F5, F6.
  destruct io_bytes_eq as [Hio Hra].
  generalize dependent (io_device (one_io_connection 0x01)). intros w F1 F2 F3 F4 F5 F6.
  generalize dependent assembly_example. intros s Hr Hi Hin F2.
  pose proof (@SendConnectedData_spec example_platform quiet_application 0
    (ListInstance 0) (100, 500%nat) 6 (io_example 0x01) w
    (mkByteArray 4 (Some [1; 1; 1; 1])) true (objects s) (mkByteArray 4 (Some [1; 1; 1; 1]))
    [1; 1; 1; 1]) as P.
  cbv zeta in P. rewrite F2, F3, F4, F5, F6, Hio, Hra in P.
  change (Z.of_nat (length io_bytes) <=? 512) with true in P. cbv iota in P.
  destruct P as (w' & E & _ & Hs & _).
  - exact Hr.
  - exact Hi.
  - exact F1.
  - by vm_compute.
  - exact Hin.
  - by vm_compute.
  - exact Hin.
  - split; [reflexivity | by exists []].
  - repeat constructor; unfold is_u8; lia.
  - simpl. lia.
  - exists w'. split; [exact E | exact Hs].
Defined.

Definition example_datagram (trigger : Z) : list Z :=
  io_datagram (produced true (io_example trigger)) null_address true 1 [7; 8; 9].


Lemma class0_example :
  ∃ status w1, @HandleReceivedConnectedData quiet_application sample_application
      (example_datagram 0 ++ []) (Z.of_nat (length (example_datagram 0))) (mkSockAddr 0 0)
      (io_device (one_io_connection 0)) = Some (status, w1).
Proof.
  set (r := HandleReceivedConnectedData _ _ _ _).
  assert (Hr : match r with Some _ => true | None => false end = true) by (by vm_compute).
  clearbody r. destruct r as [[status w1]|]; [by exists status, w1 | done].
Qed.

(** Two class 0 datagrams with different data: the second changes nothing. *)
Lemma class0_data_dropped_witness :
  ∃ status w1 w2, @HandleReceivedConnectedData quiet_application sample_application
      (example_datagram 0 ++ []) (Z.of_nat (length (example_datagram 0))) (mkSockAddr 0 0)
      (io_device (one_io_connection 0)) = Some (status, w1) ∧
    let second := @io_datagram (io_example 0) null_address true 1 [3; 3; 3] in
    @HandleReceivedConnectedData quiet_application sample_application
      (second ++ []) (Z.of_nat (length second)) (mkSockAddr 0 0) w1 = Some (kEipStatusOk, w2) ∧
    stack w2 = stack w1.
Proof.
  destruct class0_example as (status & w1 & E). exists status, w1.
  destruct (@class0_data_dropped quiet_application sample_application
    (io_device (one_io_connection 0)) 6 (io_example 0) true 0 1 (150, 501%nat) [2; 2; 2]
    (produced true (io_example 0)) null_address null_address 1 1 [7; 8; 9] [3; 3; 3] [] []
    (mkSockAddr 0 0) status w1) as (w2 & E2 & Hs & _).
  - apply example_consumer.
  - by vm_compute.
  - by vm_compute.
  - unfold is_u32. apply (bool_decide_unpack _). by vm_compute.
  - unfold is_u16. apply (bool_decide_unpack _). by vm_compute.
  - unfold is_u32. lia.
  - vm_compute. reflexivity.
  - by vm_compute.
  - simpl. lia.
  - simpl. lia.
  - exact E.
  - exists w2. split; [exact E |]. split; [exact E2 | exact Hs].
Defined.
