(* ===== verification/ConnTimer.v ===== *)
(** * Connection timers: [cip/cipconnectionmanager.c], [cip/cipioconnection.c]

    The periodic [ManageConnections], which times connections out and lets producers
    send, the time-out function of I/O connections, and [TriggerConnections].  The
    state is that of the encapsulation layer around the whole device. *)

From S2P Require Import Prelude EndianConv EPath CipStrings CipTypes CipCodec CipClasses CipServices Identity Assembly.
From S2P Require Import MessageRouter SocketTimer ConnRecord ConnObject ConnList LinkedList AppConType IoClose EncapData Cpf Encap ConnPath ConnService IoOpen IoData.
From stdpp Require Import strings.
Open Scope Z_scope.

Section Timers.
Context `{IoPlatform} `{AssemblyApplication} `{RunIdleApplication}.

(** [peer] is [getpeername]. *)
Variable peer : Z → Z.

Definition DeviceEncapsulation : Type := Encapsulation DeviceState.

(** ** Time-outs *)

Definition set_connection_state (st : ConnectionObjectState) (c : nat) (m : ConnManager)
  : option ConnManager :=
  o ← connection_pool m !! c;
  o ← ConnectionObjectSetState st o;
  Some (set_connection c o m).

(** Both kinds of connections that receive the input of a lost exclusive owner. *)
Definition close_dependents (input_point : Z) (m : ConnManager) : option ConnManager :=
  m ← @CloseAllConnectionsForInputWithSameType io_callbacks input_point
        kConnectionObjectInstanceTypeIOInputOnly m;
  @CloseAllConnectionsForInputWithSameType io_callbacks input_point
    kConnectionObjectInstanceTypeIOListenOnly m.

Definition HandleIoConnectionTimeOut (c : nat) (s : DeviceEncapsulation)
  : option DeviceEncapsulation :=
  o ← connection_pool (Encap.manager s) !! c;
  m ← set_connection_state kConnectionObjectStateTimedOut c
        (report_event kIoConnectionEventTimedOut o (Encap.manager s));
  let s := set_manager m s in
  s ← (if last_package_watchdog_timer o =? inactivity_watchdog_timer o then
         o ← connection_pool m !! c;
         CheckForTimedOutConnectionsAndCloseTCPConnections c o
           (@CloseEncapsulationSessionBySockAddr DeviceState io_callbacks peer) s
       else Some s);
  '(handover, m) ← @hand_over io_callbacks c (Encap.manager s);
  m ← (if (instance_type o =? kConnectionObjectInstanceTypeIOExclusiveOwner) && negb handover
       then close_dependents (epath_instance_id (produced_path o)) m else Some m);
  m ← set_connection_state kConnectionObjectStateTimedOut c m;
  Some (set_manager m s).

(** [connection_object->connection_timeout_function(connection_object)] *)
Definition time_out (c : nat) (s : DeviceEncapsulation) : option DeviceEncapsulation :=
  o ← connection_pool (Encap.manager s) !! c;
  k ← connection_timeout_function o;
  if (k =? kClass3ConnectionTimeoutHandler)%nat then Class3ConnectionTimeoutHandler c s
  else if (k =? kHandleIoConnectionTimeOut)%nat then HandleIoConnectionTimeOut c s
  else None.

(** ** The periodic function *)

(** The timers are [uint64_t]. *)
Definition minus (t elapsed_time : Z) : Z := u64 (t - elapsed_time).

Definition is_server (o : CipConnectionObject) : bool :=
  match ConnectionObjectGetTransportClassTriggerDirection o with
  | kConnectionObjectTransportClassTriggerDirectionServer => true
  | _ => false
  end.

Definition is_cyclic (o : CipConnectionObject) : bool :=
  match ConnectionObjectGetTransportClassTriggerProductionTrigger o with
  | kConnectionObjectTransportClassTriggerProductionTriggerCyclic => true
  | _ => false
  end.

(** Consumers and servers are watched. *)
Definition watched (o : CipConnectionObject) : bool :=
  match consuming_instance o with Some _ => true | None => is_server o end.

Definition check_watchdog (elapsed_time : Z) (c : nat) (s : DeviceEncapsulation)
  : option DeviceEncapsulation :=
  o ← connection_pool (Encap.manager s) !! c;
  if watched o then
    if inactivity_watchdog_timer o <=? elapsed_time then time_out c s
    else
      let o := set_inactivity_watchdog_timer
                 (minus (inactivity_watchdog_timer o) elapsed_time) o in
      let o := set_last_package_watchdog_timer
                 (minus (last_package_watchdog_timer o) elapsed_time) o in
      Some (set_manager (set_connection c o (Encap.manager s)) s)
  else Some s.

(** [connection_object->connection_send_data_function(connection_object)] *)
Definition send_data (c : nat) (w : DeviceWorld) : option (EipStatus * DeviceWorld) :=
  o ← connection_pool (connections w) !! c;
  k ← connection_send_data_function o;
  if (k =? kSendConnectedData)%nat then SendConnectedData c w else None.

(** The timer a producer gets back after sending. *)
Definition next_trigger (elapsed_time : Z) (o : CipConnectionObject) : Z :=
  let t := u64 (transmission_trigger_timer o + ConnectionObjectGetRequestedPacketInterval o) in
  if elapsed_time <? t then t - elapsed_time else 0.

Definition count_inhibit_time (elapsed_time : Z) (o : CipConnectionObject)
  : CipConnectionObject :=
  if negb (is_cyclic o) && negb (elapsed_time <=? production_inhibit_timer o)
  then set_production_inhibit_timer (minus (production_inhibit_timer o) elapsed_time) o else o.

(** Only the connection that owns the producing socket sends. *)
Definition produces (o : CipConnectionObject) : bool :=
  negb (0 =? expected_packet_rate o) && negb (kEipInvalidSocket =? socket_producing o).

Definition produce (elapsed_time : Z) (c : nat) (s : DeviceEncapsulation)
  : option DeviceEncapsulation :=
  o ← connection_pool (Encap.manager s) !! c;
  if produces o then
    let o := count_inhibit_time elapsed_time o in
    let s := set_manager (set_connection c o (Encap.manager s)) s in
    if transmission_trigger_timer o <=? elapsed_time then
      '(_, w) ← send_data c (world s);
      o ← connection_pool (connections w) !! c;
      let o := set_transmission_trigger_timer (next_trigger elapsed_time o) o in
      let o := if is_cyclic o then o else ConnectionObjectResetProductionInhibitTimer o in
      Some (set_world (set_connections (set_connection c o (connections w)) w) s)
    else
      let o := set_transmission_trigger_timer
                 (minus (transmission_trigger_timer o) elapsed_time) o in
      Some (set_manager (set_connection c o (Encap.manager s)) s)
  else Some s.

(** One connection of the loop; the state is read again after the watchdog. *)
Definition manage_connection (elapsed_time : Z) (c : nat) (s : DeviceEncapsulation)
  : option DeviceEncapsulation :=
  o ← connection_pool (Encap.manager s) !! c;
  if is_state kConnectionObjectStateEstablished o then
    s ← check_watchdog elapsed_time c s;
    o ← connection_pool (Encap.manager s) !! c;
    if is_state kConnectionObjectStateEstablished o then produce elapsed_time c s else Some s
  else Some s.

(** The successor is read from the node after the connection has been handled. *)
Fixpoint manage_loop (elapsed_time : Z) (fuel : nat) (node : ptr) (s : DeviceEncapsulation)
  : option DeviceEncapsulation :=
  match fuel with
  | O => None
  | S fuel =>
      match node with
      | None => Some s
      | Some _ =>
          n ← deref node (connection_nodes (Encap.manager s));
          c ← data n;
          s ← manage_connection elapsed_time c s;
          n ← deref node (connection_nodes (Encap.manager s));
          manage_loop elapsed_time fuel (next n) s
      end
  end.

Definition ManageConnections (elapsed_time : Z) (s : DeviceEncapsulation)
  : option (EipStatus * DeviceEncapsulation) :=
  let s := set_world (HandleApplication (world s)) s in
  let s := ManageEncapsulationMessages elapsed_time s in
  s ← manage_loop elapsed_time loop_fuel (first (connection_list (Encap.manager s))) s;
  Some (kEipStatusOk, s).

(** ** Triggering *)

Definition is_application_object (o : CipConnectionObject) : bool :=
  match ConnectionObjectGetTransportClassTriggerProductionTrigger o with
  | kConnectionObjectTransportClassTriggerProductionTriggerApplicationObject => true
  | _ => false
  end.

Definition TriggerConnections (output_assembly input_assembly : Z) (m : ConnManager)
  : option (EipStatus * ConnManager) :=
  r ← search (λ _ o, (output_assembly =? epath_instance_id (consumed_path o))
                     && (input_assembly =? epath_instance_id (produced_path o))) m;
  match r with
  | None => Some (kEipStatusError, m)
  | Some (_, c) =>
      o ← connection_pool m !! c;
      if is_application_object o
      then Some (kEipStatusOk, set_connection c
                   (set_transmission_trigger_timer (production_inhibit_time o) o) m)
      else Some (kEipStatusError, m)
  end.
End Timers.

(** ** Lemmas: what one connection's turn leaves alone *)

Section TimerLemmas.
Context `{IoPlatform} `{AssemblyApplication} `{RunIdleApplication}.
Variable peer : Z → Z.

(** The list stays, and at most the object of connection [c] changes. *)
Definition only_connection (c : nat) (m m' : ConnManager) : Prop :=
  connection_list m' = connection_list m ∧ connection_nodes m' = connection_nodes m ∧
  closed_sockets m' = closed_sockets m ∧ ∃ o, connection_pool m' = <[c := o]> (connection_pool m).

Lemma only_connection_set c o m : only_connection c m (set_connection c o m).
Proof. split_and!; try done. by exists o. Qed.

Lemma only_connection_refl c m :
  is_Some (connection_pool m !! c) → only_connection c m m.
Proof. intros [o Ho]. split_and!; try done. exists o. by rewrite insert_id. Qed.

Lemma only_connection_trans c m1 m2 m3 :
  only_connection c m1 m2 → only_connection c m2 m3 → only_connection c m1 m3.
Proof.
  intros (L1 & N1 & S1 & o1 & P1) (L2 & N2 & S2 & o2 & P2).
  split_and!; [congruence .. |]. exists o2. by rewrite P2, P1, insert_insert_eq.
Qed.

Lemma only_connection_other c m m' k :
  only_connection c m m' → k ≠ c → connection_pool m' !! k = connection_pool m !! k.
Proof. intros (_ & _ & _ & o & ->) Hk. by rewrite lookup_insert_ne. Qed.

Lemma only_connection_wf c m m' xs :
  only_connection c m m' → is_Some (connection_pool m !! c) → conns_wf m xs → conns_wf m' xs.
Proof.
  intros (L & N & _ & o & P) Hc Hw. apply (conns_wf_same (set_connection c o m)); try done.
  by apply conns_wf_set.
Qed.

Lemma SendConnectedData_frame c w st w' o :
  SendConnectedData c w = Some (st, w') → connection_pool (connections w) !! c = Some o →
  ∃ changed, connections w' = set_connection c (produced changed o) (connections w).
Proof.
  unfold SendConnectedData. intros E Ho. rewrite Ho in E. cbn [mbind option_bind] in E. cbv zeta in E.
  repeat match type of E with
  | context [?x ≫= _] => destruct x as [?|] eqn:?; cbn [mbind option_bind] in E; [|discriminate E]
  | context [let '(_, _) := ?x in _] => destruct x eqn:?
  end.
  repeat match goal with x : (_ * _)%type |- _ => destruct x end.
  cbv beta iota in E.
  repeat match type of E with
  | context [?x ≫= _] => destruct x as [?|] eqn:?; cbn [mbind option_bind] in E; [|discriminate E]
  end.
  injection E as <- <-. eexists. reflexivity.
Qed.

Lemma set_timers_state o t1 t2 :
  is_state kConnectionObjectStateEstablished (set_last_package_watchdog_timer t1
    (set_inactivity_watchdog_timer t2 o)) = is_state kConnectionObjectStateEstablished o.
Proof. reflexivity. Qed.

(** The state of the device is that of the connections in these lemmas. *)
Abbreviation pool s := (connection_pool (Encap.manager s)).

Lemma pool_set c o m s : pool (set_manager (set_connection c o m) s : DeviceEncapsulation) !! c = Some o.
Proof. apply lookup_insert_eq. Qed.

Lemma produce_frame e c s s' :
  produce e c s = Some s' → only_connection c (Encap.manager s) (Encap.manager s').
Proof.
  unfold produce. destruct (pool s !! c) as [o|] eqn:Ho; [|done]. cbn [mbind option_bind].
  destruct (produces o).
  2: { intros [= <-]. apply only_connection_refl. by rewrite Ho. }
  cbv zeta. destruct (_ <=? e).
  2: { intros [= <-]. eapply only_connection_trans; apply only_connection_set. }
  unfold send_data. set (w := world _).
  destruct (connection_pool (connections w) !! c) as [o1|] eqn:Ho1; [|done]. cbn [mbind option_bind].
  destruct (connection_send_data_function o1) as [k|]; [|done]. cbn [mbind option_bind].
  destruct (k =? kSendConnectedData)%nat; [|done].
  destruct (SendConnectedData c w) as [[st w1]|] eqn:Es; [|done]. cbn [mbind option_bind].
  destruct (SendConnectedData_frame c w st w1 o1 Es Ho1) as [b Hb].
  destruct (connection_pool (connections w1) !! c) as [o2|]; [|done]. cbn [mbind option_bind].
  intros [= <-]. eapply only_connection_trans; [apply only_connection_set |].
  eapply only_connection_trans; [|apply only_connection_set].
  cbn [set_world Encap.manager world set_connections connections]. fold w. rewrite Hb.
  apply only_connection_set.
Qed.

(** The watchdog of the connection does not run out. *)
Definition not_expiring (e : Z) (o : CipConnectionObject) : Prop :=
  is_state kConnectionObjectStateEstablished o = true → watched o = true →
  e < inactivity_watchdog_timer o.

Lemma manage_connection_frame e c s s' o :
  pool s !! c = Some o → not_expiring e o → manage_connection peer e c s = Some s' →
  only_connection c (Encap.manager s) (Encap.manager s').
Proof.
  intros Ho Hn. unfold manage_connection, check_watchdog. rewrite Ho. cbn [mbind option_bind].
  destruct (is_state _ o) eqn:Hs; [|intros [= <-]; apply only_connection_refl; by rewrite Ho].
  destruct (watched o) eqn:Hw.
  - rewrite (proj2 (Z.leb_gt _ _)) by auto. cbn [mbind option_bind]. cbv zeta.
    rewrite pool_set. cbn [mbind option_bind]. rewrite set_timers_state, Hs.
    intros E%produce_frame. eapply only_connection_trans; [apply only_connection_set | exact E].
  - cbn [mbind option_bind]. rewrite Ho. cbn [mbind option_bind]. rewrite Hs. apply produce_frame.
Qed.

(** *** The loop *)

(** The connections of a list, one after the other. *)
Fixpoint manage_all (e : Z) (cs : list nat) (s : DeviceEncapsulation)
  : option DeviceEncapsulation :=
  match cs with
  | [] => Some s
  | c :: cs => s ← manage_connection peer e c s; manage_all e cs s
  end.

Lemma manage_loop_all e xs p fuel s :
  seg (connection_nodes (Encap.manager s)) p xs None → NoDup xs.*2 → (length xs < fuel)%nat →
  (∀ c, c ∈ xs.*2 → ∃ o, pool s !! c = Some o ∧ not_expiring e o) →
  manage_loop peer e fuel (head_ptr xs None) s = manage_all e xs.*2 s.
Proof.
  revert p fuel s. induction xs as [|[a c] xs IH]; intros p fuel s Hs Hd Hf Hx;
    (destruct fuel as [|fuel]; [simpl in Hf; lia |]); [done |].
  destruct Hs as [Ha Hs]. apply list.NoDup_cons in Hd as [Hc Hd].
  cbn [head_ptr manage_loop]. rewrite (Ha : deref (Some a) (connection_nodes (Encap.manager s)) = Some _). cbn [mbind option_bind data].
  cbn [fmap list_fmap snd manage_all].
  destruct (manage_connection peer e c s) as [s'|] eqn:E; [|done]. cbn [mbind option_bind].
  destruct (Hx c) as (o & Ho & Hn); [by left |].
  pose proof (manage_connection_frame e c s s' o Ho Hn E) as Hfr.
  pose proof Hfr as (_ & HN & _). rewrite HN, (Ha : deref (Some a) (connection_nodes (Encap.manager s)) = Some _). cbn [mbind option_bind next].
  apply (IH (Some a)); [by rewrite HN | done | simpl in Hf; lia |].
  intros k Hk. assert (k ≠ c) by (by intros ->).
  rewrite (only_connection_other c _ _ k Hfr) by done. apply Hx. by right.
Qed.

(** C6.  As long as no watchdog runs out, a tick gives every connection of the list its
    turn, once and in order, on fuel that is enough for any list, and a turn changes
    no other connection. *)
Theorem ManageConnections_visits_all e s xs :
  let s1 := ManageEncapsulationMessages e (set_world (HandleApplication (world s)) s) in
  conns_wf (Encap.manager s1) xs →
  (∀ c, c ∈ xs.*2 → ∃ o, pool s1 !! c = Some o ∧ not_expiring e o) →
  ManageConnections peer e s
  = (s' ← manage_all e xs.*2 s1; Some (kEipStatusOk, s')) ∧
  ∀ c s2 s3, manage_connection peer e c s2 = Some s3 →
    (∃ o, pool s2 !! c = Some o ∧ not_expiring e o) →
    ∀ k, k ≠ c → pool s3 !! k = pool s2 !! k.
Proof.
  intros s1 Hw Hx. split.
  - unfold ManageConnections. fold s1. rewrite (rep_first _ _ _ (conns_list _ _ Hw)).
    by rewrite (manage_loop_all e xs None) by
      (apply Hw || apply (conns_list _ _ Hw) || by eapply conns_fuel || done).
  - intros c s2 s3 E (o & Ho & Hn) k Hk.
    apply (only_connection_other c); [by eapply manage_connection_frame | done].
Qed.
(** *** Time-outs *)

(** The turn of a class 3 connection whose time has run out, while its originator has
    another connection. *)
Lemma class3_times_out e a c zs s o x ox :
  conns_wf (Encap.manager s) ((a, c) :: zs) → pool s !! c = Some o →
  is_state kConnectionObjectStateEstablished o = true → watched o = true →
  inactivity_watchdog_timer o <= e → is_class3 o = true →
  connection_timeout_function o = Some kClass3ConnectionTimeoutHandler →
  x ∈ zs.*2 → pool s !! x = Some ox → ConnectionObjectEqualOriginator o ox = true →
  is_state kConnectionObjectStateTimedOut ox = false →
  ∃ s', manage_connection peer e c s = Some s' ∧ conns_wf (Encap.manager s') zs ∧
    pool s' = <[c := empty_connection]> (pool s) ∧
    connection_nodes (Encap.manager s') !! a = Some zero_node.
Proof.
  intros Hw Ho Hs Hwt He Hc Hk Hx Hox Heq Hnt.
  unfold manage_connection, check_watchdog, time_out, Class3ConnectionTimeoutHandler.
  rewrite Ho. cbn [mbind option_bind]. rewrite Hs, Hwt, (proj2 (Z.leb_le _ _) He).
  cbn [mbind option_bind]. rewrite Hk. cbn [mbind option_bind].
  change (kClass3ConnectionTimeoutHandler =? kClass3ConnectionTimeoutHandler)%nat with true. cbv iota.
  unfold CheckForTimedOutConnectionsAndCloseTCPConnections. rewrite (search_spec _ _ _ Hw).
  assert (Hcx : c ≠ x).
  { intros ->. pose proof (conns_nodup _ _ Hw) as Hd. apply list.NoDup_cons in Hd as [Hd _]. done. }
  match goal with |- context [first_match ?f ?m ?l] => destruct (first_match f m l) as [r|] eqn:Hfm end.
  2: { exfalso. apply list_elem_of_fmap in Hx as ([b x'] & -> & Hin). cbn [snd] in *.
       eapply List.find_none in Hfm; [|right; by apply list_elem_of_In]. cbn [snd] in Hfm.
       rewrite Hox, Heq, Hnt, (proj2 (Nat.eqb_neq _ _) Hcx) in Hfm. done. }
  cbn [mbind option_bind].
  destruct (CloseConnection_class3 (Encap.manager s) [] a c zs o Hw Ho Hc)
    as (m' & -> & Hw' & Hp & _ & Hz).
  cbn [mbind option_bind]. cbn [set_manager set_world Encap.manager world set_connections connections].
  rewrite Hp, lookup_insert_eq. cbn [mbind option_bind].
  change (is_state kConnectionObjectStateEstablished empty_connection) with false. cbv iota.
  eexists. split; [reflexivity |]. by split_and!.
Qed.

(** When the newest connection is a class 3 connection whose watchdog runs out (and
    its originator has another connection), its node is given back before the loop
    reads the successor: the tick ends there, and no other connection is watched or
    produces in it. *)
Theorem class3_timeout_ends_tick e s a c zs o x ox :
  let s1 := ManageEncapsulationMessages e (set_world (HandleApplication (world s)) s) in
  conns_wf (Encap.manager s1) ((a, c) :: zs) → pool s1 !! c = Some o →
  is_state kConnectionObjectStateEstablished o = true → watched o = true →
  inactivity_watchdog_timer o <= e → is_class3 o = true →
  connection_timeout_function o = Some kClass3ConnectionTimeoutHandler →
  x ∈ zs.*2 → pool s1 !! x = Some ox → ConnectionObjectEqualOriginator o ox = true →
  is_state kConnectionObjectStateTimedOut ox = false →
  ∃ s', ManageConnections peer e s = Some (kEipStatusOk, s') ∧
    conns_wf (Encap.manager s') zs ∧ ∀ k, k ≠ c → pool s' !! k = pool s1 !! k.
Proof.
  intros s1 Hw Ho Hs Hwt He Hc Hk Hx Hox Heq Hnt.
  destruct (class3_times_out e a c zs s1 o x ox) as (s' & E & Hw' & Hp & Hz); [done .. |].
  exists s'. unfold ManageConnections. fold s1. pose proof (conns_list _ _ Hw) as Hl.
  rewrite (rep_first _ _ _ Hl). cbn [head_ptr]. unfold loop_fuel. cbn [manage_loop].
  rewrite (represents_lookup _ _ [] a c zs Hl : deref (Some a) _ = _).
  cbn [mbind option_bind data]. rewrite E. cbn [mbind option_bind].
  rewrite (Hz : deref (Some a) _ = _). cbn [mbind option_bind]. split; [done |]. split; [done |].
  intros k Hne. by rewrite Hp, lookup_insert_ne.
Qed.

(** *** Production *)

(** Connection [c] sends [length held] bytes of an assembly, which fit a datagram. *)
Record io_producing (s : DeviceEncapsulation) (c : nat) (o : CipConnectionObject)
    (n : nat) (p : InstancePtr) (e : Z * nat) (held : list Z) : Prop := {
  pr_object : pool s !! c = Some o;
  pr_send : connection_send_data_function o = Some kSendConnectedData;
  pr_instance : producing_instance o = Some p;
  pr_class : GetCipClass (cip_stack (stack (world s))) kCipAssemblyClassCode = Some n;
  pr_assembly : get_instance n p (cip_stack (stack (world s))) = Some (assembly_instance n e);
  pr_held : ∃ b, objects (cip_stack (stack (world s))) !! e.2 = Some (DByteArray b) ∧
              holds_array held b;
  pr_bytes : bytes held;
  pr_length : Z.of_nat (length held) <= 480 }.

Definition sent_by (s : DeviceEncapsulation) : list (SockAddr * list Z) :=
  sent_udp (io_state (stack (world s))).

Lemma length_io_datagram o old run_idle state bs :
  Z.of_nat (length (io_datagram o old run_idle state bs)) <= 24 + Z.of_nat (length bs).
Proof.
  unfold io_datagram, packet_bytes. rewrite !length_app, !length_le_bytes, !Nat2Z.inj_add.
  rewrite length_io_payload. unfold overhead, io_address.
  case_bool_decide; cbn [address_length Z.leb Z.eqb Z.compare Pos.compare Pos.compare_cont Pos.eqb];
    rewrite ?length_le_bytes; cbn [length];
    destruct (is_class1 o), (run_idle && _); lia.
Qed.

(** The application may change other objects before a datagram. *)
Definition before_keeps (a : nat) : Prop :=
  ∀ i o, snd (BeforeAssemblyDataSend i o) !! a = o !! a.

(** What production leaves alone in the connection: state, watchdog and parameters. *)
Definition same_parameters (o o' : CipConnectionObject) : Prop :=
  (state o', inactivity_watchdog_timer o', consuming_instance o', transport_class_trigger o',
   expected_packet_rate o', socket_producing o', t_to_o_requested_packet_interval o')
  = (state o, inactivity_watchdog_timer o, consuming_instance o, transport_class_trigger o,
     expected_packet_rate o, socket_producing o, t_to_o_requested_packet_interval o) ∧
  (producing_instance o', connection_send_data_function o')
  = (producing_instance o, connection_send_data_function o).

#[export] Instance same_parameters_preorder : PreOrder same_parameters.
Proof. split; [by split |]. intros a b c [E1 E2] [F1 F2]. split; congruence. Qed.

Lemma same_parameters_uses o o' :
  same_parameters o o' →
  is_state kConnectionObjectStateEstablished o' = is_state kConnectionObjectStateEstablished o ∧
  watched o' = watched o ∧ produces o' = produces o ∧ is_cyclic o' = is_cyclic o ∧
  ConnectionObjectGetRequestedPacketInterval o' = ConnectionObjectGetRequestedPacketInterval o.
Proof.
  intros [E _]. injection E as E1 E2 E3 E4 E5 E6 E7.
  unfold is_state, ConnectionObjectGetState, watched, is_server, produces, is_cyclic,
    ConnectionObjectGetTransportClassTriggerDirection,
    ConnectionObjectGetTransportClassTriggerProductionTrigger, ConnectionObjectGetRequestedPacketInterval.
  by rewrite E1, E3, E4, E5, E6, E7.
Qed.

Lemma io_producing_kept s s' c o o' n p entry held :
  io_producing s c o n p entry held → pool s' !! c = Some o' → same_parameters o o' →
  classes (cip_stack (stack (world s'))) = classes (cip_stack (stack (world s))) →
  objects (cip_stack (stack (world s'))) !! entry.2 = objects (cip_stack (stack (world s))) !! entry.2 →
  io_producing s' c o' n p entry held.
Proof.
  intros [Ho Hse Hin Hcl Hi Hh Hb Hl] Ho' [_ E] Hc Hobj. injection E as E1 E2.
  split; try done; [by rewrite E2 | by rewrite E1 | | | by rewrite Hobj].
  - unfold GetCipClass, GetRegisteredObject in *. by rewrite Hc.
  - unfold get_instance, get_class in *. by rewrite Hc.
Qed.

Lemma count_inhibit_same e o : same_parameters o (count_inhibit_time e o).
Proof. unfold count_inhibit_time. by case_match. Qed.

Lemma produce_sends e c s o n p entry held :
  io_producing s c o n p entry held → before_keeps entry.2 → produces o = true →
  let t := transmission_trigger_timer o in
  ∃ s' o', produce e c s = Some s' ∧ io_producing s' c o' n p entry held ∧
    same_parameters o o' ∧ pool s' = <[c := o']> (pool s) ∧
    if t <=? e
    then transmission_trigger_timer o' = next_trigger e o ∧
         (length (sent_by s') = S (length (sent_by s)))
    else transmission_trigger_timer o' = minus t e ∧ sent_by s' = sent_by s.
Proof.
  intros Hp Hbk Hpr t. pose proof Hp as [Ho Hse Hin Hcl Hi (b & Hb & Hh) Hby Hlen].
  unfold produce. rewrite Ho. cbn [mbind option_bind]. rewrite Hpr. cbv zeta.
  set (o0 := count_inhibit_time e o).
  assert (K0 : same_parameters o o0) by apply count_inhibit_same.
  assert (T0 : transmission_trigger_timer o0 = t ∧
    ConnectionObjectGetRequestedPacketInterval o0 = ConnectionObjectGetRequestedPacketInterval o)
    by (unfold o0, count_inhibit_time; by case_match).
  destruct T0 as [T0 R0]. rewrite T0.
  set (s0 := set_manager (set_connection c o0 (Encap.manager s)) s).
  assert (Hs0 : pool s0 !! c = Some o0) by apply pool_set.
  destruct (t <=? e).
  - pose proof (io_producing_kept s s0 c o o0 n p entry held Hp Hs0 K0 eq_refl eq_refl)
      as [_ Hse0 Hin0 _ _ _ _ _].
    unfold send_data. change (connections (world s0)) with (Encap.manager s0). rewrite Hs0.
    cbn [mbind option_bind]. rewrite Hse0. cbn [mbind option_bind].
    change (kSendConnectedData =? kSendConnectedData)%nat with true. cbv iota.
    destruct (BeforeAssemblyDataSend (assembly_instance n entry)
      (objects (cip_stack (stack (world s0))))) as [changed objs] eqn:Ecb.
    assert (Hobj : objs !! entry.2 = Some (DByteArray b)).
    { specialize (Hbk (assembly_instance n entry) (objects (cip_stack (stack (world s0))))).
      rewrite Ecb in Hbk. cbn [snd] in Hbk. rewrite Hbk. exact Hb. }
    pose proof (SendConnectedData_spec n p entry c o0 (world s0) b changed objs b held
      Hcl Hi Hs0 Hin0 Hb Ecb Hobj Hh Hby ltac:(lia)) as Hsend. cbv zeta in Hsend.
    rewrite (proj2 (Z.leb_le _ _)) in Hsend
      by (pose proof (length_io_datagram (produced changed o0) (address_item (g_cpf (world s0)))
            (s_produce_run_idle (io_state (stack (world s0))))
            (g_run_idle_state (io_state (stack (world s0)))) held); lia).
    destruct Hsend as (w' & -> & Hc' & Hsent & Hst). cbn [mbind option_bind].
    rewrite Hc'. cbn [set_connection connection_pool]. rewrite lookup_insert_eq.
    cbn [mbind option_bind].
    set (o1 := set_transmission_trigger_timer _ (produced changed o0)).
    assert (K1 : same_parameters o o1 ∧ transmission_trigger_timer o1 = next_trigger e o).
    { split; [etransitivity; [exact K0 |]; unfold o1, produced; by destruct changed |].
      transitivity (next_trigger e o0); [unfold o1, produced; by destruct changed |].
      unfold next_trigger. by rewrite T0, R0. }
    destruct K1 as [K1 N1].
    set (o2 := if is_cyclic o1 then o1 else _).
    assert (K2 : same_parameters o o2 ∧ transmission_trigger_timer o2 = next_trigger e o)
      by (unfold o2; by destruct (is_cyclic o1)).
    destruct K2 as [K2 N2]. eexists _, o2. split; [reflexivity |].
    split; [|split; [exact K2 |split; [|split; [exact N2 |]]]].
    + eapply (io_producing_kept s); [exact Hp | apply lookup_insert_eq | exact K2 | |];
        cbn [set_world world set_connections stack]; rewrite Hst; [done |].
      cbn [objects]. rewrite Hobj, Hb. done.
    + cbn [set_world world set_connections connections Encap.manager set_connection connection_pool].
      change (connection_pool (connections (world s0))) with (<[c:=o0]> (pool s)).
      by rewrite !insert_insert_eq.
    + unfold sent_by. cbn [set_world world set_connections stack]. by rewrite Hsent.
  - set (o1 := set_transmission_trigger_timer _ o0).
    assert (K1 : same_parameters o o1) by (etransitivity; [exact K0 | done]).
    eexists _, o1. split; [reflexivity |]. split; [|split; [exact K1 |split; [|done]]].
    + by eapply (io_producing_kept s); [exact Hp | apply pool_set | exact K1 | |].
    + transitivity (<[c:=o1]> (<[c:=o0]> (pool s))); [done | by rewrite insert_insert_eq].
Qed.

(** *** One connection's turns *)

(** [n] turns of connection [c]. *)
Fixpoint turns (n : nat) (e : Z) (c : nat) (s : DeviceEncapsulation) : option DeviceEncapsulation :=
  match n with
  | O => Some s
  | S n => s ← manage_connection peer e c s; turns n e c s
  end.

(** The connection does not produce, or it can. *)
Definition production_runs (s : DeviceEncapsulation) (c : nat) (o : CipConnectionObject) : Prop :=
  produces o = false ∨
  ∃ n p entry held, io_producing s c o n p entry held ∧ before_keeps entry.2.

(** The watchdog timer after a turn, or after more of them. *)
Definition watchdog_after (e : Z) (o : CipConnectionObject) : Z :=
  if watched o then inactivity_watchdog_timer o - e else inactivity_watchdog_timer o.

Definition counted (e : Z) (o : CipConnectionObject) : CipConnectionObject :=
  if watched o
  then set_last_package_watchdog_timer (minus (last_package_watchdog_timer o) e)
         (set_inactivity_watchdog_timer (minus (inactivity_watchdog_timer o) e) o)
  else o.

(** The part of a turn in front of the production, if the time has not run out. *)
Lemma manage_connection_counts e c s o :
  pool s !! c = Some o → is_state kConnectionObjectStateEstablished o = true → not_expiring e o →
  ∃ s1, manage_connection peer e c s = produce e c s1 ∧
    pool s1 = <[c := counted e o]> (pool s) ∧ stack (world s1) = stack (world s).
Proof.
  intros Ho Hs Hn. unfold manage_connection, check_watchdog, counted. rewrite Ho.
  cbn [mbind option_bind]. rewrite Hs. destruct (watched o) eqn:Hw.
  - rewrite (proj2 (Z.leb_gt _ _)) by auto. cbn [mbind option_bind]. cbv zeta.
    eexists. rewrite pool_set. cbn [mbind option_bind]. rewrite set_timers_state, Hs.
    split; [reflexivity |]. by split.
  - exists s. cbn [mbind option_bind]. rewrite Ho. cbn [mbind option_bind]. rewrite Hs.
    split; [done |]. by rewrite insert_id.
Qed.

Lemma counted_uses e o :
  0 <= e → not_expiring e o → is_u64 (inactivity_watchdog_timer o) →
  is_state kConnectionObjectStateEstablished o = true →
  (is_state kConnectionObjectStateEstablished (counted e o) = true ∧
   watched (counted e o) = watched o ∧ produces (counted e o) = produces o ∧
   is_cyclic (counted e o) = is_cyclic o ∧
   ConnectionObjectGetRequestedPacketInterval (counted e o) = ConnectionObjectGetRequestedPacketInterval o ∧
   transmission_trigger_timer (counted e o) = transmission_trigger_timer o) ∧
  inactivity_watchdog_timer (counted e o) = watchdog_after e o.
Proof.
  intros He Hn Hu Hs. unfold counted, watchdog_after, not_expiring in *.
  destruct (watched o) eqn:Hw; [|by repeat split]. split; [by repeat split |].
  specialize (Hn Hs eq_refl). unfold minus. cbn. rewrite u64_id; unfold is_u64 in *; lia.
Qed.

(** A turn in which the time does not run out. *)
Lemma turn_spec e c s o :
  pool s !! c = Some o → is_state kConnectionObjectStateEstablished o = true → not_expiring e o →
  production_runs s c o → 0 <= e → is_u64 (inactivity_watchdog_timer o) →
  ∃ s' o', manage_connection peer e c s = Some s' ∧ pool s' = <[c := o']> (pool s) ∧
    production_runs s' c o' ∧
    (is_state kConnectionObjectStateEstablished o' = true ∧ watched o' = watched o ∧
     produces o' = produces o ∧ is_cyclic o' = is_cyclic o ∧
     ConnectionObjectGetRequestedPacketInterval o' = ConnectionObjectGetRequestedPacketInterval o) ∧
    inactivity_watchdog_timer o' = watchdog_after e o ∧
    (produces o = true →
     if transmission_trigger_timer o <=? e
     then transmission_trigger_timer o' = next_trigger e o ∧ length (sent_by s') = S (length (sent_by s))
     else transmission_trigger_timer o' = minus (transmission_trigger_timer o) e ∧ sent_by s' = sent_by s).
Proof.
  intros Ho Hs Hn Hr He Hu.
  destruct (manage_connection_counts e c s o Ho Hs Hn) as (s1 & E & Hp1 & Hst).
  destruct (counted_uses e o He Hn Hu Hs) as [(U1 & U2 & U3 & U4 & U5 & U6) Hwd].
  set (o1 := counted e o) in *.
  assert (Ho1 : pool s1 !! c = Some o1) by (rewrite Hp1; apply lookup_insert_eq).
  rewrite E. destruct (produces o) eqn:Hpr.
  - destruct Hr as [Hr|(n & p & entry & held & Hio & Hbk)]; [congruence |].
    assert (Hio1 : io_producing s1 c o1 n p entry held).
    { destruct Hio as [_ Hse Hin Hcl Hi Hh Hb Hl].
      split; rewrite ?Hst; try done; unfold o1, counted; by destruct (watched o). }
    destruct (produce_sends e c s1 o1 n p entry held Hio1 Hbk U3)
      as (s' & o' & E' & Hio' & Hsame & Hp' & Hprod). cbv zeta in Hprod.
    destruct (same_parameters_uses _ _ Hsame) as (W1 & W2 & W3 & W4 & W5).
    assert (Hsent : sent_by s1 = sent_by s) by (unfold sent_by; by rewrite Hst).
    exists s', o'. split; [exact E' |]. split; [by rewrite Hp', Hp1, insert_insert_eq |].
    split; [right; by exists n, p, entry, held |]. split; [rewrite W1, W2, W3, W4, W5; by split_and! |].
    split; [destruct Hsame as [Hf _]; injection Hf as _ -> _ _ _ _ _; exact Hwd |].
    intros _. unfold next_trigger in *. by rewrite U5, U6, Hsent in Hprod.
  - exists s1, o1. split; [unfold produce; rewrite Ho1; cbn [mbind option_bind]; by rewrite U3 |].
    split; [done |]. split; [left; by rewrite U3 |]. by split_and!.
Qed.

Lemma turns_waited n e c s o :
  pool s !! c = Some o → is_state kConnectionObjectStateEstablished o = true →
  watched o = true → production_runs s c o → 0 <= e → is_u64 (inactivity_watchdog_timer o) →
  Z.of_nat n * e < inactivity_watchdog_timer o →
  ∃ s' o', turns n e c s = Some s' ∧ pool s' = <[c := o']> (pool s) ∧
    is_state kConnectionObjectStateEstablished o' = true ∧ watched o' = true ∧
    inactivity_watchdog_timer o' = inactivity_watchdog_timer o - Z.of_nat n * e.
Proof.
  intros Ho Hs Hw Hp He Ht. revert s o Ho Hs Hw Hp Ht.
  induction n as [|n IH]; intros s o Ho Hs Hw Hp Ht Hn.
  { exists s, o. split; [done |]. split; [by rewrite insert_id |]. split_and!; try done. lia. }
  destruct (turn_spec e c s o) as (s1 & o1 & E & Hp1 & Hr1 & (U1 & U2 & _) & Hwd & _); try done.
  { intros _ _. lia. }
  unfold watchdog_after in Hwd. rewrite Hw in U2, Hwd.
  destruct (IH s1 o1) as (s' & o' & E' & Hp' & Hs' & Hw' & Ht'); try done;
    [rewrite Hp1; apply lookup_insert_eq | unfold is_u64 in *; lia | lia |].
  exists s', o'. cbn [turns]. rewrite E. split; [done |].
  split; [by rewrite Hp', Hp1, insert_insert_eq |]. split_and!; try done. lia.
Qed.

(** C19.  A watched connection that hears nothing is given its time and no more, whether it
    produces or not: with [t] milliseconds left and ticks of [e], it counts down exactly and stays
    established for all but the last of the [t / e] (rounded up) ticks, and the last
    calls its time-out function first and lets it produce only if it is still established then.
    If the connection produces, its data are an assembly of at most 480 bytes that the application
    keeps when it is asked for them. *)
Theorem watchdog_runs_out n e c s o :
  pool s !! c = Some o → is_state kConnectionObjectStateEstablished o = true →
  watched o = true → production_runs s c o → 0 < e → is_u64 (inactivity_watchdog_timer o) →
  Z.of_nat n * e < inactivity_watchdog_timer o <= Z.of_nat (S n) * e →
  ∃ s' o', turns n e c s = Some s' ∧ pool s' = <[c := o']> (pool s) ∧
    inactivity_watchdog_timer o' = inactivity_watchdog_timer o - Z.of_nat n * e ∧
    is_state kConnectionObjectStateEstablished o' = true ∧
    manage_connection peer e c s'
    = (s2 ← time_out peer c s'; o2 ← pool s2 !! c;
       if is_state kConnectionObjectStateEstablished o2 then produce e c s2 else Some s2).
Proof.
  intros Ho Hs Hw Hp He Ht [Hn Hn'].
  destruct (turns_waited n e c s o) as (s' & o' & E & Hp' & Hs' & Hw' & Ht'); [done .. | lia | done | done |].
  exists s', o'. split_and!; try done.
  unfold manage_connection, check_watchdog. rewrite Hp', lookup_insert_eq. cbn [mbind option_bind].
  by rewrite Hs', Hw', Ht', (proj2 (Z.leb_le _ _)) by lia.
Qed.

(** C31.  A cyclic producer keeps its packet rate without drift: with an interval of [r]
    milliseconds and ticks of [e <= r], after any [k] of its turns in [ManageConnections] before
    its watchdog, if it has one, runs out, it has sent [m] datagrams,
    where its timer, always between 0 and [r], is exactly its start plus [m * r] less
    the time passed; and it is established still.  The data are an assembly of at most 480
    bytes that the application keeps when it is asked for them. *)
Theorem production_rate k e c s o n p entry held :
  io_producing s c o n p entry held → before_keeps entry.2 → produces o = true → is_cyclic o = true →
  is_state kConnectionObjectStateEstablished o = true → is_u64 (inactivity_watchdog_timer o) →
  (watched o = true → Z.of_nat k * e < inactivity_watchdog_timer o) →
  let r := ConnectionObjectGetRequestedPacketInterval o in
  0 < e <= r → 0 <= transmission_trigger_timer o <= r →
  ∃ s' o' m, turns k e c s = Some s' ∧ pool s' = <[c := o']> (pool s) ∧
    is_state kConnectionObjectStateEstablished o' = true ∧
    length (sent_by s') = (m + length (sent_by s))%nat ∧
    transmission_trigger_timer o'
    = transmission_trigger_timer o + Z.of_nat m * r - Z.of_nat k * e ∧
    0 <= transmission_trigger_timer o' <= r.
Proof.
  intros Hp Hbk Hpr Hcy Hs Hu Hwd r He Ht.
  assert (Hr : r < 65536).
  { unfold r, ConnectionObjectGetRequestedPacketInterval. case_match; apply u16_range. }
  assert (Hrun : production_runs s c o) by (right; by exists n, p, entry, held).
  pose proof (pr_object _ _ _ _ _ _ _ Hp) as Ho. clear Hp.
  revert s o Ho Hrun Hpr Hcy Hs Hu Hwd r He Ht Hr. induction k as [|k IH]; intros s o Ho Hrun Hpr Hcy Hs Hu Hwd r He Ht Hr.
  { exists s, o, 0%nat. split; [done |]. split; [by rewrite insert_id |]. split_and!; try done; lia. }
  destruct (turn_spec e c s o) as (s1 & o1 & E & Hp1 & Hr1 & (U1 & U2 & U3 & U4 & U5) & Hw1 & H'); try done; [|lia|].
  { intros _ Hw. specialize (Hwd Hw). lia. }
  specialize (H' Hpr).
  assert (Hstep : ∃ m1, length (sent_by s1) = (m1 + length (sent_by s))%nat ∧
    transmission_trigger_timer o1 = transmission_trigger_timer o + Z.of_nat m1 * r - e ∧
    0 <= transmission_trigger_timer o1 <= r).
  { destruct (Z.leb_spec (transmission_trigger_timer o) e).
    - exists 1%nat. destruct H' as [-> ->]. split; [done |]. unfold next_trigger. fold r.
      rewrite u64_id by (unfold is_u64; lia). destruct (Z.ltb_spec e (transmission_trigger_timer o + r)); lia.
    - exists 0%nat. destruct H' as [-> ->]. split; [done |]. unfold minus.
      rewrite u64_id by (unfold is_u64; lia). lia. }
  destruct Hstep as (m1 & Hm1 & Ht1 & Hb1).
  assert (Hw' : is_u64 (inactivity_watchdog_timer o1) ∧
    (watched o1 = true → Z.of_nat k * e < inactivity_watchdog_timer o1)).
  { rewrite U2. unfold watchdog_after in Hw1. destruct (watched o); rewrite Hw1; [|by split].
    specialize (Hwd eq_refl). unfold is_u64 in *. split; [lia |]. intros _. lia. }
  destruct Hw' as [Hu1 Hwd1]. fold r in U5.
  destruct (IH s1 o1) as (s' & o' & m & E' & Ho' & Hs' & Hm & Ht' & Hb'); rewrite ?U5; try congruence; try done;
    [rewrite Hp1; apply lookup_insert_eq |].
  exists s', o', (m + m1)%nat. cbn [turns]. rewrite E. cbn [mbind option_bind].
  rewrite U5 in Ht', Hb'. split; [done |]. split; [by rewrite Ho', Hp1, insert_insert_eq |].
  split; [done |]. split; [lia |]. split; [|lia]. rewrite Ht', Ht1. lia.
Qed.
End TimerLemmas.


(** ** Examples *)

Definition timed_device (m : ConnManager) : DeviceEncapsulation :=
  example_encapsulation (io_device m).

Definition no_peer (socket : Z) : Z := 0.

Lemma ticked_manager e m :
  Encap.manager (ManageEncapsulationMessages e (set_world
    (@HandleApplication sample_application (world (timed_device m))) (timed_device m))) = m.
Proof. reflexivity. Qed.

(** Connection 6, with [t] milliseconds left and a packet interval of [rpi]
    microseconds, which is sent from socket 9 at once. *)
Definition timed_example (t rpi : Z) : CipConnectionObject :=
  set_socket_producing 9
    (set_inactivity_watchdog_timer t (set_last_package_watchdog_timer t
      (set_expected_packet_rate (rpi / 1000) (set_t_to_o_requested_packet_interval rpi
        (io_example 0x01))))).

Definition timed_connection (t rpi : Z) : ConnManager :=
  set_connection 6 (timed_example t rpi) (opened 6 io_manager).

Lemma opened_io_manager :
  conns_wf (opened 6 io_manager) [(0, 6)]%nat ∧
  is_Some (connection_pool (opened 6 io_manager) !! 6%nat).
Proof.
  destruct (opened_spec 6%nat io_manager [] 0%nat) as [Hw Hp].
  { apply io_manager_wf. } { by intros ?%not_elem_of_nil. } { by eexists. }
  { vm_compute. reflexivity. }
  split; [exact Hw |]. rewrite Hp, lookup_insert_eq. by eexists.
Qed.

Lemma timed_connection_wf t rpi : conns_wf (timed_connection t rpi) [(0, 6)]%nat.
Proof. apply conns_wf_set; apply opened_io_manager. Qed.

Lemma timed_connection_object t rpi :
  connection_pool (timed_connection t rpi) !! 6%nat = Some (timed_example t rpi).
Proof. apply lookup_insert_eq. Qed.

Lemma ManageConnections_visits_all_witness :
  let s := timed_device (timed_connection 25 50000) in
  @ManageConnections example_platform quiet_application sample_application no_peer 10 s
  = (s' ← @manage_all example_platform quiet_application no_peer 10 [6%nat]
            (ManageEncapsulationMessages 10
               (set_world (@HandleApplication sample_application (world s)) s));
     Some (kEipStatusOk, s')).
Proof.
  intros s.
  destruct (@ManageConnections_visits_all example_platform quiet_application sample_application
    no_peer 10 s [(0, 6)]%nat) as [E _].
  - unfold s. rewrite ticked_manager. apply timed_connection_wf.
  - intros c Hc. unfold s. rewrite ticked_manager. apply list_elem_of_singleton in Hc as ->.
    exists (timed_example 25 50000). split; [apply timed_connection_object |].
    intros _ _. by vm_compute.
  - exact E.
Defined.

Lemma timed_producing t rpi :
  @io_producing quiet_application (timed_device (timed_connection t rpi)) 6
    (timed_example t rpi) 0 (ListInstance 0) (100, 500%nat) [1; 1; 1; 1].
Proof.
  destruct assembly_example_input as (Hr & Hi & Hin).
  split; [apply timed_connection_object | by vm_compute | by vm_compute | exact Hr | exact Hi | | |].
  - exists (mkByteArray 4 (Some [1; 1; 1; 1])). split; [exact Hin |]. split; [reflexivity | by exists []].
  - apply (bool_decide_unpack _). by vm_compute.
  - simpl. lia.
Qed.

Lemma quiet_before a : @before_keeps quiet_application a.
Proof. intros i o. reflexivity. Qed.

(** A connection that consumes and produces every 50 milliseconds, with 25 milliseconds left. *)
Lemma watchdog_runs_out_witness :
  let s := timed_device (timed_connection 25 50000) in
  ∃ s', @turns example_platform quiet_application no_peer 2 10 6 s = Some s' ∧
    length (sent_by s') = 1%nat ∧
    option_map inactivity_watchdog_timer (connection_pool (Encap.manager s') !! 6%nat) = Some 5.
Proof.
  intros s.
  destruct (@watchdog_runs_out example_platform quiet_application no_peer 2 10 6 s
    (timed_example 25 50000)) as (s' & o' & E & P & W & _).
  - apply timed_connection_object.
  - reflexivity.
  - reflexivity.
  - right. exists 0%nat, (ListInstance 0), (100, 500%nat), [1; 1; 1; 1].
    split; [apply timed_producing | apply quiet_before].
  - lia.
  - unfold is_u64. change (0 <= 25 < 2 ^ 64). lia.
  - change (Z.of_nat 2 * 10 < 25 <= Z.of_nat 3 * 10). lia.
  - exists s'. split; [exact E |]. rewrite P, lookup_insert_eq. cbn [option_map]. rewrite W.
    split; [|reflexivity].
    assert (X : (λ x, length (sent_by x)) <$> @turns example_platform quiet_application no_peer 2 10 6 s
      = Some 1%nat) by (vm_compute; reflexivity).
    rewrite E in X. by injection X.
Defined.

(** Every 50 milliseconds, checked every 20: the first datagram leaves at once, and in
    120 milliseconds the timer has been refilled three times. *)
Lemma production_rate_witness :
  ∃ s' o' m, @turns example_platform quiet_application no_peer 6 20 6
      (timed_device (timed_connection 200 50000)) = Some s' ∧
    connection_pool (Encap.manager s') !! 6%nat = Some o' ∧
    length (sent_by s') = (m + 0)%nat ∧
    transmission_trigger_timer o' = 0 + Z.of_nat m * 50 - 120 ∧
    0 <= transmission_trigger_timer o' <= 50.
Proof.
  destruct (@production_rate example_platform quiet_application no_peer 6 20 6
    (timed_device (timed_connection 200 50000)) (timed_example 200 50000) 0 (ListInstance 0)
    (100, 500%nat) [1; 1; 1; 1]) as (s' & o' & m & E & Ho & _ & Hl & Ht & Hb).
  - apply timed_producing.
  - apply quiet_before.
  - reflexivity.
  - reflexivity.
  - reflexivity.
  - unfold is_u64. change (0 <= 200 < 2 ^ 64). lia.
  - intros _. change (Z.of_nat 6 * 20 < 200). lia.
  - change (0 < 20 <= 50). lia.
  - change (0 <= 0 <= 50). lia.
  - exists s', o', m. split; [exact E |]. split; [rewrite Ho; apply lookup_insert_eq |]. split; [exact Hl |].
    split; [exact Ht | exact Hb].
Defined.

(** Two class 3 connections of one originator; the time of the newer has run out. *)
Definition class3_device : ConnManager :=
  set_connection 1 (set_connection_timeout_function (Some kClass3ConnectionTimeoutHandler)
    (set_state 3 (session_connection 1))) (opened 1 (opened 0 initial_manager)).

Lemma class3_device_facts :
  conns_wf class3_device [(1, 1); (0, 0)]%nat ∧
  connection_pool class3_device !! 1%nat
  = Some (set_connection_timeout_function (Some kClass3ConnectionTimeoutHandler)
      (set_state 3 (session_connection 1))) ∧
  connection_pool class3_device !! 0%nat = Some (set_state 3 (session_connection 0)).
Proof.
  destruct (opened_spec 0%nat initial_manager [] 0%nat) as [Hw0 Hp0].
  { exact initial_manager_wf. } { by intros ?%not_elem_of_nil. }
  { rewrite initial_manager_pool by (unfold OPENER_CIP_NUM_EXPLICIT_CONNS; lia). by eexists. }
  { vm_compute. reflexivity. }
  destruct (opened_spec 1%nat (opened 0 initial_manager) [(0%nat, 0%nat)] 1%nat) as [Hw1 Hp1].
  { exact Hw0. } { by apply (bool_decide_unpack _). }
  { rewrite Hp0, lookup_insert_ne by done.
    rewrite initial_manager_pool by (unfold OPENER_CIP_NUM_EXPLICIT_CONNS; lia). by eexists. }
  { vm_compute. reflexivity. }
  split; [|split].
  - apply conns_wf_set; [exact Hw1 |]. rewrite Hp1, lookup_insert_eq. by eexists.
  - apply lookup_insert_eq.
  - unfold class3_device. cbn [set_connection connection_pool].
    rewrite lookup_insert_ne by done. rewrite Hp1, lookup_insert_ne by done.
    rewrite Hp0. apply lookup_insert_eq.
Qed.

Lemma class3_timeout_ends_tick_witness :
  ∃ s', @ManageConnections example_platform quiet_application sample_application no_peer 10
      (timed_device class3_device) = Some (kEipStatusOk, s') ∧
    conns_wf (Encap.manager s') [(0, 0)]%nat ∧
    connection_pool (Encap.manager s') !! 0%nat = Some (set_state 3 (session_connection 0)).
Proof.
  destruct class3_device_facts as (Hw & H1 & H0).
  destruct (@class3_timeout_ends_tick example_platform quiet_application sample_application
    no_peer 10 (timed_device class3_device) 1 1 [(0, 0)]%nat
    (set_connection_timeout_function (Some kClass3ConnectionTimeoutHandler)
       (set_state 3 (session_connection 1))) 0 (set_state 3 (session_connection 0)))
    as (s' & E & Hw' & Hk); rewrite ?ticked_manager.
  - exact Hw.
  - exact H1.
  - reflexivity.
  - reflexivity.
  - change (0 <= 10). lia.
  - reflexivity.
  - reflexivity.
  - by left.
  - exact H0.
  - reflexivity.
  - reflexivity.
  - exists s'. split; [exact E |]. split; [exact Hw' |].
    rewrite Hk by done. rewrite ticked_manager. exact H0.
Defined.
