(* ===== verification/ConnOpen.v ===== *)
(** * Opening class 3 connections

    Forward Open and Large Forward Open of [cip/cipconnectionmanager.c], from the
    bytes of the request to the bytes of the reply: the connection that is opened,
    and every refusal before the path is read. *)

From S2P Require Import Prelude EndianConv EPath CipStrings CipTypes CipCodec CipClasses CipServices Identity.
From S2P Require Import MessageRouter ConnRecord ConnObject ConnList LinkedList AppConType EncapData Cpf ConnPath.
From S2P Require Import ConnService.
From stdpp Require Import strings.
Open Scope Z_scope.


(** ** Lemmas: replies *)

Lemma add_to_response_holds f bs r out :
  writes f bs → bytes bs → holds out (message r) → Z.of_nat (length (out ++ bs)) <= 512 →
  ∃ m', add_to_response f r = Some (set_message m' r) ∧ holds (out ++ bs) m'.
Proof.
  intros Hf Hb Hh Hl. destruct (writes_holds f bs out _ Hf Hb Hh Hl) as (m' & E & Hm).
  exists m'. unfold add_to_response. by rewrite E.
Qed.

(** One write of the reply: [H] says what the message holds so far. *)
Ltac reply_write H W :=
  let m := fresh "m" in let E := fresh "E" in let H' := fresh "H" in
  match goal with
  | |- context [add_to_response ?f ?r] =>
      destruct (add_to_response_holds f _ r _ W ltac:(apply le_bytes_bytes) H) as (m & E & H');
      [rewrite ?length_app, ?length_le_bytes; simpl length; lia |];
      rewrite E; cbn [mbind option_bind]; clear E; clear H; rename H' into H
  end.

(** Ids and triad of a connection. *)
Definition triad_bytes (o : CipConnectionObject) : list Z :=
  le_bytes 2 (connection_serial_number o) ++ le_bytes 2 (originator_vendor_id o)
    ++ le_bytes 4 (originator_serial_number o).

Definition open_reply_bytes (o : CipConnectionObject) : list Z :=
  le_bytes 4 (cip_consumed_connection_id o) ++ le_bytes 4 (cip_produced_connection_id o)
    ++ triad_bytes o ++ le_bytes 4 (o_to_t_requested_packet_interval o)
    ++ le_bytes 4 (t_to_o_requested_packet_interval o) ++ [0; 0].

Definition open_service (o : CipConnectionObject) : Z :=
  if is_large_forward_open o then 0xDB else 0xD4.

(** The CPF item of the reply: a null address and an unconnected data item. *)
Definition reply_item (d : CipCommonPacketFormatData) (count : Z) : CipCommonPacketFormatData :=
  let i := data_item d in let a := address_item d in
  mkCpf count (mkAddressItem kCipItemIdNullAddress 0 (connection_identifier a) (sequence_number a))
    (mkDataItem kCipItemIdUnconnectedDataItem (data_item_length i) (data_pointer i))
    (address_info_item d).

Lemma unconnected_reply_item_eq d : unconnected_reply_item d = Some (reply_item d 2).
Proof. done. Qed.

(** Socket address items are sent along. *)
Definition success_item (d : CipCommonPacketFormatData) : CipCommonPacketFormatData :=
  let '(info0, info1) := address_info_item d in
  reply_item d (if info_type_id info0 =? 0 then 2
                else if info_type_id info1 =? 0 then 3 else 4).

(** What both replies say. *)
Definition open_reply (o : CipConnectionObject) (status : Z) (size : Z) (add : list Z)
    (body : list Z) (r' : CipMessageRouterResponse) : Prop :=
  reply_service r' = open_service o ∧ general_status r' = status ∧
  size_of_additional_status r' = size ∧ additional_status r' = add ∧ holds body (message r').

Lemma AssembleForwardOpenResponse_success o r d e :
  holds [] (message r) →
  ∃ r', AssembleForwardOpenResponse o r kCipErrorSuccess e d
        = Some (kEipStatusOkSend, o, r', success_item d) ∧
    open_reply o 0 0 (additional_status r) (open_reply_bytes o) r'.
Proof.
  intros Hh. unfold AssembleForwardOpenResponse. rewrite unconnected_reply_item_eq.
  cbn [mbind option_bind]. change (kCipErrorSuccess =? kCipErrorSuccess) with true. cbv iota.
  set (d' := reply_item d 2). set (r0 := set_size_of_additional_status 0 _).
  change (message r) with (message r0) in Hh.
  change (address_info_item d') with (address_info_item d). unfold success_item.
  destruct (address_info_item d) as [i0 i1] eqn:Ei.
  reply_write Hh (writes_Dint (cip_consumed_connection_id o)).
  change (message (set_message m ?r)) with m in Hh.
  reply_write Hh (writes_Dint (cip_produced_connection_id o)).
  reply_write Hh (writes_Int (connection_serial_number o)).
  reply_write Hh (writes_Int (originator_vendor_id o)).
  reply_write Hh (writes_Dint (originator_serial_number o)).
  reply_write Hh (writes_Dint (o_to_t_requested_packet_interval o)).
  reply_write Hh (writes_Dint (t_to_o_requested_packet_interval o)).
  reply_write Hh (writes_Sint 0).
  reply_write Hh (writes_Sint 0).
  eexists. split.
  - do 2 f_equal. unfold d', reply_item. rewrite Ei.
    by destruct (Z.eqb_spec (info_type_id i0) 0), (Z.eqb_spec (info_type_id i1) 0).
  - split; [unfold open_service; by destruct (is_large_forward_open o) |].
    do 3 (split; [done |]). unfold open_reply_bytes, triad_bytes.
    revert Hh. rewrite <-!(assoc_L (++)). done.
Qed.

(** The extended status of a refusal. *)
Definition error_words (o : CipConnectionObject) (status extended : Z) : list Z :=
  if (status =? 0x13) || (status =? 0x15) then []
  else if extended =? 0x127 then [extended; correct_originator_to_target_size o]
  else if extended =? 0x128 then [extended; correct_target_to_originator_size o]
  else [extended].

Lemma AssembleForwardOpenResponse_error o r d status extended :
  status ≠ 0 → holds [] (message r) → length (additional_status r) = 2%nat →
  ∃ r', AssembleForwardOpenResponse o r status extended d
        = Some (kEipStatusOkSend, set_state 0 o, r', reply_item d 2) ∧
    let ws := error_words o status extended in
    open_reply o status (Z.of_nat (length ws)) (ws ++ drop (length ws) (additional_status r))
      (triad_bytes o ++ [0; 0]) r'.
Proof.
  intros Hs Hh Hl. unfold AssembleForwardOpenResponse. rewrite unconnected_reply_item_eq.
  cbn [mbind option_bind]. rewrite (proj2 (Z.eqb_neq _ _)) by (unfold kCipErrorSuccess; lia).
  cbv iota. change (ConnectionObjectSetState kConnectionObjectStateNonExistent o)
    with (Some (set_state 0 o)). cbn [mbind option_bind].
  set (r0 := connection_error_status _ _ _ _).
  assert (Hr0 : message r0 = message r ∧ reply_service r0 = open_service o ∧
    general_status r0 = status ∧
    size_of_additional_status r0 = Z.of_nat (length (error_words o status extended)) ∧
    additional_status r0 = error_words o status extended
      ++ drop (length (error_words o status extended)) (additional_status r)).
  { destruct (additional_status r) as [|w0 [|w1 [|]]] eqn:Ea; try done.
    unfold r0, connection_error_status, error_words, open_service,
      kConnectionManagerExtendedStatusCodeErrorInvalidOToTConnectionSize,
      kConnectionManagerExtendedStatusCodeErrorInvalidTToOConnectionSize,
      kCipErrorNotEnoughData, kCipErrorTooMuchData, set_additional_status,
      set_size_of_additional_status, set_general_status, set_reply_service.
    cbn [additional_status message reply_service general_status size_of_additional_status].
    rewrite Ea. destruct (is_large_forward_open o); repeat case_match; done. }
  clearbody r0. destruct Hr0 as (Hm & Hsv & Hg & Hz & Ha). rewrite <-Hm in Hh.
  reply_write Hh (writes_Int (connection_serial_number (set_state 0 o))).
  reply_write Hh (writes_Int (originator_vendor_id (set_state 0 o))).
  reply_write Hh (writes_Dint (originator_serial_number (set_state 0 o))).
  reply_write Hh (writes_Sint 0). reply_write Hh (writes_Sint 0).
  eexists. split; [done |]. split; [done |]. do 3 (split; [done |]).
  unfold triad_bytes. revert Hh. rewrite <-!(assoc_L (++)). done.
Qed.

Lemma reply_dummy_error req r status extended w :
  status ≠ 0 → holds [] (message r) → length (additional_status r) = 2%nat →
  ∃ r' , reply_dummy req r status extended w
         = Some (kEipStatusOkSend, req, r',
                 update_manager (set_dummy (set_state 0 (dummy w)))
                   (set_cpf (reply_item (g_cpf w) 2) w)) ∧
    let ws := error_words (dummy w) status extended in
    open_reply (dummy w) status (Z.of_nat (length ws))
      (ws ++ drop (length ws) (additional_status r)) (triad_bytes (dummy w) ++ [0; 0]) r'.
Proof.
  intros Hs Hh Hl. unfold reply_dummy.
  destruct (AssembleForwardOpenResponse_error (dummy w) r (g_cpf w) status extended)
    as (r' & -> & Hr); [done .. |]. by exists r'.
Qed.

(** ** Lemmas: requests *)

(** The fields of a (Large) Forward Open in front of the path. *)
Record OpenRequest := mkOpenRequest {
  fo_tick : Z; fo_ticks : Z; fo_o_t : Z; fo_t_o : Z; fo_serial : Z; fo_vendor : Z;
  fo_oserial : Z; fo_mult : Z; fo_r1 : Z; fo_r2 : Z; fo_r3 : Z; fo_o_rpi : Z; fo_o_params : Z;
  fo_t_rpi : Z; fo_t_params : Z; fo_trigger : Z }.

Definition open_bytes (large : bool) (q : OpenRequest) : list Z :=
  forward_open_bytes large (fo_tick q) (fo_ticks q) (fo_o_t q) (fo_t_o q) (fo_serial q)
    (fo_vendor q) (fo_oserial q) (fo_mult q) (fo_r1 q) (fo_r2 q) (fo_r3 q) (fo_o_rpi q)
    (fo_o_params q) (fo_t_rpi q) (fo_t_params q) (fo_trigger q).

Definition open_wf (large : bool) (q : OpenRequest) : Prop :=
  is_u32 (fo_o_t q) ∧ is_u32 (fo_t_o q) ∧ is_u16 (fo_serial q) ∧ is_u16 (fo_vendor q) ∧
  is_u32 (fo_oserial q) ∧ 0 <= fo_mult q <= 7 ∧ is_u32 (fo_o_rpi q) ∧ is_u32 (fo_t_rpi q) ∧
  (if large then is_u32 (fo_o_params q) ∧ is_u32 (fo_t_params q)
   else is_u16 (fo_o_params q) ∧ is_u16 (fo_t_params q)).

Definition o_type (large : bool) (q : OpenRequest) : ConnectionObjectConnectionType :=
  ConnectionObjectGetConnectionType (fo_o_params q) large.
Definition t_type (large : bool) (q : OpenRequest) : ConnectionObjectConnectionType :=
  ConnectionObjectGetConnectionType (fo_t_params q) large.

(** The objects of a well-formed list. *)
Definition list_objects (m : ConnManager) (xs : list (nat * nat)) : list CipConnectionObject :=
  omap (λ x, connection_pool m !! x.2) xs.

Lemma listed_connections_spec m p xs fuel :
  seg (connection_nodes m) p xs None →
  (∀ c, c ∈ xs.*2 → is_Some (connection_pool m !! c)) → (length xs < fuel)%nat →
  listed_connections fuel (head_ptr xs None) m = Some (list_objects m xs).
Proof.
  revert p fuel. induction xs as [|[a c] xs IH]; intros p fuel Hs Hp Hf;
    (destruct fuel as [|fuel]; [simpl in Hf; lia |]); [done |].
  destruct Hs as [Ha Hs]. simpl. rewrite Ha. simpl.
  destruct (Hp c) as [o Ho]; [simpl; set_solver |]. rewrite Ho. simpl.
  rewrite (IH (Some a)); [done | done | | simpl in Hf; lia].
  intros c' Hc'. apply Hp. simpl. set_solver.
Qed.

Lemma listed_connections_wf m xs :
  conns_wf m xs →
  listed_connections loop_fuel (first (connection_list m)) m = Some (list_objects m xs).
Proof.
  intros Hw. rewrite (rep_first _ _ _ (conns_list _ _ Hw)).
  eapply listed_connections_spec; [apply (conns_list _ _ Hw) | apply Hw | by eapply conns_fuel].
Qed.

(** The coming draws hold a number that no listed connection uses. *)
Definition draws_fresh (w : DeviceWorld) (xs : list (nat * nat)) (n : Z) (rest : list Z) : Prop :=
  ∃ skipped r, rand_draws (the_manager w) = skipped ++ r :: rest ∧ n = u16 r ∧
    let used := connection_number <$> list_objects (connections w) xs in
    Forall (λ d, fresh_draw used d = false) skipped ∧ fresh_draw used r = true.

(** The dummy object that holds the request [q]. *)
Definition decoded_object (w : DeviceWorld) (large : bool) (q : OpenRequest) (number rate : Z)
    (addr : SockAddr) (session : Z) : CipConnectionObject :=
  ConnRecord.set_originator_address addr (set_associated_encapsulation_session session
    (initialized (set_is_large_forward_open large (dummy w)) number (fo_o_t q) (fo_t_o q)
       (fo_serial q) (fo_vendor q) (fo_oserial q) (fo_mult q) (fo_o_rpi q) (fo_o_params q)
       (fo_t_rpi q) (fo_t_params q) (fo_trigger q)
       (Z.max 10000 (fo_o_rpi q / 1000 * (4 * 2 ^ fo_mult q))) rate)).

Definition decoded_world (w : DeviceWorld) (o : CipConnectionObject) (draws : list Z)
  : DeviceWorld :=
  set_stack (set_device_manager
               (set_rand_draws draws (set_dummy o (the_manager w))) (stack w)) w.

Lemma decode_request_spec large q w xs number rest req data addr session :
  open_wf large q → conns_wf (connections w) xs → draws_fresh w xs number rest →
  request_data req = open_bytes large q ++ data →
  ∃ rate, decode_request req addr session (start_forward_open large w)
    = Some (set_request_data data req,
            decoded_world w (decoded_object w large q number rate addr session) rest).
Proof.
  intros (H1 & H2 & H3 & H4 & H5 & H6 & H7 & H8 & H9) Hw (skipped & r & Hd & -> & Hsk & Hr) Hreq.
  unfold decode_request. cbv zeta.
  change (connections (start_forward_open large w)) with (connections w).
  rewrite (listed_connections_wf _ _ Hw). cbn [mbind option_bind]. rewrite Hreq.
  change (rand_draws (the_manager (start_forward_open large w))) with (rand_draws (the_manager w)).
  set (o0 := g_dummy_connection_object _).
  change o0 with (set_is_large_forward_open large (dummy w)). clear o0.
  destruct (InitializeFromMessage_eq (list_objects (connections w) xs)
    (rand_draws (the_manager w)) skipped r rest (set_is_large_forward_open large (dummy w))
    (fo_tick q) (fo_ticks q) (fo_o_t q) (fo_t_o q) (fo_serial q) (fo_vendor q) (fo_oserial q)
    (fo_mult q) (fo_r1 q) (fo_r2 q) (fo_r3 q) (fo_o_rpi q) (fo_o_params q) (fo_t_rpi q)
    (fo_t_params q) (fo_trigger q) data) as [rate E]; [done .. |].
  exists rate. unfold open_bytes.
  change (is_large_forward_open (set_is_large_forward_open large (dummy w))) with large in E.
  rewrite E. done.
Qed.

(** ** Opening a class 3 connection *)

(** The connection triad of the request. *)
Definition same_triad (q : OpenRequest) (o : CipConnectionObject) : Prop :=
  connection_serial_number o = fo_serial q ∧ originator_vendor_id o = fo_vendor q ∧
  originator_serial_number o = fo_oserial q.

Definition established (o : CipConnectionObject) : Prop :=
  is_state kConnectionObjectStateEstablished o = true.

(** No established connection of the list has the triad. *)
Definition new_triad (q : OpenRequest) (m : ConnManager) (xs : list (nat * nat)) : Prop :=
  ∀ c o, c ∈ xs.*2 → connection_pool m !! c = Some o → established o → ¬ same_triad q o.

Lemma decoded_triad w large q number rate addr session :
  let o := decoded_object w large q number rate addr session in
  connection_serial_number o = fo_serial q ∧ originator_vendor_id o = fo_vendor q ∧
  originator_serial_number o = fo_oserial q.
Proof. done. Qed.

Lemma equal_triad q o o' :
  connection_serial_number o = fo_serial q → originator_vendor_id o = fo_vendor q →
  originator_serial_number o = fo_oserial q →
  EqualConnectionTriad o o' = true ↔ same_triad q o'.
Proof.
  unfold EqualConnectionTriad, same_triad. intros <- <- <-.
  rewrite !andb_true_iff, !Z.eqb_eq. naive_solver.
Qed.

Lemma no_existing_connection q o m xs :
  connection_serial_number o = fo_serial q → originator_vendor_id o = fo_vendor q →
  originator_serial_number o = fo_oserial q → conns_wf m xs → new_triad q m xs →
  CheckForExistingConnection o m = Some None.
Proof.
  intros H1 H2 H3 Hw Hn. unfold CheckForExistingConnection.
  rewrite (search_spec _ _ _ Hw), first_match_None; [done |].
  intros c o' Hc Ho. apply not_true_iff_false. intros [He Ht]%andb_true_iff.
  apply (equal_triad q) in Ht; [|done ..]. by apply (Hn c o').
Qed.

(** A connection manager that can open a class 3 connection: a well-formed list, a
    free list node [a], a free explicit slot, the message router connectable. *)
Record class3_server (w : DeviceWorld) (xs : list (nat * nat)) (a : nat) : Prop := {
  cs_conns : conns_wf (connections w) xs;
  cs_open : listed_open (connections w) xs;
  cs_node : allocator (connection_nodes (connections w)) = Some a;
  cs_pool : ∀ j, (j < OPENER_CIP_NUM_EXPLICIT_CONNS)%nat →
    is_Some (connection_pool (connections w) !! j);
  cs_free : ∃ j o, (j < OPENER_CIP_NUM_EXPLICIT_CONNS)%nat ∧
    connection_pool (connections w) !! j = Some o ∧
    is_state kConnectionObjectStateNonExistent o = true;
  cs_entry : GetConnectionManagementEntry kCipMessageRouterClassCode (the_manager w)
             = Some (Some kEstablishClass3Connection) }.

(** Neither connection type is invalid, not both are null, and what the device
    sends is not multicast. *)
Definition types_ok (large : bool) (q : OpenRequest) : Prop :=
  o_type large q ≠ kConnectionObjectConnectionTypeInvalid ∧
  t_type large q ≠ kConnectionObjectConnectionTypeInvalid ∧
  t_type large q ≠ kConnectionObjectConnectionTypeMulticast ∧
  (o_type large q = kConnectionObjectConnectionTypeNull →
   t_type large q ≠ kConnectionObjectConnectionTypeNull).

(** A transport class 3 trigger with a valid production trigger. *)
Definition trigger_ok (q : OpenRequest) : Prop :=
  fo_trigger q .& 0x0F = 3 ∧ fo_trigger q .& 0x70 ∈ [0; 0x10; 0x20].

(** The request data: fields, path size, path, anything behind. *)
Definition open_request (large : bool) (q : OpenRequest) (p : ConnectionPath) (data : list Z)
    (req : CipMessageRouterRequest) : Prop :=
  request_data req
  = open_bytes large q ++ connection_path_words p :: connection_path_bytes p ++ data ∧
  request_data_size req = (if large then 40 else 36) + 2 * connection_path_words p.

Lemma trigger_valid o t :
  transport_class_trigger o = t → t .& 0x70 ∈ [0; 0x10; 0x20] → trigger_invalid o = false.
Proof.
  intros Ho Ht. unfold trigger_invalid, ConnectionObjectGetTransportClassTriggerProductionTrigger.
  rewrite Ho. by repeat (apply elem_of_cons in Ht as [->|Ht]; [reflexivity |]);
    apply elem_of_nil in Ht.
Qed.

Lemma trigger_class3 o t :
  transport_class_trigger o = t → t .& 0x0F = 3 → is_class3 o = true.
Proof.
  intros Ho Ht. unfold is_class3, ConnectionObjectGetTransportClassTriggerTransportClass.
  by rewrite Ho, Ht.
Qed.

(** The object [o] of the dummy after its path has been parsed. *)
Definition routed (p : ConnectionPath) (o : CipConnectionObject) : CipConnectionObject :=
  let e := mkPathEpath 2 1 0 in
  set_produced_path e (set_configuration_path e (prepared p o)).

Lemma routed_kept p o :
  transport_class_trigger (routed p o) = transport_class_trigger o ∧
  ConnectionObjectGetOToTConnectionType (routed p o) = ConnectionObjectGetOToTConnectionType o ∧
  ConnectionObjectGetTToOConnectionType (routed p o) = ConnectionObjectGetTToOConnectionType o ∧
  triad_bytes (routed p o) = triad_bytes o ∧
  is_large_forward_open (routed p o) = is_large_forward_open o.
Proof. unfold routed, prepared. by destruct (cp_key p). Qed.

Lemma first_connection_head m a c xs :
  conns_wf m ((a, c) :: xs) → first_connection m = connection_pool m !! c.
Proof.
  intros [Hl _ _ _]. unfold first_connection. rewrite (rep_first _ _ _ Hl).
  cbn [head_ptr]. destruct (rep_seg _ _ _ Hl) as [Ha _].
  unfold deref. cbn [mbind option_bind]. by rewrite Ha.
Qed.

(** Parsing, opening and answering a request for the message router, from the
    decoded dummy object [o] on. *)
Lemma handle_class3 `{OpenFunctions} w o xs a p k data req r :
  class3_server w xs a → dummy w = o → trigger_invalid o = false → is_class3 o = true →
  path_ok (g_identity (stack w)) (cip_stack (stack w)) k p → message_router_path p →
  path_request o p data req → holds [] (message r) →
  let o' := class3_connection (next_ids (the_manager w)) (routed p o) in
  ∃ c w' r',
    HandleNonNullNonMatchingForwardOpenRequest req r w
    = Some (kEipStatusOkSend, set_request_data data req, r', w') ∧
    ((c < OPENER_CIP_NUM_EXPLICIT_CONNS)%nat ∧ c ∉ xs.*2) ∧
    conns_wf (connections w') ((a, c) :: xs) ∧ listed_open (connections w') ((a, c) :: xs) ∧
    connection_pool (connections w') = <[c := o']> (connection_pool (connections w)) ∧
    open_reply o' 0 0 (additional_status r) (open_reply_bytes o') r'.
Proof.
  intros [Hw Ho Ha Hp (j & oj & Hj & Hoj & Hfree) He] Hd Ht H3 Hpath Hrouter Hreq Hh o'.
  unfold HandleNonNullNonMatchingForwardOpenRequest. rewrite Hd, Ht. cbv zeta.
  unfold parse_dummy_path. rewrite Hd.
  rewrite (ParseConnectionPath_class3 _ _ k p o data req _ _ Hpath Hrouter H3 Hreq).
  fold (routed p o). cbn [mbind option_bind connection extended_error g_config_data].
  change (negb (0 =? 0)) with false. cbv iota.
  set (w1 := update_manager _ w).
  change (dummy w1) with (routed p o).
  change (epath_class_id (configuration_path (routed p o))) with kCipMessageRouterClassCode.
  change (GetConnectionManagementEntry kCipMessageRouterClassCode (the_manager w1))
    with (GetConnectionManagementEntry kCipMessageRouterClassCode (the_manager w)).
  rewrite He. unfold open_connection. change (kEstablishClass3Connection =? _)%nat with true.
  cbv iota. unfold open_class3. change (dummy w1) with (routed p o).
  change (connections w1) with (connections w).
  change (next_ids (the_manager w1)) with (next_ids (the_manager w)).
  destruct (EstablishClass3_cases (connections w) xs (next_ids (the_manager w)) (routed p o) a)
    as [[_ Hfull] | (c & m' & -> & Hc & Hnin & Hw' & Ho' & Hp')]; [done .. | |].
  { pose proof (Hfull j oj Hj Hoj). congruence. }
  cbn [mbind option_bind]. change (negb (kCipErrorSuccess =? 0)) with false. cbv iota.
  set (w2 := update_manager _ _). change (connections w2) with m'.
  rewrite (first_connection_head _ _ _ _ Hw'), Hp', lookup_insert_eq. cbn [mbind option_bind].
  destruct (AssembleForwardOpenResponse_success o' r (g_cpf w2) 0 Hh) as (r' & E & Hr').
  unfold o' in E. rewrite E. cbn [mbind option_bind].
  exists c. do 2 eexists. split; [done |]. split; [done |]. do 3 (split; [done |]). exact Hr'.
Qed.

Lemma class3_connection_kept ids o :
  ConnectionObjectGetTToOConnectionType o ≠ kConnectionObjectConnectionTypeMulticast →
  let o' := class3_connection ids o in
  cip_consumed_connection_id o'
    = (if bool_decide (ConnectionObjectGetOToTConnectionType o
                       = kConnectionObjectConnectionTypePointToPoint)
       then ids.1 else cip_consumed_connection_id o) ∧
  cip_produced_connection_id o' = cip_produced_connection_id o ∧
  triad_bytes o' = triad_bytes o ∧
  o_to_t_requested_packet_interval o' = o_to_t_requested_packet_interval o ∧
  t_to_o_requested_packet_interval o' = t_to_o_requested_packet_interval o ∧
  connection_serial_number o' = connection_serial_number o ∧
  originator_vendor_id o' = originator_vendor_id o ∧
  originator_serial_number o' = originator_serial_number o ∧
  connection_number o' = connection_number o ∧
  associated_encapsulation_session o' = associated_encapsulation_session o ∧
  ConnRecord.originator_address o' = ConnRecord.originator_address o ∧
  produced_path o' = produced_path o ∧ is_large_forward_open o' = is_large_forward_open o ∧
  transport_class_trigger o' = transport_class_trigger o.
Proof.
  intros Hm. unfold class3_connection, ConnectionObjectGeneralConfiguration,
    ConnectionObjectDeepCopy. cbv zeta.
  set (c0 := set_socket_consuming _ _).
  change (ConnectionObjectGetOToTConnectionType c0)
    with (ConnectionObjectGetOToTConnectionType o).
  assert (Hm' : ∀ c, ConnectionObjectGetTToOConnectionType c
                     = ConnectionObjectGetTToOConnectionType o →
    bool_decide (kConnectionObjectConnectionTypeMulticast
                 = ConnectionObjectGetTToOConnectionType c) = false)
    by (intros c Hc; apply bool_decide_false; congruence).
  destruct (decide (ConnectionObjectGetOToTConnectionType o
                    = kConnectionObjectConnectionTypePointToPoint)) as [E|E].
  - rewrite (bool_decide_true (_ = ConnectionObjectGetOToTConnectionType o)),
      (bool_decide_true (ConnectionObjectGetOToTConnectionType o = _)) by congruence.
    cbv iota beta. rewrite Hm' by reflexivity. repeat split.
  - rewrite (bool_decide_false (_ = ConnectionObjectGetOToTConnectionType o)),
      (bool_decide_false (ConnectionObjectGetOToTConnectionType o = _)) by congruence.
    cbv iota beta. rewrite Hm' by reflexivity. repeat split.
Qed.

Lemma decoded_server w xs a o rest :
  class3_server w xs a → class3_server (decoded_world w o rest) xs a.
Proof. by intros []. Qed.

(** What a new class 3 connection is. *)
Record opened_class3 (large : bool) (q : OpenRequest) (id number session : Z) (addr : SockAddr)
    (o : CipConnectionObject) : Prop := {
  oc_established : established o;
  oc_class3 : is_class3 o = true;
  oc_triad : same_triad q o;
  oc_consumed : cip_consumed_connection_id o
    = if bool_decide (o_type large q = kConnectionObjectConnectionTypePointToPoint)
      then id else fo_o_t q;
  oc_produced : cip_produced_connection_id o = fo_t_o q;
  oc_number : connection_number o = number;
  oc_session : associated_encapsulation_session o = session;
  oc_originator : ConnRecord.originator_address o = addr;
  oc_path : produced_path o = mkPathEpath 2 1 0;
  oc_close : connection_close_function o = Some kCloseConnection }.

(** The bytes of the positive reply. *)
Definition opened_bytes (q : OpenRequest) (o : CipConnectionObject) : list Z :=
  le_bytes 4 (cip_consumed_connection_id o) ++ le_bytes 4 (fo_t_o q)
    ++ le_bytes 2 (fo_serial q) ++ le_bytes 2 (fo_vendor q) ++ le_bytes 4 (fo_oserial q)
    ++ le_bytes 4 (fo_o_rpi q) ++ le_bytes 4 (fo_t_rpi q) ++ [0; 0].

Definition forward_open_service `{OpenFunctions} (large : bool) :=
  if large then LargeForwardOpen else ForwardOpen.

Lemma forward_open_eq `{OpenFunctions} large req r addr session w :
  forward_open_service large req r addr session w
  = ForwardOpenRoutine req r addr session (start_forward_open large w).
Proof. by destruct large. Qed.

Lemma opened_class3_object large q w p number rate addr session ids :
  types_ok large q → trigger_ok q →
  let o := class3_connection ids (routed p (decoded_object w large q number rate addr session)) in
  opened_class3 large q ids.1 number session addr o ∧ open_reply_bytes o = opened_bytes q o ∧
  is_large_forward_open o = large.
Proof.
  intros (Ho & Ht & Hm & Hn) (H3 & _). set (d := decoded_object _ _ _ _ _ _ _). cbv zeta.
  destruct (routed_kept p d) as (R1 & R2 & R3 & R4 & R5).
  destruct (class3_connection_kept ids (routed p d)) as (K1 & K2 & K3 & K4 & K5 & K6 & K7 & K8
    & K9 & K10 & K11 & K12 & K13 & K14); [by rewrite R3 |].
  pose proof (class3_connection_fields ids (routed p d)) as (F1 & F2 & F3 & F4).
  assert (Hkept : cip_consumed_connection_id (routed p d) = fo_o_t q ∧
    cip_produced_connection_id (routed p d) = fo_t_o q ∧
    connection_serial_number (routed p d) = fo_serial q ∧
    originator_vendor_id (routed p d) = fo_vendor q ∧
    originator_serial_number (routed p d) = fo_oserial q ∧
    connection_number (routed p d) = number ∧
    associated_encapsulation_session (routed p d) = session ∧
    ConnRecord.originator_address (routed p d) = addr ∧
    o_to_t_requested_packet_interval (routed p d) = fo_o_rpi q ∧
    t_to_o_requested_packet_interval (routed p d) = fo_t_rpi q)
    by (unfold routed, prepared; by destruct (cp_key p)).
  destruct Hkept as (D1 & D2 & D3 & D4 & D5 & D6 & D7 & D8 & D9 & D10).
  split; [|split; [|by rewrite K13, R5]].
  - split; try congruence.
    + unfold established, is_state, ConnectionObjectGetState. by rewrite F1.
    + apply (trigger_class3 _ (fo_trigger q)); [by rewrite F4, R1 | done].
    + unfold same_triad. by rewrite K6, K7, K8.
    + rewrite K1, R2, D1. done.
    + by rewrite K12.
  - unfold open_reply_bytes, opened_bytes, triad_bytes.
    rewrite K2, D2, K6, D3, K7, D4, K8, D5, K4, D9, K5, D10.
    by rewrite <-!(assoc_L (++)).
Qed.

(** C3.  A (Large) Forward Open of a transport class 3 connection to the message
    router, received by a connection manager with a free slot: decoding, parsing of
    its path (with or without an accepted electronic key), establishing and
    answering work together.  A free explicit slot becomes an established
    class 3 connection with the request's triad, session and originator, a fresh
    connection number and, for a point-to-point connection, the next connection id
    of the device; it is put at the head of the list and is found by that id; all
    other connections stay as they are; and the reply has exactly the bytes of a
    successful (Large) Forward Open response. *)
Theorem ForwardOpen_class3 `{OpenFunctions} large w xs a q p k number rest req data addr
    session r :
  class3_server w xs a → open_wf large q → types_ok large q → trigger_ok q →
  draws_fresh w xs number rest → new_triad q (connections w) xs →
  path_ok (g_identity (stack w)) (cip_stack (stack w)) k p → message_router_path p →
  open_request large q p data req → holds [] (message r) →
  ∃ c o w' r',
    forward_open_service large req r addr session w
    = Some (kEipStatusOkSend, set_request_data data req, r', w') ∧
    opened_class3 large q (GetConnectionId (the_manager w)).1 number session addr o ∧
    ((c < OPENER_CIP_NUM_EXPLICIT_CONNS)%nat ∧ c ∉ xs.*2) ∧
    conns_wf (connections w') ((a, c) :: xs) ∧
    connection_pool (connections w') = <[c := o]> (connection_pool (connections w)) ∧
    GetConnectedObject (cip_consumed_connection_id o) (connections w') = Some (Some c) ∧
    reply_service r' = (if large then 0xDB else 0xD4) ∧ general_status r' = 0 ∧
    size_of_additional_status r' = 0 ∧ holds (opened_bytes q o) (message r').
Proof.
  intros Hsrv Hwf Hty Htr Hdr Hnew Hpath Hrouter [Hreq Hsize] Hh. rewrite forward_open_eq.
  unfold ForwardOpenRoutine.
  destruct (decode_request_spec large q w xs number rest req _ addr session Hwf
    (cs_conns _ _ _ Hsrv) Hdr Hreq) as [rate ->].
  cbn [mbind option_bind]. cbv zeta.
  set (o := decoded_object w large q number rate addr session).
  set (w1 := decoded_world w o rest). change (dummy w1) with o.
  change (ConnectionObjectGetOToTConnectionType o) with (o_type large q).
  change (ConnectionObjectGetTToOConnectionType o) with (t_type large q).
  pose proof Hty as (T1 & T2 & T3 & T4).
  unfold is_type. rewrite !(bool_decide_false (kConnectionObjectConnectionTypeInvalid = _)),
    (bool_decide_false (kConnectionObjectConnectionTypeMulticast = _)) by congruence.
  cbn [andb]. change (connections w1) with (connections w).
  rewrite (no_existing_connection q o _ xs) by (done || apply Hsrv). cbn [mbind option_bind].
  assert (bool_decide (kConnectionObjectConnectionTypeNull = o_type large q)
    && bool_decide (kConnectionObjectConnectionTypeNull = t_type large q) = false) as ->.
  { apply andb_false_iff. rewrite !bool_decide_eq_false.
    destruct (decide (o_type large q = kConnectionObjectConnectionTypeNull)) as [E|E];
      [right; specialize (T4 E) |left]; congruence. }
  unfold handle_forward_open_request_functions.
  destruct (handle_class3 w1 o xs a p k data
    (set_request_data (connection_path_words p :: connection_path_bytes p ++ data) req) r)
    as (c & w' & r' & -> & Hc & Hw' & Ho' & Hp' & Hr').
  - by apply decoded_server.
  - done.
  - by apply (trigger_valid _ (fo_trigger q)); [|apply Htr].
  - by apply (trigger_class3 _ (fo_trigger q)); [|apply Htr].
  - done.
  - done.
  - split; [done |]. cbn [request_data_size set_request_data]. rewrite Hsize.
    unfold header_length. change (is_large_forward_open o) with large. by destruct large.
  - done.
  - destruct (opened_class3_object large q w p number rate addr session
      (next_ids (the_manager w)) Hty Htr) as (Hopened & Hbytes & Hlarge).
    fold o in Hopened, Hbytes, Hlarge.
    change (next_ids (the_manager w1)) with (next_ids (the_manager w)) in *.
    destruct Hr' as (R1 & R2 & R3 & _ & R5).
    eexists c, _, w', r'. split; [reflexivity |]. split; [exact Hopened |].
    do 3 (split; [done |]). split.
    { eapply GetConnectedObject_head; [done | rewrite Hp'; apply lookup_insert_eq |].
      apply class3_connection_fields. }
    split; [|do 2 (split; [done |]); by rewrite <-Hbytes].
    rewrite R1. unfold open_service. rewrite Hlarge. done.
Qed.

(** ** Refused requests *)

Definition existing_triad (q : OpenRequest) (m : ConnManager) (xs : list (nat * nat)) : Prop :=
  ∃ c o, c ∈ xs.*2 ∧ connection_pool m !! c = Some o ∧ established o ∧ same_triad q o.

Definition null_request (large : bool) (q : OpenRequest) : Prop :=
  o_type large q = kConnectionObjectConnectionTypeNull ∧
  t_type large q = kConnectionObjectConnectionTypeNull.

(** The originator is outside the device's network. *)
Definition off_subnet (w : DeviceWorld) (addr : SockAddr) : Prop :=
  let n := g_network_status (stack w) in
  sin_addr addr .& network_mask n ≠ ip_address n .& network_mask n.

(** The checks before the path is read, in their order, with the extended status of
    the refusal. *)
Inductive refusal (large : bool) (q : OpenRequest) (w : DeviceWorld) (xs : list (nat * nat))
    (addr : SockAddr) : Z → Prop :=
| refuse_o_t :
    o_type large q = kConnectionObjectConnectionTypeInvalid → refusal large q w xs addr 0x123
| refuse_t_o :
    o_type large q ≠ kConnectionObjectConnectionTypeInvalid →
    t_type large q = kConnectionObjectConnectionTypeInvalid → refusal large q w xs addr 0x124
| refuse_multicast :
    o_type large q ≠ kConnectionObjectConnectionTypeInvalid →
    t_type large q = kConnectionObjectConnectionTypeMulticast → off_subnet w addr →
    refusal large q w xs addr 0x813
| refuse_null :
    null_request large q → refusal large q w xs addr 0x132
| refuse_duplicate :
    o_type large q ≠ kConnectionObjectConnectionTypeInvalid →
    t_type large q ≠ kConnectionObjectConnectionTypeInvalid →
    (t_type large q = kConnectionObjectConnectionTypeMulticast → ¬ off_subnet w addr) →
    ¬ null_request large q → existing_triad q (connections w) xs →
    refusal large q w xs addr 0x100
| refuse_trigger :
    o_type large q ≠ kConnectionObjectConnectionTypeInvalid →
    t_type large q ≠ kConnectionObjectConnectionTypeInvalid →
    (t_type large q = kConnectionObjectConnectionTypeMulticast → ¬ off_subnet w addr) →
    ¬ null_request large q → new_triad q (connections w) xs →
    fo_trigger q .& 0x70 ∉ [0; 0x10; 0x20] → refusal large q w xs addr 0x103.

Lemma first_match_exists f m xs c o :
  c ∈ xs.*2 → connection_pool m !! c = Some o → f c o = true →
  ∃ x, first_match f m xs = Some x.
Proof.
  intros Hc Ho Hf. unfold first_match.
  destruct (List.find _ xs) as [x|] eqn:E; [by exists x |].
  apply list_elem_of_fmap in Hc as ([a c'] & -> & Hin).
  apply list_elem_of_In in Hin. pose proof (List.find_none _ _ E _ Hin) as Hn.
  simpl in *. rewrite Ho in Hn. congruence.
Qed.

Lemma existing_connection q o m xs :
  connection_serial_number o = fo_serial q → originator_vendor_id o = fo_vendor q →
  originator_serial_number o = fo_oserial q → conns_wf m xs → existing_triad q m xs →
  ∃ c, CheckForExistingConnection o m = Some (Some c).
Proof.
  intros H1 H2 H3 Hw (c & o' & Hc & Ho & He & Ht). unfold CheckForExistingConnection.
  rewrite (search_spec _ _ _ Hw).
  destruct (first_match_exists (λ _ o', is_state kConnectionObjectStateEstablished o'
    && EqualConnectionTriad o o') m xs c o') as [x ->]; [done | done | |].
  - unfold established in He. rewrite He. by apply (equal_triad q).
  - by eexists.
Qed.

(** The existence check never fails on a well-formed list. *)
Lemma check_existing_total o m xs :
  conns_wf m xs → ∃ r, CheckForExistingConnection o m = Some r.
Proof.
  intros Hw. unfold CheckForExistingConnection. rewrite (search_spec _ _ _ Hw). by eexists.
Qed.

Lemma trigger_refused o t :
  transport_class_trigger o = t → t .& 0x70 ∉ [0; 0x10; 0x20] → trigger_invalid o = true.
Proof.
  intros Ho Ht. unfold trigger_invalid, ConnectionObjectGetTransportClassTriggerProductionTrigger.
  rewrite Ho. rewrite !not_elem_of_cons in Ht. destruct Ht as (H0 & H1 & H2 & _).
  cbv zeta. change (0 ≪ 4) with 0. change (1 ≪ 4) with 0x10. change (2 ≪ 4) with 0x20.
  by rewrite (proj2 (Z.eqb_neq _ _) H0), (proj2 (Z.eqb_neq _ _) H1), (proj2 (Z.eqb_neq _ _) H2).
Qed.

(** Decoded but refused: the routine answers about the dummy object. *)
Lemma ForwardOpenRoutine_refused `{OpenFunctions} large q w xs addr e o req r rest :
  refusal large q w xs addr e → conns_wf (connections w) xs →
  connection_serial_number o = fo_serial q → originator_vendor_id o = fo_vendor q →
  originator_serial_number o = fo_oserial q → transport_class_trigger o = fo_trigger q →
  let w1 := decoded_world w o rest in
  (if is_type kConnectionObjectConnectionTypeInvalid (o_type large q) then
     reply_dummy req r kCipErrorConnectionFailure 0x123 w1
   else if is_type kConnectionObjectConnectionTypeInvalid (t_type large q) then
     reply_dummy req r kCipErrorConnectionFailure 0x124 w1
   else if is_type kConnectionObjectConnectionTypeMulticast (t_type large q)
           && negb (sin_addr addr .& network_mask (g_network_status (stack w1))
                    =? ip_address (g_network_status (stack w1))
                       .& network_mask (g_network_status (stack w1))) then
     reply_dummy req r kCipErrorConnectionFailure 0x813 w1
   else
     existing ← CheckForExistingConnection (dummy w1) (connections w1);
     handle_forward_open_request_functions
       (is_type kConnectionObjectConnectionTypeNull (o_type large q)
        && is_type kConnectionObjectConnectionTypeNull (t_type large q))
       (match existing with Some _ => true | None => false end) req r w1)
  = reply_dummy req r kCipErrorConnectionFailure e w1.
Proof.
  intros Href Hw S1 S2 S3 Htr w1. unfold is_type.
  change (connections w1) with (connections w). change (dummy w1) with o.
  change (g_network_status (stack w1)) with (g_network_status (stack w)).
  assert (Hsub : ∀ P : Prop, (P → ¬ off_subnet w addr) → (P ∨ ¬ P) →
    ∀ b, (b = true → P) → b && negb (sin_addr addr .& network_mask (g_network_status (stack w))
      =? ip_address (g_network_status (stack w)) .& network_mask (g_network_status (stack w)))
    = false).
  { intros P HP Hdec b Hb. destruct b; [|done]. specialize (HP (Hb eq_refl)).
    unfold off_subnet in HP. apply negb_false_iff, Z.eqb_eq. lia. }
  destruct (check_existing_total o _ _ Hw) as [x Hx].
  destruct Href as [Ho | Ho Ht | Ho Ht Hoff | [Ho Ht] | Ho Ht Hm Hn He | Ho Ht Hm Hn He Hbad].
  - by rewrite Ho.
  - rewrite (bool_decide_false (_ = o_type large q)) by congruence. by rewrite Ht.
  - rewrite (bool_decide_false (_ = o_type large q)) by congruence. rewrite Ht. cbn.
    unfold off_subnet in Hoff. by rewrite (proj2 (Z.eqb_neq _ _) Hoff).
  - rewrite Ho, Ht, Hx. cbn. by destruct x.
  - rewrite !(bool_decide_false (kConnectionObjectConnectionTypeInvalid = _)) by congruence.
    rewrite (Hsub (t_type large q = kConnectionObjectConnectionTypeMulticast));
      [| done | by destruct (t_type large q); auto | by intros ->%bool_decide_eq_true].
    destruct (existing_connection q o _ _ S1 S2 S3 Hw He) as [c ->]. cbn [mbind option_bind].
    rewrite <-bool_decide_and, bool_decide_false; [done |]. intros [E1 E2]. by apply Hn.
  - rewrite !(bool_decide_false (kConnectionObjectConnectionTypeInvalid = _)) by congruence.
    rewrite (Hsub (t_type large q = kConnectionObjectConnectionTypeMulticast));
      [| done | by destruct (t_type large q); auto | by intros ->%bool_decide_eq_true].
    rewrite (no_existing_connection q o _ _ S1 S2 S3 Hw He). cbn [mbind option_bind].
    rewrite <-bool_decide_and, bool_decide_false by (intros [E1 E2]; by apply Hn).
    unfold handle_forward_open_request_functions, HandleNonNullNonMatchingForwardOpenRequest.
    change (dummy w1) with o. by rewrite (trigger_refused _ _ Htr Hbad).
Qed.

(** C26.  A (Large) Forward Open that fails one of the checks before its path is read -
    an invalid connection type, multicast to another network, a null request, the
    triad of an established connection, an invalid production trigger, in this
    order - changes no connection.  The reply has general status 1, the extended
    status of the first failed check in one word, the triad of the request, and no
    remaining path. *)
Theorem ForwardOpen_refused `{OpenFunctions} large w xs q number rest req data addr session
    r e :
  refusal large q w xs addr e → conns_wf (connections w) xs → open_wf large q →
  draws_fresh w xs number rest → request_data req = open_bytes large q ++ data →
  holds [] (message r) → additional_status r = [0; 0] →
  ∃ w' r',
    forward_open_service large req r addr session w
    = Some (kEipStatusOkSend, set_request_data data req, r', w') ∧
    connections w' = connections w ∧ cip_stack (stack w') = cip_stack (stack w) ∧
    reply_service r' = (if large then 0xDB else 0xD4) ∧ general_status r' = 1 ∧
    size_of_additional_status r' = 1 ∧ additional_status r' = [e; 0] ∧
    holds (le_bytes 2 (fo_serial q) ++ le_bytes 2 (fo_vendor q) ++ le_bytes 4 (fo_oserial q)
             ++ [0; 0]) (message r').
Proof.
  intros Href Hw Hwf Hdr Hreq Hh Ha. rewrite forward_open_eq. unfold ForwardOpenRoutine.
  destruct (decode_request_spec large q w xs number rest req data addr session Hwf Hw Hdr Hreq)
    as [rate ->].
  cbn [mbind option_bind]. cbv zeta.
  set (o := decoded_object w large q number rate addr session).
  set (w1 := decoded_world w o rest). change (dummy w1) with o.
  change (ConnectionObjectGetOToTConnectionType o) with (o_type large q).
  change (ConnectionObjectGetTToOConnectionType o) with (t_type large q).
  pose proof (ForwardOpenRoutine_refused large q w xs addr e o (set_request_data data req) r rest
    Href Hw eq_refl eq_refl eq_refl eq_refl) as E. cbv zeta in E. fold w1 in E.
  destruct (reply_dummy_error (set_request_data data req) r kCipErrorConnectionFailure e w1)
    as (r' & E2 & R1 & R2 & R3 & R4 & R5); [done | done | by rewrite Ha |].
  assert (Hws : error_words (dummy w1) kCipErrorConnectionFailure e = [e])
    by (destruct Href; reflexivity).
  rewrite Hws in R3, R4. eexists _, r'. split; [etransitivity; [exact E | exact E2] |]. do 2 (split; [done |]).
  split; [rewrite R1; unfold open_service; by change (is_large_forward_open (dummy w1)) with large |].
  do 2 (split; [done |]). split; [by rewrite R4, Ha |].
  revert R5. unfold triad_bytes. by rewrite <-!(assoc_L (++)).
Qed.

(** ** An example *)

(** A device in its initial state: no connections, the message router and the
    assembly object connectable. *)
Definition device_manager : ManagerState :=
  mkManager 0x12340000 18 [(2, Some kEstablishClass3Connection);
                           (4, Some kEstablishIoConnection); (0, None)]
    zero_connection (0, None) [77; 5].
Definition device_network : NetworkStatus :=
  mkNetworkStatus 0xC0A80102 0xFFFFFF00 0 0xEFC00000 [].
Definition example_device : DeviceWorld :=
  mkWorld zero_cpf initial_manager
    (mkDeviceState (mkRequest 0 (mkEpath 0 0 0 0) 0 []) path_stack device_manager path_identity
       device_network
       (mkIoState (fst (InitializeIoConnectionData initial_manager)) 0 false false [])).
Definition no_open : OpenFunctions := {| open_function _ _ _ := None |}.

(** A class 3 request: null originator to target, point-to-point back. *)
Definition example_open : OpenRequest :=
  mkOpenRequest 10 5 0 0x55667788 0x1234 1 0xAABBCCDD 1 0 0 0 100000 0x4302 100000 0x4302 0xA3.
Definition open_message (q : OpenRequest) : CipMessageRouterRequest :=
  mkRequest kForwardOpen (mkEpath 2 6 1 0) (36 + 2 * connection_path_words router_path)
    (open_bytes false q ++ connection_path_words router_path
       :: connection_path_bytes router_path ++ []).

Lemma example_server : class3_server example_device [] 0.
Proof.
  assert (Hp : ∀ j, (j < OPENER_CIP_NUM_EXPLICIT_CONNS)%nat →
    connection_pool (connections example_device) !! j = Some zero_connection).
  { intros j Hj. by apply initial_manager_pool. }
  split.
  - exact initial_manager_wf.
  - intros c o Hc. by apply elem_of_nil in Hc.
  - by vm_compute.
  - intros j Hj. eexists. by apply Hp.
  - exists 0%nat, zero_connection.
    assert (0 < OPENER_CIP_NUM_EXPLICIT_CONNS)%nat by (unfold OPENER_CIP_NUM_EXPLICIT_CONNS; lia).
    split; [done |]. split; [by apply Hp | by vm_compute].
  - reflexivity.
Qed.

Lemma ForwardOpen_class3_witness :
  ∃ c o w' r',
    @forward_open_service no_open false (open_message example_open) empty_response (example_peer) 9
      example_device
    = Some (kEipStatusOkSend, set_request_data [] (open_message example_open), r', w') ∧
    conns_wf (connections w') [(0%nat, c)] ∧ connection_number o = 77 ∧
    cip_consumed_connection_id o = 0x12340013 ∧ general_status r' = 0.
Proof.
  destruct (@ForwardOpen_class3 no_open false example_device [] 0%nat example_open router_path
    (path_class 2 [1]) 77 [5] (open_message example_open) [] (example_peer) 9
    empty_response) as (c & o & w' & r' & E & Ho & _ & Hw & _ & _ & _ & Hs & _).
  - exact example_server.
  - repeat split; vm_compute; discriminate.
  - repeat split; vm_compute; discriminate.
  - split; [reflexivity | apply (bool_decide_unpack _); by vm_compute].
  - exists [], 77. repeat split; vm_compute; by constructor.
  - intros c o Hc. by apply elem_of_nil in Hc.
  - exact router_path_ok.
  - repeat split.
  - split; reflexivity.
  - exact holds_init.
  - exists c, o, w', r'. split; [exact E |]. split; [exact Hw |].
    split; [apply Ho |]. split; [|exact Hs]. rewrite (oc_consumed _ _ _ _ _ _ _ Ho). reflexivity.
Defined.

(** The same device refuses a null Forward Open. *)
Definition null_open : OpenRequest :=
  mkOpenRequest 10 5 0 0x55667788 0x1234 1 0xAABBCCDD 1 0 0 0 100000 0 100000 0 0xA3.

Lemma ForwardOpen_refused_witness :
  ∃ w' r',
    @forward_open_service no_open false (open_message null_open) empty_response example_peer 9
      example_device
    = Some (kEipStatusOkSend, set_request_data (connection_path_words router_path
              :: connection_path_bytes router_path ++ []) (open_message null_open), r', w') ∧
    connections w' = initial_manager ∧ additional_status r' = [0x132; 0].
Proof.
  destruct (@ForwardOpen_refused no_open false example_device [] null_open 77 [5]
    (open_message null_open)
    (connection_path_words router_path :: connection_path_bytes router_path ++ [])
    example_peer 9 empty_response 0x132)
    as (w' & r' & E & Hc & _ & _ & _ & _ & Ha & _).
  - by apply refuse_null.
  - exact initial_manager_wf.
  - repeat split; vm_compute; discriminate.
  - exists [], 77. repeat split; vm_compute; by constructor.
  - reflexivity.
  - exact holds_init.
  - reflexivity.
  - exists w', r'. split; [exact E |]. split; [exact Hc | exact Ha].
Defined.
