(* ===== verification/ConnClose.v ===== *)
(** * Closing connections and reading their data

    Forward Close, Get Connection Data and Search Connection Data of
    [cip/cipconnectionmanager.c]. *)

From S2P Require Import Prelude EndianConv EPath CipStrings CipTypes CipCodec CipClasses CipServices Identity.
From S2P Require Import MessageRouter ConnRecord ConnObject ConnList LinkedList AppConType IoClose EncapData Cpf ConnPath.
From S2P Require Import ConnService ConnOpen.
From stdpp Require Import strings.
Open Scope Z_scope.


(** ** Forward Close *)

Record CloseRequest := mkCloseRequest {
  fc_tick : Z; fc_ticks : Z; fc_serial : Z; fc_vendor : Z; fc_oserial : Z; fc_path_size : Z }.

Definition close_wf (q : CloseRequest) : Prop :=
  is_u16 (fc_serial q) ∧ is_u16 (fc_vendor q) ∧ is_u32 (fc_oserial q).

Definition close_triad_bytes (q : CloseRequest) : list Z :=
  le_bytes 2 (fc_serial q) ++ le_bytes 2 (fc_vendor q) ++ le_bytes 4 (fc_oserial q).

Definition close_request (q : CloseRequest) (data : list Z) (req : CipMessageRouterRequest)
  : Prop :=
  request_data req
  = [fc_tick q; fc_ticks q] ++ close_triad_bytes q ++ fc_path_size q :: data.

Definition close_named (q : CloseRequest) (o : CipConnectionObject) : bool :=
  (is_state kConnectionObjectStateEstablished o || is_state kConnectionObjectStateTimedOut o)
  && (connection_serial_number o =? fc_serial q) && (originator_vendor_id o =? fc_vendor q)
  && (originator_serial_number o =? fc_oserial q).

(** The reply: status, additional status, body. *)
Definition close_reply (req : CipMessageRouterRequest) (q : CloseRequest) (status size : Z)
    (add : list Z) (path_size : Z) (r' : CipMessageRouterResponse) : Prop :=
  reply_service r' = u8 (0x80 .| service req) ∧ general_status r' = status ∧
  size_of_additional_status r' = size ∧ additional_status r' = add ∧
  holds (close_triad_bytes q ++ le_bytes 1 path_size ++ [0]) (message r').

Lemma AssembleForwardCloseResponse_spec q req r data d e :
  request_data req = fc_path_size q :: data → holds [] (message r) →
  size_of_additional_status r = 0 → additional_status r = [0; 0] →
  ∃ r', AssembleForwardCloseResponse (fc_serial q) (fc_vendor q) (fc_oserial q) req r e d
        = Some (kEipStatusOkSend, r', reply_item d 2) ∧
    (e = 0 → close_reply req q 0 0 [0; 0] 0 r') ∧
    (e = 0xFFFF → close_reply req q kCipErrorPrivilegeViolation 0 [0; 0] (fc_path_size q) r') ∧
    (e ≠ 0 → e ≠ 0xFFFF →
     close_reply req q kCipErrorConnectionFailure 1 [e; 0] (fc_path_size q) r').
Proof.
  intros Hd Hh Hz Ha. unfold AssembleForwardCloseResponse. rewrite unconnected_reply_item_eq.
  cbn [mbind option_bind].
  reply_write Hh (writes_Int (fc_serial q)). reply_write Hh (writes_Int (fc_vendor q)).
  reply_write Hh (writes_Dint (fc_oserial q)).
  unfold kConnectionManagerExtendedStatusCodeSuccess, kConnectionManagerExtendedStatusWrongCloser.
  set (r1 := set_reply_service _ _).
  change m1 with (message r1) in Hh.
  destruct (Z.eqb_spec 0 e) as [<-|He].
  - reply_write Hh (writes_Sint 0).
    match goal with |- context [add_to_response _ ?x] =>
      change m2 with (message x) in Hh end.
    reply_write Hh (writes_Sint 0).
    eexists. split; [done |]. split; [|split; lia]. intros _.
    do 3 (split; [done |]). split; [done |]. unfold close_triad_bytes.
    revert Hh. rewrite <-!(assoc_L (++)). done.
  - rewrite Hd. cbn [load lookup list_lookup]. change (load (fc_path_size q :: data) 0)
      with (Some (fc_path_size q)). cbn [mbind option_bind].
    reply_write Hh (writes_Sint (fc_path_size q)).
    destruct (Z.eqb_spec 0xFFFF e) as [<-|He']; cbn [mbind option_bind].
    + match goal with |- context [add_to_response _ ?x] =>
        change m2 with (message x) in Hh end.
      reply_write Hh (writes_Sint 0).
      eexists. split; [done |]. split; [done |]. split; [|done]. intros _.
      do 2 (split; [done |]). split; [done |]. split; [done |]. unfold close_triad_bytes.
      revert Hh. rewrite <-!(assoc_L (++)). done.
    + match goal with |- context [add_to_response _ ?x] =>
        change m2 with (message x) in Hh end.
      reply_write Hh (writes_Sint 0).
      eexists. split; [done |]. split; [congruence |]. split; [congruence |]. intros _ _.
      do 3 (split; [done |]).
      split; [|unfold close_triad_bytes; revert Hh; by rewrite <-!(assoc_L (++))].
      unfold set_additional_status, set_size_of_additional_status. cbn. by rewrite Ha.
Qed.

(** The world without socket address items. *)
Definition close_world (w : DeviceWorld) : DeviceWorld :=
  set_cpf (set_infos (set_info_type 0 (address_info_item (g_cpf w)).1,
                      set_info_type 0 (address_info_item (g_cpf w)).2) (g_cpf w)) w.

(** Status and world after the connection found, if any, has been treated. *)
Definition close_found `{ConnectionCallbacks} (addr : SockAddr) (found : option (nat * nat))
    (w : DeviceWorld) : option (Z * DeviceWorld) :=
  match found with
  | None => Some (0x107, w)
  | Some (_, c) =>
      o ← connection_pool (connections w) !! c;
      assert! match connection_close_function o with Some _ => true | None => false end;
      if sin_addr addr =? sin_addr (ConnRecord.originator_address o) then
        m ← close_connection c (connections w); Some (0, set_connections m w)
      else Some (0xFFFF, w)
  end.

Lemma ForwardClose_eq `{ConnectionCallbacks} w xs q data req r addr session e w2 :
  conns_wf (connections w) xs → close_wf q → close_request q data req →
  holds [] (message r) → size_of_additional_status r = 0 → additional_status r = [0; 0] →
  close_found addr (first_match (λ _, close_named q) (connections w) xs) (close_world w)
    = Some (e, w2) →
  ∃ req' r' w', ForwardClose req r addr session w = Some (kEipStatusOkSend, req', r', w') ∧
    connections w' = connections w2 ∧ stack w' = stack w2 ∧
    (e = 0 → close_reply req q 0 0 [0; 0] 0 r') ∧
    (e = 0xFFFF → close_reply req q kCipErrorPrivilegeViolation 0 [0; 0] (fc_path_size q) r') ∧
    (e ≠ 0 → e ≠ 0xFFFF →
     close_reply req q kCipErrorConnectionFailure 1 [e; 0] (fc_path_size q) r').
Proof.
  intros Hw (Q1 & Q2 & Q3) Hreq Hh Hz Ha Hf. unfold ForwardClose. rewrite Hreq.
  change (ptr_add ([fc_tick q; fc_ticks q] ++ ?l) 2) with (Some l).
  cbn [mbind option_bind]. unfold close_triad_bytes. rewrite <-!(assoc_L (++)).
  rewrite GetUint_le_id by done. cbn [mbind option_bind].
  rewrite GetUint_le_id by done. cbn [mbind option_bind].
  rewrite GetUdint_le, u32_id by done. cbn [mbind option_bind]. cbv zeta.
  fold (close_world w). change (connections (close_world w)) with (connections w).
  rewrite (search_spec _ _ _ Hw). cbn [mbind option_bind].
  destruct (AssembleForwardCloseResponse_spec q (set_request_data (fc_path_size q :: data) req)
    r data (g_cpf w2) e) as (r' & E & Hr); [done .. |].
  unfold close_found in Hf. change (connections (close_world w)) with (connections w) in Hf.
  unfold kConnectionManagerExtendedStatusCodeErrorConnectionTargetConnectionNotFound,
    kConnectionManagerExtendedStatusCodeSuccess, kConnectionManagerExtendedStatusWrongCloser.
  match type of Hf with ?l = _ =>
    match goal with |- context [mbind _ ?x] => change x with l end end.
  rewrite Hf. cbn [mbind option_bind]. rewrite E.
  do 3 eexists. split; [done |]. do 2 (split; [done |]). exact Hr.
Qed.

(** Connection [c], object [o], has been closed in [m]; [others] are the other listed ones.  An
    I/O connection goes with its listeners or hands its producer over. *)
Definition io_closed (m : ConnManager) (c : nat) (o : CipConnectionObject)
    (others : list (nat * nat)) (m' : ConnManager) : Prop :=
  let ip := epath_instance_id (produced_path o) in
  match controls_multicast o, master_candidate ip m others with
  | true, Some (_, x) => conns_wf m' others ∧ ∃ xo, connection_pool m !! x = Some xo ∧
      connection_pool m' = <[c := empty_connection]> (<[x := handed o xo]> (connection_pool m))
  | true, None => conns_wf m' (List.filter (λ x, negb (listener m ip x.2)) others) ∧
      emptied (c :: List.filter (listener m ip) others.*2) (connection_pool m) (connection_pool m')
  | false, _ => conns_wf m' others ∧
      connection_pool m' = <[c := empty_connection]> (connection_pool m)
  end.

(** The close function of the connection can do its work: it is that of class 3 connections on
    such a connection, or that of I/O connections, whose listeners are I/O connections, too. *)
Inductive closes_as (m : ConnManager) (o : CipConnectionObject) (others : list (nat * nat)) : bool → Prop :=
| closes_class3 : connection_close_function o = Some kCloseConnection → is_class3 o = true →
    closes_as m o others true
| closes_io : connection_close_function o = Some kCloseIoConnection →
    (∀ c', c' ∈ others.*2 → listener m (epath_instance_id (produced_path o)) c' = true → io_closing m c') →
    closes_as m o others false.

Lemma close_connection_runs m ys a c zs o class3 :
  conns_wf m (ys ++ (a, c) :: zs) → connection_pool m !! c = Some o →
  closes_as m o (ys ++ zs) class3 →
  ∃ m', @close_connection io_callbacks c m = Some m' ∧
    if class3 then conns_wf m' (ys ++ zs) ∧
                   connection_pool m' = <[c := empty_connection]> (connection_pool m)
    else io_closed m c o (ys ++ zs) m'.
Proof.
  intros Hw Ho [Hk H3 | Hk Hl].
  - rewrite (close_connection_class3 _ _ o Ho Hk).
    destruct (CloseConnection_class3 _ _ _ _ _ _ Hw Ho H3) as (m' & Em & Hw' & Hp & _). by exists m'.
  - destruct (close_io_spec m ys a c zs o Hw Ho Hl) as (m' & E & H').
    exists m'. unfold close_connection. rewrite Ho. cbn [mbind option_bind]. rewrite Hk.
    split; [exact E |]. unfold io_closed. revert H'.
    destruct (controls_multicast o); [done |]. intros (H1 & H2 & _). by split.
Qed.

(** C21.  Forward Close looks for the first listed connection that is established or
    timed out and has the triad of the request.  If there is none, nothing changes
    and the reply is a connection failure with extended status 0x107.  If it was
    opened from another IP address, nothing changes either and the reply is
    "privilege violation", whatever kind of connection it is.  Otherwise the reply reports success and
    the connection is closed by its close function: a class 3 connection leaves the list, its object becomes
    empty, and no other changes; an I/O connection leaves it together with its listeners, or hands its
    producer over.  Every reply repeats the triad. *)
Theorem ForwardClose_spec w xs q data req r addr session :
  conns_wf (connections w) xs → close_wf q → close_request q data req →
  holds [] (message r) → size_of_additional_status r = 0 → additional_status r = [0; 0] →
  let result := @ForwardClose io_callbacks req r addr session w in
  let same_as w' := connections w' = connections w ∧ stack w' = stack w in
  ((∀ c o, c ∈ xs.*2 → connection_pool (connections w) !! c = Some o → close_named q o = false) →
   ∃ req' r' w', result = Some (kEipStatusOkSend, req', r', w') ∧ same_as w' ∧
     close_reply req q kCipErrorConnectionFailure 1 [0x107; 0] (fc_path_size q) r') ∧
  ∀ ys a c zs o,
    xs = ys ++ (a, c) :: zs → connection_pool (connections w) !! c = Some o →
    close_named q o = true →
    (∀ y o, y ∈ ys → connection_pool (connections w) !! y.2 = Some o → close_named q o = false) →
    (connection_close_function o ≠ None →
     sin_addr addr ≠ sin_addr (ConnRecord.originator_address o) →
     ∃ req' r' w', result = Some (kEipStatusOkSend, req', r', w') ∧ same_as w' ∧
       close_reply req q kCipErrorPrivilegeViolation 0 [0; 0] (fc_path_size q) r') ∧
    (∀ class3, closes_as (connections w) o (ys ++ zs) class3 →
     sin_addr addr = sin_addr (ConnRecord.originator_address o) →
     ∃ req' r' w', result = Some (kEipStatusOkSend, req', r', w') ∧ stack w' = stack w ∧
       (if class3 then conns_wf (connections w') (ys ++ zs) ∧
          connection_pool (connections w') = <[c := empty_connection]> (connection_pool (connections w))
        else io_closed (connections w) c o (ys ++ zs) (connections w')) ∧
       close_reply req q 0 0 [0; 0] 0 r').
Proof.
  intros Hw Q Hreq Hh Hz Ha result same_as.
  pose proof (@ForwardClose_eq io_callbacks w xs q data req r addr session) as Heq. split.
  - intros Hno. destruct (Heq 0x107 (close_world w)) as (req' & r' & w' & E & E1 & E2 & _ & _ & Hr);
      [done .. | by rewrite first_match_None |].
    exists req', r', w'. split; [done |]. split; [done |]. by apply Hr.
  - intros ys a c zs o -> Ho Hn Hys.
    rewrite (first_match_split _ _ ys (a, c) zs o Ho Hn Hys) in Heq.
    unfold close_found in Heq. change (connections (close_world w)) with (connections w) in Heq.
    rewrite Ho in Heq. cbn [mbind option_bind] in Heq. split.
    + intros Hk Hne. rewrite (proj2 (Z.eqb_neq _ _) Hne) in Heq.
      destruct (connection_close_function o); [|done].
      destruct (Heq 0xFFFF (close_world w)) as (req' & r' & w' & E & E1 & E2 & _ & Hr & _);
        [done .. |].
      exists req', r', w'. split; [done |]. split; [done |]. by apply Hr.
    + intros class3 Hc Hsame. rewrite (proj2 (Z.eqb_eq _ _) Hsame) in Heq.
      destruct (close_connection_runs _ _ _ _ _ _ _ Hw Ho Hc) as (m' & Em & Hm').
      rewrite Em in Heq. assert (Hk : connection_close_function o ≠ None) by (destruct Hc; congruence).
      destruct (connection_close_function o); [|done].
      destruct (Heq 0 (set_connections m' (close_world w)))
        as (req' & r' & w' & E & E1 & E2 & Hr & _); [done .. |].
      exists req', r', w'. do 2 (split; [done |]). rewrite E1. split; [done |]. by apply Hr.
Qed.

(** ** Connection data *)

Definition connection_data_bytes (o : CipConnectionObject) : list Z :=
  le_bytes 2 (connection_number o) ++ le_bytes 2 (state o)
    ++ le_bytes 2 (sin_port (ConnRecord.originator_address o))
    ++ le_bytes 2 (sin_port (remote_address o)) ++ triad_bytes o
    ++ le_bytes 4 (cip_consumed_connection_id o) ++ le_bytes 4 (cip_consumed_connection_id o)
    ++ le_bytes 1 (connection_timeout_multiplier o) ++ [0; 0; 0]
    ++ le_bytes 4 (o_to_t_requested_packet_interval o)
    ++ le_bytes 4 (u32 (transmission_trigger_timer o))
    ++ le_bytes 4 (cip_produced_connection_id o) ++ le_bytes 4 (cip_produced_connection_id o)
    ++ le_bytes 1 (connection_timeout_multiplier o) ++ [0; 0; 0]
    ++ le_bytes 4 (t_to_o_requested_packet_interval o)
    ++ le_bytes 4 (u32 (transmission_trigger_timer o)).

Lemma writes_run_writers fs bss :
  Forall2 writes fs bss → writes (run_writers fs) (concat bss).
Proof.
  induction 1 as [|f bs fs bss Hf _ IH]; [apply writes_nothing |].
  by apply (writes_bind f (run_writers fs)).
Qed.

Lemma writes_connection_data o :
  writes (run_writers (connection_data_fields o)) (connection_data_bytes o).
Proof.
  match goal with |- writes ?f _ =>
    assert (H : writes f (concat
      [ le_bytes 2 (connection_number o); le_bytes 2 (state o);
        le_bytes 2 (sin_port (ConnRecord.originator_address o));
        le_bytes 2 (sin_port (remote_address o));
        le_bytes 2 (connection_serial_number o); le_bytes 2 (originator_vendor_id o);
        le_bytes 4 (originator_serial_number o);
        le_bytes 4 (cip_consumed_connection_id o); le_bytes 4 (cip_consumed_connection_id o);
        le_bytes 1 (connection_timeout_multiplier o); [0]; [0]; [0];
        le_bytes 4 (o_to_t_requested_packet_interval o);
        le_bytes 4 (u32 (transmission_trigger_timer o));
        le_bytes 4 (cip_produced_connection_id o); le_bytes 4 (cip_produced_connection_id o);
        le_bytes 1 (connection_timeout_multiplier o); [0]; [0]; [0];
        le_bytes 4 (t_to_o_requested_packet_interval o);
        le_bytes 4 (u32 (transmission_trigger_timer o)) ])) end.
  { apply writes_run_writers. unfold connection_data_fields.
    repeat (apply Forall2_cons; split; [
      match goal with
      | |- writes (AddIntToMessage ?v) _ => exact (writes_Int v)
      | |- writes (AddDintToMessage ?v) _ => exact (writes_Dint v)
      | |- writes (AddSintToMessage ?v) _ => exact (writes_Sint v)
      end |]).
    apply Forall2_nil_2. }
  revert H. unfold connection_data_bytes, triad_bytes. cbn [concat].
  rewrite <-!(assoc_L (++)), app_nil_r. done.
Qed.

Lemma connection_data_bytes_ok o : bytes (connection_data_bytes o).
Proof.
  unfold connection_data_bytes, triad_bytes. rewrite !bytes_app.
  assert (bytes [0; 0; 0]) by (apply (bytes_replicate 3 0); width_lia).
  assert (∀ n v, bytes (le_bytes n v)) by (intros; apply le_bytes_bytes). auto 30.
Qed.

Lemma connection_data_reply_found c o a req r w :
  connection_pool (connections w) !! c = Some o → holds [] (message r) →
  ∃ r', connection_data_reply (Some (a, c)) req r w = Some (kEipStatusOk, req, r', w) ∧
    reply_service r' = reply_service r ∧ general_status r' = 0 ∧
    holds (connection_data_bytes o) (message r').
Proof.
  intros Ho Hh. unfold connection_data_reply. rewrite Ho. cbn [mbind option_bind].
  unfold AssembleConnectionDataResponseMessage.
  destruct (add_to_response_holds _ _ r [] (writes_connection_data o)) as (m & -> & Hm);
    [apply connection_data_bytes_ok | done | |].
  - simpl app. unfold connection_data_bytes, triad_bytes.
    rewrite !length_app, !length_le_bytes. simpl. lia.
  - by eexists.
Qed.

(** The two lookups: the service, its reply code, what it looks for and the fields of
    its request. *)
Inductive data_query :
    (CipMessageRouterRequest → CipMessageRouterResponse → SockAddr → Z → DeviceWorld →
     option ServiceReply) →
    Z → (CipConnectionObject → bool) → list Z → Prop :=
| query_number number :
    is_u16 number →
    data_query GetConnectionData 0xD6 (λ o, connection_number o =? number) (le_bytes 2 number)
| query_triad serial vendor oserial :
    is_u16 serial → is_u16 vendor → is_u32 oserial →
    data_query SearchConnectionData 0xD7
      (λ o, (connection_serial_number o =? serial) && (originator_vendor_id o =? vendor)
            && (originator_serial_number o =? oserial))
      (le_bytes 2 serial ++ le_bytes 2 vendor ++ le_bytes 4 oserial).

Lemma data_query_runs run code test fields w xs data req r addr session :
  data_query run code test fields → conns_wf (connections w) xs →
  request_data req = fields ++ data →
  run req r addr session w
  = connection_data_reply (first_match (λ _, test) (connections w) xs)
      (set_request_data data req) (set_reply_service code r) w.
Proof.
  intros Hq Hw Hreq. destruct Hq as [number Hn|serial vendor oserial Hs Hv Ho].
  - unfold GetConnectionData. rewrite Hreq, GetUint_le_id by done. cbn [mbind option_bind].
    rewrite (search_spec _ _ _ Hw). reflexivity.
  - unfold SearchConnectionData. rewrite Hreq, <-!(assoc_L (++)), GetUint_le_id by done.
    cbn [mbind option_bind]. rewrite GetUint_le_id by done. cbn [mbind option_bind].
    rewrite GetUdint_le, u32_id by done. cbn [mbind option_bind].
    rewrite (search_spec _ _ _ Hw). reflexivity.
Qed.

(** Get Connection Data answers for the first listed connection with the
    requested connection number, Search Connection Data for the first with the
    requested triad: number, state, ports, triad, and for each direction the
    connection id (twice), timeout multiplier, three reserved bytes, requested
    interval and transmission timer.  Without such a connection the reply is "path
    destination unknown".  Neither changes the device. *)
Theorem connection_data_services run code test fields w xs data req r addr session :
  data_query run code test fields → conns_wf (connections w) xs → holds [] (message r) →
  request_data req = fields ++ data →
  ∃ r', run req r addr session w = Some (kEipStatusOk, set_request_data data req, r', w) ∧
    reply_service r' = code ∧
    match first_match (λ _, test) (connections w) xs with
    | Some (_, c) => ∃ o, connection_pool (connections w) !! c = Some o ∧ test o = true ∧
        general_status r' = 0 ∧ holds (connection_data_bytes o) (message r')
    | None => general_status r' = kCipErrorPathDestinationUnknown ∧ message r' = message r
    end.
Proof.
  intros Hq Hw Hh Hreq.
  rewrite (data_query_runs _ _ _ _ _ _ _ _ _ _ _ Hq Hw Hreq).
  assert (u8 code = code) as Hcode by (by destruct Hq).
  destruct (first_match _ _ xs) as [[a c]|] eqn:E; [|by eexists].
  apply List.find_some in E as [_ E]. simpl in E.
  destruct (connection_pool (connections w) !! c) as [o|] eqn:Eo; [|done].
  destruct (connection_data_reply_found c o a (set_request_data data req)
    (set_reply_service code r) w Eo Hh) as (r' & -> & R1 & R2 & R3).
  exists r'. split; [done |]. split; [by rewrite R1 |]. by exists o.
Qed.

(** ** An example *)

(** The example device with one open class 3 connection. *)
Definition open_class3_connection : CipConnectionObject :=
  ConnRecord.set_originator_address example_peer
    (set_connection_serial_number 0x1234 (set_originator_vendor_id 1
       (set_originator_serial_number 0xAABBCCDD (set_connection_number 77
          (set_state 3 (session_connection 0)))))).
Definition connected_device : DeviceWorld :=
  set_connections (set_connection 0 open_class3_connection (opened 0 initial_manager))
    example_device.

Lemma connected_device_wf : conns_wf (connections connected_device) [(0%nat, 0%nat)].
Proof.
  destruct (opened_spec 0%nat initial_manager [] 0%nat) as [Hw0 Hp0].
  { exact initial_manager_wf. } { intros Hc. by apply elem_of_nil in Hc. }
  { rewrite initial_manager_pool by (unfold OPENER_CIP_NUM_EXPLICIT_CONNS; lia). by eexists. }
  { vm_compute. reflexivity. }
  by apply conns_wf_set.
Qed.

Definition example_close : CloseRequest := mkCloseRequest 10 5 0x1234 1 0xAABBCCDD 3.
Definition close_message (q : CloseRequest) : CipMessageRouterRequest :=
  mkRequest kForwardClose (mkEpath 2 6 1 0) 12
    ([fc_tick q; fc_ticks q] ++ close_triad_bytes q ++ fc_path_size q :: [0]).

Lemma ForwardClose_spec_witness :
  ∃ req' r' w', @ForwardClose io_callbacks (close_message example_close) empty_response example_peer
      9 connected_device = Some (kEipStatusOkSend, req', r', w') ∧
    conns_wf (connections w') [] ∧ general_status r' = 0.
Proof.
  destruct (ForwardClose_spec connected_device [(0%nat, 0%nat)] example_close [0]
    (close_message example_close) empty_response example_peer 9) as [_ H].
  - exact connected_device_wf.
  - repeat split; vm_compute; discriminate.
  - reflexivity.
  - exact holds_init.
  - reflexivity.
  - reflexivity.
  - destruct (H [] 0%nat 0%nat [] open_class3_connection) as [_ Hc].
    + reflexivity.
    + apply lookup_insert_eq.
    + reflexivity.
    + intros y o Hy. by apply elem_of_nil in Hy.
    + destruct (Hc true) as (req' & r' & w' & E & _ & [Hw _] & _ & Hs & _);
        [by apply closes_class3 | reflexivity |].
      exists req', r', w'. split; [exact E |]. split; [exact Hw | exact Hs].
Defined.

Lemma connection_data_services_witness :
  ∃ r', SearchConnectionData
      (mkRequest kSearchConnectionData (mkEpath 2 6 1 0) 8
         ((le_bytes 2 0x1234 ++ le_bytes 2 1 ++ le_bytes 4 0xAABBCCDD) ++ []))
      empty_response example_peer 9 connected_device
    = Some (kEipStatusOk, set_request_data []
        (mkRequest kSearchConnectionData (mkEpath 2 6 1 0) 8
         ((le_bytes 2 0x1234 ++ le_bytes 2 1 ++ le_bytes 4 0xAABBCCDD) ++ [])), r',
        connected_device) ∧ general_status r' = 0.
Proof.
  destruct (connection_data_services _ _ _ _ connected_device [(0%nat, 0%nat)] []
    (mkRequest kSearchConnectionData (mkEpath 2 6 1 0) 8
       ((le_bytes 2 0x1234 ++ le_bytes 2 1 ++ le_bytes 4 0xAABBCCDD) ++ [])) empty_response
    example_peer 9 (query_triad 0x1234 1 0xAABBCCDD ltac:(split; done) ltac:(split; done)
      ltac:(split; done))) as (r' & E & _ & H).
  - exact connected_device_wf.
  - exact holds_init.
  - reflexivity.
  - exists r'. split; [exact E |]. revert H.
    match goal with |- context [first_match ?f ?m ?xs] =>
      assert (first_match f m xs = Some (0%nat, 0%nat)) as -> end.
    { unfold first_match. cbn [List.find]. unfold connected_device.
      cbn [connections set_connections]. unfold set_connection.
      cbn [connection_pool snd]. rewrite lookup_insert_eq. reflexivity. }
    by intros (o & _ & _ & H & _).
Defined.
