(* ===== verification/NetObject.v ===== *)
(** * Objects of the CIP stack that are tables of attributes

    The QoS, TCP/IP interface, Ethernet link and DLR objects are created the same way:
    a class without initializer, its attributes and its services inserted one by one.
    This file has the sequences of insertions as functions on tables, and the lemmas
    on what a created object looks like. *)

From S2P Require Import Prelude EndianConv CipTypes CipCodec CipClasses CipServices Assembly.
From stdpp Require Import strings.
Open Scope Z_scope.

Definition kCipErrorObjectStateConflict : Z := 0x0C.

(** One call [InsertAttribute(instance, number, type, encode, decode, data, flags)]. *)
Record AttributeRow := mkRow {
  row_number : Z;
  row_type : Z;
  row_encode : Encoder;
  row_decode : option Decoder;
  row_data : nat;
  row_flags : Z }.

Definition insert_row (r : AttributeRow) (ic : CipInstance * CipClass)
  : option (CipInstance * CipClass) :=
  InsertAttribute ic.1 ic.2 (row_number r) (row_type r) (Some (row_encode r)) (row_decode r)
    (Some (Object (row_data r))) (row_flags r).

Fixpoint insert_rows (rows : list AttributeRow) (ic : CipInstance * CipClass)
  : option (CipInstance * CipClass) :=
  match rows with
  | [] => Some ic
  | r :: rows => ic ← insert_row r ic; insert_rows rows ic
  end.

(** The attributes of instance [number] of class [n] of the stack. *)
Definition bind_attributes (number : Z) (rows : list AttributeRow) (n : nat) (s : CipStack)
  : option CipStack :=
  c ← get_class (TheClass n) s;
  p ← GetCipInstance c number;
  i ← get_instance n p s;
  ic ← insert_rows rows (i, c);
  Some (set_class (TheClass n) (put_instance p ic.1 ic.2) s).

(** Each instance, from [number] on, gets the next list of rows. *)
Fixpoint bind_instances (number : Z) (rowss : list (list AttributeRow)) (n : nat) (s : CipStack)
  : option CipStack :=
  match rowss with
  | [] => Some s
  | rows :: rowss => s ← bind_attributes number rows n s; bind_instances (number + 1) rowss n s
  end.

Definition CommonService : Type := Z * CipServiceFunction * string.

Fixpoint insert_common_services (l : list CommonService) (c : CipClass) : option CipClass :=
  match l with
  | [] => Some c
  | (k, fn, name) :: l => c ← InsertService c k (Some fn) name; insert_common_services l c
  end.

Definition add_services (l : list CommonService) (n : nat) (s : CipStack) : option CipStack :=
  c ← get_class (TheClass n) s;
  c ← insert_common_services l c;
  Some (set_class (TheClass n) c s).

(** ** Lemmas: the attributes of a created instance *)

Definition row_attribute (r : AttributeRow) : CipAttributeStruct :=
  mkAttribute (row_number r) (row_type r) (Some (row_encode r)) (row_decode r) (row_flags r)
    (Some (Object (row_data r))).

(** The rows whose flags meet [f]. *)
Definition flagged (f : Z) (rows : list AttributeRow) (k : Z) : bool :=
  existsb (λ r, has_flag (row_flags r) f && (k =? row_number r)) rows.

Lemma flagged_unique f rows k r :
  NoDup (row_number <$> rows) → r ∈ rows → row_number r = k →
  flagged f rows k = has_flag (row_flags r) f.
Proof.
  intros Hd Hr <-. induction rows as [|x rows IH]; [by destruct (not_elem_of_nil r Hr) |].
  cbn [fmap list_fmap] in Hd. apply list.NoDup_cons in Hd as [Hx Hd].
  cbn [flagged existsb]. fold (flagged f rows (row_number r)).
  apply elem_of_cons in Hr as [->|Hr].
  - rewrite Z.eqb_refl, andb_true_r.
    assert (flagged f rows (row_number x) = false) as ->; [|apply orb_false_r].
    unfold flagged. apply not_true_is_false. intros (y & Hy & Hb)%List.existsb_exists.
    apply andb_prop in Hb as [_ Hb%Z.eqb_eq]. apply Hx. rewrite Hb.
    apply list_elem_of_fmap. exists y. split; [done |]. by apply list_elem_of_In.
  - rewrite (proj2 (Z.eqb_neq _ _)), andb_false_r by
      (intros E; apply Hx; rewrite <-E; apply list_elem_of_fmap; by exists r).
    by apply IH.
Qed.

(** The class apart from its masks. *)
Definition unmasked (c : CipClass) : CipClass := upd_masks [] [] [] c.

(** An instance under construction: its first slots hold [rows], the others are free, and
    the class's masks hold the flags of [rows] and of [base], the rows of the instances
    before it. *)
Record under_construction (base rows : list AttributeRow) (free : nat) (i : CipInstance)
    (c : CipClass) : Prop := {
  uc_attributes : attributes i = (row_attribute <$> rows) ++ replicate free empty_attribute;
  uc_wf : attributes_wf i c;
  uc_single : ∀ k, 0 <= k <= highest_attribute_number c →
    mask_bit (get_single_bit_mask c) k = Some (flagged kGetableSingle (base ++ rows) k);
  uc_all : ∀ k, 0 <= k <= highest_attribute_number c →
    mask_bit (get_all_bit_mask c) k
    = Some (flagged (kGetableAll .| kGetableAllDummy) (base ++ rows) k);
  uc_set : ∀ k, 0 <= k <= highest_attribute_number c →
    mask_bit (set_bit_mask c) k = Some (flagged kSetable (base ++ rows) k) }.

Lemma find_free_after rows free i :
  find_free_slot (length rows + S free) i
    ((row_attribute <$> rows) ++ replicate (S free) empty_attribute) = Some (i + length rows)%nat.
Proof.
  revert i. induction rows as [|r rows IH]; intros i; cbn; [f_equal; lia |].
  rewrite IH. f_equal. lia.
Qed.

Lemma flagged_snoc f rows r k :
  flagged f (rows ++ [r]) k = flagged f rows k || (has_flag (row_flags r) f && (k =? row_number r)).
Proof. unfold flagged. rewrite existsb_app. cbn. by rewrite orb_false_r. Qed.

Lemma insert_row_spec base rows free i c r :
  under_construction base rows (S free) i c → 1 <= row_number r <= highest_attribute_number c →
  ∃ i' c', insert_row r (i, c) = Some (i', c') ∧ under_construction base (rows ++ [r]) free i' c' ∧
    unmasked c' = unmasked c ∧ instance_number i' = instance_number i ∧ cip_class i' = cip_class i.
Proof.
  intros [Ha Hwf H1 H2 H3] Hr. pose proof Hwf as (Hlen & Hall & Hh & Hg & Hga & Hs).
  set (hi := highest_attribute_number c) in *.
  assert (Hdiv : row_number r / 8 <= hi / 8) by (apply Z.div_le_mono; lia).
  unfold insert_row, InsertAttribute. cbn [mbind option_bind fst snd].
  rewrite <-Hlen, Nat2Z.id, Ha, length_app, length_fmap, length_replicate, find_free_after.
  cbn [mbind option_bind Nat.add]. fold hi. rewrite (proj2 (Z.leb_le _ _)) by lia.
  destruct (or_mask_spec (get_single_bit_mask c) (row_number r) (has_flag (row_flags r) kGetableSingle))
    as (gs & -> & Hgl & Hgs); [lia.. |].
  destruct (or_mask_spec (get_all_bit_mask c) (row_number r)
    (has_flag (row_flags r) (kGetableAll .| kGetableAllDummy))) as (ga & Ega & Hal & Hgas); [lia.. |].
  destruct (or_mask_spec (set_bit_mask c) (row_number r) (has_flag (row_flags r) kSetable))
    as (st & Est & Hsl & Hst); [lia.. |].
  assert ((if has_flag (row_flags r) kSetable then 1 else 0) ≪ (row_number r mod 8)
          = (if has_flag (row_flags r) kSetable then 1 ≪ (row_number r mod 8) else 0)) as ->.
  { case_match; [done | apply Z.shiftl_0_l]. }
  cbn [mbind option_bind]. rewrite Ega. cbn [mbind option_bind]. rewrite Est.
  cbn [mbind option_bind]. fold (row_attribute r).
  assert (Hins : <[length rows := row_attribute r]>
            ((row_attribute <$> rows) ++ replicate (S free) empty_attribute)
          = (row_attribute <$> (rows ++ [r])) ++ replicate free empty_attribute).
  { rewrite insert_app_r_alt by (by rewrite length_fmap).
    rewrite length_fmap, Nat.sub_diag, fmap_app, <-(assoc_L (++)). done. }
  rewrite Hins. eexists _, _. split; [reflexivity |]. split; [|done].
  split; cbn [attributes get_single_bit_mask get_all_bit_mask set_bit_mask
              highest_attribute_number upd_masks]; fold hi.
  - done.
  - unfold attributes_wf. cbn. fold hi. rewrite Hgl, Hal, Hsl. split_and!; try done.
    + rewrite <-Hlen, Ha, !length_app, !length_fmap, length_app, !length_replicate. cbn [length]. lia.
    + rewrite Ha in Hall. apply Forall_app in Hall as [Hall1 Hall2]. apply Forall_app. split.
      * rewrite fmap_app. apply Forall_app. split; [done |]. constructor; [|done].
        cbn. split; [by eexists | done].
      * by apply Forall_inv_tail in Hall2.
  - intros k Hk. rewrite Hgs by lia. rewrite H1, (assoc_L (++)) by done. cbn. by rewrite flagged_snoc.
  - intros k Hk. rewrite Hgas by lia. rewrite H2, (assoc_L (++)) by done. cbn. by rewrite flagged_snoc.
  - intros k Hk. rewrite Hst by lia. rewrite H3, (assoc_L (++)) by done. cbn. by rewrite flagged_snoc.
Qed.

Lemma insert_rows_spec base rows todo free i c :
  under_construction base rows (length todo + free) i c →
  Forall (λ r, 1 <= row_number r <= highest_attribute_number c) todo →
  ∃ i' c', insert_rows todo (i, c) = Some (i', c') ∧ under_construction base (rows ++ todo) free i' c' ∧
    unmasked c' = unmasked c ∧ instance_number i' = instance_number i ∧ cip_class i' = cip_class i.
Proof.
  revert rows i c. induction todo as [|r todo IH]; intros rows i c Hu Hr.
  { exists i, c. rewrite app_nil_r. by split_and!. }
  inversion Hr as [|? ? Hr1 Hr2]; subst.
  destruct (insert_row_spec base rows (length todo + free) i c r Hu Hr1)
    as (i1 & c1 & E & Hu1 & Hc1 & Hn1 & Hk1).
  assert (Hh : highest_attribute_number c1 = highest_attribute_number c)
    by exact (f_equal highest_attribute_number Hc1).
  destruct (IH (rows ++ [r]) i1 c1 Hu1) as (i' & c' & E' & Hu' & Hc' & Hn' & Hk').
  { by rewrite Hh. }
  exists i', c'. cbn [insert_rows]. rewrite E. cbn [mbind option_bind]. split; [done |].
  rewrite <-(assoc_L (++)) in Hu'. split; [exact Hu' |]. by split_and!; congruence || (rewrite Hc', Hc1).
Qed.

(** *** Creation *)

Lemma CreateCipClass_instances code nca hca ncs nia hia nis k name rev s c0 x c m :
  GetCipClass s code = None → name ≠ ""%string → 0 < k →
  AddCipInstances (TheClass (length (classes s)))
    (new_class (length (classes s)) code nca nia hia nis name rev) k = Some (c0, x) →
  standard_class ncs
    (AllocateAttributeMasks c0,
     AllocateAttributeMasks (new_meta_class (length (classes s)) nca hca ncs name)) = Some (c, m) →
  CreateCipClass code nca hca ncs nia hia nis k name rev None s
  = Some (RegisterCipClass c m s, length (classes s)).
Proof.
  intros Hn Hname Hk E0 E. unfold CreateCipClass. rewrite Hn.
  destruct (String.eqb_spec name ""); [done |]. simpl.
  rewrite (proj2 (Z.ltb_lt _ _) Hk), E0. simpl. by rewrite E.
Qed.

(** Storing an object's members leaves the others alone. *)
Lemma stored_elsewhere (l : list (nat * CipData)) (o : gmap nat CipData) a :
  a ∉ l.*1 → (list_to_map l ∪ o) !! a = o !! a.
Proof. intros Ha. apply lookup_union_r. by apply not_elem_of_list_to_map. Qed.

Ltac not_a_member :=
  cbn [fst fmap list_fmap]; rewrite ?not_elem_of_cons; repeat split; try lia; apply not_elem_of_nil.

(** A class as [CreateCipClass] leaves it: unused slots, empty masks, no callbacks. *)
Record blank_class (n : nat) (code : Z) (slots : nat) (highest : Z) (room : nat)
    (numbers : list Z) (c : CipClass) : Prop := {
  bc_code : class_code c = code;
  bc_instances : instances c
    = (λ k, mkInstance k (replicate slots empty_attribute) (Some (TheClass n))) <$> numbers;
  bc_slots : number_of_attributes c = Z.of_nat slots;
  bc_highest : highest_attribute_number c = highest;
  bc_masks : ∀ k, 0 <= k <= highest →
    mask_bit (get_single_bit_mask c) k = Some false ∧
    mask_bit (get_all_bit_mask c) k = Some false ∧ mask_bit (set_bit_mask c) k = Some false;
  bc_mask_lengths : 0 <= highest ∧ highest / 8 < Z.of_nat (length (get_single_bit_mask c)) ∧
    highest / 8 < Z.of_nat (length (get_all_bit_mask c)) ∧
    highest / 8 < Z.of_nat (length (set_bit_mask c));
  bc_services : number_of_services c = Z.of_nat room ∧ services c = replicate room empty_service;
  bc_callbacks : PreGetCallback c = None ∧ PostGetCallback c = None ∧
    PreSetCallback c = None ∧ PostSetCallback c = None }.

(** Every bit of a mask of zeros is clear. *)
Lemma mask_bit_zeros size k :
  0 <= k → k / 8 < Z.of_nat size → mask_bit (replicate size 0) k = Some false.
Proof.
  intros Hk Hs. rewrite (mask_bit_testbit _ _ 0); [by rewrite Z.bits_0 |].
  apply lookup_replicate_2. unfold CalculateIndex. pose proof (Z.div_pos k 8). lia.
Qed.

Lemma blank_construction n code slots highest room numbers c k :
  blank_class n code slots highest room numbers c →
  under_construction [] [] slots
    (mkInstance k (replicate slots empty_attribute) (Some (TheClass n))) c.
Proof.
  intros [_ _ Hs Hh Hm (H0 & H1 & H2 & H3) _ _]. split; cbn; rewrite ?Hh.
  - done.
  - unfold attributes_wf. cbn. rewrite Hh, Hs, length_replicate. split_and!; try done.
    by apply Forall_replicate.
  - intros j Hj. by apply Hm.
  - intros j Hj. by apply Hm.
  - intros j Hj. by apply Hm.
Qed.

(** The fields the attribute services look at that no insertion changes. *)
Definition fixed_fields (c : CipClass) :=
  (class_code c, number_of_attributes c, highest_attribute_number c,
   PreGetCallback c, PostGetCallback c, PreSetCallback c, PostSetCallback c).

Lemma bind_attributes_spec base number rows n p s i c :
  get_class (TheClass n) s = Some c → GetCipInstance c number = Some (ListInstance p) →
  instances c !! p = Some i → cip_class i = Some (TheClass n) →
  under_construction base [] (length rows) i c →
  Forall (λ r, 1 <= row_number r <= highest_attribute_number c) rows →
  ∃ i' c', bind_attributes number rows n s = Some (set_class (TheClass n) c' s) ∧
    instances c' = <[p := i']> (instances c) ∧ instance_number i' = instance_number i ∧
    cip_class i' = Some (TheClass n) ∧ under_construction base rows 0 i' c' ∧
    fixed_fields c' = fixed_fields c ∧
    number_of_services c' = number_of_services c ∧ services c' = services c.
Proof.
  intros Hc Hp Hi Hk Hu Hr. unfold bind_attributes. rewrite Hc. cbn [mbind option_bind].
  rewrite Hp. cbn [mbind option_bind]. unfold get_instance. rewrite Hc. cbn [mbind option_bind].
  rewrite Hi. cbn [mbind option_bind].
  destruct (insert_rows_spec base [] rows 0 i c) as (i' & c' & -> & Hu' & Hun & Hnum & Hk');
    [by rewrite Nat.add_0_r | done |].
  cbn [mbind option_bind fst snd put_instance]. exists i', (put_instance (ListInstance p) i' c').
  split; [done |]. cbn [put_instance].
  assert (Hin : instances c' = instances c) by exact (f_equal instances Hun).
  split; [cbn; by rewrite Hin |]. split; [done |]. split; [by rewrite Hk' |].
  split.
  { destruct Hu' as [A1 A2 A3 A4 A5]. split; done. }
  split; [|split; [exact (f_equal number_of_services Hun) | exact (f_equal services Hun)]].
  unfold fixed_fields. cbn.
  change (fixed_fields c' = fixed_fields c). exact (f_equal fixed_fields Hun).
Qed.

(** *** Services *)

Definition common_service (x : CommonService) : CipServiceStruct :=
  let '(k, fn, name) := x in mkService k (Some fn) name.

Lemma find_service_after l free i num :
  (∀ x, x ∈ l → x.1.1 ≠ num) →
  find_service_slot (length l + S free) i
    ((common_service <$> l) ++ replicate (S free) empty_service) num = Some (i + length l)%nat.
Proof.
  revert i. induction l as [|[[k fn] name] l IH]; intros i Hn; cbn.
  { rewrite orb_true_r. f_equal. lia. }
  rewrite (proj2 (Z.eqb_neq k num)) by (apply (Hn (k, fn, name)); by left). cbn.
  change (empty_service :: replicate free empty_service) with (replicate (S free) empty_service).
  rewrite IH by (intros x Hx; apply Hn; by right). f_equal. lia.
Qed.

Lemma insert_common_services_spec seen l free c :
  number_of_services c = Z.of_nat (length seen + length l + free) →
  services c = (common_service <$> seen) ++ replicate (length l + free) empty_service →
  NoDup ((λ x, x.1.1) <$> seen ++ l) →
  insert_common_services l c
  = Some (upd_services ((common_service <$> seen ++ l) ++ replicate free empty_service) c).
Proof.
  revert seen c. induction l as [|[[k fn] name] l IH]; intros seen c Hn Hs Hd.
  { rewrite app_nil_r. cbn [insert_common_services length Nat.add] in *. rewrite <-Hs. by destruct c. }
  cbn [insert_common_services]. unfold InsertService. rewrite Hs, Hn, Nat2Z.id.
  cbn [length]. rewrite <-Nat.add_assoc, Nat.add_succ_l. rewrite find_service_after.
  2: { intros x Hx E. rewrite fmap_app in Hd. apply list.NoDup_app in Hd as (_ & Hd & _).
       apply (Hd k); [|by left]. apply list_elem_of_fmap. by exists x. }
  cbn [mbind option_bind]. rewrite Nat.add_0_l.
  rewrite insert_app_r_alt by (by rewrite length_fmap).
  rewrite length_fmap, Nat.sub_diag. cbn [replicate list_insert insert].
  rewrite (IH (seen ++ [(k, fn, name)])).
  - cbn [upd_services]. rewrite <-(assoc_L (++) seen). reflexivity.
  - cbn [upd_services number_of_services]. rewrite length_app. cbn [length]. rewrite Hn. f_equal.
    cbn [length]. lia.
  - cbn [upd_services services]. rewrite fmap_app, <-(assoc_L (++)). reflexivity.
  - rewrite <-(assoc_L (++)). exact Hd.
Qed.

Lemma add_services_spec l free n s c :
  get_class (TheClass n) s = Some c → number_of_services c = Z.of_nat (length l + free) →
  services c = replicate (length l + free) empty_service → NoDup ((λ x, x.1.1) <$> l) →
  add_services l n s
  = Some (set_class (TheClass n)
      (upd_services ((common_service <$> l) ++ replicate free empty_service) c) s).
Proof.
  intros Hc Hn Hs Hd. unfold add_services. rewrite Hc. cbn [mbind option_bind].
  by rewrite (insert_common_services_spec [] l free c).
Qed.

(** ** What a created object answers *)

(** Instance [p] of class [n] has the attributes [rows], in this order.  The masks belong to
    the class: those for getting agree with the flags of the rows, [settable] says what
    the one for setting allows.  Of callbacks nothing is said. *)
Record attribute_table (n p : nat) (rows : list AttributeRow) (settable : Z → bool)
    (s : CipStack) (i : CipInstance) (c : CipClass) : Prop := {
  to_ctx : instance_ctx n (ListInstance p) s i c;
  to_rows : attributes i = row_attribute <$> rows;
  to_masks : ∀ r, r ∈ rows →
    mask_bit (get_single_bit_mask c) (row_number r) = Some (has_flag (row_flags r) kGetableSingle) ∧
    mask_bit (get_all_bit_mask c) (row_number r)
    = Some (has_flag (row_flags r) (kGetableAll .| kGetableAllDummy)) ∧
    mask_bit (set_bit_mask c) (row_number r) = Some (settable (row_number r));
  to_numbers : NoDup (row_number <$> rows) }.

(** As the object is created: the application has registered no get or set callback yet. *)
Record table_instance (n p : nat) (rows : list AttributeRow) (settable : Z → bool)
    (s : CipStack) (i : CipInstance) (c : CipClass) : Prop := {
  to_table :> attribute_table n p rows settable s i c;
  to_callbacks : PreGetCallback c = None ∧ PostGetCallback c = None ∧
    PreSetCallback c = None ∧ PostSetCallback c = None }.

(** The instance's own rows say what can be set. *)
Definition table_object (n p : nat) (rows : list AttributeRow) : CipStack → CipInstance → CipClass → Prop :=
  table_instance n p rows (flagged kSetable rows).

(** The numbers of a complete instance are in the range the masks cover. *)
Lemma complete_range rows i c r :
  attributes i = row_attribute <$> rows → attributes_wf i c → r ∈ rows →
  1 <= row_number r <= highest_attribute_number c.
Proof.
  intros Ha (_ & Hall & _) Hr. rewrite Ha, list.Forall_forall in Hall.
  apply (Hall (row_attribute r)). apply list_elem_of_fmap. by exists r.
Qed.

(** A finished instance whose rows agree, for getting, with those of the instances before
    it. *)
Lemma under_construction_table base rows n p s i c :
  instance_ctx n (ListInstance p) s i c → under_construction base rows 0 i c →
  NoDup (row_number <$> rows) →
  (∀ f r, f = kGetableSingle ∨ f = kGetableAll .| kGetableAllDummy → r ∈ rows →
     flagged f (base ++ rows) (row_number r) = has_flag (row_flags r) f) →
  PreGetCallback c = None ∧ PostGetCallback c = None ∧
    PreSetCallback c = None ∧ PostSetCallback c = None →
  table_instance n p rows (flagged kSetable (base ++ rows)) s i c.
Proof.
  intros Hctx [Ha Hwf H1 H2 H3] Hd Hf Hcb. rewrite app_nil_r in Ha. split; [split; try done | done].
  intros r Hr. pose proof (complete_range rows i c r Ha Hwf Hr).
  rewrite H1, H2, H3 by lia. rewrite (Hf kGetableSingle), (Hf (_ .| _)) by auto. done.
Qed.

Section TableObject.
Context `{Application}.
Variables (n p : nat) (rows : list AttributeRow) (settable : Z → bool).
Variables (s : CipStack) (i : CipInstance) (c : CipClass).
Hypothesis Hobj : attribute_table n p rows settable s i c.

Lemma row_range r : r ∈ rows → 1 <= row_number r <= highest_attribute_number c.
Proof.
  apply complete_range with i; [apply (to_rows _ _ _ _ _ _ _ Hobj) |].
  apply (to_ctx _ _ _ _ _ _ _ Hobj).
Qed.

Lemma table_lookup r : r ∈ rows → lookup_attribute i (row_number r) = Some (row_attribute r).
Proof.
  intros Hr. unfold lookup_attribute. rewrite (to_rows _ _ _ _ _ _ _ Hobj).
  pose proof (to_numbers _ _ _ _ _ _ _ Hobj) as Hd. clear Hobj.
  induction rows as [|x l IH]; [by destruct (not_elem_of_nil r Hr) |].
  cbn [fmap list_fmap] in Hd |- *. apply list.NoDup_cons in Hd as [Hx Hd]. cbn [List.find].
  apply elem_of_cons in Hr as [->|Hr]; [by rewrite Z.eqb_refl |].
  rewrite (proj2 (Z.eqb_neq _ _)); [by apply IH |].
  intros E. apply Hx. cbn in E. rewrite <-E. apply list_elem_of_fmap. by exists r.
Qed.

Lemma table_missing k : k ∉ row_number <$> rows → lookup_attribute i k = None.
Proof.
  intros Hk. unfold lookup_attribute. rewrite (to_rows _ _ _ _ _ _ _ Hobj). clear Hobj.
  induction rows as [|x l IH]; [done |]. cbn [fmap list_fmap] in Hk |- *.
  apply not_elem_of_cons in Hk as [Hx Hk]. cbn [List.find].
  rewrite (proj2 (Z.eqb_neq _ _)) by done. by apply IH.
Qed.

(** Behind the output [out], the encoder appends [bs]. *)
Definition appends (enc : Encoder) (v : CipData) (out bs : list Z) : Prop :=
  ∀ m, holds out m → ∃ m', enc v m = Some m' ∧ holds (out ++ bs) m'.

(** The parts of a Get Attributes All reply: each row contributes the bytes of its value
    behind the parts before it, or nothing. *)
Fixpoint rows_append (out : list Z) (l : list AttributeRow) (bss : list (list Z)) : Prop :=
  match l, bss with
  | [], [] => True
  | r :: l, bs :: bss =>
      (if has_flag (row_flags r) (kGetableAll .| kGetableAllDummy)
       then ∃ v, objects s !! row_data r = Some v ∧ appends (row_encode r) v out bs
       else bs = []) ∧ rows_append (out ++ bs) l bss
  | _, _ => False
  end.

Lemma get_all_table l bss out req resp :
  (∀ r, r ∈ l → r ∈ rows) → rows_append out l bss → holds out (message resp) →
  ∃ req' m, get_all_loop n (length l) (row_attribute <$> l) c s req resp
      = Some (req', set_message m resp) ∧ holds (out ++ concat bss) m.
Proof.
  revert bss out req resp. induction l as [|r l IH]; intros [|bs bss] out req resp Hin Ha Hm; try done.
  - exists req, (message resp). split; [by destruct resp |]. by rewrite app_nil_r.
  - cbn [length fmap list_fmap get_all_loop row_attribute attribute_number].
    destruct (to_masks _ _ _ _ _ _ _ Hobj r) as (_ & Hmask & _); [apply Hin; by left |].
    rewrite Hmask. destruct Ha as [Hr Ha].
    cbn [mbind option_bind concat]. rewrite (assoc_L (++)).
    destruct (has_flag _ _).
    + destruct Hr as (v & Hv & He). destruct (He _ Hm) as (m' & Em & Hm').
      rewrite (encode_attribute_eq n (row_attribute r) s resp (row_encode r) v) by done.
      rewrite Em. cbn [mbind option_bind].
      destruct (IH bss (out ++ bs) (set_request_path
        (set_path_attribute (row_number r) (request_path req)) req) (set_message m' resp))
        as (req' & m2 & E & Hh); [intros x Hx; apply Hin; by right | done | done |].
      exists req', m2. by rewrite E.
    + subst bs. rewrite app_nil_r in *. apply IH; [intros x Hx; apply Hin; by right | done | done].
Qed.

Lemma table_get_all req resp bss :
  rows ≠ [] → rows_append [] rows bss →
  ∃ req' m, GetAttributeAll n (ListInstance p) req resp s
      = Some (kEipStatusOkSend, req', reply req resp kCipErrorSuccess m, s) ∧
    holds (concat bss) m.
Proof.
  intros Hne Ha. destruct (to_ctx _ _ _ _ _ _ _ Hobj) as (Hi & Hc & Hwf).
  unfold GetAttributeAll. rewrite Hi. cbn [mbind option_bind]. rewrite Hc. cbn [mbind option_bind].
  destruct Hwf as [Hl _]. rewrite (to_rows _ _ _ _ _ _ _ Hobj), length_fmap in Hl. rewrite <-Hl.
  rewrite (proj2 (Z.eqb_neq 0 _)) by (by destruct rows).
  rewrite Nat2Z.id, (to_rows _ _ _ _ _ _ _ Hobj).
  destruct (get_all_table rows bss [] req
    (set_general_status kCipErrorSuccess (GenerateGetAttributeSingleHeader req (init_response_message resp))))
    as (req' & m & E & Hh); [done | done | exact holds_init |].
  exists req', m. rewrite E. by split.
Qed.

Lemma table_get_single r req resp v m :
  no_callback (PreGetCallback c) kPreGetFunc (row_attribute r) →
  no_callback (PostGetCallback c) kPostGetFunc (row_attribute r) → r ∈ rows → path_attribute req = row_number r → has_flag (row_flags r) kGetableSingle = true →
  objects s !! row_data r = Some v → row_encode r v InitializeENIPMessage = Some m →
  GetAttributeSingle n (ListInstance p) req resp s
  = Some (kEipStatusOkSend, req, reply req resp kCipErrorSuccess m, s).
Proof.
  intros C1 C2 Hr Hp Hf Hv Hm.
  eapply GetAttributeSingle_gettable; [apply (to_ctx _ _ _ _ _ _ _ Hobj) | | | | | | exact Hm |].
  - rewrite Hp. by apply table_lookup.
  - rewrite Hp. destruct (to_masks _ _ _ _ _ _ _ Hobj r Hr) as (-> & _). by rewrite Hf.
  - by apply run_no_callback.
  - done.
  - done.
  - done.
Qed.

(** An attribute that does not exist, or that is only part of Get Attributes All. *)
Lemma table_get_refused req resp :
  (∀ r, r ∈ rows → row_number r = path_attribute req →
     has_flag (row_flags r) kGetableSingle = false) →
  GetAttributeSingle n (ListInstance p) req resp s
  = Some (kEipStatusOkSend, req,
      reply req resp kCipErrorAttributeNotSupported InitializeENIPMessage, s).
Proof.
  intros Hno. destruct (to_ctx _ _ _ _ _ _ _ Hobj) as (Hi & Hc & Hwf).
  unfold GetAttributeSingle. rewrite Hi. cbn [mbind option_bind].
  rewrite Hc. cbn [mbind option_bind]. rewrite GetCipAttribute_find by done.
  fold (lookup_attribute i (path_attribute req)). cbn [mbind option_bind].
  destruct (decide (path_attribute req ∈ row_number <$> rows)) as [Hin|Hin].
  - apply list_elem_of_fmap in Hin as (r & E & Hr). rewrite E, (table_lookup r Hr).
    cbn [row_attribute data]. destruct (to_masks _ _ _ _ _ _ _ Hobj r Hr) as (-> & _).
    by rewrite (Hno r Hr (eq_sym E)).
  - by rewrite (table_missing _ Hin).
Qed.

(** Setting an attribute runs its decoder on the object. *)
Lemma instance_set_single r req resp v dec :
  no_callback (PreSetCallback c) kPreSetFunc (row_attribute r) →
  no_callback (PostSetCallback c) (kPostSetFunc .| kNvDataFunc) (row_attribute r) → r ∈ rows → path_attribute req = row_number r → row_decode r = Some dec →
  settable (row_number r) = true →
  row_flags r ∉ [kGetableAllDummy; kNotSetOrGetable; kGetableAll] →
  objects s !! row_data r = Some v →
  SetAttributeSingle n (ListInstance p) req resp s
  = ('(_, v', req', resp') ← dec v req (GenerateSetAttributeSingleHeader req resp);
     Some (kEipStatusOkSend, req', resp', mkStack (classes s) (<[row_data r := v']> (objects s)))).
Proof.
  intros C3 C4 Hr Hp Hdec Hf Hfl Hv.
  destruct (to_ctx _ _ _ _ _ _ _ Hobj) as (Hi & Hc & Hwf).
  unfold SetAttributeSingle. rewrite Hi. cbn [mbind option_bind].
  rewrite Hc. cbn [mbind option_bind]. rewrite GetCipAttribute_find by done.
  fold (lookup_attribute i (path_attribute req)). rewrite Hp, (table_lookup r Hr).
  cbn [mbind option_bind row_attribute data attribute_flags].
  rewrite !not_elem_of_cons in Hfl. destruct Hfl as (F1 & F2 & F3 & _).
  rewrite !(proj2 (Z.eqb_neq _ _)) by done. cbn [orb].
  destruct (to_masks _ _ _ _ _ _ _ Hobj r Hr) as (_ & _ & ->). rewrite Hf. cbn [mbind option_bind].
  rewrite run_no_callback by done. cbn [mbind option_bind].
  unfold decode_attribute. cbn [decode data row_attribute]. rewrite Hdec.
  cbn [mbind option_bind load_data]. rewrite Hv. cbn [mbind option_bind].
  destruct (dec v req _) as [[[[? ?] ?] ?]|]; [|done]. cbn [mbind option_bind store_data].
  rewrite Hv. cbn [mbind option_bind]. by rewrite run_no_callback.
Qed.

(** An attribute that is not set in the mask is refused. *)
Lemma instance_set_refused r req resp :
  r ∈ rows → path_attribute req = row_number r → settable (row_number r) = false →
  ∃ st, SetAttributeSingle n (ListInstance p) req resp s
  = Some (kEipStatusOkSend, req, reply req resp st InitializeENIPMessage, s) ∧
  (st = kCipErrorAttributeNotSupported ∨ st = kCipErrorAttributeNotSetable).
Proof.
  intros Hr Hp Hf. destruct (to_ctx _ _ _ _ _ _ _ Hobj) as (Hi & Hc & Hwf).
  unfold SetAttributeSingle. rewrite Hi. cbn [mbind option_bind].
  rewrite Hc. cbn [mbind option_bind]. rewrite GetCipAttribute_find by done.
  fold (lookup_attribute i (path_attribute req)). rewrite Hp, (table_lookup r Hr).
  cbn [mbind option_bind row_attribute data attribute_flags].
  destruct (_ || _ || _); [eexists; split; [reflexivity | by left] |].
  destruct (to_masks _ _ _ _ _ _ _ Hobj r Hr) as (_ & _ & ->). rewrite Hf. cbn [mbind option_bind].
  eexists. split; [reflexivity | by right].
Qed.
End TableObject.

Section OwnRows.
Context `{Application}.
Variables (n p : nat) (rows : list AttributeRow) (s : CipStack) (i : CipInstance) (c : CipClass).
Hypothesis Hobj : table_object n p rows s i c.

Lemma own_settable r :
  r ∈ rows → flagged kSetable rows (row_number r) = has_flag (row_flags r) kSetable.
Proof. intros Hr. by apply flagged_unique; [apply (to_numbers _ _ _ _ _ _ _ Hobj) | |]. Qed.

Lemma table_set_single r req resp v dec :
  r ∈ rows → path_attribute req = row_number r → row_decode r = Some dec →
  has_flag (row_flags r) kSetable = true →
  row_flags r ∉ [kGetableAllDummy; kNotSetOrGetable; kGetableAll] →
  objects s !! row_data r = Some v →
  SetAttributeSingle n (ListInstance p) req resp s
  = ('(_, v', req', resp') ← dec v req (GenerateSetAttributeSingleHeader req resp);
     Some (kEipStatusOkSend, req', resp', mkStack (classes s) (<[row_data r := v']> (objects s)))).
Proof.
  intros Hr Hp Hdec Hf. destruct (to_callbacks _ _ _ _ _ _ _ Hobj) as (_ & _ & C3 & C4).
  apply (instance_set_single n p rows _ s i c Hobj r); try done; [by left .. |].
  by rewrite own_settable.
Qed.

Lemma table_set_refused r req resp :
  r ∈ rows → path_attribute req = row_number r → has_flag (row_flags r) kSetable = false →
  ∃ st, SetAttributeSingle n (ListInstance p) req resp s
  = Some (kEipStatusOkSend, req, reply req resp st InitializeENIPMessage, s) ∧
  (st = kCipErrorAttributeNotSupported ∨ st = kCipErrorAttributeNotSetable).
Proof.
  intros Hr Hp Hf. apply (instance_set_refused n p rows _ s i c Hobj r); try done.
  by rewrite own_settable.
Qed.
End OwnRows.

(** *** Objects with one instance *)

(** Class [c] of index [n] with the single instance 1, which has the attributes [rows] and
    [free] unused slots, and with the services [l] and [room] unused ones. *)
Record single_object (n : nat) (rows : list AttributeRow) (free : nat) (l : list CommonService)
    (room : nat) (i : CipInstance) (c : CipClass) : Prop := {
  so_instances : instances c = [i] ∧ instance_number i = 1 ∧ cip_class i = Some (TheClass n);
  so_rows : under_construction [] rows free i c;
  so_services : number_of_services c = Z.of_nat (length l + room) ∧
    services c = (common_service <$> l) ++ replicate room empty_service;
  so_callbacks : PreGetCallback c = None ∧ PostGetCallback c = None ∧
    PreSetCallback c = None ∧ PostSetCallback c = None }.

Lemma blank_single n code slots highest room c :
  blank_class n code slots highest room [1] c →
  single_object n [] slots [] room
    (mkInstance 1 (replicate slots empty_attribute) (Some (TheClass n))) c.
Proof.
  intros Hb. pose proof (blank_construction _ _ _ _ _ _ _ 1 Hb). by destruct Hb as [_ Hi _ _ _ _ Hs Hc].
Qed.

Lemma GetCipInstance_single c i :
  instances c = [i] → instance_number i = 1 → GetCipInstance c 1 = Some (ListInstance 0).
Proof. intros Hi Hn. unfold GetCipInstance. rewrite Hi. cbn. by rewrite Hn. Qed.

Lemma bind_single n rows l room i c s :
  get_class (TheClass n) s = Some c → single_object n [] (length rows) l room i c →
  Forall (λ r, 1 <= row_number r <= highest_attribute_number c) rows →
  ∃ i' c', bind_attributes 1 rows n s = Some (set_class (TheClass n) c' s) ∧
    single_object n rows 0 l room i' c' ∧ fixed_fields c' = fixed_fields c.
Proof.
  intros Hc [(Hi & H1 & Hk) Hu (Hs1 & Hs2) Hcb] Hr.
  destruct (bind_attributes_spec [] 1 rows n 0 s i c) as (i' & c' & E & Hi' & Hn' & Hk' & Hu' & Hf & S1 & S2);
    [done | by apply (GetCipInstance_single c i) | by rewrite Hi | done .. |].
  exists i', c'. split; [done |]. split; [|done].
  unfold fixed_fields in Hf. injection Hf as _ _ _ F1 F2 F3 F4. split.
  - rewrite Hi', Hi, Hn'. by split_and!.
  - done.
  - by rewrite S1, S2.
  - by rewrite F1, F2, F3, F4.
Qed.

Lemma services_single n rows free l room i c s :
  get_class (TheClass n) s = Some c → single_object n rows free [] (length l + room) i c →
  NoDup ((λ x, x.1.1) <$> l) →
  ∃ c', add_services l n s = Some (set_class (TheClass n) c' s) ∧
    single_object n rows free l room i c' ∧ fixed_fields c' = fixed_fields c.
Proof.
  intros Hc [Hi Hu (Hs1 & Hs2) Hcb] Hd.
  eexists. split; [by apply (add_services_spec l room n s c) |]. split; [|done].
  split; [done | by destruct Hu | split; [exact Hs1 | done] | done].
Qed.

Lemma single_table n rows l room i c s :
  get_class (TheClass n) s = Some c → single_object n rows 0 l room i c →
  NoDup (row_number <$> rows) → table_object n 0 rows s i c.
Proof.
  intros Hc [(Hi & _ & Hk) Hu _ Hcb] Hd. apply (under_construction_table []); try done.
  - split; [|split].
    + unfold get_instance. rewrite Hc. cbn. by rewrite Hi.
    + unfold instance_class. rewrite Hk. exact Hc.
    + apply (uc_wf _ _ _ _ _ Hu).
  - intros f r _ Hr. by apply flagged_unique.
Qed.

Lemma single_services n rows free l i c :
  single_object n rows free l 0 i c → services c = common_service <$> l.
Proof. intros [_ _ (_ & ->) _]. apply (right_id_L [] (++)). Qed.

Lemma get_set_registered c c' m s :
  get_class (TheClass (length (classes s)))
    (set_class (TheClass (length (classes s))) c' (RegisterCipClass c m s)) = Some c'.
Proof. rewrite set_registered. apply get_registered. Qed.

(** Attributes, then services. *)
Lemma build_bind_first rows l room highest code c m s :
  let n := length (classes s) in
  blank_class n code (length rows) highest (length l + room) [1] c →
  Forall (λ r, 1 <= row_number r <= highest) rows → NoDup (row_number <$> rows) →
  NoDup ((λ x : CommonService, x.1.1) <$> l) →
  ∃ i c', (s1 ← bind_attributes 1 rows n (RegisterCipClass c m s); add_services l n s1)
      = Some (RegisterCipClass c' m s) ∧ single_object n rows 0 l room i c' ∧ class_code c' = code.
Proof.
  intros n Hb Hr Hd Hl. pose proof (blank_single _ _ _ _ _ _ Hb) as Hs.
  assert (Hh := bc_highest _ _ _ _ _ _ _ Hb).
  destruct (bind_single n rows [] (length l + room) (mkInstance 1 (replicate (length rows) empty_attribute) (Some (TheClass n))) c (RegisterCipClass c m s))
    as (i1 & c1 & E1 & Hs1 & Hf1); [apply get_registered | done | by rewrite Hh |].
  destruct (services_single n rows 0 l room i1 c1 (RegisterCipClass c1 m s))
    as (c2 & E2 & Hs2 & Hf2); [apply get_registered | done | done |].
  exists i1, c2. rewrite E1. cbn [mbind option_bind]. unfold n in *. rewrite set_registered.
  rewrite E2, set_registered. split; [done |]. split; [done |].
  unfold fixed_fields in Hf1, Hf2. injection Hf1 as F1 _ _ _ _ _ _. injection Hf2 as F2 _ _ _ _ _ _.
  rewrite F2, F1. apply (bc_code _ _ _ _ _ _ _ Hb).
Qed.

(** Services, then attributes. *)
Lemma build_services_first rows l room highest code c m s :
  let n := length (classes s) in
  blank_class n code (length rows) highest (length l + room) [1] c →
  Forall (λ r, 1 <= row_number r <= highest) rows → NoDup (row_number <$> rows) →
  NoDup ((λ x : CommonService, x.1.1) <$> l) →
  ∃ i c', (s1 ← add_services l n (RegisterCipClass c m s); bind_attributes 1 rows n s1)
      = Some (RegisterCipClass c' m s) ∧ single_object n rows 0 l room i c' ∧ class_code c' = code.
Proof.
  intros n Hb Hr Hd Hl. pose proof (blank_single _ _ _ _ _ _ Hb) as Hs.
  assert (Hh := bc_highest _ _ _ _ _ _ _ Hb).
  destruct (services_single n [] (length rows) l room (mkInstance 1 (replicate (length rows) empty_attribute) (Some (TheClass n))) c (RegisterCipClass c m s))
    as (c1 & E1 & Hs1 & Hf1); [apply get_registered | done | done |].
  unfold fixed_fields in Hf1. injection Hf1 as F1 _ F3 _ _ _ _.
  destruct (bind_single n rows l room (mkInstance 1 (replicate (length rows) empty_attribute) (Some (TheClass n))) c1 (RegisterCipClass c1 m s))
    as (i2 & c2 & E2 & Hs2 & Hf2); [apply get_registered | done | by rewrite F3, Hh |].
  unfold fixed_fields in Hf2. injection Hf2 as F2 _ _ _ _ _ _.
  exists i2, c2. rewrite E1. cbn [mbind option_bind]. unfold n in *. rewrite set_registered.
  rewrite E2, set_registered. split; [done |]. split; [done |].
  rewrite F2, F1. apply (bc_code _ _ _ _ _ _ _ Hb).
Qed.

Lemma table_same_classes n p rows f s s' i c :
  table_instance n p rows f s i c → classes s' = classes s → table_instance n p rows f s' i c.
Proof.
  intros [[(Hi & Hk & Hw) H2 H3 H4] H5] Hc. split; [|done]. split; [|done..]. split; [|split; [|done]].
  - unfold get_instance, get_class in *. by rewrite Hc.
  - unfold instance_class, get_class in *. by rewrite Hc.
Qed.

(** A callback the application registers leaves the table as it is. *)
Lemma registered_callback_table n p rows settable callback flags s i c :
  let c' := InsertGetSetCallback c callback flags in
  get_class (TheClass n) s = Some c → cip_class i = Some (TheClass n) →
  attribute_table n p rows settable s i c →
  attribute_table n p rows settable (set_class (TheClass n) c' s) i c'.
Proof.
  intros c' Hn Hk [(Hi & _ & Hw) H2 H3 H4]. split; [|done..]. split; [|split; [|done]].
  - unfold get_instance in *. rewrite Hn in Hi. by rewrite get_set_class.
  - unfold instance_class. rewrite Hk. by apply get_set_class.
Qed.

(** *** Objects with several instances *)

(** Class [c] of index [n] with [count] instances of [slots] attributes each: the first ones
    have the attributes [ready], the others none yet. *)
Record built (n count slots : nat) (ready : list (list AttributeRow)) (c : CipClass) : Prop := {
  bu_count : length (instances c) = count;
  bu_ready : ∀ k rows, ready !! k = Some rows → ∃ i, instances c !! k = Some i ∧
    attributes i = row_attribute <$> rows ∧ instance_number i = Z.of_nat k + 1 ∧
    cip_class i = Some (TheClass n) ∧ attributes_wf i c;
  bu_blank : ∀ k, (length ready <= k < count)%nat → instances c !! k
    = Some (mkInstance (Z.of_nat k + 1) (replicate slots empty_attribute) (Some (TheClass n)));
  bu_masks : under_construction (concat ready) [] slots
    (mkInstance 0 (replicate slots empty_attribute) (Some (TheClass n))) c }.

Lemma find_instance_numbered l k j :
  (∀ m i, (m <= k)%nat → l !! m = Some i → instance_number i = Z.of_nat (j + m) + 1) →
  is_Some (l !! k) → find_instance l (Z.of_nat (j + k) + 1) j = Some (j + k)%nat.
Proof.
  revert k j. induction l as [|i l IH]; intros k j Hn [x Hx]; [by rewrite lookup_nil in Hx |].
  cbn [find_instance]. pose proof (Hn 0%nat i ltac:(lia) eq_refl) as H0.
  destruct k as [|k].
  - rewrite H0, Z.eqb_refl. f_equal. lia.
  - rewrite (proj2 (Z.eqb_neq _ _)) by lia.
    replace (j + S k)%nat with (S j + k)%nat by lia. apply (IH k (S j)); [|by exists x].
    intros m y Hm Hy. rewrite (Hn (S m) y) by (done || lia). lia.
Qed.

Lemma wf_same_shape i c c' :
  number_of_attributes c' = number_of_attributes c →
  highest_attribute_number c' = highest_attribute_number c →
  attributes_wf i c →
  highest_attribute_number c / 8 < Z.of_nat (length (get_single_bit_mask c')) ∧
  highest_attribute_number c / 8 < Z.of_nat (length (get_all_bit_mask c')) ∧
  highest_attribute_number c / 8 < Z.of_nat (length (set_bit_mask c')) →
  attributes_wf i c'.
Proof.
  intros En Eh (Hl & Ha & H0 & _) Hm. unfold attributes_wf. rewrite En, Eh. split; [done |].
  split; [|by split]. eapply Forall_impl; [exact Ha |]. intros a. unfold attribute_ok. by rewrite Eh.
Qed.

Lemma built_step n count slots ready rows c s :
  get_class (TheClass n) s = Some c → built n count slots ready c →
  (length ready < count)%nat → length rows = slots →
  Forall (λ r, 1 <= row_number r <= highest_attribute_number c) rows →
  ∃ c', bind_attributes (Z.of_nat (length ready) + 1) rows n s = Some (set_class (TheClass n) c' s) ∧
    built n count slots (ready ++ [rows]) c' ∧ fixed_fields c' = fixed_fields c ∧
    number_of_services c' = number_of_services c ∧ services c' = services c.
Proof.
  intros Hc [Hn Hr Hb Hm] Hlt Hl Hrows. set (p := length ready) in *.
  set (blank := mkInstance (Z.of_nat p + 1) (replicate slots empty_attribute) (Some (TheClass n))).
  assert (Hblank : instances c !! p = Some blank) by (apply Hb; lia).
  destruct (bind_attributes_spec (concat ready) (Z.of_nat p + 1) rows n p s blank c)
    as (i' & c' & E & Hi' & Hn' & Hk' & Hu' & Hf & S1 & S2); [done | | done | done | | done |].
  { unfold GetCipInstance. rewrite (proj2 (Z.eqb_neq _ _)) by lia.
    apply (fmap_Some_2 ListInstance), (find_instance_numbered _ p 0); [|by eexists].
    intros m i Hmp Hi. destruct (decide (m = p)) as [->|Hne].
    - rewrite Hblank in Hi. by injection Hi as <-.
    - destruct (lookup_lt_is_Some_2 ready m) as [rs Hrs]; [lia |].
      destruct (Hr m rs Hrs) as (i0 & Hi0 & _ & Hnum & _). rewrite Hi0 in Hi.
      injection Hi as <-. exact Hnum. }
  { destruct Hm as [M1 M2 M3 M4 M5]. split; try done. by rewrite Hl. }
  exists c'. split; [done |].
  assert (En : number_of_attributes c' = number_of_attributes c) by (by injection Hf).
  assert (Eh : highest_attribute_number c' = highest_attribute_number c) by (by injection Hf).
  destruct Hu' as [U1 U2 U3 U4 U5]. rewrite app_nil_r in U1.
  pose proof U2 as (_ & _ & Hh & W). rewrite Eh in W.
  split; [|done]. split.
  - by rewrite Hi', length_insert.
  - intros k rs Hk. apply lookup_app_Some in Hk as [Hk|[Hge Hk]].
    + pose proof (lookup_lt_Some _ _ _ Hk). destruct (Hr k rs Hk) as (i & Hi & Ha & Hnum & Hcl & Hw).
      exists i. rewrite Hi', list_lookup_insert_ne by lia. split; [done |]. split; [done |].
      split; [done |]. split; [done |]. by apply (wf_same_shape i c).
    + apply list_lookup_singleton_Some in Hk as [E0 <-].
      assert (k = p) as -> by lia. exists i'.
      rewrite Hi', list_lookup_insert_eq by lia. by rewrite Hn'.
  - intros k Hk. rewrite length_app in Hk. cbn [length] in Hk.
    rewrite Hi', list_lookup_insert_ne by lia. apply Hb. lia.
  - rewrite concat_app. cbn [concat]. rewrite app_nil_r. destruct Hm as [M1 M2 _ _ _].
    split; cbn [attributes]; rewrite ?app_nil_r; try done. by apply (wf_same_shape _ c).
Qed.

Lemma bind_instances_spec todo count slots ready c m s :
  let n := length (classes s) in
  built n count slots ready c → (length ready + length todo = count)%nat →
  Forall (λ rows, length rows = slots ∧
    Forall (λ r, 1 <= row_number r <= highest_attribute_number c) rows) todo →
  ∃ c', bind_instances (Z.of_nat (length ready) + 1) todo n (RegisterCipClass c m s)
      = Some (RegisterCipClass c' m s) ∧
    built n count slots (ready ++ todo) c' ∧ fixed_fields c' = fixed_fields c ∧
    number_of_services c' = number_of_services c ∧ services c' = services c.
Proof.
  intros n. revert ready c. induction todo as [|rows todo IH]; intros ready c Hb Hn Hr.
  { exists c. by rewrite app_nil_r. }
  apply list.Forall_cons in Hr as [[Hl Hrows] Hr']. cbn [length] in Hn |- *.
  destruct (built_step n count slots ready rows c (RegisterCipClass c m s))
    as (c1 & E & Hb1 & Hf1 & S1 & S2); [apply get_registered | done | lia | done | done |].
  assert (Eh : highest_attribute_number c1 = highest_attribute_number c) by (by injection Hf1).
  destruct (IH (ready ++ [rows]) c1) as (c' & E' & Hb' & Hf' & S1' & S2').
  { done. } { rewrite length_app. cbn [length]. lia. } { by rewrite Eh. }
  exists c'. cbn [bind_instances]. rewrite E. cbn [mbind option_bind]. unfold n. rewrite set_registered.
  rewrite length_app in E'. cbn [length] in E'.
  replace (Z.of_nat (length ready + 1) + 1) with (Z.of_nat (length ready) + 1 + 1) in E' by lia.
  rewrite <-(assoc_L (++)) in Hb'. split; [exact E' |].
  split; [exact Hb' |]. by rewrite Hf', S1', S2'.
Qed.

(** Services, then the attributes of every instance: [rowss] lists those of instance 1, of
    instance 2 and so on. *)
Lemma build_services_then_all rowss slots l room highest code c m s :
  let n := length (classes s) in
  blank_class n code slots highest (length l + room)
    ((λ k, Z.of_nat k + 1) <$> seq 0 (length rowss)) c →
  Forall (λ rows, length rows = slots ∧ Forall (λ r, 1 <= row_number r <= highest) rows) rowss →
  NoDup ((λ x : CommonService, x.1.1) <$> l) →
  ∃ c', (s1 ← add_services l n (RegisterCipClass c m s); bind_instances 1 rowss n s1)
      = Some (RegisterCipClass c' m s) ∧ built n (length rowss) slots rowss c' ∧
    class_code c' = code ∧
    services c' = (common_service <$> l) ++ replicate room empty_service ∧
    number_of_services c' = Z.of_nat (length l + room) ∧
    PreGetCallback c' = None ∧ PostGetCallback c' = None ∧
    PreSetCallback c' = None ∧ PostSetCallback c' = None.
Proof.
  intros n Hb Hr Hl. pose proof (blank_construction _ _ _ _ _ _ _ 0 Hb) as Hu.
  destruct Hb as [B1 B2 B3 B4 _ _ [B7 B8] B9].
  rewrite (add_services_spec l room n _ c) by (done || apply get_registered).
  cbn [mbind option_bind]. unfold n in *. rewrite set_registered. cbn [upd_services].
  set (c1 := upd_services _ c).
  destruct (bind_instances_spec rowss (length rowss) slots [] c1 m s) as (c' & E & Hbu & Hf & S1 & S2).
  - split.
    + cbn. rewrite B2. by rewrite !length_fmap, length_seq.
    + intros k rows Hk. by rewrite lookup_nil in Hk.
    + intros k Hk. cbn [length] in Hk. cbn. rewrite B2, !list_lookup_fmap, lookup_seq_lt by lia. done.
    + destruct Hu as [U1 U2 U3 U4 U5]. by split.
  - done.
  - cbn. by rewrite B4.
  - exists c'. cbn [length Z.of_nat Z.add] in E. split; [exact E |]. split; [exact Hbu |].
    unfold fixed_fields in Hf. injection Hf as F1 _ _ F4 F5 F6 F7.
    rewrite F1, F4, F5, F6, F7, S1, S2. cbn. by rewrite B1.
Qed.

(** The instances of a built class answer for their tables. *)
Lemma built_table n count slots rowss c s k rows :
  get_class (TheClass n) s = Some c → built n count slots rowss c → rowss !! k = Some rows →
  NoDup (row_number <$> rows) →
  (∀ f r, f = kGetableSingle ∨ f = kGetableAll .| kGetableAllDummy → r ∈ rows →
     flagged f (concat rowss) (row_number r) = has_flag (row_flags r) f) →
  PreGetCallback c = None ∧ PostGetCallback c = None ∧
    PreSetCallback c = None ∧ PostSetCallback c = None →
  ∃ i, instance_number i = Z.of_nat k + 1 ∧
    table_instance n k rows (flagged kSetable (concat rowss)) s i c.
Proof.
  intros Hc [_ Hr _ [_ _ M3 M4 M5]] Hk Hd Hf Hcb. rewrite app_nil_r in *.
  destruct (Hr k rows Hk) as (i & Hi & Ha & Hn & Hcl & Hw). exists i. split; [done |].
  split; [split; [|exact Ha | |exact Hd] | exact Hcb].
  - split; [unfold get_instance; by rewrite Hc |]. split; [|exact Hw].
    unfold instance_class. rewrite Hcl. exact Hc.
  - intros r Hin. pose proof (complete_range rows i c r Ha Hw Hin).
    rewrite M3, M4, M5 by lia. rewrite (Hf kGetableSingle), (Hf (_ .| _)) by auto. done.
Qed.

(** *** Replies attribute by attribute *)

(** A writer before the rest of an encoder. *)
Lemma append_step f k out pre bs m :
  writes f pre → bytes pre → Z.of_nat (length (out ++ pre)) <= 512 → holds out m →
  (∀ m1, holds (out ++ pre) m1 → ∃ m', k m1 = Some m' ∧ holds ((out ++ pre) ++ bs) m') →
  ∃ m', (m1 ← f m; k m1) = Some m' ∧ holds (out ++ pre ++ bs) m'.
Proof.
  intros Hw Hb Hl Hm Ha. destruct (writes_holds f pre out m) as (m1 & -> & Hm1); [done .. |].
  cbn [mbind option_bind]. rewrite (assoc_L (++)). by apply Ha.
Qed.

Lemma value_appends (enc : Encoder) v out bs :
  writes (enc v) bs → bytes bs → Z.of_nat (length out) + Z.of_nat (length bs) <= 512 →
  appends enc v out bs.
Proof.
  intros Hw Hb Hl m Hm. apply writes_holds; try done. rewrite length_app. lia.
Qed.

Ltac lengths := rewrite ?length_app, ?length_le_bytes, ?length_replicate; cbn [length]; try lia.

(** One attribute of the reply whose encoder writes a fixed sequence. *)
Ltac wire_step H W :=
  split; [eexists; split; [exact H | apply value_appends; [apply W | apply le_bytes_bytes | lengths]] |].
