(* ===== verification/Qos.v ===== *)
(** * [cip/cipqos.c]: the QoS object

    The DSCP values of the device: the attributes the network may set, and the set that
    is in use, which follows them at a restart only. *)

From S2P Require Import Prelude EndianConv CipTypes CipCodec CipClasses CipServices ConnObject Assembly NetObject.
From stdpp Require Import strings.
Open Scope Z_scope.

(** ** Data *)

Definition kCipQoSClassCode : Z := 0x48.

Definition DEFAULT_DSCP_EVENT : Z := 59.
Definition DEFAULT_DSCP_GENERAL : Z := 47.
Definition DEFAULT_DSCP_URGENT : Z := 55.
Definition DEFAULT_DSCP_SCHEDULED : Z := 47.
Definition DEFAULT_DSCP_HIGH : Z := 43.
Definition DEFAULT_DSCP_LOW : Z := 31.
Definition DEFAULT_DSCP_EXPLICIT : Z := 27.

Record CipQosDscpValues := mkDscp {
  event : Z; general : Z; urgent : Z; scheduled : Z; high : Z; low : Z; explicit_msg : Z }.

Record CipQosObject := mkQos { q_frames_enable : Z; dscp : CipQosDscpValues }.

(** [g_qos] and [s_active_dscp] at program start; [kDefaultValues] *)
Definition kDefaultValues : CipQosDscpValues :=
  mkDscp DEFAULT_DSCP_EVENT DEFAULT_DSCP_GENERAL DEFAULT_DSCP_URGENT DEFAULT_DSCP_SCHEDULED
    DEFAULT_DSCP_HIGH DEFAULT_DSCP_LOW DEFAULT_DSCP_EXPLICIT.

Definition default_qos : CipQosObject := mkQos 0 kDefaultValues.

(** [g_qos] lives in the data objects of the stack: the member that attribute [k] points
    to is at address [kQosAddress + k]. *)
Definition kQosAddress : nat := 200.

Definition qos_objects (g : CipQosObject) : list (nat * CipData) :=
  [(kQosAddress + 1, DInt 1 (q_frames_enable g));
   (kQosAddress + 2, DInt 1 (event (dscp g)));
   (kQosAddress + 3, DInt 1 (general (dscp g)));
   (kQosAddress + 4, DInt 1 (urgent (dscp g)));
   (kQosAddress + 5, DInt 1 (scheduled (dscp g)));
   (kQosAddress + 6, DInt 1 (high (dscp g)));
   (kQosAddress + 7, DInt 1 (low (dscp g)));
   (kQosAddress + 8, DInt 1 (explicit_msg (dscp g)))]%nat.

Definition store_qos (g : CipQosObject) (s : CipStack) : CipStack :=
  mkStack (classes s) (list_to_map (qos_objects g) ∪ objects s).

Definition usint_at (a : nat) (s : CipStack) : option Z :=
  d ← objects s !! a; int_object 1 d.

Definition load_qos (s : CipStack) : option CipQosObject :=
  q ← usint_at (kQosAddress + 1) s;
  v2 ← usint_at (kQosAddress + 2) s;
  v3 ← usint_at (kQosAddress + 3) s;
  v4 ← usint_at (kQosAddress + 4) s;
  v5 ← usint_at (kQosAddress + 5) s;
  v6 ← usint_at (kQosAddress + 6) s;
  v7 ← usint_at (kQosAddress + 7) s;
  v8 ← usint_at (kQosAddress + 8) s;
  Some (mkQos q (mkDscp v2 v3 v4 v5 v6 v7 v8)).

(** ** Operations *)

Definition DecodeCipQoSAttribute : Decoder := fun d req resp =>
  _ ← int_object 1 d;
  '(attribute_value_received, p) ← GetUsintFromMessage (request_data req);
  let req := set_request_data p req in
  if attribute_value_received <? 64
  then Some (1, DInt 1 attribute_value_received, req, set_general_status kCipErrorSuccess resp)
  else Some (-1, d, req, set_general_status kCipErrorInvalidAttributeValue resp).

(** The value of the set in use. *)
Definition CipQosGetDscpPriority (priority : ConnectionObjectPriority)
    (s_active_dscp : CipQosDscpValues) : Z :=
  match priority with
  | kConnectionObjectPriorityLow => low s_active_dscp
  | kConnectionObjectPriorityHigh => high s_active_dscp
  | kConnectionObjectPriorityScheduled => scheduled s_active_dscp
  | kConnectionObjectPriorityUrgent => urgent s_active_dscp
  | kConnectionObjectPriorityExplicit => explicit_msg s_active_dscp
  end.

Definition qos_row (k : nat) (dec : option Decoder) (flags : Z) : AttributeRow :=
  mkRow (Z.of_nat k) kCipUsint EncodeCipUsint dec (kQosAddress + k) flags.

Definition kQosSetable : Z := kGetableSingle .| kSetable .| kNvDataFunc.

Definition qos_rows : list AttributeRow :=
  [qos_row 1 None kNotSetOrGetable; qos_row 2 None kNotSetOrGetable;
   qos_row 3 None kNotSetOrGetable;
   qos_row 4 (Some DecodeCipQoSAttribute) kQosSetable;
   qos_row 5 (Some DecodeCipQoSAttribute) kQosSetable;
   qos_row 6 (Some DecodeCipQoSAttribute) kQosSetable;
   qos_row 7 (Some DecodeCipQoSAttribute) kQosSetable;
   qos_row 8 (Some DecodeCipQoSAttribute) kQosSetable].

Definition qos_services : list CommonService :=
  [(kGetAttributeSingle, FnGetAttributeSingle, "GetAttributeSingle"%string);
   (kSetAttributeSingle, FnSetAttributeSingle, "SetAttributeSingle"%string)].

(** The members of [g_qos] hold [g] when the class is created. *)
Definition CipQoSInit (g : CipQosObject) (s : CipStack) : option (EipStatus * CipStack) :=
  '(s, n) ← CreateCipClass kCipQoSClassCode 7 7 2 8 8 2 1 "Quality of Service" 1 None s;
  s ← bind_attributes 1 qos_rows n s;
  s ← add_services qos_services n s;
  Some (kEipStatusOk, store_qos g s).

(** [s_active_dscp = g_qos.dscp] *)
Definition CipQosUpdateUsedSetQosValues (s : CipStack) : option CipQosDscpValues :=
  g ← load_qos s; Some (dscp g).

Definition CipQosResetAttributesToDefaultValues (s : CipStack) : CipStack :=
  store_qos default_qos s.

(** ** Lemmas *)

Lemma qos_stored g s : load_qos (store_qos g s) = Some g.
Proof.
  unfold load_qos, usint_at, store_qos. cbn [objects].
  rewrite !(lookup_union_Some_l _ _ _ _) by reflexivity. cbn. by destruct g as [? []].
Qed.

(** [g_qos] with the value of the attribute for [priority] replaced. *)
Definition set_priority (priority : ConnectionObjectPriority) (v : Z) (g : CipQosObject)
  : CipQosObject :=
  let d := dscp g in
  mkQos (q_frames_enable g)
    (match priority with
     | kConnectionObjectPriorityLow =>
         mkDscp (event d) (general d) (urgent d) (scheduled d) (high d) v (explicit_msg d)
     | kConnectionObjectPriorityHigh =>
         mkDscp (event d) (general d) (urgent d) (scheduled d) v (low d) (explicit_msg d)
     | kConnectionObjectPriorityScheduled =>
         mkDscp (event d) (general d) (urgent d) v (high d) (low d) (explicit_msg d)
     | kConnectionObjectPriorityUrgent =>
         mkDscp (event d) (general d) v (scheduled d) (high d) (low d) (explicit_msg d)
     | kConnectionObjectPriorityExplicit =>
         mkDscp (event d) (general d) (urgent d) (scheduled d) (high d) (low d) v
     end).

(** The attribute of a priority. *)
Definition dscp_attribute (priority : ConnectionObjectPriority) : nat :=
  match priority with
  | kConnectionObjectPriorityUrgent => 4
  | kConnectionObjectPriorityScheduled => 5
  | kConnectionObjectPriorityHigh => 6
  | kConnectionObjectPriorityLow => 7
  | kConnectionObjectPriorityExplicit => 8
  end.

#[export] Instance ObjectPriority_eqdec : EqDecision ConnectionObjectPriority.
Proof. solve_decision. Defined.

Lemma set_priority_lookup p q v g :
  CipQosGetDscpPriority q (dscp (set_priority p v g))
  = if decide (q = p) then v else CipQosGetDscpPriority q (dscp g).
Proof. by destruct p, q. Qed.

(** The data objects of the stack hold [g]. *)
Definition qos_holds (g : CipQosObject) (s : CipStack) : Prop :=
  Forall (λ x, objects s !! x.1 = Some x.2) (qos_objects g).

Lemma qos_holds_load g s : qos_holds g s → load_qos s = Some g.
Proof.
  unfold qos_holds, qos_objects. rewrite !list.Forall_cons. intros (?&?&?&?&?&?&?&?&_).
  cbn [fst snd] in *. unfold load_qos, usint_at.
  repeat match goal with H : objects s !! _ = _ |- _ => rewrite H; clear H end.
  by destruct g as [? []].
Qed.

Lemma qos_holds_store g s : qos_holds g (store_qos g s).
Proof.
  unfold qos_holds, qos_objects. rewrite !list.Forall_cons.
  repeat split; try (by constructor); by apply lookup_union_Some_l.
Qed.

Lemma qos_holds_set p v g s :
  qos_holds g s →
  qos_holds (set_priority p v g)
    (mkStack (classes s) (<[(kQosAddress + dscp_attribute p)%nat := DInt 1 v]> (objects s))).
Proof.
  unfold qos_holds, qos_objects. rewrite !list.Forall_cons. intros (?&?&?&?&?&?&?&?&_).
  cbn [objects fst snd] in *.
  destruct p; repeat split; try (by constructor);
    by (rewrite lookup_insert_eq || rewrite lookup_insert_ne by done).
Qed.

Lemma qos_holds_value p g s :
  qos_holds g s →
  objects s !! (kQosAddress + dscp_attribute p)%nat = Some (DInt 1 (CipQosGetDscpPriority p (dscp g))).
Proof.
  unfold qos_holds, qos_objects. rewrite !list.Forall_cons. intros (?&?&?&?&?&?&?&?&_).
  by destruct p.
Qed.

(** ** Properties *)

Definition priority_row (p : ConnectionObjectPriority) : AttributeRow :=
  qos_row (dscp_attribute p) (Some DecodeCipQoSAttribute) kQosSetable.

Lemma priority_row_in p : priority_row p ∈ qos_rows.
Proof. apply list_elem_of_In. destruct p; cbn; tauto. Qed.

Lemma qos_blank n name :
  ∃ c0 x c m,
    AddCipInstances (TheClass n) (new_class n kCipQoSClassCode 7 8 8 2 name 1) 1 = Some (c0, x) ∧
    standard_class 2 (AllocateAttributeMasks c0,
      AllocateAttributeMasks (new_meta_class n 7 7 2 name)) = Some (c, m) ∧
    blank_class n kCipQoSClassCode 8 8 2 [1] c.
Proof.
  do 4 eexists. split; [reflexivity |].
  split; [lazy -[EncodeCipUint String.append]; reflexivity |].
  split; cbn; try done.
  intros k Hk. assert (k / 8 < 2) by (apply Z.div_lt_upper_bound; lia).
  repeat split; (apply (mask_bit_zeros 2); lia).
Qed.

(** The QoS object is created on any stack that does not have one: its class is
    registered at the end, the other classes and objects stay, the attributes hold the
    given values, and instance 1 has the attributes of the table. *)
Theorem qos_created g s :
  GetCipClass s kCipQoSClassCode = None →
  ∃ s' i c m, CipQoSInit g s = Some (kEipStatusOk, s') ∧
    classes s' = classes s ++ [(c, m)] ∧
    GetCipClass s' kCipQoSClassCode = Some (length (classes s)) ∧
    table_object (length (classes s)) 0 qos_rows s' i c ∧ qos_holds g s' ∧
    (∀ a, (a < kQosAddress + 1 ∨ kQosAddress + 8 < a)%nat → objects s' !! a = objects s !! a) ∧
    services c = common_service <$> qos_services.
Proof.
  intros Hn. set (n := length (classes s)).
  destruct (qos_blank n "Quality of Service") as (c0 & x & c & m & E0 & E & Hb).
  destruct (build_bind_first qos_rows qos_services 0 8 kCipQoSClassCode c m s)
    as (i & c' & Eb & Hs & Hcode).
  { exact Hb. } { repeat constructor; cbn; lia. }
  { apply (bool_decide_unpack _). by vm_compute. } { apply (bool_decide_unpack _). by vm_compute. }
  exists (store_qos g (RegisterCipClass c' m s)), i, c', m. split.
  { unfold CipQoSInit.
    rewrite (CreateCipClass_instances kCipQoSClassCode 7 7 2 8 8 2 1 "Quality of Service" 1 s c0 x c m)
      by done.
    cbn [mbind option_bind] in Eb |- *. fold n in Eb |- *.
    destruct (bind_attributes 1 qos_rows n _) as [s1|]; [|discriminate Eb].
    cbn [mbind option_bind] in Eb |- *. by rewrite Eb. }
  split; [done |]. split; [by apply (get_registered_code c' m s) |]. split.
  { eapply single_table; [apply (get_registered c' m s) | exact Hs |].
    apply (bool_decide_unpack _). by vm_compute. }
  split; [apply qos_holds_store |]. split; [|by eapply single_services].
  intros a Ha. unfold store_qos. cbn [objects].
  rewrite lookup_union_r; [done |]. apply not_elem_of_list_to_map. cbn.
  rewrite !not_elem_of_cons. unfold kQosAddress in *. repeat split; try lia. by apply not_elem_of_nil.
Qed.

(** What a request to set the DSCP value of priority [p] to [v] leaves in [g_qos]. *)
Definition qos_after (p : ConnectionObjectPriority) (v : Z) (g : CipQosObject) : CipQosObject :=
  if v <? 64 then set_priority p v g else g.

Section QosProperties.
Context `{Application}.

(** Setting the DSCP value of a priority: a byte below 64 is stored and reported as
    success, any other is refused as an invalid value and changes nothing.  The values in
    use are not touched; the next update after a restart takes over exactly the new value
    for that priority and the old ones for the others, so that a value in use is always
    below 64 when the stored ones were. *)
Theorem qos_set_applied_at_restart n s i c g p v rest req resp :
  table_object n 0 qos_rows s i c → qos_holds g s →
  path_attribute req = Z.of_nat (dscp_attribute p) → request_data req = v :: rest →
  ∃ s', SetAttributeSingle n (ListInstance 0) req resp s
      = Some (kEipStatusOkSend, set_request_data rest req,
          reply req resp (if v <? 64 then kCipErrorSuccess else kCipErrorInvalidAttributeValue)
            InitializeENIPMessage, s') ∧
    (64 <= v → s' = s) ∧ classes s' = classes s ∧
    qos_holds (qos_after p v g) s' ∧
    CipQosUpdateUsedSetQosValues s' = Some (dscp (qos_after p v g)) ∧
    ∀ q, let value := CipQosGetDscpPriority q (dscp (qos_after p v g)) in
      value = (if decide (q = p) then if v <? 64 then v else CipQosGetDscpPriority q (dscp g)
               else CipQosGetDscpPriority q (dscp g)) ∧
      (CipQosGetDscpPriority q (dscp g) < 64 → value < 64).
Proof.
  intros Ho Hg Hp Hd. pose proof (qos_holds_value p g s Hg) as Hval.
  rewrite (table_set_single n 0 qos_rows s i c Ho (priority_row p) req resp
    (DInt 1 (CipQosGetDscpPriority p (dscp g))) DecodeCipQoSAttribute (priority_row_in p) Hp
    eq_refl eq_refl) by (done || by apply (bool_decide_unpack _)).
  unfold DecodeCipQoSAttribute. cbn [int_object mbind option_bind Nat.eqb]. rewrite Hd.
  rewrite GetUsint_cons. cbn [mbind option_bind]. unfold qos_after.
  assert (Hq : ∀ q, CipQosGetDscpPriority q (dscp (set_priority p v g))
    = if decide (q = p) then v else CipQosGetDscpPriority q (dscp g)) by (intros q; apply set_priority_lookup).
  destruct (Z.ltb_spec v 64) as [Hlt|Hge]; cbn [mbind option_bind]; eexists; (split; [reflexivity |]).
  - split; [lia |]. split; [done |].
    assert (Hh := qos_holds_set p v g s Hg). split; [exact Hh |].
    split; [unfold CipQosUpdateUsedSetQosValues; by erewrite qos_holds_load by exact Hh |].
    intros q. cbv zeta. rewrite Hq. split; [done |]. destruct (decide _); lia.
  - assert (Hs : mkStack (classes s) (<[row_data (priority_row p) :=
        DInt 1 (CipQosGetDscpPriority p (dscp g))]> (objects s)) = s).
    { rewrite insert_id by exact Hval. by destruct s. }
    rewrite Hs. split; [done |]. split; [done |]. split; [done |].
    split; [unfold CipQosUpdateUsedSetQosValues; by erewrite qos_holds_load by exact Hg |].
    intros q. cbv zeta. split; [by destruct (decide _) | done].
Qed.
End QosProperties.

(** ** An example *)

Lemma qos_example :
  ∃ s i c m, CipQoSInit default_qos (mkStack [] ∅) = Some (kEipStatusOk, s) ∧
    classes s = [(c, m)] ∧ table_object 0 0 qos_rows s i c ∧ qos_holds default_qos s.
Proof.
  destruct (qos_created default_qos (mkStack [] ∅)) as (s & i & c & m & E & Hc & _ & Ht & Hq & _);
    [reflexivity |]. exists s, i, c, m. by split_and!.
Qed.

Lemma qos_created_witness :
  ∃ s i c m, CipQoSInit default_qos (mkStack [] ∅) = Some (kEipStatusOk, s) ∧
    classes s = [(c, m)] ∧ table_object 0 0 qos_rows s i c.
Proof.
  destruct (qos_created default_qos (mkStack [] ∅)) as (s & i & c & m & E & Hc & _ & Ht & _);
    [reflexivity |]. exists s, i, c, m. split; [exact E |]. split; [exact Hc | exact Ht].
Defined.

(** The urgent priority is set to 40, then to 64, which is refused. *)
Definition urgent_request (v : Z) : CipMessageRouterRequest :=
  mkRequest 0x10 (mkEpath 3 kCipQoSClassCode 1 4) 1 [v].

Lemma qos_set_applied_at_restart_witness :
  ∃ s s1, CipQoSInit default_qos (mkStack [] ∅) = Some (kEipStatusOk, s) ∧
    SetAttributeSingle 0 (ListInstance 0) (urgent_request 40) empty_response s
    = Some (kEipStatusOkSend, set_request_data [] (urgent_request 40),
        reply (urgent_request 40) empty_response kCipErrorSuccess InitializeENIPMessage, s1) ∧
    CipQosUpdateUsedSetQosValues s1 = Some (mkDscp 59 47 40 47 43 31 27) ∧
    SetAttributeSingle 0 (ListInstance 0) (urgent_request 64) empty_response s1
    = Some (kEipStatusOkSend, set_request_data [] (urgent_request 64),
        reply (urgent_request 64) empty_response kCipErrorInvalidAttributeValue
          InitializeENIPMessage, s1).
Proof.
  destruct qos_example as (s & i & c & m & E & Hc & Ht & Hq).
  destruct (qos_set_applied_at_restart 0 s i c default_qos kConnectionObjectPriorityUrgent 40 []
    (urgent_request 40) empty_response Ht Hq eq_refl eq_refl) as (s1 & E1 & _ & Hc1 & Hq1 & U1 & _).
  exists s, s1. split; [exact E |]. split; [exact E1 |]. split; [exact U1 |].
  assert (Ht1 := table_same_classes _ _ _ _ s s1 i c Ht Hc1).
  destruct (qos_set_applied_at_restart 0 s1 i c _ kConnectionObjectPriorityUrgent 64 []
    (urgent_request 64) empty_response Ht1 Hq1 eq_refl eq_refl) as (s2 & E2 & Hs & _).
  rewrite (Hs ltac:(lia)) in E2. exact E2.
Defined.
