(* ===== verification/TcpIp.v ===== *)
(** * [cip/ciptcpipinterface.c]: the TCP/IP interface object

    The object's data, the checks of a network configuration and of host and domain
    names, the encoders and decoders of its attributes, and the multicast address the
    device derives from its configuration.  [settable] stands for the build option
    [OPENER_TCPIP_IFACE_CFG_SETTABLE], [big_endian] for the byte order of the host. *)

From S2P Require Import Prelude EndianConv CipStrings CipTypes CipCodec CipClasses CipServices ConnRecord ConnObject ConnList Assembly NetObject.
From stdpp Require Import strings.
Open Scope Z_scope.

(** ** Data *)

Definition kCipTcpIpInterfaceClassCode : Z := 0xF5.
Definition kCipErrorDeviceStateConflict : Z := 0x10.
Definition kCipUdintUdintUdintUdintUdintString : Z := 0xA1.

Definition kTcpipStatusIfaceCfgPend : Z := 0x20.
Definition kTcpipCfgCtrlStaticIp : Z := 0x00.
Definition kTcpipCfgCtrlMethodMask : Z := 0x0F.
Definition kTcpipCfgCtrlDnsEnable : Z := 0x10.

Definition CFG_CAPS_DHCP_CLIENT : Z := 0x04.
Definition CFG_CAPS_CFG_SETTABLE : Z := 0x10.
Definition CFG_CAPS_CFG_CHG_NEEDS_RESET : Z := 0x40.

Definition IFACE_CFG_SET_MODE (settable : bool) : Z :=
  if settable then kSetable else kNotSetOrGetable.
Definition CFG_CAPS (settable : bool) : Z :=
  if settable then CFG_CAPS_DHCP_CLIENT .| CFG_CAPS_CFG_SETTABLE .| CFG_CAPS_CFG_CHG_NEEDS_RESET
  else CFG_CAPS_DHCP_CLIENT.

(** Addresses are in network byte order. *)
Record CipTcpIpInterfaceConfiguration := mkIfConfig {
  if_ip_address : Z; if_network_mask : Z; gateway : Z; name_server : Z; name_server_2 : Z;
  domain_name : CipString }.

Record MulticastAddressConfiguration := mkMcast {
  alloc_control : Z; reserved_shall_be_zero : Z; number_of_allocated_multicast_addresses : Z;
  starting_multicast_address : Z }.

Record CipTcpIpObject := mkTcpIp {
  tcpip_status : Z; config_capability : Z; config_control : Z;
  physical_link_object : CipEpath;
  interface_configuration : CipTcpIpInterfaceConfiguration;
  hostname : CipString;
  mcast_ttl_value : Z;
  mcast_config : MulticastAddressConfiguration;
  select_acd : Z;
  encapsulation_inactivity_timeout : Z }.

Definition set_tcpip_status (v : Z) (g : CipTcpIpObject) : CipTcpIpObject :=
  mkTcpIp v (config_capability g) (config_control g) (physical_link_object g)
    (interface_configuration g) (hostname g) (mcast_ttl_value g) (mcast_config g) (select_acd g)
    (encapsulation_inactivity_timeout g).
Definition set_interface_configuration (c : CipTcpIpInterfaceConfiguration) (g : CipTcpIpObject)
  : CipTcpIpObject :=
  mkTcpIp (tcpip_status g) (config_capability g) (config_control g) (physical_link_object g)
    c (hostname g) (mcast_ttl_value g) (mcast_config g) (select_acd g)
    (encapsulation_inactivity_timeout g).
Definition set_hostname (h : CipString) (g : CipTcpIpObject) : CipTcpIpObject :=
  mkTcpIp (tcpip_status g) (config_capability g) (config_control g) (physical_link_object g)
    (interface_configuration g) h (mcast_ttl_value g) (mcast_config g) (select_acd g)
    (encapsulation_inactivity_timeout g).
Definition set_mcast_config (m : MulticastAddressConfiguration) (g : CipTcpIpObject)
  : CipTcpIpObject :=
  mkTcpIp (tcpip_status g) (config_capability g) (config_control g) (physical_link_object g)
    (interface_configuration g) (hostname g) (mcast_ttl_value g) m (select_acd g)
    (encapsulation_inactivity_timeout g).

(** [g_tcpip] at program start, with one Ethernet link object. *)
Definition g_tcpip (settable : bool) : CipTcpIpObject :=
  mkTcpIp 0x01 (CFG_CAPS settable) 0x02 (mkEpath 2 0xF6 1 0)
    (mkIfConfig 0 0 0 0 0 (mkString 0 None)) (mkString 0 None) 1 (mkMcast 0 0 1 0) 0 120.

(** ** Checks *)

Definition isalnum_c (byte : Z) : bool :=
  ((97 <=? byte) && (byte <=? 122)) || ((65 <=? byte) && (byte <=? 90))
  || ((48 <=? byte) && (byte <=? 57)).

(** The loop of [IsValidNameLabel] behind the first character; [last] is [label[-1]]. *)
Fixpoint name_label_loop (last : Z) (label : list Z) : option bool :=
  match label with
  | [] => None
  | b :: label =>
      if negb (0 =? b) && (isalnum_c b || (45 =? b)) then name_label_loop b label
      else Some ((0 =? b) && negb (45 =? last))
  end.

Definition IsValidNameLabel (label : list Z) : option bool :=
  b ← label !! 0%nat;
  if negb (isalnum_c b) then Some false else name_label_loop b (drop 1 label).

(** [strchr]: the position of the first [c] before the NUL; running off the end of the
    buffer is a fault. *)
Fixpoint strchr (p : list Z) (c : Z) : option (option nat) :=
  match p with
  | [] => None
  | b :: p =>
      if b =? c then Some (Some 0%nat)
      else if b =? 0 then Some None
      else r ← strchr p c; Some (match r with Some i => Some (S i) | None => None end)
  end.

(** A dot is overwritten with NUL while the label before it is checked.  One step of
    [fuel] per label. *)
Fixpoint IsValidDomain_loop (fuel : nat) (domain : list Z) : option bool :=
  match fuel with
  | O => None
  | S fuel =>
      b ← domain !! 0%nat;
      if 46 =? b then Some false
      else
        dot ← strchr domain 46;
        match dot with
        | Some dot =>
            rc ← IsValidNameLabel (<[dot := 0]> domain);
            next ← domain !! S dot;
            if negb (0 =? next) then
              rest ← IsValidDomain_loop fuel (drop (S dot) domain);
              Some (rc && rest)
            else Some false
        | None => IsValidNameLabel domain
        end
  end.

Definition IsValidDomain (domain : list Z) : option bool :=
  IsValidDomain_loop (S (length domain)) domain.

Section Checks.
Variable big_endian : bool.

Definition byte_swap (v : Z) : Z := le_value (rev (le_bytes 4 v)).

(** POSIX [ntohl] and [htonl] *)
Definition ntohl (v : Z) : Z := if big_endian then u32 v else byte_swap v.
Definition htonl (v : Z) : Z := ntohl v.

Definition INADDR_ANY : Z := 0.
Definition INADDR_BROADCAST : Z := 0xFFFFFFFF.
Definition INADDR_LOOPBACK : Z := 0x7F000001.
Definition IN_CLASSA (a : Z) : bool := a .& 0x80000000 =? 0.
Definition IN_CLASSB (a : Z) : bool := a .& 0xC0000000 =? 0x80000000.
Definition IN_CLASSC (a : Z) : bool := a .& 0xE0000000 =? 0xC0000000.
Definition IN_CLASSA_NET : Z := 0xFF000000.

(** [~v] of an [in_addr_t] *)
Definition complement (v : Z) : Z := u32 (Z.lnot v).

Definition IsValidNetmask (netmask : Z) : bool :=
  let v := ntohl netmask in
  let v := complement v in
  let v := u32 (v + 1) in
  let valid := negb (v =? 0) && (v .& u32 (v - 1) =? 0) in
  valid && negb (INADDR_BROADCAST =? netmask).

Definition IsInClassAbc (ip_addr : Z) : bool :=
  let ip := ntohl ip_addr in IN_CLASSA ip || IN_CLASSB ip || IN_CLASSC ip.

Definition IsOnLoopbackNetwork (ip_addr : Z) : bool :=
  let ip := ntohl ip_addr in ip .& IN_CLASSA_NET =? INADDR_LOOPBACK .& IN_CLASSA_NET.

Definition IsNetworkOrBroadcastIp (ip_addr net_mask : Z) : bool :=
  (ip_addr .& net_mask =? ip_addr) || (ip_addr .| complement net_mask =? ip_addr).

Definition IsValidNetworkConfig (if_cfg : CipTcpIpInterfaceConfiguration) : bool :=
  let ip := if_ip_address if_cfg in
  let mask := if_network_mask if_cfg in
  if INADDR_ANY =? ntohl ip then false
  else if negb (INADDR_ANY =? ntohl mask) && negb (IsValidNetmask mask) then false
  else if negb (IsInClassAbc ip) || negb (IsInClassAbc (gateway if_cfg))
          || negb (IsInClassAbc (name_server if_cfg)) || negb (IsInClassAbc (name_server_2 if_cfg))
  then false
  else if IsOnLoopbackNetwork ip || IsOnLoopbackNetwork (gateway if_cfg) then false
  else if IsNetworkOrBroadcastIp ip mask
          || (negb (INADDR_ANY =? ntohl (gateway if_cfg))
              && IsNetworkOrBroadcastIp (gateway if_cfg) mask) then false
  else if negb (INADDR_ANY =? ntohl (gateway if_cfg)) && negb (INADDR_ANY =? ntohl mask) then
    if negb (mask .& ip =? mask .& gateway if_cfg) then false else true
  else true.

Definition IsIOConnectionActive (m : ConnManager) : option bool :=
  r ← search (λ _ o, ConnectionObjectIsTypeIOConnection o
                     && negb (is_state kConnectionObjectStateTimedOut o)) m;
  Some (match r with Some _ => true | None => false end).

(** ** Encoders *)

(** The object an attribute of type [CipTcpIpInterfaceConfiguration] points to, and
    back. *)
Definition config_data (c : CipTcpIpInterfaceConfiguration) : CipData :=
  DStruct [DInt 4 (if_ip_address c); DInt 4 (if_network_mask c); DInt 4 (gateway c);
           DInt 4 (name_server c); DInt 4 (name_server_2 c); DString (domain_name c)].

Definition mcast_data (m : MulticastAddressConfiguration) : CipData :=
  DStruct [DInt 1 (alloc_control m); DInt 1 (reserved_shall_be_zero m);
           DInt 2 (number_of_allocated_multicast_addresses m);
           DInt 4 (starting_multicast_address m)].

Definition EncodeCipTcpIpInterfaceConfiguration : Encoder := fun d m =>
  match d with
  | DStruct [DInt 4 ip; DInt 4 mask; DInt 4 gw; DInt 4 ns; DInt 4 ns2; DString domain] =>
      m ← AddDintToMessage (ntohl ip) m;
      m ← AddDintToMessage (ntohl mask) m;
      m ← AddDintToMessage (ntohl gw) m;
      m ← AddDintToMessage (ntohl ns) m;
      m ← AddDintToMessage (ntohl ns2) m;
      EncodeCipString (DString domain) m
  | _ => None
  end.

Definition EncodeCipTcpIpMulticastConfiguration : Encoder := fun d m =>
  match d with
  | DStruct [DInt 1 alloc; DInt 1 reserved; DInt 2 number; DInt 4 start] =>
      m ← EncodeCipUsint (DInt 1 alloc) m;
      m ← EncodeCipUsint (DInt 1 reserved) m;
      m ← EncodeCipUint (DInt 2 number) m;
      EncodeCipUdint (DInt 4 (ntohl start)) m
  | _ => None
  end.

Definition EncodeSafetyNetworkNumber : Encoder := fun _ m =>
  FillNextNMessageOctetsWithValueAndMoveToNextPosition 0 6 m.

Definition EncodeCipLastConflictDetected : Encoder := fun _ m =>
  FillNextNMessageOctetsWithValueAndMoveToNextPosition 0 35 m.

(** ** Decoders *)

Definition DecodeTcpIpInterfaceConfigurationControl : Decoder := fun d req resp =>
  _ ← int_object 4 d;
  '(received, p) ← GetDintFromMessage (request_data req);
  let received := u32 received in
  let req := set_request_data p req in
  if (0x03 <=? received .& kTcpipCfgCtrlMethodMask)
     || negb (received .& complement kTcpipCfgCtrlMethodMask =? 0)
  then Some (-1, d, req, set_general_status kCipErrorInvalidAttributeValue resp)
  else Some (4, DInt 4 (received .& (kTcpipCfgCtrlMethodMask .| kTcpipCfgCtrlDnsEnable)), req,
             set_general_status kCipErrorSuccess resp).

Definition DecodeCipTcpIpInterfaceEncapsulationInactivityTimeout : Decoder := fun d req resp =>
  _ ← int_object 2 d;
  '(inactivity_timeout_received, p) ← GetUintFromMessage (request_data req);
  let req := set_request_data p req in
  if 3600 <? inactivity_timeout_received
  then Some (-1, d, req, set_general_status kCipErrorInvalidAttributeValue resp)
  else Some (2, DInt 2 inactivity_timeout_received, req, set_general_status kCipErrorSuccess resp).

(** [(length + 1) & ~1] of a [CipUint] *)
Definition aligned (length : Z) : Z := u16 (Z.ldiff (length + 1) 1).

(** The decoders of attributes 5 and 6, which exist when the configuration is settable:
    they look at the connections and change the status as well as their attribute. *)
Definition DecodeCipTcpIpInterfaceConfiguration (connections : ConnManager) (g : CipTcpIpObject)
    (req : CipMessageRouterRequest) (resp : CipMessageRouterResponse)
  : option (Z * CipTcpIpObject * CipMessageRouterRequest * CipMessageRouterResponse) :=
  active ← IsIOConnectionActive connections;
  if active : bool then Some (-1, g, req, set_general_status kCipErrorDeviceStateConflict resp)
  else if negb (kTcpipCfgCtrlStaticIp =? config_control g .& kTcpipCfgCtrlMethodMask)
  then Some (-1, g, req, set_general_status kCipErrorObjectStateConflict resp)
  else
    '(ip, p) ← GetUdintFromMessage (request_data req);
    '(mask, p) ← GetUdintFromMessage p;
    '(gw, p) ← GetUdintFromMessage p;
    '(ns, p) ← GetUdintFromMessage p;
    '(ns2, p) ← GetUdintFromMessage p;
    '(domain_name_length, p) ← GetUintFromMessage p;
    let req := set_request_data p req in
    if 48 <? domain_name_length
    then Some (-1, g, req, set_general_status kCipErrorTooMuchData resp)
    else
      s ← SetCipStringByData (Some (mkString 0 None)) domain_name_length p;
      domain ← s;
      let if_cfg := mkIfConfig (htonl ip) (htonl mask) (htonl gw) (htonl ns) (htonl ns2) domain in
      let domain_name_length := aligned domain_name_length in
      rejected ← (if negb (IsValidNetworkConfig if_cfg) then Some true
                  else if 0 <? domain_name_length then
                    name ← st_string domain;
                    valid ← IsValidDomain name; Some (negb valid)
                  else Some false);
      if rejected : bool
      then Some (-1, g, req, set_general_status kCipErrorInvalidAttributeValue resp)
      else
        let g := set_interface_configuration if_cfg g in
        Some (20 + domain_name_length,
              set_tcpip_status (tcpip_status g .| kTcpipStatusIfaceCfgPend) g, req,
              set_general_status kCipErrorSuccess resp).

(** The number of decoded bytes stays -1, also on success. *)
Definition DecodeCipTcpIpInterfaceHostName (g : CipTcpIpObject)
    (req : CipMessageRouterRequest) (resp : CipMessageRouterResponse)
  : option (Z * CipTcpIpObject * CipMessageRouterRequest * CipMessageRouterResponse) :=
  '(host_name_length, p) ← GetUintFromMessage (request_data req);
  let req := set_request_data p req in
  if 64 <? host_name_length
  then Some (-1, g, req, set_general_status kCipErrorTooMuchData resp)
  else
    s ← SetCipStringByData (Some (mkString 0 None)) host_name_length p;
    tmp_host_name ← s;
    label ← st_string tmp_host_name;
    valid ← IsValidNameLabel label;
    if negb valid
    then Some (-1, g, req, set_general_status kCipErrorInvalidAttributeValue resp)
    else
      let g := set_hostname tmp_host_name g in
      Some (-1, set_tcpip_status (tcpip_status g .| kTcpipStatusIfaceCfgPend) g, req,
            set_general_status kCipErrorSuccess resp).

(** ** The class *)

(** The member attribute [k] points to is at address [kTcpIpAddress + k];
    [dummy_data_field], of attributes 7, 11 and 12, is at [kTcpIpAddress + 7]. *)
Definition kTcpIpAddress : nat := 300.

Definition tcpip_objects (g : CipTcpIpObject) : list (nat * CipData) :=
  [(kTcpIpAddress + 1, DInt 4 (tcpip_status g));
   (kTcpIpAddress + 2, DInt 4 (config_capability g));
   (kTcpIpAddress + 3, DInt 4 (config_control g));
   (kTcpIpAddress + 4, DEPath (physical_link_object g));
   (kTcpIpAddress + 5, config_data (interface_configuration g));
   (kTcpIpAddress + 6, DString (hostname g));
   (kTcpIpAddress + 7, DInt 1 0);
   (kTcpIpAddress + 8, DInt 1 (mcast_ttl_value g));
   (kTcpIpAddress + 9, mcast_data (mcast_config g));
   (kTcpIpAddress + 10, DInt 1 (select_acd g));
   (kTcpIpAddress + 13, DInt 2 (encapsulation_inactivity_timeout g))]%nat.

Definition store_tcpip (g : CipTcpIpObject) (s : CipStack) : CipStack :=
  mkStack (classes s) (list_to_map (tcpip_objects g) ∪ objects s).

Definition tcpip_row (k : Z) (type : Z) (enc : Encoder) (dec : option Decoder) (address : nat)
    (flags : Z) : AttributeRow := mkRow k type enc dec (kTcpIpAddress + address) flags.

(** The table of a configuration that is not settable: attributes 5 and 6 have no
    decoder. *)
Definition tcpip_rows : list AttributeRow :=
  [tcpip_row 1 kCipDword EncodeCipDword None 1 kGetableSingleAndAll;
   tcpip_row 2 kCipDword EncodeCipDword None 2 kGetableSingleAndAll;
   tcpip_row 3 kCipDword EncodeCipDword (Some DecodeTcpIpInterfaceConfigurationControl) 3
     (kSetAndGetAble .| kNvDataFunc .| IFACE_CFG_SET_MODE false);
   tcpip_row 4 kCipEpath EncodeCipEPath None 4 kGetableSingleAndAll;
   tcpip_row 5 kCipUdintUdintUdintUdintUdintString EncodeCipTcpIpInterfaceConfiguration None 5
     (kGetableSingleAndAll .| kNvDataFunc .| IFACE_CFG_SET_MODE false);
   tcpip_row 6 kCipString EncodeCipString None 6
     (kGetableSingleAndAll .| kNvDataFunc .| IFACE_CFG_SET_MODE false);
   tcpip_row 7 kCipAny EncodeSafetyNetworkNumber None 7 kGetableAllDummy;
   tcpip_row 8 kCipUsint EncodeCipUsint None 8 kGetableSingleAndAll;
   tcpip_row 9 kCipAny EncodeCipTcpIpMulticastConfiguration None 9 kGetableSingleAndAll;
   tcpip_row 10 kCipBool EncodeCipBool None 10 kGetableAllDummy;
   tcpip_row 11 kCipBool EncodeCipLastConflictDetected None 7 kGetableAllDummy;
   tcpip_row 12 kCipBool EncodeCipBool None 7 kGetableAllDummy;
   tcpip_row 13 kCipUint EncodeCipUint
     (Some DecodeCipTcpIpInterfaceEncapsulationInactivityTimeout) 13
     (kSetAndGetAble .| kNvDataFunc)].

Definition tcpip_services : list CommonService :=
  [(kGetAttributeSingle, FnGetAttributeSingle, "GetAttributeSingle"%string);
   (kGetAttributeAll, FnGetAttributeAll, "GetAttributeAll"%string);
   (kSetAttributeSingle, FnSetAttributeSingle, "SetAttributeSingle"%string)].

(** The members of [g_tcpip] hold [g] when the class is created. *)
Definition CipTcpIpInterfaceInit (g : CipTcpIpObject) (s : CipStack)
  : option (EipStatus * CipStack) :=
  '(s, n) ← CreateCipClass kCipTcpIpInterfaceClassCode 0 7 2 13 13 3 1 "TCP/IP interface" 4 None s;
  s ← bind_attributes 1 tcpip_rows n s;
  s ← add_services tcpip_services n s;
  Some (kEipStatusOk, store_tcpip g s).

(** The lengths of the freed strings stay. *)
Definition ShutdownTcpIpInterface (g : CipTcpIpObject) : CipTcpIpObject :=
  let g := set_hostname (mkString (st_length (hostname g)) None) g in
  let c := interface_configuration g in
  set_interface_configuration
    (mkIfConfig (if_ip_address c) (if_network_mask c) (gateway c) (name_server c)
       (name_server_2 c) (mkString (st_length (domain_name c)) None)) g.

Definition CipTcpIpCalculateMulticastIp (g : CipTcpIpObject) : CipTcpIpObject :=
  let c := interface_configuration g in
  let cip_mcast_base_addr := 0xEFC00100 in
  let host_id := ntohl (if_ip_address c) .& complement (ntohl (if_network_mask c)) in
  let host_id := u32 (host_id - 1) in
  let host_id := host_id .& 0x3ff in
  let m := mcast_config g in
  set_mcast_config
    (mkMcast (alloc_control m) (reserved_shall_be_zero m)
       (number_of_allocated_multicast_addresses m)
       (htonl (u32 (cip_mcast_base_addr + u32 (host_id ≪ 5))))) g.

(** [i] is an instance of the TCP/IP class [c], of index [n]. *)
Definition GetEncapsulationInactivityTimeout (n : nat) (i : CipInstance) (c : CipClass)
    (s : CipStack) : option Z :=
  attribute ← GetCipAttribute i c 13;
  a ← attribute;
  d ← data a;
  v ← load_data n d s;
  int_object 2 v.
End Checks.

(** ** Lemmas: byte order and bits *)

Lemma testbit_mod v k i : 0 <= k → 0 <= i → Z.testbit (v mod 2 ^ k) i = (i <? k) && Z.testbit v i.
Proof.
  intros Hk Hi. destruct (Z.ltb_spec i k).
  - by rewrite Z.mod_pow2_bits_low by lia.
  - by rewrite Z.mod_pow2_bits_high by lia.
Qed.

Lemma testbit_u8_all v i : 0 <= i → Z.testbit (u8 v) i = (i <? 8) && Z.testbit v i.
Proof. intros Hi. apply (testbit_mod v 8 i); lia. Qed.

Lemma testbit_u32 v i : 0 <= i → Z.testbit (u32 v) i = (i <? 32) && Z.testbit v i.
Proof. intros Hi. apply (testbit_mod v 32 i); lia. Qed.

Lemma testbit_shifted_byte v k i s :
  0 <= i → 0 <= k → 0 <= s →
  Z.testbit (u8 (v ≫ k) ≪ s) i = (s <=? i) && (i <? s + 8) && Z.testbit v (k + (i - s)).
Proof.
  intros Hi Hk Hs. rewrite Z.shiftl_spec by done.
  destruct (Z.leb_spec s i); cbn [andb].
  - rewrite testbit_u8_all, Z.shiftr_spec by lia.
    destruct (Z.ltb_spec (i - s) 8), (Z.ltb_spec i (s + 8)); try (exfalso; lia); [|done].
    cbn [andb]. f_equal. lia.
  - by rewrite Z.testbit_neg_r by lia.
Qed.

(** Bit [i] of a swapped word is the bit of the mirrored byte. *)
Lemma byte_swap_bit v i :
  0 <= i → Z.testbit (byte_swap v) i = (i <? 32) && Z.testbit v (24 - 8 * (i / 8) + i mod 8).
Proof.
  intros Hi. unfold byte_swap. rewrite le_bytes_4. cbn [rev app].
  rewrite <-le_value_4 by apply u8_range. rewrite !Z.lor_spec.
  rewrite <-(Z.shiftl_0_r (u8 (v ≫ 24))). change (u8 v ≪ 24) with (u8 (v ≫ 0) ≪ 24).
  rewrite !testbit_shifted_byte by lia.
  assert (H : i = 8 * (i / 8) + i mod 8) by (apply Z.div_mod; lia).
  assert (Hm := Z.mod_pos_bound i 8 ltac:(lia)).
  destruct (Z.ltb_spec i 32) as [Hlt|Hge].
  - assert (Hq : i / 8 = 0 ∨ i / 8 = 1 ∨ i / 8 = 2 ∨ i / 8 = 3) by lia.
    destruct Hq as [Hq|[Hq|[Hq|Hq]]]; rewrite Hq in H |- *;
      repeat match goal with |- context [?a <=? ?b] => destruct (Z.leb_spec a b); try lia end;
      repeat match goal with |- context [?a <? ?b] => destruct (Z.ltb_spec a b); try lia end;
      cbn [andb orb]; rewrite ?orb_false_r; f_equal; lia.
  - repeat match goal with |- context [?a <? ?b] => destruct (Z.ltb_spec a b); try lia end.
Qed.

Lemma byte_swap_range v : is_u32 (byte_swap v).
Proof.
  unfold byte_swap. apply (le_value_range (rev (le_bytes 4 v))).
  apply Forall_rev. apply le_bytes_bytes.
Qed.

Lemma byte_swap_swap v : is_u32 v → byte_swap (byte_swap v) = v.
Proof.
  intros Hv. apply Z.bits_inj'. intros i Hi. rewrite byte_swap_bit by done.
  rewrite <-(u32_id v Hv) at 2. rewrite testbit_u32 by done.
  destruct (Z.ltb_spec i 32); [|done]. cbn [andb].
  assert (H0 : i = 8 * (i / 8) + i mod 8) by (apply Z.div_mod; lia).
  assert (Hm := Z.mod_pos_bound i 8 ltac:(lia)).
  rewrite byte_swap_bit by lia. set (j := 24 - 8 * (i / 8) + i mod 8).
  assert (Hj : j / 8 = 3 - i / 8) by (symmetry; apply (Z.div_unique j 8 _ (i mod 8)); lia).
  assert (Hj' : j mod 8 = i mod 8) by (symmetry; apply (Z.mod_unique j 8 (3 - i / 8)); lia).
  rewrite Hj, Hj'. destruct (Z.ltb_spec j 32); [|lia]. cbn [andb]. f_equal. lia.
Qed.

Lemma byte_swap_bitwise f g a b :
  (∀ a b n, 0 <= n → Z.testbit (f a b) n = g (Z.testbit a n) (Z.testbit b n)) → g false false = false →
  byte_swap (f a b) = f (byte_swap a) (byte_swap b).
Proof.
  intros Hf Hg. apply Z.bits_inj'. intros i Hi. rewrite Hf by done. rewrite !byte_swap_bit by done.
  assert (Hm := Z.mod_pos_bound i 8 ltac:(lia)).
  destruct (Z.ltb_spec i 32); [|done]. cbn [andb]. apply Hf.
  assert (i / 8 < 4) by (apply Z.div_lt_upper_bound; lia). lia.
Qed.

Lemma complement_bit v i : 0 <= i → Z.testbit (complement v) i = (i <? 32) && negb (Z.testbit v i).
Proof. intros Hi. unfold complement. rewrite testbit_u32 by done. by rewrite Z.lnot_spec by done. Qed.

Lemma byte_swap_complement v : byte_swap (complement v) = complement (byte_swap v).
Proof.
  apply Z.bits_inj'. intros i Hi. rewrite complement_bit, !byte_swap_bit by done.
  destruct (Z.ltb_spec i 32); [|done]. cbn [andb].
  assert (Hm := Z.mod_pos_bound i 8 ltac:(lia)).
  assert (i / 8 < 4) by (apply Z.div_lt_upper_bound; lia).
  assert (0 <= i / 8) by (apply Z.div_pos; lia).
  rewrite complement_bit by lia. by destruct (Z.ltb_spec (24 - 8 * (i / 8) + i mod 8) 32); [|lia].
Qed.

Lemma complement_u32 v : complement (u32 v) = complement v.
Proof.
  apply Z.bits_inj'. intros i Hi. rewrite !complement_bit, testbit_u32 by done.
  by destruct (i <? 32).
Qed.

(** The conversions of an address on either kind of host. *)
Section ByteOrder.
Variable big : bool.
Local Abbreviation host := (ntohl big).

Lemma host_range v : is_u32 (host v).
Proof. unfold ntohl. destruct big; [apply u32_range | apply byte_swap_range]. Qed.

Lemma host_host v : is_u32 v → host (host v) = v.
Proof.
  intros Hv. unfold ntohl. destruct big; [by rewrite !u32_id by (done || apply u32_range) |].
  by apply byte_swap_swap.
Qed.

Lemma host_inj a b : is_u32 a → is_u32 b → host a = host b → a = b.
Proof. intros Ha Hb E. by rewrite <-(host_host a Ha), E, host_host. Qed.

Lemma u32_bitwise f g a b :
  (∀ a b n, 0 <= n → Z.testbit (f a b) n = g (Z.testbit a n) (Z.testbit b n)) → g false false = false →
  u32 (f a b) = f (u32 a) (u32 b).
Proof.
  intros Hf Hg. apply Z.bits_inj'. intros i Hi. rewrite Hf, !testbit_u32, Hf by done.
  by destruct (i <? 32).
Qed.

Lemma host_land a b : host (a .& b) = host a .& host b.
Proof.
  unfold ntohl. destruct big; [apply (u32_bitwise Z.land andb) | apply (byte_swap_bitwise Z.land andb)];
    try done; intros; apply Z.land_spec.
Qed.

Lemma host_lor a b : host (a .| b) = host a .| host b.
Proof.
  unfold ntohl. destruct big; [apply (u32_bitwise Z.lor orb) | apply (byte_swap_bitwise Z.lor orb)];
    try done; intros; apply Z.lor_spec.
Qed.

Lemma host_complement a : host (complement a) = complement (host a).
Proof.
  unfold ntohl. destruct big; [|apply byte_swap_complement].
  rewrite complement_u32. apply u32_id. apply u32_range.
Qed.

Lemma host_zero : host 0 = 0.
Proof. unfold ntohl. by destruct big. Qed.

Lemma host_eqb a b : is_u32 a → is_u32 b → (a =? b) = (host a =? host b).
Proof.
  intros Ha Hb. destruct (Z.eqb_spec a b) as [->|Hne]; [by rewrite Z.eqb_refl |].
  symmetry. apply Z.eqb_neq. intros E. apply Hne. by apply host_inj.
Qed.
End ByteOrder.

(** ** Lemmas: network masks *)

(** A word whose lower bits go on below the highest one is not a power of two. *)
Lemma power_of_two v : 0 < v → (v .& (v - 1) = 0 ↔ ∃ h, 0 <= h ∧ v = 2 ^ h).
Proof.
  intros Hv. destruct (Z.log2_spec v Hv) as [Hlo Hhi]. set (l := Z.log2 v) in *.
  assert (Hl : 0 <= l) by apply Z.log2_nonneg. split.
  - intros H. exists l. split; [done |]. destruct (Z.eq_dec v (2 ^ l)) as [|Hne]; [done |]. exfalso.
    assert (Hb : ∀ w, 2 ^ l <= w < 2 ^ Z.succ l → Z.testbit w l = true).
    { intros w Hw. assert (Hlw : Z.log2 w = l) by (apply Z.log2_unique; lia). rewrite <-Hlw.
      apply Z.bit_log2. pose proof (Z.pow_pos_nonneg 2 l). lia. }
    assert (Hc : Z.testbit (v .& (v - 1)) l = true) by (rewrite Z.land_spec, !Hb by lia; done).
    by rewrite H, Z.bits_0 in Hc.
  - intros (h & Hh & ->). rewrite Z.sub_1_r, <-Z.ones_equiv, Z.land_ones by done.
    by apply Z.mod_same, Z.pow_nonzero.
Qed.

(** The mask with [h] host bits. *)
Definition prefix_mask (h : Z) : Z := 2 ^ 32 - 2 ^ h.

Lemma prefix_mask_land h a : 0 <= h <= 32 → is_u32 a → a .& prefix_mask h = 2 ^ h * (a / 2 ^ h).
Proof.
  intros Hh Ha. assert (prefix_mask h = Z.ldiff (Z.ones 32) (Z.ones h)) as ->.
  { rewrite Z.ldiff_ones_r by lia. rewrite Z.shiftr_div_pow2, Z.shiftl_mul_pow2 by lia.
    unfold prefix_mask. rewrite Z.ones_equiv.
    assert (H32 : 2 ^ 32 = 2 ^ h * 2 ^ (32 - h)) by (rewrite <-Z.pow_add_r by lia; f_equal; lia).
    assert (0 < 2 ^ h) by lia. assert (0 < 2 ^ (32 - h)) by lia.
    assert (Hq : Z.pred (2 ^ 32) / 2 ^ h = 2 ^ (32 - h) - 1).
    { symmetry. apply (Z.div_unique_pos _ _ _ (2 ^ h - 1)); [lia |]. nia. }
    rewrite Hq. nia. }
  assert (a .& Z.ldiff (Z.ones 32) (Z.ones h) = Z.ldiff a (Z.ones h)) as ->.
  { apply Z.bits_inj'. intros i Hi. rewrite Z.land_spec, !Z.ldiff_spec.
    rewrite <-(u32_id a Ha) at 1 2. rewrite testbit_u32 by done.
    destruct (Z.ltb_spec i 32); cbn [andb]; [|done].
    rewrite (Z.testbit_ones_nonneg 32 i) by lia. by rewrite (proj2 (Z.ltb_lt _ _)). }
  rewrite Z.ldiff_ones_r, Z.shiftr_div_pow2, Z.shiftl_mul_pow2 by lia. lia.
Qed.

Lemma prefix_mask_complement h : 0 <= h <= 32 → complement (prefix_mask h) = Z.ones h.
Proof.
  intros Hh. unfold complement, prefix_mask. rewrite Z.ones_equiv.
  replace (Z.lnot (2 ^ 32 - 2 ^ h)) with (- 2 ^ 32 + (2 ^ h - 1))
    by (pose proof (Z.add_lnot_diag (2 ^ 32 - 2 ^ h)); lia).
  assert (0 < 2 ^ h <= 2 ^ 32) by (split; [lia | apply Z.pow_le_mono_r; lia]).
  unfold u32. change 4294967296 with (2 ^ 32). rewrite <-Z.sub_1_r.
  symmetry. apply (Z.mod_unique_pos _ _ (-1)); lia.
Qed.

Lemma lor_absorbs a b : (a .| b = a) ↔ (b .& a = b).
Proof.
  split; intros H; apply Z.bits_inj'; intros i Hi; apply (f_equal (λ x, Z.testbit x i)) in H;
    cbv beta in H; revert H; rewrite !Z.lor_spec, !Z.land_spec;
    by destruct (Z.testbit a i), (Z.testbit b i).
Qed.

(** A host address: its [h] host bits are neither all zero nor all one. *)
Definition usable (h a : Z) : Prop := 0 < a mod 2 ^ h < 2 ^ h - 1.

(** Below the classes D and E. *)
Definition class_abc (a : Z) : Prop := a < 0xE0000000.

Lemma land_high a k n :
  0 <= k → 0 <= n → a .& (Z.ones k * 2 ^ n) = ((a / 2 ^ n) mod 2 ^ k) * 2 ^ n.
Proof.
  intros Hk Hn. rewrite <-Z.land_ones, <-!Z.shiftl_mul_pow2, <-Z.shiftr_div_pow2 by done.
  apply Z.bits_inj'. intros i Hi. rewrite Z.land_spec, !Z.shiftl_spec by done.
  destruct (Z.le_gt_cases n i).
  - rewrite Z.land_spec, Z.shiftr_spec by lia. do 2 f_equal. lia.
  - rewrite !(Z.testbit_neg_r _ (i - n)) by lia. apply andb_false_r.
Qed.

Section Validity.
Variable big : bool.
Local Abbreviation host := (ntohl big).

Lemma IsValidNetmask_prefix m :
  is_u32 m → (IsValidNetmask big m = true ↔ ∃ h, 1 <= h <= 31 ∧ host m = prefix_mask h).
Proof.
  intros Hm. pose proof (host_range big m) as Hr. unfold is_u32 in Hr.
  set (x := host m) in *.
  assert (Hb : (INADDR_BROADCAST =? m) = (x =? 2 ^ 32 - 1)).
  { rewrite (host_eqb big) by (done || (unfold is_u32, INADDR_BROADCAST; lia)). fold x.
    assert (host INADDR_BROADCAST = 2 ^ 32 - 1) as -> by (unfold ntohl; by destruct big).
    apply Z.eqb_sym. }
  assert (Hv : u32 (complement x + 1) = if x =? 0 then 0 else 2 ^ 32 - x).
  { unfold complement, u32. rewrite Z.add_mod_idemp_l by lia.
    replace (Z.lnot x + 1) with (- x) by (pose proof (Z.add_lnot_diag x); lia).
    destruct (Z.eqb_spec x 0) as [->|Hx]; [done |].
    symmetry. apply (Z.mod_unique_pos _ _ (-1)); lia. }
  unfold IsValidNetmask. fold x. rewrite Hv, Hb. unfold prefix_mask.
  destruct (Z.eqb_spec x 0) as [E|Hx]; cbn [negb andb].
  { split; [done |]. intros (h & Hh & Eh).
    assert (2 ^ h < 2 ^ 32) by (apply Z.pow_lt_mono_r; lia). lia. }
  rewrite u32_id by (unfold is_u32; lia). rewrite (proj2 (Z.eqb_neq (2 ^ 32 - x) 0)) by lia. cbn [negb andb].
  rewrite andb_true_iff, negb_true_iff, Z.eqb_eq, Z.eqb_neq, power_of_two by lia. split.
  - intros [(h & Hh & E) Hne]. exists h. split; [|lia].
    assert (h ≠ 0) by (intros ->; lia).
    assert (h < 32) by (apply (Z.pow_lt_mono_r_iff 2); lia). lia.
  - intros (h & Hh & E). split; [exists h; lia |].
    assert (2 ^ 1 <= 2 ^ h) by (apply Z.pow_le_mono_r; lia). lia.
Qed.

Lemma IsInClassAbc_spec a : IsInClassAbc big a = true ↔ class_abc (host a).
Proof.
  pose proof (host_range big a) as Hr. unfold IsInClassAbc. set (x := host a) in *.
  unfold IN_CLASSA, IN_CLASSB, IN_CLASSC, class_abc, is_u32 in *.
  change 0x80000000 with (Z.ones 1 * 2 ^ 31) at 1. change 0xC0000000 with (Z.ones 2 * 2 ^ 30) at 1.
  change 0xE0000000 with (Z.ones 3 * 2 ^ 29) at 1.
  rewrite !land_high by lia. rewrite !orb_true_iff, !Z.eqb_eq.
  change (2 ^ 31) with 2147483648. change (2 ^ 30) with 1073741824. change (2 ^ 29) with 536870912.
  change (2 ^ 1) with 2. change (2 ^ 2) with 4. change (2 ^ 3) with 8. clearbody x.
  split; Z.to_euclidean_division_equations; lia.
Qed.

Lemma IsOnLoopbackNetwork_spec a : IsOnLoopbackNetwork big a = true ↔ host a / 2 ^ 24 = 127.
Proof.
  pose proof (host_range big a) as Hr. unfold IsOnLoopbackNetwork. set (x := host a) in *.
  unfold IN_CLASSA_NET, INADDR_LOOPBACK, is_u32 in *.
  change (0x7F000001 .& 0xFF000000) with 0x7F000000.
  change 0xFF000000 with (Z.ones 8 * 2 ^ 24). rewrite land_high, Z.eqb_eq by lia.
  change (2 ^ 24) with 16777216. change (2 ^ 8) with 256. clearbody x.
  split; Z.to_euclidean_division_equations; lia.
Qed.

Lemma u32_closed f g a b :
  (∀ a b n, 0 <= n → Z.testbit (f a b) n = g (Z.testbit a n) (Z.testbit b n)) → g false false = false →
  is_u32 a → is_u32 b → is_u32 (f a b).
Proof.
  intros Hf Hg Ha Hb. rewrite <-(u32_id a Ha), <-(u32_id b Hb), <-(u32_bitwise f g) by done.
  apply u32_range.
Qed.

Lemma u32_land a b : is_u32 a → is_u32 b → is_u32 (a .& b).
Proof. apply (u32_closed Z.land andb); [intros; apply Z.land_spec | done]. Qed.
Lemma u32_lor a b : is_u32 a → is_u32 b → is_u32 (a .| b).
Proof. apply (u32_closed Z.lor orb); [intros; apply Z.lor_spec | done]. Qed.

(** The check works on either byte order. *)
Lemma IsNetworkOrBroadcast_host a m :
  is_u32 a → is_u32 m → IsNetworkOrBroadcastIp a m = IsNetworkOrBroadcastIp (host a) (host m).
Proof.
  intros Ha Hm. unfold IsNetworkOrBroadcastIp.
  rewrite <-host_land, <-host_complement, <-host_lor, <-!(host_eqb big);
    auto using u32_land, u32_lor, u32_range.
  apply u32_lor; [done | apply u32_range].
Qed.

Lemma NetworkOrBroadcast_prefix h a :
  1 <= h <= 31 → is_u32 a → IsNetworkOrBroadcastIp a (prefix_mask h) = false ↔ usable h a.
Proof.
  intros Hh Ha. unfold IsNetworkOrBroadcastIp, usable.
  rewrite prefix_mask_land, prefix_mask_complement by (done || lia).
  rewrite orb_false_iff, !Z.eqb_neq, lor_absorbs, Z.land_comm, Z.land_ones, Z.ones_equiv by lia.
  assert (Hp : 0 < 2 ^ h) by lia. pose proof (Z.div_mod a (2 ^ h)). pose proof (Z.mod_pos_bound a (2 ^ h) Hp).
  lia.
Qed.

Lemma NetworkOrBroadcast_none a :
  is_u32 a → a ≠ 0 → class_abc a → IsNetworkOrBroadcastIp a 0 = false.
Proof.
  intros Ha H0 Hc. unfold IsNetworkOrBroadcastIp, class_abc, is_u32 in *.
  rewrite Z.land_0_r, orb_false_iff, !Z.eqb_neq. split; [lia |].
  change (complement 0) with (Z.ones 32). rewrite lor_absorbs, Z.land_comm, Z.land_ones by lia.
  rewrite Z.mod_small by lia. rewrite Z.ones_equiv. lia.
Qed.
End Validity.

(** ** The network configuration *)

(** A configuration the specification of the object allows, addresses in host order:
    an address of class A to C outside the loopback network; either no mask, or a mask of
    1 to 31 host bits under which the address is that of a host, and so is the gateway, if
    there is one, in the same network; name servers of class A to C. *)
Record allowed_config (ip mask gw ns ns2 : Z) : Prop := {
  al_ip : ip ≠ 0 ∧ class_abc ip ∧ ip / 2 ^ 24 ≠ 127;
  al_gateway : class_abc gw ∧ gw / 2 ^ 24 ≠ 127;
  al_servers : class_abc ns ∧ class_abc ns2;
  al_network : mask = 0 ∨ ∃ h, 1 <= h <= 31 ∧ mask = prefix_mask h ∧ usable h ip ∧
    (gw = 0 ∨ (usable h gw ∧ gw / 2 ^ h = ip / 2 ^ h)) }.

Definition config_wf (c : CipTcpIpInterfaceConfiguration) : Prop :=
  is_u32 (if_ip_address c) ∧ is_u32 (if_network_mask c) ∧ is_u32 (gateway c) ∧
  is_u32 (name_server c) ∧ is_u32 (name_server_2 c).

Section ValidConfig.
Variable big : bool.
Local Abbreviation host := (ntohl big).

Lemma same_network h a b :
  1 <= h <= 31 → is_u32 a → is_u32 b →
  (prefix_mask h .& a =? prefix_mask h .& b) = true ↔ b / 2 ^ h = a / 2 ^ h.
Proof.
  intros Hh Ha Hb. rewrite !(Z.land_comm (prefix_mask h)), !prefix_mask_land, Z.eqb_eq by (done || lia).
  assert (0 < 2 ^ h) by lia. nia.
Qed.

(** The part of the check behind the address classes. *)
Definition network_check (ip mask gw : Z) : bool :=
  if IsNetworkOrBroadcastIp ip mask
     || (negb (INADDR_ANY =? host gw) && IsNetworkOrBroadcastIp gw mask) then false
  else if negb (INADDR_ANY =? host gw) && negb (INADDR_ANY =? host mask) then
    if negb (mask .& ip =? mask .& gw) then false else true
  else true.

Lemma config_checks c :
  IsValidNetworkConfig big c
  = negb (INADDR_ANY =? host (if_ip_address c))
    && ((INADDR_ANY =? host (if_network_mask c)) || IsValidNetmask big (if_network_mask c))
    && (IsInClassAbc big (if_ip_address c) && IsInClassAbc big (gateway c)
        && IsInClassAbc big (name_server c) && IsInClassAbc big (name_server_2 c))
    && (negb (IsOnLoopbackNetwork big (if_ip_address c))
        && negb (IsOnLoopbackNetwork big (gateway c)))
    && network_check (if_ip_address c) (if_network_mask c) (gateway c).
Proof.
  unfold IsValidNetworkConfig. fold (network_check (if_ip_address c) (if_network_mask c) (gateway c)).
  destruct (INADDR_ANY =? host (if_ip_address c)); [done |].
  destruct (INADDR_ANY =? host (if_network_mask c)), (IsValidNetmask _ _); try done;
  by destruct (IsInClassAbc big (if_ip_address c)), (IsInClassAbc big (gateway c)),
    (IsInClassAbc big (name_server c)), (IsInClassAbc big (name_server_2 c)),
    (IsOnLoopbackNetwork big (if_ip_address c)), (IsOnLoopbackNetwork big (gateway c)).
Qed.

Lemma network_check_prefix ip mask gw h :
  is_u32 ip → is_u32 mask → is_u32 gw → 1 <= h <= 31 → host mask = prefix_mask h →
  network_check ip mask gw = true
  ↔ usable h (host ip) ∧ (host gw = 0 ∨ (usable h (host gw) ∧ host gw / 2 ^ h = host ip / 2 ^ h)).
Proof.
  intros Hi Hm Hg Hh Em. unfold network_check.
  rewrite (IsNetworkOrBroadcast_host big ip mask), (IsNetworkOrBroadcast_host big gw mask), Em
    by done.
  rewrite (host_eqb big (mask .& ip) (mask .& gw)) by auto using u32_land.
  rewrite !host_land, Em.
  assert (Hpm : (INADDR_ANY =? prefix_mask h) = false).
  { apply Z.eqb_neq. unfold INADDR_ANY, prefix_mask.
    assert (2 ^ h < 2 ^ 32) by (apply Z.pow_lt_mono_r; lia). lia. }
  rewrite Hpm. pose proof (host_range big ip) as Ri. pose proof (host_range big gw) as Rg.
  pose proof (NetworkOrBroadcast_prefix h (host ip) Hh Ri) as Ni.
  pose proof (NetworkOrBroadcast_prefix h (host gw) Hh Rg) as Ng.
  pose proof (same_network h (host ip) (host gw) Hh Ri Rg) as Ns.
  unfold INADDR_ANY. destruct (Z.eqb_spec 0 (host gw)) as [Eg|Eg]; cbn [negb andb].
  - rewrite orb_false_r. destruct (IsNetworkOrBroadcastIp _ _);
      [|split; [intros _; split; [by apply Ni | by left] | done]].
    split; [done |]. intros [Hu _]. by apply Ni in Hu.
  - destruct (IsNetworkOrBroadcastIp (host ip) _); cbn [orb].
    { split; [done |]. intros [Hu _]. by apply Ni in Hu. }
    destruct (IsNetworkOrBroadcastIp (host gw) _).
    { split; [done |]. intros [_ [E|[Hu _]]]; [by symmetry in E | by apply Ng in Hu]. }
    destruct (prefix_mask h .& host ip =? prefix_mask h .& host gw); cbn [negb].
    + split; [|done]. intros _. split; [by apply Ni |]. right. split; [by apply Ng | by apply Ns].
    + split; [done |]. intros [_ [E|[_ E]]]; [by symmetry in E | by apply Ns in E].
Qed.

Lemma network_check_none ip mask gw :
  is_u32 ip → is_u32 mask → is_u32 gw → host mask = 0 → host ip ≠ 0 →
  class_abc (host ip) → class_abc (host gw) → network_check ip mask gw = true.
Proof.
  intros Hi Hm Hg Em H0 Ci Cg. unfold network_check.
  rewrite (IsNetworkOrBroadcast_host big ip mask), (IsNetworkOrBroadcast_host big gw mask), Em
    by done.
  rewrite NetworkOrBroadcast_none by (done || apply host_range).
  change (INADDR_ANY =? 0) with true. rewrite andb_false_r.
  unfold INADDR_ANY. destruct (Z.eqb_spec 0 (host gw)); [done |].
  by rewrite NetworkOrBroadcast_none by (done || apply host_range).
Qed.

(** C29.  The check of a network configuration accepts exactly the configurations that are
    allowed, on hosts of either byte order: the bit tests on addresses in network order
    amount to the conditions on prefixes, networks and host numbers. *)
Theorem IsValidNetworkConfig_spec c :
  config_wf c →
  IsValidNetworkConfig big c = true ↔
  allowed_config (host (if_ip_address c)) (host (if_network_mask c)) (host (gateway c))
    (host (name_server c)) (host (name_server_2 c)).
Proof.
  intros (Hi & Hm & Hg & _). rewrite config_checks.
  rewrite !andb_true_iff, orb_true_iff, !negb_true_iff, Z.eqb_neq, Z.eqb_eq.
  rewrite IsValidNetmask_prefix, !IsInClassAbc_spec by done.
  rewrite <-!not_true_iff_false, !IsOnLoopbackNetwork_spec. unfold INADDR_ANY. split.
  - intros ((((H0 & Hmask) & ((Ci & Cg) & Cn) & C2) & Li & Lg) & Hn).
    split; [split; [congruence | by split] | by split | by split |].
    destruct Hmask as [E|(h & Hh & E)]; [by left |]. right. exists h.
    by apply (network_check_prefix _ _ _ h) in Hn.
  - intros [(H0 & Ci & Li) (Cg & Lg) (Cn & C2) Hn].
    assert (Hmask : 0 = host (if_network_mask c) ∨
      ∃ h, 1 <= h <= 31 ∧ host (if_network_mask c) = prefix_mask h).
    { destruct Hn as [E|(h & Hh & E & _)]; [by left | by right; exists h]. }
    split_and!; try done.
    destruct Hn as [E|(h & Hh & E & Hu)]; [by apply network_check_none |].
    by apply (network_check_prefix _ _ _ h).
Qed.
End ValidConfig.

(** 192.168.1.2/24 with the gateway 192.168.1.1 on a little-endian host, and the same with
    a gateway in another network. *)
Lemma IsValidNetworkConfig_spec_witness :
  let config gw := mkIfConfig (byte_swap 0xC0A80102) (byte_swap 0xFFFFFF00) (byte_swap gw) 0 0
                     (mkString 0 None) in
  IsValidNetworkConfig false (config 0xC0A80101) = true ∧
  allowed_config 0xC0A80102 0xFFFFFF00 0xC0A80101 0 0 ∧
  ¬ allowed_config 0xC0A80102 0xFFFFFF00 0xC0A80201 0 0.
Proof.
  intros config. assert (E1 : IsValidNetworkConfig false (config 0xC0A80101) = true) by (by vm_compute).
  assert (E2 : IsValidNetworkConfig false (config 0xC0A80201) = false) by (by vm_compute).
  assert (Hw : ∀ gw, is_u32 (byte_swap gw) → config_wf (config gw)).
  { intros gw Hg. split; [apply byte_swap_range |]. split; [apply byte_swap_range |].
    split; [exact Hg |]. split; apply (bool_decide_unpack _); reflexivity. }
  split; [exact E1 |]. split.
  - exact (proj1 (IsValidNetworkConfig_spec false (config 0xC0A80101)
      (Hw _ (byte_swap_range _))) E1).
  - intros Ha. pose proof (proj2 (IsValidNetworkConfig_spec false (config 0xC0A80201)
      (Hw _ (byte_swap_range _))) Ha) as E. rewrite E2 in E. discriminate E.
Defined.

(** ** Host and domain names *)

Definition name_char (b : Z) : bool := isalnum_c b || (45 =? b).

(** A label: letters, digits and hyphens, no hyphen at either end, not empty. *)
Definition valid_label (l : list Z) : bool :=
  match l with
  | [] => false
  | b :: _ => isalnum_c b && forallb name_char l && isalnum_c (List.last l 0)
  end.

(** The parts of a name between its dots. *)
Fixpoint labels (name : list Z) : list (list Z) :=
  match name with
  | [] => [[]]
  | b :: name =>
      if b =? 46 then [] :: labels name
      else match labels name with
           | l :: ls => (b :: l) :: ls
           | [] => [[b]]
           end
  end.

Lemma name_char_last prev l :
  name_char prev = true → forallb name_char l = true →
  negb (45 =? List.last (prev :: l) 0) = isalnum_c (List.last (prev :: l) 0).
Proof.
  revert prev. induction l as [|b l IH]; intros prev Hp Hl.
  - change (List.last [prev] 0) with prev. unfold name_char in Hp. destruct (Z.eqb_spec 45 prev) as [E|_]; [by rewrite <-E |].
    by rewrite orb_false_r in Hp.
  - cbn [forallb] in Hl. apply andb_prop in Hl as [Hb Hl].
    change (List.last (prev :: b :: l) 0) with (List.last (b :: l) 0). by apply IH.
Qed.

Lemma name_label_loop_spec prev l rest :
  0 ∉ l →
  name_label_loop prev (l ++ 0 :: rest)
  = Some (forallb name_char l && negb (45 =? List.last (prev :: l) 0)).
Proof.
  intros H0. revert prev H0. induction l as [|b l IH]; intros prev H0; [done |].
  apply not_elem_of_cons in H0 as [Hb H0]. cbn [app name_label_loop forallb].
  rewrite (proj2 (Z.eqb_neq 0 b)) by done. cbn [negb andb]. fold (name_char b).
  destruct (name_char b); [|done]. cbn [andb]. by rewrite IH.
Qed.

Lemma IsValidNameLabel_spec l rest :
  0 ∉ l → IsValidNameLabel (l ++ 0 :: rest) = Some (valid_label l).
Proof.
  intros H0. unfold IsValidNameLabel, valid_label. destruct l as [|b l]; [done |].
  apply not_elem_of_cons in H0 as [Hb H0]. cbn [app]. cbn [lookup list_lookup mbind option_bind].
  destruct (isalnum_c b) eqn:E; [|done]. cbn [negb drop skipn andb]. rewrite drop_0, name_label_loop_spec by done.
  assert (Hc : name_char b = true) by (unfold name_char; by rewrite E).
  cbn [forallb]. rewrite Hc. cbn [andb]. destruct (forallb name_char l) eqn:El; [|done].
  cbn [andb]. f_equal. by apply name_char_last.
Qed.

(** A label that is not terminated is read to its end and beyond, unless it is wrong. *)
Lemma IsValidNameLabel_unterminated l :
  0 ∉ l → IsValidNameLabel l
  = match l with
    | [] => None
    | b :: _ => if isalnum_c b && forallb name_char l then None else Some false
    end.
Proof.
  intros H0. unfold IsValidNameLabel. destruct l as [|b l]; [done |].
  cbn [lookup list_lookup mbind option_bind]. destruct (isalnum_c b) eqn:E; [|done].
  cbn [negb drop skipn andb forallb]. rewrite drop_0. assert (Hc : name_char b = true) by (unfold name_char; by rewrite E).
  rewrite Hc. cbn [andb]. apply not_elem_of_cons in H0 as [_ H0]. clear E Hc. revert b.
  induction l as [|x l IH]; intros b; [done |]. apply not_elem_of_cons in H0 as [Hx H0].
  cbn [name_label_loop forallb]. rewrite (proj2 (Z.eqb_neq 0 x)) by done. cbn [negb andb].
  fold (name_char x). destruct (name_char x); [|done]. by apply IH.
Qed.

Lemma strchr_none l rest : 0 ∉ l → 46 ∉ l → strchr (l ++ 0 :: rest) 46 = Some None.
Proof.
  induction l as [|b l IH]; [done |]. intros H0 Hd.
  apply not_elem_of_cons in H0 as [Hb H0]. apply not_elem_of_cons in Hd as [Hb' Hd].
  cbn [app strchr]. rewrite (proj2 (Z.eqb_neq b 46)), (proj2 (Z.eqb_neq b 0)) by done.
  by rewrite IH.
Qed.

Lemma strchr_dot l rest : 0 ∉ l → 46 ∉ l → strchr (l ++ 46 :: rest) 46 = Some (Some (length l)).
Proof.
  induction l as [|b l IH]; [done |]. intros H0 Hd.
  apply not_elem_of_cons in H0 as [Hb H0]. apply not_elem_of_cons in Hd as [Hb' Hd].
  cbn [app strchr]. rewrite (proj2 (Z.eqb_neq b 46)), (proj2 (Z.eqb_neq b 0)) by done.
  by rewrite IH.
Qed.

Lemma labels_whole l : 46 ∉ l → labels l = [l].
Proof.
  induction l as [|b l IH]; [done |]. intros [Hb Hd]%not_elem_of_cons.
  cbn [labels]. by rewrite (proj2 (Z.eqb_neq b 46)), IH.
Qed.

Lemma labels_dot l rest : 46 ∉ l → labels (l ++ 46 :: rest) = l :: labels rest.
Proof.
  induction l as [|b l IH]; [done |]. intros [Hb Hd]%not_elem_of_cons.
  cbn [app labels]. by rewrite (proj2 (Z.eqb_neq b 46)), IH.
Qed.

Lemma first_dot (name : list Z) : 46 ∉ name ∨ ∃ l r, name = l ++ 46 :: r ∧ 46 ∉ l.
Proof.
  induction name as [|b name IH]; [left; by apply not_elem_of_nil |].
  destruct (Z.eq_dec b 46) as [->|Hb].
  { right. exists [], name. split; [done | by apply not_elem_of_nil]. }
  destruct IH as [IH|(l & r & -> & IH)].
  - left. apply not_elem_of_cons. by split.
  - right. exists (b :: l), r. split; [done |]. apply not_elem_of_cons. by split.
Qed.

Lemma IsValidDomain_loop_spec fuel name rest :
  0 ∉ name → (length name < fuel)%nat →
  IsValidDomain_loop fuel (name ++ 0 :: rest) = Some (forallb valid_label (labels name)).
Proof.
  revert name. induction fuel as [|fuel IH]; intros name H0 Hf; [lia |]. cbn [IsValidDomain_loop].
  destruct (first_dot name) as [Hd|(l & r & -> & Hd)].
  - assert (Hh : ∃ b, (name ++ 0 :: rest) !! 0%nat = Some b ∧ b ≠ 46).
    { destruct name as [|b name]; [by exists 0 |]. exists b. split; [done |].
      apply not_elem_of_cons in Hd as [Hb _]. congruence. }
    destruct Hh as (b & -> & Hb). cbn [mbind option_bind].
    rewrite (proj2 (Z.eqb_neq 46 b)), strchr_none by congruence. cbn [mbind option_bind].
    rewrite IsValidNameLabel_spec, labels_whole by done. cbn [forallb]. by rewrite andb_true_r.
  - rewrite <-(assoc_L (++)). change ((46 :: r) ++ 0 :: rest) with (46 :: r ++ 0 :: rest).
    rewrite labels_dot by done. cbn [forallb].
    apply not_elem_of_app in H0 as [Hl [_ Hr]%not_elem_of_cons].
    destruct l as [|b l]; [done |].
    change (((b :: l) ++ 46 :: r ++ 0 :: rest) !! 0%nat) with (Some b). cbn [mbind option_bind].
    assert (Hb : b ≠ 46) by (apply not_elem_of_cons in Hd as [? _]; congruence).
    rewrite (proj2 (Z.eqb_neq 46 b)) by congruence.
    rewrite strchr_dot by done. cbn [mbind option_bind].
    rewrite insert_app_r_alt, Nat.sub_diag by done. cbn [insert list_insert].
    rewrite IsValidNameLabel_spec by done. cbn [mbind option_bind].
    rewrite lookup_app_r by lia.
    replace (S (length (b :: l)) - length (b :: l))%nat with 1%nat by lia.
    rewrite drop_app_ge by lia.
    replace (S (length (b :: l)) - length (b :: l))%nat with 1%nat by lia.
    cbn [drop skipn]. rewrite drop_0. destruct r as [|x r].
    + cbn [app lookup list_lookup mbind option_bind Z.eqb negb labels forallb]. by rewrite andb_false_r.
    + assert (Hx : x ≠ 0) by (apply not_elem_of_cons in Hr as [? _]; congruence).
      cbn [app]. cbn [lookup list_lookup mbind option_bind].
      rewrite (proj2 (Z.eqb_neq 0 x)) by congruence. cbn [negb].
      change (x :: r ++ 0 :: rest) with ((x :: r) ++ 0 :: rest).
      rewrite IH by (done || (rewrite length_app in Hf; cbn [length] in Hf |- *; lia)).
      reflexivity.
Qed.

(** C30.  The check of a domain name, which cuts the name at its first dot and calls itself
    on the rest, ends on every terminated string and accepts exactly the names all of
    whose labels between dots are valid. *)
Theorem IsValidDomain_spec name rest :
  0 ∉ name → IsValidDomain (name ++ 0 :: rest) = Some (forallb valid_label (labels name)).
Proof. intros H0. apply IsValidDomain_loop_spec; [done |]. rewrite length_app. lia. Qed.

(** "a-1.b" and "a-.b" *)
Lemma IsValidDomain_spec_witness :
  IsValidDomain ([97; 45; 49; 46; 98] ++ [0]) = Some true ∧
  IsValidDomain ([97; 45; 46; 98] ++ [0]) = Some false.
Proof.
  split; rewrite IsValidDomain_spec by (by apply (bool_decide_unpack _)); by vm_compute.
Defined.

(** *** The host name attribute *)

(** No valid host name is accepted within defined behaviour: the received bytes are
    stored without a terminating NUL and then checked up to one, so that a name that is
    right in every character is read past the end of its buffer, and an empty one through
    a NULL pointer; a wrong one is refused and changes nothing. *)
Theorem host_name_unterminated g req resp name rest :
  request_data req = le_bytes 2 (Z.of_nat (length name)) ++ name ++ rest →
  0 ∉ name → Z.of_nat (length name) <= 64 →
  DecodeCipTcpIpInterfaceHostName g req resp
  = (match name with
     | [] => None
     | b :: _ =>
         if isalnum_c b && forallb name_char name then None
         else Some (-1, g, set_request_data (name ++ rest) req,
                    set_general_status kCipErrorInvalidAttributeValue resp)
     end) ∧
  (valid_label name = true → DecodeCipTcpIpInterfaceHostName g req resp = None).
Proof.
  intros Hd H0 Hl.
  assert (E : DecodeCipTcpIpInterfaceHostName g req resp
    = match name with
      | [] => None
      | b :: _ =>
          if isalnum_c b && forallb name_char name then None
          else Some (-1, g, set_request_data (name ++ rest) req,
                     set_general_status kCipErrorInvalidAttributeValue resp)
      end).
  { unfold DecodeCipTcpIpInterfaceHostName. rewrite Hd, GetUint_le, u16_id by (unfold is_u16; lia).
    cbn [mbind option_bind]. rewrite (proj2 (Z.ltb_ge 64 _)) by lia.
    destruct name as [|b l]; [done |]. unfold SetCipStringByData.
    rewrite (proj2 (Z.eqb_neq 0 _)) by (cbn [length]; lia). cbn [negb ClearCipString st_string mbind option_bind].
    rewrite Nat2Z.id, load_n_app by done. cbn [mbind option_bind st_string].
    rewrite IsValidNameLabel_unterminated by done.
    by destruct (isalnum_c b && forallb name_char (b :: l)). }
  split; [done |]. intros Hv. rewrite E. destruct name as [|b l]; [done |].
  unfold valid_label in Hv. apply andb_prop in Hv as [Hv _]. by rewrite Hv.
Qed.

(** "dev-1" and "dev_1" *)
Definition host_name_request (name : list Z) : CipMessageRouterRequest :=
  single_request 6 (le_bytes 2 (Z.of_nat (length name)) ++ name ++ []).

Lemma host_name_unterminated_witness :
  DecodeCipTcpIpInterfaceHostName (g_tcpip true) (host_name_request [100; 101; 118; 45; 49])
    empty_response = None ∧
  ∃ req, DecodeCipTcpIpInterfaceHostName (g_tcpip true) (host_name_request [100; 101; 118; 95; 49])
    empty_response
  = Some (-1, g_tcpip true, req, set_general_status kCipErrorInvalidAttributeValue empty_response).
Proof.
  split.
  - apply (host_name_unterminated (g_tcpip true) (host_name_request [100; 101; 118; 45; 49])
      empty_response [100; 101; 118; 45; 49] []); [reflexivity | | simpl; lia | reflexivity].
    by apply (bool_decide_unpack _).
  - assert (H0 : 0 ∉ [100; 101; 118; 95; 49]) by (by apply (bool_decide_unpack _)).
    destruct (host_name_unterminated (g_tcpip true) (host_name_request [100; 101; 118; 95; 49])
      empty_response [100; 101; 118; 95; 49] [] eq_refl H0 ltac:(simpl; lia)) as [E _].
    eexists. exact E.
Defined.

(** ** The multicast address *)

Definition multicast_start (big : bool) (g : CipTcpIpObject) : Z :=
  ntohl big (starting_multicast_address (mcast_config (CipTcpIpCalculateMulticastIp big g))).

Definition host_ip (big : bool) (g : CipTcpIpObject) : Z :=
  ntohl big (if_ip_address (interface_configuration g)).

(** A device in a network of [h] host bits. *)
Definition in_network (big : bool) (h : Z) (g : CipTcpIpObject) : Prop :=
  ntohl big (if_network_mask (interface_configuration g)) = prefix_mask h ∧ usable h (host_ip big g).

Lemma multicast_start_eq big h g :
  1 <= h <= 31 → in_network big h g →
  multicast_start big g = 0xEFC00100 + 32 * ((host_ip big g mod 2 ^ h - 1) mod 1024).
Proof.
  intros Hh [Em Hu]. unfold multicast_start, CipTcpIpCalculateMulticastIp.
  cbn [set_mcast_config mcast_config starting_multicast_address].
  fold (host_ip big g). rewrite Em, prefix_mask_complement, Z.land_ones by lia.
  unfold usable in Hu. assert (2 ^ h <= 2 ^ 31) by (apply Z.pow_le_mono_r; lia).
  set (x := host_ip big g mod 2 ^ h) in *. rewrite (u32_id (x - 1)) by (unfold is_u32; lia).
  change 0x3ff with (Z.ones 10). rewrite Z.land_ones, Z.shiftl_mul_pow2 by lia.
  change (2 ^ 10) with 1024. change (2 ^ 5) with 32.
  pose proof (Z.mod_pos_bound (x - 1) 1024). rewrite (u32_id ((x - 1) mod 1024 * 32)) by (unfold is_u32; lia).
  rewrite u32_id by (unfold is_u32; lia). unfold htonl. rewrite host_host by (unfold is_u32; lia). lia.
Qed.

(** The multicast addresses of a device: each device gets a block of 32 addresses
    between 239.192.1.0 and 239.192.128.255, and two devices of one network of at most ten
    host bits (on whatever hosts) get disjoint blocks. *)
Theorem multicast_blocks big1 big2 h g1 g2 :
  1 <= h <= 31 → in_network big1 h g1 → in_network big2 h g2 →
  (0xEFC00100 <= multicast_start big1 g1 ∧ multicast_start big1 g1 + 31 <= 0xEFC080FF) ∧
  (h <= 10 → host_ip big1 g1 mod 2 ^ h ≠ host_ip big2 g2 mod 2 ^ h →
   multicast_start big1 g1 + 32 <= multicast_start big2 g2 ∨
   multicast_start big2 g2 + 32 <= multicast_start big1 g1).
Proof.
  intros Hh H1 H2. rewrite (multicast_start_eq big1 h), (multicast_start_eq big2 h) by done.
  destruct H1 as [_ U1], H2 as [_ U2]. unfold usable in *.
  set (x := host_ip big1 g1 mod 2 ^ h) in *. set (y := host_ip big2 g2 mod 2 ^ h) in *.
  pose proof (Z.mod_pos_bound (x - 1) 1024). split; [lia |]. intros H10 Hne.
  assert (2 ^ h <= 2 ^ 10) by (apply Z.pow_le_mono_r; lia). change (2 ^ 10) with 1024 in *.
  rewrite !Z.mod_small by lia. lia.
Qed.

Definition device_at (ip mask : Z) : CipTcpIpObject :=
  set_interface_configuration
    (mkIfConfig (byte_swap ip) (byte_swap mask) 0 0 0 (mkString 0 None)) (g_tcpip false).

(** 192.168.1.2 and 192.168.1.3 *)
Lemma multicast_blocks_witness :
  let d ip := device_at ip 0xFFFFFF00 in
  multicast_start false (d 0xC0A80102) = 0xEFC00120 ∧
  (multicast_start false (d 0xC0A80102) + 32 <= multicast_start false (d 0xC0A80103) ∨
   multicast_start false (d 0xC0A80103) + 32 <= multicast_start false (d 0xC0A80102)).
Proof.
  intros d. split; [by vm_compute |].
  apply (multicast_blocks false false 8 (d 0xC0A80102) (d 0xC0A80103)).
  - lia.
  - split; [by vm_compute | split; by vm_compute].
  - split; [by vm_compute | split; by vm_compute].
  - lia.
  - by vm_compute.
Defined.

(** ** The object on the wire *)

Definition tcpip_holds (g : CipTcpIpObject) (s : CipStack) : Prop :=
  Forall (λ x, objects s !! x.1 = Some x.2) (tcpip_objects g).

Lemma tcpip_holds_store g s : tcpip_holds g (store_tcpip g s).
Proof.
  unfold tcpip_holds, tcpip_objects. rewrite !list.Forall_cons.
  repeat split; try (by constructor); by apply lookup_union_Some_l.
Qed.

Lemma tcpip_blank n name :
  ∃ c0 x c m,
    AddCipInstances (TheClass n) (new_class n kCipTcpIpInterfaceClassCode 0 13 13 3 name 4) 1
      = Some (c0, x) ∧
    standard_class 2 (AllocateAttributeMasks c0,
      AllocateAttributeMasks (new_meta_class n 0 7 2 name)) = Some (c, m) ∧
    blank_class n kCipTcpIpInterfaceClassCode 13 13 3 [1] c.
Proof.
  do 4 eexists. split; [reflexivity |].
  split; [lazy -[EncodeCipUint String.append]; reflexivity |].
  split; cbn; try done.
  intros k Hk. assert (k / 8 < 2) by (apply Z.div_lt_upper_bound; lia).
  repeat split; (apply (mask_bit_zeros 2); lia).
Qed.

(** The creation of the object on any stack without one. *)
Lemma tcpip_created big g s :
  GetCipClass s kCipTcpIpInterfaceClassCode = None →
  ∃ s' i c m, CipTcpIpInterfaceInit big g s = Some (kEipStatusOk, s') ∧
    classes s' = classes s ++ [(c, m)] ∧
    GetCipClass s' kCipTcpIpInterfaceClassCode = Some (length (classes s)) ∧
    table_object (length (classes s)) 0 (tcpip_rows big) s' i c ∧ tcpip_holds g s' ∧
    (∀ a, (a <= kTcpIpAddress ∨ kTcpIpAddress + 13 < a)%nat → objects s' !! a = objects s !! a) ∧
    services c = common_service <$> tcpip_services.
Proof.
  intros Hn. set (n := length (classes s)).
  destruct (tcpip_blank n "TCP/IP interface") as (c0 & x & c & m & E0 & E & Hb).
  destruct (build_bind_first (tcpip_rows big) tcpip_services 0 13 kCipTcpIpInterfaceClassCode c m s)
    as (i & c' & Eb & Hs & Hcode).
  { exact Hb. } { repeat constructor; cbn; lia. }
  { apply (bool_decide_unpack _). by vm_compute. } { apply (bool_decide_unpack _). by vm_compute. }
  exists (store_tcpip g (RegisterCipClass c' m s)), i, c', m. split.
  { unfold CipTcpIpInterfaceInit.
    rewrite (CreateCipClass_instances kCipTcpIpInterfaceClassCode 0 7 2 13 13 3 1 "TCP/IP interface"
      4 s c0 x c m) by done.
    cbn [mbind option_bind] in Eb |- *. fold n in Eb |- *.
    destruct (bind_attributes 1 (tcpip_rows big) n _) as [s1|]; [|discriminate Eb].
    cbn [mbind option_bind] in Eb |- *. by rewrite Eb. }
  split; [done |]. split; [by apply (get_registered_code c' m s) |]. split.
  { eapply single_table; [apply (get_registered c' m s) | exact Hs |].
    apply (bool_decide_unpack _). by vm_compute. }
  split; [apply tcpip_holds_store |]. split; [|by eapply single_services]. intros a Ha.
  apply stored_elsewhere. unfold tcpip_objects, kTcpIpAddress in *. not_a_member.
Qed.

(** A string object with the given characters, and its bytes: a length, the characters,
    and a byte of padding when their number is odd. *)
Definition holds_string (s : CipString) (str : list Z) : Prop :=
  st_length s = Z.of_nat (length str) ∧ bytes str ∧
  (str = [] ∨ ∃ rest, st_string s = Some (str ++ rest)).

Definition string_bytes (str : list Z) : list Z :=
  le_bytes 2 (Z.of_nat (length str)) ++ str ++ (if Z.odd (Z.of_nat (length str)) then [0] else []).

(** The padding follows the length of the whole message: it is that of the string when
    the output before it is even. *)
Lemma string_appends s str out :
  holds_string s str → Z.even (Z.of_nat (length out)) = true →
  Z.of_nat (length (out ++ string_bytes str)) <= 512 →
  appends EncodeCipString (DString s) out (string_bytes str).
Proof.
  intros (Hl & Hb & Hs) He Hlen m Hm. unfold string_bytes in *.
  rewrite !length_app, length_le_bytes in Hlen. unfold EncodeCipString. rewrite Hl.
  destruct (writes_holds (AddIntToMessage (Z.of_nat (length str))) _ out m
    (writes_Int _) (le_bytes_bytes _ _) Hm) as (m1 & -> & Hm1).
  { rewrite length_app, length_le_bytes. lia. }
  cbn [mbind option_bind]. destruct Hs as [->|[rest Hs]].
  { exists m1. split; [done |]. by rewrite app_nil_r. }
  destruct (Z.eqb_spec 0 (Z.of_nat (length str))) as [E0|E0]; cbn [negb].
  { destruct str; [|simpl in E0; lia]. exists m1. split; [done |]. by rewrite app_nil_r. }
  rewrite Hs, append_buffer_app by done.
  destruct (holds_put (out ++ le_bytes 2 (Z.of_nat (length str))) str m1 Hm1 Hb) as (m2 & -> & Hm2).
  { rewrite !length_app, length_le_bytes. lia. }
  cbn [mbind option_bind]. change 0x01 with 1. rewrite has_flag_1, (holds_used _ _ Hm2).
  assert (Ho : Z.odd (Z.of_nat (length ((out ++ le_bytes 2 (Z.of_nat (length str))) ++ str)))
    = Z.odd (Z.of_nat (length str))).
  { rewrite !length_app, length_le_bytes, !Nat2Z.inj_add, !Z.odd_add, <-(Z.negb_even (Z.of_nat (length out))), He.
    by destruct (Z.odd _). }
  rewrite Ho. revert Hlen. destruct (Z.odd (Z.of_nat (length str))); intros Hlen.
  - destruct (writes_holds (AddSintToMessage 0) _ _ m2 (writes_Sint 0) (le_bytes_bytes _ _) Hm2)
      as (m3 & E3 & Hm3).
    { rewrite !length_app, !length_le_bytes. cbn [length] in Hlen. lia. }
    exists m3. split; [done |]. by rewrite <-!(assoc_L (++)) in Hm3.
  - exists m2. split; [done |]. by rewrite app_nil_r, (assoc_L (++)).
Qed.

Definition even_length (l : list Z) : bool := Z.even (Z.of_nat (length l)).

Lemma even_length_app a b : even_length (a ++ b) = Bool.eqb (even_length a) (even_length b).
Proof. unfold even_length. by rewrite length_app, Nat2Z.inj_add, Z.even_add. Qed.

Lemma even_length_le n v : even_length (le_bytes n v) = Z.even (Z.of_nat n).
Proof. unfold even_length. by rewrite length_le_bytes. Qed.

Lemma even_length_string str : even_length (string_bytes str) = true.
Proof.
  unfold string_bytes. rewrite !even_length_app, even_length_le. unfold even_length.
  rewrite <-Z.negb_even. by destruct (Z.even (Z.of_nat (length str))).
Qed.

Lemma string_bytes_bytes str : bytes str → bytes (string_bytes str).
Proof.
  intros Hb. unfold string_bytes. rewrite !bytes_app. split; [apply le_bytes_bytes |].
  split; [done |]. destruct (Z.odd _); repeat constructor; unfold is_u8; lia.
Qed.

Lemma length_string_bytes str : (length (string_bytes str) <= length str + 3)%nat.
Proof.
  unfold string_bytes. rewrite !length_app, length_le_bytes. destruct (Z.odd _); cbn [length]; lia.
Qed.

Definition config_bytes (big : bool) (c : CipTcpIpInterfaceConfiguration) (domain : list Z)
  : list Z :=
  le_bytes 4 (ntohl big (if_ip_address c)) ++ le_bytes 4 (ntohl big (if_network_mask c)) ++
  le_bytes 4 (ntohl big (gateway c)) ++ le_bytes 4 (ntohl big (name_server c)) ++
  le_bytes 4 (ntohl big (name_server_2 c)) ++ string_bytes domain.

Lemma config_appends big c domain out :
  holds_string (domain_name c) domain → even_length out = true →
  Z.of_nat (length out) + 20 + Z.of_nat (length (string_bytes domain)) <= 512 →
  appends (EncodeCipTcpIpInterfaceConfiguration big) (config_data c) out (config_bytes big c domain).
Proof.
  intros Hs He Hl m Hm. unfold config_bytes, config_data, EncodeCipTcpIpInterfaceConfiguration.
  assert (Hle : ∀ v, bytes (le_bytes 4 v)) by (intros; apply le_bytes_bytes).
  do 5 (apply append_step; [apply writes_Dint | done
    | rewrite ?length_app, ?length_le_bytes; lia | done | clear m Hm; intros m Hm]).
  apply string_appends; [done | | | done].
  - change (even_length ((((((out ++ le_bytes 4 (ntohl big (if_ip_address c))) ++
      le_bytes 4 (ntohl big (if_network_mask c))) ++ le_bytes 4 (ntohl big (gateway c))) ++
      le_bytes 4 (ntohl big (name_server c))) ++ le_bytes 4 (ntohl big (name_server_2 c)))) = true).
    by rewrite !even_length_app, !even_length_le, He.
  - rewrite !length_app, !length_le_bytes. lia.
Qed.

(** The wiring of the standard configuration: one Ethernet link object. *)
Definition link_path : CipEpath := mkEpath 2 0xF6 1 0.

Definition link_path_bytes : list Z := [2; 0; 0x20; 0xF6; 0x24; 1].

Lemma link_path_appends out :
  Z.of_nat (length out) + 6 <= 512 → appends EncodeCipEPath (DEPath link_path) out link_path_bytes.
Proof.
  intros Hl m Hm. unfold EncodeCipEPath.
  apply (append_step (AddIntToMessage 2) (EncodeEPath link_path) out [2; 0] [0x20; 0xF6; 0x24; 1]).
  - apply writes_Int.
  - apply (bool_decide_unpack _). by vm_compute.
  - rewrite length_app. simpl. lia.
  - done.
  - intros m1 Hm1. apply (EncodeEPath_segments link_path [SegClass 0xF6; SegInstance 1]); try done.
    + rewrite length_app. cbn [length]. change (segs_words [SegClass 0xF6; SegInstance 1]) with 2. lia.
Qed.

Definition mcast_bytes (big : bool) (m : MulticastAddressConfiguration) : list Z :=
  le_bytes 1 (alloc_control m) ++ le_bytes 1 (reserved_shall_be_zero m) ++
  le_bytes 2 (number_of_allocated_multicast_addresses m) ++ le_bytes 4 (ntohl big (starting_multicast_address m)).

Lemma writes_mcast big m :
  writes (EncodeCipTcpIpMulticastConfiguration big (mcast_data m)) (mcast_bytes big m).
Proof.
  unfold mcast_bytes, mcast_data, EncodeCipTcpIpMulticastConfiguration.
  apply (writes_bind (EncodeCipUsint (DInt 1 (alloc_control m)))); [apply writes_Sint |].
  apply (writes_bind (EncodeCipUsint (DInt 1 (reserved_shall_be_zero m)))); [apply writes_Sint |].
  apply (writes_bind (EncodeCipUint (DInt 2 _))); [apply writes_Int | apply writes_Dint].
Qed.

(** The reply to Get Attributes All, attribute by attribute. *)
Definition tcpip_bytes (big : bool) (g : CipTcpIpObject) (domain host : list Z)
  : list (list Z) :=
  [le_bytes 4 (tcpip_status g); le_bytes 4 (config_capability g); le_bytes 4 (config_control g);
   link_path_bytes;
   config_bytes big (interface_configuration g) domain;
   string_bytes host;
   replicate 6 0;
   le_bytes 1 (mcast_ttl_value g);
   mcast_bytes big (mcast_config g);
   le_bytes 1 (select_acd g);
   replicate 35 0;
   le_bytes 1 0;
   le_bytes 2 (encapsulation_inactivity_timeout g)].

Lemma tcpip_rows_append big g s domain host :
  tcpip_holds g s → physical_link_object g = link_path →
  holds_string (domain_name (interface_configuration g)) domain → holds_string (hostname g) host →
  Z.of_nat (length domain) <= 48 → Z.of_nat (length host) <= 64 →
  rows_append s [] (tcpip_rows big) (tcpip_bytes big g domain host).
Proof.
  unfold tcpip_holds, tcpip_objects. rewrite !list.Forall_cons.
  intros (H1 & H2 & H3 & H4 & H5 & H6 & H7 & H8 & H9 & H10 & H13 & _) Hp Hd Hh Ld Lh.
  cbn [fst snd] in *. rewrite Hp in H4.
  pose proof (length_string_bytes domain) as Sd. pose proof (length_string_bytes host) as Sh.
  pose proof (even_length_string domain) as Ed.
  assert (Hsd : bytes (string_bytes domain)) by (apply string_bytes_bytes; apply Hd).
  assert (Lc : Z.of_nat (length (config_bytes big (interface_configuration g) domain))
    = 20 + Z.of_nat (length (string_bytes domain))).
  { unfold config_bytes. rewrite !length_app, !length_le_bytes. lia. }
  assert (Ec : even_length (config_bytes big (interface_configuration g) domain) = true).
  { unfold config_bytes. by rewrite !even_length_app, !even_length_le, Ed. }
  assert (Lm : length (mcast_bytes big (mcast_config g)) = 8%nat).
  { unfold mcast_bytes. by rewrite !length_app, !length_le_bytes. }
  unfold tcpip_bytes, tcpip_rows, link_path_bytes. cbn [rows_append].
  wire_step H1 writes_Dint. wire_step H2 writes_Dint. wire_step H3 writes_Dint.
  split; [eexists; split; [exact H4 | apply link_path_appends; lengths] |].
  split; [eexists; split; [exact H5 | apply config_appends; [done | |]] |].
  { by rewrite !even_length_app, !even_length_le. } { lengths. }
  split; [eexists; split; [exact H6 | apply string_appends; [done | |]] |].
  { match goal with |- Z.even (Z.of_nat (length ?l)) = true => change (even_length l = true) end.
    by rewrite !even_length_app, !even_length_le, Ec. }
  { lengths. }
  split; [eexists; split; [exact H7 | apply value_appends; [by apply (writes_zeros 6) | apply bytes_zeros | lengths]] |].
  wire_step H8 writes_Sint.
  split; [eexists; split; [exact H9 | apply value_appends; [apply writes_mcast | | lengths]] |].
  { unfold mcast_bytes. rewrite !bytes_app. split_and!; apply le_bytes_bytes. }
  wire_step H10 writes_Sint.
  split; [eexists; split; [exact H7 | apply value_appends; [by apply (writes_zeros 35) | apply bytes_zeros | lengths]] |].
  wire_step H7 writes_Sint. by wire_step H13 writes_Int.
Qed.

(** C36.  After start-up, Get Attributes All of the TCP/IP interface object is answered with
    success and exactly its thirteen attributes in order: status, capability, control,
    the path to the Ethernet link, the configuration with addresses in host order and the
    domain name, the host name, each string padded to even length, the multicast and
    timeout settings; on either kind of host, whatever the values are. *)
Theorem tcpip_get_attributes_all big g s domain host req resp :
  GetCipClass s kCipTcpIpInterfaceClassCode = None → physical_link_object g = link_path →
  holds_string (domain_name (interface_configuration g)) domain → holds_string (hostname g) host →
  Z.of_nat (length domain) <= 48 → Z.of_nat (length host) <= 64 →
  ∃ s' req' m, CipTcpIpInterfaceInit big g s = Some (kEipStatusOk, s') ∧
    GetCipClass s' kCipTcpIpInterfaceClassCode = Some (length (classes s)) ∧
    GetAttributeAll (length (classes s)) (ListInstance 0) req resp s'
    = Some (kEipStatusOkSend, req', reply req resp kCipErrorSuccess m, s') ∧
    wire m = concat (tcpip_bytes big g domain host).
Proof.
  intros Hn Hp Hd Hh Ld Lh. destruct (tcpip_created big g s Hn) as (s' & i & c & m & E & _ & Hc & Ht & Hv & _).
  destruct (table_get_all (length (classes s)) 0 (tcpip_rows big) _ s' i c Ht req resp
    (tcpip_bytes big g domain host)) as (req' & m' & Eg & Hm).
  { done. } { by apply tcpip_rows_append. }
  exists s', req', m'. split; [done |]. split; [done |]. split; [done |]. by apply holds_wire.
Qed.

Lemma tcpip_get_attributes_all_witness :
  let g := set_hostname (mkString 3 (Some [100; 101; 118])) (g_tcpip false) in
  ∃ s' req' m, CipTcpIpInterfaceInit false g (mkStack [] ∅) = Some (kEipStatusOk, s') ∧
    GetAttributeAll 0 (ListInstance 0) (single_request 0 []) empty_response s'
    = Some (kEipStatusOkSend, req',
        reply (single_request 0 []) empty_response kCipErrorSuccess m, s') ∧
    wire m = concat (tcpip_bytes false g [] [100; 101; 118]).
Proof.
  intros g.
  destruct (tcpip_get_attributes_all false g (mkStack [] ∅) [] [100; 101; 118] (single_request 0 [])
    empty_response) as (s' & req' & m & E & _ & Eg & Hw).
  - reflexivity.
  - reflexivity.
  - split; [reflexivity |]. split; [constructor | by left].
  - split; [reflexivity |]. split; [apply (bool_decide_unpack _); by vm_compute |]. right. by exists [].
  - simpl. lia.
  - simpl. lia.
  - exists s', req', m. split; [exact E |]. split; [exact Eg | exact Hw].
Defined.

(** ** Setting attributes *)

Definition set_config_control (v : Z) (g : CipTcpIpObject) : CipTcpIpObject :=
  mkTcpIp (tcpip_status g) (config_capability g) v (physical_link_object g)
    (interface_configuration g) (hostname g) (mcast_ttl_value g) (mcast_config g) (select_acd g)
    (encapsulation_inactivity_timeout g).
Definition set_inactivity_timeout (v : Z) (g : CipTcpIpObject) : CipTcpIpObject :=
  mkTcpIp (tcpip_status g) (config_capability g) (config_control g) (physical_link_object g)
    (interface_configuration g) (hostname g) (mcast_ttl_value g) (mcast_config g) (select_acd g) v.

Lemma tcpip_holds_set g s v w :
  tcpip_holds g s →
  tcpip_holds (set_config_control v g)
    (mkStack (classes s) (<[(kTcpIpAddress + 3)%nat := DInt 4 v]> (objects s))) ∧
  tcpip_holds (set_inactivity_timeout w g)
    (mkStack (classes s) (<[(kTcpIpAddress + 13)%nat := DInt 2 w]> (objects s))).
Proof.
  unfold tcpip_holds, tcpip_objects. rewrite !list.Forall_cons.
  intros (?&?&?&?&?&?&?&?&?&?&?&_). cbn [objects fst snd] in *.
  split; repeat split; try (by constructor);
    by (rewrite lookup_insert_eq || rewrite lookup_insert_ne by done).
Qed.

Lemma control_accepted v :
  is_u32 v →
  (0x03 <=? v .& kTcpipCfgCtrlMethodMask) || negb (v .& complement kTcpipCfgCtrlMethodMask =? 0)
  = negb (v <? 3).
Proof.
  intros Hv. unfold kTcpipCfgCtrlMethodMask. change (complement 0x0F) with (prefix_mask 4).
  change 0x0F with (Z.ones 4). rewrite prefix_mask_land, Z.land_ones by (done || lia).
  change (2 ^ 4) with 16. unfold is_u32 in Hv.
  destruct (Z.ltb_spec v 3) as [Hlt|Hge]; cbn [negb].
  - rewrite Z.div_small, Z.mod_small by lia. apply orb_false_iff. split; [apply Z.leb_gt; lia | done].
  - apply orb_true_iff. destruct (Z.lt_ge_cases v 16).
    + left. rewrite Z.mod_small by lia. apply Z.leb_le. lia.
    + right. apply negb_true_iff, Z.eqb_neq. assert (1 <= v / 16) by (apply Z.div_le_lower_bound; lia). lia.
Qed.

Definition control_row : AttributeRow :=
  tcpip_row 3 kCipDword EncodeCipDword (Some DecodeTcpIpInterfaceConfigurationControl) 3
    (kSetAndGetAble .| kNvDataFunc .| IFACE_CFG_SET_MODE false).
Definition timeout_row : AttributeRow :=
  tcpip_row 13 kCipUint EncodeCipUint
    (Some DecodeCipTcpIpInterfaceEncapsulationInactivityTimeout) 13 (kSetAndGetAble .| kNvDataFunc).

Lemma tcpip_rows_in big : control_row ∈ tcpip_rows big ∧ timeout_row ∈ tcpip_rows big.
Proof. rewrite !list_elem_of_In. cbn [tcpip_rows In]. tauto. Qed.

Lemma inactivity_timeout_read big n s i c g :
  table_object n 0 (tcpip_rows big) s i c → tcpip_holds g s →
  GetEncapsulationInactivityTimeout n i c s = Some (encapsulation_inactivity_timeout g).
Proof.
  intros Ht Hg. unfold GetEncapsulationInactivityTimeout. destruct (to_ctx _ _ _ _ _ _ _ Ht) as (_ & _ & Hwf).
  rewrite GetCipAttribute_find by done. 
  change (List.find _ (attributes i)) with (lookup_attribute i (row_number timeout_row)).
  rewrite (table_lookup n 0 (tcpip_rows big) _ s i c Ht timeout_row) by apply tcpip_rows_in.
  cbn [mbind option_bind row_attribute data load_data row_data].
  assert (E : objects s !! (kTcpIpAddress + 13)%nat
    = Some (DInt 2 (encapsulation_inactivity_timeout g))).
  { pose proof Hg as Hg'. unfold tcpip_holds, tcpip_objects in Hg'.
    rewrite !list.Forall_cons in Hg'. tauto. }
  change (row_data timeout_row) with (kTcpIpAddress + 13)%nat. by rewrite E.
Qed.

Section Setting.
Context `{Application}.
Variables (big : bool) (n : nat) (s : CipStack) (i : CipInstance) (c : CipClass) (g : CipTcpIpObject).
Hypothesis Ht : table_object n 0 (tcpip_rows big) s i c.
Hypothesis Hg : tcpip_holds g s.

(** Setting the object's attributes.  The configuration control accepts exactly the
    three methods, manual, BOOTP and DHCP: any other bit, the one that enables DNS
    included, is refused as an invalid value.  The encapsulation inactivity timeout
    accepts up to 3600 seconds, and the encapsulation layer reads back what was set.  A
    refused value changes nothing, and only the attribute's member changes otherwise. *)
Theorem tcpip_set_attributes req resp rest v :
  (request_data req = le_bytes 4 v ++ rest → is_u32 v → path_attribute req = 3 →
   ∃ s', SetAttributeSingle n (ListInstance 0) req resp s
     = Some (kEipStatusOkSend, set_request_data rest req,
         reply req resp (if v <? 3 then kCipErrorSuccess else kCipErrorInvalidAttributeValue)
           InitializeENIPMessage, s') ∧
     if v <? 3 then tcpip_holds (set_config_control v g) s' else s' = s) ∧
  (request_data req = le_bytes 2 v ++ rest → is_u16 v → path_attribute req = 13 →
   ∃ s', SetAttributeSingle n (ListInstance 0) req resp s
     = Some (kEipStatusOkSend, set_request_data rest req,
         reply req resp (if v <=? 3600 then kCipErrorSuccess else kCipErrorInvalidAttributeValue)
           InitializeENIPMessage, s') ∧
     if v <=? 3600
     then tcpip_holds (set_inactivity_timeout v g) s' ∧
          GetEncapsulationInactivityTimeout n i c s' = Some v
     else s' = s).
Proof.
  pose proof (tcpip_rows_in big) as [In3 In13].
  pose proof Hg as Hg'. unfold tcpip_holds, tcpip_objects in Hg'. rewrite !list.Forall_cons in Hg'.
  destruct Hg' as (_ & _ & H3 & _ & _ & _ & _ & _ & _ & _ & H13 & _). cbn [fst snd] in *.
  split; intros Hd Hv Hp.
  - rewrite (table_set_single n 0 (tcpip_rows big) s i c Ht control_row req resp _ _ In3 Hp eq_refl
      eq_refl ltac:(by apply (bool_decide_unpack _)) H3).
    unfold DecodeTcpIpInterfaceConfigurationControl. cbn [int_object mbind option_bind Nat.eqb].
    rewrite Hd, GetDint_le. cbn [mbind option_bind]. rewrite u32_s32, u32_id, control_accepted by done.
    destruct (Z.ltb_spec v 3) as [Hlt|Hge]; cbn [negb mbind option_bind].
    + assert (v .& (kTcpipCfgCtrlMethodMask .| kTcpipCfgCtrlDnsEnable) = v) as ->.
      { change (kTcpipCfgCtrlMethodMask .| kTcpipCfgCtrlDnsEnable) with (Z.ones 5).
        unfold is_u32 in Hv. rewrite Z.land_ones, Z.mod_small by lia. done. }
      eexists. split; [reflexivity |]. by apply (tcpip_holds_set g s v 0).
    + eexists. split; [reflexivity |]. cbn [row_data control_row tcpip_row].
      rewrite insert_id by exact H3. by destruct s.
  - rewrite (table_set_single n 0 (tcpip_rows big) s i c Ht timeout_row req resp _ _ In13 Hp eq_refl
      eq_refl ltac:(by apply (bool_decide_unpack _)) H13).
    unfold DecodeCipTcpIpInterfaceEncapsulationInactivityTimeout.
    cbn [int_object mbind option_bind Nat.eqb]. rewrite Hd, GetUint_le, u16_id by done.
    cbn [mbind option_bind]. rewrite Z.ltb_antisym.
    destruct (Z.leb_spec v 3600); cbn [negb mbind option_bind]; eexists; (split; [reflexivity |]).
    + pose proof (proj2 (tcpip_holds_set g s 0 v Hg)) as Hh. split; [exact Hh |].
      set (s' := mkStack _ _) in Hh |- *.
      assert (Ht' : table_object n 0 (tcpip_rows big) s' i c)
        by (by apply (table_same_classes _ _ _ _ s)).
      exact (inactivity_timeout_read big n s' i c _ Ht' Hh).
    + cbn [row_data timeout_row tcpip_row]. rewrite insert_id by exact H13. by destruct s.
Qed.
End Setting.

Lemma tcpip_set_attributes_witness :
  ∃ s i c m s', CipTcpIpInterfaceInit false (g_tcpip false) (mkStack [] ∅) = Some (kEipStatusOk, s) ∧
    classes s = [(c, m)] ∧
    SetAttributeSingle 0 (ListInstance 0) (single_request 3 (le_bytes 4 0x12 ++ [])) empty_response s
    = Some (kEipStatusOkSend,
        set_request_data [] (single_request 3 (le_bytes 4 0x12 ++ [])),
        reply (single_request 3 (le_bytes 4 0x12 ++ [])) empty_response kCipErrorInvalidAttributeValue
          InitializeENIPMessage, s) ∧
    SetAttributeSingle 0 (ListInstance 0) (single_request 13 (le_bytes 2 300 ++ [])) empty_response s
    = Some (kEipStatusOkSend,
        set_request_data [] (single_request 13 (le_bytes 2 300 ++ [])),
        reply (single_request 13 (le_bytes 2 300 ++ [])) empty_response kCipErrorSuccess
          InitializeENIPMessage, s') ∧
    GetEncapsulationInactivityTimeout 0 i c s' = Some 300.
Proof.
  destruct (tcpip_created false (g_tcpip false) (mkStack [] ∅) eq_refl)
    as (s & i & c & m & E & Hc & _ & Ht & Hg & _).
  destruct (tcpip_set_attributes false 0 s i c (g_tcpip false) Ht Hg
    (single_request 3 (le_bytes 4 0x12 ++ [])) empty_response [] 0x12) as [P3 _].
  destruct (tcpip_set_attributes false 0 s i c (g_tcpip false) Ht Hg
    (single_request 13 (le_bytes 2 300 ++ [])) empty_response [] 300) as [_ P13].
  destruct P3 as (s3 & E3 & Hs3); [reflexivity | unfold is_u32; lia | reflexivity |].
  destruct P13 as (s13 & E13 & _ & Ht13); [reflexivity | unfold is_u16; lia | reflexivity |].
  change (0x12 <? 3) with false in E3, Hs3. cbv iota in E3, Hs3. rewrite Hs3 in E3.
  exists s, i, c, m, s13. split; [exact E |]. split; [exact Hc |].
  split; [exact E3 |]. split; [exact E13 | exact Ht13].
Defined.
