(* ===== verification/EthLink.v ===== *)
(** * [cip/cipethernetlink.c]: the Ethernet link object

    One instance per port: its data, the encoders of its attributes, the check of a forced
    link mode, and the class.  [instance_cnt], [label_enable] and [iface_ctrl] stand for
    the build options [OPENER_ETHLINK_INSTANCE_CNT], [OPENER_ETHLINK_LABEL_ENABLE] and
    [OPENER_ETHLINK_IFACE_CTRL_ENABLE]; the counters are switched off. *)

From S2P Require Import Prelude EndianConv CipStrings CipTypes CipCodec CipClasses CipServices Assembly NetObject.
From stdpp Require Import strings.
Open Scope Z_scope.

(** ** Data *)

Definition kCipEthernetLinkClassCode : Z := 0xF6.

Definition kEthLinkIfCntrlAutonegotiate : Z := 0x01.
Definition kEthLinkIfCntrlForceDuplexFD : Z := 0x02.
Definition kEthLinkIfCntrlMaxValid : Z :=
  kEthLinkIfCntrlAutonegotiate + kEthLinkIfCntrlForceDuplexFD.

Definition kEthLinkIfTypeInternal : Z := 0x01.
Definition kEthLinkIfTypeTwistedPair : Z := 0x02.

Definition kEthLinkCapAutoNeg : Z := 0x02.
Definition kEthLinkSpeedDpx_100_FD : Z := 0x08.

Record CipEthernetLinkSpeedDuplexArrayEntry := mkSpeed {
  interface_speed : Z; interface_duplex_mode : Z }.

Definition speed_duplex_table : list CipEthernetLinkSpeedDuplexArrayEntry :=
  [mkSpeed 10 0; mkSpeed 10 1; mkSpeed 100 0; mkSpeed 100 1; mkSpeed 1000 0; mkSpeed 1000 1].

Record CipEthernetLinkInterfaceControl := mkControl {
  control_bits : Z; forced_interface_speed : Z }.

Record CipEthernetLinkMetaInterfaceCapability := mkCaps {
  capability_bits : Z; speed_duplex_selector : Z }.

(** [eth_interface_control] exists when [iface_ctrl] is set. *)
Record CipEthernetLinkObject := mkLink {
  eth_interface_speed : Z;
  eth_interface_flags : Z;
  physical_address : list Z;
  eth_interface_control : CipEthernetLinkInterfaceControl;
  interface_type : Z;
  interface_label : CipShortString;
  interface_caps : CipEthernetLinkMetaInterfaceCapability }.

(** An element of [g_ethernet_link] at program start. *)
Definition zero_link : CipEthernetLinkObject :=
  mkLink 0 0 (replicate 6 0) (mkControl 0 0) 0 (mkShortString 0 None) (mkCaps 0 0).

(** Constant data of attribute 6 when the interface cannot be controlled. *)
Definition s_interface_control : CipEthernetLinkInterfaceControl := mkControl 0 0.

Definition label (characters : list Z) : CipShortString :=
  mkShortString (Z.of_nat (length characters)) (Some (characters ++ [0])).

(** PORT 1, PORT 2, PORT internal *)
Definition iface_label_table : list CipShortString :=
  [label [80; 79; 82; 84; 32; 49]; label [80; 79; 82; 84; 32; 50];
   label [80; 79; 82; 84; 32; 105; 110; 116; 101; 114; 110; 97; 108]].

(** ** Where the attributes' data are

    The member attribute [k] of [g_ethernet_link[idx]] points to is at
    [link_address idx + k]; the constants of the file are behind those of the first
    object. *)
Definition link_address (idx : nat) : nat := (400 + 16 * idx)%nat.
Definition dummy_attribute_udint : nat := 412.
Definition dummy_attribute_usint : nat := 413.
Definition s_interface_control_address : nat := 414.

Definition control_data (v : CipEthernetLinkInterfaceControl) : CipData :=
  DStruct [DInt 2 (control_bits v); DInt 2 (forced_interface_speed v)].

Definition caps_data (v : CipEthernetLinkMetaInterfaceCapability) : CipData :=
  DStruct [DInt 4 (capability_bits v); DInt 2 (speed_duplex_selector v)].

Definition link_objects (idx : nat) (g : CipEthernetLinkObject) : list (nat * CipData) :=
  [(link_address idx + 1, DInt 4 (eth_interface_speed g));
   (link_address idx + 2, DInt 4 (eth_interface_flags g));
   (link_address idx + 3, DBytes (physical_address g));
   (link_address idx + 6, control_data (eth_interface_control g));
   (link_address idx + 7, DInt 1 (interface_type g));
   (link_address idx + 10, DShortString (interface_label g));
   (link_address idx + 11, caps_data (interface_caps g))]%nat.

Definition constant_objects : list (nat * CipData) :=
  [(dummy_attribute_udint, DInt 4 0); (dummy_attribute_usint, DInt 1 0);
   (s_interface_control_address, control_data s_interface_control)].

Definition store_objects (l : list (nat * CipData)) (s : CipStack) : CipStack :=
  mkStack (classes s) (list_to_map l ∪ objects s).

Definition store_links (gs : list CipEthernetLinkObject) (s : CipStack) : CipStack :=
  store_objects (constant_objects ++ concat (imap link_objects gs)) s.

(** ** Encoders *)

Definition EncodeCipEthernetLinkInterfaceCounters : Encoder := fun _ m =>
  FillNextNMessageOctetsWithValueAndMoveToNextPosition 0 (11 * 4) m.

Definition EncodeCipEthernetLinkMediaCounters : Encoder := fun _ m =>
  FillNextNMessageOctetsWithValueAndMoveToNextPosition 0 (12 * 4) m.

(** Without [iface_ctrl] the data pointer is that of [s_interface_control]. *)
Definition EncodeCipEthernetLinkInterfaceControl : Encoder := fun d m =>
  match d with
  | DStruct [DInt 2 bits; DInt 2 speed] =>
      m ← EncodeCipWord (DInt 2 bits) m; EncodeCipUint (DInt 2 speed) m
  | _ => None
  end.

(** [while(selected)]: each turn clears the least significant bit set of a [uint16_t]. *)
Fixpoint count_selected (fuel : nat) (selected count : Z) : option Z :=
  match fuel with
  | O => None
  | S fuel =>
      if selected =? 0 then Some count
      else count_selected fuel (selected .& u32 (selected - 1)) (u8 (count + 1))
  end.

Fixpoint encode_speeds (selector : Z) (i : Z) (table : list CipEthernetLinkSpeedDuplexArrayEntry)
    (m : ENIPMessage) : option ENIPMessage :=
  match table with
  | [] => Some m
  | e :: table =>
      m ← (if has_flag selector (1 ≪ i) then
             m ← EncodeCipUint (DInt 2 (interface_speed e)) m;
             EncodeCipUsint (DInt 1 (interface_duplex_mode e)) m
           else Some m);
      encode_speeds selector (i + 1) table m
  end.

Definition EncodeCipEthernetLinkInterfaceCaps : Encoder := fun d m =>
  match d with
  | DStruct [DInt 4 caps; DInt 2 selector] =>
      m ← EncodeCipDword (DInt 4 caps) m;
      count ← count_selected 17 selector 0;
      m ← EncodeCipUsint (DInt 1 count) m;
      encode_speeds selector 0 speed_duplex_table m
  | _ => None
  end.

(** ** Interface control *)

(** [g_ethernet_link[instance_id - 1].interface_caps.speed_duplex_selector] *)
Definition selector_of (instance_id : Z) (s : CipStack) : option Z :=
  if 0 <? instance_id then
    d ← objects s !! (link_address (Z.to_nat (instance_id - 1)) + 11)%nat;
    match d with
    | DStruct [DInt 4 _; DInt 2 selector] => Some selector
    | _ => None
    end
  else None.

Fixpoint mode_selected (selector duplex_mode speed : Z) (i : Z)
    (table : list CipEthernetLinkSpeedDuplexArrayEntry) : bool :=
  match table with
  | [] => false
  | e :: table =>
      if has_flag selector (1 ≪ i)
         && ((duplex_mode =? interface_duplex_mode e) && (speed =? interface_speed e))
      then true else mode_selected selector duplex_mode speed (i + 1) table
  end.

Definition IsIfaceControlAllowed (instance_id : Z) (iface_cntrl : CipEthernetLinkInterfaceControl)
    (s : CipStack) : option bool :=
  let duplex_mode :=
    if has_flag (control_bits iface_cntrl) kEthLinkIfCntrlForceDuplexFD then 1 else 0 in
  selector ← selector_of instance_id s;
  Some (mode_selected selector duplex_mode (forced_interface_speed iface_cntrl) 0
          speed_duplex_table).

(** [GetCipInstance(GetCipClass(...), ...)->instance_number] for the request's path *)
Definition requested_instance (e : CipEpath) (s : CipStack) : option Z :=
  n ← GetCipClass s (class_id e);
  c ← get_class (TheClass n) s;
  p ← GetCipInstance c (instance_number_of_path e);
  i ← get_instance n p s;
  Some (instance_number i).

(** [s] are the classes and objects the decoder looks at besides its own attribute. *)
Definition DecodeCipEthernetLinkInterfaceControl (s : CipStack) : Decoder := fun d req resp =>
  '(_, bits, req, resp) ← DecodeCipWord (DInt 2 0) req resp;
  '(_, speed, req, resp) ← DecodeCipUint (DInt 2 0) req resp;
  control_bits ← int_object 2 bits;
  forced_interface_speed ← int_object 2 speed;
  let if_cntrl := mkControl control_bits forced_interface_speed in
  if kEthLinkIfCntrlMaxValid <? control_bits
  then Some (-1, d, req, set_general_status kCipErrorInvalidAttributeValue resp)
  else if has_flag control_bits kEthLinkIfCntrlAutonegotiate
          && (has_flag control_bits kEthLinkIfCntrlForceDuplexFD
              || negb (0 =? forced_interface_speed))
  then Some (-1, d, req, set_general_status kCipErrorObjectStateConflict resp)
  else
    allowed ← (if negb (has_flag control_bits kEthLinkIfCntrlAutonegotiate) then
                 k ← requested_instance (request_path req) s;
                 IsIfaceControlAllowed k if_cntrl s
               else Some true);
    if allowed : bool
    then Some (4, control_data if_cntrl, req, set_general_status kCipErrorSuccess resp)
    else Some (-1, d, req, set_general_status kCipErrorInvalidAttributeValue resp).

(** ** The class *)

Section Options.
Variable instance_cnt : nat.
Variables label_option iface_ctrl : bool.

(** With more than one instance the label is mandatory. *)
Definition label_enable : bool := if (1 <? instance_cnt)%nat then true else label_option.

Definition IFACE_LABEL_ACCESS_MODE : Z := if label_enable then kGetableSingleAndAll else kGetableAll.
Definition IFACE_CTRL_ACCESS_MODE : Z :=
  if iface_ctrl then kSetAndGetAble .| kNvDataFunc else kGetableAll.

(** The interface control of the internal switch port is not to be settable. *)
Definition interface_control_row (globals : CipStack) (idx : nat) : AttributeRow :=
  if iface_ctrl then
    mkRow 6 kCipAny EncodeCipEthernetLinkInterfaceControl
      (Some (DecodeCipEthernetLinkInterfaceControl globals)) (link_address idx + 6)
      (if (2 =? idx)%nat then Z.ldiff IFACE_CTRL_ACCESS_MODE kSetable else IFACE_CTRL_ACCESS_MODE)
  else
    mkRow 6 kCipAny EncodeCipEthernetLinkInterfaceControl None s_interface_control_address
      kGetableAll.

Definition link_row (k : Z) (type : Z) (enc : Encoder) (address : nat) (flags : Z) : AttributeRow :=
  mkRow k type enc None address flags.

Definition link_rows (globals : CipStack) (idx : nat) : list AttributeRow :=
  [link_row 1 kCipUdint EncodeCipUdint (link_address idx + 1) kGetableSingleAndAll;
   link_row 2 kCipDword EncodeCipDword (link_address idx + 2) kGetableSingleAndAll;
   link_row 3 kCip6Usint EncodeCipEthernetLinkPhyisicalAddress (link_address idx + 3)
     kGetableSingleAndAll;
   link_row 4 kCipAny EncodeCipEthernetLinkInterfaceCounters dummy_attribute_udint kGetableAllDummy;
   link_row 5 kCipAny EncodeCipEthernetLinkMediaCounters dummy_attribute_udint kGetableAllDummy;
   interface_control_row globals idx;
   link_row 7 kCipUsint EncodeCipUsint (link_address idx + 7) kGetableSingleAndAll;
   link_row 8 kCipUsint EncodeCipUsint dummy_attribute_usint kGetableAllDummy;
   link_row 9 kCipUsint EncodeCipUsint dummy_attribute_usint kGetableAllDummy;
   link_row 10 kCipShortString EncodeCipShortString (link_address idx + 10) IFACE_LABEL_ACCESS_MODE;
   link_row 11 kCipAny EncodeCipEthernetLinkInterfaceCaps (link_address idx + 11)
     kGetableSingleAndAll].

Definition link_services : list CommonService :=
  [(kGetAttributeSingle, FnGetAttributeSingle, "GetAttributeSingle"%string);
   (kGetAttributeAll, FnGetAttributeAll, "GetAttributeAll"%string)]
  ++ (if iface_ctrl then [(kSetAttributeSingle, FnSetAttributeSingle, "SetAttributeSingle"%string)]
      else []).

(** The initial values; the physical address and what the options leave out stay. *)
Definition initial_link (idx : nat) (g : CipEthernetLinkObject) : CipEthernetLinkObject :=
  mkLink 100 0xF (physical_address g)
    (if iface_ctrl then mkControl kEthLinkIfCntrlAutonegotiate 0 else eth_interface_control g)
    (if (2 =? idx)%nat then kEthLinkIfTypeInternal else kEthLinkIfTypeTwistedPair)
    (if label_enable then nth idx iface_label_table (mkShortString 0 None) else interface_label g)
    (mkCaps kEthLinkCapAutoNeg kEthLinkSpeedDpx_100_FD).

(** [gs] is [g_ethernet_link] before the call. *)
Definition CipEthernetLinkInit (globals : CipStack) (gs : list CipEthernetLinkObject)
    (s : CipStack) : option (EipStatus * CipStack) :=
  '(s, n) ← CreateCipClass kCipEthernetLinkClassCode 0 7 2 11 11
              (2 + 0 + (if iface_ctrl then 1 else 0)) (Z.of_nat instance_cnt) "Ethernet Link" 4 None s;
  let gs := imap initial_link gs in
  s ← add_services link_services n s;
  s ← bind_instances 1 (link_rows globals <$> seq 0 instance_cnt) n s;
  Some (kEipStatusOk, store_links gs s).

(** Every instance gets the same address. *)
Definition CipEthernetLinkSetMac (p_physical_address : list Z) (gs : list CipEthernetLinkObject)
  : option (list CipEthernetLinkObject) :=
  a ← load_n p_physical_address 6;
  Some ((λ g, mkLink (eth_interface_speed g) (eth_interface_flags g) a (eth_interface_control g)
                (interface_type g) (interface_label g) (interface_caps g)) <$> gs).
End Options.

(** ** Lemmas: the speed and duplex list *)

(** The number of bits set among the lowest [w]. *)
Fixpoint popcount (w : nat) (v : Z) : Z :=
  match w with
  | O => 0
  | S w => v mod 2 + popcount w (v / 2)
  end.

Lemma popcount_range w v : 0 <= popcount w v <= Z.of_nat w.
Proof.
  revert v. induction w as [|w IH]; intros v; cbn [popcount]; [lia |].
  pose proof (Z.mod_pos_bound v 2). pose proof (IH (v / 2)). lia.
Qed.

Lemma land_double a b : (2 * a) .& (2 * b + 1) = 2 * (a .& b).
Proof.
  apply Z.bits_inj'. intros i Hi. rewrite Z.land_spec. destruct (decide (i = 0)) as [->|Hi0].
  - by rewrite !Z.testbit_even_0.
  - replace i with (Z.succ (i - 1)) by lia.
    rewrite !Z.testbit_even_succ, Z.testbit_odd_succ, Z.land_spec by lia. done.
Qed.

Lemma land_odd_even a : (2 * a + 1) .& (2 * a) = 2 * a.
Proof.
  apply Z.bits_inj'. intros i Hi. rewrite Z.land_spec. destruct (decide (i = 0)) as [->|Hi0].
  - by rewrite Z.testbit_even_0, andb_false_r.
  - replace i with (Z.succ (i - 1)) by lia.
    rewrite !Z.testbit_even_succ, Z.testbit_odd_succ by lia. apply andb_diag.
Qed.

(** Clearing the least significant bit set does not look at the zeros below it. *)
Lemma count_selected_double fuel h count :
  0 <= h < 2 ^ 31 → count_selected fuel (2 * h) count = count_selected fuel h count.
Proof.
  revert h count. induction fuel as [|fuel IH]; intros h count Hh; [done |]. cbn [count_selected].
  destruct (Z.eqb_spec h 0) as [->|Hn]; [done |]. rewrite (proj2 (Z.eqb_neq _ _)) by lia.
  rewrite !u32_id by (unfold is_u32; lia).
  replace (2 * h - 1) with (2 * (h - 1) + 1) by lia. rewrite land_double. apply IH.
  split; [apply Z.land_nonneg; lia |].
  apply Z.bounded_iff_bits_nonneg; [lia | apply Z.land_nonneg; lia |]. intros l Hl.
  rewrite Z.land_spec, (proj1 (Z.bounded_iff_bits_nonneg 31 h ltac:(lia) ltac:(lia))) by lia. done.
Qed.

(** The loop ends within one turn per bit set, and counts them. *)
Lemma count_selected_spec w fuel v count :
  (w < fuel)%nat → Z.of_nat w <= 31 → 0 <= v < 2 ^ Z.of_nat w → 0 <= count →
  count + Z.of_nat w < 256 → count_selected fuel v count = Some (count + popcount w v).
Proof.
  revert fuel v count. induction w as [|w IH]; intros fuel v count Hf Hw Hv Hc Hb.
  { assert (v = 0) as -> by lia. destruct fuel; [lia |]. cbn. f_equal. lia. }
  cbn [popcount]. rewrite Nat2Z.inj_succ, Z.pow_succ_r in Hv by lia.
  pose proof (Z.div_mod v 2). pose proof (Z.mod_pos_bound v 2).
  assert (Hh : 0 <= v / 2 < 2 ^ Z.of_nat w) by lia.
  assert (2 ^ Z.of_nat w <= 2 ^ 30) by (apply Z.pow_le_mono_r; lia).
  assert (v mod 2 = 0 ∨ v mod 2 = 1) as [E|E] by lia; rewrite E.
  - replace v with (2 * (v / 2)) at 1 by lia. rewrite count_selected_double by lia.
    by rewrite IH by lia.
  - destruct fuel as [|fuel]; [lia |]. cbn [count_selected].
    rewrite (proj2 (Z.eqb_neq _ _)) by lia. rewrite u32_id by (unfold is_u32; lia).
    replace v with (2 * (v / 2) + 1) at 1 by lia.
    replace (v - 1) with (2 * (v / 2)) by lia. rewrite land_odd_even.
    rewrite count_selected_double by lia. rewrite u8_id by (unfold is_u8; lia).
    rewrite IH by lia. f_equal. lia.
Qed.

(** The modes a selector stands for. *)
Fixpoint supported (selector : Z) (i : Z) (table : list CipEthernetLinkSpeedDuplexArrayEntry)
  : list CipEthernetLinkSpeedDuplexArrayEntry :=
  match table with
  | [] => []
  | e :: table =>
      (if Z.testbit selector i then [e] else []) ++ supported selector (i + 1) table
  end.

Definition speed_bytes (e : CipEthernetLinkSpeedDuplexArrayEntry) : list Z :=
  le_bytes 2 (interface_speed e) ++ le_bytes 1 (interface_duplex_mode e).

Lemma has_flag_testbit v i : 0 <= i → has_flag v (1 ≪ i) = Z.testbit v i.
Proof.
  intros Hi. unfold has_flag. rewrite Z.shiftl_mul_pow2, Z.mul_1_l by done.
  destruct (Z.testbit v i) eqn:E.
  - apply negb_true_iff, Z.eqb_neq. intros H. apply (f_equal (λ z, Z.testbit z i)) in H.
    rewrite Z.land_spec, E, Z.pow2_bits_true, Z.bits_0 in H by done. done.
  - apply negb_false_iff, Z.eqb_eq. apply Z.bits_inj'. intros j Hj.
    rewrite Z.land_spec, Z.bits_0. destruct (decide (i = j)) as [<-|Hne]; [by rewrite E |].
    rewrite Z.pow2_bits_false by done. apply andb_false_r.
Qed.

Lemma encode_speeds_writes selector i table :
  0 <= i →
  writes (encode_speeds selector i table) (concat (speed_bytes <$> supported selector i table)).
Proof.
  revert i. induction table as [|e table IH]; intros i Hi; cbn [encode_speeds supported].
  { apply writes_nothing. }
  rewrite fmap_app, concat_app. apply (writes_bind (λ m, if has_flag selector (1 ≪ i) then _ else _)).
  2: { apply IH. lia. }
  rewrite has_flag_testbit by done. destruct (Z.testbit selector i).
  - change (concat (speed_bytes <$> [e])) with (speed_bytes e ++ []). rewrite app_nil_r.
    apply (writes_bind (EncodeCipUint (DInt 2 _))); [apply writes_Int | apply writes_Sint].
  - apply writes_nothing.
Qed.

Lemma mode_selected_spec selector duplex speed i table :
  0 <= i →
  mode_selected selector duplex speed i table = true ↔ mkSpeed speed duplex ∈ supported selector i table.
Proof.
  revert i. induction table as [|e table IH]; intros i Hi; cbn [mode_selected supported].
  { split; [done | by intros ?%not_elem_of_nil]. }
  rewrite has_flag_testbit by done. rewrite elem_of_app.
  destruct (Z.testbit selector i); cbn [andb].
  - rewrite list_elem_of_singleton.
    destruct (Z.eqb_spec duplex (interface_duplex_mode e)) as [->|H1]; cbn [andb].
    + destruct (Z.eqb_spec speed (interface_speed e)) as [->|H2].
      * split; [|done]. intros _. left. by destruct e.
      * rewrite IH by lia. split; [by right |]. intros [E|E]; [|done]. by rewrite <-E in H2.
    + rewrite IH by lia. split; [by right |]. intros [E|E]; [|done]. by rewrite <-E in H1.
  - rewrite IH by lia. split; [by right |]. intros [E|E]; [by apply not_elem_of_nil in E | done].
Qed.

Lemma popcount_app w k v : 0 <= v → popcount (w + k) v = popcount w v + popcount k (v / 2 ^ Z.of_nat w).
Proof.
  revert v. induction w as [|w IH]; intros v Hv; [by rewrite Z.div_1_r |].
  cbn [popcount Nat.add]. rewrite IH by (apply Z.div_pos; lia).
  rewrite Nat2Z.inj_succ, Z.pow_succ_r, Z.div_div by lia. lia.
Qed.

Lemma popcount_zero w v : 0 <= v < 2 ^ Z.of_nat w → popcount w v = 0 → v = 0.
Proof.
  revert v. induction w as [|w IH]; intros v Hv Hp; [lia |]. cbn [popcount] in Hp.
  rewrite Nat2Z.inj_succ, Z.pow_succ_r in Hv by lia.
  pose proof (Z.mod_pos_bound v 2). pose proof (popcount_range w (v / 2)).
  pose proof (Z.div_mod v 2). assert (v / 2 = 0); [apply IH; lia | lia].
Qed.

Lemma length_supported selector i table :
  0 <= i → Z.of_nat (length (supported selector i table)) = popcount (length table) (selector / 2 ^ i).
Proof.
  revert i. induction table as [|e table IH]; intros i Hi; [done |].
  cbn [supported length popcount]. rewrite length_app, Nat2Z.inj_add, IH by lia.
  replace (2 ^ (i + 1)) with (2 ^ i * 2) by (rewrite Z.pow_add_r by lia; lia).
  rewrite <-Z.div_div by lia. f_equal.
  pose proof (Z.testbit_true selector i Hi) as H. pose proof (Z.mod_pos_bound (selector / 2 ^ i) 2).
  destruct (Z.testbit selector i); cbn [length]; [by rewrite (proj1 H eq_refl) |].
  assert ((selector / 2 ^ i) mod 2 ≠ 1) by (intros E; by apply H in E). lia.
Qed.

Lemma supported_spec selector i table e :
  0 <= i →
  e ∈ supported selector i table ↔
  ∃ k, table !! k = Some e ∧ Z.testbit selector (i + Z.of_nat k) = true.
Proof.
  revert i. induction table as [|x table IH]; intros i Hi; cbn [supported].
  { split; [by intros ?%not_elem_of_nil | by intros (k & Hk & _)]. }
  rewrite elem_of_app, IH by lia. split.
  - intros [Hx|(k & Hk & Hb)].
    + exists 0%nat. destruct (Z.testbit selector i) eqn:E; [|by apply not_elem_of_nil in Hx].
      apply list_elem_of_singleton in Hx as ->. by rewrite Z.add_0_r.
    + exists (S k). split; [done |]. rewrite <-Hb. f_equal. lia.
  - intros ([|k] & Hk & Hb).
    + left. cbn in Hk. injection Hk as ->. rewrite Z.add_0_r in Hb. rewrite Hb. by left.
    + right. exists k. split; [done |]. rewrite <-Hb. f_equal. lia.
Qed.

Definition caps_bytes (v : CipEthernetLinkMetaInterfaceCapability) : list Z :=
  le_bytes 4 (capability_bits v) ++ le_bytes 1 (popcount 16 (speed_duplex_selector v)) ++
  concat (speed_bytes <$> supported (speed_duplex_selector v) 0 speed_duplex_table).

Lemma writes_caps v :
  is_u16 (speed_duplex_selector v) →
  writes (EncodeCipEthernetLinkInterfaceCaps (caps_data v)) (caps_bytes v).
Proof.
  destruct v as [caps selector]. intros Hs. cbn [speed_duplex_selector] in Hs.
  unfold EncodeCipEthernetLinkInterfaceCaps, caps_bytes.
  cbn [caps_data capability_bits speed_duplex_selector].
  rewrite (count_selected_spec 16) by (unfold is_u16 in Hs; lia). cbn [mbind option_bind].
  apply (writes_bind (EncodeCipDword (DInt 4 caps))); [apply writes_Dint |].
  apply (writes_bind (EncodeCipUsint (DInt 1 _))); [apply writes_Sint |].
  by apply encode_speeds_writes.
Qed.

(** The interface capability on the wire, for any selector of speed and duplex modes:
    the capability bits, the number of modes, and the modes themselves, each with its speed
    in two bytes and its duplex mode in one.  A mode of the table is listed exactly when
    its bit is selected; the loop that counts the bits ends for every selector, and the
    announced number is that of the modes exactly when no bit behind the table is set. *)
Theorem interface_caps_listed v :
  is_u16 (speed_duplex_selector v) →
  let modes := supported (speed_duplex_selector v) 0 speed_duplex_table in
  ∃ count, count_selected 17 (speed_duplex_selector v) 0 = Some count ∧ 0 <= count <= 16 ∧
    writes (EncodeCipEthernetLinkInterfaceCaps (caps_data v))
      (le_bytes 4 (capability_bits v) ++ le_bytes 1 count ++ concat (speed_bytes <$> modes)) ∧
    (∀ e, e ∈ modes ↔ ∃ k, speed_duplex_table !! k = Some e ∧
       Z.testbit (speed_duplex_selector v) (Z.of_nat k) = true) ∧
    (count = Z.of_nat (length modes) ↔ speed_duplex_selector v < 64).
Proof.
  intros Hs modes. pose proof (writes_caps v Hs) as Hw. unfold is_u16 in Hs.
  set (selector := speed_duplex_selector v) in *.
  exists (popcount 16 selector). split; [by rewrite (count_selected_spec 16) by lia |].
  split; [apply (popcount_range 16) |]. split; [exact Hw |].
  split; [intros e; unfold modes; by rewrite supported_spec |].
  unfold modes. rewrite length_supported, Z.div_1_r by lia. change (length speed_duplex_table) with 6%nat.
  rewrite (popcount_app 6 10) by lia. change (2 ^ Z.of_nat 6) with 64. split.
  - intros E. assert (selector / 64 = 0) as E0; [|by apply Z.div_small_iff in E0; lia].
    apply (popcount_zero 10); [|lia].
    split; [apply Z.div_pos; lia | apply Z.div_lt_upper_bound; lia].
  - intros Hlt. rewrite (Z.div_small selector 64) by lia. rewrite Z.add_comm. done.
Qed.

(** The modes of 100 Mbit/s. *)
Lemma interface_caps_listed_witness :
  count_selected 17 0x0C 0 = Some 2 ∧
  supported 0x0C 0 speed_duplex_table = [mkSpeed 100 0; mkSpeed 100 1] ∧
  writes (EncodeCipEthernetLinkInterfaceCaps (caps_data (mkCaps 2 0x0C)))
    [2; 0; 0; 0; 2; 100; 0; 0; 100; 0; 1].
Proof.
  destruct (interface_caps_listed (mkCaps 2 0x0C)) as (count & Hc & _ & Hw & _ & _);
    [unfold is_u16; cbn; lia |].
  assert (E : Some count = Some 2) by (rewrite <-Hc; by vm_compute). injection E as ->.
  split; [exact Hc |]. split; [by vm_compute | exact Hw].
Defined.

(** ** Lemmas: creation *)

Definition link_holds (idx : nat) (g : CipEthernetLinkObject) (s : CipStack) : Prop :=
  Forall (λ x, objects s !! x.1 = Some x.2) (link_objects idx g).

Definition constants_hold (s : CipStack) : Prop :=
  Forall (λ x, objects s !! x.1 = Some x.2) constant_objects.

Lemma store_objects_holds l s :
  NoDup l.*1 → Forall (λ x, objects (store_objects l s) !! x.1 = Some x.2) l.
Proof.
  intros Hd. apply list.Forall_forall. intros [a d] Hx. cbn [fst snd store_objects objects].
  by apply lookup_union_Some_l, elem_of_list_to_map_1.
Qed.

Definition link_keys (idx : nat) : list nat :=
  [link_address idx + 1; link_address idx + 2; link_address idx + 3; link_address idx + 6;
   link_address idx + 7; link_address idx + 10; link_address idx + 11]%nat.

Lemma links_keys gs k :
  (concat (imap (λ j, link_objects (k + j)) gs)).*1 = concat (link_keys <$> seq k (length gs)).
Proof.
  revert k. induction gs as [|g gs IH]; intros k; [done |].
  cbn [imap concat length seq fmap list_fmap]. rewrite fmap_app. f_equal; [by rewrite Nat.add_0_r |].
  rewrite <-IH. f_equal. f_equal. unfold compose. apply imap_ext. intros j x _.
  by rewrite Nat.add_succ_r.
Qed.

Lemma links_elsewhere gs s a :
  (length gs <= 3)%nat → (a <= link_address 0 ∨ link_address 3 <= a)%nat →
  objects (store_links gs s) !! a = objects s !! a.
Proof.
  intros Hl Ha. apply stored_elsewhere. rewrite fmap_app.
  rewrite (links_keys gs 0 : (concat (imap link_objects gs)).*1 = _). intros Hin.
  assert (Hr : Forall (λ k, link_address 0 < k < link_address 3)%nat
    (constant_objects.*1 ++ concat (link_keys <$> seq 0 (length gs)))).
  { destruct (length gs) as [|[|[|[|]]]]; [..|lia]; apply (bool_decide_unpack _); by vm_compute. }
  rewrite list.Forall_forall in Hr. specialize (Hr a Hin). lia.
Qed.

Lemma store_links_holds gs s :
  (length gs <= 3)%nat →
  constants_hold (store_links gs s) ∧
  ∀ idx g, gs !! idx = Some g → link_holds idx g (store_links gs s).
Proof.
  intros Hl. unfold store_links. set (l := constant_objects ++ _).
  assert (Hd : NoDup l.*1).
  { unfold l. rewrite fmap_app. rewrite (links_keys gs 0 : (concat (imap link_objects gs)).*1 = _).
    destruct (length gs) as [|[|[|[|]]]]; [..|lia]; apply (bool_decide_unpack _); by vm_compute. }
  pose proof (store_objects_holds l s Hd) as Hall. rewrite list.Forall_forall in Hall. split.
  - apply list.Forall_forall. intros x Hx. apply Hall. unfold l. apply elem_of_app. by left.
  - intros idx g Hg. apply list.Forall_forall. intros x Hx. apply Hall. unfold l.
    apply elem_of_app. right. apply list_elem_of_In, List.in_concat.
    exists (link_objects idx g). split; [|by apply list_elem_of_In].
    apply list_elem_of_In, elem_of_lookup_imap. by exists idx, g.
Qed.

Lemma link_blank n name cnt ctrl :
  (1 <= cnt <= 3)%nat →
  ∃ c0 x c m,
    AddCipInstances (TheClass n) (new_class n kCipEthernetLinkClassCode 0 11 11
      (2 + 0 + (if ctrl : bool then 1 else 0)) name 4) (Z.of_nat cnt) = Some (c0, x) ∧
    standard_class 2 (AllocateAttributeMasks c0,
      AllocateAttributeMasks (new_meta_class n 0 7 2 name)) = Some (c, m) ∧
    blank_class n kCipEthernetLinkClassCode 11 11 (length (link_services ctrl))
      ((λ k, Z.of_nat k + 1) <$> seq 0 cnt) c.
Proof.
  intros Hc. destruct cnt as [|[|[|[|]]]]; try lia; destruct ctrl;
    (do 4 eexists; split; [reflexivity |];
     split; [lazy -[EncodeCipUint String.append]; reflexivity |];
     split; cbn; try done;
     intros k Hk; assert (k / 8 < 2) by (apply Z.div_lt_upper_bound; lia);
     repeat split; (apply (mask_bit_zeros 2); lia)).
Qed.

(** Every attribute of every instance agrees with the masks for getting; for setting the
    interface control is allowed on all instances, or on none. *)
Lemma link_masks cnt lbl ctrl globals idx r :
  (1 <= cnt <= 3)%nat → (idx < cnt)%nat → r ∈ link_rows cnt lbl ctrl globals idx →
  let all := concat (link_rows cnt lbl ctrl globals <$> seq 0 cnt) in
  flagged kGetableSingle all (row_number r) = has_flag (row_flags r) kGetableSingle ∧
  flagged (kGetableAll .| kGetableAllDummy) all (row_number r)
  = has_flag (row_flags r) (kGetableAll .| kGetableAllDummy).
Proof.
  intros Hc Hi Hr all. revert r Hr. apply list.Forall_forall.
  destruct cnt as [|[|[|[|]]]]; try lia; destruct idx as [|[|[|]]]; try lia;
    destruct lbl, ctrl; repeat (constructor; [split; by vm_compute |]); constructor.
Qed.

Lemma link_settable cnt lbl ctrl globals :
  (1 <= cnt <= 3)%nat →
  flagged kSetable (concat (link_rows cnt lbl ctrl globals <$> seq 0 cnt)) 6 = ctrl.
Proof.
  intros Hc. destruct cnt as [|[|[|[|]]]]; try lia; destruct lbl, ctrl; by vm_compute.
Qed.

Lemma link_numbers cnt lbl ctrl globals idx :
  row_number <$> link_rows cnt lbl ctrl globals idx = [1; 2; 3; 4; 5; 6; 7; 8; 9; 10; 11].
Proof. unfold link_rows, interface_control_row. by destruct ctrl. Qed.

(** The Ethernet link objects, one to three, are created on any stack that does not
    have them: the class is registered at the end, and the instances are numbered from 1
    and have the attributes of their tables.  The initial values are those of a twisted
    pair link at 100 Mbit/s full duplex with its label (an internal port for the third),
    and the physical address set before is kept. *)
Lemma ethernet_links_created cnt lbl ctrl globals gs s :
  GetCipClass s kCipEthernetLinkClassCode = None → (1 <= cnt <= 3)%nat → length gs = cnt →
  let all := concat (link_rows cnt lbl ctrl globals <$> seq 0 cnt) in
  ∃ s' c m, CipEthernetLinkInit cnt lbl ctrl globals gs s = Some (kEipStatusOk, s') ∧
    classes s' = classes s ++ [(c, m)] ∧
    GetCipClass s' kCipEthernetLinkClassCode = Some (length (classes s)) ∧
    constants_hold s' ∧
    (∀ idx g, gs !! idx = Some g →
      link_holds idx (initial_link cnt lbl ctrl idx g) s' ∧
      ∃ i, instance_number i = Z.of_nat idx + 1 ∧
        table_instance (length (classes s)) idx (link_rows cnt lbl ctrl globals idx)
          (flagged kSetable all) s' i c) ∧
    (∀ a, (a <= link_address 0 ∨ link_address 3 <= a)%nat → objects s' !! a = objects s !! a) ∧
    services c = common_service <$> link_services ctrl.
Proof.
  intros Hn Hc Hl all. set (n := length (classes s)).
  destruct (link_blank n "Ethernet Link" cnt ctrl Hc) as (c0 & x & c & m & E0 & E & Hb).
  set (rowss := link_rows cnt lbl ctrl globals <$> seq 0 cnt).
  assert (Hlr : length rowss = cnt) by (unfold rowss; by rewrite length_fmap, length_seq).
  destruct (build_services_then_all rowss 11 (link_services ctrl) 0 11 kCipEthernetLinkClassCode c m s)
    as (c' & Eb & Hbu & Hcode & Hsv & _ & Hcb).
  { rewrite Hlr, Nat.add_0_r. exact Hb. }
  { apply list.Forall_forall. intros rows (idx & -> & _)%list_elem_of_fmap. split.
    - unfold link_rows. done.
    - apply list.Forall_forall. intros r Hr. assert (Hin : row_number r ∈ [1; 2; 3; 4; 5; 6; 7; 8; 9; 10; 11]).
      { rewrite <-(link_numbers cnt lbl ctrl globals idx). apply list_elem_of_fmap. by exists r. }
      rewrite !elem_of_cons in Hin. repeat destruct Hin as [->|Hin]; try lia.
      by apply not_elem_of_nil in Hin. }
  { destruct ctrl; apply (bool_decide_unpack _); by vm_compute. }
  destruct (store_links_holds (imap (initial_link cnt lbl ctrl) gs) (RegisterCipClass c' m s))
    as [Hk Hg]; [rewrite length_imap; lia |].
  eexists (store_links _ (RegisterCipClass c' m s)), c', m. split.
  { unfold CipEthernetLinkInit.
    rewrite (CreateCipClass_instances kCipEthernetLinkClassCode 0 7 2 11 11 _ (Z.of_nat cnt)
      "Ethernet Link" 4 s c0 x c m) by (done || lia).
    cbn [mbind option_bind] in Eb |- *. fold n in Eb |- *.
    destruct (add_services (link_services ctrl) n _) as [s1|]; [|discriminate Eb].
    cbn [mbind option_bind] in Eb |- *. fold rowss. by rewrite Eb. }
  split; [done |]. split; [by apply (get_registered_code c' m s) |]. split; [exact Hk |].
  split; [|split; [intros a Ha; apply (links_elsewhere _ (RegisterCipClass c' m s));
    [rewrite length_imap; lia | done] | rewrite Hsv; apply (right_id_L [] (++))]].
  intros idx g Hidx. split; [apply Hg; by rewrite list_lookup_imap, Hidx |].
  pose proof (lookup_lt_Some _ _ _ Hidx).
  apply (built_table n (length rowss) 11 rowss); [apply (get_registered c' m s) | done | | | | done].
  - unfold rowss. rewrite list_lookup_fmap, lookup_seq_lt by lia. done.
  - rewrite link_numbers. apply (bool_decide_unpack _). by vm_compute.
  - intros f r Hf Hr. destruct (link_masks cnt lbl ctrl globals idx r Hc ltac:(lia) Hr) as [M1 M2].
    by destruct Hf as [->| ->].
Qed.

(** ** The object on the wire *)

Definition holds_label (s : CipShortString) (str : list Z) : Prop :=
  ss_length s = Z.of_nat (length str) ∧ bytes str ∧
  (str = [] ∨ ∃ rest, ss_string s = Some (str ++ rest)).

Lemma writes_label s str :
  holds_label s str →
  writes (EncodeCipShortString (DShortString s)) (le_bytes 1 (Z.of_nat (length str)) ++ str).
Proof.
  intros (Hl & _ & [->|[rest Hs]]); [|by apply (writes_short_string s str rest)].
  unfold EncodeCipShortString. rewrite Hl.
  apply (writes_bind (AddSintToMessage _)); [apply writes_Sint |].
  apply writes_put. intros m. exact (append_buffer_app [] [] 0 m eq_refl).
Qed.

Definition control_bytes (v : CipEthernetLinkInterfaceControl) : list Z :=
  le_bytes 2 (control_bits v) ++ le_bytes 2 (forced_interface_speed v).

Lemma writes_control v :
  writes (EncodeCipEthernetLinkInterfaceControl (control_data v)) (control_bytes v).
Proof. apply (writes_bind (EncodeCipWord (DInt 2 _))); apply writes_Int. Qed.

(** The reply to Get Attributes All, attribute by attribute: the counters are zeros. *)
Definition link_bytes (ctrl : bool) (g : CipEthernetLinkObject) (str : list Z) : list (list Z) :=
  [le_bytes 4 (eth_interface_speed g); le_bytes 4 (eth_interface_flags g); physical_address g;
   replicate 44 0; replicate 48 0;
   control_bytes (if ctrl then eth_interface_control g else s_interface_control);
   le_bytes 1 (interface_type g); le_bytes 1 0; le_bytes 1 0;
   le_bytes 1 (Z.of_nat (length str)) ++ str;
   caps_bytes (interface_caps g)].

Definition link_wf (g : CipEthernetLinkObject) : Prop :=
  length (physical_address g) = 6%nat ∧ bytes (physical_address g) ∧
  is_u16 (speed_duplex_selector (interface_caps g)).

Lemma bytes_concat l : Forall bytes l → bytes (concat l).
Proof.
  induction 1 as [|b l Hb _ IH]; cbn [concat]; [constructor | by apply Forall_app].
Qed.

Lemma caps_bytes_ok v : bytes (caps_bytes v) ∧ (length (caps_bytes v) <= 23)%nat.
Proof.
  unfold caps_bytes. set (l := supported _ _ _).
  assert (Hl : (length l <= 6)%nat).
  { pose proof (length_supported (speed_duplex_selector v) 0 speed_duplex_table ltac:(lia)) as E.
    pose proof (popcount_range (length speed_duplex_table) (speed_duplex_selector v / 2 ^ 0)).
    fold l in E. change (length speed_duplex_table) with 6%nat in *. lia. }
  assert (Hc : length (concat (speed_bytes <$> l)) = (3 * length l)%nat).
  { clear. induction l as [|e l IH]; [done |]. cbn [fmap list_fmap concat length].
    rewrite length_app, IH. unfold speed_bytes. rewrite length_app, !length_le_bytes. lia. }
  rewrite !bytes_app, !length_app, !length_le_bytes, Hc.
  split; [|lia]. split; [apply le_bytes_bytes |]. split; [apply le_bytes_bytes |].
  apply bytes_concat, list.Forall_forall. intros b (e & -> & _)%list_elem_of_fmap.
  apply bytes_app. split; apply le_bytes_bytes.
Qed.

Lemma link_rows_append cnt lbl ctrl globals idx g s str :
  constants_hold s → link_holds idx g s → link_wf g → holds_label (interface_label g) str →
  Z.of_nat (length str) < 256 →
  rows_append s [] (link_rows cnt lbl ctrl globals idx) (link_bytes ctrl g str).
Proof.
  unfold constants_hold, constant_objects, link_holds, link_objects. rewrite !list.Forall_cons.
  intros (K1 & K2 & K3 & _) (H1 & H2 & H3 & H6 & H7 & H10 & H11 & _) (Lm & Bm & Hsel) Hlab Ls.
  cbn [fst snd] in *. destruct (caps_bytes_ok (interface_caps g)) as [Bc Lc].
  assert (Bs : bytes (le_bytes 1 (Z.of_nat (length str)) ++ str)).
  { apply bytes_app. split; [apply le_bytes_bytes | apply Hlab]. }
  assert (Lctl : ∀ v, length (control_bytes v) = 4%nat).
  { intros v. unfold control_bytes. by rewrite length_app, !length_le_bytes. }
  assert (Bctl : ∀ v, bytes (control_bytes v)).
  { intros v. apply bytes_app. split; apply le_bytes_bytes. }
  unfold link_bytes, link_rows, interface_control_row, IFACE_LABEL_ACCESS_MODE, IFACE_CTRL_ACCESS_MODE.
  cbn [rows_append].
  wire_step H1 writes_Dint. wire_step H2 writes_Dint.
  split; [eexists; split; [exact H3 | apply value_appends; [|done |]] |].
  { apply writes_put. intros m. cbn [EncodeCipEthernetLinkPhyisicalAddress link_row].
    rewrite <-(app_nil_r (physical_address g)) at 1. apply append_buffer_app. by rewrite Lm. }
  { lengths. }
  split; [eexists; split; [exact K1 | apply value_appends; [by apply (writes_zeros 44) | apply bytes_zeros | lengths]] |].
  split; [eexists; split; [exact K1 | apply value_appends; [by apply (writes_zeros 48) | apply bytes_zeros | lengths]] |].
  split.
  { destruct ctrl; [destruct (2 =? idx)%nat |]; (eexists; split; [first [exact H6 | exact K3] |];
      apply value_appends; [apply writes_control | apply Bctl | rewrite !length_app, Lctl; lengths]). }
  pose proof (Lctl (if ctrl then eth_interface_control g else s_interface_control)) as L6.
  wire_step H7 writes_Sint. wire_step K2 writes_Sint. wire_step K2 writes_Sint.
  split.
  { destruct (label_enable cnt lbl); (eexists; split; [exact H10 |];
      apply value_appends; [by apply writes_label | exact Bs | lengths]). }
  split; [|done]. eexists. split; [exact H11 |].
  apply value_appends; [by apply writes_caps | exact Bc | lengths].
Qed.

(** Get Attributes All of an Ethernet link object, for each instance of any
    configuration: success, and exactly its eleven attributes in order, with zeros for the
    counters that are switched off, the constant in place of an interface control that does
    not exist, the label, and the list of supported modes. *)
Theorem ethernet_link_get_all `{Application} cnt lbl ctrl globals n idx f s i c g str req resp :
  table_instance n idx (link_rows cnt lbl ctrl globals idx) f s i c →
  constants_hold s → link_holds idx g s → link_wf g → holds_label (interface_label g) str →
  Z.of_nat (length str) < 256 →
  ∃ req' m, GetAttributeAll n (ListInstance idx) req resp s
    = Some (kEipStatusOkSend, req', reply req resp kCipErrorSuccess m, s) ∧
    wire m = concat (link_bytes ctrl g str).
Proof.
  intros Ht Hk Hg Hwf Hlab Hs.
  destruct (table_get_all n idx _ f s i c Ht req resp (link_bytes ctrl g str)) as (req' & m & E & Hm).
  { done. } { by apply (link_rows_append cnt lbl ctrl globals). }
  exists req', m. split; [exact E |]. by apply holds_wire.
Qed.

(** The second of two links. *)
Lemma ethernet_link_get_all_witness :
  let g := initial_link 2 false false 1 zero_link in
  ∃ s' req' m, CipEthernetLinkInit 2 false false (mkStack [] ∅) (replicate 2 zero_link) (mkStack [] ∅)
      = Some (kEipStatusOk, s') ∧
    GetAttributeAll 0 (ListInstance 1) (single_request 0 []) empty_response s'
    = Some (kEipStatusOkSend, req',
        reply (single_request 0 []) empty_response kCipErrorSuccess m, s') ∧
    wire m = concat (link_bytes false g [80; 79; 82; 84; 32; 50]).
Proof.
  intros g.
  destruct (ethernet_links_created 2 false false (mkStack [] ∅) (replicate 2 zero_link) (mkStack [] ∅))
    as (s' & c & m & E & Hc & _ & Hk & Hg & _); [reflexivity | lia | reflexivity |].
  destruct (Hg 1%nat zero_link eq_refl) as (Hh & i & _ & Ht).
  destruct (ethernet_link_get_all 2 false false (mkStack [] ∅) 0 1 _ s' i c g
    [80; 79; 82; 84; 32; 50] (single_request 0 []) empty_response Ht Hk Hh) as (req' & m' & Eg & Hw).
  - split; [reflexivity |]. split; [apply (bool_decide_unpack _); by vm_compute | unfold is_u16, g; cbn; unfold kEthLinkSpeedDpx_100_FD; lia].
  - split; [reflexivity |]. split; [apply (bool_decide_unpack _); by vm_compute |]. right. by exists [0].
  - cbn. lia.
  - exists s', req', m'. split; [exact E |]. split; [exact Eg | exact Hw].
Defined.

(** ** Setting the interface control *)

Definition set_link_control (v : CipEthernetLinkInterfaceControl) (g : CipEthernetLinkObject)
  : CipEthernetLinkObject :=
  mkLink (eth_interface_speed g) (eth_interface_flags g) (physical_address g) v
    (interface_type g) (interface_label g) (interface_caps g).

Lemma link_holds_control idx g s v :
  link_holds idx g s →
  link_holds idx (set_link_control v g)
    (mkStack (classes s) (<[(link_address idx + 6)%nat := control_data v]> (objects s))).
Proof.
  unfold link_holds, link_objects. rewrite !list.Forall_cons. intros (?&?&?&?&?&?&?&_).
  cbn [objects fst snd] in *.
  repeat split; try (by constructor);
    by (rewrite lookup_insert_eq || rewrite lookup_insert_ne by lia).
Qed.

#[export] Instance speed_entry_eqdec : EqDecision CipEthernetLinkSpeedDuplexArrayEntry.
Proof. solve_decision. Defined.

(** What the object promises about a request: automatic negotiation excludes a forced
    mode, and a forced mode must be one of the supported ones. *)
Definition control_status (selector : Z) (v : CipEthernetLinkInterfaceControl) : Z :=
  let auto := Z.testbit (control_bits v) 0 in
  let full := Z.testbit (control_bits v) 1 in
  if 3 <? control_bits v then kCipErrorInvalidAttributeValue
  else if auto then
    if full || negb (forced_interface_speed v =? 0) then kCipErrorObjectStateConflict
    else kCipErrorSuccess
  else if decide (mkSpeed (forced_interface_speed v) (if full then 1 else 0)
                    ∈ supported selector 0 speed_duplex_table)
  then kCipErrorSuccess else kCipErrorInvalidAttributeValue.

Lemma decode_word_le v rest d req resp (get : list Z → option (Z * list Z)) :
  is_u16 v → get (le_bytes 2 v ++ rest) = Some (v, rest) →
  request_data req = le_bytes 2 v ++ rest →
  decode_int 2 get 2 (DInt 2 d) req resp
  = Some (2, DInt 2 v, set_request_data rest req, set_general_status kCipErrorSuccess resp).
Proof.
  intros Hv Hg Hd. unfold decode_int. cbn [int_object Nat.eqb mbind option_bind].
  rewrite Hd, Hg. cbn [mbind option_bind]. change (256 ^ Z.of_nat 2) with 65536.
  unfold is_u16 in Hv. by rewrite Z.mod_small by lia.
Qed.

(** The decoder, where the request's path names instance [k] of the given selector. *)
Lemma DecodeInterfaceControl_spec globals k selector old bits speed rest req resp :
  requested_instance (request_path req) globals = Some k → selector_of k globals = Some selector →
  request_data req = le_bytes 2 bits ++ le_bytes 2 speed ++ rest → is_u16 bits → is_u16 speed →
  let v := mkControl bits speed in
  let ok := decide (control_status selector v = kCipErrorSuccess) in
  DecodeCipEthernetLinkInterfaceControl globals (control_data old) req resp
  = Some (if ok then 4 else -1, control_data (if ok then v else old), set_request_data rest req,
          set_general_status (control_status selector v) resp).
Proof.
  intros Hk Hsel Hd Hb Hs v ok. unfold DecodeCipEthernetLinkInterfaceControl, DecodeCipWord, DecodeCipUint.
  rewrite (decode_word_le bits (le_bytes 2 speed ++ rest)) by
    (done || by apply GetUint_le_id).
  cbn [mbind option_bind].
  rewrite (decode_word_le speed rest) by (done || by apply GetUint_le_id).
  assert (Ho : ∀ x, int_object 2 (DInt 2 x) = Some x) by done.
  do 2 (rewrite Ho; cbn [mbind option_bind]).
  unfold ok, control_status, v. cbn [control_bits forced_interface_speed].
  change kEthLinkIfCntrlMaxValid with 3. destruct (3 <? bits); [by case_decide |].
  change kEthLinkIfCntrlAutonegotiate with (1 ≪ 0). change kEthLinkIfCntrlForceDuplexFD with (1 ≪ 1).
  rewrite !has_flag_testbit by done. rewrite (Z.eqb_sym 0 speed).
  destruct (Z.testbit bits 0); cbn [andb negb].
  { by destruct (_ || _); case_decide. }
  cbn [set_request_data set_general_status request_path]. rewrite Hk. cbn [mbind option_bind].
  unfold IsIfaceControlAllowed. rewrite Hsel. cbn [mbind option_bind control_bits forced_interface_speed].
  change kEthLinkIfCntrlForceDuplexFD with (1 ≪ 1). rewrite has_flag_testbit by done.
  pose proof (mode_selected_spec selector (if Z.testbit bits 1 then 1 else 0) speed 0
    speed_duplex_table ltac:(lia)) as Hm.
  destruct (mode_selected _ _ _ _ _), (decide (_ ∈ _)) as [Hin|Hin]; try by case_decide.
  - by destruct Hin; apply Hm.
  - by apply Hm in Hin.
Qed.

Section SetControl.
Context `{Application}.
Variables (cnt : nat) (lbl : bool) (globals : CipStack) (n idx : nat) (f : Z → bool).
Variables (s : CipStack) (i : CipInstance) (c : CipClass) (g : CipEthernetLinkObject).
Hypothesis Ht : table_instance n idx (link_rows cnt lbl true globals idx) f s i c.
Hypothesis Hf : f 6 = true.
Hypothesis Hg : link_holds idx g s.

(** [globals] has the instance the request names, with the capability of [g]. *)
Variables (req : CipMessageRouterRequest) (resp : CipMessageRouterResponse) (bits speed : Z)
  (rest : list Z).
Hypothesis Hk : requested_instance (request_path req) globals = Some (Z.of_nat idx + 1).
Hypothesis Hsel :
  selector_of (Z.of_nat idx + 1) globals = Some (speed_duplex_selector (interface_caps g)).
Hypothesis Hp : path_attribute req = 6.
Hypothesis Hd : request_data req = le_bytes 2 bits ++ le_bytes 2 speed ++ rest.
Hypothesis Hb : is_u16 bits.
Hypothesis Hs : is_u16 speed.

Lemma link_control_lookup :
  objects s !! (link_address idx + 6)%nat = Some (control_data (eth_interface_control g)).
Proof.
  pose proof Hg as Hg'. unfold link_holds, link_objects in Hg'. rewrite !list.Forall_cons in Hg'. tauto.
Qed.

Lemma set_control_runs :
  let v := mkControl bits speed in
  let st := control_status (speed_duplex_selector (interface_caps g)) v in
  SetAttributeSingle n (ListInstance idx) req resp s
  = Some (kEipStatusOkSend, set_request_data rest req, reply req resp st InitializeENIPMessage,
      mkStack (classes s) (<[(link_address idx + 6)%nat := control_data
        (if decide (st = kCipErrorSuccess) then v else eth_interface_control g)]> (objects s))).
Proof.
  intros v st. set (r := interface_control_row true globals idx).
  assert (Hr : r ∈ link_rows cnt lbl true globals idx).
  { apply list_elem_of_In. cbn [link_rows In]. tauto. }
  destruct (to_callbacks _ _ _ _ _ _ _ Ht) as (_ & _ & C3 & C4).
  rewrite (instance_set_single n idx _ f s i c Ht r req resp _ (DecodeCipEthernetLinkInterfaceControl globals)
    (or_introl C3) (or_introl C4) Hr Hp eq_refl Hf) by (exact link_control_lookup || (unfold r, interface_control_row, IFACE_CTRL_ACCESS_MODE;
      destruct (2 =? idx)%nat; apply (bool_decide_unpack _); by vm_compute)).
  by rewrite (DecodeInterfaceControl_spec globals (Z.of_nat idx + 1) _ (eth_interface_control g) bits speed
    rest req _ Hk Hsel Hd Hb Hs).
Qed.

(** Setting the interface control.  Bits behind the two defined ones are refused as
    an invalid value; automatic negotiation together with a forced mode as a conflict; a
    forced mode is accepted exactly when its speed and duplex mode are among the supported
    ones of the instance the request names.  An accepted value is stored, a refused one
    changes nothing.  Whether the attribute can be set at all is said by the class, not by
    the instance. *)
Theorem interface_control_set :
  let v := mkControl bits speed in
  let st := control_status (speed_duplex_selector (interface_caps g)) v in
  ∃ s', SetAttributeSingle n (ListInstance idx) req resp s
    = Some (kEipStatusOkSend, set_request_data rest req, reply req resp st InitializeENIPMessage, s') ∧
    if decide (st = kCipErrorSuccess) then link_holds idx (set_link_control v g) s' else s' = s.
Proof.
  intros v st. rewrite set_control_runs. fold v st. eexists. split; [reflexivity |].
  destruct (decide (st = kCipErrorSuccess)); [by apply link_holds_control |].
  rewrite insert_id by exact link_control_lookup. by destruct s.
Qed.
End SetControl.

(** The stack of a device with two links, as the decoder sees it. *)
Definition example_links : CipStack :=
  match CipEthernetLinkInit 2 false true (mkStack [] ∅) (replicate 2 zero_link) (mkStack [] ∅) with
  | Some (_, s) => s
  | None => mkStack [] ∅
  end.

Definition control_request (bits speed : Z) : CipMessageRouterRequest :=
  mkRequest 0x10 (mkEpath 3 kCipEthernetLinkClassCode 2 6) 4 (le_bytes 2 bits ++ le_bytes 2 speed ++ []).

(** 100 Mbit/s full duplex is accepted, half duplex is not supported. *)
Lemma interface_control_set_witness :
  let g := initial_link 2 false true 1 zero_link in
  let done st bits s' := Some (kEipStatusOkSend, set_request_data [] (control_request bits 100),
    reply (control_request bits 100) empty_response st InitializeENIPMessage, s') in
  ∃ s s', CipEthernetLinkInit 2 false true example_links (replicate 2 zero_link) (mkStack [] ∅)
      = Some (kEipStatusOk, s) ∧
    SetAttributeSingle 0 (ListInstance 1) (control_request 2 100) empty_response s
    = done kCipErrorSuccess 2 s' ∧ link_holds 1 (set_link_control (mkControl 2 100) g) s' ∧
    SetAttributeSingle 0 (ListInstance 1) (control_request 0 100) empty_response s
    = done kCipErrorInvalidAttributeValue 0 s.
Proof.
  intros g done_.
  destruct (ethernet_links_created 2 false true example_links (replicate 2 zero_link) (mkStack [] ∅))
    as (s & c & m & E & Hc & _ & Hk & Hg & _); [reflexivity | lia | reflexivity |].
  destruct (Hg 1%nat zero_link eq_refl) as (Hh & i & _ & Ht).
  pose proof (link_settable 2 false true example_links ltac:(lia)) as Hf.
  assert (Hr : ∀ bits, requested_instance (request_path (control_request bits 100)) example_links = Some 2)
    by (intros; by vm_compute).
  assert (Hs : selector_of 2 example_links = Some 8) by by vm_compute.
  destruct (interface_control_set 2 false example_links 0 1 _ s i c g Ht Hf Hh (control_request 2 100)
    empty_response 2 100 [] (Hr 2) Hs eq_refl eq_refl) as (s' & E2 & Hs'); [unfold is_u16; lia .. |].
  destruct (interface_control_set 2 false example_links 0 1 _ s i c g Ht Hf Hh (control_request 0 100)
    empty_response 0 100 [] (Hr 0) Hs eq_refl eq_refl) as (s0 & E0 & Hs0); [unfold is_u16; lia .. |].
  assert (C2 : control_status (speed_duplex_selector (interface_caps g)) (mkControl 2 100) = kCipErrorSuccess)
    by by vm_compute.
  assert (C0 : control_status (speed_duplex_selector (interface_caps g)) (mkControl 0 100)
    = kCipErrorInvalidAttributeValue) by by vm_compute.
  cbv zeta in E2, Hs', E0, Hs0. rewrite C2 in E2, Hs'. rewrite C0 in E0, Hs0.
  rewrite decide_True in Hs' by done. rewrite decide_False in Hs0 by done. rewrite Hs0 in E0.
  exists s, s'. split; [exact E |]. split; [exact E2 |]. split; [exact Hs' | exact E0].
Defined.

(** The row of the internal switch port is not settable, but the mask the service looks at
    belongs to the class: the interface control of the third link can be set. *)
Lemma internal_port_settable `{Application} lbl globals gs s req resp rest :
  GetCipClass s kCipEthernetLinkClassCode = None → length gs = 3%nat →
  requested_instance (request_path req) globals = Some 3 → selector_of 3 globals = Some kEthLinkSpeedDpx_100_FD →
  path_attribute req = 6 → request_data req = le_bytes 2 1 ++ le_bytes 2 0 ++ rest →
  has_flag (row_flags (interface_control_row true globals 2)) kSetable = false ∧
  ∃ s' s'', CipEthernetLinkInit 3 lbl true globals gs s = Some (kEipStatusOk, s') ∧
    SetAttributeSingle (length (classes s)) (ListInstance 2) req resp s'
    = Some (kEipStatusOkSend, set_request_data rest req,
        reply req resp kCipErrorSuccess InitializeENIPMessage, s'').
Proof.
  intros Hn Hl Hr Hsel Hp Hd. split; [done |].
  destruct (lookup_lt_is_Some_2 gs 2) as [g0 Hg0]; [lia |].
  destruct (ethernet_links_created 3 lbl true globals gs s Hn ltac:(lia) Hl) as (s' & c & m & E & _ & _ & _ & Hg & _).
  destruct (Hg 2%nat g0 Hg0) as (Hh & i & _ & Ht).
  exists s'. eexists. split; [exact E |].
  rewrite (set_control_runs 3 lbl globals _ 2 _ s' i c _ Ht (link_settable 3 lbl true globals ltac:(lia))
    Hh req resp 1 0 rest Hr Hsel Hp Hd) by (unfold is_u16; lia). reflexivity.
Qed.
