(* ===== verification/Dlr.v ===== *)
(** * [cip/cipdlr.c]: the DLR object

    The device level ring object of a node that is neither supervisor nor gateway:
    four attributes of its own and constants in place of those of a supervisor. *)

From S2P Require Import Prelude EndianConv CipTypes CipCodec CipClasses CipServices Assembly NetObject.
From stdpp Require Import strings.
Open Scope Z_scope.

(** ** Data *)

Definition kCipDlrClassCode : Z := 0x47.
Definition DLR_CLASS_REVISION : Z := 3.

Definition kDlrCapBeaconBased : Z := 0x02.
Definition kDlrCapFlushTableFrame : Z := 0x80.

Record CipNodeAddress := mkNode { device_ip : Z; device_mac : list Z }.

Record CipDlrObject := mkDlr {
  network_topology : Z;
  network_status : Z;
  active_supervisor_address : CipNodeAddress;
  capability_flags : Z }.

Definition s_zero_node : CipNodeAddress := mkNode 0 (replicate 6 0).

(** [g_dlr] at program start. *)
Definition zero_dlr : CipDlrObject := mkDlr 0 0 s_zero_node 0.

Definition node_data (v : CipNodeAddress) : CipData :=
  DStruct [DInt 4 (device_ip v); DBytes (device_mac v)].

(** The member attribute [k] points to is at [kDlrAddress + k]; so are the constants. *)
Definition kDlrAddress : nat := 340.

Definition dlr_objects (g : CipDlrObject) : list (nat * CipData) :=
  [(kDlrAddress + 1, DInt 1 (network_topology g));
   (kDlrAddress + 2, DInt 1 (network_status g));
   (kDlrAddress + 3, DInt 1 0xFF);
   (kDlrAddress + 4, DInt 4 0);
   (kDlrAddress + 5, DInt 2 0);
   (kDlrAddress + 6, node_data s_zero_node);
   (kDlrAddress + 8, DInt 2 0xFFFF);
   (kDlrAddress + 10, node_data (active_supervisor_address g));
   (kDlrAddress + 11, DInt 1 0);
   (kDlrAddress + 12, DInt 4 (capability_flags g))]%nat.

Definition store_dlr (g : CipDlrObject) (s : CipStack) : CipStack :=
  mkStack (classes s) (list_to_map (dlr_objects g) ∪ objects s).

(** ** Operations *)

Definition EncodeCipRingSupervisorConfig : Encoder := fun _ m =>
  FillNextNMessageOctetsWithValueAndMoveToNextPosition 0 12 m.

Definition EncodeCipNodeAddress : Encoder := fun d m =>
  match d with
  | DStruct [DInt 4 ip; DBytes mac] =>
      m ← EncodeCipUdint (DInt 4 ip) m;
      EncodeCipEthernetLinkPhyisicalAddress (DBytes mac) m
  | _ => None
  end.

Definition dlr_row (k type : Z) (enc : Encoder) (address : nat) (flags : Z) : AttributeRow :=
  mkRow k type enc None (kDlrAddress + address) flags.

(** There is no attribute 9; the zero node serves attributes 6 and 7. *)
Definition dlr_rows : list AttributeRow :=
  [dlr_row 1 kCipUsint EncodeCipUsint 1 kGetableSingleAndAll;
   dlr_row 2 kCipUsint EncodeCipUsint 2 kGetableSingleAndAll;
   dlr_row 3 kCipUsint EncodeCipUsint 3 kGetableAll;
   dlr_row 4 kCipAny EncodeCipRingSupervisorConfig 4 kGetableAllDummy;
   dlr_row 5 kCipUint EncodeCipUint 5 kGetableAll;
   dlr_row 6 kCipAny EncodeCipNodeAddress 6 kGetableAll;
   dlr_row 7 kCipAny EncodeCipNodeAddress 6 kGetableAll;
   dlr_row 8 kCipUint EncodeCipUint 8 kGetableAll;
   dlr_row 10 kCipAny EncodeCipNodeAddress 10 kGetableSingleAndAll;
   dlr_row 11 kCipUsint EncodeCipUsint 11 kGetableAll;
   dlr_row 12 kCipDword EncodeCipDword 12 kGetableSingleAndAll].

Definition dlr_services : list CommonService :=
  [(kGetAttributeSingle, FnGetAttributeSingle, "GetAttributeSingle"%string);
   (kGetAttributeAll, FnGetAttributeAll, "GetAttributeAll"%string)].

Definition dlr_capabilities (g : CipDlrObject) : CipDlrObject :=
  mkDlr (network_topology g) (network_status g) (active_supervisor_address g)
    (kDlrCapBeaconBased .| kDlrCapFlushTableFrame).

(** [g] is [g_dlr] before the call. *)
Definition CipDlrInit (g : CipDlrObject) (s : CipStack) : option (EipStatus * CipStack) :=
  '(s, n) ← CreateCipClass kCipDlrClassCode 0 7 2 11 12 2 1 "DLR" DLR_CLASS_REVISION None s;
  s ← add_services dlr_services n s;
  s ← bind_attributes 1 dlr_rows n s;
  Some (kEipStatusOk, store_dlr (dlr_capabilities g) s).

(** ** Lemmas *)

Definition dlr_holds (g : CipDlrObject) (s : CipStack) : Prop :=
  Forall (λ x, objects s !! x.1 = Some x.2) (dlr_objects g).

Lemma dlr_holds_store g s : dlr_holds g (store_dlr g s).
Proof.
  unfold dlr_holds, dlr_objects. rewrite !list.Forall_cons.
  repeat split; try (by constructor); by apply lookup_union_Some_l.
Qed.

Lemma dlr_blank n name :
  ∃ c0 x c m,
    AddCipInstances (TheClass n) (new_class n kCipDlrClassCode 0 11 12 2 name DLR_CLASS_REVISION) 1
      = Some (c0, x) ∧
    standard_class 2 (AllocateAttributeMasks c0,
      AllocateAttributeMasks (new_meta_class n 0 7 2 name)) = Some (c, m) ∧
    blank_class n kCipDlrClassCode 11 12 2 [1] c.
Proof.
  do 4 eexists. split; [reflexivity |].
  split; [lazy -[EncodeCipUint String.append]; reflexivity |].
  split; cbn; try done.
  intros k Hk. assert (k / 8 < 2) by (apply Z.div_lt_upper_bound; lia).
  repeat split; (apply (mask_bit_zeros 2); lia).
Qed.

Lemma dlr_created g s :
  GetCipClass s kCipDlrClassCode = None →
  ∃ s' i c m, CipDlrInit g s = Some (kEipStatusOk, s') ∧
    classes s' = classes s ++ [(c, m)] ∧
    GetCipClass s' kCipDlrClassCode = Some (length (classes s)) ∧
    table_object (length (classes s)) 0 dlr_rows s' i c ∧ dlr_holds (dlr_capabilities g) s' ∧
    (∀ a, (a <= kDlrAddress ∨ kDlrAddress + 12 < a)%nat → objects s' !! a = objects s !! a) ∧
    services c = common_service <$> dlr_services.
Proof.
  intros Hn. set (n := length (classes s)).
  destruct (dlr_blank n "DLR") as (c0 & x & c & m & E0 & E & Hb).
  destruct (build_services_first dlr_rows dlr_services 0 12 kCipDlrClassCode c m s)
    as (i & c' & Eb & Hs & Hcode).
  { exact Hb. } { repeat constructor; cbn; lia. }
  { apply (bool_decide_unpack _). by vm_compute. } { apply (bool_decide_unpack _). by vm_compute. }
  exists (store_dlr (dlr_capabilities g) (RegisterCipClass c' m s)), i, c', m. split.
  { unfold CipDlrInit.
    rewrite (CreateCipClass_instances kCipDlrClassCode 0 7 2 11 12 2 1 "DLR" DLR_CLASS_REVISION
      s c0 x c m) by done.
    cbn [mbind option_bind] in Eb |- *. fold n in Eb |- *.
    destruct (add_services dlr_services n _) as [s1|]; [|discriminate Eb].
    cbn [mbind option_bind] in Eb |- *. by rewrite Eb. }
  split; [done |]. split; [by apply (get_registered_code c' m s) |]. split.
  { eapply single_table; [apply (get_registered c' m s) | exact Hs |].
    apply (bool_decide_unpack _). by vm_compute. }
  split; [apply dlr_holds_store |]. split; [|by eapply single_services]. intros a Ha.
  apply stored_elsewhere. unfold dlr_objects, kDlrAddress in *. not_a_member.
Qed.

Definition node_bytes (v : CipNodeAddress) : list Z := le_bytes 4 (device_ip v) ++ device_mac v.

Lemma writes_node v :
  length (device_mac v) = 6%nat → writes (EncodeCipNodeAddress (node_data v)) (node_bytes v).
Proof.
  intros Hl. apply (writes_bind (EncodeCipUdint (DInt 4 _))); [apply writes_Dint |].
  apply writes_put. intros m. cbn [EncodeCipEthernetLinkPhyisicalAddress].
  rewrite <-(app_nil_r (device_mac v)) at 1. apply append_buffer_app. by rewrite Hl.
Qed.

(** The reply to Get Attributes All. *)
Definition dlr_bytes (g : CipDlrObject) : list (list Z) :=
  [le_bytes 1 (network_topology g); le_bytes 1 (network_status g); le_bytes 1 0xFF;
   replicate 12 0; le_bytes 2 0; node_bytes s_zero_node; node_bytes s_zero_node;
   le_bytes 2 0xFFFF; node_bytes (active_supervisor_address g); le_bytes 1 0;
   le_bytes 4 (capability_flags g)].

Definition node_wf (v : CipNodeAddress) : Prop :=
  length (device_mac v) = 6%nat ∧ bytes (device_mac v).

Lemma node_appends v out :
  node_wf v → Z.of_nat (length out) + 10 <= 512 →
  appends EncodeCipNodeAddress (node_data v) out (node_bytes v).
Proof.
  intros [Hl Hb] Ho. apply value_appends; [by apply writes_node | |].
  - apply bytes_app. split; [apply le_bytes_bytes | done].
  - unfold node_bytes. rewrite length_app, length_le_bytes, Hl. lia.
Qed.

Lemma dlr_rows_append g s :
  dlr_holds g s → node_wf (active_supervisor_address g) → rows_append s [] dlr_rows (dlr_bytes g).
Proof.
  unfold dlr_holds, dlr_objects. rewrite !list.Forall_cons.
  intros (H1 & H2 & H3 & H4 & H5 & H6 & H8 & H10 & H11 & H12 & _) Hwf. cbn [fst snd] in *.
  assert (Hz : node_wf s_zero_node) by (split; [done | apply bytes_zeros]).
  assert (Hl : ∀ v, node_wf v → length (node_bytes v) = 10%nat).
  { intros v [Hv _]. unfold node_bytes. by rewrite length_app, length_le_bytes, Hv. }
  pose proof (Hl _ Hz) as Lz. pose proof (Hl _ Hwf) as La.
  unfold dlr_bytes, dlr_rows. cbn [rows_append].
  wire_step H1 writes_Sint. wire_step H2 writes_Sint. wire_step H3 writes_Sint.
  split; [eexists; split; [exact H4 | apply value_appends; [by apply (writes_zeros 12) | apply bytes_zeros | lengths]] |].
  wire_step H5 writes_Int.
  split; [eexists; split; [exact H6 | apply node_appends; [done | lengths]] |].
  split; [eexists; split; [exact H6 | apply node_appends; [done | lengths]] |].
  wire_step H8 writes_Int.
  split; [eexists; split; [exact H10 | apply node_appends; [done | lengths]] |].
  wire_step H11 writes_Sint. by wire_step H12 writes_Dint.
Qed.

(** The DLR object after start-up.  It declares itself beacon based and able to flush
    tables.  Get Attributes All is answered with its own four attributes between the
    constants that stand for those of a supervisor, 54 bytes in all; the constants, and
    attribute 9, which is not there, cannot be read on their own. *)
Theorem dlr_object_answers `{Application} g s req resp :
  GetCipClass s kCipDlrClassCode = None → node_wf (active_supervisor_address g) →
  ∃ s' req' m, CipDlrInit g s = Some (kEipStatusOk, s') ∧
    GetCipClass s' kCipDlrClassCode = Some (length (classes s)) ∧
    GetAttributeAll (length (classes s)) (ListInstance 0) req resp s'
    = Some (kEipStatusOkSend, req', reply req resp kCipErrorSuccess m, s') ∧
    wire m = concat (dlr_bytes (dlr_capabilities g)) ∧ length (wire m) = 54%nat ∧
    ∀ req, path_attribute req ∉ [1; 2; 10; 12] →
      GetAttributeSingle (length (classes s)) (ListInstance 0) req resp s'
      = Some (kEipStatusOkSend, req,
          reply req resp kCipErrorAttributeNotSupported InitializeENIPMessage, s').
Proof.
  intros Hn Hwf. destruct (dlr_created g s Hn) as (s' & i & c & m & E & _ & Hc & Ht & Hv & _).
  destruct (table_get_all (length (classes s)) 0 dlr_rows _ s' i c Ht req resp
    (dlr_bytes (dlr_capabilities g))) as (req' & m' & Eg & Hm).
  { done. } { by apply dlr_rows_append. }
  assert (Hw : wire m' = concat (dlr_bytes (dlr_capabilities g))) by by apply holds_wire.
  exists s', req', m'. split; [done |]. split; [done |]. split; [done |]. split; [done |]. split.
  - rewrite Hw. destruct Hwf as [Hl _]. unfold dlr_bytes, node_bytes. cbn [concat].
    rewrite !length_app, !length_le_bytes, length_replicate. cbn [dlr_capabilities active_supervisor_address].
    by rewrite Hl.
  - intros rq Hk. apply (table_get_refused _ 0 dlr_rows _ s' i c Ht). intros r Hr Er.
    rewrite !not_elem_of_cons in Hk. unfold dlr_rows in Hr. rewrite !elem_of_cons in Hr.
    repeat destruct Hr as [->|Hr]; try done; [cbn in Er; lia .. |]. by apply not_elem_of_nil in Hr.
Qed.

Lemma dlr_object_answers_witness :
  ∃ s' req' m, CipDlrInit zero_dlr (mkStack [] ∅) = Some (kEipStatusOk, s') ∧
    GetAttributeAll 0 (ListInstance 0) (single_request 0 []) empty_response s'
    = Some (kEipStatusOkSend, req',
        reply (single_request 0 []) empty_response kCipErrorSuccess m, s') ∧
    length (wire m) = 54%nat ∧
    GetAttributeSingle 0 (ListInstance 0) (single_request 9 []) empty_response s'
    = Some (kEipStatusOkSend, single_request 9 [],
        reply (single_request 9 []) empty_response kCipErrorAttributeNotSupported
          InitializeENIPMessage, s').
Proof.
  destruct (dlr_object_answers zero_dlr (mkStack [] ∅) (single_request 0 []) empty_response)
    as (s' & req' & m & E & _ & Eg & _ & Hl & Hr).
  - reflexivity.
  - split; [reflexivity | apply (bool_decide_unpack _); by vm_compute].
  - exists s', req', m. split; [exact E |]. split; [exact Eg |]. split; [exact Hl |].
    apply Hr. apply (bool_decide_unpack _). by vm_compute.
Defined.
