(* ===== verification/NetHandler.v ===== *)
(** * [ports/generic_networkhandler.c]: the network handler

    The loop at the bottom of the device: it waits for sockets, reads messages from TCP
    connections and datagrams from UDP sockets, gives them to the encapsulation layer or
    to the I/O connections, sends the replies, watches for inactive sockets, and calls the
    connection manager every timer tick.  The operating system is an interface. *)

From S2P Require Import Prelude EndianConv EPath CipStrings CipTypes CipCodec CipClasses CipServices Identity Assembly.
From S2P Require Import MessageRouter SocketTimer ConnRecord ConnObject ConnList LinkedList AppConType IoClose EncapData Cpf Encap ConnPath ConnService IoOpen IoData ConnTimer.
From S2P Require Import NetObject Qos TcpIp.
From stdpp Require Import strings gmap.
Open Scope Z_scope.

(** ** The operating system *)

(** What [recv] and [recvfrom] return: some bytes, 0, or an error. *)
Inductive ReadResult :=
| Received (bs : list Z)
| ConnectionClosed
| WouldBlock
| ReadError.

Inductive SelectResult :=
| Interrupted
| SelectFailed
| Ready (number : Z) (set : gset Z).

(** [OS] is the state of the operating system as the handler sees it: what has arrived,
    the clock, what has been sent; [rand] is the next draw of the C library. *)
Class OperatingSystem (OS : Type) := {
  recv : Z → Z → OS → ReadResult * OS;
  recvfrom : Z → Z → OS → ReadResult * SockAddr * OS;
  send : Z → list Z → OS → OS;
  sendto : Z → SockAddr → list Z → OS → OS;
  accept : Z → OS → Z * OS;
  select : Z → gset Z → Z → OS → SelectResult * OS;
  getpeername : Z → OS → SockAddr;
  GetMilliSeconds : OS → Z * OS;
  rand : OS → Z }.

(** The functions behind [timeout_checker_array]. *)
Class TimeoutCheckers := {
  check_timeout : nat → Z → DeviceEncapsulation → option DeviceEncapsulation }.

Definition kOpenerTimerTickInMilliSeconds : Z := 10.
Definition OPENER_TIMEOUT_CHECKER_ARRAY_SIZE : nat := 10.
Definition PC_OPENER_ETHERNET_BUFFER_SIZE : Z := 512.
Definition ENCAPSULATION_HEADER_LENGTH : Z := 24.

(** The macros on socket sets are defined for sockets below this number only. *)
Definition FD_SETSIZE : Z := 1024.

(** ** State *)

Record NetworkHandler (OS : Type) := mkNetworkHandler {
  os : OS;
  device : DeviceEncapsulation;
  master_socket : gset Z;
  read_socket : gset Z;
  highest_socket_handle : Z;
  g_current_active_tcp_socket : Z;
  g_last_time : Z;
  elapsed_time : Z;
  tcp_listener : Z;
  udp_unicast_listener : Z;
  udp_global_broadcast_listener : Z;
  timeout_checker_array : list (option nat) }.
Arguments mkNetworkHandler {OS}. Arguments os {OS}. Arguments device {OS}.
Arguments master_socket {OS}. Arguments read_socket {OS}. Arguments highest_socket_handle {OS}.
Arguments g_current_active_tcp_socket {OS}. Arguments g_last_time {OS}.
Arguments elapsed_time {OS}. Arguments tcp_listener {OS}. Arguments udp_unicast_listener {OS}.
Arguments udp_global_broadcast_listener {OS}. Arguments timeout_checker_array {OS}.

Section Setters.
Context {OS : Type}.
Implicit Type s : NetworkHandler OS.

Definition set_os (v : OS) s : NetworkHandler OS :=
  mkNetworkHandler v (device s) (master_socket s) (read_socket s) (highest_socket_handle s)
    (g_current_active_tcp_socket s) (g_last_time s) (elapsed_time s) (tcp_listener s)
    (udp_unicast_listener s) (udp_global_broadcast_listener s) (timeout_checker_array s).
Definition set_device (v : DeviceEncapsulation) s : NetworkHandler OS :=
  mkNetworkHandler (os s) v (master_socket s) (read_socket s) (highest_socket_handle s)
    (g_current_active_tcp_socket s) (g_last_time s) (elapsed_time s) (tcp_listener s)
    (udp_unicast_listener s) (udp_global_broadcast_listener s) (timeout_checker_array s).
Definition set_master (v : gset Z) s : NetworkHandler OS :=
  mkNetworkHandler (os s) (device s) v (read_socket s) (highest_socket_handle s)
    (g_current_active_tcp_socket s) (g_last_time s) (elapsed_time s) (tcp_listener s)
    (udp_unicast_listener s) (udp_global_broadcast_listener s) (timeout_checker_array s).
Definition set_read (v : gset Z) s : NetworkHandler OS :=
  mkNetworkHandler (os s) (device s) (master_socket s) v (highest_socket_handle s)
    (g_current_active_tcp_socket s) (g_last_time s) (elapsed_time s) (tcp_listener s)
    (udp_unicast_listener s) (udp_global_broadcast_listener s) (timeout_checker_array s).
Definition set_highest (v : Z) s : NetworkHandler OS :=
  mkNetworkHandler (os s) (device s) (master_socket s) (read_socket s) v
    (g_current_active_tcp_socket s) (g_last_time s) (elapsed_time s) (tcp_listener s)
    (udp_unicast_listener s) (udp_global_broadcast_listener s) (timeout_checker_array s).
Definition set_active (v : Z) s : NetworkHandler OS :=
  mkNetworkHandler (os s) (device s) (master_socket s) (read_socket s) (highest_socket_handle s)
    v (g_last_time s) (elapsed_time s) (tcp_listener s)
    (udp_unicast_listener s) (udp_global_broadcast_listener s) (timeout_checker_array s).
Definition set_times (last elapsed : Z) s : NetworkHandler OS :=
  mkNetworkHandler (os s) (device s) (master_socket s) (read_socket s) (highest_socket_handle s)
    (g_current_active_tcp_socket s) last elapsed (tcp_listener s)
    (udp_unicast_listener s) (udp_global_broadcast_listener s) (timeout_checker_array s).
Definition set_checkers (v : list (option nat)) s : NetworkHandler OS :=
  mkNetworkHandler (os s) (device s) (master_socket s) (read_socket s) (highest_socket_handle s)
    (g_current_active_tcp_socket s) (g_last_time s) (elapsed_time s) (tcp_listener s)
    (udp_unicast_listener s) (udp_global_broadcast_listener s) v.
End Setters.

Definition set_actual_time (t : Z) (d : DeviceEncapsulation) : DeviceEncapsulation :=
  mkEncap (g_registered_sessions d) (g_timestamps d) t (g_delayed_encapsulation_messages d)
    (g_service_information d) (sent_datagrams d) (world d).

(** ** Socket sets *)

(** [FD_SET] and [FD_ISSET] *)
Definition fd_valid (socket : Z) : bool := (0 <=? socket) && (socket <? FD_SETSIZE).
Definition fd_set (socket : Z) (set : gset Z) : option (gset Z) :=
  assert! fd_valid socket; Some ({[socket]} ∪ set).
Definition fd_isset (socket : Z) (set : gset Z) : option bool :=
  assert! fd_valid socket; Some (bool_decide (socket ∈ set)).

Definition GetMaxSocket (socket1 socket2 socket3 socket4 : Z) : Z :=
  if (socket2 <? socket1) && (socket3 <? socket1) && (socket4 <? socket1) then socket1
  else if (socket1 <? socket2) && (socket3 <? socket2) && (socket4 <? socket2) then socket2
  else if (socket1 <? socket3) && (socket2 <? socket3) && (socket4 <? socket3) then socket3
  else socket4.

Definition network (d : DeviceEncapsulation) : NetworkStatus := g_network_status (stack (world d)).
Definition closings (d : DeviceEncapsulation) : list Z := closed_sockets (Encap.manager d).

(** The sockets closed after the first [k]. *)
Definition closed_since (k : nat) (d : DeviceEncapsulation) : list Z :=
  take (length (closings d) - k) (closings d).

Section Handler.
Context {OS : Type} `{OperatingSystem OS} `{IoPlatform} `{AssemblyApplication}.
Context `{RunIdleApplication} `{Application} `{TimeoutCheckers}.
#[local] Existing Instance io_callbacks.
#[local] Existing Instance io_open.
Implicit Type s : NetworkHandler OS.

(** The sockets the device closed while going from [d] to [d'] leave the master set; the
    I/O sockets it created join it, if they were not closed again, and may be the highest
    ones. *)
Definition follow (d d' : DeviceEncapsulation) s : option (NetworkHandler OS) :=
  let closed := closed_since (length (closings d)) d' in
  let created := List.filter (λ x, negb (kEipInvalidSocket =? x.1))
    (take (length (created_sockets (network d')) - length (created_sockets (network d)))
       (created_sockets (network d'))) in
  let kept := List.filter (λ x, bool_decide (x.1 ∉ closed_since x.2 d')) created in
  assert! forallb fd_valid (closed ++ created.*1);
  Some (set_device d'
    (set_master (list_to_set kept.*1 ∪ (master_socket s ∖ list_to_set closed))
       (set_highest (foldr Z.max (highest_socket_handle s) created.*1) s))).

(** A function of the device, run by the handler. *)
Definition in_device {A} (f : DeviceEncapsulation → option (A * DeviceEncapsulation)) s
  : option (A * NetworkHandler OS) :=
  '(a, d) ← f (device s); s ← follow (device s) d s; Some (a, s).

Definition in_device_ (f : DeviceEncapsulation → option DeviceEncapsulation) s
  : option (NetworkHandler OS) :=
  d ← f (device s); follow (device s) d s.

Definition peer s (socket : Z) : Z := sin_addr (getpeername socket (os s)).

(** [g_tcpip.encapsulation_inactivity_timeout] *)
Definition inactivity_timeout (d : DeviceEncapsulation) : option Z :=
  v ← objects (cip_stack (stack (world d))) !! (kTcpIpAddress + 13)%nat; int_object 2 v.

(** What the encapsulation layer reads of the device. *)
Definition encapsulation_device (d : DeviceEncapsulation) : option Device :=
  timeout ← inactivity_timeout d;
  Some (mkDevice host_order (g_identity (stack (world d))) (ConnService.ip_address (network d))
          timeout).

(** The bit is cleared, so that no later check of the cycle finds it. *)
Definition CheckSocketSet (socket : Z) s : option (bool * NetworkHandler OS) :=
  readable ← fd_isset socket (read_socket s);
  if readable : bool then
    open ← fd_isset socket (master_socket s);
    Some (open, set_read (read_socket s ∖ {[socket]}) s)
  else Some (false, s).

(** A new connection has no timer yet; there must be a free one. *)
Definition CheckAndHandleTcpListenerSocket s : option (NetworkHandler OS) :=
  '(ready, s) ← CheckSocketSet (tcp_listener s) s;
  if ready : bool then
    let '(new_socket, o) := accept (tcp_listener s) (os s) in
    let s := set_os o s in
    if new_socket =? kEipInvalidSocket then Some s
    else
      assert! match SocketTimerArrayGetEmptySocketTimer (g_timestamps (device s)) with
              | Some _ => true | None => false end;
      master ← fd_set new_socket (master_socket s);
      let s := set_master master s in
      Some (if highest_socket_handle s <? new_socket then set_highest new_socket s else s)
  else Some s.

(** ** UDP requests *)

(** The receive buffer, zeros behind what was read. *)
Definition read_into (at_ : nat) (bs : list Z) (buffer : list Z) : list Z :=
  take at_ buffer ++ bs ++ drop (at_ + length bs) buffer.

Definition zero_buffer : list Z := replicate (Z.to_nat PC_OPENER_ETHERNET_BUFFER_SIZE) 0.

(** The common part of the two UDP sockets: [listener] is the one that is read; replies
    always go out by the unicast socket. *)
Definition handle_udp (listener : Z) (unicast : bool) s : option (NetworkHandler OS) :=
  '(ready, s) ← CheckSocketSet listener s;
  if ready : bool then
    match recvfrom listener PC_OPENER_ETHERNET_BUFFER_SIZE (os s) with
    | (Received bs, from_address, o) =>
        let s := set_os o s in
        dev ← encapsulation_device (device s);
        '(need_to_send, m, s) ← in_device (λ d,
            '(status, _, m, d) ← HandleReceivedExplictUdpData dev (udp_unicast_listener s)
                from_address (rand o) (read_into 0 bs zero_buffer) (Z.of_nat (length bs)) unicast
                InitializeENIPMessage d;
            Some ((status, m), d)) s;
        Some (if bool_decide (need_to_send = kEipStatusOkSend)
              then set_os (sendto (udp_unicast_listener s) from_address (wire m) (os s)) s else s)
    | (_, _, o) => Some (set_os o s)
    end
  else Some s.

Definition CheckAndHandleUdpUnicastSocket s : option (NetworkHandler OS) :=
  handle_udp (udp_unicast_listener s) true s.
Definition CheckAndHandleUdpGlobalBroadcastSocket s : option (NetworkHandler OS) :=
  handle_udp (udp_global_broadcast_listener s) false s.

(** ** TCP messages *)

(** The loop that drops a message: reads of at most [data_sent] bytes until [data_size], a
    [size_t], is zero.  [fuel] bounds the reads. *)
Inductive DropResult := Dropped | DropClosed | DropBlocked | DropFailed.

Fixpoint drop_message (fuel : nat) (socket data_size data_sent : Z) (o : OS)
  : option (DropResult * OS) :=
  match fuel with
  | O => None
  | S fuel =>
      match recv socket data_sent o with
      | (ConnectionClosed, o) => Some (DropClosed, o)
      | (WouldBlock, o) => Some (DropBlocked, o)
      | (ReadError, o) => Some (DropFailed, o)
      | (Received bs, o) =>
          let data_size := u64 (data_size - Z.of_nat (length bs)) in
          let data_sent :=
            if (data_size <? PC_OPENER_ETHERNET_BUFFER_SIZE) && negb (data_size =? 0)
            then data_size else data_sent in
          if 0 <? data_size then drop_message fuel socket data_size data_sent o
          else Some (Dropped, o)
      end
  end.

Definition update_timer (timer : option nat) (d : DeviceEncapsulation)
  : option DeviceEncapsulation :=
  ts ← at_timer_checked timer (SocketTimerSetLastUpdate (g_actual_time d)) (g_timestamps d);
  Some (set_timestamps ts d).

Definition remove_timers (socket : Z) s : option (NetworkHandler OS) :=
  in_device_ (λ d,
    ts ← RemoveSocketTimerFromList (timer_fuel (g_timestamps d)) socket (g_timestamps d);
    Some (set_timestamps ts d)) s.

(** The connection is closed by the client: timer and session go. *)
Definition client_closed (socket : Z) s : option (EipStatus * NetworkHandler OS) :=
  s ← remove_timers socket s;
  s ← in_device_ (RemoveSession socket) s;
  Some (kEipStatusError, s).

(** A complete message, [data_size] bytes of [buffer]; [timer] is the socket's timer
    before the message. *)
Definition handle_tcp_message (socket : Z) (timer : option nat) (buffer : list Z)
    (data_size : Z) s : option (EipStatus * NetworkHandler OS) :=
  let s := set_active socket s in
  let sender_address := getpeername socket (os s) in
  dev ← encapsulation_device (device s);
  '(need_to_send, m, s) ← in_device (λ d,
      '(status, _, m, d) ← HandleReceivedExplictTcpData dev socket buffer data_size
          sender_address InitializeENIPMessage d;
      Some ((status, m), d)) s;
  s ← in_device_ (update_timer timer) s;
  let s := set_active kEipInvalidSocket s in
  if bool_decide (need_to_send = kEipStatusOkSend) then
    s ← in_device_ (update_timer timer) (set_os (send socket (wire m) (os s)) s);
    Some (kEipStatusOk, s)
  else Some (kEipStatusOk, s).

(** One message: four bytes, then as many as they announce.  Too large ones are dropped,
    fragments are an error. *)
Definition HandleDataOnTcpSocket (fuel : nat) (socket : Z) s
  : option (EipStatus * NetworkHandler OS) :=
  let '(r, o) := recv socket 4 (os s) in
  let s := set_os o s in
  let socket_timer := SocketTimerArrayGetSocketTimer (g_timestamps (device s)) socket in
  match r with
  | ConnectionClosed => client_closed socket s
  | WouldBlock => Some (kEipStatusOk, s)
  | ReadError => Some (kEipStatusError, s)
  | Received bs =>
      let incoming_message := read_into 0 bs zero_buffer in
      '(announced, _) ← GetUintFromMessage (drop 2 incoming_message);
      let data_size := announced + ENCAPSULATION_HEADER_LENGTH - 4 in
      if PC_OPENER_ETHERNET_BUFFER_SIZE - 4 <? data_size then
        '(r, o) ← drop_message fuel socket data_size PC_OPENER_ETHERNET_BUFFER_SIZE (os s);
        let s := set_os o s in
        match r with
        | DropClosed => s ← remove_timers socket s; Some (kEipStatusError, s)
        | DropBlocked => Some (kEipStatusOk, s)
        | DropFailed => Some (kEipStatusError, s)
        | Dropped => s ← in_device_ (update_timer socket_timer) s; Some (kEipStatusOk, s)
        end
      else
        let '(r, o) := recv socket data_size (os s) in
        let s := set_os o s in
        match r with
        | ConnectionClosed => client_closed socket s
        | WouldBlock => Some (kEipStatusOk, s)
        | ReadError => Some (kEipStatusError, s)
        | Received bs =>
            if Z.of_nat (length bs) =? data_size
            then handle_tcp_message socket socket_timer (read_into 4 bs incoming_message)
                   (data_size + 4) s
            else Some (kEipStatusError, s)
        end
  end.

(** ** I/O datagrams *)

Definition close_of (c : nat) (d : DeviceEncapsulation) : option DeviceEncapsulation :=
  m ← close_connection c (Encap.manager d); Some (set_manager m d).

(** The datagram is read from the I/O socket created last, whichever is ready. *)
Definition consume_datagram (c : nat) s : option (bool * NetworkHandler OS) :=
  match recvfrom (udp_io_messaging (network (device s))) PC_OPENER_ETHERNET_BUFFER_SIZE (os s) with
  | (Received bs, from_address, o) =>
      s ← in_device_ (λ d,
            '(_, w) ← HandleReceivedConnectedData (read_into 0 bs zero_buffer)
                        (Z.of_nat (length bs)) from_address (world d);
            Some (set_world w d)) (set_os o s);
      Some (true, s)
  | (WouldBlock, _, o) => Some (false, set_os o s)
  | (_, _, o) => s ← in_device_ (close_of c) (set_os o s); Some (true, s)
  end.

(** The successor is fetched first, as the close function may free the node. *)
Fixpoint consume_loop (fuel : nat) (iterator : ptr) s : option (NetworkHandler OS) :=
  match fuel with
  | O => None
  | S fuel =>
      match iterator with
      | None => Some s
      | Some _ =>
          n ← deref iterator (connection_nodes (Encap.manager (device s)));
          c ← data n;
          o ← connection_pool (Encap.manager (device s)) !! c;
          if negb (kEipInvalidSocket =? socket_consuming o) then
            '(ready, s) ← CheckSocketSet (socket_consuming o) s;
            '(go_on, s) ← (if ready : bool then consume_datagram c s else Some (true, s));
            if go_on : bool then consume_loop fuel (next n) s else Some s
          else consume_loop fuel (next n) s
      end
  end.

Definition CheckAndHandleConsumingUdpSocket s : option (NetworkHandler OS) :=
  consume_loop loop_fuel (first (connection_list (Encap.manager (device s)))) s.

(** ** The cycle *)

Definition close_tcp (socket : Z) s : option (NetworkHandler OS) :=
  s ← in_device_ (CloseTcpSocket socket) s;
  in_device_ (RemoveSession socket) s.

(** [for(socket = 0; socket <= highest_socket_handle; socket++)]; no socket is above
    [FD_SETSIZE]. *)
Fixpoint for_sockets (body : Z → NetworkHandler OS → option (NetworkHandler OS)) (fuel : nat)
    (socket : Z) s : option (NetworkHandler OS) :=
  match fuel with
  | O => None
  | S fuel =>
      if socket <=? highest_socket_handle s
      then s ← body socket s; for_sockets body fuel (socket + 1) s else Some s
  end.

Definition socket_fuel : nat := S (Z.to_nat FD_SETSIZE).

Definition receive_tcp (fuel : nat) (socket : Z) s : option (NetworkHandler OS) :=
  '(ready, s) ← CheckSocketSet socket s;
  if ready : bool then
    '(status, s) ← HandleDataOnTcpSocket fuel socket s;
    if bool_decide (status = kEipStatusError) then close_tcp socket s else Some s
  else Some s.

Definition check_inactivity (socket : Z) s : option (NetworkHandler OS) :=
  in_device_ (λ d, timeout ← inactivity_timeout d; CheckEncapsulationInactivity timeout socket d) s.

Fixpoint run_checkers (elapsed : Z) (l : list (option nat)) s : option (NetworkHandler OS) :=
  match l with
  | [] => Some s
  | Some k :: l => s ← in_device_ (check_timeout k elapsed) s; run_checkers elapsed l s
  | None :: l => run_checkers elapsed l s
  end.

(** The manager is called with all the time since it was called last. *)
Definition keep_time s : option (NetworkHandler OS) :=
  let '(now, o) := GetMilliSeconds (os s) in
  let s := set_device (set_actual_time now (device s)) (set_os o s) in
  let elapsed := u64 (elapsed_time s + u64 (now - g_last_time s)) in
  let s := set_times now elapsed s in
  if kOpenerTimerTickInMilliSeconds <=? elapsed then
    '(_, s) ← in_device (ManageConnections (peer s) elapsed) s;
    s ← run_checkers elapsed (timeout_checker_array s) s;
    Some (set_times (g_last_time s) 0 s)
  else Some s.

(** Microseconds to wait for sockets. *)
Definition wait_time s : Z :=
  (if elapsed_time s <? kOpenerTimerTickInMilliSeconds
   then kOpenerTimerTickInMilliSeconds - elapsed_time s else 0) * 1000.

Definition handle_sockets (fuel : nat) s : option (NetworkHandler OS) :=
  s ← CheckAndHandleTcpListenerSocket s;
  s ← CheckAndHandleUdpUnicastSocket s;
  s ← CheckAndHandleUdpGlobalBroadcastSocket s;
  s ← CheckAndHandleConsumingUdpSocket s;
  for_sockets (receive_tcp fuel) socket_fuel 0 s.

Definition NetworkHandlerProcessCyclic (fuel : nat) s : option (EipStatus * NetworkHandler OS) :=
  let s := set_read (master_socket s) s in
  match select (highest_socket_handle s + 1) (read_socket s) (wait_time s) (os s) with
  | (Interrupted, o) => Some (kEipStatusOk, set_os o s)
  | (SelectFailed, o) => Some (kEipStatusError, set_os o s)
  | (Ready number set, o) =>
      let s := set_read set (set_os o s) in
      s ← (if 0 <? number then handle_sockets fuel s else Some s);
      s ← for_sockets check_inactivity socket_fuel 0 s;
      s ← keep_time s;
      Some (kEipStatusOk, s)
  end.

Definition close_udp (socket : Z) s : option (NetworkHandler OS) :=
  in_device_ (λ d, Some (set_manager (CloseUdpSocket socket (Encap.manager d)) d)) s.

Definition NetworkHandlerFinish s : option (EipStatus * NetworkHandler OS) :=
  s ← in_device_ (CloseTcpSocket (tcp_listener s)) s;
  s ← close_udp (udp_unicast_listener s) s;
  s ← close_udp (udp_global_broadcast_listener s) s;
  Some (kEipStatusOk, s).

(** The first empty element; a full array drops the function. *)
Fixpoint insert_checker (f : nat) (l : list (option nat)) : list (option nat) :=
  match l with
  | [] => []
  | None :: l => Some f :: l
  | Some g :: l => Some g :: insert_checker f l
  end.

Definition RegisterTimeoutChecker (timeout_checker_function : nat) s : NetworkHandler OS :=
  set_checkers (insert_checker timeout_checker_function (timeout_checker_array s)) s.
End Handler.

(** ** Lemmas: socket sets *)

Lemma GetMaxSocket_spec a b c d :
  (a ≠ b ∧ a ≠ c ∧ b ≠ c → GetMaxSocket a b c d = Z.max (Z.max a b) (Z.max c d)) ∧
  GetMaxSocket a b c d ∈ [a; b; c; d].
Proof.
  unfold GetMaxSocket. rewrite !elem_of_cons.
  destruct (Z.ltb_spec b a), (Z.ltb_spec c a), (Z.ltb_spec d a), (Z.ltb_spec a b), (Z.ltb_spec c b),
    (Z.ltb_spec d b), (Z.ltb_spec a c), (Z.ltb_spec b c), (Z.ltb_spec d c); cbn [andb];
    (split; [lia | tauto]).
Qed.

(** Two equal sockets are the maximum, but the fourth is returned. *)
Lemma GetMaxSocket_tie : GetMaxSocket 5 5 0 3 = 3.
Proof. reflexivity. Qed.

Lemma insert_checker_spec f l :
  length (insert_checker f l) = length l ∧
  if bool_decide (None ∈ l) then ∃ k, l !! k = Some None ∧ insert_checker f l = <[k := Some f]> l
  else insert_checker f l = l.
Proof.
  induction l as [|[g|] l [IHl IH]]; cbn [insert_checker length]; [done | |].
  - split; [by rewrite IHl |].
    rewrite (bool_decide_ext (None ∈ Some g :: l) (None ∈ l)) by set_solver.
    destruct (bool_decide (None ∈ l)); [|by rewrite IH].
    destruct IH as (k & Hk & ->). exists (S k). by split.
  - split; [done |]. rewrite bool_decide_eq_true_2 by left. by exists 0%nat.
Qed.

Section HandlerLemmas.
Context {OS : Type} `{OperatingSystem OS} `{IoPlatform} `{AssemblyApplication}.
Context `{RunIdleApplication} `{Application} `{TimeoutCheckers}.
#[local] Existing Instance io_callbacks.
#[local] Existing Instance io_open.
Implicit Type s : NetworkHandler OS.

(** A socket is served only while it is in both sets, and once in a cycle. *)
Lemma CheckSocketSet_spec socket s :
  fd_valid socket = true →
  ∃ s', CheckSocketSet socket s
    = Some (bool_decide (socket ∈ read_socket s) && bool_decide (socket ∈ master_socket s), s') ∧
    read_socket s' = read_socket s ∖ {[socket]} ∧ device s' = device s ∧ os s' = os s ∧
    master_socket s' = master_socket s.
Proof.
  intros Hf. unfold CheckSocketSet, fd_isset. rewrite Hf. cbn [mbind option_bind].
  case_bool_decide as Hr; cbn [mbind option_bind andb]; eexists; (split; [reflexivity |]); [done |].
  split; [|done]. set_solver.
Qed.

Lemma follow_same d d' s :
  closings d' = closings d → created_sockets (network d') = created_sockets (network d) →
  follow d d' s = Some (set_device d' (set_master (master_socket s) s)).
Proof.
  intros Hc Hn. unfold follow, closed_since. rewrite Hc, Hn, !Nat.sub_diag, !take_0.
  cbn [List.filter app forallb fmap list_fmap].
  cbn [list_to_set foldr]. do 3 f_equal; [set_solver |]. by destruct s.
Qed.

Lemma read_header_body header body :
  length header = 4%nat → (4 + length body <= 512)%nat →
  read_into 4 body (read_into 0 header zero_buffer)
  = header ++ body ++ replicate (512 - (4 + length body)) 0.
Proof.
  intros Hh Hb.
  assert (E : read_into 0 header zero_buffer = header ++ replicate 508 0).
  { unfold read_into, zero_buffer. by rewrite Hh, drop_replicate. }
  rewrite E. unfold read_into. rewrite take_app_length' by done. f_equal. f_equal.
  rewrite drop_app_ge by lia. rewrite drop_replicate. f_equal. lia.
Qed.

(** ** TCP as a stream of messages *)

(** What is documented about a TCP socket: a read of a positive size returns, in order,
    some of the bytes that are pending, and at most that many.  [whole] adds that a
    read of [n] bytes returns all of them. *)
Record tcp_stream (socket : Z) (pending : OS → list Z) : Prop := {
  stream_read : ∀ n o, 0 < n → pending o ≠ [] → ∃ k o',
    (1 <= k)%nat ∧ Z.of_nat k <= n ∧ (k <= length (pending o))%nat ∧
    recv socket n o = (Received (take k (pending o)), o') ∧ pending o' = drop k (pending o) }.

Definition whole (socket : Z) (pending : OS → list Z) (n : Z) : Prop :=
  ∀ o, n <= Z.of_nat (length (pending o)) → ∃ o',
    recv socket n o = (Received (take (Z.to_nat n) (pending o)), o') ∧
    pending o' = drop (Z.to_nat n) (pending o).

(** A message that announces [n] bytes behind its header: command, length, the rest of the
    header and the data. *)
Definition tcp_message (command n : Z) (rest : list Z) : list Z :=
  le_bytes 2 command ++ le_bytes 2 n ++ rest.

Definition message_wf (n : Z) (rest : list Z) : Prop :=
  is_u16 n ∧ Z.of_nat (length rest) = n + 20.

Lemma length_tcp_message command n (rest : list Z) :
  message_wf n rest → Z.of_nat (length (tcp_message command n rest)) = n + 24.
Proof.
  intros [_ Hl]. unfold tcp_message. rewrite !length_app, !length_le_bytes. lia.
Qed.

Lemma announced_size command n :
  is_u16 n →
  GetUintFromMessage (drop 2 (read_into 0 (le_bytes 2 command ++ le_bytes 2 n) zero_buffer))
  = Some (n, drop 4 zero_buffer).
Proof.
  intros Hn. unfold read_into.
  change (drop 2 (take 0 zero_buffer ++ (le_bytes 2 command ++ le_bytes 2 n)
    ++ drop (0 + length (le_bytes 2 command ++ le_bytes 2 n)) zero_buffer))
    with (le_bytes 2 n ++ drop 4 zero_buffer).
  by rewrite GetUint_le_id.
Qed.

(** The loop reads exactly the bytes of the message, however they are cut. *)
Lemma drop_message_exact socket pending fuel data_size data_sent o :
  tcp_stream socket pending →
  0 < data_size <= Z.of_nat (length (pending o)) → data_size < 2 ^ 64 →
  0 < data_sent <= data_size → (data_sent = 512 ∨ data_sent = data_size ∧ data_size < 512) →
  data_size <= Z.of_nat fuel →
  ∃ o', drop_message fuel socket data_size data_sent o = Some (Dropped, o') ∧
    pending o' = drop (Z.to_nat data_size) (pending o).
Proof.
  intros Hs. revert data_size data_sent o. induction fuel as [|fuel IH]; [lia |].
  intros size sent o Hsize Hmax Hsent Hcase Hfuel. cbn [drop_message].
  destruct (stream_read _ _ Hs sent o) as (k & o1 & K1 & K2 & K3 & -> & Hp); [lia | |].
  { intros E. rewrite E in Hsize. cbn in Hsize. lia. }
  rewrite length_take, Nat.min_l by lia. rewrite u64_id by (unfold is_u64; lia).
  destruct (Z.ltb_spec 0 (size - Z.of_nat k)) as [Hpos|Hzero].
  - set (sent' := if (size - Z.of_nat k <? PC_OPENER_ETHERNET_BUFFER_SIZE)
      && negb (size - Z.of_nat k =? 0) then size - Z.of_nat k else sent).
    assert (Hs' : sent' = 512 ∨ sent' = size - Z.of_nat k ∧ size - Z.of_nat k < 512).
    { unfold sent'. change PC_OPENER_ETHERNET_BUFFER_SIZE with 512.
      destruct (Z.ltb_spec (size - Z.of_nat k) 512); cbn [andb]; [|lia].
      rewrite (proj2 (Z.eqb_neq _ _)) by lia. by right. }
    assert (Hle : 0 < sent' <= size - Z.of_nat k).
    { unfold sent'. change PC_OPENER_ETHERNET_BUFFER_SIZE with 512.
      destruct (Z.ltb_spec (size - Z.of_nat k) 512); cbn [andb]; [|lia].
      rewrite (proj2 (Z.eqb_neq _ _)) by lia. cbn [negb]. lia. }
    destruct (IH (size - Z.of_nat k) sent' o1) as (o2 & E & Ho2); try done; try lia.
    { rewrite Hp, length_drop. lia. }
    exists o2. split; [exact E |]. rewrite Ho2, Hp, drop_drop. f_equal. lia.
  - exists o1. split; [done |]. rewrite Hp. f_equal. lia.
Qed.

Definition with_timer (socket : Z) s : DeviceEncapsulation → option DeviceEncapsulation :=
  update_timer (SocketTimerArrayGetSocketTimer (g_timestamps (device s)) socket).

(** The pending bytes of a message, cut behind the header's length and behind the data. *)
Lemma cut_message command n body following :
  message_wf n body →
  take 4 (tcp_message command n body ++ following) = le_bytes 2 command ++ le_bytes 2 n ∧
  drop 4 (tcp_message command n body ++ following) = body ++ following ∧
  take (Z.to_nat (n + 20)) (body ++ following) = body ∧
  drop (Z.to_nat (n + 20)) (body ++ following) = following.
Proof.
  intros [Hn Hl]. split_and!; [done | done | |].
  - apply take_app_length'. lia.
  - apply drop_app_length'. lia.
Qed.

(** C4.  TCP is a stream; the handler cuts it into messages.  When a complete message is
    pending, one call handles exactly its bytes and leaves what follows: a message that
    fits into the buffer is given to the encapsulation layer, with its length, one that
    announces at least 492 bytes is dropped by a loop that ends and touches nothing of the
    device but the socket's timer, in whatever pieces it arrives. *)
Theorem tcp_stream_framed fuel socket pending command n body following s :
  tcp_stream socket pending → whole socket pending 4 →
  message_wf n body → pending (os s) = tcp_message command n body ++ following →
  (n <= 488 → whole socket pending (n + 20) → ∃ o, pending o = following ∧
     HandleDataOnTcpSocket fuel socket s
     = handle_tcp_message socket (SocketTimerArrayGetSocketTimer (g_timestamps (device s)) socket)
         (tcp_message command n body ++ replicate (Z.to_nat (488 - n)) 0) (n + 24) (set_os o s)) ∧
  (492 <= n → n + 20 <= Z.of_nat fuel → ∃ o, pending o = following ∧
     HandleDataOnTcpSocket fuel socket s
     = (s ← in_device_ (with_timer socket s) (set_os o s); Some (kEipStatusOk, s))).
Proof.
  intros Hs Hfour Hwf Hp. pose proof Hwf as [Hn Hl].
  destruct (cut_message command n body following Hwf) as (T4 & D4 & Tn & Dn).
  destruct (Hfour (os s)) as (o1 & R4 & P4).
  { rewrite Hp, length_app, Nat2Z.inj_add, length_tcp_message by done. unfold is_u16 in Hn. lia. }
  change (Z.to_nat 4) with 4%nat in *. rewrite Hp in R4, P4. rewrite T4 in R4. rewrite D4 in P4.
  assert (HL : n + 20 <= Z.of_nat (length (pending o1))) by (rewrite P4, length_app; lia).
  unfold HandleDataOnTcpSocket. rewrite R4. cbn zeta iota beta.
  rewrite (announced_size command n Hn). cbn [mbind option_bind].
  change (PC_OPENER_ETHERNET_BUFFER_SIZE - 4) with 508.
  change ENCAPSULATION_HEADER_LENGTH with 24. replace (n + 24 - 4) with (n + 20) by lia.
  split.
  - intros Hfit Hw. rewrite (proj2 (Z.ltb_ge 508 (n + 20))) by lia.
    destruct (Hw o1 HL) as (o2 & R & P). rewrite P4, Tn in R. rewrite P4, Dn in P.
    exists o2. split; [done |]. cbn [os set_os]. rewrite R, Hl, Z.eqb_refl.
    rewrite read_header_body by first [by rewrite length_app, !length_le_bytes | lia].
    unfold tcp_message. rewrite <-!(assoc_L (++)).
    replace (512 - (4 + length body))%nat with (Z.to_nat (488 - n)) by lia.
    by replace (n + 20 + 4) with (n + 24) by lia.
  - intros Hbig Hfuel. rewrite (proj2 (Z.ltb_lt 508 (n + 20))) by (unfold is_u16 in Hn; lia).
    destruct (drop_message_exact socket pending fuel (n + 20) 512 o1) as (o2 & R & P);
      [done | unfold is_u16 in Hn; lia .. |].
    rewrite P4, Dn in P. exists o2. split; [done |]. cbn [os set_os].
    change PC_OPENER_ETHERNET_BUFFER_SIZE with 512. by rewrite R.
Qed.

(** A message that announces 489 to 491 bytes is read past its end: the rest, a [size_t],
    wraps, and the loop goes on to drop the messages behind it. *)
Lemma oversized_wraps fuel socket pending data_size o :
  whole socket pending 512 → 509 <= data_size <= 511 → 512 <= Z.of_nat (length (pending o)) →
  ∃ o', pending o' = drop 512 (pending o) ∧
    drop_message (S fuel) socket data_size 512 o
    = drop_message fuel socket (2 ^ 64 - (512 - data_size)) 512 o'.
Proof.
  intros Hw Hd Hl. destruct (Hw o Hl) as (o' & R & P). change (Z.to_nat 512) with 512%nat in *.
  exists o'. split; [done |]. cbn [drop_message]. rewrite R, length_take, Nat.min_l by lia.
  replace (u64 (data_size - Z.of_nat 512)) with (2 ^ 64 - (512 - data_size)).
  2:{ unfold u64. rewrite <-(Z_mod_plus_full _ 1), Z.mod_small; lia. }
  change PC_OPENER_ETHERNET_BUFFER_SIZE with 512.
  rewrite (proj2 (Z.ltb_ge _ 512)), (proj2 (Z.ltb_lt 0 _)) by lia. done.
Qed.

(** ** The invariant of the socket sets *)

(** [select] and the loops over the sockets stop at [highest_socket_handle]: every socket
    of the master set must be covered by it. *)
Definition sockets_ok s : Prop :=
  highest_socket_handle s < FD_SETSIZE ∧
  ∀ socket, socket ∈ master_socket s → 0 <= socket <= highest_socket_handle s.

(** What every part of a cycle but the time keeping leaves alone, and preserves. *)
Definition housekeeping s s' : Prop :=
  g_last_time s' = g_last_time s ∧ elapsed_time s' = elapsed_time s ∧
  timeout_checker_array s' = timeout_checker_array s ∧
  highest_socket_handle s <= highest_socket_handle s' ∧
  (sockets_ok s → sockets_ok s').

#[export] Instance housekeeping_preorder : PreOrder housekeeping.
Proof.
  split; [intros s; by split_and! |]. intros a b c (A1 & A2 & A3 & A4 & A5) (B1 & B2 & B3 & B4 & B5).
  split_and!; [congruence .. | lia | auto].
Qed.

Lemma foldr_max_ge l b : b <= foldr Z.max b l ∧ ∀ x, x ∈ l → x <= foldr Z.max b l.
Proof.
  induction l as [|y l [IH1 IH2]]; cbn [foldr].
  - split; [lia |]. intros x Hx. by apply not_elem_of_nil in Hx.
  - split; [lia |]. intros x Hx. apply elem_of_cons in Hx as [->|Hx]; [lia |].
    specialize (IH2 x Hx). lia.
Qed.

Lemma foldr_max_lt l b m : b < m → (∀ x, x ∈ l → x < m) → foldr Z.max b l < m.
Proof.
  intros Hb. induction l as [|y l IH]; cbn [foldr]; intros Hl; [done |].
  apply Z.max_lub_lt; [apply Hl; left |]. apply IH. intros x Hx. apply Hl. by right.
Qed.

Lemma follow_housekeeping d d' s s' : follow d d' s = Some s' → housekeeping s s'.
Proof.
  unfold follow. set (closed := closed_since _ d'). set (sockets := List.filter _ (take _ _)).
  set (kept := List.filter _ sockets). set (created := sockets.*1).
  destruct (forallb fd_valid (closed ++ created)) eqn:Hv; [|done]. intros [= <-].
  split; [done |]. split; [done |]. split; [done |]. split; [exact (proj1 (foldr_max_ge _ _)) |].
  intros [Hh Hm]. rewrite forallb_forall in Hv.
  assert (Hc : ∀ x, x ∈ created → 0 <= x < FD_SETSIZE).
  { intros x Hx. specialize (Hv x). rewrite in_app_iff, <-!list_elem_of_In in Hv.
    specialize (Hv (or_intror Hx)). unfold fd_valid in Hv. apply andb_true_iff in Hv as [??]. lia. }
  destruct (foldr_max_ge created (highest_socket_handle s)) as [Hb Hge].
  split; cbn [highest_socket_handle master_socket set_highest set_master set_device].
  - apply foldr_max_lt; [done |]. intros x Hx. by apply Hc.
  - intros x. rewrite elem_of_union, elem_of_list_to_set, elem_of_difference.
    intros [Hx|[Hx _]]; [|destruct (Hm x Hx); lia].
    assert (Hin : x ∈ created).
    { apply list_elem_of_fmap in Hx as (y & -> & Hy). apply list_elem_of_fmap.
      exists y. split; [done |]. apply list_elem_of_In in Hy. apply filter_In in Hy as [Hy _].
      by apply list_elem_of_In. }
    split; [by apply Hc | by apply Hge].
Qed.

Lemma in_device_housekeeping {A} (f : DeviceEncapsulation → option (A * DeviceEncapsulation)) s a s' :
  in_device f s = Some (a, s') → housekeeping s s'.
Proof.
  unfold in_device. intros E. apply bind_Some in E as ([a' d] & _ & E).
  apply bind_Some in E as (s1 & E & [= _ <-]). by eapply follow_housekeeping.
Qed.

Lemma in_device__housekeeping f s s' : in_device_ f s = Some s' → housekeeping s s'.
Proof.
  unfold in_device_. intros E. apply bind_Some in E as (d & _ & E). by eapply follow_housekeeping.
Qed.
End HandlerLemmas.

(** Runs through the steps of an operation, collects what the steps leave alone, and
    chains it.  The setters of the other fields do not matter: they are unfolded. *)
Create HintDb handler.
#[export] Hint Resolve in_device_housekeeping in_device__housekeeping : handler.

Ltac operation_steps :=
  repeat match goal with
  | H : (_ ≫= _) = Some _ |- _ => apply bind_Some in H as (?&?&H); cbn beta in H
  | H : (let '(_, _) := ?x in _) = Some _ |- _ => destruct x eqn:?; cbn beta zeta in H
  | H : (match ?x with _ => _ end) = Some _ |- _ => destruct x eqn:?; cbn beta zeta in H
  | H : Some _ = Some _ |- _ => injection H as H
  | H : None = Some _ |- _ => discriminate H
  | H : (_, _) = (_, _) |- _ => injection H as ??
  end; subst.

Ltac forget_setters H :=
  repeat match type of H with
  | housekeeping (set_os _ ?s) ?t => change (housekeeping s t) in H
  | housekeeping (set_device _ ?s) ?t => change (housekeeping s t) in H
  | housekeeping (set_read _ ?s) ?t => change (housekeeping s t) in H
  | housekeeping (set_active _ ?s) ?t => change (housekeeping s t) in H
  end.

Ltac forget_setters_goal :=
  repeat match goal with
  | |- housekeeping ?t (set_os _ ?s) => change (housekeeping t s)
  | |- housekeeping ?t (set_device _ ?s) => change (housekeeping t s)
  | |- housekeeping ?t (set_read _ ?s) => change (housekeeping t s)
  | |- housekeeping ?t (set_active _ ?s) => change (housekeeping t s)
  end.

Ltac collect_housekeeping :=
  repeat match goal with
  | H : _ = Some (_, ?t) |- _ =>
      let F := fresh "K" in
      eassert (F : housekeeping _ t) by (eauto with handler; fail); forget_setters F; clear H
  | H : _ = Some ?t |- _ =>
      let F := fresh "K" in
      eassert (F : housekeeping _ t) by (eauto with handler; fail); forget_setters F; clear H
  end.

Ltac chain_housekeeping :=
  forget_setters_goal;
  solve [ reflexivity | eassumption
        | match goal with K : housekeeping ?s ?t |- housekeeping ?s _ =>
            transitivity t; [exact K |]; clear K; chain_housekeeping end
        | match goal with |- housekeeping _ (if ?b then _ else _) =>
            destruct b; chain_housekeeping end ].

Section Cycle.
Context {OS : Type} `{OperatingSystem OS} `{IoPlatform} `{AssemblyApplication}.
Context `{RunIdleApplication} `{Application} `{TimeoutCheckers}.
#[local] Existing Instance io_callbacks.
#[local] Existing Instance io_open.
Implicit Type s : NetworkHandler OS.

Ltac tidy := operation_steps; collect_housekeeping; chain_housekeeping.

Lemma CheckSocketSet_housekeeping socket s b s' :
  CheckSocketSet socket s = Some (b, s') → housekeeping s s'.
Proof. unfold CheckSocketSet. intros E. tidy. Qed.
#[local] Hint Resolve CheckSocketSet_housekeeping : handler.

Lemma fd_set_master socket master s :
  fd_set socket (master_socket s) = Some master →
  housekeeping s (let s := set_master master s in
    if highest_socket_handle s <? socket then set_highest socket s else s).
Proof.
  unfold fd_set. destruct (fd_valid socket) eqn:Hv; [|done]. intros [= <-].
  unfold fd_valid in Hv. apply andb_true_iff in Hv as [V1 V2].
  cbn zeta. cbn [highest_socket_handle set_master].
  destruct (Z.ltb_spec (highest_socket_handle s) socket) as [Hlt|Hge].
  all: split; [done |]; split; [done |]; split; [done |]; split;
    [cbn [highest_socket_handle set_highest set_master]; lia | intros [Hh Hm]].
  all: split; cbn [highest_socket_handle set_master set_highest master_socket]; [lia |].
  all: intros x; rewrite elem_of_union, elem_of_singleton; intros [->|Hx]; [lia |].
  all: specialize (Hm x Hx); lia.
Qed.

Lemma listener_housekeeping s s' :
  CheckAndHandleTcpListenerSocket s = Some s' → housekeeping s s'.
Proof.
  unfold CheckAndHandleTcpListenerSocket. intros E. operation_steps; [tidy | | tidy].
  match goal with F : fd_set _ _ = Some _ |- _ => apply fd_set_master in F; rename F into K end.
  match goal with C : CheckSocketSet _ _ = _ |- _ => apply CheckSocketSet_housekeeping in C end.
  etransitivity; [eassumption | exact K].
Qed.

Lemma handle_udp_housekeeping listener unicast s s' :
  handle_udp listener unicast s = Some s' → housekeeping s s'.
Proof. unfold handle_udp. intros E. tidy. Qed.

Lemma remove_timers_housekeeping socket s s' :
  remove_timers socket s = Some s' → housekeeping s s'.
Proof. apply in_device__housekeeping. Qed.
#[local] Hint Resolve remove_timers_housekeeping : handler.

Lemma client_closed_housekeeping socket s r s' :
  client_closed socket s = Some (r, s') → housekeeping s s'.
Proof. unfold client_closed. intros E. tidy. Qed.
#[local] Hint Resolve client_closed_housekeeping : handler.

Lemma handle_tcp_message_housekeeping socket timer buffer n s r s' :
  handle_tcp_message socket timer buffer n s = Some (r, s') → housekeeping s s'.
Proof. unfold handle_tcp_message. intros E. tidy. Qed.
#[local] Hint Resolve handle_tcp_message_housekeeping : handler.

Lemma HandleData_housekeeping fuel socket s r s' :
  HandleDataOnTcpSocket fuel socket s = Some (r, s') → housekeeping s s'.
Proof. unfold HandleDataOnTcpSocket. intros E. tidy. Qed.
#[local] Hint Resolve HandleData_housekeeping : handler.

Lemma receive_tcp_housekeeping fuel socket s s' :
  receive_tcp fuel socket s = Some s' → housekeeping s s'.
Proof. unfold receive_tcp, close_tcp. intros E. tidy. Qed.

Lemma consume_datagram_housekeeping c s b s' :
  consume_datagram c s = Some (b, s') → housekeeping s s'.
Proof. unfold consume_datagram. intros E. tidy. Qed.
#[local] Hint Resolve consume_datagram_housekeeping : handler.

Lemma consume_loop_housekeeping fuel it s s' :
  consume_loop fuel it s = Some s' → housekeeping s s'.
Proof.
  revert it s. induction fuel as [|fuel IH]; intros it s E; [done |]. cbn [consume_loop] in E. tidy.
Qed.

Lemma for_sockets_housekeeping body fuel socket s s' :
  (∀ k s s', body k s = Some s' → housekeeping s s') →
  for_sockets body fuel socket s = Some s' → housekeeping s s'.
Proof.
  intros Hb. revert socket s. induction fuel as [|fuel IH]; intros socket s E; [done |].
  cbn [for_sockets] in E. tidy.
Qed.

Lemma run_checkers_housekeeping elapsed l s s' :
  run_checkers elapsed l s = Some s' → housekeeping s s'.
Proof.
  revert s. induction l as [|[k|] l IH]; intros s E; cbn [run_checkers] in E; [tidy | tidy | by apply IH].
Qed.
End Cycle.

Section CycleTheorems.
Context {OS : Type} `{OperatingSystem OS} `{IoPlatform} `{AssemblyApplication}.
Context `{RunIdleApplication} `{Application} `{TimeoutCheckers}.
#[local] Existing Instance io_callbacks.
#[local] Existing Instance io_open.
#[local] Hint Resolve CheckSocketSet_housekeeping listener_housekeeping handle_udp_housekeeping
  consume_loop_housekeeping receive_tcp_housekeeping run_checkers_housekeeping : handler.
Implicit Type s : NetworkHandler OS.

(** ** The loops over the sockets *)

(** [body] ran for [socket] somewhere between [s] and [s']. *)
Definition served (body : Z → NetworkHandler OS → option (NetworkHandler OS)) (socket : Z) s s'
  : Prop :=
  ∃ s1 s2, housekeeping s s1 ∧ body socket s1 = Some s2 ∧ housekeeping s2 s'.

Lemma for_sockets_serves body fuel k s s' socket :
  (∀ j s s', body j s = Some s' → housekeeping s s') →
  for_sockets body fuel k s = Some s' → k <= socket <= highest_socket_handle s →
  served body socket s s'.
Proof.
  intros Hb. revert k s. induction fuel as [|fuel IH]; intros k s E Hk; [done |].
  cbn [for_sockets] in E. rewrite (proj2 (Z.leb_le _ _)) in E by lia.
  apply bind_Some in E as (s1 & E1 & E2). pose proof (Hb _ _ _ E1) as K1.
  destruct (decide (k = socket)) as [->|Hne].
  - exists s, s1. split; [reflexivity |]. split; [done |]. by eapply for_sockets_housekeeping.
  - destruct (IH (k + 1) s1 E2) as (a & b & Ha & Hab & Hb').
    { destruct K1 as (_ & _ & _ & K1 & _). lia. }
    exists a, b. split; [by transitivity s1 |]. by split.
Qed.

(** The fuel is enough as long as the sets can hold the sockets. *)
Lemma for_sockets_ends body fuel k s :
  (∀ j s, sockets_ok s → ∃ s', body j s = Some s' ∧ sockets_ok s') →
  sockets_ok s → k <= FD_SETSIZE < Z.of_nat fuel + k →
  ∃ s', for_sockets body fuel k s = Some s' ∧ sockets_ok s'.
Proof.
  intros Hb. revert k s. induction fuel as [|fuel IH]; intros k s Hs Hf; [lia |].
  cbn [for_sockets]. destruct (Z.leb_spec k (highest_socket_handle s)) as [Hle|Hgt].
  - destruct (Hb k s Hs) as (s1 & -> & Hs1). cbn [mbind option_bind].
    destruct Hs as [Hs _]. apply IH; [done | lia].
  - by exists s.
Qed.

(** ** The cycle *)

Lemma handle_sockets_serves fuel s s' :
  handle_sockets fuel s = Some s' →
  housekeeping s s' ∧
  ∀ socket, 0 <= socket <= highest_socket_handle s → served (receive_tcp fuel) socket s s'.
Proof.
  unfold handle_sockets, CheckAndHandleUdpUnicastSocket, CheckAndHandleUdpGlobalBroadcastSocket,
    CheckAndHandleConsumingUdpSocket. intros E.
  apply bind_Some in E as (s1 & E1 & E). apply bind_Some in E as (s2 & E2 & E).
  apply bind_Some in E as (s3 & E3 & E). apply bind_Some in E as (s4 & E4 & E).
  assert (K : housekeeping s s4).
  { collect_housekeeping. chain_housekeeping. }
  split.
  - transitivity s4; [done |]. eapply for_sockets_housekeeping, E. eauto with handler.
  - intros socket Hk. pose proof K as (_ & _ & _ & Hh & _).
    destruct (for_sockets_serves (receive_tcp fuel) _ _ _ _ socket
      (λ j s s', receive_tcp_housekeeping fuel j s s') E) as (a & b & Ha & Hb); [lia |].
    exists a, b. split; [by transitivity s4 | done].
Qed.

Lemma check_inactivity_housekeeping socket s s' :
  check_inactivity socket s = Some s' → housekeeping s s'.
Proof. apply in_device__housekeeping. Qed.
#[local] Hint Resolve check_inactivity_housekeeping : handler.

Lemma keep_time_sockets s s' : keep_time s = Some s' → sockets_ok s → sockets_ok s'.
Proof.
  unfold keep_time. destruct (GetMilliSeconds (os s)) as [now o]. cbn zeta.
  destruct (kOpenerTimerTickInMilliSeconds <=? _); [|by intros [= <-]].
  intros E Hs. apply bind_Some in E as ([a s1] & E1 & E). apply bind_Some in E as (s2 & E2 & [= <-]).
  apply in_device_housekeeping in E1. apply run_checkers_housekeeping in E2.
  apply E2, E1, Hs.
Qed.

(** The cycle up to its time keeping. *)
Lemma cycle_parts fuel s number set o status s' :
  select (highest_socket_handle s + 1) (master_socket s) (wait_time s) (os s)
  = (Ready number set, o) →
  NetworkHandlerProcessCyclic fuel s = Some (status, s') →
  ∃ s3, housekeeping s s3 ∧ keep_time s3 = Some s' ∧
    ∀ socket, 0 <= socket <= highest_socket_handle s →
      served check_inactivity socket s s3 ∧
      (0 < number → served (receive_tcp fuel) socket s s3).
Proof.
  intros Hsel E. unfold NetworkHandlerProcessCyclic in E.
  cbn [highest_socket_handle set_read read_socket os] in E. unfold wait_time in *.
  cbn [elapsed_time set_read] in E. rewrite Hsel in E. cbn zeta in E.
  apply bind_Some in E as (s2 & E2 & E). apply bind_Some in E as (s3 & E3 & E).
  apply bind_Some in E as (s4 & E4 & [= _ <-]).
  pose proof (for_sockets_housekeeping check_inactivity _ _ _ _
    (λ j a b, check_inactivity_housekeeping j a b) E3) as K3.
  assert (K2 : housekeeping s s2 ∧ (0 < number → ∀ socket, 0 <= socket <= highest_socket_handle s →
    served (receive_tcp fuel) socket s s2)).
  { destruct (Z.ltb_spec 0 number) as [Hn|Hn].
    - destruct (handle_sockets_serves _ _ _ E2) as [K Hserved].
      split; [exact K |]. intros _ socket Hk. exact (Hserved socket Hk).
    - injection E2 as <-. split; [chain_housekeeping | lia]. }
  destruct K2 as [K2 Hserved]. exists s3. split; [by transitivity s2 |]. split; [done |].
  intros socket Hk. split.
  - pose proof K2 as (_ & _ & _ & Hh & _).
    destruct (for_sockets_serves check_inactivity _ _ _ _ socket
      (λ j a b, check_inactivity_housekeeping j a b) E3) as (a & b & Ha & Hb); [lia |].
    exists a, b. split; [by transitivity s2 | done].
  - intros Hn. destruct (Hserved Hn socket Hk) as (a & b & Ha & Hab & Hb).
    exists a, b. split; [done |]. split; [done |]. by transitivity s2.
Qed.

Lemma cycle_sockets fuel s status s' :
  sockets_ok s → NetworkHandlerProcessCyclic fuel s = Some (status, s') → sockets_ok s'.
Proof.
  intros Hs E.
  destruct (select (highest_socket_handle s + 1) (master_socket s) (wait_time s) (os s))
    as [[| |number set] o] eqn:Hsel.
  1,2: unfold NetworkHandlerProcessCyclic, wait_time in *;
    cbn [highest_socket_handle set_read read_socket os elapsed_time] in E;
    rewrite Hsel in E; by injection E as _ <-.
  destruct (cycle_parts fuel s number set o status s' Hsel E) as (s3 & K & Ht & _).
  apply (keep_time_sockets s3 s' Ht), K, Hs.
Qed.

(** C16.  Every socket in the master set is valid and not above the highest socket handle, in
    every cycle of the handler, whatever connections and I/O sockets are opened and closed
    in it.  A cycle therefore serves all of them: when [select] returned, the inactivity of
    each open socket is checked, and if it reported something each is looked at for data. *)
Theorem cycle_serves_every_socket fuel s status s' :
  sockets_ok s → NetworkHandlerProcessCyclic fuel s = Some (status, s') →
  sockets_ok s' ∧
  ∀ number set o,
    select (highest_socket_handle s + 1) (master_socket s) (wait_time s) (os s)
    = (Ready number set, o) →
    ∃ s3, keep_time s3 = Some s' ∧
      ∀ socket, socket ∈ master_socket s →
        served check_inactivity socket s s3 ∧ (0 < number → served (receive_tcp fuel) socket s s3).
Proof.
  intros Hs E. split.
  - by eapply cycle_sockets.
  - intros number set o Hsel.
    destruct (cycle_parts fuel s number set o status s' Hsel E) as (s3 & K & Ht & Hserved).
    exists s3. split; [done |]. intros socket Hin. apply Hserved, (proj2 Hs), Hin.
Qed.

(** C18.  No time is lost and none is counted twice: the time since the last cycle is added
    to what the cycles before left over.  Below a tick of 10 milliseconds it is carried
    over; otherwise the connection manager and the time-out checkers are given all of it,
    in one call, and nothing is carried over.  The next wait for sockets is exactly what is
    missing to a tick. *)
Theorem cycle_keeps_time fuel s number set o status s' :
  select (highest_socket_handle s + 1) (master_socket s) (wait_time s) (os s)
  = (Ready number set, o) →
  (∀ o, g_last_time s <= fst (GetMilliSeconds o) < 2 ^ 63) →
  0 <= g_last_time s → 0 <= elapsed_time s < 10 →
  NetworkHandlerProcessCyclic fuel s = Some (status, s') →
  let total := elapsed_time s + (g_last_time s' - g_last_time s) in
  (∃ o, g_last_time s' = fst (GetMilliSeconds o)) ∧
  (total < 10 → elapsed_time s' = total ∧ wait_time s' = (10 - total) * 1000) ∧
  (10 <= total → elapsed_time s' = 0 ∧
     ∃ s1 managed s2 s3, in_device (ManageConnections (peer s1) total) s1 = Some (managed, s2) ∧
       run_checkers total (timeout_checker_array s) s2 = Some s3 ∧ device s' = device s3).
Proof.
  intros Hsel Hclock Hl He E.
  destruct (cycle_parts fuel s number set o status s' Hsel E) as (s3 & (K1 & K2 & K3 & _) & Ht & _).
  unfold keep_time in Ht. specialize (Hclock (os s3)).
  destruct (GetMilliSeconds (os s3)) as [now o3] eqn:Hnow. cbn [fst] in Hclock.
  cbn [elapsed_time g_last_time set_device set_os] in Ht. rewrite K1, K2 in Ht.
  rewrite (u64_id (now - _)), u64_id in Ht by (unfold is_u64; lia).
  set (total := elapsed_time s + (now - g_last_time s)) in *.
  change kOpenerTimerTickInMilliSeconds with 10 in Ht.
  assert (Hex : ∃ o, now = fst (GetMilliSeconds o)) by (exists (os s3); by rewrite Hnow).
  destruct (Z.leb_spec 10 total) as [Hdue|Hidle].
  - apply bind_Some in Ht as ([managed s4] & M & Ht). apply bind_Some in Ht as (s5 & C & [= <-]).
    pose proof (in_device_housekeeping _ _ _ _ M) as (L1 & _ & L3 & _).
    pose proof (run_checkers_housekeeping _ _ _ _ C) as (M1 & _).
    cbn [g_last_time elapsed_time set_times timeout_checker_array device set_device set_os] in *.
    rewrite M1, L1. fold total. rewrite L3, K3 in C.
    split; [done |]. split; [lia |]. intros _. split; [done |]. by eexists _, managed, s4, s5.
  - injection Ht as <-. cbn [g_last_time elapsed_time set_times]. fold total.
    split; [done |]. split; [|lia]. intros _. split; [done |].
    unfold wait_time. cbn [elapsed_time set_times].
    change kOpenerTimerTickInMilliSeconds with 10. by rewrite (proj2 (Z.ltb_lt _ _)) by lia.
Qed.

(** A cycle has waited for the sockets, served them and looked at their inactivity: what is left
    is its time keeping. *)
Definition sockets_served (fuel : nat) s s' : Prop :=
  ∃ number set o s1,
    select (highest_socket_handle s + 1) (master_socket s) (wait_time s) (os s)
    = (Ready number set, o) ∧
    (let s0 := set_read set (set_os o (set_read (master_socket s) s)) in
     if 0 <? number then handle_sockets fuel s0 = Some s1 else s1 = s0) ∧
    for_sockets check_inactivity socket_fuel 0 s1 = Some s'.

(** The clock is read. *)
Definition clock_read (elapsed : Z) s : NetworkHandler OS :=
  let '(now, o) := GetMilliSeconds (os s) in
  set_times now elapsed (set_device (set_actual_time now (device s)) (set_os o s)).

(** What the connection manager and the time-out checkers are given in a cycle from [s] to [s']:
    nothing when the wait was interrupted or no tick is over, else one time, in one call each. *)
Inductive cycle_time (fuel : nat) s s' : list Z → Prop :=
| interrupted o :
    select (highest_socket_handle s + 1) (master_socket s) (wait_time s) (os s) = (Interrupted, o) →
    s' = set_os o (set_read (master_socket s) s) → cycle_time fuel s s' []
| no_tick elapsed s1 :
    sockets_served fuel s s1 → s' = clock_read elapsed s1 → cycle_time fuel s s' []
| tick t s1 managed s2 s3 :
    sockets_served fuel s s1 →
    in_device (ManageConnections (peer (clock_read t s1)) t) (clock_read t s1) = Some (managed, s2) →
    run_checkers t (timeout_checker_array s) s2 = Some s3 → s' = set_times (g_last_time s3) 0 s3 →
    cycle_time fuel s s' [t].

Definition total_time : list Z → Z := foldr Z.add 0.

Lemma total_time_app l1 l2 : total_time (l1 ++ l2) = total_time l1 + total_time l2.
Proof. induction l1 as [|x l1 IH]; [done |]. cbn [app total_time foldr] in *. fold total_time in *. lia. Qed.

Lemma sockets_served_housekeeping fuel s s' : sockets_served fuel s s' → housekeeping s s'.
Proof.
  intros (number & set & o & s1 & _ & W & I).
  transitivity s1; [|by eapply for_sockets_housekeeping; [apply check_inactivity_housekeeping |]].
  destruct (0 <? number); [|rewrite W; chain_housekeeping].
  apply handle_sockets_serves in W as [K _]. etransitivity; [|exact K]. chain_housekeeping.
Qed.

Lemma clock_read_fields elapsed s :
  elapsed_time (clock_read elapsed s) = elapsed ∧
  timeout_checker_array (clock_read elapsed s) = timeout_checker_array s.
Proof. unfold clock_read. by destruct (GetMilliSeconds (os s)). Qed.

(** The times of one cycle, when the clock has not run backwards in it. *)
Lemma keep_time_gives fuel s s1 s' :
  sockets_served fuel s s1 → keep_time s1 = Some s' →
  0 <= g_last_time s <= g_last_time s' → g_last_time s' < 2 ^ 63 → 0 <= elapsed_time s < 10 →
  ∃ l, cycle_time fuel s s' l ∧ Forall (Z.le 10) l ∧ 0 <= elapsed_time s' < 10 ∧
    total_time l + elapsed_time s' = elapsed_time s + (g_last_time s' - g_last_time s).
Proof.
  intros V Ht Hl Hu He. pose proof (sockets_served_housekeeping _ _ _ V) as (K1 & K2 & K3 & _).
  set (sum := elapsed_time s + (g_last_time s' - g_last_time s)).
  assert (R : ∃ e, (if 10 <=? e then
      '(_, s2) ← in_device (ManageConnections (peer (clock_read e s1)) e) (clock_read e s1);
      s3 ← run_checkers e (timeout_checker_array s) s2; Some (set_times (g_last_time s3) 0 s3)
    else Some (clock_read e s1)) = Some s' ∧ e = u64 (elapsed_time s + u64 (g_last_time (clock_read e s1) - g_last_time s))).
  { unfold keep_time in Ht. unfold clock_read. destruct (GetMilliSeconds (os s1)) as [now o].
    cbn [elapsed_time g_last_time set_device set_os set_times] in Ht |- *. rewrite K1, K2 in Ht.
    exists (u64 (elapsed_time s + u64 (now - g_last_time s))). split; [|done].
    change kOpenerTimerTickInMilliSeconds with 10 in Ht.
    destruct (10 <=? u64 _); [|done]. rewrite <-Ht.
    destruct (in_device _ _) as [[r s2]|] eqn:M; [|done]. cbn [mbind option_bind].
    apply in_device_housekeeping in M as (_ & _ & L & _).
    cbn [timeout_checker_array set_times set_device set_os] in L. by rewrite L, K3. }
  destruct R as (e & R & Ee).
  assert (Hn : g_last_time (clock_read e s1) = g_last_time s').
  { destruct (10 <=? e); [|by injection R as ->].
    apply bind_Some in R as ([r s2] & M & R). apply bind_Some in R as (s3 & C & [= <-]).
    apply in_device_housekeeping in M as (L & _). apply run_checkers_housekeeping in C as (N & _).
    cbn [g_last_time set_times]. by rewrite N, L. }
  rewrite Hn, (u64_id (g_last_time s' - _)), u64_id in Ee by (unfold is_u64; lia).
  fold sum in Ee. subst e. destruct (Z.leb_spec 10 sum) as [Hdue|Hidle].
  - apply bind_Some in R as ([managed s2] & M & R). apply bind_Some in R as (s3 & C & [= E]).
    exists [sum]. split; [by eapply tick |]. split; [by repeat constructor |].
    rewrite <-E at 1 2 3. cbn [elapsed_time set_times total_time foldr]. lia.
  - injection R as E. exists []. split; [by eapply no_tick |]. split; [constructor |].
    assert (Et : elapsed_time s' = sum) by (rewrite <-E; apply clock_read_fields).
    cbn [total_time foldr]. lia.
Qed.

Lemma cycle_gives fuel s status s' :
  NetworkHandlerProcessCyclic fuel s = Some (status, s') → status = kEipStatusOk →
  0 <= g_last_time s <= g_last_time s' → g_last_time s' < 2 ^ 63 → 0 <= elapsed_time s < 10 →
  ∃ l, cycle_time fuel s s' l ∧ Forall (Z.le 10) l ∧ 0 <= elapsed_time s' < 10 ∧
    total_time l + elapsed_time s' = elapsed_time s + (g_last_time s' - g_last_time s).
Proof.
  intros E Hs Hl Hu He.
  destruct (select (highest_socket_handle s + 1) (master_socket s) (wait_time s) (os s))
    as [[| |number set] o] eqn:Hsel; unfold NetworkHandlerProcessCyclic in E;
    cbn [highest_socket_handle set_read read_socket os] in E; unfold wait_time in *;
    cbn [elapsed_time set_read] in E; rewrite Hsel in E; cbn zeta in E.
  - injection E as _ E. exists []. split; [by eapply interrupted |]. split; [constructor |].
    rewrite <-E. cbn [elapsed_time g_last_time set_os set_read total_time foldr]. lia.
  - injection E as E _. congruence.
  - apply bind_Some in E as (s1 & E1 & E). apply bind_Some in E as (s2 & E2 & E).
    apply bind_Some in E as (s3 & E3 & [= _ <-]).
    apply (keep_time_gives fuel s s2); try done. exists number, set, o, s1. split; [done |].
    split; [|done]. cbn zeta. destruct (0 <? number); [done | by injection E1].
Qed.

(** A cycle that fails has not come to its time keeping. *)
Lemma failed_cycle fuel s status s' :
  NetworkHandlerProcessCyclic fuel s = Some (status, s') → status ≠ kEipStatusOk →
  g_last_time s' = g_last_time s ∧ elapsed_time s' = elapsed_time s ∧ device s' = device s.
Proof.
  unfold NetworkHandlerProcessCyclic. cbn zeta. intros E Hs.
  destruct (select _ _ _ _) as [[| |number set] o]; [by injection E as <- <- .. |].
  apply bind_Some in E as (s1 & _ & E). apply bind_Some in E as (s2 & _ & E).
  by apply bind_Some in E as (s3 & _ & [= <- _]).
Qed.

(** A connection is accepted only while a session timer is free: without one the assertion
    behind [accept] fails, although the new socket is a valid one. *)
Lemma accept_needs_free_timer s new_socket o :
  fd_valid (tcp_listener s) = true →
  tcp_listener s ∈ read_socket s → tcp_listener s ∈ master_socket s →
  accept (tcp_listener s) (os s) = (new_socket, o) → fd_valid new_socket = true →
  match SocketTimerArrayGetEmptySocketTimer (g_timestamps (device s)) with
  | None => CheckAndHandleTcpListenerSocket s = None
  | Some _ => ∃ s', CheckAndHandleTcpListenerSocket s = Some s' ∧ device s' = device s ∧
                new_socket ∈ master_socket s' ∧ new_socket <= highest_socket_handle s'
  end.
Proof.
  intros Hf Hr Hm Ha Hv. unfold CheckAndHandleTcpListenerSocket, CheckSocketSet, fd_isset, fd_set.
  rewrite Hf, !bool_decide_eq_true_2 by done. cbn [mbind option_bind tcp_listener set_read os].
  rewrite Ha. unfold kEipInvalidSocket. cbn [g_timestamps device set_os set_read].
  pose proof Hv as Hv'. unfold fd_valid in Hv'. apply andb_true_iff in Hv' as [V _].
  rewrite (proj2 (Z.eqb_neq _ _)) by lia.
  destruct (SocketTimerArrayGetEmptySocketTimer _) as [t|]; [|done].
  rewrite Hv. cbn [mbind option_bind]. eexists. split; [reflexivity |].
  cbn [highest_socket_handle set_master set_os set_read].
  destruct (Z.ltb_spec (highest_socket_handle s) new_socket);
    cbn [device master_socket highest_socket_handle set_master set_os set_read set_highest];
    (split; [done |]); (split; [set_solver | lia]).
Qed.
End CycleTheorems.

(** ** Witnesses *)

(** A network with one TCP connection whose peer has sent some bytes, of which a read
    returns at most 100; the clock says 1015. *)
Definition stream_network : OperatingSystem (list Z) := {|
  recv := λ _ n o, match o with
                   | [] => (WouldBlock, o)
                   | _ => (Received (take (Z.to_nat (Z.min n 100)) o), drop (Z.to_nat (Z.min n 100)) o)
                   end;
  recvfrom := λ _ _ o, (WouldBlock, mkSockAddr 0 0, o);
  send := λ _ _ o, o;
  sendto := λ _ _ _ o, o;
  accept := λ _ o, (-1, o);
  select := λ _ _ _ o, (Ready 1 {[5]}, o);
  getpeername := λ _ _, mkSockAddr 0 0;
  GetMilliSeconds := λ o, (1015, o);
  rand := λ _, 9 |}.

Definition no_checkers : TimeoutCheckers := {| check_timeout := λ _ _ d, Some d |}.

(** The device of the timer examples, with the TCP/IP object's inactivity time-out. *)
Definition networked (s : DeviceEncapsulation) : DeviceEncapsulation :=
  let w := world s in
  let d := stack w in
  set_world (set_stack (set_device_stack
    (mkStack (classes (cip_stack d))
       (<[(kTcpIpAddress + 13)%nat := DInt 2 120]> (objects (cip_stack d)))) d) w) s.

Definition example_handler (o : list Z) : NetworkHandler (list Z) :=
  mkNetworkHandler o (networked (timed_device (timed_connection 25 50000))) {[2; 3; 4; 5]} ∅ 5
    kEipInvalidSocket 1000 5 3 4 2 (replicate OPENER_TIMEOUT_CHECKER_ARRAY_SIZE None).

(** ListServices, announced with 40 bytes, then the first bytes of something else; the
    large message announces 600 bytes. *)
Definition small_body : list Z := replicate 60 0.
Definition large_body : list Z := replicate 620 7.

Lemma stream_network_reads n : 0 < n <= 100 → @whole _ stream_network 5 id n.
Proof.
  intros Hn o Ho. unfold id in *. destruct o as [|b o]; [cbn in Ho; lia |].
  cbn [recv stream_network]. rewrite Z.min_l by lia. by eexists.
Qed.

Lemma stream_network_stream : @tcp_stream _ stream_network 5 id.
Proof.
  constructor. intros n o Hn Ho. unfold id in *. destruct o as [|b o]; [done |].
  cbn [recv stream_network].
  set (k := Z.to_nat (Z.min n 100)). exists (Nat.min k (length (b :: o))). eexists.
  split; [unfold k; cbn [length]; lia |]. split; [unfold k; lia |]. split; [lia |].
  destruct (Nat.le_ge_cases k (length (b :: o))) as [Hk|Hk].
  - by rewrite Nat.min_l.
  - rewrite Nat.min_r by done. by rewrite !(take_ge (b :: o)), !(drop_ge (b :: o)) by lia.
Qed.

(** The socket of the example has no session and no timer. *)
Lemma untimed o o' :
  (s ← @in_device_ _ (with_timer 5 (example_handler o)) (set_os o' (example_handler o));
   Some (kEipStatusOk, s)) = Some (kEipStatusOk, example_handler o').
Proof.
  unfold with_timer.
  assert (E : SocketTimerArrayGetSocketTimer (g_timestamps (device (example_handler o))) 5 = None)
    by (by vm_compute).
  rewrite E. unfold in_device_.
  assert (F : ∀ d, update_timer None d = Some d) by (by intros []).
  rewrite F. cbn [mbind option_bind]. by rewrite follow_same.
Qed.

Lemma tcp_stream_framed_witness :
  (∃ o, o = [1; 2; 3] ∧
     @HandleDataOnTcpSocket _ stream_network example_platform quiet_application
       no_application 700 5 (example_handler (tcp_message 0x4 40 small_body ++ [1; 2; 3]))
     = @handle_tcp_message _ stream_network example_platform quiet_application
         no_application 5 None (tcp_message 0x4 40 small_body ++ replicate 448 0) 64
         (example_handler o)) ∧
  (∃ o, o = [1; 2; 3] ∧
     @HandleDataOnTcpSocket _ stream_network example_platform quiet_application
       no_application 700 5 (example_handler (tcp_message 0x4 600 large_body ++ [1; 2; 3]))
     = Some (kEipStatusOk, example_handler o)).
Proof.
  split.
  - destruct (@tcp_stream_framed _ stream_network example_platform quiet_application
      no_application 700 5 id 0x4 40 small_body [1; 2; 3]
      (example_handler (tcp_message 0x4 40 small_body ++ [1; 2; 3]))) as [Hfit _].
    + apply stream_network_stream.
    + apply stream_network_reads. lia.
    + split; [unfold is_u16; lia | reflexivity].
    + reflexivity.
    + destruct Hfit as (o & Ho & E); [lia | apply stream_network_reads; lia |].
      exists o. split; [exact Ho | exact E].
  - destruct (@tcp_stream_framed _ stream_network example_platform quiet_application
      no_application 700 5 id 0x4 600 large_body [1; 2; 3]
      (example_handler (tcp_message 0x4 600 large_body ++ [1; 2; 3]))) as [_ Hbig].
    + apply stream_network_stream.
    + apply stream_network_reads. lia.
    + split; [unfold is_u16; lia | reflexivity].
    + reflexivity.
    + destruct Hbig as (o & Ho & E); [lia | lia |].
      exists o. split; [exact Ho |]. rewrite E. apply untimed.
Defined.

Definition example_cycle : option (EipStatus * NetworkHandler (list Z)) :=
  @NetworkHandlerProcessCyclic _ stream_network example_platform quiet_application
    sample_application no_application no_checkers 700 (example_handler []).

Lemma example_cycle_ends : ∃ s', example_cycle = Some (kEipStatusOk, s').
Proof.
  assert (E : fst <$> example_cycle = Some kEipStatusOk) by (by vm_compute).
  destruct example_cycle as [[status s']|]; [|discriminate E].
  injection E as ->. by exists s'.
Qed.

Lemma example_handler_covered o : sockets_ok (example_handler o).
Proof.
  split; [reflexivity |]. intros x. cbn [master_socket example_handler highest_socket_handle].
  set_unfold. lia.
Qed.

Lemma cycle_serves_every_socket_witness :
  ∃ s', example_cycle = Some (kEipStatusOk, s') ∧ sockets_ok s'.
Proof.
  destruct example_cycle_ends as [s' E]. exists s'. split; [exact E |].
  exact (proj1 (@cycle_serves_every_socket _ stream_network example_platform quiet_application
    sample_application no_application no_checkers 700 (example_handler []) kEipStatusOk s'
    (example_handler_covered []) E)).
Defined.

(** 5 milliseconds left over and 15 since the last cycle: the manager gets 20. *)
Lemma cycle_keeps_time_witness :
  ∃ s', example_cycle = Some (kEipStatusOk, s') ∧ g_last_time s' = 1015 ∧ elapsed_time s' = 0.
Proof.
  destruct example_cycle_ends as [s' E]. exists s'. split; [exact E |].
  destruct (@cycle_keeps_time _ stream_network example_platform quiet_application
    sample_application no_application no_checkers 700 (example_handler []) 1 {[5]} []
    kEipStatusOk s') as ([o Ho] & _ & Hdue).
  - reflexivity.
  - intros o. cbn. lia.
  - cbn. lia.
  - cbn. lia.
  - exact E.
  - change (g_last_time s' = 1015) in Ho. split; [exact Ho |].
    apply Hdue. rewrite Ho. cbn. lia.
Defined.
