(* ===== verification/NetInit.v ===== *)
(** * [ports/generic_networkhandler.c], [ports/POSIX/networkhandler.c]: opening the sockets

    [NetworkHandlerInitialize] with its three sockets, [CreateUdpSocket] and the socket
    options of the I/O connections.  The system calls are an interface; the theorems are
    about what the calls do to sockets according to their documentation. *)

From S2P Require Import Prelude EndianConv EPath CipStrings CipTypes CipCodec CipClasses CipServices Identity Assembly.
From S2P Require Import MessageRouter SocketTimer ConnRecord ConnObject ConnList LinkedList AppConType IoClose EncapData Cpf Encap ConnPath ConnService IoOpen IoData ConnTimer.
From S2P Require Import NetObject Qos TcpIp NetHandler.
From stdpp Require Import strings gmap.
Open Scope Z_scope.

(** ** System calls *)

Inductive SocketKind := SOCK_STREAM | SOCK_DGRAM.

Inductive SocketOption :=
| SO_REUSEADDR | SO_BROADCAST | IP_TOS | IP_MULTICAST_TTL | IP_MULTICAST_IF.

Inductive SystemCall :=
| Socket (type : SocketKind)
| SetSockOpt (socket : Z) (option : SocketOption) (value : Z)
| GetFlags (socket : Z)
| SetFlags (socket flags : Z)
| Bind (socket : Z) (address : SockAddr)
| Listen (socket backlog : Z).

(** The result of a call, -1 for an error; [GetSocketErrorNumber]; a constant of the
    system's headers. *)
Class SocketCalls (OS : Type) := {
  system_call : SystemCall → OS → Z * OS;
  GetSocketErrorNumber : OS → Z;
  O_NONBLOCK : Z }.

Definition kOpenerEthernetPort : Z := 44818.
Definition MAX_NO_OF_TCP_SOCKETS : Z := 10.

Instance SocketKind_eqdec : EqDecision SocketKind.
Proof. solve_decision. Defined.

(** ** Computations that may return early *)

(** [None]: the function returns [kEipStatusError]. *)
Definition Setup (OS A : Type) : Type := NetworkHandler OS → option A * NetworkHandler OS.

Instance Setup_ret OS : MRet (Setup OS) := λ A a s, (Some a, s).
Instance Setup_bind OS : MBind (Setup OS) := λ A B f x s,
  match x s with
  | (Some a, s) => f a s
  | (None, s) => (None, s)
  end.

Definition set_listeners (tcp unicast broadcast : Z) {OS} (s : NetworkHandler OS)
  : NetworkHandler OS :=
  mkNetworkHandler (os s) (device s) (master_socket s) (read_socket s) (highest_socket_handle s)
    (g_current_active_tcp_socket s) (g_last_time s) (elapsed_time s) tcp unicast broadcast
    (timeout_checker_array s).

Definition set_network (n : NetworkStatus) (d : DeviceEncapsulation) : DeviceEncapsulation :=
  set_world (set_stack (set_device_network n (stack (world d))) (world d)) d.

Section Calls.
Context {OS : Type} `{SocketCalls OS}.
Implicit Type s : NetworkHandler OS.

Definition call (c : SystemCall) : Setup OS Z := λ s,
  let '(r, o) := system_call c (os s) in (Some r, set_os o s).

Definition update (f : NetworkHandler OS → NetworkHandler OS) : Setup OS unit := λ s,
  (Some tt, f s).

(** [== -1] and [< 0] end the function. *)
Definition check (failed : Z → bool) (x : Setup OS Z) : Setup OS Z :=
  r ← x; (λ s, (if failed r then None else Some r, s)) : Setup OS Z.
Definition must (c : SystemCall) : Setup OS Z := check (Z.eqb (-1)) (call c).
Definition not_negative (x : Setup OS Z) : Setup OS Z := check (λ r, r <? 0) x.

Definition SetSocketToNonBlocking (socket_handle : Z) : Setup OS Z :=
  flags ← call (GetFlags socket_handle);
  call (SetFlags socket_handle (flags .| O_NONBLOCK)).

(** The value of the type-of-service field has two more bits below. *)
Definition SetQosOnSocket (socket qos_value : Z) : Setup OS Z :=
  call (SetSockOpt socket IP_TOS (qos_value ≪ 2)).

(** The system calls of [NetworkHandlerInitialize]: first the sockets and their options; the
    listeners are members of [g_network_status]. *)
Definition create_listeners : Setup OS (Z * Z * Z) :=
  tcp ← must (Socket SOCK_STREAM);
  _ ← update (λ s, set_listeners tcp (udp_unicast_listener s) (udp_global_broadcast_listener s) s);
  _ ← must (SetSockOpt tcp SO_REUSEADDR 1);
  _ ← not_negative (SetSocketToNonBlocking tcp);
  broadcast ← must (Socket SOCK_DGRAM);
  _ ← update (λ s, set_listeners (tcp_listener s) (udp_unicast_listener s) broadcast s);
  unicast ← must (Socket SOCK_DGRAM);
  _ ← update (λ s, set_listeners (tcp_listener s) unicast (udp_global_broadcast_listener s) s);
  _ ← must (SetSockOpt broadcast SO_REUSEADDR 1);
  _ ← not_negative (SetSocketToNonBlocking broadcast);
  _ ← must (SetSockOpt unicast SO_REUSEADDR 1);
  _ ← not_negative (SetSocketToNonBlocking unicast);
  mret (tcp, broadcast, unicast).

(** Then their addresses and priorities.  [htons] and [htonl] are those of the host. *)
Definition bind_listeners (big_endian : bool) (ip_address priority tcp broadcast unicast : Z)
  : Setup OS (Z * Z * Z) :=
  let my_address := mkSockAddr (htons big_endian kOpenerEthernetPort) ip_address in
  _ ← must (Bind tcp my_address);
  _ ← must (Bind unicast my_address);
  _ ← SetQosOnSocket unicast priority;
  _ ← not_negative (call (SetSockOpt broadcast SO_BROADCAST 1));
  _ ← must (Bind broadcast
              (mkSockAddr (htons big_endian kOpenerEthernetPort) (htonl big_endian INADDR_ANY)));
  _ ← SetQosOnSocket broadcast priority;
  _ ← SetQosOnSocket tcp priority;
  _ ← must (Listen tcp MAX_NO_OF_TCP_SOCKETS);
  mret (tcp, broadcast, unicast).

Definition open_listeners (big_endian : bool) (ip_address priority : Z)
  : Setup OS (Z * Z * Z) :=
  '(tcp, broadcast, unicast) ← create_listeners;
  bind_listeners big_endian ip_address priority tcp broadcast unicast.

(** The calls of [CreateUdpSocket] on the new socket, in their order; a failure of the
    first cannot happen, the code asserts. *)
Definition configure_udp_socket (big_endian : bool) (udp_io_messaging : Z) : Setup OS Z :=
  _ ← not_negative (call (SetSockOpt udp_io_messaging SO_REUSEADDR 1));
  not_negative
    (call (Bind udp_io_messaging
             (mkSockAddr (htons big_endian kOpenerEipIoUdpPort) (htonl big_endian INADDR_ANY)))).

(** [g_tcpip] behind its attributes. *)
Definition load_tcpip (s : CipStack) : option CipTcpIpObject :=
  match (λ k, objects s !! (kTcpIpAddress + k)%nat) <$> [1; 2; 3; 4; 5; 6; 8; 9; 10; 13]%nat with
  | [Some (DInt 4 status); Some (DInt 4 capability); Some (DInt 4 control); Some (DEPath link);
     Some (DStruct [DInt 4 ip; DInt 4 mask; DInt 4 gw; DInt 4 ns; DInt 4 ns2; DString domain]);
     Some (DString host); Some (DInt 1 ttl);
     Some (DStruct [DInt 1 alloc; DInt 1 reserved; DInt 2 number; DInt 4 start]);
     Some (DInt 1 acd); Some (DInt 2 timeout)] =>
      Some (mkTcpIp status capability control link (mkIfConfig ip mask gw ns ns2 domain) host ttl
              (mkMcast alloc reserved number start) acd timeout)
  | _ => None
  end.

(** What is set up before the sockets: timers, priorities in use, multicast address, the
    addresses that stay until the next start, sessions. *)
Definition prepare (big_endian : bool) (d : DeviceEncapsulation)
  : option (CipQosDscpValues * DeviceEncapsulation) :=
  let d := set_timestamps (SocketTimerArrayInitialize (g_timestamps d)) d in
  let w := world d in
  active ← CipQosUpdateUsedSetQosValues (cip_stack (stack w));
  g ← load_tcpip (cip_stack (stack w));
  let g := CipTcpIpCalculateMulticastIp big_endian g in
  let c := interface_configuration g in
  let w := set_stack (set_device_stack (store_tcpip g (cip_stack (stack w))) (stack w)) w in
  let n := g_network_status (stack w) in
  let d := set_network
    (mkNetworkStatus (if_ip_address c) (if_network_mask c) (udp_io_messaging n)
       (TcpIp.starting_multicast_address (mcast_config g)) (created_sockets n)) (set_world w d) in
  Some (active, EncapsulationInit d).
End Calls.

(** The second component is [s_active_dscp]. *)
Definition NetworkHandlerInitialize {OS} `{OperatingSystem OS} `{SocketCalls OS} (big_endian : bool)
    (s : NetworkHandler OS) : option (EipStatus * CipQosDscpValues * NetworkHandler OS) :=
  '(s_active_dscp, d) ← prepare big_endian (device s);
  let s := set_master ∅ (set_read ∅ (set_device d s)) in
  let priority := CipQosGetDscpPriority kConnectionObjectPriorityExplicit s_active_dscp in
  match open_listeners big_endian (ConnService.ip_address (network d)) priority s with
  | (None, s) => Some (kEipStatusError, s_active_dscp, s)
  | (Some (tcp, broadcast, unicast), s) =>
      master ← fd_set tcp (master_socket s);
      master ← fd_set unicast master;
      master ← fd_set broadcast master;
      let s := set_highest (GetMaxSocket tcp broadcast 0 unicast) (set_master master s) in
      let '(now, o) := GetMilliSeconds (os s) in
      Some (kEipStatusOk, s_active_dscp, set_times now 0 (set_os o s))
  end.

(** ** The socket of the I/O connections *)

Section Udp.
Context {OS : Type} `{SocketCalls OS}.
Implicit Type s : NetworkHandler OS.

Definition with_udp_socket (socket : Z) (n : NetworkStatus) : NetworkStatus :=
  mkNetworkStatus (ip_address n) (network_mask n) socket
    (ConnService.starting_multicast_address n) (created_sockets n).

(** A socket that cannot be configured is closed, [g_network_status] keeps its number. *)
Definition CreateUdpSocket (big_endian : bool) s : option (Z * NetworkHandler OS) :=
  let '(socket, o) := system_call (Socket SOCK_DGRAM) (os s) in
  let s := set_os o s in
  let s := set_device (set_network (with_udp_socket socket (network (device s))) (device s)) s in
  if socket =? kEipInvalidSocket then Some (kEipInvalidSocket, s)
  else
    let close s := set_master (master_socket s ∖ {[socket]}) (set_device
      (set_manager (CloseUdpSocket socket (Encap.manager (device s))) (device s)) s) in
    match not_negative (SetSocketToNonBlocking socket) s with
    | (None, s) => None
    | (Some _, s) =>
        match configure_udp_socket big_endian socket s with
        | (None, s) => Some (kEipInvalidSocket, close s)
        | (Some _, s) =>
            master ← fd_set socket (master_socket s);
            let s := set_master master s in
            Some (socket, if highest_socket_handle s <? socket then set_highest socket s else s)
        end
    end.

(** 0, or the number of the error. *)
Definition SetQos (s_active_dscp : CipQosDscpValues) (qos_for_socket : ConnectionObjectPriority) s
  : Z * NetworkHandler OS :=
  let '(r, o) := system_call
    (SetSockOpt (udp_io_messaging (network (device s))) IP_TOS
       (CipQosGetDscpPriority qos_for_socket s_active_dscp ≪ 2)) (os s) in
  (if negb (r =? 0) then GetSocketErrorNumber o else 0, set_os o s).

Definition SetSocketOptionsMulticastProduce (mcast_ttl_value : Z) s : Z * NetworkHandler OS :=
  let n := network (device s) in
  let '(r, o) :=
    if negb (mcast_ttl_value =? 1)
    then system_call (SetSockOpt (udp_io_messaging n) IP_MULTICAST_TTL mcast_ttl_value) (os s)
    else (0, os s) in
  if r <? 0 then (GetSocketErrorNumber o, set_os o s)
  else
    let '(r, o) := system_call
      (SetSockOpt (udp_io_messaging n) IP_MULTICAST_IF (ip_address n)) o in
    (if r <? 0 then GetSocketErrorNumber o else 0, set_os o s).
End Udp.

(** ** What the calls do to sockets *)

Record SocketState := mkSocket {
  kind : SocketKind; reuse_address : bool; nonblocking : bool; may_broadcast : bool;
  bound_to : option SockAddr; listening : bool; type_of_service : option Z }.

Definition new_socket (k : SocketKind) : SocketState := mkSocket k false false false None false None.

Definition set_option (option : SocketOption) (v : Z) (x : SocketState) : SocketState :=
  match option with
  | SO_REUSEADDR =>
      mkSocket (kind x) (negb (v =? 0)) (nonblocking x) (may_broadcast x) (bound_to x) (listening x)
        (type_of_service x)
  | SO_BROADCAST =>
      mkSocket (kind x) (reuse_address x) (nonblocking x) (negb (v =? 0)) (bound_to x) (listening x)
        (type_of_service x)
  | IP_TOS =>
      mkSocket (kind x) (reuse_address x) (nonblocking x) (may_broadcast x) (bound_to x)
        (listening x) (Some v)
  | _ => x
  end.
Definition set_nonblocking (v : bool) (x : SocketState) : SocketState :=
  mkSocket (kind x) (reuse_address x) v (may_broadcast x) (bound_to x) (listening x)
    (type_of_service x).
Definition set_bound (a : SockAddr) (x : SocketState) : SocketState :=
  mkSocket (kind x) (reuse_address x) (nonblocking x) (may_broadcast x) (Some a) (listening x)
    (type_of_service x).
Definition set_listening (x : SocketState) : SocketState :=
  mkSocket (kind x) (reuse_address x) (nonblocking x) (may_broadcast x) (bound_to x) true
    (type_of_service x).

Section Effect.
Context {OS : Type} `{SocketCalls OS}.

(** The open sockets after a call with result [r]. *)
Definition effect (c : SystemCall) (r : Z) (m : gmap Z SocketState) : gmap Z SocketState :=
  if r <? 0 then m else
  match c with
  | Socket k => <[r := new_socket k]> m
  | SetSockOpt x option v => alter (set_option option v) x m
  | GetFlags _ => m
  | SetFlags x flags => alter (set_nonblocking (has_flag O_NONBLOCK flags)) x m
  | Bind x a => alter (set_bound a) x m
  | Listen x _ => alter set_listening x m
  end.

(** The manual pages: results, effects, fresh numbers for new sockets (below the limit of
    the socket sets); the clock has no effect on sockets. *)
Record documented `{OperatingSystem OS} (view : OS → gmap Z SocketState) : Prop := {
  call_result : ∀ c o, (system_call c o).1 = -1 ∨ 0 <= (system_call c o).1;
  call_effect : ∀ c o, view (system_call c o).2 = effect c (system_call c o).1 (view o);
  socket_fresh : ∀ k o, 0 <= (system_call (Socket k) o).1 →
    view o !! (system_call (Socket k) o).1 = None ∧ (system_call (Socket k) o).1 < FD_SETSIZE;
  nonblocking_flag : 0 < O_NONBLOCK;
  clock_effect : ∀ o, view (GetMilliSeconds o).2 = view o }.
End Effect.

(** ** Lemmas: computations with early returns *)

Section Wp.
Context {OS : Type} `{OperatingSystem OS} `{SocketCalls OS}.
Context (view : OS → gmap Z SocketState) (doc : documented view).
Implicit Type s : NetworkHandler OS.

(** [Q] holds after [x], or [E] after an early return. *)
Definition wp {A} (x : Setup OS A) (Q : A → NetworkHandler OS → Prop)
    (E : NetworkHandler OS → Prop) s : Prop :=
  match x s with (Some a, s') => Q a s' | (None, s') => E s' end.

Lemma wp_bind {A B} (x : Setup OS A) (f : A → Setup OS B) Q E s :
  wp x (λ a, wp (f a) Q E) E s → wp (x ≫= f) Q E s.
Proof.
  unfold wp, mbind, Setup_bind. by destruct (x s) as [[a|] s'].
Qed.

Lemma wp_update f (Q : unit → NetworkHandler OS → Prop) E s : Q tt (f s) → wp (update f) Q E s.
Proof. done. Qed.

Lemma wp_call c (Q : Z → NetworkHandler OS → Prop) E s :
  (∀ r o, r = -1 ∨ 0 <= r → view o = effect c r (view (os s)) →
     (∀ k, c = Socket k → 0 <= r → view (os s) !! r = None ∧ r < FD_SETSIZE) → Q r (set_os o s)) →
  wp (call c) Q E s.
Proof.
  intros HQ. unfold wp, call. destruct doc as [R V F _ _]. specialize (R c (os s)). specialize (V c (os s)).
  pose proof (λ k, F k (os s)) as F'. destruct (system_call c (os s)) as [r o] eqn:Ec. cbn [fst snd] in *.
  apply HQ; [done | done |]. intros k -> Hr. specialize (F' k). rewrite Ec in F'. by apply F'.
Qed.

Lemma wp_check (failed : Z → bool) (x : Setup OS Z) (Q : Z → NetworkHandler OS → Prop) (E : NetworkHandler OS → Prop) s :
  wp x (λ r s', if failed r then E s' else Q r s') E s → wp (check failed x) Q E s.
Proof.
  intros Hx. unfold check. apply wp_bind. unfold wp in *. destruct (x s) as [[r|] s']; [|done].
  by destruct (failed r).
Qed.

Lemma effect_success c r m :
  (∀ k, c ≠ Socket k) → 0 <= r → effect c r m = effect c 0 m.
Proof.
  intros Hc Hr. unfold effect. destruct (Z.ltb_spec r 0); [lia |].
  destruct c; [by edestruct Hc | done..].
Qed.

(** A call that must succeed and makes no socket. *)
Lemma wp_must c (Q : Z → NetworkHandler OS → Prop) (E : NetworkHandler OS → Prop) s :
  (∀ k, c ≠ Socket k) →
  (∀ r o, view o = effect c 0 (view (os s)) → Q r (set_os o s)) → (∀ o, E (set_os o s)) →
  wp (must c) Q E s.
Proof.
  intros Hc HQ HE. apply wp_check, wp_call. intros r o [->|Hr] V _; [exact (HE o) |].
  destruct (Z.eqb_spec (-1) r); [lia |]. apply HQ. rewrite V. by apply effect_success.
Qed.

Lemma wp_not_negative c (Q : Z → NetworkHandler OS → Prop) (E : NetworkHandler OS → Prop) s :
  (∀ r o, view o = effect c 0 (view (os s)) → Q r (set_os o s)) → (∀ o, E (set_os o s)) →
  (∀ k, c ≠ Socket k) →
  wp (not_negative (call c)) Q E s.
Proof.
  intros HQ HE Hc. apply wp_check, wp_call. intros r o [->|Hr] V _; [exact (HE o) |].
  destruct (Z.ltb_spec r 0); [lia |]. apply HQ. rewrite V. by apply effect_success.
Qed.

Lemma wp_socket k (Q : Z → NetworkHandler OS → Prop) (E : NetworkHandler OS → Prop) s :
  (∀ (r : Z) (o : OS), 0 <= r < FD_SETSIZE → view (os s) !! r = None →
     view o = <[r := new_socket k]> (view (os s)) → Q r (set_os o s)) →
  (∀ o, E (set_os o s)) → wp (must (Socket k)) Q E s.
Proof.
  intros HQ HE. apply wp_check, wp_call. intros r o [->|Hr] V F; [exact (HE o) |].
  destruct (Z.eqb_spec (-1) r); [lia |]. destruct (F k eq_refl Hr) as [Hn Hlt].
  apply HQ; [done | done |]. rewrite V. unfold effect. by destruct (Z.ltb_spec r 0); [lia |].
Qed.

Lemma Z_lor_land_absorb a b : (a .| b) .& b = b.
Proof.
  apply Z.bits_inj'. intros n _. rewrite Z.land_spec, Z.lor_spec.
  by destruct (Z.testbit a n), (Z.testbit b n).
Qed.

Lemma wp_nonblocking x (Q : Z → NetworkHandler OS → Prop) (E : NetworkHandler OS → Prop) s :
  (∀ r o, view o = alter (set_nonblocking true) x (view (os s)) → Q r (set_os o s)) →
  (∀ o, E (set_os o s)) → wp (not_negative (SetSocketToNonBlocking x)) Q E s.
Proof.
  intros HQ HE. apply wp_check. unfold SetSocketToNonBlocking. apply wp_bind, wp_call.
  intros flags o _ V _. apply wp_call. intros r o' [->|Hr] V' _; [exact (HE o') |].
  destruct (Z.ltb_spec r 0); [lia |]. apply HQ. rewrite V'. unfold effect at 1.
  destruct (Z.ltb_spec r 0); [lia |]. cbn [os set_os]. rewrite V. unfold effect.
  assert (Hf : has_flag O_NONBLOCK (flags .| O_NONBLOCK) = true).
  { unfold has_flag. rewrite Z.land_comm, Z_lor_land_absorb. pose proof (nonblocking_flag _ doc).
    by destruct (Z.eqb_spec O_NONBLOCK 0); [lia |]. }
  rewrite Hf. by destruct (flags <? 0).
Qed.

(** The result of the call for the type-of-service field is not looked at. *)
Lemma wp_qos x v (Q : Z → NetworkHandler OS → Prop) (E : NetworkHandler OS → Prop) s :
  (∀ r o (f : SocketState → SocketState), view o = alter f x (view (os s)) → f = id ∨ f = set_option IP_TOS (v ≪ 2) →
     Q r (set_os o s)) → wp (SetQosOnSocket x v) Q E s.
Proof.
  intros HQ. apply wp_call. intros r o [->|Hr] V _.
  - apply (HQ _ _ id); [|by left]. rewrite V. unfold effect. cbn.
    apply map_eq. intros i. destruct (decide (x = i)) as [->|]; [|by rewrite lookup_alter_ne].
    rewrite lookup_alter_eq. by destruct (view (os s) !! i).
  - apply (HQ _ _ (set_option IP_TOS (v ≪ 2))); [|by right]. rewrite V. unfold effect.
    by destruct (Z.ltb_spec r 0); [lia |].
Qed.
End Wp.

(** ** The listeners *)

Record listener (k : SocketKind) (address : SockAddr) (listens broadcasts : bool) (priority : Z)
    (x : SocketState) : Prop := {
  listener_kind : kind x = k;
  listener_reuse : reuse_address x = true;
  listener_nonblocking : nonblocking x = true;
  listener_broadcast : may_broadcast x = broadcasts;
  listener_bound : bound_to x = Some address;
  listener_listening : listening x = listens;
  listener_qos : type_of_service x = None ∨ type_of_service x = Some (priority ≪ 2) }.

Section Listeners.
Context {OS : Type} `{OperatingSystem OS} `{SocketCalls OS}.
Context (view : OS → gmap Z SocketState) (doc : documented view).
Implicit Type s : NetworkHandler OS.

(** The sockets aside, nothing of the handler's state has changed. *)
Definition same_handler s s' : Prop :=
  device s' = device s ∧ master_socket s' = master_socket s ∧ read_socket s' = read_socket s ∧
  timeout_checker_array s' = timeout_checker_array s.

Definition listeners_open (big : bool) (ip priority : Z) (t b u : Z) s s' : Prop :=
  same_handler s s' ∧ tcp_listener s' = t ∧ udp_global_broadcast_listener s' = b ∧
  udp_unicast_listener s' = u ∧ t ≠ b ∧ t ≠ u ∧ b ≠ u ∧
  Forall (λ x, 0 <= x < FD_SETSIZE) [t; b; u] ∧
  let port := htons big kOpenerEthernetPort in
  (∃ x, view (os s') !! t = Some x ∧ listener SOCK_STREAM (mkSockAddr port ip) true false priority x) ∧
  (∃ x, view (os s') !! u = Some x ∧ listener SOCK_DGRAM (mkSockAddr port ip) false false priority x) ∧
  (∃ x, view (os s') !! b = Some x ∧
        listener SOCK_DGRAM (mkSockAddr port (htonl big INADDR_ANY)) false true priority x).

Ltac next := apply wp_bind.
Ltac must_call V := next; apply (wp_must view doc); [done | intros ? ? V | done].
Ltac socket_call r o R N V :=
  next; apply (wp_socket view doc); [intros r o R N V | done]; next; apply wp_update.
Ltac nonblocking_call V := next; apply (wp_nonblocking view doc); [intros ? ? V | done].
Ltac qos_call V C := next; apply (wp_qos view doc); intros ? ? ? V C.

Ltac look_up :=
  repeat first [rewrite lookup_alter_eq | rewrite lookup_alter_ne by done
    | rewrite lookup_insert_ne by done | rewrite lookup_insert_eq];
  eexists; split; [reflexivity |].

Lemma open_listeners_spec big ip priority s :
  wp (open_listeners big ip priority)
    (λ '(t, b, u) s', listeners_open big ip priority t b u s s') (same_handler s) s.
Proof.
  unfold open_listeners. apply wp_bind. unfold create_listeners.
  socket_call t o1 Rt Nt V1. must_call V2. nonblocking_call V3.
  socket_call b o2 Rb Nb V4. socket_call u o3 Ru Nu V5.
  must_call V6. nonblocking_call V7. must_call V8. nonblocking_call V9.
  unfold wp at 1, mret at 1, Setup_ret. cbn beta iota. unfold bind_listeners.
  must_call V10. must_call V11. qos_call V12 C12.
  next. apply (wp_not_negative view doc); [intros ? ? V13 | done | done].
  must_call V14. qos_call V15 C15. qos_call V16 C16. must_call V17.
  unfold effect in *. cbn [os set_os set_listeners Z.ltb Z.compare] in *.
  assert (t ≠ b).
  { intros <-. rewrite V3, V2, V1, !lookup_alter_eq, lookup_insert_eq in Nb. done. }
  assert (t ≠ u).
  { intros <-. rewrite V4, lookup_insert_ne, V3, V2, V1, !lookup_alter_eq, lookup_insert_eq in Nu by done. done. }
  assert (b ≠ u).
  { intros <-. rewrite V4, lookup_insert_eq in Nu. done. }
  unfold wp, mret, Setup_ret, listeners_open.
  cbn [os set_os set_listeners device master_socket read_socket timeout_checker_array tcp_listener
    udp_global_broadcast_listener udp_unicast_listener].
  rewrite V17, V16, V15, V14, V13, V12, V11, V10, V9, V8, V7, V6, V5, V4, V3, V2, V1.
  split_and!; try done.
  - by rewrite !list.Forall_cons.
  - look_up. destruct C16 as [-> | ->]; constructor; by auto.
  - look_up. destruct C12 as [-> | ->]; constructor; by auto.
  - look_up. destruct C15 as [-> | ->]; constructor; by auto.
Qed.
End Listeners.

(** ** Start of the network handler *)

Lemma tcpip_loaded g s : tcpip_holds g s → load_tcpip s = Some g.
Proof.
  unfold tcpip_holds, tcpip_objects. rewrite !list.Forall_cons. cbn [fst snd].
  intros (E1 & E2 & E3 & E4 & E5 & E6 & E7 & E8 & E9 & E10 & E13 & _).
  unfold load_tcpip. cbn [fmap list_fmap]. rewrite E1, E2, E3, E4, E5, E6, E8, E9, E10, E13.
  unfold config_data, mcast_data. by destruct g as [????[??????]??[????]??].
Qed.

Lemma GetMaxSocket_highest t b u x :
  Forall (λ y, 0 <= y < FD_SETSIZE) [t; b; u] → t ≠ b → t ≠ u → b ≠ u → x ∈ [t; b; u] →
  x <= GetMaxSocket t b 0 u.
Proof.
  rewrite !list.Forall_cons, !elem_of_cons, elem_of_nil. intros (? & ? & ? & _) ??? Hx. unfold GetMaxSocket.
  repeat case_match; destruct Hx as [->|[->|[->|[]]]]; lia.
Qed.

Lemma GetMaxSocket_bound t b u : Forall (λ y, 0 <= y < FD_SETSIZE) [t; b; u] → GetMaxSocket t b 0 u < FD_SETSIZE.
Proof.
  rewrite !list.Forall_cons. intros (? & ? & ? & _). unfold GetMaxSocket, FD_SETSIZE in *.
  repeat case_match; lia.
Qed.

Lemma fd_sets t b u :
  Forall (λ x, 0 <= x < FD_SETSIZE) [t; b; u] →
  ∃ m1 m2 m3, fd_set t ∅ = Some m1 ∧ fd_set u m1 = Some m2 ∧ fd_set b m2 = Some m3 ∧ m3 = {[t; b; u]}.
Proof.
  rewrite !list.Forall_cons. intros (T & B & U & _). unfold fd_set, fd_valid. eexists _, _, _.
  destruct (Z.leb_spec 0 t), (Z.ltb_spec t FD_SETSIZE), (Z.leb_spec 0 b), (Z.ltb_spec b FD_SETSIZE),
    (Z.leb_spec 0 u), (Z.ltb_spec u FD_SETSIZE); try lia. cbn [andb].
  split_and!; [reflexivity.. | set_solver].
Qed.

Section Start.
Context {OS : Type} `{OperatingSystem OS} `{SocketCalls OS}.
Context (view : OS → gmap Z SocketState) (doc : documented view).
Implicit Type s : NetworkHandler OS.

(** The device when the sockets are opened: [g_tcpip] with its multicast address, empty
    timers and sessions, the addresses in [g_network_status]; connections, sent datagrams
    and the rest of the world are as before. *)
Record prepared_device (big : bool) (g : CipTcpIpObject) (d d' : DeviceEncapsulation) : Prop := {
  prepared_stack : cip_stack (stack (world d'))
    = store_tcpip (CipTcpIpCalculateMulticastIp big g) (cip_stack (stack (world d)));
  prepared_network : network d'
    = mkNetworkStatus (if_ip_address (interface_configuration g))
        (if_network_mask (interface_configuration g)) (udp_io_messaging (network d))
        (TcpIp.starting_multicast_address (mcast_config (CipTcpIpCalculateMulticastIp big g)))
        (created_sockets (network d));
  prepared_timers : g_timestamps d' = SocketTimerClear <$> g_timestamps d;
  prepared_sessions : g_registered_sessions d'
    = replicate OPENER_NUMBER_OF_SUPPORTED_SESSIONS kEipInvalidSocket;
  prepared_manager : Encap.manager d' = Encap.manager d;
  prepared_datagrams : sent_datagrams d' = sent_datagrams d }.

Lemma prepare_spec big g q (d : DeviceEncapsulation) :
  tcpip_holds g (cip_stack (stack (world d))) → qos_holds q (cip_stack (stack (world d))) →
  ∃ d', prepare big d = Some (dscp q, d') ∧ prepared_device big g d d'.
Proof.
  intros Hg Hq. unfold prepare, CipQosUpdateUsedSetQosValues.
  cbn [world set_timestamps]. rewrite (qos_holds_load _ _ Hq), (tcpip_loaded _ _ Hg).
  cbn [mbind option_bind]. eexists. by split.
Qed.

Lemma network_started big g q s :
  tcpip_holds g (cip_stack (stack (world (device s)))) →
  qos_holds q (cip_stack (stack (world (device s)))) →
  ∃ status s', NetworkHandlerInitialize big s = Some (status, dscp q, s') ∧
    prepared_device big g (device s) (device s') ∧
    ((status = kEipStatusError ∧ master_socket s' = ∅) ∨
     (status = kEipStatusOk ∧ elapsed_time s' = 0 ∧ read_socket s' = ∅ ∧
      let port := htons big kOpenerEthernetPort in
      let ip := if_ip_address (interface_configuration g) in
      let t := tcp_listener s' in
      let b := udp_global_broadcast_listener s' in
      let u := udp_unicast_listener s' in
      NoDup [t; b; u] ∧ master_socket s' = {[t; b; u]} ∧
      sockets_ok s' ∧
      (∃ x, view (os s') !! t = Some x ∧
         listener SOCK_STREAM (mkSockAddr port ip) true false (explicit_msg (dscp q)) x) ∧
      (∃ x, view (os s') !! u = Some x ∧
         listener SOCK_DGRAM (mkSockAddr port ip) false false (explicit_msg (dscp q)) x) ∧
      (∃ x, view (os s') !! b = Some x ∧
         listener SOCK_DGRAM (mkSockAddr port (htonl big INADDR_ANY)) false true
           (explicit_msg (dscp q)) x))).
Proof.
  intros Hg Hq. destruct (prepare_spec big g q (device s) Hg Hq) as (d & E & P).
  unfold NetworkHandlerInitialize. rewrite E. cbn [mbind option_bind CipQosGetDscpPriority].
  rewrite (prepared_network _ _ _ _ P). cbn [ConnService.ip_address].
  set (s0 := set_master ∅ (set_read ∅ (set_device d s))).
  pose proof (open_listeners_spec view doc big (if_ip_address (interface_configuration g))
    (explicit_msg (dscp q)) s0) as W. unfold wp in W.
  destruct (open_listeners _ _ _ s0) as [[[[t b] u]|] s1].
  - destruct W as ((Ed & Em & Er & _) & Et & Eb & Eu & N1 & N2 & N3 & F & T & U & B).
    pose proof (λ x, GetMaxSocket_highest t b u x F N1 N2 N3) as M. destruct (fd_sets t b u F) as (m1 & m2 & m3 & S1 & S2 & S3 & ->).
    rewrite Em. cbn [master_socket set_master s0]. rewrite S1. cbn [mbind option_bind]. rewrite S2. cbn [mbind option_bind]. rewrite S3.
    cbn [mbind option_bind os set_highest set_master].
    pose proof (clock_effect _ doc (os s1)) as C. destruct (GetMilliSeconds (os s1)) as [now o'].
    cbn [snd] in C. eexists _, _. split; [reflexivity |].
    cbn [device set_times set_os set_highest set_master elapsed_time read_socket master_socket tcp_listener
      udp_global_broadcast_listener udp_unicast_listener highest_socket_handle os].
    rewrite Ed, Er, Et, Eb, Eu, C. split; [exact P |]. right. split_and!; try done.
    + repeat (constructor; [set_solver |]). constructor.
    + split; [by apply GetMaxSocket_bound |].
      intros x Hx. assert (Hx' : x ∈ [t; b; u]) by set_solver. specialize (M x Hx').
      rewrite list.Forall_forall in F. specialize (F x Hx'). cbn beta in F.
      cbn [highest_socket_handle set_times set_os set_highest]. lia.
  - destruct W as (Ed & Em & _). eexists _, _. split; [reflexivity |]. rewrite Ed, Em.
    split; [exact P |]. by left.
Qed.

(** C14.  The network handler starts: with any values of the TCP/IP and QoS objects the
    function returns, the device is prepared, and if it reports success there are three
    distinct sockets with the options the handler relies on: the TCP listener at the
    device's address and port 44818, listening; the unicast socket at the same address; the
    broadcast socket at any address, allowed to broadcast; all of them non-blocking, marked
    with the explicit priority that is in use or not at all, in the socket set (and
    nothing else), and none above the highest one.  If it reports an error, no socket is
    in the set. *)
Theorem NetworkHandlerInitialize_ready big g q s :
  tcpip_holds g (cip_stack (stack (world (device s)))) →
  qos_holds q (cip_stack (stack (world (device s)))) →
  ∃ status s', NetworkHandlerInitialize big s = Some (status, dscp q, s') ∧
    prepared_device big g (device s) (device s') ∧
    ((status = kEipStatusError ∧ master_socket s' = ∅) ∨
     (status = kEipStatusOk ∧ elapsed_time s' = 0 ∧ read_socket s' = ∅ ∧
      let port := htons big kOpenerEthernetPort in
      let ip := if_ip_address (interface_configuration g) in
      let t := tcp_listener s' in
      let b := udp_global_broadcast_listener s' in
      let u := udp_unicast_listener s' in
      NoDup [t; b; u] ∧ master_socket s' = {[t; b; u]} ∧
      sockets_ok s' ∧
      (∃ x, view (os s') !! t = Some x ∧
         listener SOCK_STREAM (mkSockAddr port ip) true false (explicit_msg (dscp q)) x) ∧
      (∃ x, view (os s') !! u = Some x ∧
         listener SOCK_DGRAM (mkSockAddr port ip) false false (explicit_msg (dscp q)) x) ∧
      (∃ x, view (os s') !! b = Some x ∧
         listener SOCK_DGRAM (mkSockAddr port (htonl big INADDR_ANY)) false true
           (explicit_msg (dscp q)) x))).
Proof. apply network_started. Qed.
End Start.

(** ** The socket of the I/O connections *)

Section UdpSpec.
Context {OS : Type} `{OperatingSystem OS} `{SocketCalls OS}.
Context (view : OS → gmap Z SocketState) (doc : documented view).
Implicit Type s : NetworkHandler OS.

Record io_socket (big : bool) (x : SocketState) : Prop := {
  io_kind : kind x = SOCK_DGRAM;
  io_reuse : reuse_address x = true;
  io_nonblocking : nonblocking x = true;
  io_bound : bound_to x
    = Some (mkSockAddr (htons big kOpenerEipIoUdpPort) (htonl big INADDR_ANY)) }.

Lemma configure_udp_spec big r s :
  wp (configure_udp_socket big r)
    (λ _ s', same_handler s s' ∧ highest_socket_handle s' = highest_socket_handle s ∧
       view (os s') = alter (set_bound (mkSockAddr (htons big kOpenerEipIoUdpPort)
                         (htonl big INADDR_ANY))) r
                        (alter (set_option SO_REUSEADDR 1) r (view (os s))))
    (same_handler s) s.
Proof.
  unfold configure_udp_socket. apply wp_bind, (wp_not_negative view doc); [intros ? ? V1 | done | done].
  apply (wp_not_negative view doc); [intros ? ? V2 | done | done].
  unfold effect in *. cbn [os set_os Z.ltb Z.compare] in *. by rewrite V2, V1.
Qed.

(** C27.  The socket for I/O data: if the new socket can be made non-blocking (the code
    asserts that), the function returns.  On success the socket is bound to port 2222 at any
    address, non-blocking, recorded in [g_network_status], in the socket set and not above
    the highest one.  On failure the socket set has gained nothing, but unless there was no
    socket at all [g_network_status] keeps the number of the socket that was closed. *)
Theorem CreateUdpSocket_spec big s :
  (∀ x s', (not_negative (SetSocketToNonBlocking x) s').1 ≠ None) →
  ∃ r s', CreateUdpSocket big s = Some (r, s') ∧
    let stored := udp_io_messaging (network (device s')) in
    ((0 <= r ∧ stored = r ∧ master_socket s' = {[r]} ∪ master_socket s ∧
      r <= highest_socket_handle s' ∧ highest_socket_handle s <= highest_socket_handle s' ∧
      ∃ x, view (os s') !! r = Some x ∧ io_socket big x) ∨
     (r = kEipInvalidSocket ∧ master_socket s' ⊆ master_socket s ∧
      (stored = kEipInvalidSocket ∨
       0 <= stored ∧ closings (device s') = stored :: closings (device s)))).
Proof.
  intros Hnb. unfold CreateUdpSocket.
  pose proof (call_result _ doc (Socket SOCK_DGRAM) (os s)) as R.
  pose proof (call_effect _ doc (Socket SOCK_DGRAM) (os s)) as V.
  pose proof (socket_fresh _ doc SOCK_DGRAM (os s)) as F.
  destruct (system_call _ (os s)) as [r o]. cbn [fst snd] in *.
  set (s1 := set_device _ (set_os o s)).
  destruct R as [->|R].
  { eexists _, _. split; [reflexivity |]. right. split; [done |]. split; [done | by left]. }
  destruct (Z.eqb_spec r kEipInvalidSocket) as [->|_]; [done |].
  destruct (F R) as [Hn Hlt]. clear F. specialize (Hnb r s1).
  pose proof (wp_nonblocking view doc r
    (λ _ s', same_handler s1 s' ∧ highest_socket_handle s' = highest_socket_handle s1 ∧
       view (os s') = alter (set_nonblocking true) r (view (os s1))) (λ _, True) s1) as W1.
  unfold wp in W1. destruct (not_negative _ s1) as [[q|] s2]; [|done]. clear Hnb.
  destruct W1 as (H2 & M2 & V2); [done | done |].
  pose proof (configure_udp_spec big r s2) as W2. unfold wp in W2.
  destruct (configure_udp_socket _ _ s2) as [[q'|] s3].
  - destruct W2 as (H3 & M3 & V3). destruct H2 as (D2 & S2 & _), H3 as (D3 & S3 & _).
    unfold fd_set, fd_valid. destruct (Z.leb_spec 0 r), (Z.ltb_spec r FD_SETSIZE); try lia.
    cbn [andb mbind option_bind]. eexists _, _. split; [reflexivity |]. left.
    assert (Hv : ∃ x, view (os s3) !! r = Some x ∧ io_socket big x).
    { rewrite V3, V2. cbn [os set_device set_os s1]. rewrite V. unfold effect.
      destruct (Z.ltb_spec r 0); [lia |]. rewrite !lookup_alter_eq, lookup_insert_eq.
      eexists. split; [reflexivity | by split]. }
    rewrite S3, S2. cbn [master_socket set_device set_os s1].
    assert (Hh : highest_socket_handle s3 = highest_socket_handle s) by (by rewrite M3, M2).
    cbn [highest_socket_handle set_master].
    destruct (Z.ltb_spec (highest_socket_handle s3) r); cbn [highest_socket_handle set_highest
      set_master device os master_socket]; rewrite ?D3, ?D2;
      split_and!; try done; try lia.
  - eexists _, _. split; [reflexivity |]. right. destruct H2 as (D2 & S2 & _), W2 as (D3 & S3 & _).
    cbn [device set_master set_device master_socket]. rewrite S3, S2, D3, D2.
    split_and!; [done | cbn [master_socket set_device set_os s1]; set_solver |]. right.
    split; [done |]. unfold CloseUdpSocket, CloseSocket, closings.
    unfold kEipInvalidSocket. by destruct (Z.eqb_spec (-1) r); [lia |].
Qed.
End UdpSpec.

(** ** Witnesses *)

(** A system with sockets from 3 on, in which every call succeeds. *)
Definition headers : SocketCalls (gmap Z SocketState) := {|
  system_call := λ _ m, (-1, m); GetSocketErrorNumber := λ _, 0; O_NONBLOCK := 2048 |}.

Definition table_result (c : SystemCall) (m : gmap Z SocketState) : Z :=
  match c with
  | Socket _ =>
      let x := 3 + Z.of_nat (size m) in
      if (x <? FD_SETSIZE) && bool_decide (m !! x = None) then x else -1
  | _ => 0
  end.

Definition table_calls : SocketCalls (gmap Z SocketState) := {|
  system_call := λ c m, (table_result c m, @effect _ headers c (table_result c m) m);
  GetSocketErrorNumber := λ _, 0;
  O_NONBLOCK := 2048 |}.

Definition table_os : OperatingSystem (gmap Z SocketState) := {|
  recv := λ _ _ o, (WouldBlock, o);
  recvfrom := λ _ _ o, (WouldBlock, mkSockAddr 0 0, o);
  send := λ _ _ o, o;
  sendto := λ _ _ _ o, o;
  accept := λ _ o, (-1, o);
  select := λ _ _ _ o, (Interrupted, o);
  getpeername := λ _ _, mkSockAddr 0 0;
  GetMilliSeconds := λ o, (1000, o);
  rand := λ _, 9 |}.

Lemma table_documented : @documented _ table_calls table_os id.
Proof.
  split; try done.
  - intros c o. cbn [system_call table_calls fst]. unfold table_result.
    destruct c; try (right; lia). destruct (_ && _); [right; lia | by left].
  - intros k o. cbn [system_call table_calls fst]. unfold table_result.
    destruct (Z.ltb_spec (3 + Z.of_nat (size o)) FD_SETSIZE); cbn [andb]; [|lia].
    case_bool_decide; [done | lia].
Qed.

(** 192.168.1.5 with 24 bits of network, in network byte order on a little-endian host. *)
Definition addressed_tcpip : CipTcpIpObject :=
  set_interface_configuration
    (mkIfConfig 0x0501A8C0 0x00FFFFFF 0 0 0 (mkString 0 None)) (g_tcpip false).

Definition unopened : NetworkHandler (gmap Z SocketState) :=
  let d := timed_device (timed_connection 25 50000) in
  mkNetworkHandler ∅
    (set_world (set_stack (set_device_stack
       (store_tcpip addressed_tcpip (store_qos default_qos empty_stack)) (stack (world d))) (world d)) d)
    ∅ ∅ 0 kEipInvalidSocket 0 0 0 0 0 (replicate OPENER_TIMEOUT_CHECKER_ARRAY_SIZE None).

Lemma NetworkHandlerInitialize_ready_witness :
  ∃ status s', @NetworkHandlerInitialize _ table_os table_calls false unopened
      = Some (status, kDefaultValues, s') ∧
    prepared_device false addressed_tcpip (device unopened) (device s') ∧
    status = kEipStatusOk ∧ master_socket s' = {[tcp_listener s'; udp_global_broadcast_listener s';
      udp_unicast_listener s']}.
Proof.
  destruct (@NetworkHandlerInitialize_ready _ table_os table_calls id table_documented false
    addressed_tcpip default_qos unopened) as (status & s' & E & P & R).
  - repeat (constructor; [vm_compute; reflexivity |]). constructor.
  - repeat (constructor; [vm_compute; reflexivity |]). constructor.
  - exists status, s'. split; [exact E |]. split; [exact P |]. destruct R as [[-> _]|R].
    + exfalso.
      assert (X : (λ x, x.1.1) <$> @NetworkHandlerInitialize _ table_os table_calls false unopened
        = Some kEipStatusOk) by (vm_compute; reflexivity).
      rewrite E in X. discriminate X.
    + cbv zeta in R. destruct R as (-> & _ & _ & _ & M & _). split; [reflexivity | exact M].
Defined.

Lemma CreateUdpSocket_spec_witness :
  ∃ r s', @CreateUdpSocket _ table_calls false unopened = Some (r, s') ∧ r = 3 ∧
    udp_io_messaging (network (device s')) = 3.
Proof.
  destruct (@CreateUdpSocket_spec _ table_os table_calls id table_documented false unopened)
    as (r & s' & E & R).
  - intros x s'. discriminate.
  - exists r, s'. split; [exact E |].
    assert (X : fst <$> @CreateUdpSocket _ table_calls false unopened = Some 3)
      by (vm_compute; reflexivity).
    rewrite E in X. injection X as ->. split; [reflexivity |]. cbv zeta in R.
    destruct R as [(_ & S & _)|(R & _)]; [exact S | discriminate R].
Defined.
