(* ===== verification/NvData.v ===== *)
(** * [ports/nvdata]: the configuration files of the device

    The attributes of the QoS object are kept in a text file, written with [fprintf] and
    read back with [fscanf] at the start; those of the TCP/IP object are not stored yet.
    The file system is an interface; characters are their codes. *)

From S2P Require Import Prelude EndianConv CipTypes CipCodec CipClasses CipServices ConnObject Assembly NetObject.
From S2P Require Import Qos.
From stdpp Require Import strings.
Open Scope Z_scope.

(** ** The file system *)

(** [FS] is its state.  [fopen_read] gives the text of a file that can be opened;
    [fopen_write] leaves it empty; a result of [true] is success. *)
Class FileSystem (FS : Type) := {
  mkdir : list Z → FS → FS;
  fopen_read : list Z → FS → option (list Z);
  fopen_write : list Z → FS → option FS;
  fprintf : list Z → list Z → FS → bool * FS;
  fclose : list Z → FS → bool * FS }.

(** ** Formatted input and output *)

(** [%u], without leading zeros; twenty digits are enough for any integer type. *)
Fixpoint digits (fuel : nat) (v : Z) : list Z :=
  match fuel with
  | O => []
  | S fuel => (if v <? 10 then [] else digits fuel (v / 10)) ++ [48 + v mod 10]
  end.

Definition decimal (v : Z) : list Z := digits 20 v.

Definition isspace (c : Z) : bool := (c =? 32) || ((9 <=? c) && (c <=? 13)).
Definition isdigit (c : Z) : bool := (48 <=? c) && (c <=? 57).

Fixpoint skip_blanks (l : list Z) : list Z :=
  match l with
  | c :: l' => if isspace c then skip_blanks l' else l
  | [] => []
  end.

Fixpoint take_digits (l : list Z) : list Z * list Z :=
  match l with
  | c :: l' => if isdigit c then let '(d, r) := take_digits l' in (c :: d, r) else ([], l)
  | [] => ([], [])
  end.

Definition digits_value (d : list Z) : Z := fold_left (λ v c, 10 * v + (c - 48)) d 0.

(** A sign is allowed, a minus negates in the unsigned type.  [None]: the number does not
    fit, which C leaves undefined; [Some None]: no number. *)
Definition scan_unsigned (l : list Z) : option (option (Z * list Z)) :=
  let '(negative, l) := match l with
                        | c :: l' => if c =? 43 then (false, l')
                                     else if c =? 45 then (true, l') else (false, l)
                        | [] => (false, l)
                        end in
  match take_digits l with
  | ([], _) => Some None
  | (d, rest) =>
      let v := digits_value d in
      assert! v <? 2 ^ 32;
      Some (Some (if negative : bool then u32 (- v) else v, rest))
  end.

Inductive Directive := Blank | Unsigned | Literal (c : Z).

(** The numbers converted before the first failure. *)
Fixpoint fscanf (format : list Directive) (l : list Z) : option (list Z) :=
  match format with
  | [] => Some []
  | Blank :: format => fscanf format (skip_blanks l)
  | Literal c :: format =>
      match l with
      | x :: l => if x =? c then fscanf format l else Some []
      | [] => Some []
      end
  | Unsigned :: format =>
      r ← scan_unsigned (skip_blanks l);
      match r with
      | None => Some []
      | Some (v, l) => vs ← fscanf format l; Some (v :: vs)
      end
  end.

(** ** Configuration files *)

Section NvData.
Context {FS : Type} `{FileSystem FS}.
Implicit Type fs : FS.

(** The position of the last ['/']. *)
Fixpoint strrchr_slash (path : list Z) : option nat :=
  match path with
  | [] => None
  | c :: path =>
      match strrchr_slash path with
      | Some k => Some (S k)
      | None => if c =? 47 then Some O else None
      end
  end.

(** The directories above come first; one step for each character is enough. *)
Fixpoint RecMkdir (fuel : nat) (p_path : list Z) fs : option FS :=
  match fuel with
  | O => None
  | S fuel =>
      fs ← match strrchr_slash p_path with
           | Some (S k) => RecMkdir fuel (take (S k) p_path) fs
           | _ => Some fs
           end;
      Some (mkdir p_path fs)
  end.

Definition make_directories (p_path : list Z) fs : option FS :=
  match strrchr_slash p_path with
  | Some k => RecMkdir (S k) (take k p_path) fs
  | None => Some fs
  end.

(** nvdata/ *)
Definition CFG_BASE : list Z := [110; 118; 100; 97; 116; 97; 47].
(** qos.cfg *)
Definition QOS_CFG_NAME : list Z := [113; 111; 115; 46; 99; 102; 103].
(** tcpip.cfg *)
Definition TCPIP_CFG_NAME : list Z := [116; 99; 112; 105; 112; 46; 99; 102; 103].

(** [snprintf] into 64 characters *)
Definition cfg_path (p_name : list Z) : list Z := take 63 (CFG_BASE ++ p_name).

(** Opened for reading: the text. *)
Definition ConfFileOpen_read (p_name : list Z) fs : option (list Z) :=
  fopen_read (cfg_path p_name) fs.

(** Opened for writing: [None] inside if that fails; directories are created first. *)
Definition ConfFileOpen_write (p_name : list Z) fs : option (option FS * FS) :=
  fs ← make_directories (cfg_path p_name) fs;
  Some (fopen_write (cfg_path p_name) fs, fs).

Definition ConfFileClose (p_name : list Z) fs : EipStatus * FS :=
  let '(ok, fs) := fclose (cfg_path p_name) fs in
  (if ok : bool then kEipStatusOk else kEipStatusError, fs).

(** ** The QoS object *)

Definition qos_format : list Directive :=
  [Blank; Unsigned; Literal 44; Blank; Unsigned; Literal 44; Blank; Unsigned; Literal 44;
   Blank; Unsigned; Literal 44; Blank; Unsigned; Blank].

Definition UCHAR_MAX : Z := 255.

(** The five values of the file; the others stay. *)
Definition set_stored (a b c d e : Z) (p_qos : CipQosObject) : CipQosObject :=
  mkQos (q_frames_enable p_qos)
    (mkDscp (event (dscp p_qos)) (general (dscp p_qos)) a b c d e).

Definition NvQosLoad (p_qos : CipQosObject) fs : option (EipStatus * CipQosObject * FS) :=
  match ConfFileOpen_read QOS_CFG_NAME fs with
  | None => Some (kEipStatusError, p_qos, fs)
  | Some text =>
      read ← fscanf qos_format text;
      let '(eip_status, fs) := ConfFileClose QOS_CFG_NAME fs in
      match eip_status, read with
      | kEipStatusOk, [a; b; c; d; e] =>
          Some (if existsb (λ v, UCHAR_MAX <? v) [a; b; c; d; e]
                then (kEipStatusError, p_qos, fs)
                else (kEipStatusOk, set_stored a b c d e p_qos, fs))
      | _, _ => Some (kEipStatusError, p_qos, fs)
      end
  end.

(** A blank, the numbers separated by a comma and a blank, a newline *)
Definition qos_text (p_qos : CipQosObject) : list Z :=
  let v := dscp p_qos in
  [32] ++ decimal (urgent v) ++ [44; 32] ++ decimal (scheduled v) ++ [44; 32]
  ++ decimal (high v) ++ [44; 32] ++ decimal (low v) ++ [44; 32] ++ decimal (explicit_msg v)
  ++ [10].

(** A file that cannot be opened is no error here. *)
Definition NvQosStore (p_qos : CipQosObject) fs : option (EipStatus * FS) :=
  '(file, fs) ← ConfFileOpen_write QOS_CFG_NAME fs;
  match file with
  | None => Some (kEipStatusOk, fs)
  | Some fs =>
      let '(written, fs) := fprintf (cfg_path QOS_CFG_NAME) (qos_text p_qos) fs in
      let '(closed, fs) := ConfFileClose QOS_CFG_NAME fs in
      Some (if written : bool then closed else kEipStatusError, fs)
  end.

(** ** The TCP/IP object, whose data are not stored yet *)

Definition NvTcpipLoad fs : EipStatus * FS :=
  match ConfFileOpen_read TCPIP_CFG_NAME fs with
  | None => (kEipStatusOk, fs)
  | Some _ => (kEipStatusError, (ConfFileClose TCPIP_CFG_NAME fs).2)
  end.

Definition NvTcpipStore fs : option (EipStatus * FS) :=
  '(file, fs) ← ConfFileOpen_write TCPIP_CFG_NAME fs;
  Some (match file with
        | None => (kEipStatusError, fs)
        | Some fs => (kEipStatusError, (ConfFileClose TCPIP_CFG_NAME fs).2)
        end).

(** ** Start-up and the callbacks of the two classes *)

Definition NvdataLoad (g_qos : CipQosObject) fs : option (EipStatus * CipQosObject * FS) :=
  '(eip_status, g_qos, fs) ← NvQosLoad g_qos fs;
  if bool_decide (eip_status = kEipStatusError) then Some (eip_status, g_qos, fs)
  else
    '(stored, fs) ← NvQosStore g_qos fs;
    Some (if bool_decide (stored = kEipStatusError) then kEipStatusError else eip_status,
          g_qos, fs).

Definition NvQosSetCallback (g_qos : CipQosObject) (attribute : CipAttributeStruct) fs
  : option (EipStatus * FS) :=
  if has_flag kNvDataFunc (attribute_flags attribute) then NvQosStore g_qos fs
  else Some (kEipStatusOk, fs).

(** Bit 7 of [service] is a flag of the caller. *)
Definition NvTcpipSetCallback (attribute : CipAttributeStruct) (service : Z) fs
  : option (EipStatus * FS) :=
  if has_flag kNvDataFunc (attribute_flags attribute) && negb (has_flag 0x80 service)
  then NvTcpipStore fs else Some (kEipStatusOk, fs).
End NvData.

(** ** Lemmas: numbers as text *)

Lemma digits_value_app d c : digits_value (d ++ [c]) = 10 * digits_value d + (c - 48).
Proof. unfold digits_value. by rewrite fold_left_app. Qed.

Lemma digits_spec fuel v :
  0 <= v < 10 ^ Z.of_nat fuel → (0 < fuel)%nat →
  digits_value (digits fuel v) = v ∧ forallb isdigit (digits fuel v) = true ∧ digits fuel v ≠ [].
Proof.
  revert v. induction fuel as [|fuel IH]; intros v Hv Hf; [lia |]. cbn [digits].
  rewrite digits_value_app, forallb_app. cbn [forallb].
  assert (Hd : isdigit (48 + v mod 10) = true).
  { unfold isdigit. pose proof (Z.mod_pos_bound v 10). lia. }
  rewrite Hd, !andb_true_r. split; [|split; [|by intros [_ [=]]%app_nil]].
  - destruct (Z.ltb_spec v 10) as [Hs|Hl]; [cbn; rewrite Z.mod_small; lia |].
    rewrite Nat2Z.inj_succ, Z.pow_succ_r in Hv by lia.
    destruct fuel as [|fuel]; [cbn in Hv; lia |].
    destruct (IH (v / 10)) as [-> _]; [|lia |].
    { split; [apply Z.div_pos; lia | apply Z.div_lt_upper_bound; lia]. }
    pose proof (Z.div_mod v 10). lia.
  - destruct (Z.ltb_spec v 10) as [Hs|Hl]; [done |].
    rewrite Nat2Z.inj_succ, Z.pow_succ_r in Hv by lia.
    destruct fuel as [|fuel]; [cbn in Hv; lia |].
    destruct (IH (v / 10)) as (_ & -> & _); [|lia | done].
    split; [apply Z.div_pos; lia | apply Z.div_lt_upper_bound; lia].
Qed.

Definition starts_with_digit (l : list Z) : bool :=
  match l with c :: _ => isdigit c | [] => false end.

Lemma take_digits_app d rest :
  forallb isdigit d = true → starts_with_digit rest = false → take_digits (d ++ rest) = (d, rest).
Proof.
  intros Hd Hr. induction d as [|c d IH]; cbn [app take_digits].
  - destruct rest as [|c rest]; [done |]. cbn in *. by rewrite Hr.
  - cbn [forallb] in Hd. apply andb_true_iff in Hd as [-> Hd]. by rewrite IH.
Qed.

Lemma isdigit_not_space c : isdigit c = true → isspace c = false.
Proof. unfold isdigit, isspace. lia. Qed.

(** A number that was printed is scanned. *)
Lemma scan_decimal v rest :
  0 <= v < 2 ^ 32 → starts_with_digit rest = false →
  scan_unsigned (skip_blanks (decimal v ++ rest)) = Some (Some (v, rest)).
Proof.
  intros Hv Hr. destruct (digits_spec 20 v) as (E & Hd & Hn); [|lia |].
  { change (10 ^ Z.of_nat 20) with 100000000000000000000. lia. }
  fold (decimal v) in *. destruct (decimal v) as [|c d] eqn:Hc; [done |].
  pose proof Hd as Hd'. cbn [forallb] in Hd'. apply andb_true_iff in Hd' as [H1 _].
  cbn [app skip_blanks]. rewrite isdigit_not_space by done.
  unfold scan_unsigned. unfold isdigit in H1. apply andb_true_iff in H1 as [H1 _].
  rewrite (proj2 (Z.eqb_neq c 43)), (proj2 (Z.eqb_neq c 45)) by lia.
  change (c :: d ++ rest) with ((c :: d) ++ rest). rewrite take_digits_app by done.
  rewrite E. by rewrite (proj2 (Z.ltb_lt v _)) by lia.
Qed.

Lemma skip_blanks_twice l : skip_blanks (skip_blanks l) = skip_blanks l.
Proof.
  induction l as [|c l IH]; [done |]. cbn [skip_blanks].
  destruct (isspace c) eqn:Hc; [done |]. cbn [skip_blanks]. by rewrite Hc.
Qed.

Lemma fscanf_field v rest format :
  0 <= v < 2 ^ 32 → starts_with_digit rest = false →
  fscanf (Blank :: Unsigned :: format) (32 :: decimal v ++ rest)
  = (vs ← fscanf format rest; Some (v :: vs)).
Proof.
  intros Hv Hr. cbn [fscanf]. rewrite skip_blanks_twice.
  change (skip_blanks (32 :: decimal v ++ rest)) with (skip_blanks (decimal v ++ rest)).
  by rewrite scan_decimal.
Qed.

Lemma fscanf_literal c l format : fscanf (Literal c :: format) (c :: l) = fscanf format l.
Proof. cbn [fscanf]. by rewrite Z.eqb_refl. Qed.

(** Every run of digits in the text, wherever one starts to read, is a number below 2^32. *)
Definition numbers_fit (text : list Z) : Prop :=
  ∀ rest, rest `suffix_of` text → digits_value (take_digits rest).1 < 2 ^ 32.

Lemma numbers_fit_suffix rest text : rest `suffix_of` text → numbers_fit text → numbers_fit rest.
Proof. intros Hs Hf r Hr. apply Hf. by etransitivity. Qed.

Lemma skip_blanks_suffix l : skip_blanks l `suffix_of` l.
Proof.
  induction l as [|c l IH]; [done |]. cbn [skip_blanks]. destruct (isspace c); [|done].
  by apply suffix_cons_r.
Qed.

Lemma take_digits_suffix l : (take_digits l).2 `suffix_of` l.
Proof.
  induction l as [|c l IH]; [done |]. cbn [take_digits]. destruct (isdigit c); [|done].
  destruct (take_digits l). by apply suffix_cons_r.
Qed.

Lemma scan_unsigned_total l :
  numbers_fit l → ∃ r, scan_unsigned l = Some r ∧ ∀ v rest, r = Some (v, rest) → rest `suffix_of` l.
Proof.
  intros Hf. unfold scan_unsigned.
  set (signed := match l with [] => _ | _ => _ end).
  assert (Hs : signed.2 `suffix_of` l).
  { unfold signed. destruct l as [|c l']; [done |]. repeat case_match; try done; by apply suffix_cons_r. }
  destruct signed as [negative l']. cbn [snd] in Hs.
  pose proof (take_digits_suffix l') as Hd. pose proof (Hf l' Hs) as Hv.
  destruct (take_digits l') as [[|x d] rest]; cbn [fst snd] in *; [by exists None |].
  rewrite (proj2 (Z.ltb_lt _ _) Hv). eexists. split; [reflexivity |].
  intros v r [= _ <-]. by etransitivity.
Qed.

Lemma fscanf_total format l : numbers_fit l → ∃ vs, fscanf format l = Some vs.
Proof.
  revert l. induction format as [|d format IH]; intros l Hf; [by eexists |].
  destruct d as [| |c]; cbn [fscanf].
  - apply IH. eapply numbers_fit_suffix; [apply skip_blanks_suffix | done].
  - pose proof (numbers_fit_suffix _ _ (skip_blanks_suffix l) Hf) as Hb.
    destruct (scan_unsigned_total _ Hb) as ([[v rest]|] & -> & Hr); cbn [mbind option_bind]; [|by eexists].
    destruct (IH rest) as [vs ->]; [|by eexists]. eapply numbers_fit_suffix; [by eapply Hr | done].
  - destruct l as [|x l]; [by eexists |]. destruct (x =? c); [|by eexists].
    apply IH. eapply numbers_fit_suffix; [|done]. by apply suffix_cons_r.
Qed.

(** ** The QoS file *)

Definition stored_values (g : CipQosObject) : list Z :=
  let v := dscp g in [urgent v; scheduled v; high v; low v; explicit_msg v].

Lemma qos_text_scanned g :
  Forall is_u8 (stored_values g) → fscanf qos_format (qos_text g) = Some (stored_values g).
Proof.
  unfold stored_values, qos_text, qos_format. intros Hv. rewrite !list.Forall_cons in Hv.
  destruct Hv as (V1 & V2 & V3 & V4 & V5 & _). unfold is_u8 in *. cbn [app].
  by rewrite fscanf_field, fscanf_literal, fscanf_field, fscanf_literal, fscanf_field,
    fscanf_literal, fscanf_field, fscanf_literal, fscanf_field by (lia || done).
Qed.

Section Files.
Context {FS : Type} `{FileSystem FS}.
Implicit Type fs : FS.

(** The one directory of both files *)
Definition NVDATA : list Z := [110; 118; 100; 97; 116; 97].

Lemma config_directory name fs :
  name = QOS_CFG_NAME ∨ name = TCPIP_CFG_NAME →
  make_directories (cfg_path name) fs = Some (mkdir NVDATA fs).
Proof. by intros [-> | ->]. Qed.

(** What is documented about files: what was written and closed without an error is what
    a reader finds. *)
Definition files_keep_text : Prop :=
  ∀ path text fs fs1 fs2 fs3,
    fopen_write path fs = Some fs1 → fprintf path text fs1 = (true, fs2) →
    fclose path fs2 = (true, fs3) → fopen_read path fs3 = Some text.

(** Closing a file that was read changes nothing that matters here and succeeds. *)
Definition reader_closes : Prop := ∀ path fs, (fclose path fs).1 = true.

(** C37.  What the device stores it loads: when the file can be opened for writing and storing
    reports success, loading at the next start succeeds and restores exactly the five
    stored values, whatever the object held, and leaves its other members alone. *)
Theorem qos_stored_then_loaded g g0 fs fs' :
  files_keep_text → reader_closes → Forall is_u8 (stored_values g) →
  fopen_write (cfg_path QOS_CFG_NAME) (mkdir NVDATA fs) ≠ None →
  NvQosStore g fs = Some (kEipStatusOk, fs') →
  ∃ fs'', NvQosLoad g0 fs'
    = Some (kEipStatusOk,
        mkQos (q_frames_enable g0)
          (mkDscp (event (dscp g0)) (general (dscp g0)) (urgent (dscp g)) (scheduled (dscp g))
             (high (dscp g)) (low (dscp g)) (explicit_msg (dscp g))), fs'').
Proof.
  intros Hkeep Hclose Hv Hopen Hstore. unfold NvQosStore, ConfFileOpen_write in Hstore.
  rewrite config_directory in Hstore by (by left). cbn [mbind option_bind] in Hstore.
  destruct (fopen_write _ (mkdir NVDATA fs)) as [fs2|] eqn:Hw; [|done].
  destruct (fprintf _ (qos_text g) fs2) as [written fs3] eqn:Hp.
  unfold ConfFileClose in Hstore. destruct (fclose _ fs3) as [closed fs4] eqn:Hc.
  destruct written; [|done]. destruct closed; [|done]. injection Hstore as <-.
  unfold NvQosLoad, ConfFileOpen_read. rewrite (Hkeep _ _ _ _ _ _ Hw Hp Hc).
  rewrite qos_text_scanned by done. cbn [mbind option_bind]. unfold ConfFileClose.
  specialize (Hclose (cfg_path QOS_CFG_NAME) fs4). destruct (fclose _ fs4) as [ok fs5].
  cbn [fst] in Hclose. subst ok. unfold stored_values in *.
  assert (Hr : existsb (λ v, UCHAR_MAX <? v) (stored_values g) = false).
  { rewrite Forall_forall in Hv. apply not_true_is_false. intros (v & Hin & Hlt)%existsb_exists.
    apply list_elem_of_In in Hin. specialize (Hv v Hin). unfold is_u8, UCHAR_MAX in *. lia. }
  unfold stored_values in Hr. rewrite Hr. by eexists.
Qed.

(** C38.  Loading is all or nothing: either all five values are taken
    over, each fits its byte, and the rest of the object is left alone, or the object is
    not touched and an error is reported.  Whatever else is in the file, loading comes to one of these
    ends if no number in it reaches 2^32; C leaves undefined what [fscanf] does with such a number. *)
Theorem qos_load_all_or_nothing g fs :
  ((∀ text, fopen_read (cfg_path QOS_CFG_NAME) fs = Some text → numbers_fit text) →
   ∃ status g' fs', NvQosLoad g fs = Some (status, g', fs')) ∧
  ∀ status g' fs', NvQosLoad g fs = Some (status, g', fs') →
    (status = kEipStatusError ∧ g' = g) ∨
    (status = kEipStatusOk ∧ q_frames_enable g' = q_frames_enable g ∧
       event (dscp g') = event (dscp g) ∧ general (dscp g') = general (dscp g) ∧
       Forall (λ v, v <= UCHAR_MAX) (stored_values g') ∧
       ∃ text, fopen_read (cfg_path QOS_CFG_NAME) fs = Some text ∧
         fscanf qos_format text = Some (stored_values g')).
Proof.
  unfold NvQosLoad, ConfFileOpen_read. split.
  { intros Hfit. destruct (fopen_read _ fs) as [text|]; [|by do 3 eexists].
    destruct (fscanf_total qos_format text (Hfit text eq_refl)) as [read ->]. cbn [mbind option_bind].
    destruct (ConfFileClose _ fs) as [closed fs1].
    destruct closed; try (by do 3 eexists).
    destruct read as [|a [|b [|c [|d [|e [|f l]]]]]]; try (by do 3 eexists).
    destruct (existsb _ _); by do 3 eexists. }
  intros status g' fs'. destruct (fopen_read _ fs) as [text|]; [|by intros [= <- <- _]; left].
  destruct (fscanf qos_format text) as [read|] eqn:Hs; [|done]. cbn [mbind option_bind].
  destruct (ConfFileClose _ fs) as [closed fs1].
  destruct closed; try (by intros [= <- <- _]; left).
  destruct read as [|a [|b [|c [|d [|e [|f l]]]]]]; try (by intros [= <- <- _]; left).
  destruct (existsb _ _) eqn:Hr; [by intros [= <- <- _]; left |]. intros [= <- <- _]. right.
  split_and!; try done; [|by exists text].
  apply Forall_forall. intros v Hv. apply not_true_iff_false in Hr.
  destruct (Z.le_gt_cases v UCHAR_MAX); [done |]. exfalso. apply Hr, existsb_exists.
  exists v. split; [by apply list_elem_of_In | lia].
Qed.

(** The comment at [NvdataLoad] says the current values are stored when loading fails; the
    code stores them when it has succeeded. *)
Lemma failed_load_not_stored g fs g' fs' :
  NvQosLoad g fs = Some (kEipStatusError, g', fs') →
  NvdataLoad g fs = Some (kEipStatusError, g', fs').
Proof. by unfold NvdataLoad; intros ->. Qed.

(** Storing to a file that cannot be opened is reported as a success; the TCP/IP object's
    function reports it as an error, and reports an error otherwise, too. *)
Lemma store_unopened_reports_ok g fs :
  fopen_write (cfg_path QOS_CFG_NAME) (mkdir NVDATA fs) = None →
  NvQosStore g fs = Some (kEipStatusOk, mkdir NVDATA fs).
Proof.
  intros W. unfold NvQosStore, ConfFileOpen_write.
  rewrite config_directory by (by left). cbn [mbind option_bind].
  by rewrite W.
Qed.

Lemma tcpip_store_fails fs status fs' :
  NvTcpipStore fs = Some (status, fs') → status = kEipStatusError.
Proof.
  unfold NvTcpipStore. intros E. apply bind_Some in E as ([[fs1|] fs2] & _ & E); by injection E as <- _.
Qed.
End Files.

(** ** Witnesses *)

(** A disk with one file. *)
Definition one_file : FileSystem (option (list Z)) := {|
  mkdir := λ _ fs, fs;
  fopen_read := λ _ fs, fs;
  fopen_write := λ _ _, Some (Some []);
  fprintf := λ _ text fs, (true, Some text);
  fclose := λ _ fs, (true, fs) |}.

Lemma qos_stored_then_loaded_witness :
  ∃ fs' fs'', @NvQosStore _ one_file default_qos None = Some (kEipStatusOk, fs') ∧
    @NvQosLoad _ one_file (mkQos 1 (mkDscp 1 2 3 4 5 6 7)) fs'
    = Some (kEipStatusOk, mkQos 1 (mkDscp 1 2 55 47 43 31 27), fs'').
Proof.
  assert (E : ∃ fs', @NvQosStore _ one_file default_qos None = Some (kEipStatusOk, fs'))
    by (eexists; vm_compute; reflexivity).
  destruct E as [fs' E]. exists fs'.
  destruct (@qos_stored_then_loaded _ one_file default_qos (mkQos 1 (mkDscp 1 2 3 4 5 6 7)) None fs')
    as [fs'' L].
  - intros path text fs fs1 fs2 fs3 _ [= <-] [= <-]. reflexivity.
  - intros path fs. reflexivity.
  - apply (bool_decide_unpack _). by vm_compute.
  - discriminate.
  - exact E.
  - exists fs''. split; [exact E | exact L].
Defined.

(** 22, 300, 1, 2, 3: a value that is too large *)
Definition large_value : list Z :=
  [32] ++ decimal 22 ++ [44] ++ decimal 300 ++ [44; 49; 44; 50; 44; 51].

Lemma large_value_fits : numbers_fit large_value.
Proof.
  intros rest [pre Hr].
  assert (F : forallb (λ n, digits_value (take_digits (drop n large_value)).1 <? 2 ^ 32) (seq 0 20) = true)
    by (vm_compute; reflexivity).
  rewrite forallb_forall in F. destruct (decide (length pre < 20)%nat) as [Hl|Hl].
  - specialize (F (length pre) ltac:(apply in_seq; lia)). apply Z.ltb_lt in F.
    by rewrite Hr, drop_app_length in F.
  - apply (f_equal length) in Hr. rewrite length_app in Hr.
    change (length large_value) with 13%nat in Hr. lia.
Qed.

Lemma qos_load_all_or_nothing_witness :
  ∃ status g' fs', @NvQosLoad _ one_file default_qos (Some large_value) = Some (status, g', fs') ∧
    status = kEipStatusError ∧ g' = default_qos.
Proof.
  destruct (@qos_load_all_or_nothing _ one_file default_qos (Some large_value)) as [T R].
  destruct T as (status & g' & fs' & E).
  { intros l [= <-]. exact large_value_fits. }
  exists status, g', fs'. split; [exact E |].
  destruct (R _ _ _ E) as [R'|R']; [exact R' |]. exfalso. destruct R' as [-> _].
  assert (X : (λ x, x.1.1) <$> @NvQosLoad _ one_file default_qos (Some large_value) = Some kEipStatusError)
    by (vm_compute; reflexivity).
  rewrite E in X. discriminate X.
Defined.
