(* ===== verification/PosixConfig.v ===== *)
(** * [ports/POSIX/networkconfig.c]: the network configuration of the host

    Hardware address, addresses and gateway of the interface, name servers and domain of the
    host, and waiting for an address.  The system is an interface: [ioctl] on descriptors,
    files as texts, sleeping.  C strings are lists of characters without the final zero. *)

From S2P Require Import Prelude CipStrings CipTypes ConnRecord TcpIp NvData.
From stdpp Require Import strings.
Open Scope Z_scope.

(** ** Strings of the C library *)

(** The characters up to the first zero. *)
Fixpoint c_string (l : list Z) : list Z :=
  match l with
  | [] => []
  | c :: l => if c =? 0 then [] else c :: c_string l
  end.

Fixpoint is_prefix (p l : list Z) : bool :=
  match p, l with
  | [], _ => true
  | a :: p, b :: l => (a =? b) && is_prefix p l
  | _, [] => false
  end.

(** The rest of the string from the first occurrence on. *)
Fixpoint strstr (hay needle : list Z) : option (list Z) :=
  if is_prefix needle hay then Some hay
  else match hay with [] => None | _ :: hay => strstr hay needle end.

(** [fgets] into [n] characters: a line with its newline, cut after [n - 1] characters;
    the rest of the file. *)
Fixpoint take_line (n : nat) (l : list Z) : list Z * list Z :=
  match n, l with
  | S n, c :: l => if c =? 10 then ([c], l)
                   else let '(line, rest) := take_line n l in (c :: line, rest)
  | _, _ => ([], l)
  end.

Definition fgets (n : nat) (l : list Z) : option (list Z * list Z) :=
  match l with [] => None | _ => Some (take_line (pred n) l) end.

(** [strtok_r]: delimiters are skipped, the delimiter behind the token is overwritten. *)
Fixpoint skip_delimiters (delim : Z → bool) (l : list Z) : list Z :=
  match l with
  | c :: l' => if delim c then skip_delimiters delim l' else l
  | [] => []
  end.

Fixpoint take_token (delim : Z → bool) (l : list Z) : list Z * list Z :=
  match l with
  | c :: l => if delim c then ([], l)
              else let '(token, rest) := take_token delim l in (c :: token, rest)
  | [] => ([], [])
  end.

Definition strtok_r (delim : Z → bool) (l : list Z) : option (list Z * list Z) :=
  match skip_delimiters delim l with
  | [] => None
  | l => Some (take_token delim l)
  end.

(** [" \t"] and ["\n"] *)
Definition is_blank (c : Z) : bool := (c =? 32) || (c =? 9).
Definition is_newline (c : Z) : bool := c =? 10.

Definition hex_value (c : Z) : option Z :=
  if isdigit c then Some (c - 48)
  else if (97 <=? c) && (c <=? 102) then Some (c - 87)
  else if (65 <=? c) && (c <=? 70) then Some (c - 55)
  else None.

(** The value so far, the number of digits, and what follows them. *)
Fixpoint hex_digits (v : Z) (n : nat) (l : list Z) : Z * nat * list Z :=
  match l with
  | c :: l' => match hex_value c with
               | Some d => hex_digits (16 * v + d) (S n) l'
               | None => (v, n, l)
               end
  | [] => (v, n, [])
  end.

(** A number may begin with 0x, if a digit follows. *)
Definition skip_prefix (l : list Z) : list Z :=
  match l with
  | 48 :: x :: c :: l' =>
      if ((x =? 120) || (x =? 88)) && match hex_value c with Some _ => true | None => false end
      then c :: l' else l
  | _ => l
  end.

(** [strtoul] to base 16, for an [unsigned long] of [w] bits: value, whether it was out of
    range, and [end]; [None] for no digits. *)
Definition strtoul_16 (w : Z) (l : list Z) : option (Z * bool * list Z) :=
  let l := skip_blanks l in
  let '(negative, l) := match l with
                        | 45 :: l' => (true, l')
                        | 43 :: l' => (false, l')
                        | _ => (false, l)
                        end in
  match hex_digits 0 0 (skip_prefix l) with
  | (_, O, _) => None
  | (v, _, rest) =>
      Some (if 2 ^ w <=? v then (2 ^ w - 1, true, rest)
            else (if negative : bool then (- v) mod 2 ^ w else v, false, rest))
  end.

(** ** The system *)

Inductive SleepResult := Slept | SleepInterrupted (remaining : Z) | SleepFailed.

(** [ioctl] returns the address or the error number; a file is its text, or [None] when it
    cannot be opened; [fread] may read less than the file ([complete] is false); [errno]
    values and the width of [unsigned long] are the platform's. *)
Class PosixSystem (OS : Type) := {
  open_socket : OS → Z * OS;
  close_socket : Z → OS → OS;
  SIOCGIFHWADDR : Z → list Z → OS → (list Z + Z) * OS;
  SIOCGIFADDR : Z → list Z → OS → (Z + Z) * OS;
  SIOCGIFNETMASK : Z → list Z → OS → (Z + Z) * OS;
  read_text : list Z → OS → option (list Z) * OS;
  complete : list Z → OS → bool;
  nanosleep : Z → OS → SleepResult * OS;
  gethostname : OS → option (list Z);
  inet_pton : list Z → option Z;
  EADDRNOTAVAIL : Z;
  ulong_bits : Z }.

Definition IFNAMSIZ : nat := 16.
Definition HOST_NAME_MAX : nat := 64.

(** /proc/net/route and /etc/resolv.conf *)
Definition route_location : list Z := [47; 112; 114; 111; 99; 47; 110; 101; 116; 47; 114; 111; 117; 116; 101].
Definition resolv_conf_file : list Z :=
  [47; 101; 116; 99; 47; 114; 101; 115; 111; 108; 118; 46; 99; 111; 110; 102].
(** search, domain and nameserver *)
Definition search_key : list Z := [115; 101; 97; 114; 99; 104].
Definition domain_key : list Z := [100; 111; 109; 97; 105; 110].
Definition nameserver_key : list Z := [110; 97; 109; 101; 115; 101; 114; 118; 101; 114].

Definition zero_config : CipTcpIpInterfaceConfiguration := mkIfConfig 0 0 0 0 0 (mkString 0 None).

Definition set_addresses (ip mask : Z) (c : CipTcpIpInterfaceConfiguration)
  : CipTcpIpInterfaceConfiguration :=
  mkIfConfig ip mask (gateway c) (name_server c) (name_server_2 c) (domain_name c).
Definition set_gateway (v : Z) (c : CipTcpIpInterfaceConfiguration)
  : CipTcpIpInterfaceConfiguration :=
  mkIfConfig (if_ip_address c) (if_network_mask c) v (name_server c) (name_server_2 c) (domain_name c).
Definition set_domain (v : CipString) (c : CipTcpIpInterfaceConfiguration)
  : CipTcpIpInterfaceConfiguration :=
  mkIfConfig (if_ip_address c) (if_network_mask c) (gateway c) (name_server c) (name_server_2 c) v.
(** Where [dns] points: the first, the second server, or the dummy. *)
Definition set_name_server (k : nat) (v : Z) (c : CipTcpIpInterfaceConfiguration)
  : CipTcpIpInterfaceConfiguration :=
  match k with
  | 0%nat => mkIfConfig (if_ip_address c) (if_network_mask c) (gateway c) v (name_server_2 c) (domain_name c)
  | 1%nat => mkIfConfig (if_ip_address c) (if_network_mask c) (gateway c) (name_server c) v (domain_name c)
  | _ => c
  end.

(** ** Reading the configuration *)

Section Config.
Context {OS : Type} `{PosixSystem OS}.
Implicit Type o : OS.

(** [ifr_name] holds the name and its zero. *)
Definition name_fits (iface : list Z) : bool := (length iface <? IFNAMSIZ)%nat.

(** The status and, on success, the six bytes. *)
Definition IfaceGetMacAddress (iface : list Z) o : option (EipStatus * option (list Z) * OS) :=
  if name_fits iface then
    let '(fd, o) := open_socket o in
    match SIOCGIFHWADDR fd iface o with
    | (inl sa_data, o) =>
        physical_address ← load_n sa_data 6;
        Some (kEipStatusOk, Some physical_address, close_socket fd o)
    | (inr _, o) => Some (kEipStatusError, None, close_socket fd o)
    end
  else Some (kEipStatusError, None, o).

Definition GetIpAndNetmaskFromInterface (iface : list Z) (iface_cfg : CipTcpIpInterfaceConfiguration) o
  : EipStatus * CipTcpIpInterfaceConfiguration * OS :=
  if name_fits iface then
    let '(fd, o) := open_socket o in
    match SIOCGIFADDR fd iface o with
    | (inr _, o) => (kEipStatusError, iface_cfg, close_socket fd o)
    | (inl ipaddr, o) =>
        match SIOCGIFNETMASK fd iface o with
        | (inr _, o) => (kEipStatusError, iface_cfg, close_socket fd o)
        | (inl netaddr, o) =>
            (kEipStatusOk, set_addresses ipaddr netaddr iface_cfg, close_socket fd o)
        end
    end
  else (kEipStatusError, iface_cfg, o).

(** Lines are read until one contains the name: the text from the name on; 132 characters
    of [file_buffer].  One step for each line is enough. *)
Fixpoint find_interface (fuel : nat) (file_buffer iface text : list Z) : option (option (list Z)) :=
  match strstr (c_string file_buffer) iface with
  | Some needle_start => Some (Some needle_start)
  | None =>
      match fuel with
      | O => None
      | S fuel =>
          match fgets 132 text with
          | Some (file_buffer, text) => find_interface fuel file_buffer iface text
          | None => Some None
          end
      end
  end.

(** The third word; [None] inside: the line ends before it. *)
Definition third_token (l : list Z) : option (list Z) :=
  '(_, l) ← strtok_r is_blank l;
  '(_, l) ← strtok_r is_blank l;
  '(token, _) ← strtok_r is_blank l;
  Some token.

(** [strtoul] on a missing word is undefined.  [INADDR_LOOPBACK] is in host byte order. *)
Definition GetGatewayFromRoute (iface : list Z) (iface_cfg : CipTcpIpInterfaceConfiguration) o
  : option (EipStatus * CipTcpIpInterfaceConfiguration * OS) :=
  let '(file, o) := read_text route_location o in
  match file with
  | None => Some (kEipStatusError, iface_cfg, o)
  | Some text =>
      needle_start ← find_interface (S (length text)) [] iface text;
      match needle_start with
      | None => Some (kEipStatusError, iface_cfg, o)
      | Some needle_start =>
          gateway_string ← third_token needle_start;
          Some (match strtoul_16 ulong_bits gateway_string with
                | Some (tmp_gw, false, []) =>
                    let gateway := u32 tmp_gw in
                    (kEipStatusOk,
                     set_gateway (if negb (INADDR_LOOPBACK =? gateway) then gateway else 0) iface_cfg, o)
                | _ => (kEipStatusError, set_gateway 0 iface_cfg, o)
                end)
      end
  end.

(** One line: the configuration, and where the next name server goes. *)
Definition resolv_line (line : list Z) (iface_cfg : CipTcpIpInterfaceConfiguration) (dns : nat)
  : option (CipTcpIpInterfaceConfiguration * nat) :=
  match line with
  | [] => Some (iface_cfg, dns)
  | c :: _ =>
      if (c =? 100) || (c =? 115) then
        match strtok_r is_blank line with
        | Some (key, rest) =>
            if bool_decide (key = search_key) || bool_decide (key = domain_key) then
              match strtok_r is_blank rest with
              | Some (value_string, _) =>
                  name ← SetCipStringByCstr (Some (domain_name iface_cfg)) (value_string ++ [0]);
                  name ← name;
                  Some (set_domain name iface_cfg, dns)
              | None => Some (iface_cfg, dns)
              end
            else Some (iface_cfg, dns)
        | None => Some (iface_cfg, dns)
        end
      else if c =? 110 then
        match strtok_r is_blank line with
        | Some (key, rest) =>
            if bool_decide (key = nameserver_key) then
              match strtok_r is_blank rest with
              | Some (value_string, _) =>
                  Some (match inet_pton value_string with
                        | Some a => set_name_server dns a iface_cfg
                        | None => iface_cfg
                        end, if (dns <? 2)%nat then S dns else dns)
              | None => Some (iface_cfg, dns)
              end
            else Some (iface_cfg, dns)
        | None => Some (iface_cfg, dns)
        end
      else Some (iface_cfg, dns)
  end.

Fixpoint resolv_lines (fuel : nat) (text : list Z) (iface_cfg : CipTcpIpInterfaceConfiguration)
    (dns : nat) : option CipTcpIpInterfaceConfiguration :=
  match strtok_r is_newline text with
  | None => Some iface_cfg
  | Some (line, text) =>
      match fuel with
      | O => None
      | S fuel =>
          '(iface_cfg, dns) ← resolv_line line iface_cfg dns;
          resolv_lines fuel text iface_cfg dns
      end
  end.

Definition GetDnsInfoFromResolvConf (iface_cfg : CipTcpIpInterfaceConfiguration) o
  : option (EipStatus * CipTcpIpInterfaceConfiguration * OS) :=
  let '(file, o) := read_text resolv_conf_file o in
  match file with
  | None => Some (kEipStatusError, iface_cfg, o)
  | Some text =>
      if complete resolv_conf_file o then
        iface_cfg ← resolv_lines (length text) (c_string text) iface_cfg 0;
        Some (kEipStatusOk, iface_cfg, o)
      else Some (kEipStatusError, iface_cfg, o)
  end.

(** An interrupted sleep goes on for the time that remains. *)
Fixpoint nanosleep_loop (fuel : nat) (sleep_ns : Z) o : option (bool * OS) :=
  match fuel with
  | O => None
  | S fuel =>
      match nanosleep sleep_ns o with
      | (Slept, o) => Some (true, o)
      | (SleepFailed, o) => Some (false, o)
      | (SleepInterrupted remaining, o) => nanosleep_loop fuel remaining o
      end
  end.

Definition nanosleep_simple32 (fuel : nat) (sleep_ns : Z) o : option (bool * OS) :=
  assert! sleep_ns <? 1000000000; nanosleep_loop fuel sleep_ns o.

(** The configuration is replaced as a whole, or stays. *)
Definition IfaceGetConfiguration (fuel : nat) (iface : list Z)
    (iface_cfg : CipTcpIpInterfaceConfiguration) o
  : option (EipStatus * CipTcpIpInterfaceConfiguration * OS) :=
  let '(status, local_cfg, o) := GetIpAndNetmaskFromInterface iface zero_config o in
  '(status, local_cfg, o) ←
    (if bool_decide (status = kEipStatusOk) then
       '(_, o) ← nanosleep_simple32 fuel 300000000 o;
       '(status, local_cfg, o) ← GetGatewayFromRoute iface local_cfg o;
       if bool_decide (status = kEipStatusOk) then GetDnsInfoFromResolvConf local_cfg o
       else Some (status, local_cfg, o)
     else Some (status, local_cfg, o));
  Some (status, if bool_decide (status = kEipStatusOk) then local_cfg else iface_cfg, o).

Definition WAIT_CYCLE_NS : Z := 100000000.

(** The result of the last [ioctl], 0 or -1.  An error other than [EADDRNOTAVAIL] returns
    without closing [fd].  [cycles] bounds the turns, [fuel] the interruptions of a sleep. *)
Fixpoint wait_loop (p_abort_wait : OS → bool) (cycles fuel : nat) (fd : Z) (iface : list Z) (timeout : Z) o
  : option (EipStatus * OS) :=
  match cycles with
  | O => None
  | S cycles =>
      let '(r, o) := SIOCGIFADDR fd iface o in
      let ipaddr := match r with inl a => a | inr _ => 0 end in
      let rc := match r with inl _ => kEipStatusOk | inr _ => kEipStatusError end in
      if match r with inr errno => negb (EADDRNOTAVAIL =? errno) | inl _ => false end
      then Some (kEipStatusError, o)
      else
        let timeout := if 0 <? timeout then timeout - 1 else timeout in
        if (0 =? ipaddr) && negb (0 =? timeout) && negb (p_abort_wait o) then
          '(slept, o) ← nanosleep_simple32 fuel WAIT_CYCLE_NS o;
          if slept : bool then wait_loop p_abort_wait cycles fuel fd iface timeout o
          else Some (rc, close_socket fd o)
        else Some (rc, close_socket fd o)
  end.

Definition IfaceWaitForIp (p_abort_wait : OS → bool) (cycles fuel : nat) (iface : list Z)
    (timeout : Z) o
  : option (EipStatus * OS) :=
  if name_fits iface then
    let '(fd, o) := open_socket o in
    assert! (- 2 ^ 31 <=? timeout * 10) && (timeout * 10 <? 2 ^ 31);
    wait_loop p_abort_wait cycles fuel fd iface (timeout * 10) o
  else Some (kEipStatusError, o).

Definition GetHostName (hostname : CipString) o : option CipString :=
  match gethostname o with
  | None => Some hostname
  | Some name =>
      name ← SetCipStringByCstr (Some hostname) (take (HOST_NAME_MAX - 1) name ++ [0]);
      name
  end.
End Config.

(** ** Words *)

(** The maximal runs of characters that are not delimiters; [word] is the run so far. *)
Fixpoint fields_after (delim : Z → bool) (word l : list Z) : list (list Z) :=
  match l with
  | [] => match word with [] => [] | _ => [word] end
  | c :: l =>
      if delim c then match word with [] => fields_after delim [] l
                                   | _ => word :: fields_after delim [] l end
      else fields_after delim (word ++ [c]) l
  end.

Definition fields (delim : Z → bool) (l : list Z) : list (list Z) := fields_after delim [] l.

Lemma fields_take_token delim l word :
  word ++ l ≠ [] → (∀ c l', l = c :: l' → word = [] → delim c = false) →
  let '(token, rest) := take_token delim l in
  fields_after delim word l = (word ++ token) :: fields delim rest ∧
  (length token + length rest <= length l)%nat ∧ Forall (λ c, delim c = false) token.
Proof.
  revert word. induction l as [|c l IH]; intros word Hne Hc; cbn [take_token fields_after].
  { rewrite (right_id_L [] (++)) in Hne |- *. split; [|by split]. by destruct word. }
  destruct (delim c) eqn:Hd.
  - rewrite (right_id_L [] (++)). split; [|split; [cbn; lia | done]].
    destruct word; [|done]. specialize (Hc c l eq_refl eq_refl). congruence.
  - specialize (IH (word ++ [c])). destruct (take_token delim l) as [token rest].
    destruct IH as (E & L & F); [by destruct word | by intros ??? ?; destruct word |].
    split; [by rewrite E, <- (assoc_L (++)) |]. split; [cbn; lia | by constructor].
Qed.

Lemma fields_skip delim l : fields delim (skip_delimiters delim l) = fields delim l.
Proof.
  induction l as [|c l IH]; [done |]. cbn [skip_delimiters]. destruct (delim c) eqn:Hd; [|done].
  rewrite IH. unfold fields at 2. cbn [fields_after]. by rewrite Hd.
Qed.

Lemma skip_delimiters_head delim l c l' :
  skip_delimiters delim l = c :: l' → delim c = false.
Proof.
  induction l as [|d l IH]; [done |]. cbn [skip_delimiters]. destruct (delim d) eqn:Hd; [done |].
  by intros [= -> _].
Qed.

Lemma length_skip delim l : (length (skip_delimiters delim l) <= length l)%nat.
Proof.
  induction l as [|c l IH]; [done |]. cbn [skip_delimiters length]. destruct (delim c); cbn; lia.
Qed.

(** [strtok_r] takes the words in their order. *)
Lemma strtok_fields delim l :
  match strtok_r delim l with
  | None => fields delim l = []
  | Some (token, rest) =>
      fields delim l = token :: fields delim rest ∧ (length rest < length l)%nat ∧ token ≠ [] ∧
      Forall (λ c, delim c = false) token
  end.
Proof.
  unfold strtok_r. rewrite <- fields_skip. pose proof (length_skip delim l) as Hl.
  destruct (skip_delimiters delim l) as [|c l'] eqn:Hs; [done |].
  pose proof (skip_delimiters_head _ _ _ _ Hs) as Hd.
  pose proof (fields_take_token delim (c :: l') []) as Ht.
  destruct (take_token delim (c :: l')) as [token rest] eqn:E.
  destruct Ht as (F & L & A); [done | by intros ?? [= <- <-] |].
  cbn [take_token] in E. rewrite Hd in E. destruct (take_token delim l') as [t r].
  injection E as <- <-. split; [exact F |]. split; [cbn [length] in *; lia |]. by split.
Qed.

Lemma strtok_next delim l w ws :
  fields delim l = w :: ws → ∃ rest, strtok_r delim l = Some (w, rest) ∧ fields delim rest = ws.
Proof.
  intros E. pose proof (strtok_fields delim l) as S. destruct (strtok_r delim l) as [[t r]|].
  - destruct S as (E' & _). rewrite E in E'. injection E' as -> ->. by eexists.
  - by rewrite E in S.
Qed.

Lemma third_token_spec l a b g ws :
  fields is_blank l = a :: b :: g :: ws → third_token l = Some g.
Proof.
  intros E. destruct (strtok_next _ _ _ _ E) as (r1 & S1 & E1).
  destruct (strtok_next _ _ _ _ E1) as (r2 & S2 & E2).
  destruct (strtok_next _ _ _ _ E2) as (r3 & S3 & _).
  unfold third_token. rewrite S1. cbn [mbind option_bind]. rewrite S2. cbn [mbind option_bind].
  by rewrite S3.
Qed.

(** ** Numbers to base 16 *)

Definition hex_char (d : Z) : Z := if d <? 10 then 48 + d else 55 + d.

(** [n] digits, as the kernel prints them. *)
Fixpoint hex_text (n : nat) (v : Z) : list Z :=
  match n with
  | O => []
  | S n => hex_text n (v / 16) ++ [hex_char (v mod 16)]
  end.

Lemma hex_char_value d : 0 <= d < 16 → hex_value (hex_char d) = Some d.
Proof.
  intros Hd. unfold hex_char, hex_value, isdigit.
  destruct (Z.ltb_spec d 10).
  - destruct (Z.leb_spec 48 (48 + d)), (Z.leb_spec (48 + d) 57); try lia. cbn [andb]. f_equal. lia.
  - destruct (Z.leb_spec 48 (55 + d)), (Z.leb_spec (55 + d) 57), (Z.leb_spec 97 (55 + d)),
      (Z.leb_spec (55 + d) 102), (Z.leb_spec 65 (55 + d)), (Z.leb_spec (55 + d) 70); try lia.
    cbn [andb]. f_equal. lia.
Qed.

(** No blank, no sign, no x. *)
Lemma hex_char_plain d : 0 <= d < 16 →
  isspace (hex_char d) = false ∧ hex_char d ≠ 45 ∧ hex_char d ≠ 43 ∧
  hex_char d ≠ 120 ∧ hex_char d ≠ 88.
Proof.
  intros Hd. unfold hex_char, isspace. destruct (Z.ltb_spec d 10); (split; [|lia]);
    apply orb_false_iff; split; lia.
Qed.

Lemma hex_text_digits n v acc k rest :
  0 <= v →
  hex_digits acc k (hex_text n v ++ rest)
  = hex_digits (acc * 16 ^ Z.of_nat n + v mod 16 ^ Z.of_nat n) (k + n) rest.
Proof.
  revert v acc k rest. induction n as [|n IH]; intros v acc k rest Hv.
  { cbn [hex_text app]. rewrite Z.mod_1_r, Nat.add_0_r. f_equal. lia. }
  cbn [hex_text]. rewrite <- (assoc_L (++)), IH by (apply Z.div_pos; lia). cbn [app hex_digits].
  rewrite hex_char_value by (apply Z.mod_pos_bound; lia). rewrite <- Nat.add_succ_comm.
  assert (E : 16 * (acc * 16 ^ Z.of_nat n + (v / 16) mod 16 ^ Z.of_nat n) + v mod 16
    = acc * 16 ^ Z.of_nat (S n) + v mod 16 ^ Z.of_nat (S n)).
  { rewrite Nat2Z.inj_succ, Z.pow_succ_r by lia.
    rewrite (Z.rem_mul_r v 16 (16 ^ Z.of_nat n)) by lia. lia. }
  by rewrite E.
Qed.

Lemma hex_text_chars n v : 0 <= v → Forall (λ c, ∃ d, 0 <= d < 16 ∧ c = hex_char d) (hex_text n v).
Proof.
  revert v. induction n as [|n IH]; intros v Hv; [done |]. cbn [hex_text]. apply Forall_app. split.
  - apply IH, Z.div_pos; lia.
  - constructor; [|done]. eexists. split; [|done]. by apply Z.mod_pos_bound.
Qed.

Lemma strtoul_hex_text w n v :
  (2 <= n)%nat → 0 <= v < 16 ^ Z.of_nat n → 16 ^ Z.of_nat n <= 2 ^ w →
  strtoul_16 w (hex_text n v) = Some (v, false, []).
Proof.
  intros Hn Hv Hw. pose proof (hex_text_chars n v ltac:(lia)) as C.
  pose proof (hex_text_digits n v 0 0 [] ltac:(lia)) as D. rewrite (right_id_L [] (++)) in D.
  destruct (hex_text n v) as [|a [|b l]] eqn:E; [by destruct n; [lia | destruct (hex_text n (v / 16))] | |].
  { apply (f_equal length) in E. destruct n as [|[|n]]; [lia.. |]. cbn [hex_text] in E.
    rewrite !length_app in E. cbn in E. lia. }
  apply list.Forall_cons in C as [(d & Hd & ->) C]. apply list.Forall_cons in C as [(e & He & ->) _].
  destruct (hex_char_plain d Hd) as (S1 & N1 & N2 & _), (hex_char_plain e He) as (_ & _ & _ & N3 & N4).
  unfold strtoul_16. cbn [skip_blanks]. rewrite S1.
  assert (K : skip_prefix (hex_char d :: hex_char e :: l) = hex_char d :: hex_char e :: l).
  { unfold skip_prefix. destruct (Z.eq_dec (hex_char d) 48) as [Ed|Ed].
    - rewrite Ed. destruct l as [|c l]; [done |].
      by destruct (Z.eqb_spec (hex_char e) 120), (Z.eqb_spec (hex_char e) 88).
    - repeat case_match; congruence. }
  assert (P : match hex_char d :: hex_char e :: l with
              | 45 :: l' => (true, l') | 43 :: l' => (false, l')
              | _ => (false, hex_char d :: hex_char e :: l) end = (false, hex_char d :: hex_char e :: l))
    by (repeat case_match; congruence).
  rewrite P, K, D. cbn [hex_digits]. rewrite Z.mul_0_l, Z.add_0_l, Z.mod_small by lia.
  destruct n; [lia |]. cbn [Nat.add]. by destruct (Z.leb_spec (2 ^ w) v); [lia |].
Qed.

(** ** The routing table *)

Definition text_line (l : list Z) : Prop :=
  Forall (λ c, c ≠ 10 ∧ c ≠ 0) l ∧ (length l <= 130)%nat.

Definition lines (ls : list (list Z)) : list Z := concat ((λ l, l ++ [10]) <$> ls).

Lemma take_line_line n l rest :
  Forall (λ c, c ≠ 10 ∧ c ≠ 0) l → (length l < n)%nat →
  take_line n (l ++ 10 :: rest) = (l ++ [10], rest).
Proof.
  intros Hl. revert n. induction Hl as [|c l [Hc _] _ IH]; intros [|n] Hn; cbn [length] in Hn; try lia.
  { done. }
  cbn [app take_line]. destruct (Z.eqb_spec c 10); [done |]. by rewrite IH by lia.
Qed.

Lemma fgets_line l rest : text_line l → fgets 132 (l ++ 10 :: rest) = Some (l ++ [10], rest).
Proof.
  intros [Hl Hn]. unfold fgets. cbn [Nat.pred]. rewrite take_line_line by (done || lia).
  by destruct l.
Qed.

Lemma c_string_plain l : Forall (λ c, c ≠ 0) l → c_string l = l.
Proof.
  induction 1 as [|c l Hc _ IH]; [done |]. cbn [c_string]. destruct (Z.eqb_spec c 0); [done |]. by rewrite IH.
Qed.

Lemma c_string_line l : text_line l → c_string (l ++ [10]) = l ++ [10].
Proof.
  intros [Hl _]. apply c_string_plain, Forall_app. split; [|by constructor].
  eapply Forall_impl; [exact Hl |]. by intros c [_ Hc].
Qed.

Lemma find_interface_next fuel buffer iface l rest :
  strstr (c_string buffer) iface = None → text_line l →
  find_interface (S fuel) buffer iface (l ++ 10 :: rest) = find_interface fuel (l ++ [10]) iface rest.
Proof. intros Hb Hl. cbn [find_interface]. rewrite Hb. by rewrite fgets_line. Qed.

(** The first line that contains the name is found. *)
Lemma find_interface_first fuel buffer iface pre l n rest :
  strstr (c_string buffer) iface = None → Forall text_line (pre ++ [l]) →
  Forall (λ p, strstr (p ++ [10]) iface = None) pre → strstr (l ++ [10]) iface = Some n →
  (length pre < fuel)%nat →
  find_interface fuel buffer iface (lines (pre ++ [l]) ++ rest) = Some (Some n).
Proof.
  intros Hb Ht Hp Hl. revert fuel buffer Hb Ht. unfold lines.
  induction Hp as [|p pre Hpl _ IH]; intros [|fuel] buffer Hb Ht Hf; cbn [length] in Hf; try lia;
    cbn [app fmap list_fmap concat] in *; apply list.Forall_cons in Ht as [T Ht];
    rewrite <- !(assoc_L (++)); cbn [app]; rewrite find_interface_next by done.
  - destruct fuel; cbn [find_interface]; rewrite c_string_line by exact T; by rewrite Hl.
  - apply IH; [|done | lia]. rewrite c_string_line by exact T. exact Hpl.
Qed.

Lemma take_line_length n l :
  (0 < n)%nat → l ≠ [] → (length (take_line n l).2 < length l)%nat.
Proof.
  revert n. induction l as [|c l IH]; intros [|n] Hn Hl; try done; [lia |].
  cbn [take_line]. destruct (c =? 10); [cbn; lia |].
  destruct (take_line n l) as [line rest] eqn:E. cbn [snd length].
  destruct (decide (n = 0%nat ∨ l = [])) as [D|D].
  - destruct l; [destruct n; injection E as <- <-; cbn; lia |].
    destruct D as [->|D]; [injection E as <- <-; cbn; lia | done].
  - specialize (IH n). rewrite E in IH. cbn [snd] in IH. assert (length rest < length l)%nat; [|lia].
    apply IH; [|naive_solver]. destruct n; [naive_solver | lia].
Qed.

(** Whatever is in the file, the search ends. *)
Lemma find_interface_ends fuel buffer iface text :
  (length text < fuel)%nat → is_Some (find_interface fuel buffer iface text).
Proof.
  revert buffer text. induction fuel as [|fuel IH]; intros buffer text Hf; [lia |].
  cbn [find_interface]. destruct (strstr _ _); [by eexists |].
  unfold fgets. destruct text as [|c text]; [by eexists |].
  pose proof (take_line_length 131 (c :: text) ltac:(lia) ltac:(done)) as L. cbn [Nat.pred].
  destruct (take_line _ _) as [line rest]. apply IH. cbn [snd] in L. lia.
Qed.

(** ** The resolver's file *)

Inductive ResolvEntry := DomainEntry (name : list Z) | ServerEntry (address : option Z).

Definition entry_domain (e : ResolvEntry) : option (list Z) :=
  match e with DomainEntry v => Some v | _ => None end.
Definition entry_server (e : ResolvEntry) : option (option Z) :=
  match e with ServerEntry a => Some a | _ => None end.

Section Resolv.
Context {OS : Type} `{PosixSystem OS}.

(** A line says something if a keyword is at its very beginning and a value follows. *)
Definition resolv_entry (line : list Z) : option ResolvEntry :=
  match line, fields is_blank line with
  | c :: _, key :: value :: _ =>
      if is_blank c then None
      else if bool_decide (key = search_key ∨ key = domain_key) then Some (DomainEntry value)
      else if bool_decide (key = nameserver_key) then Some (ServerEntry (inet_pton value))
      else None
  | _, _ => None
  end.

Definition resolv_entries (text : list Z) : list ResolvEntry :=
  omap resolv_entry (fields is_newline (c_string text)).

Definition apply_entry (e : option ResolvEntry) (c : CipTcpIpInterfaceConfiguration) (dns : nat)
  : CipTcpIpInterfaceConfiguration * nat :=
  match e with
  | Some (DomainEntry v) => (set_domain (mkString (Z.of_nat (length v)) (Some v)) c, dns)
  | Some (ServerEntry a) =>
      (match a with Some a => set_name_server dns a c | None => c end,
       if (dns <? 2)%nat then S dns else dns)
  | None => (c, dns)
  end.

Lemma set_cstr (s : CipString) v :
  v ≠ [] → Forall (λ c, c ≠ 0) v → Z.of_nat (length v) < 65536 →
  SetCipStringByCstr (Some s) (v ++ [0]) = Some (Some (mkString (Z.of_nat (length v)) (Some v))).
Proof.
  intros Hv Hz Hl. unfold SetCipStringByCstr. rewrite strlen_cstr by done. cbn [mbind option_bind].
  rewrite u16_id by (unfold is_u16; lia). unfold SetCipStringByData, ClearCipString.
  destruct (Z.eqb_spec 0 (Z.of_nat (length v))) as [E|E]; [by destruct v |]. cbn [negb mbind option_bind].
  by rewrite Nat2Z.id, load_n_app.
Qed.

Lemma first_word line c l key ws :
  line = c :: l → is_blank c = false → fields is_blank line = key :: ws → ∃ k, key = c :: k.
Proof.
  intros -> Hc E. destruct (strtok_next _ _ _ _ E) as (rest & S & _). unfold strtok_r in S.
  cbn [skip_delimiters] in S. rewrite Hc in S. cbn [take_token] in S. rewrite Hc in S.
  destruct (take_token is_blank l). injection S as <- _. by eexists.
Qed.

Lemma fields_chars delim (P : Z → Prop) l :
  Forall P l → Forall (Forall P) (fields delim l).
Proof.
  unfold fields. intros Hl. assert (Hw : Forall P []) by done. revert Hw. generalize (@nil Z) as w.
  induction Hl as [|c l Hc _ IH]; intros w Hw; cbn [fields_after].
  - destruct w; [done |]. by constructor; [|constructor].
  - destruct (delim c); [|apply IH, Forall_app; by split; [|constructor]].
    destruct w; [by apply IH |]. constructor; [done | by apply IH].
Qed.

Lemma fields_length delim l : Forall (λ w, w ≠ [] ∧ (length w <= length l)%nat) (fields delim l).
Proof.
  remember (length l) as n eqn:Hn. revert l Hn. induction n as [n IH] using lt_wf_ind. intros l ->.
  pose proof (strtok_fields delim l) as S. destruct (strtok_r delim l) as [[t r]|] eqn:E; [|by rewrite S].
  destruct S as (-> & Hr & Ht & _). constructor.
  - split; [done |]. unfold strtok_r in E. pose proof (length_skip delim l) as Hs.
    destruct (skip_delimiters delim l) as [|c l'] eqn:Es; [done |].
    pose proof (fields_take_token delim (c :: l') []) as F.
    destruct (take_token delim (c :: l')) as [t' r']. injection E as -> ->.
    destruct F as (_ & L & _); [done | | cbn [length] in *; lia].
    intros ?? [= <- <-] _. by eapply skip_delimiters_head.
  - eapply Forall_impl; [by apply (IH (length r)) |]. cbn. intros w [Hw L]. split; [done | lia].
Qed.

Lemma resolv_line_spec line c dns :
  Forall (λ x, x ≠ 0) line → Z.of_nat (length line) < 65536 →
  resolv_line line c dns = Some (apply_entry (resolv_entry line) c dns).
Proof.
  intros Hz Hlen. unfold resolv_line, resolv_entry. destruct line as [|a line]; [done |].
  set (l := a :: line) in *. pose proof (fields_length is_blank l) as FL.
  pose proof (fields_chars is_blank _ l Hz) as FZ.
  pose proof (strtok_fields is_blank l) as S.
  destruct (is_blank a) eqn:Ha.
  { unfold is_blank in Ha. replace ((a =? 100) || (a =? 115)) with false by lia.
    replace (a =? 110) with false by lia. by destruct (fields is_blank l) as [|? [|? ?]]. }
  destruct (strtok_r is_blank l) as [[key rest]|] eqn:E1; [|by rewrite S; repeat case_match].
  destruct S as (E & _). rewrite E in *. destruct (first_word l a line key _ eq_refl Ha E) as [k ->].
  rewrite bool_decide_or. pose proof (strtok_fields is_blank rest) as S2.
  destruct (bool_decide (a :: k = search_key) || bool_decide (a :: k = domain_key)) eqn:Hd.
  { assert (Ha' : (a =? 100) || (a =? 115) = true).
    { apply orb_true_iff in Hd as [D|D]; apply bool_decide_eq_true_1 in D; injection D as -> _; done. }
    rewrite Ha'. destruct (strtok_r is_blank rest) as [[value r]|]; [|by rewrite S2].
    destruct S2 as (E2 & _). rewrite E2 in *. apply list.Forall_cons in FL as [_ [[Hv Lv] _]%list.Forall_cons].
    apply list.Forall_cons in FZ as [_ [Zv _]%list.Forall_cons]. by rewrite set_cstr by (done || lia). }
  destruct (bool_decide (a :: k = nameserver_key)) eqn:Hn.
  { apply bool_decide_eq_true_1 in Hn. injection Hn as -> ->. cbn [Z.eqb Pos.eqb orb].
    destruct (strtok_r is_blank rest) as [[value r]|]; [|by rewrite S2]. destruct S2 as (-> & _). done. }
  destruct (fields is_blank rest), ((a =? 100) || (a =? 115)), (a =? 110). all: done.
Qed.
End Resolv.

Lemma c_string_spec l : Forall (λ c, c ≠ 0) (c_string l) ∧ (length (c_string l) <= length l)%nat.
Proof.
  induction l as [|c l [F L]]; [done |]. cbn [c_string]. destruct (Z.eqb_spec c 0); [split; [done | cbn; lia] |].
  split; [by constructor | cbn [length]; lia].
Qed.

Lemma lines_length ls : (length ls <= length (lines ls))%nat.
Proof.
  unfold lines. induction ls as [|l ls IH]; [done |]. cbn [fmap list_fmap concat length].
  rewrite !length_app. cbn [length]. lia.
Qed.

Section Resolver.
Context {OS : Type} `{PosixSystem OS}.
Implicit Type o : OS.

Fixpoint apply_entries (es : list ResolvEntry) (c : CipTcpIpInterfaceConfiguration) (dns : nat)
  : CipTcpIpInterfaceConfiguration :=
  match es with
  | [] => c
  | e :: es => let '(c, dns) := apply_entry (Some e) c dns in apply_entries es c dns
  end.

Lemma resolv_lines_spec fuel text c dns :
  (length text <= fuel)%nat → Forall (λ x, x ≠ 0) text → Z.of_nat (length text) < 65536 →
  resolv_lines fuel text c dns = Some (apply_entries (omap resolv_entry (fields is_newline text)) c dns).
Proof.
  intros Hf Hz. assert (Hz' : Forall (Forall (λ x, x ≠ 0)) (fields is_newline text)) by (by apply fields_chars).
  clear Hz. revert text c dns Hf Hz'. induction fuel as [|fuel IH]; intros text c dns Hf Hz Hl;
    cbn [resolv_lines]; pose proof (strtok_fields is_newline text) as S;
    pose proof (fields_length is_newline text) as FL;
    destruct (strtok_r is_newline text) as [[line rest]|]; try (by rewrite S);
    destruct S as (E & Hr & _); [lia |].
  rewrite E in *. apply list.Forall_cons in Hz as [Hz1 Hz2], FL as [[_ L] _].
  rewrite resolv_line_spec by (done || lia). cbn [mbind option_bind omap list_omap].
  destruct (resolv_entry line) as [e|]; cbn [apply_entries apply_entry].
  - destruct (apply_entry (Some e) c dns) as [c' dns'] eqn:Ea. cbn [apply_entry] in Ea. rewrite Ea.
    apply IH; [lia | done | lia].
  - apply IH; [lia | done | lia].
Qed.

(** The configuration after all entries, when [dns] servers have been named before. *)
Lemma apply_entries_spec es c dns :
  apply_entries es c dns
  = mkIfConfig (if_ip_address c) (if_network_mask c) (gateway c)
      (if (dns =? 0)%nat then default (name_server c) (mjoin (omap entry_server es !! 0%nat))
       else name_server c)
      (if (dns <? 2)%nat then default (name_server_2 c) (mjoin (omap entry_server es !! (1 - dns)%nat))
       else name_server_2 c)
      (match last (omap entry_domain es) with
       | Some v => mkString (Z.of_nat (length v)) (Some v)
       | None => domain_name c
       end).
Proof.
  revert c dns. induction es as [|[v|a] es IH]; intros c dns.
  - cbn. destruct c, dns as [|[|dns]]; done.
  - cbn [apply_entries apply_entry omap list_omap entry_domain entry_server]. rewrite IH.
    cbn [set_domain if_ip_address if_network_mask gateway name_server name_server_2 domain_name].
    f_equal. rewrite last_cons. by destruct (last (omap entry_domain es)).
  - cbn [apply_entries apply_entry omap list_omap entry_domain entry_server]. rewrite IH.
    destruct dns as [|[|dns]]; destruct a as [a|]; done.
Qed.

Lemma dns_info_read c text o o' :
  read_text resolv_conf_file o = (Some text, o') → complete resolv_conf_file o' = true →
  Z.of_nat (length text) < 65536 →
  let entries := resolv_entries text in
  GetDnsInfoFromResolvConf c o
  = Some (kEipStatusOk,
      mkIfConfig (if_ip_address c) (if_network_mask c) (gateway c)
        (default (name_server c) (mjoin (omap entry_server entries !! 0%nat)))
        (default (name_server_2 c) (mjoin (omap entry_server entries !! 1%nat)))
        (match last (omap entry_domain entries) with
         | Some v => mkString (Z.of_nat (length v)) (Some v)
         | None => domain_name c
         end), o').
Proof.
  intros R C L. unfold GetDnsInfoFromResolvConf. rewrite R, C.
  rewrite resolv_lines_spec.
  - cbn [mbind option_bind]. by rewrite apply_entries_spec.
  - pose proof (c_string_spec text) as [_ ?]. lia.
  - by destruct (c_string_spec text).
  - pose proof (c_string_spec text) as [_ ?]. lia.
Qed.

(** C40.  The resolver's file: whenever the text can be read, of any content of less than
    64 kB, the function succeeds; the domain is the value of the last line with a search
    or domain keyword, the name servers are those of the first two nameserver lines (a
    value that is no address leaves its place as it was), and nothing else changes. *)
Theorem GetDnsInfoFromResolvConf_spec c text o o' :
  read_text resolv_conf_file o = (Some text, o') → complete resolv_conf_file o' = true →
  Z.of_nat (length text) < 65536 →
  let entries := resolv_entries text in
  GetDnsInfoFromResolvConf c o
  = Some (kEipStatusOk,
      mkIfConfig (if_ip_address c) (if_network_mask c) (gateway c)
        (default (name_server c) (mjoin (omap entry_server entries !! 0%nat)))
        (default (name_server_2 c) (mjoin (omap entry_server entries !! 1%nat)))
        (match last (omap entry_domain entries) with
         | Some v => mkString (Z.of_nat (length v)) (Some v)
         | None => domain_name c
         end), o').
Proof. apply dns_info_read. Qed.

(** The gateway: the first line of the routing table that contains the interface's name
    decides, if its third word from there is a number of eight hexadecimal digits.  The
    value is taken over as it is (in network byte order), except for the one that equals
    [INADDR_LOOPBACK], which is in host byte order. *)
Lemma GetGatewayFromRoute_spec iface c pre l n rest x y v ws o o' :
  read_text route_location o = (Some (lines (pre ++ [l]) ++ rest), o') → iface ≠ [] →
  Forall text_line (pre ++ [l]) → Forall (λ p, strstr (p ++ [10]) iface = None) pre →
  strstr (l ++ [10]) iface = Some n → fields is_blank n = x :: y :: hex_text 8 v :: ws →
  is_u32 v → 32 <= ulong_bits →
  GetGatewayFromRoute iface c o
  = Some (kEipStatusOk, set_gateway (if v =? INADDR_LOOPBACK then 0 else v) c, o').
Proof.
  intros R Hi Ht Hp Hl Hf Hv Hw. unfold GetGatewayFromRoute. rewrite R.
  rewrite (find_interface_first _ _ _ pre l n rest); [ | by destruct iface | done | done | done |].
  2: { rewrite length_app. pose proof (lines_length (pre ++ [l])) as L. rewrite length_app in L.
       cbn [length] in L. lia. }
  cbn [mbind option_bind]. rewrite (third_token_spec _ _ _ _ _ Hf). cbn [mbind option_bind].
  unfold is_u32 in Hv. rewrite strtoul_hex_text.
  - rewrite u32_id by done. rewrite (Z.eqb_sym v). by destruct (INADDR_LOOPBACK =? v).
  - lia.
  - exact Hv.
  - change (16 ^ Z.of_nat 8) with (2 ^ 32). apply Z.pow_le_mono_r; lia.
Qed.
End Resolver.

(** ** The whole configuration *)

Section Whole.
Context {OS : Type} `{PosixSystem OS}.
Implicit Type o : OS.

(** The routing table's first line with the interface's name says [gw]. *)
Definition route_says (iface : list Z) (gw : Z) (text : list Z) : Prop :=
  ∃ pre l n rest x y ws,
    text = lines (pre ++ [l]) ++ rest ∧ Forall text_line (pre ++ [l]) ∧
    Forall (λ p, strstr (p ++ [10]) iface = None) pre ∧ strstr (l ++ [10]) iface = Some n ∧
    fields is_blank n = x :: y :: hex_text 8 gw :: ws.

(** What the calls of [IfaceGetConfiguration] find, one after the other. *)
Record host_configured (fuel : nat) (iface : list Z) (ip mask gw : Z) (resolv : list Z) o o' : Prop := {
  host_name_fits : name_fits iface = true;
  host_name_used : iface ≠ [];
  host_answers : ∃ (o1 : Z * OS) o2 o3 b o4 o5 route,
    open_socket o = o1 ∧ SIOCGIFADDR o1.1 iface o1.2 = (inl ip, o2) ∧
    SIOCGIFNETMASK o1.1 iface o2 = (inl mask, o3) ∧
    nanosleep_simple32 fuel 300000000 (close_socket o1.1 o3) = Some (b, o4) ∧
    read_text route_location o4 = (Some route, o5) ∧ route_says iface gw route ∧
    read_text resolv_conf_file o5 = (Some resolv, o');
  host_gateway : is_u32 gw;
  host_word : 32 <= ulong_bits;
  host_resolv : complete resolv_conf_file o' = true;
  host_resolv_size : Z.of_nat (length resolv) < 65536 }.

(** C39.  The configuration of a host is read as its system calls and files give it: addresses of
    the interface, gateway of the routing table, domain and name servers of the resolver's
    file; whatever the old configuration was, nothing of it stays. *)
Theorem IfaceGetConfiguration_spec fuel iface ip mask gw resolv cfg o o' :
  host_configured fuel iface ip mask gw resolv o o' →
  let entries := resolv_entries resolv in
  IfaceGetConfiguration fuel iface cfg o
  = Some (kEipStatusOk,
      mkIfConfig ip mask (if gw =? INADDR_LOOPBACK then 0 else gw)
        (default 0 (mjoin (omap entry_server entries !! 0%nat)))
        (default 0 (mjoin (omap entry_server entries !! 1%nat)))
        (match last (omap entry_domain entries) with
         | Some v => mkString (Z.of_nat (length v)) (Some v)
         | None => mkString 0 None
         end), o').
Proof.
  intros [Hn Hi Ha Hg Hw Hc Hs]. destruct Ha as ([fd o1] & o2 & o3 & b & o4 & o5 & route & E1 & E2 & E3 & E4 & E5 & R & E6).
  cbn [fst snd] in *. destruct R as (pre & l & n & rest & x & y & ws & -> & T & P & L & F).
  cbv zeta. unfold IfaceGetConfiguration, GetIpAndNetmaskFromInterface.
  rewrite Hn, E1, E2, E3, bool_decide_eq_true_2 by done. rewrite E4. cbn [mbind option_bind].
  rewrite (GetGatewayFromRoute_spec _ _ pre l n rest x y gw ws o4 o5) by done. cbn [mbind option_bind].
  rewrite bool_decide_eq_true_2 by done.
  rewrite (dns_info_read _ resolv o5 o') by done. cbn [mbind option_bind].
  by rewrite bool_decide_eq_true_2 by done.
Qed.

(** An error leaves the configuration as it was. *)
Lemma IfaceGetConfiguration_error fuel iface cfg o status cfg' o' :
  IfaceGetConfiguration fuel iface cfg o = Some (status, cfg', o') →
  status ≠ kEipStatusOk → cfg' = cfg.
Proof.
  unfold IfaceGetConfiguration. destruct (GetIpAndNetmaskFromInterface _ _ _) as [[st lc] o1].
  intros E Hs. apply bind_Some in E as ([[st' lc'] o2] & _ & E). injection E as <- <- _.
  by rewrite bool_decide_eq_false_2.
Qed.

(** Waiting for an address ends: with a positive time-out, after at most ten turns for each
    second of it, provided that each sleep ends (it may be interrupted [fuel] times). *)
Theorem IfaceWaitForIp_ends p_abort_wait fuel iface timeout o :
  0 < timeout → timeout * 10 < 2 ^ 31 → (∀ o', is_Some (nanosleep_simple32 fuel WAIT_CYCLE_NS o')) →
  ∃ status o', IfaceWaitForIp p_abort_wait (Z.to_nat (timeout * 10)) fuel iface timeout o = Some (status, o') ∧
    (status = kEipStatusOk ∨ status = kEipStatusError).
Proof.
  intros Ht Ht2 Hs. unfold IfaceWaitForIp. destruct (name_fits iface); [|by eexists _, _; split; [|right]].
  destruct (open_socket o) as [fd o1].
  assert (H1 : (- 2 ^ 31 <=? timeout * 10) && (timeout * 10 <? 2 ^ 31) = true) by
    (apply andb_true_iff; split; [apply Z.leb_le | apply Z.ltb_lt]; lia).
  rewrite H1. clear H1. assert (Hn : 0 < timeout * 10) by lia. revert Hn.
  generalize (timeout * 10) as n. intros n Hn. clear Ht Ht2 o timeout.
  remember (Z.to_nat n) as k eqn:Hk. revert n Hn Hk o1.
  induction k as [|k IH]; intros n Hn Hk o1; [lia |]. cbn [wait_loop].
  destruct (SIOCGIFADDR fd iface o1) as [[a|e] o2].
  - destruct (Z.ltb_spec 0 n); [|lia].
    destruct ((0 =? a) && negb (0 =? n - 1) && negb (p_abort_wait o2)) eqn:Hb; [|by eexists _, _; split; [|left]].
    apply andb_true_iff in Hb as [[_ Hb%negb_true_iff%Z.eqb_neq]%andb_true_iff _].
    destruct (Hs o2) as [[slept o3] E]. rewrite E. cbn [mbind option_bind].
    destruct slept; [apply IH; lia | by eexists _, _; split; [|left]].
  - destruct (negb (EADDRNOTAVAIL =? e)); [by eexists _, _; split; [|right] |].
    destruct (Z.ltb_spec 0 n); [|lia].
    destruct (_ && _ && _) eqn:Hb; [|by eexists _, _; split; [|right]].
    apply andb_true_iff in Hb as [[_ Hb%negb_true_iff%Z.eqb_neq]%andb_true_iff _].
    destruct (Hs o2) as [[slept o3] E]. rewrite E. cbn [mbind option_bind].
    destruct slept; [apply IH; lia | by eexists _, _; split; [|right]].
Qed.

(** A loopback gateway, 127.0.0.1, is written as the number [0x0100007F] on a
    little-endian host and kept; 1.0.0.127 is dropped. *)
Lemma loopback_gateway_kept c o o' iface :
  iface = [108; 111] → 32 <= ulong_bits →
  read_text route_location o
    = (Some (lines [iface ++ [9] ++ hex_text 8 0 ++ [9] ++ hex_text 8 0x0100007F ++ [9; 48]]), o') →
  GetGatewayFromRoute iface c o = Some (kEipStatusOk, set_gateway 0x0100007F c, o').
Proof.
  intros -> Hw R.
  apply (GetGatewayFromRoute_spec [108; 111] c [] ([108; 111] ++ [9] ++ hex_text 8 0 ++ [9] ++ hex_text 8 0x0100007F ++ [9; 48])
    ([108; 111] ++ [9] ++ hex_text 8 0 ++ [9] ++ hex_text 8 0x0100007F ++ [9; 48; 10]) []
    [108; 111] (hex_text 8 0) 0x0100007F [[48; 10]] o o'); try done.
  - constructor; [|constructor]. split; [apply (bool_decide_unpack _); by vm_compute | cbn; lia].
Qed.
End Whole.

(** ** Witnesses *)

(** A host with one interface, eth1: a loopback line and its default route, one domain and
    three name servers, the second of which is no address. *)
Definition example_route : list Z :=
  lines [[108; 111; 9; 48];
         [101; 116; 104; 49; 9] ++ hex_text 8 0 ++ [9] ++ hex_text 8 0x0101A8C0 ++ [9; 48]].

Definition example_resolv : list Z :=
  lines [[35; 32; 120]; domain_key ++ [32; 97; 46; 98]; nameserver_key ++ [9; 49];
         nameserver_key ++ [32; 63]; nameserver_key ++ [32; 50]].

Definition example_host : PosixSystem unit := {|
  open_socket _ := (3, tt);
  close_socket _ _ := tt;
  SIOCGIFHWADDR _ _ _ := (inl (replicate 14 1), tt);
  SIOCGIFADDR _ _ _ := (inl 0x0501A8C0, tt);
  SIOCGIFNETMASK _ _ _ := (inl 0x00FFFFFF, tt);
  read_text path _ := (Some (if bool_decide (path = route_location) then example_route
                             else example_resolv), tt);
  complete _ _ := true;
  nanosleep _ _ := (Slept, tt);
  gethostname _ := Some [104; 0];
  inet_pton v := match v with [d] => if isdigit d then Some (d - 48) else None | _ => None end;
  EADDRNOTAVAIL := 99;
  ulong_bits := 64 |}.

Lemma GetDnsInfoFromResolvConf_spec_witness :
  @GetDnsInfoFromResolvConf _ example_host zero_config tt
  = Some (kEipStatusOk, mkIfConfig 0 0 0 1 0 (mkString 3 (Some [97; 46; 98])), tt).
Proof.
  rewrite (@GetDnsInfoFromResolvConf_spec _ example_host zero_config example_resolv tt tt).
  - vm_compute. reflexivity.
  - reflexivity.
  - reflexivity.
  - vm_compute. reflexivity.
Defined.

Lemma IfaceGetConfiguration_spec_witness :
  @IfaceGetConfiguration _ example_host 1 [101; 116; 104; 49] zero_config tt
  = Some (kEipStatusOk,
      mkIfConfig 0x0501A8C0 0x00FFFFFF 0x0101A8C0 1 0 (mkString 3 (Some [97; 46; 98])), tt).
Proof.
  rewrite (@IfaceGetConfiguration_spec _ example_host 1 [101; 116; 104; 49] 0x0501A8C0 0x00FFFFFF
    0x0101A8C0 example_resolv zero_config tt tt).
  - vm_compute. reflexivity.
  - split; try reflexivity; [discriminate | | unfold is_u32; lia | vm_compute; discriminate].
    exists (3, tt), tt, tt, true, tt, tt, example_route. repeat (split; [reflexivity |]).
    split; [|reflexivity].
    exists [[108; 111; 9; 48]], ([101; 116; 104; 49; 9] ++ hex_text 8 0 ++ [9] ++ hex_text 8 0x0101A8C0 ++ [9; 48]),
      ([101; 116; 104; 49; 9] ++ hex_text 8 0 ++ [9] ++ hex_text 8 0x0101A8C0 ++ [9; 48; 10]), [],
      [101; 116; 104; 49], (hex_text 8 0), [[48; 10]].
    split; [reflexivity |]. split.
    { constructor; [|constructor; [|constructor]]; (split; [apply (bool_decide_unpack _); by vm_compute | cbn; lia]). }
    split; [by constructor |]. split; reflexivity.
Defined.

Lemma IfaceWaitForIp_ends_witness :
  ∃ status o', @IfaceWaitForIp _ example_host (λ _, false) (Z.to_nat (2 * 10)) 1 [101; 116; 104; 49] 2 tt
    = Some (status, o') ∧ (status = kEipStatusOk ∨ status = kEipStatusError).
Proof.
  apply (@IfaceWaitForIp_ends _ example_host (λ _, false) 1 [101; 116; 104; 49] 2 tt); [lia | lia |].
  intros o'. by eexists.
Defined.

Example host_name_read : @GetHostName _ example_host (mkString 0 None) tt = Some (mkString 1 (Some [104])).
Proof. reflexivity. Qed.
