(* ===== verification/WinConfig.v ===== *)
(** * [ports/WIN32/networkconfig.c]: the network configuration of a Windows host

    The interface is named by its index or by an alias; addresses come from the system's
    tables, which are read into a buffer that is enlarged until they fit.  The file of
    MINGW has the same text.  The calls of Windows are an interface. *)

From S2P Require Import Prelude EndianConv CipStrings CipTypes CipClasses Assembly NetObject TcpIp NvData PosixConfig.
From stdpp Require Import gmap.
Open Scope Z_scope.

(** ** The calls of Windows *)

Definition NO_ERROR : Z := 0.
Definition ERROR_OUTOFMEMORY : Z := 14.
Definition ERROR_BUFFER_OVERFLOW : Z := 111.
Definition ERROR_NO_UNICODE_TRANSLATION : Z := 1113.

Definition MIB_IPADDR_DISCONNECTED : Z := 0x8.
Definition MIB_IPADDR_DELETED : Z := 0x40.
Definition MIB_IPADDR_TRANSIENT : Z := 0x80.

(** An entry of [IP_ADAPTER_ADDRESSES], its lists of addresses with the first one first. *)
Record AdapterAddresses := mkAdapter {
  IfIndex : Z;
  PhysicalAddress : list Z;
  PhysicalAddressLength : Z;
  IfOperStatusUp : bool;
  UnicastAddresses : list Z;
  PrefixLengths : list Z;
  GatewayAddresses : list Z;
  DnsServerAddresses : list Z;
  DnsSuffix : list Z }.

(** A row of [MIB_IPADDRTABLE]. *)
Record IpAddrRow := mkIpAddrRow { dwIndex : Z; wType : Z; dwAddr : Z }.

(** The tables are read into a buffer of a given size: the table, the size it needs, or
    another error. *)
Inductive TableResult (A : Type) :=
| Table (rows : list A)
| TooSmall (needed : Z)
| TableError (error : Z).
Arguments Table {A}. Arguments TooSmall {A}. Arguments TableError {A}.

Class WindowsSystem (OS : Type) := {
  malloc : Z → OS → bool * OS;
  mbstowcs : list Z → option (list Z);
  wcstombs : list Z → option (list Z);
  ConvertInterfaceAliasToLuid : list Z → OS → Z + Z;
  ConvertInterfaceLuidToIndex : Z → OS → Z + Z;
  GetAdaptersAddresses : Z → Z → OS → TableResult AdapterAddresses * OS;
  GetIpAddrTable : Z → OS → TableResult IpAddrRow * OS;
  SleepEx : Z → OS → Z * OS;
  WSAStartup : OS → Z;
  win_gethostname : OS → option (list Z);
  sizeof_WCHAR : Z;
  sizeof_IP_ADAPTER_ADDRESSES : Z }.

Definition GAA_FLAG_SKIP_UNICAST : Z := 0x1.
Definition GAA_FLAG_SKIP_ANYCAST : Z := 0x2.
Definition GAA_FLAG_SKIP_MULTICAST : Z := 0x4.
Definition GAA_FLAG_SKIP_DNS_SERVER : Z := 0x8.
Definition GAA_FLAG_INCLUDE_PREFIX : Z := 0x10.
Definition GAA_FLAG_SKIP_FRIENDLY_NAME : Z := 0x20.
Definition GAA_FLAG_INCLUDE_GATEWAYS : Z := 0x80.

(** [strtoul] in base 10 for an unsigned type of [w] bits: the value, whether it overflowed, and
    what follows; [None] when there is no number. *)
Definition strtoul_10 (w : Z) (l : list Z) : option (Z * bool * list Z) :=
  let l := skip_blanks l in
  let '(negative, l) := match l with
                        | 45 :: l' => (true, l')
                        | 43 :: l' => (false, l')
                        | _ => (false, l)
                        end in
  match take_digits l with
  | ([], _) => None
  | (d, rest) =>
      let v := digits_value d in
      Some (if 2 ^ w <=? v then (2 ^ w - 1, true, rest)
            else (if negative : bool then (- v) mod 2 ^ w else v, false, rest))
  end.

(** ** The interface *)

(** The value and whether [errno] is zero. *)
Definition StrToIfaceIdx (iface : list Z) : Z * bool :=
  match strtoul_10 32 iface with
  | None => (0, false)
  | Some (iface_idx, overflow, rest) =>
      (iface_idx, negb overflow && bool_decide (c_string rest = []))
  end.

Section Windows.
Context {OS : Type} `{WindowsSystem OS}.
Implicit Type o : OS.

(** The index, or an error of Windows. *)
Definition ConvertToIndexFromFakeAlias (iface : list Z) o : (Z + Z) * OS :=
  match mbstowcs iface with
  | None => (inr ERROR_NO_UNICODE_TRANSLATION, o)
  | Some p_if_alias =>
      let wc_cnt := Z.of_nat (length p_if_alias) + 1 in
      let '(allocated, o) := malloc (sizeof_WCHAR * wc_cnt) o in
      if negb allocated then (inr ERROR_OUTOFMEMORY, o)
      else
        match ConvertInterfaceAliasToLuid p_if_alias o with
        | inr cnv_status => (inr cnv_status, o)
        | inl if_luid => (ConvertInterfaceLuidToIndex if_luid o, o)
        end
  end.

Definition DetermineIfaceIndexByString (iface : list Z) o : option Z * OS :=
  let '(iface_idx, arg_is_numerical) := StrToIfaceIdx iface in
  if arg_is_numerical then (Some iface_idx, o)
  else
    match ConvertToIndexFromFakeAlias iface o with
    | (inl iface_idx, o) => (Some iface_idx, o)
    | (inr _, o) => (None, o)
    end.

(** The table, if it could be read; [fuel] bounds the buffers. *)
Fixpoint retrieve_table (fuel : nat) (flags outBufLen : Z) o
  : option (option (list AdapterAddresses) * OS) :=
  match fuel with
  | O => None
  | S fuel =>
      let '(allocated, o) := malloc outBufLen o in
      if negb allocated then Some (None, o)
      else
        match GetAdaptersAddresses flags outBufLen o with
        | (TooSmall needed, o) => retrieve_table fuel flags needed o
        | (TableError _, o) => Some (None, o)
        | (Table rows, o) => Some (Some rows, o)
        end
  end.

Definition RetrieveAdapterAddressesTable (fuel : nat) (flags : Z) o
  : option (option (list AdapterAddresses) * OS) :=
  retrieve_table fuel flags (16 * sizeof_IP_ADAPTER_ADDRESSES) o.

(** The first entry with the index. *)
Fixpoint find_adapter (iface_idx : Z) (table : list AdapterAddresses) : option AdapterAddresses :=
  match table with
  | [] => None
  | p_addr_entry :: table =>
      if iface_idx =? IfIndex p_addr_entry then Some p_addr_entry else find_adapter iface_idx table
  end.

(** [memcpy_s] into six bytes: a longer source is a constraint violation, which ends the
    program; of a shorter one the remaining bytes stay. *)
Definition memcpy_s_6 (dest src : list Z) (n : Z) : option (list Z) :=
  assert! n <=? 6; bs ← load_n src (Z.to_nat n); write_bytes dest 0 bs.

(** [physical_address] is the caller's buffer. *)
Definition IfaceGetMacAddress (fuel : nat) (iface : list Z) (physical_address : list Z) o
  : option (EipStatus * list Z * OS) :=
  match DetermineIfaceIndexByString iface o with
  | (None, o) => Some (kEipStatusError, physical_address, o)
  | (Some iface_idx, o) =>
      let flags := GAA_FLAG_SKIP_UNICAST .| GAA_FLAG_SKIP_ANYCAST .| GAA_FLAG_SKIP_MULTICAST
                   .| GAA_FLAG_SKIP_DNS_SERVER .| GAA_FLAG_SKIP_FRIENDLY_NAME in
      '(p_addr_table, o) ← RetrieveAdapterAddressesTable fuel flags o;
      match p_addr_table with
      | None => Some (kEipStatusError, physical_address, o)
      | Some p_addr_table =>
          match find_adapter iface_idx p_addr_table with
          | None => Some (kEipStatusError, physical_address, o)
          | Some p_addr_entry =>
              physical_address ← memcpy_s_6 physical_address (PhysicalAddress p_addr_entry)
                                   (PhysicalAddressLength p_addr_entry);
              Some (kEipStatusOk, physical_address, o)
          end
      end
  end.

(** The converted string; [None] when it has no encoding, is too long or does not fit
    into memory. *)
Definition WideToCipString (src : list Z) o : option CipString * OS :=
  match wcstombs src with
  | None => (None, o)
  | Some buf =>
      let num_chars := Z.of_nat (length buf) in
      if 2 ^ 16 - 1 <=? num_chars then (None, o)
      else if num_chars =? 0 then (Some (mkString 0 None), o)
      else
        let '(allocated, o) := malloc (num_chars + 1) o in
        if negb allocated then (None, o) else (Some (mkString num_chars (Some (buf ++ [0]))), o)
  end.

(** The shift is defined for prefixes of 1 to 32 bits. *)
Definition prefix_to_mask (big_endian : bool) (PrefixLength : Z) : option Z :=
  assert! (0 <? PrefixLength) && (PrefixLength <=? 32);
  Some (htonl big_endian (u32 (0xffffffff ≪ (32 - PrefixLength)))).

Definition adapter_addresses (big_endian : bool) (p_addr_entry : AdapterAddresses)
  : option CipTcpIpInterfaceConfiguration :=
  mask ← (match PrefixLengths p_addr_entry with
          | [] => Some 0
          | PrefixLength :: _ => prefix_to_mask big_endian PrefixLength
          end);
  Some (mkIfConfig (default 0 (head (UnicastAddresses p_addr_entry))) mask
          (default 0 (head (GatewayAddresses p_addr_entry)))
          (default 0 (head (DnsServerAddresses p_addr_entry)))
          (default 0 (head (tail (DnsServerAddresses p_addr_entry))))
          (mkString 0 None)).

Definition IfaceGetConfiguration (big_endian : bool) (fuel : nat) (iface : list Z)
    (iface_cfg : CipTcpIpInterfaceConfiguration) o
  : option (EipStatus * CipTcpIpInterfaceConfiguration * OS) :=
  match DetermineIfaceIndexByString iface o with
  | (None, o) => Some (kEipStatusError, iface_cfg, o)
  | (Some iface_idx, o) =>
      let flags := GAA_FLAG_SKIP_ANYCAST .| GAA_FLAG_SKIP_MULTICAST
                   .| GAA_FLAG_INCLUDE_GATEWAYS .| GAA_FLAG_INCLUDE_PREFIX in
      '(p_addr_table, o) ← RetrieveAdapterAddressesTable fuel flags o;
      match p_addr_table with
      | None => Some (kEipStatusError, iface_cfg, o)
      | Some p_addr_table =>
          match find_adapter iface_idx p_addr_table with
          | None => Some (kEipStatusError, iface_cfg, o)
          | Some p_addr_entry =>
              if negb (IfOperStatusUp p_addr_entry) then Some (kEipStatusError, iface_cfg, o)
              else
                local_cfg ← adapter_addresses big_endian p_addr_entry;
                match WideToCipString (DnsSuffix p_addr_entry) o with
                | (None, o) => Some (kEipStatusError, iface_cfg, o)
                | (Some domain, o) => Some (kEipStatusOk, set_domain domain local_cfg, o)
                end
          end
      end
  end.

(** ** Waiting for an address *)

Definition WAIT_CYCLE_MS : Z := 100.

Definition unusable : Z := MIB_IPADDR_DELETED .| MIB_IPADDR_DISCONNECTED .| MIB_IPADDR_TRANSIENT.

(** The table, with the size of the buffer it is in; nothing when memory or the call failed.
    The first call has no buffer, and a table can only be in a buffer. *)
Fixpoint read_ip_table (fuel : nat) (addr_table_sz : Z) o : option (option (list IpAddrRow * Z) * OS) :=
  match fuel with
  | O => None
  | S fuel =>
      match GetIpAddrTable addr_table_sz o with
      | (TooSmall needed, o) =>
          let '(allocated, o) := malloc needed o in
          if negb allocated then Some (None, o) else read_ip_table fuel needed o
      | (TableError _, o) => Some (None, o)
      | (Table rows, o) => assert! 0 <? addr_table_sz; Some (Some (rows, addr_table_sz), o)
      end
  end.

(** The last usable row of the interface. *)
Definition address_of (iface_idx : Z) (rows : list IpAddrRow) : Z :=
  fold_left (λ ipaddr row,
    if (dwIndex row =? iface_idx) && (0 =? (wType row .& unusable)) then dwAddr row else ipaddr) rows 0.

Fixpoint wait_loop (abort_wait : OS → bool) (cycles fuel : nat) (iface_idx addr_table_sz timeout : Z) o
  : option (EipStatus * OS) :=
  match cycles with
  | O => None
  | S cycles =>
      '(r, o) ← read_ip_table fuel addr_table_sz o;
      match r with
      | None => Some (kEipStatusError, o)
      | Some (rows, addr_table_sz) =>
          let ipaddr := address_of iface_idx rows in
          let timeout := if 0 <? timeout then timeout - 1 else timeout in
          if (0 =? ipaddr) && negb (0 =? timeout) && negb (abort_wait o) then
            let '(woken, o) := SleepEx WAIT_CYCLE_MS o in
            if 0 =? woken then wait_loop abort_wait cycles fuel iface_idx addr_table_sz timeout o
            else Some (kEipStatusOk, o)
          else Some (kEipStatusOk, o)
      end
  end.

Definition IfaceWaitForIp (abort_wait : OS → bool) (cycles fuel : nat) (iface : list Z) (timeout : Z) o
  : option (EipStatus * OS) :=
  match DetermineIfaceIndexByString iface o with
  | (None, o) => Some (kEipStatusError, o)
  | (Some iface_idx, o) =>
      let timeout := timeout * (1000 / WAIT_CYCLE_MS) in
      assert! (- 2 ^ 31 <=? timeout) && (timeout <? 2 ^ 31);
      wait_loop abort_wait cycles fuel iface_idx 0 timeout o
  end.

Definition HOST_NAME_MAX : nat := 256.

(** The call writes the terminator, or fails. *)
Definition GetHostName (hostname : CipString) o : option CipString :=
  if negb (WSAStartup o =? 0) then Some hostname
  else
    match win_gethostname o with
    | None => Some hostname
    | Some name_buf =>
        name ← SetCipStringByCstr (Some hostname) name_buf;
        name
    end.
End Windows.

(** ** Lemmas: naming an interface *)

(** An index in decimal is taken as it is. *)
Lemma StrToIfaceIdx_decimal v : 0 <= v < 2 ^ 32 → StrToIfaceIdx (decimal v) = (v, true).
Proof.
  intros Hv. destruct (digits_spec 20 v) as (E & Hd & Hn); [|lia |].
  { change (10 ^ Z.of_nat 20) with 100000000000000000000. lia. }
  fold (decimal v) in *. destruct (decimal v) as [|c d] eqn:Hc; [done |].
  pose proof Hd as Hd'. cbn [forallb] in Hd'. apply andb_true_iff in Hd' as [H1 _].
  unfold StrToIfaceIdx, strtoul_10. cbn [skip_blanks]. rewrite isdigit_not_space by done.
  unfold isdigit in H1. apply andb_true_iff in H1 as [H1%Z.leb_le _].
  assert (P : match c :: d with
              | 45 :: l' => (true, l') | 43 :: l' => (false, l') | _ => (false, c :: d)
              end = (false, c :: d)) by (repeat case_match; try done; lia).
  rewrite P. rewrite <- (app_nil_r (c :: d)), take_digits_app by done. rewrite E.
  destruct (Z.leb_spec (2 ^ 32) v); [lia |]. done.
Qed.

(** A name that does not start with a number is an alias. *)
Lemma StrToIfaceIdx_name iface :
  match skip_blanks iface with
  | [] => True
  | c :: _ => c ≠ 43 ∧ c ≠ 45 ∧ isdigit c = false
  end → (StrToIfaceIdx iface).2 = false.
Proof.
  intros Hn. unfold StrToIfaceIdx, strtoul_10. destruct (skip_blanks iface) as [|c l]; [done |].
  destruct Hn as (N1 & N2 & N3).
  assert (P : match c :: l with
              | 45 :: l' => (true, l') | 43 :: l' => (false, l') | _ => (false, c :: l)
              end = (false, c :: l)) by (repeat case_match; congruence).
  rewrite P. cbn [take_digits]. by rewrite N3.
Qed.

(** ** Lemmas: tables *)

Lemma find_adapter_first i pre a post :
  IfIndex a = i → Forall (λ b, IfIndex b ≠ i) pre → find_adapter i (pre ++ a :: post) = Some a.
Proof.
  intros Ha. induction 1 as [|b pre Hb _ IH]; cbn [app find_adapter].
  - by rewrite Ha, Z.eqb_refl.
  - destruct (Z.eqb_spec i (IfIndex b)); [congruence | done].
Qed.

Lemma find_adapter_none i table : Forall (λ b, IfIndex b ≠ i) table → find_adapter i table = None.
Proof.
  induction 1 as [|b l Hb _ IH]; [done |]. cbn [find_adapter].
  by destruct (Z.eqb_spec i (IfIndex b)); [congruence |].
Qed.

(** The prefix as a mask: its leading bits, in the host's number. *)
Lemma prefix_mask_value big p :
  0 < p <= 32 → ∃ m, prefix_to_mask big p = Some m ∧ ntohl big m = 2 ^ 32 - 2 ^ (32 - p).
Proof.
  intros Hp. unfold prefix_to_mask. destruct (Z.ltb_spec 0 p), (Z.leb_spec p 32); try lia.
  eexists. split; [reflexivity |]. unfold htonl, ntohl.
  assert (E : u32 (0xffffffff ≪ (32 - p)) = 2 ^ 32 - 2 ^ (32 - p)).
  { rewrite Z.shiftl_mul_pow2 by lia. unfold u32. change 0xffffffff with (2 ^ 32 - 1).
    assert (E32 : 2 ^ 32 = 2 ^ p * 2 ^ (32 - p)) by (rewrite <- Z.pow_add_r by lia; f_equal; lia).
    assert (P1 : 0 < 2 ^ p) by (apply Z.pow_pos_nonneg; lia).
    assert (P2 : 0 < 2 ^ (32 - p)) by (apply Z.pow_pos_nonneg; lia).
    symmetry. apply (Z.mod_unique _ _ (2 ^ (32 - p) - 1)); [|lia].
    left. split; [|lia]. nia. }
  rewrite E.
  assert (R : is_u32 (2 ^ 32 - 2 ^ (32 - p))).
  { assert (P2 : 0 < 2 ^ (32 - p)) by (apply Z.pow_pos_nonneg; lia).
    assert (P3 : 2 ^ (32 - p) <= 2 ^ 32) by (apply Z.pow_le_mono_r; lia). unfold is_u32. lia. }
  destruct big; [by rewrite !(u32_id _ R) | by apply byte_swap_swap].
Qed.

Section WindowsSpec.
Context {OS : Type} `{WindowsSystem OS}.
Implicit Type o : OS.

(** If what a call asks for is more than it was given, but no more than [bound], the table is
    read after at most that many calls. *)
Lemma retrieve_table_ends flags bound size o :
  (∀ size o needed o', GetAdaptersAddresses flags size o = (TooSmall needed, o') → size < needed <= bound) →
  ∀ fuel, (Z.to_nat (bound - size) < fuel)%nat → is_Some (retrieve_table fuel flags size o).
Proof.
  intros Hb fuel. revert size o. induction fuel as [|fuel IH]; intros size o Hf; [lia |].
  cbn [retrieve_table]. destruct (malloc size o) as [[] o1]; cbn [negb]; [|by eexists].
  destruct (GetAdaptersAddresses flags size o1) as [[rows|needed|e] o2] eqn:E; [by eexists | | by eexists].
  pose proof (Hb _ _ _ _ E). apply IH. lia.
Qed.

(** Nothing of the old configuration is changed by an error. *)
Lemma windows_configuration_error big fuel iface cfg o status cfg' o' :
  IfaceGetConfiguration big fuel iface cfg o = Some (status, cfg', o') →
  status ≠ kEipStatusOk → cfg' = cfg.
Proof.
  unfold IfaceGetConfiguration. destruct (DetermineIfaceIndexByString iface o) as [[i|] o1];
    [|by intros [= <- <- <-]].
  intros ([[rows|] o2] & _ & E)%bind_Some; [|by injection E as <- <- <-].
  destruct (find_adapter i rows) as [a|]; [|by injection E as <- <- <-].
  destruct (IfOperStatusUp a); cbn [negb] in E; [|by injection E as <- <- <-].
  apply bind_Some in E as (c & _ & E).
  destruct (WideToCipString _ o2) as [[d|] o3]; injection E as <- <- <-; done.
Qed.

(** The same for the table of addresses, of which the first call only asks for the size. *)
Lemma read_ip_table_ends bound size o :
  (∀ size o needed o', GetIpAddrTable size o = (TooSmall needed, o') → size < needed <= bound) →
  (∀ o rows o', GetIpAddrTable 0 o ≠ (Table rows, o')) → 0 <= size →
  ∀ fuel, (Z.to_nat (bound - size) < fuel)%nat →
    ∃ r o', read_ip_table fuel size o = Some (r, o') ∧ ∀ rows size', r = Some (rows, size') → 0 <= size'.
Proof.
  intros Hb H0 Hs fuel. revert size o Hs. induction fuel as [|fuel IH]; intros size o Hs Hf; [lia |].
  cbn [read_ip_table]. destruct (GetIpAddrTable size o) as [[rows|needed|e] o1] eqn:E.
  - destruct (Z.ltb_spec 0 size); [|by destruct (H0 o rows o1); replace 0 with size by lia].
    eexists _, _. split; [reflexivity |]. intros rows' size' Hr. injection Hr as <- <-. lia.
  - pose proof (Hb _ _ _ _ E). destruct (malloc needed o1) as [[] o2]; cbn [negb].
    + apply IH; lia.
    + by eexists _, _.
  - by eexists _, _.
Qed.

(** With a positive time-out the wait ends. *)
Lemma windows_wait_ends bound abort_wait iface timeout o :
  (∀ size o needed o', GetIpAddrTable size o = (TooSmall needed, o') → size < needed <= bound) →
  (∀ o rows o', GetIpAddrTable 0 o ≠ (Table rows, o')) →
  0 < timeout → timeout * 10 < 2 ^ 31 →
  is_Some (IfaceWaitForIp abort_wait (Z.to_nat (timeout * 10)) (S (Z.to_nat bound)) iface timeout o).
Proof.
  intros Hb H0 Ht Ht2. unfold IfaceWaitForIp. destruct (DetermineIfaceIndexByString iface o) as [[i|] o1]; [|by eexists].
  change (1000 / WAIT_CYCLE_MS) with 10.
  assert (H1 : (- 2 ^ 31 <=? timeout * 10) && (timeout * 10 <? 2 ^ 31) = true) by
    (apply andb_true_iff; split; [apply Z.leb_le | apply Z.ltb_lt]; lia).
  rewrite H1. assert (Hn : 0 < timeout * 10) by lia. clear H1 Ht Ht2. revert Hn.
  generalize (timeout * 10) as n. intros n Hn. assert (Hsz : 0 <= 0) by lia. revert Hsz.
  generalize 0 at 2 3 as size. remember (Z.to_nat n) as k eqn:Hk. revert n Hn Hk o1.
  induction k as [|k IH]; intros n Hn Hk o1 size Hsz; [lia |]. cbn [wait_loop].
  destruct (read_ip_table_ends bound size o1 Hb H0 Hsz (S (Z.to_nat bound))) as (r & o2 & E & Hr); [lia |].
  rewrite E. cbn [mbind option_bind]. destruct r as [[rows sz]|]; [|by eexists].
  destruct (Z.ltb_spec 0 n); [|lia].
  destruct ((0 =? address_of i rows) && negb (0 =? n - 1) && negb (abort_wait o2)) eqn:Hc; [|by eexists].
  apply andb_true_iff in Hc as [[_ Hc%negb_true_iff%Z.eqb_neq]%andb_true_iff _].
  destruct (SleepEx WAIT_CYCLE_MS o2) as [woken o3]. destruct (0 =? woken); [|by eexists].
  apply IH; [lia | lia | by eapply Hr].
Qed.

(** What the system says about the interface with an index: the table it gives when the
    buffer is large enough, and the name of the domain in bytes. *)
Record windows_configured (fuel : nat) (v : Z) (a : AdapterAddresses) (mask : Z) (suffix : list Z) o o'
  : Prop := {
  wc_table : ∃ flags pre post o1,
    flags = GAA_FLAG_SKIP_ANYCAST .| GAA_FLAG_SKIP_MULTICAST .| GAA_FLAG_INCLUDE_GATEWAYS
            .| GAA_FLAG_INCLUDE_PREFIX ∧
    RetrieveAdapterAddressesTable fuel flags o = Some (Some (pre ++ a :: post), o1) ∧
    Forall (λ b, IfIndex b ≠ v) pre ∧
    (suffix = [] → o' = o1) ∧
    (suffix ≠ [] → malloc (Z.of_nat (length suffix) + 1) o1 = (true, o'));
  wc_index : IfIndex a = v;
  wc_up : IfOperStatusUp a = true;
  wc_prefix : match PrefixLengths a with [] => mask = 0 | p :: _ => 0 < p <= 32 ∧ prefix_to_mask false p = Some mask end;
  wc_suffix : wcstombs (DnsSuffix a) = Some suffix;
  wc_length : Z.of_nat (length suffix) < 2 ^ 16 - 1 }.

(** On a Windows host the configuration of the interface with a given index is the first
    entry of the system's table with that index: its first address, the mask of its first
    prefix, its first gateway, its first two name servers, and the domain in bytes with the
    length in front; all others are zero, and nothing of the old configuration stays. *)
Theorem windows_configuration_read fuel v a mask suffix cfg o o' :
  0 <= v < 2 ^ 32 → windows_configured fuel v a mask suffix o o' →
  IfaceGetConfiguration false fuel (decimal v) cfg o
  = Some (kEipStatusOk,
      mkIfConfig (default 0 (head (UnicastAddresses a))) mask (default 0 (head (GatewayAddresses a)))
        (default 0 (DnsServerAddresses a !! 0%nat)) (default 0 (DnsServerAddresses a !! 1%nat))
        (match suffix with
         | [] => mkString 0 None
         | _ => mkString (Z.of_nat (length suffix)) (Some (suffix ++ [0]))
         end), o').
Proof.
  intros Hv [(flags & pre & post & o1 & -> & T & Hpre & S0 & S1) Hi Hu Hp Hw Hl].
  unfold IfaceGetConfiguration, DetermineIfaceIndexByString. rewrite StrToIfaceIdx_decimal by done.
  rewrite T. cbn [mbind option_bind]. rewrite find_adapter_first by done. rewrite Hu. cbn [negb].
  assert (M : match PrefixLengths a with [] => Some 0 | p :: _ => prefix_to_mask false p end = Some mask).
  { destruct (PrefixLengths a); [by rewrite Hp | apply Hp]. }
  unfold adapter_addresses. rewrite M. cbn [mbind option_bind]. unfold WideToCipString. rewrite Hw.
  rewrite (proj2 (Z.leb_gt _ _)) by done.
  assert (D : default 0 (head (tail (DnsServerAddresses a))) = default 0 (DnsServerAddresses a !! 1%nat)
    ∧ default 0 (head (DnsServerAddresses a)) = default 0 (DnsServerAddresses a !! 0%nat))
    by (by destruct (DnsServerAddresses a) as [|? []]).
  destruct D as [-> ->].
  destruct suffix as [|c suffix]; [by rewrite S0 by done |].
  rewrite (proj2 (Z.eqb_neq (Z.of_nat (length (c :: suffix))) 0)) by (cbn [length]; lia).
  by rewrite S1 by done.
Qed.
End WindowsSpec.

(** ** Witness *)

(** A host with two interfaces, whose tables need more room than the first buffer. *)
Definition windows_host : WindowsSystem Z := {|
  malloc _ o := (true, o);
  mbstowcs l := Some l;
  wcstombs l := Some l;
  ConvertInterfaceAliasToLuid alias _ := if bool_decide (alias = [76; 65; 78]) then inl 77 else inr 87;
  ConvertInterfaceLuidToIndex luid _ := if luid =? 77 then inl 12 else inr 87;
  GetAdaptersAddresses _ size o :=
    (if size <? 9000 then TooSmall 9000
     else Table [mkAdapter 1 [] 0 true [0x0100007F] [8] [] [] [];
                 mkAdapter 12 [0; 1; 2; 3; 4; 5; 0; 0] 6 true [0x0501A8C0] [24] [0x0101A8C0] [0x08080808]
                   [97; 46; 98]], o + 1);
  GetIpAddrTable size o :=
    (if size <? 100 then TooSmall 100 else Table [mkIpAddrRow 12 0x8 (if o <? 3 then 0 else 5); mkIpAddrRow 12 1 (if o <? 3 then 0 else 6)], o);
  SleepEx _ o := (0, o + 1);
  WSAStartup _ := 0;
  win_gethostname _ := Some [104; 0];
  sizeof_WCHAR := 2;
  sizeof_IP_ADAPTER_ADDRESSES := 376 |}.

Lemma windows_configuration_read_witness :
  @IfaceGetConfiguration _ windows_host false 3 (decimal 12) zero_config 0
  = Some (kEipStatusOk, mkIfConfig 0x0501A8C0 0x00FFFFFF 0x0101A8C0 0x08080808 0
                          (mkString 3 (Some [97; 46; 98; 0])), 2).
Proof.
  rewrite (@windows_configuration_read _ windows_host 3 12
    (mkAdapter 12 [0; 1; 2; 3; 4; 5; 0; 0] 6 true [0x0501A8C0] [24] [0x0101A8C0] [0x08080808] [97; 46; 98])
    0x00FFFFFF [97; 46; 98] zero_config 0 2).
  - reflexivity.
  - lia.
  - split; try reflexivity.
    + exists (GAA_FLAG_SKIP_ANYCAST .| GAA_FLAG_SKIP_MULTICAST .| GAA_FLAG_INCLUDE_GATEWAYS .| GAA_FLAG_INCLUDE_PREFIX),
        [mkAdapter 1 [] 0 true [0x0100007F] [8] [] [] []], [], 2.
      split; [reflexivity |]. split; [vm_compute; reflexivity |].
      split; [constructor; [discriminate | constructor] |]. split; [discriminate | reflexivity].
    + split; [lia | vm_compute; reflexivity].
Defined.

(** The alias, the hardware address, an interface that is not there, and the wait. *)
Lemma windows_host_answers :
  @IfaceGetMacAddress _ windows_host 3 [76; 65; 78] (replicate 6 255) 0 = Some (kEipStatusOk, [0; 1; 2; 3; 4; 5], 2) ∧
  @IfaceGetMacAddress _ windows_host 3 [49] (replicate 6 255) 0 = Some (kEipStatusOk, replicate 6 255, 2) ∧
  @IfaceGetMacAddress _ windows_host 3 [50] (replicate 6 255) 0 = Some (kEipStatusError, replicate 6 255, 2) ∧
  @IfaceWaitForIp _ windows_host (λ _, false) 20 3 [49; 50] 1 0 = Some (kEipStatusOk, 3) ∧
  @IfaceWaitForIp _ windows_host (λ _, false) 20 3 [50] 1 0 = Some (kEipStatusOk, 9).
Proof. vm_compute. split_and!; reflexivity. Qed.
