(* ===== verification/StackInit.v ===== *)
(** * [cip/cipcommon.c], [sampleapplication.c]: the CIP stack as a whole

    Start-up and shutdown of the stack: every object's class is created in the order of
    [CipStackInit], the application comes last.  [OPENER_IS_DLR_DEVICE] is the argument
    [dlr_device], the number and labels of the ports are those of [EthLink], whose
    interface control is switched off; the file and security objects are not in the
    repository.  The sample application of the POSIX port is modelled as it stands. *)

From S2P Require Import Prelude EndianConv EPath CipStrings CipTypes CipCodec CipClasses CipServices Identity Assembly.
From S2P Require Import MessageRouter SocketTimer ConnRecord ConnObject ConnList LinkedList AppConType IoClose EncapData Cpf Encap ConnPath ConnService IoOpen IoData ConnTimer.
From S2P Require Import NetObject Qos TcpIp EthLink Dlr.
From stdpp Require Import strings gmap.
Open Scope Z_scope.

(** ** Globals of the network objects at program start *)

Record Globals := mkGlobals {
  g_tcpip0 : CipTcpIpObject;
  g_ethernet_link0 : list CipEthernetLinkObject;
  g_dlr0 : CipDlrObject;
  g_qos0 : CipQosObject;
  device_name : list Z }.

Definition stack_of (w : DeviceWorld) : CipStack := cip_stack (stack w).

(** An initialisation function of the classes, and the assertion behind its call. *)
Definition init_classes (f : CipStack → option (EipStatus * CipStack)) (w : DeviceWorld)
  : option DeviceWorld :=
  '(eip_status, s) ← f (stack_of w);
  assert! bool_decide (eip_status = kEipStatusOk);
  Some (set_stack (set_device_stack s (stack w)) w).

(** [CipIdentityInit] changes [g_identity], too. *)
Definition init_identity (name : list Z) (w : DeviceWorld) : option DeviceWorld :=
  '(eip_status, g, s) ← CipIdentityInit name (g_identity (stack w)) (stack_of w);
  assert! bool_decide (eip_status = kEipStatusOk);
  Some (set_stack (set_device_identity g (set_device_stack s (stack w))) w).

Definition init_manager (unique_connection_id : Z) (w : DeviceWorld) : option DeviceWorld :=
  '(eip_status, w) ← ConnectionManagerInit unique_connection_id w;
  assert! bool_decide (eip_status = kEipStatusOk);
  Some w.

Section Init.
(** The build options *)
Variables big_endian dlr_device label_option : bool.
Variable instance_cnt : nat.

(** All objects of the stack, before the application. *)
Definition init_objects (unique_connection_id : Z) (g : Globals) (w : DeviceWorld)
  : option DeviceWorld :=
  w ← init_classes CipMessageRouterInit w;
  w ← init_identity (device_name g) w;
  w ← init_classes (CipTcpIpInterfaceInit big_endian (g_tcpip0 g)) w;
  w ← init_classes (λ s, CipEthernetLinkInit instance_cnt label_option false s
                           (g_ethernet_link0 g) s) w;
  w ← init_manager unique_connection_id w;
  w ← init_classes CipAssemblyInitialize w;
  w ← (if dlr_device then init_classes (CipDlrInit (g_dlr0 g)) w else Some w);
  init_classes (CipQoSInit (g_qos0 g)) w.

Definition CipStackInit (ApplicationInitialization : DeviceWorld → option (EipStatus * DeviceWorld))
    (unique_connection_id : Z) (g : Globals) (w : DeviceWorld)
  : option (EipStatus * DeviceWorld) :=
  w ← init_objects unique_connection_id g w;
  '(eip_status, w) ← ApplicationInitialization w;
  assert! bool_decide (eip_status = kEipStatusOk);
  Some (eip_status, w).
End Init.

(** ** Shutdown *)

Definition freed (x : CipString) : CipString := mkString (st_length x) None.

(** [ShutdownTcpIpInterface] on the data objects: the host name, and the domain name among
    the members of the configuration. *)
Definition free_string (d : CipData) : CipData :=
  match d with DString x => DString (freed x) | _ => d end.

Definition free_domain_name (d : CipData) : CipData :=
  match d with DStruct l => DStruct (free_string <$> l) | _ => d end.

Definition shutdown_tcpip (s : CipStack) : CipStack :=
  mkStack (classes s)
    (alter free_domain_name (kTcpIpAddress + 5)%nat
       (alter free_string (kTcpIpAddress + 6)%nat (objects s))).

(** Frees every class with its instances. *)
Definition DeleteAllClasses (s : CipStack) : CipStack := mkStack [] (objects s).

Definition ShutdownCipStack (s : DeviceEncapsulation) : option DeviceEncapsulation :=
  m ← @CloseAllConnections io_callbacks (Encap.manager s);
  s ← EncapsulationShutDown (set_manager m s);
  let w := world s in
  c ← ShutdownAssemblies (stack_of w);
  Some (set_world (set_stack (set_device_stack (DeleteAllClasses (shutdown_tcpip c)) (stack w)) w) s).

(** ** The sample application *)

Definition DEMO_APP_INPUT_ASSEMBLY_NUM : Z := 100.
Definition DEMO_APP_OUTPUT_ASSEMBLY_NUM : Z := 150.
Definition DEMO_APP_CONFIG_ASSEMBLY_NUM : Z := 151.
Definition DEMO_APP_HEARTBEAT_INPUT_ONLY_ASSEMBLY_NUM : Z := 152.
Definition DEMO_APP_HEARTBEAT_LISTEN_ONLY_ASSEMBLY_NUM : Z := 153.
Definition DEMO_APP_EXPLICT_ASSEMBLY_NUM : Z := 154.

(** The byte arrays [CreateAssemblyObject] allocates are at these addresses; each holds
    the buffer of the application it points to. *)
Definition input_address : nat := 500.
Definition output_address : nat := 501.

Definition sample_assemblies : list (Z * option (list Z) * nat) :=
  [(DEMO_APP_INPUT_ASSEMBLY_NUM, Some (replicate 32 0), input_address);
   (DEMO_APP_OUTPUT_ASSEMBLY_NUM, Some (replicate 32 0), output_address);
   (DEMO_APP_CONFIG_ASSEMBLY_NUM, Some (replicate 10 0), 502%nat);
   (DEMO_APP_HEARTBEAT_INPUT_ONLY_ASSEMBLY_NUM, None, 503%nat);
   (DEMO_APP_HEARTBEAT_LISTEN_ONLY_ASSEMBLY_NUM, None, 504%nat);
   (DEMO_APP_EXPLICT_ASSEMBLY_NUM, Some (replicate 32 0), 505%nat)].

(** The input and output buffer, when the arrays still point to them. *)
Definition buffer_at (a : nat) (o : gmap nat CipData) : option (list Z) :=
  d ← o !! a;
  match d with DByteArray b => ba_data b | _ => None end.

(** [memcpy] of 32 bytes from the output to the input buffer *)
Definition mirror (o : gmap nat CipData) : gmap nat CipData :=
  default o
    (src ← buffer_at output_address o; dst ← buffer_at input_address o;
     bs ← load_n src 32; dst ← write_bytes dst 0 bs;
     Some (<[input_address := DByteArray (mkByteArray 32 (Some dst))]> o)).

(** Only the output assembly's data are used; every configuration is accepted. *)
Definition sample_callbacks : AssemblyApplication := {|
  AfterAssemblyDataReceived i o :=
    (kEipStatusOk, if instance_number i =? DEMO_APP_OUTPUT_ASSEMBLY_NUM then mirror o else o);
  BeforeAssemblyDataSend _ o := (true, o);
  explicit_data_status _ := kEipStatusOk |}.

(** The callbacks of the classes with stored data *)
Definition kNvQosSetCallback : nat := 3.
Definition kNvTcpipSetCallback : nat := 4.

Definition set_callback (code : Z) (callback : nat) (s : CipStack) : option CipStack :=
  n ← GetCipClass s code;
  c ← get_class (TheClass n) s;
  Some (set_class (TheClass n) (InsertGetSetCallback c (Some callback) kNvDataFunc) s).

Fixpoint create_sample_assemblies (l : list (Z * option (list Z) * nat)) (s : CipStack)
  : option CipStack :=
  match l with
  | [] => Some s
  | (id, data, a) :: l =>
      '(_, s) ← @CreateAssemblyObject sample_callbacks id data
                  (match data with Some d => Z.of_nat (length d) | None => 0 end) (Some a) s;
      create_sample_assemblies l s
  end.

Definition sample_points (p : IoPoints) : IoPoints :=
  let p := ConfigureExclusiveOwnerConnectionPoint 0 DEMO_APP_OUTPUT_ASSEMBLY_NUM
             DEMO_APP_INPUT_ASSEMBLY_NUM DEMO_APP_CONFIG_ASSEMBLY_NUM p in
  let p := ConfigureInputOnlyConnectionPoint 0 DEMO_APP_HEARTBEAT_INPUT_ONLY_ASSEMBLY_NUM
             DEMO_APP_INPUT_ASSEMBLY_NUM DEMO_APP_CONFIG_ASSEMBLY_NUM p in
  ConfigureListenOnlyConnectionPoint 0 DEMO_APP_HEARTBEAT_LISTEN_ONLY_ASSEMBLY_NUM
    DEMO_APP_INPUT_ASSEMBLY_NUM DEMO_APP_CONFIG_ASSEMBLY_NUM p.

Definition ApplicationInitialization (w : DeviceWorld) : option (EipStatus * DeviceWorld) :=
  s ← create_sample_assemblies sample_assemblies (stack_of w);
  let w := set_stack (set_device_stack s (stack w)) w in
  let w := update_io (λ i, mkIoState (sample_points (io_points i)) (g_run_idle_state i)
                             (s_consume_run_idle i) (s_produce_run_idle i) (sent_udp i)) w in
  s ← set_callback kCipQoSClassCode kNvQosSetCallback (stack_of w);
  s ← set_callback kCipTcpIpInterfaceClassCode kNvTcpipSetCallback s;
  Some (kEipStatusOk, set_stack (set_device_stack s (stack w)) w).

(** The connections go, the set of priorities in use follows the attributes. *)
Definition ResetDevice (m : ConnManager) (s : CipStack)
  : option (EipStatus * ConnManager * CipQosDscpValues) :=
  m ← @CloseAllConnections io_callbacks m;
  active ← CipQosUpdateUsedSetQosValues s;
  Some (kEipStatusOk, m, active).

Definition ResetDeviceToInitialConfiguration (m : ConnManager) (s : CipStack)
  : option (EipStatus * ConnManager * CipQosDscpValues * CipStack) :=
  let s := mkStack (classes s) (<[(kTcpIpAddress + 13)%nat := DInt 2 120]> (objects s)) in
  let s := CipQosResetAttributesToDefaultValues s in
  '(_, m, active) ← ResetDevice m s;
  Some (kEipStatusOk, m, active, s).

(** ** Lemmas: the registered class codes *)

Definition codes (s : CipStack) : list Z := (λ x, class_code x.1) <$> classes s.

Fixpoint code_index (code : Z) (l : list Z) (i : nat) : option nat :=
  match l with
  | [] => None
  | k :: l => if k =? code then Some i else code_index code l (S i)
  end.

Lemma GetCipClass_codes s code : GetCipClass s code = code_index code (codes s) 0.
Proof.
  unfold GetCipClass, GetRegisteredObject, codes. generalize 0%nat as i.
  induction (classes s) as [|[c m] l IH]; intros i; [done |].
  cbn [find_class fmap list_fmap code_index fst].
  destruct (class_code c =? code); [done | apply IH].
Qed.

Lemma code_index_last l x code i :
  code_index code (l ++ [x]) i = Some (i + length l)%nat → x = code.
Proof.
  revert i. induction l as [|k l IH]; intros i; cbn [app code_index length].
  - destruct (Z.eqb_spec x code); [done | by intros].
  - destruct (k =? code); [intros [= E]; lia |]. intros E. apply (IH (S i)). rewrite E. f_equal. lia.
Qed.

Lemma codes_registered s s' c m code :
  classes s' = classes s ++ [(c, m)] → GetCipClass s' code = Some (length (classes s)) →
  codes s' = codes s ++ [code].
Proof.
  intros Hc. rewrite GetCipClass_codes. unfold codes. rewrite Hc, fmap_app. cbn [fmap list_fmap fst].
  rewrite <-(length_fmap (λ x : CipClass * CipClass, class_code x.1) (classes s)).
  by intros ->%(code_index_last _ _ _ 0).
Qed.

(** A class that was registered keeps its place and its content. *)
Lemma get_class_prefix n s s' l c :
  classes s' = classes s ++ l → get_class (TheClass n) s = Some c → get_class (TheClass n) s' = Some c.
Proof.
  intros E. unfold get_class. rewrite E. intros Hc. apply fmap_Some in Hc as (x & Hx & ->).
  rewrite lookup_app_l by by eapply lookup_lt_Some. by rewrite Hx.
Qed.

(** What class [n] offers apart from the attributes of its instances: their numbers and their
    services, the attributes of the class itself (number, value and flags; [free] slots are
    unused) and its services. *)
Definition class_attribute (x : Z * DataPtr * Z) : CipAttributeStruct :=
  let '(num, p, flags) := x in
  mkAttribute num kCipUint (Some EncodeCipUint) None flags (Some p).

Definition class_offers (n : nat) (numbers : list Z) (l : list CommonService)
    (attrs : list (Z * DataPtr * Z)) (free : nat) (cl : list CommonService) (s : CipStack) : Prop :=
  ∃ c m, classes s !! n = Some (c, m) ∧
    instance_number <$> instances c = numbers ∧ services c = common_service <$> l ∧
    attributes (class_instance c) = (class_attribute <$> attrs) ++ replicate free empty_attribute ∧
    services m = common_service <$> cl.

(** The services by their numbers. *)
Definition get_all : CommonService := (0x01, FnGetAttributeAll, "GetAttributeAll"%string).
Definition get_list : CommonService := (0x03, FnGetAttributeList, "GetAttributeList"%string).
Definition set_list : CommonService := (0x04, FnSetAttributeList, "SetAttributeList"%string).
Definition reset : CommonService := (0x05, FnCipResetService, "Reset"%string).
Definition get_single : CommonService := (0x0E, FnGetAttributeSingle, "GetAttributeSingle"%string).
Definition set_single : CommonService := (0x10, FnSetAttributeSingle, "SetAttributeSingle"%string).

Definition router_offers : CipStack → Prop :=
  class_offers 0 [1] [get_single]
    [(1, ClassRevision, kGetableSingleAndAll); (2, ClassNumberOfInstances, kGetableSingle);
     (3, ClassNumberOfInstances, kGetableSingle); (4, kCipUintZero, kGetableAll);
     (5, kCipUintZero, kGetableAll); (6, MetaHighestAttribute, kGetableSingleAndAll);
     (7, ClassHighestAttribute, kGetableSingleAndAll)] 7 [get_all; get_single].

(** Identity and connection manager give their class the same attributes. *)
Definition object_attributes : list (Z * DataPtr * Z) :=
  [(1, ClassRevision, kGetableSingleAndAll); (2, ClassNumberOfInstances, kGetableSingleAndAll);
   (3, ClassNumberOfInstances, kGetableSingle); (4, kCipUintZero, kNotSetOrGetable);
   (5, kCipUintZero, kNotSetOrGetable); (6, MetaHighestAttribute, kGetableSingleAndAll);
   (7, ClassHighestAttribute, kGetableSingleAndAll)].

Definition identity_offers : CipStack → Prop :=
  class_offers 1 [1] [get_single; get_all; reset; get_list; set_list] object_attributes 0
    [get_all; get_single].

Definition manager_offers : CipStack → Prop :=
  class_offers 4 [1]
    [get_single; get_all; (0x54, FnForwardOpen, "ForwardOpen"%string);
     (0x5B, FnLargeForwardOpen, "LargeForwardOpen"%string);
     (0x4E, FnForwardClose, "ForwardClose"%string);
     (0x5A, FnGetConnectionOwner, "GetConnectionOwner"%string);
     (0x56, FnGetConnectionData, "GetConnectionData"%string);
     (0x57, FnSearchConnectionData, "SearchConnectionData"%string)]
    object_attributes 0 [get_all; get_single].

(** The attributes of the identity object. *)
Definition identity_rows : list AttributeRow :=
  (λ x, mkRow (Z.of_nat x.1.1) x.1.2 x.2 None (kIdentityAddress + x.1.1) kGetableSingleAndAll) <$>
    [(1%nat, kCipUint, EncodeCipUint); (2%nat, kCipUint, EncodeCipUint);
     (3%nat, kCipUint, EncodeCipUint); (4%nat, kCipUsintUsint, EncodeRevision);
     (5%nat, kCipWord, EncodeCipWord); (6%nat, kCipUdint, EncodeCipUdint);
     (7%nat, kCipShortString, EncodeCipShortString)].

Lemma router_created objs :
  ∃ c m, CipMessageRouterInit (mkStack [] objs) = Some (kEipStatusOk, mkStack [(c, m)] objs) ∧
    class_code c = kCipMessageRouterClassCode ∧ ∀ l o, router_offers (mkStack ((c, m) :: l) o).
Proof.
  do 2 eexists. split; [lazy -[EncodeCipUint]; reflexivity |]. split; [reflexivity |].
  intros l o. do 2 eexists. split; [reflexivity |]. by split_and!.
Qed.

(** [g_identity] with its product name: that of the build unless one was set before. *)
Definition named (name : list Z) (g g' : CipIdentityObject) : Prop :=
  (if ss_length (product_name g) =? 0 then SetDeviceProductName (Some name) g else Some g)
  = Some g'.

Lemma identity_created name g g' c0 m0 objs :
  class_code c0 ≠ kCipIdentityClassCode → named name g g' →
  ∃ c m, CipIdentityInit name g (mkStack [(c0, m0)] objs)
         = Some (kEipStatusOk, g', store_identity g' (mkStack [(c0, m0); (c, m)] objs)) ∧
    class_code c = kCipIdentityClassCode ∧ PreResetCallback c = Some kIdentityPreReset ∧
    ∀ o, identity_offers (mkStack [(c0, m0); (c, m)] o) ∧
      ∃ i, table_object 1 0 identity_rows (mkStack [(c0, m0); (c, m)] o) i c.
Proof.
  intros Hc Hn. assert (G : GetCipClass (mkStack [(c0, m0)] objs) kCipIdentityClassCode = None).
  { unfold GetCipClass, GetRegisteredObject. cbn [classes find_class].
    by rewrite (proj2 (Z.eqb_neq _ _) Hc). }
  do 2 eexists. split.
  { unfold CipIdentityInit, CreateCipClass. unfold named in Hn. rewrite G, Hn.
    lazy -[store_identity EncodeCipUint EncodeCipUdint EncodeRevision EncodeCipWord
           EncodeCipShortString]. reflexivity. }
  split; [reflexivity |]. split; [reflexivity |]. intros o. split.
  { do 2 eexists. split; [reflexivity |]. by split_and!. }
  eexists. split; [split |].
  - split; [reflexivity |]. split; [reflexivity |]. split; [reflexivity |].
    split; [repeat (constructor; [split; [by eexists | done] |]); constructor | done].
  - reflexivity.
  - apply list.Forall_forall. repeat (constructor; [done |]). constructor.
  - apply (bool_decide_unpack _). by vm_compute.
  - by split_and!.
Qed.

Lemma manager_blank n :
  ∃ c0 x c m c',
    AddCipInstances (TheClass n) (new_class n kCipConnectionManagerClassCode 0 0 14 8
      "connection manager" 1) 1 = Some (c0, x) ∧
    InitializeConnectionManager (AllocateAttributeMasks c0,
      AllocateAttributeMasks (new_meta_class n 0 7 2 "connection manager")) = Some (c, m) ∧
    insert_services manager_services c = Some c' ∧
    class_code c' = kCipConnectionManagerClassCode ∧
    ∀ s, classes s !! 4%nat = Some (c', m) → manager_offers s.
Proof.
  do 5 eexists. split; [reflexivity |].
  split; [lazy -[EncodeCipUint String.append]; reflexivity |].
  split; [lazy -[EncodeCipUint String.append]; reflexivity |]. split; [reflexivity |].
  intros s Hs. do 2 eexists. split; [exact Hs |]. by split_and!.
Qed.

Definition kExpectedEntries : list (Z * option nat) :=
  (kCipMessageRouterClassCode, Some kEstablishClass3Connection)
  :: (kCipAssemblyClassCode, Some kEstablishIoConnection)
  :: replicate (g_kNumberOfConnectableObjects - 2) (0, None).

Lemma cleared_pool l m k :
  connection_pool (foldr (λ c, set_connection c zero_connection) m l) !! k
  = if bool_decide (k ∈ l) then Some zero_connection else connection_pool m !! k.
Proof.
  induction l as [|c l IH]; [done |]. cbn [foldr set_connection connection_pool].
  destruct (decide (c = k)) as [->|Hne].
  - rewrite lookup_insert_eq, bool_decide_eq_true_2 by left. done.
  - rewrite lookup_insert_ne, IH by done.
    by rewrite (bool_decide_ext (k ∈ c :: l) (k ∈ l)) by (rewrite elem_of_cons; naive_solver).
Qed.

Lemma cleared_list l m :
  connection_list (foldr (λ c, set_connection c zero_connection) m l) = connection_list m.
Proof. by induction l. Qed.

Lemma manager_created id w :
  GetCipClass (stack_of w) kCipConnectionManagerClassCode = None →
  ∃ w' c m, init_manager id w = Some w' ∧
    classes (stack_of w') = classes (stack_of w) ++ [(c, m)] ∧
    class_code c = kCipConnectionManagerClassCode ∧
    (length (classes (stack_of w)) = 4%nat → ∀ l o,
       manager_offers (mkStack (classes (stack_of w') ++ l) o)) ∧
    objects (stack_of w') = objects (stack_of w) ∧
    g_identity (stack w') = g_identity (stack w) ∧
    g_connection_management_list (the_manager w') = kExpectedEntries ∧
    g_incarnation_id (the_manager w') = u32 (id ≪ 16) ∧
    connection_list (connections w') = connection_list (connections w) ∧
    ∀ k, k ∈ seq 0 OPENER_CIP_NUM_EXPLICIT_CONNS ++ io_connections →
      connection_pool (connections w') !! k = Some zero_connection.
Proof.
  intros Hn. set (n := length (classes (stack_of w))).
  destruct (manager_blank n) as (c0 & x & c & m & c' & E0 & E1 & E2 & E3 & E4).
  unfold init_manager, ConnectionManagerInit.
  set (w1 := InitializeConnectionManagerData w).
  assert (Hs : cip_stack (stack w1) = stack_of w) by reflexivity.
  rewrite Hs. unfold CreateCipClass. rewrite Hn. fold n.
  change (String.eqb "connection manager" "") with false. change (0 <? 1) with true.
  cbn [negb]. rewrite E0. cbn [mbind option_bind]. rewrite E1. cbn [mbind option_bind].
  unfold n. rewrite get_registered. cbn [mbind option_bind]. rewrite E2. cbn [mbind option_bind].
  rewrite set_registered. eexists _, c', m. split; [reflexivity |].
  split; [reflexivity |]. split; [exact E3 |]. split.
  { intros Hl l o. apply E4. cbn. rewrite lookup_app_l by (rewrite length_app; cbn; lia).
    rewrite <-Hl. by apply list_lookup_middle. }
  split; [reflexivity |]. split; [reflexivity |].
  split; [reflexivity |]. split; [reflexivity |].
  match goal with |- connection_list (connections ?v) = _ ∧ _ =>
    change (connections v) with (foldr (λ c, set_connection c zero_connection)
      (InitializeClass3ConnectionData (connections w)) io_connections) end.
  unfold InitializeClass3ConnectionData. split.
  - by rewrite !cleared_list.
  - intros k Hk. rewrite !cleared_pool.
    apply elem_of_app in Hk as [Hk|Hk].
    + by rewrite (bool_decide_eq_true_2 (k ∈ seq _ _)), Tauto.if_same by done.
    + by rewrite bool_decide_eq_true_2.
Qed.

(** ** Lemmas: what later initialisations leave alone *)

(** Classes are only added, and data objects change only where [touched] says. *)
Definition keeps (touched : nat → bool) (s s' : CipStack) : Prop :=
  (∃ l, classes s' = classes s ++ l) ∧ ∀ a, touched a = false → objects s' !! a = objects s !! a.

Definition range (lo hi a : nat) : bool := ((lo <=? a) && (a <=? hi))%nat.

Lemma keeps_trans t1 t2 s1 s2 s3 :
  keeps t1 s1 s2 → keeps t2 s2 s3 → keeps (λ a, t1 a || t2 a) s1 s3.
Proof.
  intros [[l1 E1] O1] [[l2 E2] O2]. split.
  - exists (l1 ++ l2). by rewrite E2, E1, (assoc_L (++)).
  - intros a Ha. apply orb_false_iff in Ha as [A1 A2]. by rewrite O2, O1.
Qed.

Lemma keeps_refl t s : keeps t s s.
Proof. split; [exists []; by rewrite (right_id_L [] (++)) | done]. Qed.

Lemma keeps_added lo hi s s' c m :
  classes s' = classes s ++ [(c, m)] →
  (∀ a, (a < lo ∨ hi < a)%nat → objects s' !! a = objects s !! a) → keeps (range lo hi) s s'.
Proof.
  intros E O. split; [by eexists |]. intros a Ha. apply O. unfold range in Ha.
  apply andb_false_iff in Ha as [?%Nat.leb_gt|?%Nat.leb_gt]; [by left | by right].
Qed.

Definition held (l : list (nat * CipData)) (s : CipStack) : Prop :=
  Forall (λ x, objects s !! x.1 = Some x.2) l.

Lemma held_kept t l s s' :
  keeps t s s' → forallb (λ a, negb (t a)) l.*1 = true → held l s → held l s'.
Proof.
  intros [_ O] Ht Hl. unfold held in *. rewrite !list.Forall_forall in *. intros x Hx.
  rewrite O; [by apply Hl |]. rewrite forallb_forall in Ht. apply negb_true_iff, Ht.
  apply list_elem_of_In, list_elem_of_fmap. by exists x.
Qed.

Lemma instance_kept t n p rows mask s s' i c :
  keeps t s s' → table_instance n p rows mask s i c → table_instance n p rows mask s' i c.
Proof.
  intros [[l E] _] [[(Hi & Hc & Hw) H2 H3 H4] H5]. split; [|done]. split; [|done..]. split; [|split; [|done]].
  - unfold get_instance in *. apply bind_Some in Hi as (k & Hk & Hi).
    by rewrite (get_class_prefix n s s' l k E Hk).
  - unfold instance_class in *. apply bind_Some in Hc as (cp & Hcp & Hc). rewrite Hcp.
    cbn [mbind option_bind]. destruct cp as [k|k]; [by eapply get_class_prefix |].
    unfold get_class in *. apply fmap_Some in Hc as (x & Hx & ->).
    rewrite E, lookup_app_l by by eapply lookup_lt_Some. by rewrite Hx.
Qed.

Lemma code_index_app code l r i j :
  code_index code l i = Some j → code_index code (l ++ r) i = Some j.
Proof.
  revert i. induction l as [|k l IH]; intros i; cbn [app code_index]; [done |].
  destruct (k =? code); [done | apply IH].
Qed.

Lemma assemblies_kept `{AssemblyApplication} t n s s' :
  keeps t s s' → assemblies n [] s → assemblies n [] s'.
Proof.
  intros [[l E] _] [Hr (c & Hc & Hf) _ _]. split.
  - rewrite GetCipClass_codes in *. unfold codes in *. rewrite E, fmap_app. by apply code_index_app.
  - exists c. split; [by eapply get_class_prefix | exact Hf].
  - constructor.
  - intros e He. by apply not_elem_of_nil in He.
Qed.

(** ** The initialised stack *)

(** One initialisation function: only classes and data objects change. *)
Lemma init_classes_step f w s :
  f (stack_of w) = Some (kEipStatusOk, s) →
  init_classes f w = Some (set_stack (set_device_stack s (stack w)) w).
Proof. intros E. unfold init_classes. by rewrite E. Qed.

Lemma not_registered s code l : codes s = l → code ∉ l → GetCipClass s code = None.
Proof.
  intros <-. rewrite GetCipClass_codes. generalize 0%nat. induction (codes s) as [|k l IH]; intros i Hk.
  - done.
  - apply not_elem_of_cons in Hk as [Hne Hk]. cbn [code_index].
    by rewrite (proj2 (Z.eqb_neq k code)), IH.
Qed.

Lemma held_stored l s : NoDup l.*1 → held l (store_objects l s).
Proof. apply store_objects_holds. Qed.

Lemma offers_kept t n numbers l attrs free cl s s' :
  keeps t s s' → class_offers n numbers l attrs free cl s → class_offers n numbers l attrs free cl s'.
Proof.
  intros [[r E] _] (c & m & Hc & R). exists c, m. split; [|exact R].
  rewrite E, lookup_app_l; [done | by eapply lookup_lt_Some].
Qed.

(** The identity object with its table, its services and its reset callback. *)
Definition identity_ready (s : CipStack) : Prop :=
  identity_offers s ∧ ∃ i c, table_object 1 0 identity_rows s i c ∧
    PreResetCallback c = Some kIdentityPreReset.

Lemma identity_kept t s s' : keeps t s s' → identity_ready s → identity_ready s'.
Proof.
  intros K [O (i & c & T & P)]. split; [by eapply offers_kept |]. exists i, c.
  split; [by eapply instance_kept | done].
Qed.

(** Router and identity. *)
Lemma first_classes name g g' s0 :
  classes s0 = [] → named name g g' →
  ∃ s1 s2, CipMessageRouterInit s0 = Some (kEipStatusOk, s1) ∧
    CipIdentityInit name g s1 = Some (kEipStatusOk, g', s2) ∧
    codes s2 = [kCipMessageRouterClassCode; kCipIdentityClassCode] ∧
    held (identity_objects g') s2 ∧ router_offers s2 ∧ identity_ready s2.
Proof.
  intros Hs Hn. destruct s0 as [cl objs]. cbn [classes] in Hs. subst cl.
  destruct (router_created objs) as (c0 & m0 & E0 & C0 & R0).
  destruct (identity_created name g g' c0 m0 objs) as (c1 & m1 & E1 & C1 & P1 & I1); [by rewrite C0 | done |].
  do 2 eexists. split; [exact E0 |]. split; [exact E1 |]. split.
  - unfold codes. cbn [classes store_identity fmap list_fmap fst]. by rewrite C0, C1.
  - split; [|split; [apply R0 |]].
    + apply (held_stored (identity_objects g')). apply (bool_decide_unpack _). by vm_compute.
    + destruct (I1 (objects (store_identity g' (mkStack [(c0, m0); (c1, m1)] objs)))) as (O & i & T).
      split; [exact O |]. exists i, c1. split; [exact T | exact P1].
Qed.

(** The TCP/IP object and the ports. *)
Definition ports_ready (cnt : nat) (label : bool) (gs : list CipEthernetLinkObject) (s : CipStack)
  : Prop :=
  constants_hold s ∧ ∀ idx l, gs !! idx = Some l →
    link_holds idx (initial_link cnt label false idx l) s ∧
    ∃ globals mask i c, instance_number i = Z.of_nat idx + 1 ∧
      table_instance 3 idx (link_rows cnt label false globals idx) mask s i c ∧
      services c = common_service <$> [get_single; get_all].

Lemma network_classes big label cnt g gs s2 :
  codes s2 = [kCipMessageRouterClassCode; kCipIdentityClassCode] →
  (1 <= cnt <= 3)%nat → length gs = cnt →
  ∃ s3 s4, CipTcpIpInterfaceInit big g s2 = Some (kEipStatusOk, s3) ∧
    CipEthernetLinkInit cnt label false s3 gs s3 = Some (kEipStatusOk, s4) ∧
    codes s4 = codes s2 ++ [kCipTcpIpInterfaceClassCode; kCipEthernetLinkClassCode] ∧
    keeps (λ a, range 301 313 a || range 401 447 a) s2 s4 ∧
    (∃ i c, table_object 2 0 (tcpip_rows big) s4 i c ∧
       services c = common_service <$> [get_single; get_all; set_single]) ∧ tcpip_holds g s4 ∧ ports_ready cnt label gs s4.
Proof.
  intros H2 Hc Hl.
  destruct (tcpip_created big g s2) as (s3 & i & c & m & E3 & K3 & G3 & T3 & V3 & O3 & S3).
  { apply (not_registered _ _ _ H2). by apply (bool_decide_unpack _). }
  pose proof (codes_registered _ _ _ _ _ K3 G3) as C3.
  destruct (ethernet_links_created cnt label false s3 gs s3) as (s4 & c4 & m4 & E4 & K4 & G4 & H4 & L4 & O4 & S4).
  { rewrite H2 in C3. apply (not_registered _ _ _ C3). by apply (bool_decide_unpack _). } { exact Hc. } { exact Hl. }
  pose proof (codes_registered _ _ _ _ _ K4 G4) as C4.
  assert (KE : keeps (range 401 447) s3 s4).
  { eapply keeps_added; [exact K4 |]. intros a Ha. apply O4. unfold link_address. lia. }
  assert (KT : keeps (range 301 313) s2 s3).
  { eapply keeps_added; [exact K3 |]. intros a Ha. apply O3. unfold kTcpIpAddress. lia. }
  assert (L2 : length (classes s2) = 2%nat) by (by apply (f_equal length) in H2; unfold codes in H2; rewrite length_fmap in H2).
  assert (L3 : length (classes s3) = 3%nat) by (by rewrite K3, length_app, L2).
  rewrite L2 in T3. rewrite L3 in L4. exists s3, s4. split_and!; try done.
  - by rewrite C4, C3, <-(assoc_L (++)).
  - by eapply keeps_trans.
  - exists i, c. split; [by eapply instance_kept | done].
  - by apply (held_kept _ _ _ _ KE).
  - split; [done |]. intros idx l Hidx. destruct (L4 idx l Hidx) as (A & j & B & D).
    split; [exact A |].
    by eexists s3, _, j, c4.
Qed.

Lemma classes_length s l : codes s = l → length (classes s) = length l.
Proof. intros <-. unfold codes. by rewrite length_fmap. Qed.

(** The DLR object, if the device has one. *)
Lemma dlr_class (dlr : bool) g s6 l :
  codes s6 = l → kCipDlrClassCode ∉ l → length l = 6%nat →
  ∃ s7, (if dlr then CipDlrInit g s6 = Some (kEipStatusOk, s7) else s7 = s6) ∧
    codes s7 = l ++ (if dlr then [kCipDlrClassCode] else []) ∧ keeps (range 341 352) s6 s7 ∧
    (dlr = true → (∃ i c, table_object 6 0 dlr_rows s7 i c ∧
       services c = common_service <$> [get_single; get_all]) ∧ dlr_holds (dlr_capabilities g) s7).
Proof.
  intros H6 Hn Hl. destruct dlr.
  - destruct (dlr_created g s6) as (s7 & i & c & m & E & K & G & T & V & O & S).
    { by apply (not_registered _ _ _ H6). }
    rewrite (classes_length s6 l H6), Hl in T. exists s7. split; [exact E |].
    split; [by rewrite (codes_registered _ _ _ _ _ K G), H6 |].
    split; [eapply keeps_added; [exact K |]; intros a Ha; apply O; unfold kDlrAddress; lia |].
    intros _. split; [by exists i, c | done].
  - exists s6. split; [done |]. rewrite (right_id_L [] (++)).
    split; [done |]. split; [apply keeps_refl | done].
Qed.

Lemma last_classes `{AssemblyApplication} (dlr : bool) gd gq s5 l :
  codes s5 = l → length l = 5%nat →
  Forall (λ k, k ∉ l) [kCipAssemblyClassCode; kCipDlrClassCode; kCipQoSClassCode] →
  ∃ s6 s7 s8, CipAssemblyInitialize s5 = Some (kEipStatusOk, s6) ∧
    (if dlr then CipDlrInit gd s6 = Some (kEipStatusOk, s7) else s7 = s6) ∧
    CipQoSInit gq s7 = Some (kEipStatusOk, s8) ∧
    codes s8 = l ++ [kCipAssemblyClassCode] ++ (if dlr then [kCipDlrClassCode] else [])
               ++ [kCipQoSClassCode] ∧
    keeps (λ a, range 341 352 a || range 201 208 a) s5 s8 ∧ assemblies 5 [] s8 ∧
    (dlr = true → ∃ i c, table_object 6 0 dlr_rows s8 i c ∧
       services c = common_service <$> [get_single; get_all] ∧ dlr_holds (dlr_capabilities gd) s8) ∧
    ∃ i c, table_object (if dlr then 7 else 6) 0 qos_rows s8 i c ∧
      services c = common_service <$> [get_single; set_single] ∧ qos_holds gq s8.
Proof.
  intros H5 Hl Hn. rewrite !list.Forall_cons in Hn.
  destruct Hn as (NA & ND & NQ & _).
  destruct (CipAssemblyInitialize_spec s5) as (s6 & E6 & O6 & A6 & ca & ma & K6).
  { by apply (not_registered _ _ _ H5). }
  pose proof (as_registered _ _ _ A6) as G6.
  pose proof (codes_registered _ _ _ _ _ K6 G6) as C6. rewrite H5 in C6.
  rewrite (classes_length s5 l H5), Hl in A6.
  destruct (dlr_class dlr gd s6 _ C6) as (s7 & E7 & C7 & K7 & D7).
  { rewrite not_elem_of_app. split; [done | by apply (bool_decide_unpack _)]. }
  { rewrite length_app, Hl. done. }
  destruct (qos_created gq s7) as (s8 & i & c & m & E8 & K8 & G8 & T8 & V8 & O8 & S8).
  { apply (not_registered _ _ _ C7). rewrite !not_elem_of_app. split; [split; [done |] |];
      [|destruct dlr]; by apply (bool_decide_unpack _). }
  assert (K78 : keeps (range 201 208) s7 s8).
  { eapply keeps_added; [exact K8 |]. intros a Ha. apply O8. unfold kQosAddress. lia. }
  assert (K68 := keeps_trans _ _ _ _ _ K7 K78).
  exists s6, s7, s8. split_and!; try done.
  - rewrite (codes_registered _ _ _ _ _ K8 G8), C7. by rewrite <-!(assoc_L (++)).
  - destruct K68 as [[r E] O]. split; [exists ([(ca, ma)] ++ r); by rewrite E, K6, (assoc_L (++)) |].
    intros a Ha. by rewrite O, O6.
  - exact (assemblies_kept _ _ _ _ K68 A6).
  - intros Hd. destruct (D7 Hd) as ((j & k & T & S) & V). exists j, k.
    split; [exact (instance_kept _ _ _ _ _ _ _ _ _ K78 T) |].
    split; [done | by apply (held_kept _ _ _ _ K78)].
  - exists i, c. split; [|done]. rewrite (classes_length s7 _ C7), !length_app, Hl in T8.
    by destruct dlr.
Qed.

(** ** The whole start-up *)

(** What is promised about the stack [w'] when the objects of [w] have been initialised:
    the classes in their order, identity and each network object with its table of attributes,
    its services and the values it had at program start, router and connection manager with their
    services, the assembly class without instances, the entries of the two connectable objects,
    and free connection objects. *)
Record stack_ready `{AssemblyApplication} (big dlr label : bool) (cnt : nat) (id : Z) (g : Globals)
    (identity : CipIdentityObject) (w w' : DeviceWorld) : Prop := {
  ready_codes : codes (stack_of w')
    = [kCipMessageRouterClassCode; kCipIdentityClassCode; kCipTcpIpInterfaceClassCode;
       kCipEthernetLinkClassCode; kCipConnectionManagerClassCode; kCipAssemblyClassCode]
      ++ (if dlr then [kCipDlrClassCode] else []) ++ [kCipQoSClassCode];
  ready_identity : g_identity (stack w') = identity ∧ held (identity_objects identity) (stack_of w');
  ready_classes : router_offers (stack_of w') ∧ identity_ready (stack_of w') ∧
    manager_offers (stack_of w');
  ready_tcpip : (∃ i c, table_object 2 0 (tcpip_rows big) (stack_of w') i c ∧
      services c = common_service <$> [get_single; get_all; set_single]) ∧
    tcpip_holds (g_tcpip0 g) (stack_of w');
  ready_ports : ports_ready cnt label (g_ethernet_link0 g) (stack_of w');
  ready_assembly : assemblies 5 [] (stack_of w');
  ready_dlr : dlr = true → ∃ i c, table_object 6 0 dlr_rows (stack_of w') i c ∧
    services c = common_service <$> [get_single; get_all] ∧ dlr_holds (dlr_capabilities (g_dlr0 g)) (stack_of w');
  ready_qos : ∃ i c, table_object (if dlr then 7 else 6) 0 qos_rows (stack_of w') i c ∧
    services c = common_service <$> [get_single; set_single] ∧ qos_holds (g_qos0 g) (stack_of w');
  ready_entries : g_connection_management_list (the_manager w') = kExpectedEntries;
  ready_ids : g_incarnation_id (the_manager w') = u32 (id ≪ 16);
  ready_connections : connection_list (connections w') = connection_list (connections w) ∧
    ∀ k, k ∈ seq 0 OPENER_CIP_NUM_EXPLICIT_CONNS ++ io_connections →
      connection_pool (connections w') !! k = Some zero_connection }.

Lemma ports_kept t cnt label gs s s' :
  keeps t s s' → forallb (λ a, negb (t a)) (seq 401 47) = true → (length gs <= 3)%nat →
  ports_ready cnt label gs s → ports_ready cnt label gs s'.
Proof.
  intros K Ht Hl [Hc Hp]. rewrite forallb_forall in Ht.
  assert (Hin : ∀ a, (401 <= a <= 447)%nat → negb (t a) = true).
  { intros a Ha. apply Ht, in_seq. lia. }
  split.
  - apply (held_kept t constant_objects s s' K); [|exact Hc]. apply forallb_forall. intros a Ha.
    apply Hin. apply list_elem_of_In in Ha. unfold constant_objects in Ha.
    cbn [fmap list_fmap fst] in Ha. rewrite !elem_of_cons in Ha.
    unfold dummy_attribute_udint, dummy_attribute_usint, s_interface_control_address in Ha.
    destruct Ha as [->|[->|[->|Ha]]]; [lia.. | by apply not_elem_of_nil in Ha].
  - intros idx l Hidx. destruct (Hp idx l Hidx) as (L & globals & mask & i & c & Hn & T & S).
    pose proof (lookup_lt_Some _ _ _ Hidx). split.
    + apply (held_kept t (link_objects idx _) s s' K); [|exact L]. apply forallb_forall.
      intros a Ha. apply Hin. apply list_elem_of_In in Ha. unfold link_objects in Ha.
      cbn [fmap list_fmap fst] in Ha. rewrite !elem_of_cons in Ha. unfold link_address in Ha.
      repeat destruct Ha as [->|Ha]; try lia. by apply not_elem_of_nil in Ha.
    + exists globals, mask, i, c. split; [done |].
      split; [exact (instance_kept _ _ _ _ _ _ _ _ _ K T) | done].
Qed.

Lemma stack_initialized `{AssemblyApplication} big dlr label cnt id g identity w :
  classes (stack_of w) = [] → named (device_name g) (g_identity (stack w)) identity →
  (1 <= cnt <= 3)%nat → length (g_ethernet_link0 g) = cnt →
  ∃ w', stack_ready big dlr label cnt id g identity w w' ∧
    ∀ app, CipStackInit big dlr label cnt app id g w
      = ('(eip_status, w'') ← app w';
         assert! bool_decide (eip_status = kEipStatusOk); Some (eip_status, w'')).
Proof.
  intros Hw Hn Hc Hl.
  destruct (first_classes (device_name g) _ identity (stack_of w) Hw Hn)
    as (s1 & s2 & E1 & E2 & C2 & H2 & R2 & I2).
  destruct (network_classes big label cnt (g_tcpip0 g) (g_ethernet_link0 g) s2 C2 Hc Hl)
    as (s3 & s4 & E3 & E4 & C4 & K4 & T4 & V4 & P4). rewrite C2 in C4.
  set (w4 := set_stack (set_device_stack s4 (set_device_identity identity (stack w))) w).
  destruct (manager_created id w4) as (w5 & c5 & m5 & E5 & K5 & C5 & M5 & O5 & I5 & L5 & N5 & F5 & P5).
  { apply (not_registered _ _ _ C4). by apply (bool_decide_unpack _). }
  assert (C5' : codes (stack_of w5) = codes s4 ++ [kCipConnectionManagerClassCode]).
  { unfold codes. rewrite K5, fmap_app. cbn [fmap list_fmap fst]. by rewrite C5. }
  rewrite C4 in C5'.
  destruct (last_classes dlr (g_dlr0 g) (g_qos0 g) (stack_of w5) _ C5')
    as (s6 & s7 & s8 & E6 & E7 & E8 & C8 & K8 & A8 & D8 & Q8); [done | |].
  { apply (bool_decide_unpack _). by vm_compute. }
  assert (K58 : keeps (λ a, range 341 352 a || range 201 208 a) s4 s8).
  { destruct K8 as [[l E] O]. split; [exists ([(c5, m5)] ++ l); by rewrite E, K5, (assoc_L (++)) |].
    intros a Ha. by rewrite O, O5. }
  exists (set_stack (set_device_stack s8 (stack w5)) w5). split.
  - split; cbn [stack_of stack set_stack cip_stack set_device_stack g_identity connections
      the_manager manager_state]; try done.
    + split; [by rewrite I5 |]. apply (held_kept _ _ _ _ (keeps_trans _ _ _ _ _ K4 K58)); [|done].
      by vm_compute.
    + pose proof (keeps_trans _ _ _ _ _ K4 K58) as K28. split; [|split].
      * exact (offers_kept _ _ _ _ _ _ _ _ _ K28 R2).
      * exact (identity_kept _ _ _ K28 I2).
      * destruct K8 as [[l E] _]. destruct s8 as [cl o]. cbn [classes] in E. rewrite E. apply M5.
        exact (classes_length s4 _ C4).
    + destruct T4 as (i & c & T4 & S4).
      split; [exists i, c; split; [exact (instance_kept _ _ _ _ _ _ _ _ _ K58 T4) | exact S4] |].
      apply (held_kept _ _ _ _ K58); [|done]. by vm_compute.
    + apply (ports_kept _ _ _ _ _ _ K58); [by vm_compute | lia | done].
  - intros app. unfold CipStackInit, init_objects.
    rewrite (init_classes_step _ w s1) by exact E1. cbn [mbind option_bind].
    unfold init_identity. cbn [stack_of stack set_stack cip_stack set_device_stack g_identity].
    rewrite E2. cbn [mbind option_bind]. rewrite bool_decide_eq_true_2 by done. cbn [mbind option_bind].
    rewrite (init_classes_step _ _ s3) by exact E3. cbn [mbind option_bind].
    rewrite (init_classes_step _ _ s4) by exact E4. cbn [mbind option_bind].
    match goal with |- context [init_manager id ?v] => change v with w4 end.
    rewrite E5. cbn [mbind option_bind]. rewrite (init_classes_step _ _ s6) by exact E6.
    cbn [mbind option_bind]. destruct dlr.
    + rewrite (init_classes_step _ _ s7) by exact E7. cbn [mbind option_bind].
      by rewrite (init_classes_step _ _ s8) by exact E8.
    + subst s7. cbn [mbind option_bind]. by rewrite (init_classes_step _ _ s8) by exact E8.
Qed.


(** ** The sample device *)

Definition sample_globals : Globals :=
  mkGlobals (g_tcpip false) [zero_link] zero_dlr default_qos
    [79; 112; 69; 78; 101; 114; 32; 80; 67; 0].

(** Before the start: no class is registered, no name is set. *)
Definition cold_device : DeviceWorld :=
  mkWorld zero_cpf initial_manager
    (mkDeviceState (mkRequest 0 (mkEpath 0 0 0 0) 0 []) empty_stack
       (mkManager 0 0 [] zero_connection (0, None) [])
       (mkIdentity 1 12 65001 2 3 0 0 0x075BCD15 (mkShortString 0 None) 255)
       (mkNetworkStatus 0xC0A80102 0xFFFFFF00 0 0 [])
       (mkIoState (fst (InitializeIoConnectionData initial_manager)) 0 false false [])).

Definition sample_identity : CipIdentityObject :=
  mkIdentity 1 12 65001 2 3 0 0 0x075BCD15
    (mkShortString 9 (Some [79; 112; 69; 78; 101; 114; 32; 80; 67])) 255.


(** The sample device starts, with its six assemblies and the three connection points. *)
Lemma sample_device_starts :
  match CipStackInit false false false 1 ApplicationInitialization 0x1234 sample_globals cold_device with
  | Some (status, w) =>
      status = kEipStatusOk ∧
      (n ← GetCipClass (stack_of w) kCipAssemblyClassCode; c ← get_class (TheClass n) (stack_of w);
       Some (instance_number <$> instances c)) = Some [100; 150; 151; 152; 153; 154] ∧
      (n ← GetCipClass (stack_of w) kCipQoSClassCode; c ← get_class (TheClass n) (stack_of w);
       PostSetCallback c) = Some kNvQosSetCallback
  | None => False
  end.
Proof. vm_compute. split_and!; reflexivity. Qed.

(** Output data are mirrored to the input assembly. *)
Lemma mirror_copies o src dst n m :
  o !! output_address = Some (DByteArray (mkByteArray n (Some src))) →
  o !! input_address = Some (DByteArray (mkByteArray m (Some dst))) →
  length src = 32%nat → length dst = 32%nat →
  mirror o = <[input_address := DByteArray (mkByteArray 32 (Some src))]> o.
Proof.
  intros Ho Hi Hs Hd. unfold mirror, buffer_at. rewrite Ho, Hi. cbn [mbind option_bind ba_data].
  rewrite load_n_self by done. cbn [mbind option_bind].
  assert (E : write_bytes dst 0 src = Some src).
  { apply write_bytes_Some. split; [lia |]. split; [lia |]. change (Z.to_nat 0) with 0%nat.
    rewrite take_0, drop_ge by lia. by rewrite (right_id_L [] (++)). }
  by rewrite E.
Qed.

(** ** Lemmas: shutdown *)

Lemma free_assemblies_spec `{AssemblyApplication} n c l s :
  class_frame c = assembly_frame n →
  ∃ s', free_assemblies n c (assembly_instance n <$> l) s = Some s' ∧ classes s' = classes s ∧
    (∀ a, objects s' !! a = if bool_decide (a ∈ l.*2) then None else objects s !! a).
Proof.
  intros Hf. revert s. induction l as [|e l IH]; intros s.
  { exists s. split_and!; [done | done |]. intros a. by rewrite bool_decide_eq_false_2 by (by intros ?%elem_of_nil). }
  cbn [fmap list_fmap free_assemblies]. unfold free_assembly at 1.
  pose proof (frame_fields c n Hf) as (Hn & _). unfold GetCipAttribute. rewrite Hn.
  destruct (IH (mkStack (classes s) (delete e.2 (objects s)))) as (s' & E & Ec & Eo).
  exists s'. split_and!; [exact E | exact Ec |]. intros a. rewrite Eo. cbn [objects].
  destruct (decide (a = e.2)) as [->|Ha].
  - rewrite lookup_delete_eq, (bool_decide_eq_true_2 (e.2 ∈ e.2 :: l.*2)) by (by left).
    by destruct (bool_decide _).
  - rewrite lookup_delete_ne by done. case_bool_decide as Hin.
    + by rewrite bool_decide_eq_true_2 by (by right).
    + rewrite bool_decide_eq_false_2; [done |]. by intros [?|?]%elem_of_cons.
Qed.

Lemma ShutdownAssemblies_spec `{AssemblyApplication} n l s :
  assemblies n l s →
  ∃ s', ShutdownAssemblies s = Some s' ∧ classes s' = classes s ∧
    (∀ a, objects s' !! a = if bool_decide (a ∈ l.*2) then None else objects s !! a).
Proof.
  intros [Hr (c & Hc & Hf & Hi & _) _ _]. unfold ShutdownAssemblies. rewrite Hr, Hc.
  cbn [mbind option_bind]. rewrite Hi. by apply free_assemblies_spec.
Qed.

Lemma timers_stay_clear x (l : list Z) ts :
  x ≠ kEipInvalidSocket → Forall (λ t, timer_socket t ≠ x) ts →
  Forall (λ t, timer_socket t ≠ x) (foldl (λ ts y, clear_timer_of y <$> ts) ts l).
Proof.
  intros Hx. revert ts. induction l as [|y l IH]; intros ts Hts; [done |]. cbn [foldl]. apply IH.
  apply Forall_fmap. eapply Forall_impl; [exact Hts |]. intros t Ht. unfold compose, clear_timer_of.
  destruct (timer_socket t =? y); [by cbn; intros <- | done].
Qed.

Lemma timers_cleared (l : list Z) ts :
  Forall (λ x, x ≠ kEipInvalidSocket) l →
  Forall (λ t, timer_socket t ∉ l) (foldl (λ ts y, clear_timer_of y <$> ts) ts l).
Proof.
  intros Hl. apply list.Forall_forall. intros t Hin Ht. revert ts Hin.
  induction Hl as [|x l Hx _ IH]; intros ts Hin; [by apply elem_of_nil in Ht |]. cbn [foldl] in Hin.
  apply elem_of_cons in Ht as [Ht|Ht]; [|by eapply IH].
  assert (F : Forall (λ t, timer_socket t ≠ x) (clear_timer_of x <$> ts)).
  { apply Forall_fmap, list.Forall_forall. intros t' _. unfold compose, clear_timer_of.
    destruct (Z.eqb_spec (timer_socket t') x); [by cbn; intros <- | done]. }
  apply (timers_stay_clear x l) in F; [|done]. rewrite list.Forall_forall in F. by apply (F t).
Qed.

(** The sockets of the sessions are closed, in their order; those before [k] are gone. *)
Lemma shut_down_spec {S} k (rest : list Z) (s : Encapsulation S) :
  g_registered_sessions s = replicate k kEipInvalidSocket ++ rest →
  let open_ := filter (λ x, x ≠ kEipInvalidSocket) rest in
  ∃ s', shut_down (length rest) k s = Some s' ∧
    g_registered_sessions s' = replicate (k + length rest) kEipInvalidSocket ∧
    stack (world s') = stack (world s) ∧
    connection_list (Encap.manager s') = connection_list (Encap.manager s) ∧
    connection_nodes (Encap.manager s') = connection_nodes (Encap.manager s) ∧
    connection_pool (Encap.manager s') = connection_pool (Encap.manager s) ∧
    closed_sockets (Encap.manager s') = rev open_ ++ closed_sockets (Encap.manager s) ∧
    g_timestamps s' = foldl (λ ts y, clear_timer_of y <$> ts) (g_timestamps s) open_.
Proof.
  revert k s. induction rest as [|x rest IH]; intros k s Hs open_.
  { exists s. rewrite (right_id_L [] (++)) in Hs. cbn [length]. rewrite Nat.add_0_r.
    by split_and!. }
  cbn [shut_down length]. rewrite Hs, lookup_app_r, length_replicate, Nat.sub_diag by (by rewrite length_replicate).
  cbn [mbind option_bind lookup list_lookup]. unfold open_. rewrite filter_cons.
  destruct (Z.eqb_spec kEipInvalidSocket x) as [<-|Hx]; cbn [negb].
  - rewrite decide_False by (by intros []). destruct (IH (Datatypes.S k) s) as (s' & E & R); [by rewrite Hs, replicate_S_end, <- (assoc_L (++)) |].
    exists s'. rewrite <- Nat.add_succ_comm. split; [exact E |]. exact R.
  - rewrite decide_True by done. rewrite CloseTcpSocket_eq by done. cbn [mbind option_bind].
    set (s1 := set_manager _ _). unfold store_session.
    assert (Hk : g_registered_sessions s1 !! k = Some x).
    { cbn. by rewrite Hs, lookup_app_r, length_replicate, Nat.sub_diag by (by rewrite length_replicate). }
    rewrite Hk. cbn [mbind option_bind].
    destruct (IH (Datatypes.S k) (set_sessions (<[k:=kEipInvalidSocket]> (g_registered_sessions s1)) s1))
      as (s' & E & R1 & R2 & R3 & R4 & R5 & R6 & R7).
    { cbn [g_registered_sessions set_sessions set_manager set_world set_timestamps s1].
      rewrite Hs, insert_app_r_alt, length_replicate, Nat.sub_diag by (by rewrite length_replicate).
      by rewrite replicate_S_end, <- (assoc_L (++)). }
    exists s'. rewrite <- Nat.add_succ_comm. split_and!; [exact E | exact R1 | exact R2 | | | | | exact R7].
    all: rewrite ?R3, ?R4, ?R5, ?R6; cbn; unfold CloseSocket;
      destruct (Z.eqb_spec kEipInvalidSocket x); try done.
    cbn [closed_sockets]. by rewrite <- (assoc_L (++)).
Qed.

(** C12.  Shutdown releases what the device holds: every connection is closed, its object empty
    and the list with it; every session's socket is closed, has no timer left and the table
    is free; the byte arrays of all assemblies and the host name are freed, and no class
    is registered. *)
Theorem ShutdownCipStack_releases `{AssemblyApplication} d xs n l host :
  conns_wf (Encap.manager d) xs → Forall (closable (Encap.manager d)) xs.*2 →
  length (g_registered_sessions d) = OPENER_NUMBER_OF_SUPPORTED_SESSIONS →
  assemblies n l (stack_of (world d)) →
  objects (stack_of (world d)) !! (kTcpIpAddress + 6)%nat = Some (DString host) →
  (kTcpIpAddress + 6)%nat ∉ l.*2 →
  ∃ d', ShutdownCipStack d = Some d' ∧
    conns_wf (Encap.manager d') [] ∧
    (∀ c, c ∈ xs.*2 → connection_pool (Encap.manager d') !! c = Some empty_connection) ∧
    g_registered_sessions d' = replicate OPENER_NUMBER_OF_SUPPORTED_SESSIONS kEipInvalidSocket ∧
    (∀ x, x ∈ g_registered_sessions d → x ≠ kEipInvalidSocket →
       x ∈ closed_sockets (Encap.manager d') ∧ Forall (λ t, timer_socket t ≠ x) (g_timestamps d')) ∧
    classes (stack_of (world d')) = [] ∧
    (∀ a, a ∈ l.*2 → objects (stack_of (world d')) !! a = None) ∧
    objects (stack_of (world d')) !! (kTcpIpAddress + 6)%nat
      = Some (DString (mkString (st_length host) None)).
Proof.
  intros Hw Hc Hlen Ha Hh Hl. unfold ShutdownCipStack, CloseAllConnections.
  destruct (close_all_spec loop_fuel _ xs Hw Hc (conns_fuel _ _ Hw)) as (m & E & Hw' & He & _).
  rewrite E. cbn [mbind option_bind]. set (d1 := set_manager m d). unfold EncapsulationShutDown.
  destruct (shut_down_spec 0 (g_registered_sessions d) d1) as (d2 & E2 & S2 & K2 & L2 & N2 & P2 & C2 & T2);
    [done |].
  rewrite Hlen in E2, S2. rewrite E2. cbn [mbind option_bind].
  assert (Hst : stack_of (world d2) = stack_of (world d)) by (unfold stack_of; by rewrite K2).
  destruct (ShutdownAssemblies_spec n l (stack_of (world d2))) as (s3 & E3 & C3 & O3); [by rewrite Hst |].
  rewrite E3. cbn [mbind option_bind]. eexists. split; [reflexivity |].
  set (open_ := filter (λ x, x ≠ kEipInvalidSocket) (g_registered_sessions d)) in *.
  assert (Ho : Forall (λ x, x ≠ kEipInvalidSocket) open_).
  { apply list.Forall_forall. by intros x [Hx _]%list_elem_of_filter. }
  split_and!.
  - eapply (conns_wf_same m); [exact L2 | exact N2 | exact P2 | exact Hw'].
  - intros c Hin. change (connection_pool (Encap.manager d2) !! c = Some empty_connection).
    rewrite P2. apply He; [done |]. by intros ?%elem_of_nil.
  - exact S2.
  - intros x Hin Hx. assert (Hx' : x ∈ open_) by (by apply list_elem_of_filter). split.
    + change (x ∈ closed_sockets (Encap.manager d2)). rewrite C2. apply elem_of_app. left.
      by apply list_elem_of_In, in_rev; rewrite rev_involutive; apply list_elem_of_In.
    + change (Forall (λ t, timer_socket t ≠ x) (g_timestamps d2)). rewrite T2.
      eapply Forall_impl; [by apply timers_cleared |]. by intros t Ht <-.
  - done.
  - intros a Hin. change (objects (shutdown_tcpip s3) !! a = None). unfold shutdown_tcpip. cbn [objects].
    by rewrite !lookup_alter_None, O3, bool_decide_eq_true_2.
  - change (objects (shutdown_tcpip s3) !! (kTcpIpAddress + 6)%nat
      = Some (DString (mkString (st_length host) None))).
    unfold shutdown_tcpip. cbn [objects].
    by rewrite lookup_alter_ne, lookup_alter_eq, O3, bool_decide_eq_false_2, Hst, Hh by done.
Qed.

(** A running device: three I/O connections, one session with its timer, three assemblies. *)
Definition named_stack : CipStack :=
  mkStack (classes assembly_example)
    (<[(kTcpIpAddress + 6)%nat := DString (mkString 1 (Some [104]))]> (objects assembly_example)).

Definition running_device : DeviceEncapsulation :=
  mkEncap (5 :: replicate 19 kEipInvalidSocket) [mkSocketTimer 5 100; mkSocketTimer kEipInvalidSocket 0]
    100 [] zero_service_information []
    (set_connections (multicast_manager true)
       (set_stack (set_device_stack named_stack (stack cold_device)) cold_device)).

Lemma assemblies_insert `{AssemblyApplication} n l s a v :
  assemblies n l s → a ∉ l.*2 →
  assemblies n l (mkStack (classes s) (<[a := v]> (objects s))).
Proof.
  intros [R C N A] Ha. split; [exact R | exact C | exact N |]. intros e He. destruct (A e He) as [b Hb].
  exists b. cbn [objects]. rewrite lookup_insert_ne; [done |]. intros ->. apply Ha.
  apply list_elem_of_fmap. by exists e.
Qed.

Lemma ShutdownCipStack_releases_witness :
  ∃ d', ShutdownCipStack running_device = Some d' ∧ conns_wf (Encap.manager d') [] ∧
    5 ∈ closed_sockets (Encap.manager d') ∧ classes (stack_of (world d')) = [].
Proof.
  destruct (@ShutdownCipStack_releases quiet_application running_device [(2, 10); (1, 7); (0, 6)]%nat 0
    [(100, 500%nat); (150, 501%nat); (151, 502%nat)] (mkString 1 (Some [104])))
    as (d' & E & Hw & _ & _ & Hs & Hc & _).
  - exact (multicast_manager_wf true).
  - repeat (constructor; [eexists; split; [vm_compute; reflexivity | left; reflexivity] |]). constructor.
  - reflexivity.
  - apply assemblies_insert; [exact (proj1 assembly_example_spec) |].
    intros H; repeat (apply elem_of_cons in H as [H|H]; [discriminate H |]). by apply elem_of_nil in H.
  - reflexivity.
  - intros H; repeat (apply elem_of_cons in H as [H|H]; [discriminate H |]). by apply elem_of_nil in H.
  - exists d'. split; [exact E |]. split; [exact Hw |]. split; [|exact Hc].
    apply (Hs 5); [by left | discriminate].
Defined.
