(* ===== verification/PosixMain.v ===== *)
(** * [ports/POSIX/main.c]: the program

    From the command line to the exit: the stack is set up, the network configured, the
    sockets opened, the event loop run until a signal or an error, and everything released.
    In the real-time build (OPENER_RT) the loop runs in a thread of its own, for which the
    program waits; the fuzzing build is left out. *)

From S2P Require Import Prelude EndianConv EPath CipStrings CipTypes CipCodec CipClasses CipServices Identity Assembly.
From S2P Require Import MessageRouter SocketTimer ConnRecord ConnObject ConnList LinkedList AppConType IoClose EncapData Cpf Encap ConnPath ConnService IoOpen IoData ConnTimer.
From S2P Require Import NetObject Qos TcpIp EthLink Dlr NetHandler NetInit NvData PosixConfig StackInit.
From stdpp Require Import strings gmap.
Open Scope Z_scope.

(** ** Signals *)

Definition SIGHUP : Z := 1.
Definition SIGINT : Z := 2.

Definition LeaveStack (g_end_stack signal : Z) : Z :=
  if (SIGHUP =? signal) || (SIGINT =? signal) then signal else g_end_stack.

(** The signals delivered since the program set [g_end_stack] to 0 and registered for them, the
    first one first.  One that comes before that ends the program at once. *)
Class Signals (OS : Type) := { signals : OS → list Z }.

Definition g_end_stack {OS} `{Signals OS} (o : OS) : Z := foldl LeaveStack 0 (signals o).

(** ** The thread of the real-time build *)

Inductive RealTimeCall :=
| mlockall | pthread_attr_init | pthread_attr_setstacksize | pthread_attr_setschedpolicy
| pthread_attr_setschedparam | pthread_attr_setinheritsched | pthread_create | pthread_join
| munlockall.

Class RealTime (OS : Type) := { rt_call : RealTimeCall → OS → Z * OS }.

Definition rt_failed (c : RealTimeCall) (ret : Z) : bool :=
  match c with mlockall => ret =? -1 | _ => negb (ret =? 0) end.

(** Whether all calls succeeded; the first that fails is the last one. *)
Fixpoint rt_calls {OS} `{RealTime OS} (l : list RealTimeCall) (o : OS) : bool * OS :=
  match l with
  | [] => (true, o)
  | c :: l =>
      let '(ret, o) := rt_call c o in
      if rt_failed c ret then (false, o) else rt_calls l o
  end.

Definition create_thread {OS} `{RealTime OS} (o : OS) : bool * OS :=
  rt_calls [mlockall; pthread_attr_init; pthread_attr_setstacksize; pthread_attr_setschedpolicy;
            pthread_attr_setschedparam; pthread_attr_setinheritsched; pthread_create] o.

(** ** Constants *)

Definition EXIT_SUCCESS : Z := 0.
Definition EXIT_FAILURE : Z := 1.
Definition RET_SHOW_SIGNAL : Z := 200.
Definition kTcpipCfgCtrlDhcp : Z := 2.

(** ** The stack and its globals *)

(** What the program changes of the globals behind the attributes. *)
Definition on_stack {OS} (f : CipStack → option CipStack) (s : NetworkHandler OS)
  : option (NetworkHandler OS) :=
  let w := world (device s) in
  c ← f (stack_of w);
  Some (set_device (set_world (set_stack (set_device_stack c (stack w)) w) (device s)) s).

Definition set_mac (cnt : nat) (iface_mac : list Z) (s : CipStack) : option CipStack :=
  a ← load_n iface_mac 6;
  Some (store_objects ((λ idx, ((link_address idx + 3)%nat, DBytes a)) <$> seq 0 cnt) s).

Section Main.
Context {OS : Type} `{OperatingSystem OS} `{SocketCalls OS} `{PosixSystem OS} `{FileSystem OS}.
Context `{Signals OS} `{RealTime OS} `{IoPlatform} `{AssemblyApplication} `{RunIdleApplication}.
Context `{Application} `{TimeoutCheckers}.
Implicit Type s : NetworkHandler OS.

(** The build options, and the application. *)
Variables big_endian dlr_device label_option OPENER_RT : bool.
Variable instance_cnt : nat.
Variable ApplicationInitialization : DeviceWorld → option (EipStatus * DeviceWorld).

Definition stack_in s : CipStack := stack_of (world (device s)).

Definition host_name s : option (NetworkHandler OS) :=
  g ← load_tcpip (stack_in s);
  name ← GetHostName (hostname g) (os s);
  on_stack (λ c, Some (store_tcpip (set_hostname name g) c)) s.

(** The status is only reported. *)
Definition load_nvdata s : option (NetworkHandler OS) :=
  g ← load_qos (stack_in s);
  '(_, g, o) ← NvdataLoad g (os s);
  on_stack (λ c, Some (store_qos g c)) (set_os o s).

(** With DHCP the address is waited for, without a limit; a failure to read the
    configuration is only reported. *)
Definition configure_network (cycles fuel : nat) (iface : list Z) s : option (NetworkHandler OS) :=
  g ← load_tcpip (stack_in s);
  if config_control g .& kTcpipCfgCtrlMethodMask =? kTcpipCfgCtrlDhcp then
    '(eip_status, o) ← IfaceWaitForIp (λ o, negb (g_end_stack o =? 0)) cycles fuel iface (-1) (os s);
    let s := set_os o s in
    if bool_decide (eip_status = kEipStatusOk) && (g_end_stack (os s) =? 0) then
      '(_, c, o) ← IfaceGetConfiguration fuel iface (interface_configuration g) (os s);
      on_stack (λ k, Some (store_tcpip (set_interface_configuration c g) k)) (set_os o s)
    else Some s
  else Some s.

Definition initialize_connection_list (d : DeviceEncapsulation) : DeviceEncapsulation :=
  let m := Encap.manager d in
  set_manager (mkConnManager DoublyLinkedListInitialize (connection_nodes m) (connection_pool m)
    (closed_sockets m) (io_events m)) d.

Definition number_device (serial : Z) (w : DeviceWorld) : DeviceWorld :=
  set_stack (set_device_identity (SetDeviceSerialNumber serial (g_identity (stack w))) (stack w)) w.

(** Up to the network, if the interface is there. *)
Definition set_up (iface : list Z) (g : Globals) s : option (bool * NetworkHandler OS) :=
  let s := set_device (initialize_connection_list (device s)) s in
  '(eip_status, mac, o) ← IfaceGetMacAddress iface (os s);
  let s := set_os o s in
  match mac with
  | None => Some (false, s)
  | Some iface_mac =>
      let w := number_device 123456789 (world (device s)) in
      let unique_connection_id := u16 (rand (os s)) in
      '(_, w) ← CipStackInit big_endian dlr_device label_option instance_cnt
                  ApplicationInitialization unique_connection_id g w;
      let s := set_device (set_world w (device s)) s in
      s ← on_stack (set_mac instance_cnt iface_mac) s;
      s ← host_name s;
      s ← load_nvdata s;
      Some (true, s)
  end.

(** Until a signal arrives or a cycle fails. *)
Fixpoint executeEventLoop (cycles fuel : nat) s : option (NetworkHandler OS) :=
  if negb (g_end_stack (os s) =? 0) then Some s
  else
    match cycles with
    | O => None
    | S cycles =>
        '(eip_status, s) ← NetworkHandlerProcessCyclic fuel s;
        if bool_decide (eip_status = kEipStatusOk) then executeEventLoop cycles fuel s else Some s
    end.

(** The loop, and for the real-time build the thread it runs in; [false] is an exit because the
    thread could not be created.  The program waits for the thread to end. *)
Definition run_loop (cycles fuel : nat) s : option (bool * NetworkHandler OS) :=
  if OPENER_RT then
    let '(created, o) := create_thread (os s) in
    let s := set_os o s in
    if created : bool then
      s ← executeEventLoop cycles fuel s;
      let '(_, o) := rt_call pthread_join (os s) in
      let '(_, o) := rt_call munlockall o in
      Some (true, set_os o s)
    else Some (false, s)
  else s ← executeEventLoop cycles fuel s; Some (true, s).

(** [false]: the program has exited. *)
Definition run_network (cycles fuel : nat) s : option (bool * NetworkHandler OS) :=
  if g_end_stack (os s) =? 0 then
    '(eip_status, _, s) ← NetworkHandlerInitialize big_endian s;
    if bool_decide (eip_status = kEipStatusOk) then
      '(running, s) ← run_loop cycles fuel s;
      if running : bool then '(_, s) ← NetworkHandlerFinish s; Some (true, s) else Some (false, s)
    else Some (true, s)
  else Some (true, s).

(** The exit code.  [cycles] and [fuel] bound the loops. *)
Definition main (argc : Z) (iface : list Z) (cycles fuel : nat) (g : Globals) s
  : option (Z * NetworkHandler OS) :=
  if negb (argc =? 2) then Some (EXIT_FAILURE, s)
  else
    '(present, s) ← set_up iface g s;
    if negb present then Some (EXIT_FAILURE, s)
    else
      s ← configure_network cycles fuel iface s;
      '(running, s) ← run_network cycles fuel s;
      if negb running then Some (-2, s)
      else
        d ← ShutdownCipStack (device s);
        let s := set_device d s in
        Some (if negb (g_end_stack (os s) =? 0) then RET_SHOW_SIGNAL + g_end_stack (os s)
              else EXIT_SUCCESS, s).
End Main.

(** ** Lemmas: set-up *)

(** The members of the two objects the network start reads are not among those of others. *)
Lemma holds_elsewhere (l : list (nat * CipData)) s s' :
  (∀ a, a ∈ l.*1 → objects s' !! a = objects s !! a) → held l s → held l s'.
Proof.
  intros Ho. unfold held. rewrite !list.Forall_forall. intros Hs x Hx. rewrite Ho; [by apply Hs |].
  apply list_elem_of_fmap. by exists x.
Qed.

Definition mac_entries (cnt : nat) (a : list Z) : list (nat * CipData) :=
  (λ idx, ((link_address idx + 3)%nat, DBytes a)) <$> seq 0 cnt.

Lemma mac_keys cnt a : (mac_entries cnt a).*1 = (λ idx, link_address idx + 3)%nat <$> seq 0 cnt.
Proof. unfold mac_entries. rewrite <-list_fmap_compose. done. Qed.

Lemma mac_key_range cnt a k : k ∈ (mac_entries cnt a).*1 → (403 <= k)%nat.
Proof.
  rewrite mac_keys. intros (idx & -> & _)%list_elem_of_fmap. unfold link_address. lia.
Qed.

Lemma mac_entries_held cnt a s : held (mac_entries cnt a) (store_objects (mac_entries cnt a) s).
Proof.
  apply held_stored. rewrite mac_keys. apply NoDup_fmap_2; [|apply NoDup_seq].
  intros i j. unfold link_address. lia.
Qed.

(** Which addresses the two objects have. *)
Definition tcpip_key (a : nat) : Prop := (301 <= a <= 313)%nat.
Definition qos_key (a : nat) : Prop := (201 <= a <= 208)%nat.

Lemma tcpip_keys g a : a ∈ (tcpip_objects g).*1 → tcpip_key a.
Proof.
  assert (F : Forall tcpip_key (tcpip_objects g).*1).
  { unfold tcpip_objects, tcpip_key, kTcpIpAddress. cbn [fmap list_fmap fst].
    repeat (constructor; [lia |]). constructor. }
  rewrite list.Forall_forall in F. apply F.
Qed.

Lemma qos_keys g a : a ∈ (qos_objects g).*1 → qos_key a.
Proof.
  assert (F : Forall qos_key (qos_objects g).*1).
  { unfold qos_objects, qos_key, kQosAddress. cbn [fmap list_fmap fst].
    repeat (constructor; [lia |]). constructor. }
  rewrite list.Forall_forall in F. apply F.
Qed.

Lemma stored_keeps (l : list (nat * CipData)) s a :
  a ∉ l.*1 → objects (mkStack (classes s) (list_to_map l ∪ objects s)) !! a = objects s !! a.
Proof. apply stored_elsewhere. Qed.

Section SetUp.
Context {OS : Type} `{OperatingSystem OS} `{PosixSystem OS} `{FileSystem OS} `{AssemblyApplication}.
Implicit Type s : NetworkHandler OS.

Lemma mac_length iface o status mac o' :
  IfaceGetMacAddress iface o = Some (status, Some mac, o') → length mac = 6%nat.
Proof.
  unfold IfaceGetMacAddress. destruct (name_fits iface); [|done].
  destruct (open_socket o) as [fd o1]. destruct (SIOCGIFHWADDR fd iface o1) as [[sa|e] o2]; [|done].
  intros (bs & Hl & E)%bind_Some. injection E as _ <- _. by apply load_n_Some in Hl as [Hl _].
Qed.

(** The stack after the application: hardware addresses, host name, stored priorities. *)
Lemma personalized cnt mac name g q q' st o o' s :
  length mac = 6%nat → tcpip_holds g (stack_in s) → qos_holds q (stack_in s) →
  GetHostName (hostname g) (os s) = Some name → NvdataLoad q (os s) = Some (st, q', o') → os s = o →
  ∃ s', (s ← on_stack (set_mac cnt mac) s; s ← host_name s; load_nvdata s) = Some s' ∧
    os s' = o' ∧ tcpip_holds (set_hostname name g) (stack_in s') ∧ qos_holds q' (stack_in s') ∧
    held (mac_entries cnt mac) (stack_in s') ∧ classes (stack_in s') = classes (stack_in s) ∧
    connections (world (device s')) = connections (world (device s)).
Proof.
  intros Hm Hg Hq Hn Hv <-. unfold on_stack at 1, set_mac. rewrite load_n_take by lia.
  rewrite take_ge by lia. cbn [mbind option_bind]. fold (mac_entries cnt mac).
  set (s1 := set_device _ s).
  assert (S1 : stack_in s1 = store_objects (mac_entries cnt mac) (stack_in s)) by done.
  assert (G1 : tcpip_holds g (stack_in s1)).
  { rewrite S1. eapply (holds_elsewhere (tcpip_objects g)); [|exact Hg]. intros a Ha%tcpip_keys. apply stored_keeps.
    intros Hk%mac_key_range. unfold tcpip_key in Ha. lia. }
  assert (Q1 : qos_holds q (stack_in s1)).
  { rewrite S1. eapply (holds_elsewhere (qos_objects q)); [|exact Hq]. intros a Ha%qos_keys. apply stored_keeps.
    intros Hk%mac_key_range. unfold qos_key in Ha. lia. }
  assert (M1 : held (mac_entries cnt mac) (stack_in s1)) by (rewrite S1; apply mac_entries_held).
  unfold host_name. rewrite (tcpip_loaded _ _ G1). cbn [mbind option_bind].
  change (os s1) with (os s). rewrite Hn. cbn [mbind option_bind]. unfold on_stack at 1.
  cbn [mbind option_bind]. set (s2 := set_device _ s1).
  assert (S2 : stack_in s2 = store_tcpip (set_hostname name g) (stack_in s1)) by done.
  assert (Q2 : qos_holds q (stack_in s2)).
  { rewrite S2. eapply (holds_elsewhere (qos_objects q)); [|exact Q1]. intros a Ha%qos_keys. apply stored_keeps.
    intros Hk%tcpip_keys. unfold qos_key, tcpip_key in *. lia. }
  unfold load_nvdata. rewrite (qos_holds_load _ _ Q2). cbn [mbind option_bind].
  change (os s2) with (os s). rewrite Hv. cbn [mbind option_bind]. unfold on_stack. cbn [mbind option_bind].
  eexists. split; [reflexivity |]. set (s3 := set_device _ _).
  assert (S3 : stack_in s3 = store_qos q' (stack_in s2)) by done.
  split; [done |]. rewrite S3. split_and!.
  - apply (holds_elsewhere (tcpip_objects _) (stack_in s2)); [|rewrite S2; apply tcpip_holds_store].
    intros a Ha%tcpip_keys. apply stored_keeps.
    intros Hk%qos_keys. unfold qos_key, tcpip_key in *. lia.
  - apply qos_holds_store.
  - apply (holds_elsewhere _ (stack_in s2)); [|apply (holds_elsewhere _ (stack_in s1)); [|exact M1]].
    + intros a Ha%mac_key_range. apply stored_keeps. intros Hk%qos_keys. unfold qos_key in *. lia.
    + intros a Ha%mac_key_range. rewrite S2. apply stored_keeps. intros Hk%tcpip_keys.
      unfold tcpip_key in *. lia.
  - done.
  - done.
Qed.
End SetUp.

(** ** What the program has when the network is configured *)

Section Boot.
Context {OS : Type} `{OperatingSystem OS} `{PosixSystem OS} `{FileSystem OS} `{AssemblyApplication}.
Variables big dlr label : bool.
Variable cnt : nat.
Implicit Type s : NetworkHandler OS.

(** The world [CipStackInit] is called in. *)
Definition boot_world s : DeviceWorld :=
  number_device 123456789 (world (initialize_connection_list (device s))).

(** C13.  Set-up: if the interface has a hardware address, every object of the stack is
    created, with no connection open.  If the application then starts, without touching the objects of the stack,
    the program goes on to the network, and the TCP/IP object has its default values with
    the host's name, the QoS object those the stored configuration gives, every Ethernet
    port the address of the interface; so the network handler will use the stored priorities
    and the configured addresses. *)
Theorem set_up_ready iface g identity status mac s o1 :
  IfaceGetMacAddress iface (os s) = Some (status, Some mac, o1) →
  classes (stack_in s) = [] →
  named (device_name g)
    (SetDeviceSerialNumber 123456789 (g_identity (stack (world (device s))))) identity →
  (1 <= cnt <= 3)%nat → length (g_ethernet_link0 g) = cnt →
  ∃ w, stack_ready big dlr label cnt (u16 (rand o1)) g identity (boot_world s) w ∧
    connection_list (connections w) = DoublyLinkedListInitialize ∧
    ∀ app w' name st q o2,
      app w = Some (kEipStatusOk, w') →
      (∀ a, (a < 500)%nat → objects (stack_of w') !! a = objects (stack_of w) !! a) →
      GetHostName (hostname (g_tcpip0 g)) o1 = Some name →
      NvdataLoad (g_qos0 g) o1 = Some (st, q, o2) →
      ∃ s' d, set_up big dlr label cnt app iface g s = Some (true, s') ∧ os s' = o2 ∧
        tcpip_holds (set_hostname name (g_tcpip0 g)) (stack_in s') ∧
        qos_holds q (stack_in s') ∧ held (mac_entries cnt mac) (stack_in s') ∧
        classes (stack_in s') = classes (stack_of w') ∧
        connections (world (device s')) = connections w' ∧
        prepare big (device s') = Some (dscp q, d) ∧
        prepared_device big (set_hostname name (g_tcpip0 g)) (device s') d.
Proof.
  intros Hm Hk Hn Hc Hl.
  destruct (stack_initialized big dlr label cnt (u16 (rand o1)) g identity (boot_world s))
    as (w & R & I); [done | done | done | done |].
  exists w. split; [exact R |]. split; [by rewrite (proj1 (ready_connections _ _ _ _ _ _ _ _ _ R)) |].
  intros app w' name st q o2 Ha Ho Hh Hv.
  set (s1 := set_device (set_world w' (device (set_os o1 (set_device
    (initialize_connection_list (device s)) s)))) (set_os o1 (set_device
    (initialize_connection_list (device s)) s))).
  assert (G1 : tcpip_holds (g_tcpip0 g) (stack_in s1)).
  { apply (holds_elsewhere (tcpip_objects _) (stack_of w)); [|apply (ready_tcpip _ _ _ _ _ _ _ _ _ R)].
    intros a Ha'%tcpip_keys. apply Ho. unfold tcpip_key in Ha'. lia. }
  assert (Q1 : qos_holds (g_qos0 g) (stack_in s1)).
  { destruct (ready_qos _ _ _ _ _ _ _ _ _ R) as (i & c & _ & _ & Hq).
    apply (holds_elsewhere (qos_objects _) (stack_of w)); [|done].
    intros a Ha'%qos_keys. apply Ho. unfold qos_key in Ha'. lia. }
  destruct (personalized cnt mac name (g_tcpip0 g) (g_qos0 g) q st o1 o2 s1
    (mac_length _ _ _ _ _ Hm) G1 Q1 Hh Hv eq_refl) as (s' & E & O & G & Q & M & C & K).
  destruct (prepare_spec big (set_hostname name (g_tcpip0 g)) q (device s') G Q) as (d & P & D).
  exists s', d. split; [|done]. unfold set_up. cbn [os set_device]. rewrite Hm. cbn [mbind option_bind].
  fold (boot_world s). change (os (set_os o1 _)) with o1.
  change (number_device 123456789 _) with (boot_world s). rewrite I, Ha. cbn [mbind option_bind].
  rewrite bool_decide_eq_true_2 by done. cbn [mbind option_bind].
  fold s1. revert E. generalize (on_stack (set_mac cnt mac) s1). intros [s2|]; [|done]. cbn [mbind option_bind].
  destruct (host_name s2) as [s3|]; [|done]. cbn [mbind option_bind]. by intros ->.
Qed.
End Boot.

(** ** The event loop *)

Section Loop.
Context {OS : Type} `{OperatingSystem OS} `{SocketCalls OS} `{Signals OS} `{IoPlatform}.
Context `{AssemblyApplication} `{RunIdleApplication} `{Application} `{TimeoutCheckers}.
Variable fuel : nat.
Implicit Type s : NetworkHandler OS.

(** One turn of the loop: no signal has arrived, and the cycle succeeds. *)
Definition turn s s' : Prop :=
  g_end_stack (os s) = 0 ∧ NetworkHandlerProcessCyclic fuel s = Some (kEipStatusOk, s').

(** The loop is left at a signal, or by a cycle that fails. *)
Inductive leaves s : NetworkHandler OS → Prop :=
| leaves_signal : g_end_stack (os s) ≠ 0 → leaves s s
| leaves_error status s' :
    g_end_stack (os s) = 0 → NetworkHandlerProcessCyclic fuel s = Some (status, s') →
    status ≠ kEipStatusOk → leaves s s'.

Lemma turns_sockets n s s' : nsteps turn n s s' → sockets_ok s → sockets_ok s'.
Proof.
  induction 1 as [|n s s1 s2 [_ T] _ IH]; [done |]. intros Hs. by eapply IH, cycle_sockets.
Qed.

Lemma loop_step cycles s : g_end_stack (os s) = 0 →
  executeEventLoop (S cycles) fuel s
  = ('(eip_status, s) ← NetworkHandlerProcessCyclic fuel s;
     if bool_decide (eip_status = kEipStatusOk) then executeEventLoop cycles fuel s else Some s).
Proof. intros E. cbn [executeEventLoop]. by rewrite E. Qed.

Lemma loop_runs cycles s s' :
  executeEventLoop cycles fuel s = Some s' →
  ∃ n s1, (n <= cycles)%nat ∧ nsteps turn n s s1 ∧ leaves s1 s'.
Proof.
  revert s. induction cycles as [|cycles IH]; intros s.
  - cbn [executeEventLoop]. destruct (Z.eqb_spec (g_end_stack (os s)) 0) as [|Hn]; [done |].
    intros [= <-]. exists 0%nat, s. split; [done |]. split; [constructor | by constructor].
  - destruct (Z.eqb_spec (g_end_stack (os s)) 0) as [E|Hn].
    + rewrite loop_step by done. intros ([status s2] & C & L)%bind_Some. case_bool_decide as Hs.
      * subst status. destruct (IH _ L) as (n & s1 & Hc & R & X). exists (S n), s1.
        split; [lia |]. split; [|done]. by econstructor.
      * injection L as <-. exists 0%nat, s. split; [lia |]. split; [constructor |].
        by eapply leaves_error.
    + cbn [executeEventLoop]. rewrite (proj2 (Z.eqb_neq _ _) Hn). intros [= <-].
      exists 0%nat, s. split; [lia |]. split; [constructor | by constructor].
Qed.

Lemma loop_leaves s s' cycles : (1 <= cycles)%nat → leaves s s' → executeEventLoop cycles fuel s = Some s'.
Proof.
  intros Hc X. destruct cycles as [|cycles]; [lia |]. destruct X as [Hn|status s' E C Hs].
  - cbn [executeEventLoop]. by rewrite (proj2 (Z.eqb_neq _ _) Hn).
  - rewrite loop_step, C by done. cbn [mbind option_bind]. by rewrite bool_decide_eq_false_2.
Qed.

Lemma loop_turns n s s1 s' cycles :
  nsteps turn n s s1 → leaves s1 s' → (n < cycles)%nat → executeEventLoop cycles fuel s = Some s'.
Proof.
  intros R. revert cycles. induction R as [s|n s s2 s1 [E C] R IH]; intros cycles X Hc.
  { by apply loop_leaves. }
  destruct cycles as [|cycles]; [lia |]. rewrite loop_step, C by done. cbn [mbind option_bind].
  rewrite bool_decide_eq_true_2 by done. apply IH; [done | lia].
Qed.

(** The loop is this transition system: the number of turns is all that bounds it. *)
Lemma event_loop_runs s s' :
  (∃ cycles, executeEventLoop cycles fuel s = Some s') ↔ (∃ n s1, nsteps turn n s s1 ∧ leaves s1 s').
Proof.
  split.
  - intros [cycles E]. destruct (loop_runs _ _ _ E) as (n & s1 & _ & R & X). by exists n, s1.
  - intros (n & s1 & R & X). exists (S n). exact (loop_turns n s s1 s' (S n) R X ltac:(lia)).
Qed.

(** Turns of the loop, with all the times that the connection manager and the time-out checkers are
    given in them. *)
Inductive turn_times : nat → list Z → NetworkHandler OS → NetworkHandler OS → Prop :=
| no_turn s : turn_times 0 [] s s
| next_turn n l l' s s1 s2 :
    turn s s1 → cycle_time fuel s s1 l → turn_times n l' s1 s2 → turn_times (S n) (l ++ l') s s2.

(** The clock does not run backwards: its readings in the turns from [s] on. *)
Definition clock_forward s : Prop :=
  ∀ n s1 s2, nsteps turn n s s1 → turn s1 s2 → g_last_time s1 <= g_last_time s2 < 2 ^ 63.

(** The clock followed through the turns, of which there are fewer than [k]. *)
Fixpoint clock_followed (k : nat) s : bool :=
  match k with
  | O => false
  | S k =>
      if g_end_stack (os s) =? 0 then
        match NetworkHandlerProcessCyclic fuel s with
        | Some (status, s1) =>
            if bool_decide (status = kEipStatusOk)
            then (g_last_time s <=? g_last_time s1) && (g_last_time s1 <? 2 ^ 63) && clock_followed k s1
            else true
        | None => true
        end
      else true
  end.

Lemma clock_followed_forward k s : clock_followed k s = true → clock_forward s.
Proof.
  intros F n s1 s2 R. revert k F. induction R as [s|n s s3 s1 [G C] R IH]; intros k F T;
    (destruct k as [|k]; [done |]); cbn [clock_followed] in F.
  - destruct T as [G C]. rewrite G, C, Z.eqb_refl, bool_decide_eq_true_2 in F by done. lia.
  - rewrite G, C, Z.eqb_refl, bool_decide_eq_true_2 in F by done.
    apply andb_prop in F as [_ F]. by eapply IH.
Qed.

Lemma turns_give n s s' :
  nsteps turn n s s' → clock_forward s → 0 <= g_last_time s → 0 <= elapsed_time s < 10 →
  ∃ l, turn_times n l s s' ∧ Forall (Z.le 10) l ∧ 0 <= elapsed_time s' < 10 ∧
    total_time l + elapsed_time s' = elapsed_time s + (g_last_time s' - g_last_time s).
Proof.
  induction 1 as [s|n s s1 s2 T R IH]; intros Hc Hl He.
  { exists []. split; [constructor |]. split; [constructor |]. cbn [total_time foldr]. lia. }
  pose proof (Hc 0%nat s s1 ltac:(constructor) T) as C1.
  destruct (cycle_gives fuel s kEipStatusOk s1 (proj2 T) eq_refl) as (l & G & F & B & E); [lia .. |].
  destruct IH as (l' & G' & F' & B' & E').
  { intros k a b Ha Hb. apply (Hc (S k) a b); [by econstructor | done]. } { lia. } { lia. }
  exists (l ++ l'). split; [by eapply next_turn |]. split; [by apply Forall_app |]. split; [done |].
  rewrite total_time_app. lia.
Qed.

Lemma ticks_bound l : Forall (Z.le 10) l → 10 * Z.of_nat (length l) <= total_time l.
Proof. induction 1 as [|x l Hx _ IH]; cbn [length total_time foldr] in *; [done | fold total_time in *; lia]. Qed.

(** C15.  Over the whole event loop no time is lost and none is counted twice.  When the loop
    ends, at a signal or a cycle that fails, the times the connection manager and the time-out
    checkers were given in its turns, with the rest that is carried over, add up to the time
    the clock has advanced since the last reading before the loop, and what was carried over
    then.  Each of these times is at least a tick of 10 milliseconds, so the manager is called
    at most once per 10 milliseconds of the whole run, and the rest is below a tick.  The clock
    may jump, but its readings must not run backwards. *)
Theorem event_loop_keeps_time cycles s s' :
  executeEventLoop cycles fuel s = Some s' →
  clock_forward s → 0 <= g_last_time s → 0 <= elapsed_time s < 10 →
  ∃ n l s1, (n <= cycles)%nat ∧ turn_times n l s s1 ∧ leaves s1 s' ∧ device s' = device s1 ∧
    total_time l + elapsed_time s' = elapsed_time s + (g_last_time s' - g_last_time s) ∧
    Forall (Z.le 10) l ∧ 0 <= elapsed_time s' < 10 ∧
    10 * Z.of_nat (length l) <= elapsed_time s + (g_last_time s' - g_last_time s).
Proof.
  intros E Hc Hl He. destruct (loop_runs _ _ _ E) as (n & s1 & Hn & R & X).
  destruct (turns_give n s s1 R Hc Hl He) as (l & G & F & B & Et). exists n, l, s1.
  assert (U : g_last_time s' = g_last_time s1 ∧ elapsed_time s' = elapsed_time s1 ∧ device s' = device s1).
  { destruct X as [|status s' _ C Hs]; [done | by eapply failed_cycle]. }
  destruct U as (U1 & U2 & U3). rewrite U1, U2. pose proof (ticks_bound l F). split_and!; try done; lia.
Qed.
End Loop.

(** ** Signals and the exit code *)

Definition closing (signal : Z) : Prop := signal = SIGHUP ∨ signal = SIGINT.
#[export] Instance closing_decision signal : Decision (closing signal).
Proof. unfold closing. apply _. Defined.

Lemma leave_stack_closing g signal :
  LeaveStack g signal = if decide (closing signal) then signal else g.
Proof.
  unfold LeaveStack, closing.
  destruct (Z.eqb_spec SIGHUP signal), (Z.eqb_spec SIGINT signal); cbn [orb];
    destruct (decide _); intuition congruence.
Qed.

(** The last of them counts. *)
Lemma g_end_stack_last {OS} `{Signals OS} (o : OS) :
  g_end_stack o = default 0 (last (filter closing (signals o))).
Proof.
  unfold g_end_stack. induction (signals o) as [|x l IH] using rev_ind; [done |].
  rewrite foldl_snoc, leave_stack_closing, filter_app, filter_cons, filter_nil. destruct (decide _) as [Hc|Hc].
  - by rewrite last_snoc.
  - by rewrite (right_id_L [] (++)).
Qed.

Section ExitCode.
Context {OS : Type} `{OperatingSystem OS} `{SocketCalls OS} `{PosixSystem OS} `{FileSystem OS}.
Context `{Signals OS} `{IoPlatform} `{AssemblyApplication} `{RunIdleApplication} `{Application}.
Context `{TimeoutCheckers} `{RealTime OS}.
Variables big dlr label rt : bool.
Variable cnt : nat.
Variable app : DeviceWorld → option (EipStatus * DeviceWorld).
Implicit Type s : NetworkHandler OS.

Lemma set_up_interface iface g s present s' :
  set_up big dlr label cnt app iface g s = Some (present, s') →
  ∃ status mac o, IfaceGetMacAddress iface (os s) = Some (status, mac, o) ∧
    present = (if mac is Some _ then true else false).
Proof.
  unfold set_up. intros ([[status mac] o] & E & L)%bind_Some. exists status, mac, o. split; [exact E |].
  destruct mac as [mac|]; [|by injection L as <- _].
  apply bind_Some in L as ([? w] & _ & L). apply bind_Some in L as (s1 & _ & L).
  apply bind_Some in L as (s2 & _ & L). apply bind_Some in L as (s3 & _ & L). by injection L as <- _.
Qed.

(** *** The thread of the real-time build *)

(** What the program asks for, in this order, before the thread runs. *)
Definition thread_calls : list RealTimeCall :=
  [mlockall; pthread_attr_init; pthread_attr_setstacksize; pthread_attr_setschedpolicy;
   pthread_attr_setschedparam; pthread_attr_setinheritsched; pthread_create].

(** The calls [l] are made, each with success: [mlockall] is one unless it returns -1, the others
    return 0. *)
Inductive succeed : list RealTimeCall → OS → OS → Prop :=
| succeed_none o : succeed [] o o
| succeed_next c l ret o o1 o2 :
    rt_call c o = (ret, o1) → (if c is mlockall then ret ≠ -1 else ret = 0) →
    succeed l o1 o2 → succeed (c :: l) o o2.

(** The first calls succeed, the next one fails and is the last one. *)
Definition first_failure (calls : list RealTimeCall) (o o' : OS) : Prop :=
  ∃ l c l' o1 ret, calls = l ++ c :: l' ∧ succeed l o o1 ∧ rt_call c o1 = (ret, o') ∧
    (if c is mlockall then ret = -1 else ret ≠ 0).

Lemma rt_failed_spec c ret :
  if rt_failed c ret then (if c is mlockall then ret = -1 else ret ≠ 0)
  else (if c is mlockall then ret ≠ -1 else ret = 0).
Proof. destruct c; cbn [rt_failed]; by repeat case_match; lia. Qed.

Lemma rt_calls_spec l o : let '(b, o') := rt_calls l o in
  if b : bool then succeed l o o' else first_failure l o o'.
Proof.
  revert o. induction l as [|c l IH]; intros o; cbn [rt_calls]; [constructor |].
  destruct (rt_call c o) as [ret o1] eqn:E. pose proof (rt_failed_spec c ret) as F.
  destruct (rt_failed c ret).
  - exists [], c, l, o, ret. split_and!; [done | constructor | done | done].
  - specialize (IH o1). destruct (rt_calls l o1) as [[] o2]; [by eapply succeed_next |].
    destruct IH as (l1 & x & l2 & o3 & r & -> & S & R). exists (c :: l1), x, l2, o3, r.
    split; [done |]. split; [by eapply succeed_next | done].
Qed.

Lemma succeed_run l o o' : succeed l o o' → ∀ l', rt_calls (l ++ l') o = rt_calls l' o'.
Proof.
  induction 1 as [|c l ret o o1 o2 E S _ IH]; intros l'; [done |]. cbn [Datatypes.app rt_calls]. rewrite E.
  pose proof (rt_failed_spec c ret) as F. destruct (rt_failed c ret); [by destruct c | apply IH].
Qed.

Lemma failure_run calls o o' : first_failure calls o o' → rt_calls calls o = (false, o').
Proof.
  intros (l & c & l' & o1 & ret & -> & S & E & F). rewrite (succeed_run _ _ _ S). cbn [rt_calls].
  rewrite E. pose proof (rt_failed_spec c ret) as G. destruct (rt_failed c ret); [done | by destruct c].
Qed.

(** *** The end of the program *)

(** The last SIGHUP or SIGINT counts. *)
Definition exit_code (o : OS) : Z :=
  match last (filter closing (signals o)) with Some signal => 200 + signal | None => 0 end.

Lemma exit_code_eq o :
  (if negb (g_end_stack o =? 0) then RET_SHOW_SIGNAL + g_end_stack o else EXIT_SUCCESS) = exit_code o.
Proof.
  rewrite g_end_stack_last. unfold exit_code. destruct (last _) as [x|] eqn:L; cbn [default]; [|done].
  assert (Hx : closing x).
  { apply last_Some_elem_of, list_elem_of_filter in L. tauto. }
  by destruct Hx as [-> | ->].
Qed.

Lemma exit_code_values o : exit_code o = 0 ∨ exit_code o = 201 ∨ exit_code o = 202.
Proof.
  unfold exit_code. destruct (last _) as [x|] eqn:L; [right | by left].
  apply last_Some_elem_of, list_elem_of_filter in L as [[-> | ->] _]; auto.
Qed.

(** The interface is there, and the network configured. *)
Definition configured cycles fuel iface g s s' : Prop :=
  ∃ s1, set_up big dlr label cnt app iface g s = Some (true, s1) ∧
    configure_network cycles fuel iface s1 = Some s'.

(** The real-time build has its sockets but cannot get its thread: one of the calls fails. *)
Definition no_thread s s' : Prop :=
  rt = true ∧ g_end_stack (os s) = 0 ∧ ∃ q s1 o,
    NetworkHandlerInitialize big s = Some (kEipStatusOk, q, s1) ∧
    first_failure thread_calls (os s1) o ∧ s' = set_os o s1.

(** The state in which the loop starts, and the one the program goes on with after it. *)
Definition loop_started s s' : Prop :=
  if rt then ∃ o, succeed thread_calls (os s) o ∧ s' = set_os o s else s' = s.
Definition loop_joined s : NetworkHandler OS :=
  if rt then set_os (rt_call munlockall (rt_call pthread_join (os s)).2).2 s else s.

(** The network part ends with [s'], before the shutdown: a signal has arrived before it, the
    sockets cannot be opened, or the loop is left after [n] turns. *)
Inductive network_ended fuel s : nat → NetworkHandler OS → Prop :=
| ended_before : g_end_stack (os s) ≠ 0 → network_ended fuel s 0 s
| ended_unopened status q s1 :
    g_end_stack (os s) = 0 → NetworkHandlerInitialize big s = Some (status, q, s1) →
    status ≠ kEipStatusOk → network_ended fuel s 0 s1
| ended_loop q s1 s2 n s3 s4 status s5 :
    g_end_stack (os s) = 0 → NetworkHandlerInitialize big s = Some (kEipStatusOk, q, s1) →
    loop_started s1 s2 → nsteps (turn fuel) n s2 s3 → leaves fuel s3 s4 →
    NetworkHandlerFinish (loop_joined s4) = Some (status, s5) → network_ended fuel s n s5.

Lemma run_loop_refused cycles fuel s o :
  rt = true → first_failure thread_calls (os s) o →
  run_loop rt cycles fuel s = Some (false, set_os o s).
Proof.
  intros Hr F. unfold run_loop, create_thread. fold thread_calls. by rewrite Hr, (failure_run _ _ _ F).
Qed.

Lemma run_loop_left cycles fuel s s1 n s2 s3 :
  loop_started s s1 → nsteps (turn fuel) n s1 s2 → leaves fuel s2 s3 → (n < cycles)%nat →
  run_loop rt cycles fuel s = Some (true, loop_joined s3).
Proof.
  unfold loop_started, loop_joined, run_loop, create_thread. intros L R X Hn.
  pose proof (loop_turns fuel n s1 s2 s3 cycles R X Hn) as E. destruct rt; [|by rewrite <-L, E].
  destruct L as (o & S & ->). pose proof (succeed_run _ _ _ S []) as C.
  rewrite (right_id_L [] (++)) in C. fold thread_calls. rewrite C. cbn [rt_calls]. rewrite E.
  cbn [mbind option_bind]. destruct (rt_call pthread_join (os s3)) as [r o1]. cbn [snd].
  by destruct (rt_call munlockall o1).
Qed.

Lemma run_loop_cases cycles fuel s running s' :
  run_loop rt cycles fuel s = Some (running, s') →
  if running then ∃ s1 n s2 s3, loop_started s s1 ∧ nsteps (turn fuel) n s1 s2 ∧ leaves fuel s2 s3 ∧
    (n <= cycles)%nat ∧ s' = loop_joined s3
  else rt = true ∧ ∃ o, first_failure thread_calls (os s) o ∧ s' = set_os o s.
Proof.
  unfold loop_started, loop_joined, run_loop, create_thread. fold thread_calls. destruct rt.
  - pose proof (rt_calls_spec thread_calls (os s)) as C. destruct (rt_calls _ _) as [[] o].
    + intros (s3 & E & L)%bind_Some. destruct (loop_runs _ _ _ _ E) as (n & s2 & Hn & R & X).
      destruct (rt_call pthread_join (os s3)) as [r o1] eqn:J. destruct (rt_call munlockall o1) as [r' o2] eqn:U.
      injection L as <- <-. exists (set_os o s), n, s2, s3. split; [by exists o |]. split_and!; try done.
      rewrite J. cbn [snd]. by rewrite U.
    + intros [= <- <-]. split; [done |]. by exists o.
  - intros (s3 & E & [= <- <-])%bind_Some. destruct (loop_runs _ _ _ _ E) as (n & s2 & Hn & R & X).
    by exists s, n, s2, s3.
Qed.

Lemma run_network_ended cycles fuel s n s' :
  network_ended fuel s n s' → (n < cycles)%nat → run_network big rt cycles fuel s = Some (true, s').
Proof.
  intros X Hn. unfold run_network.
  destruct X as [G|status q s1 G I Hs|q s1 s2 n s3 s4 status s5 G I L R X F].
  - by rewrite (proj2 (Z.eqb_neq _ _) G).
  - rewrite G, Z.eqb_refl, I. cbn [mbind option_bind]. by rewrite bool_decide_eq_false_2.
  - rewrite G, Z.eqb_refl, I. cbn [mbind option_bind]. rewrite bool_decide_eq_true_2 by done.
    rewrite (run_loop_left _ _ _ _ _ _ _ L R X Hn). cbn [mbind option_bind]. by rewrite F.
Qed.

Lemma run_network_refused cycles fuel s s' :
  no_thread s s' → run_network big rt cycles fuel s = Some (false, s').
Proof.
  intros (Hr & G & q & s1 & o & I & F & ->). unfold run_network. rewrite G, Z.eqb_refl, I.
  cbn [mbind option_bind]. rewrite bool_decide_eq_true_2 by done.
  by rewrite (run_loop_refused _ _ _ o Hr F).
Qed.

Lemma run_network_cases cycles fuel s running s' :
  run_network big rt cycles fuel s = Some (running, s') →
  if running then ∃ n, (n <= cycles)%nat ∧ network_ended fuel s n s' else no_thread s s'.
Proof.
  unfold run_network. destruct (Z.eqb_spec (g_end_stack (os s)) 0) as [G|G].
  - intros ([[status q] s1] & I & E)%bind_Some. case_bool_decide as Hs.
    + subst status. apply bind_Some in E as ([going s2] & L & E).
      apply run_loop_cases in L. destruct going.
      * apply bind_Some in E as ([status s5] & F & [= <- <-]).
        destruct L as (s3 & n & s4 & s6 & L & R & X & Hn & ->). exists n. split; [done |]. by eapply ended_loop.
      * injection E as <- <-. destruct L as (Hr & o & F & ->). split; [done |]. split; [done |].
        by exists q, s1, o.
    + injection E as <- <-. exists 0%nat. split; [lia |]. by eapply ended_unopened.
  - intros [= <- <-]. exists 0%nat. split; [lia |]. by apply ended_before.
Qed.

Lemma main_configured cycles fuel iface g s s2 :
  configured cycles fuel iface g s s2 →
  main big dlr label rt cnt app 2 iface cycles fuel g s
  = ('(running, s) ← run_network big rt cycles fuel s2;
     if negb running then Some (-2, s)
     else d ← ShutdownCipStack (device s); Some (exit_code (os s), set_device d s)).
Proof.
  intros (s1 & U & C). unfold main. cbn [negb Z.eqb Pos.eqb]. rewrite U. cbn [mbind option_bind negb].
  rewrite C. cbn [mbind option_bind]. destruct (run_network big rt cycles fuel s2) as [[[] s3]|]; [|done..].
  cbn [mbind option_bind negb]. destruct (ShutdownCipStack (device s3)) as [d|]; [|done].
  cbn [mbind option_bind os set_device]. by rewrite exit_code_eq.
Qed.

(** C28.  The exit code.  It is 1, without touching anything, when there is not exactly one argument,
    and 1 when the interface has no hardware address.  After set-up and configuration of the network
    it is -2 exactly when the real-time build, with its sockets open and no signal so far, cannot
    get its thread because one of the seven calls for it fails; the calls after that one are
    not made.  In every other case, be it that a signal came before the sockets, that they cannot
    be opened, or that the loop is left, the stack is shut down and the code is 0 if no closing
    signal arrived, and 200 plus the last SIGHUP or SIGINT if one did.  The first clauses are
    total: the program ends, where the network part does and the shutdown is defined.  The last
    says that there is no other end. *)
Theorem main_exit_code argc iface cycles fuel g s :
  (argc ≠ 2 → main big dlr label rt cnt app argc iface cycles fuel g s = Some (1, s)) ∧
  (∀ status o, IfaceGetMacAddress iface (os s) = Some (status, None, o) →
     ∃ s', main big dlr label rt cnt app argc iface cycles fuel g s = Some (1, s')) ∧
  (∀ s2, argc = 2 → configured cycles fuel iface g s s2 →
     (∀ s3, no_thread s2 s3 →
        main big dlr label rt cnt app argc iface cycles fuel g s = Some (-2, s3)) ∧
     (∀ n s3 d, network_ended fuel s2 n s3 → (n < cycles)%nat → ShutdownCipStack (device s3) = Some d →
        main big dlr label rt cnt app argc iface cycles fuel g s
        = Some (exit_code (os s3), set_device d s3)) ∧
     (∀ code s', main big dlr label rt cnt app argc iface cycles fuel g s = Some (code, s') →
        (code = -2 ↔ ∃ s3, no_thread s2 s3) ∧
        (code ≠ -2 → code = exit_code (os s') ∧ ∃ n s3 d, network_ended fuel s2 n s3 ∧
           ShutdownCipStack (device s3) = Some d ∧ s' = set_device d s3))).
Proof.
  split; [|split].
  - intros Ha. unfold main. by rewrite (proj2 (Z.eqb_neq _ _) Ha).
  - intros status o E. unfold main. destruct (argc =? 2); cbn [negb]; [|by eexists].
    unfold set_up. cbn [os set_device]. rewrite E. by eexists.
  - intros s2 -> C. rewrite (main_configured _ _ _ _ _ _ C). split; [|split].
    + intros s3 X. by rewrite (run_network_refused cycles fuel s2 s3 X).
    + intros n s3 d X Hn D. rewrite (run_network_ended cycles fuel s2 n s3 X Hn).
      cbn [mbind option_bind negb]. by rewrite D.
    + intros code s' ([running s3] & R & M)%bind_Some. pose proof R as X. apply run_network_cases in X.
      destruct running; cbn [negb] in M.
      * apply bind_Some in M as (d & D & [= <- <-]). split; [split|].
        -- pose proof (exit_code_values (os s3)). lia.
        -- intros (s4 & N). apply (run_network_refused cycles fuel) in N. by rewrite N in R.
        -- destruct X as (n & _ & X). intros _. split; [done |]. by exists n, s3, d.
      * injection M as <- <-. split; [split; [by exists s3 | done] | done].
Qed.
End ExitCode.

(** ** From the sockets to the end of the loop *)

Section Run.
Context {OS : Type} `{OperatingSystem OS} `{SocketCalls OS} `{Signals OS} `{IoPlatform}.
Context `{AssemblyApplication} `{RunIdleApplication} `{Application} `{TimeoutCheckers} `{RealTime OS}.
Context (view : OS → gmap Z SocketState) (doc : documented view).
Variable fuel : nat.
Implicit Type s : NetworkHandler OS.

(** The network part of the program, started before any signal: the sockets are opened
    with the values of the TCP/IP and QoS objects; if that fails the program goes on to its shutdown
    without a cycle and with no socket in the set; otherwise the loop starts with the three
    sockets, serves all sockets in every cycle, and when it ends the listening sockets
    are closed. *)
Theorem run_network_ends big g q s :
  g_end_stack (os s) = 0 → tcpip_holds g (stack_in s) → qos_holds q (stack_in s) →
  ∃ status s1, NetworkHandlerInitialize big s = Some (status, dscp q, s1) ∧
    ((status = kEipStatusError ∧ master_socket s1 = ∅ ∧
      ∀ cycles, run_network big false cycles fuel s = Some (true, s1)) ∨
     (status = kEipStatusOk ∧ sockets_ok s1 ∧
      ∀ n s2 s3, nsteps (turn fuel) n s1 s2 → leaves fuel s2 s3 →
        sockets_ok s2 ∧
        ∀ cycles, (n < cycles)%nat →
          run_network big false cycles fuel s = ('(_, s4) ← NetworkHandlerFinish s3; Some (true, s4)))).
Proof.
  intros Hend Hg Hq. destruct (network_started view doc big g q s Hg Hq) as (status & s1 & E & _ & R).
  exists status, s1. split; [exact E |]. unfold run_network. rewrite Hend, Z.eqb_refl, E.
  cbn [mbind option_bind]. destruct R as [[-> M]|(-> & _ & _ & _ & _ & O & _)].
  - left. split; [done |]. split; [done |]. intros cycles. by rewrite bool_decide_eq_false_2.
  - right. split; [done |]. split; [exact O |]. intros n s2 s3 T X. split; [by eapply turns_sockets |].
    intros cycles Hc. rewrite bool_decide_eq_true_2 by done.
    unfold run_loop. by rewrite (loop_turns fuel n s1 s2 s3 cycles T X Hc).
Qed.
End Run.

(** ** A whole run *)

(** The sockets of the host, and how often the program has waited for them; the third
    time there is an interrupt from the keyboard. *)
Definition Host : Type := gmap Z SocketState * nat.

Definition host_os : OperatingSystem Host := {|
  recv := λ _ _ o, (WouldBlock, o);
  recvfrom := λ _ _ o, (WouldBlock, mkSockAddr 0 0, o);
  send := λ _ _ o, o;
  sendto := λ _ _ _ o, o;
  accept := λ _ o, (-1, o);
  select := λ _ _ _ o, ((if (o.2 <? 2)%nat then Ready 0 ∅ else Interrupted), (o.1, S o.2));
  getpeername := λ _ _, mkSockAddr 0 0;
  GetMilliSeconds := λ o, (1000 + 7 * Z.of_nat o.2, o);
  NetHandler.rand := λ _, 0x12345 |}.

Definition host_calls : SocketCalls Host := {|
  system_call := λ c o, let '(r, m) := @system_call _ table_calls c o.1 in (r, (m, o.2));
  GetSocketErrorNumber := λ _, 0;
  O_NONBLOCK := 2048 |}.

Definition host_system : PosixSystem Host := {|
  open_socket o := (3, o);
  close_socket _ o := o;
  SIOCGIFHWADDR _ name o := (if bool_decide (name = [101; 116; 104; 49]) then inl (replicate 14 1) else inr 19, o);
  SIOCGIFADDR _ _ o := (inl 0x0501A8C0, o);
  SIOCGIFNETMASK _ _ o := (inl 0x00FFFFFF, o);
  read_text _ o := (None, o);
  complete _ _ := true;
  nanosleep _ o := (Slept, o);
  gethostname _ := Some [104; 0];
  inet_pton _ := None;
  EADDRNOTAVAIL := 99;
  ulong_bits := 64 |}.

Definition empty_disk : FileSystem Host := {|
  mkdir := λ _ fs, fs;
  fopen_read := λ _ _, None;
  fopen_write := λ _ _, None;
  fprintf := λ _ _ fs, (false, fs);
  fclose := λ _ fs, (true, fs) |}.

Definition host_signals : Signals Host := {| signals o := if (o.2 <? 3)%nat then [17] else [17; SIGINT] |}.

Definition switched_off : NetworkHandler Host :=
  mkNetworkHandler (∅, 0%nat)
    (mkEncap (replicate 20 kEipInvalidSocket) (replicate 20 (mkSocketTimer kEipInvalidSocket 0)) 0 []
       zero_service_information [] cold_device)
    ∅ ∅ 0 kEipInvalidSocket 0 0 0 0 0 (replicate OPENER_TIMEOUT_CHECKER_ARRAY_SIZE None).

(** A host on which the last of the calls for a thread gives [ret]. *)
Definition threads (ret : Z) : RealTime Host := {|
  rt_call c o := (match c with pthread_create => ret | _ => 0 end, o) |}.

Definition sample_run (rt : bool) (ret argc : Z) (iface : list Z) : option (Z * NetworkHandler Host) :=
  @main _ host_os host_calls host_system empty_disk host_signals (threads ret) example_platform
    sample_callbacks sample_application no_application no_checkers false false false rt 1
    ApplicationInitialization argc iface 10 100 sample_globals switched_off.

(** Started without an argument, and with an interface that is not there; in the real-time
    build without and with a thread; then on the interface: three sockets are opened, the loop turns until the interrupt, the sockets are closed. *)
Lemma sample_runs :
  fst <$> sample_run false 0 1 [] = Some 1 ∧
  fst <$> sample_run false 0 2 [108; 111] = Some 1 ∧
  fst <$> sample_run true 11 2 [101; 116; 104; 49] = Some (-2) ∧
  fst <$> sample_run true 0 2 [101; 116; 104; 49] = Some 202 ∧
  (λ x, (x.1, closings (device x.2), (os x.2).2, g_last_time x.2, elapsed_time x.2)) <$>
    sample_run false 0 2 [101; 116; 104; 49] = Some (202, [4; 5; 3], 3%nat, 1014, 0).
Proof. vm_compute. split_and!; reflexivity. Qed.

Lemma set_up_ready_witness :
  ∃ (w : DeviceWorld) s', @set_up _ host_os host_system empty_disk false false false 1
      (λ w, Some (kEipStatusOk, w)) [101; 116; 104; 49] sample_globals switched_off
    = Some (true, s') ∧
    connections (world (device s')) = connections w ∧
    tcpip_holds (set_hostname (mkString 1 (Some [104])) (g_tcpip false)) (stack_in s') ∧
    objects (stack_in s') !! 403%nat = Some (DBytes [1; 1; 1; 1; 1; 1]).
Proof.
  destruct (@set_up_ready _ host_os host_system empty_disk sample_callbacks false false false 1
    [101; 116; 104; 49] sample_globals sample_identity kEipStatusOk [1; 1; 1; 1; 1; 1] switched_off
    (∅, 0%nat)) as (w & _ & _ & R).
  - vm_compute. reflexivity.
  - reflexivity.
  - vm_compute. reflexivity.
  - lia.
  - reflexivity.
  - destruct (R (λ w, Some (kEipStatusOk, w)) w (mkString 1 (Some [104])) kEipStatusError default_qos (∅, 0%nat))
      as (s' & d & E & _ & G & _ & M & _ & C & _).
    + reflexivity.
    + intros a _. reflexivity.
    + vm_compute. reflexivity.
    + vm_compute. reflexivity.
    + exists w, s'. split; [exact E |]. split; [exact C |]. split; [exact G |].
      unfold held in M. apply list.Forall_cons in M as [M _]. exact M.
Defined.

Lemma host_documented : @documented _ host_calls host_os fst.
Proof.
  split; try done.
  - intros c [m n]. exact (call_result _ table_documented c m).
  - intros k [m n]. exact (socket_fresh _ table_documented k m).
Qed.

(** With its objects in place, the program goes on to the network. *)
Definition set_up_host : NetworkHandler Host :=
  set_device (device unopened) switched_off.

Lemma run_network_ends_witness :
  ∃ s1, @NetworkHandlerInitialize _ host_os host_calls false set_up_host
      = Some (kEipStatusOk, kDefaultValues, s1) ∧ @sockets_ok Host s1.
Proof.
  destruct (@run_network_ends _ host_os host_calls host_signals example_platform sample_callbacks
    sample_application no_application no_checkers (threads 0) fst host_documented 100 false
    addressed_tcpip default_qos set_up_host) as (status & s1 & E & R).
  - reflexivity.
  - repeat (constructor; [vm_compute; reflexivity |]). constructor.
  - repeat (constructor; [vm_compute; reflexivity |]). constructor.
  - exists s1.
    assert (X : (λ x, x.1.1) <$> @NetworkHandlerInitialize _ host_os host_calls false set_up_host
      = Some kEipStatusOk) by (vm_compute; reflexivity).
    rewrite E in X. injection X as ->. split; [exact E |].
    destruct R as [(F & _)|(_ & O & _)]; [discriminate F | exact O].
Defined.

Definition eth1 : list Z := [101; 116; 104; 49].

(** The sample program when its network is configured. *)
Definition sample_configured : option (NetworkHandler Host) :=
  '(present, s) ← @set_up _ host_os host_system empty_disk false false false 1
     ApplicationInitialization eth1 sample_globals switched_off;
  if present : bool then @configure_network _ host_system host_signals 10 100 eth1 s else None.

Lemma sample_is_configured s :
  sample_configured = Some s →
  @configured _ host_os host_system empty_disk host_signals false false false 1
    ApplicationInitialization 10 100 eth1 sample_globals switched_off s.
Proof.
  unfold sample_configured. intros ([present s1] & U & C)%bind_Some. destruct present; [|done].
  exists s1. by split.
Qed.

#[local] Notation sample_main rt ret :=
  (@main _ host_os host_calls host_system empty_disk host_signals (threads ret) example_platform
     sample_callbacks sample_application no_application no_checkers false false false rt 1
     ApplicationInitialization 2 eth1 10 100 sample_globals switched_off).

(** When the thread cannot be created the program ends with -2; otherwise, at the interrupt. *)
Lemma main_exit_code_witness :
  (∃ s, sample_main true 11 = Some (-2, s)) ∧
  ∃ s, sample_main false 0 = Some (202, s) ∧ @exit_code _ host_signals (os s) = 202.
Proof.
  assert (C : is_Some sample_configured) by (apply (bool_decide_unpack _); by vm_compute).
  destruct C as (s2 & C). split.
  - destruct (@main_exit_code _ host_os host_calls host_system empty_disk host_signals example_platform
      sample_callbacks sample_application no_application no_checkers (threads 11) false false false true 1
      ApplicationInitialization 2 eth1 10 100 sample_globals switched_off) as (_ & _ & R).
    destruct (R s2 eq_refl (sample_is_configured s2 C)) as (R1 & _).
    assert (N : fst <$> (s ← sample_configured; @run_network _ host_os host_calls host_signals
      (threads 11) example_platform sample_callbacks sample_application no_application no_checkers
      false true 10 100 s) = Some false) by (vm_compute; reflexivity).
    rewrite C in N. cbn [mbind option_bind] in N.
    apply fmap_Some in N as ([running s3] & N & E). cbn [fst] in E. subst running.
    exists s3. apply R1. exact (run_network_cases _ _ _ _ _ _ _ N).
  - destruct (@main_exit_code _ host_os host_calls host_system empty_disk host_signals example_platform
      sample_callbacks sample_application no_application no_checkers (threads 0) false false false false 1
      ApplicationInitialization 2 eth1 10 100 sample_globals switched_off) as (_ & _ & R).
    destruct (R s2 eq_refl (sample_is_configured s2 C)) as (_ & _ & R3).
    assert (M : fst <$> sample_main false 0 = Some 202) by (vm_compute; reflexivity).
    apply fmap_Some in M as ([code s] & M & E). cbn [fst] in E. subst code.
    exists s. split; [exact M |]. destruct (R3 202 s M) as [_ X].
    symmetry. apply X. lia.
Defined.

(** The sample program when its sockets are open, and the turns of its loop: the clock advances
    by 14 milliseconds, in one tick. *)
Definition sample_started : NetworkHandler Host :=
  match s ← sample_configured; @NetworkHandlerInitialize _ host_os host_calls false s with
  | Some (_, _, s) => s
  | None => switched_off
  end.

Lemma event_loop_keeps_time_witness :
  ∃ s n l s1,
    @executeEventLoop _ host_os host_signals example_platform sample_callbacks sample_application
      no_application no_checkers 10 100 sample_started = Some s ∧
    @turn_times _ host_os host_signals example_platform sample_callbacks sample_application
      no_application no_checkers 100 n l sample_started s1 ∧ total_time l = 14.
Proof.
  assert (E : (λ s, (elapsed_time s, g_last_time s)) <$> @executeEventLoop _ host_os host_signals
    example_platform sample_callbacks sample_application no_application no_checkers 10 100 sample_started
    = Some (0, 1014)) by (vm_compute; reflexivity).
  apply fmap_Some in E as (s & E & T). injection T as T1 T2.
  assert (L : g_last_time sample_started = 1000) by (vm_compute; reflexivity).
  assert (E0 : elapsed_time sample_started = 0) by (vm_compute; reflexivity).
  destruct (@event_loop_keeps_time _ host_os host_signals example_platform sample_callbacks
    sample_application no_application no_checkers 100 10 sample_started s E)
    as (n & l & s1 & _ & G & _ & _ & Et & _).
  - apply (clock_followed_forward 100 10). vm_compute. reflexivity.
  - lia.
  - lia.
  - exists s, n, l, s1. split; [exact E |]. split; [exact G |]. lia.
Defined.
