(* ===== verification/Stm32.v ===== *)
(** * [ports/STM32]: the stack as a thread of an embedded device

    The device's own start-up calls [opener_init] with the configured network interface; it
    sets the stack up and creates the thread that runs the cycles until an error or until
    the link is down.  The interface of lwIP is an interface here, too. *)

From S2P Require Import Prelude EndianConv EPath CipStrings CipTypes CipCodec CipClasses CipServices Identity Assembly.
From S2P Require Import MessageRouter SocketTimer ConnRecord ConnObject ConnList LinkedList AppConType IoClose EncapData Cpf Encap ConnPath ConnService IoOpen IoData ConnTimer.
From S2P Require Import NetObject Qos TcpIp EthLink Dlr NetHandler NetInit NvData PosixConfig StackInit PosixMain.
From stdpp Require Import strings gmap.
Open Scope Z_scope.

(** ** The network interface *)

(** [struct netif], as far as it is used; the name may be missing. *)
Record Netif := mkNetif {
  hwaddr : list Z;
  ip_addr : Z;
  netmask : Z;
  gw : Z;
  netif_hostname : option (list Z) }.

Class LwIp (OS : Type) := {
  netif : OS → Netif;
  netif_is_link_up : OS → bool }.

Definition NETIF_MAX_HWADDR_LEN : nat := 6.

Definition IfaceGetMacAddress (iface : Netif) : option (EipStatus * list Z) :=
  a ← load_n (hwaddr iface) NETIF_MAX_HWADDR_LEN; Some (kEipStatusOk, a).

Definition GetIpAndNetmaskFromInterface (iface : Netif) (iface_cfg : CipTcpIpInterfaceConfiguration)
  : EipStatus * CipTcpIpInterfaceConfiguration :=
  (kEipStatusOk, set_addresses (ip_addr iface) (netmask iface) iface_cfg).

Definition GetGatewayFromRoute (iface : Netif) (iface_cfg : CipTcpIpInterfaceConfiguration)
  : EipStatus * CipTcpIpInterfaceConfiguration :=
  (kEipStatusOk, set_gateway (gw iface) iface_cfg).

Definition IfaceGetConfiguration (iface : Netif) (iface_cfg : CipTcpIpInterfaceConfiguration)
  : EipStatus * CipTcpIpInterfaceConfiguration :=
  let '(status, local_cfg) := GetIpAndNetmaskFromInterface iface zero_config in
  let '(status, local_cfg) :=
    if bool_decide (status = kEipStatusOk) then GetGatewayFromRoute iface local_cfg
    else (status, local_cfg) in
  (status, if bool_decide (status = kEipStatusOk) then local_cfg else iface_cfg).

(** The length of a missing name cannot be taken. *)
Definition GetHostName (iface : Netif) (hostname : CipString) : option CipString :=
  string ← netif_hostname iface;
  name ← SetCipStringByCstr (Some hostname) string;
  name.

(** ** The application *)

(** Assemblies and connection points are those of the POSIX sample; nothing is stored. *)
Definition ApplicationInitialization (w : DeviceWorld) : option (EipStatus * DeviceWorld) :=
  s ← create_sample_assemblies sample_assemblies (stack_of w);
  let w := set_stack (set_device_stack s (stack w)) w in
  Some (kEipStatusOk,
    update_io (λ i, mkIoState (sample_points (io_points i)) (g_run_idle_state i)
                      (s_consume_run_idle i) (s_produce_run_idle i) (sent_udp i)) w).

(** ** Start and thread *)

Section Stm32.
Context {OS : Type} `{OperatingSystem OS} `{SocketCalls OS} `{LwIp OS} `{IoPlatform}.
Context `{AssemblyApplication} `{RunIdleApplication} `{Application} `{TimeoutCheckers}.
Variables big_endian dlr_device label_option : bool.
Variable instance_cnt : nat.
Variable ApplicationInitialization : DeviceWorld → option (EipStatus * DeviceWorld).
Implicit Type s : NetworkHandler OS.

(** What is done when the link is up.  The block has a variable [eip_status] of its own,
    which ends with it: the results are the status nobody reads and the new state. *)
Definition start_stack (g : Globals) s : option (EipStatus * NetworkHandler OS) :=
  let s := set_device (initialize_connection_list (device s)) s in
  '(_, iface_mac) ← IfaceGetMacAddress (netif (os s));
  let w := number_device 123456789 (world (device s)) in
  let unique_connection_id := u16 (rand (os s)) in
  '(_, w) ← CipStackInit big_endian dlr_device label_option instance_cnt ApplicationInitialization
              unique_connection_id g w;
  let s := set_device (set_world w (device s)) s in
  s ← on_stack (set_mac instance_cnt iface_mac) s;
  t ← load_tcpip (stack_in s);
  name ← GetHostName (netif (os s)) (hostname t);
  let '(_, c) := IfaceGetConfiguration (netif (os s)) (interface_configuration t) in
  s ← on_stack (λ k, Some (store_tcpip (set_interface_configuration c (set_hostname name t)) k)) s;
  '(eip_status, _, s) ← NetworkHandlerInitialize big_endian s;
  Some (eip_status, s).

(** Whether the thread is created, and [g_end_stack]. *)
Definition opener_init (g : Globals) s : option (bool * Z * NetworkHandler OS) :=
  let eip_status := kEipStatusOk in
  '(g_end_stack, s) ←
    (if netif_is_link_up (os s) then '(_, s) ← start_stack g s; Some (0, s) else Some (1, s));
  Some ((g_end_stack =? 0) && bool_decide (eip_status = kEipStatusOk), g_end_stack, s).

Fixpoint thread_loop (cycles fuel : nat) (g_end_stack : Z) s : option (NetworkHandler OS) :=
  if negb (g_end_stack =? 0) then Some s
  else
    match cycles with
    | O => None
    | S cycles =>
        '(status, s) ← NetworkHandlerProcessCyclic fuel s;
        let g_end_stack := if bool_decide (status = kEipStatusOk) then g_end_stack else 1 in
        let g_end_stack := if netif_is_link_up (os s) then g_end_stack else 1 in
        thread_loop cycles fuel g_end_stack s
    end.

Definition opener_thread (cycles fuel : nat) (g_end_stack : Z) s : option (NetworkHandler OS) :=
  s ← thread_loop cycles fuel g_end_stack s;
  '(_, s) ← NetworkHandlerFinish s;
  d ← ShutdownCipStack (device s);
  Some (set_device d s).
End Stm32.

(** ** Lemmas *)

Lemma lwip_configuration iface cfg :
  IfaceGetConfiguration iface cfg
  = (kEipStatusOk, mkIfConfig (ip_addr iface) (netmask iface) (gw iface) 0 0 (mkString 0 None)).
Proof. reflexivity. Qed.

Section Thread.
Context {OS : Type} `{OperatingSystem OS} `{SocketCalls OS} `{LwIp OS} `{IoPlatform}.
Context `{AssemblyApplication} `{RunIdleApplication} `{Application} `{TimeoutCheckers}.
Variables big dlr label : bool.
Variable cnt : nat.
Variable app : DeviceWorld → option (EipStatus * DeviceWorld).
Implicit Type s : NetworkHandler OS.

(** The thread is created exactly when the link is up, whatever the start of the network
    reported: the status that is tested is not the one that was set. *)
Lemma thread_started_anyway g s :
  (netif_is_link_up (os s) = false → opener_init big dlr label cnt app g s = Some (false, 1, s)) ∧
  (∀ status s', netif_is_link_up (os s) = true → start_stack big dlr label cnt app g s = Some (status, s') →
     opener_init big dlr label cnt app g s = Some (true, 0, s')).
Proof.
  unfold opener_init. split; [by intros -> |]. intros status s' -> E. by rewrite E.
Qed.

(** A cycle of the thread that goes on. *)
Definition thread_turn (fuel : nat) s s' : Prop :=
  NetworkHandlerProcessCyclic fuel s = Some (kEipStatusOk, s') ∧ netif_is_link_up (os s') = true.

(** The loop ends with the first cycle that fails or finds the link down, and with every
    cycle before it the socket sets stay covered. *)
Lemma thread_loop_ends fuel n s s1 status s' :
  nsteps (thread_turn fuel) n s s1 →
  NetworkHandlerProcessCyclic fuel s1 = Some (status, s') →
  (status ≠ kEipStatusOk ∨ netif_is_link_up (os s') = false) →
  (∀ cycles, (n < cycles)%nat → thread_loop cycles fuel 0 s = Some s') ∧
  (sockets_ok s → sockets_ok s').
Proof.
  intros R E L. split.
  - induction R as [s|n s s2 s1 [T U] R IH]; intros [|cycles] Hc; try lia; cbn [thread_loop].
    + rewrite Z.eqb_refl, E. cbn [negb mbind option_bind].
      assert (X : (if netif_is_link_up (os s') then if bool_decide (status = kEipStatusOk) then 0 else 1 else 1) = 1).
      { destruct L as [L|L]; [rewrite bool_decide_eq_false_2 by done; by destruct (netif_is_link_up _) | by rewrite L]. }
      rewrite X. by destruct cycles.
    + rewrite Z.eqb_refl, T. cbn [negb mbind option_bind]. rewrite bool_decide_eq_true_2, U by done.
      apply IH; [done | lia].
  - intros Hs. eapply cycle_sockets; [|exact E].
    clear E L. induction R as [s|n s s2 s1 [T _] R IH]; [done |]. by apply IH; eapply cycle_sockets.
Qed.
End Thread.

(** ** Examples *)

Definition board_netif : Netif :=
  mkNetif [2; 0; 0; 0; 0; 1] 0x0501A8C0 0x00FFFFFF 0x0101A8C0 (Some [108; 119; 105; 112; 0]).

(** The link goes down after two waits. *)
Definition board : LwIp Host := {|
  netif _ := board_netif;
  netif_is_link_up o := (o.2 <? 2)%nat |}.

(** A system out of sockets. *)
Definition no_sockets : SocketCalls Host := {|
  system_call _ o := (-1, o);
  GetSocketErrorNumber _ := 0;
  O_NONBLOCK := 2048 |}.

Definition board_start (calls : SocketCalls Host) : option (bool * Z * NetworkHandler Host) :=
  @opener_init _ host_os calls board false false false 1 ApplicationInitialization sample_globals
    switched_off.

(** Started, run until the link is down, everything released; and started without a socket. *)
Lemma board_runs :
  (λ x, (x.1, master_socket x.2)) <$> board_start host_calls = Some (true, 0, {[3; 4; 5]}) ∧
  (λ s, (closings (device s), (os s).2, classes (stack_in s))) <$>
    (x ← board_start host_calls;
     @opener_thread _ host_os board example_platform sample_callbacks sample_application
       no_application no_checkers 10 100 x.1.2 x.2) = Some ([4; 5; 3], 2%nat, []) ∧
  fst <$> @start_stack _ host_os no_sockets board false false false 1 ApplicationInitialization
    sample_globals switched_off = Some kEipStatusError ∧
  (λ x, (x.1, master_socket x.2)) <$> board_start no_sockets = Some (true, 0, ∅).
Proof. vm_compute. split_and!; reflexivity. Qed.
