(* ===== verification/EndToEnd.v ===== *)
(** * A request from the wire to the wire

    The layers together: bytes of a TCP connection are framed, decoded and checked by the
    encapsulation layer, unpacked by the common packet format, routed to the service of an
    instance, and the reply goes back through the same layers to the socket.  The theorems
    use what the files of the layers prove. *)

From S2P Require Import Prelude EndianConv EPath CipStrings CipTypes CipCodec CipClasses CipServices Identity Assembly.
From S2P Require Import MessageRouter SocketTimer ConnRecord ConnObject ConnList LinkedList AppConType IoClose EncapData Cpf Encap ConnPath ConnService IoOpen IoData ConnTimer.
From S2P Require Import NetObject Qos TcpIp EthLink Dlr NetHandler NetInit NvData PosixConfig StackInit PosixMain.
From stdpp Require Import strings gmap.
Open Scope Z_scope.

(** ** The router finds the service *)

(** The class, instance and service function a path and a service lead to. *)
Record service_at (s : CipStack) (path : CipEpath) (sv : Z) (n : nat) (p : InstancePtr)
    (fn : CipServiceFunction) : Prop := {
  sa_class : GetRegisteredObject s (class_id path) = Some n;
  sa_instance : ∃ c i k x, get_class (TheClass n) s = Some c ∧
    GetCipInstance c (instance_number_of_path path) = Some p ∧ get_instance n p s = Some i ∧
    instance_class i s = Some k ∧ services_wf k ∧
    List.find (λ x, service_number x =? sv) (services k) = Some x ∧ service_function x = Some fn }.

(** The same, computed. *)
Definition find_service (s : CipStack) (path : CipEpath) (sv : Z)
  : option (nat * InstancePtr * CipServiceFunction) :=
  n ← GetRegisteredObject s (class_id path);
  c ← get_class (TheClass n) s;
  p ← GetCipInstance c (instance_number_of_path path);
  i ← get_instance n p s;
  k ← instance_class i s;
  x ← List.find (λ x, service_number x =? sv) (services k);
  fn ← service_function x;
  if number_of_services k =? Z.of_nat (length (services k)) then Some (n, p, fn) else None.

Lemma find_service_at s path sv n p fn :
  find_service s path sv = Some (n, p, fn) → service_at s path sv n p fn.
Proof.
  unfold find_service. intros (n' & Hn & E)%bind_Some. apply bind_Some in E as (c & Hc & E).
  apply bind_Some in E as (p' & Hp & E). apply bind_Some in E as (i & Hi & E).
  apply bind_Some in E as (k & Hk & E). apply bind_Some in E as (x & Hx & E).
  apply bind_Some in E as (f & Hf & E).
  destruct (Z.eqb_spec (number_of_services k) (Z.of_nat (length (services k)))) as [Hw|]; [|done].
  injection E as -> -> ->. split; [done |]. by exists c, i, k, x.
Qed.

Lemma request_with_rest sv ss payload rest g :
  Forall seg_wf ss → 2 + 2 * segs_words ss + Z.of_nat (length payload) <= 32767 →
  CreateMessageRouterRequestStructure (request_bytes sv ss payload ++ rest)
    (s16 (Z.of_nat (length (request_bytes sv ss payload)))) g
  = Some (kCipErrorSuccess,
      mkRequest sv (path_of ss) (Z.of_nat (length payload)) (payload ++ rest)).
Proof.
  intros Hs Hl. pose proof (segs_words_nonneg ss) as Hw.
  assert (Hs16 : ∀ z, 0 <= z <= 32767 → s16 z = z).
  { intros z Hz. unfold s16. rewrite Z.mod_small by lia. lia. }
  assert (E : request_bytes sv ss payload ++ rest = request_bytes sv ss (payload ++ rest)).
  { unfold request_bytes. cbn [app]. by rewrite <- (assoc_L (++)). }
  rewrite E, CreateRequest_segments by done. cbv zeta. rewrite length_request_bytes, (Hs16 (2 + 2 * segs_words ss + _)) by lia.
  rewrite !Hs16, u64_id by (unfold is_u64; lia). rewrite (proj2 (Z.ltb_ge _ _)) by lia.
  rewrite u64_id by (unfold is_u64; lia). do 3 f_equal. lia.
Qed.

Lemma router_dispatch {St} (view : St → CipStack) run sv ss payload rest resp addr session g st n p fn :
  Forall seg_wf ss → 2 + 2 * segs_words ss + Z.of_nat (length payload) <= 32767 →
  service_at (view st) (path_of ss) sv n p fn →
  notify_message_router view run (request_bytes sv ss payload ++ rest)
    (Z.of_nat (length (request_bytes sv ss payload))) resp addr session g st
  = run fn n p (mkRequest sv (path_of ss) (Z.of_nat (length payload)) (payload ++ rest))
      (set_reserved 0 resp) addr session st.
Proof.
  intros Hs Hl [Hn (c & i & k & x & Hc & Hp & Hi & Hk & Hw & Hx & Hf)].
  unfold notify_message_router. rewrite request_with_rest by done. cbn [mbind option_bind].
  change (negb (kCipErrorSuccess =? kCipErrorSuccess)) with false. cbv iota. cbn [request_path].
  rewrite Hn. unfold notify_class. rewrite Hc. cbn [mbind option_bind request_path service].
  rewrite Hp, Hi. cbn [mbind option_bind]. rewrite Hk. cbn [mbind option_bind].
  rewrite GetCipService_find by done. cbn [mbind option_bind]. rewrite Hx, Hf. done.
Qed.

(** ** SendRRData over TCP *)

(** Interface handle and time-out, then the packet with the two items. *)
Definition rr_data (six request : list Z) : list Z :=
  six ++ packet_bytes null_address kCipItemIdUnconnectedDataItem request.

Definition rr_message (handle st : Z) (context six request rest : list Z) : list Z :=
  message_bytes kEncapsulationCommandSendRequestReplyData handle st context (rr_data six request) rest.

(** The reply to a request with response [r] and data [body]. *)
Definition rr_reply (handle : Z) (context : list Z) (r : CipMessageRouterResponse) (body : list Z)
  : list Z :=
  let data := le_bytes 4 0 ++ le_bytes 2 0 ++ le_bytes 2 2
              ++ le_bytes 2 kCipItemIdNullAddress ++ le_bytes 2 0
              ++ le_bytes 2 kCipItemIdUnconnectedDataItem
              ++ le_bytes 2 (Z.of_nat (length (response_bytes r body))) ++ response_bytes r body in
  header_bytes kEncapsulationCommandSendRequestReplyData (Z.of_nat (length data)) handle
    kEncapsulationProtocolSuccess context 0 ++ data.

Lemma length_rr_data six request : length six = 6%nat →
  Z.of_nat (length (rr_data six request)) = 16 + Z.of_nat (length request).
Proof.
  intros H6. unfold rr_data, packet_bytes. rewrite !length_app, !length_le_bytes, H6. cbn. lia.
Qed.

Section Data.
Context {S : Type} `{Router S} `{ConnectionCallbacks}.
Implicit Type s : Encapsulation S.

Lemma rr_answered device socket handle st context six request rest n addr s status r body w' :
  received kEncapsulationCommandSendRequestReplyData handle st context (rr_data six request) n →
  length six = 6%nat →
  CheckRegisteredSessions
    (decoded kEncapsulationCommandSendRequestReplyData handle context [] [] []) s = Some true →
  let d := received_packet null_address kCipItemIdUnconnectedDataItem request rest (g_cpf (world s)) in
  route (request ++ rest) (Z.of_nat (length request)) InitializeMessageRouterResponse addr handle
    (set_cpf d (world s)) = Some (status, r, w') →
  status ≠ kEipStatusError → g_cpf w' = d → response_wf r body →
  44 + 2 * size_of_additional_status r + Z.of_nat (length body) <= 512 →
  ∃ m, HandleReceivedExplictTcpData device socket (rr_message handle st context six request rest) n
         addr InitializeENIPMessage s
       = Some (kEipStatusOkSend, n - 40 - Z.of_nat (length request), m, set_world w' s) ∧
    wire m = rr_reply handle context r body.
Proof.
  intros Hrec H6 Hsess. cbv zeta. intros Hr Hst Hd Hwf Hfit.
  pose proof (length_rr_data six request H6) as Hlen.
  pose proof (tcp_received device socket _ _ _ _ _ rest n addr InitializeENIPMessage s Hrec) as E.
  cbv zeta in E. unfold rr_message. rewrite E. clear E.
  set (buffer := message_bytes _ _ _ _ _ _). set (rd := decoded _ _ _ _ buffer _).
  change (tcp_command device socket addr rd InitializeENIPMessage s)
    with (handle_data_command (NotifyCommonPacketFormat (endianess device)) rd addr InitializeENIPMessage s).
  unfold handle_data_command.
  change (data_length rd) with (Z.of_nat (length (rr_data six request))). rewrite Hlen.
  destruct (Z.leb_spec 6 (16 + Z.of_nat (length request))); [|lia].
  change (current_communication_buffer_position rd) with (rr_data six request ++ rest).
  unfold rr_data. destruct six as [|a1 [|a2 [|a3 [|a4 [|a5 [|a6 [|]]]]]]]; try discriminate H6.
  cbn [app]. edestruct GetDint_reads as [v1 ->]. cbn [mbind option_bind].
  edestruct GetInt_reads as [v2 ->]. cbn [mbind option_bind].
  set (p := packet_bytes null_address kCipItemIdUnconnectedDataItem request).
  set (rd' := set_data_length _ _).
  change (CheckRegisteredSessions rd' s) with (CheckRegisteredSessions
    (decoded kEncapsulationCommandSendRequestReplyData handle context [] [] []) s).
  rewrite Hsess. cbn [mbind option_bind].
  assert (Hcar : carries rd' null_address kCipItemIdUnconnectedDataItem request rest).
  { pose proof (recv_length _ _ _ _ _ _ Hrec). split; [done |]. split; [|split; [lia |]].
    - change (data_length rd') with (16 + Z.of_nat (length request) - 6). fold p.
      unfold p, packet_bytes. rewrite !length_app, !length_le_bytes. cbn. lia.
    - split; [apply (recv_context _ _ _ _ _ _ Hrec) | apply (recv_context_bytes _ _ _ _ _ _ Hrec)]. }
  assert (Hno : no_sockaddr (g_cpf w')) by (rewrite Hd; by split).
  pose proof (unconnected_request_answered (endianess device) rd' addr InitializeENIPMessage (world s)
    request rest Hcar status r body w' Hr holds_init Hst) as N. cbv zeta in N.
  rewrite (no_sockaddr_bytes _ _ Hno), app_nil_r, Z.add_0_r in N.
  specialize (N ltac:(rewrite Hd; by split) (or_intror Hno) Hwf). rewrite Hd in N.
  rewrite (proj2 (Z.leb_le _ _)) in N by lia.
  destruct N as (m' & -> & Hw). cbn [mbind option_bind]. exists m'. split; [do 4 f_equal; lia |].
  rewrite Hw. unfold rr_reply. cbv zeta.
  set (d := received_packet _ _ _ _ _) in *.
  rewrite <- (length_unconnected_reply d r body) by done. reflexivity.
Qed.
End Data.

(** ** The handler's part *)

Lemma at_timer_updated t f ts :
  (t < length ts)%nat → ∃ ts', at_timer_checked (Some t) f ts = Some ts' ∧ length ts' = length ts.
Proof.
  intros Ht. destruct (lookup_lt_is_Some_2 _ _ Ht) as [x Hx]. unfold at_timer_checked, at_timer.
  cbn [mbind option_bind]. rewrite Hx. cbn [mbind option_bind]. eexists. split; [reflexivity |].
  apply length_insert.
Qed.

Section Handler.
Context {OS : Type} `{OperatingSystem OS} `{IoPlatform} `{AssemblyApplication} `{Application}.
#[local] Existing Instance io_callbacks.
#[local] Existing Instance io_open.
Implicit Type s : NetworkHandler OS.

Definition timer_ok (timer : option nat) (d : DeviceEncapsulation) : Prop :=
  match timer with None => True | Some t => (t < length (g_timestamps d))%nat end.

Lemma update_timer_ok timer d :
  timer_ok timer d → ∃ d', update_timer timer d = Some d' ∧ timer_ok timer d' ∧ world d' = world d ∧
    g_registered_sessions d' = g_registered_sessions d.
Proof.
  intros Ht. unfold update_timer. destruct timer as [t|].
  - destruct (at_timer_updated t (SocketTimerSetLastUpdate (g_actual_time d)) (g_timestamps d) Ht) as (ts & -> & L).
    eexists. split; [reflexivity |]. split; [|done]. unfold timer_ok in *.
    change (t < length ts)%nat. by rewrite L.
  - eexists. split; [reflexivity |]. done.
Qed.

Lemma in_device_world s f d' :
  f (device s) = Some d' → world d' = world (device s) →
  in_device_ f s = Some (set_device d' (set_master (master_socket s) s)).
Proof.
  intros E W. unfold in_device_. rewrite E. cbn [mbind option_bind]. apply follow_same.
  - unfold closings, Encap.manager. by rewrite W.
  - unfold network. by rewrite W.
Qed.

Lemma answered_on_socket socket timer handle st context six request rest n dev s status r body w' :
  received kEncapsulationCommandSendRequestReplyData handle st context (rr_data six request) n →
  length six = 6%nat → encapsulation_device (device s) = Some dev → timer_ok timer (device s) →
  CheckRegisteredSessions
    (decoded kEncapsulationCommandSendRequestReplyData handle context [] [] []) (device s) = Some true →
  let w := world (device s) in
  let d := received_packet null_address kCipItemIdUnconnectedDataItem request rest (g_cpf w) in
  route (request ++ rest) (Z.of_nat (length request)) InitializeMessageRouterResponse
    (getpeername socket (os s)) handle (set_cpf d w) = Some (status, r, w') →
  status ≠ kEipStatusError → g_cpf w' = d → response_wf r body →
  closed_sockets (connections w') = closed_sockets (connections w) →
  created_sockets (g_network_status (stack w')) = created_sockets (g_network_status (stack w)) →
  44 + 2 * size_of_additional_status r + Z.of_nat (length body) <= 512 →
  ∃ s', handle_tcp_message socket timer (rr_message handle st context six request rest) n s
        = Some (kEipStatusOk, s') ∧
    os s' = send socket (rr_reply handle context r body) (os s) ∧
    world (device s') = w' ∧ g_registered_sessions (device s') = g_registered_sessions (device s) ∧
    master_socket s' = master_socket s.
Proof.
  intros Hrec H6 Hdev Ht Hsess. cbv zeta. intros Hr Hst Hd Hwf Hcl Hcr Hfit.
  unfold handle_tcp_message. cbn [device os set_active]. rewrite Hdev. cbn [mbind option_bind].
  destruct (rr_answered dev socket handle st context six request rest n (getpeername socket (os s))
    (device s) status r body w' Hrec H6 Hsess Hr Hst Hd Hwf Hfit) as (m & E & Hm).
  unfold in_device at 1. cbn [device set_active]. rewrite E. cbn [mbind option_bind].
  rewrite (follow_same (device s) (set_world w' (device s))) by done. cbn [mbind option_bind].
  set (s1 := set_device (set_world w' (device s)) _).
  destruct (update_timer_ok timer (device s1)) as (d2 & E2 & T2 & W2 & R2); [exact Ht |].
  rewrite (in_device_world s1 _ d2 E2 W2). cbn [mbind option_bind].
  rewrite bool_decide_eq_true_2 by done. set (s2 := set_os _ _).
  destruct (update_timer_ok timer (device s2)) as (d3 & E3 & _ & W3 & R3); [exact T2 |].
  rewrite (in_device_world s2 _ d3 E3 W3). cbn [mbind option_bind]. eexists. split; [reflexivity |].
  split; [by rewrite <- Hm |]. cbn [device set_device]. rewrite W3, R3.
  change (device s2) with d2. rewrite W2, R2. done.
Qed.

(** A request on a TCP connection is answered on it: if the message is a SendRRData with a
    registered session, and the router answers its request with response [r] and data
    [body], without opening or closing a socket, then exactly one message is sent, to the
    same socket: the header with command, session and context of the request, and behind the null
    address item the response with its exact length.  The device afterwards is the
    one the router leaves. *)
Theorem request_answered_on_socket socket timer handle st context six request rest n dev s status r body w' :
  received kEncapsulationCommandSendRequestReplyData handle st context (rr_data six request) n →
  length six = 6%nat → encapsulation_device (device s) = Some dev → timer_ok timer (device s) →
  CheckRegisteredSessions
    (decoded kEncapsulationCommandSendRequestReplyData handle context [] [] []) (device s) = Some true →
  let w := world (device s) in
  let d := received_packet null_address kCipItemIdUnconnectedDataItem request rest (g_cpf w) in
  route (request ++ rest) (Z.of_nat (length request)) InitializeMessageRouterResponse
    (getpeername socket (os s)) handle (set_cpf d w) = Some (status, r, w') →
  status ≠ kEipStatusError → g_cpf w' = d → response_wf r body →
  closed_sockets (connections w') = closed_sockets (connections w) →
  created_sockets (g_network_status (stack w')) = created_sockets (g_network_status (stack w)) →
  44 + 2 * size_of_additional_status r + Z.of_nat (length body) <= 512 →
  ∃ s', handle_tcp_message socket timer (rr_message handle st context six request rest) n s
        = Some (kEipStatusOk, s') ∧
    os s' = send socket (rr_reply handle context r body) (os s) ∧
    world (device s') = w' ∧ g_registered_sessions (device s') = g_registered_sessions (device s) ∧
    master_socket s' = master_socket s.
Proof. apply answered_on_socket. Qed.
End Handler.

(** ** Reading an attribute *)

Section Read.
Context {OS : Type} `{OperatingSystem OS} `{IoPlatform} `{AssemblyApplication} `{Application}.
#[local] Existing Instance io_callbacks.
#[local] Existing Instance io_open.
Implicit Type s : NetworkHandler OS.

(** A successful reply of Get Attribute Single, with these bytes. *)
Definition attribute_reply (handle : Z) (context bs : list Z) : list Z :=
  header_bytes kEncapsulationCommandSendRequestReplyData (20 + Z.of_nat (length bs)) handle
    kEncapsulationProtocolSuccess context 0
  ++ le_bytes 4 0 ++ le_bytes 2 0 ++ le_bytes 2 2 ++ le_bytes 2 kCipItemIdNullAddress ++ le_bytes 2 0
  ++ le_bytes 2 kCipItemIdUnconnectedDataItem ++ le_bytes 2 (4 + Z.of_nat (length bs))
  ++ [0x8E; 0; 0; 0] ++ bs.

(** What the router answers, and the device it leaves: the request is kept, nothing else
    changes. *)
Definition attribute_response (ss : list path_segment) (rest : list Z) (m : ENIPMessage)
  : CipMessageRouterResponse :=
  reply (mkRequest kGetAttributeSingle (path_of ss) 0 rest)
    (set_reserved 0 InitializeMessageRouterResponse) kCipErrorSuccess m.

Definition after_read (ss : list path_segment) (rest : list Z) (w : DeviceWorld) : DeviceWorld :=
  set_stack (set_device_request (mkRequest kGetAttributeSingle (path_of ss) 0 rest)
               (set_device_stack (cip_stack (stack w)) (stack w))) w.

Lemma attribute_routed ss rest addr handle (w : DeviceWorld) k p rows settable i c r v m :
  Forall seg_wf ss → 2 + 2 * segs_words ss <= 32767 →
  service_at (cip_stack (stack w)) (path_of ss) kGetAttributeSingle k (ListInstance p) FnGetAttributeSingle →
  attribute_table k p rows settable (cip_stack (stack w)) i c → r ∈ rows →
  no_callback (PreGetCallback c) kPreGetFunc (row_attribute r) →
  no_callback (PostGetCallback c) kPostGetFunc (row_attribute r) →
  attribute_number_of_path (path_of ss) = row_number r →
  has_flag (row_flags r) kGetableSingle = true → objects (cip_stack (stack w)) !! row_data r = Some v →
  row_encode r v InitializeENIPMessage = Some m →
  route (request_bytes kGetAttributeSingle ss [] ++ rest)
    (Z.of_nat (length (request_bytes kGetAttributeSingle ss []))) InitializeMessageRouterResponse addr handle w
  = Some (kEipStatusOkSend, attribute_response ss rest m, after_read ss rest w).
Proof.
  intros Hss Hl Hsa Hobj Hr Hpre Hpost Hnum Hflag Hv Hm. cbn [route device_router].
  assert (Hreq : 2 + 2 * segs_words ss + Z.of_nat (length ([] : list Z)) <= 32767) by (cbn [length]; lia).
  rewrite (router_dispatch (λ w : DeviceWorld, cip_stack (stack w)) run_device_service kGetAttributeSingle
    ss [] rest _ _ _ _ w k (ListInstance p) FnGetAttributeSingle Hss Hreq Hsa).
  cbn [run_device_service run_service].
  by rewrite (table_get_single k p rows _ _ i c Hobj r _ _ v m Hpre Hpost) by done.
Qed.

(** C1.  Reading an attribute over TCP: an explicit Get Attribute Single request for a gettable
    attribute of an object's table, sent with a registered session, is answered on the same
    connection by exactly one message that holds the encoded value and nothing else, with success;
    neither the objects nor the connections nor the sessions change.  Conditions: the class offers
    the service, no callback runs for getting this attribute (in the default build that holds
    for all network objects; the callbacks the sample application registers run for setting),
    and the encoded value has at most 468 bytes, so that the reply fits the buffer. *)
Theorem attribute_read_over_tcp socket timer handle st context six ss rest n dev s k p rows settable i c r v m bs :
  let w := world (device s) in
  received kEncapsulationCommandSendRequestReplyData handle st context
    (rr_data six (request_bytes kGetAttributeSingle ss [])) n →
  length six = 6%nat → encapsulation_device (device s) = Some dev → timer_ok timer (device s) →
  CheckRegisteredSessions
    (decoded kEncapsulationCommandSendRequestReplyData handle context [] [] []) (device s) = Some true →
  Forall seg_wf ss →
  service_at (cip_stack (stack w)) (path_of ss) kGetAttributeSingle k (ListInstance p) FnGetAttributeSingle →
  attribute_table k p rows settable (cip_stack (stack w)) i c → r ∈ rows →
  no_callback (PreGetCallback c) kPreGetFunc (row_attribute r) →
  no_callback (PostGetCallback c) kPostGetFunc (row_attribute r) →
  attribute_number_of_path (path_of ss) = row_number r →
  has_flag (row_flags r) kGetableSingle = true → objects (cip_stack (stack w)) !! row_data r = Some v →
  row_encode r v InitializeENIPMessage = Some m → holds bs m → Z.of_nat (length bs) <= 468 →
  ∃ s', handle_tcp_message socket timer
          (rr_message handle st context six (request_bytes kGetAttributeSingle ss []) rest) n s
        = Some (kEipStatusOk, s') ∧
    os s' = send socket (attribute_reply handle context bs) (os s) ∧
    cip_stack (stack (world (device s'))) = cip_stack (stack w) ∧
    connections (world (device s')) = connections w ∧
    g_registered_sessions (device s') = g_registered_sessions (device s) ∧
    master_socket s' = master_socket s.
Proof.
  cbv zeta. intros Hrec H6 Hdev Ht Hsess Hss Hsa Hobj Hr Hpre Hpost Hnum Hflag Hv Hm Hb Hlen.
  set (w := world (device s)) in *. set (request := request_bytes kGetAttributeSingle ss []) in *.
  set (d := received_packet null_address kCipItemIdUnconnectedDataItem request rest (g_cpf w)).
  set (resp := attribute_response ss rest m).
  assert (Hreq : 2 + 2 * segs_words ss <= 32767).
  { pose proof (recv_length _ _ _ _ _ _ Hrec) as L. rewrite (length_rr_data six request H6) in L.
    unfold request in L. rewrite length_request_bytes in L. cbn [length] in *. lia. }
  pose proof (attribute_routed ss rest (getpeername socket (os s)) handle (set_cpf d w) k p rows settable i c r v m
    Hss Hreq Hsa Hobj Hr Hpre Hpost Hnum Hflag Hv Hm) as Hroute. fold request in Hroute.
  assert (Hwf : response_wf resp bs) by (split; [exact Hb | done]).
  destruct (answered_on_socket socket timer handle st context six request rest n dev s kEipStatusOkSend
    resp bs _ Hrec H6 Hdev Ht Hsess Hroute) as (s' & E & Ho & Hw' & Hg & Hmas); try done.
  { change (size_of_additional_status resp) with 0. lia. }
  exists s'. split; [exact E |]. split; [|by rewrite Hw'].
  rewrite Ho. f_equal. unfold rr_reply, attribute_reply. cbv zeta.
  assert (Er : response_bytes resp bs = [0x8E; 0; 0; 0] ++ bs) by reflexivity.
  rewrite Er. rewrite !length_app, !length_le_bytes. cbn [length app].
  do 2 f_equal; [lia |]. do 6 f_equal. f_equal. lia.
Qed.
End Read.

(** ** Witness *)

(** A device with the TCP/IP object, whose settings the sample application stores, and one
    session, on socket 5. *)
Definition answering_stack : CipStack :=
  match ('(_, s) ← CipTcpIpInterfaceInit false (g_tcpip false) empty_stack;
         set_callback kCipTcpIpInterfaceClassCode kNvTcpipSetCallback s) with
  | Some s => s
  | None => empty_stack
  end.

Definition answering_device : NetworkHandler (list (Z * list Z)) :=
  let d := mkEncap (5 :: replicate 19 kEipInvalidSocket) (replicate 20 (mkSocketTimer kEipInvalidSocket 0)) 0 []
             zero_service_information []
             (set_stack (set_device_stack answering_stack (stack cold_device)) cold_device) in
  mkNetworkHandler [] d {[3; 4; 5]} ∅ 5 kEipInvalidSocket 0 0 3 4 2
    (replicate OPENER_TIMEOUT_CHECKER_ARRAY_SIZE None).

(** A network that records what is sent. *)
Definition recording : OperatingSystem (list (Z * list Z)) := {|
  recv := λ _ _ o, (WouldBlock, o);
  recvfrom := λ _ _ o, (WouldBlock, mkSockAddr 0 0, o);
  send := λ socket bs o, (socket, bs) :: o;
  sendto := λ _ _ _ o, o;
  accept := λ _ o, (-1, o);
  select := λ _ _ _ o, (Interrupted, o);
  getpeername := λ _ _, mkSockAddr 0 0x0201A8C0;
  GetMilliSeconds := λ o, (1000, o);
  NetHandler.rand := λ _, 9 |}.

(** Attribute 13 of the TCP/IP object, the inactivity time-out: 120 seconds. *)
Definition timeout_path : list path_segment := [SegClass 0xF5; SegInstance 1; SegAttribute 13].

Definition answer : option (EipStatus * NetworkHandler (list (Z * list Z))) :=
  @handle_tcp_message _ recording example_platform quiet_application no_application 5 None
    (rr_message 1 0 [1; 2; 3; 4; 5; 6; 7; 8] (replicate 6 0) (request_bytes kGetAttributeSingle timeout_path []) [])
    48 answering_device.

Lemma answering_object : ∃ i c,
  attribute_table 0 0 (tcpip_rows false) (flagged kSetable (tcpip_rows false)) answering_stack i c ∧
  PreGetCallback c = None ∧ PostGetCallback c = None ∧ PostSetCallback c = Some kNvTcpipSetCallback.
Proof.
  destruct (tcpip_created false (g_tcpip false) empty_stack) as (s' & i & c & m & E & Hc & Hn & [T Hcb] & _).
  { reflexivity. }
  assert (Hg : get_class (TheClass 0) s' = Some c) by (unfold get_class; by rewrite Hc).
  exists i, (InsertGetSetCallback c (Some kNvTcpipSetCallback) kNvDataFunc).
  unfold answering_stack. rewrite E. cbn [mbind option_bind]. unfold set_callback. rewrite Hn.
  cbn [mbind option_bind length classes empty_stack]. rewrite Hg. cbn [mbind option_bind].
  destruct Hcb as (C1 & C2 & _). split; [|split; [exact C1 | split; [exact C2 | reflexivity]]].
  apply registered_callback_table; [exact Hg | | exact T].
  pose proof (to_ctx _ _ _ _ _ _ _ T) as [Hi _].
  assert (X : (λ x, cip_class <$> get_instance 0 (ListInstance 0) x.2)
      <$> CipTcpIpInterfaceInit false (g_tcpip false) empty_stack = Some (Some (Some (TheClass 0))))
    by (vm_compute; reflexivity).
  rewrite E in X. cbn [fmap option_fmap option_map snd] in X. cbn [length classes empty_stack] in Hi.
  rewrite Hi in X. by injection X.
Qed.

Lemma answering_service : service_at answering_stack (path_of timeout_path) kGetAttributeSingle 0 (ListInstance 0)
  FnGetAttributeSingle.
Proof.
  apply find_service_at. vm_compute. reflexivity.
Qed.

Lemma timeout_path_wf : Forall seg_wf timeout_path.
Proof. repeat (constructor; [unfold seg_wf, is_u16; simpl; lia |]). constructor. Qed.

Lemma timeout_read_received :
  received kEncapsulationCommandSendRequestReplyData 1 0 example_context
    (rr_data (replicate 6 0) (request_bytes kGetAttributeSingle timeout_path [])) 48.
Proof. apply example_received; [unfold is_u16; vm_compute; split; [discriminate | reflexivity]
  | unfold is_u32; lia | vm_compute; split; discriminate]. Qed.

(** The value 120 in a message. *)
Definition encoded_timeout : ENIPMessage :=
  default InitializeENIPMessage (EncodeCipUint (DInt 2 120) InitializeENIPMessage).

Lemma encoded_timeout_holds : holds [120; 0] encoded_timeout.
Proof.
  split; [split; [reflexivity |] | by vm_compute].
  split; [apply (bool_decide_unpack _); by vm_compute | unfold is_u64; vm_compute; split; [discriminate | reflexivity]].
Qed.

Lemma attribute_read_over_tcp_witness :
  ∃ s', answer = Some (kEipStatusOk, s') ∧
    os s' = [(5, attribute_reply 1 [1; 2; 3; 4; 5; 6; 7; 8] [120; 0])].
Proof.
  destruct answering_object as (i & c & T & Cpre & Cpost & _).
  destruct (@attribute_read_over_tcp _ recording example_platform quiet_application no_application
    5 None 1 0 example_context (replicate 6 0) timeout_path [] 48
    (mkDevice kOpENerEndianessLittle (g_identity (stack cold_device)) 0xC0A80102 120) answering_device
    0 0 (tcpip_rows false) (flagged kSetable (tcpip_rows false)) i c timeout_row (DInt 2 120)
    encoded_timeout [120; 0])
    as (s' & E & Ho & _).
  - exact timeout_read_received.
  - reflexivity.
  - vm_compute. reflexivity.
  - exact I.
  - vm_compute. reflexivity.
  - exact timeout_path_wf.
  - exact answering_service.
  - exact T.
  - apply tcpip_rows_in.
  - by left.
  - by left.
  - reflexivity.
  - reflexivity.
  - vm_compute. reflexivity.
  - vm_compute. reflexivity.
  - exact encoded_timeout_holds.
  - simpl. lia.
  - exists s'. split; [exact E | exact Ho].
Defined.

Lemma request_answered_on_socket_witness :
  ∃ s', answer = Some (kEipStatusOk, s') ∧ length (os s') = 1%nat.
Proof.
  destruct answering_object as (i & c & T & Cpre & Cpost & _).
  destruct (@request_answered_on_socket _ recording example_platform quiet_application no_application
    5 None 1 0 example_context (replicate 6 0) (request_bytes kGetAttributeSingle timeout_path []) [] 48
    (mkDevice kOpENerEndianessLittle (g_identity (stack cold_device)) 0xC0A80102 120) answering_device
    kEipStatusOkSend (attribute_response timeout_path [] encoded_timeout) [120; 0]
    (after_read timeout_path [] (set_cpf (received_packet null_address kCipItemIdUnconnectedDataItem
       (request_bytes kGetAttributeSingle timeout_path []) [] zero_cpf) (world (device answering_device)))))
    as (s' & E & Ho & _).
  - exact timeout_read_received.
  - reflexivity.
  - vm_compute. reflexivity.
  - exact I.
  - vm_compute. reflexivity.
  - apply (attribute_routed timeout_path [] _ _ _ 0 0 (tcpip_rows false) (flagged kSetable (tcpip_rows false)) i c timeout_row (DInt 2 120)
      encoded_timeout timeout_path_wf).
    + vm_compute. discriminate.
    + exact answering_service.
    + exact T.
    + apply tcpip_rows_in.
    + by left.
    + by left.
    + reflexivity.
    + reflexivity.
    + vm_compute. reflexivity.
    + vm_compute. reflexivity.
  - discriminate.
  - reflexivity.
  - split; [exact encoded_timeout_holds | split; [split; [reflexivity | discriminate] | reflexivity]].
  - vm_compute. reflexivity.
  - vm_compute. reflexivity.
  - vm_compute. discriminate.
  - exists s'. split; [exact E |]. rewrite Ho. reflexivity.
Defined.
